(* ===== verification/_CoqProject ===== *)
-Q . S2P
Prelude.v
CLib.v
FsTypes.v
Block.v
Inode.v
Dir.v
FsInv.v
FsAlloc.v
FsMap.v
FsGrow.v
FsFile.v
FsWrite.v
FsTrunc.v
FsCache.v
Sample.v
DirSpec.v
FsRef.v
Namei.v
Path.v
FsSpec.v
KState.v
Page.v
Virtio.v
VirtioSpec.v
Keyboard.v
Kprintf.v
KprintfSpec.v
UserMem.v
FdTable.v
Process.v
Syscall.v
PageMem.v
PageTable.v
UserSpec.v
HeapSpec.v
Layout.v
Args.v
MemSpec.v
Sched.v
FdInv.v
FdSteps.v
FdFile.v
FdPath.v
FdSpec.v
FdSafety.v
ProcSpec.v
Spawn.v
Wait.v
Mkfs.v
MkfsInv.v
MkfsFile.v
MkfsAdd.v
MkfsTree.v
MkfsImage.v
MkfsHost.v
MkfsSpec.v
MkfsInit.v
ULib.v
ULibSpec.v
ULibTerm.v
UserOs.v
Shell.v
ShellLine.v
ShellRun.v
ShellConfig.v
ShellFormat.v
Snake.v
SnakeSpec.v
Ls.v
LsSpec.v
Ramfb.v
RamfbSpec.v
Asm.v
Threads.v
Trap.v
Boot.v
BootParts.v
BootSpec.v
Programs.v
Graphics.v
