(* ===== verification/Prelude.v ===== *)
(** * dmaOS: a verification development

    dmaOS is a small operating system for 32-bit RISC-V: a kernel with virtio
    drivers, an xv6-style filesystem, two-level page tables, processes and a
    system-call interface; a host tool that builds its disk images; and user
    programs. This library models the C code of the kernel, of the image
    builder, of the user library and of the larger programs as executable Rocq
    functions and proves what they promise.

    ** How C is modelled

    A routine that reads or changes state is a function in the monad [M] of this
    file: state in, [outcome] out. [Ok] is a return, [Panic] the [PANIC] macro
    (for the image builder [exit(1)]), [Fault] an access that C leaves undefined
    (NULL, an index outside an array), [Hang] a loop that outran its fuel. [wp]
    is the weakest precondition over returns and panics; it excludes faults and
    hangs, so a theorem about [wp] also says that the code is free of both.
    Machine integers are [Z] with the wrap-around written out ([u8], [u16],
    [u32], [i32]); bytes are integers below 256; structs are records with their
    byte layout ([encode_dinode], [encode_dirent], [encode_superblock]); a pointer
    into a static table is an index, and NULL is [None].

    ** Parts, and the files that model them

    - C library, kernel/stdlib.c: [CLib].
    - Filesystem, kernel/fs.c and shared/fs_shared.h. Data: [FsTypes]. Code:
      [Block] (read_block, write_block), [Inode] (iget, iput, ilock, balloc,
      bfree, ialloc, bmap, bmap_alloc, readi, writei, itrunc), [Dir] (dirlookup,
      dirlink, namex, namei, fs_init, fs_stat, fs_chdir, listings), [Path]
      (fs_normalize_path). Proofs: [FsInv] (the invariant [wf] and [fsys]),
      [FsAlloc], [FsMap], [FsGrow], [FsFile], [FsWrite], [FsTrunc], [FsCache],
      [DirSpec], [FsRef], [Namei]; [Sample] holds a concrete filesystem that
      instantiates the hypotheses; [FsSpec] states the promises.
    - Kernel state: [KState] (file table, process table, memory, console). Open
      files, kernel/file.c and the descriptor calls of kernel/fs.c: [FdTable];
      proofs [FdInv] (exact reference counts, [kinv]), [FdSteps], [FdFile],
      [FdPath]; promises [FdSpec], and [FdSafety] for sequences of calls.
    - Memory, kernel/page.c and the pointer checks of kernel/kernel.c: [Page],
      [UserMem]; proofs [PageMem], [PageTable] (who holds each page), [UserSpec],
      [HeapSpec]; promises [MemSpec].
    - Processes, kernel/process.c: [Process]; proofs [Layout] and [Args] (what a new
      address space holds), [ProcSpec]; promises [Spawn], [Wait], [Sched].
    - System calls and traps, kernel/kernel.c: [Syscall], with the theorems of the
      components below it.
    - Drivers, kernel/virtio.c: [Virtio]; promises [VirtioSpec] (the block driver is
      the sector interface that [Block] uses, over every device of class [BlkDevice]) and
      [Keyboard].
    - Kernel messages, kprintf of kernel/kernel.c: [Kprintf], [KprintfSpec].
    - Assembly, boot, kentry and user_entry of kernel/kernel.c and switch_context of
      kernel/process.c: [Asm], lists of instructions of a small RISC-V machine with the
      registers, control registers and memory they use. [Threads] are the kernel stacks
      that switch_context goes between, as a step relation; [Trap] puts kentry around the
      handler of [Syscall] and enters new programs through user_entry.
    - Booting, kmain of kernel/kernel.c: [Boot], on a board with the disks, the firmware
      interface and the machine of [Syscall]; proof [BootParts]; promise
      [BootSpec].
    - Image builder, tools/mkfs.c: [Mkfs]; proofs [MkfsInv], [MkfsFile], [MkfsAdd],
      [MkfsTree], [MkfsImage], [MkfsHost]; promises
      [MkfsSpec], and [MkfsInit] for the kernel that boots from its images.
    - User library, user/lib/user.c: [ULib]. A system call of a program is the trap
      handler of [Syscall] run on the registers of the stub, and the memory of the
      program is read through its page table. Promises: [ULibSpec] (files),
      [ULibTerm] (sleeping, the terminal).
    - Shell, user/sh/shell.c: [Shell], over the interface [Os] of [UserOs], system calls
      on values, which has an instance for the kernel. Promises: [ShellLine] (the line
      editor), [ShellRun] (running commands), [ShellConfig] (the configuration file),
      [ShellFormat] (prompt formats).
    - user/bin/ls.c: [Ls], over the same interface; promises [LsSpec]. [UserOs] also has
      the lemmas on strings in 256-byte buffers that it shares with the shell.
    - The framebuffer device, kernel/ramfb.c: [Ramfb], over every fw_cfg device; promises
      [RamfbSpec].
    - The game user/bin/snake.c: [Snake]; [UserOs] has the terminal that displays it,
      [SnakeSpec] the abstract game, the invariant, and whole runs.
    - user/bin/cat.c, hello.c, mkdir.c, rm.c, write.c and memtest.c: [Programs], over the
      calls of the C library and the allocator they use. user/bin/gfxtest.c and the
      platform layer of Doom, user/lib/doomgeneric_dmaos.c: [Graphics].

    ** What the theorems show

    - The inode layer refines a map from inode numbers to byte lists: readi and
      writei read and overwrite such a list, itrunc cuts it and returns its
      blocks, ialloc adds an empty one, and no operation touches another file.
      Directories refine lists of entries, path resolution an abstract function
      across the mount, path normalisation a function on components.
    - Descriptor calls refine the abstract files, with every error tied to the
      condition it stands for. Over every sequence of permitted calls reference
      counts stay exact and the system device is unchanged; not permitted are
      writes and truncations through a descriptor on a directory, which would break
      the tree, seeks that overflow, console reads that would wait, and creating a
      file when the search for an inode would leave the inode area.
    - The pointer checks are exact, and an access behind one cannot fault nor
      leave the pages of the program. Every page has exactly one holder; sbrk,
      spawn and the end of a process keep that and return exactly their pages.
    - spawn builds the address space, arguments and descriptors of a program; the
      scheduler is fair; wait reaps.
    - The drivers implement their interfaces over any device that serves requests,
      and their waits end; kprintf prints reference notations into a bounded log.
    - The image builder writes consistent images that hold the staging directory,
      and the kernel that initialises its filesystem on two of them finds every
      file of the first outside [/home], and every file of the second under it:
      the state the filesystem theorems start from is reached.
    - The kernel boots from two such images, without a panic, and establishes the
      invariants that the other theorems start from. A process that is switched out
      goes on where it stopped, a new process enters its program, and a system call is
      transparent to the registers of the program but for its result.
    - A program that writes a file through the library stubs, seeks and reads gets its
      bytes back, through every layer below; sleeping ends; a read of the terminal that
      does not wait returns exactly the characters that have arrived.
    - The shell's editor keeps within its buffer what was typed and not taken back; a
      command runs the first program of the search path that exists; the configuration
      and the formats are read as a reference reading says.
    - ls prints an aligned table of what it can examine, or its error message; the framebuffer is announced to
      the device wherever it lists the file for it.
    - The game refines an abstract one whose snake is a path of distinct cells, the
      terminal shows exactly that, and the game ends.
    - write appends its words to a file exactly when they fit its buffer, cat prints a
      file, and every frame of gfxtest is the picture that a formula in the frame number and
      the coordinates gives.

    ** Fuel

    Loops whose bound the code fixes run for that bound plus the round that
    leaves the loop: [loop (n + 1)] where every round increases a counter below
    [n], or consumes a byte of a list of length [n]. Path recursion is bounded by
    the length of the path, which every step shortens. The wait for the block
    device takes fuel as an argument, and the theorem says how much is enough for
    a device that answers. Every theorem that a routine returns is proved as
    such: [Hang] is excluded by [wp], never assumed away.

    ** Not modelled

    - In the C model [yield] is the choice of the next process, followed by a parameter
      that stands for what the other processes do until the caller runs again;
      [Threads] shows that switch_context brings the caller back. That the compiled C
      code does what the model of the C code says is a hypothesis of [Trap] and the
      step of [Threads] for code between switches; compilation is not modelled.
    - sbi_call, shutdown and the wfi loop: the firmware call that powers the machine off.
    - The diagnostic kprintf lines of the kernel and the progress lines of the
      image builder do not occur in the components that print them (the command line
      that SYSCALL_SPAWN prints unchecked is read); kprintf is modelled on its own, with
      field widths of any size where C has int.
    - The image builder keeps the path of the directory it is in on the host in 512
      bytes; a staging directory is a value, so longer paths are not cut.
    - The messages of kmain. In the user programs the format strings of printf are
      expanded into what they print; newlib (stdio, malloc, rand) is an interface.
    - The empty sound, music and window routines of user/lib/doomgeneric_dmaos.c.
    - third_party is vendored code. *)

From Stdlib Require Import ZArith Lia.
From stdpp Require Export base numbers list gmap.
From stdpp Require Import strings.

#[export] Set Default Goal Selector "!".
#[global] Open Scope Z_scope.

(** ** Outcomes of kernel code

    A piece of kernel code either returns a value in a new state, stops the
    machine through the [PANIC] macro, performs an access that C leaves
    undefined (a NULL pointer, an index outside an array), or does not finish
    within the number of iterations it was given. *)

Inductive outcome (S A : Type) : Type :=
| Ok (a : A) (s : S)
| Panic (s : S)
| Fault
| Hang.
Arguments Ok {S A} a s.
Arguments Panic {S A} s.
Arguments Fault {S A}.
Arguments Hang {S A}.

Definition M (S A : Type) : Type := S → outcome S A.

#[export] Instance M_ret S : MRet (M S) := λ A a s, Ok a s.
#[export] Instance M_bind S : MBind (M S) := λ A B f m s,
  match m s with
  | Ok a s' => f a s'
  | Panic s' => Panic s'
  | Fault => Fault
  | Hang => Hang
  end.

Definition get {S} : M S S := λ s, Ok s s.
Definition gets {S A} (f : S → A) : M S A := λ s, Ok (f s) s.
Definition modify {S} (f : S → S) : M S unit := λ s, Ok tt (f s).
Definition panic {S A} : M S A := λ s, Panic s.
Definition fault {S A} : M S A := λ _, Fault.
Definition hang {S A} : M S A := λ _, Hang.

(** [expect o] reads through a pointer or an array index. *)
Definition expect {S A} (o : option A) : M S A :=
  match o with Some a => mret a | None => fault end.

(** Running code of one component inside a larger state. *)
Definition zoom {S T A} (view : S → T) (upd : T → S → S) (m : M T A) : M S A :=
  λ s, match m (view s) with
       | Ok a t => Ok a (upd t s)
       | Panic t => Panic (upd t s)
       | Fault => Fault
       | Hang => Hang
       end.

(** A C loop: the body yields [inl x] to go round again with loop variables
    [x], or [inr a] to leave the loop with [a]. *)
Fixpoint loop {S X A} (fuel : nat) (body : X → M S (X + A)) (x : X) : M S A :=
  match fuel with
  | O => hang
  | Datatypes.S n => r ← body x;
      match r with inl x' => loop n body x' | inr a => mret a end
  end.

(** ** Total-correctness assertions

    [wp m Q R s]: run from [s], [m] either returns with [Q] or panics with [R];
    it never faults and never runs out of iterations. *)

Definition wp {S A} (m : M S A) (Q : A → S → Prop) (R : S → Prop) (s : S) : Prop :=
  match m s with
  | Ok a s' => Q a s'
  | Panic s' => R s'
  | Fault | Hang => False
  end.

Section wp.
Context {S : Type}.

Lemma wp_ret {A} (a : A) (Q : A → S → Prop) R s : Q a s → wp (mret a) Q R s.
Proof. done. Qed.

Lemma wp_bind {A B} (m : M S A) (f : A → M S B) Q R s :
  wp m (λ a, wp (f a) Q R) R s → wp (m ≫= f) Q R s.
Proof. unfold wp, mbind, M_bind. by destruct (m s). Qed.

Lemma wp_bind_inv {A B} (m : M S A) (f : A → M S B) Q R s :
  wp (m ≫= f) Q R s → wp m (λ a, wp (f a) Q R) R s.
Proof. unfold wp, mbind, M_bind. by destruct (m s). Qed.

Lemma wp_and {A} (m : M S A) Q Q' R s :
  wp m Q R s → wp m Q' (λ _, True) s → wp m (λ a s', Q a s' ∧ Q' a s') R s.
Proof. unfold wp. by destruct (m s). Qed.

(** The first two of three steps, specified together. *)
Lemma wp_then {A B C} (m : M S A) (f : A → M S B) (g : B → M S C) Q R s :
  wp (m ≫= f) (λ b, wp (g b) Q R) R s → wp (m ≫= λ a, f a ≫= g) Q R s.
Proof.
  unfold wp, mbind, M_bind. destruct (m s) as [a s1| | |]; [|done..]. by destruct (f a s1).
Qed.

Lemma wp_mono {A} (m : M S A) (Q Q' : A → S → Prop) (R R' : S → Prop) s :
  wp m Q R s → (∀ a s', Q a s' → Q' a s') → (∀ s', R s' → R' s') → wp m Q' R' s.
Proof. unfold wp. destruct (m s); eauto. Qed.

Lemma wp_conseq {A} (m : M S A) (Q Q' : A → S → Prop) (R : S → Prop) s :
  wp m Q R s → (∀ a s', Q a s' → Q' a s') → wp m Q' R s.
Proof. eauto using wp_mono. Qed.

Lemma wp_weaken {A} (m : M S A) (Q : A → S → Prop) (R R' : S → Prop) s :
  (∀ s', R' s' → R s') → wp m Q R' s → wp m Q R s.
Proof. intros H Hw. by eapply wp_mono. Qed.

Lemma wp_gets {A} (f : S → A) (Q : A → S → Prop) R s : Q (f s) s → wp (gets f) Q R s.
Proof. done. Qed.

Lemma wp_modify f (Q : unit → S → Prop) R s : Q tt (f s) → wp (modify f) Q R s.
Proof. done. Qed.

Lemma wp_panic {A} (Q : A → S → Prop) (R : S → Prop) s : R s → wp panic Q R s.
Proof. done. Qed.

Lemma wp_expect {A} (o : option A) a (Q : A → S → Prop) R s :
  o = Some a → Q a s → wp (expect o) Q R s.
Proof. by intros ->. Qed.

Lemma wp_ok {A} (m : M S A) a s s' (Q : A → S → Prop) R :
  m s = Ok a s' → Q a s' → wp m Q R s.
Proof. unfold wp. by intros ->. Qed.

(** The loop rule: a measure that every further round decreases. *)
Lemma wp_loop {X A} (I : nat → X → S → Prop) (body : X → M S (X + A)) Q R :
  (∀ k x s, I k x s →
    wp (body x) (λ r s', match r with
    | inl x' => ∃ k', (k' < k)%nat ∧ I k' x' s'
    | inr a => Q a s'
    end) R s) →
  ∀ fuel k x s, I k x s → (k < fuel)%nat → wp (loop fuel body x) Q R s.
Proof.
  intros Hbody. induction fuel as [|fuel IH]; intros k x s HI Hk; [lia|].
  cbn [loop]. apply wp_bind. eapply wp_conseq; [by apply (Hbody k)|].
  intros [x'|a] s'; [|by intros; apply wp_ret].
  intros (k' & Hlt & HI'). apply (IH k'); [done|lia].
Qed.

(** What [wp] says about a run, for stating results without it. *)
Lemma wp_iff {A} (m : M S A) Q R s :
  wp m Q R s ↔ (∃ a s', m s = Ok a s' ∧ Q a s') ∨ (∃ s', m s = Panic s' ∧ R s').
Proof.
  unfold wp. destruct (m s) as [a s'|s'| |]; split.
  all: first [ done | by left; eauto | by right; eauto | idtac ].
  all: intros [(? & ? & E & ?)|(? & E & ?)]; by simplify_eq.
Qed.
End wp.

Lemma wp_zoom {S T A} (view : S → T) (upd : T → S → S) (m : M T A) Q R s :
  wp m (λ a t, Q a (upd t s)) (λ t, R (upd t s)) (view s) → wp (zoom view upd m) Q R s.
Proof. unfold wp, zoom. by destruct (m (view s)). Qed.

(** The state a run ends in, for evaluating examples. *)
Definition state_of {S A} (o : outcome S A) (dflt : S) : S :=
  match o with Ok _ s => s | Panic s => s | _ => dflt end.

Lemma run_ok {S A} (o : outcome S A) (dflt : S) a :
  match o with Ok x _ => x = a | _ => False end → o = Ok a (state_of o dflt).
Proof. destruct o; cbn; try done. by intros ->. Qed.

(** Evaluate binds, returns and pointer reads symbolically. *)
Ltac wp_step :=
  lazymatch goal with
  | |- wp (_ ≫= _) _ _ _ => apply wp_bind
  | |- wp (mret _) _ _ _ => apply wp_ret
  | |- wp (gets _) _ _ _ => apply wp_gets
  | |- wp (modify _) _ _ _ => apply wp_modify
  | |- wp panic _ _ _ => apply wp_panic
  | |- wp (expect _) _ _ _ => eapply wp_expect; [eassumption || reflexivity|]
  end; cbv beta.
Ltac wp_steps := repeat wp_step.

(** Decide a C comparison from the arithmetic in the context. *)
Lemma geb_false a b : a < b → (a >=? b) = false.
Proof. rewrite Z.geb_leb. apply Z.leb_gt. Qed.
Lemma geb_true a b : b ≤ a → (a >=? b) = true.
Proof. rewrite Z.geb_leb. apply Z.leb_le. Qed.
Lemma gtb_false a b : a ≤ b → (a >? b) = false.
Proof. rewrite Z.gtb_ltb. apply Z.ltb_ge. Qed.
Lemma gtb_true a b : b < a → (a >? b) = true.
Proof. rewrite Z.gtb_ltb. apply Z.ltb_lt. Qed.

Ltac zb1 :=
  match goal with
  | |- context [?a <? ?b] =>
      first [rewrite (proj2 (Z.ltb_lt a b)) by lia | rewrite (proj2 (Z.ltb_ge a b)) by lia]
  | |- context [?a <=? ?b] =>
      first [rewrite (proj2 (Z.leb_le a b)) by lia | rewrite (proj2 (Z.leb_gt a b)) by lia]
  | |- context [?a >? ?b] => first [rewrite (gtb_true a b) by lia | rewrite (gtb_false a b) by lia]
  | |- context [?a >=? ?b] => first [rewrite (geb_true a b) by lia | rewrite (geb_false a b) by lia]
  | |- context [?a =? ?b] =>
      first [rewrite (proj2 (Z.eqb_eq a b)) by lia | rewrite (proj2 (Z.eqb_neq a b)) by lia]
  end.
Ltac zb := repeat (zb1; cbn [andb orb negb]).

(** Split on a C comparison, keeping what it says as a hypothesis. *)
Ltac zcase :=
  match goal with
  | |- context [?a <? ?b] => destruct (Z.ltb_spec a b)
  | |- context [?a <=? ?b] => destruct (Z.leb_spec a b)
  | |- context [?a =? ?b] => destruct (Z.eqb_spec a b)
  | |- context [?a >? ?b] => rewrite (Z.gtb_ltb a b); destruct (Z.ltb_spec b a)
  | |- context [?a >=? ?b] => rewrite (Z.geb_leb a b); destruct (Z.leb_spec b a)
  end; cbn [andb orb negb].

(** ** Machine integers *)

Definition u8 (x : Z) : Z := x mod 256.
Definition u16 (x : Z) : Z := x mod 65536.
Definition u32 (x : Z) : Z := x mod 4294967296.
(** A 32-bit pattern read as a signed [int]. *)
Definition s32 (x : Z) : Z := (x + 2147483648) mod 4294967296 - 2147483648.

Lemma u32_small x : 0 ≤ x < 4294967296 → u32 x = x.
Proof. apply Z.mod_small. Qed.

Lemma u32_range x : 0 ≤ u32 x < 4294967296.
Proof. apply Z.mod_pos_bound. lia. Qed.

Lemma u16_range x : 0 ≤ u16 x < 65536.
Proof. apply Z.mod_pos_bound. lia. Qed.

Lemma u32_idemp x : u32 (u32 x) = u32 x.
Proof. apply u32_small, u32_range. Qed.

Lemma s32_small x : -2147483648 ≤ x < 2147483648 → s32 x = x.
Proof. unfold s32. intros. rewrite Z.mod_small; lia. Qed.

Definition is_byte (b : Z) : Prop := 0 ≤ b < 256.
Definition bytes (l : list Z) : Prop := Forall is_byte l.
Definition is_byteb (b : Z) : bool := (0 <=? b) && (b <? 256).

Lemma is_byteb_spec b : is_byteb b = true ↔ is_byte b.
Proof. unfold is_byteb, is_byte. rewrite andb_true_iff, Z.leb_le, Z.ltb_lt. lia. Qed.

(** ** Byte buffers

    [splice l o d] is the buffer [l] after [memcpy(l + o, d, length d)]. *)

Definition splice (l : list Z) (o : nat) (d : list Z) : list Z :=
  take o l ++ d ++ drop (o + length d) l.

(** [sub l o n] is what [memcpy(_, l + o, n)] copies out. *)
Definition sub (l : list Z) (o n : nat) : list Z := take n (drop o l).

Definition zeros (n : nat) : list Z := replicate n 0.

Section buffers.
Implicit Types (l d : list Z) (o n i : nat).
Local Open Scope nat_scope.

Lemma length_splice l o d : o + length d ≤ length l → length (splice l o d) = length l.
Proof. intros. unfold splice. rewrite !length_app, length_take, length_drop. lia. Qed.

Lemma take_take_app {A} n (a b : list A) : take n (take n a ++ b) = take n (a ++ b).
Proof.
  destruct (decide (length a ≤ n)%nat); [by rewrite (take_ge a) by lia|].
  rewrite !take_app_le; [by rewrite take_take, Nat.min_id| |rewrite length_take]; lia.
Qed.

Lemma length_sub l o n : o + n ≤ length l → length (sub l o n) = n.
Proof. intros. unfold sub. rewrite length_take, length_drop. lia. Qed.

Lemma lookup_splice_in l o d i :
  o + length d ≤ length l → o ≤ i < o + length d → splice l o d !! i = d !! (i - o).
Proof.
  intros. unfold splice. rewrite lookup_app_r by (rewrite length_take; lia).
  rewrite length_take, lookup_app_l by lia. f_equal. lia.
Qed.

Lemma lookup_splice_out l o d i :
  o + length d ≤ length l → i < o ∨ o + length d ≤ i → splice l o d !! i = l !! i.
Proof.
  intros ? [?|?]; unfold splice.
  - rewrite lookup_app_l by (rewrite length_take; lia). apply lookup_take_lt. lia.
  - rewrite !lookup_app_r by (rewrite ?length_take; lia).
    rewrite lookup_drop, length_take. f_equal. lia.
Qed.

Lemma lookup_sub l o n i : i < n → sub l o n !! i = l !! (o + i).
Proof. intros. unfold sub. by rewrite lookup_take_lt, lookup_drop by lia. Qed.

Lemma sub_splice_eq l o d :
  o + length d ≤ length l → sub (splice l o d) o (length d) = d.
Proof.
  intros. unfold sub, splice.
  rewrite drop_app_ge, length_take by (rewrite length_take; lia).
  replace (o - o `min` length l) with 0 by lia. rewrite drop_0.
  apply take_app_length.
Qed.

Lemma sub_splice_ne l o d o' n :
  o + length d ≤ length l → o' + n ≤ o ∨ o + length d ≤ o' →
  sub (splice l o d) o' n = sub l o' n.
Proof.
  intros Hl Ho. apply list_eq. intros i.
  destruct (decide (i < n)) as [Hi|Hi].
  - rewrite !lookup_sub by done. apply lookup_splice_out; [done|lia].
  - rewrite !lookup_ge_None_2; [done|unfold sub..];
      rewrite length_take, length_drop; lia.
Qed.

Lemma splice_sub l o n : o + n ≤ length l → splice l o (sub l o n) = l.
Proof.
  intros. unfold splice, sub. rewrite length_take, length_drop.
  rewrite Nat.min_l by lia. rewrite <-drop_drop, take_drop, take_drop. done.
Qed.

Lemma bytes_splice l o d : bytes l → bytes d → bytes (splice l o d).
Proof.
  intros Hl Hd. unfold splice. apply Forall_app; split; [by apply Forall_take|].
  apply Forall_app; split; [done|by apply Forall_drop].
Qed.

Lemma bytes_sub l o n : bytes l → bytes (sub l o n).
Proof. intros. unfold sub. by apply Forall_take, Forall_drop. Qed.

Lemma bytes_zeros n : bytes (zeros n).
Proof. apply Forall_replicate. unfold is_byte. lia. Qed.

Lemma length_zeros n : length (zeros n) = n.
Proof. apply length_replicate. Qed.

Lemma sub_zeros m o n : o + n ≤ m → sub (zeros m) o n = zeros n.
Proof.
  intros. unfold sub, zeros. rewrite drop_replicate, take_replicate. f_equal. lia.
Qed.
End buffers.

(** ** Little-endian words inside buffers *)

Fixpoint le_bytes (n : nat) (x : Z) : list Z :=
  match n with
  | O => []
  | S n => x mod 256 :: le_bytes n (x / 256)
  end.

Fixpoint le_val (l : list Z) : Z :=
  match l with
  | [] => 0
  | b :: l => b + 256 * le_val l
  end.

Lemma length_le_bytes n x : length (le_bytes n x) = n.
Proof. revert x. induction n; intros; simpl; auto. Qed.

Lemma bytes_le_bytes n x : bytes (le_bytes n x).
Proof.
  revert x. induction n as [|n IH]; intros x; simpl; constructor; [|apply IH].
  apply Z.mod_pos_bound. lia.
Qed.

Lemma le_val_le_bytes n x : le_val (le_bytes n x) = x mod 256 ^ Z.of_nat n.
Proof.
  revert x. induction n as [|n IH]; intros x; cbn [le_bytes le_val].
  - by rewrite Z.mod_1_r.
  - rewrite IH, Nat2Z.inj_succ, Z.pow_succ_r by lia.
    by rewrite Z.rem_mul_r by lia.
Qed.

Lemma le_val_range l : bytes l → 0 ≤ le_val l < 256 ^ Z.of_nat (length l).
Proof.
  induction 1 as [|b l Hb Hl IH]; [simpl; lia|].
  cbn [le_val length]. rewrite Nat2Z.inj_succ, Z.pow_succ_r by lia.
  unfold is_byte in Hb. lia.
Qed.

Lemma le_bytes_le_val l : bytes l → le_bytes (length l) (le_val l) = l.
Proof.
  induction 1 as [|b l Hb Hl IH]; [done|]. cbn [le_val length le_bytes].
  unfold is_byte in Hb. f_equal.
  - rewrite Z.mul_comm, Z.mod_add, Z.mod_small by lia. done.
  - rewrite Z.mul_comm, Z.div_add, Z.div_small by lia. by rewrite Z.add_0_l.
Qed.

Lemma le_val_zeros n : le_val (zeros n) = 0.
Proof. induction n as [|n IH]; [done|]. cbn. unfold zeros in IH. rewrite IH. done. Qed.

(** [buf] read as an array of [uint32_t]: element [i], and its assignment. *)
Definition word_at (buf : list Z) (i : Z) : Z := le_val (sub buf (4 * Z.to_nat i) 4).
Definition set_word (buf : list Z) (i v : Z) : list Z :=
  splice buf (4 * Z.to_nat i) (le_bytes 4 v).

Section words.
Implicit Types buf : list Z.

Lemma word_at_range buf i : bytes buf → 0 ≤ word_at buf i < 4294967296.
Proof.
  intros Hb. unfold word_at.
  pose proof (le_val_range _ (bytes_sub _ (4 * Z.to_nat i) 4 Hb)) as [H1 H2].
  split; [done|]. eapply Z.lt_le_trans; [done|].
  assert (length (sub buf (4 * Z.to_nat i) 4) ≤ 4)%nat
    by (unfold sub; rewrite length_take; lia).
  change 4294967296 with (256 ^ 4). apply Z.pow_le_mono_r; lia.
Qed.

Lemma length_set_word buf i v :
  0 ≤ i → (4 * Z.to_nat i + 4 ≤ length buf)%nat → length (set_word buf i v) = length buf.
Proof. intros. unfold set_word. rewrite length_splice; [done|]. rewrite length_le_bytes. lia. Qed.

Lemma bytes_set_word buf i v : bytes buf → bytes (set_word buf i v).
Proof. intros. apply bytes_splice; [done|apply bytes_le_bytes]. Qed.

Lemma word_at_set_word_eq buf i v :
  0 ≤ i → (4 * Z.to_nat i + 4 ≤ length buf)%nat → 0 ≤ v < 4294967296 →
  word_at (set_word buf i v) i = v.
Proof.
  intros Hi Hlen Hv. unfold word_at, set_word.
  change 4%nat with (length (le_bytes 4 v)) at 3.
  rewrite sub_splice_eq by (rewrite length_le_bytes; lia).
  rewrite le_val_le_bytes. by apply Z.mod_small.
Qed.

Lemma word_at_set_word_ne buf i j v :
  0 ≤ i → 0 ≤ j → i ≠ j → (4 * Z.to_nat i + 4 ≤ length buf)%nat →
  word_at (set_word buf i v) j = word_at buf j.
Proof.
  intros. unfold word_at, set_word. rewrite sub_splice_ne; [done|..];
    rewrite length_le_bytes; lia.
Qed.

Lemma word_at_zeros n i : (4 * Z.to_nat i + 4 ≤ n)%nat → word_at (zeros n) i = 0.
Proof. intros. unfold word_at. rewrite sub_zeros by done. apply le_val_zeros. Qed.
End words.

Create HintDb kernel.
Create Rewrite HintDb kernel.
#[export] Hint Resolve bytes_splice bytes_sub bytes_zeros bytes_le_bytes bytes_set_word : kernel.
#[export] Hint Resolve u32_range u16_range : kernel.
#[export] Hint Rewrite length_zeros length_le_bytes : kernel.

(** ** Array access through a C index *)

Definition zlookup {A} (l : list A) (i : Z) : option A :=
  if 0 <=? i then l !! Z.to_nat i else None.

Definition zupdate {A} (i : Z) (f : A → A) (l : list A) : list A := alter f (Z.to_nat i) l.

Lemma alter_alter {A} (f g : A → A) (i : nat) (l : list A) :
  alter f i (alter g i l) = alter (λ x, f (g x)) i l.
Proof. revert i. induction l as [|x l IH]; intros [|i]; cbn; [done..|]. f_equal. apply IH. Qed.

Lemma zlookup_lt {A} (l : list A) i x : zlookup l i = Some x → 0 ≤ i < Z.of_nat (length l).
Proof.
  unfold zlookup. destruct (Z.leb_spec 0 i); [|done]. intros Hx%lookup_lt_Some. lia.
Qed.

Lemma zlookup_nat {A} (l : list A) i : 0 ≤ i → zlookup l i = l !! Z.to_nat i.
Proof. intros. unfold zlookup. by zb. Qed.
