(* ===== verification/CLib.v ===== *)
(** * The freestanding C library of kernel/stdlib.c

    A pointer into an object is the list of bytes from that address to the end
    of the object; reading past the end is [None]. The copying functions work on
    one memory, so that source and destination may overlap. *)

From S2P Require Import Prelude.

(** ** Strings *)

Fixpoint strcmp (s1 s2 : list Z) : option Z :=
  match s1, s2 with
  | a :: s1', b :: s2' =>
      if negb (a =? 0) && negb (b =? 0) then
        if negb (a =? b) then Some (a - b) else strcmp s1' s2'
      else Some (a - b)
  | _, _ => None
  end.

Fixpoint strncmp (s1 s2 : list Z) (n : nat) : option Z :=
  match n with
  | O => Some 0
  | S n' =>
      match s1, s2 with
      | a :: s1', b :: s2' =>
          if negb (a =? 0) && (a =? b) then strncmp s1' s2' n' else Some (a - b)
      | _, _ => None
      end
  end.

Fixpoint strlen (s : list Z) : option nat :=
  match s with
  | [] => None
  | a :: s' => if a =? 0 then Some 0%nat else S <$> strlen s'
  end.

(** The [n] bytes [strncpy] stores. *)
Fixpoint strncpy (src : list Z) (n : nat) : option (list Z) :=
  match n with
  | O => Some []
  | S n' =>
      match src with
      | [] => None
      | a :: src' => if a =? 0 then Some (zeros (S n')) else cons a <$> strncpy src' n'
      end
  end.

(** The bytes appended by [strncat], terminator included. *)
Fixpoint strncat_tail (src : list Z) (n : nat) : option (list Z) :=
  match n with
  | O => Some [0]
  | S n' =>
      match src with
      | [] => None
      | a :: src' => if a =? 0 then Some [0] else cons a <$> strncat_tail src' n'
      end
  end.

(** [dst] is the whole destination object. *)
Definition strncat (dst src : list Z) (n : nat) : option (list Z) :=
  k ← strlen dst;
  t ← strncat_tail src n;
  if (k + length t <=? length dst)%nat then Some (splice dst k t) else None.

(** A returned pointer is the suffix it points at; NULL is [Some None]. *)
Fixpoint strchr (s : list Z) (c : Z) : option (option (list Z)) :=
  match s with
  | [] => None
  | a :: s' =>
      if a =? 0 then Some (if c =? 0 then Some s else None)
      else if a =? u8 c then Some (Some s) else strchr s' c
  end.

Fixpoint strstr_scan (haystack needle : list Z) (len : nat) : option (option (list Z)) :=
  match haystack with
  | [] => None
  | a :: h' =>
      if a =? 0 then Some None
      else r ← strncmp haystack needle len;
           if r =? 0 then Some (Some haystack) else strstr_scan h' needle len
  end.

Definition strstr (haystack needle : list Z) : option (option (list Z)) :=
  len ← strlen needle;
  if (len =? 0)%nat then Some (Some haystack) else strstr_scan haystack needle len.

Fixpoint memcmp (s1 s2 : list Z) (n : nat) : option Z :=
  match n with
  | O => Some 0
  | S n' =>
      match s1, s2 with
      | a :: s1', b :: s2' => if negb (a =? b) then Some (a - b) else memcmp s1' s2' n'
      | _, _ => None
      end
  end.

(** ** Memory *)

(** [*d = *s] inside one memory. *)
Definition copy_byte (mem : list Z) (d s : nat) : option (list Z) :=
  x ← mem !! s; if (d <? length mem)%nat then Some (<[d := x]> mem) else None.

(** [while (n--) *d++ = *s++]. *)
Fixpoint copy_up (mem : list Z) (d s n : nat) : option (list Z) :=
  match n with
  | O => Some mem
  | S n' => mem' ← copy_byte mem d s; copy_up mem' (S d) (S s) n'
  end.

(** [while (n--) *--d = *--s], with [d] and [s] one past the last byte. *)
Fixpoint copy_down (mem : list Z) (d s n : nat) : option (list Z) :=
  match n with
  | O => Some mem
  | S n' => mem' ← copy_byte mem (d - 1) (s - 1); copy_down mem' (d - 1) (s - 1) n'
  end.

Definition memcpy (mem : list Z) (d s n : nat) : option (list Z) := copy_up mem d s n.

Definition memmove (mem : list Z) (d s n : nat) : option (list Z) :=
  if (d <? s)%nat then copy_up mem d s n
  else if (s <? d)%nat then copy_down mem (d + n) (s + n) n
  else Some mem.

Fixpoint memset (mem : list Z) (d : nat) (c : Z) (n : nat) : option (list Z) :=
  match n with
  | O => Some mem
  | S n' => if (d <? length mem)%nat then memset (<[d := u8 c]> mem) (S d) c n' else None
  end.

(** ** What they compute *)

(** A C string: characters, terminator, anything. *)
Definition nonzero (s : list Z) : Prop := Forall (λ c, 0 < c < 256) s.

Lemma strlen_spec s rest : nonzero s → strlen (s ++ 0 :: rest) = Some (length s).
Proof. induction 1 as [|a s Ha Hs IH]; [done|]. cbn. zb. by rewrite IH. Qed.

Lemma strncpy_spec s rest n :
  nonzero s → strncpy (s ++ 0 :: rest) n = Some (take n (s ++ zeros n)).
Proof.
  intros Hs. revert n. induction Hs as [|a s Ha Hs IH]; intros [|n]; cbn; try done.
  - by rewrite firstn_all2 by (rewrite length_replicate; lia).
  - zb. rewrite IH. cbn. do 2 f_equal. apply list_eq. intros i.
    destruct (decide (i < n)%nat); [|by rewrite !lookup_take_ge by lia].
    rewrite !lookup_take_lt by lia. destruct (decide (i < length s)%nat).
    + by rewrite !lookup_app_l by lia.
    + rewrite !lookup_app_r by lia. unfold zeros. change (0 :: replicate n 0) with (replicate (S n) 0).
      rewrite !lookup_replicate_2 by lia. done.
Qed.

Lemma strncat_tail_spec s rest n :
  nonzero s → strncat_tail (s ++ 0 :: rest) n = Some (take n s ++ [0]).
Proof.
  intros Hs. revert n. induction Hs as [|a s Ha Hs IH]; intros [|n]; cbn; try done. zb. by rewrite IH.
Qed.

Lemma strncat_spec s rest t trest n :
  nonzero s → nonzero t → (length (take n t) ≤ length rest)%nat →
  strncat (s ++ 0 :: rest) (t ++ 0 :: trest) n =
  Some (s ++ take n t ++ 0 :: drop (length (take n t)) rest).
Proof.
  intros Hs Ht Hfit. unfold strncat. rewrite strlen_spec by done. cbn [mbind option_bind].
  rewrite strncat_tail_spec by done. cbn [mbind option_bind].
  rewrite (proj2 (Nat.leb_le _ _)) by (rewrite !length_app; cbn; lia). f_equal.
  unfold splice. rewrite take_app_length. f_equal. rewrite <-app_assoc. cbn. do 2 f_equal.
  rewrite length_app. cbn. rewrite drop_app_ge by lia.
  replace (length s + (length (take n t) + 1) - length s)%nat with (S (length (take n t))) by lia. done.
Qed.

(** Comparing strings decides their equality. *)
Lemma strcmp_spec s t rs rt :
  nonzero s → nonzero t →
  ∃ r, strcmp (s ++ 0 :: rs) (t ++ 0 :: rt) = Some r ∧ (r = 0 ↔ s = t).
Proof.
  intros Hs. revert t. induction Hs as [|a s Ha Hs IH]; intros t Ht.
  - destruct Ht as [|b t Hb Ht]; cbn; [by exists 0|]. zb. exists (0 - b). split; [done|].
    split; [lia|done].
  - destruct Ht as [|b t Hb Ht]; cbn.
    + zb. exists (a - 0). split; [done|]. split; [lia|done].
    + zb. destruct (Z.eqb_spec a b) as [->|Hne]; cbn.
      * destruct (IH t Ht) as (r & -> & Hr). exists r. split; [done|]. rewrite Hr.
        split; [by intros ->|by intros [=]].
      * exists (a - b). split; [done|]. split; [lia|]. by intros [=].
Qed.

Lemma strncmp_spec s t rs rt n :
  nonzero s → nonzero t →
  ∃ r, strncmp (s ++ 0 :: rs) (t ++ 0 :: rt) n = Some r ∧ (r = 0 ↔ take n s = take n t).
Proof.
  intros Hs. revert t n. induction Hs as [|a s Ha Hs IH]; intros t [|n] Ht; cbn.
  - by exists 0.
  - destruct Ht as [|b t Hb Ht]; cbn; [by exists 0|]. exists (0 - b). split; [done|]. split; [lia|done].
  - by exists 0.
  - destruct Ht as [|b t Hb Ht]; cbn.
    + zb. exists (a - 0). split; [done|]. split; [lia|done].
    + zb. destruct (Z.eqb_spec a b) as [->|Hne]; cbn.
      * destruct (IH t n Ht) as (r & -> & Hr). exists r. split; [done|]. rewrite Hr.
        split; [by intros ->|by intros [=]].
      * exists (a - b). split; [done|]. split; [lia|]. by intros [=].
Qed.

Lemma copy_byte_spec mem d s :
  (d < length mem)%nat → (s < length mem)%nat →
  ∃ mem', copy_byte mem d s = Some mem' ∧ length mem' = length mem ∧
    ∀ i, mem' !! i = if decide (i = d) then mem !! s else mem !! i.
Proof.
  intros Hd Hs. destruct (lookup_lt_is_Some_2 mem s Hs) as [x Hx]. unfold copy_byte. rewrite Hx. cbn [mbind option_bind].
  rewrite (proj2 (Nat.ltb_lt _ _)) by done. eexists. split; [done|]. split; [apply length_insert|].
  intros i. case_decide as E; [subst; by rewrite list_lookup_insert_eq|]. by rewrite list_lookup_insert_ne.
Qed.

Lemma copy_up_spec mem d s n :
  (d + n ≤ length mem)%nat → (s + n ≤ length mem)%nat → (d ≤ s ∨ s + n ≤ d)%nat →
  ∃ mem', copy_up mem d s n = Some mem' ∧ length mem' = length mem ∧
    ∀ i, mem' !! i = if decide (d ≤ i < d + n)%nat then mem !! (s + (i - d))%nat else mem !! i.
Proof.
  revert mem d s. induction n as [|n IH]; intros mem d s Hd Hs Ho.
  - exists mem. split; [done|]. split; [done|]. intros i. by rewrite decide_False by lia.
  - destruct (copy_byte_spec mem d s) as (m1 & E1 & L1 & H1); [lia..|]. cbn. rewrite E1. cbn.
    destruct (IH m1 (S d) (S s)) as (m2 & E2 & L2 & H2); [lia..|]. exists m2.
    split; [done|]. split; [lia|]. intros i. rewrite H2, !H1. repeat case_decide; try lia; try done.
    all: f_equal; lia.
Qed.

Lemma copy_down_spec mem d s n :
  (d + n ≤ length mem)%nat → (s + n ≤ length mem)%nat → (s ≤ d)%nat →
  ∃ mem', copy_down mem (d + n) (s + n) n = Some mem' ∧ length mem' = length mem ∧
    ∀ i, mem' !! i = if decide (d ≤ i < d + n)%nat then mem !! (s + (i - d))%nat else mem !! i.
Proof.
  revert mem. induction n as [|n IH]; intros mem Hd Hs Ho.
  - exists mem. split; [done|]. split; [done|]. intros i. by rewrite decide_False by lia.
  - destruct (copy_byte_spec mem (d + n) (s + n)) as (m1 & E1 & L1 & H1); [lia..|]. cbn.
    replace (d + S n - 1)%nat with (d + n)%nat by lia. replace (s + S n - 1)%nat with (s + n)%nat by lia.
    rewrite E1. cbn. destruct (IH m1) as (m2 & E2 & L2 & H2); [lia..|]. exists m2.
    split; [done|]. split; [lia|]. intros i. rewrite H2, !H1. repeat case_decide; try lia; try done.
    f_equal. lia.
Qed.

(** The bytes of a copy, as a buffer operation. *)
Lemma copied_splice (mem mem' : list Z) d s n :
  (d + n ≤ length mem)%nat → (s + n ≤ length mem)%nat → length mem' = length mem →
  (∀ i, mem' !! i = if decide (d ≤ i < d + n)%nat then mem !! (s + (i - d))%nat else mem !! i) →
  mem' = splice mem d (sub mem s n).
Proof.
  intros Hd Hs Hl Hi. assert (Hn : length (sub mem s n) = n) by (apply length_sub; lia).
  apply list_eq. intros i. rewrite Hi. case_decide.
  - rewrite lookup_splice_in, lookup_sub by lia. done.
  - rewrite lookup_splice_out by lia. done.
Qed.

(** [memmove] copies the source as it was before the call, whatever the overlap. *)
Theorem memmove_correct mem d s n :
  (d + n ≤ length mem)%nat → (s + n ≤ length mem)%nat →
  memmove mem d s n = Some (splice mem d (sub mem s n)).
Proof.
  intros Hd Hs. unfold memmove.
  destruct (Nat.ltb_spec d s); [|destruct (Nat.ltb_spec s d)].
  - destruct (copy_up_spec mem d s n) as (m & -> & Hl & Hi); [lia..|]. f_equal. by apply copied_splice.
  - destruct (copy_down_spec mem d s n) as (m & -> & Hl & Hi); [lia..|]. f_equal. by apply copied_splice.
  - assert (d = s) as -> by lia. by rewrite splice_sub.
Qed.

(** An overlapping move to the right, byte by byte. *)
Lemma memmove_correct_witness : memmove [1; 2; 3; 4; 5] 1 0 3 = Some [1; 1; 2; 3; 5].
Proof. exact (memmove_correct [1; 2; 3; 4; 5] 1 0 3 ltac:(cbn; lia) ltac:(cbn; lia)). Defined.
