(* ===== verification/FsTypes.v ===== *)
(** * On-disk and in-memory structures of the filesystem

    The constants and structs of shared/fs_shared.h, kernel/fs.h and kernel/fs.c
    with their byte layouts (little-endian RISC-V, natural alignment), and the
    state the filesystem code works on. *)

From S2P Require Import Prelude.

(** ** Constants *)

Definition SECTOR_SIZE : Z := 512.
Definition BSIZE : Z := 1024.
Definition SECTORS_PER_BLOCK : Z := 2.
Definition XV6_FS_MAGIC : Z := 0x10203040.
Definition NDIRECT : Z := 12.
Definition NINDIRECT : Z := BSIZE / 4.
Definition NDINDIRECT : Z := NINDIRECT * NINDIRECT.
Definition MAXFILE : Z := NDIRECT + NINDIRECT + NDINDIRECT.
Definition DINODE_SIZE : Z := 128.
Definition IPB : Z := BSIZE / DINODE_SIZE.
Definition MAX_DIR_ENTRIES : Z := 64.
Definition DIRSIZ : Z := 30.
Definition DIRENT_SIZE : Z := 32.
Definition NINODE : nat := 50.
Definition MAX_PATH : nat := 256.
Definition MAX_FILENAME : nat := 128.
Definition MAX_PATH_DEPTH : nat := 32.

(** Replace the size constants by their values, for arithmetic. *)
Ltac consts :=
  change MAXFILE with 65804 in *; change NDINDIRECT with 65536 in *;
  change NINDIRECT with 256 in *; change NDIRECT with 12 in *; change IPB with 8 in *;
  change BSIZE with 1024 in *; change DINODE_SIZE with 128 in *;
  change DIRENT_SIZE with 32 in *; change SECTORS_PER_BLOCK with 2 in *.

Definition FT_UNUSED : Z := 0.
Definition FT_DIRECTORY : Z := 1.
Definition FT_FILE : Z := 2.

Definition ERR_NOT_PERMITTED : Z := -1.
Definition ERR_NOT_FOUND : Z := -2.
Definition ERR_NO_MEMORY : Z := -4.
Definition ERR_IO : Z := -5.
Definition ERR_BAD_FILE : Z := -9.
Definition ERR_PERMISSION_DENIED : Z := -13.
Definition ERR_ALREADY_EXISTS : Z := -17.
Definition ERR_NOT_A_DIRECTORY : Z := -20.
Definition ERR_IS_A_DIRECTORY : Z := -21.
Definition ERR_INVALID_ARGUMENT : Z := -22.
Definition ERR_NO_TTY : Z := -25.
Definition ERR_NO_SPACE : Z := -28.
Definition ERR_DIRECTORY_NOT_EMPTY : Z := -39.

Definition FILECTRL_READONLY : Z := 0x001.
Definition FILECTRL_WRITEONLY : Z := 0x002.
Definition FILECTRL_READWRITE : Z := Z.lor FILECTRL_READONLY FILECTRL_WRITEONLY.
Definition FILECTRL_CREATE : Z := 0x004.
Definition FILECTRL_TRUNCATE : Z := 0x008.
Definition FILECTRL_APPEND : Z := 0x010.

(** [flags & mask] as a condition. *)
Definition has_flag (flags mask : Z) : bool := negb (Z.land flags mask =? 0).

(** ** Structs *)

Record superblock := Superblock {
  magic : Z;
  fs_size : Z;
  nblocks : Z;
  ninodes : Z;
  inodestart : Z;
  bmapstart : Z
}.

(** [struct dinode] is 128-byte aligned: 68 bytes of fields, 60 of padding,
    which whole-struct [memcpy]s carry along. *)
Record dinode := Dinode {
  d_type : Z;
  major : Z;
  minor : Z;
  nlink : Z;
  size : Z;
  addrs : list Z;
  d_pad : list Z
}.

Record inode := Inode {
  dev : Z;
  inum : Z;
  ref : Z;
  valid : Z;
  din : dinode
}.

Record mount := Mount { parent_dev : Z; parent_inum : Z; child_dev : Z }.

Record fsdirent := Dirent { de_inum : Z; de_name : list Z }.

(** A block device as the FS sees it: a capacity and the sectors written so
    far; a sector never written reads as zeros. *)
Record disk := Disk { sectors : Z; sec : gmap Z (list Z) }.

(** The statics of fs.c, and the devices below them. *)
Record fs := Fs {
  devs : list disk;
  sb : list superblock;
  inode_table : list inode;
  mounts : list mount;
  num_mounts : Z
}.

Definition dinode_zero : dinode := Dinode 0 0 0 0 0 (zeros 14) (zeros 60).
Definition inode_zero : inode := Inode 0 0 0 0 dinode_zero.
Definition superblock_zero : superblock := Superblock 0 0 0 0 0 0.
Definition mount_zero : mount := Mount 0 0 0.
Definition disk_empty : disk := Disk 0 ∅.

#[export] Instance superblock_inhabited : Inhabited superblock := populate superblock_zero.
#[export] Instance disk_inhabited : Inhabited disk := populate disk_empty.
#[export] Instance inode_inhabited : Inhabited inode := populate inode_zero.
#[export] Instance mount_inhabited : Inhabited mount := populate mount_zero.

#[export] Instance dinode_eq_dec : EqDecision dinode.
Proof. solve_decision. Defined.
#[export] Instance inode_eq_dec : EqDecision inode.
Proof. solve_decision. Defined.

Definition set_devs (f : list disk → list disk) (s : fs) : fs :=
  Fs (f (devs s)) (sb s) (inode_table s) (mounts s) (num_mounts s).
Definition set_sb (f : list superblock → list superblock) (s : fs) : fs :=
  Fs (devs s) (f (sb s)) (inode_table s) (mounts s) (num_mounts s).
Definition set_inode_table (f : list inode → list inode) (s : fs) : fs :=
  Fs (devs s) (sb s) (f (inode_table s)) (mounts s) (num_mounts s).
Definition set_mounts (f : list mount → list mount) (n : Z) (s : fs) : fs :=
  Fs (devs s) (sb s) (inode_table s) (f (mounts s)) n.

Definition set_ref (r : Z) (ip : inode) : inode := Inode (dev ip) (inum ip) r (valid ip) (din ip).
Definition set_din (d : dinode) (ip : inode) : inode :=
  Inode (dev ip) (inum ip) (ref ip) (valid ip) d.
Definition set_addr (i a : Z) (d : dinode) : dinode :=
  Dinode (d_type d) (major d) (minor d) (nlink d) (size d) (<[Z.to_nat i := a]> (addrs d)) (d_pad d).
Definition set_size (n : Z) (d : dinode) : dinode :=
  Dinode (d_type d) (major d) (minor d) (nlink d) n (addrs d) (d_pad d).
Definition set_type (t : Z) (d : dinode) : dinode :=
  Dinode t (major d) (minor d) (nlink d) (size d) (addrs d) (d_pad d).

(** ** Layouts *)

Fixpoint words (n : nat) (b : list Z) : list Z :=
  match n with
  | O => []
  | S n => le_val (take 4 b) :: words n (drop 4 b)
  end.

Fixpoint unwords (ws : list Z) : list Z :=
  match ws with
  | [] => []
  | w :: ws => le_bytes 4 w ++ unwords ws
  end.

Definition decode_superblock (b : list Z) : superblock :=
  Superblock (word_at b 0) (word_at b 1) (word_at b 2) (word_at b 3) (word_at b 4) (word_at b 5).
Definition encode_superblock (x : superblock) : list Z :=
  unwords [magic x; fs_size x; nblocks x; ninodes x; inodestart x; bmapstart x].

Definition decode_dinode (b : list Z) : dinode :=
  Dinode (le_val (sub b 0 2)) (le_val (sub b 2 2)) (le_val (sub b 4 2)) (le_val (sub b 6 2))
    (le_val (sub b 8 4)) (words 14 (sub b 12 56)) (sub b 68 60).
Definition encode_dinode (d : dinode) : list Z :=
  le_bytes 2 (d_type d) ++ le_bytes 2 (major d) ++ le_bytes 2 (minor d) ++ le_bytes 2 (nlink d)
  ++ le_bytes 4 (size d) ++ unwords (addrs d) ++ d_pad d.

Definition decode_dirent (b : list Z) : fsdirent := Dirent (le_val (sub b 0 2)) (sub b 2 30).
Definition encode_dirent (e : fsdirent) : list Z := le_bytes 2 (de_inum e) ++ de_name e.

(** Values that fit their struct fields. *)
Definition dinode_ok (d : dinode) : Prop :=
  0 ≤ d_type d < 65536 ∧ 0 ≤ major d < 65536 ∧ 0 ≤ minor d < 65536 ∧ 0 ≤ nlink d < 65536 ∧
  0 ≤ size d < 4294967296 ∧ length (addrs d) = 14%nat ∧
  Forall (λ a, 0 ≤ a < 4294967296) (addrs d) ∧ length (d_pad d) = 60%nat ∧ bytes (d_pad d).

Definition dirent_ok (e : fsdirent) : Prop :=
  0 ≤ de_inum e < 65536 ∧ length (de_name e) = 30%nat ∧ bytes (de_name e).

Lemma length_unwords ws : length (unwords ws) = (4 * length ws)%nat.
Proof. induction ws as [|w ws IH]; [done|]. simpl. lia. Qed.

Lemma bytes_unwords ws : bytes (unwords ws).
Proof.
  induction ws as [|w ws IH]; [constructor|].
  apply Forall_app; split; [apply bytes_le_bytes|done].
Qed.

Lemma length_words n b : length (words n b) = n.
Proof. revert b. induction n; intros; simpl; auto. Qed.

Lemma words_unwords ws :
  Forall (λ a, 0 ≤ a < 4294967296) ws → words (length ws) (unwords ws) = ws.
Proof.
  induction 1 as [|w ws Hw Hws IH]; [done|]. cbn [length words unwords].
  rewrite take_app_length' by by rewrite length_le_bytes.
  rewrite drop_app_length' by by rewrite length_le_bytes.
  rewrite IH, le_val_le_bytes. f_equal. by apply Z.mod_small.
Qed.

Lemma unwords_words n b : bytes b → length b = (4 * n)%nat → unwords (words n b) = b.
Proof.
  revert b. induction n as [|n IH]; intros b Hb Hlen.
  - by destruct b.
  - cbn [words unwords]. rewrite IH by (by apply Forall_drop || (rewrite length_drop; lia)).
    rewrite <-(take_drop 4 b) at 3. f_equal.
    rewrite <-(le_bytes_le_val (take 4 b)) at 2 by by apply Forall_take.
    rewrite length_take, Nat.min_l by lia. done.
Qed.

Lemma words_range n b : bytes b → Forall (λ a, 0 ≤ a < 4294967296) (words n b).
Proof.
  revert b. induction n as [|n IH]; intros b Hb; constructor; [|by apply IH, Forall_drop].
  apply (word_at_range b 0 Hb).
Qed.

Lemma words_lookup n b (i : nat) : (i < n)%nat → words n b !! i = Some (word_at b (Z.of_nat i)).
Proof.
  revert b i. induction n as [|n IH]; intros b i Hi; [lia|].
  destruct i as [|i]; cbn [words lookup list_lookup].
  - unfold word_at, sub. done.
  - rewrite IH by lia. unfold word_at, sub. rewrite drop_drop. do 4 f_equal. lia.
Qed.

Lemma length_encode_dinode d : dinode_ok d → length (encode_dinode d) = 128%nat.
Proof.
  intros (_ & _ & _ & _ & _ & Ha & _ & Hp & _). unfold encode_dinode.
  rewrite !length_app, !length_le_bytes, length_unwords, Ha, Hp. done.
Qed.

Lemma bytes_encode_dinode d : dinode_ok d → bytes (encode_dinode d).
Proof.
  intros (_ & _ & _ & _ & _ & _ & _ & _ & Hp). unfold encode_dinode, bytes.
  rewrite !Forall_app. repeat split; try apply bytes_le_bytes; [apply bytes_unwords|done].
Qed.

(** Cutting a concatenation of fields back into its fields. *)
Lemma sub_app_here (a b : list Z) n : length a = n → sub (a ++ b) 0 n = a.
Proof. intros. unfold sub. rewrite drop_0. by apply take_app_length'. Qed.

Lemma sub_app_skip (a b : list Z) k o n : length a = k → (k ≤ o)%nat → sub (a ++ b) o n = sub b (o - k) n.
Proof. intros <- H. unfold sub. by rewrite drop_app_ge. Qed.

Ltac fields :=
  repeat match goal with
    | |- context [sub (le_bytes ?k ?x ++ ?b) ?o ?n] =>
        rewrite (sub_app_skip (le_bytes k x) b k o n (length_le_bytes k x)) by lia;
        cbn [Nat.sub]
    end.

Lemma decode_encode_dinode d : dinode_ok d → decode_dinode (encode_dinode d) = d.
Proof.
  intros (Ht & Hma & Hmi & Hn & Hs & Ha & Har & Hp & _).
  assert (Hu : length (unwords (addrs d)) = 56%nat) by (rewrite length_unwords; lia).
  unfold decode_dinode, encode_dinode. fields.
  rewrite (sub_app_skip (unwords (addrs d)) (d_pad d) 56 56 60) by (done || lia).
  cbn [Nat.sub].
  rewrite !sub_app_here by (apply length_le_bytes || done).
  rewrite !le_val_le_bytes, !Z.mod_small by done.
  rewrite <-Ha, words_unwords by done.
  unfold sub. rewrite drop_0, take_ge by lia. by destruct d.
Qed.

Lemma sub_split b o m n : sub b o (m + n) = sub b o m ++ sub b (o + m) n.
Proof.
  unfold sub. rewrite <-(take_drop m (take (m + n) (drop o b))) at 1. f_equal.
  - rewrite take_take. f_equal. lia.
  - rewrite <-drop_drop, skipn_firstn_comm. f_equal. lia.
Qed.

Lemma le_bytes_sub b o n :
  bytes b → (o + n ≤ length b)%nat → le_bytes n (le_val (sub b o n)) = sub b o n.
Proof.
  intros Hb Hl. rewrite <-(length_sub b o n Hl) at 1. apply le_bytes_le_val. by apply bytes_sub.
Qed.

Lemma encode_decode_dinode b :
  length b = 128%nat → bytes b → encode_dinode (decode_dinode b) = b.
Proof.
  intros Hl Hb. unfold encode_dinode, decode_dinode. cbn [d_type major minor nlink size addrs d_pad].
  rewrite !le_bytes_sub by (done || lia).
  rewrite unwords_words by (by apply bytes_sub || (rewrite length_sub; lia)).
  transitivity (sub b 0 128); [|unfold sub; rewrite drop_0, take_ge; [done|lia]].
  change (sub b 0 128) with (sub b 0 (2 + (2 + (2 + (2 + (4 + (56 + 60))))))).
  rewrite !sub_split.
  done.
Qed.

Lemma dinode_ok_decode b : bytes b → length b = 128%nat → dinode_ok (decode_dinode b).
Proof.
  intros Hb Hl. unfold dinode_ok, decode_dinode. cbn [d_type major minor nlink size addrs d_pad].
  assert (Hr : ∀ o n, (o + n ≤ 128)%nat → 0 ≤ le_val (sub b o n) < 256 ^ Z.of_nat n).
  { intros o n H. pose proof (le_val_range _ (bytes_sub b o n Hb)) as Hv.
    by rewrite length_sub in Hv by lia. }
  repeat split; try (by apply (Hr _ 2%nat); lia); try (by apply (Hr _ 4%nat); lia).
  - apply words_range. by apply bytes_sub.
  - rewrite length_sub; lia.
  - by apply bytes_sub.
Qed.

Lemma decode_encode_dirent e : dirent_ok e → decode_dirent (encode_dirent e) = e.
Proof.
  intros (Hi & Hn & _). unfold decode_dirent, encode_dirent.
  rewrite sub_app_here by apply length_le_bytes.
  rewrite (sub_app_skip _ _ 2) by (apply length_le_bytes || lia).
  rewrite le_val_le_bytes, Z.mod_small by done.
  unfold sub. rewrite drop_0, take_ge by (simpl; lia). by destruct e.
Qed.

Lemma encode_decode_dirent b : bytes b → length b = 32%nat → encode_dirent (decode_dirent b) = b.
Proof.
  intros Hb Hl. unfold encode_dirent, decode_dirent. cbn [de_inum de_name].
  rewrite le_bytes_sub by (done || lia).
  change (sub b 0 2 ++ sub b (0 + 2) 30 = b). rewrite <-sub_split.
  unfold sub. rewrite drop_0, take_ge; [done|lia].
Qed.

Lemma dirent_ok_decode b : bytes b → length b = 32%nat → dirent_ok (decode_dirent b).
Proof.
  intros Hb Hl. unfold dirent_ok, decode_dirent. cbn [de_inum de_name].
  pose proof (le_val_range _ (bytes_sub b 0 2 Hb)) as Hr. rewrite length_sub in Hr by lia.
  repeat split; [apply Hr..| |by apply bytes_sub]. rewrite length_sub; lia.
Qed.
