(* ===== verification/Block.v ===== *)
(** * Block access

    [read_block] and [write_block] of kernel/fs.c over the sector interface of
    kernel/virtio.c. A block is two consecutive 512-byte sectors. *)

From S2P Require Import Prelude FsTypes.

(** ** Operations *)

Definition sector_data (d : disk) (n : Z) : list Z := default (zeros 512) (sec d !! n).
Definition write_sector (d : disk) (n : Z) (buf : list Z) : disk :=
  Disk (sectors d) (<[n := buf]> (sec d)).

(** [read_device] and [write_device] as their callers see them: a bad device
    number or a sector past the capacity stops the kernel. *)
Definition read_device (dev sector : Z) : M fs (list Z) :=
  ds ← gets devs;
  if dev >=? 2 then panic else
  d ← expect (zlookup ds dev);
  if sector >=? sectors d then panic else
  mret (sector_data d sector).

Definition write_device (dev : Z) (buf : list Z) (sector : Z) : M fs unit :=
  ds ← gets devs;
  if dev >=? 2 then panic else
  d ← expect (zlookup ds dev);
  if sector >=? sectors d then panic else
  modify (set_devs (zupdate dev (λ d, write_sector d sector buf))).

Definition read_block (dev block : Z) : M fs (list Z) :=
  lo ← read_device dev (u32 (block * SECTORS_PER_BLOCK));
  hi ← read_device dev (u32 (u32 (block * SECTORS_PER_BLOCK) + 1));
  mret (lo ++ hi).

Definition write_block (dev block : Z) (buf : list Z) : M fs unit :=
  write_device dev (sub buf 0 512) (u32 (block * SECTORS_PER_BLOCK));;
  write_device dev (sub buf 512 512) (u32 (u32 (block * SECTORS_PER_BLOCK) + 1)).

(** ** Contents of a device, block by block *)

Definition blk (d : disk) (b : Z) : list Z := sector_data d (2 * b) ++ sector_data d (2 * b + 1).
Definition set_blk (b : Z) (buf : list Z) (d : disk) : disk :=
  write_sector (write_sector d (2 * b) (sub buf 0 512)) (2 * b + 1) (sub buf 512 512).

Definition disk_of (s : fs) (dev : Z) : disk := devs s !!! Z.to_nat dev.
Definition fblk (s : fs) (dev b : Z) : list Z := blk (disk_of s dev) b.
Definition fset (dev b : Z) (buf : list Z) (s : fs) : fs :=
  set_devs (zupdate dev (set_blk b buf)) s.

(** Sectors hold 512 bytes, and sector numbers fit a [uint32_t]. *)
Definition disk_ok (d : disk) : Prop :=
  0 ≤ sectors d ≤ 4294967296 ∧
  ∀ n v, sec d !! n = Some v → length v = 512%nat ∧ bytes v.

Definition devs_ok (s : fs) : Prop := length (devs s) = 2%nat ∧ Forall disk_ok (devs s).
Definition dev_valid (dev : Z) : Prop := 0 ≤ dev < 2.
Definition fits (s : fs) (dev b : Z) : Prop := 0 ≤ b ∧ 2 * b + 1 < sectors (disk_of s dev).

Definition block_buf (buf : list Z) : Prop := length buf = 1024%nat ∧ bytes buf.

Lemma sector_data_ok d n : disk_ok d → length (sector_data d n) = 512%nat ∧ bytes (sector_data d n).
Proof.
  intros [_ H]. unfold sector_data. destruct (sec d !! n) eqn:E; [by eapply H|].
  split; [apply length_zeros|apply bytes_zeros].
Qed.

Lemma blk_ok d b : disk_ok d → block_buf (blk d b).
Proof.
  intros H. destruct (sector_data_ok d (2 * b) H), (sector_data_ok d (2 * b + 1) H).
  split; unfold blk; [rewrite length_app; lia|by apply Forall_app].
Qed.

Lemma disk_ok_set_blk d b buf : disk_ok d → block_buf buf → disk_ok (set_blk b buf d).
Proof.
  intros [Hs Hd] [Hl Hb]. split; [done|]. cbn. intros n v.
  rewrite !lookup_insert. repeat case_decide; subst; [intros [= <-]..|by apply Hd].
  all: split; [apply length_sub; lia|by apply bytes_sub].
Qed.

Lemma blk_set_blk_eq d b buf : block_buf buf → blk (set_blk b buf d) b = buf.
Proof.
  intros [Hl _]. unfold blk, sector_data, set_blk, write_sector. cbn.
  rewrite lookup_insert_ne, !lookup_insert_eq by lia. cbn.
  change (sub buf 0 512 ++ sub buf (0 + 512) 512 = buf).
  rewrite <-sub_split. unfold sub. rewrite drop_0. apply take_ge. lia.
Qed.

Lemma blk_set_blk_ne d b b' buf : b ≠ b' → blk (set_blk b buf d) b' = blk d b'.
Proof.
  intros. unfold blk, sector_data, set_blk, write_sector. cbn.
  by rewrite !lookup_insert_ne by lia.
Qed.

Section fs.
Implicit Types s : fs.

Lemma disk_of_lookup s dev :
  devs_ok s → dev_valid dev → zlookup (devs s) dev = Some (disk_of s dev).
Proof.
  intros [Hl _] [H0 H2]. unfold zlookup, disk_of.
  rewrite (proj2 (Z.leb_le 0 dev)) by done.
  apply list_lookup_lookup_total_lt. lia.
Qed.

Lemma disk_of_ok s dev : devs_ok s → dev_valid dev → disk_ok (disk_of s dev).
Proof.
  intros Hs Hv. pose proof (disk_of_lookup _ _ Hs Hv) as Hl.
  unfold zlookup in Hl. case_match; [|done].
  destruct Hs as [_ Hf]. eapply Forall_lookup_1; eauto.
Qed.

Lemma fblk_ok s dev b : devs_ok s → dev_valid dev → block_buf (fblk s dev b).
Proof. intros. by apply blk_ok, disk_of_ok. Qed.

Lemma disk_of_fset s dev dev' b buf :
  devs_ok s → dev_valid dev → dev_valid dev' →
  disk_of (fset dev b buf s) dev' =
  if decide (dev = dev') then set_blk b buf (disk_of s dev) else disk_of s dev'.
Proof.
  intros [Hl _] Hd Hd'. unfold dev_valid in *. unfold disk_of, fset, set_devs, zupdate. cbn.
  apply list_lookup_total_correct. case_decide as Heq.
  - subst. rewrite list_lookup_alter_eq. erewrite list_lookup_lookup_total_lt by lia. done.
  - rewrite list_lookup_alter_ne by lia. apply list_lookup_lookup_total_lt. lia.
Qed.

Lemma devs_ok_fset s dev b buf :
  devs_ok s → block_buf buf → devs_ok (fset dev b buf s).
Proof.
  intros [Hl Hf] Hb. split; cbn.
  - unfold zupdate. by rewrite length_alter.
  - unfold zupdate. apply Forall_alter; [done|]. intros. by apply disk_ok_set_blk.
Qed.

Lemma fblk_fset_eq s dev b buf :
  devs_ok s → dev_valid dev → block_buf buf → fblk (fset dev b buf s) dev b = buf.
Proof.
  intros. unfold fblk. rewrite disk_of_fset by done.
  rewrite decide_True by done. by apply blk_set_blk_eq.
Qed.

Lemma fblk_fset_ne s dev b buf b' :
  devs_ok s → dev_valid dev → b ≠ b' → fblk (fset dev b buf s) dev b' = fblk s dev b'.
Proof.
  intros. unfold fblk. rewrite disk_of_fset by done.
  rewrite decide_True by done. by apply blk_set_blk_ne.
Qed.

Lemma fblk_fset s dev b buf b' :
  devs_ok s → dev_valid dev → block_buf buf →
  fblk (fset dev b buf s) dev b' = if decide (b = b') then buf else fblk s dev b'.
Proof. intros. case_decide; [subst; by apply fblk_fset_eq|by apply fblk_fset_ne]. Qed.

Lemma fits_fset s dev b buf b' :
  devs_ok s → dev_valid dev → fits (fset dev b buf s) dev b' ↔ fits s dev b'.
Proof.
  intros. unfold fits. rewrite disk_of_fset by done. by rewrite decide_True by done.
Qed.

Lemma read_device_eq s dev n :
  devs_ok s → dev_valid dev → n < sectors (disk_of s dev) →
  read_device dev n s = Ok (sector_data (disk_of s dev) n) s.
Proof.
  intros Hs Hd Hn. unfold read_device, mbind, M_bind, gets.
  destruct (Hd) as [Hd0 Hd2]. rewrite (geb_false dev 2) by lia.
  rewrite disk_of_lookup by done. cbn. by rewrite (geb_false n _) by lia.
Qed.

Lemma write_device_eq s dev n buf :
  devs_ok s → dev_valid dev → n < sectors (disk_of s dev) →
  write_device dev buf n s = Ok tt (set_devs (zupdate dev (λ d, write_sector d n buf)) s).
Proof.
  intros Hs Hd Hn. unfold write_device, mbind, M_bind, gets.
  destruct (Hd) as [Hd0 Hd2]. rewrite (geb_false dev 2) by lia.
  rewrite disk_of_lookup by done. cbn. by rewrite (geb_false n _) by lia.
Qed.

Lemma block_sectors s dev b :
  devs_ok s → dev_valid dev → fits s dev b →
  u32 (b * SECTORS_PER_BLOCK) = 2 * b ∧ u32 (u32 (b * SECTORS_PER_BLOCK) + 1) = 2 * b + 1.
Proof.
  intros Hs Hd [H0 Hf]. destruct (disk_of_ok s dev Hs Hd) as [[_ Hm] _].
  unfold SECTORS_PER_BLOCK. rewrite (u32_small (b * 2)) by lia.
  rewrite u32_small by lia. lia.
Qed.

Lemma read_block_eq s dev b :
  devs_ok s → dev_valid dev → fits s dev b → read_block dev b s = Ok (fblk s dev b) s.
Proof.
  intros Hs Hd Hf. destruct (block_sectors s dev b Hs Hd Hf) as [E1 E2].
  unfold read_block. rewrite E1 in E2. rewrite E1, E2. destruct Hf.
  unfold mbind, M_bind. rewrite !read_device_eq by (done || lia). done.
Qed.

Lemma write_block_eq s dev b buf :
  devs_ok s → dev_valid dev → fits s dev b →
  write_block dev b buf s = Ok tt (fset dev b buf s).
Proof.
  intros Hs Hd Hf. destruct (block_sectors s dev b Hs Hd Hf) as [E1 E2].
  unfold write_block. rewrite E1 in E2. rewrite E1, E2. destruct Hf as [H0 Hf].
  pose proof (disk_of_lookup s dev Hs Hd) as Hl.
  unfold write_device, mbind, M_bind, gets.
  destruct (Hd) as [Hd0 Hd2]. rewrite (geb_false dev 2) by lia. rewrite Hl. cbn.
  rewrite (geb_false (2 * b) _) by lia. cbn.
  unfold zlookup, zupdate in *. case_match; [|done].
  rewrite list_lookup_alter_eq, Hl. cbn.
  rewrite (geb_false (2 * b + 1) _) by lia.
  unfold modify, fset, set_devs, zupdate. cbn. by rewrite alter_alter.
Qed.

Lemma wp_read_block s dev b (Q : list Z → fs → Prop) R :
  devs_ok s → dev_valid dev → fits s dev b → Q (fblk s dev b) s → wp (read_block dev b) Q R s.
Proof. intros. eapply wp_ok; [by apply read_block_eq|done]. Qed.

Lemma wp_write_block s dev b buf (Q : unit → fs → Prop) R :
  devs_ok s → dev_valid dev → fits s dev b → Q tt (fset dev b buf s) →
  wp (write_block dev b buf) Q R s.
Proof. intros. eapply wp_ok; [by apply write_block_eq|done]. Qed.
End fs.

#[export] Hint Resolve fblk_ok devs_ok_fset : kernel.
