(* ===== verification/Inode.v ===== *)
(** * The inode layer of kernel/fs.c: definitions

    The inode cache, the free-block bitmap, the block map with its single and
    double indirection, and reading, writing and truncating file contents.

    A [struct inode *] is an index into [inode_table]; NULL is [None]. The
    diagnostic [kprintf] lines have no effect on this state and are left out. *)

From S2P Require Import Prelude FsTypes Block.

Definition ptr : Type := option nat.

Definition deref (p : ptr) : M fs inode :=
  tbl ← gets inode_table; expect (p ≫= λ i, tbl !! i).

Definition upd_inode (p : ptr) (f : inode → inode) : M fs unit :=
  match p with
  | Some i => modify (set_inode_table (alter f i))
  | None => fault
  end.

Definition upd_din (p : ptr) (f : dinode → dinode) : M fs unit :=
  upd_inode p (λ ip, set_din (f (din ip)) ip).

(** [buf + off .. buf + off + n) of an array], outside of it undefined. *)
Definition cread (buf : list Z) (off n : Z) : option (list Z) :=
  if (0 <=? off) && (0 <=? n) && (off + n <=? Z.of_nat (length buf))
  then Some (sub buf (Z.to_nat off) (Z.to_nat n)) else None.

(** Element [i] of a [uint32_t] array. *)
Definition cword (buf : list Z) (i : Z) : option Z :=
  if (0 <=? i) && (4 * i + 4 <=? Z.of_nat (length buf)) then Some (word_at buf i) else None.

(** ** Inode cache *)

(** The scan of [iget]: the entry already cached, or else the first free one. *)
Fixpoint iget_scan (tbl : list inode) (i : nat) (d n : Z) (empty : ptr) : nat + ptr :=
  match tbl with
  | [] => inr empty
  | ip :: tbl =>
      if (ref ip >? 0) && (dev ip =? d) && (inum ip =? n) then inl i
      else iget_scan tbl (S i) d n
             (match empty with
              | None => if ref ip =? 0 then Some i else None
              | Some e => Some e
              end)
  end.

Definition iget (d n : Z) : M fs ptr :=
  tbl ← gets inode_table;
  match iget_scan tbl 0 d n None with
  | inl i => upd_inode (Some i) (λ ip, set_ref (ref ip + 1) ip);; mret (Some i)
  | inr None => panic
  | inr (Some i) => upd_inode (Some i) (λ ip, Inode d n 1 0 (din ip));; mret (Some i)
  end.

Definition iput (p : ptr) : M fs unit :=
  match p with
  | None => mret tt
  | Some i =>
      ip ← deref p;
      if ref ip <=? 0 then panic else
      upd_inode p (λ ip, set_ref (ref ip - 1) ip)
  end.

(** The block and the offset in it of a dinode. *)
Definition inode_block (x : superblock) (n : Z) : Z := u32 (inodestart x + n / IPB).
Definition inode_offset (n : Z) : Z := n mod IPB * DINODE_SIZE.

Definition ilock (p : ptr) : M fs unit :=
  match p with
  | None => panic
  | Some _ =>
      ip ← deref p;
      if ref ip <? 1 then panic else
      if valid ip =? 0 then
        x ← gets sb; x ← expect (zlookup x (dev ip));
        buf ← read_block (dev ip) (inode_block x (inum ip));
        dip ← expect (cread buf (inode_offset (inum ip)) DINODE_SIZE);
        upd_inode p (λ ip, Inode (dev ip) (inum ip) (ref ip) 1 (decode_dinode dip))
      else mret tt
  end.

Definition iupdate (p : ptr) : M fs unit :=
  ip ← deref p;
  x ← gets sb; x ← expect (zlookup x (dev ip));
  buf ← read_block (dev ip) (inode_block x (inum ip));
  write_block (dev ip) (inode_block x (inum ip))
    (splice buf (Z.to_nat (inode_offset (inum ip))) (encode_dinode (din ip))).

(** ** Free-block bitmap *)

Definition bit_clear (byte bit : Z) : bool := Z.land byte (Z.shiftl 1 bit) =? 0.

Definition balloc_scan (x : superblock) (buf : list Z) (b : Z) : M fs (Z + option Z) :=
  if b <? nblocks x then
    byte ← expect (zlookup buf (b / 8));
    if bit_clear byte (b mod 8) then mret (inr (Some b)) else mret (inl (u32 (b + 1)))
  else mret (inr None).

Definition balloc (d : Z) : M fs Z :=
  x ← gets sb; x ← expect (zlookup x d);
  buf ← read_block d (bmapstart x);
  found ← loop (S (Z.to_nat (nblocks x))) (balloc_scan x buf) 0;
  match found with
  | Some b =>
      write_block d (bmapstart x) (zupdate (b / 8) (λ y, Z.lor y (Z.shiftl 1 (b mod 8))) buf);;
      write_block d b (zeros 1024);;
      mret b
  | None => panic
  end.

Definition bfree (d block : Z) : M fs unit :=
  x ← gets sb; x ← expect (zlookup x d);
  buf ← read_block d (bmapstart x);
  byte ← expect (zlookup buf (block / 8));
  if bit_clear byte (block mod 8) then panic else
  write_block d (bmapstart x)
    (zupdate (block / 8) (λ y, Z.land y (u8 (Z.lnot (Z.shiftl 1 (block mod 8))))) buf).

(** ** Inode allocation *)

Definition ialloc_scan (d ty : Z) (x : superblock) (n : Z) : M fs (Z + option Z) :=
  if n <? ninodes x then
    buf ← read_block d (inode_block x n);
    dip ← expect (cread buf (inode_offset n) DINODE_SIZE);
    if d_type (decode_dinode dip) =? FT_UNUSED then
      write_block d (inode_block x n)
        (splice buf (Z.to_nat (inode_offset n))
           (encode_dinode (Dinode (u16 ty) 0 0 1 0 (zeros 14) (zeros 60))));;
      mret (inr (Some n))
    else mret (inl (u32 (n + 1)))
  else mret (inr None).

Definition ialloc (d ty : Z) : M fs ptr :=
  x ← gets sb; x ← expect (zlookup x d);
  found ← loop (S (Z.to_nat (ninodes x))) (ialloc_scan d ty x) 1;
  match found with
  | Some n =>
      p ← iget d n;
      upd_inode p (λ ip, Inode (dev ip) (inum ip) (ref ip) 1
        (Dinode (u16 ty) (major (din ip)) (minor (din ip)) 1 0 (zeros 14) (d_pad (din ip))));;
      mret p
  | None => mret None
  end.

(** ** Block map *)

Definition bmap (p : ptr) (bn : Z) : M fs Z :=
  match p with
  | None => panic
  | Some _ =>
      ip ← deref p;
      if bn <? NDIRECT then
        addr ← expect (zlookup (addrs (din ip)) bn);
        if addr =? 0 then panic else mret addr
      else
      let bn := bn - NDIRECT in
      if bn <? NINDIRECT then
        indirect_block ← expect (zlookup (addrs (din ip)) NDIRECT);
        if indirect_block =? 0 then panic else
        indirect ← read_block (dev ip) indirect_block;
        if word_at indirect bn =? 0 then panic else mret (word_at indirect bn)
      else
      let bn := bn - NINDIRECT in
      if bn <? NDINDIRECT then
        dindirect_block ← expect (zlookup (addrs (din ip)) (NDIRECT + 1));
        if dindirect_block =? 0 then panic else
        dindirect ← read_block (dev ip) dindirect_block;
        let indirect_block := word_at dindirect (bn / NINDIRECT) in
        if indirect_block =? 0 then panic else
        indirect ← read_block (dev ip) indirect_block;
        let addr := word_at indirect (bn mod NINDIRECT) in
        if addr =? 0 then panic else mret addr
      else panic
  end.

(** A pointer held in the inode itself: allocated on first use, then the inode
    is written back. *)
Definition bmap_alloc_root (p : ptr) (i : Z) : M fs Z :=
  ip ← deref p;
  addr ← expect (zlookup (addrs (din ip)) i);
  if addr =? 0 then
    addr ← balloc (dev ip);
    upd_din p (set_addr i addr);;
    iupdate p;;
    mret addr
  else mret addr.

(** A pointer held in slot [i] of the table block [table]. *)
Definition bmap_alloc_entry (d table i : Z) : M fs Z :=
  words ← read_block d table;
  let addr := word_at words i in
  if addr =? 0 then
    addr ← balloc d;
    write_block d table (set_word words i addr);;
    mret addr
  else mret addr.

Definition bmap_alloc (p : ptr) (bn : Z) : M fs Z :=
  match p with
  | None => panic
  | Some _ =>
      ip ← deref p;
      if bn <? NDIRECT then bmap_alloc_root p bn
      else
      let bn := bn - NDIRECT in
      if bn <? NINDIRECT then
        indirect_block ← bmap_alloc_root p NDIRECT;
        bmap_alloc_entry (dev ip) indirect_block bn
      else
      let bn := bn - NINDIRECT in
      if bn <? NDINDIRECT then
        dindirect_block ← bmap_alloc_root p (NDIRECT + 1);
        indirect_block ← bmap_alloc_entry (dev ip) dindirect_block (bn / NINDIRECT);
        bmap_alloc_entry (dev ip) indirect_block (bn mod NINDIRECT)
      else panic
  end.

(** ** File contents *)

(** How much of [n - tot] bytes the block at [offset] serves. *)
Definition chunk (offset n tot : Z) : Z :=
  let m := BSIZE - offset mod BSIZE in if m >? n - tot then n - tot else m.

(** Rounds of the copy loops: one per block touched. *)
Definition chunk_fuel (n : Z) : nat := Z.to_nat (n / BSIZE + 3).

Definition readi_step (p : ptr) (n : Z) (st : Z * Z * list Z) : M fs (Z * Z * list Z + list Z) :=
  let '(tot, offset, dst) := st in
  if tot <? n then
    ip ← deref p;
    block ← bmap p (offset / BSIZE);
    buf ← read_block (dev ip) block;
    let m := chunk offset n tot in
    data ← expect (cread buf (offset mod BSIZE) m);
    mret (inl (tot + m, u32 (offset + m), dst ++ data))
  else mret (inr dst).

(** Returns the C return value and the bytes stored at [dst]. *)
Definition readi (p : ptr) (offset n : Z) : M fs (Z * list Z) :=
  match p with
  | None => mret (-1, [])
  | Some _ =>
      ilock p;;
      ip ← deref p;
      let sz := size (din ip) in
      if d_type (din ip) =? FT_UNUSED then mret (-1, []) else
      if (offset >? sz) || (u32 (offset + n) <? offset) then mret (-1, []) else
      let n := if u32 (offset + n) >? sz then sz - offset else n in
      dst ← loop (chunk_fuel n) (readi_step p n) (0, offset, []);
      mret (s32 n, dst)
  end.

Definition writei_step (p : ptr) (src : list Z) (n : Z) (st : Z * Z) : M fs (Z * Z + Z) :=
  let '(tot, offset) := st in
  if tot <? n then
    ip ← deref p;
    block ← bmap_alloc p (offset / BSIZE);
    buf ← read_block (dev ip) block;
    let m := chunk offset n tot in
    data ← expect (cread src tot m);
    write_block (dev ip) block (splice buf (Z.to_nat (offset mod BSIZE)) data);;
    mret (inl (tot + m, u32 (offset + m)))
  else mret (inr offset).

Definition writei (p : ptr) (src : list Z) (offset n : Z) : M fs Z :=
  match p with
  | None => mret (-1)
  | Some _ =>
      ilock p;;
      ip ← deref p;
      if (offset >? size (din ip)) || (u32 (offset + n) <? offset) then mret (-1) else
      if u32 (offset + n) >? MAXFILE * BSIZE then mret (-1) else
      offset ← loop (chunk_fuel n) (writei_step p src n) (0, offset);
      ip ← deref p;
      (if (n >? 0) && (offset >? size (din ip)) then
         upd_din p (set_size offset);; iupdate p
       else mret tt);;
      mret (s32 n)
  end.

(** ** Truncation *)

Definition table_empty (words : list Z) : bool :=
  forallb (λ i, word_at words (Z.of_nat i) =? 0) (seq 0 (Z.to_nat NINDIRECT)).

(** One iteration of the loop of [itrunc]: release file block [bn]. *)
Definition itrunc_block (p : ptr) (bn : Z) : M fs unit :=
  ip ← deref p;
  let d := dev ip in
  if bn <? NDIRECT then
    addr ← expect (zlookup (addrs (din ip)) bn);
    if negb (addr =? 0) then bfree d addr;; upd_din p (set_addr bn 0) else mret tt
  else if bn - NDIRECT <? NINDIRECT then
    let indirect_idx := bn - NDIRECT in
    indirect_block ← expect (zlookup (addrs (din ip)) NDIRECT);
    if negb (indirect_block =? 0) then
      indirect ← read_block d indirect_block;
      let addr := word_at indirect indirect_idx in
      if negb (addr =? 0) then
        bfree d addr;; write_block d indirect_block (set_word indirect indirect_idx 0)
      else mret tt
    else mret tt
  else
    let dfbn := bn - NDIRECT - NINDIRECT in
    dindirect_block ← expect (zlookup (addrs (din ip)) (NDIRECT + 1));
    if negb (dindirect_block =? 0) then
      dindirect ← read_block d dindirect_block;
      let indirect_idx := dfbn / NINDIRECT in
      indirect_block ← expect (cword dindirect indirect_idx);
      if negb (indirect_block =? 0) then
        indirect ← read_block d indirect_block;
        let direct_idx := dfbn mod NINDIRECT in
        let addr := word_at indirect direct_idx in
        indirect ← (if negb (addr =? 0) then
                      bfree d addr;;
                      write_block d indirect_block (set_word indirect direct_idx 0);;
                      mret (set_word indirect direct_idx 0)
                    else mret indirect);
        if table_empty indirect then
          bfree d indirect_block;;
          write_block d dindirect_block (set_word dindirect indirect_idx 0)
        else mret tt
      else mret tt
    else mret tt.

Definition itrunc_step (p : ptr) (old_blocks bn : Z) : M fs (Z + unit) :=
  if bn <? old_blocks then itrunc_block p bn;; mret (inl (u32 (bn + 1))) else mret (inr tt).

(** Release the table block a root pointer of the inode designates. *)
Definition itrunc_root (p : ptr) (i : Z) : M fs unit :=
  ip ← deref p;
  addr ← expect (zlookup (addrs (din ip)) i);
  if negb (addr =? 0) then bfree (dev ip) addr;; upd_din p (set_addr i 0) else mret tt.

Definition blocks_for (n : Z) : Z := u32 (n + BSIZE - 1) / BSIZE.

Definition itrunc (p : ptr) (new_size : Z) : M fs unit :=
  ilock p;;
  ip ← deref p;
  if new_size >=? size (din ip) then mret tt else
  let old_blocks := blocks_for (size (din ip)) in
  let new_blocks := blocks_for new_size in
  (if new_blocks <? old_blocks then
     loop (S (Z.to_nat (old_blocks - new_blocks))) (itrunc_step p old_blocks) new_blocks;;
     (if new_blocks <=? NDIRECT then itrunc_root p NDIRECT else mret tt);;
     (if new_blocks <=? NDIRECT + NINDIRECT then itrunc_root p (NDIRECT + 1) else mret tt)
   else mret tt);;
  upd_din p (set_size new_size);;
  iupdate p.
