(* ===== verification/Dir.v ===== *)
(** * Directories and path names: definitions

    The directory layer of kernel/fs.c. A path is the list of bytes from the
    pointer to the end of its object. The current directory of the running
    process, which [namex] asks the process table for, is an argument. *)

From S2P Require Import Prelude CLib FsTypes Block Inode.

Definition SLASH : Z := 47.
Definition DOT : Z := 46.
Definition str_dot : list Z := [DOT; 0].
Definition str_dotdot : list Z := [DOT; DOT; 0].

(** The directory loops: [for (off = 0; off < dp->dinode.size; off += sizeof(de))]
    with a [readi] of one entry at the top of the body. A short read leaves
    through [onerr]; the body sees the loop variables, the offset and the entry. *)
Section for_dirents.
Context {X B : Type} (p : ptr) (onerr : M fs B).
Context (body : X → Z → fsdirent → M fs (X + B)) (after : X → Z → M fs B).

Definition dirents_step (st : X * Z) : M fs (X * Z + B) :=
  let '(x, off) := st in
  ip ← deref p;
  if off <? size (din ip) then
    rb ← readi p off DIRENT_SIZE;
    if negb (fst rb =? DIRENT_SIZE) then b ← onerr; mret (inr b)
    else
    r ← body x off (decode_dirent (snd rb));
    match r with
    | inl x => mret (inl (x, u32 (off + DIRENT_SIZE)))
    | inr b => mret (inr b)
    end
  else b ← after x off; mret (inr b).

Definition for_dirents (x : X) : M fs B :=
  ip ← deref p;
  loop (Z.to_nat (size (din ip) / DIRENT_SIZE + 2)) dirents_step (x, 0).
End for_dirents.

(** Returns the inode and the offset stored through [poff]. *)
Definition dirlookup (dp : ptr) (name : list Z) : M fs (option (nat * Z)) :=
  ip ← deref dp;
  if negb (d_type (din ip) =? FT_DIRECTORY) then mret None else
  ilock dp;;
  for_dirents dp (mret None)
    (λ _ off de,
       if de_inum de =? 0 then mret (inl tt) else
       c ← expect (strncmp name (de_name de) (Z.to_nat DIRSIZ));
       if c =? 0 then
         ip ← deref dp;
         p ← iget (dev ip) (de_inum de);
         mret (inr ((λ i, (i, off)) <$> p))
       else mret (inl tt))
    (λ _ _, mret None) tt.

Fixpoint skip_slashes (path : list Z) : list Z :=
  match path with
  | c :: rest => if c =? SLASH then skip_slashes rest else path
  | [] => []
  end.

(** The characters up to the next delimiter, and what follows them. *)
Fixpoint component (path : list Z) : list Z * list Z :=
  match path with
  | [] => ([], [])
  | c :: rest =>
      if (c =? SLASH) || (c =? 0) then ([], path)
      else let '(a, b) := component rest in (c :: a, b)
  end.

(** NULL is [Some None]; otherwise the rest of the path and the string left in
    [name]. A path that is not terminated runs off its object. *)
Definition skipto (path : list Z) : option (option (list Z * list Z)) :=
  let path := skip_slashes path in
  c ← head path;
  if c =? 0 then Some None else
  let '(s, rest) := component path in
  _ ← head rest;
  let len := if Z.of_nat (length s) >=? DIRSIZ then Z.to_nat (DIRSIZ - 1) else length s in
  let rest := skip_slashes rest in
  _ ← head rest;
  Some (Some (rest, take len s ++ [0])).

(** [for (i = 0; i < num_mounts; ++i) if (test(mounts[i])) { ...; break; }]: the
    mount the loop stops at. *)
Definition find_mount (test : mount → bool) : M fs (option mount) :=
  ms ← gets mounts; n ← gets num_mounts;
  mret (find test (take (Z.to_nat n) ms)).

(** Looking up ".." at the root of a mounted device. *)
Definition mount_up (ip : inode) (name : list Z) : M fs ptr :=
  c ← expect (strcmp name str_dotdot);
  if (c =? 0) && (inum ip =? 1) && negb (dev ip =? 0) then
    m ← find_mount (λ m, child_dev m =? dev ip);
    match m with
    | None => mret None
    | Some m =>
        pm ← iget (parent_dev m) (parent_inum m);
        ilock pm;;
        next ← dirlookup pm str_dotdot;
        iput pm;;
        mret (fst <$> next)
    end
  else mret None.

(** Entering a mounted device. *)
Definition mount_down (next : ptr) : M fs ptr :=
  nx ← deref next;
  m ← find_mount (λ m, (parent_dev m =? dev nx) && (parent_inum m =? inum nx));
  match m with
  | None => mret next
  | Some m => iput next;; iget (child_dev m) 1
  end.

(** One round of the loop of [namex]: the loop variables are the inode, the rest
    of the path and the contents of [name]. *)
Definition namex_step (parent : bool) (st : ptr * list Z * list Z)
    : M fs (ptr * list Z * list Z + ptr * list Z) :=
  let '(p, path, name) := st in
  r ← expect (skipto path);
  match r with
  | None =>
      if parent then iput p;; mret (inr (None, name)) else mret (inr (p, name))
  | Some (path, name) =>
      ilock p;;
      ip ← deref p;
      if negb (d_type (din ip) =? FT_DIRECTORY) then iput p;; mret (inr (None, name)) else
      c ← expect (head path);
      if parent && (c =? 0) then mret (inr (p, name)) else
      next ← mount_up ip name;
      next ← (match next with
              | Some _ => mret next
              | None => r ← dirlookup p name; mret (fst <$> r)
              end);
      match next with
      | None => iput p;; mret (inr (None, name))
      | Some _ =>
          next ← mount_down next;
          iput p;;
          mret (inl (next, path, name))
      end
  end.

(** [namex]: the inode, and the last component left in [name]. *)
Definition namex (cwd : ptr) (path : list Z) (parent : bool) : M fs (ptr * list Z) :=
  c ← expect (head path);
  ip ← (if c =? SLASH then iget 0 1
        else match cwd with
             | Some _ => cip ← deref cwd; iget (dev cip) (inum cip)
             | None => iget 0 1
             end);
  loop (S (length path)) (namex_step parent) (ip, path, []).

Definition namei (cwd : ptr) (path : list Z) : M fs ptr :=
  r ← namex cwd path false; mret (fst r).

Definition dirlink (dp : ptr) (name : list Z) (n : Z) : M fs Z :=
  r ← dirlookup dp name;
  match r with
  | Some (i, _) => iput (Some i);; mret (-1)
  | None =>
      ilock dp;;
      for_dirents dp (mret (-1))
        (λ _ off de,
           if de_inum de =? 0 then
             nm ← expect (strncpy name (Z.to_nat DIRSIZ));
             w ← writei dp (encode_dirent (Dirent (u16 n) (<[29%nat := 0]> nm))) off DIRENT_SIZE;
             mret (inr (if negb (w =? DIRENT_SIZE) then -1 else 0))
           else mret (inl tt))
        (λ _ off,
           nm ← expect (strncpy name (Z.to_nat DIRSIZ));
           w ← writei dp (encode_dirent (Dirent (u16 n) (<[29%nat := 0]> nm))) off DIRENT_SIZE;
           mret (if negb (w =? DIRENT_SIZE) then -1 else 0)) tt
  end.

Definition is_dir_empty (p : ptr) : M fs bool :=
  for_dirents p (mret false)
    (λ _ off de,
       if negb (de_inum de =? 0) then
         c ← expect (strcmp (de_name de ++ [0]) str_dot);
         c' ← (if c =? 0 then mret 0 else expect (strcmp (de_name de ++ [0]) str_dotdot));
         if negb (c =? 0) && negb (c' =? 0) then mret (inr false) else mret (inl tt)
       else mret (inl tt))
    (λ _ _, mret true) tt.

(** ** Mounting and the listing interface *)

Definition str_home : list Z := [47; 104; 111; 109; 101; 0].

(** [fs_init], from a zeroed inode table. *)
Definition fs_init : M fs unit :=
  modify (set_inode_table (λ _, replicate NINODE inode_zero));;
  buf ← read_block 0 1;
  modify (set_sb (zupdate 0 (λ _, decode_superblock buf)));;
  if negb (magic (decode_superblock buf) =? XV6_FS_MAGIC) then panic else
  buf ← read_block 1 1;
  modify (set_sb (zupdate 1 (λ _, decode_superblock buf)));;
  if negb (magic (decode_superblock buf) =? XV6_FS_MAGIC) then panic else
  home ← namei None str_home;
  match home with
  | None => panic
  | Some _ =>
      ip ← deref home;
      modify (set_mounts (zupdate 0 (λ _, Mount (dev ip) (inum ip) 1)) 1);;
      iput home
  end.

(** The entry numbered [index] among those that are not "." or "..". *)
Definition nth_entry {B} (dp : ptr) (index : Z) (found : fsdirent → M fs B) (none : B) : M fs B :=
  for_dirents dp (iput dp;; mret none)
    (λ current_index off de,
       if de_inum de =? 0 then mret (inl current_index) else
       c ← expect (strcmp (de_name de) str_dot);
       c' ← (if c =? 0 then mret 0 else expect (strcmp (de_name de) str_dotdot));
       if (c =? 0) || (c' =? 0) then mret (inl current_index) else
       if current_index =? index then b ← found de; mret (inr b)
       else mret (inl (current_index + 1)))
    (λ _ _, iput dp;; mret none) 0.

(** Returns the result and the bytes stored at [buf]. *)
Definition fs_get_file_name (index buf_len : Z) : M fs (Z * list Z) :=
  if buf_len <=? 0 then mret (-1, []) else
  dp ← iget 0 1;
  ilock dp;;
  nth_entry dp index
    (λ de,
       k ← expect (strlen (de_name de));
       let len := if Z.of_nat k >=? buf_len then buf_len - 1 else Z.of_nat k in
       name ← expect (cread (de_name de) 0 len);
       iput dp;;
       mret (0, name ++ [0])) (-1, []).

Definition fs_get_file_size (index : Z) : M fs Z :=
  dp ← iget 0 1;
  ilock dp;;
  nth_entry dp index
    (λ de,
       p ← iget 0 (de_inum de);
       ilock p;;
       ip ← deref p;
       iput p;;
       iput dp;;
       mret (s32 (size (din ip)))) (-1).

Definition fs_get_inode_size (p : ptr) : M fs Z :=
  match p with
  | None => panic
  | Some _ => ilock p;; ip ← deref p; mret (size (din ip))
  end.

(** [fs_stat] returns its result and, on success, the type and size stored. *)
Definition fs_stat (cwd : ptr) (path : list Z) : M fs (Z * option (Z * Z)) :=
  p ← namei cwd path;
  match p with
  | None => mret (ERR_NOT_FOUND, None)
  | Some _ =>
      ilock p;;
      ip ← deref p;
      iput p;;
      mret (0, Some (d_type (din ip), size (din ip)))
  end.

(** [fs_chdir] returns its result and the inode stored through [pip]. *)
Definition fs_chdir (cwd : ptr) (path : list Z) : M fs (Z * ptr) :=
  p ← namei cwd path;
  match p with
  | None => mret (ERR_NOT_FOUND, None)
  | Some _ =>
      ilock p;;
      ip ← deref p;
      if negb (d_type (din ip) =? FT_DIRECTORY) then iput p;; mret (ERR_NOT_A_DIRECTORY, None)
      else mret (0, p)
  end.
