(* ===== verification/FsInv.v ===== *)
(** * The consistency invariant of a filesystem on one device

    A device is described by the logical inodes [A] stored on it. The pointers
    of an inode form a tree of depth at most three; [slot] names a position of
    that tree and [pv] the block number found there (0 when unmapped). The
    invariant [wf] says that every block number in use designates a data block
    that the bitmap marks allocated, and that no block is used twice. *)

From S2P Require Import Prelude FsTypes Block Inode.

(** ** Geometry *)

Definition sbof (s : fs) (d : Z) : superblock := sb s !!! Z.to_nat d.

(** Inodes whose dinode lies in front of the bitmap block. *)
Definition imax (x : superblock) : Z := Z.min (ninodes x) (IPB * (bmapstart x - inodestart x)).

Definition geom_ok (x : superblock) (dk : disk) : Prop :=
  2 ≤ inodestart x ≤ bmapstart x ∧ bmapstart x < nblocks x ∧ nblocks x ≤ 8192 ∧
  2 * nblocks x ≤ sectors dk ∧ 0 ≤ ninodes x < 65536.

Definition inode_ok (s : fs) (d n : Z) : Prop := 1 ≤ n < imax (sbof s d).

Definition data_blk (s : fs) (d b : Z) : Prop := bmapstart (sbof s d) < b < 8192 ∧ fits s d b.

Definition bitmap (s : fs) (d : Z) : list Z := fblk s d (bmapstart (sbof s d)).
Definition allocated (s : fs) (d b : Z) : bool :=
  Z.testbit (bitmap s d !!! Z.to_nat (b / 8)) (b mod 8).

(** The dinode stored on the device. *)
Definition dnode (s : fs) (d n : Z) : dinode :=
  decode_dinode (sub (fblk s d (inode_block (sbof s d) n)) (Z.to_nat (inode_offset n)) 128).

(** The fields of a dinode that mean something. *)
Record ikey := Ikey { k_type : Z; k_nlink : Z; k_size : Z; k_addrs : list Z }.
Definition key (x : dinode) : ikey := Ikey (d_type x) (nlink x) (size x) (addrs x).

Definition upd {B} (A : Z → B) (n : Z) (v : B) : Z → B := λ m, if decide (m = n) then v else A m.

Lemma upd_eq {B} (A : Z → B) n v : upd A n v n = v.
Proof. unfold upd. by rewrite decide_True. Qed.
Lemma upd_ne {B} (A : Z → B) n m v : m ≠ n → upd A n v m = A m.
Proof. intros. unfold upd. by rewrite decide_False. Qed.

(** ** The pointer tree of an inode *)

Inductive slot :=
| Root (i : Z)
| Ind (j : Z)
| DInd (j : Z)
| DLeaf (j k : Z).

#[export] Instance slot_eq_dec : EqDecision slot.
Proof. solve_decision. Defined.

Definition slot_ok (sl : slot) : Prop :=
  match sl with
  | Root i => 0 ≤ i < 14
  | Ind j | DInd j => 0 ≤ j < 256
  | DLeaf j k => 0 ≤ j < 256 ∧ 0 ≤ k < 256
  end.

Definition entry (s : fs) (d t j : Z) : Z := if t =? 0 then 0 else word_at (fblk s d t) j.

Definition pv (s : fs) (d : Z) (a : list Z) (sl : slot) : Z :=
  match sl with
  | Root i => a !!! Z.to_nat i
  | Ind j => entry s d (a !!! Z.to_nat NDIRECT) j
  | DInd j => entry s d (a !!! Z.to_nat (NDIRECT + 1)) j
  | DLeaf j k => entry s d (entry s d (a !!! Z.to_nat (NDIRECT + 1)) j) k
  end.

(** Where the number of file block [bn] is kept. *)
Definition leaf (bn : Z) : slot :=
  if bn <? NDIRECT then Root bn
  else if bn - NDIRECT <? NINDIRECT then Ind (bn - NDIRECT)
  else DLeaf ((bn - NDIRECT - NINDIRECT) / NINDIRECT) ((bn - NDIRECT - NINDIRECT) mod NINDIRECT).

(** Slots that hold the number of a table block. *)
Definition is_node (sl : slot) : bool :=
  match sl with
  | Root i => (i =? NDIRECT) || (i =? NDIRECT + 1)
  | DInd _ => true
  | _ => false
  end.

Definition child (sl : slot) (j : Z) : slot :=
  match sl with
  | Root i => if i =? NDIRECT then Ind j else DInd j
  | DInd i => DLeaf i j
  | sl => sl
  end.

Lemma leaf_ok bn : 0 ≤ bn < MAXFILE → slot_ok (leaf bn) ∧ is_node (leaf bn) = false.
Proof.
  unfold leaf. consts. intros Hbn. repeat zcase; cbn; consts.
  - split; [lia|]. by zb.
  - split; [lia|done].
  - split; [|done]. split; [|apply Z.mod_pos_bound; lia].
    split; [apply Z.div_pos; lia|]. apply Z.div_lt_upper_bound; lia.
Qed.

Lemma leaf_inj bn bn' : 0 ≤ bn < MAXFILE → 0 ≤ bn' < MAXFILE → leaf bn = leaf bn' → bn = bn'.
Proof.
  unfold leaf. consts. intros H H'. repeat zcase; intros [= E]; try lia.
  pose proof (Z.div_mod (bn - 12 - 256) 256). pose proof (Z.div_mod (bn' - 12 - 256) 256). lia.
Qed.

Lemma child_ok sl j : slot_ok sl → is_node sl = true → 0 ≤ j < 256 → slot_ok (child sl j).
Proof. destruct sl; cbn; try done. intros. by case_match. Qed.

Lemma child_inj sl sl' j j' :
  is_node sl = true → is_node sl' = true → child sl j = child sl' j' → sl = sl' ∧ j = j'.
Proof.
  destruct sl as [i| | |], sl' as [i'| | |]; cbn; try done; unfold NDIRECT;
    repeat zcase; try done; subst; intros ? ? [=]; subst; done.
Qed.

Lemma pv_child s d a sl j :
  is_node sl = true → pv s d a (child sl j) = entry s d (pv s d a sl) j.
Proof.
  destruct sl as [i| | |]; cbn; try done. unfold NDIRECT. repeat zcase; try done; by subst.
Qed.

(** ** The invariant *)

Record wf (s : fs) (d : Z) (A : Z → ikey) : Prop := Wf {
  wf_devs : devs_ok s;
  wf_dev : dev_valid d;
  wf_sb : length (sb s) = 2%nat;
  wf_geom : geom_ok (sbof s d) (disk_of s d);
  wf_len : ∀ n, inode_ok s d n → length (k_addrs (A n)) = 14%nat;
  wf_meta : ∀ b, 0 ≤ b ≤ bmapstart (sbof s d) → allocated s d b = true;
  wf_ptr : ∀ n sl, inode_ok s d n → slot_ok sl → pv s d (k_addrs (A n)) sl ≠ 0 →
    data_blk s d (pv s d (k_addrs (A n)) sl) ∧
    allocated s d (pv s d (k_addrs (A n)) sl) = true;
  wf_inj : ∀ n sl n' sl', inode_ok s d n → inode_ok s d n' → slot_ok sl → slot_ok sl' →
    pv s d (k_addrs (A n)) sl ≠ 0 →
    pv s d (k_addrs (A n)) sl = pv s d (k_addrs (A n')) sl' → n = n' ∧ sl = sl'
}.

(** Exactly the first [k] blocks of an inode are mapped, and exactly the table
    blocks this takes. *)
Definition shape (s : fs) (d : Z) (a : list Z) (k : Z) : Prop :=
  0 ≤ k ≤ MAXFILE ∧
  (∀ bn, 0 ≤ bn < MAXFILE → pv s d a (leaf bn) ≠ 0 ↔ bn < k) ∧
  (pv s d a (Root NDIRECT) ≠ 0 ↔ NDIRECT < k) ∧
  (pv s d a (Root (NDIRECT + 1)) ≠ 0 ↔ NDIRECT + NINDIRECT < k) ∧
  (∀ j, 0 ≤ j < 256 → pv s d a (DInd j) ≠ 0 ↔ NDIRECT + NINDIRECT + NINDIRECT * j < k).

(** The devices other than [d], and what no inode operation changes. *)
Record same_base (s s' : fs) (d : Z) : Prop := SameBase {
  sb_devs : devs_ok s';
  sb_sb : sb s' = sb s;
  sb_mounts : mounts s' = mounts s ∧ num_mounts s' = num_mounts s;
  sb_sectors : sectors (disk_of s' d) = sectors (disk_of s d);
  sb_other : ∀ d', d' ≠ d → dev_valid d' → disk_of s' d' = disk_of s d'
}.

Lemma same_base_refl s d : devs_ok s → same_base s s d.
Proof. by constructor. Qed.

Lemma same_base_trans s1 s2 s3 d : same_base s1 s2 d → same_base s2 s3 d → same_base s1 s3 d.
Proof.
  intros [] []. constructor; [done|congruence| |congruence|].
  - split; [destruct sb_mounts0, sb_mounts1; congruence..].
  - intros d' ? ?. rewrite sb_other1 by done. by apply sb_other0.
Qed.

Lemma same_base_fset s d b buf :
  devs_ok s → dev_valid d → block_buf buf → same_base s (fset d b buf s) d.
Proof.
  intros. constructor; try done; [by apply devs_ok_fset|..].
  - rewrite disk_of_fset by done. by rewrite decide_True.
  - intros. rewrite disk_of_fset by done. by rewrite decide_False.
Qed.

Lemma same_base_table s d f : devs_ok s → same_base s (set_inode_table f s) d.
Proof. by constructor. Qed.

Section same_base.
Context (s s' : fs) (d : Z) (HB : same_base s s' d).

Lemma same_base_sbof d' : sbof s' d' = sbof s d'.
Proof using HB. unfold sbof. by rewrite (sb_sb _ _ _ HB). Qed.
Lemma same_base_inode_ok n : inode_ok s' d n ↔ inode_ok s d n.
Proof using HB. unfold inode_ok. by rewrite same_base_sbof. Qed.
Lemma same_base_fits b : fits s' d b ↔ fits s d b.
Proof using HB. unfold fits. by rewrite (sb_sectors _ _ _ HB). Qed.
Lemma same_base_data_blk b : data_blk s' d b ↔ data_blk s d b.
Proof using HB. unfold data_blk. by rewrite same_base_fits, same_base_sbof. Qed.
Lemma same_base_geom : geom_ok (sbof s d) (disk_of s d) → geom_ok (sbof s' d) (disk_of s' d).
Proof using HB. unfold geom_ok. by rewrite same_base_sbof, (sb_sectors _ _ _ HB). Qed.
End same_base.

(** ** Facts read off the invariant *)

(** What the bitmap operations need of the device, pointers aside. *)
Record bm_ok (s : fs) (d : Z) : Prop := BmOk {
  bm_devs : devs_ok s;
  bm_dev : dev_valid d;
  bm_sb : length (sb s) = 2%nat;
  bm_geom : geom_ok (sbof s d) (disk_of s d)
}.

Lemma wf_bm_ok s d A : wf s d A → bm_ok s d.
Proof. intros []. by constructor. Qed.

Lemma bm_ok_base s s' d : bm_ok s d → same_base s s' d → bm_ok s' d.
Proof.
  intros [] HB. constructor; [apply HB|done| |by eapply same_base_geom].
  by rewrite (sb_sb _ _ _ HB).
Qed.

Section bm_facts.
Context (s : fs) (d : Z) (B : bm_ok s d).

Lemma bm_sb_lookup : zlookup (sb s) d = Some (sbof s d).
Proof using B.
  destruct B as [_ [? ?] Hl _]. rewrite zlookup_nat by lia.
  apply list_lookup_lookup_total_lt. lia.
Qed.

Lemma bm_fits : fits s d (bmapstart (sbof s d)).
Proof using B. destruct (bm_geom _ _ B) as (? & ? & ? & ? & ?). unfold fits. lia. Qed.

Lemma bitmap_lookup b :
  0 ≤ b < 8192 → zlookup (bitmap s d) (b / 8) = Some (bitmap s d !!! Z.to_nat (b / 8)).
Proof using B.
  intros Hb. assert (0 ≤ b / 8 < 1024)
    by (split; [apply Z.div_pos|apply Z.div_lt_upper_bound]; lia).
  rewrite zlookup_nat by lia. apply list_lookup_lookup_total_lt. unfold bitmap.
  destruct (fblk_ok s d (bmapstart (sbof s d)) (bm_devs _ _ B) (bm_dev _ _ B)) as [-> _]. lia.
Qed.
End bm_facts.

Section wf_facts.
Context (s : fs) (d : Z) (A : Z → ikey) (W : wf s d A).

Lemma inode_block_range n :
  inode_ok s d n →
  inode_block (sbof s d) n = inodestart (sbof s d) + n / 8 ∧
  inodestart (sbof s d) + n / 8 < bmapstart (sbof s d) ∧ 2 ≤ inodestart (sbof s d) + n / 8.
Proof using W.
  intros [Hn1 Hn2]. destruct (wf_geom _ _ _ W) as (? & ? & ? & ? & ?).
  unfold imax, inode_block in *. consts.
  assert (0 ≤ n / 8) by (apply Z.div_pos; lia).
  assert (n / 8 < bmapstart (sbof s d) - inodestart (sbof s d))
    by (apply Z.div_lt_upper_bound; lia).
  rewrite u32_small by lia. lia.
Qed.

Lemma inode_block_fits n : inode_ok s d n → fits s d (inode_block (sbof s d) n).
Proof using W.
  intros Hn. destruct (inode_block_range n Hn) as (-> & ? & ?).
  destruct (bm_fits s d (wf_bm_ok _ _ _ W)). unfold fits. lia.
Qed.

Lemma data_blk_not_inode b n : data_blk s d b → inode_ok s d n → b ≠ inode_block (sbof s d) n.
Proof using W. intros [? _] Hn. destruct (inode_block_range n Hn) as (-> & ? & ?). lia. Qed.

Lemma wf_ptr_range n sl :
  inode_ok s d n → slot_ok sl → 0 ≤ pv s d (k_addrs (A n)) sl < 8192.
Proof using W.
  intros Hn Hsl. destruct (decide (pv s d (k_addrs (A n)) sl = 0)) as [->|Hv]; [lia|].
  destruct (wf_ptr _ _ _ W n sl Hn Hsl Hv) as [[? [? _]] _]. lia.
Qed.
End wf_facts.

Lemma inode_offset_range n : 0 ≤ n → 0 ≤ inode_offset n ∧ inode_offset n + 128 ≤ 1024.
Proof.
  intros. unfold inode_offset. consts.
  pose proof (Z.mod_pos_bound n 8). lia.
Qed.

Lemma inode_offset_disjoint n m :
  n / 8 = m / 8 → n ≠ m →
  inode_offset m + 128 ≤ inode_offset n ∨ inode_offset n + 128 ≤ inode_offset m.
Proof.
  intros E Hne. unfold inode_offset. consts.
  pose proof (Z.div_mod n 8). pose proof (Z.div_mod m 8). lia.
Qed.
