(* ===== verification/FsAlloc.v ===== *)
(** * The block allocator

    [balloc] and [bfree] against the bitmap, and the frame lemmas that say which
    writes leave the pointer trees alone. *)

From S2P Require Import Prelude FsTypes Block Inode FsInv.

(** ** Bits of a bitmap *)

Lemma testbit_pow2 k j : 0 ≤ k → 0 ≤ j → Z.testbit (Z.shiftl 1 k) j = bool_decide (j = k).
Proof.
  intros Hk Hj. rewrite Z.shiftl_spec by done.
  destruct (decide (j = k)) as [->|Hne].
  - by rewrite Z.sub_diag, bool_decide_true.
  - rewrite bool_decide_false by done.
    destruct (decide (j < k)); [apply Z.testbit_neg_r; lia|].
    change 1 with (2 ^ 0). apply Z.pow2_bits_false. lia.
Qed.

Lemma bit_clear_testbit y k : 0 ≤ k → bit_clear y k = negb (Z.testbit y k).
Proof.
  intros Hk. unfold bit_clear. destruct (Z.testbit y k) eqn:E; cbn.
  - apply Z.eqb_neq. intros Hz. apply (f_equal (λ z, Z.testbit z k)) in Hz.
    rewrite Z.land_spec, testbit_pow2, bool_decide_true, E, Z.bits_0 in Hz by done. done.
  - apply Z.eqb_eq. apply Z.bits_inj'. intros j Hj.
    rewrite Z.land_spec, testbit_pow2, Z.bits_0 by done.
    destruct (decide (j = k)) as [->|]; [by rewrite E|].
    by rewrite bool_decide_false, andb_false_r.
Qed.

Lemma byte_bits y : is_byte y ↔ 0 ≤ y ∧ ∀ j, 8 ≤ j → Z.testbit y j = false.
Proof.
  unfold is_byte. split.
  - intros [H0 H8]. split; [done|]. intros j Hj.
    destruct (decide (y = 0)) as [->|]; [apply Z.bits_0|].
    apply Z.bits_above_log2; [done|]. assert (Z.log2 y < 8); [|lia].
    apply Z.log2_lt_pow2; lia.
  - intros [H0 Hb]. split; [done|].
    assert (y = y mod 2 ^ 8) as ->; [|apply Z.mod_pos_bound; lia].
    apply Z.bits_inj'. intros j Hj. destruct (decide (j < 8)).
    + by rewrite Z.mod_pow2_bits_low by lia.
    + rewrite Z.mod_pow2_bits_high by lia. apply Hb. lia.
Qed.

Definition set_bit (k y : Z) : Z := Z.lor y (Z.shiftl 1 k).
Definition clear_bit (k y : Z) : Z := Z.land y (u8 (Z.lnot (Z.shiftl 1 k))).

Lemma set_bit_spec k y j :
  0 ≤ k → 0 ≤ j → Z.testbit (set_bit k y) j = if decide (j = k) then true else Z.testbit y j.
Proof.
  intros. unfold set_bit. rewrite Z.lor_spec, testbit_pow2 by done.
  case_decide; [by rewrite bool_decide_true, orb_true_r|by rewrite bool_decide_false, orb_false_r].
Qed.

Lemma clear_bit_spec k y j :
  0 ≤ k → 0 ≤ j < 8 →
  Z.testbit (clear_bit k y) j = if decide (j = k) then false else Z.testbit y j.
Proof.
  intros. unfold clear_bit, u8. rewrite Z.land_spec. change 256 with (2 ^ 8).
  rewrite Z.mod_pow2_bits_low, Z.lnot_spec, testbit_pow2 by lia.
  case_decide; [by rewrite bool_decide_true, andb_false_r|].
  by rewrite bool_decide_false, andb_true_r.
Qed.

Lemma set_bit_byte k y : 0 ≤ k < 8 → is_byte y → is_byte (set_bit k y).
Proof.
  rewrite !byte_bits. intros Hk [H0 Hb]. split.
  - unfold set_bit. apply Z.lor_nonneg. split; [done|]. apply Z.shiftl_nonneg. lia.
  - intros j Hj. rewrite set_bit_spec, decide_False by lia. by apply Hb.
Qed.

Lemma clear_bit_byte k y : is_byte y → is_byte (clear_bit k y).
Proof.
  rewrite !byte_bits. intros [H0 Hb]. split.
  - unfold clear_bit. apply Z.land_nonneg. by left.
  - intros j Hj. unfold clear_bit. rewrite Z.land_spec, Hb by done. done.
Qed.

(** Bit [b] of a buffer. *)
Definition buf_bit (buf : list Z) (b : Z) : bool :=
  Z.testbit (buf !!! Z.to_nat (b / 8)) (b mod 8).

Lemma buf_bit_update f v buf b b' :
  length buf = 1024%nat → 0 ≤ b < 8192 → 0 ≤ b' < 8192 →
  (∀ y j, 0 ≤ j < 8 → Z.testbit (f y) j = if decide (j = b mod 8) then v else Z.testbit y j) →
  buf_bit (zupdate (b / 8) f buf) b' = if decide (b' = b) then v else buf_bit buf b'.
Proof.
  intros Hl Hb Hb' Hf. unfold buf_bit, zupdate.
  pose proof (Z.div_mod b 8). pose proof (Z.div_mod b' 8).
  pose proof (Z.mod_pos_bound b 8). pose proof (Z.mod_pos_bound b' 8).
  destruct (decide (b' / 8 = b / 8)) as [E|E].
  - rewrite E. erewrite list_lookup_total_correct.
    2:{ rewrite list_lookup_alter_eq. erewrite list_lookup_lookup_total_lt by lia. done. }
    rewrite Hf by lia. repeat case_decide; try lia; done.
  - rewrite decide_False by (intros ->; done).
    rewrite !list_lookup_total_alt. by rewrite list_lookup_alter_ne by lia.
Qed.

Lemma block_buf_zupdate f buf i :
  block_buf buf → (∀ y, is_byte y → is_byte (f y)) → block_buf (zupdate i f buf).
Proof.
  intros [Hl Hb] Hf. unfold zupdate. split; [by rewrite length_alter|].
  apply Forall_alter; [done|]. intros. by apply Hf.
Qed.

Lemma block_buf_zeros : block_buf (zeros 1024).
Proof. split; [apply length_zeros|apply bytes_zeros]. Qed.
#[export] Hint Resolve block_buf_zeros : kernel.

(** ** Frames *)

(** The pointer tree of an inode only depends on its table blocks. *)
Lemma pv_frame s s' d a :
  (∀ sl, slot_ok sl → is_node sl = true → pv s d a sl ≠ 0 →
     fblk s' d (pv s d a sl) = fblk s d (pv s d a sl)) →
  ∀ sl, slot_ok sl → pv s' d a sl = pv s d a sl.
Proof.
  intros Hf.
  assert (He : ∀ sl j, slot_ok sl → is_node sl = true →
    entry s' d (pv s d a sl) j = entry s d (pv s d a sl) j).
  { intros sl j Hok Hn. unfold entry. destruct (Z.eqb_spec (pv s d a sl) 0); [done|].
    by rewrite Hf. }
  assert (HD : ∀ j, pv s' d a (DInd j) = pv s d a (DInd j)).
  { intros j. apply (He (Root (NDIRECT + 1)) j); [|done]. cbn. consts. lia. }
  intros [i|j|j|j k] Hok; [done| |done|].
  - apply (He (Root NDIRECT) j); [|done]. cbn. consts. lia.
  - cbn in Hok. change (entry s' d (pv s' d a (DInd j)) k = entry s d (pv s d a (DInd j)) k).
    rewrite HD. apply He; [cbn; lia|done].
Qed.

(** Moving the invariant to a state with the same pointers and, for the blocks
    in use, the same bits. *)
Lemma wf_transfer s s' d A A' :
  wf s d A → same_base s s' d →
  (∀ n, inode_ok s d n → length (k_addrs (A' n)) = 14%nat) →
  (∀ n sl, inode_ok s d n → slot_ok sl →
     pv s' d (k_addrs (A' n)) sl = pv s d (k_addrs (A n)) sl) →
  (∀ b, 0 ≤ b < 8192 → allocated s d b = true → allocated s' d b = true) →
  wf s' d A'.
Proof.
  intros W HB Hl Hp Hbit. pose proof (wf_geom _ _ _ W) as (? & ? & ? & ? & ?).
  constructor; try (by apply W || by apply HB).
  - rewrite (sb_sb _ _ _ HB). apply W.
  - apply (same_base_geom _ _ _ HB), W.
  - intros n Hn. apply Hl. by rewrite <-(same_base_inode_ok _ _ _ HB).
  - intros b Hb. rewrite (same_base_sbof _ _ _ HB) in Hb. apply Hbit; [lia|]. by apply W.
  - intros n sl Hn%(same_base_inode_ok _ _ _ HB) Hsl. rewrite Hp by done. intros Hv.
    destruct (wf_ptr _ _ _ W n sl Hn Hsl Hv) as [Hd Ha].
    split; [by apply (same_base_data_blk _ _ _ HB)|]. apply Hbit; [|done].
    by apply (wf_ptr_range _ _ _ W).
  - intros n sl n' sl' Hn%(same_base_inode_ok _ _ _ HB) Hn'%(same_base_inode_ok _ _ _ HB) Hsl Hsl'.
    rewrite !Hp by done. by apply W.
Qed.

(** A block no table pointer designates. *)
Definition not_table (s : fs) (d : Z) (A : Z → ikey) (b : Z) : Prop :=
  ∀ n sl, inode_ok s d n → slot_ok sl → is_node sl = true → pv s d (k_addrs (A n)) sl ≠ 0 →
    pv s d (k_addrs (A n)) sl ≠ b.

(** Overwriting such a block moves no pointer. *)
Lemma pv_fset s d A b buf n sl :
  wf s d A → not_table s d A b → inode_ok s d n → slot_ok sl →
  pv (fset d b buf s) d (k_addrs (A n)) sl = pv s d (k_addrs (A n)) sl.
Proof.
  intros W Hb Hn Hsl. apply pv_frame; [|done].
  intros sl' Hsl' Hnode Hv. apply fblk_fset_ne; [apply W..|].
  intros E. eapply Hb; [exact Hn|exact Hsl'|..]; done.
Qed.

Lemma unallocated_not_table s d A b : wf s d A → allocated s d b = false → not_table s d A b.
Proof.
  intros W Hb n sl Hn Hsl _ Hv E. destruct (wf_ptr _ _ _ W n sl Hn Hsl Hv) as [_ Ha].
  rewrite E in Ha. congruence.
Qed.

Lemma meta_not_table s d A b : wf s d A → b ≤ bmapstart (sbof s d) → not_table s d A b.
Proof.
  intros W Hb n sl Hn Hsl _ Hv E. destruct (wf_ptr _ _ _ W n sl Hn Hsl Hv) as [[? _] _]. lia.
Qed.

(** A block a file holds data in is no table block. *)
Lemma leaf_not_table s d A n sl :
  wf s d A → inode_ok s d n → slot_ok sl → is_node sl = false →
  pv s d (k_addrs (A n)) sl ≠ 0 → not_table s d A (pv s d (k_addrs (A n)) sl).
Proof.
  intros W Hn Hsl Hl Hv m sl' Hm Hsl' Hnode Hv' E.
  destruct (wf_inj _ _ _ W m sl' n sl) as [_ ->]; try done. congruence.
Qed.

(** ** [balloc] *)

Record balloc_post (s : fs) (d b : Z) (s' : fs) : Prop := BallocPost {
  ba_base : same_base s s' d;
  ba_table : inode_table s' = inode_table s;
  ba_data : data_blk s d b;
  ba_limit : b < nblocks (sbof s d);
  ba_first : ∀ b', 0 ≤ b' < b → allocated s d b' = true;
  ba_free : allocated s d b = false;
  ba_bits : ∀ b', 0 ≤ b' < 8192 →
    allocated s' d b' = if decide (b' = b) then true else allocated s d b';
  ba_zero : fblk s' d b = zeros 1024;
  ba_rest : ∀ b', b' ≠ b → b' ≠ bmapstart (sbof s d) → fblk s' d b' = fblk s d b'
}.

(** The scan finds the first clear bit below [nblocks]. *)
Lemma balloc_scan_wp s d A (Q : option Z → fs → Prop) R :
  wf s d A →
  (∀ b, 0 ≤ b < nblocks (sbof s d) → allocated s d b = false →
     (∀ b', 0 ≤ b' < b → allocated s d b' = true) → Q (Some b) s) →
  ((∀ b, 0 ≤ b < nblocks (sbof s d) → allocated s d b = true) → Q None s) →
  wp (loop (S (Z.to_nat (nblocks (sbof s d)))) (balloc_scan (sbof s d) (bitmap s d)) 0) Q R s.
Proof.
  intros W Hfound Hnone. pose proof (wf_geom _ _ _ W) as (? & ? & ? & ? & ?).
  eapply wp_loop with (k := Z.to_nat (nblocks (sbof s d))) (I := λ k b s', s' = s ∧
    0 ≤ b ≤ nblocks (sbof s d) ∧ k = Z.to_nat (nblocks (sbof s d) - b) ∧
    ∀ b', 0 ≤ b' < b → allocated s d b' = true); [|repeat split; lia|lia].
  intros k b s0 (-> & Hb & -> & Hall). unfold balloc_scan. zcase.
  - wp_step. eapply wp_expect; [apply bitmap_lookup; [by eapply wf_bm_ok|lia]|].
    pose proof (Z.mod_pos_bound b 8). rewrite bit_clear_testbit by lia.
    fold (allocated s d b). destruct (allocated s d b) eqn:E; cbn [negb].
    + apply wp_ret. eexists. split; [|repeat split]; rewrite ?u32_small by lia; [lia..|].
      intros b' Hb'. destruct (decide (b' = b)) as [->|]; [done|]. apply Hall. lia.
    + apply wp_ret. apply Hfound; [lia|done..].
  - apply wp_ret. apply Hnone. intros. apply Hall. lia.
Qed.

Lemma allocated_buf_bit s d b : allocated s d b = buf_bit (bitmap s d) b.
Proof. done. Qed.

Lemma balloc_wp s d A (Q : Z → fs → Prop) (R : fs → Prop) :
  wf s d A →
  (∀ b s', balloc_post s d b s' → Q b s') →
  ((∀ b, 0 ≤ b < nblocks (sbof s d) → allocated s d b = true) → R s) →
  wp (balloc d) Q R s.
Proof.
  intros W HQ HR. pose proof (wf_geom _ _ _ W) as (? & ? & ? & ? & ?).
  pose proof (wf_devs _ _ _ W) as Hdv. pose proof (wf_dev _ _ _ W) as Hd.
  unfold balloc. wp_step. wp_step. wp_step. eapply wp_expect; [by eapply bm_sb_lookup, wf_bm_ok|].
  wp_step. apply wp_read_block; [done..|by eapply bm_fits, wf_bm_ok|]. fold (bitmap s d).
  wp_step. eapply balloc_scan_wp; [done| |]; [|intros; by apply wp_panic, HR].
  intros b Hb Hfree Hfirst.
  assert (bmapstart (sbof s d) < b).
  { destruct (decide (b ≤ bmapstart (sbof s d))); [|lia].
    rewrite (wf_meta _ _ _ W) in Hfree by lia. done. }
  assert (Hfit : fits s d b) by (unfold fits; lia).
  pose proof (Z.mod_pos_bound b 8).
  assert (Hbuf : block_buf (zupdate (b / 8) (set_bit (b mod 8)) (bitmap s d))).
  { apply block_buf_zupdate; [by apply fblk_ok|]. intros. by apply set_bit_byte; [lia|]. }
  change (λ y, Z.lor y (Z.shiftl 1 (b mod 8))) with (set_bit (b mod 8)).
  wp_step. apply wp_write_block; [done..|by eapply bm_fits, wf_bm_ok|].
  wp_step. apply wp_write_block; [by apply devs_ok_fset|done|by apply fits_fset|].
  apply wp_ret, HQ.
  set (s1 := fset d (bmapstart (sbof s d)) _ s). assert (Hd1 : devs_ok s1) by by apply devs_ok_fset.
  constructor; try done.
  - eapply same_base_trans; [by apply same_base_fset|].
    apply same_base_fset; auto with kernel.
  - split; [lia|done].
  - lia.
  - intros b' Hb'. unfold allocated at 1, bitmap. change (sbof (fset _ _ _ s1) d) with (sbof s d).
    rewrite fblk_fset_ne by (done || lia). unfold s1. rewrite fblk_fset_eq by done.
    apply (buf_bit_update (set_bit (b mod 8)) true); [|lia..|].
    + by apply fblk_ok.
    + intros. apply set_bit_spec; lia.
  - apply fblk_fset_eq; auto with kernel.
  - intros b' Hne Hnb. rewrite fblk_fset_ne by done. unfold s1. by rewrite fblk_fset_ne.
Qed.

(** The allocation disturbs no pointer, and the invariant survives with the new
    block not yet in use. *)
Lemma balloc_pv s d A b s' n sl :
  wf s d A → balloc_post s d b s' → inode_ok s d n → slot_ok sl →
  pv s' d (k_addrs (A n)) sl = pv s d (k_addrs (A n)) sl.
Proof.
  intros W H Hn Hsl. apply pv_frame; [|done]. intros sl' Hsl' Hnode Hv.
  apply (ba_rest _ _ _ _ H).
  - by eapply unallocated_not_table; [|apply H|..].
  - by eapply meta_not_table; [|reflexivity|..].
Qed.

Lemma balloc_wf s d A b s' : wf s d A → balloc_post s d b s' → wf s' d A.
Proof.
  intros W H. eapply wf_transfer; [done|apply H|apply W|by intros; apply balloc_pv with b|].
  intros b' Hb' Ha. rewrite (ba_bits _ _ _ _ H) by done. by case_decide.
Qed.

(** ** [bfree] *)

Record bfree_post (s : fs) (d b : Z) (s' : fs) : Prop := BfreePost {
  bf_base : same_base s s' d;
  bf_table : inode_table s' = inode_table s;
  bf_bits : ∀ b', 0 ≤ b' < 8192 →
    allocated s' d b' = if decide (b' = b) then false else allocated s d b';
  bf_rest : ∀ b', b' ≠ bmapstart (sbof s d) → fblk s' d b' = fblk s d b'
}.

Lemma bfree_wp s d b (Q : unit → fs → Prop) R :
  bm_ok s d → 0 ≤ b < 8192 → allocated s d b = true →
  (∀ s', bfree_post s d b s' → Q tt s') → wp (bfree d b) Q R s.
Proof.
  intros B Hb Ha HQ. pose proof (bm_devs _ _ B) as Hdv. pose proof (bm_dev _ _ B) as Hd.
  unfold bfree. wp_step. wp_step. wp_step. eapply wp_expect; [by apply bm_sb_lookup|].
  wp_step. apply wp_read_block; [done..|by apply bm_fits|]. fold (bitmap s d).
  wp_step. eapply wp_expect; [by apply bitmap_lookup|].
  pose proof (Z.mod_pos_bound b 8). rewrite bit_clear_testbit by lia.
  fold (allocated s d b). rewrite Ha. cbn [negb].
  change (λ y, Z.land y (u8 (Z.lnot (Z.shiftl 1 (b mod 8))))) with (clear_bit (b mod 8)).
  assert (Hbuf : block_buf (zupdate (b / 8) (clear_bit (b mod 8)) (bitmap s d))).
  { apply block_buf_zupdate; [by apply fblk_ok|]. intros. by apply clear_bit_byte. }
  apply wp_write_block; [done..|by apply bm_fits|]. apply HQ. constructor; try done.
  - by apply same_base_fset.
  - intros b' Hb'. unfold allocated at 1, bitmap. change (sbof (fset _ _ _ s) d) with (sbof s d).
    rewrite fblk_fset_eq by done.
    apply (buf_bit_update (clear_bit (b mod 8)) false); [by apply fblk_ok|lia..|].
    intros. apply clear_bit_spec; lia.
  - intros b' Hne. by rewrite fblk_fset_ne.
Qed.
