(* ===== verification/FsMap.v ===== *)
(** * The block map

    How single pointer updates act on the pointer trees, the relation between
    cached, stored and logical inodes, and the specifications of [iupdate],
    [bmap] and [bmap_alloc]. *)

From S2P Require Import Prelude FsTypes Block Inode FsInv FsAlloc.

(** ** Changing one pointer *)

Lemma wf_update s s' d A A' n sl v :
  wf s d A → same_base s s' d → inode_ok s d n → slot_ok sl →
  (∀ m, inode_ok s d m → length (k_addrs (A' m)) = 14%nat) →
  (∀ m sl', inode_ok s d m → slot_ok sl' →
     pv s' d (k_addrs (A' m)) sl' =
     if decide (m = n ∧ sl' = sl) then v else pv s d (k_addrs (A m)) sl') →
  (∀ b, 0 ≤ b < 8192 → allocated s d b = true →
     b ≠ pv s d (k_addrs (A n)) sl ∨ pv s d (k_addrs (A n)) sl = 0 → allocated s' d b = true) →
  (v ≠ 0 → data_blk s d v ∧ allocated s' d v = true ∧
     ∀ m sl', inode_ok s d m → slot_ok sl' → pv s d (k_addrs (A m)) sl' ≠ v) →
  wf s' d A'.
Proof.
  intros W HB Hn Hsl Hl Hp Hbit Hv. pose proof (wf_geom _ _ _ W) as (? & ? & ? & ? & ?).
  constructor; try (by apply W || by apply HB).
  - rewrite (sb_sb _ _ _ HB). apply W.
  - apply (same_base_geom _ _ _ HB), W.
  - intros m Hm. apply Hl. by rewrite <-(same_base_inode_ok _ _ _ HB).
  - intros b Hb. rewrite (same_base_sbof _ _ _ HB) in Hb.
    apply Hbit; [lia|by apply W|].
    destruct (decide (pv s d (k_addrs (A n)) sl = 0)) as [?|Hold]; [by right|left].
    destruct (wf_ptr _ _ _ W n sl Hn Hsl Hold) as [[? _] _]. lia.
  - intros m sl' Hm%(same_base_inode_ok _ _ _ HB) Hsl'. rewrite Hp by done.
    rewrite (same_base_data_blk _ _ _ HB). case_decide as Hd; [intros Hw; by destruct (Hv Hw) as (? & ? & _)|].
    intros Hw. destruct (wf_ptr _ _ _ W m sl' Hm Hsl' Hw) as [Hdat Hal].
    split; [done|]. apply Hbit; [by apply (wf_ptr_range _ _ _ W)|done|].
    destruct (decide (pv s d (k_addrs (A n)) sl = 0)) as [?|Hold]; [by right|left].
    intros E. apply Hd. by apply (wf_inj _ _ _ W).
  - intros m sl1 m' sl2 Hm%(same_base_inode_ok _ _ _ HB) Hm'%(same_base_inode_ok _ _ _ HB) Hs1 Hs2.
    rewrite !Hp by done. repeat case_decide; destruct_and?; subst; intros Hw E.
    + done.
    + destruct (Hv Hw) as (_ & _ & Hu). exfalso. by apply (Hu m' sl2).
    + rewrite E in Hw. destruct (Hv Hw) as (_ & _ & Hu). exfalso. by apply (Hu m sl1).
    + by apply (wf_inj _ _ _ W).
Qed.

Lemma lookup_total_insert (a : list Z) (i j : nat) v :
  (i < length a)%nat → <[i:=v]> a !!! j = if decide (j = i) then v else a !!! j.
Proof.
  intros Hi. case_decide as E; [subst; by apply list_lookup_total_insert_eq|].
  by rewrite list_lookup_total_insert_ne.
Qed.

(** Assigning [addrs[i] = v] in the inode. *)
Lemma pv_set_root s d a i v sl :
  length a = 14%nat → 0 ≤ i < 14 → slot_ok sl →
  (∀ j, 0 ≤ j < 256 → is_node (Root i) = true →
     entry s d v j = pv s d a (child (Root i) j)) →
  pv s d (<[Z.to_nat i := v]> a) sl = if decide (sl = Root i) then v else pv s d a sl.
Proof.
  intros Hl Hi Hsl Hsub.
  assert (Hr : ∀ k, 0 ≤ k < 14 →
    <[Z.to_nat i := v]> a !!! Z.to_nat k = if decide (k = i) then v else a !!! Z.to_nat k).
  { intros k Hk. rewrite lookup_total_insert by lia. repeat case_decide; lia || done. }
  assert (He : ∀ k j, is_node (Root k) = true → 0 ≤ k < 14 → 0 ≤ j < 256 →
    entry s d (<[Z.to_nat i := v]> a !!! Z.to_nat k) j = pv s d a (child (Root k) j)).
  { intros k j Hk Hk' Hj. rewrite Hr by done. case_decide; [subst; by apply Hsub|].
    by rewrite pv_child. }
  destruct sl as [k|j|j|j k]; cbn [pv]; cbn in Hsl.
  - rewrite Hr by done. repeat case_decide; congruence.
  - rewrite He by (done || (consts; lia)). by case_decide.
  - rewrite He by (done || (consts; lia)). by case_decide.
  - rewrite He by (done || (consts; lia)). by case_decide.
Qed.

(** Assigning [table[j] = v] in the block a table slot designates. *)
Lemma pv_set_entry s d A n nd j v m sl :
  wf s d A → inode_ok s d n → slot_ok nd → is_node nd = true →
  pv s d (k_addrs (A n)) nd ≠ 0 → 0 ≤ j < 256 → 0 ≤ v < 4294967296 →
  v ≠ pv s d (k_addrs (A n)) nd →
  (∀ k, 0 ≤ k < 256 → is_node (child nd j) = true →
     entry s d v k = pv s d (k_addrs (A n)) (child (child nd j) k)) →
  inode_ok s d m → slot_ok sl →
  pv (fset d (pv s d (k_addrs (A n)) nd)
        (set_word (fblk s d (pv s d (k_addrs (A n)) nd)) j v) s) d (k_addrs (A m)) sl =
  if decide (m = n ∧ sl = child nd j) then v else pv s d (k_addrs (A m)) sl.
Proof.
  intros W Hn Hnd Hnode Ht Hj Hv Hvt Hsub Hm.
  set (t := pv s d (k_addrs (A n)) nd) in *. set (s' := fset d t _ s).
  assert (Hblk : block_buf (fblk s d t)) by (apply fblk_ok; apply W).
  assert (Hlen : (4 * Z.to_nat j + 4 ≤ length (fblk s d t))%nat) by (destruct Hblk as [-> _]; lia).
  assert (Hbuf : block_buf (set_word (fblk s d t) j v)).
  { destruct Hblk. split; [by rewrite length_set_word by lia|by apply bytes_set_word]. }
  (* entries seen through a pointer that kept its value *)
  assert (He : ∀ nd' k, slot_ok nd' → is_node nd' = true → 0 ≤ k < 256 →
    entry s' d (pv s d (k_addrs (A m)) nd') k =
    if decide (m = n ∧ nd' = nd ∧ k = j) then v
    else pv s d (k_addrs (A m)) (child nd' k)).
  { intros nd' k Hok' Hnode' Hk. rewrite pv_child by done. unfold entry.
    destruct (Z.eqb_spec (pv s d (k_addrs (A m)) nd') 0) as [E0|E0].
    { rewrite decide_False; [done|]. intros (-> & -> & _). done. }
    destruct (decide (pv s d (k_addrs (A m)) nd' = t)) as [E|E].
    - destruct (wf_inj _ _ _ W m nd' n nd) as [-> ->]; try done. fold t. unfold s'.
      rewrite fblk_fset_eq by (apply W || done).
      destruct (decide (k = j)) as [->|Hkj].
      + rewrite decide_True by done. by apply word_at_set_word_eq; [lia|..].
      + rewrite decide_False by tauto. by apply word_at_set_word_ne; [lia..|].
    - unfold s'. rewrite fblk_fset_ne by (apply W || done).
      rewrite decide_False; [done|]. intros (-> & -> & _). done. }
  assert (HD : ∀ k, 0 ≤ k < 256 → pv s' d (k_addrs (A m)) (DInd k) =
    if decide (m = n ∧ nd = Root (NDIRECT + 1) ∧ k = j) then v
    else pv s d (k_addrs (A m)) (DInd k)).
  { intros k Hk. change (pv s' d (k_addrs (A m)) (DInd k))
      with (entry s' d (pv s d (k_addrs (A m)) (Root (NDIRECT + 1))) k).
    rewrite He by (done || (cbn; consts; lia)). repeat case_decide; destruct_and?; subst; tauto || done. }
  destruct sl as [i|k|k|k k']; cbn [slot_ok]; intros Hsl.
  - rewrite decide_False; [done|]. intros [_ E]. by destruct nd; cbn in E; repeat case_match.
  - change (pv s' d (k_addrs (A m)) (Ind k))
      with (entry s' d (pv s d (k_addrs (A m)) (Root NDIRECT)) k).
    rewrite He by (done || (cbn; consts; lia)).
    destruct (decide (m = n ∧ Root NDIRECT = nd ∧ k = j)) as [(-> & <- & ->)|Hne].
    + by rewrite decide_True.
    + rewrite decide_False; [done|]. intros [-> E]. apply Hne. split; [done|].
      change (Ind k) with (child (Root NDIRECT) k) in E.
      apply child_inj in E as [<- <-]; done.
  - rewrite HD by done.
    destruct (decide (m = n ∧ nd = Root (NDIRECT + 1) ∧ k = j)) as [(-> & -> & ->)|Hne].
    + by rewrite decide_True.
    + rewrite decide_False; [done|]. intros [-> E]. apply Hne. split; [done|].
      change (DInd k) with (child (Root (NDIRECT + 1)) k) in E.
      apply child_inj in E as [<- <-]; done.
  - change (pv s' d (k_addrs (A m)) (DLeaf k k'))
      with (entry s' d (pv s' d (k_addrs (A m)) (DInd k)) k'). rewrite HD by lia.
    destruct (decide (m = n ∧ nd = Root (NDIRECT + 1) ∧ k = j)) as [(-> & E & ->)|Hne].
    + rewrite decide_False by (intros [_ E']; subst nd; done).
      subst nd. specialize (Hsub k').
      change (child (child (Root (NDIRECT + 1)) j) k') with (DLeaf j k') in Hsub.
      rewrite <-Hsub by (done || lia).
      unfold entry. destruct (v =? 0); [done|]. unfold s'. by rewrite fblk_fset_ne by (apply W || done).
    + rewrite He by (done || (cbn; lia)). cbn [child].
      destruct (decide (m = n ∧ DInd k = nd ∧ k' = j)) as [(-> & <- & ->)|Hne'].
      * by rewrite decide_True.
      * rewrite decide_False; [done|]. intros [-> E]. apply Hne'. split; [done|].
        change (DLeaf k k') with (child (DInd k) k') in E.
        apply child_inj in E as [<- <-]; done.
Qed.

(** ** Stored, cached and logical inodes *)

(** The cache: no inode twice, reference counts and fields in range. *)
Record cache_ok (t : list inode) : Prop := CacheOk {
  co_uniq : ∀ i j ip jp, t !! i = Some ip → t !! j = Some jp →
    0 < ref ip → 0 < ref jp → dev ip = dev jp → inum ip = inum jp → i = j;
  co_din : ∀ i ip, t !! i = Some ip → dinode_ok (din ip);
  co_ref : ∀ i ip, t !! i = Some ip → 0 ≤ ref ip
}.

(** Refilling an entry without changing what it stands for. *)
Lemma cache_ok_alter t i f :
  cache_ok t →
  (∀ ip, t !! i = Some ip → dev (f ip) = dev ip ∧ inum (f ip) = inum ip ∧ ref (f ip) = ref ip ∧
     dinode_ok (din (f ip))) →
  cache_ok (alter f i t).
Proof.
  intros HC Hf.
  assert (Ht : ∀ k kp, alter f i t !! k = Some kp → ∃ kp', t !! k = Some kp' ∧
    ref kp' = ref kp ∧ dev kp' = dev kp ∧ inum kp' = inum kp ∧ dinode_ok (din kp)).
  { intros k kp. destruct (decide (k = i)) as [->|Hki].
    - rewrite list_lookup_alter_eq. destruct (t !! i) as [ip|] eqn:E; [|done].
      intros [= <-]. destruct (Hf ip eq_refl) as (-> & -> & -> & ?). by exists ip.
    - rewrite list_lookup_alter_ne by done. intros Hk. exists kp. repeat (split; [done|]).
      by apply (co_din _ HC k). }
  constructor.
  - intros j j' jp jp' Hj Hj'. apply Ht in Hj as (? & ? & <- & <- & <- & _).
    apply Ht in Hj' as (? & ? & <- & <- & <- & _). by apply (co_uniq _ HC).
  - intros k kp Hk. by apply Ht in Hk as (_ & _ & _ & _ & _ & ?).
  - intros k kp Hk. apply Ht in Hk as (? & ? & <- & _). by apply (co_ref _ HC k).
Qed.

(** The state represents the logical inodes [A]: on the device for the inodes in
    [C], and in every valid cache entry; no inode is cached twice. *)
Record rep (s : fs) (d : Z) (A : Z → ikey) (C : Z → Prop) : Prop := Rep {
  rep_wf : wf s d A;
  rep_sync : ∀ n, inode_ok s d n → C n → key (dnode s d n) = A n;
  rep_cache : ∀ i ip, inode_table s !! i = Some ip → 0 < ref ip → valid ip ≠ 0 → dev ip = d →
    inode_ok s d (inum ip) → key (din ip) = A (inum ip) ∧ dinode_ok (din ip);
  rep_tab : cache_ok (inode_table s)
}.

(** Everything is on the device. *)
Definition clean : Z → Prop := λ _, True.

(** [i] is a locked cache entry of inode [n]. *)
Definition held (s : fs) (d : Z) (i : nat) (n : Z) : Prop :=
  inode_ok s d n ∧ ∃ ip, inode_table s !! i = Some ip ∧ 0 < ref ip ∧ valid ip ≠ 0 ∧
    dev ip = d ∧ inum ip = n.

Lemma wp_deref s i ip (Q : inode → fs → Prop) R :
  inode_table s !! i = Some ip → Q ip s → wp (deref (Some i)) Q R s.
Proof. intros Hl HQ. unfold deref. wp_step. wp_step. by eapply wp_expect. Qed.

Lemma deref_held s d A C i n (Q : inode → fs → Prop) R :
  rep s d A C → held s d i n →
  (∀ ip, inode_table s !! i = Some ip → 0 < ref ip → valid ip ≠ 0 → dev ip = d → inum ip = n →
     key (din ip) = A n → dinode_ok (din ip) → Q ip s) →
  wp (deref (Some i)) Q R s.
Proof.
  intros HR [Hn (ip & Hl & Hr & Hv & Hd & Hi)] HQ. eapply wp_deref; [done|].
  destruct (rep_cache _ _ _ _ HR i ip) as [Hk Hok]; [done..|by rewrite Hi|].
  apply HQ; try done. by rewrite <-Hi.
Qed.

Lemma key_addrs x a : key x = a → addrs x = k_addrs a.
Proof. by intros <-. Qed.

Section iupdate.
Context (s : fs) (d : Z) (A : Z → ikey) (n : Z) (W : wf s d A) (Hn : inode_ok s d n).
Context (x : dinode) (Hx : dinode_ok x).

Let buf := splice (fblk s d (inode_block (sbof s d) n)) (Z.to_nat (inode_offset n)) (encode_dinode x).
Let s' := fset d (inode_block (sbof s d) n) buf s.

Lemma iupdate_room :
  (Z.to_nat (inode_offset n) + length (encode_dinode x) ≤
    length (fblk s d (inode_block (sbof s d) n)))%nat.
Proof using W Hn Hx.
  destruct (fblk_ok s d (inode_block (sbof s d) n) (wf_devs _ _ _ W) (wf_dev _ _ _ W)) as [-> _].
  rewrite length_encode_dinode by done. destruct Hn.
  pose proof (inode_offset_range n). lia.
Qed.

Lemma iupdate_buf : block_buf buf.
Proof using W Hn Hx.
  pose proof iupdate_room as Hroom.
  destruct (fblk_ok s d (inode_block (sbof s d) n) (wf_devs _ _ _ W) (wf_dev _ _ _ W)) as [Hl Hb].
  split; unfold buf; [by rewrite length_splice|].
  apply bytes_splice; [done|by apply bytes_encode_dinode].
Qed.

Lemma iupdate_dnode m :
  inode_ok s d m → dnode s' d m = if decide (m = n) then x else dnode s d m.
Proof using W Hn Hx.
  intros Hm. pose proof iupdate_room as Hroom. unfold dnode.
  change (sbof s' d) with (sbof s d). unfold s'.
  rewrite fblk_fset by (apply W || apply iupdate_buf).
  destruct (inode_block_range s d A W n Hn) as (En & _).
  destruct (inode_block_range s d A W m Hm) as (Em & _).
  case_decide as Hb.
  - unfold buf. case_decide as Hmn.
    + subst m. rewrite <-(length_encode_dinode x Hx), sub_splice_eq by done.
      by apply decode_encode_dinode.
    + rewrite Hb. f_equal. apply sub_splice_ne; [by rewrite <-Hb|].
      rewrite length_encode_dinode by done. destruct Hn, Hm.
      pose proof (inode_offset_range n). pose proof (inode_offset_range m).
      destruct (inode_offset_disjoint n m); lia.
  - by rewrite decide_False by congruence.
Qed.
End iupdate.

Record iupdate_post (s : fs) (d n : Z) (s' : fs) : Prop := IupdatePost {
  iu_base : same_base s s' d;
  iu_table : inode_table s' = inode_table s;
  iu_rest : ∀ b, b ≠ inode_block (sbof s d) n → fblk s' d b = fblk s d b
}.

Lemma iupdate_post_allocated s d A n s' b :
  wf s d A → inode_ok s d n → iupdate_post s d n s' → allocated s' d b = allocated s d b.
Proof.
  intros W Hn H. unfold allocated, bitmap. rewrite (same_base_sbof _ _ _ (iu_base _ _ _ _ H)).
  rewrite (iu_rest _ _ _ _ H); [done|]. destruct (inode_block_range s d A W n Hn) as (-> & ? & ?). lia.
Qed.

Lemma iupdate_post_pv s d A n s' m sl :
  wf s d A → inode_ok s d n → iupdate_post s d n s' → inode_ok s d m → slot_ok sl →
  pv s' d (k_addrs (A m)) sl = pv s d (k_addrs (A m)) sl.
Proof.
  intros W Hn H Hm Hsl. apply pv_frame; [|done]. intros sl' Hsl' _ Hv.
  apply (iu_rest _ _ _ _ H). eapply data_blk_not_inode; [done|by apply W|done].
Qed.

Lemma iupdate_wp s d A C i n (Q : unit → fs → Prop) R :
  rep s d A C → held s d i n →
  (∀ s', iupdate_post s d n s' → rep s' d A (λ m, C m ∨ m = n) → Q tt s') →
  wp (iupdate (Some i)) Q R s.
Proof.
  intros HR Hh HQ. pose proof (rep_wf _ _ _ _ HR) as W.
  pose proof (wf_bm_ok _ _ _ W) as B. destruct (Hh) as [Hn _].
  unfold iupdate. wp_step. eapply deref_held; [done..|].
  intros ip Hl Hr Hv Hd Hi Hk Hok. rewrite Hd, Hi.
  wp_step. wp_step. wp_step. eapply wp_expect; [by apply bm_sb_lookup|].
  wp_step. apply wp_read_block; [apply W..|by eapply inode_block_fits|].
  apply wp_write_block; [apply W..|by eapply inode_block_fits|].
  set (s' := fset _ _ _ s).
  assert (HB : same_base s s' d) by (apply same_base_fset; [apply W..|by eapply iupdate_buf]).
  assert (HP : iupdate_post s d n s').
  { constructor; [done..|]. intros b Hb. apply fblk_fset_ne; [apply W..|done]. }
  apply HQ; [done|]. constructor.
  - eapply wf_transfer; [done..|apply W|by intros; apply iupdate_post_pv with n|].
    intros. by rewrite (iupdate_post_allocated s d A n).
  - intros m Hm%(same_base_inode_ok _ _ _ HB) HC. unfold s'.
    rewrite (iupdate_dnode s d A n W Hn (din ip) Hok m Hm).
    case_decide; [by subst|]. apply HR; [done|]. by destruct HC.
  - intros j jp Hj. rewrite (same_base_inode_ok _ _ _ HB). by apply (rep_cache _ _ _ _ HR j).
  - apply (rep_tab _ _ _ _ HR).
Qed.

(** Changing the cached inode: the logical inode follows, the device lags. The
    device may change at the same time, dinodes excepted. *)
Lemma upd_din_rep_gen s s1 d A C i n f :
  rep s d A C → held s d i n →
  same_base s s1 d → inode_table s1 = inode_table s →
  (∀ m, inode_ok s d m → dnode s1 d m = dnode s d m) →
  (∀ ip, inode_table s !! i = Some ip → dinode_ok (din ip) → key (din ip) = A n →
     dinode_ok (f (din ip))) →
  let s' := set_inode_table (alter (λ ip, set_din (f (din ip)) ip) i) s1 in
  (∀ ip, inode_table s !! i = Some ip → key (din ip) = A n →
     wf s' d (upd A n (key (f (din ip))))) →
  ∃ ip, inode_table s !! i = Some ip ∧ key (din ip) = A n ∧ dinode_ok (din ip) ∧
    rep s' d (upd A n (key (f (din ip)))) (λ m, C m ∧ m ≠ n) ∧ held s' d i n.
Proof.
  intros HR [Hn (ip & Hl & Hr & Hv & Hd & Hi)] HB Etab Hdn Hf s' W'.
  destruct (rep_cache _ _ _ _ HR i ip) as [Hk Hok]; [done..|by rewrite Hi|].
  rewrite Hi in Hk. exists ip. split; [done|]. split; [done|]. split; [done|].
  assert (Hok' : ∀ m, inode_ok s' d m ↔ inode_ok s d m) by apply (same_base_inode_ok _ _ _ HB).
  split.
  - constructor; [by apply W'|..].
    + intros m Hm%Hok' [HC Hne]. rewrite upd_ne by done.
      change (dnode s' d m) with (dnode s1 d m). rewrite Hdn by done. by apply HR.
    + intros j jp. rewrite Hok'. cbn. rewrite Etab. destruct (decide (j = i)) as [->|Hj].
      * rewrite list_lookup_alter_eq, Hl. intros [= <-]. cbn. intros _ _ _ _.
        rewrite Hi, upd_eq. split; [done|]. by apply Hf.
      * rewrite list_lookup_alter_ne by done. intros Hjl Hjr Hjv Hjd Hjn.
        rewrite upd_ne; [by eapply (rep_cache _ _ _ _ HR j)|]. intros E. apply Hj.
        eapply (co_uniq _ (rep_tab _ _ _ _ HR)); [done..|congruence|congruence].
    + cbn. rewrite Etab. apply cache_ok_alter; [apply HR|]. intros jp Hjp.
      assert (jp = ip) as -> by congruence. by split_and!; try apply Hf.
  - split; [by apply Hok'|]. eexists. cbn. rewrite Etab, list_lookup_alter_eq, Hl. split; [done|]. done.
Qed.

Lemma upd_din_rep s d A C i n f :
  rep s d A C → held s d i n →
  (∀ ip, inode_table s !! i = Some ip → dinode_ok (din ip) → key (din ip) = A n →
     dinode_ok (f (din ip))) →
  (∀ ip, inode_table s !! i = Some ip →
     wf (set_inode_table (alter (λ ip, set_din (f (din ip)) ip) i) s) d
       (upd A n (key (f (din ip))))) →
  ∃ ip, inode_table s !! i = Some ip ∧ key (din ip) = A n ∧ dinode_ok (din ip) ∧
    let s' := set_inode_table (alter (λ ip, set_din (f (din ip)) ip) i) s in
    rep s' d (upd A n (key (f (din ip)))) (λ m, C m ∧ m ≠ n) ∧ held s' d i n.
Proof.
  intros HR Hh Hf HW. eapply upd_din_rep_gen; eauto.
  apply same_base_refl, (rep_wf _ _ _ _ HR).
Qed.
