(* ===== verification/FsGrow.v ===== *)
(** * Mapping file blocks

    [bmap] reads the pointer tree; [bmap_alloc] fills the path to one leaf.
    [grow] is what such an operation may change. *)

From S2P Require Import Prelude FsTypes Block Inode FsInv FsAlloc FsMap.

(** The device has no block left for [balloc]. *)
Definition full (s : fs) (d : Z) : Prop :=
  ∀ b, 0 ≤ b < nblocks (sbof s d) → allocated s d b = true.

(** Pointers of inode [n] at the slots [L] may have been filled in; nothing that
    was mapped moved, and no data block of any file was touched. *)
Record grow (s s' : fs) (d : Z) (A A' : Z → ikey) (i : nat) (n : Z) (L : list slot) : Prop := Grow {
  gr_base : same_base s s' d;
  gr_A : ∀ m, m ≠ n → A' m = A m;
  gr_An : k_type (A' n) = k_type (A n) ∧ k_nlink (A' n) = k_nlink (A n) ∧ k_size (A' n) = k_size (A n);
  gr_other : ∀ m sl, inode_ok s d m → slot_ok sl → ¬ (m = n ∧ sl ∈ L) →
    pv s' d (k_addrs (A' m)) sl = pv s d (k_addrs (A m)) sl;
  gr_mono : ∀ m sl, inode_ok s d m → slot_ok sl → pv s d (k_addrs (A m)) sl ≠ 0 →
    pv s' d (k_addrs (A' m)) sl = pv s d (k_addrs (A m)) sl;
  gr_data : ∀ m sl, inode_ok s d m → slot_ok sl → is_node sl = false →
    pv s d (k_addrs (A m)) sl ≠ 0 →
    fblk s' d (pv s d (k_addrs (A m)) sl) = fblk s d (pv s d (k_addrs (A m)) sl);
  gr_bits : ∀ b, 0 ≤ b < 8192 → allocated s d b = true → allocated s' d b = true;
  gr_table : ∀ j, j ≠ i → inode_table s' !! j = inode_table s !! j;
  gr_entry : ∀ ip, inode_table s !! i = Some ip → ∃ x, inode_table s' !! i = Some (set_din x ip)
}.

Lemma grow_refl s d A i n L : devs_ok s → grow s s d A A i n L.
Proof.
  intros Hd. constructor; try done; try by apply same_base_refl.
  intros ip Hip. exists (din ip). by destruct ip.
Qed.

Lemma grow_trans s1 s2 s3 d A1 A2 A3 i n L L' :
  grow s1 s2 d A1 A2 i n L → grow s2 s3 d A2 A3 i n L' → grow s1 s3 d A1 A3 i n (L ++ L').
Proof.
  intros G G'. pose proof (gr_base _ _ _ _ _ _ _ _ G) as HB.
  assert (Hok : ∀ m, inode_ok s1 d m → inode_ok s2 d m) by (intros; by apply (same_base_inode_ok _ _ _ HB)).
  constructor.
  - eapply same_base_trans; [done|apply G'].
  - intros m Hm. rewrite (gr_A _ _ _ _ _ _ _ _ G') by done. by apply G.
  - destruct (gr_An _ _ _ _ _ _ _ _ G) as (<- & <- & <-). apply G'.
  - intros m sl Hm Hsl Hnot. rewrite elem_of_app in Hnot.
    rewrite (gr_other _ _ _ _ _ _ _ _ G') by (auto || tauto).
    apply (gr_other _ _ _ _ _ _ _ _ G); tauto.
  - intros m sl Hm Hsl Hv. pose proof (gr_mono _ _ _ _ _ _ _ _ G m sl Hm Hsl Hv) as E.
    rewrite (gr_mono _ _ _ _ _ _ _ _ G') by (auto || congruence). done.
  - intros m sl Hm Hsl Hl Hv. pose proof (gr_mono _ _ _ _ _ _ _ _ G m sl Hm Hsl Hv) as E.
    rewrite <-E at 1. rewrite (gr_data _ _ _ _ _ _ _ _ G') by (auto || congruence).
    rewrite E. by apply (gr_data _ _ _ _ _ _ _ _ G).
  - intros b Hb Ha. apply (gr_bits _ _ _ _ _ _ _ _ G'); [done|].
    by apply (gr_bits _ _ _ _ _ _ _ _ G).
  - intros j Hj. rewrite (gr_table _ _ _ _ _ _ _ _ G') by done. by apply G.
  - intros ip Hip. destruct (gr_entry _ _ _ _ _ _ _ _ G ip Hip) as [x Hx].
    destruct (gr_entry _ _ _ _ _ _ _ _ G' _ Hx) as [y Hy]. by exists y.
Qed.

Lemma grow_weaken s s' d A A' i n L L' : L ⊆ L' → grow s s' d A A' i n L → grow s s' d A A' i n L'.
Proof.
  intros HL []. constructor; try done. intros m sl Hm Hsl Hnot. apply gr_other0; [done..|].
  intros [-> ?]. apply Hnot. split; [done|]. by apply HL.
Qed.

Lemma grow_held s s' d A A' i n L : grow s s' d A A' i n L → held s d i n → held s' d i n.
Proof.
  intros G [Hn (ip & Hl & Hr & Hv & Hd & Hi)].
  split; [by apply (same_base_inode_ok _ _ _ (gr_base _ _ _ _ _ _ _ _ G))|].
  destruct (gr_entry _ _ _ _ _ _ _ _ G ip Hl) as [x Hx]. by exists (set_din x ip).
Qed.

(** ** A fresh block *)

Lemma balloc_dnode s d A b s' n :
  wf s d A → balloc_post s d b s' → inode_ok s d n → dnode s' d n = dnode s d n.
Proof.
  intros W H Hn. unfold dnode. rewrite (same_base_sbof _ _ _ (ba_base _ _ _ _ H)).
  rewrite (ba_rest _ _ _ _ H); [done|..].
  - intros E. by apply (data_blk_not_inode s d A W b n (ba_data _ _ _ _ H) Hn).
  - destruct (inode_block_range s d A W n Hn) as (-> & ? & ?). lia.
Qed.

Lemma balloc_rep s d A b s' : rep s d A clean → balloc_post s d b s' → rep s' d A clean.
Proof.
  intros HR H. pose proof (rep_wf _ _ _ _ HR) as W. pose proof (ba_base _ _ _ _ H) as HB.
  constructor.
  - by eapply balloc_wf.
  - intros n Hn%(same_base_inode_ok _ _ _ HB) _. erewrite balloc_dnode by done. by apply HR.
  - intros j jp. rewrite (ba_table _ _ _ _ H), (same_base_inode_ok _ _ _ HB).
    apply (rep_cache _ _ _ _ HR).
  - rewrite (ba_table _ _ _ _ H). apply (rep_tab _ _ _ _ HR).
Qed.

Lemma balloc_held s d b s' i n : balloc_post s d b s' → held s d i n → held s' d i n.
Proof.
  intros H [Hn Hi]. split; [by apply (same_base_inode_ok _ _ _ (ba_base _ _ _ _ H))|].
  by rewrite (ba_table _ _ _ _ H).
Qed.

Lemma balloc_grow s d A b s' i n L : wf s d A → balloc_post s d b s' → grow s s' d A A i n L.
Proof.
  intros W H. constructor; try done; try apply H.
  - intros. by eapply balloc_pv.
  - intros. by eapply balloc_pv.
  - intros m sl Hm Hsl _ Hv. apply (ba_rest _ _ _ _ H).
    + intros E. destruct (wf_ptr _ _ _ W m sl Hm Hsl Hv) as [_ Ha]. rewrite E in Ha.
      pose proof (ba_free _ _ _ _ H). congruence.
    + destruct (wf_ptr _ _ _ W m sl Hm Hsl Hv) as [[? _] _]. lia.
  - intros b' Hb' Ha. rewrite (ba_bits _ _ _ _ H) by done. by case_decide.
  - by rewrite (ba_table _ _ _ _ H).
  - rewrite (ba_table _ _ _ _ H). intros ip Hip. exists (din ip). by destruct ip.
Qed.

(** A fresh block is unused, marked allocated, and reads as an empty table. *)
Lemma balloc_fresh s d A b s' :
  wf s d A → balloc_post s d b s' →
  0 < b < 8192 ∧ data_blk s' d b ∧ allocated s' d b = true ∧
  (∀ m sl, inode_ok s' d m → slot_ok sl → pv s' d (k_addrs (A m)) sl ≠ b) ∧
  (∀ j, 0 ≤ j < 256 → entry s' d b j = 0).
Proof.
  intros W H. pose proof (ba_base _ _ _ _ H) as HB. destruct (ba_data _ _ _ _ H) as [Hr Hf].
  destruct (wf_geom _ _ _ W) as (? & ? & ? & ? & ?).
  split; [lia|]. split; [by apply (same_base_data_blk _ _ _ HB)|].
  split; [rewrite (ba_bits _ _ _ _ H) by lia; by rewrite decide_True|]. split.
  - intros m sl Hm%(same_base_inode_ok _ _ _ HB) Hsl. erewrite balloc_pv by done. intros E.
    destruct (decide (pv s d (k_addrs (A m)) sl = 0)) as [E0|Hv]; [lia|].
    destruct (wf_ptr _ _ _ W m sl Hm Hsl Hv) as [_ Ha]. rewrite E, (ba_free _ _ _ _ H) in Ha. done.
  - intros j Hj. unfold entry. rewrite (ba_zero _ _ _ _ H). zb. apply word_at_zeros. lia.
Qed.

Lemma dinode_ok_set_addr x k b :
  dinode_ok x → 0 ≤ b < 4294967296 → dinode_ok (set_addr k b x).
Proof.
  intros (? & ? & ? & ? & ? & Hl & Ha & ? & ?) Hb. unfold dinode_ok, set_addr. cbn.
  rewrite length_insert. repeat split; try done; try lia. by apply Forall_insert.
Qed.

Lemma addrs_lookup x k : dinode_ok x → 0 ≤ k < 14 → zlookup (addrs x) k = Some (addrs x !!! Z.to_nat k).
Proof.
  intros (_ & _ & _ & _ & _ & Hl & _) Hk. rewrite zlookup_nat by lia.
  apply list_lookup_lookup_total_lt. lia.
Qed.

(** ** Filling one pointer *)

(** The result of filling the slot [sl] of inode [n]. *)
Definition fills (s s' : fs) (d : Z) (A A' : Z → ikey) (i : nat) (n : Z) (sl : slot) (b : Z) : Prop :=
  grow s s' d A A' i n [sl] ∧ rep s' d A' clean ∧ held s' d i n ∧
  pv s' d (k_addrs (A' n)) sl = b ∧ b ≠ 0.

Lemma fills_refl s d A i n sl :
  rep s d A clean → held s d i n → pv s d (k_addrs (A n)) sl ≠ 0 →
  fills s s d A A i n sl (pv s d (k_addrs (A n)) sl).
Proof.
  intros HR Hh Hv. split; [|done]. apply grow_refl. apply (rep_wf _ _ _ _ HR).
Qed.

(** Storing a fresh block number in the inode. *)
Lemma set_root_grow s d A i n k b x :
  rep s d A clean → held s d i n → 0 ≤ k < 14 → 0 < b < 8192 →
  data_blk s d b → allocated s d b = true →
  (∀ m sl, inode_ok s d m → slot_ok sl → pv s d (k_addrs (A m)) sl ≠ b) →
  (∀ j, 0 ≤ j < 256 → entry s d b j = 0) →
  pv s d (k_addrs (A n)) (Root k) = 0 → key x = A n →
  let s' := set_inode_table (alter (λ ip, set_din (set_addr k b (din ip)) ip) i) s in
  let A' := upd A n (key (set_addr k b x)) in
  wf s' d A' ∧ grow s s' d A A' i n [Root k] ∧ pv s' d (k_addrs (A' n)) (Root k) = b.
Proof.
  intros HR [Hn Hent] Hk Hb Hdat Hal Hunused Hempty H0 Hx s' A'.
  pose proof (rep_wf _ _ _ _ HR) as W.
  assert (HA' : k_addrs (A' n) = <[Z.to_nat k := b]> (k_addrs (A n))).
  { unfold A'. rewrite upd_eq. cbn. by rewrite <-Hx. }
  assert (Hp : ∀ m sl, inode_ok s d m → slot_ok sl → pv s' d (k_addrs (A' m)) sl =
    if decide (m = n ∧ sl = Root k) then b else pv s d (k_addrs (A m)) sl).
  { intros m sl Hm Hsl. change (pv s' d) with (pv s d). destruct (decide (m = n)) as [->|Hmn].
    - rewrite HA', pv_set_root by (done || by apply W || (intros j Hj Hnd;
        rewrite Hempty by done; rewrite pv_child, H0 by done; done)).
      repeat case_decide; tauto.
    - unfold A'. rewrite upd_ne by done. by rewrite decide_False by tauto. }
  assert (HB : same_base s s' d) by (apply same_base_table, W).
  split; [|split].
  - eapply wf_update with (n := n) (sl := Root k) (v := b); try done.
    intros m Hm. unfold A'. destruct (decide (m = n)) as [->|];
      [rewrite upd_eq; cbn; rewrite length_insert|rewrite upd_ne by done]; [|by apply W].
    change (length (k_addrs (key x)) = 14%nat). rewrite Hx. by apply W.
  - constructor; try done.
    + intros m Hm. unfold A'. by rewrite upd_ne.
    + unfold A'. rewrite upd_eq, <-Hx. done.
    + intros m sl Hm Hsl Hnot. rewrite Hp by done. rewrite decide_False; [done|].
      intros [-> ->]. apply Hnot. split; [done|]. apply list_elem_of_singleton. done.
    + intros m sl Hm Hsl Hv. rewrite Hp by done. rewrite decide_False; [done|]. by intros [-> ->].
    + intros j Hj. cbn. by apply list_lookup_alter_ne.
    + intros ip Hip. cbn. rewrite list_lookup_alter_eq, Hip. eexists. done.
  - rewrite Hp by done. by rewrite decide_True.
Qed.

Lemma bmap_alloc_root_wp s d A i n k (Q : Z → fs → Prop) (R : fs → Prop) :
  rep s d A clean → held s d i n → 0 ≤ k < 14 →
  (∀ b s' A', fills s s' d A A' i n (Root k) b → Q b s') →
  (full s d → R s) →
  wp (bmap_alloc_root (Some i) k) Q R s.
Proof.
  intros HR Hh Hk HQ HF. pose proof (rep_wf _ _ _ _ HR) as W.
  unfold bmap_alloc_root. wp_step. eapply deref_held; [done..|].
  intros ip Hl Hr Hv Hd Hi Hkey Hok. wp_step. eapply wp_expect; [by apply addrs_lookup|].
  rewrite (key_addrs _ _ Hkey).
  change (k_addrs (A n) !!! Z.to_nat k) with (pv s d (k_addrs (A n)) (Root k)).
  destruct (Z.eqb_spec (pv s d (k_addrs (A n)) (Root k)) 0) as [H0|H0].
  2:{ apply wp_ret. eapply HQ. by apply fills_refl. }
  wp_step. rewrite Hd. eapply balloc_wp; [done| |done]. intros b s1 H1.
  pose proof (balloc_rep _ _ _ _ _ HR H1) as HR1. pose proof (balloc_held _ _ _ _ _ _ H1 Hh) as Hh1.
  destruct (balloc_fresh _ _ _ _ _ W H1) as (Hb & Hdat & Hal & Hun & Hem).
  destruct Hh as [Hn _].
  assert (H01 : pv s1 d (k_addrs (A n)) (Root k) = 0) by done.
  destruct (set_root_grow s1 d A i n k b (din ip)) as (W2 & G2 & P2); [done..|].
  wp_step. unfold upd_din, upd_inode. wp_step.
  destruct (upd_din_rep s1 d A clean i n (set_addr k b)) as (ip' & Hl' & Hk' & Hok' & HR2 & Hh2); [done..| | |].
  { intros. apply dinode_ok_set_addr; [done|lia]. }
  { intros ip' Hl'. rewrite (ba_table _ _ _ _ H1) in Hl'. by assert (ip' = ip) as -> by congruence. }
  rewrite (ba_table _ _ _ _ H1) in Hl'. assert (ip' = ip) as -> by congruence.
  set (s2 := set_inode_table _ s1) in *. wp_step. eapply iupdate_wp; [done..|].
  intros s3 H3 HR3. apply wp_ret, (HQ _ _ (upd A n (key (set_addr k b (din ip))))).
  pose proof (iu_base _ _ _ _ H3) as HB3.
  assert (G3 : ∀ L, grow s2 s3 d (upd A n (key (set_addr k b (din ip))))
    (upd A n (key (set_addr k b (din ip)))) i n L).
  { destruct Hh2 as [Hn2 _]. intros L. constructor; try done.
    - intros. by apply iupdate_post_pv with n.
    - intros. by apply iupdate_post_pv with n.
    - intros m sl Hm Hsl _ Hpv. apply (iu_rest _ _ _ _ H3).
      eapply data_blk_not_inode; [done| |done]. by apply (wf_ptr _ _ _ W2).
    - intros b' _ ?. by rewrite (iupdate_post_allocated _ _ _ _ _ _ W2 Hn2 H3).
    - intros. by rewrite (iu_table _ _ _ _ H3).
    - rewrite (iu_table _ _ _ _ H3). intros jp Hjp. exists (din jp). by destruct jp. }
  split; [|split; [|split; [|split]]].
  - change [Root k] with ([] ++ ([Root k] ++ [])).
    eapply grow_trans; [by eapply balloc_grow|]. eapply grow_trans; [done|apply G3].
  - constructor; [apply HR3| |apply (rep_cache _ _ _ _ HR3)|apply (rep_tab _ _ _ _ HR3)].
    intros m Hm _. apply (rep_sync _ _ _ _ HR3); [done|].
    unfold clean. destruct (decide (m = n)); tauto.
  - by eapply grow_held; [apply (G3 [])|].
  - erewrite (iupdate_post_pv s2); [exact P2|done|apply Hh2|done|apply Hh2|done].
  - lia.
Qed.

Lemma set_entry_grow s d A i n nd j b :
  rep s d A clean → held s d i n → slot_ok nd → is_node nd = true →
  pv s d (k_addrs (A n)) nd ≠ 0 → 0 ≤ j < 256 → 0 < b < 8192 →
  data_blk s d b → allocated s d b = true →
  (∀ m sl, inode_ok s d m → slot_ok sl → pv s d (k_addrs (A m)) sl ≠ b) →
  (∀ k, 0 ≤ k < 256 → entry s d b k = 0) →
  pv s d (k_addrs (A n)) (child nd j) = 0 →
  let t := pv s d (k_addrs (A n)) nd in
  let s' := fset d t (set_word (fblk s d t) j b) s in
  fills s s' d A A i n (child nd j) b.
Proof.
  intros HR Hh Hnd Hnode Ht Hj Hb Hdat Hal Hun Hem H0 t s'. destruct (Hh) as [Hn Hent].
  pose proof (rep_wf _ _ _ _ HR) as W.
  assert (Hbuf : block_buf (set_word (fblk s d t) j b)).
  { destruct (fblk_ok s d t) as [Hl Hby]; [apply W..|].
    split; [rewrite length_set_word; lia|by apply bytes_set_word]. }
  assert (HB : same_base s s' d) by (apply same_base_fset; [apply W..|done]).
  destruct (wf_ptr _ _ _ W n nd Hn Hnd Ht) as [Htd _]. fold t in Htd.
  assert (Hcok : slot_ok (child nd j)) by by apply child_ok.
  assert (Hp : ∀ m sl, inode_ok s d m → slot_ok sl → pv s' d (k_addrs (A m)) sl =
    if decide (m = n ∧ sl = child nd j) then b else pv s d (k_addrs (A m)) sl).
  { intros m sl Hm Hsl. eapply pv_set_entry; try done; [lia| |].
    - intros E. by apply (Hun n nd Hn Hnd).
    - intros k Hk Hnk. rewrite Hem by done. by rewrite pv_child, H0 by done. }
  assert (Hbit : ∀ b', allocated s' d b' = allocated s d b').
  { intros b'. unfold allocated, bitmap. rewrite (same_base_sbof _ _ _ HB). unfold s'.
    rewrite fblk_fset_ne; [done|apply W..|]. destruct Htd. lia. }
  assert (Hleafs : ∀ m sl, inode_ok s d m → slot_ok sl → is_node sl = false →
    pv s d (k_addrs (A m)) sl ≠ 0 → pv s d (k_addrs (A m)) sl ≠ t).
  { intros m sl Hm Hsl Hl Hv E. destruct (wf_inj _ _ _ W m sl n nd) as [_ ->]; try done.
    congruence. }
  assert (W' : wf s' d A).
  { eapply wf_update with (n := n) (sl := child nd j) (v := b); try done; [apply W|..].
    - intros. by rewrite Hbit.
    - intros _. rewrite Hbit. done. }
  split; [|split; [|split; [|split]]].
  - constructor; try done.
    + intros m sl Hm Hsl Hnot. rewrite Hp by done. rewrite decide_False; [done|].
      intros [-> ->]. apply Hnot. split; [done|]. by apply list_elem_of_singleton.
    + intros m sl Hm Hsl Hv. rewrite Hp by done. rewrite decide_False; [done|]. by intros [-> ->].
    + intros m sl Hm Hsl Hl Hv. unfold s'. apply fblk_fset_ne; [apply W..|].
      intros E. by eapply (Hleafs m sl).
    + intros b' _. by rewrite Hbit.
    + intros ip Hip. exists (din ip). by destruct ip.
  - constructor; [done|..].
    + intros m Hm _. rewrite <-(rep_sync _ _ _ _ HR m Hm I). f_equal.
      unfold dnode. rewrite (same_base_sbof _ _ _ HB). unfold s'.
      rewrite fblk_fset_ne; [done|apply W..|]. by eapply data_blk_not_inode.
    + apply (rep_cache _ _ _ _ HR).
    + apply (rep_tab _ _ _ _ HR).
  - done.
  - rewrite Hp by done. by rewrite decide_True.
  - lia.
Qed.

Lemma bmap_alloc_entry_wp s d A i n nd j (Q : Z → fs → Prop) (R : fs → Prop) :
  rep s d A clean → held s d i n → slot_ok nd → is_node nd = true →
  pv s d (k_addrs (A n)) nd ≠ 0 → 0 ≤ j < 256 →
  (∀ b s' A', fills s s' d A A' i n (child nd j) b → Q b s') →
  (full s d → R s) →
  wp (bmap_alloc_entry d (pv s d (k_addrs (A n)) nd) j) Q R s.
Proof.
  intros HR Hh Hnd Hnode Ht Hj HQ HF. pose proof (rep_wf _ _ _ _ HR) as W.
  destruct (Hh) as [Hn _]. destruct (wf_ptr _ _ _ W n nd Hn Hnd Ht) as [Htd _].
  unfold bmap_alloc_entry. wp_step. apply wp_read_block; [apply W..|apply Htd|].
  assert (E : word_at (fblk s d (pv s d (k_addrs (A n)) nd)) j = pv s d (k_addrs (A n)) (child nd j)).
  { rewrite pv_child by done. unfold entry. by zb. }
  rewrite E. destruct (Z.eqb_spec (pv s d (k_addrs (A n)) (child nd j)) 0) as [H0|H0].
  2:{ apply wp_ret. eapply HQ. by apply fills_refl. }
  wp_step. eapply balloc_wp; [done| |done]. intros b s1 H1.
  pose proof (balloc_rep _ _ _ _ _ HR H1) as HR1. pose proof (balloc_held _ _ _ _ _ _ H1 Hh) as Hh1.
  pose proof (balloc_grow s d A b s1 i n [] W H1) as G1.
  destruct (balloc_fresh _ _ _ _ _ W H1) as (Hb & Hdat & Hal & Hun & Hem).
  pose proof (ba_base _ _ _ _ H1) as HB1.
  pose proof (balloc_pv s d A b s1 n nd W H1 Hn Hnd) as E1.
  assert (E2 : fblk s1 d (pv s d (k_addrs (A n)) nd) = fblk s d (pv s d (k_addrs (A n)) nd)).
  { apply (ba_rest _ _ _ _ H1).
    - intros Eb. apply (Hun n nd); [by apply (same_base_inode_ok _ _ _ HB1)|done|congruence].
    - destruct Htd. lia. }
  rewrite <-E2, <-E1. wp_step.
  apply wp_write_block; [apply HB1|apply W|rewrite E1; apply (same_base_fits _ _ _ HB1), Htd|].
  apply wp_ret. apply (HQ _ _ A).
  destruct (set_entry_grow s1 d A i n nd j b) as (G2 & HR2 & Hh2 & P2 & Hb2); try done.
  - by rewrite E1.
  - by rewrite (balloc_pv s d A b s1) by (done || by apply child_ok).
  - split; [|done]. change [child nd j] with ([] ++ [child nd j]). by eapply grow_trans.
Qed.

(** ** [bmap_alloc] *)

(** The pointers followed to reach file block [bn], root first. *)
Definition path (bn : Z) : list slot :=
  if bn <? NDIRECT then [Root bn]
  else if bn - NDIRECT <? NINDIRECT then [Root NDIRECT; leaf bn]
  else [Root (NDIRECT + 1); DInd ((bn - NDIRECT - NINDIRECT) / NINDIRECT); leaf bn].

Lemma leaf_in_path bn : leaf bn ∈ path bn.
Proof. unfold path, leaf. repeat zcase; set_solver. Qed.

Lemma path_leaf bn sl : sl ∈ path bn → is_node sl = false → sl = leaf bn.
Proof.
  unfold path, leaf. consts. intros Hin Hl. revert Hin.
  repeat zcase; rewrite ?elem_of_cons, ?elem_of_nil; intros; destruct_or?; subst; done.
Qed.

Lemma path_direct bn : bn < 12 → path bn = [Root bn] ∧ leaf bn = Root bn.
Proof. intros. unfold path, leaf. consts. by zb. Qed.

Lemma path_indirect bn :
  12 ≤ bn < 268 → path bn = [Root 12; Ind (bn - 12)] ∧ leaf bn = Ind (bn - 12).
Proof. intros. unfold path, leaf. consts. by zb. Qed.

Lemma path_double bn :
  268 ≤ bn →
  let j := (bn - 12 - 256) / 256 in let k := (bn - 12 - 256) mod 256 in
  path bn = [Root (12 + 1); DInd j; DLeaf j k] ∧ leaf bn = DLeaf j k.
Proof. intros. unfold path, leaf. consts. by zb. Qed.

(** Everything on the path is mapped afterwards, and nothing else changed. *)
Definition mapped (s s' : fs) (d : Z) (A A' : Z → ikey) (i : nat) (n bn : Z) : Prop :=
  grow s s' d A A' i n (path bn) ∧ rep s' d A' clean ∧ held s' d i n ∧
  ∀ sl, sl ∈ path bn → pv s' d (k_addrs (A' n)) sl ≠ 0.

Lemma fills_keeps s s' d A A' i n sl b sl' :
  fills s s' d A A' i n sl b → inode_ok s d n → slot_ok sl' →
  pv s d (k_addrs (A n)) sl' ≠ 0 → pv s' d (k_addrs (A' n)) sl' = pv s d (k_addrs (A n)) sl'.
Proof. intros (G & _) ? ? ?. by apply (gr_mono _ _ _ _ _ _ _ _ G). Qed.

Lemma bmap_alloc_wp s d A i n bn (Q : Z → fs → Prop) (R : fs → Prop) :
  rep s d A clean → held s d i n → 0 ≤ bn < MAXFILE →
  (∀ s' A', mapped s s' d A A' i n bn → Q (pv s' d (k_addrs (A' n)) (leaf bn)) s') →
  (∀ s1, same_base s s1 d → full s1 d → R s1) →
  wp (bmap_alloc (Some i) bn) Q R s.
Proof.
  intros HR Hh Hbn HQ HF. pose proof (rep_wf _ _ _ _ HR) as W.
  assert (HB0 : same_base s s d) by apply same_base_refl, W. destruct (Hh) as [Hn _].
  unfold bmap_alloc. wp_step. eapply deref_held; [done..|].
  intros ip _ _ _ Hd _ _ _. rewrite Hd.
  consts. destruct (Z.ltb_spec bn 12).
  { destruct (path_direct bn) as [Epath Eleaf]; [lia|]. eapply bmap_alloc_root_wp; [done..|lia| |by apply HF].
    intros b s' A' (G & HR' & Hh' & <- & Hb). rewrite <-Eleaf. apply HQ.
    split; [by rewrite Epath|]. split; [done|]. split; [done|].
    rewrite Epath. by intros sl ->%list_elem_of_singleton. }
  cbv zeta. destruct (Z.ltb_spec (bn - 12) 256).
  { destruct (path_indirect bn) as [Epath Eleaf]; [lia|]. wp_step. eapply bmap_alloc_root_wp; [done..|lia| |by apply HF].
    intros b1 s1 A1 F1. pose proof F1 as (G1 & HR1 & Hh1 & <- & Hb1).
    pose proof (gr_base _ _ _ _ _ _ _ _ G1) as HB1.
    eapply (bmap_alloc_entry_wp _ _ _ i n (Root 12)); [done..|lia| |by apply HF].
    intros b2 s2 A2 F2. pose proof F2 as (G2 & HR2 & Hh2 & <- & Hb2).
    change (child (Root 12) (bn - 12)) with (Ind (bn - 12)) in *. rewrite <-Eleaf. apply HQ.
    split; [rewrite Epath; by eapply (grow_trans _ _ _ _ _ _ _ _ _ [Root 12] [Ind (bn - 12)])|].
    split; [done|]. split; [done|]. rewrite Epath. intros sl.
    rewrite !elem_of_cons, elem_of_nil. intros [->|[->|[]]]; [|done].
    rewrite (fills_keeps _ _ _ _ _ _ _ _ _ _ F2); [done|by apply Hh1|cbn; lia|done]. }
  cbv zeta. zb. destruct (path_double bn) as [Epath Eleaf]; [lia|].
  set (j := (bn - 12 - 256) / 256) in *. set (k := (bn - 12 - 256) mod 256) in *.
  assert (0 ≤ j < 256) by (unfold j; split; [apply Z.div_pos|apply Z.div_lt_upper_bound]; lia).
  assert (0 ≤ k < 256) by (apply Z.mod_pos_bound; lia).
  wp_step. eapply bmap_alloc_root_wp; [done..|lia| |by apply HF].
  intros b1 s1 A1 F1. pose proof F1 as (G1 & HR1 & Hh1 & <- & Hb1).
  pose proof (gr_base _ _ _ _ _ _ _ _ G1) as HB1.
  wp_step. eapply (bmap_alloc_entry_wp _ _ _ i n (Root (12 + 1))); [done..| |by apply HF].
  intros b2 s2 A2 F2. pose proof F2 as (G2 & HR2 & Hh2 & <- & Hb2).
  pose proof (same_base_trans _ _ _ _ HB1 (gr_base _ _ _ _ _ _ _ _ G2)) as HB2.
  change (child (Root (12 + 1)) j) with (DInd j) in *.
  eapply (bmap_alloc_entry_wp _ _ _ i n (DInd j)); [done..| |by apply HF].
  intros b3 s3 A3 F3. pose proof F3 as (G3 & HR3 & Hh3 & <- & Hb3).
  change (child (DInd j) k) with (DLeaf j k) in *. rewrite <-Eleaf. apply HQ.
  split; [|split; [done|split; [done|]]].
  { rewrite Epath. eapply (grow_trans _ _ _ _ _ _ _ _ _ [Root (12 + 1)] [DInd j; DLeaf j k]); [done|].
    by eapply (grow_trans _ _ _ _ _ _ _ _ _ [DInd j] [DLeaf j k]). }
  rewrite Epath. intros sl. rewrite !elem_of_cons, elem_of_nil. intros [->|[->|[->|[]]]]; [| |done].
  - rewrite (fills_keeps _ _ _ _ _ _ _ _ _ _ F3), (fills_keeps _ _ _ _ _ _ _ _ _ _ F2);
      try done; try apply Hh1; try apply Hh2.
    by rewrite (fills_keeps _ _ _ _ _ _ _ _ _ _ F2); [|apply Hh1|..].
  - by rewrite (fills_keeps _ _ _ _ _ _ _ _ _ _ F3); [|apply Hh2|..].
Qed.

(** ** Shapes *)

Lemma shape_ext s s' d a a' k :
  (∀ sl, slot_ok sl → pv s' d a' sl = pv s d a sl) → shape s d a k → shape s' d a' k.
Proof.
  intros Hp (Hk & Hl & H1 & H2 & H3). split; [done|]. repeat split.
  - intros. rewrite Hp in * by by apply leaf_ok. by apply Hl.
  - intros. rewrite Hp in * by by apply leaf_ok. by apply Hl.
  - rewrite Hp by (cbn; consts; lia). apply H1.
  - rewrite Hp by (cbn; consts; lia). apply H1.
  - rewrite Hp by (cbn; consts; lia). apply H2.
  - rewrite Hp by (cbn; consts; lia). apply H2.
  - rewrite Hp by done. by apply H3.
  - rewrite Hp by done. by apply H3.
Qed.

(** Mapping the first unmapped block, or one already mapped. *)
Lemma shape_mapped s s' d A A' i n bn k :
  inode_ok s d n → mapped s s' d A A' i n bn → shape s d (k_addrs (A n)) k →
  0 ≤ bn < MAXFILE → bn ≤ k → shape s' d (k_addrs (A' n)) (Z.max k (bn + 1)).
Proof.
  intros Hn (G & _ & _ & Hnz) (Hk & Hl & H1 & H2 & H3) Hbn Hle.
  assert (Hp : ∀ sl, slot_ok sl → pv s' d (k_addrs (A' n)) sl ≠ 0 ↔
    sl ∈ path bn ∨ pv s d (k_addrs (A n)) sl ≠ 0).
  { intros sl Hsl. destruct (decide (sl ∈ path bn)) as [Hin|Hout].
    - pose proof (Hnz sl Hin). tauto.
    - rewrite (gr_other _ _ _ _ _ _ _ _ G) by (done || tauto). tauto. }
  assert (Hroot : ∀ r, Root r ∈ path bn ↔ (if bn <? 12 then r = bn else if bn <? 268 then r = 12 else r = 13)).
  { intros r. destruct (decide (bn < 12)); [|destruct (decide (bn < 268))].
    - destruct (path_direct bn) as [-> _]; [lia|]. zb. rewrite list_elem_of_singleton.
      split; [by intros [=]|by intros ->].
    - destruct (path_indirect bn) as [-> _]; [lia|]. zb. rewrite !elem_of_cons, elem_of_nil.
      split; [by intros [[=]|[[=]|[]]]|intros ->; by left].
    - destruct (path_double bn) as [-> _]; [lia|]. zb. rewrite !elem_of_cons, elem_of_nil.
      split; [by intros [[=]|[[=]|[[=]|[]]]]|intros ->; by left]. }
  assert (HDI : ∀ j, DInd j ∈ path bn ↔ 268 ≤ bn ∧ j = (bn - 12 - 256) / 256).
  { intros j. destruct (decide (bn < 12)); [|destruct (decide (bn < 268))].
    - destruct (path_direct bn) as [-> _]; [lia|]. rewrite list_elem_of_singleton. split; [done|lia].
    - destruct (path_indirect bn) as [-> _]; [lia|]. rewrite !elem_of_cons, elem_of_nil.
      split; [by intros [[=]|[[=]|[]]]|lia].
    - destruct (path_double bn) as [-> _]; [lia|]. rewrite !elem_of_cons, elem_of_nil.
      split; [intros [[=]|[[=]|[[=]|[]]]]; lia|intros [_ ->]; by right; left]. }
  split; [lia|]. split; [|split; [|split]].
  - intros bn' Hbn'. destruct (leaf_ok bn' Hbn') as [Hok Hnode]. rewrite Hp, Hl by done.
    assert (leaf bn' ∈ path bn ↔ bn' = bn) as ->; [|lia]. split; [|intros ->; apply leaf_in_path].
    intros Hin. apply leaf_inj; try done. by apply path_leaf.
  - rewrite Hp, H1, Hroot by (cbn; consts; lia). consts. repeat zcase; lia.
  - rewrite Hp, H2, Hroot by (cbn; consts; lia). consts. repeat zcase; lia.
  - intros j Hj. rewrite Hp, H3, HDI by done. consts.
    pose proof (Z.div_mod (bn - 12 - 256) 256). pose proof (Z.mod_pos_bound (bn - 12 - 256) 256). nia.
Qed.

(** ** [bmap] *)

Lemma entry_nz s d t j : entry s d t j ≠ 0 → t ≠ 0 ∧ word_at (fblk s d t) j = entry s d t j.
Proof. unfold entry. by destruct (Z.eqb_spec t 0). Qed.

Lemma bmap_wp s d A C i n bn (Q : Z → fs → Prop) R :
  rep s d A C → held s d i n → 0 ≤ bn < MAXFILE → pv s d (k_addrs (A n)) (leaf bn) ≠ 0 →
  Q (pv s d (k_addrs (A n)) (leaf bn)) s → wp (bmap (Some i) bn) Q R s.
Proof.
  intros HR Hh Hbn Hv HQ. pose proof (rep_wf _ _ _ _ HR) as W. destruct (Hh) as [Hn _].
  assert (Hfit : ∀ sl, slot_ok sl → pv s d (k_addrs (A n)) sl ≠ 0 →
    fits s d (pv s d (k_addrs (A n)) sl)).
  { intros sl Hsl Hsv. by destruct (wf_ptr _ _ _ W n sl Hn Hsl Hsv) as [[_ ?] _]. }
  unfold bmap. wp_step. eapply deref_held; [done..|]. intros ip _ _ _ Hd _ Hk Hok.
  pose proof (key_addrs _ _ Hk) as Ha. rewrite Hd. unfold leaf in *. consts.
  destruct (Z.ltb_spec bn 12); cbn [pv] in *.
  { wp_step. eapply wp_expect; [apply addrs_lookup; [done|lia]|]. rewrite Ha. zb. by apply wp_ret. }
  cbv zeta. destruct (Z.ltb_spec (bn - 12) 256); cbn [pv] in *; consts.
  { destruct (entry_nz _ _ _ _ Hv) as [Hr E].
    wp_step. eapply wp_expect; [apply addrs_lookup; [done|lia]|]. rewrite Ha. zb.
    wp_step. apply wp_read_block; [apply W..|by apply (Hfit (Root 12))|].
    rewrite E. zb. by apply wp_ret. }
  zb. set (j := (bn - 12 - 256) / 256) in *. set (k := (bn - 12 - 256) mod 256) in *.
  assert (0 ≤ j < 256) by (unfold j; split; [apply Z.div_pos|apply Z.div_lt_upper_bound]; lia).
  destruct (entry_nz _ _ _ _ Hv) as [Hd1 E1]. destruct (entry_nz _ _ _ _ Hd1) as [Hr E2].
  wp_step. eapply wp_expect; [apply addrs_lookup; [done|lia]|]. rewrite Ha. zb.
  wp_step. apply wp_read_block; [apply W..|by apply (Hfit (Root (12 + 1)))|].
  rewrite E2. zb. wp_step. apply wp_read_block; [apply W..|by apply (Hfit (DInd j))|].
  rewrite E1. zb. by apply wp_ret.
Qed.
