(* ===== verification/FsFile.v ===== *)
(** * File contents

    [readi] and [writei] refine reading and overwriting a plain byte list. *)

From S2P Require Import Prelude FsTypes Block Inode FsInv FsAlloc FsMap FsGrow.

(** ** The bytes of a file *)

Definition fbyte (s : fs) (d : Z) (a : list Z) (x : Z) : Z :=
  fblk s d (pv s d a (leaf (x / BSIZE))) !!! Z.to_nat (x mod BSIZE).

Definition frange (s : fs) (d : Z) (a : list Z) (off : Z) (m : nat) : list Z :=
  (λ i, fbyte s d a (off + Z.of_nat i)) <$> seq 0 m.

Definition content (s : fs) (d : Z) (k : ikey) : list Z :=
  frange s d (k_addrs k) 0 (Z.to_nat (k_size k)).

(** The state of a device between operations. *)
Record fsys (s : fs) (d : Z) (A : Z → ikey) : Prop := Fsys {
  fsys_rep : rep s d A clean;
  fsys_size : ∀ n, inode_ok s d n → 0 ≤ k_size (A n) ≤ MAXFILE * BSIZE;
  fsys_shape : ∀ n, inode_ok s d n → shape s d (k_addrs (A n)) (blocks_for (k_size (A n)))
}.

(** A cache entry of inode [n] that somebody holds a reference to. *)
Definition pinned (s : fs) (d : Z) (i : nat) (n : Z) : Prop :=
  inode_ok s d n ∧ ∃ ip, inode_table s !! i = Some ip ∧ 0 < ref ip ∧ dev ip = d ∧ inum ip = n.

Lemma held_pinned s d i n : held s d i n → pinned s d i n.
Proof. intros [Hn (ip & ? & ? & ? & ? & ?)]. split; [done|]. by exists ip. Qed.

Lemma blocks_for_eq n : 0 ≤ n ≤ MAXFILE * BSIZE → blocks_for n = (n + 1023) / 1024.
Proof.
  intros Hn. unfold blocks_for. consts. rewrite u32_small by lia. f_equal. lia.
Qed.

Section frange.
Implicit Types (a : list Z) (off : Z) (m : nat).

Lemma length_frange s d a off m : length (frange s d a off m) = m.
Proof. unfold frange. by rewrite length_fmap, length_seq. Qed.

Lemma lookup_frange s d a off m (i : nat) :
  (i < m)%nat → frange s d a off m !! i = Some (fbyte s d a (off + Z.of_nat i)).
Proof. intros. unfold frange. rewrite list_lookup_fmap, lookup_seq_lt by done. done. Qed.

Lemma frange_app s d a off m m' :
  frange s d a off (m + m') = frange s d a off m ++ frange s d a (off + Z.of_nat m) m'.
Proof.
  apply list_eq. intros i. destruct (decide (i < m)%nat); [|destruct (decide (i < m + m')%nat)].
  - rewrite lookup_app_l by (rewrite length_frange; lia). by rewrite !lookup_frange by lia.
  - rewrite lookup_app_r, length_frange, !lookup_frange by (rewrite ?length_frange; lia).
    do 2 f_equal. lia.
  - rewrite !lookup_ge_None_2; [done|rewrite ?length_app, !length_frange; lia..].
Qed.

Lemma sub_frange s d a off m (o n : nat) :
  (o + n ≤ m)%nat → sub (frange s d a off m) o n = frange s d a (off + Z.of_nat o) n.
Proof.
  intros. apply list_eq. intros i. destruct (decide (i < n)%nat).
  - rewrite lookup_sub, !lookup_frange by lia. do 2 f_equal. lia.
  - rewrite !lookup_ge_None_2; [done|rewrite length_frange; lia|].
    rewrite length_sub; [lia|]. by rewrite length_frange.
Qed.

(** Inside one block the bytes are those of the block. *)
Lemma frange_block s d a off m :
  devs_ok s → dev_valid d → 0 ≤ off → off mod 1024 + Z.of_nat m ≤ 1024 →
  sub (fblk s d (pv s d a (leaf (off / 1024)))) (Z.to_nat (off mod 1024)) m = frange s d a off m.
Proof.
  intros Hs Hd Hoff Hm. pose proof (Z.mod_pos_bound off 1024).
  destruct (fblk_ok s d (pv s d a (leaf (off / 1024))) Hs Hd) as [Hl _].
  apply list_eq. intros i. destruct (decide (i < m)%nat).
  - rewrite lookup_sub, lookup_frange by done. unfold fbyte. consts.
    pose proof (Z.div_mod off 1024).
    assert (Ed : (off + Z.of_nat i) / 1024 = off / 1024)
      by (symmetry; apply (Z.div_unique _ _ _ (off mod 1024 + Z.of_nat i)); lia).
    assert (Em : (off + Z.of_nat i) mod 1024 = off mod 1024 + Z.of_nat i)
      by (symmetry; apply (Z.mod_unique _ _ (off / 1024)); lia).
    rewrite Ed, Em. rewrite Z2Nat.inj_add, Nat2Z.id by lia.
    apply list_lookup_lookup_total_lt. lia.
  - rewrite !lookup_ge_None_2; [done|rewrite length_frange; lia|rewrite length_sub; lia].
Qed.
End frange.

(** ** Walking a byte range block by block *)

Lemma chunk_range off n tot :
  0 ≤ off → 0 ≤ tot < n →
  let m := chunk (off + tot) n tot in
  0 < m ≤ n - tot ∧ (off + tot) mod 1024 + m ≤ 1024 ∧
  (m = n - tot ∨ (off + tot) mod 1024 + m = 1024).
Proof.
  intros. unfold m, chunk. consts. pose proof (Z.mod_pos_bound (off + tot) 1024).
  cbv zeta. zcase; lia.
Qed.

(** Blocks still to visit. *)
Definition chunk_left (off n tot : Z) : nat :=
  if tot <? n then Z.to_nat ((off + n - 1) / 1024 - (off + tot) / 1024 + 1) else 0%nat.

Lemma chunk_left_step off n tot :
  0 ≤ off → 0 ≤ tot < n →
  (chunk_left off n (tot + chunk (off + tot) n tot) < chunk_left off n tot)%nat.
Proof.
  intros Hoff Htot. destruct (chunk_range off n tot Hoff Htot) as (Hm & Hb & He).
  set (m := chunk (off + tot) n tot) in *. unfold chunk_left. zb.
  pose proof (Z.div_mod (off + tot) 1024).
  assert ((off + tot) / 1024 ≤ (off + n - 1) / 1024) by (apply Z.div_le_mono; lia).
  destruct (Z.ltb_spec (tot + m) n); [|lia]. destruct He as [He|He]; [lia|].
  replace (off + (tot + m)) with (1024 * ((off + tot) / 1024 + 1)) by lia.
  rewrite (Z.mul_comm 1024), Z.div_mul by lia.
  assert ((off + tot) / 1024 + 1 ≤ (off + n - 1) / 1024) by (apply Z.div_le_lower_bound; lia).
  lia.
Qed.

Lemma chunk_left_fuel off n : 0 ≤ off → 0 ≤ n → (chunk_left off n 0 < chunk_fuel n)%nat.
Proof.
  intros. unfold chunk_left, chunk_fuel. consts.
  assert (0 ≤ n / 1024) by (apply Z.div_pos; lia). zcase; [|lia].
  rewrite Z.add_0_r. apply Z2Nat.inj_lt; [|lia|].
  - assert (off / 1024 ≤ (off + n - 1) / 1024) by (apply Z.div_le_mono; lia). lia.
  - assert ((off + n - 1) / 1024 < off / 1024 + n / 1024 + 2); [|lia].
    apply Z.div_lt_upper_bound; [lia|]. pose proof (Z.div_mod off 1024). pose proof (Z.div_mod n 1024).
    pose proof (Z.mod_pos_bound off 1024). pose proof (Z.mod_pos_bound n 1024). lia.
Qed.

Lemma cread_eq buf off m :
  0 ≤ off → 0 ≤ m → off + m ≤ Z.of_nat (length buf) →
  cread buf off m = Some (sub buf (Z.to_nat off) (Z.to_nat m)).
Proof. intros. unfold cread. by zb. Qed.

(** ** [ilock] *)

(** Filling a cache entry changes neither the devices nor the logical inodes. *)
Record locks (s s' : fs) (i : nat) : Prop := Locks {
  lk_state : ∃ f, s' = set_inode_table f s;
  lk_table : ∀ j, j ≠ i → inode_table s' !! j = inode_table s !! j;
  lk_ref : ∀ ip, inode_table s !! i = Some ip →
    ∃ v x, inode_table s' !! i = Some (Inode (dev ip) (inum ip) (ref ip) v x)
}.

Lemma locks_refl s i : locks s s i.
Proof.
  constructor; [exists id; by destruct s|done|]. intros ip Hip. exists (valid ip), (din ip). by destruct ip.
Qed.

Lemma ilock_wp s d A C i n (Q : unit → fs → Prop) R :
  rep s d A C → C n → pinned s d i n →
  (∀ s', locks s s' i → rep s' d A C → held s' d i n → Q tt s') →
  wp (ilock (Some i)) Q R s.
Proof.
  intros HR HC [Hn (ip & Hl & Hr & Hd & Hi)] HQ. pose proof (rep_wf _ _ _ _ HR) as W.
  unfold ilock. wp_step. eapply wp_deref; [done|]. zb.
  destruct (Z.eqb_spec (valid ip) 0) as [Hv|Hv].
  2:{ apply wp_ret. apply HQ; [apply locks_refl|done|]. split; [done|]. by exists ip. }
  rewrite Hd, Hi. wp_step. wp_step. wp_step.
  eapply wp_expect; [by eapply bm_sb_lookup, wf_bm_ok|].
  wp_step. apply wp_read_block; [apply W..|by eapply inode_block_fits|].
  destruct (fblk_ok s d (inode_block (sbof s d) n)) as [Hlen Hby]; [apply W..|].
  assert (1 ≤ n) by by destruct Hn. pose proof (inode_offset_range n).
  wp_step. eapply wp_expect; [apply cread_eq; consts; lia|].
  change (Z.to_nat DINODE_SIZE) with 128%nat. fold (dnode s d n).
  assert (Hdn : dinode_ok (dnode s d n)).
  { apply dinode_ok_decode; [by apply bytes_sub|]. rewrite length_sub; lia. }
  unfold upd_inode. wp_step. set (g := λ ip, _). set (s' := set_inode_table (alter g i) s).
  assert (Ht : ∀ j jp, inode_table s' !! j = Some jp → ∃ jp', inode_table s !! j = Some jp' ∧
    ref jp' = ref jp ∧ dev jp' = dev jp ∧ inum jp' = inum jp ∧ (j ≠ i → jp' = jp)).
  { intros j jp. cbn. destruct (decide (j = i)) as [->|Hj].
    - rewrite list_lookup_alter_eq, Hl. intros [= <-]. exists ip. done.
    - rewrite list_lookup_alter_ne by done. intros. exists jp. done. }
  apply HQ.
  - constructor; [by exists (alter g i)|..].
    + intros j Hj. cbn. by apply list_lookup_alter_ne.
    + intros ip' Hip'. cbn. rewrite list_lookup_alter_eq, Hip'. by eexists _, _.
  - constructor; [|apply (rep_sync _ _ _ _ HR)|..].
    + eapply (wf_transfer s); [done|apply same_base_table, W|apply W|done|done].
    + intros j jp Hj Hjr Hjv Hjd Hjn. destruct (decide (j = i)) as [->|Hji].
      * cbn in Hj. rewrite list_lookup_alter_eq, Hl in Hj. injection Hj as <-. cbn in *.
        rewrite Hi. split; [by apply (rep_sync _ _ _ _ HR)|done].
      * destruct (Ht j jp Hj) as (jp' & Hj' & _ & _ & _ & E). rewrite <-(E Hji) in *.
        by apply (rep_cache _ _ _ _ HR j).
    + apply cache_ok_alter; [apply HR|]. by intros.
  - split; [done|]. eexists. cbn. rewrite list_lookup_alter_eq, Hl. split; [done|]. cbn. done.
Qed.

(** [fsys] only looks at the devices and at valid cache entries. *)
Lemma fsys_locks s s' d A i : fsys s d A → locks s s' i → rep s' d A clean → fsys s' d A.
Proof.
  intros [HR Hsz Hsh] [[f ->] _ _] HR'. constructor; [done|apply Hsz|apply Hsh].
Qed.

(** ** [readi] *)

(** Reading [n] bytes at [off] of a file of type [ty] with contents [c]. *)
Definition read_spec (ty : Z) (c : list Z) (off n : Z) : Z * list Z :=
  let sz := Z.of_nat (length c) in
  if (ty =? FT_UNUSED) || (off >? sz) || (off + n >=? 4294967296) then (-1, [])
  else (Z.min n (sz - off), sub c (Z.to_nat off) (Z.to_nat (Z.min n (sz - off)))).

Lemma length_content s d k : length (content s d k) = Z.to_nat (k_size k).
Proof. apply length_frange. Qed.

Lemma u32_wraps off n :
  0 ≤ off < 4294967296 → 0 ≤ n < 4294967296 →
  (u32 (off + n) <? off) = (off + n >=? 4294967296).
Proof.
  intros. destruct (decide (off + n < 4294967296)).
  - rewrite u32_small by lia. by zb.
  - unfold u32. replace (off + n) with (off + n - 4294967296 + 1 * 4294967296) at 1 by lia.
    rewrite Z.mod_add, Z.mod_small by lia. by zb.
Qed.

(** The pointers inside the file size are set. *)
Lemma fsys_mapped s d A n x :
  fsys s d A → inode_ok s d n → 0 ≤ x < k_size (A n) →
  0 ≤ x / 1024 < MAXFILE ∧ pv s d (k_addrs (A n)) (leaf (x / 1024)) ≠ 0.
Proof.
  intros [_ Hsz Hsh] Hn Hx. specialize (Hsz n Hn). destruct (Hsh n Hn) as (Hk & Hl & _).
  rewrite blocks_for_eq in * by done. consts.
  assert (0 ≤ x / 1024 < 65804) by (split; [apply Z.div_pos|apply Z.div_lt_upper_bound]; lia).
  split; [done|]. apply Hl; [done|].
  assert (x / 1024 + 1 ≤ (k_size (A n) + 1023) / 1024); [|lia].
  rewrite <-Z.div_add by lia. apply Z.div_le_mono; lia.
Qed.

Lemma readi_loop s d A i n off m (Q : list Z → fs → Prop) R :
  fsys s d A → held s d i n → 0 ≤ off → 0 ≤ m → off + m ≤ k_size (A n) →
  Q (frange s d (k_addrs (A n)) off (Z.to_nat m)) s →
  wp (loop (chunk_fuel m) (readi_step (Some i) m) (0, off, [])) Q R s.
Proof.
  intros HF Hh Hoff Hm Hsz HQ. pose proof (fsys_rep _ _ _ HF) as HR.
  pose proof (rep_wf _ _ _ _ HR) as W. destruct (Hh) as [Hn _].
  pose proof (fsys_size _ _ _ HF n Hn) as Hmax. consts.
  eapply wp_loop with (k := chunk_left off m 0) (I := λ k '(tot, o, dst) s', s' = s ∧
    0 ≤ tot ≤ m ∧ k = chunk_left off m tot ∧ o = off + tot ∧
    dst = frange s d (k_addrs (A n)) off (Z.to_nat tot));
    [|repeat split; lia || done|by apply chunk_left_fuel].
  intros k [[tot o] dst] s0 (-> & Htot & -> & -> & ->). unfold readi_step.
  destruct (Z.ltb_spec tot m).
  2:{ apply wp_ret. by replace tot with m in * by lia. }
  destruct (chunk_range off m tot) as (Hc & Hb & _); [lia..|].
  destruct (fsys_mapped s d A n (off + tot) HF Hn) as [Hbn Hv]; [lia|].
  wp_step. eapply deref_held; [done..|]. intros ip _ _ _ Hd _ _ _. rewrite Hd.
  consts. wp_step. eapply bmap_wp; [done..|]. set (b := pv s d (k_addrs (A n)) _) in *.
  destruct (leaf_ok _ Hbn) as [Hok _].
  destruct (wf_ptr _ _ _ W n _ Hn Hok Hv) as [[_ Hfit] _].
  wp_step. apply wp_read_block; [apply W..|done|].
  destruct (fblk_ok s d b) as [Hl _]; [apply W..|].
  pose proof (Z.mod_pos_bound (off + tot) 1024).
  wp_step. eapply wp_expect; [apply cread_eq; lia|]. apply wp_ret.
  eexists. split; [by apply chunk_left_step; lia|]. split; [done|]. split; [lia|].
  split; [done|]. split; [rewrite u32_small; lia|].
  rewrite Z2Nat.inj_add, frange_app by lia. f_equal. rewrite Z2Nat.id by lia.
  unfold b. apply frange_block; [apply W..|lia|lia].
Qed.

(** Locking an inode that is loaded does nothing. *)
Lemma ilock_held s d i n : held s d i n → ilock (Some i) s = Ok tt s.
Proof.
  intros [_ (ip & Hl & Hr & Hv & _)]. unfold ilock, deref, mbind, M_bind, gets. cbn. rewrite Hl. cbn.
  zb. done.
Qed.

(** So code that starts by locking runs as if the inode had been loaded before. *)
Lemma wp_after_ilock {B} s d A C i n (k : M fs B) (Q : B → fs → Prop) R :
  rep s d A C → C n → pinned s d i n →
  (∀ s', locks s s' i → rep s' d A C → held s' d i n → wp (ilock (Some i);; k) Q R s') →
  wp (ilock (Some i);; k) Q R s.
Proof.
  intros HR HC Hp HQ. wp_step. eapply ilock_wp; [done..|]. intros s' HL HR' Hh.
  specialize (HQ s' HL HR' Hh). unfold wp, mbind, M_bind in HQ. by rewrite (ilock_held _ _ _ _ Hh) in HQ.
Qed.

Lemma readi_held_wp s d A i n off m (Q : Z * list Z → fs → Prop) R :
  fsys s d A → held s d i n → 0 ≤ off < 4294967296 → 0 ≤ m < 4294967296 →
  Q (read_spec (k_type (A n)) (content s d (A n)) off m) s →
  wp (readi (Some i) off m) Q R s.
Proof.
  intros HF Hh Hoff Hm HQ. unfold readi. wp_step. eapply wp_ok; [by eapply ilock_held|].
  pose proof (fsys_rep _ _ _ HF) as HR. destruct (Hh) as [Hn _].
  pose proof (fsys_size _ _ _ HF n Hn) as Hsz.
  wp_step. eapply deref_held; [done..|]. intros ip _ _ _ _ _ Hk _.
  assert (d_type (din ip) = k_type (A n) ∧ size (din ip) = k_size (A n)) as [-> ->] by by rewrite <-Hk.
  unfold read_spec in HQ. rewrite length_content, Z2Nat.id in HQ by lia.
  destruct (k_type (A n) =? FT_UNUSED); [by apply wp_ret|]. rewrite u32_wraps by done.
  cbn [orb] in HQ. cbv zeta in HQ. destruct (off >? k_size (A n)) eqn:E1; [by apply wp_ret|].
  cbn [orb] in *. destruct (off + m >=? 4294967296) eqn:E2; [by apply wp_ret|].
  rewrite Z.gtb_ltb in E1. rewrite Z.geb_leb in E2. apply Z.ltb_ge in E1. apply Z.leb_gt in E2.
  rewrite (u32_small (off + m)) by lia.
  set (c := Z.min m (k_size (A n) - off)) in *.
  assert ((if off + m >? k_size (A n) then k_size (A n) - off else m) = c) as ->
    by (unfold c; zcase; lia).
  wp_step. consts. eapply readi_loop; [done..|lia|lia|lia|]. apply wp_ret.
  rewrite s32_small by lia. unfold content in HQ. rewrite sub_frange in HQ by lia.
  by rewrite Z2Nat.id, Z.add_0_l in HQ by lia.
Qed.

Lemma readi_wp s d A i n off m (Q : Z * list Z → fs → Prop) R :
  fsys s d A → pinned s d i n → 0 ≤ off < 4294967296 → 0 ≤ m < 4294967296 →
  (∀ s', locks s s' i → fsys s' d A → held s' d i n →
     Q (read_spec (k_type (A n)) (content s d (A n)) off m) s') →
  wp (readi (Some i) off m) Q R s.
Proof.
  intros HF Hp Hoff Hm HQ. eapply wp_after_ilock; [apply HF|done..|]. intros s' HL HR Hh.
  pose proof (fsys_locks _ _ _ _ _ HF HL HR) as HF'.
  eapply (readi_held_wp s' d A i n off m); [done..|].
  assert (content s' d (A n) = content s d (A n)) as -> by (by destruct (lk_state _ _ _ HL) as [f ->]).
  by apply HQ.
Qed.
