(* ===== verification/FsWrite.v ===== *)
(** * Writing a file

    [only] is what an operation on one inode leaves alone; [writei] overwrites
    and extends the contents of its inode and keeps the invariant. *)

From S2P Require Import Prelude FsTypes Block Inode FsInv FsAlloc FsMap FsGrow FsFile.

(** ** Frame of the operations on one inode *)

Record only (s s' : fs) (d : Z) (A A' : Z → ikey) (i : nat) (n : Z) : Prop := Only {
  on_base : same_base s s' d;
  on_A : ∀ m, m ≠ n → A' m = A m;
  on_An : k_type (A' n) = k_type (A n) ∧ k_nlink (A' n) = k_nlink (A n);
  on_pv : ∀ m sl, inode_ok s d m → slot_ok sl → m ≠ n →
    pv s' d (k_addrs (A' m)) sl = pv s d (k_addrs (A m)) sl;
  on_data : ∀ m sl, inode_ok s d m → slot_ok sl → m ≠ n → is_node sl = false →
    pv s d (k_addrs (A m)) sl ≠ 0 →
    fblk s' d (pv s d (k_addrs (A m)) sl) = fblk s d (pv s d (k_addrs (A m)) sl);
  on_table : ∀ j, j ≠ i → inode_table s' !! j = inode_table s !! j;
  on_entry : ∀ ip, inode_table s !! i = Some ip →
    ∃ v x, inode_table s' !! i = Some (Inode (dev ip) (inum ip) (ref ip) v x)
}.

Section only.
Context (d : Z) (i : nat) (n : Z).

Lemma only_refl s A : devs_ok s → only s s d A A i n.
Proof.
  intros Hd. constructor; try done.
  intros ip Hip. exists (valid ip), (din ip). by destruct ip.
Qed.

Lemma only_trans s1 s2 s3 A1 A2 A3 :
  only s1 s2 d A1 A2 i n → only s2 s3 d A2 A3 i n → only s1 s3 d A1 A3 i n.
Proof.
  intros O O'. pose proof (on_base _ _ _ _ _ _ _ O) as HB.
  assert (Hok : ∀ m, inode_ok s1 d m → inode_ok s2 d m) by (intros; by apply (same_base_inode_ok _ _ _ HB)).
  constructor.
  - eapply same_base_trans; [done|apply O'].
  - intros m Hm. rewrite (on_A _ _ _ _ _ _ _ O') by done. by apply O.
  - destruct (on_An _ _ _ _ _ _ _ O) as (<- & <-). apply O'.
  - intros m sl Hm Hsl Hne. rewrite (on_pv _ _ _ _ _ _ _ O') by auto. by apply O.
  - intros m sl Hm Hsl Hne Hl Hv. pose proof (on_pv _ _ _ _ _ _ _ O m sl Hm Hsl Hne) as E.
    rewrite <-E at 1. rewrite (on_data _ _ _ _ _ _ _ O') by (auto || congruence).
    rewrite E. by apply O.
  - intros j Hj. rewrite (on_table _ _ _ _ _ _ _ O') by done. by apply O.
  - intros ip Hip. destruct (on_entry _ _ _ _ _ _ _ O ip Hip) as (v & x & Hx).
    destruct (on_entry _ _ _ _ _ _ _ O' _ Hx) as (v' & x' & Hx'). by exists v', x'.
Qed.

Lemma grow_only s s' A A' L : grow s s' d A A' i n L → only s s' d A A' i n.
Proof.
  intros G. constructor; try apply G.
  - by destruct (gr_An _ _ _ _ _ _ _ _ G) as (-> & -> & _).
  - intros m sl Hm Hsl Hne. apply (gr_other _ _ _ _ _ _ _ _ G); tauto.
  - intros m sl Hm Hsl _. by apply (gr_data _ _ _ _ _ _ _ _ G).
  - intros ip Hip. destruct (gr_entry _ _ _ _ _ _ _ _ G ip Hip) as [x Hx]. by exists (valid ip), x.
Qed.

Lemma locks_only s s' A : devs_ok s → locks s s' i → only s s' d A A i n.
Proof.
  intros Hd [[f ->] Ht Hr]. by constructor.
Qed.

Lemma iupdate_only s s' A :
  wf s d A → inode_ok s d n → iupdate_post s d n s' → only s s' d A A i n.
Proof.
  intros W Hn H. constructor; try done; try apply H.
  - intros. by apply iupdate_post_pv with n.
  - intros m sl Hm Hsl _ _ Hpv. apply (iu_rest _ _ _ _ H).
    eapply data_blk_not_inode; [done| |done]. by apply (wf_ptr _ _ _ W).
  - by rewrite (iu_table _ _ _ _ H).
  - rewrite (iu_table _ _ _ _ H). intros ip Hip. exists (valid ip), (din ip). by destruct ip.
Qed.

Lemma only_held s s' A A' :
  only s s' d A A' i n → pinned s d i n → pinned s' d i n.
Proof.
  intros O [Hn (ip & Hl & Hr & Hd & Hi)].
  split; [by apply (same_base_inode_ok _ _ _ (on_base _ _ _ _ _ _ _ O))|].
  destruct (on_entry _ _ _ _ _ _ _ O ip Hl) as (v & x & Hx). by eexists.
Qed.

(** The other files keep their contents. *)
Lemma only_fbyte s s' A A' m x :
  only s s' d A A' i n → inode_ok s d m → m ≠ n → 0 ≤ x / 1024 < MAXFILE →
  pv s d (k_addrs (A m)) (leaf (x / 1024)) ≠ 0 →
  fbyte s' d (k_addrs (A' m)) x = fbyte s d (k_addrs (A m)) x.
Proof.
  intros O Hm Hne Hx Hv. destruct (leaf_ok _ Hx) as [Hok Hl]. unfold fbyte. consts.
  rewrite (on_pv _ _ _ _ _ _ _ O) by done. by rewrite (on_data _ _ _ _ _ _ _ O).
Qed.

Lemma frange_ext s s' a a' off m :
  (∀ x, off ≤ x < off + Z.of_nat m → fbyte s' d a' x = fbyte s d a x) →
  frange s' d a' off m = frange s d a off m.
Proof.
  intros Hx. apply list_eq. intros k. destruct (decide (k < m)%nat).
  - rewrite !lookup_frange by done. f_equal. apply Hx. lia.
  - rewrite !lookup_ge_None_2; [done|rewrite length_frange; lia..].
Qed.

Lemma only_content s s' A A' m :
  fsys s d A → only s s' d A A' i n → inode_ok s d m → m ≠ n →
  content s' d (A' m) = content s d (A m).
Proof.
  intros HF O Hm Hne. unfold content. rewrite (on_A _ _ _ _ _ _ _ O m Hne).
  apply frange_ext. intros x Hx. pose proof (fsys_size _ _ _ HF m Hm).
  destruct (fsys_mapped s d A m x HF Hm) as [? ?]; [lia|].
  rewrite <-(on_A _ _ _ _ _ _ _ O m Hne) at 1. by apply only_fbyte.
Qed.

(** Back to the invariant, once inode [n] itself is in order. *)
Lemma only_fsys s s' A A' :
  fsys s d A → only s s' d A A' i n → rep s' d A' clean →
  0 ≤ k_size (A' n) ≤ MAXFILE * BSIZE →
  shape s' d (k_addrs (A' n)) (blocks_for (k_size (A' n))) → fsys s' d A'.
Proof.
  intros HF O HR Hsz Hsh. pose proof (on_base _ _ _ _ _ _ _ O) as HB.
  constructor; [done|..]; intros m Hm%(same_base_inode_ok _ _ _ HB);
    destruct (decide (m = n)) as [->|Hne]; try done.
  - rewrite (on_A _ _ _ _ _ _ _ O) by done. by apply HF.
  - eapply shape_ext; [intros sl Hsl; by apply (on_pv _ _ _ _ _ _ _ O)|].
    rewrite (on_A _ _ _ _ _ _ _ O m Hne). by apply HF.
Qed.
End only.

(** ** Overwriting a data block *)

Section data_write.
Context (s : fs) (d : Z) (A : Z → ikey) (i : nat) (n bn : Z) (buf : list Z).
Context (HR : rep s d A clean) (Hn : inode_ok s d n) (Hbn : 0 ≤ bn < MAXFILE).
Context (Hv : pv s d (k_addrs (A n)) (leaf bn) ≠ 0) (Hbuf : block_buf buf).

Let b := pv s d (k_addrs (A n)) (leaf bn).
Let s' := fset d b buf s.

Lemma data_write_pv m sl :
  inode_ok s d m → slot_ok sl → pv s' d (k_addrs (A m)) sl = pv s d (k_addrs (A m)) sl.
Proof using HR Hn Hbn Hv.
  destruct (leaf_ok bn Hbn). apply pv_fset; [apply HR|]. apply leaf_not_table; [apply HR|done..].
Qed.

Lemma data_write_base : same_base s s' d.
Proof using HR Hbuf. apply same_base_fset; [apply (rep_wf _ _ _ _ HR)..|done]. Qed.

Lemma data_write_blk : data_blk s d b.
Proof using HR Hn Hbn Hv.
  destruct (leaf_ok bn Hbn) as [Hok _]. by destruct (wf_ptr _ _ _ (rep_wf _ _ _ _ HR) n _ Hn Hok Hv).
Qed.

Lemma data_write_rep : rep s' d A clean.
Proof using HR Hn Hbn Hv Hbuf.
  pose proof (rep_wf _ _ _ _ HR) as W. pose proof data_write_blk as Hd. pose proof data_write_base as HB.
  constructor.
  - eapply wf_transfer; [done..|apply W|by intros; apply data_write_pv|].
    intros x _. unfold allocated, bitmap. rewrite (same_base_sbof _ _ _ HB). unfold s'.
    rewrite fblk_fset_ne; [done|apply W..|]. destruct Hd. lia.
  - intros m Hm _. rewrite <-(rep_sync _ _ _ _ HR m Hm I). f_equal.
    unfold dnode. rewrite (same_base_sbof _ _ _ HB). unfold s'.
    rewrite fblk_fset_ne; [done|apply W..|]. by eapply data_blk_not_inode.
  - apply (rep_cache _ _ _ _ HR).
  - apply (rep_tab _ _ _ _ HR).
Qed.

Lemma data_write_only : only s s' d A A i n.
Proof using HR Hn Hbn Hv Hbuf.
  pose proof (rep_wf _ _ _ _ HR) as W. destruct (leaf_ok bn Hbn) as [Hok _]. constructor; try done.
  - apply data_write_base.
  - intros. by apply data_write_pv.
  - intros m sl Hm Hsl Hne Hl Hmv. unfold s'. rewrite fblk_fset_ne; [done|apply W..|].
    intros E. destruct (wf_inj _ _ _ W m sl n (leaf bn)) as [? _]; done.
  - intros ip Hip. exists (valid ip), (din ip). by destruct ip.
Qed.

Lemma data_write_fbyte x :
  0 ≤ x / 1024 < MAXFILE → pv s d (k_addrs (A n)) (leaf (x / 1024)) ≠ 0 →
  fbyte s' d (k_addrs (A n)) x =
  if decide (x / 1024 = bn) then buf !!! Z.to_nat (x mod 1024) else fbyte s d (k_addrs (A n)) x.
Proof using HR Hn Hbn Hv Hbuf.
  pose proof (rep_wf _ _ _ _ HR) as W. intros Hx Hxv. destruct (leaf_ok _ Hx) as [Hok _].
  destruct (leaf_ok bn Hbn) as [Hok' _].
  unfold fbyte. consts. rewrite data_write_pv by done. unfold s'. case_decide as E.
  - rewrite E. fold b. by rewrite fblk_fset_eq by (apply W || done).
  - rewrite fblk_fset_ne; [done|apply W..|]. intros Eb. apply E, leaf_inj; try done.
    by destruct (wf_inj _ _ _ W n (leaf (x / 1024)) n (leaf bn)).
Qed.
End data_write.

Lemma grow_fbyte s s' d A A' i n L m x :
  grow s s' d A A' i n L → inode_ok s d m → 0 ≤ x / 1024 < MAXFILE →
  pv s d (k_addrs (A m)) (leaf (x / 1024)) ≠ 0 →
  fbyte s' d (k_addrs (A' m)) x = fbyte s d (k_addrs (A m)) x.
Proof.
  intros G Hm Hx Hv. destruct (leaf_ok _ Hx) as [Hok Hl]. unfold fbyte. consts.
  rewrite (gr_mono _ _ _ _ _ _ _ _ G) by done. by rewrite (gr_data _ _ _ _ _ _ _ _ G).
Qed.

(** ** [writei] *)

Definition ceil_blk (x : Z) : Z := (x + 1023) / 1024.

Lemma ceil_blk_lt x y : 0 ≤ x < y → x / 1024 < ceil_blk y.
Proof.
  intros. unfold ceil_blk. assert (x / 1024 + 1 ≤ (y + 1023) / 1024); [|lia].
  rewrite <-Z.div_add by lia. apply Z.div_le_mono; lia.
Qed.

Lemma ceil_blk_max x y : ceil_blk (Z.max x y) = Z.max (ceil_blk x) (ceil_blk y).
Proof.
  unfold ceil_blk. destruct (Z.le_ge_cases x y).
  - assert ((x + 1023) / 1024 ≤ (y + 1023) / 1024) by (apply Z.div_le_mono; lia).
    rewrite !Z.max_r by lia. done.
  - assert ((y + 1023) / 1024 ≤ (x + 1023) / 1024) by (apply Z.div_le_mono; lia).
    rewrite !Z.max_l by lia. done.
Qed.

Lemma ceil_blk_ge x o : o / 1024 ≤ ceil_blk (Z.max x o).
Proof. unfold ceil_blk. apply Z.div_le_mono; lia. Qed.

(** One more chunk needs at most the block it lies in. *)
Lemma ceil_blk_chunk x o m :
  0 ≤ o → 0 < m → o mod 1024 + m ≤ 1024 →
  Z.max (ceil_blk (Z.max x o)) (o / 1024 + 1) = ceil_blk (Z.max x (o + m)).
Proof.
  intros Ho Hm Hb. rewrite !ceil_blk_max.
  pose proof (Z.mod_pos_bound o 1024). pose proof (Z.div_mod o 1024).
  assert (ceil_blk (o + m) = o / 1024 + 1) as ->.
  { unfold ceil_blk. symmetry. apply (Z.div_unique _ _ _ (o mod 1024 + m - 1)); lia. }
  assert (ceil_blk o ≤ o / 1024 + 1); [|lia].
  unfold ceil_blk. rewrite <-Z.div_add by lia. apply Z.div_le_mono; lia.
Qed.

(** After [tot] bytes of [src] went to [off]. *)
Record wrote (s0 s : fs) (d : Z) (A0 A : Z → ikey) (i : nat) (n : Z)
    (src : list Z) (off tot : Z) : Prop := Wrote {
  wr_only : only s0 s d A0 A i n;
  wr_rep : rep s d A clean;
  wr_held : held s d i n;
  wr_size : k_size (A n) = k_size (A0 n);
  wr_shape : shape s d (k_addrs (A n)) (ceil_blk (Z.max (k_size (A0 n)) (off + tot)));
  wr_bytes : ∀ x, 0 ≤ x < Z.max (k_size (A0 n)) (off + tot) →
    fbyte s d (k_addrs (A n)) x =
    if decide (off ≤ x < off + tot) then src !!! Z.to_nat (x - off)
    else fbyte s0 d (k_addrs (A0 n)) x
}.

Lemma wrote_start s d A i n src off :
  fsys s d A → held s d i n → 0 ≤ off ≤ k_size (A n) → wrote s s d A A i n src off 0.
Proof.
  intros HF Hh Hoff. pose proof (fsys_rep _ _ _ HF) as HR. destruct (Hh) as [Hn _].
  constructor; try done.
  - apply only_refl, (rep_wf _ _ _ _ HR).
  - rewrite Z.max_l by lia. pose proof (fsys_size _ _ _ HF n Hn).
    unfold ceil_blk. rewrite <-blocks_for_eq by done. by apply HF.
  - intros x _. by rewrite decide_False by lia.
Qed.

(** Where the copied range sits in its block. *)
Lemma block_range o m x :
  0 ≤ o → 0 < m → o mod 1024 + m ≤ 1024 → 0 ≤ x →
  (o ≤ x < o + m ↔ x / 1024 = o / 1024 ∧ o mod 1024 ≤ x mod 1024 < o mod 1024 + m) ∧
  (o ≤ x < o + m → x mod 1024 = o mod 1024 + (x - o)).
Proof.
  intros Ho Hm Hb Hx. pose proof (Z.div_mod o 1024). pose proof (Z.div_mod x 1024).
  pose proof (Z.mod_pos_bound o 1024). pose proof (Z.mod_pos_bound x 1024).
  split; [split|]; intros; lia.
Qed.

(** The block rebuilt by one round, byte by byte. *)
Lemma splice_block_byte (old src : list Z) o off tot m x :
  length old = 1024%nat → 0 ≤ off → 0 ≤ tot → o = off + tot → 0 < m →
  o mod 1024 + m ≤ 1024 → tot + m ≤ Z.of_nat (length src) → 0 ≤ x → x / 1024 = o / 1024 →
  splice old (Z.to_nat (o mod 1024)) (sub src (Z.to_nat tot) (Z.to_nat m)) !!! Z.to_nat (x mod 1024) =
  if decide (o ≤ x < o + m) then src !!! Z.to_nat (x - off) else old !!! Z.to_nat (x mod 1024).
Proof.
  intros Hl Hoff Htot -> Hm Hb Hsrc Hx Ebn.
  pose proof (Z.mod_pos_bound (off + tot) 1024). pose proof (Z.mod_pos_bound x 1024).
  destruct (block_range (off + tot) m x) as [Hiff Hin]; [lia..|].
  assert (Hd : length (sub src (Z.to_nat tot) (Z.to_nat m)) = Z.to_nat m) by (apply length_sub; lia).
  rewrite !list_lookup_total_alt. case_decide as Hr; f_equal.
  - specialize (Hin Hr). rewrite lookup_splice_in, lookup_sub by (rewrite ?Hd; lia). f_equal. lia.
  - rewrite lookup_splice_out; [done|rewrite Hd; lia|rewrite Hd].
    destruct (decide (x mod 1024 < (off + tot) mod 1024)); [lia|].
    destruct (decide ((off + tot) mod 1024 + m ≤ x mod 1024)); [lia|]. exfalso. apply Hr, Hiff. lia.
Qed.

Lemma wrote_next s0 s1 s2 d A0 A1 A2 i n src off tot cnt :
  wrote s0 s1 d A0 A1 i n src off tot → 0 ≤ off → 0 ≤ tot < cnt → off ≤ k_size (A0 n) →
  off + cnt ≤ MAXFILE * BSIZE → cnt ≤ Z.of_nat (length src) → bytes src →
  let o := off + tot in let m := chunk o cnt tot in
  mapped s1 s2 d A1 A2 i n (o / 1024) →
  let b := pv s2 d (k_addrs (A2 n)) (leaf (o / 1024)) in
  let buf := splice (fblk s2 d b) (Z.to_nat (o mod 1024)) (sub src (Z.to_nat tot) (Z.to_nat m)) in
  wrote s0 (fset d b buf s2) d A0 A2 i n src off (tot + m).
Proof.
  intros [O1 HR1 Hh1 Hsz Hsh1 Hby1] Hoff Htot Hle Hmax Hsrc Hbs o m HM b buf.
  pose proof HM as (G & HR2 & Hh2 & Hnz). pose proof (rep_wf _ _ _ _ HR2) as W2.
  destruct (Hh1) as [Hn1 _]. destruct (Hh2) as [Hn2 _]. consts.
  destruct (chunk_range off cnt tot) as (Hm & Hb & _); [lia..|]. fold o in Hm, Hb. fold m in Hm, Hb.
  pose proof (Z.mod_pos_bound o 1024). pose proof (Z.div_mod o 1024).
  assert (Hbn : 0 ≤ o / 1024 < MAXFILE).
  { consts. split; [apply Z.div_pos; lia|apply Z.div_lt_upper_bound; lia]. }
  pose proof (Hnz _ (leaf_in_path (o / 1024))) as Hv. fold b in Hv.
  destruct (fblk_ok s2 d b) as [Hfl Hfb]; [apply W2..|].
  assert (Hdat : length (sub src (Z.to_nat tot) (Z.to_nat m)) = Z.to_nat m) by (apply length_sub; lia).
  assert (Hbuf : block_buf buf).
  { split; unfold buf; [rewrite length_splice; rewrite ?Hdat; lia|auto with kernel]. }
  pose proof (ceil_blk_chunk (k_size (A0 n)) o m ltac:(lia) ltac:(lia) Hb) as Ek.
  replace (o + m) with (off + (tot + m)) in Ek by lia. pose proof (ceil_blk_ge (k_size (A0 n)) o) as Hge.
  pose proof (shape_mapped _ _ _ _ _ _ _ _ _ Hn1 HM Hsh1 Hbn Hge) as Hsh2. fold o in Hsh2. rewrite Ek in Hsh2.
  constructor.
  - eapply only_trans; [exact O1|]. eapply only_trans; [by eapply grow_only|]. by apply data_write_only.
  - by apply data_write_rep.
  - done.
  - destruct (gr_An _ _ _ _ _ _ _ _ G) as (_ & _ & ->). done.
  - eapply (shape_ext s2); [intros; by apply data_write_pv|done].
  - intros x Hx. assert (Hx' : x / 1024 < ceil_blk (Z.max (k_size (A0 n)) (off + (tot + m)))).
    { apply ceil_blk_lt; lia. }
    assert (Hxm : 0 ≤ x / 1024 < MAXFILE).
    { split; [apply Z.div_pos; lia|]. destruct Hsh2 as [Hk _]. lia. }
    assert (Hkeep : x < Z.max (k_size (A0 n)) (off + tot) →
      pv s1 d (k_addrs (A1 n)) (leaf (x / 1024)) ≠ 0 ∧
      fbyte s2 d (k_addrs (A2 n)) x = fbyte s1 d (k_addrs (A1 n)) x).
    { intros Hlt. destruct Hsh1 as (_ & Hl & _).
      assert (Hxv : pv s1 d (k_addrs (A1 n)) (leaf (x / 1024)) ≠ 0)
        by (apply Hl; [done|]; apply ceil_blk_lt; lia).
      split; [done|]. by eapply grow_fbyte. }
    assert (Hnzx : pv s2 d (k_addrs (A2 n)) (leaf (x / 1024)) ≠ 0).
    { destruct (decide (x / 1024 = o / 1024)) as [->|Hne]; [done|].
      destruct (decide (x < Z.max (k_size (A0 n)) (off + tot))) as [Hlt|Hlt].
      - destruct (Hkeep Hlt) as [Hxv _]. destruct (leaf_ok _ Hxm) as [Hok _].
        by rewrite (gr_mono _ _ _ _ _ _ _ _ G).
      - exfalso. apply Hne. apply (block_range o m x); lia. }
    rewrite (data_write_fbyte s2 d A2 n (o / 1024)) by done. case_decide as Ebn.
    + unfold buf. rewrite (splice_block_byte _ _ _ off tot m x) by (done || lia).
      destruct (decide (o ≤ x < o + m)) as [Hin|Hout]; [by rewrite decide_True by lia|].
      destruct (Hkeep ltac:(lia)) as [_ Hk].
      assert (fblk s2 d b !!! Z.to_nat (x mod 1024) = fbyte s2 d (k_addrs (A2 n)) x) as ->.
      { unfold fbyte. consts. by rewrite Ebn. }
      rewrite Hk, Hby1 by lia. repeat case_decide; lia || done.
    + destruct (decide (o ≤ x < o + m)) as [Hin|Hout].
      { exfalso. apply Ebn. by apply (block_range o m x); lia. }
      destruct (Hkeep ltac:(lia)) as [_ Hk]. rewrite Hk, Hby1 by lia.
      repeat case_decide; lia || done.
Qed.

Lemma writei_loop s d A i n src off cnt (Q : Z → fs → Prop) (R : fs → Prop) :
  fsys s d A → held s d i n → 0 ≤ off ≤ k_size (A n) → 0 ≤ cnt → off + cnt ≤ MAXFILE * BSIZE →
  cnt ≤ Z.of_nat (length src) → bytes src →
  (∀ s' A', wrote s s' d A A' i n src off cnt → Q (off + cnt) s') →
  (∀ s', same_base s s' d → full s' d → R s') →
  wp (loop (chunk_fuel cnt) (writei_step (Some i) src cnt) (0, off)) Q R s.
Proof.
  intros HF Hh Hoff Hcnt Hmax Hsrc Hb HQ HFull.
  eapply wp_loop with (k := chunk_left off cnt 0) (I := λ k '(tot, o) s', 0 ≤ tot ≤ cnt ∧
    k = chunk_left off cnt tot ∧ o = off + tot ∧ ∃ A', wrote s s' d A A' i n src off tot);
    [|repeat split; [lia..|]; exists A; by apply wrote_start|apply chunk_left_fuel; lia].
  intros k [tot o] s1 (Htot & -> & -> & A1 & W1). unfold writei_step.
  destruct (Z.ltb_spec tot cnt).
  2:{ apply wp_ret. replace tot with cnt in * by lia. by eapply HQ. }
  destruct (chunk_range off cnt tot) as (Hc & Hcb & _); [lia..|].
  pose proof (on_base _ _ _ _ _ _ _ (wr_only _ _ _ _ _ _ _ _ _ _ W1)) as HB1.
  wp_step. eapply deref_held; [apply W1..|]. intros ip _ _ _ Hd _ _ _. rewrite Hd. consts.
  wp_step. eapply (bmap_alloc_wp s1 d A1 i n); [apply W1..| | |].
  { consts. split; [apply Z.div_pos; lia|apply Z.div_lt_upper_bound; lia]. }
  2:{ intros s2 HB2. apply HFull. by eapply same_base_trans. }
  intros s2 A2 HM. pose proof HM as (G & HR2 & [Hn2 _] & Hnz).
  pose proof (rep_wf _ _ _ _ HR2) as WF2.
  set (b := pv s2 d (k_addrs (A2 n)) _).
  assert (Hbd : data_blk s2 d b).
  { eapply data_write_blk; [exact HR2|exact Hn2| |].
    - consts. split; [apply Z.div_pos; lia|apply Z.div_lt_upper_bound; lia].
    - apply Hnz, leaf_in_path. }
  wp_step. apply wp_read_block; [apply WF2..|apply Hbd|].
  wp_step. eapply wp_expect; [apply cread_eq; lia|].
  wp_step. apply wp_write_block; [apply WF2..|apply Hbd|].
  apply wp_ret. eexists. split; [by apply chunk_left_step; lia|].
  split; [lia|]. split; [done|]. split; [rewrite u32_small; lia|].
  exists A2. unfold b. eapply wrote_next with (cnt := cnt); [exact W1|lia|lia|lia|consts; lia|lia|done|done].
Qed.

(** Writing [src] at [off] of a file with contents [c]: the result and the new contents. *)
Definition write_spec (c : list Z) (off : Z) (src : list Z) : Z * list Z :=
  let n := Z.of_nat (length src) in
  if (off >? Z.of_nat (length c)) || (off + n >? MAXFILE * BSIZE) then (-1, c)
  else (n, splice c (Z.to_nat off) src).

Lemma lookup_splice_any (c src : list Z) (o k : nat) :
  (o ≤ length c)%nat →
  splice c o src !! k = if decide (o ≤ k < o + length src)%nat then src !! (k - o)%nat else c !! k.
Proof.
  intros. unfold splice. case_decide.
  - rewrite lookup_app_r, length_take, lookup_app_l by (rewrite ?length_take; lia). f_equal. lia.
  - destruct (decide (k < o)%nat).
    + rewrite lookup_app_l by (rewrite length_take; lia). apply lookup_take_lt. lia.
    + rewrite !lookup_app_r by (rewrite ?length_take; lia). rewrite lookup_drop, length_take. f_equal. lia.
Qed.

Lemma length_splice_any (c src : list Z) (o : nat) :
  (o ≤ length c)%nat → length (splice c o src) = Nat.max (length c) (o + length src).
Proof. intros. unfold splice. rewrite !length_app, length_take, length_drop. lia. Qed.

Lemma content_splice s s' d k k' off src :
  0 ≤ off ≤ k_size k → k_size k' = Z.max (k_size k) (off + Z.of_nat (length src)) →
  (∀ x, 0 ≤ x < k_size k' → fbyte s' d (k_addrs k') x =
     if decide (off ≤ x < off + Z.of_nat (length src)) then src !!! Z.to_nat (x - off)
     else fbyte s d (k_addrs k) x) →
  content s' d k' = splice (content s d k) (Z.to_nat off) src.
Proof.
  intros Hoff Hsz Hx. apply list_eq. intros j.
  rewrite lookup_splice_any by (rewrite length_content; lia). unfold content.
  destruct (decide (j < Z.to_nat (k_size k'))%nat).
  - rewrite lookup_frange, Hx by lia. rewrite Z.add_0_l. case_decide; case_decide; try lia.
    + rewrite list_lookup_lookup_total_lt by lia. do 2 f_equal. lia.
    + by rewrite lookup_frange by lia.
  - rewrite lookup_ge_None_2 by (rewrite length_frange; lia).
    case_decide; symmetry; apply lookup_ge_None_2; rewrite ?length_frange; lia.
Qed.

Lemma dinode_ok_set_size x k : dinode_ok x → 0 ≤ k < 4294967296 → dinode_ok (set_size k x).
Proof. intros (? & ? & ? & ? & ? & ? & ? & ? & ?) Hk. unfold dinode_ok. cbn. tauto. Qed.

(** [ip->dinode.size = k; iupdate(ip)]. *)
Lemma set_size_wp s d A C i n k (Q : unit → fs → Prop) R :
  rep s d A C → held s d i n → 0 ≤ k < 4294967296 → (∀ m, m ≠ n → C m) →
  (∀ s', let A' := upd A n (Ikey (k_type (A n)) (k_nlink (A n)) k (k_addrs (A n))) in
     only s s' d A A' i n → rep s' d A' clean → held s' d i n →
     (∀ sl, slot_ok sl → pv s' d (k_addrs (A n)) sl = pv s d (k_addrs (A n)) sl) →
     (∀ b, bmapstart (sbof s d) ≤ b → fblk s' d b = fblk s d b) → Q tt s') →
  wp (upd_din (Some i) (set_size k);; iupdate (Some i)) Q R s.
Proof.
  intros HR Hh Hk HC HQ. pose proof (rep_wf _ _ _ _ HR) as W. destruct (Hh) as [Hn (ip0 & Hl0 & _)].
  set (A' := upd A n (Ikey (k_type (A n)) (k_nlink (A n)) k (k_addrs (A n)))) in *.
  assert (HA : ∀ m, k_addrs (A' m) = k_addrs (A m)).
  { intros m. unfold A', upd. case_decide; [by subst|done]. }
  wp_step. unfold upd_din, upd_inode. wp_step. set (s1 := set_inode_table _ s).
  assert (W1 : wf s1 d A').
  { eapply (wf_transfer s); [done|apply same_base_table, W|..].
    - intros m Hm. rewrite HA. by apply W.
    - intros m sl Hm Hsl. by rewrite HA.
    - done. }
  assert (Hkey : ∀ ip, inode_table s !! i = Some ip → key (din ip) = A n →
    upd A n (key (set_size k (din ip))) = A').
  { intros ip _ E. unfold A'. by rewrite <-E. }
  assert (Hkn : ∀ ip, inode_table s !! i = Some ip → key (din ip) = A n).
  { intros ip Hip. destruct Hh as (_ & ip' & Hip' & ? & ? & ? & <-). assert (ip' = ip) as -> by congruence.
    by apply (rep_cache _ _ _ _ HR i). }
  destruct (upd_din_rep s d A C i n (set_size k)) as (ip & Hl & Hkip & _ & HR1 & Hh1); [done..| | |].
  { intros. by apply dinode_ok_set_size. }
  { intros ip Hip. rewrite (Hkey ip Hip (Hkn ip Hip)). exact W1. }
  rewrite (Hkey ip Hl Hkip) in HR1. fold s1 in HR1, Hh1.
  eapply iupdate_wp; [done..|]. intros s2 H2 HR2. destruct (Hh1) as [Hn1 _].
  apply HQ.
  - eapply only_trans; [|by eapply (iupdate_only d i n s1)].
    constructor; try done.
    + by apply same_base_table, W.
    + intros m Hm. unfold A'. by rewrite upd_ne.
    + unfold A'. by rewrite upd_eq.
    + intros m sl Hm Hsl _. by rewrite HA.
    + intros j Hj. by apply list_lookup_alter_ne.
    + intros jp Hjp. cbn. rewrite list_lookup_alter_eq, Hjp. by eexists _, _.
  - constructor; [apply HR2| |apply (rep_cache _ _ _ _ HR2)|apply (rep_tab _ _ _ _ HR2)].
    intros m Hm _. apply (rep_sync _ _ _ _ HR2); [done|]. destruct (decide (m = n)); [by right|left; auto].
  - split; [by apply (same_base_inode_ok _ _ _ (iu_base _ _ _ _ H2))|].
    rewrite (iu_table _ _ _ _ H2). by apply Hh1.
  - intros sl Hsl. rewrite <-(HA n). by rewrite (iupdate_post_pv s1 d A' n s2 n sl).
  - intros b Hb. rewrite (iu_rest _ _ _ _ H2); [done|].
    destruct (inode_block_range s d A W n Hn) as (E & ? & ?).
    change (sbof s1 d) with (sbof s d). rewrite E. lia.
Qed.

Lemma fbyte_pv s s' d a a' x :
  pv s' d a' (leaf (x / 1024)) = pv s d a (leaf (x / 1024)) →
  fblk s' d (pv s d a (leaf (x / 1024))) = fblk s d (pv s d a (leaf (x / 1024))) →
  fbyte s' d a' x = fbyte s d a x.
Proof. intros Hp Hf. unfold fbyte. consts. by rewrite Hp, Hf. Qed.

(** What a finished [writei] means. *)
Definition written (s s' : fs) (d : Z) (A A' : Z → ikey) (i : nat) (n : Z) (c : list Z) : Prop :=
  only s s' d A A' i n ∧ fsys s' d A' ∧ held s' d i n ∧ content s' d (A' n) = c.

Lemma wrote_written s s' d A A' i n src off :
  fsys s d A → 0 ≤ off ≤ k_size (A n) → off + Z.of_nat (length src) ≤ k_size (A n) →
  wrote s s' d A A' i n src off (Z.of_nat (length src)) →
  written s s' d A A' i n (splice (content s d (A n)) (Z.to_nat off) src).
Proof.
  intros HF Hoff Hlen [O HR Hh Hsz Hsh Hby]. split; [done|]. destruct (Hh) as [Hn _].
  assert (Hn0 : inode_ok s d n) by (by apply (same_base_inode_ok _ _ _ (on_base _ _ _ _ _ _ _ O))).
  pose proof (fsys_size _ _ _ HF n Hn0) as Hs. rewrite Z.max_l in * by lia.
  split; [|split; [done|]].
  - eapply only_fsys; [done..|by rewrite Hsz|]. rewrite Hsz, blocks_for_eq by done. done.
  - apply content_splice; [done|lia|]. by rewrite Hsz.
Qed.

Lemma writei_wp s d A i n src off (Q : Z → fs → Prop) (R : fs → Prop) :
  fsys s d A → pinned s d i n → 0 ≤ off < 4294967296 → bytes src →
  Z.of_nat (length src) < 4294967296 →
  (∀ s' A', let r := write_spec (content s d (A n)) off src in
     written s s' d A A' i n r.2 → Q r.1 s') →
  (∀ s', same_base s s' d → full s' d → R s') →
  wp (writei (Some i) src off (Z.of_nat (length src))) Q R s.
Proof.
  intros HF Hp Hoff Hb Hlen HQ HFull. set (cnt := Z.of_nat (length src)) in *.
  unfold writei. wp_step.
  eapply ilock_wp; [apply HF|done..|]. intros s1 HL HR Hh.
  pose proof (fsys_locks _ _ _ _ _ HF HL HR) as HF1. destruct (Hh) as [Hn _].
  pose proof (locks_only d i n s s1 A (wf_devs _ _ _ (rep_wf _ _ _ _ (fsys_rep _ _ _ HF))) HL) as O1.
  assert (content s1 d (A n) = content s d (A n)) as Ec by (by destruct (lk_state _ _ _ HL) as [f ->]).
  pose proof (fsys_size _ _ _ HF1 n Hn) as Hsz.
  wp_step. eapply deref_held; [done..|]. intros ip _ _ _ _ _ Hk _.
  assert (size (din ip) = k_size (A n)) as -> by by rewrite <-Hk.
  unfold write_spec in HQ. fold cnt in HQ. rewrite length_content, Z2Nat.id in HQ by lia. cbv zeta in HQ.
  rewrite u32_wraps by lia.
  destruct (off >? k_size (A n)) eqn:E1; cbn [orb] in *.
  { apply wp_ret, (HQ _ A). done. }
  destruct (Z.geb_spec (off + cnt) 4294967296).
  { rewrite (gtb_true (off + cnt)) in HQ by (consts; lia). apply wp_ret, (HQ _ A). done. }
  rewrite u32_small by lia.
  destruct (off + cnt >? MAXFILE * BSIZE) eqn:E2.
  { apply wp_ret, (HQ _ A). done. }
  rewrite Z.gtb_ltb in E1, E2. apply Z.ltb_ge in E1, E2. cbn in HQ.
  wp_step. eapply writei_loop; [done..|lia|lia|done|lia|done| |].
  2:{ intros s' HB. apply HFull. eapply same_base_trans; [apply O1|done]. }
  intros s2 A2 W2. pose proof W2 as [O2 HR2 Hh2 Hsz2 Hsh2 Hby2]. rewrite <-Ec in HQ.
  wp_step. eapply deref_held; [done..|]. intros ip2 _ _ _ _ _ Hk2 _.
  assert (size (din ip2) = k_size (A n)) as -> by (rewrite <-Hsz2, <-Hk2; done).
  consts. destruct ((cnt >? 0) && (off + cnt >? k_size (A n))) eqn:E3.
  - apply andb_true_iff in E3 as [E3 E4]. rewrite Z.gtb_ltb in E3, E4.
    apply Z.ltb_lt in E3, E4. wp_step. eapply set_size_wp; [done..|lia|done|].
    intros s3 A3 O3 HR3 Hh3 Hp3 Hf3. apply wp_ret. rewrite s32_small by lia. apply (HQ _ A3).
    assert (O : only s s3 d A A3 i n) by (eapply only_trans; [exact O1|]; by eapply only_trans).
    assert (EA : A3 n = Ikey (k_type (A2 n)) (k_nlink (A2 n)) (off + cnt) (k_addrs (A2 n)))
      by (unfold A3; by rewrite upd_eq).
    rewrite Z.max_r in * by lia. destruct (Hh2) as [Hn2 _].
    split; [done|]. split; [|split; [done|]].
    + eapply (only_fsys d i n s); [done..| |]; rewrite EA; cbn [k_size k_addrs]; [consts; lia|].
      eapply shape_ext; [apply Hp3|]. rewrite blocks_for_eq by (consts; lia). done.
    + apply content_splice; [lia|rewrite EA; cbn; lia|]. rewrite EA; cbn [k_size k_addrs].
      intros x Hx. rewrite <-Hby2 by lia.
      assert (Hxb : 0 ≤ x / 1024 < MAXFILE).
      { consts. split; [apply Z.div_pos; lia|apply Z.div_lt_upper_bound; lia]. }
      destruct (leaf_ok _ Hxb) as [Hok _]. apply fbyte_pv; [by apply Hp3|]. apply Hf3.
      destruct Hsh2 as (_ & Hl & _).
      destruct (wf_ptr _ _ _ (rep_wf _ _ _ _ HR2) n _ Hn2 Hok) as [[? _] _]; [|lia].
      apply Hl; [done|]. apply ceil_blk_lt. lia.
  - wp_step. apply wp_ret. apply wp_ret. rewrite s32_small by lia. apply (HQ _ A2).
    destruct (wrote_written s1 s2 d A A2 i n src off) as (_ & HF2 & _ & Ec2); [done|lia| |done|].
    { destruct (Z.gtb_spec cnt 0), (Z.gtb_spec (off + cnt) (k_size (A n))); cbn in E3; try done; lia. }
    split; [by eapply only_trans|]. done.
Qed.
