(* ===== verification/FsTrunc.v ===== *)
(** * Truncating a file

    [itrunc] gives back the data blocks past the new end and the table blocks
    that no longer point anywhere, and never stops the kernel. *)

From S2P Require Import Prelude FsTypes Block Inode FsInv FsAlloc FsMap FsGrow FsFile FsWrite.

(** While [itrunc] runs, inode [n] is ahead of its copy on the device. *)
Definition but (n : Z) : Z → Prop := λ m, m ≠ n.

Lemma rep_weaken s d A (C C' : Z → Prop) : (∀ m, C' m → C m) → rep s d A C → rep s d A C'.
Proof. intros HC []. constructor; auto. Qed.

(** ** Giving a block back *)

Lemma bfree_pv s d A b s' m sl :
  wf s d A → bfree_post s d b s' → inode_ok s d m → slot_ok sl →
  pv s' d (k_addrs (A m)) sl = pv s d (k_addrs (A m)) sl.
Proof.
  intros W H Hm Hsl. apply pv_frame; [|done]. intros sl' Hsl' _ Hv. apply (bf_rest _ _ _ _ H).
  destruct (wf_ptr _ _ _ W m sl' Hm Hsl' Hv) as [[? _] _]. lia.
Qed.

Lemma bfree_dnode s d A b s' m :
  wf s d A → bfree_post s d b s' → inode_ok s d m → dnode s' d m = dnode s d m.
Proof.
  intros W H Hm. unfold dnode. rewrite (same_base_sbof _ _ _ (bf_base _ _ _ _ H)).
  rewrite (bf_rest _ _ _ _ H); [done|]. destruct (inode_block_range s d A W m Hm) as (-> & ? & ?). lia.
Qed.

(** The pointers at the slots [L] of inode [n] are cleared and their blocks free. *)
Record cut (s s' : fs) (d : Z) (A A' : Z → ikey) (i : nat) (n : Z) (L : list slot) : Prop := Cut {
  ct_only : only s s' d A A' i n;
  ct_rep : rep s' d A' (but n);
  ct_held : held s' d i n;
  ct_size : k_size (A' n) = k_size (A n);
  ct_pv : ∀ sl, slot_ok sl → pv s' d (k_addrs (A' n)) sl =
    if decide (sl ∈ L) then 0 else pv s d (k_addrs (A n)) sl;
  ct_data : ∀ sl, slot_ok sl → is_node sl = false → sl ∉ L → pv s d (k_addrs (A n)) sl ≠ 0 →
    fblk s' d (pv s d (k_addrs (A n)) sl) = fblk s d (pv s d (k_addrs (A n)) sl);
  ct_freed : ∀ sl, slot_ok sl → sl ∈ L → pv s d (k_addrs (A n)) sl ≠ 0 →
    allocated s' d (pv s d (k_addrs (A n)) sl) = false;
  ct_bits : ∀ b, 0 ≤ b < 8192 → allocated s' d b = true → allocated s d b = true
}.

Lemma cut_refl s d A i n : rep s d A (but n) → held s d i n → cut s s d A A i n [].
Proof.
  intros HR Hh. constructor; try done; [apply only_refl, (rep_wf _ _ _ _ HR)|].
  by intros sl _ ?%elem_of_nil.
Qed.

Lemma cut_trans s1 s2 s3 d A1 A2 A3 i n L L' :
  wf s1 d A1 → cut s1 s2 d A1 A2 i n L → cut s2 s3 d A2 A3 i n L' → cut s1 s3 d A1 A3 i n (L ++ L').
Proof.
  intros W1 C C'. pose proof (on_base _ _ _ _ _ _ _ (ct_only _ _ _ _ _ _ _ _ C)) as HB.
  assert (Hn : inode_ok s1 d n).
  { apply (same_base_inode_ok _ _ _ HB). apply (ct_held _ _ _ _ _ _ _ _ C). }
  assert (Hno : ∀ sl, slot_ok sl → sl ∈ L → pv s1 d (k_addrs (A1 n)) sl ≠ 0 →
    allocated s3 d (pv s1 d (k_addrs (A1 n)) sl) = false).
  { intros sl Hsl Hin Hv. pose proof (ct_freed _ _ _ _ _ _ _ _ C sl Hsl Hin Hv) as Hf.
    destruct (allocated s3 d _) eqn:E; [|done]. rewrite (ct_bits _ _ _ _ _ _ _ _ C') in Hf; [done| |done].
    by apply (wf_ptr_range _ _ _ W1). }
  constructor; try apply C'.
  - eapply only_trans; eapply ct_only; [apply C|apply C'].
  - rewrite (ct_size _ _ _ _ _ _ _ _ C'). apply C.
  - intros sl Hsl. rewrite (ct_pv _ _ _ _ _ _ _ _ C'), (ct_pv _ _ _ _ _ _ _ _ C) by done.
    repeat case_decide; rewrite elem_of_app in *; tauto.
  - intros sl Hsl Hl Hnin Hv. rewrite elem_of_app in Hnin.
    pose proof (ct_pv _ _ _ _ _ _ _ _ C sl Hsl) as E. rewrite decide_False in E by tauto.
    rewrite <-(ct_data _ _ _ _ _ _ _ _ C) by tauto.
    rewrite <-E. apply (ct_data _ _ _ _ _ _ _ _ C'); [tauto..|]. by rewrite E.
  - intros sl Hsl [Hin|Hin]%elem_of_app Hv; [by apply Hno|].
    destruct (decide (sl ∈ L)) as [HinL|HnL]; [by apply Hno|].
    pose proof (ct_pv _ _ _ _ _ _ _ _ C sl Hsl) as E. rewrite decide_False in E by done.
    rewrite <-E. apply (ct_freed _ _ _ _ _ _ _ _ C'); [done..|]. by rewrite E.
  - intros b Hb H3. apply (ct_bits _ _ _ _ _ _ _ _ C); [done|]. by apply (ct_bits _ _ _ _ _ _ _ _ C').
Qed.

(** Clearing one pointer and freeing its block, whatever the order. *)
Lemma cut_one s s1 s' d A A' i n sl :
  rep s d A (but n) → held s d i n → slot_ok sl → pv s d (k_addrs (A n)) sl ≠ 0 →
  bfree_post s d (pv s d (k_addrs (A n)) sl) s1 →
  same_base s s' d →
  (∀ b, allocated s' d b = allocated s1 d b) →
  (∀ m, m ≠ n → A' m = A m) →
  (k_type (A' n) = k_type (A n) ∧ k_nlink (A' n) = k_nlink (A n) ∧ k_size (A' n) = k_size (A n)) →
  length (k_addrs (A' n)) = 14%nat →
  (∀ m sl', inode_ok s d m → slot_ok sl' →
     pv s' d (k_addrs (A' m)) sl' =
     if decide (m = n ∧ sl' = sl) then 0 else pv s d (k_addrs (A m)) sl') →
  (∀ m sl', inode_ok s d m → slot_ok sl' → is_node sl' = false → pv s d (k_addrs (A m)) sl' ≠ 0 →
     fblk s' d (pv s d (k_addrs (A m)) sl') = fblk s d (pv s d (k_addrs (A m)) sl')) →
  (∀ j, j ≠ i → inode_table s' !! j = inode_table s !! j) →
  (∀ ip, inode_table s !! i = Some ip →
     ∃ x, inode_table s' !! i = Some (set_din x ip)) →
  wf s' d A' ∧ (rep s' d A' (but n) → cut s s' d A A' i n [sl]).
Proof.
  intros HR Hh Hsl Hv HF HB Hbits HA HAn Hlen Hp Hdata Htab Hent.
  pose proof (rep_wf _ _ _ _ HR) as W. destruct (Hh) as [Hn _].
  pose proof (wf_ptr_range _ _ _ W n sl Hn Hsl) as Hr.
  assert (Hb : ∀ b, 0 ≤ b < 8192 → allocated s' d b =
    if decide (b = pv s d (k_addrs (A n)) sl) then false else allocated s d b).
  { intros b Hb. rewrite Hbits. by apply (bf_bits _ _ _ _ HF). }
  split; [|intros HR'; constructor; try done].
  - eapply wf_update with (n := n) (sl := sl) (v := 0); try done.
    + intros m Hm. destruct (decide (m = n)) as [->|Hne]; [done|]. rewrite HA by done. by apply W.
    + intros b Hb0 Ha Hne. rewrite Hb by done. case_decide; [|done]. tauto.
  - constructor; try done.
    + by destruct HAn as (-> & -> & _).
    + intros m sl' Hm Hsl' Hne. rewrite Hp by done. by rewrite decide_False by tauto.
    + intros m sl' Hm Hsl' _. by apply Hdata.
    + intros ip Hip. destruct (Hent ip Hip) as [x Hx]. by exists (valid ip), x.
  - split; [by apply (same_base_inode_ok _ _ _ HB)|]. destruct Hh as (_ & ip & Hip & Hx).
    destruct (Hent ip Hip) as [x ->]. by exists (set_din x ip).
  - apply HAn.
  - intros sl' Hsl'. rewrite Hp by done.
    destruct (decide (sl' = sl)) as [->|Hne].
    + rewrite decide_True by done. by rewrite decide_True by (by apply list_elem_of_singleton).
    + rewrite decide_False by tauto. rewrite decide_False; [done|]. by rewrite list_elem_of_singleton.
  - intros sl' Hsl' Hl _ Hv'. by apply Hdata.
  - intros sl' _ ->%list_elem_of_singleton _. rewrite Hb by done. by rewrite decide_True.
  - intros b Hb0. rewrite Hb by done. by case_decide.
Qed.

Lemma cut_root_wp s d A i n k (Q : unit → fs → Prop) R :
  rep s d A (but n) → held s d i n → 0 ≤ k < 14 → pv s d (k_addrs (A n)) (Root k) ≠ 0 →
  (is_node (Root k) = true → ∀ j, 0 ≤ j < 256 → pv s d (k_addrs (A n)) (child (Root k) j) = 0) →
  (∀ s' A', cut s s' d A A' i n [Root k] → Q tt s') →
  wp (bfree d (pv s d (k_addrs (A n)) (Root k));; upd_din (Some i) (set_addr k 0)) Q R s.
Proof.
  intros HR Hh Hk Hv Hch HQ. pose proof (rep_wf _ _ _ _ HR) as W. destruct (Hh) as [Hn _].
  destruct (wf_ptr _ _ _ W n (Root k) Hn Hk Hv) as [_ Hal].
  wp_step. eapply bfree_wp; [by eapply wf_bm_ok|by apply (wf_ptr_range _ _ _ W)|done|].
  intros s1 HF. pose proof (bf_base _ _ _ _ HF) as HB1.
  unfold upd_din, upd_inode. wp_step. set (s2 := set_inode_table _ s1).
  assert (HB2 : same_base s s2 d).
  { eapply same_base_trans; [exact HB1|]. apply same_base_table, HB1. }
  assert (Hcut : ∀ x, key x = A n → let A' := upd A n (key (set_addr k 0 x)) in
    wf s2 d A' ∧ (rep s2 d A' (but n) → cut s s2 d A A' i n [Root k])).
  { intros x Hx A'. assert (EA : A' n = key (set_addr k 0 x)) by apply upd_eq.
    assert (Ea : k_addrs (A' n) = <[Z.to_nat k := 0]> (k_addrs (A n))) by by rewrite EA, <-Hx.
    eapply cut_one with (s1 := s1); try done.
    - intros m Hm. unfold A'. by rewrite upd_ne.
    - by rewrite EA, <-Hx.
    - rewrite Ea, length_insert. by apply W.
    - intros m sl Hm Hsl. change (pv s2 d) with (pv s1 d). destruct (decide (m = n)) as [->|Hne].
      + rewrite Ea, pv_set_root; [|by apply W|done|done|].
        * rewrite (bfree_pv s d A _ s1) by done. repeat case_decide; tauto.
        * intros j Hj Hnode. rewrite (bfree_pv s d A _ s1) by (done || by apply child_ok). by rewrite Hch.
      + unfold A'. rewrite upd_ne, decide_False by tauto. by eapply bfree_pv.
    - intros m sl Hm Hsl _ Hmv. apply (bf_rest _ _ _ _ HF).
      destruct (wf_ptr _ _ _ W m sl Hm Hsl Hmv) as [[? _] _]. lia.
    - intros j Hj. cbn. rewrite list_lookup_alter_ne by done. by rewrite (bf_table _ _ _ _ HF).
    - intros ip Hip. cbn. rewrite (bf_table _ _ _ _ HF), list_lookup_alter_eq, Hip. by eexists. }
  destruct (upd_din_rep_gen s s1 d A (but n) i n (set_addr k 0)) as (ip & _ & Hkip & _ & HR2 & _); try done.
  - apply HF.
  - intros m Hm. by eapply bfree_dnode.
  - intros ip _ Hok _. apply dinode_ok_set_addr; [done|lia].
  - intros ip _ Hkip. exact (proj1 (Hcut _ Hkip)).
  - destruct (Hcut _ Hkip) as [_ Hc]. eapply HQ, Hc. eapply rep_weaken; [|exact HR2]. intros m Hm. by split.
Qed.

Lemma cut_entry_wp s d A i n nd j (Q : unit → fs → Prop) R :
  rep s d A (but n) → held s d i n → slot_ok nd → is_node nd = true → 0 ≤ j < 256 →
  pv s d (k_addrs (A n)) nd ≠ 0 → pv s d (k_addrs (A n)) (child nd j) ≠ 0 →
  (is_node (child nd j) = true → ∀ k, 0 ≤ k < 256 →
     pv s d (k_addrs (A n)) (child (child nd j) k) = 0) →
  let t := pv s d (k_addrs (A n)) nd in
  (∀ s', cut s s' d A A i n [child nd j] →
     (∀ b, b ≠ bmapstart (sbof s d) →
        fblk s' d b = if decide (b = t) then set_word (fblk s d t) j 0 else fblk s d b) → Q tt s') →
  wp (bfree d (pv s d (k_addrs (A n)) (child nd j));;
      write_block d t (set_word (fblk s d t) j 0)) Q R s.
Proof.
  intros HR Hh Hnd Hnode Hj Hnv Hv Hch t HQ. pose proof (rep_wf _ _ _ _ HR) as W. destruct (Hh) as [Hn _].
  assert (Hsl : slot_ok (child nd j)) by by apply child_ok.
  destruct (wf_ptr _ _ _ W n _ Hn Hsl Hv) as [_ Hal].
  destruct (wf_ptr _ _ _ W n _ Hn Hnd Hnv) as [Htd _]. fold t in Htd, Hnv.
  wp_step. eapply bfree_wp; [by eapply wf_bm_ok|by apply (wf_ptr_range _ _ _ W)|done|].
  intros s1 HF. pose proof (bf_base _ _ _ _ HF) as HB1.
  apply wp_write_block; [apply HB1|apply W|apply (same_base_fits _ _ _ HB1), Htd|].
  set (buf := set_word (fblk s d t) j 0). set (s2 := fset d t buf s1).
  assert (Hbuf : block_buf buf).
  { destruct (fblk_ok s d t) as [Hl Hb]; [apply W..|].
    split; [unfold buf; rewrite length_set_word; lia|by apply bytes_set_word]. }
  assert (HB2 : same_base s s2 d).
  { eapply same_base_trans; [exact HB1|]. apply same_base_fset; [apply HB1|apply W|done]. }
  assert (Hblk : ∀ b, b ≠ bmapstart (sbof s d) →
    fblk s2 d b = if decide (b = t) then buf else fblk s d b).
  { intros b Hb. unfold s2. rewrite fblk_fset by (apply HB1 || apply W || done).
    repeat case_decide; subst; try done. by apply (bf_rest _ _ _ _ HF). }
  (* the pointers, as if the bitmap had not been touched *)
  set (s2' := fset d t buf s).
  assert (Hp' : ∀ m sl, inode_ok s d m → slot_ok sl → pv s2' d (k_addrs (A m)) sl =
    if decide (m = n ∧ sl = child nd j) then 0 else pv s d (k_addrs (A m)) sl).
  { intros m sl Hm Hsl'. apply pv_set_entry; try done.
    intros k Hk Hnd'. by rewrite Hch. }
  assert (Hp : ∀ m sl, inode_ok s d m → slot_ok sl → pv s2 d (k_addrs (A m)) sl =
    if decide (m = n ∧ sl = child nd j) then 0 else pv s d (k_addrs (A m)) sl).
  { intros m sl Hm Hsl'. rewrite <-Hp' by done. apply pv_frame; [|done].
    intros sl' Hsl'' _. rewrite Hp' by done. case_decide; [done|]. intros Hmv.
    destruct (wf_ptr _ _ _ W m sl' Hm Hsl'' Hmv) as [[? _] _].
    rewrite Hblk by lia. unfold s2'. rewrite fblk_fset by (apply W || done).
    repeat case_decide; congruence. }
  assert (Hbm : bitmap s2 d = bitmap s1 d).
  { unfold bitmap. change (sbof s2 d) with (sbof s1 d). apply fblk_fset_ne; [apply HB1|apply W|].
    rewrite (same_base_sbof _ _ _ HB1). destruct Htd. lia. }
  destruct (cut_one s s1 s2 d A A i n (child nd j)) as [W2 Hcut]; try done.
  - intros b. unfold allocated. by rewrite Hbm.
  - by apply W.
  - intros m sl Hm Hsl' Hl Hmv. destruct (wf_ptr _ _ _ W m sl Hm Hsl' Hmv) as [[? _] _].
    rewrite Hblk by lia. case_decide as E; [|done].
    exfalso. by eapply (leaf_not_table s d A m sl W Hm Hsl' Hl Hmv n nd).
  - intros k Hk. cbn. by rewrite (bf_table _ _ _ _ HF).
  - intros ip Hip. cbn. rewrite (bf_table _ _ _ _ HF), Hip. exists (din ip). by destruct ip.
  - apply HQ; [|done]. apply Hcut. constructor; [done|..].
    + intros m Hm%(same_base_inode_ok _ _ _ HB2) Hne. rewrite <-(rep_sync _ _ _ _ HR m Hm Hne). f_equal.
      unfold dnode. rewrite (same_base_sbof _ _ _ HB2). rewrite Hblk.
      * rewrite decide_False; [done|]. intros E. by eapply (data_blk_not_inode s d A W t m Htd Hm).
      * destruct (inode_block_range s d A W m Hm) as (-> & ? & ?). lia.
    + intros k kp. cbn. rewrite (bf_table _ _ _ _ HF), (same_base_inode_ok _ _ _ HB2).
      apply (rep_cache _ _ _ _ HR).
    + cbn. rewrite (bf_table _ _ _ _ HF). apply (rep_tab _ _ _ _ HR).
Qed.

(** ** The truncation loop *)

(** [itrunc] has released the blocks from [new] up to [bn]. *)
Record partial (s : fs) (d : Z) (a : list Z) (new bn old : Z) : Prop := Partial {
  pt_leaf : ∀ b, 0 ≤ b < MAXFILE → pv s d a (leaf b) ≠ 0 ↔ b < new ∨ bn ≤ b < old;
  pt_ind : pv s d a (Root NDIRECT) ≠ 0 ↔ NDIRECT < old;
  pt_dind : pv s d a (Root (NDIRECT + 1)) ≠ 0 ↔ NDIRECT + NINDIRECT < old;
  pt_sub : ∀ j, 0 ≤ j < 256 → pv s d a (DInd j) ≠ 0 →
    ∃ k, 0 ≤ k < 256 ∧ pv s d a (DLeaf j k) ≠ 0
}.

Lemma leaf_double j k : 0 ≤ j → 0 ≤ k < 256 → leaf (268 + 256 * j + k) = DLeaf j k.
Proof.
  intros Hj Hk. destruct (path_double (268 + 256 * j + k)) as [_ ->]; [lia|].
  f_equal.
  - symmetry. apply (Z.div_unique _ _ _ k); lia.
  - symmetry. apply (Z.mod_unique _ _ j); lia.
Qed.

Lemma partial_start s d a new old :
  shape s d a old → 0 ≤ new ≤ old → partial s d a new new old.
Proof.
  intros (Hk & Hl & H1 & H2 & H3) Hnew. constructor; [|done|done|].
  - intros b Hb. rewrite Hl by done. lia.
  - intros j Hj Hv. exists 0. split; [lia|]. apply H3 in Hv; [|done]. consts.
    rewrite <-leaf_double by lia. apply Hl; lia.
Qed.

Lemma partial_next s s' d A A' i n new bn old L :
  partial s d (k_addrs (A n)) new bn old → 0 ≤ new ≤ bn → bn < old ≤ MAXFILE →
  cut s s' d A A' i n L → leaf bn ∈ L →
  (∀ sl, sl ∈ L → sl = leaf bn ∨ ∃ j, sl = DInd j) →
  (∀ j, 0 ≤ j < 256 → pv s' d (k_addrs (A' n)) (DInd j) ≠ 0 →
    ∃ k, 0 ≤ k < 256 ∧ pv s' d (k_addrs (A' n)) (DLeaf j k) ≠ 0) →
  partial s' d (k_addrs (A' n)) new (bn + 1) old.
Proof.
  intros [Hl H1 H2 _] Hnew Hold C Hin HL HT.
  assert (Hroot : ∀ r, r = NDIRECT ∨ r = NDIRECT + 1 → Root r ∉ L).
  { intros r Hr Hrin. destruct (HL _ Hrin) as [E|[j E]]; [|done]. destruct (leaf_ok bn) as [_ Hnode]; [lia|].
    rewrite <-E in Hnode. consts. by destruct Hr as [->| ->]. }
  constructor; [|..|done].
  - intros b Hb. destruct (leaf_ok b Hb) as [Hok Hnode].
    rewrite (ct_pv _ _ _ _ _ _ _ _ C) by done. case_decide as Hbin.
    + assert (b = bn) as ->; [|lia]. apply leaf_inj; [done|lia|].
      destruct (HL _ Hbin) as [E|[j E]]; [done|]. by rewrite E in Hnode.
    + assert (b ≠ bn) by congruence. rewrite Hl by done. lia.
  - rewrite (ct_pv _ _ _ _ _ _ _ _ C), decide_False; [done|by auto|]. cbn; consts; lia.
  - rewrite (ct_pv _ _ _ _ _ _ _ _ C), decide_False; [done|by auto|]. cbn; consts; lia.
Qed.

Lemma table_empty_spec buf :
  table_empty buf = true ↔ ∀ k, 0 ≤ k < 256 → word_at buf k = 0.
Proof.
  unfold table_empty. rewrite forallb_forall. consts. split.
  - intros H k Hk. specialize (H (Z.to_nat k)). rewrite in_seq, Z2Nat.id in H by lia.
    apply Z.eqb_eq, H. lia.
  - intros H j Hj%in_seq. apply Z.eqb_eq, H. lia.
Qed.

Lemma forallb_false {B} (f : B → bool) l : forallb f l = false → ∃ x, In x l ∧ f x = false.
Proof.
  induction l as [|x l IH]; [done|]. cbn. destruct (f x) eqn:E; [|eauto].
  intros (y & ? & ?)%IH. eauto.
Qed.

Lemma table_not_empty buf : table_empty buf = false → ∃ k, 0 ≤ k < 256 ∧ word_at buf k ≠ 0.
Proof.
  intros (j & Hj%in_seq & E%Z.eqb_neq)%forallb_false. exists (Z.of_nat j).
  change (Z.to_nat NINDIRECT) with 256%nat in Hj. split; [lia|done].
Qed.

(** What one round of the loop achieves. *)
Definition cut_block (s : fs) (d : Z) (A : Z → ikey) (i : nat) (n new bn old : Z) (s' : fs) : Prop :=
  ∃ A' L, cut s s' d A A' i n L ∧ partial s' d (k_addrs (A' n)) new (bn + 1) old.

Lemma cut_block_same_subs s s' d A A' i n new bn old :
  partial s d (k_addrs (A n)) new bn old → 0 ≤ new ≤ bn → bn < old ≤ MAXFILE → bn < 268 →
  cut s s' d A A' i n [leaf bn] → cut_block s d A i n new bn old s'.
Proof.
  intros P Hnew Hold Hbn C. exists A', [leaf bn]. split; [done|].
  eapply partial_next; [done..| | |].
  - by apply list_elem_of_singleton.
  - intros sl ->%list_elem_of_singleton. by left.
  - assert (Hout : ∀ sl, (∃ j, sl = DInd j) ∨ (∃ j k, sl = DLeaf j k) → sl ∉ [leaf bn]).
    { intros sl Hsl ->%list_elem_of_singleton. unfold leaf in Hsl. consts.
      destruct (decide (bn < 12)); revert Hsl; zb; by intros [[? [=]]|(? & ? & [=])]. }
    intros j Hj. rewrite (ct_pv _ _ _ _ _ _ _ _ C), decide_False by (done || apply Hout; eauto).
    intros Hv. destruct (pt_sub _ _ _ _ _ _ P j Hj Hv) as (k & Hk & Hkv). exists k. split; [done|].
    rewrite (ct_pv _ _ _ _ _ _ _ _ C), decide_False by (done || apply Hout; eauto). done.
Qed.

(** A second-level table that the first cut left empty goes as well. *)
Lemma cut_subtable_wp s s1 d A i n new bn old (Q : unit → fs → Prop) R :
  rep s d A (but n) → partial s d (k_addrs (A n)) new bn old →
  0 ≤ new ≤ bn → bn < old ≤ MAXFILE → 268 ≤ bn →
  let j := (bn - 12 - 256) / 256 in let k := (bn - 12 - 256) mod 256 in
  let t := pv s d (k_addrs (A n)) (Root (12 + 1)) in
  let u := pv s d (k_addrs (A n)) (DInd j) in
  let buf := set_word (fblk s d u) k 0 in
  u ≠ 0 → cut s s1 d A A i n [DLeaf j k] →
  (∀ b, b ≠ bmapstart (sbof s d) → fblk s1 d b = if decide (b = u) then buf else fblk s d b) →
  (∀ s', cut_block s d A i n new bn old s' → Q tt s') →
  wp (if table_empty buf then bfree d u;; write_block d t (set_word (fblk s d t) j 0) else mret tt) Q R s1.
Proof.
  intros HR P Hnew Hold Hbn j k t u buf Hu C1 Hblk HQ. pose proof (rep_wf _ _ _ _ HR) as W.
  destruct (path_double bn) as [_ Eleaf]; [lia|]. fold j k in Eleaf.
  pose proof (ct_held _ _ _ _ _ _ _ _ C1) as Hh1. pose proof (ct_rep _ _ _ _ _ _ _ _ C1) as HR1.
  pose proof (on_base _ _ _ _ _ _ _ (ct_only _ _ _ _ _ _ _ _ C1)) as HB1.
  assert (Hn : inode_ok s d n) by (apply (same_base_inode_ok _ _ _ HB1), Hh1).
  assert (Hj : 0 ≤ j < 256) by (consts; unfold j; split; [apply Z.div_pos|apply Z.div_lt_upper_bound]; lia).
  assert (Ht : t ≠ 0) by (by destruct (entry_nz _ _ _ _ Hu)).
  destruct (wf_ptr _ _ _ W n (Root (12 + 1)) Hn ltac:(cbn; lia) Ht) as [[Htb _] _]. fold t in Htb.
  destruct (wf_ptr _ _ _ W n (DInd j) Hn Hj Hu) as [[Hub _] _]. fold u in Hub.
  assert (Hsame : ∀ sl, slot_ok sl → sl ≠ DLeaf j k →
    pv s1 d (k_addrs (A n)) sl = pv s d (k_addrs (A n)) sl).
  { intros sl Hsl Hne. rewrite (ct_pv _ _ _ _ _ _ _ _ C1) by done.
    rewrite decide_False; [done|]. by rewrite list_elem_of_singleton. }
  assert (Hkids : ∀ k', pv s1 d (k_addrs (A n)) (DLeaf j k') = word_at buf k').
  { intros k'. change (entry s1 d (pv s1 d (k_addrs (A n)) (DInd j)) k' = word_at buf k').
    rewrite Hsame by done. fold u. unfold entry. zb. rewrite Hblk by lia. by rewrite decide_True. }
  destruct (table_empty buf) eqn:Et.
  - assert (fblk s1 d t = fblk s d t) as <-.
    { rewrite Hblk by lia. rewrite decide_False; [done|]. intros E.
      by destruct (wf_inj _ _ _ W n (Root (12 + 1)) n (DInd j)) as [_ [=]]. }
    assert (E1 : pv s1 d (k_addrs (A n)) (Root (12 + 1)) = t) by (by apply Hsame; [cbn; lia|]).
    assert (E2 : pv s1 d (k_addrs (A n)) (DInd j) = u) by (by apply Hsame).
    rewrite <-E1, <-E2.
    eapply (cut_entry_wp s1 d A i n (Root (12 + 1)) j); [done..|by rewrite E1
      |change (pv s1 d (k_addrs (A n)) (DInd j) ≠ 0); by rewrite E2| |].
    { intros _ k' Hk'. change (pv s1 d (k_addrs (A n)) (DLeaf j k') = 0). rewrite Hkids.
      by apply table_empty_spec. }
    intros s2 C2 _. apply HQ. exists A, ([DLeaf j k] ++ [DInd j]).
    pose proof (cut_trans _ _ _ _ _ _ _ _ _ _ _ W C1 C2) as C. split; [done|].
    eapply partial_next; [done..| | |].
    + rewrite Eleaf. apply elem_of_app. left. by apply list_elem_of_singleton.
    + intros sl. rewrite Eleaf. intros [->%list_elem_of_singleton| ->%list_elem_of_singleton]%elem_of_app; eauto.
    + intros j' Hj'. rewrite (ct_pv _ _ _ _ _ _ _ _ C) by done. case_decide as Hin; [done|]. intros Hv.
      destruct (pt_sub _ _ _ _ _ _ P j' Hj' Hv) as (k' & Hk' & Hv'). exists k'. split; [done|].
      rewrite (ct_pv _ _ _ _ _ _ _ _ C) by done. rewrite decide_False; [done|].
      intros [[=]%list_elem_of_singleton|[=]%list_elem_of_singleton]%elem_of_app. subst.
      apply Hin, elem_of_app. right. by apply list_elem_of_singleton.
  - apply wp_ret, HQ. exists A, [DLeaf j k]. split; [done|].
    eapply partial_next; [done..| | |].
    + rewrite Eleaf. by apply list_elem_of_singleton.
    + intros sl ->%list_elem_of_singleton. by left.
    + intros j' Hj'. rewrite Hsame by done. intros Hv. destruct (decide (j' = j)) as [->|Hne].
      * destruct (table_not_empty buf Et) as (k' & Hk' & Hv'). exists k'. by rewrite Hkids.
      * destruct (pt_sub _ _ _ _ _ _ P j' Hj' Hv) as (k' & Hk' & Hv'). exists k'. split; [done|].
        rewrite Hsame; [done|done|]. by intros [=].
Qed.

Lemma itrunc_block_wp s d A i n new bn old (Q : unit → fs → Prop) R :
  rep s d A (but n) → held s d i n → partial s d (k_addrs (A n)) new bn old →
  0 ≤ new ≤ bn → bn < old ≤ MAXFILE →
  (∀ s', cut_block s d A i n new bn old s' → Q tt s') →
  wp (itrunc_block (Some i) bn) Q R s.
Proof.
  intros HR Hh P Hnew Hold HQ. pose proof (rep_wf _ _ _ _ HR) as W. destruct (Hh) as [Hn _].
  assert (Hfit : ∀ sl, slot_ok sl → pv s d (k_addrs (A n)) sl ≠ 0 →
    fits s d (pv s d (k_addrs (A n)) sl)).
  { intros sl Hsl Hsv. by destruct (wf_ptr _ _ _ W n sl Hn Hsl Hsv) as [[_ ?] _]. }
  assert (Hv : pv s d (k_addrs (A n)) (leaf bn) ≠ 0) by (apply (pt_leaf _ _ _ _ _ _ P); lia).
  unfold itrunc_block. wp_step. eapply deref_held; [done..|]. intros ip _ _ _ Hd _ Hk Hok.
  pose proof (key_addrs _ _ Hk) as Ha. rewrite Hd. consts. cbv zeta.
  destruct (Z.ltb_spec bn 12).
  { destruct (path_direct bn) as [_ E]; [lia|]. rewrite E in Hv.
    wp_step. eapply wp_expect; [apply addrs_lookup; [done|lia]|]. rewrite Ha.
    change (k_addrs (A n) !!! Z.to_nat bn) with (pv s d (k_addrs (A n)) (Root bn)). zb.
    eapply cut_root_wp; [done..|lia|done| |].
    - cbn. consts. by zb.
    - intros s' A' C. apply HQ. rewrite <-E in C. eapply cut_block_same_subs; try done; consts; lia. }
  destruct (Z.ltb_spec (bn - 12) 256).
  { destruct (path_indirect bn) as [_ E]; [lia|]. rewrite E in Hv. destruct (entry_nz _ _ _ _ Hv) as [Hr Er].
    wp_step. eapply wp_expect; [apply addrs_lookup; [done|lia]|]. rewrite Ha. consts.
    change (k_addrs (A n) !!! Z.to_nat 12) with (pv s d (k_addrs (A n)) (Root 12)) in *. zb.
    wp_step. apply wp_read_block; [apply W..|by apply Hfit|].
    change (entry s d _ _) with (pv s d (k_addrs (A n)) (Ind (bn - 12))) in Er. rewrite Er. zb.
    eapply (cut_entry_wp s d A i n (Root 12) (bn - 12)); [done..|lia|done|done|done|].
    intros s' C _. apply HQ. change (child (Root 12) (bn - 12)) with (Ind (bn - 12)) in C.
    rewrite <-E in C. eapply cut_block_same_subs; try done; consts; lia. }
  destruct (path_double bn) as [_ E]; [lia|]. rewrite E in Hv.
  set (j := (bn - 12 - 256) / 256) in *. set (k := (bn - 12 - 256) mod 256) in *.
  assert (Hj : 0 ≤ j < 256) by (consts; unfold j; split; [apply Z.div_pos|apply Z.div_lt_upper_bound]; lia).
  assert (Hk' : 0 ≤ k < 256) by (apply Z.mod_pos_bound; lia).
  destruct (entry_nz _ _ _ _ Hv) as [Hu Eu]. destruct (entry_nz _ _ _ _ Hu) as [Ht Et].
  wp_step. eapply wp_expect; [apply addrs_lookup; [done|lia]|]. rewrite Ha. consts.
  change (k_addrs (A n) !!! Z.to_nat (12 + 1)) with (pv s d (k_addrs (A n)) (Root (12 + 1))) in *. zb.
  change (entry s d (pv s d (k_addrs (A n)) (Root (12 + 1))) j)
    with (pv s d (k_addrs (A n)) (DInd j)) in *.
  change (entry s d (pv s d (k_addrs (A n)) (DInd j)) k)
    with (pv s d (k_addrs (A n)) (DLeaf j k)) in *.
  wp_step. apply wp_read_block; [apply W..|by apply Hfit|].
  destruct (fblk_ok s d (pv s d (k_addrs (A n)) (Root (12 + 1)))) as [Hl _]; [apply W..|].
  wp_step. eapply wp_expect; [unfold cword; rewrite Hl, Et; by zb|]. zb.
  wp_step. apply wp_read_block; [apply W..|by apply Hfit|]. rewrite Eu. zb.
  wp_step. apply wp_then. eapply (cut_entry_wp s d A i n (DInd j) k); [done..|].
  intros s1 C1 Hblk. apply wp_ret. eapply cut_subtable_wp with (s := s); try done; consts; lia.
Qed.

Lemma itrunc_loop_wp s d A i n new old (Q : unit → fs → Prop) R :
  rep s d A (but n) → held s d i n → partial s d (k_addrs (A n)) new new old →
  0 ≤ new ≤ old → old ≤ MAXFILE →
  (∀ s' A' L, cut s s' d A A' i n L → partial s' d (k_addrs (A' n)) new old old → Q tt s') →
  wp (loop (S (Z.to_nat (old - new))) (itrunc_step (Some i) old) new) Q R s.
Proof.
  intros HR Hh P Hnew Hold HQ. pose proof (rep_wf _ _ _ _ HR) as W. consts.
  eapply wp_loop with (k := Z.to_nat (old - new)) (I := λ k bn s', new ≤ bn ≤ old ∧
    k = Z.to_nat (old - bn) ∧ ∃ A' L, cut s s' d A A' i n L ∧ partial s' d (k_addrs (A' n)) new bn old);
    [|repeat split; [lia..|]; exists A, []; split; [by apply cut_refl|done]|lia].
  intros k bn s1 (Hbn & -> & A1 & L & C & P1). unfold itrunc_step. destruct (Z.ltb_spec bn old).
  - wp_step. eapply (itrunc_block_wp s1 d A1 i n new bn old); [apply C|apply C|done|lia|consts; lia|].
    intros s2 (A2 & L2 & C2 & P2). apply wp_ret. rewrite u32_small by lia.
    exists (Z.to_nat (old - (bn + 1))). split; [lia|]. split; [lia|]. split; [done|].
    exists A2, (L ++ L2). split; [by eapply cut_trans|done].
  - apply wp_ret. replace bn with old in * by lia. by eapply HQ.
Qed.

Lemma itrunc_root_wp s d A i n k (Q : unit → fs → Prop) R :
  rep s d A (but n) → held s d i n → 0 ≤ k < 14 →
  (is_node (Root k) = true → ∀ j, 0 ≤ j < 256 → pv s d (k_addrs (A n)) (child (Root k) j) = 0) →
  (∀ s' A' L, cut s s' d A A' i n L → (∀ sl, sl ∈ L → sl = Root k) →
     pv s' d (k_addrs (A' n)) (Root k) = 0 → Q tt s') →
  wp (itrunc_root (Some i) k) Q R s.
Proof.
  intros HR Hh Hk Hch HQ. unfold itrunc_root. wp_step. eapply deref_held; [done..|].
  intros ip _ _ _ Hd _ Hkey Hok. pose proof (key_addrs _ _ Hkey) as Ha. rewrite Hd.
  wp_step. eapply wp_expect; [by apply addrs_lookup|]. rewrite Ha.
  change (k_addrs (A n) !!! Z.to_nat k) with (pv s d (k_addrs (A n)) (Root k)).
  destruct (Z.eqb_spec (pv s d (k_addrs (A n)) (Root k)) 0) as [E|E]; cbn [negb].
  - apply wp_ret. eapply (HQ _ A []); [by apply cut_refl|by intros ? ?%elem_of_nil|done].
  - eapply cut_root_wp; [done..|]. intros s' A' C. eapply HQ; [done|by intros ? ?%list_elem_of_singleton|].
    rewrite (ct_pv _ _ _ _ _ _ _ _ C) by done. by rewrite decide_True by by apply list_elem_of_singleton.
Qed.

(** Leaves below [new] only, and no empty second-level table. *)
Definition leaves (s : fs) (d : Z) (a : list Z) (new : Z) : Prop :=
  (∀ b, 0 ≤ b < MAXFILE → pv s d a (leaf b) ≠ 0 ↔ b < new) ∧
  (∀ j, 0 ≤ j < 256 → pv s d a (DInd j) ≠ 0 → ∃ k, 0 ≤ k < 256 ∧ pv s d a (DLeaf j k) ≠ 0).

Lemma leaves_cut s s' d A A' i n new k L :
  leaves s d (k_addrs (A n)) new → k = 12 ∨ k = 13 → cut s s' d A A' i n L →
  (∀ sl, sl ∈ L → sl = Root k) → leaves s' d (k_addrs (A' n)) new.
Proof.
  intros [Hl Hs] Hk C HL.
  assert (Hsame : ∀ sl, slot_ok sl → sl ≠ Root k →
    pv s' d (k_addrs (A' n)) sl = pv s d (k_addrs (A n)) sl).
  { intros sl Hsl Hne. rewrite (ct_pv _ _ _ _ _ _ _ _ C) by done.
    rewrite decide_False; [done|]. by intros ?%HL. }
  split.
  - intros b Hb. destruct (leaf_ok b Hb) as [Hok Hnode]. rewrite Hsame; [by apply Hl|done|].
    intros E. rewrite E in Hnode. cbn in Hnode. by destruct Hk as [->| ->].
  - intros j Hj. rewrite Hsame by done. intros Hv. destruct (Hs j Hj Hv) as (k' & ? & ?).
    exists k'. by rewrite Hsame.
Qed.

Lemma leaves_shape s d a new :
  0 ≤ new ≤ MAXFILE → leaves s d a new →
  (pv s d a (Root NDIRECT) ≠ 0 ↔ NDIRECT < new) →
  (pv s d a (Root (NDIRECT + 1)) ≠ 0 ↔ NDIRECT + NINDIRECT < new) → shape s d a new.
Proof.
  intros Hnew [Hl Hs] H1 H2. split; [done|]. split; [done|]. split; [done|]. split; [done|].
  intros j Hj. consts. split.
  - intros Hv. destruct (Hs j Hj Hv) as (k & Hk & Hv').
    rewrite <-leaf_double in Hv' by lia. apply Hl in Hv'; lia.
  - intros Hlt. assert (Hv : pv s d a (DLeaf j 0) ≠ 0).
    { rewrite <-leaf_double by lia. apply Hl; lia. }
    by destruct (entry_nz _ _ _ _ Hv).
Qed.

Lemma leaf_indirect j : 0 ≤ j < 256 → leaf (12 + j) = Ind j.
Proof. intros. destruct (path_indirect (12 + j)) as [_ ->]; [lia|]. f_equal. lia. Qed.

Lemma leaves_ind s d a new j : leaves s d a new → new ≤ 12 → 0 ≤ j < 256 → pv s d a (Ind j) = 0.
Proof.
  intros [Hl _] Hnew Hj. destruct (decide (pv s d a (Ind j) = 0)) as [|Hv]; [done|].
  rewrite <-leaf_indirect in Hv by done. apply Hl in Hv; consts; lia.
Qed.

Lemma leaves_dind s d a new j : leaves s d a new → new ≤ 268 → 0 ≤ j < 256 → pv s d a (DInd j) = 0.
Proof.
  intros [Hl Hs] Hnew Hj. destruct (decide (pv s d a (DInd j) = 0)) as [|Hv]; [done|].
  destruct (Hs j Hj Hv) as (k & Hk & Hv'). rewrite <-leaf_double in Hv' by lia.
  apply Hl in Hv'; consts; lia.
Qed.

Lemma itrunc_roots_wp s d A i n new old (Q : unit → fs → Prop) R :
  rep s d A (but n) → held s d i n → partial s d (k_addrs (A n)) new old old →
  0 ≤ new < old → old ≤ MAXFILE →
  (∀ s' A' L, cut s s' d A A' i n L → shape s' d (k_addrs (A' n)) new → Q tt s') →
  wp ((if new <=? NDIRECT then itrunc_root (Some i) NDIRECT else mret tt);;
      (if new <=? NDIRECT + NINDIRECT then itrunc_root (Some i) (NDIRECT + 1) else mret tt)) Q R s.
Proof.
  intros HR Hh P Hnew Hold HQ. pose proof (rep_wf _ _ _ _ HR) as W. consts.
  assert (Hlv : leaves s d (k_addrs (A n)) new).
  { split; [|apply P]. intros b Hb. rewrite (pt_leaf _ _ _ _ _ _ P) by done. lia. }
  destruct P as [_ H1 H2 _]. consts.
  (* after the first root: single indirection in order, the other root untouched *)
  assert (Hsnd : ∀ s1 A1 L1, cut s s1 d A A1 i n L1 → leaves s1 d (k_addrs (A1 n)) new →
    (pv s1 d (k_addrs (A1 n)) (Root 12) ≠ 0 ↔ 12 < new) →
    pv s1 d (k_addrs (A1 n)) (Root (12 + 1)) = pv s d (k_addrs (A n)) (Root (12 + 1)) →
    wp (if new <=? 12 + 256 then itrunc_root (Some i) (12 + 1) else mret tt) Q R s1).
  { intros s1 A1 L1 C1 Hlv1 Hr1 E1. destruct (Z.leb_spec new (12 + 256)).
    - eapply (itrunc_root_wp s1 d A1 i n); [apply C1..|lia| |].
      + intros _ j Hj. change (child (Root (12 + 1)) j) with (DInd j). eapply leaves_dind; [done|lia|done].
      + intros s2 A2 L2 C2 HL2 E2. eapply HQ; [by eapply cut_trans|].
        apply leaves_shape; consts; [lia| | |rewrite E2; lia].
        * eapply leaves_cut; [done|by right|done..].
        * rewrite (ct_pv _ _ _ _ _ _ _ _ C2) by (cbn; lia). rewrite decide_False; [done|].
          by intros [=]%HL2.
    - apply wp_ret. eapply HQ; [done|]. apply leaves_shape; consts; [lia|done..|].
      rewrite E1, H2. lia. }
  wp_step. destruct (Z.leb_spec new 12).
  - eapply itrunc_root_wp; [done..|lia| |].
    + intros _ j Hj. change (child (Root 12) j) with (Ind j). by eapply leaves_ind.
    + intros s1 A1 L1 C1 HL1 E1. eapply Hsnd; [done| | |].
      * eapply leaves_cut; [done|by left|done..].
      * rewrite E1. lia.
      * rewrite (ct_pv _ _ _ _ _ _ _ _ C1) by (cbn; lia). rewrite decide_False; [done|]. by intros [=]%HL1.
  - apply wp_ret. eapply Hsnd; [by apply cut_refl|done| |done]. rewrite H1. lia.
Qed.

(** ** [itrunc] *)

(** The outcome of truncating inode [n] to [new] bytes. *)
Record truncated (s s' : fs) (d : Z) (A A' : Z → ikey) (i : nat) (n new : Z) : Prop := Truncated {
  tr_only : only s s' d A A' i n;
  tr_fsys : fsys s' d A';
  tr_held : held s' d i n;
  tr_content : content s' d (A' n) = take (Z.to_nat new) (content s d (A n));
  tr_freed : ∀ sl, slot_ok sl → pv s d (k_addrs (A n)) sl ≠ 0 →
    pv s' d (k_addrs (A' n)) sl = pv s d (k_addrs (A n)) sl ∨
    allocated s' d (pv s d (k_addrs (A n)) sl) = false
}.

Lemma take_frange s d a m k : (k ≤ m)%nat → take k (frange s d a 0 m) = frange s d a 0 k.
Proof. intros. apply (sub_frange s d a 0 m 0 k). lia. Qed.

Lemma truncated_noop s s' d A i n new :
  fsys s d A → locks s s' i → rep s' d A clean → held s' d i n → k_size (A n) ≤ new →
  truncated s s' d A A i n new.
Proof.
  intros HF HL HR Hh Hnew. constructor; try done.
  - apply locks_only; [|done]. apply (rep_wf _ _ _ _ (fsys_rep _ _ _ HF)).
  - by eapply fsys_locks.
  - rewrite take_ge by (rewrite length_content; lia). by destruct (lk_state _ _ _ HL) as [f ->].
  - intros sl _ _. left. by destruct (lk_state _ _ _ HL) as [f ->].
Qed.

(** From the released blocks to the file. *)
Lemma cut_truncated s s1 s2 d A A1 i n new L :
  fsys s d A → inode_ok s d n → 0 ≤ new < k_size (A n) → cut s s1 d A A1 i n L →
  shape s1 d (k_addrs (A1 n)) (ceil_blk new) →
  let A2 := upd A1 n (Ikey (k_type (A1 n)) (k_nlink (A1 n)) new (k_addrs (A1 n))) in
  only s1 s2 d A1 A2 i n → rep s2 d A2 clean → held s2 d i n →
  (∀ sl, slot_ok sl → pv s2 d (k_addrs (A1 n)) sl = pv s1 d (k_addrs (A1 n)) sl) →
  (∀ b, bmapstart (sbof s1 d) ≤ b → fblk s2 d b = fblk s1 d b) →
  truncated s s2 d A A2 i n new.
Proof.
  intros HF Hn Hnew C Hsh A2 O2 HR2 Hh2 Hp Hf. pose proof (fsys_size _ _ _ HF n Hn) as Hsz.
  pose proof (ct_only _ _ _ _ _ _ _ _ C) as O1. pose proof (only_trans _ _ _ _ _ _ _ _ _ O1 O2) as O.
  pose proof (on_base _ _ _ _ _ _ _ O1) as HB1. pose proof (on_base _ _ _ _ _ _ _ O2) as HB2.
  pose proof (fsys_rep _ _ _ HF) as HR. pose proof (rep_wf _ _ _ _ HR) as W.
  assert (EA : A2 n = Ikey (k_type (A1 n)) (k_nlink (A1 n)) new (k_addrs (A1 n))) by apply upd_eq.
  constructor; try done.
  - eapply (only_fsys d i n s); [done..| |]; rewrite EA; cbn [k_size k_addrs]; [lia|].
    eapply shape_ext; [apply Hp|]. rewrite blocks_for_eq by lia. done.
  - unfold content. rewrite take_frange by lia. rewrite EA; cbn [k_size k_addrs].
    apply frange_ext. intros x Hx. consts.
    assert (Hxb : 0 ≤ x / 1024 < MAXFILE).
    { consts. split; [apply Z.div_pos; lia|apply Z.div_lt_upper_bound; lia]. }
    destruct (leaf_ok _ Hxb) as [Hok Hl]. destruct Hsh as (_ & Hlv & _).
    assert (Hv : pv s1 d (k_addrs (A1 n)) (leaf (x / 1024)) ≠ 0) by (apply Hlv, ceil_blk_lt; [done|lia]).
    pose proof (ct_pv _ _ _ _ _ _ _ _ C _ Hok) as E. case_decide as Hin; [by rewrite E in Hv|].
    rewrite E in Hv. apply fbyte_pv; [by rewrite Hp, E|].
    destruct (wf_ptr _ _ _ W n _ Hn Hok Hv) as [[? _] _].
    rewrite Hf by (rewrite (same_base_sbof _ _ _ HB1); lia). by apply (ct_data _ _ _ _ _ _ _ _ C).
  - intros sl Hsl Hv. rewrite EA; cbn [k_addrs]. rewrite Hp, (ct_pv _ _ _ _ _ _ _ _ C) by done.
    case_decide as Hin; [right|by left].
    rewrite <-(ct_freed _ _ _ _ _ _ _ _ C sl Hsl Hin Hv). unfold allocated, bitmap.
    rewrite (same_base_sbof _ _ _ HB2). by rewrite Hf by lia.
Qed.

Lemma itrunc_wp s d A i n new (Q : unit → fs → Prop) R :
  fsys s d A → pinned s d i n → 0 ≤ new < 4294967296 →
  (∀ s' A', truncated s s' d A A' i n new → Q tt s') →
  wp (itrunc (Some i) new) Q R s.
Proof.
  intros HF Hp Hnew HQ. unfold itrunc. wp_step.
  eapply ilock_wp; [apply HF|done..|]. intros s1 HL HR Hh.
  pose proof (fsys_locks _ _ _ _ _ HF HL HR) as HF1. destruct (Hh) as [Hn _].
  assert (HQ1 : ∀ s' A', truncated s1 s' d A A' i n new → Q tt s').
  { intros s' A' [O F H Cc Fr]. apply (HQ s' A').
    destruct (lk_state _ _ _ HL) as [f Ef]. subst s1. constructor; try done.
    eapply only_trans; [|exact O]. apply locks_only; [|done]. apply (rep_wf _ _ _ _ (fsys_rep _ _ _ HF)). }
  pose proof (fsys_size _ _ _ HF1 n Hn) as Hsz. pose proof (fsys_shape _ _ _ HF1 n Hn) as Hsh.
  wp_step. eapply deref_held; [done..|]. intros ip _ _ _ _ _ Hk _.
  assert (size (din ip) = k_size (A n)) as -> by by rewrite <-Hk.
  destruct (Z.geb_spec new (k_size (A n))).
  { apply wp_ret, (HQ _ A). by apply truncated_noop. }
  rewrite !blocks_for_eq by (consts; lia). rewrite blocks_for_eq in Hsh by done.
  fold (ceil_blk new) (ceil_blk (k_size (A n))) in *. cbv zeta.
  assert (Hle : 0 ≤ ceil_blk new ≤ ceil_blk (k_size (A n))).
  { unfold ceil_blk. split; [apply Z.div_pos; lia|apply Z.div_le_mono; lia]. }
  destruct (Hsh) as [Hmax _].
  assert (HRb : rep s1 d A (but n)) by (by eapply rep_weaken; [|exact HR]).
  assert (Hfin : ∀ s2 A2 L, cut s1 s2 d A A2 i n L → shape s2 d (k_addrs (A2 n)) (ceil_blk new) →
    wp (upd_din (Some i) (set_size new);; iupdate (Some i)) Q R s2).
  { intros s2 A2 L C Hsh2. eapply set_size_wp; [apply C|apply C|lia|by intros m ?|].
    intros s3 A3 O3 HR3 Hh3 Hp3 Hf3. apply (HQ1 _ A3). eapply cut_truncated; try done. lia. }
  wp_step. destruct (Z.ltb_spec (ceil_blk new) (ceil_blk (k_size (A n)))).
  - wp_step. eapply itrunc_loop_wp; [exact HRb|done|by apply partial_start|done|lia|].
    intros s2 A2 L2 C2 P2. eapply itrunc_roots_wp; [apply C2|apply C2|done|lia|lia|].
    intros s3 A3 L3 C3 Hsh3. eapply Hfin; [|done].
    eapply cut_trans; [apply (rep_wf _ _ _ _ HRb)|done..].
  - apply wp_ret. eapply Hfin; [by apply cut_refl|].
    assert (ceil_blk new = ceil_blk (k_size (A n))) as -> by lia. done.
Qed.

(** ** Freeing an inode *)

Lemma dinode_ok_set_type x t : dinode_ok x → 0 ≤ t < 65536 → dinode_ok (set_type t x).
Proof. intros (? & ? & ? & ? & ? & ? & ? & ? & ?) Ht. unfold dinode_ok. cbn. tauto. Qed.

Definition retype (t : Z) (x : ikey) : ikey := Ikey t (k_nlink x) (k_size x) (k_addrs x).

Record retyped (s s' : fs) (d : Z) (A : Z → ikey) (i : nat) (n t : Z) : Prop := Retyped {
  rt_base : same_base s s' d;
  rt_fsys : fsys s' d (upd A n (retype t (A n)));
  rt_held : held s' d i n;
  rt_content : ∀ m, inode_ok s d m → content s' d (A m) = content s d (A m);
  rt_table : ∀ j, j ≠ i → inode_table s' !! j = inode_table s !! j;
  rt_entry : ∀ ip, inode_table s !! i = Some ip →
    ∃ v x, inode_table s' !! i = Some (Inode (dev ip) (inum ip) (ref ip) v x)
}.

(** [ip->dinode.type = t; iupdate(ip)]. *)
Lemma set_type_wp s d A i n t (Q : unit → fs → Prop) R :
  fsys s d A → held s d i n → 0 ≤ t < 65536 →
  (∀ s', retyped s s' d A i n t → Q tt s') →
  wp (upd_din (Some i) (set_type t);; iupdate (Some i)) Q R s.
Proof.
  intros HF Hh Ht HQ. pose proof (fsys_rep _ _ _ HF) as HR. pose proof (rep_wf _ _ _ _ HR) as W.
  destruct (Hh) as [Hn (ip0 & Hl0 & Hr0 & Hv0 & Hd0 & Hn0)]. set (A' := upd A n (retype t (A n))).
  assert (HA : ∀ m, k_addrs (A' m) = k_addrs (A m) ∧ k_size (A' m) = k_size (A m)).
  { intros m. unfold A', upd. case_decide; [by subst|done]. }
  wp_step. unfold upd_din, upd_inode. wp_step. set (s1 := set_inode_table _ s).
  assert (W1 : wf s1 d A').
  { eapply (wf_transfer s); [done|apply same_base_table, W|..].
    - intros m Hm. destruct (HA m) as [-> _]. by apply W.
    - intros m sl Hm Hsl. by destruct (HA m) as [-> _].
    - done. }
  assert (Hkey : ∀ ip, key (din ip) = A n → upd A n (key (set_type t (din ip))) = A').
  { intros ip E. unfold A'. by rewrite <-E. }
  assert (Hkn : key (din ip0) = A n) by (rewrite <-Hn0; apply (rep_cache _ _ _ _ HR i); try done; by rewrite Hn0).
  destruct (upd_din_rep s d A clean i n (set_type t)) as (ip & Hl & Hkip & _ & HR1 & Hh1); [done..| | |].
  { intros. by apply dinode_ok_set_type. }
  { intros ip Hip. assert (ip = ip0) as -> by congruence. rewrite (Hkey ip0 Hkn). exact W1. }
  rewrite (Hkey ip Hkip) in HR1. fold s1 in HR1, Hh1.
  eapply iupdate_wp; [done..|]. intros s2 H2 HR2. pose proof (iu_base _ _ _ _ H2) as HB2.
  assert (HB : same_base s s2 d) by (eapply same_base_trans; [apply (same_base_table s d), W|exact HB2]).
  assert (Hn1 : inode_ok s1 d n) by done.
  assert (Hpv : ∀ m sl, inode_ok s d m → slot_ok sl → pv s2 d (k_addrs (A m)) sl = pv s d (k_addrs (A m)) sl).
  { intros m sl Hm Hsl. destruct (HA m) as [<- _]. by rewrite (iupdate_post_pv s1 d A' n s2 m sl W1 Hn1 H2 Hm Hsl). }
  apply HQ. constructor.
  - done.
  - constructor; [constructor; [apply HR2| |apply (rep_cache _ _ _ _ HR2)|apply (rep_tab _ _ _ _ HR2)]|..].
    + intros m Hm _. apply (rep_sync _ _ _ _ HR2); [done|].
      destruct (decide (m = n)); [by right|by left].
    + intros m Hm%(same_base_inode_ok _ _ _ HB). fold A'. destruct (HA m) as [_ ->]. by apply HF.
    + intros m Hm%(same_base_inode_ok _ _ _ HB). fold A'. destruct (HA m) as [-> ->].
      eapply shape_ext; [intros sl Hsl; by apply Hpv|]. by apply HF.
  - split; [by apply (same_base_inode_ok _ _ _ HB)|]. rewrite (iu_table _ _ _ _ H2). by apply Hh1.
  - intros m Hm. apply frange_ext. intros x Hx. pose proof (fsys_size _ _ _ HF m Hm).
    destruct (fsys_mapped s d A m x HF Hm) as [Hxb Hv]; [lia|]. destruct (leaf_ok _ Hxb) as [Hok _].
    apply fbyte_pv; [by apply Hpv|]. rewrite (iu_rest _ _ _ _ H2); [done|].
    eapply (data_blk_not_inode s d A); [done| |done]. by apply W.
  - intros j Hj. rewrite (iu_table _ _ _ _ H2). by apply list_lookup_alter_ne.
  - intros jp Hjp. rewrite (iu_table _ _ _ _ H2). cbn. rewrite list_lookup_alter_eq, Hjp. by eexists _, _.
Qed.
