(* ===== verification/FsCache.v ===== *)
(** * The inode cache

    [iget] and [iput] take and drop references to cached inodes; [ialloc] takes
    the first unused inode. None of them touches the contents of a file. *)

From S2P Require Import Prelude FsTypes Block Inode FsInv FsAlloc FsMap FsGrow FsFile FsWrite.

(** ** Taking a reference *)

(** Entry [i] has one more reference, and it stands for inode [n] of [d]. *)
Record got (s s' : fs) (i : nat) (d n : Z) : Prop := Got {
  gt_state : ∃ f, s' = set_inode_table f s;
  gt_table : ∀ j, j ≠ i → inode_table s' !! j = inode_table s !! j;
  gt_entry : ∃ ip ip', inode_table s !! i = Some ip ∧ inode_table s' !! i = Some ip' ∧
    ref ip' = ref ip + 1 ∧ dev ip' = d ∧ inum ip' = n ∧ din ip' = din ip ∧
    ((0 < ref ip ∧ dev ip = d ∧ inum ip = n ∧ valid ip' = valid ip) ∨
     (ref ip = 0 ∧ valid ip' = 0 ∧ ∀ j jp, inode_table s !! j = Some jp → 0 < ref jp →
        ¬ (dev jp = d ∧ inum jp = n)))
}.

(** Every entry of the cache is taken. *)
Definition cache_full (s : fs) : Prop := ∀ i ip, inode_table s !! i = Some ip → ref ip ≠ 0.

Lemma iget_scan_spec t k d n e :
  match iget_scan t k d n e with
  | inl i => ∃ j ip, i = (k + j)%nat ∧ t !! j = Some ip ∧ 0 < ref ip ∧ dev ip = d ∧ inum ip = n
  | inr e' =>
      (∀ j ip, t !! j = Some ip → 0 < ref ip → ¬ (dev ip = d ∧ inum ip = n)) ∧
      match e' with
      | Some i => e = Some i ∨ e = None ∧ ∃ j ip, i = (k + j)%nat ∧ t !! j = Some ip ∧ ref ip = 0
      | None => e = None ∧ ∀ j ip, t !! j = Some ip → ref ip ≠ 0
      end
  end.
Proof.
  revert k e. induction t as [|ip t IH]; intros k e; cbn [iget_scan].
  - split; [done|]. by destruct e; [left|].
  - destruct ((ref ip >? 0) && (dev ip =? d) && (inum ip =? n)) eqn:E.
    { apply andb_true_iff in E as [[E1 E2]%andb_true_iff E3].
      rewrite Z.gtb_ltb in E1. apply Z.ltb_lt in E1. apply Z.eqb_eq in E2, E3.
      exists 0%nat, ip. rewrite Nat.add_0_r. done. }
    specialize (IH (S k) (match e with None => if ref ip =? 0 then Some k else None | Some e => Some e end)).
    assert (Hno : 0 < ref ip → ¬ (dev ip = d ∧ inum ip = n)).
    { intros Hr [Ed En]. rewrite Ed, En, !Z.eqb_refl, Z.gtb_ltb, !andb_true_r in E.
      apply Z.ltb_ge in E. lia. }
    destruct (iget_scan t (S k) d n _) as [i|e'].
    + destruct IH as (j & jp & -> & Hj & ?). exists (S j), jp. split; [lia|]. done.
    + destruct IH as [Hall He]. split.
      { intros [|j] jp Hj; cbn in Hj; [by injection Hj as <-|by eapply Hall]. }
      destruct e' as [i|].
      * destruct e as [e|]; [destruct He as [?|[? _]]; [by left|done]|]. right. split; [done|].
        destruct (Z.eqb_spec (ref ip) 0) as [E0|E0].
        -- destruct He as [[= <-]|[? _]]; [|done]. exists 0%nat, ip. rewrite Nat.add_0_r. done.
        -- destruct He as [?|(_ & j & jp & -> & Hj & ?)]; [done|]. exists (S j), jp. split; [lia|done].
      * destruct He as [He Hz]. destruct e; [done|]. split; [done|].
        destruct (Z.eqb_spec (ref ip) 0); [done|]. intros [|j] jp Hj; cbn in Hj; [by injection Hj as <-|by eapply Hz].
Qed.

Lemma iget_wp s d n (Q : ptr → fs → Prop) (R : fs → Prop) :
  (∀ i s', got s s' i d n → Q (Some i) s') → (cache_full s → R s) → wp (iget d n) Q R s.
Proof.
  intros HQ HR. unfold iget. wp_step. wp_step. pose proof (iget_scan_spec (inode_table s) 0 d n None) as H.
  destruct (iget_scan (inode_table s) 0 d n None) as [i|[i|]].
  - destruct H as (j & ip & -> & Hl & Hr & Hd & Hn). cbn [Nat.add].
    unfold upd_inode. wp_step. wp_step. apply wp_ret, HQ.
    constructor; [by eexists|intros k Hk; by apply list_lookup_alter_ne|].
    exists ip. eexists. split; [done|]. cbn. rewrite list_lookup_alter_eq, Hl. split; [done|]. cbn.
    repeat (split; [done|]). by left.
  - destruct H as (Hall & [?|(_ & j & ip & -> & Hl & Hr)]); [done|]. cbn [Nat.add].
    unfold upd_inode. wp_step. wp_step. apply wp_ret, HQ.
    constructor; [by eexists|intros k Hk; by apply list_lookup_alter_ne|].
    exists ip. eexists. split; [done|]. cbn. rewrite list_lookup_alter_eq, Hl. split; [done|]. cbn.
    rewrite Hr. repeat (split; [done|]). right. done.
  - apply wp_panic, HR. by destruct H as (_ & _ & ?).
Qed.

Lemma got_cache_ok s s' i d n : got s s' i d n → cache_ok (inode_table s) → cache_ok (inode_table s').
Proof.
  intros [_ Ht (ip & ip' & Hl & Hl' & Hr & Hd & Hn & Hdin & Hcase)] HC.
  assert (Hold : ∀ k kp, inode_table s' !! k = Some kp → k ≠ i ∧ inode_table s !! k = Some kp ∨
    k = i ∧ kp = ip').
  { intros k kp Hk. destruct (decide (k = i)) as [->|Hki]; [right; split; congruence|].
    left. by rewrite <-Ht. }
  assert (Hother : ∀ k kp, inode_table s !! k = Some kp → k ≠ i → 0 < ref kp → ¬ (dev kp = d ∧ inum kp = n)).
  { intros k kp Hk Hki Hkr. destruct Hcase as [(Hr0 & Ed & En & _)|(_ & _ & Hno)]; [|by eapply Hno].
    intros [? ?]. apply Hki. eapply (co_uniq _ HC); [done|done|done|done|congruence|congruence]. }
  constructor.
  - intros j k jp kp Hj Hk Hrj Hrk Ed En.
    apply Hold in Hj as [[Hji Hj]|[-> ->]]; apply Hold in Hk as [[Hki Hk]|[-> ->]]; try done.
    + by eapply (co_uniq _ HC).
    + exfalso. by apply (Hother j jp Hj Hji Hrj); rewrite Ed, En.
    + exfalso. by apply (Hother k kp Hk Hki Hrk); rewrite <-Ed, <-En.
  - intros k kp [[_ Hk]|[_ ->]]%Hold; [by eapply (co_din _ HC)|]. rewrite Hdin. by eapply (co_din _ HC).
  - intros k kp [[_ Hk]|[_ ->]]%Hold; [by eapply (co_ref _ HC)|].
    pose proof (co_ref _ HC i ip Hl). lia.
Qed.

(** A reference changes no device and no logical inode, on either device. *)
Lemma got_rep s s' i d n e A C : got s s' i d n → rep s e A C → rep s' e A C.
Proof.
  intros G HR. pose proof G as [[f Ef] Ht (ip & ip' & Hl & Hl' & Hr & Hd & Hn & Hdin & Hcase)].
  constructor.
  - rewrite Ef. eapply (wf_transfer s); [apply HR|apply same_base_table, (rep_wf _ _ _ _ HR)| |done|done].
    apply (rep_wf _ _ _ _ HR).
  - rewrite Ef. apply HR.
  - intros k kp Hk Hkr Hkv Hkd Hkn. destruct (decide (k = i)) as [->|Hki].
    + assert (kp = ip') as -> by congruence.
      destruct Hcase as [(Hr0 & Ed & En & Hv)|(_ & Hv & _)]; [|done].
      rewrite Hdin, Hn, <-En. eapply (rep_cache _ _ _ _ HR i); [done..|congruence|congruence|].
      rewrite En, <-Hn. by rewrite Ef in Hkn.
    + rewrite Ht in Hk by done. eapply (rep_cache _ _ _ _ HR k); try done. by rewrite Ef in Hkn.
  - eapply got_cache_ok; [done|apply HR].
Qed.

Lemma got_fsys s s' i d n e A : got s s' i d n → fsys s e A → fsys s' e A.
Proof.
  intros G HF. pose proof (got_rep _ _ _ _ _ _ _ _ G (fsys_rep _ _ _ HF)) as HR.
  destruct (gt_state _ _ _ _ _ G) as [f ->]. constructor; [done|apply HF|apply HF].
Qed.

Lemma got_pinned s s' i d n :
  got s s' i d n → cache_ok (inode_table s) → inode_ok s d n → pinned s' d i n.
Proof.
  intros [[f ->] _ (ip & ip' & Hl & Hl' & Hr & Hd & Hn & _)] HC Hok. split; [done|].
  exists ip'. pose proof (co_ref _ HC i ip Hl). split; [done|]. split; [lia|done].
Qed.

(** References taken elsewhere stay. *)
Lemma got_pinned_other s s' i d n j e m :
  got s s' i d n → pinned s e j m → pinned s' e j m.
Proof.
  intros [[f Ef] Ht (ip & ip' & Hl & Hl' & Hr & Hd & Hn & _ & Hcase)] [Hok (jp & Hj & Hjr & Hje & Hjm)].
  split; [by rewrite Ef|]. destruct (decide (j = i)) as [->|Hji]; [|exists jp; by rewrite Ht].
  assert (jp = ip) as -> by congruence. exists ip'. split; [done|]. split; [lia|].
  destruct Hcase as [(? & ? & ? & _)|(? & _)]; [split; congruence|lia].
Qed.

(** ** Dropping a reference *)

Record dropped (s s' : fs) (i : nat) : Prop := Dropped {
  dr_state : s' = set_inode_table (alter (λ ip, set_ref (ref ip - 1) ip) i) s;
  dr_ref : ∃ ip, inode_table s !! i = Some ip ∧ 0 < ref ip
}.

(** Somebody holds a reference to entry [i]. *)
Definition live (s : fs) (i : nat) : Prop := ∃ ip, inode_table s !! i = Some ip ∧ 0 < ref ip.

Lemma pinned_live s d i n : pinned s d i n → live s i.
Proof. intros [_ (ip & Hl & Hr & _)]. by exists ip. Qed.

Lemma iput_wp s i (Q : unit → fs → Prop) R :
  live s i → (∀ s', dropped s s' i → Q tt s') → wp (iput (Some i)) Q R s.
Proof.
  intros (ip & Hl & Hr) HQ. unfold iput. wp_step. eapply wp_deref; [done|]. zb.
  unfold upd_inode. wp_step. apply HQ. constructor; [done|by exists ip].
Qed.

Lemma dropped_entry s s' i :
  dropped s s' i →
  (∀ j, j ≠ i → inode_table s' !! j = inode_table s !! j) ∧
  ∃ ip, inode_table s !! i = Some ip ∧ 0 < ref ip ∧
    inode_table s' !! i = Some (set_ref (ref ip - 1) ip).
Proof.
  intros [-> (ip & Hl & Hr)]. split; [intros; by apply list_lookup_alter_ne|].
  exists ip. split; [done|]. split; [done|]. cbn. by rewrite list_lookup_alter_eq, Hl.
Qed.

Lemma dropped_rep s s' i e A C : dropped s s' i → rep s e A C → rep s' e A C.
Proof.
  intros D HR. destruct (dropped_entry _ _ _ D) as [Ht (ip & Hl & Hr & Hl')].
  assert (Hold : ∀ k kp, inode_table s' !! k = Some kp → ∃ kp', inode_table s !! k = Some kp' ∧
    ref kp ≤ ref kp' ∧ 0 ≤ ref kp ∧ dev kp' = dev kp ∧ inum kp' = inum kp ∧ valid kp' = valid kp ∧
    din kp' = din kp).
  { intros k kp Hk. destruct (decide (k = i)) as [->|Hki].
    - assert (kp = set_ref (ref ip - 1) ip) as -> by congruence. exists ip. cbn.
      split; [done|]. split; [lia|]. split; [lia|done].
    - rewrite Ht in Hk by done. exists kp. pose proof (co_ref _ (rep_tab _ _ _ _ HR) k kp Hk). done. }
  pose proof (rep_tab _ _ _ _ HR) as HC.
  constructor.
  - rewrite (dr_state _ _ _ D). eapply (wf_transfer s); [apply HR|apply same_base_table, (rep_wf _ _ _ _ HR)| |done|done].
    apply (rep_wf _ _ _ _ HR).
  - rewrite (dr_state _ _ _ D). apply HR.
  - intros k kp Hk Hkr Hkv Hkd Hkn. destruct (Hold k kp Hk) as (kp' & Hk' & ? & _ & Ed & En & Ev & Edin).
    rewrite <-En, <-Edin. eapply (rep_cache _ _ _ _ HR k); [done|lia|congruence|congruence|].
    rewrite En. by rewrite (dr_state _ _ _ D) in Hkn.
  - constructor.
    + intros j k jp kp Hj Hk Hrj Hrk. destruct (Hold j jp Hj) as (? & ? & ? & _ & <- & <- & _).
      destruct (Hold k kp Hk) as (? & ? & ? & _ & <- & <- & _). apply (co_uniq _ HC j k); done || lia.
    + intros k kp Hk. destruct (Hold k kp Hk) as (? & ? & _ & _ & _ & _ & _ & <-). by eapply (co_din _ HC).
    + intros k kp Hk. by destruct (Hold k kp Hk) as (? & ? & _ & ? & _).
Qed.

Lemma dropped_fsys s s' i e A : dropped s s' i → fsys s e A → fsys s' e A.
Proof.
  intros D HF. pose proof (dropped_rep _ _ _ _ _ _ D (fsys_rep _ _ _ HF)) as HR.
  rewrite (dr_state _ _ _ D) in *. constructor; [done|apply HF|apply HF].
Qed.

(** Taking a reference and dropping it again leaves every loaded entry loaded. *)
Lemma got_dropped_held s s1 s2 j d m e i n :
  got s s1 j d m → dropped s1 s2 j → held s e i n → held s2 e i n.
Proof.
  intros [[f ->] Ht (jp & jp' & Hj & Hj' & Hr & Ed & Em & Hdin & Hcase)] D [Hn (ip & Hl & Hir & Hv & He & Hi)].
  destruct (dropped_entry _ _ _ D) as [Ht2 (kp & Hk & _ & Hk2)].
  assert (kp = jp') as -> by congruence.
  split; [by rewrite (dr_state _ _ _ D)|]. destruct (decide (i = j)) as [->|Hne].
  - assert (jp = ip) as -> by congruence. destruct Hcase as [(_ & E1 & E2 & E3)|(? & _)]; [|lia].
    eexists. split; [exact Hk2|]. cbn. split; [lia|]. split_and!; congruence.
  - exists ip. rewrite Ht2, Ht by done. done.
Qed.

(** ** Allocating an inode *)

(** Forgetting pointers keeps the invariant. *)
Lemma wf_sub s s' d A A' :
  wf s d A → same_base s s' d →
  (∀ n, inode_ok s d n → length (k_addrs (A' n)) = 14%nat) →
  (∀ n sl, inode_ok s d n → slot_ok sl → pv s' d (k_addrs (A' n)) sl ≠ 0 →
     pv s' d (k_addrs (A' n)) sl = pv s d (k_addrs (A n)) sl) →
  (∀ b, allocated s' d b = allocated s d b) →
  wf s' d A'.
Proof.
  intros W HB Hl Hp Hbit. constructor; try (by apply W || by apply HB).
  - rewrite (sb_sb _ _ _ HB). apply W.
  - apply (same_base_geom _ _ _ HB), W.
  - intros n Hn. apply Hl. by rewrite <-(same_base_inode_ok _ _ _ HB).
  - intros b Hb. rewrite (same_base_sbof _ _ _ HB) in Hb. rewrite Hbit. by apply W.
  - intros n sl Hn%(same_base_inode_ok _ _ _ HB) Hsl Hv. rewrite (same_base_data_blk _ _ _ HB), Hbit.
    rewrite Hp in * by done. by apply W.
  - intros n sl n' sl' Hn%(same_base_inode_ok _ _ _ HB) Hn'%(same_base_inode_ok _ _ _ HB) Hsl Hsl' Hv E.
    assert (Hv' : pv s' d (k_addrs (A' n')) sl' ≠ 0) by by rewrite <-E.
    rewrite !Hp in E by done. rewrite Hp in Hv by done. by apply (wf_inj _ _ _ W).
Qed.

Definition fresh_key (ty : Z) : ikey := Ikey ty 1 0 (zeros 14).

Lemma pv_zeros s d sl : slot_ok sl → pv s d (zeros 14) sl = 0.
Proof.
  assert (Hz : ∀ k, 0 ≤ k < 14 → zeros 14 !!! Z.to_nat k = 0).
  { intros k Hk. apply list_lookup_total_correct, lookup_replicate_2. lia. }
  destruct sl as [k|k|k|k k']; cbn [pv slot_ok]; intros Hsl; [by apply Hz|..];
    unfold entry; rewrite Hz by (consts; lia); done.
Qed.

Lemma shape_zeros s d : shape s d (zeros 14) 0.
Proof.
  split; [consts; lia|]. split; [|split; [|split]].
  - intros bn Hbn. rewrite pv_zeros by by apply leaf_ok. lia.
  - rewrite pv_zeros by (cbn; consts; lia). consts. lia.
  - rewrite pv_zeros by (cbn; consts; lia). consts. lia.
  - intros j Hj. rewrite pv_zeros by done. consts. lia.
Qed.

(** The outcome of allocating inode [n] as a file of type [ty]. *)
Record born (s s' : fs) (d : Z) (A : Z → ikey) (i : nat) (n ty : Z) : Prop := Born {
  bo_base : same_base s s' d;
  bo_fsys : fsys s' d (upd A n (fresh_key ty));
  bo_held : held s' d i n;
  bo_rest : ∀ m, inode_ok s d m → m ≠ n → content s' d (A m) = content s d (A m);
  bo_table : ∀ j, j ≠ i → inode_table s' !! j = inode_table s !! j;
  bo_entry : ∃ ip ip', inode_table s !! i = Some ip ∧ inode_table s' !! i = Some ip' ∧
    ref ip' = ref ip + 1 ∧ (0 < ref ip → dev ip = d ∧ inum ip = n)
}.

(** The inode written to the device, then cached and filled in. *)
Lemma born_intro s s1 s2 d A i n ty f :
  fsys s d A → inode_ok s d n → 0 ≤ ty < 65536 → iupdate_post s d n s1 →
  (∀ m, inode_ok s d m → dnode s1 d m =
     if decide (m = n) then Dinode ty 0 0 1 0 (zeros 14) (zeros 60) else dnode s d m) →
  got s1 s2 i d n →
  (∀ ip, f ip = Inode (dev ip) (inum ip) (ref ip) 1
     (Dinode ty (major (din ip)) (minor (din ip)) 1 0 (zeros 14) (d_pad (din ip)))) →
  born s (set_inode_table (alter f i) s2) d A i n ty.
Proof.
  intros HF Hn Hty H1 Hdn G Hf. pose proof (fsys_rep _ _ _ HF) as HR. pose proof (rep_wf _ _ _ _ HR) as W.
  pose proof (iu_base _ _ _ _ H1) as HB1. set (s3 := set_inode_table _ s2). set (A' := upd A n (fresh_key ty)).
  pose proof G as [[g Eg] Ht (ip & ip' & Hl & Hl' & Hr & Hd & Hin & Hdin & Hcase)].
  assert (Hcache : cache_ok (inode_table s1)) by (rewrite (iu_table _ _ _ _ H1); apply HR).
  pose proof (got_cache_ok _ _ _ _ _ G Hcache) as HC2.
  assert (Hok' : ∀ x, dinode_ok x → dinode_ok (Dinode ty (major x) (minor x) 1 0 (zeros 14) (d_pad x))).
  { intros x (? & ? & ? & ? & ? & ? & ? & ? & ?). unfold dinode_ok. cbn.
    repeat (split; [lia || done|]). split; [|tauto]. repeat constructor; lia. }
  assert (HC3 : cache_ok (inode_table s3)).
  { apply cache_ok_alter; [done|]. intros kp Hk. rewrite Hf. cbn. repeat (split; [done|]).
    apply Hok'. by eapply (co_din _ HC2). }
  assert (HB3 : same_base s s3 d).
  { eapply same_base_trans; [exact HB1|]. subst s2.
    apply (same_base_table s1 d (λ t, alter f i (g t))), HB1. }
  assert (Hl3 : inode_table s3 !! i = Some (f ip')) by (cbn; by rewrite list_lookup_alter_eq, Hl').
  assert (Hrp : 0 < ref ip') by (pose proof (co_ref _ Hcache i ip Hl); lia).
  assert (Hdev : ∀ e b, fblk s3 e b = fblk s1 e b) by (subst s2; done).
  assert (Hbm : ∀ b, allocated s3 d b = allocated s d b).
  { intros b. rewrite <-(iupdate_post_allocated s d A n s1 b W Hn H1). by subst s2. }
  assert (Hpv : ∀ m sl, inode_ok s d m → slot_ok sl → m ≠ n →
    pv s3 d (k_addrs (A' m)) sl = pv s d (k_addrs (A m)) sl).
  { intros m sl Hm Hsl Hne. unfold A'. rewrite upd_ne by done.
    rewrite <-(iupdate_post_pv s d A n s1 m sl W Hn H1 Hm Hsl). by subst s2. }
  assert (W3 : wf s3 d A').
  { eapply wf_sub; [exact W|done| | |done].
    - intros m Hm. unfold A'. destruct (decide (m = n)) as [->|]; [by rewrite upd_eq|].
      rewrite upd_ne by done. by apply W.
    - intros m sl Hm Hsl. destruct (decide (m = n)) as [->|Hne]; [|intros _; by apply Hpv].
      unfold A'. rewrite upd_eq. cbn. by rewrite pv_zeros. }
  constructor.
  - done.
  - constructor; [constructor|..].
    + done.
    + intros m Hm%(same_base_inode_ok _ _ _ HB3) _. assert (dnode s3 d m = dnode s1 d m) as -> by (by subst s2).
      rewrite Hdn by done. unfold A'. case_decide; [subst; by rewrite upd_eq|].
      rewrite upd_ne by done. by apply HR.
    + intros k kp Hk Hkr Hkv Hkd Hkn. split; [|by eapply (co_din _ HC3)].
      destruct (decide (k = i)) as [->|Hki].
      * assert (kp = f ip') as -> by congruence. rewrite Hf. cbn. unfold A'. by rewrite Hin, upd_eq.
      * unfold A'. rewrite upd_ne.
        -- assert (inode_table s3 !! k = inode_table s !! k) as E.
           { cbn. rewrite list_lookup_alter_ne, Ht by done. by rewrite (iu_table _ _ _ _ H1). }
           rewrite E in Hk. apply (rep_cache _ _ _ _ HR k); try done. by apply (same_base_inode_ok _ _ _ HB3).
        -- intros E. apply Hki. eapply (co_uniq _ HC3); [done|exact Hl3|done|..]; rewrite Hf; cbn; congruence || done.
    + done.
    + intros m Hm%(same_base_inode_ok _ _ _ HB3). unfold A'. destruct (decide (m = n)) as [->|];
        [rewrite upd_eq; cbn; consts; lia|rewrite upd_ne by done; by apply HF].
    + intros m Hm%(same_base_inode_ok _ _ _ HB3). destruct (decide (m = n)) as [->|Hne].
      * unfold A'. rewrite upd_eq. cbn. change (blocks_for 0) with 0. apply shape_zeros.
      * eapply shape_ext; [intros sl Hsl; by apply Hpv|]. unfold A'. rewrite upd_ne by done. by apply HF.
  - split; [by apply (same_base_inode_ok _ _ _ HB3)|]. exists (f ip'). rewrite Hf. cbn. rewrite <-Hf. done.
  - intros m Hm Hne. unfold content. apply frange_ext. intros x Hx. pose proof (fsys_size _ _ _ HF m Hm).
    destruct (fsys_mapped s d A m x HF Hm) as [Hxb Hv]; [lia|]. destruct (leaf_ok _ Hxb) as [Hok Hlf].
    pose proof (Hpv m _ Hm Hok Hne) as E. unfold A' in E. rewrite upd_ne in E by done.
    apply fbyte_pv; [done|]. rewrite Hdev. apply (iu_rest _ _ _ _ H1).
    eapply data_blk_not_inode; [done| |done]. by apply (wf_ptr _ _ _ W).
  - intros j Hj. cbn. rewrite list_lookup_alter_ne, Ht by done. by rewrite (iu_table _ _ _ _ H1).
  - exists ip, (f ip'). rewrite <-(iu_table _ _ _ _ H1). split; [done|]. split; [done|].
    rewrite Hf. split; [done|]. destruct Hcase as [(_ & ? & ? & _)|(? & _)]; [done|lia].
Qed.

(** [n] is the first unused inode, and its dinode lies in the inode area. *)
Definition first_free (s : fs) (d : Z) (A : Z → ikey) (n : Z) : Prop :=
  inode_ok s d n ∧ k_type (A n) = FT_UNUSED ∧ ∀ m, 1 ≤ m < n → k_type (A m) ≠ FT_UNUSED.

Lemma ialloc_scan_wp s d A ty n m (Q : Z + option Z → fs → Prop) R :
  fsys s d A → 0 ≤ ty < 65536 → first_free s d A n → 1 ≤ m ≤ n →
  (m < n → Q (inl (m + 1)) s) →
  (∀ s1, m = n → iupdate_post s d n s1 →
     (∀ k, inode_ok s d k → dnode s1 d k =
        if decide (k = n) then Dinode ty 0 0 1 0 (zeros 14) (zeros 60) else dnode s d k) →
     Q (inr (Some n)) s1) →
  wp (ialloc_scan d ty (sbof s d) m) Q R s.
Proof.
  intros HF Hty (Hn & Ht0 & Hfirst) Hm Hnext Hfound.
  pose proof (fsys_rep _ _ _ HF) as HR. pose proof (rep_wf _ _ _ _ HR) as W.
  assert (Hmok : inode_ok s d m) by (destruct Hn; unfold inode_ok; lia).
  assert (Hlt : m < ninodes (sbof s d)) by (destruct Hmok as [_ H]; unfold imax in H; lia).
  pose proof (wf_geom _ _ _ W) as (_ & _ & _ & _ & Hni).
  unfold ialloc_scan. zb. wp_step. apply wp_read_block; [apply W..|by eapply inode_block_fits|].
  destruct (fblk_ok s d (inode_block (sbof s d) m)) as [Hl _]; [apply W..|].
  pose proof (inode_offset_range m ltac:(lia)).
  wp_step. eapply wp_expect; [apply cread_eq; consts; lia|]. change (Z.to_nat DINODE_SIZE) with 128%nat.
  fold (dnode s d m). assert (d_type (dnode s d m) = k_type (A m)) as -> by (by rewrite <-(rep_sync _ _ _ _ HR m Hmok I)).
  destruct (Z.eqb_spec (k_type (A m)) FT_UNUSED) as [E|E].
  - assert (m = n) as -> by (destruct (decide (m = n)); [done|]; exfalso; eapply Hfirst; [|done]; lia).
    set (x := Dinode (u16 ty) 0 0 1 0 (zeros 14) (zeros 60)).
    assert (Hx : dinode_ok x).
    { pose proof (u16_range ty). unfold dinode_ok, x. cbn [d_type major minor nlink size addrs d_pad].
      repeat (split; [lia || done|]). split; [repeat constructor; lia|]. split; [done|apply bytes_zeros]. }
    assert (Ex : x = Dinode ty 0 0 1 0 (zeros 14) (zeros 60)) by (unfold x, u16; by rewrite Z.mod_small).
    wp_step. apply wp_write_block; [apply W..|by eapply inode_block_fits|]. apply wp_ret.
    apply Hfound; [done| |].
    + constructor; [|done|].
      * apply same_base_fset; [apply W..|]. by eapply iupdate_buf.
      * intros b Hb. apply fblk_fset_ne; [apply W..|done].
    + intros k Hk. rewrite <-Ex. by eapply iupdate_dnode.
  - apply wp_ret. rewrite u32_small by lia. apply Hnext. destruct (decide (m = n)); [congruence|lia].
Qed.

Lemma ialloc_wp s d A ty n (Q : ptr → fs → Prop) (R : fs → Prop) :
  fsys s d A → 0 ≤ ty < 65536 → first_free s d A n →
  (∀ i s', born s s' d A i n ty → Q (Some i) s') →
  (∀ s', cache_full s' → same_base s s' d → R s') →
  wp (ialloc d ty) Q R s.
Proof.
  intros HF Hty Hfree HQ HFull. pose proof (fsys_rep _ _ _ HF) as HR. pose proof (rep_wf _ _ _ _ HR) as W.
  destruct (Hfree) as (Hn & _ & _). destruct (Hn) as [Hn1 Hn2].
  unfold ialloc. wp_step. wp_step. wp_step. eapply wp_expect; [by eapply bm_sb_lookup, wf_bm_ok|].
  wp_step. eapply wp_loop with (k := Z.to_nat (n - 1)) (I := λ k m s', s' = s ∧ 1 ≤ m ≤ n ∧ k = Z.to_nat (n - m));
    [|split; [done|lia]|unfold imax in Hn2; lia].
  intros k m s0 (-> & Hm & ->). eapply ialloc_scan_wp; [done..| |].
  - intros Hlt. eexists. split; [|split; [done|split; [lia|done]]]. lia.
  - intros s1 -> H1 Hdn. wp_step. apply iget_wp.
    + intros i s2 G. unfold upd_inode. wp_step. wp_step. apply wp_ret. apply HQ.
      eapply born_intro; [done..|]. intros ip. unfold u16. by rewrite Z.mod_small.
    + intros Hf. apply HFull; [done|apply H1].
Qed.

(** The whole inode array lies in front of the bitmap block. *)
Definition inodes_fit (s : fs) (d : Z) : Prop := ninodes (sbof s d) = imax (sbof s d).

Definition no_free (s : fs) (d : Z) (A : Z → ikey) : Prop :=
  ∀ m, inode_ok s d m → k_type (A m) ≠ FT_UNUSED.

Lemma free_or_not s d A : (∃ n, first_free s d A n) ∨ no_free s d A.
Proof.
  assert (H : ∀ k : nat, (∃ n, first_free s d A n) ∨
    ∀ m, 1 ≤ m < Z.of_nat k → m < imax (sbof s d) → k_type (A m) ≠ FT_UNUSED).
  { induction k as [|k [IH|IH]]; [right; lia|by left|].
    destruct (decide (1 ≤ Z.of_nat k < imax (sbof s d) ∧ k_type (A (Z.of_nat k)) = FT_UNUSED)) as [[H1 H2]|H].
    - left. exists (Z.of_nat k). split; [done|]. split; [done|]. intros m Hm. apply IH; lia.
    - right. intros m Hm Hi E. destruct (decide (m = Z.of_nat k)) as [->|]; [tauto|].
      eapply IH; [|done..]; lia. }
  destruct (H (Z.to_nat (imax (sbof s d)))) as [?|Hn]; [by left|right]. intros m [H1 H2]. apply Hn; lia.
Qed.

Lemma ialloc_none_wp s d A ty (Q : ptr → fs → Prop) (R : fs → Prop) :
  fsys s d A → inodes_fit s d → no_free s d A → Q None s → wp (ialloc d ty) Q R s.
Proof.
  intros HF Hfit Hno HQ. pose proof (fsys_rep _ _ _ HF) as HR. pose proof (rep_wf _ _ _ _ HR) as W.
  pose proof (wf_geom _ _ _ W) as (_ & _ & _ & _ & Hni). unfold inodes_fit in Hfit.
  unfold ialloc. wp_step. wp_step. wp_step. eapply wp_expect; [by eapply bm_sb_lookup, wf_bm_ok|].
  set (N := ninodes (sbof s d)) in *.
  wp_step. eapply wp_loop with (k := Z.to_nat (Z.max 0 (N - 1)))
    (I := λ k m s', s' = s ∧ 1 ≤ m ∧ m ≤ Z.max 1 N ∧ k = Z.to_nat (Z.max 0 (N - m)));
    [|split_and!; lia || done|lia].
  intros k m s0 (-> & Hm & HmN & ->). unfold ialloc_scan. fold N.
  destruct (Z.ltb_spec m N) as [Hlt|Hge]; [|apply wp_ret; by apply wp_ret].
  assert (Hok : inode_ok s d m) by (split; lia).
  wp_step. apply wp_read_block; [apply W..|by eapply inode_block_fits|].
  destruct (fblk_ok s d (inode_block (sbof s d) m)) as [Hl _]; [apply W..|].
  pose proof (inode_offset_range m ltac:(lia)).
  wp_step. eapply wp_expect; [apply cread_eq; consts; lia|]. change (Z.to_nat DINODE_SIZE) with 128%nat.
  fold (dnode s d m). assert (d_type (dnode s d m) = k_type (A m)) as -> by (by rewrite <-(rep_sync _ _ _ _ HR m Hok I)).
  rewrite (proj2 (Z.eqb_neq _ _)) by by apply Hno. apply wp_ret. rewrite u32_small by lia.
  eexists. split; [|split; [done|split; [lia|split; [|done]]]]; lia.
Qed.
