(* ===== verification/Sample.v ===== *)
(** * A decidable sufficient condition, and a sample filesystem

    Devices whose files use direct blocks only can be checked by computation.
    The sample has a root device with an empty [/home] and a home device that
    holds one file; it instantiates the hypotheses of the theorems. *)

From S2P Require Import Prelude FsTypes Block Inode FsInv FsAlloc FsMap FsGrow FsFile FsWrite.

(** ** Deciding the invariant *)

(** The logical inodes are those on the device. *)
Definition on_disk (s : fs) (d : Z) : Z → ikey := λ n, key (dnode s d n).

Definition inode_list (s : fs) (d : Z) : list Z := seqZ 1 (imax (sbof s d) - 1).

Definition direct (s : fs) (d n i : Z) : Z := k_addrs (on_disk s d n) !!! Z.to_nat i.

(** The direct pointers in use. *)
Definition used (s : fs) (d : Z) : list (Z * Z) :=
  n ← inode_list s d; i ← seqZ 0 12; (if direct s d n i =? 0 then [] else [(n, i)]).

Definition disk_fine (dk : disk) : Prop :=
  0 ≤ sectors dk ≤ 4294967296 ∧ map_Forall (λ _ v, length v = 512%nat ∧ Forall is_byte v) (sec dk).

Definition inode_small (s : fs) (d n : Z) : Prop :=
  direct s d n 12 = 0 ∧ direct s d n 13 = 0 ∧ 0 ≤ k_size (on_disk s d n) ≤ 12 * 1024 ∧
  Forall (λ i, (direct s d n i ≠ 0 ↔ i < ceil_blk (k_size (on_disk s d n))) ∧
               (direct s d n i ≠ 0 → data_blk s d (direct s d n i) ∧ allocated s d (direct s d n i) = true))
    (seqZ 0 12).

Definition small (s : fs) (d : Z) : Prop :=
  length (devs s) = 2%nat ∧ Forall disk_fine (devs s) ∧ dev_valid d ∧ length (sb s) = 2%nat ∧
  geom_ok (sbof s d) (disk_of s d) ∧
  Forall (λ b, allocated s d b = true) (seqZ 0 (bmapstart (sbof s d) + 1)) ∧
  Forall (inode_small s d) (inode_list s d) ∧
  NoDup ((λ p, direct s d p.1 p.2) <$> used s d) ∧
  Forall (λ ip, 0 ≤ ref ip ∧ (0 < ref ip → valid ip = 0) ∧ dinode_ok (din ip)) (inode_table s) ∧
  NoDup ((λ ip, (dev ip, inum ip)) <$> filter (λ ip, 0 < ref ip) (inode_table s)).

#[export] Instance is_byte_dec b : Decision (is_byte b).
Proof. unfold is_byte. apply _. Defined.
#[export] Instance disk_fine_dec dk : Decision (disk_fine dk).
Proof. unfold disk_fine. apply _. Defined.
#[export] Instance fits_dec s d b : Decision (fits s d b).
Proof. unfold fits. apply _. Defined.
#[export] Instance data_blk_dec s d b : Decision (data_blk s d b).
Proof. unfold data_blk. apply _. Defined.
#[export] Instance inode_small_dec s d n : Decision (inode_small s d n).
Proof. unfold inode_small. apply _. Defined.
#[export] Instance dinode_ok_dec x : Decision (dinode_ok x).
Proof. unfold dinode_ok, bytes. apply _. Defined.
#[export] Instance small_dec s d : Decision (small s d).
Proof. unfold small, dev_valid, geom_ok. apply _. Defined.

Lemma in_inode_list s d n : n ∈ inode_list s d ↔ inode_ok s d n.
Proof. unfold inode_list, inode_ok. rewrite elem_of_seqZ. lia. Qed.

Lemma in_used s d n i : (n, i) ∈ used s d ↔ inode_ok s d n ∧ 0 ≤ i < 12 ∧ direct s d n i ≠ 0.
Proof.
  unfold used. rewrite list_elem_of_bind. setoid_rewrite list_elem_of_bind.
  setoid_rewrite in_inode_list. setoid_rewrite elem_of_seqZ. split.
  - intros (n' & (i' & Hi & ?) & Hn). revert Hi. zcase; [by intros ?%elem_of_nil|].
    intros [= -> ->]%list_elem_of_singleton. split; [done|]. split; [lia|done].
  - intros (Hn & Hi & Hv). exists n. split; [|done]. exists i. split; [|lia]. zb.
    by apply list_elem_of_singleton.
Qed.

(** Distinct positions hold distinct values. *)
Lemma fmap_NoDup_inj {B C} (f : B → C) l x y : NoDup (f <$> l) → x ∈ l → y ∈ l → f x = f y → x = y.
Proof.
  intros Hnd (a & Ha)%list_elem_of_lookup_1 (b & Hb)%list_elem_of_lookup_1 E.
  assert (a = b) as ->; [|congruence].
  apply (NoDup_lookup (f <$> l) a b (f x)); [done|by rewrite list_lookup_fmap, Ha|].
  by rewrite list_lookup_fmap, Hb, E.
Qed.

Lemma pv_small s d n sl :
  inode_small s d n → slot_ok sl → pv s d (k_addrs (on_disk s d n)) sl ≠ 0 →
  ∃ i, sl = Root i ∧ 0 ≤ i < 12 ∧ pv s d (k_addrs (on_disk s d n)) sl = direct s d n i.
Proof.
  intros (H12 & H13 & _) Hsl. unfold direct in *.
  destruct sl as [i|j|j|j k]; cbn [pv slot_ok] in *;
    change (NDIRECT + 1) with 13; change NDIRECT with 12.
  - intros Hv. exists i. split; [done|]. split; [|done].
    destruct (decide (i = 12)) as [->|]; [done|]. destruct (decide (i = 13)) as [->|]; [done|lia].
  - unfold entry. by rewrite H12.
  - unfold entry. by rewrite H13.
  - unfold entry. by rewrite H13.
Qed.

Section small.
Context (s : fs) (d : Z) (HS : small s d).

Lemma small_inode n : inode_ok s d n → inode_small s d n.
Proof using HS.
  intros Hn. destruct HS as (_ & _ & _ & _ & _ & _ & HF & _).
  rewrite Forall_forall in HF. apply HF. by apply in_inode_list.
Qed.

Lemma small_devs : devs_ok s.
Proof using HS.
  destruct HS as (Hl & Hf & _). split; [done|]. eapply Forall_impl; [exact Hf|].
  intros dk [Hs Hm]. split; [done|]. intros k v Hk. apply (Hm k v Hk).
Qed.

Lemma small_wf : wf s d (on_disk s d).
Proof using HS.
  pose proof small_devs as Hdv. destruct HS as (_ & _ & Hd & Hsb & Hg & Hm & HF & Hnd & _).
  assert (Hdir : ∀ n i, inode_ok s d n → 0 ≤ i < 12 → direct s d n i ≠ 0 →
    data_blk s d (direct s d n i) ∧ allocated s d (direct s d n i) = true).
  { intros n i Hn Hi Hv. destruct (small_inode n Hn) as (_ & _ & _ & HF').
    rewrite Forall_forall in HF'. apply HF'; [apply elem_of_seqZ; lia|done]. }
  constructor; try done.
  - intros b Hb. rewrite Forall_forall in Hm. apply Hm, elem_of_seqZ. lia.
  - intros n sl Hn Hsl Hv. destruct (pv_small s d n sl (small_inode n Hn) Hsl Hv) as (i & -> & Hi & E).
    rewrite E in *. by apply Hdir.
  - intros n sl n' sl' Hn Hn' Hsl Hsl' Hv E.
    destruct (pv_small s d n sl (small_inode n Hn) Hsl Hv) as (i & -> & Hi & Ei).
    destruct (pv_small s d n' sl' (small_inode n' Hn') Hsl') as (i' & -> & Hi' & Ei'); [congruence|].
    assert ((n, i) = (n', i')) as [= -> ->]; [|done].
    apply (fmap_NoDup_inj _ _ _ _ Hnd); [apply in_used..|cbn]; try congruence.
    all: split; [done|]; split; [done|congruence].
Qed.

Lemma small_shape n :
  inode_ok s d n → shape s d (k_addrs (on_disk s d n)) (blocks_for (k_size (on_disk s d n))).
Proof using HS.
  intros Hn. pose proof (small_inode n Hn) as Hi. destruct (Hi) as (H12 & H13 & Hsz & HF).
  rewrite blocks_for_eq by (consts; lia). fold (ceil_blk (k_size (on_disk s d n))).
  assert (0 ≤ ceil_blk (k_size (on_disk s d n)) ≤ 12).
  { unfold ceil_blk. split; [apply Z.div_pos; lia|]. apply Z.lt_succ_r, Z.div_lt_upper_bound; lia. }
  assert (Hno : ∀ sl, slot_ok sl → (∀ i, sl = Root i → 12 ≤ i) →
    pv s d (k_addrs (on_disk s d n)) sl = 0).
  { intros sl Hsl Hne. destruct (decide (pv s d (k_addrs (on_disk s d n)) sl = 0)) as [|Hv]; [done|].
    destruct (pv_small s d n sl Hi Hsl Hv) as (i & -> & ? & _). specialize (Hne i eq_refl). lia. }
  rewrite Forall_forall in HF. consts. split; [consts; lia|]. split; [|split; [|split]].
  - intros bn Hbn. destruct (decide (bn < 12)).
    + destruct (path_direct bn) as [_ ->]; [lia|]. apply (HF bn), elem_of_seqZ. lia.
    + destruct (leaf_ok bn Hbn) as [Hok _]. rewrite Hno; [lia|done|].
      intros i Ei. unfold leaf in Ei. revert Ei. consts. repeat zcase; intros [=]; lia.
  - rewrite Hno; [consts; lia|cbn; consts; lia|]. intros i [= <-]. done.
  - rewrite Hno; [consts; lia|cbn; consts; lia|]. intros i [= <-]. consts. lia.
  - intros j Hj. rewrite Hno by done. consts. lia.
Qed.

Lemma small_fsys : fsys s d (on_disk s d).
Proof using HS.
  pose proof HS as (_ & _ & _ & _ & _ & _ & _ & _ & Hval & Huq). constructor; [constructor|..].
  - apply small_wf.
  - done.
  - intros i ip Hl Hr Hv _ _. rewrite Forall_forall in Hval.
    exfalso. apply Hv. eapply Hval; [by eapply list_elem_of_lookup_2|done].
  - rewrite Forall_forall in Hval. constructor;
      [|intros i ip Hi; apply (Hval ip); by eapply list_elem_of_lookup_2..].
    intros i j ip jp Hi Hj Hri Hrj Ed En.
    assert (Hgen : ∀ t : list inode, NoDup ((λ ip, (dev ip, inum ip)) <$> filter (λ ip, 0 < ref ip) t) →
      ∀ i j, t !! i = Some ip → t !! j = Some jp → i = j).
    { clear Hi Hj i j. induction t as [|kp t IH]; intros Hnd i j Hi Hj; [done|].
      assert (Hin : ∀ (k : nat) lp, t !! k = Some lp → 0 < ref lp →
        (dev lp, inum lp) ∈ (λ ip, (dev ip, inum ip)) <$> filter (λ ip, 0 < ref ip) t).
      { intros k lp Hk Hrk. apply list_elem_of_fmap. exists lp. split; [done|].
        apply list_elem_of_filter. split; [done|]. by eapply list_elem_of_lookup_2. }
      rewrite filter_cons in Hnd. destruct i as [|i], j as [|j]; cbn in Hi, Hj.
      - done.
      - injection Hi as ->. rewrite decide_True in Hnd by done. apply NoDup_cons in Hnd as [Hnot _].
        exfalso. apply Hnot. rewrite Ed, En. by eapply Hin.
      - injection Hj as ->. rewrite decide_True in Hnd by done. apply NoDup_cons in Hnd as [Hnot _].
        exfalso. apply Hnot. rewrite <-Ed, <-En. by eapply Hin.
      - f_equal. apply IH; [|done..]. case_decide; [by apply NoDup_cons in Hnd as [_ ?]|done]. }
    by eapply Hgen.
  - intros n Hn. destruct (small_inode n Hn) as (_ & _ & Hsz & _). consts. lia.
  - apply small_shape.
Qed.
End small.

(** ** The sample *)

Definition name30 (l : list Z) : list Z := take 30 (l ++ zeros 30).
Definition dir_block (l : list (Z * list Z)) : list Z :=
  take 1024 (concat ((λ '(n, nm), encode_dirent (Dirent n (name30 nm))) <$> l) ++ zeros 1024).

Definition sample_sb : superblock := Superblock XV6_FS_MAGIC 64 64 8 2 3.

Definition sample_disk (inodes : list dinode) (data : list (list Z)) (bits : Z) : disk :=
  let blocks := [(1, encode_superblock sample_sb); (2, concat (encode_dinode <$> inodes)); (3, [bits])]
    ++ zip (seqZ 4 (Z.of_nat (length data))) data in
  foldr (λ '(b, buf), set_blk b (take 1024 (buf ++ zeros 1024))) (Disk 128 ∅) blocks.

Definition addr1 (a : Z) : list Z := a :: zeros 13.
Definition dnode_dir (sz a : Z) : dinode := Dinode FT_DIRECTORY 0 0 1 sz (addr1 a) (zeros 60).
Definition dnode_file (sz a : Z) : dinode := Dinode FT_FILE 0 0 1 sz (addr1 a) (zeros 60).

Definition c_dot : list Z := [46].
Definition c_dotdot : list Z := [46; 46].
Definition c_home : list Z := [104; 111; 109; 101].
Definition c_f : list Z := [102].
Definition c_hello : list Z := [104; 101; 108; 108; 111].

(** Device 0: [/] with [home]; device 1: the root of [/home] with the file [f]. *)
Definition sample_disk0 : disk :=
  sample_disk [dinode_zero; dnode_dir 96 4; dnode_dir 64 5]
    [dir_block [(1, c_dot); (1, c_dotdot); (2, c_home)]; dir_block [(2, c_dot); (1, c_dotdot)]] 63.
Definition sample_disk1 : disk :=
  sample_disk [dinode_zero; dnode_dir 96 4; dnode_file 5 5]
    [dir_block [(1, c_dot); (1, c_dotdot); (2, c_f)]; c_hello] 63.

(** Cache entry 0 is a reference to the file [f], not loaded yet. *)
Definition sample : fs :=
  Fs [sample_disk0; sample_disk1] [sample_sb; sample_sb]
    (Inode 1 2 1 0 dinode_zero :: replicate 49 inode_zero) [Mount 0 2 1; mount_zero] 1.

Lemma sample_small0 : small sample 0.
Proof. apply (bool_decide_unpack _). vm_compute. done. Qed.
Lemma sample_small1 : small sample 1.
Proof. apply (bool_decide_unpack _). vm_compute. done. Qed.

Lemma sample_fsys1 : fsys sample 1 (on_disk sample 1).
Proof. apply small_fsys, sample_small1. Qed.
Lemma sample_fsys0 : fsys sample 0 (on_disk sample 0).
Proof. apply small_fsys, sample_small0. Qed.

Lemma sample_pinned : pinned sample 1 0 2.
Proof.
  split; [split; [done|by vm_compute]|]. eexists. split; [reflexivity|]. done.
Qed.

Example sample_content : content sample 1 (on_disk sample 1 2) = c_hello.
Proof. vm_compute. done. Qed.
