(* ===== verification/DirSpec.v ===== *)
(** * What the directory operations compute

    A directory file is a list of 32-byte entries; [dirlookup] searches it,
    [dirlink] fills the first free entry or appends one. *)

From S2P Require Import Prelude CLib FsTypes Block Inode FsInv FsAlloc FsMap FsGrow FsFile FsWrite.
From S2P Require Import FsCache Dir.

(** ** Directory contents *)

Definition dirents (c : list Z) : list fsdirent :=
  (λ k, decode_dirent (sub c (32 * k) 32)) <$> seq 0 (length c / 32).

(** A file that is a whole number of entries. *)
Definition dir_sized (c : list Z) : Prop := length c = (32 * (length c / 32))%nat.

Lemma length_dirents c : length (dirents c) = (length c / 32)%nat.
Proof. unfold dirents. by rewrite length_fmap, length_seq. Qed.

Lemma dirents_lookup c k :
  (k < length c / 32)%nat → dirents c !! k = Some (decode_dirent (sub c (32 * k) 32)).
Proof. intros. unfold dirents. by rewrite list_lookup_fmap, lookup_seq_lt by done. Qed.

Definition dir_slot (c : list Z) (k : nat) (e : list Z) : list Z := splice c (32 * k) e.

Lemma length_dir_slot c k e :
  dir_sized c → length e = 32%nat → (k ≤ length c / 32)%nat →
  length (dir_slot c k e) = (32 * Nat.max (length c / 32) (S k))%nat.
Proof. unfold dir_sized. intros. unfold dir_slot. rewrite length_splice_any by lia. lia. Qed.

(** Storing an entry: in place, or one past the end. *)
Lemma dirents_slot c k e :
  dir_sized c → length e = 32%nat → (k ≤ length c / 32)%nat →
  dir_sized (dir_slot c k e) ∧
  ∀ j, dirents (dir_slot c k e) !! j = if decide (j = k) then Some (decode_dirent e) else dirents c !! j.
Proof.
  intros Hc He Hk. pose proof (length_dir_slot c k e Hc He Hk) as Hl.
  assert (Hd : (length (dir_slot c k e) / 32 = Nat.max (length c / 32) (S k))%nat).
  { rewrite Hl, Nat.mul_comm. by apply Nat.div_mul. }
  unfold dir_sized in *. split; [lia|]. intros j.
  destruct (decide (j < length (dir_slot c k e) / 32)%nat) as [Hj|Hj].
  - rewrite dirents_lookup by done.
    assert (Hb : ∀ x, (x < 32)%nat → dir_slot c k e !! (32 * j + x)%nat =
      if decide (j = k) then e !! x else c !! (32 * j + x)%nat).
    { intros x Hx. unfold dir_slot. rewrite lookup_splice_any by lia. rewrite He.
      destruct (decide (j = k)) as [->|Hne].
      - rewrite decide_True by lia. f_equal. lia.
      - rewrite decide_False by lia. done. }
    assert (Hs : sub (dir_slot c k e) (32 * j) 32 = if decide (j = k) then e else sub c (32 * j) 32).
    { apply list_eq. intros x. destruct (decide (x < 32)%nat) as [Hx|Hx].
      - rewrite lookup_sub, Hb by done. case_decide; [done|]. by rewrite lookup_sub.
      - rewrite lookup_ge_None_2 by (rewrite length_sub; lia). symmetry. case_decide.
        + apply lookup_ge_None_2. lia.
        + apply lookup_ge_None_2. unfold sub. rewrite length_take. lia. }
    rewrite Hs. case_decide; [done|]. rewrite dirents_lookup by lia. done.
  - rewrite lookup_ge_None_2 by (rewrite length_dirents; lia). rewrite decide_False by lia.
    rewrite lookup_ge_None_2; [done|]. rewrite length_dirents. lia.
Qed.

(** ** The directory loop *)

Section loop.
Context (s : fs) (d : Z) (A : Z → ikey) (i : nat) (n : Z).
Context (HF : fsys s d A) (Hh : held s d i n) (Hty : k_type (A n) ≠ FT_UNUSED).
Let c := content s d (A n).
Context (Hc : dir_sized c).

Lemma dir_length : Z.of_nat (length c) = k_size (A n) ∧ k_size (A n) ≤ 67383296.
Proof using HF Hh.
  destruct (Hh) as [Hn _]. pose proof (fsys_size _ _ _ HF n Hn) as Hsz. unfold c. rewrite length_content.
  consts. lia.
Qed.

Lemma for_dirents_wp {X B} (onerr : M fs B) body after (I : nat → X → Prop) x
  (Q : B → fs → Prop) (R : fs → Prop) :
  I 0%nat x →
  (∀ k x de, I k x → dirents c !! k = Some de →
    wp (body x (32 * Z.of_nat k) de) (λ r s', match r with
    | inl x' => s' = s ∧ I (S k) x'
    | inr b => Q b s'
    end) R s) →
  (∀ x, I (length c / 32)%nat x → wp (after x (k_size (A n))) Q R s) →
  wp (for_dirents (Some i) onerr body after x) Q R s.
Proof using HF Hh Hty Hc.
  intros H0 Hbody Hafter. pose proof (fsys_rep _ _ _ HF) as HR. destruct dir_length as [Hlen Hmax].
  assert (HN : Z.of_nat (length c) = 32 * Z.of_nat (length c / 32)) by (unfold dir_sized in Hc; lia).
  unfold for_dirents. wp_step. eapply deref_held; [done..|]. intros ip0 _ _ _ _ _ Hk0 _.
  assert (size (din ip0) = k_size (A n)) as -> by by rewrite <-Hk0. consts.
  eapply wp_loop with (k := (length c / 32)%nat) (I := λ m '(x, off) s', s' = s ∧ ∃ k,
    off = 32 * Z.of_nat k ∧ m = (length c / 32 - k)%nat ∧ (k ≤ length c / 32)%nat ∧ I k x);
    [|split; [done|]; exists 0%nat; split_and!; [lia..|done]|].
  2:{ rewrite <-Hlen, HN. rewrite Z.mul_comm, Z.div_mul by lia. lia. }
  intros m [y off] s0 (-> & k & -> & -> & Hk & HI). unfold dirents_step.
  wp_step. eapply deref_held; [done..|]. intros ip _ _ _ _ _ Hkey _.
  assert (size (din ip) = k_size (A n)) as -> by by rewrite <-Hkey.
  destruct (Z.ltb_spec (32 * Z.of_nat k) (k_size (A n))).
  - wp_step. consts. eapply readi_held_wp; [done..|lia|lia|]. unfold read_spec. fold c. rewrite Hlen. cbv zeta.
    rewrite (proj2 (Z.eqb_neq _ _) Hty). cbn [orb]. rewrite gtb_false, geb_false by lia. cbn [orb].
    rewrite Z.min_l by lia. cbn [fst snd]. zb. wp_step.
    replace (Z.to_nat (32 * Z.of_nat k)) with (32 * k)%nat by lia. change (Z.to_nat 32) with 32%nat.
    eapply wp_conseq; [eapply (Hbody k); [done|apply dirents_lookup; lia]|].
    intros [y'|b] s' Hr; [|by apply wp_ret]. destruct Hr as [-> HI']. apply wp_ret.
    exists (length c / 32 - S k)%nat. split; [lia|]. split; [done|]. exists (S k).
    rewrite u32_small by lia. split_and!; [lia..|done].
  - wp_step. assert (k = (length c / 32)%nat) as -> by lia.
    replace (32 * Z.of_nat (length c / 32)) with (k_size (A n)) by lia.
    eapply wp_conseq; [by apply Hafter|]. intros b s' HQ. by apply wp_ret.
Qed.
End loop.

(** ** [dirlookup] *)

(** A terminated name. *)
Definition c_string (name : list Z) : Prop := ∃ t rest, nonzero t ∧ name = t ++ 0 :: rest.

(** The entry is in use and carries the name, as far as [strncmp] looks. *)
Definition matches (name : list Z) (de : fsdirent) : bool :=
  negb (de_inum de =? 0) && bool_decide (strncmp name (de_name de) 30 = Some 0).

Definition dir_find (ents : list fsdirent) (name : list Z) : option (nat * fsdirent) :=
  list_find (λ de, matches name de = true) ents.

Lemma strncmp_total t rest l n :
  nonzero t → (n ≤ length l)%nat → ∃ r, strncmp (t ++ 0 :: rest) l n = Some r.
Proof.
  intros Ht. revert l n. induction Ht as [|a t Ha Ht IH]; intros l [|n] Hl; cbn; eauto;
    (destruct l as [|b l]; cbn in *; [lia|]); [eauto|].
  destruct (negb (a =? 0) && (a =? b)); [apply IH; lia|eauto].
Qed.

Lemma length_de_name c k de : dirents c !! k = Some de → length (de_name de) = 30%nat.
Proof.
  intros Hl. pose proof (lookup_lt_Some _ _ _ Hl) as Hk. rewrite length_dirents in Hk.
  rewrite dirents_lookup in Hl by done. injection Hl as <-. unfold decode_dirent. cbn [de_name].
  assert ((32 * k + 32 ≤ length c)%nat).
  { pose proof (Nat.div_mod (length c) 32). lia. }
  rewrite length_sub; [done|]. rewrite length_sub; lia.
Qed.

Section dirlookup.
Context (s : fs) (d : Z) (A : Z → ikey) (i : nat) (n : Z).
Context (HF : fsys s d A) (Hh : held s d i n).
Let c := content s d (A n).

Lemma dirlookup_wp name (Q : option (nat * Z) → fs → Prop) (R : fs → Prop) :
  k_type (A n) = FT_DIRECTORY → dir_sized c → c_string name →
  (dir_find (dirents c) name = None → Q None s) →
  (∀ k de j s', dir_find (dirents c) name = Some (k, de) →
    got s s' j d (de_inum de) → Q (Some (j, 32 * Z.of_nat k)) s') →
  (cache_full s → R s) →
  wp (dirlookup (Some i) name) Q R s.
Proof using HF Hh.
  intros Hty Hc (t & rest & Ht & ->) Hnone Hfound HR'. pose proof (fsys_rep _ _ _ HF) as HR.
  unfold dirlookup. wp_step. eapply deref_held; [done..|]. intros ip _ _ _ Hd _ Hk _.
  assert (d_type (din ip) = k_type (A n)) as -> by by rewrite <-Hk. rewrite Hty. cbn [negb Z.eqb].
  change (negb (FT_DIRECTORY =? FT_DIRECTORY)) with false. cbn iota.
  wp_step. eapply wp_ok; [by eapply ilock_held|].
  eapply (for_dirents_wp s d A i n HF Hh) with (I := λ k _, ∀ j de, (j < k)%nat →
    dirents c !! j = Some de → matches (t ++ 0 :: rest) de = false); [by rewrite Hty; unfold FT_DIRECTORY, FT_UNUSED|done|intros; lia|..].
  - intros k _ de HI Hde. fold c in Hde.
    assert (Hm : matches (t ++ 0 :: rest) de = false → ∀ j de, (j < S k)%nat →
      dirents c !! j = Some de → matches (t ++ 0 :: rest) de = false).
    { intros Hm j de' Hj Hde'. destruct (decide (j = k)) as [->|]; [by assert (de' = de) as -> by congruence|]. apply (HI j); [lia|done]. }
    destruct (Z.eqb_spec (de_inum de) 0) as [E|E].
    { apply wp_ret. split; [done|]. apply Hm. unfold matches. by rewrite E. }
    destruct (strncmp_total t rest (de_name de) 30 Ht) as [r Hr].
    { by rewrite (length_de_name _ _ _ Hde). }
    wp_step. eapply wp_expect; [exact Hr|]. destruct (Z.eqb_spec r 0) as [->|Hr0].
    + wp_step. eapply deref_held; [done..|]. intros ip2 _ _ _ Hd2 _ _ _. rewrite Hd2.
      wp_step. apply iget_wp; [|done]. intros j s' G. apply wp_ret. cbn. eapply Hfound; [|done].
      apply list_find_Some. split; [done|]. split.
      * unfold matches. rewrite Hr, bool_decide_true by done. zb. done.
      * intros j' de' Hj' Hlt. by rewrite (HI j' de').
    + apply wp_ret. split; [done|]. apply Hm. unfold matches. rewrite Hr. zb.
      rewrite bool_decide_false; [done|]. by intros [=].
  - intros _ HI. apply wp_ret. apply Hnone. apply list_find_None, Forall_lookup_2. intros j de Hj.
    rewrite (HI j de); [done| |done]. apply lookup_lt_Some in Hj. by rewrite length_dirents in Hj.
Qed.

Lemma dirlookup_not_dir name (Q : option (nat * Z) → fs → Prop) R :
  k_type (A n) ≠ FT_DIRECTORY → Q None s → wp (dirlookup (Some i) name) Q R s.
Proof using HF Hh.
  intros Hty HQ. pose proof (fsys_rep _ _ _ HF) as HR. unfold dirlookup. wp_step.
  eapply deref_held; [done..|]. intros ip _ _ _ _ _ Hk _.
  assert (d_type (din ip) = k_type (A n)) as -> by by rewrite <-Hk.
  rewrite (proj2 (Z.eqb_neq _ _)) by done. by apply wp_ret.
Qed.
End dirlookup.

(** ** [dirlink] *)

(** The first unused entry, or the end. *)
Definition free_slot (ents : list fsdirent) : nat :=
  match list_find (λ de, de_inum de = 0) ents with Some (k, _) => k | None => length ents end.

(** The entry [dirlink] builds for the name [t]. *)
Definition new_entry (t : list Z) (m : Z) : fsdirent :=
  Dirent (u16 m) (<[29%nat := 0]> (take 30 (t ++ zeros 30))).

Lemma new_entry_ok t m : nonzero t → dirent_ok (new_entry t m).
Proof.
  intros Ht. split; [apply u16_range|]. split.
  - cbn [new_entry de_name]. rewrite length_insert, length_take, length_app, length_zeros. lia.
  - cbn [new_entry de_name]. apply Forall_insert; [|unfold is_byte; lia]. apply Forall_take, Forall_app.
    split; [|apply bytes_zeros]. eapply Forall_impl; [exact Ht|]. unfold is_byte. intros. lia.
Qed.

Lemma length_encode_dirent e : dirent_ok e → length (encode_dirent e) = 32%nat.
Proof. intros (_ & Hl & _). unfold encode_dirent. rewrite length_app, length_le_bytes. lia. Qed.

Lemma bytes_encode_dirent e : dirent_ok e → bytes (encode_dirent e).
Proof. intros (_ & _ & Hb). apply Forall_app. split; [apply bytes_le_bytes|done]. Qed.

Lemma free_slot_le ents : (free_slot ents ≤ length ents)%nat.
Proof.
  unfold free_slot. destruct (list_find _ ents) as [[k de]|] eqn:E; [|done].
  apply list_find_Some in E as [Hl%lookup_lt_Some _]. lia.
Qed.

Section dirlink.
Context (s : fs) (d : Z) (A : Z → ikey) (i : nat) (n : Z).
Context (HF : fsys s d A) (Hh : held s d i n).
Let c := content s d (A n).
Context (Hty : k_type (A n) = FT_DIRECTORY) (Hc : dir_sized c).
Context (t rest : list Z) (Ht : nonzero t) (m : Z).

Let k := free_slot (dirents c).
Let e := encode_dirent (new_entry t m).

Lemma dirlink_write (Q : Z → fs → Prop) R :
  (∀ s' A', written s s' d A A' i n (if 32 * Z.of_nat k + 32 >? MAXFILE * BSIZE then c else dir_slot c k e) →
    Q (if 32 * Z.of_nat k + 32 >? MAXFILE * BSIZE then -1 else 0) s') →
  (∀ s', same_base s s' d → full s' d → R s') →
  wp (nm ← expect (strncpy (t ++ 0 :: rest) (Z.to_nat DIRSIZ));
    w ← writei (Some i) (encode_dirent (Dirent (u16 m) (<[29%nat := 0]> nm))) (32 * Z.of_nat k) DIRENT_SIZE;
    mret (if negb (w =? DIRENT_SIZE) then -1 else 0)) Q R s.
Proof using HF Hh Hty Hc Ht.
  intros HQ HFull. pose proof (new_entry_ok t m Ht) as He.
  wp_step. eapply wp_expect; [by apply strncpy_spec|]. change (Z.to_nat DIRSIZ) with 30%nat.
  change (Dirent (u16 m) _) with (new_entry t m). fold e.
  assert (Hl : length e = 32%nat) by by apply length_encode_dirent.
  destruct (dir_length s d A i n HF Hh) as [Hlen Hmax]. fold c in Hlen.
  pose proof (free_slot_le (dirents c)) as Hk. rewrite length_dirents in Hk. fold k in Hk.
  assert (HN : Z.of_nat (length c) = 32 * Z.of_nat (length c / 32)) by (unfold dir_sized in Hc; lia).
  wp_step. change DIRENT_SIZE with (Z.of_nat 32). rewrite <-Hl.
  eapply writei_wp; [done|by apply held_pinned|lia|by apply bytes_encode_dirent|lia| |done].
  intros s' A' r HW. unfold r, write_spec in *. fold c in HW |- *. rewrite Hl in *. change (Z.of_nat 32) with 32 in *.
  rewrite (gtb_false (32 * Z.of_nat k)) in * by lia. cbn [orb] in *.
  apply wp_ret. destruct (32 * Z.of_nat k + 32 >? MAXFILE * BSIZE); cbn [fst snd] in *.
  - by eapply HQ.
  - eapply HQ. unfold dir_slot.
    replace (Z.to_nat (32 * Z.of_nat k)) with (32 * k)%nat in HW by lia. done.
Qed.

Lemma dirlink_wp (Q : Z → fs → Prop) (R : fs → Prop) :
  (∀ s', is_Some (dir_find (dirents c) (t ++ 0 :: rest)) → fsys s' d A → held s' d i n →
    (∃ f, s' = set_inode_table f s) → Q (-1) s') →
  (∀ s' A', dir_find (dirents c) (t ++ 0 :: rest) = None →
    written s s' d A A' i n (if 32 * Z.of_nat k + 32 >? MAXFILE * BSIZE then c else dir_slot c k e) →
    Q (if 32 * Z.of_nat k + 32 >? MAXFILE * BSIZE then -1 else 0) s') →
  (∀ s', same_base s s' d → full s' d ∨ cache_full s' → R s') →
  wp (dirlink (Some i) (t ++ 0 :: rest) m) Q R s.
Proof using HF Hh Hty Hc Ht.
  intros HQ1 HQ2 HFull. pose proof (fsys_rep _ _ _ HF) as HR.
  assert (HB : same_base s s d) by apply same_base_refl, (rep_wf _ _ _ _ HR).
  unfold dirlink. wp_step. eapply dirlookup_wp; [done..|by exists t, rest| | |].
  - intros Hnone. wp_step. eapply wp_ok; [by eapply ilock_held|].
    eapply (for_dirents_wp s d A i n HF Hh) with (I := λ k _, ∀ j de, (j < k)%nat →
      dirents c !! j = Some de → de_inum de ≠ 0);
      [by rewrite Hty; unfold FT_DIRECTORY, FT_UNUSED|done|intros; lia|..]; fold c.
    + intros k' _ de HI Hde. destruct (Z.eqb_spec (de_inum de) 0) as [E|E].
      * assert (k' = k) as ->.
        { unfold k, free_slot. destruct (list_find _ (dirents c)) as [[k0 de0]|] eqn:Ef.
          - apply list_find_Some in Ef as (Hl & E0 & Hb).
            destruct (Nat.lt_trichotomy k' k0) as [Hlt|[->|Hlt]]; [|done|].
            + exfalso. by eapply (Hb k').
            + exfalso. by eapply (HI k0).
          - apply list_find_None in Ef. exfalso. rewrite Forall_lookup in Ef. by eapply Ef. }
        pose proof (dirlink_write (λ r s', Q r s') R) as HW.
        assert (HW' : wp (nm ← expect (strncpy (t ++ 0 :: rest) (Z.to_nat DIRSIZ));
          w ← writei (Some i) (encode_dirent (Dirent (u16 m) (<[29%nat := 0]> nm))) (32 * Z.of_nat k) DIRENT_SIZE;
          mret (if negb (w =? DIRENT_SIZE) then -1 else 0)) Q R s).
        { apply HW; [intros; by eapply HQ2|intros; apply HFull; auto]. }
        clear HW. revert HW'. unfold wp, mbind, M_bind. destruct (expect _ s) as [nm s1| | |]; try done.
        destruct (writei _ _ _ _ s1); done.
      * apply wp_ret. split; [done|]. intros j de' Hj Hde'. destruct (decide (j = k')) as [->|].
        -- by assert (de' = de) as -> by congruence.
        -- eapply (HI j); [lia|done].
    + intros _ HI. assert (k = (length c / 32)%nat) as Ek.
      { unfold k, free_slot. rewrite <-length_dirents. destruct (list_find _ (dirents c)) as [[k0 de0]|] eqn:Ef; [|done].
        apply list_find_Some in Ef as (Hl & E0 & _). exfalso. eapply (HI k0); [|done|done].
        apply lookup_lt_Some in Hl. by rewrite length_dirents in Hl. }
      destruct (dir_length s d A i n HF Hh) as [Hlen _]. fold c in Hlen.
      assert (k_size (A n) = 32 * Z.of_nat k) as -> by (unfold dir_sized in Hc; lia).
      apply dirlink_write; [intros; by eapply HQ2|intros; apply HFull; auto].
  - intros k' de j s1 Hf G. wp_step.
    assert (Hlive : live s1 j).
    { destruct (gt_entry _ _ _ _ _ G) as (ip & ip' & Hl & Hl' & Hr & _). exists ip'. split; [done|].
      pose proof (co_ref _ (rep_tab _ _ _ _ HR) j ip Hl). lia. }
    apply iput_wp; [done|]. intros s2 D. apply wp_ret. apply HQ1.
    + by eexists.
    + eapply dropped_fsys; [done|]. by eapply got_fsys.
    + by eapply got_dropped_held.
    + destruct (gt_state _ _ _ _ _ G) as [f ->]. rewrite (dr_state _ _ _ D).
      by exists (λ t, alter (λ ip, set_ref (ref ip - 1) ip) j (f t)).
  - intros Hf. apply HFull; auto.
Qed.
End dirlink.

(** ** Looking up what was linked *)

Lemma new_entry_name t m :
  (length t ≤ 29)%nat → de_name (new_entry t m) = t ++ 0 :: zeros (29 - length t).
Proof.
  intros Hl. cbn [new_entry de_name]. apply list_eq. intros j.
  destruct (decide (j < 30)%nat) as [Hj|Hj].
  2:{ rewrite !lookup_ge_None_2; [done|rewrite length_app; cbn [length]; rewrite length_zeros; lia|].
      rewrite length_insert, length_take, length_app, length_zeros. lia. }
  assert (Hz : ∀ x n, (x < n)%nat → zeros n !! x = Some 0) by (intros; by apply lookup_replicate_2).
  destruct (decide (j = 29)%nat) as [->|Hne].
  - rewrite list_lookup_insert_eq by (rewrite length_take, length_app, length_zeros; lia).
    rewrite lookup_app_r by lia. change (0 :: zeros (29 - length t)) with (zeros (S (29 - length t))).
    by rewrite Hz by lia.
  - rewrite list_lookup_insert_ne by lia. rewrite lookup_take_lt by lia.
    destruct (decide (j < length t)%nat); [by rewrite !lookup_app_l by lia|].
    rewrite !lookup_app_r by lia. change (0 :: zeros (29 - length t)) with (zeros (S (29 - length t))).
    by rewrite !Hz by lia.
Qed.

(** On names that fit, the comparison is equality. *)
Lemma matches_new t t' rest m :
  nonzero t → nonzero t' → (length t ≤ 29)%nat → (length t' ≤ 29)%nat → u16 m ≠ 0 →
  matches (t' ++ 0 :: rest) (new_entry t m) = bool_decide (t' = t).
Proof.
  intros Ht Ht' Hl Hl' Hm. unfold matches. rewrite new_entry_name by done. cbn [new_entry de_inum].
  rewrite (proj2 (Z.eqb_neq _ _)) by done. cbn [negb andb].
  destruct (strncmp_spec t' t rest (zeros (29 - length t)) 30 Ht' Ht) as (r & -> & Hr).
  rewrite !take_ge in Hr by lia. apply bool_decide_ext. split; [intros [= ->]; by apply Hr|].
  intros ->. f_equal. by apply Hr.
Qed.

Lemma decode_new_entry t m :
  nonzero t → decode_dirent (encode_dirent (new_entry t m)) = new_entry t m.
Proof. intros. by apply decode_encode_dirent, new_entry_ok. Qed.

Lemma free_slot_unused ents de : ents !! free_slot ents = Some de → de_inum de = 0.
Proof.
  unfold free_slot. destruct (list_find _ ents) as [[k de']|] eqn:E; intros Hl.
  - apply list_find_Some in E as (Hl' & ? & _). congruence.
  - apply lookup_lt_Some in Hl. lia.
Qed.

Section lookup_linked.
Context (c t : list Z) (m : Z).
Context (Hc : dir_sized c) (Ht : nonzero t) (Hl : (length t ≤ 29)%nat) (Hm : u16 m ≠ 0).
Let k := free_slot (dirents c).
Let c' := dir_slot c k (encode_dirent (new_entry t m)).

Lemma linked_dirents :
  dir_sized c' ∧ ∀ j, dirents c' !! j = if decide (j = k) then Some (new_entry t m) else dirents c !! j.
Proof using Hc Ht.
  destruct (dirents_slot c k (encode_dirent (new_entry t m)) Hc) as [H1 H2].
  - by apply length_encode_dirent, new_entry_ok.
  - pose proof (free_slot_le (dirents c)) as Hk. by rewrite length_dirents in Hk.
  - split; [done|]. intros j. rewrite H2. by rewrite decode_new_entry.
Qed.

(** The linked name is found at its entry ... *)
Lemma dir_find_linked rest :
  dir_find (dirents c) (t ++ 0 :: rest) = None →
  dir_find (dirents c') (t ++ 0 :: rest) = Some (k, new_entry t m).
Proof using Hc Ht Hl Hm.
  intros Hnone. destruct linked_dirents as [_ Hd]. apply list_find_Some. split; [|split].
  - rewrite Hd. by rewrite decide_True.
  - rewrite matches_new by done. by apply bool_decide_true.
  - intros j de Hj Hjk. rewrite Hd, decide_False in Hj by lia. apply list_find_None in Hnone.
    rewrite Forall_lookup in Hnone. by eapply Hnone.
Qed.

(** ... and every other name as before. *)
Lemma dir_find_others t' rest :
  nonzero t' → (length t' ≤ 29)%nat → t' ≠ t →
  dir_find (dirents c') (t' ++ 0 :: rest) = dir_find (dirents c) (t' ++ 0 :: rest).
Proof using Hc Ht Hl Hm.
  intros Ht' Hl' Hne. destruct linked_dirents as [_ Hd].
  assert (Hnew : matches (t' ++ 0 :: rest) (new_entry t m) = false)
    by (rewrite matches_new by done; by apply bool_decide_false).
  assert (Hold : ∀ de, dirents c !! k = Some de → matches (t' ++ 0 :: rest) de = false).
  { intros de Hde. unfold matches. by rewrite (free_slot_unused _ _ Hde). }
  destruct (dir_find (dirents c) (t' ++ 0 :: rest)) as [[j de]|] eqn:E.
  - apply list_find_Some in E as (Hj & Hmt & Hb). assert (j ≠ k) by (intros ->; by rewrite Hold in Hmt).
    apply list_find_Some. split; [by rewrite Hd, decide_False|]. split; [done|].
    intros j' de' Hj' Hlt. rewrite Hd in Hj'. case_decide; [|by eapply Hb].
    assert (de' = new_entry t m) as -> by congruence. by rewrite Hnew.
  - apply list_find_None, Forall_lookup_2. intros j de Hj. rewrite Hd in Hj. case_decide.
    + assert (de = new_entry t m) as -> by congruence. by rewrite Hnew.
    + apply list_find_None in E. rewrite Forall_lookup in E. by eapply E.
Qed.
End lookup_linked.
