(* ===== verification/FsRef.v ===== *)
(** * Reference counts of inodes, and operations that only touch the cache *)

From S2P Require Import Prelude CLib FsTypes Block Inode FsInv FsAlloc FsMap FsGrow FsFile FsWrite.
From S2P Require Import FsCache Dir DirSpec.

(** References held to inode [n] of device [d]. *)
Definition contrib (d n : Z) (ip : inode) : Z :=
  if (dev ip =? d) && (inum ip =? n) then ref ip else 0.

Fixpoint tab_refs (t : list inode) (d n : Z) : Z :=
  match t with
  | [] => 0
  | ip :: t => contrib d n ip + tab_refs t d n
  end.

Definition refs (s : fs) (d n : Z) : Z := tab_refs (inode_table s) d n.

(** One inode, as a change of reference counts. *)
Definition one (d n : Z) : Z → Z → Z := λ d' n', if decide (d' = d ∧ n' = n) then 1 else 0.

Lemma tab_refs_change t t' i ip ip' d n :
  t !! i = Some ip → t' !! i = Some ip' → length t' = length t →
  (∀ j, j ≠ i → t' !! j = t !! j) →
  tab_refs t' d n = tab_refs t d n - contrib d n ip + contrib d n ip'.
Proof.
  revert t t'. induction i as [|i IH]; intros [|x t] [|x' t'] Hi Hi' Hl Hj; try done; cbn in *.
  - injection Hi as ->. injection Hi' as ->.
    assert (t' = t) as ->; [|lia]. apply list_eq. intros j. apply (Hj (S j)). lia.
  - assert (x' = x) as -> by (specialize (Hj 0%nat ltac:(lia)); cbn in Hj; congruence).
    rewrite (IH t t'); [lia|done|done|lia|]. intros j Hne. apply (Hj (S j)). lia.
Qed.

(** The state differs from [s] in its cache only, and the reference counts by [δ]. *)
Record walk (s s' : fs) (δ : Z → Z → Z) : Prop := Walk {
  wk_state : ∃ f, s' = set_inode_table f s;
  wk_len : length (inode_table s') = length (inode_table s);
  wk_rep : ∀ e A, rep s e A clean → rep s' e A clean;
  wk_refs : ∀ d n, refs s' d n = refs s d n + δ d n
}.

Definition zero : Z → Z → Z := λ _ _, 0.

Lemma walk_refl s : walk s s zero.
Proof. constructor; [exists id; by destruct s|done|done|]. unfold zero. intros. lia. Qed.

Lemma walk_trans s1 s2 s3 δ δ' δ'' :
  walk s1 s2 δ → walk s2 s3 δ' → (∀ d n, δ d n + δ' d n = δ'' d n) → walk s1 s3 δ''.
Proof.
  intros [[f ->] L1 R1 N1] [[g ->] L2 R2 N2] Hδ. constructor.
  - by exists (λ t, g (f t)).
  - congruence.
  - auto.
  - intros d n. rewrite N2, N1, <-Hδ. lia.
Qed.

Lemma walk_ext s s' δ δ' : walk s s' δ → (∀ d n, δ d n = δ' d n) → walk s s' δ'.
Proof. intros [] H. constructor; try done. intros. by rewrite <-H. Qed.

Section walk.
Context (s s' : fs) (δ : Z → Z → Z) (Wk : walk s s' δ).

Lemma walk_fsys e A : fsys s e A → fsys s' e A.
Proof using Wk.
  intros HF. pose proof (wk_rep _ _ _ Wk e A (fsys_rep _ _ _ HF)) as HR.
  destruct (wk_state _ _ _ Wk) as [f ->]. constructor; [done|apply HF|apply HF].
Qed.
Lemma walk_inode_ok d n : inode_ok s' d n ↔ inode_ok s d n.
Proof using Wk. by destruct (wk_state _ _ _ Wk) as [f ->]. Qed.
Lemma walk_content d k : content s' d k = content s d k.
Proof using Wk. by destruct (wk_state _ _ _ Wk) as [f ->]. Qed.
Lemma walk_mounts : mounts s' = mounts s ∧ num_mounts s' = num_mounts s.
Proof using Wk. by destruct (wk_state _ _ _ Wk) as [f ->]. Qed.
Lemma walk_devs : devs s' = devs s ∧ sb s' = sb s.
Proof using Wk. by destruct (wk_state _ _ _ Wk) as [f ->]. Qed.
End walk.

Lemma table_length_of (t t' : list inode) i ip ip' :
  t !! i = Some ip → t' !! i = Some ip' → (∀ j, j ≠ i → t' !! j = t !! j) → length t' = length t.
Proof.
  intros Hi Hi' Hj.
  assert (Hiff : ∀ j, (j < length t')%nat ↔ (j < length t)%nat).
  { intros j. rewrite <-!lookup_lt_is_Some. destruct (decide (j = i)) as [->|]; [|by rewrite Hj].
    rewrite Hi, Hi'. by split; intros _; eexists. }
  pose proof (Hiff (length t')). pose proof (Hiff (length t)). lia.
Qed.

Lemma contrib_one d n ip e m :
  dev ip = e → inum ip = m → contrib d n ip = if decide (d = e ∧ n = m) then ref ip else 0.
Proof.
  intros <- <-. unfold contrib. case_decide as E.
  - destruct E as [-> ->]. by rewrite !Z.eqb_refl.
  - destruct (Z.eqb_spec (dev ip) d), (Z.eqb_spec (inum ip) n); try done. exfalso. by apply E.
Qed.

Lemma got_walk s s' i d n : got s s' i d n → walk s s' (one d n).
Proof.
  intros G. pose proof G as [Hst Ht (ip & ip' & Hl & Hl' & Hr & Hd & Hn & Hdin & Hcase)].
  pose proof (table_length_of _ _ _ _ _ Hl Hl' Ht) as Hlen.
  constructor; [done|done|intros; by eapply got_rep|]. intros d' n'. unfold refs.
  rewrite (tab_refs_change _ _ i ip ip' d' n' Hl Hl' Hlen Ht).
  rewrite (contrib_one d' n' ip' d n Hd Hn). unfold one.
  destruct Hcase as [(_ & Ed & En & _)|(H0 & _)].
  - rewrite (contrib_one d' n' ip d n Ed En). case_decide; lia.
  - assert (contrib d' n' ip = 0) as -> by (unfold contrib; case_match; lia). case_decide; lia.
Qed.

Lemma dropped_walk s s' i d n :
  dropped s s' i → pinned s d i n → walk s s' (λ d' n', - one d n d' n').
Proof.
  intros D [_ (ip & Hl & _ & Hd & Hn)]. destruct (dropped_entry _ _ _ D) as [Ht (jp & Hj & Hr & Hj')].
  assert (jp = ip) as -> by congruence. pose proof (table_length_of _ _ _ _ _ Hl Hj' Ht) as Hlen.
  constructor; [|done|intros; by eapply dropped_rep|].
  - rewrite (dr_state _ _ _ D). by eexists.
  - intros d' n'. unfold refs. rewrite (tab_refs_change _ _ i ip _ d' n' Hl Hj' Hlen Ht).
    rewrite (contrib_one d' n' ip d n Hd Hn), (contrib_one d' n' (set_ref _ ip) d n Hd Hn). unfold one.
    case_decide; cbn; lia.
Qed.

(** Loading an inode of one device leaves the other alone. *)
Lemma locks_rep_other s s' i d n e A :
  locks s s' i → pinned s d i n → cache_ok (inode_table s') → e ≠ d →
  rep s e A clean → rep s' e A clean.
Proof.
  intros [[f Ef] Ht Hr] [_ (ip & Hl & _ & Hd & Hi)] HC Hne HR. constructor.
  - rewrite Ef. eapply (wf_transfer s); [apply HR|apply same_base_table, (rep_wf _ _ _ _ HR)| |done|done].
    apply (rep_wf _ _ _ _ HR).
  - rewrite Ef. apply HR.
  - intros k kp Hk Hkr Hkv Hkd Hkn. destruct (decide (k = i)) as [->|Hki].
    + destruct (Hr ip Hl) as (v & x & Hx). rewrite Hx in Hk. injection Hk as <-. cbn in Hkd. congruence.
    + rewrite Ht in Hk by done. apply (rep_cache _ _ _ _ HR k); try done. by rewrite Ef in Hkn.
  - done.
Qed.

Lemma locks_walk s s' d i n A :
  locks s s' i → pinned s d i n → rep s d A clean → rep s' d A clean →
  (∀ A', rep s d A' clean → ∀ m, inode_ok s d m → A' m = A m) →
  walk s s' zero.
Proof.
  intros HL Hp HR HR' Huniq. pose proof HL as [Hst Ht Hr].
  destruct (Hp) as [_ (ip & Hl & _ & Hd & Hi)]. destruct (Hr ip Hl) as (v & x & Hl').
  pose proof (table_length_of _ _ _ _ _ Hl Hl' Ht) as Hlen.
  constructor; [done|done| |].
  - intros e A' HRe. destruct (decide (e = d)) as [->|Hne].
    + specialize (Huniq A' HRe). destruct HR' as [W' Hs Hc Htab]. pose proof (rep_wf _ _ _ _ HRe) as We.
      destruct Hst as [f ->]. constructor.
      * eapply (wf_transfer s); [exact We|apply same_base_table, We|apply We|done|done].
      * apply HRe.
      * intros j jp Hj Hjr Hjv Hjd Hjn. rewrite Huniq by done. by eapply Hc.
      * done.
    + eapply locks_rep_other; try done. apply HR'.
  - intros d' n'. unfold refs. rewrite (tab_refs_change _ _ i ip _ d' n' Hl Hl' Hlen Ht).
    rewrite (contrib_one d' n' ip d n Hd Hi), (contrib_one d' n' (Inode (dev ip) (inum ip) (ref ip) v x) d n Hd Hi).
    unfold zero. case_decide; cbn; lia.
Qed.

(** A clean device determines its logical inodes. *)
Lemma rep_clean_uniq s d A A' m : rep s d A clean → rep s d A' clean → inode_ok s d m → A' m = A m.
Proof.
  intros HR HR' Hm. rewrite <-(rep_sync _ _ _ _ HR m Hm I). by rewrite <-(rep_sync _ _ _ _ HR' m Hm I).
Qed.

(** [ilock] as a walk. *)
Lemma ilock_walk s d A i n (Q : unit → fs → Prop) R :
  fsys s d A → pinned s d i n →
  (∀ s', walk s s' zero → fsys s' d A → held s' d i n →
     (∀ j e m, pinned s e j m → pinned s' e j m) → Q tt s') →
  wp (ilock (Some i)) Q R s.
Proof.
  intros HF Hp HQ. pose proof (fsys_rep _ _ _ HF) as HR. eapply ilock_wp; [done|done|done|].
  intros s' HL HR' Hh. apply HQ.
  - eapply locks_walk; try done. intros A' HA' m Hm. by apply (rep_clean_uniq s d A A' m).
  - by eapply fsys_locks.
  - done.
  - intros j e m [Hm (jp & Hj & Hjr & He & Hjm)]. destruct HL as [[f Ef] Ht Hr].
    split; [by rewrite Ef|]. destruct (decide (j = i)) as [->|Hne]; [|exists jp; by rewrite Ht].
    destruct (Hr jp Hj) as (v & x & Hx). by eexists.
Qed.

(** ** Keeping one reference while others come and go *)

Lemma got_dropped_pinned s s1 s2 j d m e i n :
  got s s1 j d m → dropped s1 s2 j → pinned s e i n → pinned s2 e i n.
Proof.
  intros [[f Ef] Ht (jp & jp' & Hj & Hj' & Hr & Ed & Em & _ & Hcase)] D [Hn (ip & Hl & Hir & He & Hi)].
  destruct (dropped_entry _ _ _ D) as [Ht2 (kp & Hk & _ & Hk2)].
  assert (kp = jp') as -> by congruence. split; [by rewrite (dr_state _ _ _ D), Ef|].
  destruct (decide (i = j)) as [->|Hne].
  - assert (jp = ip) as -> by congruence. destruct Hcase as [(_ & E1 & E2 & _)|(? & _)]; [|lia].
    eexists. split; [exact Hk2|]. cbn. split; [lia|]. split; congruence.
  - exists ip. rewrite Ht2, Ht by done. done.
Qed.

(** Dropping the reference one came with keeps the one just taken. *)
Lemma got_dropped_kept s s1 s2 j d m e i n :
  got s s1 j d m → cache_ok (inode_table s) → inode_ok s d m → pinned s e i n → dropped s1 s2 i →
  pinned s2 d j m.
Proof.
  intros G HC Hok [Hn (ip & Hl & Hir & He & Hi)] D.
  destruct (got_pinned _ _ _ _ _ G HC Hok) as [Hok1 (jp1 & Hj1 & Hr1 & Hd1 & Hm1)].
  destruct G as [[f Ef] Ht (jp & jp' & Hj & Hj' & Hr & Ed & Em & _ & Hcase)].
  destruct (dropped_entry _ _ _ D) as [Ht2 (kp & Hk & _ & Hk2)].
  split; [by rewrite (dr_state _ _ _ D), Ef|]. destruct (decide (j = i)) as [->|Hne].
  - assert (jp = ip) as -> by congruence. assert (kp = jp') as -> by congruence.
    eexists. split; [exact Hk2|]. cbn. split; [lia|done].
  - exists jp1. rewrite Ht2 by done. done.
Qed.
