(* ===== verification/Namei.v ===== *)
(** * Path resolution

    [namex] walks the directory tree across the mount point and returns the
    inode an abstract resolution function names, taking exactly one reference. *)

From S2P Require Import Prelude CLib FsTypes Block Inode FsInv FsAlloc FsMap FsGrow FsFile FsWrite.
From S2P Require Import FsCache Dir DirSpec FsRef.

(** ** Components of a path *)

Fixpoint raw_split (p : list Z) : list (list Z) :=
  match p with
  | [] => [[]]
  | c :: p =>
      if c =? SLASH then [] :: raw_split p
      else match raw_split p with h :: t => (c :: h) :: t | [] => [[c]] end
  end.

Definition comps (p : list Z) : list (list Z) := filter (λ c, c ≠ []) (raw_split p).

Lemma comps_slash p : comps (SLASH :: p) = comps p.
Proof. done. Qed.

Lemma raw_split_cons p : ∃ h t, raw_split p = h :: t.
Proof.
  destruct p as [|c p]; cbn; [eauto|]. destruct (c =? SLASH); [eauto|].
  destruct (raw_split p); eauto.
Qed.

Lemma skip_slashes_spec p r :
  nonzero p → ∃ q, skip_slashes (p ++ 0 :: r) = q ++ 0 :: r ∧ nonzero q ∧ comps q = comps p ∧
    (length q ≤ length p)%nat ∧ ∀ c, head q = Some c → c ≠ SLASH.
Proof.
  induction 1 as [|c p Hc Hp IH].
  - exists []. split; [done|]. split; [constructor|]. done.
  - cbn [app skip_slashes]. destruct (Z.eqb_spec c SLASH) as [->|Hne].
    + destruct IH as (q & E1 & E2 & E3 & E4 & E5). exists q. split_and!; try done. cbn. lia.
    + exists (c :: p). split; [done|]. split; [by constructor|]. split; [done|]. split; [done|].
      intros c' [= <-]. done.
Qed.

Lemma component_spec p r :
  nonzero p → ∃ a q, component (p ++ 0 :: r) = (a, q ++ 0 :: r) ∧ nonzero a ∧ nonzero q ∧
    p = a ++ q ∧ (∀ c, head q = Some c → c = SLASH) ∧
    ∃ t, raw_split p = a :: t ∧ filter (λ c, c ≠ []) t = comps q.
Proof.
  induction 1 as [|c p Hc Hp IH].
  - exists [], []. cbn. split_and!; try done; try constructor. exists []. done.
  - cbn [app component]. destruct (Z.eqb_spec c SLASH) as [->|Hne].
    + exists [], (SLASH :: p). cbn. split_and!; try done; try by constructor.
      * intros c' [= <-]. done.
      * exists (raw_split p). done.
    + rewrite (proj2 (Z.eqb_neq c 0)) by lia. cbn [orb].
      destruct IH as (a & q & -> & Ha & Hq & -> & Hh & t & Es & Et). exists (c :: a), q.
      split; [done|]. split; [by constructor|]. split; [done|]. split; [done|]. split; [done|].
      exists t. split; [|done]. cbn. rewrite (proj2 (Z.eqb_neq c SLASH)) by done. by rewrite Es.
Qed.

Lemma skipto_spec p r :
  nonzero p →
  match comps p with
  | [] => skipto (p ++ 0 :: r) = Some None
  | c :: cs => nonzero c ∧ ∃ q, skipto (p ++ 0 :: r) = Some (Some (q ++ 0 :: r, take 29 c ++ [0])) ∧
      nonzero q ∧ comps q = cs ∧ (length q < length p)%nat ∧ (q = [] ↔ cs = [])
  end.
Proof.
  intros Hp. destruct (skip_slashes_spec p r Hp) as (q & E1 & Hq & Ec & Hlen & Hhd).
  unfold skipto. rewrite E1, <-Ec. destruct Hq as [|c q Hc Hq]; [done|].
  specialize (Hhd c eq_refl). cbn [app head mbind option_bind]. zb.
  destruct (component_spec (c :: q) r) as (a & q1 & Ea & Ha & Hq1 & Eq & Hh1 & t & Es & Et); [by constructor|].
  change (c :: q ++ 0 :: r) with ((c :: q) ++ 0 :: r). rewrite Ea.
  assert (Hane : a ≠ []).
  { intros ->. cbn in Eq. subst q1. specialize (Hh1 c eq_refl). congruence. }
  destruct (skip_slashes_spec q1 r Hq1) as (q2 & E2 & Hq2 & Ec2 & Hlen2 & Hhd2).
  assert (Ecs : comps (c :: q) = a :: comps q1).
  { unfold comps at 1. rewrite Es, filter_cons, decide_True by done. by rewrite Et. }
  rewrite Ecs. split; [done|]. exists q2.
  assert (Hn : ∀ l : list Z, ∃ z, head (l ++ 0 :: r) = Some z) by (intros [|z l]; cbn; eauto).
  destruct (Hn q1) as [z1 ->], (Hn q2) as [z2 Hz2]. cbn [mbind option_bind]. rewrite E2, Hz2. cbn [mbind option_bind].
  split_and!; try done.
  - do 3 f_equal. f_equal. change DIRSIZ with 30. zcase.
    + done.
    + rewrite !take_ge by lia. done.
  - assert (length (c :: q) = length a + length q1)%nat by (rewrite Eq, length_app; done).
    destruct a; [done|]. cbn [length] in *. lia.
  - split; [by intros ->|]. rewrite <-Ec2. intros H0. destruct q2 as [|x q2]; [done|].
    exfalso. specialize (Hhd2 x eq_refl). unfold comps in H0. cbn in H0.
    rewrite (proj2 (Z.eqb_neq x SLASH)) in H0 by done. destruct (raw_split_cons q2) as (h & t' & Ert).
    rewrite Ert, filter_cons, decide_True in H0 by done. done.
Qed.

(** ** The directory tree *)

(** Both devices in order, directories made of whole entries that name inodes. *)
Record tree (s : fs) (A : Z → Z → ikey) : Prop := Tree {
  te_fsys : ∀ d, dev_valid d → fsys s d (A d);
  te_dirs : ∀ d n, dev_valid d → inode_ok s d n → k_type (A d n) = FT_DIRECTORY →
    dir_sized (content s d (A d n)) ∧
    ∀ de, de ∈ dirents (content s d (A d n)) → de_inum de ≠ 0 → inode_ok s d (de_inum de);
  te_mounts : ∀ m, m ∈ take (Z.to_nat (num_mounts s)) (mounts s) →
    dev_valid (parent_dev m) ∧ inode_ok s (parent_dev m) (parent_inum m) ∧ dev_valid (child_dev m);
  te_root : ∀ d, dev_valid d → inode_ok s d 1
}.

Section resolve.
Context (s : fs) (A : Z → Z → ikey).

Definition is_dir (x : Z * Z) : bool := k_type (A x.1 x.2) =? FT_DIRECTORY.

(** The entry [name] of a directory. *)
Definition lookup_in (x : Z * Z) (name : list Z) : option (Z * Z) :=
  if is_dir x then
    (λ r, (x.1, de_inum r.2)) <$> dir_find (dirents (content s x.1 (A x.1 x.2))) (name ++ [0])
  else None.

Definition mounted (test : mount → bool) : option mount :=
  find test (take (Z.to_nat (num_mounts s)) (mounts s)).

Definition go_up (x : Z * Z) (name : list Z) : option (Z * Z) :=
  if bool_decide (name = [DOT; DOT]) && (x.2 =? 1) && negb (x.1 =? 0) then
    m ← mounted (λ m, child_dev m =? x.1);
    lookup_in (parent_dev m, parent_inum m) [DOT; DOT]
  else None.

Definition go_down (x : Z * Z) : Z * Z :=
  match mounted (λ m, (parent_dev m =? x.1) && (parent_inum m =? x.2)) with
  | Some m => (child_dev m, 1)
  | None => x
  end.

Definition next (x : Z * Z) (name : list Z) : option (Z * Z) :=
  go_down <$> (match go_up x name with Some y => Some y | None => lookup_in x name end).

Fixpoint resolve (parent : bool) (x : Z * Z) (cs : list (list Z)) : option (Z * Z) :=
  match cs with
  | [] => if parent then None else Some x
  | c :: cs =>
      if negb (is_dir x) then None
      else if parent && bool_decide (cs = []) then Some x
           else y ← next x (take 29 c); resolve parent y cs
  end.
End resolve.

(** The abstract tree only depends on devices and mounts. *)
Lemma walk_next s s' δ A x name : walk s s' δ → next s' A x name = next s A x name.
Proof. intros Wk. by destruct (wk_state _ _ _ Wk) as [f ->]. Qed.

Lemma walk_tree s s' δ A : walk s s' δ → tree s A → tree s' A.
Proof.
  intros Wk [HF HD HM HR]. destruct (walk_mounts _ _ _ Wk) as [Em En]. constructor.
  - intros d Hd. by eapply walk_fsys; [|apply HF].
  - intros d n Hd Hn%(walk_inode_ok _ _ _ Wk) Ht. rewrite (walk_content _ _ _ Wk).
    destruct (HD d n Hd Hn Ht) as [Hs He]. split; [done|]. intros de Hin H0.
    rewrite (walk_inode_ok _ _ _ Wk). by apply He.
  - intros m. rewrite Em, En. intros Hm. rewrite (walk_inode_ok _ _ _ Wk). by apply HM.
  - intros d Hd. rewrite (walk_inode_ok _ _ _ Wk). by apply HR.
Qed.

Definition node_ok (s : fs) (x : Z * Z) : Prop := dev_valid x.1 ∧ inode_ok s x.1 x.2.

Section nodes.
Context (s : fs) (A : Z → Z → ikey) (T : tree s A).

Lemma lookup_in_ok x name y : node_ok s x → lookup_in s A x name = Some y → node_ok s y.
Proof using T.
  intros [Hd Hn]. unfold lookup_in. destruct (is_dir A x) eqn:Ed; [|done].
  apply Z.eqb_eq in Ed. intros ([k de] & Hf & ->)%fmap_Some. split; [done|]. cbn.
  apply list_find_Some in Hf as (Hl & Hm & _). eapply (te_dirs _ _ T); [done..| |].
  - by eapply list_elem_of_lookup_2.
  - unfold matches in Hm. intros E. by rewrite E in Hm.
Qed.

Lemma mounted_ok test m : mounted s test = Some m →
  dev_valid (parent_dev m) ∧ inode_ok s (parent_dev m) (parent_inum m) ∧ dev_valid (child_dev m).
Proof using T.
  intros [Hin _]%find_some. apply (te_mounts _ _ T). by apply list_elem_of_In.
Qed.

Lemma go_down_ok x : node_ok s x → node_ok s (go_down s x).
Proof using T.
  intros Hx. unfold go_down. destruct (mounted s _) as [m|] eqn:E; [|done].
  destruct (mounted_ok _ _ E) as (_ & _ & Hc). split; [done|]. by apply (te_root _ _ T).
Qed.
End nodes.

(** ** Walking with references *)

Lemma tab_refs_single t d n i ip :
  t !! i = Some ip → (∀ j jp, t !! j = Some jp → j ≠ i → contrib d n jp = 0) →
  tab_refs t d n = contrib d n ip.
Proof.
  revert i. induction t as [|x t IH]; intros [|i] Hi Hj; try done; cbn in *.
  - injection Hi as ->. assert (tab_refs t d n = 0) as ->; [|lia].
    assert (Hz : ∀ j jp, t !! j = Some jp → contrib d n jp = 0) by (intros j jp H; by apply (Hj (S j))).
    clear -Hz. induction t as [|y t IH]; [done|]. cbn. rewrite (Hz 0%nat y eq_refl), IH; [done|].
    intros j jp H. by apply (Hz (S j)).
  - rewrite (Hj 0%nat x eq_refl) by lia. rewrite (IH i Hi); [lia|].
    intros j jp H Hne. apply (Hj (S j)); [done|lia].
Qed.

Lemma refs_live s i ip :
  cache_ok (inode_table s) → inode_table s !! i = Some ip → 0 < ref ip →
  refs s (dev ip) (inum ip) = ref ip.
Proof.
  intros HC Hl Hr. unfold refs. rewrite (tab_refs_single _ _ _ i ip Hl).
  - unfold contrib. by rewrite !Z.eqb_refl.
  - intros j jp Hj Hne. unfold contrib.
    destruct (Z.eqb_spec (dev jp) (dev ip)), (Z.eqb_spec (inum jp) (inum ip)); try done. cbn.
    pose proof (co_ref _ HC j jp Hj). destruct (decide (ref jp = 0)); [done|].
    exfalso. apply Hne. apply (co_uniq _ HC j i jp ip); done || lia.
Qed.

(** A walk that keeps what is referenced and loaded in [s]. *)
Record visit (s s' : fs) (δ : Z → Z → Z) : Prop := Visit {
  vs_walk : walk s s' δ;
  vs_pin : ∀ j e m, pinned s e j m → pinned s' e j m;
  vs_held : ∀ j e m, held s e j m → held s' e j m
}.

Lemma visit_refl s : visit s s zero.
Proof. constructor; [apply walk_refl|done..]. Qed.

Lemma visit_trans s1 s2 s3 δ δ' δ'' :
  visit s1 s2 δ → visit s2 s3 δ' → (∀ d n, δ d n + δ' d n = δ'' d n) → visit s1 s3 δ''.
Proof. intros [] [] Hδ. constructor; [by eapply walk_trans|eauto..]. Qed.

Lemma got_visit s s' i d n : got s s' i d n → visit s s' (one d n).
Proof.
  intros G. constructor; [by eapply got_walk|intros; by eapply got_pinned_other|].
  destruct G as [[f Ef] Ht (ip & ip' & Hl & Hl' & Hr & Hd & Hn & _ & Hcase)].
  intros j e m [Hok (jp & Hj & Hjr & Hjv & Hje & Hjm)].
  split; [by rewrite Ef|]. destruct (decide (j = i)) as [->|Hji]; [|exists jp; by rewrite Ht].
  assert (jp = ip) as -> by congruence. exists ip'. split; [done|]. split; [lia|].
  destruct Hcase as [(? & ? & ? & Hv)|(? & _)]; [|lia]. split_and!; congruence.
Qed.

Lemma ilock_visit s d A i n (Q : unit → fs → Prop) R :
  fsys s d A → pinned s d i n →
  (∀ s', visit s s' zero → held s' d i n → Q tt s') → wp (ilock (Some i)) Q R s.
Proof.
  intros HF Hp HQ. pose proof (fsys_rep _ _ _ HF) as HR. eapply ilock_wp; [done|done|done|].
  intros s' HL HR' Hh. apply HQ; [|done].
  pose proof HL as [[f Ef] Ht Hr]. constructor.
  - eapply locks_walk; try done. intros A' HA' m Hm. by apply (rep_clean_uniq s d A A' m).
  - intros j e m [Hm (jp & Hj & Hjr & He & Hjm)]. split; [by rewrite Ef|].
    destruct (decide (j = i)) as [->|Hne]; [|exists jp; by rewrite Ht].
    destruct (Hr jp Hj) as (v & x & Hx). by eexists.
  - intros j e m Hhm. destruct (decide (j = i)) as [->|Hne].
    + destruct (Hhm) as (_ & jp & Hj & _ & _ & <- & <-). destruct Hp as (_ & ip & Hl & _ & <- & <-).
      by assert (jp = ip) as -> by congruence.
    + destruct Hhm as [Hm (jp & Hj & ?)]. split; [by rewrite Ef|]. exists jp. by rewrite Ht.
Qed.

(** Dropping a reference taken since [s0]. *)
Lemma drop_visit s0 s s' δ d i n :
  visit s0 s δ → cache_ok (inode_table s0) → one d n d n ≤ δ d n → cache_ok (inode_table s) →
  pinned s d i n → dropped s s' i →
  visit s0 s' (λ d' n', δ d' n' - one d n d' n').
Proof.
  intros [Wk Hpin Hheld] HC0 Hδ HC Hp D. pose proof (dropped_walk _ _ _ _ _ D Hp) as Wd.
  destruct (dropped_entry _ _ _ D) as [Ht (kp & Hk & Hkr & Hk')].
  destruct (Hp) as (_ & ip & Hl & _ & Ed & En). assert (kp = ip) as -> by congruence.
  assert (Hone : one d n d n = 1) by (unfold one; by rewrite decide_True).
  (* whoever held the entry before still holds it *)
  assert (Hmore : 0 < refs s0 d n → 0 < ref ip - 1).
  { intros H0. pose proof (refs_live s i ip HC Hl Hkr) as E. rewrite Ed, En in E.
    rewrite (wk_refs _ _ _ Wk d n) in E. lia. }
  assert (Hlive : ∀ e m, pinned s0 e i m → e = d ∧ m = n).
  { intros e m (_ & jp & Hj & _ & <- & <-)%Hpin. assert (jp = ip) as -> by congruence. done. }
  assert (Hrefs0 : ∀ m e, pinned s0 e i m → 0 < refs s0 e m).
  { intros m e (_ & jp & Hj & Hjr & <- & <-). by rewrite (refs_live s0 i jp). }
  constructor.
  - eapply walk_trans; [exact Wk|exact Wd|]. intros. cbn. lia.
  - intros j e m Hj. destruct (decide (j = i)) as [->|Hne].
    + destruct (Hlive _ _ Hj) as [-> ->]. split; [rewrite (dr_state _ _ _ D); by apply Hpin in Hj as [? _]|].
      eexists. split; [exact Hk'|]. cbn. split; [|done]. apply Hmore. by apply Hrefs0.
    + destruct (Hpin _ _ _ Hj) as [Hok (jp & Hjl & ?)]. split; [by rewrite (dr_state _ _ _ D)|].
      exists jp. by rewrite Ht.
  - intros j e m Hj. pose proof (held_pinned _ _ _ _ Hj) as Hjp. destruct (decide (j = i)) as [->|Hne].
    + destruct (Hlive _ _ Hjp) as [-> ->]. destruct (Hheld _ _ _ Hj) as [Hok (jp & Hjl & _ & Hv & _)].
      assert (jp = ip) as -> by congruence. split; [by rewrite (dr_state _ _ _ D)|].
      eexists. split; [exact Hk'|]. cbn. split; [|done]. apply Hmore. by apply Hrefs0.
    + destruct (Hheld _ _ _ Hj) as [Hok (jp & Hjl & ?)]. split; [by rewrite (dr_state _ _ _ D)|].
      exists jp. by rewrite Ht.
Qed.

Lemma drop_visit_to s0 s s' δ δ' d i n :
  pinned s d i n → dropped s s' i → visit s0 s δ →
  (∀ d' n', δ d' n' = one d n d' n' + δ' d' n') → 0 ≤ δ' d n →
  cache_ok (inode_table s0) → cache_ok (inode_table s) → visit s0 s' δ'.
Proof.
  intros Hp D V Hδ Hpos HC0 HC.
  destruct (drop_visit s0 s s' δ d i n V HC0 ltac:(rewrite Hδ; lia) HC Hp D) as [Wk ? ?].
  constructor; [|done..]. eapply walk_ext; [exact Wk|]. intros. cbn. rewrite Hδ. lia.
Qed.

(** ** The steps of [namex] *)

Lemma tree_cache s A : tree s A → cache_ok (inode_table s).
Proof. intros T. apply (rep_tab _ _ _ _ (fsys_rep _ _ _ (te_fsys _ _ T 0 ltac:(split; lia)))). Qed.

Lemma dirlookup_tree s A x i t (Q : option (nat * Z) → fs → Prop) (R : fs → Prop) :
  tree s A → dev_valid x.1 → held s x.1 i x.2 → nonzero t →
  (lookup_in s A x t = None → Q None s) →
  (∀ y j off s', lookup_in s A x t = Some y → node_ok s y → got s s' j y.1 y.2 → Q (Some (j, off)) s') →
  (cache_full s → R s) →
  wp (dirlookup (Some i) (t ++ [0])) Q R s.
Proof.
  intros T Hd Hh Ht Hnone Hsome HR. pose proof (te_fsys _ _ T _ Hd) as HF. destruct (Hh) as [Hn _].
  pose proof (lookup_in_ok s A T x t) as Hok.
  unfold lookup_in in *. destruct (is_dir A x) eqn:Ed; unfold is_dir in Ed.
  - apply Z.eqb_eq in Ed. destruct (te_dirs _ _ T _ _ Hd Hn Ed) as [Hs He].
    eapply (dirlookup_wp s x.1 (A x.1) i x.2); [done..|by exists t, []| | |done].
    + intros Hf. apply Hnone. by rewrite Hf.
    + intros k de j s' Hf G. rewrite Hf in *. eapply Hsome; [done| |done]. by eapply Hok.
  - apply Z.eqb_neq in Ed. eapply dirlookup_not_dir; [done..|]. by apply Hnone.
Qed.

Lemma find_mount_eq test s : find_mount test s = Ok (mounted s test) s.
Proof. done. Qed.

Lemma mount_up_wp s A x i ip t (Q : ptr → fs → Prop) (R : fs → Prop) :
  tree s A → dev_valid x.1 → held s x.1 i x.2 → dev ip = x.1 → inum ip = x.2 → nonzero t →
  (∀ s', go_up s A x t = None → visit s s' zero → Q None s') →
  (∀ y j s', go_up s A x t = Some y → node_ok s y → visit s s' (one y.1 y.2) → pinned s' y.1 j y.2 →
     Q (Some j) s') →
  (∀ s', cache_full s' → R s') →
  wp (mount_up ip (t ++ [0])) Q R s.
Proof.
  intros T Hd Hh Ed En Ht Hnone Hsome HR. unfold mount_up. rewrite Ed, En.
  destruct (strcmp_spec t [DOT; DOT] [] [] Ht) as (r & Er & Hr); [repeat constructor|].
  wp_step. eapply wp_expect; [exact Er|]. unfold go_up in *.
  assert ((r =? 0) = bool_decide (t = [DOT; DOT])) as ->.
  { destruct (Z.eqb_spec r 0) as [E|E]; symmetry; [apply bool_decide_true|apply bool_decide_false]; tauto. }
  destruct (bool_decide (t = [DOT; DOT]) && (x.2 =? 1) && negb (x.1 =? 0)).
  2:{ apply wp_ret. apply Hnone; [done|apply visit_refl]. }
  wp_step. eapply wp_ok; [apply find_mount_eq|].
  destruct (mounted s (λ m, child_dev m =? x.1)) as [m|] eqn:Em; cbn [mbind option_bind] in *.
  2:{ apply wp_ret. apply Hnone; [done|apply visit_refl]. }
  destruct (mounted_ok s A T _ _ Em) as (Hpd & Hpn & _). pose proof (tree_cache _ _ T) as HC.
  wp_step. apply iget_wp; [|intros; by apply HR]. intros j s1 G1.
  pose proof (got_visit _ _ _ _ _ G1) as V1. pose proof (walk_tree _ _ _ _ (vs_walk _ _ _ V1) T) as T1.
  pose proof (got_pinned _ _ _ _ _ G1 HC Hpn) as P1.
  wp_step. eapply ilock_visit; [by apply (te_fsys _ _ T1)|done|]. intros s2 V2 Hh2.
  pose proof (walk_tree _ _ _ _ (vs_walk _ _ _ V2) T1) as T2.
  assert (V12 : visit s s2 (one (parent_dev m) (parent_inum m)))
    by (eapply visit_trans; [exact V1|exact V2|]; intros; unfold zero; lia).
  assert (El : ∀ z, lookup_in s2 A z [DOT; DOT] = lookup_in s A z [DOT; DOT])
    by (intros; by destruct (wk_state _ _ _ (vs_walk _ _ _ V12)) as [f ->]).
  assert (Hone : one (parent_dev m) (parent_inum m) (parent_dev m) (parent_inum m) = 1)
    by (unfold one; by rewrite decide_True).
  wp_step. eapply (dirlookup_tree s2 A (parent_dev m, parent_inum m) j [DOT; DOT]);
    [done|done|done|repeat constructor|..]; rewrite ?El.
  - intros Hl. wp_step. apply iput_wp; [eapply pinned_live, held_pinned, Hh2|]. intros s3 D3.
    apply wp_ret. cbn. apply Hnone; [done|].
    eapply drop_visit_to; [by apply held_pinned|done|exact V12|by intros; unfold zero; lia|done|done|].
    apply (tree_cache _ _ T2).
  - intros y k off s3 Hl Hy G3. pose proof (got_visit _ _ _ _ _ G3) as V3.
    pose proof (walk_tree _ _ _ _ (vs_walk _ _ _ V3) T2) as T3.
    destruct Hy as [Hyd Hyn].
    assert (V13 : visit s s3 (λ d n, one (parent_dev m) (parent_inum m) d n + one y.1 y.2 d n))
      by (by eapply visit_trans).
    pose proof (vs_pin _ _ _ V3 _ _ _ (held_pinned _ _ _ _ Hh2)) as P3.
    wp_step. apply iput_wp; [by eapply pinned_live|]. intros s4 D4. apply wp_ret. cbn.
    eapply (Hsome y); [done| | |].
    + split; [done|]. by apply (walk_inode_ok _ _ _ (vs_walk _ _ _ V12)).
    + eapply drop_visit_to; [exact P3|done|exact V13|done| |done|apply (tree_cache _ _ T3)].
      unfold one. case_decide; lia.
    + eapply got_dropped_kept; [exact G3|apply (tree_cache _ _ T2)|done|by apply held_pinned|done].
  - apply HR.
Qed.

Lemma mount_down_wp sb s A y j (Q : ptr → fs → Prop) (R : fs → Prop) :
  tree s A → cache_ok (inode_table sb) → node_ok s y → pinned s y.1 j y.2 →
  visit sb s (one y.1 y.2) →
  (∀ k s', let z := go_down s y in visit sb s' (one z.1 z.2) → pinned s' z.1 k z.2 → Q (Some k) s') →
  (∀ s', cache_full s' → R s') →
  wp (mount_down (Some j)) Q R s.
Proof.
  intros T HCb Hy Hp V HQ HR. unfold mount_down. destruct (Hp) as [Hok (jp & Hj & Hjr & Ed & En)].
  pose proof (go_down_ok s A T y Hy) as Hz. unfold go_down in *.
  wp_step. eapply wp_deref; [done|]. rewrite Ed, En. wp_step. eapply wp_ok; [apply find_mount_eq|].
  destruct (mounted s _) as [m|]; [|apply wp_ret; by apply HQ].
  wp_step. apply iput_wp; [by eapply pinned_live|]. intros s1 D.
  assert (V1 : visit sb s1 zero).
  { eapply drop_visit_to; [exact Hp|done|exact V|intros; unfold zero; lia|done|done|apply (tree_cache _ _ T)]. }
  pose proof (dropped_walk _ _ _ _ _ D Hp) as Wd.
  apply iget_wp; [|apply HR]. intros k s2 G. pose proof (got_visit _ _ _ _ _ G) as V2.
  apply HQ.
  - eapply visit_trans; [exact V1|exact V2|]. intros. unfold zero. cbn. lia.
  - eapply got_pinned; [exact G| |].
    + apply (tree_cache _ _ (walk_tree _ _ _ _ Wd T)).
    + apply (walk_inode_ok _ _ _ Wd). apply Hz.
Qed.

(** Dropping an older reference keeps the newer one. *)
Lemma drop_older sb s s' x i y j :
  cache_ok (inode_table sb) → cache_ok (inode_table s) → visit sb s (one y.1 y.2) →
  pinned sb x.1 i x.2 → pinned s y.1 j y.2 → dropped s s' i → pinned s' y.1 j y.2.
Proof.
  intros HCb HC V Hx Hy D. destruct (dropped_entry _ _ _ D) as [Ht (kp & Hk & Hkr & Hk')].
  destruct (Hy) as [Hok (jp & Hj & Hjr & Ed & En)]. split; [by rewrite (dr_state _ _ _ D)|].
  destruct (decide (j = i)) as [->|Hne]; [|exists jp; by rewrite Ht].
  assert (kp = jp) as -> by congruence. eexists. split; [exact Hk'|]. cbn. split; [|done].
  destruct (vs_pin _ _ _ V _ _ _ Hx) as (_ & ip & Hi & _ & Ed' & En').
  assert (ip = jp) as -> by congruence.
  destruct Hx as (_ & xp & Hxl & Hxr & Edx & Enx).
  pose proof (refs_live sb i xp HCb Hxl Hxr) as E1. pose proof (refs_live s i jp HC Hj Hjr) as E2.
  rewrite (wk_refs _ _ _ (vs_walk _ _ _ V)) in E2.
  rewrite Edx, Enx, <-Ed', <-En' in E1. unfold one in E2. rewrite decide_True in E2; [lia|].
  by rewrite Ed, En.
Qed.

(** The inode reached, with its reference, or nothing. *)
Definition arrives (s0 : fs) (o : option (Z * Z)) (p : ptr) (s' : fs) : Prop :=
  match o, p with
  | Some x, Some i => visit s0 s' (one x.1 x.2) ∧ pinned s' x.1 i x.2
  | None, None => visit s0 s' zero
  | _, _ => False
  end.

(** The parent directory is returned loaded. *)
Definition loaded (parent : bool) (o : option (Z * Z)) (p : ptr) (s' : fs) : Prop :=
  parent = true → ∀ x i, o = Some x → p = Some i → held s' x.1 i x.2.

Section namex.
Context (s0 : fs) (A : Z → Z → ikey) (T0 : tree s0 A) (parent : bool) (R : fs → Prop).
Context (HR : ∀ s', cache_full s' → R s').

(** Where the loop stands: inode [x] referenced through [i], path [q] to go. *)
Record at_node (x : Z * Z) (i : nat) (s : fs) : Prop := AtNode {
  an_ok : dev_valid x.1;
  an_visit : visit s0 s (one x.1 x.2);
  an_pin : pinned s x.1 i x.2
  }.

Lemma at_node_tree x i s : at_node x i s → tree s A.
Proof using T0. intros []. eapply walk_tree; [by apply vs_walk|done]. Qed.

Lemma at_node_drop x i s s' : at_node x i s → dropped s s' i → visit s0 s' zero.
Proof using T0.
  intros N D. pose proof (at_node_tree _ _ _ N) as T. destruct N.
  eapply drop_visit_to; [done|done|done|intros; unfold zero; lia|done|by eapply tree_cache|by eapply tree_cache].
Qed.

Lemma namex_step_wp x i s q r name (Q : _ → fs → Prop) :
  at_node x i s → nonzero q →
  (∀ p nm s', arrives s0 (resolve s0 A parent x (comps q)) p s' →
    (∀ c, last (comps q) = Some c → parent = true → is_Some p → nm = take 29 c ++ [0]) →
    loaded parent (resolve s0 A parent x (comps q)) p s' →
    Q (inr (p, nm)) s') →
  (∀ y j q' nm s', at_node y j s' → nonzero q' → (length q' < length q)%nat →
    resolve s0 A parent y (comps q') = resolve s0 A parent x (comps q) →
    (comps q' ≠ [] → last (comps q') = last (comps q)) →
    (parent = true → comps q' ≠ []) →
    Q (inl (Some j, q' ++ 0 :: r, nm)) s') →
  wp (namex_step parent (Some i, q ++ 0 :: r, name)) Q R s.
Proof using T0 HR.
  intros N Hq Hdone Hgo. pose proof (at_node_tree _ _ _ N) as T. pose proof N as [Hd V Hp].
  pose proof (skipto_spec q r Hq) as Hs. unfold namex_step.
  destruct (comps q) as [|c cs] eqn:Ec.
  { wp_step. eapply wp_expect; [exact Hs|]. destruct parent.
    - wp_step. apply iput_wp; [by eapply pinned_live|]. intros s1 D. apply wp_ret. apply Hdone; [|done|done].
      cbn. by eapply at_node_drop.
    - apply wp_ret. by apply Hdone. }
  destruct Hs as (Hc & q' & Es & Hq' & Ecs & Hlen & Hnil).
  wp_step. eapply wp_expect; [exact Es|]. cbn iota beta.
  wp_step. eapply ilock_visit; [by apply (te_fsys _ _ T)|done|]. intros s1 V1 Hh1.
  pose proof (walk_tree _ _ _ _ (vs_walk _ _ _ V1) T) as T1.
  assert (N1 : at_node x i s1).
  { constructor; [done| |by apply held_pinned]. eapply visit_trans; [exact V|exact V1|].
    intros. unfold zero. lia. }
  cbn [resolve] in Hdone, Hgo.
  wp_step. eapply deref_held; [apply (fsys_rep _ _ _ (te_fsys _ _ T1 _ Hd))|exact Hh1|].
  intros ip _ _ _ Eip Enp Hk _.
  assert (d_type (din ip) = k_type (A x.1 x.2)) as -> by by rewrite <-Hk. fold (is_dir A x).
  destruct (is_dir A x) eqn:Edir; cbn [negb] in *.
  2:{ wp_step. apply iput_wp; [eapply pinned_live, held_pinned, Hh1|]. intros s2 D.
      apply wp_ret. apply Hdone; [by eapply at_node_drop|by intros ? ? ? [? ?]|done]. }
  assert (Hhd : ∃ z, head (q' ++ 0 :: r) = Some z ∧ (z = 0 ↔ cs = [])).
  { destruct q' as [|z q']; cbn; [exists 0; split; [done|]; tauto|]. exists z. split; [done|].
    inversion Hq' as [|? ? Hz _]; subst. split; [lia|]. rewrite <-Hnil. done. }
  destruct Hhd as (z & Ez & Hz). wp_step. eapply wp_expect; [exact Ez|].
  assert ((z =? 0) = bool_decide (cs = [])) as ->.
  { destruct (Z.eqb_spec z 0) as [E|E]; symmetry; [apply bool_decide_true|apply bool_decide_false]; tauto. }
  destruct (parent && bool_decide (cs = [])) eqn:Epar.
  { apply wp_ret. apply andb_true_iff in Epar as [_ E%bool_decide_eq_true]. apply Hdone.
    - cbn. exact (conj (an_visit _ _ _ N1) (an_pin _ _ _ N1)).
    - rewrite E. cbn. by intros c' [= <-] _ _.
    - by intros _ x' i' [= <-] [= <-]. }
  assert (Hnm : nonzero (take 29 c)) by by apply Forall_take.
  assert (Enext : ∀ s' δ, visit s0 s' δ → next s' A x (take 29 c) = next s0 A x (take 29 c)).
  { intros s' δ V'. eapply walk_next. by apply vs_walk. }
  rewrite <-(Enext s1 _ (an_visit _ _ _ N1)) in Hdone, Hgo. unfold next in Hdone, Hgo.
  (* both ways of finding the entry end in a new reference relative to s1 *)
  assert (Hfail : ∀ s2, visit s1 s2 zero →
    match go_up s1 A x (take 29 c) with Some y => Some y | None => lookup_in s1 A x (take 29 c) end = None →
    wp (iput (Some i);; mret (inr (None, take 29 c ++ [0]))) Q R s2).
  { intros s2 V2 E. rewrite E in Hdone. wp_step. apply iput_wp; [eapply pinned_live, (vs_pin _ _ _ V2 _ _ _ (an_pin _ _ _ N1))|].
    intros s3 D. apply wp_ret. apply Hdone; [|by intros ? ? ? [? ?]|by intros ? ? ? ?]. cbn. eapply at_node_drop; [|done].
    constructor; [done| |exact (vs_pin _ _ _ V2 _ _ _ (an_pin _ _ _ N1))]. eapply visit_trans; [exact (an_visit _ _ _ N1)|exact V2|].
    intros. unfold zero. lia. }
  assert (Hfound : ∀ y j s2, visit s1 s2 (one y.1 y.2) → pinned s2 y.1 j y.2 → node_ok s1 y →
    match go_up s1 A x (take 29 c) with Some y => Some y | None => lookup_in s1 A x (take 29 c) end = Some y →
    wp (next ← mount_down (Some j); iput (Some i);; mret (inl (next, q' ++ 0 :: r, take 29 c ++ [0]))) Q R s2).
  { intros y j s2 V2 P2 Hy E. rewrite E in Hgo. cbn [fmap option_fmap option_map mbind option_bind] in Hgo.
    pose proof (walk_tree _ _ _ _ (vs_walk _ _ _ V2) T1) as T2.
    assert (Hy2 : node_ok s2 y) by (destruct Hy; split; [done|]; by apply (walk_inode_ok _ _ _ (vs_walk _ _ _ V2))).
    assert (Egd : go_down s2 y = go_down s1 y) by (by destruct (wk_state _ _ _ (vs_walk _ _ _ V2)) as [f ->]).
    pose proof (go_down_ok s2 A T2 y Hy2) as Hz2. rewrite Egd in Hz2.
    wp_step. eapply (mount_down_wp s1 s2 A y j); [done|by eapply tree_cache|done|done|done| |done].
    rewrite Egd. intros k s3 zz V3 P3. unfold zz in *.
    pose proof (walk_tree _ _ _ _ (vs_walk _ _ _ V3) T1) as T3.
    pose proof (vs_pin _ _ _ V3 _ _ _ (an_pin _ _ _ N1)) as Pi3.
    wp_step. apply iput_wp; [by eapply pinned_live|]. intros s4 D4. apply wp_ret.
    eapply (Hgo (go_down s1 y)); [|done|done| | |].
    - constructor.
      + apply Hz2.
      + eapply drop_visit_to; [exact Pi3|done|eapply visit_trans; [exact (an_visit _ _ _ N1)|exact V3|done]|done| | |].
        * unfold one. case_decide; lia.
        * by eapply tree_cache.
        * by eapply tree_cache.
      + eapply (drop_older s1 s3 s4 x i); [by eapply tree_cache|by eapply tree_cache|done|exact (an_pin _ _ _ N1)|done|done].
    - rewrite Ecs. done.
    - rewrite Ecs. intros Hne. destruct cs; [done|]. done.
    - rewrite Ecs. intros ->. cbn in Epar. by apply bool_decide_eq_false in Epar. }
  wp_step. eapply (mount_up_wp s1 A x i ip); [done|done|done|done|done|done| | |done].
  - intros s2 Eup V2. rewrite Eup in Hfail, Hfound.
    pose proof (walk_tree _ _ _ _ (vs_walk _ _ _ V2) T1) as T2.
    assert (El : lookup_in s2 A x (take 29 c) = lookup_in s1 A x (take 29 c))
      by (by destruct (wk_state _ _ _ (vs_walk _ _ _ V2)) as [f ->]).
    wp_step. wp_step. eapply (dirlookup_tree s2 A x i);
      [done|done|by apply (vs_held _ _ _ V2)|done|..]; rewrite ?El; [| |apply HR].
    + intros El0. apply wp_ret. cbn. by apply Hfail.
    + intros y j off s3 El0 Hy G. apply wp_ret. cbn. pose proof (got_visit _ _ _ _ _ G) as V3.
      destruct Hy as [Hyd Hyn].
      eapply (Hfound y); [|eapply got_pinned; [exact G|by eapply tree_cache|done]| |done].
      * eapply visit_trans; [exact V2|exact V3|]. intros. unfold zero. lia.
      * split; [done|]. by apply (walk_inode_ok _ _ _ (vs_walk _ _ _ V2)).
  - intros y j s2 Eup Hy V2 P2. rewrite Eup in Hfound. wp_step. apply wp_ret. cbn. by apply (Hfound y).
Qed.
End namex.

(** ** [namex] *)

(** Where a path starts: the root, or the current directory if there is one. *)
Definition start (cwd : option (Z * Z)) (p : list Z) : Z * Z :=
  if bool_decide (head p = Some SLASH) then (0, 1) else default (0, 1) cwd.

(** [cwd] of the process refers to the inode [x]. *)
Definition cwd_at (s : fs) (cwd : ptr) (x : option (Z * Z)) : Prop :=
  match cwd, x with
  | None, None => True
  | Some i, Some x => dev_valid x.1 ∧ pinned s x.1 i x.2
  | _, _ => False
  end.

Lemma namex_wp s A parent cwd x p r (Q : ptr * list Z → fs → Prop) (R : fs → Prop) :
  tree s A → nonzero p → cwd_at s cwd x →
  (∀ q nm s', arrives s (resolve s A parent (start x p) (comps p)) q s' →
     (parent = true → is_Some q → ∀ c, last (comps p) = Some c → nm = take 29 c ++ [0]) →
     loaded parent (resolve s A parent (start x p) (comps p)) q s' → Q (q, nm) s') →
  (∀ s', cache_full s' → R s') →
  wp (namex cwd (p ++ 0 :: r) parent) Q R s.
Proof.
  intros T Hp Hcwd HQ HR. pose proof (tree_cache _ _ T) as HC.
  assert (Hget : ∀ y, node_ok s y → y = start x p → wp (iget y.1 y.2) (λ q s1,
    wp (loop (S (length (p ++ 0 :: r))) (namex_step parent) (q, p ++ 0 :: r, [])) Q R s1) R s).
  { intros y [Hyd Hyn] Ey. apply iget_wp; [|apply HR]. intros i s1 G. pose proof (got_visit _ _ _ _ _ G) as V1.
    eapply wp_loop with (k := length p) (I := λ k '(q, path, nm) s', ∃ z j u, q = Some j ∧ path = u ++ 0 :: r ∧
      at_node s z j s' ∧ nonzero u ∧ k = length u ∧
      resolve s A parent z (comps u) = resolve s A parent (start x p) (comps p) ∧
      (parent = true → last (comps u) = last (comps p))).
    - intros k [[q path] nm] s2 (z & j & u & -> & -> & N & Hu & -> & Er & El).
      eapply (namex_step_wp s A T parent R HR z j s2 u); [done|done| |].
      + intros q nm' s' Har Hnm Hld. apply HQ; [by rewrite <-Er| |by rewrite <-Er]. intros Hpar Hq c Hc.
        apply Hnm; [by rewrite El|done..].
      + intros z' j' u' nm' s' N' Hu' Hlen Er' El' Hne. exists (length u'). split; [done|].
        exists z', j', u'. split_and!; try done; [congruence|]. intros Hpar. rewrite El', El by auto. done.
    - exists y, i, p. split_and!; try done; [|by rewrite Ey]. constructor; [done|done|].
      eapply got_pinned; done.
    - rewrite length_app. cbn. lia. }
  unfold namex. wp_step. unfold start in *.
  destruct Hp as [|c p Hc Hp]; cbn [app head] in *.
  - wp_step. change (0 =? SLASH) with false. cbn iota. rewrite bool_decide_false in Hget by done.
    wp_step. destruct cwd as [i|], x as [x|]; try done; cbn [default] in *.
    + destruct Hcwd as [Hxd Hpx]. destruct (Hpx) as [Hxn (ip & Hi & _ & Ed & En)].
      wp_step. eapply wp_deref; [done|]. rewrite Ed, En. by apply Hget.
    + apply (Hget (0, 1)); [|done]. split; [split; cbn; lia|]. apply (te_root _ _ T 0). split; lia.
  - wp_step. wp_step. assert (Hroot : node_ok s (0, 1)).
    { split; [split; cbn; lia|]. apply (te_root _ _ T 0). split; lia. }
    destruct (Z.eqb_spec c SLASH) as [->|Hne].
    + rewrite bool_decide_true in Hget by done. by apply (Hget (0, 1)).
    + rewrite bool_decide_false in Hget by (by intros [=]).
      destruct cwd as [i|], x as [x|]; try done; cbn [default] in *.
      * destruct Hcwd as [Hxd Hpx]. destruct (Hpx) as [Hxn (ip & Hi & _ & Ed & En)].
        wp_step. eapply wp_deref; [done|]. rewrite Ed, En. by apply Hget.
      * by apply (Hget (0, 1)).
Qed.

Lemma namei_wp s A cwd x p r (Q : ptr → fs → Prop) (R : fs → Prop) :
  tree s A → nonzero p → cwd_at s cwd x →
  (∀ q s', arrives s (resolve s A false (start x p) (comps p)) q s' → Q q s') →
  (∀ s', cache_full s' → R s') →
  wp (namei cwd (p ++ 0 :: r)) Q R s.
Proof.
  intros T Hp Hc HQ HR. unfold namei. wp_step. eapply namex_wp; [done..| |done].
  intros q nm s' Ha _ _. apply wp_ret. by apply HQ.
Qed.
