(* ===== verification/Path.v ===== *)
(** * Path normalisation

    [fs_normalize_path] of kernel/fs.c on its character buffers, and the
    absolute path it computes. *)

From S2P Require Import Prelude CLib FsTypes Dir Namei.

(** ** The code *)

Definition str_slash : list Z := [SLASH; 0].

(** [char buf[256]]: its last byte is only ever written. *)
Definition normalize_buf (base rel : list Z) : option (list Z) :=
  c ← head rel;
  if c =? SLASH then l ← strncpy rel 255; Some (l ++ [0])
  else
    l ← strncpy base 255;
    len ← strlen l;
    let buf := l ++ [0] in
    last ← (if (0 <? len)%nat then l !! (len - 1)%nat else Some SLASH);
    buf ← (if (0 <? len)%nat && negb (last =? SLASH) then strncat buf str_slash (256 - len - 1) else Some buf);
    len ← strlen buf;
    buf ← strncat buf rel (256 - len - 1);
    Some (<[255%nat := 0]> buf).

(** One path component against [tokens[0 .. num_tokens)]. *)
Definition normalize_token (tokens : list (list Z)) (tok : list Z) : option (list (list Z)) :=
  c ← strcmp (tok ++ [0]) str_dot;
  if c =? 0 then Some tokens else
  c ← strcmp (tok ++ [0]) str_dotdot;
  if c =? 0 then Some (if (0 <? length tokens)%nat then take (length tokens - 1) tokens else tokens) else
  len ← strlen (tok ++ [0]);
  if (0 <? len)%nat && (length tokens <? MAX_PATH_DEPTH)%nat then
    l ← strncpy (tok ++ [0]) (MAX_FILENAME - 1);
    Some (tokens ++ [l ++ [0]])
  else Some tokens.

Fixpoint normalize_tokens (fuel : nat) (p : list Z) (tokens : list (list Z)) : option (list (list Z)) :=
  match fuel with
  | O => None
  | S fuel =>
      c ← head p;
      if c =? 0 then Some tokens else
      let '(tok, next) := component p in
      orig ← head next;
      tokens ← normalize_token tokens tok;
      if negb (orig =? 0) then normalize_tokens fuel (skip_slashes (tail next)) tokens
      else Some tokens
  end.

(** Appending the tokens to [dst]; [first] is [i = 0]. *)
Fixpoint normalize_join (dst : list Z) (dst_len : nat) (first : bool) (tokens : list (list Z))
    : option (list Z) :=
  match tokens with
  | [] => Some dst
  | tok :: tokens =>
      d1 ← dst !! 1%nat;
      dst ← (if negb first || negb (d1 =? 0) then
               len ← strlen dst; strncat dst str_slash (dst_len - len - 1)
             else Some dst);
      len ← strlen dst;
      dst ← strncat dst tok (dst_len - len - 1);
      normalize_join dst dst_len false tokens
  end.

(** [dst] is the destination object of [dst_len] bytes; the result its new contents. *)
Definition fs_normalize_path (base rel dst : list Z) : option (list Z) :=
  buf ← normalize_buf base rel;
  tokens ← normalize_tokens (S (length buf)) (skip_slashes buf) [];
  if (2 <=? length dst)%nat then
    normalize_join (<[1%nat := 0]> (<[0%nat := SLASH]> dst)) (length dst) true tokens
  else None.

(** ** The path it stands for *)

Definition norm_step (ts : list (list Z)) (c : list Z) : list (list Z) :=
  if bool_decide (c = [DOT]) then ts
  else if bool_decide (c = [DOT; DOT]) then take (length ts - 1) ts
  else if (length ts <? 32)%nat then ts ++ [take 127 c] else ts.

Definition norm (cs : list (list Z)) : list (list Z) := fold_left norm_step cs [].

Fixpoint join (ts : list (list Z)) : list Z :=
  match ts with
  | [] => []
  | [t] => t
  | t :: ts => t ++ SLASH :: join ts
  end.

Definition render (ts : list (list Z)) : list Z := SLASH :: join ts.

(** The text that is normalised, before the 255-character cut. *)
Definition full_path (base rel : list Z) : list Z :=
  if bool_decide (head rel = Some SLASH) then rel
  else if bool_decide (base = [] ∨ last base = Some SLASH) then base ++ rel
  else base ++ SLASH :: rel.

(** ** The buffers hold it *)

Lemma nonzero_app s t : nonzero s → nonzero t → nonzero (s ++ t).
Proof. intros. by apply Forall_app. Qed.

Lemma strncpy_255 (s : list Z) :
  take 255 (s ++ zeros 255) ++ [0] = take 255 s ++ 0 :: zeros (255 - length s).
Proof.
  rewrite take_app, <-app_assoc. f_equal. unfold zeros. rewrite take_replicate.
  replace ((255 - length s) `min` 255)%nat with (255 - length s)%nat by lia.
  change [0] with (replicate 1 0). rewrite <-replicate_add. by rewrite Nat.add_1_r.
Qed.

Lemma take_app_short {B} (n : nat) (l k : list B) : (length l ≤ n)%nat → take n (l ++ k) = l ++ take (n - length l) k.
Proof. intros. rewrite take_app. f_equal. by apply take_ge. Qed.

Lemma insert_keeps_prefix (u v : list Z) k :
  (length u ≤ k)%nat → ∃ v', <[k := 0]> (u ++ 0 :: v) = u ++ 0 :: v'.
Proof.
  intros Hk. rewrite insert_app_r_alt by done. destruct (k - length u)%nat as [|j]; cbn; eauto.
Qed.

(** The buffer after the two [strncat]s. *)
Lemma normalize_buf_relative base brest rel rrest :
  nonzero base → nonzero rel → (length base < 255)%nat → head rel ≠ Some SLASH →
  ∃ pad, normalize_buf (base ++ 0 :: brest) (rel ++ 0 :: rrest) = Some (take 255 (full_path base rel) ++ 0 :: pad).
Proof.
  intros Hb Hr Hlen Habs. unfold normalize_buf, full_path. rewrite bool_decide_false by done.
  assert (Hhd : ∃ c, head (rel ++ 0 :: rrest) = Some c ∧ (c =? SLASH) = false).
  { destruct rel as [|c rel]; cbn; [by exists 0|]. exists c. split; [done|].
    apply Z.eqb_neq. by intros ->. }
  destruct Hhd as (c & -> & Ec). cbn [mbind option_bind]. rewrite Ec.
  rewrite strncpy_spec by done. cbn [mbind option_bind].
  assert (E1 : take 255 (base ++ zeros 255) = base ++ 0 :: zeros (254 - length base)).
  { rewrite take_app_short by lia. unfold zeros. rewrite take_replicate.
    replace ((255 - length base) `min` 255)%nat with (S (254 - length base)) by lia. done. }
  rewrite E1, strlen_spec by done. cbn [mbind option_bind].
  rewrite <-app_assoc. cbn [app].
  assert (Hsep : ∃ sep pad, (length pad = 255 - length (base ++ sep))%nat ∧ (length (base ++ sep) ≤ 255)%nat ∧ nonzero sep ∧
    base ++ sep ++ rel = (if bool_decide (base = [] ∨ last base = Some SLASH) then base ++ rel else base ++ SLASH :: rel) ∧
    (l ← (if (0 <? length base)%nat then (base ++ 0 :: zeros (254 - length base)) !! (length base - 1)%nat else Some SLASH);
     if (0 <? length base)%nat && negb (l =? SLASH)
     then strncat (base ++ 0 :: zeros (254 - length base) ++ [0]) str_slash (256 - length base - 1)
     else Some (base ++ 0 :: zeros (254 - length base) ++ [0])) = Some ((base ++ sep) ++ 0 :: pad)).
  { assert (Hpl : length (zeros (254 - length base) ++ [0]) = (255 - length base)%nat)
      by (rewrite length_app, length_zeros; cbn; lia).
    destruct (decide (base = [])) as [->|Hne].
    { exists [], (zeros 254 ++ [0]). cbn [length app]. split; [done|]. split; [lia|]. split; [constructor|].
      rewrite bool_decide_true by auto. done. }
    destruct (last base) as [z|] eqn:El; [|by apply last_None in El].
    assert (Hl0 : (0 < length base)%nat) by (destruct base; [done|cbn; lia]).
    rewrite (proj2 (Nat.ltb_lt _ _)) by done.
    rewrite lookup_app_l by lia. rewrite (Nat.sub_1_r (length base)), <-last_lookup, El. cbn [mbind option_bind].
    destruct (Z.eqb_spec z SLASH) as [->|Hz]; cbn [negb andb].
    - exists [], (zeros (254 - length base) ++ [0]). rewrite app_nil_r. split; [lia|]. split; [lia|].
      split; [constructor|]. rewrite bool_decide_true by auto. done.
    - exists [SLASH], (drop 1 (zeros (254 - length base) ++ [0])).
      rewrite bool_decide_false by (intros [?|[=]]; done).
      split; [rewrite length_drop, Hpl, length_app; cbn [length]; lia|].
      split; [rewrite length_app; cbn; lia|].
      split; [repeat constructor; unfold SLASH; lia|]. split; [done|].
      change str_slash with ([SLASH] ++ 0 :: []). rewrite strncat_spec; [|done|repeat constructor; unfold SLASH; lia|].
      + rewrite take_ge by (cbn; lia). cbn [length]. rewrite <-app_assoc. done.
      + rewrite take_ge by (cbn; lia). cbn [length]. lia. }
  destruct Hsep as (sep & pad & Hpad & Hmax & Hsep & <- & E2).
  destruct (if (0 <? length base)%nat then _ else _) as [l|]; [|done]. cbn [mbind option_bind] in *.
  rewrite E2. cbn [mbind option_bind].
  assert (Hbs : nonzero (base ++ sep)) by by apply nonzero_app.
  rewrite strlen_spec by done. cbn [mbind option_bind].
  rewrite strncat_spec; [|done|done|rewrite length_take; lia]. cbn [mbind option_bind].
  rewrite (app_assoc base sep rel), take_app_short by done.
  replace (256 - length (base ++ sep) - 1)%nat with (255 - length (base ++ sep))%nat by lia.
  set (u := take (255 - length (base ++ sep)) rel). rewrite (app_assoc (base ++ sep)).
  destruct (insert_keeps_prefix ((base ++ sep) ++ u) (drop (length u) pad) 255) as [v' ->]; [|eauto].
  rewrite length_app. unfold u. rewrite length_take. lia.
Qed.

Lemma normalize_buf_absolute base rel rrest :
  nonzero rel → head rel = Some SLASH →
  ∃ pad, normalize_buf base (rel ++ 0 :: rrest) = Some (take 255 (full_path base rel) ++ 0 :: pad).
Proof.
  intros Hr Hh. unfold normalize_buf, full_path. rewrite bool_decide_true by done.
  destruct rel as [|c rel]; [done|]. injection Hh as ->. cbn [app head mbind option_bind].
  rewrite Z.eqb_refl. change (SLASH :: rel ++ 0 :: rrest) with ((SLASH :: rel) ++ 0 :: rrest).
  rewrite strncpy_spec by done. cbn [mbind option_bind]. rewrite strncpy_255. eauto.
Qed.

(** ** The tokens are the normalised components *)

(** A token array holds the component [t]. *)
Definition token_of (arr t : list Z) : Prop := nonzero t ∧ ∃ rest, arr = t ++ 0 :: rest.

Lemma normalize_token_spec tokens ts c :
  Forall2 token_of tokens ts → nonzero c → c ≠ [] →
  ∃ tokens', normalize_token tokens c = Some tokens' ∧ Forall2 token_of tokens' (norm_step ts c).
Proof.
  intros HT Hc Hne. pose proof (Forall2_length _ _ _ HT) as Hl. unfold normalize_token, norm_step.
  destruct (strcmp_spec c [DOT] [] [] Hc) as (r1 & E1 & H1); [repeat constructor|].
  destruct (strcmp_spec c [DOT; DOT] [] [] Hc) as (r2 & E2 & H2); [repeat constructor|].
  change str_dot with ([DOT] ++ 0 :: []). rewrite E1. cbn [mbind option_bind].
  destruct (Z.eqb_spec r1 0) as [Z1|Z1].
  { rewrite bool_decide_true by tauto. eauto. }
  rewrite (bool_decide_false (c = [DOT])) by tauto.
  change str_dotdot with ([DOT; DOT] ++ 0 :: []). rewrite E2. cbn [mbind option_bind].
  destruct (Z.eqb_spec r2 0) as [Z2|Z2].
  { rewrite bool_decide_true by tauto. eexists. split; [done|].
    destruct (Nat.ltb_spec 0 (length tokens)).
    - rewrite Hl. by apply Forall2_take.
    - destruct tokens; [|cbn in *; lia]. by inversion HT; subst. }
  rewrite (bool_decide_false (c = [DOT; DOT])) by tauto. rewrite strlen_spec by done. cbn [mbind option_bind].
  rewrite (proj2 (Nat.ltb_lt 0 (length c))) by (destruct c; [done|cbn; lia]). cbn [andb].
  rewrite Hl. change MAX_PATH_DEPTH with 32%nat. destruct (length ts <? 32)%nat; [|eauto].
  rewrite strncpy_spec by done. cbn [mbind option_bind]. eexists. split; [done|].
  apply Forall2_app; [done|]. constructor; [|constructor]. change (MAX_FILENAME - 1)%nat with 127%nat.
  split; [by apply Forall_take|]. rewrite take_app, <-app_assoc.
  destruct (take (127 - length c) (zeros 127) ++ [0]) as [|z l] eqn:E.
  - by apply app_nil in E as [_ ?].
  - exists l. f_equal. f_equal. unfold zeros in E. rewrite take_replicate in E.
    change [0] with (replicate 1 0) in E. rewrite <-replicate_add, Nat.add_1_r in E. by injection E.
Qed.

Lemma normalize_tokens_spec fuel q pad tokens ts :
  nonzero q → (∀ c, head q = Some c → c ≠ SLASH) → (length q < fuel)%nat → Forall2 token_of tokens ts →
  ∃ tokens', normalize_tokens fuel (q ++ 0 :: pad) tokens = Some tokens' ∧
    Forall2 token_of tokens' (fold_left norm_step (comps q) ts).
Proof.
  revert q tokens ts. induction fuel as [|fuel IH]; intros q tokens ts Hq Hh Hf HT; [lia|].
  cbn [normalize_tokens]. destruct Hq as [|c q Hc Hq]; [by exists tokens|].
  cbn [app head mbind option_bind]. zb. specialize (Hh c eq_refl).
  destruct (component_spec (c :: q) pad) as (a & q1 & Ea & Ha & Hq1 & Eq & Hh1 & t & Es & Et); [by constructor|].
  change (c :: q ++ 0 :: pad) with ((c :: q) ++ 0 :: pad). rewrite Ea.
  assert (Hane : a ≠ []).
  { intros ->. cbn in Eq. subst q1. specialize (Hh1 c eq_refl). congruence. }
  assert (Ecs : comps (c :: q) = a :: comps q1).
  { unfold comps at 1. rewrite Es, filter_cons, decide_True by done. by rewrite Et. }
  rewrite Ecs. cbn [fold_left].
  destruct (normalize_token_spec tokens ts a HT Ha Hane) as (tokens1 & E1 & HT1).
  destruct Hq1 as [|z q1 Hz Hq1]; cbn [app head mbind option_bind]; rewrite E1; cbn [mbind option_bind].
  - change (comps []) with (@nil (list Z)). eauto.
  - zb. cbn [tail]. specialize (Hh1 z eq_refl) as ->. rewrite comps_slash.
    destruct (skip_slashes_spec q1 pad Hq1) as (q2 & -> & Hq2 & <- & Hlen & Hh2).
    apply IH; [done|done| |done].
    assert (length (c :: q) = length a + S (length q1))%nat by (rewrite Eq, length_app; done).
    destruct a; [done|]. cbn [length] in *. lia.
Qed.

(** ** Joining them again *)

Lemma append_cstr (s rest t trest : list Z) :
  nonzero s → nonzero t →
  let D := length (s ++ 0 :: rest) in
  ∃ rest', strncat (s ++ 0 :: rest) (t ++ 0 :: trest) (D - length s - 1) =
    Some (take (D - 1) (s ++ t) ++ 0 :: rest') ∧ length (take (D - 1) (s ++ t) ++ 0 :: rest') = D.
Proof.
  intros Hs Ht D. assert (HD : D = (length s + S (length rest))%nat) by (unfold D; by rewrite length_app).
  rewrite strncat_spec; [|done|done|rewrite length_take; lia].
  exists (drop (length (take (D - length s - 1) t)) rest).
  rewrite take_app_short by lia. replace (D - 1 - length s)%nat with (D - length s - 1)%nat by lia.
  split; [by rewrite app_assoc|]. rewrite !length_app. cbn [length]. rewrite length_drop, !length_take. lia.
Qed.

Definition slashed (ts : list (list Z)) : list Z := concat ((λ t, SLASH :: t) <$> ts).

Lemma render_slashed t ts : render (t :: ts) = SLASH :: t ++ slashed ts.
Proof.
  unfold render. f_equal. revert t. induction ts as [|u ts IH]; intros t.
  - cbn. by rewrite app_nil_r.
  - change (join (t :: u :: ts)) with (t ++ SLASH :: join (u :: ts)). by rewrite IH.
Qed.

Lemma take_ne_nil {B} n (l k : list B) : (0 < n)%nat → l ≠ [] → take n (l ++ k) ≠ [].
Proof. intros. destruct n; [lia|]. by destruct l. Qed.

(** The tokens after the first, each behind a slash. *)
Lemma normalize_join_rest s rest tokens ts :
  nonzero s → s ≠ [] → (2 ≤ length (s ++ 0%Z :: rest))%nat → Forall2 token_of tokens ts →
  let D := length (s ++ 0 :: rest) in
  ∃ rest', normalize_join (s ++ 0 :: rest) D false tokens = Some (take (D - 1) (s ++ slashed ts) ++ 0 :: rest').
Proof.
  intros Hs Hne HD HT. revert s rest Hs Hne HD.
  induction HT as [|arr t tokens ts (Hnt & tr & ->) HT IH]; intros s rest Hs Hne HD D.
  - exists rest. cbn. rewrite app_nil_r, take_ge; [done|]. unfold D. rewrite length_app. cbn. lia.
  - cbn [normalize_join]. destruct (lookup_lt_is_Some_2 (s ++ 0 :: rest) 1) as [d1 ->]; [lia|].
    cbn [mbind option_bind negb orb]. rewrite strlen_spec by done. cbn [mbind option_bind].
    destruct (append_cstr s rest [SLASH] []) as (r1 & E1 & L1); [done|repeat constructor; unfold SLASH; lia|].
    fold D in E1, L1. change str_slash with ([SLASH] ++ 0 :: []). rewrite E1. cbn [mbind option_bind].
    set (s1 := take (D - 1) (s ++ [SLASH])) in *.
    assert (Hs1 : nonzero s1).
    { apply Forall_take, nonzero_app; [done|repeat constructor; unfold SLASH; lia]. }
    rewrite strlen_spec by done. cbn [mbind option_bind].
    destruct (append_cstr s1 r1 t tr Hs1 Hnt) as (r2 & E2 & L2). rewrite L1 in E2, L2.
    rewrite E2. cbn [mbind option_bind]. set (s2 := take (D - 1) (s1 ++ t)) in *.
    destruct (IH s2 r2) as (r3 & E3).
    + by apply Forall_take, nonzero_app.
    + apply take_ne_nil; [unfold D; lia|]. apply take_ne_nil; [unfold D; lia|done].
    + lia.
    + rewrite L2 in E3. exists r3. rewrite E3. do 2 f_equal. unfold s2, s1.
      rewrite take_take_app, <-app_assoc, take_take_app, <-app_assoc. done.
Qed.

Lemma normalize_join_spec dst tokens ts :
  (2 ≤ length dst)%nat → Forall2 token_of tokens ts →
  ∃ rest, normalize_join (<[1%nat := 0]> (<[0%nat := SLASH]> dst)) (length dst) true tokens =
    Some (take (length dst - 1) (render ts) ++ 0 :: rest).
Proof.
  intros HD HT. destruct dst as [|x [|y dst]]; cbn in HD; [lia..|]. cbn [insert list_insert].
  assert (Hsl : nonzero [SLASH]) by (repeat constructor; unfold SLASH; lia).
  destruct HT as [|arr t tokens ts (Hnt & tr & ->) HT].
  { exists dst. by rewrite take_ge by (cbn; lia). }
  cbn [normalize_join lookup list_lookup mbind option_bind]. change (negb (0 =? 0)) with false. cbn [negb orb].
  change (SLASH :: 0 :: dst) with ([SLASH] ++ 0 :: dst).
  destruct (append_cstr [SLASH] dst t tr Hsl Hnt) as (r2 & E2 & L2).
  cbn [mbind option_bind]. rewrite strlen_spec by done. cbn [mbind option_bind].
  change (length (x :: y :: dst)) with (length ([SLASH] ++ 0 :: dst)). rewrite E2. cbn [mbind option_bind].
  set (D := length ([SLASH] ++ 0 :: dst)) in *. set (s2 := take (D - 1) ([SLASH] ++ t)) in *.
  assert (HD2 : (2 ≤ D)%nat) by (unfold D; cbn; lia).
  destruct (normalize_join_rest s2 r2 tokens ts) as (r3 & E3); [| |lia|done|].
  - by apply Forall_take, nonzero_app.
  - apply take_ne_nil; [lia|done].
  - rewrite L2 in E3. exists r3. rewrite E3. do 2 f_equal. unfold s2.
    rewrite take_take_app, render_slashed, <-app_assoc. done.
Qed.

(** ** [fs_normalize_path] *)

Lemma normalize_path_spec base brest rel rrest dst :
  nonzero base → nonzero rel → (length base < 255 ∨ head rel = Some SLASH)%nat → (2 ≤ length dst)%nat →
  ∃ rest, fs_normalize_path (base ++ 0 :: brest) (rel ++ 0 :: rrest) dst =
    Some (take (length dst - 1) (render (norm (comps (take 255 (full_path base rel))))) ++ 0 :: rest).
Proof.
  intros Hb Hr Hlen HD. unfold fs_normalize_path.
  assert (Hbuf : ∃ pad, normalize_buf (base ++ 0 :: brest) (rel ++ 0 :: rrest) =
    Some (take 255 (full_path base rel) ++ 0 :: pad)).
  { destruct (decide (head rel = Some SLASH)) as [Habs|Habs].
    - destruct (normalize_buf_absolute (base ++ 0 :: brest) rel rrest Hr Habs) as [pad E]. exists pad.
      rewrite E. unfold full_path. by rewrite !bool_decide_true.
    - apply normalize_buf_relative; try done. by destruct Hlen. }
  destruct Hbuf as [pad ->]. cbn [mbind option_bind].
  assert (Hq : nonzero (take 255 (full_path base rel))).
  { apply Forall_take. unfold full_path. repeat case_bool_decide; [done|by apply nonzero_app|].
    apply nonzero_app; [done|]. constructor; [unfold SLASH; lia|done]. }
  destruct (skip_slashes_spec _ pad Hq) as (q & -> & Hq' & Ec & Hlen' & Hh).
  destruct (normalize_tokens_spec (S (length (take 255 (full_path base rel) ++ 0 :: pad))) q pad [] [])
    as (tokens & -> & HT); [done|done|rewrite length_app; cbn; lia|constructor|].
  cbn [mbind option_bind]. rewrite (proj2 (Nat.leb_le _ _)) by done. rewrite Ec in HT.
  by apply normalize_join_spec.
Qed.

(** ** Normal forms *)

Definition plain (t : list Z) : Prop := t ≠ [] ∧ SLASH ∉ t.

(** A component that stays as it is. *)
Definition canonical1 (t : list Z) : Prop := plain t ∧ t ≠ [DOT] ∧ t ≠ [DOT; DOT] ∧ (length t ≤ 127)%nat.
Definition canonical (ts : list (list Z)) : Prop := Forall canonical1 ts ∧ (length ts ≤ 32)%nat.

Lemma raw_split_plain t b : SLASH ∉ t → raw_split (t ++ SLASH :: b) = t :: raw_split b ∧ raw_split t = [t].
Proof.
  induction t as [|c t IH]; intros Hn; [done|]. apply not_elem_of_cons in Hn as [Hc Hn].
  destruct (IH Hn) as [E1 E2]. cbn. rewrite (proj2 (Z.eqb_neq c SLASH)) by done. by rewrite E1, E2.
Qed.

Lemma raw_split_app a b : raw_split (a ++ SLASH :: b) = raw_split a ++ raw_split b.
Proof.
  induction a as [|c a IH]; [done|]. cbn. destruct (c =? SLASH); [by rewrite IH|]. rewrite IH.
  destruct (raw_split_cons a) as (h & t & ->). done.
Qed.

Lemma comps_app a b : comps (a ++ SLASH :: b) = comps a ++ comps b.
Proof. unfold comps. by rewrite raw_split_app, filter_app. Qed.

Lemma comps_plain p : Forall plain (comps p).
Proof.
  assert (H : Forall (λ t, SLASH ∉ t) (raw_split p)).
  { induction p as [|c p IH]; cbn; [repeat constructor; apply not_elem_of_nil|].
    destruct (Z.eqb_spec c SLASH); [constructor; [apply not_elem_of_nil|done]|].
    destruct IH as [|h t Hh Ht]; repeat constructor; try done.
    - apply not_elem_of_cons. split; [done|apply not_elem_of_nil].
    - by apply not_elem_of_cons. }
  unfold comps. rewrite Forall_forall in H |- *. intros t [Hne Ht]%list_elem_of_filter. split; [done|]. by apply H.
Qed.

Lemma comps_render ts : Forall plain ts → comps (render ts) = ts.
Proof.
  intros H. unfold render. rewrite comps_slash. destruct H as [|t ts [Hne Hn] H]; [done|].
  revert t Hne Hn. induction H as [|u ts [Hne' Hn'] H IH]; intros t Hne Hn.
  - cbn [join]. unfold comps. destruct (raw_split_plain t [] Hn) as [_ ->]. by rewrite filter_cons, decide_True.
  - change (join (t :: u :: ts)) with (t ++ SLASH :: join (u :: ts)). rewrite comps_app, IH by done.
    unfold comps. destruct (raw_split_plain t [] Hn) as [_ ->]. by rewrite filter_cons, decide_True.
Qed.

Lemma norm_step_canonical ts c : canonical ts → plain c → canonical (norm_step ts c).
Proof.
  intros [Hf Hl] [Hne Hn]. unfold norm_step. repeat case_bool_decide; [done|..].
  - split; [by apply Forall_take|]. rewrite length_take. lia.
  - destruct (Nat.ltb_spec (length ts) 32); [|done]. split; [|rewrite length_app; cbn; lia].
    apply Forall_app. split; [done|]. constructor; [|constructor].
    split_and!; [|..|rewrite length_take; lia].
    + split; [by destruct c|]. intros Hin. apply Hn. by apply (subseteq_take 127 c).
    + intros E. destruct c as [|x [|y c]]; cbn in E; congruence.
    + intros E. destruct c as [|x [|y [|z c]]]; cbn in E; congruence.
Qed.

Lemma norm_canonical cs : Forall plain cs → canonical (norm cs).
Proof.
  intros Hcs. unfold norm. assert (H0 : canonical []) by (split; [constructor|cbn; lia]).
  revert H0. generalize (@nil (list Z)) as ts. induction Hcs as [|c cs Hc Hcs IH]; intros ts Hts; [done|].
  cbn. by apply IH, norm_step_canonical.
Qed.

(** Canonical components normalise to themselves. *)
Lemma norm_id ts : canonical ts → norm ts = ts.
Proof.
  intros [Hf Hl]. unfold norm.
  assert (H : ∀ pre, (length pre + length ts ≤ 32)%nat → fold_left norm_step ts pre = pre ++ ts).
  { clear Hl. induction Hf as [|t ts (_ & H1 & H2 & H3) Hf IH]; intros pre Hl; [by rewrite app_nil_r|].
    cbn [fold_left]. unfold norm_step at 2. rewrite !bool_decide_false by done. cbn [length] in Hl.
    rewrite (proj2 (Nat.ltb_lt _ _)) by lia. rewrite (take_ge t) by lia.
    rewrite IH by (rewrite length_app; cbn; lia). by rewrite <-app_assoc. }
  by rewrite (H []) by (cbn; lia).
Qed.

Lemma nonzero_render ts : Forall nonzero ts → nonzero (render ts).
Proof.
  intros H. constructor; [unfold SLASH; lia|]. induction H as [|t ts Ht H IH]; [constructor|].
  destruct ts as [|u ts]; [done|]. change (join (t :: u :: ts)) with (t ++ SLASH :: join (u :: ts)).
  apply nonzero_app; [done|]. constructor; [unfold SLASH; lia|done].
Qed.

Lemma comps_nonzero p : nonzero p → Forall nonzero (comps p).
Proof.
  intros Hp. assert (H : Forall nonzero (raw_split p)).
  { induction Hp as [|c p Hc Hp IH]; cbn; [repeat constructor|]. destruct (c =? SLASH); [by constructor; [constructor|]|].
    destruct IH as [|h t Hh Ht]; repeat constructor; try done; lia. }
  unfold comps. rewrite Forall_forall in H |- *. intros t [_ Ht]%list_elem_of_filter. by apply H.
Qed.

Lemma norm_nonzero cs : Forall nonzero cs → Forall nonzero (norm cs).
Proof.
  intros Hcs. unfold norm. assert (H0 : Forall nonzero (@nil (list Z))) by constructor.
  revert H0. generalize (@nil (list Z)) as ts. induction Hcs as [|c cs Hc Hcs IH]; intros ts Hts; [done|].
  cbn. apply IH. unfold norm_step. repeat case_bool_decide; [done|by apply Forall_take|].
  destruct (_ <? _)%nat; [|done]. apply Forall_app. split; [done|]. constructor; [by apply Forall_take|constructor].
Qed.
