(* ===== verification/FsSpec.v ===== *)
(** * The promises of the inode and directory layers

    The theorems about [kernel/fs.c] below the system-call interface, stated on
    runs of the operations, each with an instance on the sample filesystem. *)

From S2P Require Import Prelude CLib FsTypes Block Inode FsInv FsAlloc FsMap FsGrow FsFile FsWrite.
From S2P Require Import FsTrunc FsCache Sample Dir DirSpec FsRef Namei Path.

(** A run that cannot panic returns. *)
Lemma wp_returns {S A} (m : M S A) Q s : wp m Q (λ _, False) s → ∃ a s', m s = Ok a s' ∧ Q a s'.
Proof. intros [?|(? & _ & [])]%wp_iff. done. Qed.

(** ** Files *)

(** C1: [readi] returns exactly the bytes of the file contents that the range
    covers, or -1 on an unused inode, an offset past the end or a range that wraps
    around; it always returns, and changes nothing but the cached copy of the inode. *)
Theorem readi_refines s d A i n off m :
  fsys s d A → pinned s d i n → 0 ≤ off < 4294967296 → 0 ≤ m < 4294967296 →
  ∃ s', readi (Some i) off m s = Ok (read_spec (k_type (A n)) (content s d (A n)) off m) s' ∧
    locks s s' i ∧ fsys s' d A.
Proof.
  intros HF Hp Hoff Hm. destruct (wp_returns (readi (Some i) off m)
    (λ r s', r = read_spec (k_type (A n)) (content s d (A n)) off m ∧ locks s s' i ∧ fsys s' d A) s)
    as (r & s' & E & -> & ?); [|by exists s'].
  by eapply readi_wp.
Qed.

Lemma readi_refines_witness :
  ∃ s', readi (Some 0%nat) 1 3 sample = Ok (3, [101; 108; 108]) s' ∧
    locks sample s' 0 ∧ fsys s' 1 (on_disk sample 1).
Proof.
  exact (readi_refines sample 1 (on_disk sample 1) 0 2 1 3 sample_fsys1 sample_pinned
    ltac:(lia) ltac:(lia)).
Defined.

(** C2: [writei] replaces and extends the file contents by the bytes written and
    changes no other file; a write past the end or past the maximum size changes
    nothing and returns -1; the only other outcome is the panic of a full device. *)
Theorem writei_refines s d A i n off src :
  fsys s d A → pinned s d i n → 0 ≤ off < 4294967296 → bytes src →
  Z.of_nat (length src) < 4294967296 →
  let r := write_spec (content s d (A n)) off src in
  (∃ s' A', writei (Some i) src off (Z.of_nat (length src)) s = Ok (fst r) s' ∧
     fsys s' d A' ∧ content s' d (A' n) = snd r ∧
     (∀ m, inode_ok s d m → m ≠ n → content s' d (A' m) = content s d (A m)) ∧
     same_base s s' d) ∨
  (∃ s', writei (Some i) src off (Z.of_nat (length src)) s = Panic s' ∧ full s' d).
Proof.
  intros HF Hp Hoff Hb Hlen r.
  assert (H : wp (writei (Some i) src off (Z.of_nat (length src)))
    (λ z s', z = fst r ∧ ∃ A', written s s' d A A' i n (snd r)) (λ s', full s' d) s).
  { eapply writei_wp; [done..| |done]. intros s' A' r' HW. eauto. }
  destruct (proj1 (wp_iff _ _ _ _) H) as [(z & s' & E & -> & A' & O & HF' & _ & Ec)|?].
  - left. exists s', A'. split; [done|]. split; [done|]. split; [done|].
    split; [intros; by eapply only_content|apply O].
  - by right.
Qed.

Lemma writei_refines_witness :
  (∃ s' A', writei (Some 0%nat) [7; 8] 5 2 sample = Ok 2 s' ∧
     fsys s' 1 A' ∧ content s' 1 (A' 2) = c_hello ++ [7; 8] ∧
     (∀ m, inode_ok sample 1 m → m ≠ 2 → content s' 1 (A' m) = content sample 1 (on_disk sample 1 m)) ∧
     same_base sample s' 1) ∨
  (∃ s', writei (Some 0%nat) [7; 8] 5 2 sample = Panic s' ∧ full s' 1).
Proof.
  assert (bytes [7; 8]) by (repeat constructor; lia).
  exact (writei_refines sample 1 (on_disk sample 1) 0 2 5 [7; 8] sample_fsys1 sample_pinned
    ltac:(lia) ltac:(done) ltac:(cbn; lia)).
Defined.

(** C3: [itrunc] always returns; it cuts the contents to the new size, changes no
    other file, and every block the file no longer uses, data block or table
    block, is free in the bitmap afterwards. *)
Theorem itrunc_refines s d A i n new :
  fsys s d A → pinned s d i n → 0 ≤ new < 4294967296 →
  ∃ s' A', itrunc (Some i) new s = Ok tt s' ∧ fsys s' d A' ∧
    content s' d (A' n) = take (Z.to_nat new) (content s d (A n)) ∧
    (∀ m, inode_ok s d m → m ≠ n → content s' d (A' m) = content s d (A m)) ∧
    (∀ sl, slot_ok sl → pv s d (k_addrs (A n)) sl ≠ 0 →
       pv s' d (k_addrs (A' n)) sl = pv s d (k_addrs (A n)) sl ∨
       allocated s' d (pv s d (k_addrs (A n)) sl) = false).
Proof.
  intros HF Hp Hnew. destruct (wp_returns (itrunc (Some i) new)
    (λ _ s', ∃ A', truncated s s' d A A' i n new) s) as ([] & s' & E & A' & T).
  { eapply itrunc_wp; eauto. }
  exists s', A'. split; [done|]. split; [apply T|]. split; [apply T|].
  split; [intros; eapply only_content; try done; apply T|apply T].
Qed.

Lemma itrunc_refines_witness :
  ∃ s' A', itrunc (Some 0%nat) 2 sample = Ok tt s' ∧ fsys s' 1 A' ∧
    content s' 1 (A' 2) = [104; 101] ∧
    (∀ m, inode_ok sample 1 m → m ≠ 2 → content s' 1 (A' m) = content sample 1 (on_disk sample 1 m)) ∧
    (∀ sl, slot_ok sl → pv sample 1 (k_addrs (on_disk sample 1 2)) sl ≠ 0 →
       pv s' 1 (k_addrs (A' 2)) sl = pv sample 1 (k_addrs (on_disk sample 1 2)) sl ∨
       allocated s' 1 (pv sample 1 (k_addrs (on_disk sample 1 2)) sl) = false).
Proof.
  exact (itrunc_refines sample 1 (on_disk sample 1) 0 2 2 sample_fsys1 sample_pinned ltac:(lia)).
Defined.

(** A [readi] at the offset of a successful [writei] returns the bytes written. *)
Theorem write_read_roundtrip s d A i n off src s1 :
  fsys s d A → pinned s d i n → k_type (A n) ≠ FT_UNUSED → 0 ≤ off → bytes src →
  off ≤ Z.of_nat (length (content s d (A n))) →
  off + Z.of_nat (length src) ≤ MAXFILE * BSIZE →
  writei (Some i) src off (Z.of_nat (length src)) s = Ok (Z.of_nat (length src)) s1 →
  ∃ s2, readi (Some i) off (Z.of_nat (length src)) s1 = Ok (Z.of_nat (length src), src) s2.
Proof.
  intros HF Hp Hty Hoff Hb Hle Hmax E. consts.
  pose proof (writei_wp s d A i n src off (λ z s', ∃ A', written s s' d A A' i n
    (splice (content s d (A n)) (Z.to_nat off) src)) (λ _, True) HF Hp ltac:(lia) Hb ltac:(lia)) as H.
  unfold write_spec in H. rewrite !gtb_false in H by (consts; lia). cbn [orb fst snd] in H.
  specialize (H ltac:(intros s' A' HW; by exists A') ltac:(done)). unfold wp in H. rewrite E in H.
  destruct H as (A1 & O & HF1 & Hh & Ec).
  destruct (wp_returns (readi (Some i) off (Z.of_nat (length src)))
    (λ r s', r = read_spec (k_type (A1 n)) (content s1 d (A1 n)) off (Z.of_nat (length src))) s1)
    as (r & s2 & E2 & ->).
  { eapply readi_held_wp; done || lia. }
  exists s2. rewrite E2. f_equal. rewrite Ec. unfold read_spec.
  destruct (on_An _ _ _ _ _ _ _ O) as [-> _]. rewrite (proj2 (Z.eqb_neq _ _)) by done. cbn [orb].
  rewrite length_splice_any by lia. rewrite gtb_false, geb_false by lia. cbn [orb].
  rewrite Z.min_l by lia. f_equal. rewrite Nat2Z.id. unfold sub, splice.
  rewrite drop_app_ge by (rewrite length_take; lia). rewrite length_take.
  replace (Z.to_nat off - Z.to_nat off `min` length (content s d (A n)))%nat with 0%nat by lia.
  rewrite drop_0. apply take_app_length.
Qed.

Lemma write_read_roundtrip_witness :
  ∃ s2, readi (Some 0%nat) 3 3
    (state_of (writei (Some 0%nat) [9; 8; 7] 3 3 sample) sample) = Ok (3, [9; 8; 7]) s2.
Proof.
  refine (write_read_roundtrip sample 1 (on_disk sample 1) 0 2 3 [9; 8; 7] _ sample_fsys1 sample_pinned _ _ _ _ _ _).
  - vm_compute. discriminate.
  - lia.
  - repeat constructor; lia.
  - vm_compute. discriminate.
  - vm_compute. discriminate.
  - apply run_ok. vm_compute. reflexivity.
Defined.

(** ** Blocks and inodes *)

(** [balloc] hands out the first clear bit below [nblocks], a data block that
    no file uses, zero-filled and marked; it panics exactly when every bit is set. *)
Theorem balloc_refines s d A :
  wf s d A →
  (∃ b s', balloc d s = Ok b s' ∧ wf s' d A ∧ data_blk s d b ∧ b < nblocks (sbof s d) ∧
     allocated s d b = false ∧ (∀ b', 0 ≤ b' < b → allocated s d b' = true) ∧
     (∀ n sl, inode_ok s d n → slot_ok sl → pv s d (k_addrs (A n)) sl ≠ b) ∧
     allocated s' d b = true ∧ fblk s' d b = zeros 1024 ∧
     (∀ b', b' ≠ b → b' ≠ bmapstart (sbof s d) → fblk s' d b' = fblk s d b')) ∨
  (balloc d s = Panic s ∧ full s d).
Proof.
  intros W.
  assert (H : wp (balloc d) (λ b s', balloc_post s d b s') (λ s', s' = s ∧ full s d) s) by by eapply balloc_wp.
  destruct (proj1 (wp_iff _ _ _ _) H) as [(b & s' & E & P)|(s' & E & -> & Hf)].
  - left. exists b, s'. destruct (balloc_fresh _ _ _ _ _ W P) as (Hb & _ & Ha & _ & _).
    split; [done|]. split; [by eapply balloc_wf|]. repeat (split; [apply P|]). split; [|by split_and!; [|apply P..]].
    intros n sl Hn Hsl Epv. destruct (wf_ptr _ _ _ W n sl Hn Hsl) as [_ Hal]; [lia|].
    rewrite Epv, (ba_free _ _ _ _ P) in Hal. done.
  - by right.
Qed.

Lemma balloc_refines_witness :
  (∃ b s', balloc 1 sample = Ok b s' ∧ wf s' 1 (on_disk sample 1) ∧ data_blk sample 1 b ∧ b < 64 ∧
     allocated sample 1 b = false ∧ (∀ b', 0 ≤ b' < b → allocated sample 1 b' = true) ∧
     (∀ n sl, inode_ok sample 1 n → slot_ok sl → pv sample 1 (k_addrs (on_disk sample 1 n)) sl ≠ b) ∧
     allocated s' 1 b = true ∧ fblk s' 1 b = zeros 1024 ∧
     (∀ b', b' ≠ b → b' ≠ bmapstart (sbof sample 1) → fblk s' 1 b' = fblk sample 1 b')) ∨
  (balloc 1 sample = Panic sample ∧ full sample 1).
Proof.
  exact (balloc_refines sample 1 (on_disk sample 1) (small_wf sample 1 sample_small1)).
Defined.

(** Freeing the block just allocated restores the bitmap; freeing it again panics. *)
Theorem balloc_bfree_roundtrip s d A b s1 :
  wf s d A → balloc d s = Ok b s1 →
  ∃ s2, bfree d b s1 = Ok tt s2 ∧ (∀ b', 0 ≤ b' < 8192 → allocated s2 d b' = allocated s d b') ∧
    bfree d b s2 = Panic s2.
Proof.
  intros W E. pose proof (balloc_wp s d A (λ b s', balloc_post s d b s') (λ _, True) W ltac:(done) ltac:(done)) as H.
  unfold wp in H. rewrite E in H. pose proof (balloc_wf _ _ _ _ _ W H) as W1.
  destruct (balloc_fresh _ _ _ _ _ W H) as (Hb & _ & Ha & _).
  destruct (wp_returns (bfree d b) (λ _ s2, bfree_post s1 d b s2) s1) as ([] & s2 & E2 & P).
  { eapply bfree_wp; [by eapply wf_bm_ok|lia|done|done]. }
  exists s2. split; [done|].
  assert (Hbits : ∀ b', 0 ≤ b' < 8192 → allocated s2 d b' = allocated s d b').
  { intros b' Hb'. rewrite (bf_bits _ _ _ _ P), (ba_bits _ _ _ _ H) by done.
    case_decide; [subst; by rewrite (ba_free _ _ _ _ H)|done]. }
  split; [done|]. pose proof (bm_ok_base _ _ _ (wf_bm_ok _ _ _ W1) (bf_base _ _ _ _ P)) as B2.
  unfold bfree, mbind, M_bind, gets. rewrite (bm_sb_lookup _ _ B2). cbn.
  rewrite read_block_eq by (apply B2 || by apply bm_fits). fold (bitmap s2 d). rewrite (bitmap_lookup _ _ B2) by lia. cbn.
  pose proof (Z.mod_pos_bound b 8). rewrite bit_clear_testbit by lia. fold (allocated s2 d b).
  rewrite Hbits by lia. by rewrite (ba_free _ _ _ _ H).
Qed.

Lemma balloc_bfree_roundtrip_witness :
  ∃ s2, bfree 1 6 (state_of (balloc 1 sample) sample) = Ok tt s2 ∧
    (∀ b', 0 ≤ b' < 8192 → allocated s2 1 b' = allocated sample 1 b') ∧ bfree 1 6 s2 = Panic s2.
Proof.
  refine (balloc_bfree_roundtrip sample 1 (on_disk sample 1) 6 _ (small_wf sample 1 sample_small1) _).
  apply run_ok. vm_compute. reflexivity.
Defined.

(** When an unused inode lies in the inode area, [ialloc] takes the first one,
    as an empty file of the requested type with one reference, and leaves every
    other file as it was; the only other outcome is the panic of a full inode cache. *)
Theorem ialloc_refines s d A ty n :
  fsys s d A → 0 < ty < 65536 → first_free s d A n →
  (∃ i s' A', ialloc d ty s = Ok (Some i) s' ∧ fsys s' d A' ∧ pinned s' d i n ∧
     k_type (A' n) = ty ∧ content s' d (A' n) = [] ∧
     (∀ m, inode_ok s d m → m ≠ n → A' m = A m ∧ content s' d (A' m) = content s d (A m))) ∨
  (∃ s', ialloc d ty s = Panic s' ∧ cache_full s').
Proof.
  intros HF Hty Hfree.
  assert (H : wp (ialloc d ty) (λ p s', ∃ i, p = Some i ∧ born s s' d A i n ty) cache_full s).
  { eapply ialloc_wp; [done|lia|done| |done]. intros i s' B. eauto. }
  destruct (proj1 (wp_iff _ _ _ _) H) as [(p & s' & E & i & -> & B)|(s' & E & Hf)].
  - left. exists i, s', (upd A n (fresh_key ty)). split; [done|]. split; [apply B|].
    split; [apply held_pinned, B|]. rewrite upd_eq. split; [done|]. split; [done|].
    intros m Hm Hne. rewrite upd_ne by done. split; [done|]. by apply B.
  - right. eauto.
Qed.

Lemma sample_first_free : first_free sample 1 (on_disk sample 1) 3.
Proof.
  split; [split; [lia|by vm_compute]|]. split; [by vm_compute|]. intros m Hm.
  assert (m = 1 ∨ m = 2) as [-> | ->] by lia; vm_compute; discriminate.
Qed.

Lemma ialloc_refines_witness :
  (∃ i s' A', ialloc 1 FT_FILE sample = Ok (Some i) s' ∧ fsys s' 1 A' ∧ pinned s' 1 i 3 ∧
     k_type (A' 3) = FT_FILE ∧ content s' 1 (A' 3) = [] ∧
     (∀ m, inode_ok sample 1 m → m ≠ 3 →
        A' m = on_disk sample 1 m ∧ content s' 1 (A' m) = content sample 1 (on_disk sample 1 m))) ∨
  (∃ s', ialloc 1 FT_FILE sample = Panic s' ∧ cache_full s').
Proof.
  exact (ialloc_refines sample 1 (on_disk sample 1) FT_FILE 3 sample_fsys1 ltac:(unfold FT_FILE; lia) sample_first_free).
Defined.

(** ** Directories *)

Definition dirs_fine (s : fs) (d : Z) : Prop :=
  Forall (λ n, k_type (on_disk s d n) = FT_DIRECTORY →
    dir_sized (content s d (on_disk s d n)) ∧
    Forall (λ de, de_inum de ≠ 0 → inode_ok s d (de_inum de)) (dirents (content s d (on_disk s d n))))
    (inode_list s d).

#[export] Instance inode_ok_dec s d n : Decision (inode_ok s d n).
Proof. unfold inode_ok. apply _. Defined.
#[export] Instance dirs_fine_dec s d : Decision (dirs_fine s d).
Proof. unfold dirs_fine, dir_sized. apply _. Defined.

Definition mounts_fine (s : fs) : Prop :=
  Forall (λ m, dev_valid (parent_dev m) ∧ inode_ok s (parent_dev m) (parent_inum m) ∧ dev_valid (child_dev m))
    (take (Z.to_nat (num_mounts s)) (mounts s)).
#[export] Instance mounts_fine_dec s : Decision (mounts_fine s).
Proof. unfold mounts_fine, dev_valid. apply _. Defined.

(** A decidable sufficient condition for the directory tree. *)
Definition small_tree (s : fs) : Prop :=
  small s 0 ∧ small s 1 ∧ dirs_fine s 0 ∧ dirs_fine s 1 ∧ mounts_fine s ∧ inode_ok s 0 1 ∧ inode_ok s 1 1.
#[export] Instance small_tree_dec s : Decision (small_tree s).
Proof. unfold small_tree. apply _. Defined.

Lemma small_tree_tree s : small_tree s → tree s (on_disk s).
Proof.
  intros (S0 & S1 & D0 & D1 & Hm & R0 & R1).
  assert (Hd : ∀ d, dev_valid d → d = 0 ∨ d = 1) by (unfold dev_valid; intros; lia). constructor.
  - intros d [-> | ->]%Hd; by apply small_fsys.
  - intros d n Hv Hn Ht. assert (Hf : dirs_fine s d) by (by destruct (Hd d Hv) as [-> | ->]).
    unfold dirs_fine in Hf. rewrite Forall_forall in Hf.
    destruct (Hf n (proj2 (in_inode_list _ _ _) Hn) Ht) as [Hs He]. split; [done|].
    rewrite Forall_forall in He. done.
  - intros m Hin. unfold mounts_fine in Hm. rewrite Forall_forall in Hm. by apply Hm.
  - by intros d [-> | ->]%Hd.
Qed.

Lemma sample_tree : tree sample (on_disk sample).
Proof. apply small_tree_tree, (bool_decide_unpack _). vm_compute. done. Qed.

(** C4: after [dirlink] has linked a name of at most 29 characters, [dirlookup]
    finds the linked inode under it; every other name is found as before. *)
Theorem dirlink_dirlookup s d A i n t m s1 :
  fsys s d A → held s d i n → k_type (A n) = FT_DIRECTORY → dir_sized (content s d (A n)) →
  nonzero t → (length t ≤ 29)%nat → 0 < m < 65536 →
  dirlink (Some i) (t ++ [0]) m s = Ok 0 s1 →
  ∃ A1, fsys s1 d A1 ∧ held s1 d i n ∧
    (∀ t', nonzero t' → (length t' ≤ 29)%nat → t' ≠ t →
       dir_find (dirents (content s1 d (A1 n))) (t' ++ [0]) =
       dir_find (dirents (content s d (A n))) (t' ++ [0])) ∧
    ((∃ j off s2, dirlookup (Some i) (t ++ [0]) s1 = Ok (Some (j, off)) s2 ∧ got s1 s2 j d m) ∨
     (dirlookup (Some i) (t ++ [0]) s1 = Panic s1 ∧ cache_full s1)).
Proof.
  intros HF Hh Hty Hc Ht Hl Hm E. set (c := content s d (A n)) in *. set (k := free_slot (dirents c)).
  assert (Hu : u16 m = m) by (by apply Z.mod_small; lia).
  assert (H : wp (dirlink (Some i) (t ++ [0]) m) (λ r s', r = 0 →
    dir_find (dirents c) (t ++ [0]) = None ∧
    ∃ A', written s s' d A A' i n (dir_slot c k (encode_dirent (new_entry t m)))) (λ _, True) s).
  { eapply (dirlink_wp s d A i n); [done..| | |done].
    - intros s' _ _ _ _ ?. done.
    - intros s' A' Hnone HW. fold c k in HW |- *. destruct (_ >? _); [done|]. eauto. }
  unfold wp in H. rewrite E in H. destruct (H eq_refl) as (Hnone & A1 & O & HF1 & Hh1 & Ec).
  exists A1. split; [done|]. split; [done|]. rewrite Ec. split.
  { intros t' Ht' Hl' Hne. by apply (dir_find_others c t m Hc Ht Hl ltac:(rewrite Hu; lia) t' []). }
  destruct (linked_dirents c t m Hc Ht) as [Hs1 _].
  assert (Hf := dir_find_linked c t m Hc Ht Hl ltac:(rewrite Hu; lia) [] Hnone).
  assert (Hty1 : k_type (A1 n) = FT_DIRECTORY) by (by destruct (on_An _ _ _ _ _ _ _ O) as [-> _]).
  assert (H1 : wp (dirlookup (Some i) (t ++ [0]))
    (λ r s', ∃ j off, r = Some (j, off) ∧ got s1 s' j d m) (λ s', s' = s1 ∧ cache_full s1) s1).
  { eapply (dirlookup_wp s1 d A1 i n); [done|done|done|by rewrite Ec|by exists t, []| | |done];
      rewrite Ec; unfold k; rewrite Hf; [done|].
    intros k' de j s' [= <- <-] G. cbn [new_entry de_inum] in G. rewrite Hu in G. eauto. }
  destruct (proj1 (wp_iff _ _ _ _) H1) as [(r & s2 & E2 & j & off & -> & G)|(s2 & E2 & -> & Hfull)].
  - left. eauto.
  - by right.
Qed.

(** The sample with the root directory of device 1 loaded. *)
Definition sample_dir : fs :=
  state_of (ilock (Some 1%nat) (state_of (iget 1 1 sample) sample)) sample.

Lemma sample_dir_ok : fsys sample_dir 1 (on_disk sample 1) ∧ held sample_dir 1 1 1.
Proof.
  pose proof (tree_cache _ _ sample_tree) as HC.
  assert (H : wp (p ← iget 1 1; ilock p;; mret p) (λ p s', p = Some 1%nat →
    fsys s' 1 (on_disk sample 1) ∧ held s' 1 1 1) (λ _, True) sample).
  { wp_step. apply iget_wp; [|done]. intros i s1 G. wp_step.
    eapply ilock_visit; [by eapply got_fsys, sample_fsys1|eapply got_pinned; [done|done|by apply (te_root _ _ sample_tree)]|].
    intros s2 V Hh. apply wp_ret. intros [= ->]. split; [|done].
    eapply walk_fsys; [by apply vs_walk|]. by eapply got_fsys, sample_fsys1. }
  assert (E : (p ← iget 1 1; ilock p;; mret p) sample = Ok (Some 1%nat) sample_dir).
  { unfold sample_dir, mbind, M_bind. rewrite (run_ok (iget 1 1 sample) sample (Some 1%nat)) by by vm_compute.
    rewrite (run_ok (ilock _ _) sample tt) at 1 by by vm_compute. done. }
  unfold wp in H. rewrite E in H. by apply H.
Qed.

Lemma dirlink_dirlookup_witness :
  ∃ A1, let s1 := state_of (dirlink (Some 1%nat) [103; 0] 2 sample_dir) sample in
    fsys s1 1 A1 ∧ held s1 1 1 1 ∧
    (∀ t', nonzero t' → (length t' ≤ 29)%nat → t' ≠ [103] →
       dir_find (dirents (content s1 1 (A1 1))) (t' ++ [0]) =
       dir_find (dirents (content sample_dir 1 (on_disk sample 1 1))) (t' ++ [0])) ∧
    ((∃ j off s2, dirlookup (Some 1%nat) [103; 0] s1 = Ok (Some (j, off)) s2 ∧ got s1 s2 j 1 2) ∨
     (dirlookup (Some 1%nat) [103; 0] s1 = Panic s1 ∧ cache_full s1)).
Proof.
  refine (dirlink_dirlookup sample_dir 1 (on_disk sample 1) 1 1 [103] 2 _
    (proj1 sample_dir_ok) (proj2 sample_dir_ok) _ _ _ _ _ _).
  - vm_compute. reflexivity.
  - vm_compute. reflexivity.
  - repeat constructor; lia.
  - cbn. lia.
  - lia.
  - apply run_ok. vm_compute. reflexivity.
Defined.

(** C5: [namei] returns the inode that the abstract resolution of the path names
    (mount points crossed in both directions, components cut at 29 characters) with
    exactly one new reference, or NULL with no reference left behind; nothing but
    the inode cache changes, and the only other outcome is a full cache. *)
Theorem namei_refines s A cwd x p r :
  tree s A → nonzero p → cwd_at s cwd x →
  (∃ q s', namei cwd (p ++ 0 :: r) s = Ok q s' ∧ tree s' A ∧ devs s' = devs s ∧
     match resolve s A false (start x p) (comps p), q with
     | Some y, Some i => pinned s' (fst y) i (snd y) ∧
         ∀ d n, refs s' d n = refs s d n + (if decide (d = fst y ∧ n = snd y) then 1 else 0)
     | None, None => ∀ d n, refs s' d n = refs s d n
     | _, _ => False
     end) ∨
  (∃ s', namei cwd (p ++ 0 :: r) s = Panic s' ∧ cache_full s').
Proof.
  intros T Hp Hc.
  assert (H : wp (namei cwd (p ++ 0 :: r)) (λ q s', arrives s (resolve s A false (start x p) (comps p)) q s')
    (λ s', cache_full s') s) by by eapply namei_wp.
  destruct (proj1 (wp_iff _ _ _ _) H) as [(q & s' & E & Ha)|?]; [left|by right].
  exists q, s'. split; [done|]. unfold arrives in Ha. destruct (resolve _ _ _ _ _) as [y|], q as [i|]; try done.
  - destruct Ha as [V Hpin]. pose proof (vs_walk _ _ _ V) as Wk. split; [by eapply walk_tree|].
    split; [apply (walk_devs _ _ _ Wk)|]. split; [done|]. apply (wk_refs _ _ _ Wk).
  - pose proof (vs_walk _ _ _ Ha) as Wk. split; [by eapply walk_tree|].
    split; [apply (walk_devs _ _ _ Wk)|]. intros d n. rewrite (wk_refs _ _ _ Wk). unfold zero. lia.
Qed.

(** The path "/home/f". *)
Definition path_home_f : list Z := [47; 104; 111; 109; 101; 47; 102].

Lemma namei_refines_witness :
  resolve sample (on_disk sample) false (start None path_home_f) (comps path_home_f) = Some (1, 2) ∧
  ((∃ q s', namei None (path_home_f ++ [0]) sample = Ok q s' ∧ tree s' (on_disk sample) ∧ devs s' = devs sample ∧
     match resolve sample (on_disk sample) false (start None path_home_f) (comps path_home_f), q with
     | Some y, Some i => pinned s' (fst y) i (snd y) ∧
         ∀ d n, refs s' d n = refs sample d n + (if decide (d = fst y ∧ n = snd y) then 1 else 0)
     | None, None => ∀ d n, refs s' d n = refs sample d n
     | _, _ => False
     end) ∨
   (∃ s', namei None (path_home_f ++ [0]) sample = Panic s' ∧ cache_full s')).
Proof.
  split; [vm_compute; reflexivity|].
  refine (namei_refines sample (on_disk sample) None None path_home_f [] sample_tree _ I).
  repeat constructor; lia.
Defined.

(** ** Paths *)

(** C6: [fs_normalize_path] stores the absolute path whose components are those of
    the base and the relative path with "." dropped and ".." resolved; the stored
    string is terminated inside [dst], cut to its size. *)
Theorem normalize_path_correct base brest rel rrest dst :
  nonzero base → nonzero rel → (length base < 255 ∨ head rel = Some SLASH)%nat → (2 ≤ length dst)%nat →
  ∃ rest, fs_normalize_path (base ++ 0 :: brest) (rel ++ 0 :: rrest) dst =
    Some (take (length dst - 1) (render (norm (comps (take 255 (full_path base rel))))) ++ 0 :: rest) ∧
    Forall (λ c, c ≠ [] ∧ (SLASH ∉ c) ∧ c ≠ [DOT] ∧ c ≠ [DOT; DOT])
      (norm (comps (take 255 (full_path base rel)))).
Proof.
  intros Hb Hr Hl HD. destruct (normalize_path_spec base brest rel rrest dst Hb Hr Hl HD) as [rest E].
  exists rest. split; [done|]. eapply Forall_impl; [apply norm_canonical, comps_plain|].
  intros c ([? ?] & ? & ? & _). done.
Qed.

(** "/home" and "../bin/./ls". *)
Lemma normalize_path_correct_witness :
  ∃ rest, fs_normalize_path ([47; 104; 111; 109; 101] ++ [0])
      ([46; 46; 47; 98; 105; 110; 47; 46; 47; 108; 115] ++ [0]) (zeros 16) =
    Some ([47; 98; 105; 110; 47; 108; 115] ++ 0 :: rest) ∧
    Forall (λ c, c ≠ [] ∧ (SLASH ∉ c) ∧ c ≠ [DOT] ∧ c ≠ [DOT; DOT]) [[98; 105; 110]; [108; 115]].
Proof.
  refine (normalize_path_correct [47; 104; 111; 109; 101] [] [46; 46; 47; 98; 105; 110; 47; 46; 47; 108; 115] []
    (zeros 16) _ _ _ _).
  - repeat constructor; lia.
  - repeat constructor; lia.
  - left. cbn. lia.
  - cbn. lia.
Defined.

(** Normalising is idempotent: a path that it produced and that fitted the
    buffers is returned unchanged, whatever the base. *)
Theorem normalize_path_idempotent base brest rel rrest dst base2 brest2 rest2 dst2 :
  nonzero base → nonzero rel → (length base < 255 ∨ head rel = Some SLASH)%nat → (2 ≤ length dst)%nat →
  nonzero base2 → (2 ≤ length dst2)%nat →
  let out := render (norm (comps (take 255 (full_path base rel)))) in
  (length out ≤ 255)%nat → (length out < length dst)%nat → (length out < length dst2)%nat →
  ∃ rest rest', fs_normalize_path (base ++ 0 :: brest) (rel ++ 0 :: rrest) dst = Some (out ++ 0 :: rest) ∧
    fs_normalize_path (base2 ++ 0 :: brest2) (out ++ 0 :: rest2) dst2 = Some (out ++ 0 :: rest').
Proof.
  intros Hb Hr Hl HD Hb2 HD2 out H255 Hfit Hfit2.
  destruct (normalize_path_spec base brest rel rrest dst Hb Hr Hl HD) as [rest E].
  assert (Hq : nonzero (take 255 (full_path base rel))).
  { apply Forall_take. unfold full_path. repeat case_bool_decide; [done|by apply nonzero_app|].
    apply nonzero_app; [done|]. constructor; [unfold SLASH; lia|done]. }
  assert (Hout : nonzero out) by (by apply nonzero_render, norm_nonzero, comps_nonzero).
  destruct (normalize_path_spec base2 brest2 out rest2 dst2 Hb2 Hout) as [rest' E']; [by right|done|].
  exists rest, rest'. fold out in E. rewrite (take_ge out) in E by lia. split; [done|]. rewrite E'.
  assert (Hcan := norm_canonical _ (comps_plain (take 255 (full_path base rel)))).
  unfold full_path at 1. rewrite bool_decide_true by done. rewrite (take_ge out) by lia.
  unfold out at 1. rewrite comps_render.
  - rewrite norm_id by done. fold out. by rewrite take_ge by lia.
  - eapply Forall_impl; [apply Hcan|]. by intros c [? _].
Qed.

Lemma normalize_path_idempotent_witness :
  ∃ rest rest', fs_normalize_path ([47; 97] ++ [0]) ([46; 47; 98] ++ [0]) (zeros 8) = Some ([47; 97; 47; 98] ++ 0 :: rest) ∧
    fs_normalize_path ([47] ++ [0]) ([47; 97; 47; 98] ++ [0]) (zeros 6) = Some ([47; 97; 47; 98] ++ 0 :: rest').
Proof.
  refine (normalize_path_idempotent [47; 97] [] [46; 47; 98] [] (zeros 8) [47] [] [] (zeros 6) _ _ _ _ _ _ _ _ _).
  1-2: repeat constructor; lia.
  1: left; cbn; lia.
  1: cbn; lia.
  1: repeat constructor; lia.
  all: vm_compute; lia.
Defined.
