(* ===== verification/KState.v ===== *)
(** * The state of the kernel

    [struct File] of kernel/file.h, [struct Process] of kernel/process.h, and the
    statics of file.c, process.c and page.c, together with the filesystem of
    fs.c, physical memory and the console. A [struct File *] is an index into
    [file_table], a [struct Process *] an index into [procs]; NULL is [None].

    The kernel's message log ([kmesg_buf]) is not part of this state: the
    diagnostic [kprintf] lines of the code have no other effect and are left out
    of the definitions. *)

From S2P Require Import Prelude CLib FsTypes Block Inode.

(** ** Open files *)

Definition NUM_FILES_PER_PROCESS : nat := 16.
Definition GLOBAL_OPEN_FILE_LIMIT : nat := 64.

Inductive FileDescType := FD_NONE | FD_INODE | FD_CONSOLE.

Record File := mkFile {
  f_ref : Z;
  f_type : FileDescType;
  f_readable : bool;
  f_writable : bool;
  f_ip : ptr;
  f_off : Z
}.

Definition file_zero : File := mkFile 0 FD_NONE false false None 0.

Definition set_f_ref (r : Z) (f : File) : File :=
  mkFile r (f_type f) (f_readable f) (f_writable f) (f_ip f) (f_off f).
Definition set_f_ip (p : ptr) (f : File) : File :=
  mkFile (f_ref f) (f_type f) (f_readable f) (f_writable f) p (f_off f).
Definition set_f_off (o : Z) (f : File) : File :=
  mkFile (f_ref f) (f_type f) (f_readable f) (f_writable f) (f_ip f) o.
Definition set_f_type (t : FileDescType) (f : File) : File :=
  mkFile (f_ref f) t (f_readable f) (f_writable f) (f_ip f) (f_off f).

(** ** Processes *)

Definition PROCS_MAX : nat := 8.

Inductive ProcState := PROCSTATE_UNUSED | PROCSTATE_RUNNABLE | PROCSTATE_EXITED.
#[export] Instance ProcState_eq_dec : EqDecision ProcState.
Proof. solve_decision. Defined.

(** [frame] stands for [sp] and the stack: the thirteen words (ra, s0..s11) that
    [switch_context] pops when the process runs for the first time. *)
Record Process := mkProcess {
  pid : Z;
  p_state : ProcState;
  exit_code : Z;
  frame : list Z;
  page_table : Z;
  cwd : ptr;
  heap_start : Z;
  heap_end : Z;
  ofile : list (option nat);
  p_name : list Z;
  cwd_path : list Z
}.

Definition process_zero : Process :=
  mkProcess 0 PROCSTATE_UNUSED 0 (zeros 13) 0 None 0 0
    (replicate NUM_FILES_PER_PROCESS None) (zeros 16) (zeros 256).

Definition set_ofile (l : list (option nat)) (p : Process) : Process :=
  mkProcess (pid p) (p_state p) (exit_code p) (frame p) (page_table p) (cwd p)
    (heap_start p) (heap_end p) l (p_name p) (cwd_path p).
Definition set_cwd (c : ptr) (path : list Z) (p : Process) : Process :=
  mkProcess (pid p) (p_state p) (exit_code p) (frame p) (page_table p) c
    (heap_start p) (heap_end p) (ofile p) (p_name p) path.
Definition set_p_state (st : ProcState) (p : Process) : Process :=
  mkProcess (pid p) st (exit_code p) (frame p) (page_table p) (cwd p)
    (heap_start p) (heap_end p) (ofile p) (p_name p) (cwd_path p).
Definition set_exit_code (x : Z) (p : Process) : Process :=
  mkProcess (pid p) (p_state p) x (frame p) (page_table p) (cwd p)
    (heap_start p) (heap_end p) (ofile p) (p_name p) (cwd_path p).
Definition set_heap_end (x : Z) (p : Process) : Process :=
  mkProcess (pid p) (p_state p) (exit_code p) (frame p) (page_table p) (cwd p)
    (heap_start p) x (ofile p) (p_name p) (cwd_path p).
Definition set_page_table (x : Z) (p : Process) : Process :=
  mkProcess (pid p) (p_state p) (exit_code p) (frame p) x (cwd p)
    (heap_start p) (heap_end p) (ofile p) (p_name p) (cwd_path p).
Definition set_pid (x : Z) (p : Process) : Process :=
  mkProcess x (p_state p) (exit_code p) (frame p) (page_table p) (cwd p)
    (heap_start p) (heap_end p) (ofile p) (p_name p) (cwd_path p).

(** ** Memory

    Physical RAM by page number, 4096 bytes each; a page that was never written
    holds zeros. [page_allocated] is the array of page.c, [satp] the register, and
    [free_ram] the address the linker gave to [__free_ram]. *)
Record memory := Memory {
  ram : gmap Z (list Z);
  page_allocated : list Z;
  satp : Z;
  free_ram : Z
}.

Definition set_ram (f : gmap Z (list Z) → gmap Z (list Z)) (m : memory) : memory :=
  Memory (f (ram m)) (page_allocated m) (satp m) (free_ram m).
Definition set_page_allocated (f : list Z → list Z) (m : memory) : memory :=
  Memory (ram m) (f (page_allocated m)) (satp m) (free_ram m).
Definition set_satp (x : Z) (m : memory) : memory := Memory (ram m) (page_allocated m) x (free_ram m).

(** ** The console

    What the firmware's [putchar] printed, and what its [getchar] is going to
    answer: characters, -1 where none has arrived. *)
Record console := Console { con_out : list Z; con_in : list Z }.

(** ** The kernel *)

Record kernel := Kernel {
  kfs : fs;
  file_table : list File;
  procs : list Process;
  current_proc : option nat;
  idle_proc : option nat;
  kmem : memory;
  kcon : console
}.

Definition set_kfs (s : fs) (k : kernel) : kernel :=
  Kernel s (file_table k) (procs k) (current_proc k) (idle_proc k) (kmem k) (kcon k).
Definition set_file_table (f : list File → list File) (k : kernel) : kernel :=
  Kernel (kfs k) (f (file_table k)) (procs k) (current_proc k) (idle_proc k) (kmem k) (kcon k).
Definition set_procs (f : list Process → list Process) (k : kernel) : kernel :=
  Kernel (kfs k) (file_table k) (f (procs k)) (current_proc k) (idle_proc k) (kmem k) (kcon k).
Definition set_current (c : option nat) (k : kernel) : kernel :=
  Kernel (kfs k) (file_table k) (procs k) c (idle_proc k) (kmem k) (kcon k).
Definition set_idle (c : option nat) (k : kernel) : kernel :=
  Kernel (kfs k) (file_table k) (procs k) (current_proc k) c (kmem k) (kcon k).
Definition set_kmem (m : memory) (k : kernel) : kernel :=
  Kernel (kfs k) (file_table k) (procs k) (current_proc k) (idle_proc k) m (kcon k).
Definition set_kcon (c : console) (k : kernel) : kernel :=
  Kernel (kfs k) (file_table k) (procs k) (current_proc k) (idle_proc k) (kmem k) c.

(** Code of the other components inside the kernel. *)
Definition in_fs {A} (m : M fs A) : M kernel A := zoom kfs set_kfs m.
Definition in_mem {A} (m : M memory A) : M kernel A := zoom kmem set_kmem m.
Definition in_con {A} (m : M console A) : M kernel A := zoom kcon set_kcon m.

Lemma wp_in_fs {A} (m : M fs A) (Q : A → kernel → Prop) R k :
  wp m (λ a s, Q a (set_kfs s k)) (λ s, R (set_kfs s k)) (kfs k) → wp (in_fs m) Q R k.
Proof. apply wp_zoom. Qed.

Lemma wp_in_mem {A} (m : M memory A) (Q : A → kernel → Prop) R k :
  wp m (λ a s, Q a (set_kmem s k)) (λ s, R (set_kmem s k)) (kmem k) → wp (in_mem m) Q R k.
Proof. apply wp_zoom. Qed.

(** ** Access to the tables *)

Definition file (f : nat) : M kernel File := t ← gets file_table; expect (t !! f).
Definition upd_file (f : nat) (g : File → File) : M kernel unit := modify (set_file_table (alter g f)).
Definition proc (p : nat) : M kernel Process := t ← gets procs; expect (t !! p).
Definition upd_proc (p : nat) (g : Process → Process) : M kernel unit := modify (set_procs (alter g p)).

(** [get_current_process], and the fields of the process it points at. *)
Definition get_current_process : M kernel (option nat) := gets current_proc.
Definition current : M kernel nat := c ← get_current_process; expect c.

(** ** Console operations of kernel.c *)

Definition putchar (ch : Z) : M console unit :=
  modify (λ c, Console (con_out c ++ [u8 ch]) (con_in c)).

Definition getchar : M console Z := λ c,
  match con_in c with
  | [] => Ok (-1) c
  | ch :: rest => Ok ch (Console (con_out c) rest)
  end.
