(* ===== verification/Page.v ===== *)
(** * Physical memory and page tables: definitions

    kernel/page.c. Physical RAM reaches from the kernel image to
    [__free_ram_end]; a word is read or written at a 4-aligned address inside it,
    and any other access is a fault. Page tables are the code's: two levels of
    1024 words, entry = page number << 10 | flags. *)

From S2P Require Import Prelude CLib FsTypes KState.

Definition PAGE_SIZE : Z := 4096.
Definition NUM_PAGES : Z := 16384.
Definition PAGE_V : Z := 1.
Definition PAGE_R : Z := 2.
Definition PAGE_W : Z := 4.
Definition PAGE_X : Z := 8.
Definition PAGE_U : Z := 16.
Definition SATP_SV32 : Z := 2147483648.
(** [__kernel_base] of kernel.ld. *)
Definition KERNEL_BASE : Z := 2149580800.

Definition PAGE_TABLE_TO_INDEX (table : Z) : Z := u32 table / PAGE_SIZE.
Definition is_aligned (v align : Z) : bool := v mod align =? 0.
Definition align_up (v align : Z) : Z := u32 (v + align - 1) / align * align.

(** ** Access to RAM *)

Definition free_ram_end (m : memory) : Z := free_ram m + NUM_PAGES * PAGE_SIZE.
Definition accessible (m : memory) (a n : Z) : bool := (KERNEL_BASE <=? a) && (a + n <=? free_ram_end m).

Definition page_bytes (m : memory) (pn : Z) : list Z := default (zeros 4096) (ram m !! pn).
Definition word (m : memory) (a : Z) : Z := word_at (page_bytes m (a / PAGE_SIZE)) (a mod PAGE_SIZE / 4).
Definition byte_at (m : memory) (a : Z) : Z :=
  default 0 (page_bytes m (a / PAGE_SIZE) !! Z.to_nat (a mod PAGE_SIZE)).
Definition put_word (a v : Z) : memory → memory :=
  set_ram (λ r, <[a / PAGE_SIZE := set_word (default (zeros 4096) (r !! (a / PAGE_SIZE))) (a mod PAGE_SIZE / 4) v]> r).
Definition put_bytes (a : Z) (l : list Z) : memory → memory :=
  set_ram (λ r, <[a / PAGE_SIZE := splice (default (zeros 4096) (r !! (a / PAGE_SIZE))) (Z.to_nat (a mod PAGE_SIZE)) l]> r).

Definition load32 (a : Z) : M memory Z :=
  m ← get; if accessible m a 4 && (a mod 4 =? 0) then mret (word m a) else fault.
Definition store32 (a v : Z) : M memory unit :=
  m ← get; if accessible m a 4 && (a mod 4 =? 0) then modify (put_word a v) else fault.

(** Bytes that lie inside one page. *)
Definition load_in_page (a n : Z) : M memory (list Z) :=
  m ← get;
  if accessible m a n then mret (sub (page_bytes m (a / PAGE_SIZE)) (Z.to_nat (a mod PAGE_SIZE)) (Z.to_nat n))
  else fault.
Definition store_in_page (a : Z) (l : list Z) : M memory unit :=
  m ← get; if accessible m a (Z.of_nat (length l)) then modify (put_bytes a l) else fault.

(** Split the range of [l] at [a] at page boundaries and run [f] on each part. *)
Fixpoint for_pages (fuel : nat) (f : Z → list Z → M memory unit) (a : Z) (l : list Z) : M memory unit :=
  match fuel, l with
  | _, [] => mret tt
  | O, _ => hang
  | S fuel, _ =>
      let n := Z.to_nat (PAGE_SIZE - a mod PAGE_SIZE) in
      f a (take n l);; for_pages fuel f (a + Z.of_nat n) (drop n l)
  end.
Definition store_bytes (a : Z) (l : list Z) : M memory unit :=
  for_pages (Z.to_nat (Z.of_nat (length l) / PAGE_SIZE) + 2) store_in_page a l.

(** ** Pages *)

(** The inner loop of [alloc_pages]: [found]. *)
Fixpoint pages_free (l : list Z) (i : Z) (n : nat) : option bool :=
  match n with
  | O => Some true
  | S n =>
      match zlookup l i with
      | None => None
      | Some b => if negb (b =? 0) then Some false else pages_free l (i + 1) n
      end
  end.

Fixpoint mark_pages (v i : Z) (n : nat) (l : list Z) : list Z :=
  match n with
  | O => l
  | S n => mark_pages v (i + 1) n (zupdate i (λ _, v) l)
  end.

Definition alloc_pages (n : Z) : M memory Z :=
  loop (Z.to_nat NUM_PAGES + 2) (λ i,
    m ← get;
    if negb (i <=? u32 (NUM_PAGES - n)) then panic else
    found ← expect (pages_free (page_allocated m) i (Z.to_nat n));
    if negb found then mret (inl (i + 1)) else
    modify (set_page_allocated (mark_pages 1 i (Z.to_nat n)));;
    let paddr := u32 (free_ram m + i * PAGE_SIZE) in
    store_bytes paddr (zeros (Z.to_nat (u32 (n * PAGE_SIZE))));;
    mret (inr paddr)) 0.

Definition free_pages (paddr n : Z) : M memory unit :=
  m ← get;
  if (paddr <? free_ram m) || (paddr >=? free_ram_end m) then panic else
  let start_page := (paddr - free_ram m) / PAGE_SIZE in
  if u32 (start_page + n) >? NUM_PAGES then panic else
  modify (set_page_allocated (mark_pages 0 start_page (Z.to_nat n))).

(** ** Page tables *)

Definition vpn1 (va : Z) : Z := Z.land (Z.shiftr va 22) 1023.
Definition vpn0 (va : Z) : Z := Z.land (Z.shiftr va 12) 1023.
Definition is_valid (e : Z) : bool := has_flag e PAGE_V.
(** [(e >> 10) * PAGE_SIZE] *)
Definition target (e : Z) : Z := u32 (Z.shiftr e 10 * PAGE_SIZE).

Definition map_page (t1 vaddr paddr flags : Z) : M memory unit :=
  if negb (is_aligned vaddr PAGE_SIZE) then panic else
  if negb (is_aligned paddr PAGE_SIZE) then panic else
  e ← load32 (t1 + 4 * vpn1 vaddr);
  (if negb (is_valid e) then
     pt_paddr ← alloc_pages 1;
     store32 (t1 + 4 * vpn1 vaddr) (Z.lor (u32 (Z.shiftl (PAGE_TABLE_TO_INDEX pt_paddr) 10)) PAGE_V)
   else mret tt);;
  e ← load32 (t1 + 4 * vpn1 vaddr);
  store32 (target e + 4 * vpn0 vaddr)
    (Z.lor (Z.lor (u32 (Z.shiftl (PAGE_TABLE_TO_INDEX paddr) 10)) flags) PAGE_V).
