(* ===== verification/Virtio.v ===== *)
(** * The virtio drivers: definitions

    kernel/virtio.c. The queues, requests and events that the driver shares with a
    device are records here, next to the registers of the device; a register
    reads back what was written to it. What a block device does while the driver
    waits is the argument [tick], what a keyboard does is [post_event]. *)

From S2P Require Import Prelude CLib FsTypes KState Page.

Definition VIRTQ_ENTRY_NUM : Z := 16.
Definition VIRTIO_DEVICE_BLK : Z := 2.
Definition VIRTIO_DEVICE_INPUT : Z := 18.
Definition VIRTIO_MAGIC : Z := 0x74726976.
Definition VIRTIO_REG_MAGIC : Z := 0x00.
Definition VIRTIO_REG_VERSION : Z := 0x04.
Definition VIRTIO_REG_DEVICE_ID : Z := 0x08.
Definition VIRTIO_REG_DEVICE_STATUS : Z := 0x70.
Definition VIRTIO_REG_DEVICE_CONFIG : Z := 0x100.
Definition VIRTIO_REG_QUEUE_SEL : Z := 0x30.
Definition VIRTIO_REG_QUEUE_NUM : Z := 0x38.
Definition VIRTIO_REG_QUEUE_ALIGN : Z := 0x3c.
Definition VIRTIO_REG_QUEUE_PFN : Z := 0x40.
Definition VIRTIO_REG_QUEUE_NOTIFY : Z := 0x50.
Definition VIRTIO_STATUS_ACK : Z := 1.
Definition VIRTIO_STATUS_DRIVER : Z := 2.
Definition VIRTIO_STATUS_DRIVER_OK : Z := 4.
Definition VIRTIO_STATUS_FEAT_OK : Z := 8.
Definition VIRTQ_DESC_F_NEXT : Z := 1.
Definition VIRTQ_DESC_F_WRITE : Z := 2.
Definition VIRTIO_BLK_T_IN : Z := 0.
Definition VIRTIO_BLK_T_OUT : Z := 1.
Definition EV_KEY : Z := 1.

(** ** Shared structures *)

Record virtq_desc := Desc { vd_addr : Z; vd_len : Z; vd_flags : Z; vd_next : Z }.

Record virtq := Virtq {
  descs : list virtq_desc;
  avail_index : Z;
  avail_ring : list Z;
  used_index : Z;
  used_ring : list Z;
  queue_index : Z;
  last_used_index : Z
}.

Definition virtq_zero : virtq :=
  Virtq (replicate 16 (Desc 0 0 0 0)) 0 (zeros 16) 0 (zeros 16) 0 0.

Record blk_req := BlkReq { rq_type : Z; rq_reserved : Z; rq_sector : Z; rq_data : list Z; rq_status : Z }.
Definition blk_req_zero : blk_req := BlkReq 0 0 0 (zeros 512) 0.

Record blk_dev := BlkDev { bd_paddr : Z; bd_sectors : Z; bd_req : blk_req; bd_vq : virtq; bd_req_paddr : Z }.

Record input_event := Event { ev_type : Z; ev_code : Z; ev_value : Z }.
Record input_dev := InputDev { id_paddr : Z; id_vq : virtq; id_events : list input_event; id_events_paddr : Z }.

(** The drivers' state: a block device with its registers and the disk behind
    it, twice; the input device with its registers; memory. *)
Record unit_ := Unit_ { u_dev : blk_dev; u_regs : gmap Z Z; u_disk : disk }.
Record vstate := Vstate { units : list unit_; v_input : input_dev; v_iregs : gmap Z Z; v_mem : memory }.

Definition set_u_dev (f : blk_dev → blk_dev) (u : unit_) : unit_ := Unit_ (f (u_dev u)) (u_regs u) (u_disk u).
Definition set_bd_vq (f : virtq → virtq) (d : blk_dev) : blk_dev :=
  BlkDev (bd_paddr d) (bd_sectors d) (bd_req d) (f (bd_vq d)) (bd_req_paddr d).
Definition set_bd_req (f : blk_req → blk_req) (d : blk_dev) : blk_dev :=
  BlkDev (bd_paddr d) (bd_sectors d) (f (bd_req d)) (bd_vq d) (bd_req_paddr d).

Definition get_unit (dev : Z) : M vstate unit_ := us ← gets units; expect (zlookup us dev).
Definition upd_unit (dev : Z) (f : unit_ → unit_) : M vstate unit :=
  modify (λ v, Vstate (zupdate dev f (units v)) (v_input v) (v_iregs v) (v_mem v)).
Definition in_vmem {A} (m : M memory A) : M vstate A :=
  zoom v_mem (λ x v, Vstate (units v) (v_input v) (v_iregs v) x) m.

(** ** Registers *)

Definition virtio_blk_sectors (dev : Z) : M vstate Z :=
  if dev >=? 2 then mret 0 else u ← get_unit dev; mret (bd_sectors (u_dev u)).

Definition virtio_reg_read32 (dev offset : Z) : M vstate Z :=
  u ← get_unit dev; mret (default 0 (u_regs u !! offset)).
Definition virtio_reg_write32 (dev offset value : Z) : M vstate unit :=
  upd_unit dev (λ u, Unit_ (u_dev u) (<[offset := value]> (u_regs u)) (u_disk u)).
Definition virtio_reg_fetch_and_or32 (dev offset value : Z) : M vstate unit :=
  x ← virtio_reg_read32 dev offset; virtio_reg_write32 dev offset (Z.lor x value).

(** ** Queues *)

(** [sizeof(struct virtio_virtq)]: the used ring is page aligned. *)
Definition VIRTQ_SIZE : Z := 8192.

Definition virtq_init (dev index : Z) : M vstate virtq :=
  virtq_paddr ← in_vmem (alloc_pages (align_up VIRTQ_SIZE PAGE_SIZE / PAGE_SIZE));
  virtio_reg_write32 dev VIRTIO_REG_QUEUE_SEL index;;
  virtio_reg_write32 dev VIRTIO_REG_QUEUE_NUM VIRTQ_ENTRY_NUM;;
  virtio_reg_write32 dev VIRTIO_REG_QUEUE_ALIGN 0;;
  virtio_reg_write32 dev VIRTIO_REG_QUEUE_PFN virtq_paddr;;
  mret (Virtq (descs virtq_zero) 0 (zeros 16) 0 (zeros 16) index 0).

(** [vq->avail.ring[vq->avail.index % VIRTQ_ENTRY_NUM] = desc_index; ++vq->avail.index] *)
Definition avail_push (desc_index : Z) (q : virtq) : virtq :=
  Virtq (descs q) (u16 (avail_index q + 1)) (<[Z.to_nat (avail_index q mod VIRTQ_ENTRY_NUM) := u16 desc_index]> (avail_ring q))
    (used_index q) (used_ring q) (queue_index q) (last_used_index q).
(** [++vq->last_used_index] *)
Definition used_next (q : virtq) : virtq :=
  Virtq (descs q) (avail_index q) (avail_ring q) (used_index q) (used_ring q) (queue_index q) (u16 (last_used_index q + 1)).
Definition set_desc (i : nat) (x : virtq_desc) (q : virtq) : virtq :=
  Virtq (<[i := x]> (descs q)) (avail_index q) (avail_ring q) (used_index q) (used_ring q) (queue_index q) (last_used_index q).

Definition virtq_kick (dev desc_index : Z) : M vstate unit :=
  upd_unit dev (set_u_dev (set_bd_vq (avail_push desc_index)));;
  u ← get_unit dev;
  virtio_reg_write32 dev VIRTIO_REG_QUEUE_NOTIFY (queue_index (bd_vq (u_dev u)));;
  upd_unit dev (set_u_dev (set_bd_vq used_next)).

Definition virtq_is_busy (dev : Z) : M vstate bool :=
  u ← get_unit dev; mret (negb (last_used_index (bd_vq (u_dev u)) =? used_index (bd_vq (u_dev u)))).

(** ** Block requests *)

Definition SECTOR_BYTES : Z := 512.
(** [offsetof(struct virtio_blk_req, data)] and [status]. *)
Definition REQ_DATA : Z := 16.
Definition REQ_STATUS : Z := 528.

Definition set_request (sector : Z) (out : option (list Z)) (r : blk_req) : blk_req :=
  BlkReq (match out with Some _ => VIRTIO_BLK_T_OUT | None => VIRTIO_BLK_T_IN end) (rq_reserved r) sector
    (match out with Some buf => buf | None => rq_data r end) (rq_status r).

(** The three descriptors of a request: header, data, status. *)
Definition set_descs (req_paddr : Z) (is_write : bool) (q : virtq) : virtq :=
  let last_next := match descs q !! 2%nat with Some x => vd_next x | None => 0 end in
  set_desc 2 (Desc (u32 (req_paddr + REQ_STATUS)) 1 VIRTQ_DESC_F_WRITE last_next)
    (set_desc 1 (Desc (u32 (req_paddr + REQ_DATA)) SECTOR_BYTES
                   (Z.lor VIRTQ_DESC_F_NEXT (if is_write then 0 else VIRTQ_DESC_F_WRITE)) 2)
       (set_desc 0 (Desc req_paddr 16 VIRTQ_DESC_F_NEXT 1) q)).

Section blk.
(** What the device does to its unit in one round of the driver's wait. *)
Variable tick : unit_ → unit_.
(** The rounds the driver waits at most. *)
Variable patience : nat.

(** [buf] is [Some data] for a write; returns the data of a read. *)
Definition read_write_device (dev : Z) (buf : option (list Z)) (sector : Z) : M vstate (list Z) :=
  if dev >=? 2 then panic else
  u ← get_unit dev;
  if sector >=? bd_sectors (u_dev u) then panic else
  out ← match buf with
        | Some b => l ← expect (if (512 <=? length b)%nat then Some (take 512 b) else None); mret (Some l)
        | None => mret None
        end;
  upd_unit dev (set_u_dev (set_bd_req (set_request sector out)));;
  upd_unit dev (set_u_dev (set_bd_vq (set_descs (bd_req_paddr (u_dev u)) (bool_decide (is_Some buf)))));;
  virtq_kick dev 0;;
  loop (S patience) (λ _,
    busy ← virtq_is_busy dev;
    if busy : bool then upd_unit dev tick;; mret (inl tt) else mret (inr tt)) tt;;
  u ← get_unit dev;
  if negb (rq_status (bd_req (u_dev u)) =? 0) then panic else
  mret (match buf with None => rq_data (bd_req (u_dev u)) | Some _ => [] end).

Definition read_device (dev sector : Z) : M vstate (list Z) := read_write_device dev None sector.
Definition write_device (dev : Z) (buf : list Z) (sector : Z) : M vstate unit :=
  read_write_device dev (Some buf) sector;; mret tt.
End blk.

(** [config] is the capacity the device reports, in sectors. *)
Definition virtio_blk_init_device (dev paddr : Z) : M vstate unit :=
  upd_unit dev (set_u_dev (λ d, BlkDev paddr (bd_sectors d) (bd_req d) (bd_vq d) (bd_req_paddr d)));;
  x ← virtio_reg_read32 dev VIRTIO_REG_MAGIC;
  if negb (x =? VIRTIO_MAGIC) then panic else
  x ← virtio_reg_read32 dev VIRTIO_REG_VERSION;
  if negb (x =? 1) then panic else
  x ← virtio_reg_read32 dev VIRTIO_REG_DEVICE_ID;
  if negb (x =? VIRTIO_DEVICE_BLK) then panic else
  virtio_reg_write32 dev VIRTIO_REG_DEVICE_STATUS 0;;
  virtio_reg_fetch_and_or32 dev VIRTIO_REG_DEVICE_STATUS VIRTIO_STATUS_ACK;;
  virtio_reg_fetch_and_or32 dev VIRTIO_REG_DEVICE_STATUS VIRTIO_STATUS_DRIVER;;
  virtio_reg_fetch_and_or32 dev VIRTIO_REG_DEVICE_STATUS VIRTIO_STATUS_FEAT_OK;;
  vq ← virtq_init dev 0;
  upd_unit dev (set_u_dev (set_bd_vq (λ _, vq)));;
  virtio_reg_write32 dev VIRTIO_REG_DEVICE_STATUS VIRTIO_STATUS_DRIVER_OK;;
  lo ← virtio_reg_read32 dev VIRTIO_REG_DEVICE_CONFIG;
  req_paddr ← in_vmem (alloc_pages (align_up 529 PAGE_SIZE / PAGE_SIZE));
  upd_unit dev (set_u_dev (λ d, BlkDev (bd_paddr d) (u32 lo) blk_req_zero (bd_vq d) req_paddr)).

Definition virtio_blk_init : M vstate unit :=
  virtio_blk_init_device 0 268439552;; virtio_blk_init_device 1 268443648.

(** ** The keyboard *)

Definition upd_input (f : input_dev → input_dev) : M vstate unit :=
  modify (λ v, Vstate (units v) (f (v_input v)) (v_iregs v) (v_mem v)).
Definition input_reg_read32 (offset : Z) : M vstate Z := r ← gets v_iregs; mret (default 0 (r !! offset)).
Definition input_reg_write32 (offset value : Z) : M vstate unit :=
  modify (λ v, Vstate (units v) (v_input v) (<[offset := value]> (v_iregs v)) (v_mem v)).
Definition input_reg_fetch_and_or32 (offset value : Z) : M vstate unit :=
  x ← input_reg_read32 offset; input_reg_write32 offset (Z.lor x value).

(** One descriptor and one slot of the available ring for each event buffer. *)
Definition input_queue (events_paddr : Z) : virtq :=
  Virtq ((λ i, Desc (u32 (events_paddr + Z.of_nat i * 8)) 8 VIRTQ_DESC_F_WRITE 0) <$> seq 0 16)
    VIRTQ_ENTRY_NUM (Z.of_nat <$> seq 0 16) 0 (zeros 16) 0 0.

Definition virtio_input_init : M vstate unit :=
  upd_input (λ d, InputDev 268447744 (id_vq d) (id_events d) (id_events_paddr d));;
  x ← input_reg_read32 VIRTIO_REG_MAGIC;
  if negb (x =? VIRTIO_MAGIC) then panic else
  x ← input_reg_read32 VIRTIO_REG_VERSION;
  if negb (x =? 1) then panic else
  x ← input_reg_read32 VIRTIO_REG_DEVICE_ID;
  if negb (x =? VIRTIO_DEVICE_INPUT) then panic else
  input_reg_write32 VIRTIO_REG_DEVICE_STATUS 0;;
  input_reg_fetch_and_or32 VIRTIO_REG_DEVICE_STATUS VIRTIO_STATUS_ACK;;
  input_reg_fetch_and_or32 VIRTIO_REG_DEVICE_STATUS VIRTIO_STATUS_DRIVER;;
  input_reg_fetch_and_or32 VIRTIO_REG_DEVICE_STATUS VIRTIO_STATUS_FEAT_OK;;
  virtq_paddr ← in_vmem (alloc_pages (align_up VIRTQ_SIZE PAGE_SIZE / PAGE_SIZE));
  input_reg_write32 VIRTIO_REG_QUEUE_SEL 0;;
  input_reg_write32 VIRTIO_REG_QUEUE_NUM VIRTQ_ENTRY_NUM;;
  input_reg_write32 VIRTIO_REG_QUEUE_ALIGN 0;;
  input_reg_write32 VIRTIO_REG_QUEUE_PFN virtq_paddr;;
  input_reg_write32 VIRTIO_REG_DEVICE_STATUS VIRTIO_STATUS_DRIVER_OK;;
  events_paddr ← in_vmem (alloc_pages 1);
  upd_input (λ d, InputDev (id_paddr d) (input_queue events_paddr) (replicate 512 (Event 0 0 0)) events_paddr);;
  input_reg_write32 VIRTIO_REG_QUEUE_NOTIFY 0.

(** [Some (code, pressed)] when a key event was delivered. The buffer goes back to
    the device before the event is read from it; [meanwhile] is what the device
    does in between. *)
Definition virtio_input_poll_event (meanwhile : input_dev → input_dev) : M vstate (option (Z * Z)) :=
  d ← gets v_input;
  let vq := id_vq d in
  if last_used_index vq =? used_index vq then mret None else
  desc_idx ← expect (zlookup (used_ring vq) (last_used_index vq mod VIRTQ_ENTRY_NUM));
  upd_input (λ d, InputDev (id_paddr d) (avail_push desc_idx (used_next (id_vq d))) (id_events d) (id_events_paddr d));;
  input_reg_write32 VIRTIO_REG_QUEUE_NOTIFY (queue_index vq);;
  upd_input meanwhile;;
  d ← gets v_input;
  evt ← expect (zlookup (id_events d) desc_idx);
  if ev_type evt =? EV_KEY then mret (Some (ev_code evt, if ev_value evt >? 0 then 1 else 0)) else mret None.

(** What the keyboard does with an event: it takes the next available buffer. *)
Definition post_event (taken : Z) (e : input_event) (d : input_dev) : option input_dev :=
  let vq := id_vq d in
  if taken =? avail_index vq then None else
  desc_idx ← zlookup (avail_ring vq) (taken mod VIRTQ_ENTRY_NUM);
  Some (InputDev (id_paddr d)
    (Virtq (descs vq) (avail_index vq) (avail_ring vq) (u16 (used_index vq + 1))
       (<[Z.to_nat (used_index vq mod VIRTQ_ENTRY_NUM) := desc_idx]> (used_ring vq)) (queue_index vq) (last_used_index vq))
    (<[Z.to_nat desc_idx := e]> (id_events d)) (id_events_paddr d)).
