(* ===== verification/VirtioSpec.v ===== *)
(** * The virtio drivers implement their interfaces

    Over a device that serves a well-formed request within a bounded time, the
    block driver is the sector interface that the filesystem uses ([Block.v]);
    over a keyboard that fills buffers in order, polling is a queue of events. *)

From S2P Require Import Prelude CLib FsTypes Block KState Page Virtio.

(** ** What a block device promises *)

(** The queue holds one request: a header, the data and the status byte, chained
    in this order, with the device allowed to write what it has to. *)
Definition chain_ok (d : blk_dev) : Prop :=
  let a := bd_req_paddr d in
  let is_read := rq_type (bd_req d) =? VIRTIO_BLK_T_IN in
  ∃ last, take 3 (descs (bd_vq d)) =
    [Desc a 16 VIRTQ_DESC_F_NEXT 1;
     Desc (u32 (a + 16)) 512 (if is_read then Z.lor VIRTQ_DESC_F_NEXT VIRTQ_DESC_F_WRITE else VIRTQ_DESC_F_NEXT) 2;
     Desc (u32 (a + 528)) 1 VIRTQ_DESC_F_WRITE last].

Record pending (u : unit_) : Prop := {
  pd_chain : chain_ok (u_dev u);
  pd_index : avail_index (bd_vq (u_dev u)) = u16 (used_index (bd_vq (u_dev u)) + 1);
  pd_head : avail_ring (bd_vq (u_dev u)) !! Z.to_nat (used_index (bd_vq (u_dev u)) mod 16) = Some 0;
  pd_notify : u_regs u !! VIRTIO_REG_QUEUE_NOTIFY = Some (queue_index (bd_vq (u_dev u)));
  pd_sector : 0 ≤ rq_sector (bd_req (u_dev u)) < sectors (u_disk u)
}.

(** The request carried out. *)
Definition served (u : unit_) : unit_ :=
  let d := u_dev u in
  let q := bd_vq d in
  let r := bd_req d in
  let is_read := rq_type r =? VIRTIO_BLK_T_IN in
  Unit_
    (BlkDev (bd_paddr d) (bd_sectors d)
       (BlkReq (rq_type r) (rq_reserved r) (rq_sector r)
          (if is_read then sector_data (u_disk u) (rq_sector r) else rq_data r) 0)
       (Virtq (descs q) (avail_index q) (avail_ring q) (avail_index q)
          (<[Z.to_nat (used_index q mod 16) := 0]> (used_ring q)) (queue_index q) (last_used_index q))
       (bd_req_paddr d))
    (u_regs u)
    (if is_read then u_disk u else write_sector (u_disk u) (rq_sector r) (rq_data r)).

(** A device that serves a pending request after some rounds and shows nothing of
    it before. *)
Class BlkDevice (tick : unit_ → unit_) (patience : nat) : Prop :=
  serves u : pending u → ∃ n, (n ≤ patience)%nat ∧ Nat.iter n tick u = served u ∧
    ∀ j, (j < n)%nat → used_index (bd_vq (u_dev (Nat.iter j tick u))) = used_index (bd_vq (u_dev u)) ∧
      last_used_index (bd_vq (u_dev (Nat.iter j tick u))) = last_used_index (bd_vq (u_dev u)).

(** The simplest such device serves the request at once. *)
Definition prompt_device (u : unit_) : unit_ := served u.
#[export] Instance prompt_device_ok : BlkDevice prompt_device 1.
Proof. intros u Hu. exists 1%nat. split; [done|]. split; [done|]. intros [|j] Hj; [done|lia]. Qed.

(** ** The driver between requests *)

Record idle (u : unit_) : Prop := {
  id_last : last_used_index (bd_vq (u_dev u)) = used_index (bd_vq (u_dev u));
  id_avail : avail_index (bd_vq (u_dev u)) = used_index (bd_vq (u_dev u));
  id_range : 0 ≤ used_index (bd_vq (u_dev u)) < 65536;
  id_ring : length (avail_ring (bd_vq (u_dev u))) = 16%nat;
  id_descs : length (descs (bd_vq (u_dev u))) = 16%nat;
  id_sectors : bd_sectors (u_dev u) = sectors (u_disk u);
  id_addr : 0 ≤ bd_req_paddr (u_dev u) < 4294966000
}.

(** The driver's state stands for the filesystem's devices. *)
Record drives (v : vstate) (s : fs) : Prop := {
  dr_idle : Forall idle (units v);
  dr_disks : u_disk <$> units v = devs s;
  dr_two : length (units v) = 2%nat
}.

Lemma wp_get_unit v dev u (Q : unit_ → vstate → Prop) R :
  zlookup (units v) dev = Some u → Q u v → wp (get_unit dev) Q R v.
Proof. intros H HQ. unfold get_unit. by wp_steps. Qed.

(** [v] with unit [dev] replaced. *)
Definition put_unit (dev : Z) (u : unit_) (v : vstate) : vstate :=
  Vstate (<[Z.to_nat dev := u]> (units v)) (v_input v) (v_iregs v) (v_mem v).

Lemma zlookup_put v dev u0 u : zlookup (units v) dev = Some u0 → zlookup (units (put_unit dev u v)) dev = Some u.
Proof.
  unfold zlookup. destruct (0 <=? dev); [|done]. intros H%lookup_lt_Some. by apply list_lookup_insert_eq.
Qed.

Lemma put_unit_twice dev u u' v : put_unit dev u (put_unit dev u' v) = put_unit dev u v.
Proof. unfold put_unit. cbn [units v_input v_iregs v_mem]. by rewrite list_insert_insert_eq. Qed.

Lemma wp_upd_unit v dev u f (Q : unit → vstate → Prop) R :
  zlookup (units v) dev = Some u → Q tt (put_unit dev (f u) v) → wp (upd_unit dev f) Q R v.
Proof.
  intros H HQ. unfold upd_unit. apply wp_modify. unfold put_unit in HQ.
  assert (zupdate dev f (units v) = <[Z.to_nat dev := f u]> (units v)) as ->; [|done].
  unfold zupdate, zlookup in *. destruct (0 <=? dev); [|done].
  rewrite list_insert_alter. apply list_alter_ext; [|done]. intros x Hx. congruence.
Qed.

(** [Q] on the state where unit [dev] is [u']; symbolic execution on one unit. *)
Ltac unit_step :=
  match goal with
  | |- wp (_ ≫= _) _ _ _ => apply wp_bind
  | |- wp (mret _) _ _ _ => apply wp_ret
  | |- wp (get_unit _) _ _ _ => eapply wp_get_unit; [by eapply zlookup_put || eassumption|]
  | |- wp (upd_unit _ _) _ _ _ => eapply wp_upd_unit; [by eapply zlookup_put || eassumption|rewrite ?put_unit_twice]
  end; cbv beta.

Section wait.
Context {tick : unit_ → unit_} {patience : nat} {Hdev : BlkDevice tick patience}.

(** The wait ends, with the request served. *)
Lemma wait_wp v dev u0 u (Q : unit → vstate → Prop) R :
  zlookup (units v) dev = Some u0 → pending u →
  last_used_index (bd_vq (u_dev u)) = u16 (used_index (bd_vq (u_dev u)) + 1) →
  0 ≤ used_index (bd_vq (u_dev u)) < 65536 →
  Q tt (put_unit dev (served u) v) →
  wp (loop (S patience) (λ _, busy ← virtq_is_busy dev;
    if busy : bool then upd_unit dev tick;; mret (inl tt) else mret (inr tt)) tt) Q R (put_unit dev u v).
Proof using Hdev.
  intros Hu0 Hp Hlast Hr HQ. destruct (serves u Hp) as (n & Hn & Hserved & Hbefore).
  apply (wp_loop (λ k _ v', ∃ j, (j ≤ n)%nat ∧ k = (n - j)%nat ∧ v' = put_unit dev (Nat.iter j tick u) v)) with (k := n).
  - intros k [] v' (j & Hj & -> & ->). unfold virtq_is_busy. repeat unit_step.
    destruct (decide (j = n)) as [->|Hne].
    + rewrite Hserved. cbn [served u_dev bd_vq last_used_index used_index]. rewrite Hlast, (pd_index u Hp), Z.eqb_refl.
      cbn [negb]. by apply wp_ret.
    + assert ((last_used_index (bd_vq (u_dev (Nat.iter j tick u))) =? used_index (bd_vq (u_dev (Nat.iter j tick u)))) = false) as ->.
      { destruct (Hbefore j) as [-> ->]; [lia|]. rewrite Hlast. apply Z.eqb_neq. unfold u16. Z.div_mod_to_equations. lia. }
      cbn [negb]. repeat unit_step. exists (n - S j)%nat. split; [lia|]. exists (S j). split; [lia|done].
  - exists 0%nat. split; [lia|]. split; [lia|done].
  - lia.
Qed.
End wait.

(** ** One request *)

(** The unit when the driver starts to wait. *)
Definition prepared (sector : Z) (out : option (list Z)) (u : unit_) : unit_ :=
  let d := u_dev u in
  let q := used_next (avail_push 0 (set_descs (bd_req_paddr d) (bool_decide (is_Some out)) (bd_vq d))) in
  Unit_ (BlkDev (bd_paddr d) (bd_sectors d) (set_request sector out (bd_req d)) q (bd_req_paddr d))
    (<[VIRTIO_REG_QUEUE_NOTIFY := queue_index q]> (u_regs u)) (u_disk u).

Lemma prepared_pending sector out u : idle u → 0 ≤ sector < sectors (u_disk u) → pending (prepared sector out u).
Proof.
  intros [H1 H2 H3 H4 H5 H6 H7] Hs. split.
  - unfold chain_ok, prepared. cbn [u_dev bd_req_paddr bd_req bd_vq used_next avail_push descs set_request rq_type].
    destruct (descs (bd_vq (u_dev u))) as [|d0 [|d1 [|d2 l]]] eqn:E; [done..|].
    exists (vd_next d2). unfold set_descs, set_desc. cbn [descs]. rewrite E. cbn [insert list_insert take lookup list_lookup].
    destruct out as [buf|]; cbn; done.
  - cbn. by rewrite H2.
  - cbn. rewrite H2. apply list_lookup_insert_eq. rewrite H4. pose proof (Z.mod_pos_bound (used_index (bd_vq (u_dev u))) 16 ltac:(lia)).
    unfold VIRTQ_ENTRY_NUM. lia.
  - cbn [prepared u_regs u_dev bd_vq]. by rewrite lookup_insert_eq.
  - done.
Qed.

Lemma served_idle sector out u : idle u → idle (served (prepared sector out u)).
Proof.
  intros [H1 H2 H3 H4 H5 H6 H7]. split; cbn.
  - by rewrite H1, H2.
  - done.
  - apply u16_range.
  - by rewrite length_insert.
  - by rewrite !length_insert.
  - by destruct out.
  - done.
Qed.

Section driver.
Context {tick : unit_ → unit_} {patience : nat} {Hdev : BlkDevice tick patience}.

Lemma request_wp v dev u out sector (Q : list Z → vstate → Prop) R :
  0 ≤ dev < 2 → zlookup (units v) dev = Some u → idle u → 0 ≤ sector < sectors (u_disk u) →
  (∀ b, out = Some b → length b = 512%nat) →
  Q (match out with None => sector_data (u_disk u) sector | Some _ => [] end)
  (put_unit dev (served (prepared sector out u)) v) →
  wp (read_write_device tick patience dev out sector) Q R v.
Proof using Hdev.
  intros Hd Hu Hidle Hs Hb HQ. pose proof Hidle as [H1 H2 H3 H4 H5 H6 H7]. unfold read_write_device.
  rewrite (geb_false dev 2) by lia. unit_step. unit_step. rewrite (geb_false sector _) by lia. apply wp_bind.
  assert (wp (match out with
    | Some b => l ← expect (if (512 <=? length b)%nat then Some (take 512 b) else None); mret (Some l)
    | None => mret None
    end) (λ o v', o = out ∧ v' = v) R v) as Hout.
  { destruct out as [b|]; [|done]. specialize (Hb b eq_refl). rewrite Hb. cbn [Nat.leb]. wp_steps.
    by rewrite take_ge by lia. }
  eapply wp_conseq; [exact Hout|]. intros o v' [-> ->]. unfold virtq_kick, virtio_reg_write32.
  repeat unit_step.
  lazymatch goal with |- wp _ _ _ (put_unit _ ?x _) => change x with (prepared sector out u) end.
  apply (wait_wp v dev u); [done|by apply prepared_pending|cbn; by rewrite H1|done|].
  repeat unit_step. cbn [served u_dev bd_req rq_status Z.eqb negb]. apply wp_ret.
  destruct out as [b|]; exact HQ.
Qed.
End driver.

(** ** Refinement *)

Lemma drives_unit v s dev : drives v s → 0 ≤ dev < 2 →
  ∃ u, zlookup (units v) dev = Some u ∧ idle u ∧ zlookup (devs s) dev = Some (u_disk u).
Proof.
  intros [Hi Hd Hl] Hdev. destruct (units v !! Z.to_nat dev) as [u|] eqn:E; [|apply lookup_ge_None in E; lia].
  exists u. split; [by rewrite zlookup_nat by lia|]. split; [by apply (proj1 (Forall_lookup _ _) Hi _ _ E)|].
  rewrite zlookup_nat by lia. rewrite <-Hd, list_lookup_fmap, E. done.
Qed.

Lemma drives_put v s dev u u' (f : disk → disk) : drives v s → 0 ≤ dev < 2 → zlookup (units v) dev = Some u →
  idle u' → u_disk u' = f (u_disk u) → drives (put_unit dev u' v) (set_devs (zupdate dev f) s).
Proof.
  intros [Hi Hd Hl] Hdev Hu Hi' Hf. rewrite zlookup_nat in Hu by lia. split; cbn [put_unit units set_devs devs].
  - by apply Forall_insert.
  - rewrite list_fmap_insert, Hd, Hf. unfold zupdate. rewrite list_insert_alter. apply list_alter_ext; [|done].
    intros x Hx. rewrite <-Hd, list_lookup_fmap, Hu in Hx. by injection Hx as <-.
  - by rewrite length_insert.
Qed.

Lemma wp_run {S A} (m : M S A) (a : A) (P : S → Prop) (s : S) :
  wp m (λ x s', x = a ∧ P s') (λ _, False) s → ∃ s', m s = Ok a s' ∧ P s'.
Proof. unfold wp. destruct (m s) as [x s'| | |]; [|done..]. intros [-> ?]. eauto. Qed.

Section refine.
Context {tick : unit_ → unit_} {patience : nat} {Hdev : BlkDevice tick patience}.

Lemma request_panics v s dev out sector : drives v s → 0 ≤ dev → 0 ≤ sector →
  (dev < 2 → ∀ d, zlookup (devs s) dev = Some d → sectors d ≤ sector) →
  read_write_device tick patience dev out sector v = Panic v.
Proof using.
  intros Hv Hd Hs Hbad. unfold read_write_device. destruct (Z.geb_spec dev 2) as [|Hlt]; [done|].
  destruct (drives_unit v s dev Hv) as (u & Hu & Hi & Hdisk); [lia|].
  unfold get_unit, gets, mbind, M_bind. rewrite Hu. cbn [expect]. unfold mret, M_ret.
  rewrite (id_sectors u Hi), geb_true; [done|]. by apply Hbad.
Qed.

(** C25: the block driver implements the sector interface the filesystem is built
    on: over any device that serves requests, a read returns the sector's bytes, a
    write replaces them, an access outside the device stops the kernel, and the
    queue is ready for the next request; the wait for the device ends. *)
Theorem blk_driver_refines v s dev sector buf : drives v s → 0 ≤ dev → 0 ≤ sector → length buf = 512%nat →
  match Block.read_device dev sector s with
  | Ok l s' => ∃ v', Virtio.read_device tick patience dev sector v = Ok l v' ∧ drives v' s'
  | Panic _ => Virtio.read_device tick patience dev sector v = Panic v
  | _ => False
  end ∧
  match Block.write_device dev buf sector s with
  | Ok _ s' => ∃ v', Virtio.write_device tick patience dev buf sector v = Ok tt v' ∧ drives v' s'
  | Panic _ => Virtio.write_device tick patience dev buf sector v = Panic v
  | _ => False
  end.
Proof using Hdev.
  intros Hv Hd Hs Hb.
  unfold Block.read_device, Block.write_device, Virtio.read_device, Virtio.write_device, gets, mbind, M_bind.
  destruct (Z.geb_spec dev 2) as [Hge|Hlt].
  { rewrite !(request_panics v s) by (done || lia). done. }
  destruct (drives_unit v s dev Hv) as (u & Hu & Hi & Hdisk); [lia|]. rewrite Hdisk. cbn [expect]. unfold mret, M_ret.
  destruct (Z.geb_spec sector (sectors (u_disk u))) as [Hge|Hin].
  { rewrite !(request_panics v s); try done; intros _ d Hd'; by simplify_eq. }
  split.
  - apply wp_run. apply (request_wp v dev u); [lia|done|done|lia|done|]. split; [done|].
    replace s with (set_devs (zupdate dev (λ d, d)) s).
    2: { destruct s. unfold set_devs, zupdate. cbn. f_equal. by apply list_alter_id. }
    apply (drives_put v s dev u); [done|lia|done|by apply served_idle|done].
  - unfold modify. destruct (wp_run (read_write_device tick patience dev (Some buf) sector) []
      (λ v', drives v' (set_devs (zupdate dev (λ d, write_sector d sector buf)) s)) v) as (v' & -> & Hv'); [|by exists v'].
    apply (request_wp v dev u); [lia|done|done|lia|by intros ? [= <-]|]. split; [done|].
    apply (drives_put v s dev u); [done|lia|done|by apply served_idle|done].
Qed.
End refine.

(** ** A sample machine *)

Definition sample_unit : unit_ :=
  Unit_ (BlkDev 268439552 4 blk_req_zero virtq_zero 2151677952) ∅ (Disk 4 ∅).
Definition sample_v : vstate := Vstate [sample_unit; sample_unit] (InputDev 0 virtq_zero [] 0) ∅ (Memory ∅ [] 0 0).
Definition sample_devs : fs := Fs [Disk 4 ∅; Disk 4 ∅] [] [] [] 0.

Lemma sample_drives : drives sample_v sample_devs.
Proof.
  assert (idle sample_unit) as Hi by (split; cbn; lia || done). split; [|done|done].
  repeat constructor; apply Hi.
Qed.

Lemma blk_driver_refines_witness :
  match Block.read_device 1 3 sample_devs with
  | Ok l s' => ∃ v', Virtio.read_device prompt_device 1 1 3 sample_v = Ok l v' ∧ drives v' s'
  | Panic _ => Virtio.read_device prompt_device 1 1 3 sample_v = Panic sample_v
  | _ => False
  end.
Proof. apply (blk_driver_refines sample_v sample_devs 1 3 (zeros 512) sample_drives); done. Defined.
