(* ===== verification/Keyboard.v ===== *)
(** * The keyboard driver is a queue

    [virtio_input_poll_event] takes events in the order the keyboard posted them
    and gives every buffer back; the 16-bit ring indices may wrap. *)

From S2P Require Import Prelude CLib FsTypes KState Page Virtio.

(** The place of ring index [x]; indices wrap at 65536, a multiple of 16. *)
Definition ring_slot (x : Z) : nat := Z.to_nat (x mod 16).

Lemma ring_slot_u16 x i : ring_slot (u16 x + i) = ring_slot (x + i).
Proof.
  unfold ring_slot, u16. f_equal. change 65536 with (16 * 4096). rewrite Z.rem_mul_r by lia.
  rewrite <-Z.add_assoc, (Z.add_comm (16 * _)), Z.add_assoc, Z.mul_comm, Z.mod_add by lia.
  by rewrite Z.add_mod_idemp_l by lia.
Qed.

Lemma ring_slot_lt x : (ring_slot x < 16)%nat.
Proof. unfold ring_slot. pose proof (Z.mod_pos_bound x 16 ltac:(lia)). lia. Qed.

Lemma ring_slot_ne x i j : 0 ≤ i → i < j < i + 16 → ring_slot (x + i) ≠ ring_slot (x + j).
Proof. unfold ring_slot. intros. Z.div_mod_to_equations. lia. Qed.

(** The ring holds [l] from index [start] on. *)
Definition ring_holds (ring : list Z) (start : Z) (l : list Z) : Prop :=
  ∀ i x, l !! i = Some x → ring !! ring_slot (start + Z.of_nat i) = Some x.

Lemma ring_holds_tail ring start x l : ring_holds ring start (x :: l) → ring_holds ring (u16 (start + 1)) l.
Proof.
  intros H i y Hy. rewrite ring_slot_u16. replace (start + 1 + Z.of_nat i) with (start + Z.of_nat (S i)) by lia. by apply H.
Qed.

Lemma ring_holds_snoc ring start l x j : length ring = 16%nat → ring_holds ring start l →
  (length l < 16)%nat → ring_slot j = ring_slot (start + Z.of_nat (length l)) →
  ring_holds (<[ring_slot j := x]> ring) start (l ++ [x]).
Proof.
  intros Hr H Hl -> i y [Hy|[Hi Hy]]%lookup_snoc_Some.
  - destruct Hy as [Hi Hy]. rewrite list_lookup_insert_ne; [by apply H|].
    intros E. symmetry in E. revert E. apply ring_slot_ne; lia.
  - subst. rewrite list_lookup_insert_eq; [done|]. rewrite Hr. apply ring_slot_lt.
Qed.

(** Buffers [ps] hold the posted events [es], oldest first; buffers [qs] are with
    the device. *)
Record input_inv (d : input_dev) (es : list input_event) (ps qs : list Z) : Prop := {
  ii_len : length ps = length es;
  ii_all : (length ps + length qs = 16)%nat;
  ii_nodup : NoDup (ps ++ qs);
  ii_range : Forall (λ x, 0 ≤ x < 16) (ps ++ qs);
  ii_used : ring_holds (used_ring (id_vq d)) (last_used_index (id_vq d)) ps;
  ii_avail : ring_holds (avail_ring (id_vq d)) (used_index (id_vq d)) qs;
  ii_last : 0 ≤ last_used_index (id_vq d) < 65536;
  ii_index : used_index (id_vq d) = u16 (last_used_index (id_vq d) + Z.of_nat (length es));
  ii_top : avail_index (id_vq d) = u16 (last_used_index (id_vq d) + 16);
  ii_rings : length (used_ring (id_vq d)) = 16%nat ∧ length (avail_ring (id_vq d)) = 16%nat;
  ii_events i p e : ps !! i = Some p → es !! i = Some e → id_events d !! Z.to_nat p = Some e;
  ii_buffers : (16 ≤ length (id_events d))%nat
}.
Definition input_queue_of (d : input_dev) (es : list input_event) : Prop := ∃ ps qs, input_inv d es ps qs.

Lemma u16_ne x j : 0 ≤ x < 65536 → 0 ≤ j < 65536 → u16 (x + j) = x → j = 0.
Proof. unfold u16. intros. Z.div_mod_to_equations. lia. Qed.

(** ** The keyboard posts an event *)

Lemma post_event_inv d es ps q qs e : input_inv d es ps (q :: qs) →
  ∃ d', post_event (used_index (id_vq d)) e d = Some d' ∧ input_inv d' (es ++ [e]) (ps ++ [q]) qs ∧
    ∀ y, 0 ≤ y → y ≠ q → id_events d' !! Z.to_nat y = id_events d !! Z.to_nat y.
Proof.
  intros [H1 H2 H3 H4 H5 H6 H7 H8 H9 [Ha Hb] H11 H12]. cbn [length] in H2.
  assert (used_index (id_vq d) ≠ avail_index (id_vq d)) as Hne.
  { rewrite H8, H9. unfold u16. Z.div_mod_to_equations. lia. }
  assert (0 ≤ used_index (id_vq d) < 65536) as Hu by (rewrite H8; apply Z.mod_pos_bound; lia).
  pose proof (H6 0%nat q eq_refl) as Hq. rewrite Z.add_0_r in Hq.
  assert (0 ≤ q < 16) as Hqr.
  { apply (proj1 (Forall_forall _ _) H4). apply elem_of_app. right. apply list_elem_of_here. }
  unfold post_event. rewrite (proj2 (Z.eqb_neq _ _) Hne).
  change VIRTQ_ENTRY_NUM with 16. rewrite zlookup_nat by (apply Z.mod_pos_bound; lia). fold (ring_slot (used_index (id_vq d))).
  rewrite Hq. cbn [mbind option_bind]. eexists. split; [done|].
  split; [|cbn [id_events]; intros y Hy Hyq; rewrite list_lookup_insert_ne by lia; done].
  change (q :: qs) with ([q] ++ qs) in H3, H4. rewrite app_assoc in H3, H4.
  split; cbn [id_vq used_ring avail_ring used_index last_used_index avail_index id_events]; rewrite ?length_app; cbn [length].
  - lia.
  - lia.
  - done.
  - done.
  - apply ring_holds_snoc; [done|done|lia|]. rewrite H8, <-(Z.add_0_r (u16 _)), ring_slot_u16, Z.add_0_r. by rewrite H1.
  - by apply ring_holds_tail in H6.
  - done.
  - rewrite H8. unfold u16. rewrite Z.add_mod_idemp_l by lia. f_equal. lia.
  - done.
  - by rewrite length_insert.
  - intros i p e' Hp He'. apply lookup_snoc_Some in Hp as [[Hi Hp]|[Hi ->]].
    + apply lookup_snoc_Some in He' as [[Hi' He']|[-> _]]; [|lia].
      rewrite list_lookup_insert_ne; [by apply (H11 i)|]. intros E.
      assert (0 ≤ p < 16) as Hpr.
      { apply (proj1 (Forall_forall _ _) H4). apply elem_of_app. left. apply elem_of_app. left. by eapply list_elem_of_lookup_2. }
      assert (q = p) as -> by lia. apply NoDup_app in H3 as (H3 & _ & _). apply NoDup_app in H3 as (_ & H3 & _).
      apply (H3 p); [by eapply list_elem_of_lookup_2|apply list_elem_of_here].
    + apply lookup_snoc_Some in He' as [[Hi' _]|[_ ->]]; [lia|]. rewrite list_lookup_insert_eq; [done|]. lia.
  - by rewrite length_insert.
Qed.

(** Events posted one after the other; an event without a buffer is dropped. *)
Definition post_all (ms : list input_event) (d : input_dev) : input_dev :=
  foldl (λ d e, default d (post_event (used_index (id_vq d)) e d)) d ms.

Lemma post_all_inv ms d es ps qs1 qs2 : input_inv d es ps (qs1 ++ qs2) → length ms = length qs1 →
  input_inv (post_all ms d) (es ++ ms) (ps ++ qs1) qs2 ∧
  ∀ y, y ∈ qs2 → id_events (post_all ms d) !! Z.to_nat y = id_events d !! Z.to_nat y.
Proof.
  revert d es ps qs1. induction ms as [|e ms IH]; intros d es ps [|q qs1] Hinv Hlen; try done.
  - rewrite !app_nil_r. done.
  - cbn [length] in Hlen. cbn [app] in Hinv. destruct (post_event_inv d es ps q (qs1 ++ qs2) e Hinv) as (d' & E & Hinv' & Hev).
    unfold post_all. cbn [foldl]. rewrite E. cbn [default from_option id]. fold (post_all ms d').
    destruct (IH d' (es ++ [e]) (ps ++ [q]) qs1 Hinv') as [Hi He]; [lia|]. rewrite <-!app_assoc in Hi. split; [done|].
    intros y Hy. rewrite He by done. pose proof (ii_range _ _ _ _ Hinv) as Hr. pose proof (ii_nodup _ _ _ _ Hinv) as Hn.
    assert (y ∈ ps ++ q :: qs1 ++ qs2) as Hin by (rewrite elem_of_app, elem_of_cons, elem_of_app; auto).
    apply Hev; [by apply (proj1 (Forall_forall _ _) Hr)|]. intros ->.
    apply NoDup_app in Hn as (_ & _ & Hn). apply NoDup_cons in Hn as [Hn _]. apply Hn, elem_of_app. by right.
Qed.

(** ** Polling *)

Definition set_input (d : input_dev) (v : vstate) : vstate :=
  Vstate (units v) d (<[VIRTIO_REG_QUEUE_NOTIFY := queue_index (id_vq d)]> (v_iregs v)) (v_mem v).

Lemma recycle_inv d e es p ps qs : input_inv d (e :: es) (p :: ps) qs →
  input_inv (InputDev (id_paddr d) (avail_push p (used_next (id_vq d))) (id_events d) (id_events_paddr d)) es ps (qs ++ [p]).
Proof.
  intros [H1 H2 H3 H4 H5 H6 H7 H8 H9 [Ha Hb] H11 H12]. cbn [length] in *.
  assert (0 ≤ p < 16) as Hp by (apply (proj1 (Forall_forall _ _) H4), elem_of_cons; by left).
  split; cbn [id_vq avail_push used_next used_ring avail_ring used_index last_used_index avail_index id_events]; rewrite ?length_app; cbn [length].
  - lia.
  - lia.
  - rewrite app_assoc. by rewrite Permutation_app_comm.
  - rewrite app_assoc. by rewrite Permutation_app_comm.
  - by apply ring_holds_tail in H5.
  - change VIRTQ_ENTRY_NUM with 16. fold (ring_slot (avail_index (id_vq d))).
    replace (u16 p) with p by (unfold u16; rewrite Z.mod_small; lia).
    apply ring_holds_snoc; [done|done|lia|].
    rewrite H8, H9, ring_slot_u16, <-(Z.add_0_r (u16 _)), ring_slot_u16. unfold ring_slot. f_equal.
    rewrite H1 in H2. replace (last_used_index (id_vq d) + 16 + 0) with (last_used_index (id_vq d) + 1 * 16) by lia.
    replace (last_used_index (id_vq d) + Z.of_nat (S (length es)) + Z.of_nat (length qs)) with (last_used_index (id_vq d) + 1 * 16) by lia. done.
  - apply u16_range.
  - rewrite H8. unfold u16. rewrite Z.add_mod_idemp_l by lia. f_equal. lia.
  - rewrite H9. unfold u16. rewrite !Z.add_mod_idemp_l by lia. f_equal. lia.
  - by rewrite length_insert.
  - intros i x y Hx Hy. by apply (H11 (S i)).
  - done.
Qed.

Definition key_of (e : input_event) : option (Z * Z) :=
  if ev_type e =? EV_KEY then Some (ev_code e, if ev_value e >? 0 then 1 else 0) else None.

(** C26: polling takes the events in the order the keyboard posted them: it returns
    the key of the oldest one, or none for an event that is no key or when there
    is none, and gives the buffer back, also when further events arrive while it
    runs, as long as they fit the buffers that were free before. *)
Theorem poll_fifo v es ms : input_queue_of (v_input v) es → (length es + length ms ≤ 16)%nat →
  match es with
  | [] => virtio_input_poll_event (post_all ms) v = Ok None v
  | e :: es' => ∃ v', virtio_input_poll_event (post_all ms) v = Ok (key_of e) v' ∧
      input_queue_of (v_input v') (es' ++ ms) ∧ units v' = units v ∧ v_mem v' = v_mem v
  end.
Proof.
  intros (ps & qs & Hinv) Hroom. unfold virtio_input_poll_event, gets, mbind, M_bind.
  pose proof (ii_index _ _ _ _ Hinv) as Hx. pose proof (ii_last _ _ _ _ Hinv) as Hl. pose proof (ii_len _ _ _ _ Hinv) as Hlen.
  pose proof (ii_all _ _ _ _ Hinv) as Hall. destruct es as [|e es].
  - cbn [length] in Hx. rewrite Z.add_0_r in Hx. unfold u16 in Hx. rewrite Z.mod_small in Hx by lia. rewrite Hx, Z.eqb_refl. done.
  - destruct ps as [|p ps]; [done|]. cbn [length] in *.
    rewrite (proj2 (Z.eqb_neq _ _)).
    2: { intros E. rewrite Hx in E. symmetry in E. apply u16_ne in E; lia. }
    pose proof (ii_used _ _ _ _ Hinv 0%nat p eq_refl) as Hp. rewrite Z.add_0_r in Hp.
    change VIRTQ_ENTRY_NUM with 16. rewrite zlookup_nat by (apply Z.mod_pos_bound; lia).
    fold (ring_slot (last_used_index (id_vq (v_input v)))). rewrite Hp. cbn [expect]. unfold mret, M_ret.
    unfold upd_input, input_reg_write32, modify. cbn [v_input units v_iregs v_mem].
    pose proof (recycle_inv _ _ _ _ _ _ Hinv) as Hinv1. set (d1 := InputDev _ _ _ _) in *.
    rewrite <-(take_drop (length ms) qs), <-app_assoc in Hinv1.
    destruct (post_all_inv ms d1 es ps _ _ Hinv1) as [Hinv2 Hev]; [rewrite length_take; lia|].
    pose proof (ii_range _ _ _ _ Hinv) as Hr. assert (0 ≤ p < 16) as Hpr by (by apply Forall_cons in Hr as [? _]).
    rewrite zlookup_nat by lia. rewrite Hev by (apply elem_of_app; right; apply list_elem_of_here).
    cbn [d1 id_events]. rewrite (ii_events _ _ _ _ Hinv 0%nat p e eq_refl eq_refl). cbn [expect]. unfold mret, M_ret.
    eexists. split; [unfold key_of; destruct (ev_type e =? EV_KEY); reflexivity|]. split; [by eexists _, _|done].
Qed.

(** The queue after [virtio_input_init] is empty, with every buffer at the device. *)
Definition fresh_input (events_paddr : Z) : input_dev :=
  InputDev 268447744 (input_queue events_paddr) (replicate 512 (Event 0 0 0)) events_paddr.

Lemma fresh_input_inv a : input_inv (fresh_input a) [] [] (Z.of_nat <$> seq 0 16).
Proof.
  split; [done|done|..].
  - cbn [app]. apply NoDup_fmap_2; [intros ???; lia|apply NoDup_seq].
  - cbn [app]. apply Forall_fmap, Forall_forall. intros i [_ Hi]%elem_of_seq. cbn. lia.
  - intros i x Hi. done.
  - intros i x Hi. cbn [fresh_input id_vq input_queue avail_ring used_index]. rewrite Z.add_0_l.
    assert (i < 16)%nat as Hlt by (apply lookup_lt_Some in Hi; by rewrite length_fmap, length_seq in Hi).
    unfold ring_slot. rewrite Z.mod_small by lia. by rewrite Nat2Z.id.
  - cbn. lia.
  - done.
  - done.
  - done.
  - done.
  - cbn [fresh_input id_events]. rewrite length_replicate. lia.
Qed.

Definition key (code : Z) : input_event := Event EV_KEY code 1.
Definition typed (es : list input_event) : vstate := Vstate [] (post_all es (fresh_input 2151682048)) ∅ (Memory ∅ [] 0 0).

Lemma typed_ok es : (length es ≤ 16)%nat → input_queue_of (v_input (typed es)) es.
Proof.
  intros Hl. pose proof (fresh_input_inv 2151682048) as H. rewrite <-(take_drop (length es) (Z.of_nat <$> seq 0 16)) in H.
  destruct (post_all_inv es (fresh_input 2151682048) [] [] _ _ H) as [Hi _].
  - rewrite length_take, length_fmap, length_seq. lia.
  - by eexists _, _.
Qed.

Lemma poll_fifo_witness :
  ∃ v', virtio_input_poll_event (post_all [key 48]) (typed [key 30; key 31]) = Ok (Some (30, 1)) v' ∧
    input_queue_of (v_input v') [key 31; key 48] ∧ units v' = units (typed [key 30; key 31]) ∧
    v_mem v' = v_mem (typed [key 30; key 31]).
Proof. apply (poll_fifo (typed [key 30; key 31]) [key 30; key 31] [key 48]); [apply typed_ok; cbn; lia|cbn; lia]. Defined.

(** With all sixteen buffers full, the buffer of the oldest event goes back to
    the device before the driver has read it: an event that arrives in between
    overwrites it, and polling returns the new key while the oldest is lost. *)
Theorem poll_overwrites_oldest :
  let es := key <$> [1; 2; 3; 4; 5; 6; 7; 8; 9; 10; 11; 12; 13; 14; 15; 16] in
  ∃ v', virtio_input_poll_event (post_all [key 99]) (typed es) = Ok (Some (99, 1)) v' ∧ key_of (key 1) = Some (1, 1).
Proof.
  eexists. split; [|done]. apply (run_ok _ (typed [])). vm_compute. reflexivity.
Qed.
