(* ===== verification/KprintfSpec.v ===== *)
(** * Kernel messages: what is printed

    The conversions of [vprintf] against reference definitions of decimal and
    hexadecimal notation, and the log as a bounded, terminated text. *)

From S2P Require Import Prelude CLib KState Kprintf.

(** ** The log *)

Record log_ok (k : kmesg) : Prop := {
  lo_len : length (kmesg_buf k) = Z.to_nat KMESG_SIZE;
  lo_range : 0 ≤ kmesg_len k < KMESG_SIZE;
  lo_end : kmesg_buf k !! Z.to_nat (kmesg_len k) = Some 0
}.
Definition log_text (k : kmesg) : list Z := take (Z.to_nat (kmesg_len k)) (kmesg_buf k).

(** What fits of [l] after the text of the log. *)
Definition LOG_MAX : nat := 4095.

(** [m] appends [l], as far as there is room. *)
Definition emits (m : M kmesg unit) (l : list Z) : Prop :=
  ∀ k, log_ok k → ∃ k', m k = Ok tt k' ∧ log_ok k' ∧ log_text k' = take LOG_MAX (log_text k ++ l).

Lemma length_log_text k : log_ok k → length (log_text k) = Z.to_nat (kmesg_len k).
Proof. intros [H1 H2 _]. unfold log_text. rewrite length_take, H1. lia. Qed.

Lemma emits_nil : emits (mret tt) [].
Proof.
  intros k Hk. exists k. split; [done|]. split; [done|]. rewrite app_nil_r, take_ge; [done|].
  rewrite length_log_text by done. pose proof (lo_range k Hk). unfold KMESG_SIZE, LOG_MAX in *. lia.
Qed.

Lemma emits_bind m n l l' : emits m l → emits n l' → emits (m;; n) (l ++ l').
Proof.
  intros Hm Hn k Hk. destruct (Hm k Hk) as (k1 & E1 & Hk1 & T1). destruct (Hn k1 Hk1) as (k2 & E2 & Hk2 & T2).
  exists k2. split; [unfold mbind, M_bind; by rewrite E1|]. split; [done|].
  rewrite T2, T1, take_take_app. by rewrite app_assoc.
Qed.

Lemma emits_kputc c : emits (kputc c) [u8 c].
Proof.
  intros k Hk. pose proof (lo_range k Hk) as Hr. pose proof (lo_len k Hk) as Hl. pose proof (length_log_text k Hk) as Ht.
  unfold kputc, mbind, M_bind, get. unfold KMESG_SIZE, LOG_MAX in *.
  destruct (Z.ltb_spec (kmesg_len k) (4096 - 1)) as [Hlt|Hge].
  - destruct (Nat.ltb_spec (Z.to_nat (kmesg_len k + 1)) (length (kmesg_buf k))) as [Hin|Hout]; [|lia].
    eexists. split; [done|]. split.
    + split; cbn [kmesg_buf kmesg_len]; unfold KMESG_SIZE.
      * by rewrite !length_insert.
      * lia.
      * rewrite list_lookup_insert_eq; [done|]. rewrite length_insert. lia.
    + unfold log_text at 1. cbn [kmesg_buf kmesg_len]. rewrite take_insert_ge by lia.
      replace (Z.to_nat (kmesg_len k + 1)) with (S (Z.to_nat (kmesg_len k))) by lia.
      erewrite take_S_r by (apply list_lookup_insert_eq; lia). rewrite take_insert_ge by lia.
      fold (log_text k). rewrite take_ge; [done|]. rewrite length_app, Ht. cbn. lia.
  - exists k. split; [done|]. split; [done|]. rewrite take_app_le, take_ge by lia. done.
Qed.

Lemma emits_kputs l : emits (kputs l) (u8 <$> l).
Proof.
  induction l as [|c l IH]; cbn [kputs fmap list_fmap]; [apply emits_nil|].
  change (u8 c :: (u8 <$> l)) with ([u8 c] ++ (u8 <$> l)). by apply emits_bind; [apply emits_kputc|].
Qed.

(** ** Padding *)

Definition pad_to (left_align : bool) (width : Z) (body : list Z) : list Z :=
  let pad := replicate (Z.to_nat (width - Z.of_nat (length body))) 32 in
  if left_align then body ++ pad else pad ++ body.

Lemma emits_pad n : emits (put_pad n) (replicate (Z.to_nat n) 32).
Proof. unfold put_pad. pose proof (emits_kputs (replicate (Z.to_nat n) 32)) as H. by rewrite fmap_replicate in H. Qed.

Lemma emits_padded (la : bool) w (m : M kmesg unit) body : emits m body →
  emits ((if negb la then put_pad (w - Z.of_nat (length body)) else mret tt);; m;;
         (if la then put_pad (w - Z.of_nat (length body)) else mret tt)) (pad_to la w body).
Proof.
  intros Hm. unfold pad_to. destruct la; cbn [negb].
  - apply (emits_bind _ _ []); [apply emits_nil|]. apply emits_bind; [done|apply emits_pad].
  - apply emits_bind; [apply emits_pad|]. pose proof (emits_bind m (mret tt) body [] Hm emits_nil) as H. by rewrite app_nil_r in H.
Qed.

Lemma emits_chars s rest : nonzero s → emits (put_chars (s ++ 0 :: rest)) s.
Proof.
  induction 1 as [|c s Hc Hs IH]; cbn [app put_chars]; [apply emits_nil|]. zb.
  change (c :: s) with ([c] ++ s). apply emits_bind; [|done].
  pose proof (emits_kputc c) as H. unfold u8 in H. by rewrite Z.mod_small in H by lia.
Qed.

(** ** Decimal notation *)

(** The reference: most significant digit first. *)
Fixpoint dec_digits (fuel : nat) (x : Z) : list Z :=
  match fuel with
  | O => []
  | S fuel => if x <? 10 then [48 + x] else dec_digits fuel (x / 10) ++ [48 + x mod 10]
  end.
Definition decimal (value : Z) : list Z :=
  if value <? 0 then 45 :: dec_digits 10 (- value) else dec_digits 10 value.

(** [k + 1] digits, with leading zeros. *)
Fixpoint fixed_digits (k : nat) (x : Z) : list Z :=
  match k with
  | O => [48 + x]
  | S k => 48 + x / 10 ^ Z.of_nat (S k) :: fixed_digits k (x mod 10 ^ Z.of_nat (S k))
  end.

Lemma length_fixed_digits k x : length (fixed_digits k x) = S k.
Proof. revert x. induction k as [|k IH]; intros x; cbn [fixed_digits length]; [done|]. by rewrite IH. Qed.

Lemma pow10_S k : 10 ^ Z.of_nat (S k) = 10 * 10 ^ Z.of_nat k.
Proof. rewrite Nat2Z.inj_succ, Z.pow_succ_r by lia. done. Qed.

Lemma pow10_pos k : 0 < 10 ^ Z.of_nat k.
Proof. apply Z.pow_pos_nonneg; lia. Qed.

Lemma fixed_digits_last k x : 0 ≤ x → fixed_digits (S k) x = fixed_digits k (x / 10) ++ [48 + x mod 10].
Proof.
  revert x. induction k as [|k IH]; intros x Hx; [done|].
  change (fixed_digits (S (S k)) x) with (48 + x / 10 ^ Z.of_nat (S (S k)) :: fixed_digits (S k) (x mod 10 ^ Z.of_nat (S (S k)))).
  pose proof (pow10_pos (S k)) as Hp. rewrite (pow10_S (S k)).
  set (q := 10 ^ Z.of_nat (S k)) in *. pose proof (Z.mod_pos_bound x (10 * q) ltac:(lia)) as Hb.
  rewrite IH by lia. cbn [fixed_digits app]. fold q.
  rewrite Z.div_div by lia. f_equal. f_equal.
  - f_equal. rewrite Z.rem_mul_r by lia. rewrite Z.mul_comm, Z.div_add, Z.div_small by (apply Z.mod_pos_bound || lia; lia). lia.
  - do 2 f_equal. rewrite Z.rem_mul_r by lia. by rewrite Z.mul_comm, Z.mod_add, Z.mod_mod by lia.
Qed.

Lemma fixed_dec_digits k x fuel : (k < fuel)%nat → 0 ≤ x → (k = 0%nat ∨ 10 ^ Z.of_nat k ≤ x) → x < 10 ^ Z.of_nat (S k) →
  fixed_digits k x = dec_digits fuel x.
Proof.
  revert x fuel. induction k as [|k IH]; intros x [|fuel] Hf Hx Hlow Hup; try lia; cbn [dec_digits].
  - change (10 ^ Z.of_nat 1) with 10 in Hup. by zb.
  - destruct Hlow as [|Hlow]; [lia|]. rewrite (pow10_S (S k)) in Hup. rewrite pow10_S in *. pose proof (pow10_pos k).
    zb. rewrite fixed_digits_last by done. f_equal. apply IH; [lia|apply Z.div_pos; lia| |].
    + destruct k; [by left|right]. apply Z.div_le_lower_bound; lia.
    + apply Z.div_lt_upper_bound; lia.
Qed.

Lemma grow_div_spec n j mag : (n + j = 10)%nat → 0 ≤ mag < 4294967296 → (j = 0%nat ∨ 10 ^ Z.of_nat j ≤ mag) →
  ∃ k, (k < 10)%nat ∧ grow_div n mag (10 ^ Z.of_nat j) = 10 ^ Z.of_nat k ∧
    (k = 0%nat ∨ 10 ^ Z.of_nat k ≤ mag) ∧ mag < 10 ^ Z.of_nat (S k).
Proof.
  revert j. induction n as [|n IH]; intros j Hn Hm Hj.
  - exfalso. assert (j = 10%nat) as -> by lia. destruct Hj as [|Hj]; [done|]. change (10 ^ Z.of_nat 10) with 10000000000 in Hj. lia.
  - cbn [grow_div]. pose proof (pow10_pos j) as Hp. destruct (Z.gtb_spec (mag / 10 ^ Z.of_nat j) 9) as [Hgt|Hle].
    + assert (10 ^ Z.of_nat (S j) ≤ mag) as Hnext.
      { rewrite pow10_S. assert (10 ≤ mag / 10 ^ Z.of_nat j) by lia. pose proof (Z.mul_div_le mag (10 ^ Z.of_nat j) Hp). nia. }
      rewrite u32_small by (rewrite pow10_S in Hnext; lia). rewrite Z.mul_comm, <-pow10_S.
      apply IH; [lia|done|by right].
    + exists j. split; [lia|]. split; [done|]. split; [done|]. rewrite pow10_S.
      assert (mag / 10 ^ Z.of_nat j < 10) as Hlt by lia. apply Z.div_lt_upper_bound in Hle || idtac.
      pose proof (Z_div_mod_eq_full mag (10 ^ Z.of_nat j)). pose proof (Z.mod_pos_bound mag _ Hp). nia.
Qed.

Lemma emits_digits n k mag : (k < n)%nat → 0 ≤ mag < 10 ^ Z.of_nat (S k) →
  emits (put_digits n mag (10 ^ Z.of_nat k)) (fixed_digits k mag).
Proof.
  revert k mag. induction n as [|n IH]; intros k mag Hk Hm; [lia|]. cbn [put_digits].
  pose proof (pow10_pos k) as Hp. rewrite (gtb_true (10 ^ Z.of_nat k) 0) by done. rewrite pow10_S in Hm.
  assert (0 ≤ mag / 10 ^ Z.of_nat k < 10) as Hd.
  { split; [apply Z.div_pos; lia|]. apply Z.div_lt_upper_bound; lia. }
  assert (emits (kputc (48 + mag / 10 ^ Z.of_nat k)) [48 + mag / 10 ^ Z.of_nat k]) as H1.
  { pose proof (emits_kputc (48 + mag / 10 ^ Z.of_nat k)) as H. unfold u8 in H. by rewrite Z.mod_small in H by lia. }
  pose proof (Z.mod_pos_bound mag _ Hp) as Hmod. destruct k as [|k].
  - cbn [fixed_digits]. change (10 ^ Z.of_nat 0) with 1 in *. rewrite Z.div_1_r in *.
    change [48 + mag] with ([48 + mag] ++ []). apply emits_bind; [done|].
    destruct n; [apply emits_nil|]. cbn [put_digits]. apply emits_nil.
  - cbn [fixed_digits]. apply (emits_bind _ _ [48 + mag / 10 ^ Z.of_nat (S k)]); [done|].
    replace (10 ^ Z.of_nat (S k) / 10) with (10 ^ Z.of_nat k) by (rewrite pow10_S, Z.mul_comm, Z.div_mul by lia; done).
    apply IH; [lia|done].
Qed.

Lemma count_digits_spec n k temp len : (k < n)%nat → 10 ^ Z.of_nat k ≤ temp < 10 ^ Z.of_nat (S k) →
  count_digits n temp len = len + Z.of_nat (S k).
Proof.
  revert k temp len. induction n as [|n IH]; intros k temp len Hk Ht; [lia|]. cbn [count_digits].
  pose proof (pow10_pos k). zb. destruct k as [|k].
  - change (10 ^ Z.of_nat 0) with 1 in Ht. change (10 ^ Z.of_nat 1) with 10 in Ht. rewrite Z.div_small by lia.
    destruct n; cbn [count_digits]; [lia|]. zb. lia.
  - rewrite !pow10_S in Ht. rewrite (IH k); [lia|lia|]. rewrite pow10_S.
    split; [apply Z.div_le_lower_bound; lia|apply Z.div_lt_upper_bound; lia].
Qed.

Lemma length_dec_digits mag : 0 ≤ mag < 4294967296 →
  Z.of_nat (length (dec_digits 10 mag)) = if mag =? 0 then 1 else count_digits 10 mag 0.
Proof.
  intros Hm. destruct (grow_div_spec 10 0 mag) as (k & Hk & _ & Hlow & Hup); [done|done|by left|].
  rewrite <-(fixed_dec_digits k) by (done || lia). rewrite length_fixed_digits.
  destruct (Z.eqb_spec mag 0) as [->|Hne].
  - destruct Hlow as [->|Hlow]; [done|]. pose proof (pow10_pos k). lia.
  - rewrite (count_digits_spec 10 k); [lia|done|]. split; [|done]. destruct Hlow as [->|]; [|done]. cbn. lia.
Qed.

Lemma emits_magnitude mag : 0 ≤ mag < 4294967296 →
  emits (put_digits 10 mag (grow_div 10 mag 1)) (dec_digits 10 mag).
Proof.
  intros Hm. destruct (grow_div_spec 10 0 mag) as (k & Hk & Eg & Hlow & Hup); [done|done|by left|].
  change (10 ^ Z.of_nat 0) with 1 in Eg. rewrite Eg, <-(fixed_dec_digits k) by (done || lia).
  apply emits_digits; [done|]. lia.
Qed.

Definition is_int (v : Z) : Prop := -2147483648 ≤ v < 2147483648.

Lemma emits_decimal la w v : is_int v → emits (put_decimal la w v) (pad_to la w (decimal v)).
Proof.
  intros Hv. unfold is_int in Hv. unfold put_decimal, decimal. set (mag := if v <? 0 then u32 (- u32 v) else u32 v).
  assert (mag = Z.abs v) as ->.
  { unfold mag. zcase.
    - unfold u32. rewrite <-(Z.mod_unique_pos v 4294967296 (-1) (v + 4294967296)) by lia.
      rewrite <-(Z.mod_unique_pos _ 4294967296 (-1) (- v)) by lia. lia.
    - rewrite u32_small by lia. lia. }
  set (body := if v <? 0 then 45 :: dec_digits 10 (- v) else dec_digits 10 v).
  assert (Z.of_nat (length body) = (if v <? 0 then 1 else 0) + (if Z.abs v =? 0 then 1 else count_digits 10 (Z.abs v) 0)) as <-.
  { rewrite <-length_dec_digits by lia. unfold body. zcase; cbn [length].
    - replace (Z.abs v) with (- v) by lia. lia.
    - replace (Z.abs v) with v by lia. lia. }
  assert (emits ((if v <? 0 then kputc 45 else mret tt);; put_digits 10 (Z.abs v) (grow_div 10 (Z.abs v) 1)) body) as Hb.
  { unfold body. zcase.
    - apply (emits_bind _ _ [45]); [apply (emits_kputc 45)|]. replace (Z.abs v) with (- v) by lia. apply emits_magnitude. lia.
    - apply (emits_bind _ _ []); [apply emits_nil|]. replace (Z.abs v) with v by lia. apply emits_magnitude. lia. }
  intros k Hk. destruct (emits_padded la w _ _ Hb k Hk) as (k' & E & Hk'). exists k'. split; [|done]. rewrite <-E.
  set (a := if negb la then put_pad (w - Z.of_nat (length body)) else mret tt).
  set (b := if v <? 0 then kputc 45 else mret tt).
  unfold mbind, M_bind. destruct (a k) as [[] k1| | |]; [|done..]. by destruct (b k1).
Qed.

(** ** Hexadecimal notation *)

(** The reference: exactly [n] digits. *)
Fixpoint hexadecimal (n : nat) (x : Z) : list Z :=
  match n with O => [] | S n => hexadecimal n (x / 16) ++ [hex_digit (x mod 16)] end.

Lemma hex_digit_byte x : 0 ≤ x < 16 → u8 (hex_digit x) = hex_digit x.
Proof. intros Hx. unfold hex_digit, u8. destruct (Z.ltb_spec x 10); rewrite Z.mod_small; lia. Qed.

(** The digits from nibble [n - 1] down. *)
Fixpoint nibbles (n : nat) (x : Z) : list Z :=
  match n with O => [] | S i => hex_digit (x / 16 ^ Z.of_nat i mod 16) :: nibbles i x end.

Lemma emits_hex n x : emits (put_hex n x) (nibbles n x).
Proof.
  induction n as [|n IH]; cbn [put_hex nibbles]; [apply emits_nil|].
  apply (emits_bind _ _ [_]); [|done]. change 15 with (Z.ones 4).
  rewrite Z.land_ones, Z.shiftr_div_pow2, (Z.mul_comm (Z.of_nat n)), Z.pow_mul_r by lia.
  change (2 ^ 4) with 16. pose proof (emits_kputc (hex_digit (x / 16 ^ Z.of_nat n mod 16))) as H.
  by rewrite hex_digit_byte in H by (apply Z.mod_pos_bound; lia).
Qed.

Lemma nibbles_last n x : nibbles (S n) x = nibbles n (x / 16) ++ [hex_digit (x mod 16)].
Proof.
  induction n as [|n IH].
  - cbn. by rewrite Z.div_1_r.
  - change (nibbles (S (S n)) x) with (hex_digit (x / 16 ^ Z.of_nat (S n) mod 16) :: nibbles (S n) x).
    rewrite IH. cbn [nibbles app]. rewrite Nat2Z.inj_succ, Z.pow_succ_r, Z.div_div by lia. done.
Qed.

Lemma nibbles_hexadecimal n x : nibbles n x = hexadecimal n x.
Proof. revert x. induction n as [|n IH]; intros x; [done|]. rewrite nibbles_last, IH. done. Qed.

(** ** Formats *)

(** The parts of a format, with the arguments they take. *)
Inductive piece :=
| Lit (c : Z)
| Percent
| Str (left_align : bool) (width : option Z) (s : list Z)
| Dec (left_align : bool) (width : option Z) (v : Z)
| Hex (v : Z).

Definition piece_ok (p : piece) : Prop :=
  match p with
  | Lit c => 0 < c < 256 ∧ c ≠ 37
  | Str _ w s => nonzero s
  | Dec _ w v => is_int v
  | Hex v => is_int v
  | Percent => True
  end.

Definition flags_of (left_align : bool) (width : option Z) : list Z :=
  (if left_align then [45] else []) ++ (match width with Some _ => [42] | None => [] end).
Definition width_arg (width : option Z) : list varg := match width with Some w => [VInt w] | None => [] end.

(** The format text of a part, its arguments and its output. *)
Definition piece_fmt (p : piece) : list Z :=
  match p with
  | Lit c => [c]
  | Percent => [37; 37]
  | Str la w _ => 37 :: flags_of la w ++ [115]
  | Dec la w _ => 37 :: flags_of la w ++ [100]
  | Hex _ => [37; 120]
  end.
Definition piece_args (p : piece) : list varg :=
  match p with
  | Lit _ | Percent => []
  | Str _ w s => width_arg w ++ [VStr (s ++ [0])]
  | Dec _ w v => width_arg w ++ [VInt v]
  | Hex v => [VInt v]
  end.
Definition piece_out (p : piece) : list Z :=
  match p with
  | Lit c => [c]
  | Percent => [37]
  | Str la w s => pad_to la (default 0 w) s
  | Dec la w v => pad_to la (default 0 w) (decimal v)
  | Hex v => hexadecimal 8 (u32 v)
  end.

Definition then_inl {A} (m : M kmesg unit) (a : A) : M kmesg (A + unit) := m;; mret (inl a).

Lemma emits_string la w s : nonzero s → emits (put_string la w (s ++ [0])) (pad_to la w s).
Proof.
  intros Hs. unfold put_string. rewrite strlen_spec by done.
  exact (emits_padded la w _ _ (emits_chars s [] Hs)).
Qed.

(** One part of the format is one round of the loop. *)
Lemma vprintf_piece p fmt args : piece_ok p →
  ∃ m, (∀ k, vprintf_step (piece_fmt p ++ fmt, piece_args p ++ args) k = then_inl m (fmt, args) k) ∧ emits m (piece_out p).
Proof.
  intros Hp. destruct p as [c| |la w s|la w v|v]; cbn [piece_ok piece_out] in *.
  - exists (kputc c). split.
    + intros k. unfold vprintf_step. cbn [piece_fmt piece_args app head tail expect].
      unfold mbind at 1, M_bind at 1, mret at 1, M_ret at 1. by zb.
    + pose proof (emits_kputc c) as H. unfold u8 in H. by rewrite Z.mod_small in H by lia.
  - exists (kputc 37). split; [done|]. apply (emits_kputc 37).
  - exists (put_string la (default 0 w) (s ++ [0])). split; [|by apply emits_string].
    intros k. by destruct la, w.
  - exists (put_decimal la (default 0 w) v). split; [|by apply emits_decimal].
    intros k. by destruct la, w.
  - exists (put_hex 8 (u32 v)). split; [done|]. rewrite <-nibbles_hexadecimal. apply emits_hex.
Qed.

Lemma piece_fmt_pos p : (0 < length (piece_fmt p))%nat.
Proof. destruct p; cbn; lia. Qed.

Lemma vprintf_loop ps fuel : Forall piece_ok ps → (length (concat (piece_fmt <$> ps)) < fuel)%nat →
  emits (loop fuel vprintf_step (concat (piece_fmt <$> ps) ++ [0], concat (piece_args <$> ps))) (concat (piece_out <$> ps)).
Proof.
  intros Hps. revert fuel. induction Hps as [|p ps Hp Hps IH]; intros fuel Hf.
  - destruct fuel; [lia|]. exact emits_nil.
  - destruct fuel as [|fuel]; [lia|]. cbn [fmap list_fmap concat] in *. rewrite length_app in Hf.
    pose proof (piece_fmt_pos p). rewrite <-!app_assoc.
    destruct (vprintf_piece p (concat (piece_fmt <$> ps) ++ [0]) (concat (piece_args <$> ps)) Hp) as (m & Hstep & Hm).
    intros k Hk. destruct (emits_bind _ _ _ _ Hm (IH fuel ltac:(lia)) k Hk) as (k' & E & Hk'). exists k'. split; [|done].
    rewrite <-E. cbn [loop]. unfold mbind at 1, M_bind at 1. rewrite Hstep. unfold then_inl, mbind, M_bind, mret, M_ret.
    by destruct (m k) as [[] k1| | |].
Qed.

(** C27: [kprintf] prints, for each part of its format, the character, the string
    or the number in decimal or hexadecimal notation, padded to the requested
    width on the requested side, in order; the log takes what fits and stays
    terminated inside its array. *)
Theorem kprintf_prints ps k : Forall piece_ok ps → log_ok k →
  ∃ k', kprintf (concat (piece_fmt <$> ps) ++ [0]) (concat (piece_args <$> ps)) k = Ok tt k' ∧
    log_ok k' ∧ log_text k' = take LOG_MAX (log_text k ++ concat (piece_out <$> ps)).
Proof.
  intros Hps Hk. apply vprintf_loop; [done| |done]. rewrite length_app. cbn. lia.
Qed.

Definition log_zero : kmesg := Kmesg (zeros 4096) 0.
Lemma log_zero_ok : log_ok log_zero.
Proof. split; [done|cbn; unfold KMESG_SIZE; lia|vm_compute; done]. Qed.

(** "pid %-*d|%x%%" *)
Definition sample_format : list piece := [Lit 112; Lit 105; Lit 100; Lit 32; Dec true (Some 6) (-42); Lit 124; Hex 48879; Percent].

Lemma kprintf_prints_witness :
  ∃ k', kprintf (concat (piece_fmt <$> sample_format) ++ [0]) (concat (piece_args <$> sample_format)) log_zero = Ok tt k' ∧
    log_ok k' ∧ log_text k' = take LOG_MAX (log_text log_zero ++ concat (piece_out <$> sample_format)).
Proof. apply (kprintf_prints sample_format log_zero); [repeat constructor; cbn; unfold is_int; lia|apply log_zero_ok]. Defined.

(** ** Reading numbers back *)

Definition digits_value (l : list Z) : Z := foldl (λ acc c, 10 * acc + (c - 48)) 0 l.
Definition parse_int (l : list Z) : Z :=
  match l with c :: ds => if c =? 45 then - digits_value ds else digits_value l | [] => 0 end.

Lemma digits_value_app l c : digits_value (l ++ [c]) = 10 * digits_value l + (c - 48).
Proof. unfold digits_value. by rewrite foldl_app. Qed.

Lemma digits_value_dec fuel x : 0 ≤ x < 10 ^ Z.of_nat fuel → digits_value (dec_digits fuel x) = x.
Proof.
  revert x. induction fuel as [|fuel IH]; intros x Hx; [change (10 ^ Z.of_nat 0) with 1 in Hx; cbn; lia|].
  rewrite pow10_S in Hx. cbn [dec_digits]. zcase; [cbn; lia|].
  rewrite digits_value_app, IH; [pose proof (Z_div_mod_eq_full x 10); lia|].
  split; [apply Z.div_pos; lia|apply Z.div_lt_upper_bound; lia].
Qed.

Lemma dec_digits_head fuel x : 0 ≤ x < 10 ^ Z.of_nat (S fuel) → ∃ c l, dec_digits (S fuel) x = c :: l ∧ c ≠ 45.
Proof.
  revert x. induction fuel as [|fuel IH]; intros x Hx.
  - change (10 ^ Z.of_nat 1) with 10 in Hx. cbn [dec_digits]. zb. exists (48 + x), []. split; [done|lia].
  - rewrite pow10_S in Hx. change (dec_digits (S (S fuel)) x) with
      (if x <? 10 then [48 + x] else dec_digits (S fuel) (x / 10) ++ [48 + x mod 10]).
    zcase; [exists (48 + x), []; split; [done|lia]|].
    destruct (IH (x / 10)) as (c & l & -> & Hc); [split; [apply Z.div_pos; lia|apply Z.div_lt_upper_bound; lia]|].
    by exists c, (l ++ [48 + x mod 10]).
Qed.

(** What [%d] prints for an [int] reads back as that number, the smallest one
    included. *)
Theorem decimal_roundtrip v : is_int v → ∃ l, emits (put_decimal false 0 v) l ∧ parse_int l = v.
Proof.
  intros Hv. exists (decimal v). split.
  - pose proof (emits_decimal false 0 v Hv) as H. unfold pad_to in H.
    by replace (Z.to_nat (0 - Z.of_nat (length (decimal v)))) with 0%nat in H by lia.
  - unfold is_int in Hv. unfold decimal. zcase.
    + cbn [parse_int Z.eqb Pos.eqb]. rewrite digits_value_dec; [lia|]. change (10 ^ Z.of_nat 10) with 10000000000. lia.
    + assert (0 ≤ v < 10 ^ Z.of_nat 10) as Hr by (change (10 ^ Z.of_nat 10) with 10000000000; lia).
      destruct (dec_digits_head 9 v Hr) as (c & l & E & Hc). rewrite <-(digits_value_dec 10 v Hr) at 2. rewrite E.
      unfold parse_int. by rewrite (proj2 (Z.eqb_neq c 45)).
Qed.

Lemma decimal_roundtrip_witness :
  is_int (-2147483648) ∧ ∃ l, emits (put_decimal false 0 (-2147483648)) l ∧ parse_int l = -2147483648.
Proof. split; [unfold is_int; lia|]. apply decimal_roundtrip. unfold is_int. lia. Defined.
