(* ===== verification/UserMem.v ===== *)
(** * User memory: definitions

    The checks of kernel.c on pointers that a program passes to a system call,
    and the kernel's own accesses through such pointers, which the processor
    translates with the page table in [satp]. *)

From S2P Require Import Prelude CLib FsTypes KState Page.

(** A loop of at most [2 ^ n] rounds, left as soon as the body says so. *)
Fixpoint loop_upto {S X A} (n : nat) (body : X → M S (X + A)) (x : X) : M S (X + A) :=
  match n with
  | O => body x
  | Datatypes.S n => r ← loop_upto n body x;
      match r with inl x' => loop_upto n body x' | inr a => mret (inr a) end
  end.

Definition USER_TOP : Z := 2147483648.
Definition PAGE_MASK : Z := 4294963200.

Definition get_active_page_table (m : memory) : Z := u32 (Z.land (satp m) 4194303 * PAGE_SIZE).

(** The test of one page: both levels valid, the page accessible to user code
    and carrying [flags]. *)
Definition check_page (flags t1 va : Z) : M memory bool :=
  e ← load32 (t1 + 4 * vpn1 va);
  if negb (is_valid e) then mret false else
  entry ← load32 (target e + 4 * vpn0 va);
  if negb (is_valid entry) then mret false else
  if negb (has_flag entry PAGE_U) then mret false else
  if negb (Z.land entry flags =? flags) then mret false else
  mret true.

Definition validate_pages (flags addr len : Z) : M memory bool :=
  let start := addr in
  let end_ := u32 (start + len) in
  if end_ <? start then mret false else
  if end_ >? USER_TOP then mret false else
  t1 ← gets get_active_page_table;
  let page_start := Z.land start PAGE_MASK in
  let page_end := Z.land (u32 (end_ + PAGE_SIZE - 1)) PAGE_MASK in
  loop (Z.to_nat ((page_end - page_start) / PAGE_SIZE) + 1) (λ va,
    if va <? page_end then
      ok ← check_page flags t1 va;
      if negb ok then mret (inr false) else mret (inl (u32 (va + PAGE_SIZE)))
    else mret (inr true)) page_start.

Definition validate_user_write_buffer (addr len : Z) : M memory bool := validate_pages PAGE_W addr len.
Definition validate_user_read_buffer (addr len : Z) : M memory bool := validate_pages 0 addr len.

(** ** Accesses through the page table

    The SV32 walk of the processor in supervisor mode with SUM set; the kernel
    makes no superpages. *)

Definition translate (m : memory) (access va : Z) : option Z :=
  let e1 := word m (Z.land (satp m) 4194303 * PAGE_SIZE + 4 * vpn1 va) in
  if is_valid e1 && (Z.land e1 (Z.lor PAGE_R (Z.lor PAGE_W PAGE_X)) =? 0) then
    let e := word m (Z.shiftr e1 10 * PAGE_SIZE + 4 * vpn0 va) in
    if is_valid e && has_flag e access then Some (Z.shiftr e 10 * PAGE_SIZE + va mod PAGE_SIZE) else None
  else None.

Definition load_user (va : Z) : M memory Z :=
  m ← get; pa ← expect (translate m PAGE_R va); b ← load_in_page pa 1; expect (head b).

Definition store_user (va : Z) (l : list Z) : M memory unit :=
  m ← get; pa ← expect (translate m PAGE_W va); store_in_page pa l.

Definition copy_to_user (va : Z) (l : list Z) : M memory unit :=
  for_pages (Z.to_nat (Z.of_nat (length l) / PAGE_SIZE) + 2) store_user va l.

Fixpoint load_user_pages (fuel : nat) (va : Z) (n : nat) : M memory (list Z) :=
  match fuel, n with
  | _, O => mret []
  | O, _ => hang
  | S fuel, _ =>
      let k := Nat.min n (Z.to_nat (PAGE_SIZE - va mod PAGE_SIZE)) in
      m ← get; pa ← expect (translate m PAGE_R va);
      l ← load_in_page pa (Z.of_nat k);
      rest ← load_user_pages fuel (va + Z.of_nat k) (n - k);
      mret (l ++ rest)
  end.
Definition copy_from_user (va n : Z) : M memory (list Z) :=
  load_user_pages (Z.to_nat (n / PAGE_SIZE) + 2) va (Z.to_nat n).

(** ** Strings *)

Definition validate_user_string (str : Z) : M memory bool :=
  t1 ← gets get_active_page_table;
  if str >=? USER_TOP then mret false else
  ok ← check_page 0 t1 (Z.land str PAGE_MASK);
  if negb ok then mret false else
  r ← loop_upto 31 (λ va,
    ok ← (if Z.land va (PAGE_SIZE - 1) =? 0 then check_page 0 t1 va else mret true);
    if negb ok then mret (inr false) else
    c ← load_user va;
    if c =? 0 then mret (inr true) else
    let va := u32 (va + 1) in
    if va >=? USER_TOP then mret (inr false) else mret (inl va)) str;
  match r with inr b => mret b | inl _ => hang end.

(** The string at a pointer, with its terminator, as the callees read it. *)
Definition user_string (str : Z) : M memory (list Z) :=
  r ← loop_upto 31 (λ x : Z * list Z, let '(va, acc) := x in
    c ← load_user va;
    if c =? 0 then mret (inr (rev acc ++ [0])) else mret (inl (u32 (va + 1), c :: acc))) (str, []);
  match r with inr s => mret s | inl _ => hang end.
