(* ===== verification/FdTable.v ===== *)
(** * The file table and the file descriptors: definitions

    kernel/file.c, and the operations of kernel/fs.c that work on file
    descriptors. A console read gives up the processor while no character is
    there, through [yield]; what the other processes do meanwhile is the
    argument [yield] of [fs_read]. *)

From S2P Require Import Prelude CLib FsTypes Block Inode Dir KState.

(** ** kernel/file.c *)

Definition file_init : M kernel unit :=
  modify (set_file_table (λ _, replicate GLOBAL_OPEN_FILE_LIMIT file_zero)).

(** The first slot without references. *)
Definition file_free (t : list File) : option nat := fst <$> list_find (λ f, f_ref f = 0) t.

Definition file_alloc : M kernel (option nat) :=
  t ← gets file_table;
  match file_free t with
  | Some i => upd_file i (λ _, mkFile 1 FD_NONE false false None 0);; mret (Some i)
  | None => mret None
  end.

Definition file_create (type : FileDescType) (flags : Z) : M kernel (option nat) :=
  f ← file_alloc;
  match f with
  | None => mret None
  | Some i =>
      upd_file i (λ f, mkFile (f_ref f) type (has_flag flags FILECTRL_READONLY)
        (has_flag flags FILECTRL_WRITEONLY) None 0);;
      mret (Some i)
  end.

Definition file_dup (f : option nat) : M kernel (option nat) :=
  match f with
  | None => mret None
  | Some i =>
      x ← file i;
      if f_ref x <=? 0 then panic else
      upd_file i (λ x, set_f_ref (f_ref x + 1) x);; mret (Some i)
  end.

Definition file_close (f : option nat) : M kernel unit :=
  match f with
  | None => mret tt
  | Some i =>
      x ← file i;
      if f_ref x <=? 0 then panic else
      upd_file i (λ x, set_f_ref (f_ref x - 1) x);;
      if f_ref x - 1 =? 0 then
        (match f_ip x with
         | Some _ => in_fs (iput (f_ip x));; upd_file i (set_f_ip None)
         | None => mret tt
         end);;
        upd_file i (set_f_type FD_NONE)
      else mret tt
  end.

(** ** Descriptors *)

(** [for (fd = 0; ...) if (proc->ofile[fd] == NULL)]: the first free descriptor. *)
Definition fd_free (l : list (option nat)) : option nat := fst <$> list_find (λ e, e = None) l.

(** Store [f] in the first free descriptor of the current process. *)
Definition fd_install (f : nat) : M kernel (option Z) :=
  c ← current; p ← proc c;
  match fd_free (ofile p) with
  | Some fd => upd_proc c (λ p, set_ofile (<[fd := Some f]> (ofile p)) p);; mret (Some (Z.of_nat fd))
  | None => mret None
  end.

Definition alloc_file_descriptor (p : ptr) (flags : Z) : M kernel Z :=
  f ← file_create FD_INODE flags;
  match f with
  | None => in_fs (iput p);; mret ERR_NO_SPACE
  | Some i =>
      ip ← in_fs (deref p);
      upd_file i (λ f, set_f_off (if has_flag flags FILECTRL_APPEND then size (din ip) else 0)
        (set_f_ip p f));;
      r ← fd_install i;
      match r with
      | Some fd => mret fd
      | None => file_close (Some i);; mret ERR_NO_SPACE
      end
  end.

(** The current directory of the running process, as [namex] reads it. *)
Definition process_cwd : M kernel ptr :=
  c ← get_current_process;
  match c with
  | None => mret None
  | Some c => p ← proc c; mret (cwd p)
  end.

Definition WRITE_FLAGS : Z :=
  Z.lor FILECTRL_WRITEONLY (Z.lor FILECTRL_CREATE (Z.lor FILECTRL_TRUNCATE FILECTRL_APPEND)).

Definition fs_create (path : list Z) (flags : Z) : M kernel Z :=
  c ← process_cwd;
  r ← in_fs (namex c path true);
  let '(dp, file_part) := r in
  match dp with
  | None => mret ERR_NOT_FOUND
  | Some _ =>
      dip ← in_fs (deref dp);
      if (dev dip =? 0) && has_flag flags WRITE_FLAGS then
        in_fs (iput dp);; mret ERR_PERMISSION_DENIED
      else
      r ← in_fs (dirlookup dp file_part);
      match r with
      | None =>
          dip ← in_fs (deref dp);
          p ← in_fs (ialloc (dev dip) FT_FILE);
          match p with
          | None => in_fs (iput dp);; mret ERR_NO_SPACE
          | Some _ =>
              ip ← in_fs (deref p);
              l ← in_fs (dirlink dp file_part (inum ip));
              if l <? 0 then in_fs (iput p);; in_fs (iput dp);; mret ERR_NO_SPACE
              else in_fs (iput dp);; alloc_file_descriptor p flags
          end
      | Some (i, _) =>
          in_fs (ilock (Some i));;
          ip ← in_fs (deref (Some i));
          (if has_flag flags FILECTRL_TRUNCATE && (d_type (din ip) =? FT_FILE)
           then in_fs (itrunc (Some i) 0) else mret tt);;
          in_fs (iput dp);;
          alloc_file_descriptor (Some i) flags
      end
  end.

(** "console" *)
Definition str_console : list Z := [99; 111; 110; 115; 111; 108; 101; 0].

Definition fs_open (path : list Z) (flags : Z) : M kernel Z :=
  c ← expect (strcmp path str_console);
  if c =? 0 then
    f ← file_create FD_CONSOLE flags;
    match f with
    | None => mret ERR_NO_SPACE
    | Some i =>
        r ← fd_install i;
        match r with
        | Some fd => mret fd
        | None => file_close (Some i);; mret ERR_NO_SPACE
        end
    end
  else
  cwd ← process_cwd;
  p ← in_fs (namei cwd path);
  match p with
  | None => mret ERR_NOT_FOUND
  | Some _ =>
      in_fs (ilock p);;
      ip ← in_fs (deref p);
      if (dev ip =? 0) && has_flag flags (Z.lor FILECTRL_WRITEONLY FILECTRL_TRUNCATE) then
        in_fs (iput p);; mret ERR_PERMISSION_DENIED
      else
      (if has_flag flags FILECTRL_TRUNCATE && (d_type (din ip) =? FT_FILE)
       then in_fs (itrunc p 0) else mret tt);;
      alloc_file_descriptor p flags
  end.

(** [fd < 0 || fd >= NUM_FILES_PER_PROCESS || proc->ofile[fd] == NULL] is [None];
    otherwise the slot of the file table. *)
Definition fd_lookup (fd : Z) : M kernel (option nat) :=
  c ← current; p ← proc c;
  if (fd <? 0) || (fd >=? Z.of_nat NUM_FILES_PER_PROCESS) then mret None
  else e ← expect (zlookup (ofile p) fd); mret e.

(** [while ((ch = getchar()) < 0) yield();] *)
Definition getchar_blocking (yield : M kernel unit) : M kernel Z :=
  n ← gets (λ k, length (con_in (kcon k)));
  loop (S n) (λ _, ch ← in_con getchar;
    if ch <? 0 then yield;; mret (inl tt) else mret (inr ch)) tt.

Fixpoint console_read (yield : M kernel unit) (n : nat) : M kernel (list Z) :=
  match n with
  | O => mret []
  | S n => ch ← getchar_blocking yield; rest ← console_read yield n; mret (u8 ch :: rest)
  end.

(** Returns the result and the bytes stored at [buf]. *)
Definition fs_read (yield : M kernel unit) (fd n : Z) : M kernel (Z * list Z) :=
  e ← fd_lookup fd;
  match e with
  | None => mret (ERR_BAD_FILE, [])
  | Some i =>
      f ← file i;
      match f_type f with
      | FD_NONE => mret (ERR_BAD_FILE, [])
      | FD_CONSOLE =>
          if negb (f_readable f) then mret (ERR_PERMISSION_DENIED, []) else
          buf ← console_read yield (Z.to_nat n); mret (n, buf)
      | FD_INODE =>
          if negb (f_readable f) then mret (ERR_PERMISSION_DENIED, []) else
          r ← in_fs (readi (f_ip f) (f_off f) (u32 n));
          (if fst r >? 0 then upd_file i (λ f, set_f_off (u32 (f_off f + fst r)) f) else mret tt);;
          mret r
      end
  end.

Fixpoint console_write (buf : list Z) : M kernel unit :=
  match buf with
  | [] => mret tt
  | c :: buf => in_con (putchar c);; console_write buf
  end.

(** [buf] is the object at the pointer. *)
Definition fs_write (fd : Z) (buf : list Z) (n : Z) : M kernel Z :=
  e ← fd_lookup fd;
  match e with
  | None => mret ERR_BAD_FILE
  | Some i =>
      f ← file i;
      match f_type f with
      | FD_NONE => mret ERR_BAD_FILE
      | FD_CONSOLE =>
          if negb (f_writable f) then mret ERR_PERMISSION_DENIED else
          out ← (if n <=? 0 then mret [] else expect (cread buf 0 n));
          console_write out;; mret n
      | FD_INODE =>
          if negb (f_writable f) then mret ERR_PERMISSION_DENIED else
          w ← in_fs (writei (f_ip f) buf (f_off f) (u32 n));
          (if w >? 0 then upd_file i (λ f, set_f_off (u32 (f_off f + w)) f) else mret tt);;
          mret (if w <? 0 then ERR_NO_SPACE else w)
      end
  end.

Definition fs_close (fd : Z) : M kernel Z :=
  e ← fd_lookup fd;
  match e with
  | None => mret ERR_BAD_FILE
  | Some i =>
      f ← file i;
      match f_type f with
      | FD_NONE => mret ERR_BAD_FILE
      | _ =>
          c ← current;
          upd_proc c (λ p, set_ofile (<[Z.to_nat fd := None]> (ofile p)) p);;
          file_close (Some i);;
          mret 0
      end
  end.

(** [int] arithmetic: overflow is undefined. *)
Definition int_add (a b : Z) : option Z :=
  if (-2147483648 <=? a + b) && (a + b <? 2147483648) then Some (a + b) else None.

Definition fs_lseek (fd offset whence : Z) : M kernel Z :=
  e ← fd_lookup fd;
  match e with
  | None => mret ERR_BAD_FILE
  | Some i =>
      f ← file i;
      match f_ip f with
      | None => mret ERR_BAD_FILE
      | Some _ =>
          ip ← in_fs (deref (f_ip f));
          let sz := s32 (size (din ip)) in
          let new_off := s32 (f_off f) in
          r ← (if whence =? 0 then mret (Some offset)
               else if whence =? 1 then o ← expect (int_add new_off offset); mret (Some o)
               else if whence =? 2 then o ← expect (int_add sz offset); mret (Some o)
               else mret None);
          match r with
          | None => mret ERR_INVALID_ARGUMENT
          | Some new_off =>
              if new_off <? 0 then mret ERR_INVALID_ARGUMENT
              else upd_file i (set_f_off new_off);; mret new_off
          end
      end
  end.

Definition fs_ftruncate (fd length : Z) : M kernel Z :=
  e ← fd_lookup fd;
  match e with
  | None => mret ERR_BAD_FILE
  | Some i =>
      f ← file i;
      if negb (f_writable f) then mret ERR_PERMISSION_DENIED else
      match f_type f with
      | FD_NONE => mret ERR_BAD_FILE
      | FD_INODE =>
          if length <? 0 then mret ERR_INVALID_ARGUMENT
          else in_fs (itrunc (f_ip f) length);; mret 0
      | FD_CONSOLE => mret ERR_INVALID_ARGUMENT
      end
  end.

(** ** Directories *)

(** A [struct fsdirent] with a short name. *)
Definition dot_entry (n : Z) (name : list Z) : list Z :=
  encode_dirent (Dirent (u16 n) (take 30 (name ++ zeros 30))).

Definition fs_mkdir (path : list Z) : M kernel Z :=
  c ← process_cwd;
  r ← in_fs (namex c path true);
  let '(dp, file_part) := r in
  match dp with
  | None => mret ERR_NOT_FOUND
  | Some _ =>
      dip ← in_fs (deref dp);
      if dev dip =? 0 then in_fs (iput dp);; mret ERR_PERMISSION_DENIED else
      r ← in_fs (dirlookup dp file_part);
      match r with
      | Some (i, _) => in_fs (iput (Some i));; in_fs (iput dp);; mret ERR_ALREADY_EXISTS
      | None =>
          p ← in_fs (ialloc (dev dip) FT_DIRECTORY);
          match p with
          | None => in_fs (iput dp);; mret ERR_NO_SPACE
          | Some _ =>
              ip ← in_fs (deref p);
              w ← in_fs (writei p (dot_entry (inum ip) [DOT]) 0 DIRENT_SIZE);
              if negb (w =? DIRENT_SIZE) then in_fs (iput p);; in_fs (iput dp);; mret ERR_NO_SPACE else
              w ← in_fs (writei p (dot_entry (inum dip) [DOT; DOT]) DIRENT_SIZE DIRENT_SIZE);
              if negb (w =? DIRENT_SIZE) then in_fs (iput p);; in_fs (iput dp);; mret ERR_NO_SPACE else
              l ← in_fs (dirlink dp file_part (inum ip));
              if l <? 0 then in_fs (iput p);; in_fs (iput dp);; mret ERR_NO_SPACE
              else in_fs (iput p);; in_fs (iput dp);; mret 0
          end
      end
  end.

Definition fs_rm (path : list Z) : M kernel Z :=
  c ← process_cwd;
  r ← in_fs (namex c path true);
  let '(dp, file_part) := r in
  match dp with
  | None => mret ERR_NOT_FOUND
  | Some _ =>
      dip ← in_fs (deref dp);
      if dev dip =? 0 then in_fs (iput dp);; mret ERR_PERMISSION_DENIED else
      r ← in_fs (dirlookup dp file_part);
      match r with
      | None => in_fs (iput dp);; mret ERR_NOT_FOUND
      | Some (i, off) =>
          let p := Some i in
          in_fs (ilock p);;
          ip ← in_fs (deref p);
          empty ← (if d_type (din ip) =? FT_DIRECTORY then in_fs (is_dir_empty p) else mret true);
          if negb empty then in_fs (iput p);; in_fs (iput dp);; mret ERR_DIRECTORY_NOT_EMPTY else
          w ← in_fs (writei dp (zeros 32) off DIRENT_SIZE);
          if negb (w =? DIRENT_SIZE) then in_fs (iput p);; in_fs (iput dp);; mret ERR_IO else
          in_fs (itrunc p 0);;
          in_fs (upd_din p (set_type FT_UNUSED));;
          in_fs (iupdate p);;
          in_fs (iput p);;
          in_fs (iput dp);;
          mret 0
      end
  end.
