(* ===== verification/Process.v ===== *)
(** * Processes: definitions

    kernel/process.c. A [struct Process *] is an index into [procs], NULL is
    [None]. [user_entry] is the address of the routine that enters user mode. *)

From S2P Require Import Prelude CLib FsTypes Block Inode Dir KState FdTable Page.

Definition USER_BASE : Z := 16777216.
Definition VIRTIO_BLK0_PADDR : Z := 268439552.
Definition VIRTIO_BLK1_PADDR : Z := 268443648.
Definition VIRTIO_INPUT_PADDR : Z := 268447744.

Section create.
Variable user_entry : Z.

(** [procs[i].state == PROCSTATE_UNUSED]: the first free slot. *)
Definition proc_free (l : list Process) : option nat :=
  fst <$> list_find (λ p, p_state p = PROCSTATE_UNUSED) l.

(** Standard input, output and error of a new process. *)
Definition open_console (i : nat) : M kernel unit :=
  f0 ← file_create FD_CONSOLE FILECTRL_READONLY;
  f1 ← file_create FD_CONSOLE FILECTRL_WRITEONLY;
  f2 ← file_create FD_CONSOLE FILECTRL_WRITEONLY;
  match f0, f1, f2 with
  | Some _, Some _, Some _ =>
      upd_proc i (λ p, set_ofile (<[0%nat := f0]> (<[1%nat := f1]> (<[2%nat := f2]> (ofile p)))) p)
  | _, _, _ => file_close f0;; file_close f1;; file_close f2
  end.

(** [strncpy(dst, src, n - 1); dst[n - 1] = '\0'] *)
Definition copy_name (src : list Z) (n : nat) : option (list Z) :=
  l ← strncpy src (n - 1); Some (l ++ [0]).

Definition inherit_cwd (i : nat) : M kernel unit :=
  c ← get_current_process;
  d ← match c with Some c => p ← proc c; mret (cwd p, cwd_path p) | None => mret (None, []) end;
  match d with
  | (Some x, path) =>
      ip ← in_fs (deref (Some x));
      w ← in_fs (iget (dev ip) (inum ip));
      path ← expect (copy_name path MAX_PATH);
      upd_proc i (set_cwd w path)
  | (None, _) =>
      w ← in_fs (iget 0 1);
      path ← expect (copy_name [SLASH; 0] MAX_PATH);
      upd_proc i (set_cwd w path)
  end.

(** The kernel and its memory, mapped where they are. *)
Definition map_kernel (page_table : Z) : M memory unit :=
  m ← get;
  loop (Z.to_nat ((free_ram_end m - KERNEL_BASE) / PAGE_SIZE) + 2) (λ paddr,
    if paddr <? free_ram_end m then
      map_page page_table paddr paddr (Z.lor (Z.lor PAGE_R PAGE_W) PAGE_X);;
      mret (inl (u32 (paddr + PAGE_SIZE)))
    else mret (inr tt)) KERNEL_BASE.

Definition map_mmio (page_table : Z) : M memory unit :=
  map_page page_table VIRTIO_BLK0_PADDR VIRTIO_BLK0_PADDR (Z.lor PAGE_R PAGE_W);;
  map_page page_table VIRTIO_BLK1_PADDR VIRTIO_BLK1_PADDR (Z.lor PAGE_R PAGE_W);;
  map_page page_table VIRTIO_INPUT_PADDR VIRTIO_INPUT_PADDR (Z.lor PAGE_R PAGE_W).

Definition USER_FLAGS : Z := Z.lor (Z.lor (Z.lor PAGE_U PAGE_R) PAGE_W) PAGE_X.

(** The program, page by page, from the image or from the file; returns
    [last_page]. *)
Definition map_program (page_table : Z) (image : option (list Z)) (ip : ptr) (size : Z) : M kernel Z :=
  loop (Z.to_nat (size / PAGE_SIZE) + 2) (λ x : Z * Z, let '(off, last_page) := x in
    if off <? size then
      page ← in_mem (alloc_pages 1);
      let remain := size - off in
      let copy_size := if PAGE_SIZE <=? remain then PAGE_SIZE else remain in
      (match image, ip with
       | Some img, _ => l ← expect (cread img off copy_size); in_mem (store_bytes page l)
       | None, Some _ => r ← in_fs (readi ip off copy_size); in_mem (store_bytes page (snd r))
       | None, None => mret tt
       end);;
      in_mem (map_page page_table (u32 (USER_BASE + off)) page USER_FLAGS);;
      mret (inl (u32 (off + PAGE_SIZE), if u32 (off + PAGE_SIZE) >=? size then page else last_page))
    else mret (inr last_page)) (0, 0).

(** The argument strings, from the last to the first, below [kernel_sp]; returns
    the new stack pointer and [user_argv_va]. *)
Fixpoint push_strings (top size : Z) (argv : list (list Z)) (j : nat) (kernel_sp : Z) (vas : list Z) : M memory (Z * list Z) :=
  match j with
  | O => mret (kernel_sp, vas)
  | S j =>
      arg ← expect (argv !! j);
      len ← expect (strlen arg);
      let len := Z.of_nat len + 1 in
      let kernel_sp := u32 (kernel_sp - len) in
      store_bytes kernel_sp (take (Z.to_nat len) arg);;
      _ ← expect (vas !! j);
      push_strings top size argv j kernel_sp (<[j := u32 (USER_BASE + size - u32 (top - kernel_sp))]> vas)
  end.

(** [argv_array[j] = user_argv_va[j]] and the NULL terminator. *)
Fixpoint push_pointers (argv_array : Z) (vas : list Z) : M memory unit :=
  match vas with
  | [] => store32 argv_array 0
  | va :: vas => store32 argv_array va;; push_pointers (u32 (argv_array + 4)) vas
  end.

Definition push_args (last_page size argc : Z) (argv : list (list Z)) : M memory Z :=
  let stack_top_offset := if size mod PAGE_SIZE =? 0 then PAGE_SIZE else size mod PAGE_SIZE in
  let kernel_stack_top := u32 (last_page + stack_top_offset) in
  r ← push_strings kernel_stack_top size argv (Z.to_nat argc) kernel_stack_top (zeros 16);
  let '(kernel_sp, user_argv_va) := r in
  let kernel_sp := Z.land kernel_sp 4294967280 in
  let kernel_sp := u32 (kernel_sp - (argc + 1) * 4) in
  push_pointers kernel_sp (take (Z.to_nat argc) user_argv_va);;
  mret (u32 (USER_BASE + size - u32 (kernel_stack_top - kernel_sp))).

(** "idle/init" *)
Definition str_idle : list Z := [105; 100; 108; 101; 47; 105; 110; 105; 116; 0].

Definition create_process (image : option (list Z)) (image_size argc : Z) (argv : option (list (list Z)))
  : M kernel (option nat) :=
  procs ← gets procs;
  match proc_free procs with
  | None => panic
  | Some i =>
      upd_proc i (set_ofile (replicate NUM_FILES_PER_PROCESS None));;
      (if bool_decide (is_Some image) || (argc >? 0) then open_console i else mret tt);;
      inherit_cwd i;;
      page_table ← in_mem (alloc_pages 1);
      in_mem (map_kernel page_table);;
      in_mem (map_mmio page_table);;
      r ← match image, argv with
          | None, Some args =>
              if argc >? 0 then
                path ← expect (head args);
                c ← process_cwd;
                ip ← in_fs (namei c path);
                match ip with
                | None => in_mem (free_pages page_table 1);; mret None
                | Some _ => size ← in_fs (fs_get_inode_size ip); mret (Some (ip, u32 size))
                end
              else mret (Some (None, image_size))
          | _, _ => mret (Some (None, image_size))
          end;
      match r with
      | None => mret None
      | Some (ip, size) =>
          last_page ← map_program page_table image ip size;
          (match ip with Some _ => in_fs (iput ip) | None => mret tt end);;
          user_sp ← (if (argc >? 0) && negb (last_page =? 0) then
                       args ← expect argv; in_mem (push_args last_page size argc args)
                     else mret (u32 (USER_BASE + size)));
          let heap := u32 (USER_BASE + align_up size PAGE_SIZE) in
          name ← match argv with
                 | Some args => if argc >? 0 then path ← expect (head args); expect (copy_name path 16)
                                else expect (copy_name str_idle 16)
                 | None => expect (copy_name str_idle 16)
                 end;
          upd_proc i (λ p, mkProcess (Z.of_nat i + 1) PROCSTATE_RUNNABLE (exit_code p)
            ([user_entry; user_sp; u32 argc; user_sp] ++ zeros 9) page_table (cwd p) heap heap (ofile p)
            name (cwd_path p));;
          mret (Some i)
      end
  end.

Definition process_init : M kernel unit :=
  i ← create_process None 0 0 None;
  i ← expect i;
  upd_proc i (set_pid 0);;
  modify (set_idle (Some i));;
  modify (set_current (Some i)).

(** ** Spawning *)

(** [while ( *p == ' ') p++] *)
Fixpoint skip_spaces (l : list Z) : list Z :=
  match l with
  | c :: l' => if c =? 32 then skip_spaces l' else l
  | [] => []
  end.

(** [while ( *p && *p != ' ') p++]: the word and what follows it. *)
Fixpoint split_word (l : list Z) : list Z * list Z :=
  match l with
  | c :: l' => if (c =? 0) || (c =? 32) then ([], l) else let '(w, rest) := split_word l' in (c :: w, rest)
  | [] => ([], [])
  end.

(** The arguments of a command line: at most [n] words, each terminated. [cmd] is
    the part of the array from [p] on, ending in its terminator. *)
Fixpoint split_args (n : nat) (cmd : list Z) : list (list Z) :=
  match n with
  | O => []
  | S n =>
      match skip_spaces cmd with
      | [] => []
      | (c :: _) as cmd =>
          if c =? 0 then [] else
          let '(w, rest) := split_word cmd in
          (w ++ [0]) ::
          match rest with
          | c :: rest' => if c =? 32 then split_args n rest' else []
          | [] => []
          end
      end
  end.

Definition spawn_process (cmdline : list Z) : M kernel Z :=
  len ← expect (strlen cmdline);
  let len := if (128 <=? len)%nat then 127%nat else len in
  let cmd := take len cmdline ++ [0] in
  let argv := split_args 16 cmd in
  let argc := Z.of_nat (length argv) in
  if argc =? 0 then mret (-1) else
  p ← create_process None 0 argc (Some argv);
  match p with
  | None => mret (-1)
  | Some i => x ← proc i; mret (pid x)
  end.
End create.

(** ** The end of a process *)

Definition exit_current_process (code : Z) : M kernel unit :=
  c ← current; upd_proc c (λ p, set_exit_code code (set_p_state PROCSTATE_EXITED p)).

(** The loop over the descriptors of [free_process_pages]. *)
Fixpoint close_files (i : nat) (fd n : nat) : M kernel unit :=
  match n with
  | O => mret tt
  | S n =>
      p ← proc i;
      f ← expect (ofile p !! fd);
      (match f with
       | Some _ => file_close f;; upd_proc i (λ p, set_ofile (<[fd := None]> (ofile p)) p)
       | None => mret tt
       end);;
      close_files i (S fd) n
  end.

(** The pages that a second-level table of the lower half maps. *)
Fixpoint free_leaves (t0 vpn0 : Z) (n : nat) : M memory unit :=
  match n with
  | O => mret tt
  | S n =>
      entry0 ← load32 (t0 + 4 * vpn0);
      m ← get;
      (if is_valid entry0 && (free_ram m <=? target entry0) && (target entry0 <? free_ram_end m)
       then free_pages (target entry0) 1 else mret tt);;
      free_leaves t0 (vpn0 + 1) n
  end.

Fixpoint free_tables (t1 vpn1 : Z) (n : nat) : M memory unit :=
  match n with
  | O => mret tt
  | S n =>
      entry1 ← load32 (t1 + 4 * vpn1);
      (if is_valid entry1 then
         (if vpn1 <? 512 then free_leaves (target entry1) 0 1024 else mret tt);;
         free_pages (target entry1) 1
       else mret tt);;
      free_tables t1 (vpn1 + 1) n
  end.

Definition free_process_pages (i : nat) : M kernel unit :=
  p ← proc i;
  (match cwd p with
   | Some _ => in_fs (iput (cwd p));; upd_proc i (λ p, set_cwd None (cwd_path p) p)
   | None => mret tt
   end);;
  close_files i 0 NUM_FILES_PER_PROCESS;;
  p ← proc i;
  let t1 := page_table p in
  if t1 =? 0 then mret tt else
  in_mem (free_tables t1 0 1024);;
  in_mem (free_pages t1 1);;
  upd_proc i (set_page_table 0).

(** ** Scheduling *)

(** The scan of [yield]: the first runnable process after the running one. *)
Fixpoint next_runnable (l : list Process) (start : Z) (i n : nat) : option nat :=
  match n with
  | O => None
  | S n =>
      let s := Z.to_nat ((start + Z.of_nat i) mod Z.of_nat PROCS_MAX) in
      match l !! s with
      | Some p => if bool_decide (p_state p = PROCSTATE_RUNNABLE) && (0 <? pid p) then Some s
                  else next_runnable l start (S i) n
      | None => None
      end
  end.

(** Up to the call of [switch_context]: [Some next] when the processor goes to
    another process. *)
Definition yield_select : M kernel (option nat) :=
  c ← current; p ← proc c;
  l ← gets procs;
  idle ← gets idle_proc;
  let next := match next_runnable l (pid p) 0 PROCS_MAX with Some s => Some s | None => idle end in
  if bool_decide (next = Some c) then mret None else
  n ← expect next;
  q ← proc n;
  modify (λ k, set_kmem (set_satp (Z.lor SATP_SV32 (PAGE_TABLE_TO_INDEX (page_table q))) (kmem k)) k);;
  modify (set_current (Some n));;
  mret (Some n).

(** [others c] is all that happens from the switch away from process [c] until
    a switch back to it. *)
Definition yield (others : nat → M kernel unit) : M kernel unit :=
  c ← current;
  r ← yield_select;
  match r with Some _ => others c | None => mret tt end.

(** The process with a given pid. *)
Definition proc_with_pid (n : Z) (l : list Process) : option nat :=
  fst <$> list_find (λ p, p_state p ≠ PROCSTATE_UNUSED ∧ pid p = n) l.

(** [rounds] bounds how often the caller gives up the processor. *)
Definition wait_process (others : nat → M kernel unit) (rounds : nat) (n : Z) : M kernel Z :=
  l ← gets procs;
  match proc_with_pid n l with
  | None => mret (-1)
  | Some _ =>
      loop (S rounds) (λ _,
        l ← gets procs;
        match proc_with_pid n l with
        | None => mret (inr 0)
        | Some i =>
            p ← proc i;
            if bool_decide (p_state p = PROCSTATE_EXITED) then
              free_process_pages i;; upd_proc i (set_p_state PROCSTATE_UNUSED);; mret (inr 0)
            else yield others;; mret (inl tt)
        end) tt
  end.
