(* ===== verification/Syscall.v ===== *)
(** * System calls: definitions

    [handle_syscall] and [handle_trap] of kernel.c, over the whole machine: the
    kernel, the keyboard, the framebuffer and the message log. Pointers of the
    calling program are checked and followed through its page table
    ([UserMem.v]). The diagnostic [kprintf] lines are left out. *)

From S2P Require Import Prelude CLib FsTypes Block Inode Dir Path KState FdTable Page UserMem Process Virtio Kprintf.

(** ** Traps *)

(** The registers of [struct trap_frame] that system calls use; [saved] are the others. *)
Record trap_frame := Frame { a0 : Z; a1 : Z; a2 : Z; a3 : Z; saved : list Z }.
Definition set_a0 (x : Z) (f : trap_frame) : trap_frame := Frame x (a1 f) (a2 f) (a3 f) (saved f).

Record machine := Machine {
  mk : kernel;
  m_input : input_dev;
  m_iregs : gmap Z Z;
  framebuffer : list Z;
  m_log : kmesg
}.

Definition set_mk (k : kernel) (M : machine) : machine :=
  Machine k (m_input M) (m_iregs M) (framebuffer M) (m_log M).
Definition set_framebuffer (fb : list Z) (M : machine) : machine :=
  Machine (mk M) (m_input M) (m_iregs M) fb (m_log M).
Definition in_k {A} (m : M kernel A) : M machine A := zoom mk set_mk m.
Definition in_user {A} (m : M memory A) : M machine A := in_k (in_mem m).
Definition in_virtio {A} (m : M vstate A) : M machine A :=
  zoom (λ x, Vstate [] (m_input x) (m_iregs x) (kmem (mk x)))
    (λ v x, Machine (set_kmem (v_mem v) (mk x)) (v_input v) (v_iregs v) (framebuffer x) (m_log x)) m.

Definition SYSCALL_PUTCHAR : Z := 1.
Definition SYSCALL_GETCHAR : Z := 2.
Definition SYSCALL_EXIT : Z := 3.
Definition SYSCALL_OPEN : Z := 4.
Definition SYSCALL_READ : Z := 5.
Definition SYSCALL_WRITE : Z := 6.
Definition SYSCALL_CLOSE : Z := 7.
Definition SYSCALL_GET_FILE_NAME : Z := 8.
Definition SYSCALL_GET_FILE_SIZE : Z := 9.
Definition SYSCALL_SPAWN : Z := 10.
Definition SYSCALL_WAIT : Z := 11.
Definition SYSCALL_YIELD : Z := 12.
Definition SYSCALL_KMESG : Z := 13.
Definition SYSCALL_STAT : Z := 14.
Definition SYSCALL_CHDIR : Z := 15.
Definition SYSCALL_GETCWD : Z := 16.
Definition SYSCALL_MKDIR : Z := 17.
Definition SYSCALL_RM : Z := 18.
Definition SYSCALL_SBRK : Z := 19.
Definition SYSCALL_FTRUNCATE : Z := 20.
Definition SYSCALL_LSEEK : Z := 21.
Definition SYSCALL_PRESENT_FRAMEBUFFER : Z := 22.
Definition SYSCALL_INPUT_POLL : Z := 23.

(** ** The heap *)

(** One page of the shrinking heap: free it and clear its entry. *)
Definition unmap_page (t1 va : Z) : M memory unit :=
  e ← load32 (t1 + 4 * vpn1 va);
  if is_valid e then
    e0 ← load32 (target e + 4 * vpn0 va);
    if is_valid e0 then
      free_pages (target e0) 1;; store32 (target e + 4 * vpn0 va) 0
    else mret tt
  else mret tt.

(** [for (va = from; va < to; va += PAGE_SIZE)] *)
Definition for_pages_in (from to : Z) (f : Z → M memory unit) : M memory unit :=
  loop (Z.to_nat ((to - from) / PAGE_SIZE) + 2) (λ va,
    if va <? to then f va;; mret (inl (u32 (va + PAGE_SIZE))) else mret (inr tt)) from.

Definition HEAP_FLAGS : Z := Z.lor (Z.lor PAGE_U PAGE_R) PAGE_W.

Definition sys_sbrk (increment : Z) : M kernel Z :=
  c ← current; p ← proc c;
  let old_brk := heap_end p in
  let new_brk := u32 (old_brk + increment) in
  let old_aligned := align_up old_brk PAGE_SIZE in
  let new_aligned := align_up new_brk PAGE_SIZE in
  if increment <? 0 then
    if (new_brk <? heap_start p) || (new_brk >? old_brk) then mret (-1) else
    (if new_aligned <? old_aligned
     then in_mem (for_pages_in new_aligned old_aligned (unmap_page (page_table p))) else mret tt);;
    upd_proc c (set_heap_end new_brk);;
    mret old_brk
  else if increment >? 0 then
    if (new_brk <? old_brk) || (new_brk >=? 2147483648) then mret (-1) else
    in_mem (for_pages_in old_aligned new_aligned (λ va,
      page ← alloc_pages 1; map_page (page_table p) va page HEAP_FLAGS));;
    upd_proc c (set_heap_end new_brk);;
    mret old_brk
  else mret old_brk.

(** ** Calls with a path *)

(** Check the string at [str], then run [f] on it. *)
Definition with_string {A} (str : Z) (bad : A) (f : list Z → M kernel A) : M kernel A :=
  ok ← in_mem (validate_user_string str);
  if negb ok then mret bad else s ← in_mem (user_string str); f s.

Definition sys_open (path flags : Z) : M kernel Z :=
  with_string path ERR_INVALID_ARGUMENT (λ s,
    if has_flag flags FILECTRL_CREATE then fs_create s flags else fs_open s flags).
Definition sys_mkdir (path : Z) : M kernel Z := with_string path ERR_INVALID_ARGUMENT fs_mkdir.
Definition sys_rm (path : Z) : M kernel Z := with_string path ERR_INVALID_ARGUMENT fs_rm.
(** The command line is printed, and so read, before the pointer is checked. *)
Definition sys_spawn (user_entry cmdline : Z) : M kernel Z :=
  in_mem (user_string cmdline);;
  with_string cmdline (-1) (spawn_process user_entry).

(** [struct k_stat]: type and size. *)
Definition encode_stat (x : Z * Z) : list Z := le_bytes 4 (fst x) ++ le_bytes 4 (snd x).

Definition sys_stat (path st : Z) : M kernel Z :=
  ok ← in_mem (validate_user_string path);
  ok ← (if negb ok then mret false else in_mem (validate_user_write_buffer st 8));
  if negb ok then mret ERR_INVALID_ARGUMENT else
  s ← in_mem (user_string path);
  c ← process_cwd;
  r ← in_fs (fs_stat c s);
  (match snd r with Some x => in_mem (copy_to_user st (encode_stat x)) | None => mret tt end);;
  mret (fst r).

(** [new_path] starts out with arbitrary contents, of which only the string that
    [fs_normalize_path] stores is used. *)
Definition chdir_to (s : list Z) : M kernel Z :=
  c ← process_cwd;
  r ← in_fs (fs_chdir c s);
  if fst r <? 0 then mret (fst r) else
  i ← current; p ← proc i;
  new_path ← expect (fs_normalize_path (cwd_path p) s (zeros MAX_PATH));
  path ← expect (copy_name new_path MAX_PATH);
  in_fs (iput (cwd p));;
  upd_proc i (set_cwd (snd r) path);;
  mret 0.
Definition sys_chdir (path : Z) : M kernel Z := with_string path ERR_INVALID_ARGUMENT chdir_to.

Definition sys_getcwd (buf size : Z) : M kernel Z :=
  ok ← (if size <=? 0 then mret false else in_mem (validate_user_write_buffer buf size));
  if negb ok then mret ERR_INVALID_ARGUMENT else
  i ← current; p ← proc i;
  len ← expect (strlen (cwd_path p));
  if Z.of_nat len >=? size then mret (-1) else
  in_mem (copy_to_user buf (take (len + 1) (cwd_path p)));;
  mret 0.

(** ** Calls with a buffer *)

Definition sys_read (yield : M kernel unit) (fd buf n : Z) : M kernel Z :=
  ok ← (if n <=? 0 then mret false else in_mem (validate_user_write_buffer buf n));
  if negb ok then mret ERR_INVALID_ARGUMENT else
  r ← fs_read yield fd n;
  in_mem (copy_to_user buf (snd r));;
  mret (fst r).

Definition sys_write (fd buf n : Z) : M kernel Z :=
  ok ← (if n >? 0 then in_mem (validate_user_read_buffer buf n) else mret true);
  if negb ok then mret ERR_INVALID_ARGUMENT else
  l ← (if n >? 0 then in_mem (copy_from_user buf n) else mret []);
  fs_write fd l n.

Definition sys_get_file_name (index buf buf_len : Z) : M kernel Z :=
  ok ← (if buf_len <=? 0 then mret false else in_mem (validate_user_write_buffer buf buf_len));
  if negb ok then mret ERR_INVALID_ARGUMENT else
  r ← in_fs (fs_get_file_name index buf_len);
  in_mem (copy_to_user buf (snd r));;
  mret (fst r).

Definition sys_kmesg (user_buf limit : Z) : M machine Z :=
  ok ← (if limit <=? 0 then mret false else in_user (validate_user_write_buffer user_buf limit));
  if negb ok then mret (-1) else
  log ← gets m_log;
  let limit := if limit >? kmesg_len log then kmesg_len log else limit in
  in_user (copy_to_user user_buf (take (Z.to_nat limit) (kmesg_buf log)));;
  mret limit.

(** ** The screen and the keyboard *)

Definition FB_WIDTH : Z := 1280.
Definition FB_HEIGHT : Z := 800.

(** A [uint32_t] of the program. *)
Definition load_user32 (va : Z) : M memory Z := l ← copy_from_user va 4; mret (le_val l).

(** Nearest-neighbour scaling with 16.16 fixed-point steps: source coordinate of
    destination coordinate [dst]. *)
Definition scale (dim step dst : Z) : Z :=
  let src := Z.shiftr (u32 (dst * step)) 16 in if src >=? dim then dim - 1 else src.

Definition present_line (user_fb width step_x src_y dst_y : Z) : M machine unit :=
  loop (S (Z.to_nat FB_WIDTH)) (λ dst_x,
    if dst_x <? FB_WIDTH then
      px ← in_user (load_user32 (u32 (u32 (user_fb + 4 * u32 (src_y * width)) + 4 * scale width step_x dst_x)));
      modify (λ x, set_framebuffer (<[Z.to_nat (dst_y * FB_WIDTH + dst_x) := px]> (framebuffer x)) x);;
      mret (inl (dst_x + 1))
    else mret (inr tt)) 0.

Definition sys_present_framebuffer (user_fb width height : Z) : M machine Z :=
  ok ← (if (width =? 0) || (height =? 0) then mret false
        else in_user (validate_user_write_buffer user_fb (u32 (width * height))));
  if negb ok then mret ERR_INVALID_ARGUMENT else
  let step_x := u32 (Z.shiftl width 16) / FB_WIDTH in
  let step_y := u32 (Z.shiftl height 16) / FB_HEIGHT in
  loop (S (Z.to_nat FB_HEIGHT)) (λ dst_y,
    if dst_y <? FB_HEIGHT then
      present_line user_fb width step_x (scale height step_y dst_y) dst_y;;
      mret (inl (dst_y + 1))
    else mret (inr tt)) 0;;
  mret 0.

Definition sys_input_poll (meanwhile : input_dev → input_dev) (codeptr pressedptr : Z) : M machine Z :=
  ok ← in_user (validate_user_write_buffer codeptr 2);
  ok ← (if negb ok then mret false else in_user (validate_user_write_buffer pressedptr 4));
  if negb ok then mret ERR_INVALID_ARGUMENT else
  r ← in_virtio (virtio_input_poll_event meanwhile);
  match r with
  | Some (code, pressed) =>
      in_user (copy_to_user codeptr (le_bytes 2 code));;
      in_user (copy_to_user pressedptr (le_bytes 4 pressed));;
      mret 1
  | None => mret 0
  end.

(** ** Dispatch *)

Section handle.
Variable user_entry : Z.
(** What the other processes do while this one does not run. *)
Variable others : nat → M kernel unit.
(** How often [wait_process] gives up the processor at most. *)
Variable rounds : nat.
(** What the keyboard does during a poll. *)
Variable meanwhile : input_dev → input_dev.

(** The value the call leaves in [a0]. *)
Definition returns (f : trap_frame) (m : M machine Z) : M machine trap_frame :=
  r ← m; mret (set_a0 (u32 r) f).

Definition handle_syscall (f : trap_frame) : M machine trap_frame :=
  let n := a3 f in
  if n =? SYSCALL_PUTCHAR then in_k (in_con (putchar (a0 f)));; mret f else
  if n =? SYSCALL_GETCHAR then returns f (in_k (in_con getchar)) else
  if n =? SYSCALL_YIELD then in_k (yield others);; mret f else
  if n =? SYSCALL_EXIT then in_k (exit_current_process (s32 (a0 f)));; in_k (yield others);; panic else
  if n =? SYSCALL_OPEN then returns f (in_k (sys_open (a0 f) (s32 (a1 f)))) else
  if n =? SYSCALL_READ then returns f (in_k (sys_read (yield others) (s32 (a0 f)) (a1 f) (s32 (a2 f)))) else
  if n =? SYSCALL_WRITE then returns f (in_k (sys_write (s32 (a0 f)) (a1 f) (s32 (a2 f)))) else
  if n =? SYSCALL_CLOSE then returns f (in_k (fs_close (s32 (a0 f)))) else
  if n =? SYSCALL_FTRUNCATE then returns f (in_k (fs_ftruncate (s32 (a0 f)) (s32 (a1 f)))) else
  if n =? SYSCALL_LSEEK then returns f (in_k (fs_lseek (s32 (a0 f)) (s32 (a1 f)) (s32 (a2 f)))) else
  if n =? SYSCALL_GET_FILE_NAME then returns f (in_k (sys_get_file_name (s32 (a0 f)) (a1 f) (s32 (a2 f)))) else
  if n =? SYSCALL_GET_FILE_SIZE then returns f (in_k (in_fs (fs_get_file_size (s32 (a0 f))))) else
  if n =? SYSCALL_STAT then returns f (in_k (sys_stat (a0 f) (a1 f))) else
  if n =? SYSCALL_CHDIR then returns f (in_k (sys_chdir (a0 f))) else
  if n =? SYSCALL_GETCWD then returns f (in_k (sys_getcwd (a0 f) (s32 (a1 f)))) else
  if n =? SYSCALL_MKDIR then returns f (in_k (sys_mkdir (a0 f))) else
  if n =? SYSCALL_RM then returns f (in_k (sys_rm (a0 f))) else
  if n =? SYSCALL_SPAWN then returns f (in_k (sys_spawn user_entry (a0 f))) else
  if n =? SYSCALL_WAIT then returns f (in_k (wait_process others rounds (s32 (a0 f)))) else
  if n =? SYSCALL_KMESG then returns f (sys_kmesg (a0 f) (s32 (a1 f))) else
  if n =? SYSCALL_SBRK then returns f (in_k (sys_sbrk (s32 (a0 f)))) else
  if n =? SYSCALL_PRESENT_FRAMEBUFFER then returns f (sys_present_framebuffer (a0 f) (a1 f) (a2 f)) else
  if n =? SYSCALL_INPUT_POLL then returns f (sys_input_poll meanwhile (a0 f) (a1 f)) else
  panic.

Definition SCAUSE_ECALL : Z := 8.
Definition SSTATUS_SPP : Z := 256.

(** Returns the registers and the program counter to go on with. *)
Definition handle_trap (scause sstatus sepc : Z) (f : trap_frame) : M machine (trap_frame * Z) :=
  if scause =? SCAUSE_ECALL then f' ← handle_syscall f; mret (f', u32 (sepc + 4)) else
  if Z.land sstatus SSTATUS_SPP =? 0 then
    in_k (exit_current_process 1);; in_k (yield others);; mret (f, sepc)
  else panic.
End handle.
