(* ===== verification/PageMem.v ===== *)
(** * Physical memory: what the allocator and the word accesses do

    The state after [alloc_pages], [free_pages] and a store is given by plain
    functions on memories, which the rest of the development computes with. *)

From S2P Require Import Prelude CLib FsTypes KState Page.

(** ** Well-formed memories *)

Record mem_ok (m : memory) : Prop := {
  mo_flags : length (page_allocated m) = Z.to_nat NUM_PAGES;
  mo_bits : Forall (λ b, b = 0 ∨ b = 1) (page_allocated m);
  mo_aligned : free_ram m mod PAGE_SIZE = 0;
  mo_base : KERNEL_BASE ≤ free_ram m;
  mo_top : free_ram_end m < 4294967296;
  mo_pages : map_Forall (λ _ l, length l = 4096%nat ∧ bytes l) (ram m)
}.

Lemma page_bytes_ok m pn : mem_ok m → length (page_bytes m pn) = 4096%nat ∧ bytes (page_bytes m pn).
Proof.
  intros Hm. unfold page_bytes. destruct (ram m !! pn) as [l|] eqn:E; cbn [default from_option id].
  - by apply (mo_pages m Hm pn).
  - split; [apply length_zeros|apply bytes_zeros].
Qed.

Lemma word_range m a : mem_ok m → 0 ≤ word m a < 4294967296.
Proof. intros Hm. apply word_at_range, page_bytes_ok, Hm. Qed.

(** The page numbers the allocator hands out. *)
Definition first_page (m : memory) : Z := free_ram m / PAGE_SIZE.
Definition managed (m : memory) (pn : Z) : Prop := first_page m ≤ pn < first_page m + NUM_PAGES.
Definition alloced (m : memory) (pn : Z) : Prop :=
  managed m pn ∧ page_allocated m !! Z.to_nat (pn - first_page m) = Some 1.
Definition avail (m : memory) (pn : Z) : Prop :=
  managed m pn ∧ page_allocated m !! Z.to_nat (pn - first_page m) = Some 0.

#[export] Instance managed_dec m pn : Decision (managed m pn).
Proof. unfold managed. apply _. Defined.

Lemma free_ram_eq m : mem_ok m → free_ram m = 4096 * first_page m.
Proof.
  intros Hm. pose proof (mo_aligned m Hm) as H. unfold first_page, PAGE_SIZE in *.
  pose proof (Z_div_mod_eq_full (free_ram m) 4096). lia.
Qed.

Lemma managed_range m pn : mem_ok m → managed m pn → KERNEL_BASE ≤ pn * 4096 ∧ pn * 4096 + 4096 ≤ free_ram_end m < 4294967296.
Proof.
  intros Hm [H1 H2]. pose proof (free_ram_eq m Hm). pose proof (mo_base m Hm). pose proof (mo_top m Hm).
  unfold free_ram_end, NUM_PAGES, PAGE_SIZE in *. lia.
Qed.

Lemma avail_or_alloced m pn : mem_ok m → managed m pn → avail m pn ∨ alloced m pn.
Proof.
  intros Hm Hp. pose proof Hp as [H1 H2].
  destruct (page_allocated m !! Z.to_nat (pn - first_page m)) as [b|] eqn:E.
  - destruct (proj1 (Forall_lookup _ _) (mo_bits m Hm) _ _ E) as [->| ->]; [by left|by right].
  - apply lookup_ge_None in E. rewrite (mo_flags m Hm) in E. unfold NUM_PAGES in *. lia.
Qed.

Lemma avail_not_alloced m pn : avail m pn → ¬ alloced m pn.
Proof. intros [_ H] [_ H']. congruence. Qed.

(** ** Words *)

Definition word_addr (m : memory) (a : Z) : Prop := accessible m a 4 = true ∧ a mod 4 = 0.

Lemma word_addr_range m a : word_addr m a → KERNEL_BASE ≤ a ∧ a + 4 ≤ free_ram_end m.
Proof. intros [H _]. unfold accessible in H. apply andb_true_iff in H as [H1 H2]. lia. Qed.

Lemma word_addr_in m pn i : mem_ok m → managed m pn → 0 ≤ i < 1024 → word_addr m (pn * 4096 + 4 * i).
Proof.
  intros Hm Hp Hi. pose proof (managed_range m pn Hm Hp) as [H1 H2]. split.
  - unfold accessible. apply andb_true_iff. split; apply Z.leb_le; lia.
  - replace (pn * 4096 + 4 * i) with ((pn * 1024 + i) * 4) by lia. apply Z.mod_mul. lia.
Qed.

Lemma load32_wp m a (Q : Z → memory → Prop) R : word_addr m a → Q (word m a) m → wp (load32 a) Q R m.
Proof. intros [H1 H2] HQ. unfold load32. wp_steps. unfold wp, get. rewrite H1, H2. cbn. done. Qed.

Lemma store32_wp m a v (Q : unit → memory → Prop) R :
  word_addr m a → Q tt (put_word a v m) → wp (store32 a v) Q R m.
Proof. intros [H1 H2] HQ. unfold store32. wp_steps. unfold wp, get. rewrite H1, H2. cbn. done. Qed.

Lemma index_eq a b : a mod 4 = 0 → b mod 4 = 0 → a / 4096 = b / 4096 → a mod 4096 / 4 = b mod 4096 / 4 → a = b.
Proof. intros. Z.div_mod_to_equations. lia. Qed.

Lemma index_range a : 0 ≤ a mod 4096 / 4 < 1024.
Proof. pose proof (Z.mod_pos_bound a 4096 ltac:(lia)). split; [apply Z.div_pos; lia|apply Z.div_lt_upper_bound; lia]. Qed.

Lemma word_put_eq m a v : mem_ok m → 0 ≤ v < 4294967296 → word (put_word a v m) a = v.
Proof.
  intros Hm Hv. unfold word, put_word, page_bytes. cbn [set_ram ram]. rewrite lookup_insert_eq.
  pose proof (index_range a). change PAGE_SIZE with 4096. cbn [default from_option id].
  apply word_at_set_word_eq; [lia| |done].
  pose proof (page_bytes_ok m (a / 4096) Hm) as [Hl _]. unfold page_bytes in Hl. rewrite Hl. lia.
Qed.

Lemma word_put_ne m a b v : mem_ok m → a mod 4 = 0 → b mod 4 = 0 → a ≠ b → word (put_word a v m) b = word m b.
Proof.
  intros Hm Ha Hb Hne. unfold word, put_word, page_bytes. cbn [set_ram ram]. change PAGE_SIZE with 4096.
  destruct (decide (a / 4096 = b / 4096)) as [E|E]; [|by rewrite lookup_insert_ne by done].
  rewrite E, lookup_insert_eq. pose proof (index_range a). pose proof (index_range b).
  cbn [default from_option id]. apply word_at_set_word_ne; [lia|lia| |].
  - intros Hi. apply Hne. by apply index_eq.
  - pose proof (page_bytes_ok m (b / 4096) Hm) as [Hl _]. unfold page_bytes in Hl. rewrite Hl. lia.
Qed.

Lemma mem_ok_put m a v : mem_ok m → mem_ok (put_word a v m).
Proof.
  intros Hm. split; try apply Hm. cbn [put_word set_ram ram].
  apply map_Forall_insert_2; [|apply Hm]. pose proof (page_bytes_ok m (a / PAGE_SIZE) Hm) as [Hl Hb].
  unfold page_bytes in *. pose proof (index_range a). change PAGE_SIZE with 4096 in *.
  split; [rewrite length_set_word by lia; done|by apply bytes_set_word].
Qed.

(** ** Allocation and release as functions *)

(** One page taken: marked and zero-filled. *)
Definition grab (pn : Z) (m : memory) : memory :=
  Memory (<[pn := zeros 4096]> (ram m)) (<[Z.to_nat (pn - first_page m) := 1]> (page_allocated m)) (satp m) (free_ram m).
Definition release (pn : Z) (m : memory) : memory :=
  set_page_allocated (<[Z.to_nat (pn - first_page m) := 0]>) m.

Fixpoint grabs (pn : Z) (n : nat) (m : memory) : memory :=
  match n with O => m | S n => grabs (pn + 1) n (grab pn m) end.
Fixpoint releases (pn : Z) (n : nat) (m : memory) : memory :=
  match n with O => m | S n => releases (pn + 1) n (release pn m) end.

Lemma mem_ok_grab m pn : mem_ok m → mem_ok (grab pn m).
Proof.
  intros Hm. split; cbn [grab page_allocated free_ram ram]; try apply Hm.
  - rewrite length_insert. apply Hm.
  - apply Forall_insert; [apply Hm|by right].
  - apply map_Forall_insert_2; [|apply Hm]. split; [apply length_zeros|apply bytes_zeros].
Qed.

Lemma mem_ok_release m pn : mem_ok m → mem_ok (release pn m).
Proof.
  intros Hm. split; cbn [release set_page_allocated page_allocated free_ram ram]; try apply Hm.
  - rewrite length_insert. apply Hm.
  - apply Forall_insert; [apply Hm|by left].
Qed.

Lemma alloced_grab m pn p : mem_ok m → managed m pn → alloced (grab pn m) p ↔ p = pn ∨ alloced m p.
Proof.
  intros Hm [H1 H2]. unfold alloced, managed. cbn [grab page_allocated].
  change (first_page (grab pn m)) with (first_page m). split.
  - intros [[Hp1 Hp2] Hb]. destruct (decide (p = pn)) as [|Hne]; [by left|right].
    rewrite list_lookup_insert_ne in Hb by lia. done.
  - intros [->|[[Hp1 Hp2] Hb]]; (split; [done|]).
    + rewrite list_lookup_insert_eq; [done|]. rewrite (mo_flags m Hm). unfold NUM_PAGES in *. lia.
    + destruct (decide (p = pn)) as [->|Hne]; [|by rewrite list_lookup_insert_ne by lia].
      rewrite list_lookup_insert_eq; [done|]. apply lookup_lt_Some in Hb. lia.
Qed.

Lemma alloced_release m pn p : mem_ok m → managed m pn → alloced (release pn m) p ↔ p ≠ pn ∧ alloced m p.
Proof.
  intros Hm [H1 H2]. unfold alloced, managed. cbn [release set_page_allocated page_allocated].
  change (first_page (release pn m)) with (first_page m). split.
  - intros [[Hp1 Hp2] Hb]. destruct (decide (p = pn)) as [->|Hne].
    + rewrite list_lookup_insert_eq in Hb; [done|]. rewrite (mo_flags m Hm). unfold NUM_PAGES in *. lia.
    + rewrite list_lookup_insert_ne in Hb by lia. done.
  - intros [Hne [[Hp1 Hp2] Hb]]. split; [done|]. by rewrite list_lookup_insert_ne by lia.
Qed.

Lemma word_grab_in m pn i : 0 ≤ i < 1024 → word (grab pn m) (pn * 4096 + 4 * i) = 0.
Proof.
  intros Hi. unfold word, page_bytes. cbn [grab ram]. change PAGE_SIZE with 4096.
  replace ((pn * 4096 + 4 * i) / 4096) with pn by (rewrite Z.div_add_l, Z.div_small by lia; lia).
  rewrite lookup_insert_eq. cbn [default from_option id]. rewrite Z.add_comm, Z.mod_add, Z.mod_small by lia.
  rewrite Z.mul_comm, Z.div_mul by lia. apply word_at_zeros. lia.
Qed.

Lemma word_grab_out m pn a : a / 4096 ≠ pn → word (grab pn m) a = word m a.
Proof. intros Ha. unfold word, page_bytes. cbn [grab ram]. by rewrite lookup_insert_ne by (intros ->; done). Qed.

Lemma word_release m pn a : word (release pn m) a = word m a.
Proof. done. Qed.

(** ** [alloc_pages] *)

Lemma pages_free_spec l i n : 0 ≤ i → i + Z.of_nat n ≤ Z.of_nat (length l) →
  (pages_free l i n = Some true ∧ ∀ j, i ≤ j < i + Z.of_nat n → l !! Z.to_nat j = Some 0) ∨
  (pages_free l i n = Some false ∧ ∃ j b, i ≤ j < i + Z.of_nat n ∧ l !! Z.to_nat j = Some b ∧ b ≠ 0).
Proof.
  revert i. induction n as [|n IH]; intros i Hi Hl; cbn [pages_free].
  - left. split; [done|]. lia.
  - rewrite zlookup_nat by done.
    destruct (l !! Z.to_nat i) as [b|] eqn:E; [|apply lookup_ge_None in E; lia].
    destruct (Z.eqb_spec b 0) as [->|Hb]; cbn [negb].
    + destruct (IH (i + 1)) as [[-> Hz]|[-> (j & b & Hj & Hb)]]; [lia|lia|left|right].
      * split; [done|]. intros j Hj. destruct (decide (j = i)) as [->|]; [done|]. apply Hz. lia.
      * split; [done|]. exists j, b. split; [lia|done].
    + right. split; [done|]. exists i, b. split; [lia|done].
Qed.

Fixpoint zero_run (pn : Z) (n : nat) (r : gmap Z (list Z)) : gmap Z (list Z) :=
  match n with O => r | S n => zero_run (pn + 1) n (<[pn := zeros 4096]> r) end.

Lemma grabs_eq m pn n : first_page m ≤ pn →
  grabs pn n m = Memory (zero_run pn n (ram m)) (mark_pages 1 (pn - first_page m) n (page_allocated m)) (satp m) (free_ram m).
Proof.
  revert m pn. induction n as [|n IH]; intros m pn Hp; cbn [grabs zero_run mark_pages]; [by destruct m|].
  rewrite IH by (change (first_page (grab pn m)) with (first_page m); lia).
  cbn [grab ram page_allocated satp free_ram]. change (first_page (grab pn m)) with (first_page m).
  f_equal. replace (pn + 1 - first_page m) with (pn - first_page m + 1) by lia. f_equal.
  unfold zupdate. by rewrite list_insert_alter.
Qed.

Lemma releases_eq m pn n : first_page m ≤ pn →
  releases pn n m = set_page_allocated (mark_pages 0 (pn - first_page m) n) m.
Proof.
  revert m pn. induction n as [|n IH]; intros m pn Hp; cbn [releases mark_pages]; [by destruct m|].
  rewrite IH by (change (first_page (release pn m)) with (first_page m); lia).
  change (first_page (release pn m)) with (first_page m). unfold release, set_page_allocated.
  cbn [page_allocated ram satp free_ram].
  f_equal. replace (pn + 1 - first_page m) with (pn - first_page m + 1) by lia. f_equal.
  unfold zupdate. by rewrite list_insert_alter.
Qed.

Lemma splice_all (l d : list Z) : length d = length l → splice l 0 d = d.
Proof. intros H. unfold splice. rewrite take_0, Nat.add_0_l, drop_ge by lia. by rewrite app_nil_r. Qed.

Lemma put_bytes_page pn m : mem_ok m → put_bytes (pn * 4096) (zeros 4096) m = set_ram (<[pn := zeros 4096]>) m.
Proof.
  intros Hm. unfold put_bytes. change PAGE_SIZE with 4096. rewrite Z.div_mul, Z.mod_mul by lia.
  unfold set_ram. f_equal. f_equal. apply splice_all. rewrite length_zeros.
  pose proof (page_bytes_ok m pn Hm) as [Hl _]. unfold page_bytes in Hl. by rewrite Hl.
Qed.

Lemma mem_ok_zero m pn : mem_ok m → mem_ok (set_ram (<[pn := zeros 4096]>) m).
Proof.
  intros Hm. split; try apply Hm. cbn [set_ram ram]. apply map_Forall_insert_2; [|apply Hm].
  split; [apply length_zeros|apply bytes_zeros].
Qed.

Lemma for_pages_step fuel f a l : l ≠ [] →
  for_pages (S fuel) f a l =
    (let n := Z.to_nat (PAGE_SIZE - a mod PAGE_SIZE) in
     f a (take n l);; for_pages fuel f (a + Z.of_nat n) (drop n l)).
Proof. by destruct l. Qed.

Lemma zeros_add a b : zeros (a + b) = zeros a ++ zeros b.
Proof. apply replicate_add. Qed.

Lemma store_in_page_wp m pn o l (Q : unit → memory → Prop) R :
  mem_ok m → managed m pn → 0 ≤ o → o + Z.of_nat (length l) ≤ 4096 →
  Q tt (put_bytes (pn * 4096 + o) l m) → wp (store_in_page (pn * 4096 + o) l) Q R m.
Proof.
  intros Hm Hp Ho Hl HQ. pose proof (managed_range m pn Hm Hp) as [Ha1 Ha2].
  unfold store_in_page. wp_steps. unfold wp at 1, get.
  assert (accessible m (pn * 4096 + o) (Z.of_nat (length l)) = true) as ->; [|by apply wp_modify].
  unfold accessible. apply andb_true_iff. split; apply Z.leb_le; lia.
Qed.

Lemma zero_pages_wp fuel m pn n (Q : unit → memory → Prop) R : mem_ok m → (n ≤ fuel)%nat →
  first_page m ≤ pn → pn + Z.of_nat n ≤ first_page m + NUM_PAGES →
  Q tt (set_ram (zero_run pn n) m) → wp (for_pages fuel store_in_page (pn * 4096) (zeros (n * 4096))) Q R m.
Proof.
  revert fuel m pn. induction n as [|n IH]; intros fuel m pn Hm Hf Hp1 Hp2 HQ.
  - cbn [Nat.mul zeros replicate]. destruct fuel, m; exact HQ.
  - destruct fuel as [|fuel]; [lia|]. rewrite Nat.mul_succ_l, Nat.add_comm, zeros_add.
    rewrite for_pages_step by (intros [? _]%app_nil; done). change PAGE_SIZE with 4096. rewrite Z.mod_mul by lia.
    change (Z.to_nat (4096 - 0)) with 4096%nat. cbv zeta.
    rewrite take_app_length', drop_app_length' by (by rewrite length_zeros).
    apply wp_bind. rewrite <-(Z.add_0_r (pn * 4096)) at 1.
    apply store_in_page_wp; [done|unfold managed; lia|lia|rewrite length_zeros; lia|].
    rewrite Z.add_0_r, put_bytes_page by done.
    replace (pn * 4096 + Z.of_nat 4096) with ((pn + 1) * 4096) by lia.
    apply IH; [by apply mem_ok_zero|lia|change (first_page m ≤ pn + 1); lia| |by destruct m].
    change (pn + 1 + Z.of_nat n ≤ first_page m + NUM_PAGES). lia.
Qed.

Lemma mem_ok_grabs pn n m : mem_ok m → mem_ok (grabs pn n m).
Proof. revert pn m. induction n as [|n IH]; intros pn m Hm; [done|]. cbn [grabs]. by apply IH, mem_ok_grab. Qed.

Lemma mem_ok_marked m i n : mem_ok m → 0 ≤ i → mem_ok (set_page_allocated (mark_pages 1 i n) m).
Proof.
  intros Hm Hi. pose proof (mem_ok_grabs (first_page m + i) n m Hm) as Hg.
  rewrite grabs_eq in Hg by lia. replace (first_page m + i - first_page m) with i in Hg by lia.
  split; [apply (mo_flags _ Hg)|apply (mo_bits _ Hg)|apply Hm..].
Qed.

Definition blocked (m : memory) (n i : Z) : Prop := ∃ j, i ≤ j < i + n ∧ alloced m (first_page m + j).

Lemma alloc_pages_wp m n : mem_ok m → 0 ≤ n ≤ NUM_PAGES →
  wp (alloc_pages n)
    (λ pa m', ∃ i, 0 ≤ i ∧ i + n ≤ NUM_PAGES ∧ pa = (first_page m + i) * 4096 ∧
       m' = grabs (first_page m + i) (Z.to_nat n) m ∧
       (∀ j, i ≤ j < i + n → avail m (first_page m + j)) ∧ ∀ i', 0 ≤ i' < i → blocked m n i')
    (λ m', m' = m ∧ ∀ i, 0 ≤ i ≤ NUM_PAGES - n → blocked m n i) m.
Proof.
  intros Hm Hn. unfold alloc_pages.
  apply (wp_loop (λ k i s, s = m ∧ 0 ≤ i ≤ NUM_PAGES + 1 ∧ k = Z.to_nat (NUM_PAGES + 1 - i) ∧
    i ≤ NUM_PAGES - n + 1 ∧ ∀ i', 0 ≤ i' < i → blocked m n i')) with (k := Z.to_nat (NUM_PAGES + 1)).
  - intros k i s (-> & Hi & -> & Hle & Hblk). apply wp_bind. unfold wp at 1, get.
    pose proof (mo_top m Hm) as Htop. unfold free_ram_end in Htop.
    pose proof (free_ram_eq m Hm) as Hfr. pose proof (mo_base m Hm) as Hbase. unfold KERNEL_BASE in Hbase.
    rewrite (u32_small (NUM_PAGES - n)) by (unfold NUM_PAGES in *; lia).
    destruct (Z.leb_spec i (NUM_PAGES - n)) as [Hin|Hout]; cbn [negb].
    2: { apply wp_panic. split; [done|]. intros i' Hi'. apply Hblk. lia. }
    destruct (pages_free_spec (page_allocated m) i (Z.to_nat n)) as [[-> Hz]|[-> (j & b & Hj & Hb & Hb0)]];
      [lia|rewrite (mo_flags m Hm); lia|..]; cbn [expect].
    + wp_steps. cbn [negb]. wp_steps. unfold PAGE_SIZE, NUM_PAGES in *.
      rewrite u32_small by lia. rewrite u32_small by lia.
      replace (free_ram m + i * 4096) with ((first_page m + i) * 4096) by lia.
      replace (Z.to_nat (n * 4096)) with (Z.to_nat n * 4096)%nat by lia.
      unfold store_bytes. apply zero_pages_wp.
      { apply mem_ok_marked; [done|lia]. }
      { rewrite length_zeros, Nat2Z.inj_mul. change PAGE_SIZE with (Z.of_nat 4096). rewrite Z.div_mul by lia. lia. }
      1,2: change (first_page (set_page_allocated (mark_pages 1 i (Z.to_nat n)) m)) with (first_page m); unfold NUM_PAGES; lia.
      wp_steps. exists i. split; [lia|]. split; [lia|]. split; [done|]. split.
      * rewrite grabs_eq by lia. unfold set_ram, set_page_allocated. cbn [ram page_allocated satp free_ram].
        replace (first_page m + i - first_page m) with i by lia. done.
      * split; [|done]. intros j Hj. split; [unfold managed, NUM_PAGES; lia|].
        replace (first_page m + j - first_page m) with j by lia. apply Hz. lia.
    + wp_steps. cbn [negb]. wp_steps. exists (Z.to_nat (NUM_PAGES + 1 - (i + 1))). unfold NUM_PAGES in *.
      split; [lia|]. split; [done|]. split; [lia|]. split; [done|]. split; [lia|].
      intros i' Hi'. destruct (decide (i' = i)) as [->|]; [|apply Hblk; lia].
      exists j. split; [lia|]. split; [unfold managed, NUM_PAGES; lia|].
      replace (first_page m + j - first_page m) with j by lia. rewrite Hb.
      destruct (proj1 (Forall_lookup _ _) (mo_bits m Hm) _ _ Hb) as [->| ->]; [done|done].
  - unfold NUM_PAGES in *. repeat split; try lia.
  - unfold NUM_PAGES. lia.
Qed.

Lemma avail_grab m p q : avail m p → managed m q → p ≠ q → avail (grab q m) p.
Proof.
  intros [Hp Ha] Hq Hne. split; [done|]. cbn [grab page_allocated]. change (first_page (grab q m)) with (first_page m).
  rewrite list_lookup_insert_ne; [done|]. unfold managed in *. lia.
Qed.

(** One page at a time, as the kernel mostly asks for it. *)
Lemma alloc_page_wp m : mem_ok m →
  wp (alloc_pages 1) (λ pa m', ∃ p, pa = p * 4096 ∧ avail m p ∧ m' = grab p m)
    (λ m', m' = m ∧ ∀ p, managed m p → alloced m p) m.
Proof.
  intros Hm. eapply wp_mono; [apply (alloc_pages_wp m 1 Hm); unfold NUM_PAGES; lia|..].
  - intros pa m' (i & Hi & Hn & -> & -> & Hav & _). exists (first_page m + i). split; [done|]. split; [apply Hav; lia|done].
  - intros m' [-> H]. split; [done|]. intros p [Hp1 Hp2]. destruct (H (p - first_page m)) as (j & Hj & Ha); [lia|].
    replace (first_page m + j) with p in Ha by lia. done.
Qed.

Lemma free_pages_wp m p n (Q : unit → memory → Prop) R : mem_ok m → 0 < n →
  first_page m ≤ p → p + n ≤ first_page m + NUM_PAGES →
  Q tt (releases p (Z.to_nat n) m) → wp (free_pages (p * 4096) n) Q R m.
Proof.
  intros Hm Hn H1 H2 HQ. assert (managed m p) as Hp by (unfold managed; lia).
  pose proof (managed_range m p Hm Hp) as [Ha1 Ha2]. pose proof (free_ram_eq m Hm) as Hfr.
  unfold free_pages. wp_steps. unfold wp at 1, get.
  unfold NUM_PAGES in *. zb. change PAGE_SIZE with 4096.
  replace ((p * 4096 - free_ram m) / 4096) with (p - first_page m).
  2: { rewrite Hfr. replace (p * 4096 - 4096 * first_page m) with ((p - first_page m) * 4096) by lia. by rewrite Z.div_mul. }
  rewrite u32_small by lia. zb. apply wp_modify. by rewrite releases_eq in HQ by lia.
Qed.

Lemma free_page_wp m p (Q : unit → memory → Prop) R : mem_ok m → managed m p →
  Q tt (release p m) → wp (free_pages (p * 4096) 1) Q R m.
Proof. intros Hm [H1 H2] HQ. apply free_pages_wp; [done|lia|lia|lia|done]. Qed.

(** ** Page-table entries *)

Definition ppn (e : Z) : Z := Z.shiftr e 10.

Lemma vpn1_eq va : 0 ≤ va < 4294967296 → vpn1 va = va / 4194304.
Proof.
  intros Hva. unfold vpn1. change 1023 with (Z.ones 10). rewrite Z.land_ones, Z.shiftr_div_pow2 by lia.
  apply Z.mod_small. change (2 ^ 22) with 4194304. split; [apply Z.div_pos; lia|apply Z.div_lt_upper_bound; lia].
Qed.

Lemma vpn0_eq va : vpn0 va = va / 4096 mod 1024.
Proof. unfold vpn0. change 1023 with (Z.ones 10). by rewrite Z.land_ones, Z.shiftr_div_pow2 by lia. Qed.

Lemma vpn0_range va : 0 ≤ vpn0 va < 1024.
Proof. rewrite vpn0_eq. apply Z.mod_pos_bound. lia. Qed.

Lemma vpn1_range va : 0 ≤ vpn1 va < 1024.
Proof. unfold vpn1. change 1023 with (Z.ones 10). rewrite Z.land_ones by lia. apply Z.mod_pos_bound. lia. Qed.

Lemma target_eq e : 0 ≤ ppn e < 1048576 → target e = ppn e * 4096.
Proof. intros He. unfold target. fold (ppn e). change PAGE_SIZE with 4096. apply u32_small. lia. Qed.

(** The entry for page [p] with flags [fl]. *)
Definition entry (p fl : Z) : Z := Z.lor (Z.lor (p * 1024) fl) PAGE_V.

Lemma entry_eq p fl : 0 ≤ fl < 1024 → entry p fl = p * 1024 + Z.lor fl 1.
Proof.
  intros Hf. unfold entry. rewrite <-Z.lor_assoc. change PAGE_V with 1.
  assert (0 ≤ Z.lor fl 1 < 1024) as Hr.
  { split; [apply Z.lor_nonneg; lia|]. destruct (decide (Z.lor fl 1 = 0)) as [->|]; [lia|].
    assert (0 ≤ Z.lor fl 1) by (apply Z.lor_nonneg; lia).
    change 1024 with (2 ^ 10). apply Z.log2_lt_pow2; [lia|]. rewrite Z.log2_lor by lia.
    destruct (decide (fl = 0)) as [->|]; [done|].
    assert (Z.log2 fl < 10) by (apply Z.log2_lt_pow2; lia). change (Z.log2 1) with 0. lia. }
  rewrite <-Z.lxor_lor, <-Z.add_nocarry_lxor; [done|..].
  all: change 1024 with (2 ^ 10); rewrite <-Z.shiftl_mul_pow2 by lia.
  all: apply Z.bits_inj'; intros k Hk; rewrite Z.land_spec, Z.bits_0, Z.shiftl_spec by done.
  all: destruct (decide (k < 10)) as [H|H]; [rewrite (Z.testbit_neg_r p) by lia; done|].
  all: rewrite (Z.bits_above_log2 (Z.lor fl 1) k); [apply andb_false_r|lia|].
  all: destruct (decide (Z.lor fl 1 = 0)) as [->|]; [cbn; lia|].
  all: apply Z.lt_le_trans with 10; [apply Z.log2_lt_pow2; lia|lia].
Qed.

Lemma lor_flag_range fl : 0 ≤ fl < 1024 → 0 ≤ Z.lor fl 1 < 1024.
Proof.
  intros Hf. pose proof (entry_eq 0 fl Hf) as E. unfold entry in E. rewrite Z.mul_0_l, Z.lor_0_l in E.
  split; [apply Z.lor_nonneg; lia|]. change 1024 with (2 ^ 10).
  assert (0 ≤ Z.lor fl 1) by (apply Z.lor_nonneg; lia).
  destruct (decide (Z.lor fl 1 = 0)) as [->|]; [done|]. apply Z.log2_lt_pow2; [lia|]. rewrite Z.log2_lor by lia.
  destruct (decide (fl = 0)) as [->|]; [done|].
  assert (Z.log2 fl < 10) by (apply Z.log2_lt_pow2; lia). change (Z.log2 1) with 0. lia.
Qed.

Lemma ppn_entry p fl : 0 ≤ fl < 1024 → ppn (entry p fl) = p.
Proof.
  intros Hf. rewrite entry_eq by done. unfold ppn. rewrite Z.shiftr_div_pow2 by lia. change (2 ^ 10) with 1024.
  pose proof (lor_flag_range fl Hf). rewrite Z.div_add_l, Z.div_small by lia. lia.
Qed.

Lemma entry_range p fl : 0 ≤ fl < 1024 → 0 ≤ p < 1048576 → 0 ≤ entry p fl < 4294967296.
Proof. intros Hf Hp. rewrite entry_eq by done. pose proof (lor_flag_range fl Hf). lia. Qed.

Lemma valid_entry p fl : is_valid (entry p fl) = true.
Proof.
  unfold is_valid, has_flag, entry. change PAGE_V with 1. rewrite Z.land_lor_distr_l.
  destruct (Z.eqb_spec (Z.lor (Z.land (Z.lor (p * 1024) fl) 1) (Z.land 1 1)) 0) as [E|]; [|done].
  apply Z.lor_eq_0_iff in E as [_ E]. done.
Qed.

Lemma flag_entry p fl k : 0 < k < 10 → has_flag (entry p fl) (2 ^ k) = has_flag fl (2 ^ k).
Proof.
  intros Hk. unfold has_flag, entry. rewrite !Z.land_lor_distr_l.
  assert (Z.land (p * 1024) (2 ^ k) = 0) as ->.
  { apply Z.bits_inj'. intros j Hj. rewrite Z.land_spec, Z.bits_0, Z.pow2_bits_eqb by lia.
    destruct (Z.eqb_spec k j) as [<-|]; [|apply andb_false_r].
    change 1024 with (2 ^ 10). rewrite <-Z.shiftl_mul_pow2 by lia. rewrite Z.shiftl_spec by lia.
    by rewrite Z.testbit_neg_r by lia. }
  assert (Z.land PAGE_V (2 ^ k) = 0) as ->.
  { change PAGE_V with (2 ^ 0). apply Z.bits_inj'. intros j Hj.
    rewrite Z.land_spec, Z.bits_0, !Z.pow2_bits_eqb by lia.
    destruct (Z.eqb_spec k j), (Z.eqb_spec 0 j); try done. lia. }
  rewrite Z.lor_0_l. by rewrite Z.lor_0_r.
Qed.

Lemma page_index p : 0 ≤ p < 1048576 → u32 (Z.shiftl (PAGE_TABLE_TO_INDEX (p * 4096)) 10) = p * 1024.
Proof.
  intros Hp. unfold PAGE_TABLE_TO_INDEX. rewrite (u32_small (p * 4096)) by lia. change PAGE_SIZE with 4096.
  rewrite Z.div_mul, Z.shiftl_mul_pow2 by lia. change (2 ^ 10) with 1024. apply u32_small. lia.
Qed.

Lemma managed_small m p : mem_ok m → managed m p → 0 ≤ p < 1048576.
Proof. intros Hm Hp. pose proof (managed_range m p Hm Hp) as [H1 H2]. unfold KERNEL_BASE in *. lia. Qed.

#[export] Hint Resolve mem_ok_put mem_ok_grab mem_ok_release vpn0_range vpn1_range : kernel.
