(* ===== verification/PageTable.v ===== *)
(** * Address spaces

    Who holds each page of RAM: the root of an address space, one of its second
    level tables, a user page it maps, or the kernel. The invariant says that a
    page is allocated exactly when it has a holder, and that it never has two:
    address spaces share no page, no user page is a page table, and nothing leaks. *)

From S2P Require Import Prelude CLib FsTypes KState Page PageMem.

(** Entry [i] of the root table in page [r], and the leaf entry of page
    [i * 1024 + j] of the address space, 0 where there is no second-level table. *)
Definition l1 (m : memory) (r i : Z) : Z := word m (r * 4096 + 4 * i).
Definition pte (m : memory) (r i j : Z) : Z :=
  if is_valid (l1 m r i) then word m (ppn (l1 m r i) * 4096 + 4 * j) else 0.

Definition idx (i : Z) : Prop := 0 ≤ i < 1024.

(** A leaf whose page belongs to the address space: a valid entry of the lower
    half for a page of the allocator. This is the test of [free_process_pages]. *)
Definition user_leaf (m : memory) (i e : Z) : Prop := i < 512 ∧ is_valid e = true ∧ managed m (ppn e).

(** A leaf for user code: always one of its own pages, and readable. *)
Definition user_page (m : memory) (i e : Z) : Prop := user_leaf m i e ∧ has_flag e PAGE_R = true.

(** An entry of a root table is no superpage: where it is valid it points to a table. *)
Definition directory (e : Z) : Prop := is_valid e = true → Z.land e (Z.lor PAGE_R (Z.lor PAGE_W PAGE_X)) = 0.

Inductive loc := Root (r : Z) | Table (r i : Z) | Leaf (r i j : Z) | Kept (p : Z).
#[export] Instance loc_eq_dec : EqDecision loc.
Proof. solve_decision. Defined.

(** [holds m R K l p]: location [l] holds page [p], for the roots [R] and the
    pages [K] of the kernel. *)
Definition holds (m : memory) (R K : gset Z) (l : loc) (p : Z) : Prop :=
  match l with
  | Root r => r ∈ R ∧ p = r
  | Table r i => r ∈ R ∧ idx i ∧ is_valid (l1 m r i) = true ∧ p = ppn (l1 m r i)
  | Leaf r i j => r ∈ R ∧ idx i ∧ idx j ∧ user_leaf m i (pte m r i j) ∧ p = ppn (pte m r i j)
  | Kept q => q ∈ K ∧ p = q
  end.

Record vm_ok (m : memory) (R K : gset Z) : Prop := {
  vo_mem : mem_ok m;
  vo_alloced p : alloced m p ↔ ∃ l, holds m R K l p;
  vo_inj l l' p : holds m R K l p → holds m R K l' p → l = l';
  vo_user r i j : r ∈ R → idx i → idx j → is_valid (pte m r i j) = true →
    has_flag (pte m r i j) PAGE_U = true → user_page m i (pte m r i j);
  vo_dir r i : r ∈ R → idx i → directory (l1 m r i);
  vo_small r i j : r ∈ R → idx i → idx j → ppn (pte m r i j) < 1048576
}.

Section vm.
Context {m : memory} {R K : gset Z} (Hvm : vm_ok m R K).

Lemma vm_mem : mem_ok m.
Proof using Hvm. apply Hvm. Qed.

Lemma holds_alloced l p : holds m R K l p → alloced m p.
Proof using Hvm. intros H. apply (vo_alloced m R K Hvm). eauto. Qed.

Lemma holds_managed l p : holds m R K l p → managed m p.
Proof using Hvm. intros H. apply (holds_alloced l p H). Qed.

Lemma root_addr r i : r ∈ R → idx i → word_addr m (r * 4096 + 4 * i).
Proof using Hvm. intros Hr Hi. apply word_addr_in; [apply vm_mem|by apply (holds_managed (Root r) r)|done]. Qed.

Lemma table_addr r i j : r ∈ R → idx i → is_valid (l1 m r i) = true → idx j →
  target (l1 m r i) = ppn (l1 m r i) * 4096 ∧ word_addr m (ppn (l1 m r i) * 4096 + 4 * j).
Proof using Hvm.
  intros Hr Hi Hv Hj. assert (managed m (ppn (l1 m r i))) as Hp by (by apply (holds_managed (Table r i))). split.
  - apply target_eq. by apply (managed_small m); [apply vm_mem|].
  - apply word_addr_in; [apply vm_mem|done..].
Qed.

Lemma avail_fresh p l : avail m p → ¬ holds m R K l p.
Proof using Hvm. intros Ha H. by eapply avail_not_alloced, holds_alloced. Qed.
End vm.

Lemma vpn_aligned va : va mod 4 = 0 → va / 4096 * 4096 + va mod 4096 = va.
Proof. intros _. pose proof (Z_div_mod_eq_full va 4096). lia. Qed.

Lemma slot_page p i : idx i → (p * 4096 + 4 * i) / 4096 = p.
Proof. unfold idx. intros. rewrite Z.div_add_l, Z.div_small by lia. lia. Qed.

Lemma slot_mod p i : (p * 4096 + 4 * i) mod 4 = 0.
Proof. replace (p * 4096 + 4 * i) with ((p * 1024 + i) * 4) by lia. apply Z.mod_mul. lia. Qed.

Lemma slot_inj p i q j : idx i → idx j → p * 4096 + 4 * i = q * 4096 + 4 * j → p = q ∧ i = j.
Proof. unfold idx. intros Hi Hj E. lia. Qed.

Lemma word_put_slot m p i v q j : mem_ok m → 0 ≤ v < 4294967296 → idx i → idx j →
  word (put_word (p * 4096 + 4 * i) v m) (q * 4096 + 4 * j) =
    if decide (q = p ∧ j = i) then v else word m (q * 4096 + 4 * j).
Proof.
  intros Hm Hv Hi Hj. destruct (decide _) as [[-> ->]|Hne].
  - by apply word_put_eq.
  - apply word_put_ne; [done|apply slot_mod..|]. intros E. apply Hne. by apply slot_inj in E as [-> ->].
Qed.

(** ** Who holds what, after a step *)

Lemma holds_fun m R K l p q : holds m R K l p → holds m R K l q → p = q.
Proof. destruct l; cbn [holds]; intros; destruct_and!; congruence. Qed.

Lemma user_leaf_same m m' i e : free_ram m' = free_ram m → user_leaf m' i e ↔ user_leaf m i e.
Proof. intros E. unfold user_leaf, managed, first_page. by rewrite E. Qed.

(** Memories with the same tables. *)
Record same_tables (R : gset Z) (m m' : memory) : Prop := {
  st_ram : free_ram m' = free_ram m;
  st_l1 r i : r ∈ R → idx i → l1 m' r i = l1 m r i;
  st_pte r i j : r ∈ R → idx i → idx j → pte m' r i j = pte m r i j
}.

Lemma holds_same m m' R K l p : same_tables R m m' → holds m' R K l p ↔ holds m R K l p.
Proof.
  intros [Hf H1 H2]. destruct l as [r|r i|r i j|q]; cbn [holds]; [done|..|done].
  - split; intros (Hr & Hi & H); (split; [done|]; split; [done|]); rewrite H1 in * by done; done.
  - split; intros (Hr & Hi & Hj & H); (split; [done|]; split; [done|]; split; [done|]);
      rewrite H2, (user_leaf_same m m') in * by done; done.
Qed.

(** A page changes its holder. *)
Lemma moved_ok m R K m' R' K' lold lnew t :
  vm_ok m R K → mem_ok m' → (∀ p, alloced m' p ↔ alloced m p) →
  holds m R K lold t → (∀ p, ¬ holds m R K lnew p) →
  (∀ l p, holds m' R' K' l p ↔ (l = lnew ∧ p = t) ∨ (l ≠ lold ∧ holds m R K l p)) →
  (∀ r i j, r ∈ R' → idx i → idx j → is_valid (pte m' r i j) = true →
    has_flag (pte m' r i j) PAGE_U = true → user_page m' i (pte m' r i j)) →
  (∀ r i, r ∈ R' → idx i → directory (l1 m' r i)) →
  (∀ r i j, r ∈ R' → idx i → idx j → ppn (pte m' r i j) < 1048576) →
  vm_ok m' R' K'.
Proof.
  intros Hvm Hm' Hal Hold Hnew Hiff Hu Hd Hsm. split; [done| | |done|done|done].
  - intros p. rewrite Hal, (vo_alloced m R K Hvm). split.
    + intros [l Hl]. destruct (decide (p = t)) as [->|Hne].
      * exists lnew. apply Hiff. by left.
      * exists l. apply Hiff. right. split; [|done]. intros ->. apply Hne. by eapply holds_fun.
    + intros [l Hl]. apply Hiff in Hl as [[-> ->]|[_ Hl]]; eauto.
  - intros l l' p [[-> ->]|[Hn Hl]]%Hiff [[-> Hp]|[Hn' Hl']]%Hiff; [done|..].
    + destruct Hn'. by eapply (vo_inj m R K Hvm).
    + subst p. destruct Hn. by eapply (vo_inj m R K Hvm).
    + by eapply (vo_inj m R K Hvm).
Qed.

(** ** The kernel takes a free page *)

Lemma grab_tables m R K p : vm_ok m R K → avail m p → same_tables R m (grab p m).
Proof.
  intros Hvm Ha.
  assert (∀ r i, r ∈ R → idx i → l1 (grab p m) r i = l1 m r i) as H1.
  { intros r i Hr Hi. apply word_grab_out. rewrite slot_page by done. intros ->.
    by apply (avail_fresh Hvm p (Root p)). }
  split; [done|done|]. intros r i j Hr Hi Hj. unfold pte. rewrite H1 by done.
  destruct (is_valid (l1 m r i)) eqn:Hv; [|done]. apply word_grab_out. rewrite slot_page by done. intros E.
  by apply (avail_fresh Hvm p (Table r i)).
Qed.

Lemma user_same m m' R K : vm_ok m R K → same_tables R m m' →
  ∀ r i j, r ∈ R → idx i → idx j → is_valid (pte m' r i j) = true →
    has_flag (pte m' r i j) PAGE_U = true → user_page m' i (pte m' r i j).
Proof.
  intros Hvm Hs r i j Hr Hi Hj. unfold user_page.
  rewrite (st_pte R m m' Hs), (user_leaf_same m m') by (done || apply Hs).
  by apply (vo_user m R K Hvm).
Qed.

Lemma dir_same m m' R K : vm_ok m R K → same_tables R m m' → ∀ r i, r ∈ R → idx i → directory (l1 m' r i).
Proof. intros Hvm Hs r i Hr Hi. rewrite (st_l1 R m m' Hs) by done. by apply (vo_dir m R K Hvm). Qed.

Lemma small_same m m' R K : vm_ok m R K → same_tables R m m' →
  ∀ r i j, r ∈ R → idx i → idx j → ppn (pte m' r i j) < 1048576.
Proof. intros Hvm Hs r i j Hr Hi Hj. rewrite (st_pte R m m' Hs) by done. by apply (vo_small m R K Hvm). Qed.

Lemma vm_grab m R K p : vm_ok m R K → avail m p → vm_ok (grab p m) R ({[p]} ∪ K).
Proof.
  intros Hvm Ha. pose proof (vm_mem Hvm) as Hm. pose proof (grab_tables m R K p Hvm Ha) as Hs.
  assert (∀ l q, holds (grab p m) R ({[p]} ∪ K) l q ↔ (l = Kept p ∧ q = p) ∨ holds m R K l q) as Hiff.
  { intros l q. rewrite (holds_same m) by done. destruct l as [r|r i|r i j|q']; cbn [holds];
      [by split; [right|intros [[? ?]|?]]..|].
    rewrite elem_of_union, elem_of_singleton. split.
    - intros [[->|Hq] ->]; [by left|by right].
    - intros [[[= ->] ->]|[Hq ->]]; (split; [|done]); [by left|by right]. }
  split; [by apply mem_ok_grab|..|by apply (user_same m _ R K)|by apply (dir_same m _ R K)|by apply (small_same m _ R K)].
  - intros q. rewrite alloced_grab, (vo_alloced m R K Hvm) by (done || apply Ha). split.
    + intros [->|[l Hl]]; [exists (Kept p)|exists l]; apply Hiff; [by left|by right].
    + intros [l [[-> ->]|Hl]%Hiff]; [by left|right; eauto].
  - intros l l' q [[-> ->]|Hl]%Hiff [[-> Hq]|Hl']%Hiff; [done|..].
    + by destruct (avail_fresh Hvm p l' Ha).
    + subst q. by destruct (avail_fresh Hvm p l Ha).
    + by apply (vo_inj m R K Hvm l l' q).
Qed.

(** ** The kernel gives a page back *)

Lemma release_tables m R p : same_tables R m (release p m).
Proof. by split. Qed.

Lemma vm_release m R K p : vm_ok m R K → p ∈ K → vm_ok (release p m) R (K ∖ {[p]}).
Proof.
  intros Hvm Hp. pose proof (vm_mem Hvm) as Hm.
  assert (holds m R K (Kept p) p) as Hk by done.
  assert (∀ l q, holds (release p m) R (K ∖ {[p]}) l q ↔ l ≠ Kept p ∧ holds m R K l q) as Hiff.
  { intros l q. rewrite (holds_same m) by apply release_tables. destruct l as [r|r i|r i j|q']; cbn [holds];
      [by split; [|intros [? ?]]..|].
    rewrite elem_of_difference, elem_of_singleton. split.
    - intros [[Hq Hn] ->]. split; [|done]. congruence.
    - intros [Hn [Hq ->]]. split; [|done]. split; [done|]. congruence. }
  split; [by apply mem_ok_release|..|by apply (user_same m _ R K); [|apply release_tables]|by apply (dir_same m _ R K); [|apply release_tables]|by apply (small_same m _ R K); [|apply release_tables]].
  - intros q. rewrite alloced_release, (vo_alloced m R K Hvm) by (done || by apply (holds_managed Hvm (Kept p))). split.
    + intros [Hne [l Hl]]. exists l. apply Hiff. split; [|done]. intros ->. apply Hne. by apply (holds_fun m R K (Kept p)).
    + intros [l [Hn Hl]%Hiff]. split; [|eauto]. intros ->. apply Hn. by apply (vo_inj m R K Hvm l (Kept p) p).
  - intros l l' q [_ Hl]%Hiff [_ Hl']%Hiff. by apply (vo_inj m R K Hvm l l' q).
Qed.

(** ** Writing a leaf entry *)

Definition put_pte (r i j e : Z) (m : memory) : memory := put_word (ppn (l1 m r i) * 4096 + 4 * j) e m.

Section put_pte.
Context {m : memory} {R K : gset Z} (Hvm : vm_ok m R K).
Context {r i j e : Z} (Hr : r ∈ R) (Hi : idx i) (Hj : idx j) (Hv : is_valid (l1 m r i) = true).
Context (He : 0 ≤ e < 4294967296) (Hsm : ppn e < 1048576).

Lemma l1_put_pte r' i' : r' ∈ R → idx i' → l1 (put_pte r i j e m) r' i' = l1 m r' i'.
Proof using Hvm Hr Hi Hj Hv He.
  intros Hr' Hi'. unfold l1, put_pte. rewrite word_put_slot by (done || apply Hvm).
  destruct (decide _) as [[E _]|]; [|done].
  by assert (Root r' = Table r i) by by apply (vo_inj m R K Hvm _ _ r').
Qed.

Lemma pte_put_pte r' i' j' : r' ∈ R → idx i' → idx j' →
  pte (put_pte r i j e m) r' i' j' = if decide ((r', i', j') = (r, i, j)) then e else pte m r' i' j'.
Proof using Hvm Hr Hi Hj Hv He.
  intros Hr' Hi' Hj'. unfold pte. rewrite l1_put_pte by done. destruct (decide _) as [[= -> -> ->]|Hne].
  - rewrite Hv. apply word_put_eq; [apply Hvm|done].
  - destruct (is_valid (l1 m r' i')) eqn:Hv'; [|done]. unfold put_pte.
    rewrite word_put_slot by (done || apply Hvm). destruct (decide _) as [[E ->]|]; [|done].
    assert (Table r' i' = Table r i) as [= -> ->] by by apply (vo_inj m R K Hvm _ _ (ppn (l1 m r' i'))). done.
Qed.

Lemma alloced_put_pte p : alloced (put_pte r i j e m) p ↔ alloced m p.
Proof using. done. Qed.

(** The entry neither takes nor gives up a page. *)
Lemma vm_put_foreign : ¬ user_leaf m i (pte m r i j) → ¬ user_leaf m i e →
  has_flag e PAGE_U = false → vm_ok (put_pte r i j e m) R K.
Proof using Hvm Hr Hi Hj Hv He Hsm.
  intros Hold Hnew Hnu.
  assert (∀ l p, holds (put_pte r i j e m) R K l p ↔ holds m R K l p) as Hiff.
  { intros [r'|r' i'|r' i' j'|q] p; cbn [holds]; [done|..|done].
    - split; intros (? & ? & H); (split; [done|]; split; [done|]); rewrite l1_put_pte in * by done; done.
    - split; intros (? & ? & ? & Hu & H); (split; [done|]; split; [done|]; split; [done|]).
      + rewrite pte_put_pte in * by done. destruct (decide _) as [[= -> -> ->]|]; [by destruct Hnew|done].
      + rewrite pte_put_pte in * by done. destruct (decide _) as [[= -> -> ->]|]; [by destruct Hold|done]. }
  split.
  - apply mem_ok_put, Hvm.
  - intros p. rewrite alloced_put_pte, (vo_alloced m R K Hvm). by setoid_rewrite Hiff.
  - intros l l' p. rewrite !Hiff. apply Hvm.
  - intros r' i' j' Hr' Hi' Hj'. rewrite pte_put_pte by done. destruct (decide _) as [_|]; [congruence|].
    by apply (vo_user m R K Hvm).
  - intros. rewrite l1_put_pte by done. by apply (vo_dir m R K Hvm).
  - intros. rewrite pte_put_pte by done. destruct (decide _); [done|]. by apply (vo_small m R K Hvm).
Qed.

(** A page of the kernel becomes a user page. *)
Lemma vm_put_leaf : ¬ user_leaf m i (pte m r i j) → user_leaf m i e → ppn e ∈ K →
  (has_flag e PAGE_U = true → has_flag e PAGE_R = true) →
  vm_ok (put_pte r i j e m) R (K ∖ {[ppn e]}).
Proof using Hvm Hr Hi Hj Hv He Hsm.
  intros Hold Hnew HK HR.
  apply (moved_ok m R K _ _ _ (Kept (ppn e)) (Leaf r i j) (ppn e)); [done|apply mem_ok_put, Hvm|done|done|..].
  - intros p (_ & _ & _ & Hu & _). done.
  - intros [r'|r' i'|r' i' j'|q] p; cbn [holds].
    + split; [by right|by intros [[? ?]|[? ?]]].
    + split; [intros (? & ? & H); right; split; [done|]|intros [[? ?]|(_ & ? & ? & H)]; [done|]];
        (split; [done|]; split; [done|]); rewrite l1_put_pte in * by done; done.
    + split.
      * intros (? & ? & ? & Hu & ->). rewrite pte_put_pte in * by done.
        destruct (decide _) as [[= -> -> ->]|]; [by left|by right].
      * intros [[[= -> -> ->] ->]|(_ & ? & ? & ? & Hu & ->)].
        -- rewrite pte_put_pte by done. by rewrite decide_True by done.
        -- rewrite pte_put_pte by done. rewrite decide_False; [done|]. intros [= -> -> ->]. done.
    + rewrite elem_of_difference, elem_of_singleton. split.
      * intros [[? Hn] ->]. right. split; [congruence|done].
      * intros [[? ?]|[Hn [? ->]]]; [done|]. split; [split; [done|congruence]|done].
  - intros r' i' j' Hr' Hi' Hj'. rewrite pte_put_pte by done. destruct (decide _) as [[= -> -> ->]|]; [by split; [|apply HR]|].
    by apply (vo_user m R K Hvm).
  - intros. rewrite l1_put_pte by done. by apply (vo_dir m R K Hvm).
  - intros. rewrite pte_put_pte by done. destruct (decide _); [done|]. by apply (vo_small m R K Hvm).
Qed.

(** A user page goes back to the kernel. *)
Lemma vm_clear_leaf p : user_leaf m i (pte m r i j) → ppn (pte m r i j) = p → e = 0 →
  vm_ok (put_pte r i j e m) R ({[p]} ∪ K).
Proof using Hvm Hr Hi Hj Hv He Hsm.
  intros Hold Hp He0. assert (holds m R K (Leaf r i j) p) as Hh by done.
  assert (∀ i, ¬ user_leaf m i e) as Hz by (intros ? (_ & Hv0 & _); by rewrite He0 in Hv0).
  apply (moved_ok m R K _ _ _ (Leaf r i j) (Kept p) p); [done|apply mem_ok_put, Hvm|done|done|..].
  - intros q [Hq ->]. by assert (Kept p = Leaf r i j) by by apply (vo_inj m R K Hvm _ _ p).
  - intros [r'|r' i'|r' i' j'|q] q0; cbn [holds].
    + split; [by right|by intros [[? ?]|[? ?]]].
    + split; [intros (? & ? & H); right; split; [done|]|intros [[? ?]|(_ & ? & ? & H)]; [done|]];
        (split; [done|]; split; [done|]); rewrite l1_put_pte in * by done; done.
    + split.
      * intros (? & ? & ? & Hu & ->). rewrite pte_put_pte in * by done.
        destruct (decide _) as [[= -> -> ->]|Hne]; [by destruct (Hz i)|]. right. split; [congruence|done].
      * intros [[? ?]|(Hne & ? & ? & ? & Hu & ->)]; [done|].
        rewrite pte_put_pte by done. rewrite decide_False; [done|]. intros [= -> -> ->]. done.
    + rewrite elem_of_union, elem_of_singleton. split.
      * intros [[->|Hq] ->]; [by left|by right].
      * intros [[[= ->] ->]|[_ [? ->]]]; (split; [|done]); [by left|by right].
  - intros r' i' j' Hr' Hi' Hj'. rewrite pte_put_pte by done. destruct (decide _) as [_|]; [by rewrite He0|].
    by apply (vo_user m R K Hvm).
  - intros. rewrite l1_put_pte by done. by apply (vo_dir m R K Hvm).
  - intros. rewrite pte_put_pte by done. destruct (decide _); [done|]. by apply (vo_small m R K Hvm).
Qed.
End put_pte.

(** ** A new second-level table *)

Definition zero_page (m : memory) (t : Z) : Prop := ∀ j, idx j → word m (t * 4096 + 4 * j) = 0.

Section set_table.
Context {m : memory} {R K : gset Z} (Hvm : vm_ok m R K).
Context {r i t : Z} (Hr : r ∈ R) (Hi : idx i) (Hv : is_valid (l1 m r i) = false).
Context (Ht : t ∈ K) (Hz : zero_page m t).
Let m' := put_word (r * 4096 + 4 * i) (entry t 0) m.

Lemma table_small : 0 ≤ t < 1048576.
Proof using Hvm Ht. apply (managed_small m); [apply Hvm|]. by apply (holds_managed Hvm (Kept t)). Qed.

Lemma directory_entry : Z.land (entry t 0) (Z.lor PAGE_R (Z.lor PAGE_W PAGE_X)) = 0.
Proof using.
  rewrite entry_eq by lia. change (Z.lor 0 1) with 1. change (Z.lor PAGE_R (Z.lor PAGE_W PAGE_X)) with 14.
  change 14 with (Z.land (Z.ones 10) 14). rewrite Z.land_assoc, Z.land_ones by lia.
  change (2 ^ 10) with 1024. by rewrite Z.add_comm, Z.mod_add by lia.
Qed.

Lemma l1_set_table r' i' : idx i' →
  l1 m' r' i' = if decide ((r', i') = (r, i)) then entry t 0 else l1 m r' i'.
Proof using Hvm Ht Hi.
  intros Hi'. unfold l1, m'. rewrite word_put_slot by (done || apply Hvm || (apply entry_range; [lia|apply table_small])).
  destruct (decide (r' = r ∧ i' = i)) as [[-> ->]|Hne]; [by rewrite decide_True|].
  rewrite decide_False; [done|]. intros [= -> ->]. by destruct Hne.
Qed.

Lemma pte_set_table r' i' j' : r' ∈ R → idx i' → idx j' → pte m' r' i' j' = pte m r' i' j'.
Proof using Hvm Hr Hi Hv Ht Hz.
  intros Hr' Hi' Hj'. unfold pte. rewrite l1_set_table by done. destruct (decide _) as [[= -> ->]|Hne].
  - rewrite Hv, valid_entry, ppn_entry by lia. unfold m'.
    rewrite word_put_slot by (done || apply Hvm || (apply entry_range; [lia|apply table_small])).
    destruct (decide _) as [[-> _]|_]; [|by apply Hz].
    by assert (Kept r = Root r) by by apply (vo_inj m R K Hvm _ _ r).
  - destruct (is_valid (l1 m r' i')) eqn:Hv'; [|done]. unfold m'.
    rewrite word_put_slot by (done || apply Hvm || (apply entry_range; [lia|apply table_small])).
    destruct (decide _) as [[E _]|_]; [|done].
    by assert (Table r' i' = Root r) by by apply (vo_inj m R K Hvm _ _ r).
Qed.

Lemma vm_set_table : vm_ok m' R (K ∖ {[t]}).
Proof using Hvm Hr Hi Hv Ht Hz.
  apply (moved_ok m R K _ _ _ (Kept t) (Table r i) t); [done|apply mem_ok_put, Hvm|done|done|..].
  - intros p (_ & _ & Hv' & _). congruence.
  - intros [r'|r' i'|r' i' j'|q] p; cbn [holds].
    + split; [by right|by intros [[? ?]|[? ?]]].
    + split.
      * intros (? & ? & Hv' & ->). rewrite l1_set_table in * by done.
        destruct (decide _) as [[= -> ->]|]; [left; by rewrite ppn_entry by lia|by right].
      * intros [[[= -> ->] ->]|(_ & ? & ? & Hv' & ->)]; (split; [done|]; split; [done|]); rewrite l1_set_table by done.
        -- rewrite decide_True by done. split; [apply valid_entry|]. by rewrite ppn_entry by lia.
        -- rewrite decide_False; [done|]. intros [= -> ->]. congruence.
    + split; [intros (? & ? & ? & H); right; split; [done|]|intros [[? ?]|(_ & ? & ? & ? & H)]; [done|]];
        (split; [done|]; split; [done|]; split; [done|]); rewrite pte_set_table in * by done; done.
    + rewrite elem_of_difference, elem_of_singleton. split.
      * intros [[? Hn] ->]. right. split; [congruence|done].
      * intros [[? ?]|[Hn [? ->]]]; [done|]. split; [split; [done|congruence]|done].
  - intros r' i' j' Hr' Hi' Hj'. rewrite pte_set_table by done. by apply (vo_user m R K Hvm).
  - intros r' i' Hr' Hi'. rewrite l1_set_table by done. destruct (decide _); [by intros _; apply directory_entry|].
    by apply (vo_dir m R K Hvm).
  - intros. rewrite pte_set_table by done. by apply (vo_small m R K Hvm).
Qed.
End set_table.

(** ** A new address space *)

Lemma empty_pte m t i j : zero_page m t → idx i → pte m t i j = 0.
Proof. intros Hz Hi. unfold pte, l1. rewrite Hz by done. done. Qed.

Lemma vm_new_root m R K t : vm_ok m R K → t ∈ K → zero_page m t → vm_ok m ({[t]} ∪ R) (K ∖ {[t]}).
Proof.
  intros Hvm Ht Hz.
  assert (t ∉ R) as Hn by (intros Hr; by assert (Kept t = Root t) by by apply (vo_inj m R K Hvm _ _ t)).
  apply (moved_ok m R K _ _ _ (Kept t) (Root t) t); [done|apply Hvm|done|done|..].
  - by intros p [? _].
  - intros [r'|r' i'|r' i' j'|q] p; cbn [holds]; rewrite ?elem_of_difference, ?elem_of_union, ?elem_of_singleton.
    + split; [intros [[->|?] ->]; [by left|by right]|].
      intros [[[= ->] ->]|[_ [? ->]]]; (split; [|done]); [by left|by right].
    + split.
      * intros ([->|?] & Hi & Hv & ->); [|by right]. unfold l1 in Hv. by rewrite Hz in Hv.
      * intros [[? ?]|(_ & ? & ?)]; [done|]. by split; [right|].
    + split.
      * intros ([->|?] & Hi & Hj & Hu & ->); [|by right].
        destruct Hu as (_ & Hv & _). by rewrite empty_pte in Hv.
      * intros [[? ?]|(_ & ? & ?)]; [done|]. by split; [right|].
    + split.
      * intros [[? Hne] ->]. right. split; [congruence|done].
      * intros [[? ?]|[Hne [? ->]]]; [done|]. split; [split; [done|congruence]|done].
  - intros r i j [->%elem_of_singleton|Hr]%elem_of_union Hi Hj Hv; [by rewrite empty_pte in Hv|].
    by apply (vo_user m R K Hvm).
  - intros r i [->%elem_of_singleton|Hr]%elem_of_union Hi; [|by apply (vo_dir m R K Hvm)].
    intros Hv. unfold l1 in Hv. by rewrite Hz in Hv.
  - intros r i j [->%elem_of_singleton|Hr]%elem_of_union Hi Hj; [by rewrite empty_pte|].
    by apply (vo_small m R K Hvm).
Qed.

(** ** [map_page] *)

#[export] Instance user_leaf_dec m i e : Decision (user_leaf m i e).
Proof. unfold user_leaf. apply _. Defined.

Definition full (m : memory) : Prop := ∀ p, managed m p → alloced m p.

(** The allocator found no page in [m], and changed nothing. *)
Definition stuck (m m' : memory) : Prop := full m' ∧ m' = m.

(** The pages whose bytes belong to a program or to the kernel. *)
Definition data (m : memory) (R K : gset Z) (q : Z) : Prop :=
  q ∈ K ∨ ∃ r i j, holds m R K (Leaf r i j) q.

(** Entry [(i, j)] of address space [r] becomes [e]; no other entry of any
    address space and no byte of a data page changes. *)
Record mapped (R K : gset Z) (m m' : memory) (r i j e : Z) : Prop := {
  mp_ram : free_ram m' = free_ram m;
  mp_satp : satp m' = satp m;
  mp_pte r' i' j' : r' ∈ R → idx i' → idx j' →
    pte m' r' i' j' = if decide ((r', i', j') = (r, i, j)) then e else pte m r' i' j';
  mp_data q : data m R K q → page_bytes m' q = page_bytes m q
}.

Lemma page_bytes_put m p i v q : idx i → q ≠ p → page_bytes (put_word (p * 4096 + 4 * i) v m) q = page_bytes m q.
Proof.
  intros Hi Hne. unfold page_bytes, put_word. cbn [set_ram ram]. change PAGE_SIZE with 4096.
  rewrite slot_page by done. by rewrite lookup_insert_ne by done.
Qed.

Lemma data_not_table m R K q l : vm_ok m R K → data m R K q → holds m R K l q →
  match l with Leaf _ _ _ | Kept _ => True | _ => False end.
Proof.
  intros Hvm [Hq|(r & i & j & Hq)] Hl.
  - by assert (Kept q = l) as <- by by apply (vo_inj m R K Hvm _ _ q).
  - by assert (Leaf r i j = l) as <- by by apply (vo_inj m R K Hvm _ _ q).
Qed.

(** Writing the leaf, once its table exists. *)
Lemma put_entry_ok m R K r i j p fl : vm_ok m R K → r ∈ R → idx i → idx j → is_valid (l1 m r i) = true →
  0 ≤ p < 1048576 → 0 ≤ fl < 1024 → ¬ user_leaf m i (pte m r i j) →
  (user_leaf m i (entry p fl) → p ∈ K) → (has_flag fl PAGE_U = true → user_leaf m i (entry p fl) ∧ has_flag fl PAGE_R = true) →
  vm_ok (put_pte r i j (entry p fl) m) R (if decide (user_leaf m i (entry p fl)) then K ∖ {[p]} else K) ∧
  mapped R K m (put_pte r i j (entry p fl) m) r i j (entry p fl).
Proof.
  intros Hvm Hr Hi Hj Hv Hp Hf Hold HK HU. pose proof (entry_range p fl Hf Hp) as He.
  assert (ppn (entry p fl) < 1048576) as Hs by (rewrite ppn_entry by done; lia). split.
  - destruct (decide _) as [Hu|Hu].
    + rewrite <-(ppn_entry p fl Hf) at 2. apply (vm_put_leaf Hvm Hr Hi Hj Hv He Hs Hold Hu).
      * rewrite ppn_entry by done. by apply HK.
      * change PAGE_U with (2 ^ 4). change PAGE_R with (2 ^ 1). rewrite !flag_entry by lia. apply HU.
    + apply (vm_put_foreign Hvm Hr Hi Hj Hv He Hs Hold Hu). change PAGE_U with (2 ^ 4). rewrite flag_entry by lia.
      destruct (has_flag fl (2 ^ 4)) eqn:E; [by destruct Hu; apply HU|done].
  - split; [done|done|..].
    + intros. by apply (pte_put_pte Hvm Hr Hi Hj Hv He).
    + intros q Hq. apply page_bytes_put; [done|]. intros ->.
      by apply (data_not_table m R K _ (Table r i) Hvm Hq).
Qed.

Lemma take_back (K : gset Z) t : t ∉ K → ({[t]} ∪ K) ∖ {[t]} = K.
Proof. intros Ht. apply set_eq. intros x. rewrite elem_of_difference, elem_of_union, elem_of_singleton. split; [intros [[|] ?]; done|]. intros Hx. split; [by right|]. by intros ->. Qed.

Lemma ensure_table_wp m R K r i : vm_ok m R K → r ∈ R → idx i → is_valid (l1 m r i) = false →
  wp (pt_paddr ← alloc_pages 1;
      store32 (r * 4096 + 4 * i) (Z.lor (u32 (Z.shiftl (PAGE_TABLE_TO_INDEX pt_paddr) 10)) PAGE_V))
    (λ _ m', vm_ok m' R K ∧ is_valid (l1 m' r i) = true ∧ free_ram m' = free_ram m ∧ (∀ r i j, r ∈ R → idx i → idx j → pte m' r i j = pte m r i j) ∧
      satp m' = satp m ∧ ∀ q, data m R K q → page_bytes m' q = page_bytes m q) (stuck m) m.
Proof.
  intros Hvm Hr Hi Hv. pose proof (vm_mem Hvm) as Hm. apply wp_bind.
  eapply wp_mono; [by apply alloc_page_wp| |by intros m' [-> H]].
  intros pa m1 (t & -> & Ha & ->).
  pose proof (vm_grab m R K t Hvm Ha) as Hvm1. pose proof (grab_tables m R K t Hvm Ha) as Hs.
  assert (t ∉ K) as Ht by (intros Hk; by apply (avail_fresh Hvm t (Kept t))).
  assert (t ∈ {[t]} ∪ K) as Ht' by set_solver.
  assert (zero_page (grab t m) t) as Hz by (intros j Hj; by apply word_grab_in).
  assert (is_valid (l1 (grab t m) r i) = false) as Hv1 by (by rewrite (st_l1 R m _ Hs)).
  apply store32_wp; [by apply (root_addr Hvm1)|].
  rewrite page_index by (apply (managed_small m); [done|apply Ha]).
  replace (Z.lor (t * 1024) PAGE_V) with (entry t 0) by (unfold entry; by rewrite Z.lor_0_r).
  split; [|split; [|split; [done|split; [|split; [done|]]]]].
  - pose proof (vm_set_table Hvm1 Hr Hi Hv1 Ht' Hz) as H. by replace (({[t]} ∪ K) ∖ {[t]}) with K in H by (symmetry; by apply take_back).
  - rewrite (l1_set_table Hvm1 Hi Ht') by done. rewrite decide_True by done. apply valid_entry.
  - intros. rewrite (pte_set_table Hvm1 Hr Hi Hv1 Ht' Hz) by done. by apply (st_pte R m _ Hs).
  - intros q Hq. rewrite page_bytes_put; [|done|intros ->; by apply (data_not_table m R K _ (Root r) Hvm Hq)].
    unfold page_bytes. cbn [grab ram]. rewrite lookup_insert_ne; [done|]. intros ->.
    destruct Hq as [Hq|(r' & i' & j' & Hq)]; [done|by apply (avail_fresh Hvm q (Leaf r' i' j'))].
Qed.

Lemma data_same m m' R K q : free_ram m' = free_ram m →
  (∀ r i j, r ∈ R → idx i → idx j → pte m' r i j = pte m r i j) → data m R K q → data m' R K q.
Proof.
  intros Hf Hp [Hq|(r & i & j & Hr & Hi & Hj & Hq)]; [by left|right]. exists r, i, j.
  split; [done|]. split; [done|]. split; [done|]. rewrite Hp by done. by rewrite (user_leaf_same m m').
Qed.

Lemma map_page_wp m R K r va p fl : vm_ok m R K → r ∈ R → va mod 4096 = 0 →
  0 ≤ p < 1048576 → 0 ≤ fl < 1024 → let i := vpn1 va in let j := vpn0 va in
  ¬ user_leaf m i (pte m r i j) →
  (user_leaf m i (entry p fl) → p ∈ K) → (has_flag fl PAGE_U = true → user_leaf m i (entry p fl) ∧ has_flag fl PAGE_R = true) →
  wp (map_page (r * 4096) va (p * 4096) fl)
    (λ _ m', vm_ok m' R (if decide (user_leaf m i (entry p fl)) then K ∖ {[p]} else K) ∧
      mapped R K m m' r i j (entry p fl)) (stuck m) m.
Proof.
  intros Hvm Hr Hva Hp Hf i j Hold HK HU.
  assert (idx i) as Hi by apply vpn1_range. assert (idx j) as Hj by apply vpn0_range.
  unfold map_page, is_aligned. change PAGE_SIZE with 4096. rewrite Hva, Z.mod_mul by lia. cbn [negb Z.eqb].
  fold i j. wp_steps. apply load32_wp; [by apply (root_addr Hvm)|]. fold (l1 m r i). apply wp_bind.
  assert (wp (if negb (is_valid (l1 m r i)) then pt_paddr ← alloc_pages 1;
      store32 (r * 4096 + 4 * i) (Z.lor (u32 (Z.shiftl (PAGE_TABLE_TO_INDEX pt_paddr) 10)) PAGE_V) else mret tt)
    (λ _ m', vm_ok m' R K ∧ is_valid (l1 m' r i) = true ∧ free_ram m' = free_ram m ∧
      (∀ r i j, r ∈ R → idx i → idx j → pte m' r i j = pte m r i j) ∧
      satp m' = satp m ∧ ∀ q, data m R K q → page_bytes m' q = page_bytes m q) (stuck m) m) as Ht.
  { destruct (is_valid (l1 m r i)) eqn:Hv; cbn [negb]; [by apply wp_ret|by apply ensure_table_wp]. }
  eapply wp_conseq; [exact Ht|]. intros _ m1 (Hvm1 & Hv1 & Hf1 & Hp1 & Hs1 & Hd1). wp_steps.
  apply load32_wp; [by apply (root_addr Hvm1)|]. fold (l1 m1 r i).
  destruct (table_addr Hvm1 r i j Hr Hi Hv1 Hj) as [-> Ha]. apply store32_wp; [done|].
  rewrite page_index by done. fold (entry p fl). fold (put_pte r i j (entry p fl) m1).
  destruct (put_entry_ok m1 R K r i j p fl) as [Hvm2 Hmp]; try done.
  { by rewrite Hp1, (user_leaf_same m m1) by done. }
  { intros Hu. apply HK. by apply (user_leaf_same m m1). }
  { intros Hu. destruct (HU Hu) as [Hl Hrd]. split; [|done]. by apply (user_leaf_same m m1). }
  split.
  - destruct (decide (user_leaf m i _)) as [Hu|Hu]; destruct (decide (user_leaf m1 i _)) as [Hu1|Hu1]; try done.
    all: rewrite (user_leaf_same m m1) in Hu1 by done; done.
  - destruct Hmp as [Ha1 Ha2 Ha3 Ha4]. split; [congruence|congruence|..].
    + intros r' i' j' Hr' Hi' Hj'. rewrite Ha3 by done. destruct (decide ((r', i', j') = (r, i, j))); [done|by apply Hp1].
    + intros q Hq. rewrite Ha4; [by apply Hd1|]. by apply (data_same m).
Qed.
