(* ===== verification/UserSpec.v ===== *)
(** * User memory: what the pointer checks guarantee

    A pointer check succeeds exactly when every page it covers is mapped for the
    running program; after it, the access cannot fault and reaches only pages of
    that program. The last part is the release of all pages of a process. *)

From S2P Require Import Prelude CLib FsTypes Block Inode KState Page UserMem FdTable Process PageMem PageTable.

Lemma wp_loop_upto {S X A} (I : Z → X → S → Prop) (body : X → M S (X + A)) Q R :
  (∀ k x s, 0 ≤ k → I k x s →
     wp (body x) (λ r s', match r with
                          | inl x' => 0 < k ∧ I (k - 1) x' s'
                          | inr a => Q a s'
                          end) R s) →
  ∀ n k x s, 0 ≤ k → I k x s →
    wp (loop_upto n body x) (λ r s', match r with
                                     | inl x' => 2 ^ Z.of_nat n ≤ k ∧ I (k - 2 ^ Z.of_nat n) x' s'
                                     | inr a => Q a s'
                                     end) R s.
Proof.
  intros Hbody. induction n as [|n IH]; intros k x s Hk HI; cbn [loop_upto].
  - eapply wp_conseq; [by apply Hbody|]. intros [x'|a] s'; [|done]. intros [? ?]. change (2 ^ Z.of_nat 0) with 1. split; [lia|done].
  - rewrite Nat2Z.inj_succ, Z.pow_succ_r by lia. set (p := 2 ^ Z.of_nat n) in *.
    apply wp_bind. eapply wp_conseq; [by apply IH|]. intros [x'|a] s'; [|by intros; apply wp_ret].
    intros [Hp HI']. eapply wp_conseq; [apply (IH (k - p)); [lia|done]|].
    intros [x2|a] s2; [|done]. intros [? ?]. split; [lia|]. by replace (k - 2 * p) with (k - p - p) by lia.
Qed.

(** ** Addresses *)

Lemma land_mask x : 0 ≤ x < 4294967296 → Z.land x PAGE_MASK = x / 4096 * 4096.
Proof.
  intros Hx. change PAGE_MASK with (Z.land (Z.ones 32) (Z.lnot (Z.ones 12))).
  rewrite Z.land_assoc, Z.land_ones by lia. change (2 ^ 32) with 4294967296. rewrite Z.mod_small by done.
  rewrite <-Z.ldiff_land, Z.ldiff_ones_r by lia.
  rewrite Z.shiftl_mul_pow2, Z.shiftr_div_pow2 by lia. done.
Qed.

Lemma land_low x : Z.land x (PAGE_SIZE - 1) = x mod 4096.
Proof. change (PAGE_SIZE - 1) with (Z.ones 12). by rewrite Z.land_ones by lia. Qed.

Lemma vpn1_page va : vpn1 va = va / 4096 / 1024 mod 1024.
Proof.
  unfold vpn1. change 1023 with (Z.ones 10). rewrite Z.land_ones, Z.shiftr_div_pow2, Z.div_div by lia. done.
Qed.

Lemma same_page_vpn va va' : va / 4096 = va' / 4096 → vpn1 va = vpn1 va' ∧ vpn0 va = vpn0 va'.
Proof. intros E. rewrite !vpn1_page, !vpn0_eq, E. done. Qed.

Lemma vpn_inj va va' : 0 ≤ va < 4294967296 → 0 ≤ va' < 4294967296 →
  vpn1 va = vpn1 va' → vpn0 va = vpn0 va' → va / 4096 = va' / 4096.
Proof.
  intros H H' E1 E0. rewrite !vpn1_eq in E1 by done. rewrite !vpn0_eq in E0.
  Z.div_mod_to_equations. lia.
Qed.

(** ** The view of a program *)

Section view.
Context (m : memory) (r : Z).

Definition upte (va : Z) : Z := pte m r (vpn1 va) (vpn0 va).
Definition umapped (flags va : Z) : Prop :=
  is_valid (upte va) = true ∧ has_flag (upte va) PAGE_U = true ∧ Z.land (upte va) flags = flags.
Definition phys (va : Z) : Z := ppn (upte va) * 4096 + va mod 4096.
Definition ubyte (va : Z) : Z := byte_at m (phys va).

Lemma upte_page va va' : va / 4096 = va' / 4096 → upte va = upte va'.
Proof. intros E. unfold upte. by destruct (same_page_vpn va va' E) as [-> ->]. Qed.

Lemma umapped_page fl va va' : va / 4096 = va' / 4096 → umapped fl va → umapped fl va'.
Proof. intros E. unfold umapped. by rewrite (upte_page va va' E). Qed.
End view.

(** [r] is the address space in use. *)
Definition active (m : memory) (R : gset Z) (r : Z) : Prop := r ∈ R ∧ Z.land (satp m) 4194303 = r.

Section user.
Context {m : memory} {R K : gset Z} {r : Z} (Hvm : vm_ok m R K) (Hact : active m R r).

Lemma active_table : get_active_page_table m = r * 4096.
Proof using Hvm Hact.
  unfold get_active_page_table. destruct Hact as [Hr ->]. change PAGE_SIZE with 4096. apply u32_small.
  assert (managed m r) as H by (by apply (holds_managed Hvm (Root r))).
  pose proof (managed_small m r (vm_mem Hvm) H). lia.
Qed.

Lemma check_page_wp fl va :
  wp (check_page fl (r * 4096) va) (λ b m', m' = m ∧ (b = true ↔ umapped m r fl va)) (λ _, False) m.
Proof using Hvm Hact.
  destruct Hact as [Hr _]. assert (idx (vpn1 va)) as Hi by apply vpn1_range.
  assert (idx (vpn0 va)) as Hj by apply vpn0_range.
  unfold check_page, umapped, upte, pte. wp_steps. apply load32_wp; [by apply (root_addr Hvm)|].
  fold (l1 m r (vpn1 va)). destruct (is_valid (l1 m r (vpn1 va))) eqn:Hv; cbn [negb].
  2: { wp_steps. split; [done|]. split; [done|]. intros [H _]. done. }
  destruct (table_addr Hvm r _ _ Hr Hi Hv Hj) as [-> Ha]. wp_steps. apply load32_wp; [done|].
  set (e := word m _). destruct (is_valid e); cbn [negb]; [|wp_steps; split; [done|]; split; [done|]; by intros [H _]].
  destruct (has_flag e PAGE_U); cbn [negb]; [|wp_steps; split; [done|]; split; [done|]; by intros (_ & H & _)].
  destruct (Z.eqb_spec (Z.land e fl) fl); cbn [negb]; wp_steps; (split; [done|]); split; try done.
  by intros (_ & _ & H).
Qed.

(** ** Buffers *)

Lemma validate_pages_wp fl addr len : 0 ≤ addr < 4294967296 → 0 ≤ len < 4294967296 →
  wp (validate_pages fl addr len)
  (λ b m', m' = m ∧ (b = true ↔ addr + len ≤ USER_TOP ∧
    ∀ va, addr / 4096 * 4096 ≤ va < addr + len → umapped m r fl va)) (λ _, False) m.
Proof using Hvm Hact.
  intros Ha Hl. unfold validate_pages, USER_TOP.
  destruct (decide (addr + len < 4294967296)) as [Hs|Hs].
  2: { assert (u32 (addr + len) = addr + len - 4294967296) as ->.
       { unfold u32. replace (addr + len) with (addr + len - 4294967296 + 1 * 4294967296) by lia.
         rewrite Z.mod_add by lia. rewrite Z.mod_small; lia. }
       zb. wp_steps. split; [done|]. split; [done|]. lia. }
  rewrite u32_small by lia. zb. destruct (Z.gtb_spec (addr + len) 2147483648) as [Hg|Hg].
  { wp_steps. split; [done|]. split; [done|]. lia. }
  wp_steps. rewrite active_table. change PAGE_SIZE with 4096. rewrite (u32_small (addr + len + 4096 - 1)) by lia.
  rewrite !land_mask by lia.
  set (ps := addr / 4096 * 4096). set (pe := (addr + len + 4096 - 1) / 4096 * 4096).
  assert (ps ≤ addr < ps + 4096 ∧ ps mod 4096 = 0) as Hps.
  { unfold ps. rewrite Z.mod_mul by lia. split; [|done]. Z.div_mod_to_equations. lia. }
  assert (addr + len ≤ pe < addr + len + 4096 ∧ pe mod 4096 = 0) as Hpe.
  { unfold pe. rewrite Z.mod_mul by lia. split; [|done]. Z.div_mod_to_equations. lia. }
  apply (wp_loop (λ k va s, s = m ∧ va mod 4096 = 0 ∧ ps ≤ va ≤ Z.max ps pe ∧ k = Z.to_nat ((pe - va) / 4096) ∧
    ∀ v, ps ≤ v < va → umapped m r fl v)) with (k := Z.to_nat ((pe - ps) / 4096)); [| |lia].
  2: { split; [done|]. split; [apply Hps|]. split; [lia|]. split; [done|]. lia. }
  intros k va s (-> & Hva & Hr & -> & Hdone). destruct (Z.ltb_spec va pe) as [Hlt|Hge].
  - wp_steps. eapply wp_conseq; [apply check_page_wp|]. intros b s [-> Hb].
    assert (umapped m r fl va ↔ ∀ v, va ≤ v < va + 4096 → umapped m r fl v) as Hpg.
    { split; [|intros H; apply H; lia]. intros H v Hv. apply (umapped_page m r fl va v); [|done].
      Z.div_mod_to_equations. lia. }
    destruct b; cbn [negb]; wp_steps.
    + exists (Z.to_nat ((pe - (va + 4096)) / 4096)). rewrite u32_small by lia.
      assert (va + 4096 ≤ pe) by (Z.div_mod_to_equations; lia).
      split; [Z.div_mod_to_equations; lia|]. split; [done|]. split; [Z.div_mod_to_equations; lia|].
      split; [lia|]. split; [done|]. intros v Hv. destruct (decide (v < va)); [apply Hdone; lia|].
      apply Hpg; [by apply Hb|lia].
    + split; [done|]. split; [done|]. intros [_ H]. exfalso. assert (false = true); [|done]. apply Hb.
      destruct (decide (va < addr + len)); [apply H; lia|].
      apply (umapped_page m r fl ps); [|apply H]; Z.div_mod_to_equations; lia.
  - wp_steps. split; [done|]. split; [|done]. intros _. split; [done|]. intros v Hv. apply Hdone. lia.
Qed.

(** ** Translation *)

Lemma umapped_leaf fl va : umapped m r fl va →
  user_page m (vpn1 va) (upte m r va) ∧ holds m R K (Leaf r (vpn1 va) (vpn0 va)) (ppn (upte m r va)).
Proof using Hvm Hact.
  intros (Hv & Hu & _). destruct Hact as [Hr _].
  assert (user_page m (vpn1 va) (upte m r va)) as Hp
    by (by apply (vo_user m R K Hvm); [|apply vpn1_range|apply vpn0_range|..]).
  split; [done|]. split; [done|]. split; [apply vpn1_range|]. split; [apply vpn0_range|]. split; [apply Hp|done].
Qed.

Lemma translate_umapped acc fl va : umapped m r fl va → has_flag (upte m r va) acc = true →
  translate m acc va = Some (phys m r va).
Proof using Hvm Hact.
  intros (Hv & _) Hf. destruct Hact as [Hr Hs]. unfold translate, phys, upte, pte in *. rewrite Hs.
  change PAGE_SIZE with 4096. fold (l1 m r (vpn1 va)).
  destruct (is_valid (l1 m r (vpn1 va))) eqn:Hv1; [|done]. cbn [andb].
  rewrite (vo_dir m R K Hvm r (vpn1 va) Hr (vpn1_range va) Hv1). cbn [Z.eqb andb].
  fold (ppn (l1 m r (vpn1 va))). rewrite Hv, Hf. done.
Qed.

Lemma umapped_write va : umapped m r PAGE_W va → has_flag (upte m r va) PAGE_W = true.
Proof using. intros (_ & _ & H). unfold has_flag. by rewrite H. Qed.

Lemma umapped_read fl va : umapped m r fl va → has_flag (upte m r va) PAGE_R = true.
Proof using Hvm Hact. intros H. by apply (umapped_leaf fl va). Qed.

Lemma phys_inj fl va va' : 0 ≤ va < 4294967296 → 0 ≤ va' < 4294967296 →
  umapped m r fl va → umapped m r fl va' → phys m r va = phys m r va' → va = va'.
Proof using Hvm Hact.
  intros Hr Hr' H H' E. unfold phys in E.
  pose proof (Z.mod_pos_bound va 4096 ltac:(lia)). pose proof (Z.mod_pos_bound va' 4096 ltac:(lia)).
  assert (ppn (upte m r va) = ppn (upte m r va') ∧ va mod 4096 = va' mod 4096) as [Ep Em] by lia.
  apply umapped_leaf in H as [_ H]. apply umapped_leaf in H' as [_ H']. rewrite Ep in H.
  pose proof (vo_inj m R K Hvm _ _ _ H H') as [= E1 E0].
  pose proof (vpn_inj va va' Hr Hr' E1 E0). pose proof (Z_div_mod_eq_full va 4096). pose proof (Z_div_mod_eq_full va' 4096). lia.
Qed.
End user.

(** ** Storing bytes *)

Lemma split_addr p o : 0 ≤ o < 4096 → (p * 4096 + o) / 4096 = p ∧ (p * 4096 + o) mod 4096 = o.
Proof. intros Ho. rewrite Z.div_add_l, Z.div_small, Z.add_0_r by lia. split; [done|]. rewrite Z.add_comm, Z.mod_add, Z.mod_small by lia. done. Qed.

Lemma page_bytes_put_bytes m p o l q : 0 ≤ o < 4096 →
  page_bytes (put_bytes (p * 4096 + o) l m) q =
    if decide (q = p) then splice (page_bytes m p) (Z.to_nat o) l else page_bytes m q.
Proof.
  intros Ho. unfold page_bytes, put_bytes. cbn [set_ram ram]. change PAGE_SIZE with 4096.
  destruct (split_addr p o Ho) as [-> ->]. destruct (decide (q = p)) as [->|Hne].
  - by rewrite lookup_insert_eq.
  - by rewrite lookup_insert_ne by done.
Qed.

Lemma byte_at_put m p o l a : mem_ok m → 0 ≤ o < 4096 → o + Z.of_nat (length l) ≤ 4096 →
  byte_at (put_bytes (p * 4096 + o) l m) a =
    if decide (p * 4096 + o ≤ a < p * 4096 + o + Z.of_nat (length l))
    then default 0 (l !! Z.to_nat (a - (p * 4096 + o))) else byte_at m a.
Proof.
  intros Hm Ho Hl. unfold byte_at. change PAGE_SIZE with 4096. rewrite page_bytes_put_bytes by done.
  pose proof (Z_div_mod_eq_full a 4096) as Ea. pose proof (Z.mod_pos_bound a 4096 ltac:(lia)) as Hb.
  pose proof (page_bytes_ok m p Hm) as [Hlen _].
  destruct (decide (a / 4096 = p)) as [<-|Hne].
  - destruct (decide _) as [Hin|Hout].
    + rewrite lookup_splice_in by lia. do 2 f_equal. lia.
    + rewrite lookup_splice_out by lia. done.
  - rewrite decide_False; [done|]. intros Hin. apply Hne. lia.
Qed.

Lemma mem_ok_put_bytes m p o l : mem_ok m → 0 ≤ o < 4096 → o + Z.of_nat (length l) ≤ 4096 → bytes l →
  mem_ok (put_bytes (p * 4096 + o) l m).
Proof.
  intros Hm Ho Hl Hb. split; try apply Hm. cbn [put_bytes set_ram ram]. apply map_Forall_insert_2; [|apply Hm].
  pose proof (page_bytes_ok m ((p * 4096 + o) / PAGE_SIZE) Hm) as [Hlen Hby]. unfold page_bytes in *.
  change PAGE_SIZE with 4096 in *. destruct (split_addr p o Ho) as [Ed Em]. rewrite Ed in *. rewrite Em.
  split; [rewrite length_splice; lia|by apply bytes_splice].
Qed.

(** A store into a data page leaves every table alone. *)
Lemma put_bytes_tables m R K p o l : vm_ok m R K → data m R K p → 0 ≤ o < 4096 →
  same_tables R m (put_bytes (p * 4096 + o) l m).
Proof.
  intros Hvm Hd Ho.
  assert (∀ q j, idx j → q ≠ p → word (put_bytes (p * 4096 + o) l m) (q * 4096 + 4 * j) = word m (q * 4096 + 4 * j)) as Hw.
  { intros q j Hj Hne. unfold word. change PAGE_SIZE with 4096. rewrite page_bytes_put_bytes, slot_page by done.
    by rewrite decide_False by done. }
  assert (∀ r i, r ∈ R → idx i → l1 (put_bytes (p * 4096 + o) l m) r i = l1 m r i) as H1.
  { intros r i Hr Hi. apply Hw; [done|]. intros ->. by apply (data_not_table m R K p (Root p) Hvm Hd). }
  split; [done|done|]. intros r i j Hr Hi Hj. unfold pte. rewrite H1 by done.
  destruct (is_valid (l1 m r i)) eqn:Hv; [|done]. apply Hw; [done|]. intros E.
  by apply (data_not_table m R K p (Table r i) Hvm Hd).
Qed.

Lemma vm_put_bytes m R K p o l : vm_ok m R K → data m R K p → 0 ≤ o < 4096 →
  o + Z.of_nat (length l) ≤ 4096 → bytes l → vm_ok (put_bytes (p * 4096 + o) l m) R K.
Proof.
  intros Hvm Hd Ho Hl Hb. pose proof (put_bytes_tables m R K p o l Hvm Hd Ho) as Hs. split.
  - apply mem_ok_put_bytes; [apply Hvm|done..].
  - intros q. setoid_rewrite (holds_same m); [|done]. apply (vo_alloced m R K Hvm).
  - intros la lb q Ha Hb0. rewrite (holds_same m) in Ha, Hb0 by done. by apply (vo_inj m R K Hvm la lb q).
  - by apply (user_same m _ R K).
  - by apply (dir_same m _ R K).
  - by apply (small_same m _ R K).
Qed.

(** ** Copies *)

(** The bytes [l] are at [a] in address space [r], and nothing else differs. *)
Record stored (R : gset Z) (m m' : memory) (r a : Z) (l : list Z) : Prop := {
  sd_tables : same_tables R m m';
  sd_flags : page_allocated m' = page_allocated m;
  sd_satp : satp m' = satp m;
  sd_in va : a ≤ va < a + Z.of_nat (length l) → ubyte m' r va = default 0 (l !! Z.to_nat (va - a));
  sd_out pa : (∀ va, a ≤ va < a + Z.of_nat (length l) → phys m r va ≠ pa) → byte_at m' pa = byte_at m pa
}.

Lemma upte_same R m m' r va : same_tables R m m' → r ∈ R → upte m' r va = upte m r va.
Proof. intros Hs Hr. apply Hs; [done|apply vpn1_range|apply vpn0_range]. Qed.

Lemma phys_same R m m' r va : same_tables R m m' → r ∈ R → phys m' r va = phys m r va.
Proof. intros Hs Hr. unfold phys. by rewrite (upte_same R m m'). Qed.

Lemma umapped_same R m m' r fl va : same_tables R m m' → r ∈ R → umapped m' r fl va ↔ umapped m r fl va.
Proof. intros Hs Hr. unfold umapped. by rewrite (upte_same R m m'). Qed.

Lemma same_tables_trans R m1 m2 m3 : same_tables R m1 m2 → same_tables R m2 m3 → same_tables R m1 m3.
Proof. intros [A1 A2 A3] [B1 B2 B3]. split; [congruence|..]; intros; [rewrite B2, A2|rewrite B3, A3]; done. Qed.

(** Storing in the page of [a], then the rest after it. *)
Lemma stored_app R K m m1 m2 r a l l' : vm_ok m R K → active m R r → 0 ≤ a →
  a + Z.of_nat (length (l ++ l')) ≤ USER_TOP →
  (∀ va, a ≤ va < a + Z.of_nat (length (l ++ l')) → umapped m r PAGE_W va) →
  stored R m m1 r a l → stored R m1 m2 r (a + Z.of_nat (length l)) l' → stored R m m2 r a (l ++ l').
Proof.
  intros Hvm Hact Ha Htop Hum [A1 A2 A3 A4 A5] [B1 B2 B3 B4 B5]. pose proof (proj1 Hact) as Hr.
  rewrite length_app in *. unfold USER_TOP in *.
  assert (∀ va, phys m1 r va = phys m r va) as Hp1 by (intros; by apply (phys_same R)).
  assert (∀ va, phys m2 r va = phys m1 r va) as Hp2 by (intros; by apply (phys_same R)).
  split; [by eapply same_tables_trans|congruence|congruence|..]; rewrite length_app.
  - intros va Hva. destruct (decide (va < a + Z.of_nat (length l))) as [Hlt|Hge].
    + rewrite lookup_app_l by lia. rewrite <-A4 by lia. unfold ubyte. rewrite Hp2. apply B5.
      intros va' Hva'. rewrite Hp1, Hp1. intros E. assert (va' = va); [|lia].
      apply (phys_inj Hvm Hact PAGE_W); [lia|lia|apply Hum; lia|apply Hum; lia|done].
    + rewrite lookup_app_r by lia. rewrite B4 by lia. do 2 f_equal. lia.
  - intros pa Hpa. rewrite B5; [apply A5|].
    + intros va Hva. apply Hpa. lia.
    + intros va Hva. rewrite Hp1. apply Hpa. lia.
Qed.

Lemma store_user_wp m R K r a l : vm_ok m R K → active m R r → bytes l →
  a mod 4096 + Z.of_nat (length l) ≤ 4096 → umapped m r PAGE_W a →
  wp (store_user a l) (λ _ m', stored R m m' r a l ∧ vm_ok m' R K) (λ _, False) m.
Proof.
  intros Hvm Hact Hb Hl Hu. pose proof (Z.mod_pos_bound a 4096 ltac:(lia)) as Hmod.
  destruct (umapped_leaf Hvm Hact PAGE_W a Hu) as [_ Hleaf].
  assert (data m R K (ppn (upte m r a))) as Hd by (right; eauto).
  pose proof (put_bytes_tables m R K _ _ l Hvm Hd Hmod) as Hs.
  unfold store_user. wp_steps. unfold wp at 1, get.
  rewrite (translate_umapped Hvm Hact PAGE_W PAGE_W a Hu) by (by apply umapped_write). wp_steps.
  apply store_in_page_wp; [apply Hvm|by apply (holds_managed Hvm (Leaf r (vpn1 a) (vpn0 a)))|lia|lia|].
  split; [|by apply vm_put_bytes]. split; [done|done|done|..].
  - intros va Hva. unfold ubyte. rewrite (phys_same R m) by (done || apply Hact).
    assert (upte m r va = upte m r a) as Eu by (apply upte_page; Z.div_mod_to_equations; lia).
    assert (va mod 4096 = a mod 4096 + (va - a)) as Em by (Z.div_mod_to_equations; lia).
    unfold phys. rewrite Eu, Em, byte_at_put by (done || apply Hvm).
    rewrite decide_True by lia. do 2 f_equal. lia.
  - intros pa Hpa. rewrite byte_at_put by (done || apply Hvm). rewrite decide_False; [done|]. intros Hin.
    apply (Hpa (pa - phys m r a + a)); [unfold phys; lia|]. unfold phys.
    set (d := pa - (ppn (upte m r a) * 4096 + a mod 4096)).
    assert (upte m r (d + a) = upte m r a) as Eu by (apply upte_page; Z.div_mod_to_equations; lia).
    fold d. rewrite Eu. assert ((d + a) mod 4096 = a mod 4096 + d) as -> by (Z.div_mod_to_equations; lia). lia.
Qed.

Lemma stored_nil R m r a : stored R m m r a [].
Proof. split; [done|done|done| |done]. cbn. lia. Qed.

Lemma copy_pages_wp fuel m R K r a l : vm_ok m R K → active m R r → bytes l → 0 ≤ a →
  a + Z.of_nat (length l) ≤ USER_TOP →
  (∀ va, a ≤ va < a + Z.of_nat (length l) → umapped m r PAGE_W va) →
  (a mod 4096 + Z.of_nat (length l) + 4095) / 4096 ≤ Z.of_nat fuel →
  wp (for_pages fuel store_user a l) (λ _ m', stored R m m' r a l ∧ vm_ok m' R K) (λ _, False) m.
Proof.
  revert m a l. induction fuel as [|fuel IH]; intros m a l Hvm Hact Hb Ha Htop Hum Hf.
  - destruct l as [|b l]; cbn [for_pages]; [apply wp_ret; split; [apply stored_nil|done]|].
    exfalso. cbn [length] in Hf. Z.div_mod_to_equations. lia.
  - destruct (decide (l = [])) as [->|Hne]; [apply wp_ret; split; [apply stored_nil|done]|].
    rewrite for_pages_step by done. change PAGE_SIZE with 4096. cbv zeta.
    pose proof (Z.mod_pos_bound a 4096 ltac:(lia)) as Hmod. set (n := Z.to_nat (4096 - a mod 4096)).
    assert (0 < length l)%nat by (destruct l; [done|cbn; lia]).
    apply wp_bind. eapply wp_mono; [apply (store_user_wp m R K r a (take n l))| |done].
    1,2: done. 1: by apply Forall_take. 1: rewrite length_take; lia. 1: apply Hum; lia.
    intros _ m1 [Hst1 Hvm1]. destruct (decide (length l ≤ n)%nat) as [Hle|Hgt].
    { rewrite drop_ge by done. rewrite take_ge in Hst1 by done. destruct fuel; by apply wp_ret. }
    eapply wp_mono; [apply (IH m1 (a + Z.of_nat n) (drop n l)); try done| |done].
    + destruct Hact as [H1 H2]. split; [done|]. by rewrite (sd_satp _ _ _ _ _ _ Hst1).
    + by apply Forall_drop.
    + lia.
    + rewrite length_drop. lia.
    + rewrite length_drop. intros va Hva.
      apply (umapped_same R m m1); [apply Hst1|apply Hact|apply Hum; lia].
    + rewrite length_drop. replace ((a + Z.of_nat n) mod 4096) with 0.
      2: { subst n. Z.div_mod_to_equations. lia. }
      assert (0 + Z.of_nat (length l - n) + 4095 = a mod 4096 + Z.of_nat (length l) + 4095 + (-1) * 4096) as -> by lia.
      rewrite Z.div_add by lia. lia.
    + intros _ m2 [Hst2 Hvm2]. split; [|done]. rewrite <-(take_drop n l).
      apply (stored_app R K m m1); [done|done|done|by rewrite take_drop|by rewrite take_drop|done|].
      rewrite length_take, Nat.min_l by lia. done.
Qed.

Lemma copy_to_user_wp m R K r a l : vm_ok m R K → active m R r → bytes l → 0 ≤ a →
  a + Z.of_nat (length l) ≤ USER_TOP →
  (∀ va, a ≤ va < a + Z.of_nat (length l) → umapped m r PAGE_W va) →
  wp (copy_to_user a l) (λ _ m', stored R m m' r a l ∧ vm_ok m' R K) (λ _, False) m.
Proof.
  intros. apply copy_pages_wp; [done..|]. change PAGE_SIZE with 4096.
  pose proof (Z.mod_pos_bound a 4096 ltac:(lia)). Z.div_mod_to_equations. lia.
Qed.

(** ** Loads *)

Definition ubytes (m : memory) (r a : Z) (n : nat) : list Z := (λ i, ubyte m r (a + Z.of_nat i)) <$> seq 0 n.

Lemma length_ubytes m r a n : length (ubytes m r a n) = n.
Proof. unfold ubytes. by rewrite length_fmap, length_seq. Qed.

Lemma ubytes_app m r a n k : ubytes m r a (n + k) = ubytes m r a n ++ ubytes m r (a + Z.of_nat n) k.
Proof.
  unfold ubytes. rewrite seq_app, fmap_app. f_equal. apply list_eq. intros i. rewrite !list_lookup_fmap.
  destruct (decide (i < k)%nat).
  - rewrite !lookup_seq_lt by done. cbn. do 2 f_equal. lia.
  - by rewrite !lookup_seq_ge by lia.
Qed.

Lemma ubyte_range m r a : mem_ok m → is_byte (ubyte m r a).
Proof.
  intros Hm. unfold ubyte, byte_at. set (x := phys m r a).
  pose proof (page_bytes_ok m (x / PAGE_SIZE) Hm) as [_ Hb].
  destruct (page_bytes m (x / PAGE_SIZE) !! Z.to_nat (x mod PAGE_SIZE)) as [b|] eqn:E; cbn; [|unfold is_byte; lia].
  by apply (proj1 (Forall_lookup _ _) Hb _ _ E).
Qed.

Lemma bytes_ubytes m r a n : mem_ok m → bytes (ubytes m r a n).
Proof. intros Hm. unfold ubytes. apply Forall_fmap, Forall_forall. intros i _. exact (ubyte_range m r (a + Z.of_nat i) Hm). Qed.

Lemma load_in_page_ubytes m R K r fl a k : vm_ok m R K → active m R r → umapped m r fl a →
  a mod 4096 + Z.of_nat k ≤ 4096 →
  sub (page_bytes m (ppn (upte m r a))) (Z.to_nat (a mod 4096)) k = ubytes m r a k.
Proof.
  intros Hvm Hact Hu Hk. pose proof (Z.mod_pos_bound a 4096 ltac:(lia)) as Hmod.
  pose proof (page_bytes_ok m (ppn (upte m r a)) (vm_mem Hvm)) as [Hlen _].
  apply list_eq. intros i. destruct (decide (i < k)%nat) as [Hi|Hi].
  - rewrite lookup_sub by done. unfold ubytes. rewrite list_lookup_fmap, lookup_seq_lt by done. cbn [fmap option_fmap option_map].
    unfold ubyte, byte_at, phys. change PAGE_SIZE with 4096. replace (0 + i)%nat with i by lia.
    assert (upte m r (a + Z.of_nat i) = upte m r a) as -> by (apply upte_page; Z.div_mod_to_equations; lia).
    assert ((a + Z.of_nat i) mod 4096 = a mod 4096 + Z.of_nat i) as -> by (Z.div_mod_to_equations; lia).
    destruct (split_addr (ppn (upte m r a)) (a mod 4096 + Z.of_nat i)) as [-> ->]; [lia|].
    replace (Z.to_nat (a mod 4096 + Z.of_nat i)) with (Z.to_nat (a mod 4096) + i)%nat by lia.
    destruct (page_bytes m _ !! (Z.to_nat (a mod 4096) + i)%nat) eqn:E; [done|].
    apply lookup_ge_None in E. lia.
  - rewrite !lookup_ge_None_2; [done|rewrite length_ubytes; lia|rewrite length_sub; lia].
Qed.

Lemma load_part_wp m R K r fl a k (Q : list Z → memory → Prop) P : vm_ok m R K → active m R r → umapped m r fl a →
  a mod 4096 + Z.of_nat k ≤ 4096 → Q (ubytes m r a k) m →
  wp (load_in_page (phys m r a) (Z.of_nat k)) Q P m.
Proof.
  intros Hvm Hact Hu Hk HQ. pose proof (Z.mod_pos_bound a 4096 ltac:(lia)) as Hmod.
  destruct (umapped_leaf Hvm Hact fl a Hu) as [_ Hleaf].
  pose proof (managed_range m _ (vm_mem Hvm) (holds_managed Hvm _ _ Hleaf)) as [H1 H2].
  unfold load_in_page. wp_steps. unfold wp at 1, get, phys.
  assert (accessible m (ppn (upte m r a) * 4096 + a mod 4096) (Z.of_nat k) = true) as ->.
  { unfold accessible. apply andb_true_iff. split; apply Z.leb_le; lia. }
  apply wp_ret. change PAGE_SIZE with 4096.
  destruct (split_addr (ppn (upte m r a)) (a mod 4096)) as [-> ->]; [lia|].
  rewrite Nat2Z.id. by rewrite (load_in_page_ubytes m R K r fl).
Qed.

Lemma load_user_wp m R K r fl a (Q : Z → memory → Prop) P : vm_ok m R K → active m R r → umapped m r fl a →
  Q (ubyte m r a) m → wp (load_user a) Q P m.
Proof.
  intros Hvm Hact Hu HQ. unfold load_user. wp_steps. unfold wp at 1, get.
  rewrite (translate_umapped Hvm Hact PAGE_R fl a Hu) by (by apply (umapped_read Hvm Hact fl)). wp_steps.
  apply (load_part_wp m R K r fl a 1); [done|done|done|pose proof (Z.mod_pos_bound a 4096 ltac:(lia)); lia|].
  unfold ubytes. cbn [seq fmap list_fmap head]. rewrite Z.add_0_r. by apply wp_ret.
Qed.

Lemma load_pages_step fuel va n : n ≠ 0%nat → load_user_pages (S fuel) va n =
  (let k := Nat.min n (Z.to_nat (PAGE_SIZE - va mod PAGE_SIZE)) in
   m ← get; pa ← expect (translate m PAGE_R va);
   l ← load_in_page pa (Z.of_nat k);
   rest ← load_user_pages fuel (va + Z.of_nat k) (n - k);
   mret (l ++ rest)).
Proof. by destruct n. Qed.

Lemma load_user_pages_wp fuel m R K r fl a n (Q : list Z → memory → Prop) P : vm_ok m R K → active m R r →
  (∀ va, a ≤ va < a + Z.of_nat n → umapped m r fl va) →
  n = 0%nat ∨ (a mod 4096 + Z.of_nat n + 4095) / 4096 ≤ Z.of_nat fuel → Q (ubytes m r a n) m →
  wp (load_user_pages fuel a n) Q P m.
Proof.
  intros Hvm Hact. revert a n Q. induction fuel as [|fuel IH]; intros a n Q Hum Hf HQ.
  - destruct n as [|n]; [by apply wp_ret|]. exfalso. destruct Hf as [|Hf]; [done|]. Z.div_mod_to_equations. lia.
  - destruct (decide (n = 0%nat)) as [->|Hn]; [by apply wp_ret|]. rewrite load_pages_step by done. cbv zeta.
    change PAGE_SIZE with 4096. pose proof (Z.mod_pos_bound a 4096 ltac:(lia)) as Hmod.
    set (k := (n `min` Z.to_nat (4096 - a mod 4096))%nat).
    wp_steps. unfold wp at 1, get.
    assert (umapped m r fl a) as Hu by (apply Hum; lia).
    rewrite (translate_umapped Hvm Hact PAGE_R fl a Hu) by (by apply (umapped_read Hvm Hact fl)). wp_steps.
    apply (load_part_wp m R K r fl a k); [done|done|done|lia|]. wp_steps. apply IH.
    + intros va Hva. apply Hum. lia.
    + destruct (decide (n ≤ Z.to_nat (4096 - a mod 4096))%nat) as [Hle|Hgt].
      * left. lia.
      * right. destruct Hf as [|Hf]; [done|]. replace (Z.of_nat k) with (4096 - a mod 4096) by lia.
        replace ((a + (4096 - a mod 4096)) mod 4096) with 0 by (Z.div_mod_to_equations; lia).
        assert (0 + Z.of_nat (n - k) + 4095 = a mod 4096 + Z.of_nat n + 4095 + (-1) * 4096) as -> by lia.
        rewrite Z.div_add by lia. lia.
    + wp_steps. rewrite <-ubytes_app. by replace (k + (n - k))%nat with n by lia.
Qed.

Lemma copy_from_user_wp m R K r fl a n (Q : list Z → memory → Prop) P : vm_ok m R K → active m R r → 0 ≤ n →
  (∀ va, a ≤ va < a + n → umapped m r fl va) → Q (ubytes m r a (Z.to_nat n)) m →
  wp (copy_from_user a n) Q P m.
Proof.
  intros Hvm Hact Hn Hum HQ. apply (load_user_pages_wp _ m R K r fl); [done|done| | |done].
  - intros va Hva. apply Hum. lia.
  - right. change PAGE_SIZE with 4096. pose proof (Z.mod_pos_bound a 4096 ltac:(lia)). Z.div_mod_to_equations. lia.
Qed.

(** ** Strings *)

(** A string of [n] characters and its terminator, readable by the program. *)
Definition ustring (m : memory) (r s n : Z) : Prop :=
  0 ≤ n ∧ s + n < USER_TOP ∧ (∀ va, s ≤ va ≤ s + n → umapped m r 0 va) ∧
  (∀ va, s ≤ va < s + n → ubyte m r va ≠ 0) ∧ ubyte m r (s + n) = 0.

Lemma validate_user_string_wp m R K r s : vm_ok m R K → active m R r → 0 ≤ s < 4294967296 →
  wp (validate_user_string s) (λ b m', m' = m ∧ (b = true ↔ ∃ n, ustring m r s n)) (λ _, False) m.
Proof.
  intros Hvm Hact Hs. unfold validate_user_string. wp_steps. rewrite (active_table Hvm Hact).
  destruct (Z.geb_spec s USER_TOP) as [Hge|Hlt].
  { wp_steps. split; [done|]. split; [done|]. intros (n & ? & ? & _). lia. }
  rewrite land_mask by done. wp_steps. eapply wp_conseq; [apply (check_page_wp Hvm Hact)|]. intros b m' [-> Hb].
  assert (umapped m r 0 (s / 4096 * 4096) ↔ umapped m r 0 s) as Hpg.
  { split; apply umapped_page; by rewrite Z.div_mul by lia. }
  rewrite Hpg in Hb. destruct b; cbn [negb].
  2: { wp_steps. split; [done|]. split; [done|]. intros (n & ? & ? & H & _). apply Hb, H. lia. }
  wp_steps. unfold USER_TOP in *.
  eapply wp_conseq.
  { apply (wp_loop_upto (λ k va m', m' = m ∧ s ≤ va < USER_TOP ∧ k = USER_TOP - va ∧
      (∀ v, s ≤ v < va → umapped m r 0 v ∧ ubyte m r v ≠ 0) ∧ (va mod 4096 ≠ 0 → umapped m r 0 va))
      _ (λ b m', m' = m ∧ (b = true ↔ ∃ n, ustring m r s n))) with (k := USER_TOP - s).
    - intros k va m' _ (-> & Hva & -> & Hdone & Hin). unfold USER_TOP in *. wp_steps.
      rewrite land_low.
      assert (wp (if va mod 4096 =? 0 then check_page 0 (r * 4096) va else mret true)
        (λ b m', m' = m ∧ (b = true ↔ umapped m r 0 va)) (λ _, False) m) as Hc.
      { destruct (Z.eqb_spec (va mod 4096) 0); [by apply (check_page_wp Hvm Hact)|]. apply wp_ret.
        split; [done|]. split; [|done]. intros _. by apply Hin. }
      eapply wp_mono; [exact Hc| |done]. intros b m' [-> Hb']. destruct b; cbn [negb]; wp_steps.
      2: { split; [done|]. split; [done|]. intros (n & ? & ? & Hm & Hz & Hend). apply Hb', Hm. unfold USER_TOP in *.
           split; [lia|]. destruct (decide (va ≤ s + n)); [done|]. destruct (Hdone (s + n)) as [_ []]; [lia|done]. }
      assert (umapped m r 0 va) as Hu by by apply Hb'.
      apply (load_user_wp m R K r 0); [done..|]. destruct (Z.eqb_spec (ubyte m r va) 0) as [Ez|Enz]; wp_steps.
      + split; [done|]. split; [|done]. intros _. exists (va - s). unfold ustring. replace (s + (va - s)) with va by lia.
        split; [lia|]. split; [unfold USER_TOP; lia|]. split; [|split; [|done]].
        * intros v Hv. destruct (decide (v = va)) as [->|]; [done|]. apply Hdone. lia.
        * intros v Hv. apply Hdone. lia.
      + rewrite u32_small by lia.
        assert (∀ v, s ≤ v < va + 1 → umapped m r 0 v ∧ ubyte m r v ≠ 0) as Hdone'.
        { intros v Hv. destruct (decide (v = va)) as [->|]; [done|]. apply Hdone. lia. }
        destruct (Z.geb_spec (va + 1) 2147483648); wp_steps.
        * split; [done|]. split; [done|]. intros (n & ? & ? & Hm & Hz & Hend). unfold USER_TOP in *.
          destruct (Hdone' (s + n)) as [_ []]; [lia|done].
        * split; [lia|]. split; [done|]. split; [lia|]. split; [lia|]. split; [done|]. intros Hal.
          apply (umapped_page m r 0 va); [|done]. Z.div_mod_to_equations. lia.
    - unfold USER_TOP. lia.
    - split; [done|]. unfold USER_TOP. split; [lia|]. split; [done|]. split; [lia|]. intros _. by apply Hb. }
  intros [va|b] m' H; cbn beta in H; [|by apply wp_ret].
  exfalso. unfold USER_TOP in *. destruct H as [_ (_ & ? & E & _)]. change (2 ^ Z.of_nat 31) with 2147483648 in E. lia.
Qed.

Lemma user_string_wp m R K r s n (Q : list Z → memory → Prop) P : vm_ok m R K → active m R r → 0 ≤ s →
  ustring m r s n → Q (ubytes m r s (Z.to_nat n) ++ [0]) m → wp (user_string s) Q P m.
Proof.
  intros Hvm Hact Hs (Hn & Htop & Hm & Hnz & Hend) HQ. unfold user_string. wp_steps. unfold USER_TOP in *.
  eapply wp_conseq.
  { apply (wp_loop_upto (λ k (x : Z * list Z) m', m' = m ∧ s ≤ x.1 ≤ s + n ∧ k = s + n - x.1 ∧
      rev x.2 = ubytes m r s (Z.to_nat (x.1 - s))) _
      (λ l m', m' = m ∧ l = ubytes m r s (Z.to_nat n) ++ [0])) with (k := n).
    - intros k [va acc] m' _ (-> & Hva & -> & Hacc). cbn [fst snd] in *. wp_steps.
      apply (load_user_wp m R K r 0); [done|done|apply Hm; lia|].
      destruct (Z.eqb_spec (ubyte m r va) 0) as [Ez|Enz]; wp_steps.
      + assert (va = s + n) as ->. { destruct (decide (va < s + n)); [|lia]. by destruct (Hnz va); [lia|]. }
        split; [done|]. rewrite Hacc. do 2 f_equal. lia.
      + assert (va < s + n). { destruct (decide (va = s + n)) as [->|]; [done|lia]. }
        rewrite u32_small by lia. split; [lia|]. cbn [fst snd]. split; [done|]. split; [lia|]. split; [lia|].
        cbn [rev]. rewrite Hacc. replace (Z.to_nat (va + 1 - s)) with (Z.to_nat (va - s) + 1)%nat by lia.
        rewrite ubytes_app. f_equal. unfold ubytes. cbn [seq fmap list_fmap]. do 2 f_equal. lia.
    - done.
    - split; [done|]. cbn [fst snd]. split; [lia|]. split; [lia|]. by rewrite Z.sub_diag. }
  intros [[va acc]|l] m' H; cbn beta in H.
  - exfalso. destruct H as [H _]. change (2 ^ Z.of_nat 31) with 2147483648 in H. lia.
  - destruct H as [-> ->]. by apply wp_ret.
Qed.

(** * The memory of a process

    Building and tearing down an address space: [free_process_pages] releases
    exactly the pages the address space holds. *)

(** ** Tearing down *)

(** [m'] is [m] with the pages [S] released. *)
Record freed (m m' : memory) (S : Z → Prop) : Prop := {
  fr_mem : mem_ok m';
  fr_ram : ram m' = ram m;
  fr_satp : satp m' = satp m;
  fr_base : free_ram m' = free_ram m;
  fr_alloced p : alloced m' p ↔ alloced m p ∧ ¬ S p
}.

Lemma freed_refl m : mem_ok m → freed m m (λ _, False).
Proof. intros Hm. split; [done..|]. intros p. split; [by split; [|intros []]|by intros [? _]]. Qed.

Lemma freed_ext m m' S S' : (∀ p, S p ↔ S' p) → freed m m' S → freed m m' S'.
Proof. intros HS [H1 H2 H3 H4 H5]. split; [done..|]. intros p. by rewrite H5, HS. Qed.

Lemma freed_release m m' S p : freed m m' S → managed m p → freed m (release p m') (λ q, S q ∨ q = p).
Proof.
  intros [H1 H2 H3 H4 H5] Hp. split; [by apply mem_ok_release|done..|].
  intros q. rewrite alloced_release, H5; [|done|by unfold managed, first_page in *; rewrite H4].
  split; [intros (? & ? & ?); split; [done|]; by intros [?|?]|intros [? Hn]; split; [|split]; auto].
Qed.

Lemma freed_word m m' S a : freed m m' S → word m' a = word m a.
Proof. intros H. unfold word, page_bytes. by rewrite (fr_ram _ _ _ H). Qed.

Lemma freed_addr m m' S a : freed m m' S → word_addr m a → word_addr m' a.
Proof. intros H. unfold word_addr, accessible, free_ram_end. by rewrite (fr_base _ _ _ H). Qed.

Lemma managed_target m e : mem_ok m → (0 ≤ e < 4294967296) →
  (is_valid e && (free_ram m <=? target e) && (target e <? free_ram_end m) = true ↔
   is_valid e = true ∧ first_page m ≤ target e / 4096 < first_page m + NUM_PAGES).
Proof.
  intros Hm He. rewrite !andb_true_iff, Z.leb_le, Z.ltb_lt. pose proof (free_ram_eq m Hm) as Hf.
  unfold free_ram_end. change PAGE_SIZE with 4096.
  assert (target e = target e / 4096 * 4096) as Et.
  { unfold target, u32. change PAGE_SIZE with 4096. change 4294967296 with (1048576 * 4096).
    rewrite Z.mul_mod_distr_r by lia. by rewrite Z.div_mul by lia. }
  rewrite Et at 1 2. split; [intros [[? ?] ?]|intros [? ?]]; repeat split; try done; lia.
Qed.

Section free.
Context {m : memory} {R K : gset Z} {r : Z} (Hvm : vm_ok m R K) (Hr : r ∈ R).

(** The leaves of table [i] from [j] on: those the loop has passed. *)
Lemma free_leaves_wp i : idx i → i < 512 → is_valid (l1 m r i) = true →
  ∀ n j m' S (Q : unit → memory → Prop) P, 0 ≤ j → j + Z.of_nat n = 1024 → freed m m' S →
  (∀ m'', freed m m'' (λ p, S p ∨ ∃ j', j ≤ j' < 1024 ∧ holds m R K (Leaf r i j') p) → Q tt m'') →
  wp (free_leaves (target (l1 m r i)) j n) Q P m'.
Proof using Hvm Hr.
  intros Hi Hlow Hv. induction n as [|n IH]; intros j m' S Q P Hj Hn Hfr HQ; cbn [free_leaves].
  - apply wp_ret. apply HQ. eapply freed_ext; [|exact Hfr]. intros p. split; [by left|]. intros [|(j' & ? & _)]; [done|lia].
  - assert (idx j) as Hjd by (unfold idx; lia). destruct (table_addr Hvm r i j Hr Hi Hv Hjd) as [Et Ha].
    rewrite Et. wp_steps. apply load32_wp; [by apply (freed_addr m _ S)|]. rewrite (freed_word m _ S) by done.
    assert (word m (ppn (l1 m r i) * 4096 + 4 * j) = pte m r i j) as -> by (unfold pte; by rewrite Hv).
    wp_steps. unfold wp at 1, get.
    set (e := pte m r i j).
    assert (0 ≤ e < 4294967296) as He by (unfold e, pte; rewrite Hv; apply word_range, Hvm).
    pose proof (managed_target m' e (fr_mem _ _ _ Hfr) He) as Hiff.
    assert (∀ m'' S', freed m m'' S' → (∀ p, S' p ↔ S p ∨ holds m R K (Leaf r i j) p) →
      wp (free_leaves (ppn (l1 m r i) * 4096) (j + 1) n) Q P m'') as Hnext.
    { intros m'' S' Hfr' HS. rewrite <-Et. apply (IH (j + 1) m'' S'); [lia|lia|done|]. intros m3 H3. apply HQ.
      eapply freed_ext; [|exact H3]. intros p. cbv beta. rewrite HS. split.
      - intros [[?|?]|(j' & ? & ?)]; [by left|right; exists j; split; [lia|done]|right; exists j'; split; [lia|done]].
      - intros [?|(j' & Hj' & Hh)]; [by left; left|]. destruct (decide (j' = j)) as [->|]; [by left; right|].
        right. exists j'. split; [lia|done]. }
    apply wp_bind. destruct (_ && _ && _) eqn:Ec.
    + destruct (proj1 Hiff eq_refl) as [Hve Hm]. assert (target e = ppn e * 4096) as Ete.
      { apply target_eq. split; [apply Z.shiftr_nonneg; lia|]. by apply (vo_small m R K Hvm). }
      rewrite Ete in Hm |- *. rewrite Z.div_mul in Hm by lia.
      assert (managed m' (ppn e)) as Hmg' by done.
      assert (managed m (ppn e)) as Hmg by (unfold managed, first_page in *; by rewrite (fr_base _ _ _ Hfr) in Hm).
      apply free_page_wp; [apply Hfr|done|].
      apply (Hnext _ (λ q, S q ∨ q = ppn e)); [by apply freed_release|]. intros p. cbn [holds]. fold e. split.
      * intros [?| ->]; [by left|right]. done.
      * intros [?|(_ & _ & _ & _ & ->)]; [by left|by right].
    + apply wp_ret. apply (Hnext _ S); [done|]. intros p. split; [by left|]. intros [?|(_ & _ & _ & Hu & ->)]; [done|].
      exfalso. destruct Hu as (_ & Hve & Hmg). fold e in Hve, Hmg. assert (false = true); [|done].
      apply Hiff. split; [done|]. rewrite target_eq by (by apply (managed_small m); [apply Hvm|]).
      rewrite Z.div_mul by lia. unfold managed, first_page in *. by rewrite (fr_base _ _ _ Hfr).
Qed.

(** What address space [r] holds at or above entry [i] of its root. *)
Definition tail_holds (i p : Z) : Prop :=
  ∃ i', i ≤ i' < 1024 ∧ (holds m R K (Table r i') p ∨ ∃ j, holds m R K (Leaf r i' j) p).

Lemma free_tables_wp :
  ∀ n i m' S (Q : unit → memory → Prop) P, 0 ≤ i → i + Z.of_nat n = 1024 → freed m m' S →
  (∀ m'', freed m m'' (λ p, S p ∨ tail_holds i p) → Q tt m'') →
  wp (free_tables (r * 4096) i n) Q P m'.
Proof using Hvm Hr.
  induction n as [|n IH]; intros i m' S Q P Hi Hn Hfr HQ; cbn [free_tables].
  - apply wp_ret. apply HQ. eapply freed_ext; [|exact Hfr]. intros p. split; [by left|]. intros [|(i' & ? & _)]; [done|lia].
  - assert (idx i) as Hid by (unfold idx; lia). wp_steps.
    apply load32_wp; [by apply (freed_addr m _ S); [|apply (root_addr Hvm)]|]. rewrite (freed_word m _ S) by done.
    fold (l1 m r i). apply wp_bind.
    assert (∀ m'' S', freed m m'' S' →
      (∀ p, S' p ↔ S p ∨ holds m R K (Table r i) p ∨ ∃ j, holds m R K (Leaf r i j) p) →
      wp (free_tables (r * 4096) (i + 1) n) Q P m'') as Hnext.
    { intros m'' S' Hfr' HS. apply (IH (i + 1) m'' S'); [lia|lia|done|]. intros m3 H3. apply HQ.
      eapply freed_ext; [|exact H3]. intros p. cbv beta. rewrite HS. split.
      - intros [[?|?]|(i' & ? & ?)]; [by left|right; exists i; split; [lia|done]|right; exists i'; split; [lia|done]].
      - intros [?|(i' & Hi' & Hh)]; [by left; left|]. destruct (decide (i' = i)) as [->|]; [by left; right|].
        right. exists i'. split; [lia|done]. }
    destruct (is_valid (l1 m r i)) eqn:Hv.
    2: { apply wp_ret. apply (Hnext _ S); [done|]. intros p. split; [by left|].
         intros [?|[(_ & _ & Hv' & _)|(j & _ & _ & _ & (_ & Hv' & _) & _)]]; [done|congruence|].
         unfold pte in Hv'. by rewrite Hv in Hv'. }
    assert (holds m R K (Table r i) (ppn (l1 m r i))) as Ht by done.
    pose proof (holds_managed Hvm _ _ Ht) as Hmg.
    assert (target (l1 m r i) = ppn (l1 m r i) * 4096) as Et by (apply target_eq, (managed_small m); [apply Hvm|done]).
    assert (∀ m'' S', freed m m'' S' → (∀ p, S' p ↔ S p ∨ ∃ j, holds m R K (Leaf r i j) p) →
      wp (free_pages (target (l1 m r i)) 1) (λ _, wp (free_tables (r * 4096) (i + 1) n) Q P) P m'') as Hlast.
    { intros m'' S' Hfr' HS. rewrite Et. apply free_page_wp; [apply Hfr'| |].
      - unfold managed, first_page in *. by rewrite (fr_base _ _ _ Hfr').
      - apply (Hnext _ (λ q, S' q ∨ q = ppn (l1 m r i))); [by apply freed_release|]. intros p. rewrite HS. split.
        + intros [[?|?]| ->]; [by left|by right; right|by right; left].
        + intros [?|[(_ & _ & _ & ->)|?]]; [by left; left|by right|by left; right]. }
    apply wp_bind. destruct (Z.ltb_spec i 512) as [Hlow|Hhigh].
    + apply (free_leaves_wp i Hid Hlow Hv 1024 0 m' S); [lia|lia|done|]. intros m'' Hfr'.
      apply (Hlast m'' _ Hfr'). intros p. split.
      * intros [?|(j & _ & ?)]; [by left|right; by exists j].
      * intros [?|(j & Hh)]; [by left|]. right. exists j. split; [|done]. destruct Hh as (_ & _ & Hj & _). apply Hj.
    + apply wp_ret. apply (Hlast m' S); [done|]. intros p. split; [by left|].
      intros [?|(j & _ & _ & _ & (? & _) & _)]; [done|lia].
Qed.

(** The whole address space. *)
Definition space_holds (p : Z) : Prop := ∃ l, holds m R K l p ∧
  match l with Root r' | Table r' _ | Leaf r' _ _ => r' = r | Kept _ => False end.

Lemma free_space_wp :
  wp (free_tables (r * 4096) 0 1024;; free_pages (r * 4096) 1)
  (λ _ m', vm_ok m' (R ∖ {[r]}) K ∧ freed m m' space_holds) (λ _, False) m.
Proof using Hvm Hr.
  assert (holds m R K (Root r) r) as Hroot by done. pose proof (holds_managed Hvm _ _ Hroot) as Hmg.
  apply wp_bind. apply (free_tables_wp 1024 0 m (λ _, False)); [lia|lia|apply freed_refl, Hvm|].
  intros m1 Hfr1. apply free_page_wp; [apply Hfr1| |].
  { unfold managed, first_page in *. by rewrite (fr_base _ _ _ Hfr1). }
  assert (freed m (release r m1) space_holds) as Hfr.
  { eapply freed_ext; [|by apply freed_release]. intros p. cbv beta. split.
    - intros [[[]|(i & Hi & [Ht|(j & Hl)])]| ->]; [by exists (Table r i)|by exists (Leaf r i j)|by exists (Root r)].
    - intros (l & Hl & Hlr). destruct l as [r'|r' i|r' i j|q]; [subst r'..|done].
      + right. by destruct Hl as [_ ->].
      + left. right. exists i. split; [|by left]. by destruct Hl as (_ & Hi & _).
      + left. right. exists i. split; [by destruct Hl as (_ & Hi & _)|]. right. by exists j. }
  split; [|done]. set (m2 := release r m1) in *.
  assert (∀ r i, l1 m2 r i = l1 m r i) as H1 by (intros; by apply (freed_word m _ space_holds)).
  assert (∀ r i j, pte m2 r i j = pte m r i j) as H2.
  { intros. unfold pte. rewrite H1. destruct (is_valid _); [|done]. by apply (freed_word m _ space_holds). }
  assert (∀ i e, user_leaf m2 i e ↔ user_leaf m i e) as Hul by (intros; apply user_leaf_same, Hfr).
  assert (∀ l p, holds m2 (R ∖ {[r]}) K l p ↔ holds m R K l p ∧
    match l with Root r' | Table r' _ | Leaf r' _ _ => r' ≠ r | Kept _ => True end) as Hiff.
  { intros [r'|r' i|r' i j|q] p; cbn [holds]; rewrite ?elem_of_difference, ?elem_of_singleton, ?H1, ?H2, ?Hul.
    - split; [by intros [[? ?] ?]|by intros [[? ?] ?]].
    - split; [by intros ([? ?] & ? & ? & ?)|by intros [(? & ? & ? & ?) ?]].
    - split; [by intros ([? ?] & ? & ? & ? & ?)|by intros [(? & ? & ? & ? & ?) ?]].
    - split; [done|by intros [? _]]. }
  split.
  - apply Hfr.
  - intros p. rewrite (fr_alloced _ _ _ Hfr), (vo_alloced m R K Hvm). split.
    + intros [[l Hl] Hn]. exists l. apply Hiff. split; [done|].
      destruct l as [r'|r' i|r' i j|q]; [..|done]; intros ->; apply Hn; eexists; split; try exact Hl; done.
    + intros [l [Hl Hlr]%Hiff]. split; [by exists l|]. intros (l' & Hl' & Hlr').
      assert (l = l') as -> by by apply (vo_inj m R K Hvm _ _ p). by destruct l'.
  - intros l l' p [Hl _]%Hiff [Hl' _]%Hiff. by apply (vo_inj m R K Hvm _ _ p).
  - intros r' i j [Hr' _]%elem_of_difference. unfold user_page. rewrite H2, Hul. by apply (vo_user m R K Hvm).
  - intros r' i [Hr' _]%elem_of_difference. rewrite H1. by apply (vo_dir m R K Hvm).
  - intros r' i j [Hr' _]%elem_of_difference. rewrite H2. by apply (vo_small m R K Hvm).
Qed.
End free.
