(* ===== verification/HeapSpec.v ===== *)
(** * The heap of a process

    [sys_sbrk] grows and shrinks the mapped range of the address space by whole
    pages: new pages read as zero, the pages that stay keep their bytes, released
    pages go back to the allocator, and no other address space is touched. *)

From S2P Require Import Prelude CLib FsTypes Block Inode KState FdTable Page UserMem Process Syscall.
From S2P Require Import PageMem PageTable UserSpec.

(** The user part of an address space ends where the devices are mapped. *)
Definition DEVICES : Z := 268435456.

(** ** Pages [lo, hi) appear in, or vanish from, address space [r] *)

Definition in_pages (r lo hi r' i j : Z) : Prop := r' = r ∧ lo ≤ (i * 1024 + j) * 4096 < hi.

Record resized (R K : gset Z) (m m' : memory) (r lo hi : Z) : Prop := {
  rz_vm : vm_ok m' R K;
  rz_ram : free_ram m' = free_ram m;
  rz_satp : satp m' = satp m;
  rz_pte r' i j : r' ∈ R → idx i → idx j → ¬ in_pages r lo hi r' i j → pte m' r' i j = pte m r' i j;
  rz_data q r' i j : holds m R K (Leaf r' i j) q → ¬ in_pages r lo hi r' i j → page_bytes m' q = page_bytes m q;
  rz_kept q : q ∈ K → page_bytes m' q = page_bytes m q
}.

Lemma resized_refl R K m r lo hi : vm_ok m R K → resized R K m m r lo hi.
Proof. by split. Qed.

Lemma vpn_page va : 0 ≤ va < 4294967296 → va mod 4096 = 0 → (vpn1 va * 1024 + vpn0 va) * 4096 = va.
Proof. intros Hva Hal. rewrite vpn1_eq, vpn0_eq by done. Z.div_mod_to_equations. lia. Qed.

Lemma page_vpn i j : idx i → idx j → vpn1 ((i * 1024 + j) * 4096) = i ∧ vpn0 ((i * 1024 + j) * 4096) = j.
Proof.
  unfold idx. intros Hi Hj. rewrite vpn1_page, vpn0_eq. rewrite Z.div_mul by lia.
  rewrite Z.div_add_l, (Z.div_small j), Z.add_0_r, Z.mod_small by lia. split; [done|].
  rewrite Z.add_comm, Z.mod_add, Z.mod_small by lia. done.
Qed.

Lemma resized_trans R K m m1 m2 r lo mid hi : lo ≤ mid ≤ hi →
  resized R K m m1 r lo mid → resized R K m1 m2 r mid hi → resized R K m m2 r lo hi.
Proof.
  intros Hm [A1 A2 A3 A4 A5 A6] [B1 B2 B3 B4 B5 B6].
  assert (∀ r' i j, ¬ in_pages r lo hi r' i j → ¬ in_pages r lo mid r' i j ∧ ¬ in_pages r mid hi r' i j) as Hn.
  { unfold in_pages. intros r' i j H. split; intros [? ?]; apply H; (split; [done|lia]). }
  split; [done|congruence|congruence|..].
  - intros r' i j Hr Hi Hj [H1 H2]%Hn. rewrite B4, A4; done.
  - intros q r' i j Hh [H1 H2]%Hn. rewrite (B5 q r' i j), (A5 q r' i j); [done..| |done].
    destruct Hh as (Hr & Hi & Hj & Hu & ->). split; [done|]. split; [done|]. split; [done|]. rewrite A4 by done.
    split; [|done]. by apply (user_leaf_same m m1).
  - intros q Hq. rewrite B6, A6; done.
Qed.

(** ** One more page *)

Lemma heap_flags_entry p : let e := entry p HEAP_FLAGS in
  is_valid e = true ∧ has_flag e PAGE_U = true ∧ Z.land e (Z.lor PAGE_R PAGE_W) = Z.lor PAGE_R PAGE_W.
Proof.
  cbv zeta. split; [apply valid_entry|]. split.
  - change PAGE_U with (2 ^ 4). rewrite flag_entry by lia. done.
  - unfold entry. change (Z.lor PAGE_R PAGE_W) with 6. rewrite !Z.land_lor_distr_l.
    assert (Z.land (p * 1024) 6 = 0) as ->; [|done].
    change 6 with (Z.land (Z.ones 10) 6). rewrite Z.land_assoc, Z.land_ones by lia. change (2 ^ 10) with 1024.
    by rewrite Z.mod_mul by lia.
Qed.

Lemma low_vpn va : 0 ≤ va < 2147483648 → vpn1 va < 512.
Proof. intros Hva. rewrite vpn1_eq by lia. apply Z.div_lt_upper_bound; lia. Qed.

(** The fresh page at [va]: mapped for reading and writing, and zero. *)
Definition zeroed (m : memory) (r va : Z) : Prop :=
  umapped m r (Z.lor PAGE_R PAGE_W) va ∧ ubyte m r va = 0.

Lemma byte_at_zeros m q o : page_bytes m q = zeros 4096 → 0 ≤ o < 4096 → byte_at m (q * 4096 + o) = 0.
Proof.
  intros H Ho. unfold byte_at. change PAGE_SIZE with 4096. destruct (split_addr q o Ho) as [-> ->]. rewrite H.
  unfold zeros. by rewrite lookup_replicate_2 by lia.
Qed.

(** A page taken from the allocator in [m] and written to since is mapped at [va]. *)
Lemma map_fresh_wp m m1 R K r va p fl : vm_ok m R K → r ∈ R → 0 ≤ va < DEVICES → va mod 4096 = 0 →
  is_valid (upte m r va) = false → avail m p → vm_ok m1 R ({[p]} ∪ K) → same_tables R m m1 → satp m1 = satp m →
  (∀ q, q ≠ p → page_bytes m1 q = page_bytes m q) → 0 ≤ fl < 1024 → has_flag fl PAGE_R = true →
  wp (map_page (r * 4096) va (p * 4096) fl)
    (λ _ m', resized R K m m' r va (va + 4096) ∧ page_bytes m' p = page_bytes m1 p ∧
       ∀ v, va ≤ v < va + 4096 → upte m' r v = entry p fl) (stuck m1) m1.
Proof.
  intros Hvm Hr Hva Hal Hinv Ha Hvm1 Hs Hsatp Hrest Hf HR. unfold DEVICES in *.
  set (i := vpn1 va). set (j := vpn0 va).
  assert (p ∉ K) as Hp by (intros Hk; by apply (avail_fresh Hvm p (Kept p))).
  assert (idx i) as Hi by apply vpn1_range. assert (idx j) as Hj by apply vpn0_range.
  assert (managed m1 p) as Hmg.
  { apply (holds_managed Hvm1 (Kept p)). split; [|done]. apply elem_of_union. left. by apply elem_of_singleton. }
  assert (i < 512) as Hlow by (apply low_vpn; lia).
  assert (user_leaf m1 i (entry p fl)) as Hul.
  { split; [done|]. split; [apply valid_entry|]. by rewrite ppn_entry. }
  assert (pte m1 r i j = upte m r va) as Ep by (by rewrite (st_pte R m _ Hs)).
  eapply wp_mono.
  { apply (map_page_wp m1 R ({[p]} ∪ K) r va p fl); try done.
    - apply (managed_small m1); [apply Hvm1|done].
    - fold i j. rewrite Ep. intros (_ & Hv' & _). congruence.
    - intros _. apply elem_of_union. left. by apply elem_of_singleton. }
  2: { done. }
  fold i j. rewrite decide_True by done. rewrite take_back by done. intros _ m' [Hvm' [B1 B2 B3 B4]].
  assert (∀ q, data m R K q → page_bytes m' q = page_bytes m q) as Hold.
  { intros q Hq. assert (data m1 R ({[p]} ∪ K) q) as Hq'.
    { destruct Hq as [Hq|(r' & i' & j' & Hq)]; [left; apply elem_of_union; by right|right]. exists r', i', j'.
      change (holds m1 R K (Leaf r' i' j') q). by apply (holds_same m). }
    rewrite B4 by done. apply Hrest. intros ->.
    destruct Hq as [Hq|(r' & i' & j' & Hq)]; [done|]. by apply (avail_fresh Hvm p (Leaf r' i' j')). }
  split; [|split].
  - split; [done|by rewrite B1; apply Hs|congruence|..].
    + intros r' i' j' Hr' Hi' Hj' Hn. rewrite B3 by done. rewrite decide_False; [by apply Hs|].
      intros [= -> -> ->]. apply Hn. split; [done|]. unfold i, j. rewrite vpn_page by lia. lia.
    + intros q r' i' j' Hh _. apply Hold. right. by exists r', i', j'.
    + intros q Hq. apply Hold. by left.
  - apply B4. left. apply elem_of_union. left. by apply elem_of_singleton.
  - intros v Hv'. rewrite (upte_page m' r v va) by (Z.div_mod_to_equations; lia). unfold upte. fold i j.
    rewrite B3 by done. by rewrite decide_True.
Qed.

Lemma grow_page_wp m R K r va : vm_ok m R K → r ∈ R → 0 ≤ va < DEVICES → va mod 4096 = 0 →
  is_valid (upte m r va) = false →
  wp (page ← alloc_pages 1; map_page (r * 4096) va page HEAP_FLAGS)
    (λ _ m', resized R K m m' r va (va + 4096) ∧ ∀ v, va ≤ v < va + 4096 → zeroed m' r v) full m.
Proof.
  intros Hvm Hr Hva Hal Hinv. pose proof (vm_mem Hvm) as Hm. apply wp_bind.
  eapply wp_mono; [by apply alloc_page_wp| |by intros m' [-> H]].
  intros pa m1 (p & -> & Ha & ->). pose proof (heap_flags_entry p) as (Hv & Hu & Hrw).
  assert (0 ≤ HEAP_FLAGS < 1024) as Hf by (change HEAP_FLAGS with 22; lia).
  eapply wp_mono.
  { apply (map_fresh_wp m (grab p m) R K); try done; [by apply vm_grab|by apply (grab_tables m R K)|].
    intros q Hq. unfold page_bytes. cbn [grab ram]. by rewrite lookup_insert_ne. }
  2: { by intros ? [? _]. }
  intros _ m' (Hrz & Hz & Hnew). split; [done|]. intros v Hv'.
  unfold zeroed, umapped, ubyte, phys. rewrite Hnew by done. split; [done|].
  rewrite ppn_entry by done. apply byte_at_zeros; [|apply Z.mod_pos_bound; lia].
  rewrite Hz. unfold page_bytes. cbn [grab ram]. by rewrite lookup_insert_eq.
Qed.

(** Outside the resized range a program sees no difference. *)
Lemma page_in_range lo hi v : lo mod 4096 = 0 → hi mod 4096 = 0 → 0 ≤ v < 4294967296 →
  lo ≤ (vpn1 v * 1024 + vpn0 v) * 4096 < hi → lo ≤ v < hi.
Proof.
  intros Hlo Hhi Hv. rewrite vpn1_eq, vpn0_eq by done. intros H. Z.div_mod_to_equations. lia.
Qed.

Lemma resized_keeps R K m m' r lo hi r' fl v : vm_ok m R K → resized R K m m' r lo hi → r' ∈ R →
  lo mod 4096 = 0 → hi mod 4096 = 0 → 0 ≤ v < 4294967296 → r' ≠ r ∨ ¬ lo ≤ v < hi → umapped m r' fl v →
  umapped m' r' fl v ∧ ubyte m' r' v = ubyte m r' v.
Proof.
  intros Hvm [A1 A2 A3 A4 A5 A6] Hr' Hlo Hhi Hv Hout Hu.
  assert (¬ in_pages r lo hi r' (vpn1 v) (vpn0 v)) as Hn.
  { intros [-> Hin]. destruct Hout as [|Hout]; [done|]. apply Hout. by apply page_in_range. }
  assert (upte m' r' v = upte m r' v) as Eu by (apply A4; [done|apply vpn1_range|apply vpn0_range|done]).
  split; [unfold umapped; by rewrite Eu|]. unfold ubyte, phys. rewrite Eu. unfold byte_at. change PAGE_SIZE with 4096.
  pose proof (Z.mod_pos_bound v 4096 ltac:(lia)) as Hmod.
  destruct (split_addr (ppn (upte m r' v)) (v mod 4096) Hmod) as [-> ->].
  rewrite (A5 _ r' (vpn1 v) (vpn0 v)); [done| |done].
  split; [done|]. split; [apply vpn1_range|]. split; [apply vpn0_range|]. destruct Hu as (Hv1 & Hu1 & _).
  split; [|done]. apply (vo_user m R K Hvm); [done|apply vpn1_range|apply vpn0_range|done..].
Qed.

Section range.
Context {R K : gset Z} {r : Z} (Hr : r ∈ R).

Lemma grow_wp m lo hi : vm_ok m R K → lo mod 4096 = 0 → hi mod 4096 = 0 → 0 ≤ lo ≤ hi → hi ≤ DEVICES →
  (∀ v, lo ≤ v < hi → is_valid (upte m r v) = false) →
  wp (for_pages_in lo hi (λ va, page ← alloc_pages 1; map_page (r * 4096) va page HEAP_FLAGS))
  (λ _ m', resized R K m m' r lo hi ∧ ∀ v, lo ≤ v < hi → zeroed m' r v) full m.
Proof using Hr.
  intros Hvm Hlo Hhi Hle Htop Hfree. unfold DEVICES in *. unfold for_pages_in. change PAGE_SIZE with 4096.
  apply (wp_loop (λ k va m1, va mod 4096 = 0 ∧ lo ≤ va ≤ hi ∧ k = Z.to_nat ((hi - va) / 4096) ∧
    resized R K m m1 r lo va ∧ ∀ v, lo ≤ v < va → zeroed m1 r v)) with (k := Z.to_nat ((hi - lo) / 4096)); [| |lia].
  2: { split; [done|]. split; [lia|]. split; [done|]. split; [by apply resized_refl|]. lia. }
  intros k va m1 (Hva & Hin & -> & Hrz & Hz). destruct (Z.ltb_spec va hi) as [Hlt|Hge].
  2: { apply wp_ret. assert (va = hi) as -> by lia. done. }
  assert (va + 4096 ≤ hi) as Hnext by (Z.div_mod_to_equations; lia).
  apply wp_bind. eapply wp_conseq.
  { apply (grow_page_wp m1 R K); [apply Hrz|done|unfold DEVICES; lia|done|].
    rewrite <-(Hfree va) by lia. f_equal. apply Hrz; [done|apply vpn1_range|apply vpn0_range|].
    intros [_ H]. rewrite vpn_page in H by lia. lia. }
  intros _ m2 [Hrz2 Hz2]. wp_steps. exists (Z.to_nat ((hi - (va + 4096)) / 4096)). rewrite u32_small by lia.
  split; [Z.div_mod_to_equations; lia|]. split; [Z.div_mod_to_equations; lia|]. split; [lia|]. split; [done|].
  split; [by eapply resized_trans; [|exact Hrz|exact Hrz2]; lia|].
  intros v Hv. destruct (decide (v < va)) as [Hold|Hnew]; [|apply Hz2; lia].
  destruct (Hz v) as [Hu Hb]; [lia|].
  destruct (resized_keeps R K m1 m2 r va (va + 4096) r (Z.lor PAGE_R PAGE_W) v) as [Hu2 Hb2]; try done.
  - apply Hrz.
  - Z.div_mod_to_equations. lia.
  - lia.
  - right. lia.
  - split; [done|]. congruence.
Qed.

(** ** One page less *)

Lemma unmap_page_wp m va : vm_ok m R K → 0 ≤ va < DEVICES → va mod 4096 = 0 →
  is_valid (upte m r va) = true → has_flag (upte m r va) PAGE_U = true →
  wp (unmap_page (r * 4096) va)
  (λ _ m', resized R K m m' r va (va + 4096) ∧ (∀ v, va ≤ v < va + 4096 → is_valid (upte m' r v) = false) ∧
    ∀ p, alloced m' p ↔ alloced m p ∧ p ≠ ppn (upte m r va)) (λ _, False) m.
Proof using Hr.
  intros Hvm Hva Hal Hv Hu. unfold DEVICES in *. set (i := vpn1 va). set (j := vpn0 va).
  assert (idx i) as Hi by apply vpn1_range. assert (idx j) as Hj by apply vpn0_range.
  assert (user_page m i (pte m r i j)) as [Hul _] by (by apply (vo_user m R K Hvm)).
  assert (is_valid (l1 m r i) = true) as Hv1.
  { unfold upte, pte in Hv. fold i in Hv. by destruct (is_valid (l1 m r i)). }
  destruct (table_addr Hvm r i j Hr Hi Hv1 Hj) as [Et Ha].
  assert (word m (ppn (l1 m r i) * 4096 + 4 * j) = pte m r i j) as Ew by (unfold pte; by rewrite Hv1).
  set (p := ppn (pte m r i j)). assert (holds m R K (Leaf r i j) p) as Hh by done.
  pose proof (holds_managed Hvm _ _ Hh) as Hmg.
  unfold unmap_page. fold i j. wp_steps. apply load32_wp; [by apply (root_addr Hvm)|]. fold (l1 m r i). rewrite Hv1, Et.
  wp_steps. apply load32_wp; [done|]. rewrite Ew. unfold upte in Hv. fold i j in Hv. rewrite Hv.
  rewrite target_eq by (by apply (managed_small m); [apply Hvm|]). wp_steps. apply free_page_wp; [apply Hvm|done|].
  apply store32_wp; [done|].
  change (put_word (ppn (l1 m r i) * 4096 + 4 * j) 0 (release (ppn (pte m r i j)) m)) with (release p (put_pte r i j 0 m)).
  assert (0 ≤ 0 < 4294967296) as H0 by lia. assert (ppn 0 < 1048576) as H0' by (change (ppn 0) with 0; lia).
  pose proof (vm_clear_leaf Hvm Hr Hi Hj Hv1 H0 H0' p Hul eq_refl eq_refl) as Hvm1.
  assert (p ∉ K) as Hp by (intros Hk; by assert (Kept p = Leaf r i j) by by apply (vo_inj m R K Hvm _ _ p)).
  pose proof (vm_release _ R ({[p]} ∪ K) p Hvm1 ltac:(apply elem_of_union; left; by apply elem_of_singleton)) as Hvm2.
  rewrite take_back in Hvm2 by done. split; [|split].
  - split; [done|done|done|..].
    + intros r' i' j' Hr' Hi' Hj' Hn. change (pte (release p (put_pte r i j 0 m)) r' i' j') with (pte (put_pte r i j 0 m) r' i' j').
      rewrite (pte_put_pte Hvm Hr Hi Hj Hv1 H0) by done. rewrite decide_False; [done|].
      intros [= -> -> ->]. apply Hn. split; [done|]. unfold i, j. rewrite vpn_page by lia. lia.
    + intros q r' i' j' Hq _. apply page_bytes_put; [done|]. intros ->.
      by assert (Leaf r' i' j' = Table r i) by by apply (vo_inj m R K Hvm _ _ (ppn (l1 m r i))).
    + intros q Hq. apply page_bytes_put; [done|]. intros ->.
      by assert (Kept (ppn (l1 m r i)) = Table r i) by by apply (vo_inj m R K Hvm _ _ (ppn (l1 m r i))).
  - intros v Hv'. rewrite (upte_page _ r v va) by (Z.div_mod_to_equations; lia). unfold upte. fold i j.
    change (pte (release p (put_pte r i j 0 m)) r i j) with (pte (put_pte r i j 0 m) r i j).
    rewrite (pte_put_pte Hvm Hr Hi Hj Hv1 H0) by done. by rewrite decide_True.
  - intros q. rewrite alloced_release by (apply mem_ok_put, Hvm || done). change (upte m r va) with (pte m r i j). fold p.
    change (alloced (put_pte r i j 0 m) q) with (alloced m q). split; intros [? ?]; done.
Qed.

(** The pages that [lo, hi) of address space [r] maps. *)
Definition range_holds (m : memory) (lo hi p : Z) : Prop := ∃ v, lo ≤ v < hi ∧ p = ppn (upte m r v).

Lemma shrink_wp m lo hi : vm_ok m R K → lo mod 4096 = 0 → hi mod 4096 = 0 → 0 ≤ lo ≤ hi → hi ≤ DEVICES →
  (∀ v, lo ≤ v < hi → is_valid (upte m r v) = true ∧ has_flag (upte m r v) PAGE_U = true) →
  wp (for_pages_in lo hi (unmap_page (r * 4096)))
  (λ _ m', resized R K m m' r lo hi ∧ (∀ v, lo ≤ v < hi → is_valid (upte m' r v) = false) ∧
    ∀ p, alloced m' p ↔ alloced m p ∧ ¬ range_holds m lo hi p) (λ _, False) m.
Proof using Hr.
  intros Hvm Hlo Hhi Hle Htop Hmap. unfold DEVICES in *. unfold for_pages_in. change PAGE_SIZE with 4096.
  apply (wp_loop (λ k va m1, va mod 4096 = 0 ∧ lo ≤ va ≤ hi ∧ k = Z.to_nat ((hi - va) / 4096) ∧
    resized R K m m1 r lo va ∧ (∀ v, lo ≤ v < va → is_valid (upte m1 r v) = false) ∧
    ∀ p, alloced m1 p ↔ alloced m p ∧ ¬ range_holds m lo va p)) with (k := Z.to_nat ((hi - lo) / 4096)); [| |lia].
  2: { split; [done|]. split; [lia|]. split; [done|]. split; [by apply resized_refl|]. split; [lia|].
       intros p. split; [|by intros [? _]]. intros Hp. split; [done|]. intros (v & ? & _). lia. }
  intros k va m1 (Hva & Hin & -> & Hrz & Hz & Hal). destruct (Z.ltb_spec va hi) as [Hlt|Hge].
  2: { apply wp_ret. assert (va = hi) as -> by lia. done. }
  assert (va + 4096 ≤ hi) as Hnext by (Z.div_mod_to_equations; lia).
  assert (upte m1 r va = upte m r va) as Eu.
  { apply Hrz; [done|apply vpn1_range|apply vpn0_range|]. intros [_ H]. rewrite vpn_page in H by lia. lia. }
  destruct (Hmap va) as [Hv Hu]; [lia|].
  apply wp_bind. eapply wp_conseq.
  { apply (unmap_page_wp m1); [apply Hrz|unfold DEVICES; lia|done|by rewrite Eu|by rewrite Eu]. }
  intros _ m2 (Hrz2 & Hz2 & Hal2). wp_steps. exists (Z.to_nat ((hi - (va + 4096)) / 4096)). rewrite u32_small by lia.
  split; [Z.div_mod_to_equations; lia|]. split; [Z.div_mod_to_equations; lia|]. split; [lia|]. split; [done|].
  split; [by eapply resized_trans; [|exact Hrz|exact Hrz2]; lia|]. split.
  - intros v Hv'. destruct (decide (v < va)) as [Hold|Hnew]; [|apply Hz2; lia].
    rewrite <-(Hz v) by lia. f_equal. apply Hrz2; [done|apply vpn1_range|apply vpn0_range|].
    intros [_ H]. apply page_in_range in H; [lia|done|Z.div_mod_to_equations; lia|lia].
  - intros p. rewrite Hal2, Hal, Eu. split.
    + intros [[Ha Hn] Hp]. split; [done|]. intros (v & Hv' & ->).
      destruct (decide (v < va)); [apply Hn; exists v; split; [lia|done]|]. apply Hp. f_equal.
      apply upte_page. Z.div_mod_to_equations. lia.
    + intros [Ha Hn]. split; [split; [done|]|].
      * intros (v & Hv' & ->). apply Hn. exists v. split; [lia|done].
      * intros ->. apply Hn. exists va. split; [lia|done].
Qed.
End range.

(** ** [sys_sbrk] *)

Lemma align_up_eq x : 0 ≤ x ≤ DEVICES → align_up x PAGE_SIZE = (x + 4095) / 4096 * 4096.
Proof. intros Hx. unfold DEVICES in Hx. unfold align_up. change PAGE_SIZE with 4096. rewrite u32_small by lia. do 2 f_equal. lia. Qed.

Lemma align_up_range x : 0 ≤ x ≤ DEVICES →
  x ≤ align_up x PAGE_SIZE < x + 4096 ∧ align_up x PAGE_SIZE mod 4096 = 0 ∧ align_up x PAGE_SIZE ≤ DEVICES.
Proof.
  intros Hx. rewrite align_up_eq by done. rewrite Z.mod_mul by lia. unfold DEVICES in *.
  split; [|split; [done|]]; Z.div_mod_to_equations; lia.
Qed.

(** The heap of a process: mapped up to the break, free above it. *)
Record heap_ok (m : memory) (r : Z) (p : Process) : Prop := {
  ho_start : heap_start p mod 4096 = 0;
  ho_range : 0 ≤ heap_start p ≤ heap_end p;
  ho_top : heap_end p ≤ DEVICES;
  ho_mapped v : heap_start p ≤ v < align_up (heap_end p) PAGE_SIZE → umapped m r (Z.lor PAGE_R PAGE_W) v;
  ho_free v : align_up (heap_end p) PAGE_SIZE ≤ v < DEVICES → is_valid (upte m r v) = false
}.

(** What [sys_sbrk] promises when it moves the break of process [c] to [new]. *)
Record sbrk_done (k k' : kernel) (R K : gset Z) (r : Z) (c : nat) (p : Process) (new : Z) : Prop := {
  sb_proc : k' = set_procs (alter (set_heap_end new) c) (set_kmem (kmem k') k);
  sb_heap : heap_ok (kmem k') r (set_heap_end new p);
  sb_resized : resized R K (kmem k) (kmem k') r
    (Z.min (align_up new PAGE_SIZE) (align_up (heap_end p) PAGE_SIZE))
    (Z.max (align_up new PAGE_SIZE) (align_up (heap_end p) PAGE_SIZE));
  sb_zero v : align_up (heap_end p) PAGE_SIZE ≤ v < align_up new PAGE_SIZE → zeroed (kmem k') r v;
  sb_freed q : new < heap_end p → alloced (kmem k') q ↔ alloced (kmem k) q ∧
    ¬ range_holds (r := r) (kmem k) (align_up new PAGE_SIZE) (align_up (heap_end p) PAGE_SIZE) q
}.

Lemma align_up_mono x y : 0 ≤ x ≤ y → y ≤ DEVICES → align_up x PAGE_SIZE ≤ align_up y PAGE_SIZE.
Proof. intros Hx Hy. rewrite !align_up_eq by lia. Z.div_mod_to_equations. lia. Qed.

Lemma keep_proc k c p f : procs k !! c = Some p → f p = p → k = set_procs (alter f c) (set_kmem (kmem k) k).
Proof.
  intros Hp Hf. destruct k. unfold set_procs, set_kmem. cbn in *. f_equal. symmetry.
  apply list_eq. intros i. rewrite list_lookup_alter. destruct (decide (c = i)) as [<-|]; [|done].
  rewrite Hp. cbn. by rewrite Hf.
Qed.

Lemma set_heap_end_id p : set_heap_end (heap_end p) p = p.
Proof. by destruct p. Qed.

Section sbrk.
Context {k : kernel} {R K : gset Z} {r : Z} {c : nat} {p : Process}.
Context (Hvm : vm_ok (kmem k) R K) (Hr : r ∈ R).
Context (Hc : current_proc k = Some c) (Hp : procs k !! c = Some p) (Ht : page_table p = r * 4096).
Context (Hh : heap_ok (kmem k) r p).

(** Upper bound and lower bound of a move of the break. *)
Lemma grow_done new m' : heap_end p ≤ new ≤ DEVICES →
  resized R K (kmem k) m' r (align_up (heap_end p) PAGE_SIZE) (align_up new PAGE_SIZE) →
  (∀ v, align_up (heap_end p) PAGE_SIZE ≤ v < align_up new PAGE_SIZE → zeroed m' r v) →
  sbrk_done k (set_procs (alter (set_heap_end new) c) (set_kmem m' k)) R K r c p new.
Proof using Hvm Hr Hh.
  intros Hn Hrz Hz. destruct Hh as [H1 H2 H3 H4 H5].
  pose proof (align_up_mono (heap_end p) new ltac:(lia) ltac:(lia)) as Hmono.
  pose proof (align_up_range new ltac:(lia)) as (Ha1 & Ha2 & Ha3). pose proof (align_up_range (heap_end p) ltac:(lia)) as (Hb1 & Hb2 & Hb3).
  split; cbn [set_procs set_kmem kmem].
  - done.
  - split; cbn [set_heap_end heap_start heap_end]; [done|lia|lia|..].
    + intros v Hv. destruct (decide (v < align_up (heap_end p) PAGE_SIZE)); [|apply Hz; lia].
      unfold DEVICES in *. apply (resized_keeps R K (kmem k) m' r _ _ r _ v Hvm Hrz Hr); [done|done|lia|right; lia|apply H4; lia].
    + intros v Hv. rewrite <-(H5 v) by lia. f_equal. apply Hrz; [done|apply vpn1_range|apply vpn0_range|].
      unfold DEVICES in *. intros [_ H]. apply page_in_range in H; [lia|done|done|lia].
  - rewrite Z.min_r, Z.max_l by lia. done.
  - done.
  - lia.
Qed.

Lemma shrink_done new m' : heap_start p ≤ new < heap_end p →
  resized R K (kmem k) m' r (align_up new PAGE_SIZE) (align_up (heap_end p) PAGE_SIZE) →
  (∀ v, align_up new PAGE_SIZE ≤ v < align_up (heap_end p) PAGE_SIZE → is_valid (upte m' r v) = false) →
  (∀ q, alloced m' q ↔ alloced (kmem k) q ∧
    ¬ range_holds (r := r) (kmem k) (align_up new PAGE_SIZE) (align_up (heap_end p) PAGE_SIZE) q) →
  sbrk_done k (set_procs (alter (set_heap_end new) c) (set_kmem m' k)) R K r c p new.
Proof using Hvm Hr Hh.
  intros Hn Hrz Hz Hal. destruct Hh as [H1 H2 H3 H4 H5].
  pose proof (align_up_mono new (heap_end p) ltac:(lia) ltac:(lia)) as Hmono.
  pose proof (align_up_range new ltac:(lia)) as (Ha1 & Ha2 & Ha3). pose proof (align_up_range (heap_end p) ltac:(lia)) as (Hb1 & Hb2 & Hb3).
  split; cbn [set_procs set_kmem kmem].
  - done.
  - split; cbn [set_heap_end heap_start heap_end]; [done|lia|lia|..].
    + intros v Hv. unfold DEVICES in *.
      apply (resized_keeps R K (kmem k) m' r _ _ r _ v Hvm Hrz Hr); [done|done|lia|right; lia|apply H4; lia].
    + intros v Hv. destruct (decide (v < align_up (heap_end p) PAGE_SIZE)); [apply Hz; lia|].
      rewrite <-(H5 v) by lia. f_equal. apply Hrz; [done|apply vpn1_range|apply vpn0_range|].
      unfold DEVICES in *. intros [_ H]. apply page_in_range in H; [lia|done|done|lia].
  - rewrite Z.min_l, Z.max_r by lia. done.
  - lia.
  - intros q _. apply Hal.
Qed.

Lemma same_done : sbrk_done k k R K r c p (heap_end p).
Proof using Hvm Hp Hh.
  split; [by eapply keep_proc; [|apply set_heap_end_id]|by rewrite set_heap_end_id|by apply resized_refl|lia|lia].
Qed.

Lemma sbrk_wp inc : heap_end p + inc ≤ DEVICES → -2147483648 ≤ inc →
  wp (sys_sbrk inc)
  (λ v k', if heap_end p + inc <? heap_start p then v = -1 ∧ k' = k
           else v = heap_end p ∧ sbrk_done k k' R K r c p (heap_end p + inc))
  (λ k', full (kmem k')) k.
Proof using Hvm Hr Hc Hp Ht Hh.
  intros Htop Hlow. pose proof Hh as [H1 H2 H3 H4 H5]. unfold DEVICES in *.
  unfold sys_sbrk, current, get_current_process, proc. wp_steps.
  set (new := heap_end p + inc). destruct (Z.ltb_spec inc 0) as [Hneg|Hpos].
  - destruct (Z.ltb_spec new (heap_start p)) as [Hbelow|Habove].
    + assert ((u32 new <? heap_start p) || (u32 new >? heap_end p) = true) as ->; [|by apply wp_ret].
      destruct (decide (0 ≤ new)) as [Hnn|Hnn].
      * rewrite u32_small by lia. by zb.
      * assert (u32 new = new + 4294967296) as ->; [|zb; done].
        unfold u32. rewrite <-(Z.mod_add new 1), Z.mod_small by lia. lia.
    + rewrite (u32_small new) by lia. rewrite (proj2 (Z.ltb_ge new (heap_start p))), (gtb_false new (heap_end p)) by lia.
      cbn [orb]. rewrite Ht.
      pose proof (align_up_mono new (heap_end p) ltac:(lia) ltac:(unfold DEVICES; lia)) as Hmono.
      pose proof (align_up_range new ltac:(unfold DEVICES; lia)) as (Ha1 & Ha2 & Ha3).
      pose proof (align_up_range (heap_end p) ltac:(unfold DEVICES; lia)) as (Hb1 & Hb2 & Hb3). wp_steps.
      assert (wp (if align_up new PAGE_SIZE <? align_up (heap_end p) PAGE_SIZE
        then in_mem (for_pages_in (align_up new PAGE_SIZE) (align_up (heap_end p) PAGE_SIZE) (unmap_page (r * 4096)))
        else mret tt)
        (λ _ k', k' = set_kmem (kmem k') k ∧
        resized R K (kmem k) (kmem k') r (align_up new PAGE_SIZE) (align_up (heap_end p) PAGE_SIZE) ∧
        (∀ v, align_up new PAGE_SIZE ≤ v < align_up (heap_end p) PAGE_SIZE → is_valid (upte (kmem k') r v) = false) ∧
        (∀ q, alloced (kmem k') q ↔ alloced (kmem k) q ∧
        ¬ range_holds (r := r) (kmem k) (align_up new PAGE_SIZE) (align_up (heap_end p) PAGE_SIZE) q))
        (λ _, False) k) as Hloop.
      { destruct (Z.ltb_spec (align_up new PAGE_SIZE) (align_up (heap_end p) PAGE_SIZE)).
        - apply wp_in_mem. eapply wp_mono; [apply (shrink_wp (K := K) Hr (kmem k)); try done; try lia|intros [] m' Hm'; split; [done|exact Hm']|done].
          intros v Hv. destruct (H4 v) as (Hv1 & Hu1 & _); [lia|done].
        - apply wp_ret. split; [by destruct k|]. split; [by apply resized_refl|]. split; [lia|]. intros q.
          split; [|by intros [? _]]. intros Hq. split; [done|]. intros (v & ? & _). lia. }
      eapply wp_mono; [exact Hloop| |done]. intros _ k' (Ek & Hrz & Hz & Hal). unfold upd_proc. wp_steps.
      split; [done|]. rewrite Ek. apply shrink_done; [lia|done..].
  - destruct (Z.gtb_spec inc 0) as [Hgt|Hzero].
    2: { wp_steps. assert (inc = 0) as -> by lia. unfold new. rewrite Z.add_0_r.
         rewrite (proj2 (Z.ltb_ge (heap_end p) (heap_start p))) by lia. split; [done|apply same_done]. }
    rewrite (u32_small new) by lia. rewrite (proj2 (Z.ltb_ge new (heap_end p))), (geb_false new 2147483648) by lia. cbn [orb].
    rewrite (proj2 (Z.ltb_ge new (heap_start p))) by lia. rewrite Ht.
    pose proof (align_up_mono (heap_end p) new ltac:(lia) ltac:(unfold DEVICES; lia)) as Hmono.
    pose proof (align_up_range new ltac:(unfold DEVICES; lia)) as (Ha1 & Ha2 & Ha3).
    pose proof (align_up_range (heap_end p) ltac:(unfold DEVICES; lia)) as (Hb1 & Hb2 & Hb3). wp_steps.
    apply wp_in_mem. eapply wp_mono; [apply (grow_wp (K := K) Hr (kmem k)); try done; try lia| |done].
    + intros v Hv. apply H5. unfold DEVICES in *. lia.
    + intros _ m' [Hrz Hz]. unfold upd_proc. wp_steps. split; [done|]. apply grow_done; [unfold DEVICES; lia|done..].
Qed.
End sbrk.
