(* ===== verification/Layout.v ===== *)
(** * The address space of a new process

    What [create_process] builds: the kernel and its devices mapped where they
    are, out of reach of the program; the program at [USER_BASE], page by page;
    and the arguments at the end of its last page. *)

From S2P Require Import Prelude CLib FsTypes Block Inode FsFile KState FdTable Page UserMem Process Syscall.
From S2P Require Import PageMem PageTable UserSpec HeapSpec.

(** ** The kernel part

    [m'] is [m] with one more address space [r], whose entry for page [v] is
    [f v]; the other address spaces and their pages are as they were. *)
Record based (R K : gset Z) (m m' : memory) (r : Z) (f : Z → Z) : Prop := {
  ba_vm : vm_ok m' ({[r]} ∪ R) K;
  ba_ram : free_ram m' = free_ram m;
  ba_satp : satp m' = satp m;
  ba_pte r' i j : r' ∈ R → idx i → idx j → pte m' r' i j = pte m r' i j;
  ba_new i j : idx i → idx j → pte m' r i j = f (i * 1024 + j);
  ba_data q : data m R K q → page_bytes m' q = page_bytes m q
}.

Lemma based_ext R K m m' r f g :
  (∀ v, 0 ≤ v < 1048576 → f v = g v) → based R K m m' r f → based R K m m' r g.
Proof.
  intros E [B1 B2 B3 B4 B5 B6]. split; try done. intros i j Hi Hj. rewrite B5 by done. unfold idx in *. apply E. lia.
Qed.

(** The allocation of a page failed while address space [r] was added to [m]: the address
    spaces are those of [m] and perhaps [r], the kernel holds at most one page more, and
    the program in [r] at most the pages from [USER_BASE] up to [top]. *)
Record starved (R K : gset Z) (m m' : memory) (top : Z) : Prop := {
  sv_full : full m';
  sv_vm : ∃ r R' K', vm_ok m' R' K' ∧ R' ⊆ {[r]} ∪ R ∧ (base.size K' ≤ S (base.size K))%nat ∧
    ∀ r' i j, r' ∈ R' → idx i → idx j → user_leaf m' i (pte m' r' i j) →
      (r' ∈ R ∧ user_leaf m i (pte m r' i j)) ∨ (r' = r ∧ USER_BASE ≤ (i * 1024 + j) * 4096 < top)
}.

Definition no_leaves (m : memory) (f : Z → Z) : Prop := ∀ i j, idx i → idx j → ¬ user_leaf m i (f (i * 1024 + j)).

Lemma starved_stuck R K m m' top : vm_ok m R K → stuck m m' → starved R K m m' top.
Proof.
  intros Hvm [Hf ->]. split; [done|]. exists 0, R, K. split; [done|]. split; [set_solver|]. split; [lia|].
  intros r i j Hr _ _ Hu. by left.
Qed.

Lemma starved_based R K m m1 m' r f top : based R K m m1 r f → no_leaves m1 f → stuck m1 m' → starved R K m m' top.
Proof.
  intros HB Hn [Hf ->]. split; [done|]. exists r, ({[r]} ∪ R), K. split; [apply HB|]. split; [done|]. split; [lia|].
  intros r' i j [->%elem_of_singleton|Hr']%elem_of_union Hi Hj Hu.
  - rewrite (ba_new _ _ _ _ _ _ HB) in Hu by done. by destruct (Hn i j Hi Hj).
  - left. split; [done|]. rewrite (ba_pte _ _ _ _ _ _ HB) in Hu by done. by apply (user_leaf_same m m1); [apply HB|].
Qed.

Lemma starved_top R K m m' top top' : top ≤ top' → starved R K m m' top → starved R K m m' top'.
Proof.
  intros Ht [Hf (r & R' & K' & H1 & H2 & H3 & H4)]. split; [done|]. exists r, R', K'. do 3 (split; [done|]).
  intros r' i j Hr Hi Hj Hu. destruct (H4 r' i j Hr Hi Hj Hu) as [?|[? ?]]; [by left|right]. split; [done|lia].
Qed.

Lemma new_root_wp m R K : vm_ok m R K →
  wp (alloc_pages 1) (λ pa m', ∃ r, pa = r * 4096 ∧ (r ∉ R) ∧ based R K m m' r (λ _, 0)) (stuck m) m.
Proof.
  intros Hvm. eapply wp_mono; [apply alloc_page_wp, (vm_mem Hvm)| |by intros m' [-> H]].
  intros pa m1 (r & -> & Ha & ->). exists r. split; [done|].
  pose proof (vm_grab m R K r Hvm Ha) as Hvm1. pose proof (grab_tables m R K r Hvm Ha) as Hs.
  assert (r ∉ K) as Hk by (intros Hk; by apply (avail_fresh Hvm r (Kept r))).
  assert (r ∉ R) as Hr by (intros Hr; by apply (avail_fresh Hvm r (Root r))).
  assert (zero_page (grab r m) r) as Hz by (intros j Hj; by apply word_grab_in).
  split; [done|]. split; [|done|done|..].
  - rewrite <-(take_back K r Hk). apply vm_new_root; [done| |done]. apply elem_of_union. left. by apply elem_of_singleton.
  - intros r' i j Hr' Hi Hj. by apply Hs.
  - intros i j Hi Hj. by apply empty_pte.
  - intros q Hq. unfold page_bytes. cbn [grab ram]. rewrite lookup_insert_ne; [done|]. intros ->.
    destruct Hq as [Hq|(r' & i' & j' & Hq)]; [done|by apply (avail_fresh Hvm q (Leaf r' i' j'))].
Qed.

Section based.
Context {R K : gset Z} {m : memory} {r : Z} (Hr : r ∉ R).

Lemma based_map_wp m1 f va p fl : based R K m m1 r f → va mod 4096 = 0 → 0 ≤ va < 4294967296 →
  0 ≤ p < 1048576 → 0 ≤ fl < 1024 → has_flag fl PAGE_U = false →
  ¬ user_leaf m1 (vpn1 va) (entry p fl) → is_valid (f (va / 4096)) = false →
  wp (map_page (r * 4096) va (p * 4096) fl)
  (λ _ m', based R K m m' r (λ v, if decide (v = va / 4096) then entry p fl else f v)) (stuck m1) m1.
Proof using Hr.
  intros [B1 B2 B3 B4 B5 B6] Hal Hva Hp Hf HU Hnew Hold.
  assert (idx (vpn1 va)) as Hi by apply vpn1_range. assert (idx (vpn0 va)) as Hj by apply vpn0_range.
  assert (vpn1 va * 1024 + vpn0 va = va / 4096) as Ev by (rewrite vpn1_eq, vpn0_eq by done; Z.div_mod_to_equations; lia).
  eapply wp_conseq.
  { apply (map_page_wp m1 _ K r va p fl B1); [apply elem_of_union; left; by apply elem_of_singleton|done|done|done|..].
    - rewrite B5, Ev by done. intros (_ & H & _). congruence.
    - done.
    - congruence. }
  intros _ m' [Hvm' [C1 C2 C3 C4]]. rewrite decide_False in Hvm' by done.
  split; [done|congruence|congruence|..].
  - intros r' i j Hr' Hi' Hj'. rewrite C3; [|apply elem_of_union; by right|done..].
    rewrite decide_False; [by apply B4|]. intros [= -> _ _]. done.
  - intros i j Hi' Hj'. rewrite C3; [|apply elem_of_union; left; by apply elem_of_singleton|done..].
    destruct (decide (i * 1024 + j = va / 4096)) as [E|E].
    + rewrite decide_True; [done|]. unfold idx in *. f_equal; [f_equal|]; lia.
    + rewrite decide_False; [by apply B5|]. intros [= -> ->]. done.
  - intros q Hq. rewrite C4; [by apply B6|]. destruct Hq as [Hq|(r' & i & j & Hr' & Hi' & Hj' & Hu & ->)]; [by left|].
    right. exists r', i, j. split; [apply elem_of_union; by right|]. rewrite B4 by done. split; [done|]. split; [done|].
    split; [by apply (user_leaf_same m m1)|done].
Qed.
End based.

(** The entries of the kernel's part: identity, and not for user code. *)
Definition KERNEL_FLAGS : Z := Z.lor (Z.lor PAGE_R PAGE_W) PAGE_X.
Definition is_device (v : Z) : Prop :=
  v * 4096 = VIRTIO_BLK0_PADDR ∨ v * 4096 = VIRTIO_BLK1_PADDR ∨ v * 4096 = VIRTIO_INPUT_PADDR.
#[export] Instance is_device_dec v : Decision (is_device v).
Proof. unfold is_device. apply _. Defined.

Definition kernel_map (top v : Z) : Z := if decide (KERNEL_BASE ≤ v * 4096 < top) then entry v KERNEL_FLAGS else 0.
Definition kernel_layout (top v : Z) : Z :=
  if decide (is_device v) then entry v (Z.lor PAGE_R PAGE_W) else kernel_map top v.

Lemma no_leaves_kernel m top : no_leaves m (kernel_map top).
Proof.
  intros i j Hi Hj (Hlow & Hv & _). unfold kernel_map, KERNEL_BASE, idx in *. by rewrite decide_False in Hv by lia.
Qed.

Lemma map_kernel_wp m R K m1 r : r ∉ R → based R K m m1 r (λ _, 0) →
  wp (map_kernel (r * 4096)) (λ _ m', based R K m m' r (kernel_map (free_ram_end m))) (λ m', starved R K m m' USER_BASE) m1.
Proof.
  intros Hr HB. unfold map_kernel. wp_steps. unfold wp at 1, get. pose proof (vm_mem (ba_vm _ _ _ _ _ _ HB)) as Hm.
  assert (free_ram_end m1 = free_ram_end m) as Et by (unfold free_ram_end; by rewrite (ba_ram _ _ _ _ _ _ HB)).
  pose proof (mo_top m1 Hm) as Htop. pose proof (mo_base m1 Hm) as Hbase. pose proof (free_ram_eq m1 Hm) as Hfr.
  assert (free_ram_end m1 = 4096 * (first_page m1 + NUM_PAGES)) as Ea by (unfold free_ram_end, PAGE_SIZE; lia).
  rewrite <-Et. set (top := free_ram_end m1) in *. unfold NUM_PAGES, KERNEL_BASE in *. change PAGE_SIZE with 4096.
  apply (wp_loop (λ k pa m2, based R K m m2 r (kernel_map pa) ∧ pa mod 4096 = 0 ∧ 2149580800 ≤ pa ≤ top ∧
    k = Z.to_nat ((top - pa) / 4096))) with (k := Z.to_nat ((top - 2149580800) / 4096)); [| |lia].
  2: { assert (2149580800 ≤ top) by (unfold top, free_ram_end, NUM_PAGES, PAGE_SIZE; lia).
       split; [|split; [done|split; [lia|done]]]. apply (based_ext _ _ _ _ _ (λ _, 0)); [|done].
       intros v _. unfold kernel_map, KERNEL_BASE. rewrite decide_False; [done|lia]. }
  intros k pa m2 (HB2 & Hal & Hpa & ->). destruct (Z.ltb_spec pa top) as [Hlt|Hge].
  2: { wp_steps. by assert (pa = top) as -> by lia. }
  assert (pa = pa / 4096 * 4096) as Epa by (Z.div_mod_to_equations; lia).
  assert (pa + 4096 ≤ top) as Hnext by (rewrite Ea in *; Z.div_mod_to_equations; lia).
  apply wp_bind. eapply wp_mono; [| |intros m' Hm'; exact (starved_based _ _ _ _ _ _ _ _ HB2 (no_leaves_kernel m2 pa) Hm')].
  { pose proof (based_map_wp Hr m2 _ pa (pa / 4096) KERNEL_FLAGS HB2) as Hw. rewrite <-Epa in Hw.
    apply Hw; [done|lia|Z.div_mod_to_equations; lia|done|done| |].
    - intros [H _]. rewrite vpn1_eq in H by lia. Z.div_mod_to_equations. lia.
    - unfold kernel_map. rewrite decide_False; [done|lia]. }
  intros [] m3 HB3. wp_steps. exists (Z.to_nat ((top - (pa + 4096)) / 4096)). rewrite u32_small by lia.
  split; [Z.div_mod_to_equations; lia|]. split; [|split; [Z.div_mod_to_equations; lia|split; [lia|done]]].
  apply (based_ext _ _ _ _ _ _ _) with (2 := HB3). intros v _. unfold kernel_map, KERNEL_BASE. fold KERNEL_FLAGS.
  destruct (decide (v = pa / 4096)) as [->|Hne].
  - rewrite decide_True; [done|lia].
  - destruct (decide (2149580800 ≤ v * 4096 < pa)); [rewrite decide_True by lia; done|].
    rewrite decide_False; [done|]. lia.
Qed.

Lemma low_not_managed m p : mem_ok m → p * 4096 < KERNEL_BASE → ¬ managed m p.
Proof. intros Hm Hp Hg. pose proof (managed_range m p Hm Hg). lia. Qed.

Lemma map_mmio_wp m R K m1 r : r ∉ R → based R K m m1 r (kernel_map (free_ram_end m)) →
  wp (map_mmio (r * 4096)) (λ _ m', based R K m m' r (kernel_layout (free_ram_end m))) (λ m', starved R K m m' USER_BASE) m1.
Proof.
  intros Hr HB. set (f0 := kernel_map (free_ram_end m)) in *. unfold map_mmio.
  assert (∀ m2 f p, 65537 ≤ p < 65540 → based R K m m2 r f → (∀ v, f v = f0 v ∨ 65537 ≤ v < 65540 ∧ f v = entry v (Z.lor PAGE_R PAGE_W)) → f p = f0 p →
    wp (map_page (r * 4096) (p * 4096) (p * 4096) (Z.lor PAGE_R PAGE_W))
      (λ _ m', based R K m m' r (λ v, if decide (v = p) then entry p (Z.lor PAGE_R PAGE_W) else f v)) (λ m', starved R K m m' USER_BASE) m2) as Hstep.
  { intros m2 f p Hp HB2 Hshape Ef. pose proof (vm_mem (ba_vm _ _ _ _ _ _ HB2)) as Hm2.
    assert (no_leaves m2 f) as Hno.
    { intros i j Hi Hj Hu. destruct (Hshape (i * 1024 + j)) as [E|[Hd E]]; rewrite E in Hu; [by apply (no_leaves_kernel m2 (free_ram_end m) i j)|].
      destruct Hu as (_ & _ & Hg). rewrite ppn_entry in Hg by done. apply (low_not_managed m2 _ Hm2) in Hg; [done|unfold KERNEL_BASE; lia]. }
    eapply wp_mono; [| |intros m' Hm'; exact (starved_based _ _ _ _ _ _ _ _ HB2 Hno Hm')].
    { apply (based_map_wp Hr m2 f (p * 4096) p (Z.lor PAGE_R PAGE_W) HB2); [apply Z.mod_mul; lia|lia|lia|done|done| |].
      - intros (_ & _ & Hg). rewrite ppn_entry in Hg by done. apply (low_not_managed m2 p Hm2); [unfold KERNEL_BASE; lia|done].
      - rewrite Z.div_mul, Ef by lia. unfold f0, kernel_map, KERNEL_BASE. rewrite decide_False; [done|lia]. }
    intros [] m3 HB3. cbv beta in HB3. by rewrite Z.div_mul in HB3 by lia. }
  change VIRTIO_BLK0_PADDR with (65537 * 4096). change VIRTIO_BLK1_PADDR with (65538 * 4096).
  change VIRTIO_INPUT_PADDR with (65539 * 4096).
  apply wp_bind. eapply wp_conseq; [apply (Hstep m1 f0); [lia|done|by left|done]|]. intros [] m2 HB2. cbv beta in HB2.
  apply wp_bind. eapply wp_conseq; [eapply (Hstep m2); [lia|exact HB2|intros v; cbv beta; repeat case_decide; subst; first [by left|right; split; [lia|done]]|cbv beta; by rewrite decide_False by lia]|]. intros [] m3 HB3. cbv beta in HB3.
  eapply wp_conseq; [eapply (Hstep m3); [lia|exact HB3|intros v; cbv beta; repeat case_decide; subst; first [by left|right; split; [lia|done]]|cbv beta; by rewrite !decide_False by lia]|]. intros [] m4 HB4. cbv beta in HB4.
  apply (based_ext _ _ _ _ _ _ _) with (2 := HB4). intros v Hv. unfold kernel_layout, is_device.
  change VIRTIO_BLK0_PADDR with (65537 * 4096). change VIRTIO_BLK1_PADDR with (65538 * 4096).
  change VIRTIO_INPUT_PADDR with (65539 * 4096).
  destruct (decide (v = 65539)) as [->|H3]; [by rewrite decide_True by lia|].
  destruct (decide (v = 65538)) as [->|H2]; [by rewrite decide_True by lia|].
  destruct (decide (v = 65537)) as [->|H1]; [by rewrite decide_True by lia|].
  by rewrite decide_False by lia.
Qed.

Lemma no_leaves_layout m top : mem_ok m → no_leaves m (kernel_layout top).
Proof.
  intros Hm i j Hi Hj Hu. unfold kernel_layout in Hu. destruct (decide _) as [Hd|_]; [|by apply (no_leaves_kernel m top i j)].
  destruct Hu as (_ & _ & Hg). rewrite ppn_entry in Hg by done. apply (low_not_managed m _ Hm) in Hg; [done|].
  unfold is_device, VIRTIO_BLK0_PADDR, VIRTIO_BLK1_PADDR, VIRTIO_INPUT_PADDR, KERNEL_BASE in *. lia.
Qed.

(** Below the devices nothing is mapped yet, and no entry is for user code. *)
Lemma kernel_layout_low top v : v * 4096 < DEVICES → kernel_layout top v = 0.
Proof.
  unfold DEVICES, kernel_layout, is_device, kernel_map, KERNEL_BASE, VIRTIO_BLK0_PADDR, VIRTIO_BLK1_PADDR, VIRTIO_INPUT_PADDR.
  intros Hv. rewrite !decide_False by lia. done.
Qed.

(** ** The program *)

Lemma store_bytes_wp m p o l (Q : unit → memory → Prop) R : mem_ok m → managed m p → 0 ≤ o →
  o + Z.of_nat (length l) ≤ 4096 → l ≠ [] → Q tt (put_bytes (p * 4096 + o) l m) →
  wp (store_bytes (p * 4096 + o) l) Q R m.
Proof.
  intros Hm Hp Ho Hl Hne HQ. unfold store_bytes. rewrite Nat.add_comm. cbn [Nat.add].
  assert (0 < length l)%nat by (destruct l; [done|cbn; lia]).
  rewrite for_pages_step by done. change PAGE_SIZE with 4096. destruct (split_addr p o ltac:(lia)) as [_ ->]. cbv zeta.
  apply wp_bind. rewrite take_ge by lia. apply store_in_page_wp; [done..|]. rewrite drop_ge by lia. by apply wp_ret.
Qed.

Lemma user_flags_entry p : let e := entry p USER_FLAGS in
  is_valid e = true ∧ has_flag e PAGE_U = true ∧ Z.land e (Z.lor PAGE_R (Z.lor PAGE_W PAGE_X)) = Z.lor PAGE_R (Z.lor PAGE_W PAGE_X).
Proof.
  cbv zeta. split; [apply valid_entry|]. split.
  - change PAGE_U with (2 ^ 4). rewrite flag_entry by lia. done.
  - unfold entry. change (Z.lor PAGE_R (Z.lor PAGE_W PAGE_X)) with 14. rewrite !Z.land_lor_distr_l.
    assert (Z.land (p * 1024) 14 = 0) as ->; [|done].
    change 14 with (Z.land (Z.ones 10) 14). rewrite Z.land_assoc, Z.land_ones by lia. change (2 ^ 10) with 1024.
    by rewrite Z.mod_mul by lia.
Qed.

(** Byte [v] of the program's memory. *)
Definition holds_byte (m : memory) (r v b : Z) : Prop :=
  umapped m r (Z.lor PAGE_R (Z.lor PAGE_W PAGE_X)) v ∧ ubyte m r v = b.

Lemma fill_page_wp m R K r va p l : vm_ok m R K → r ∈ R → 0 ≤ va < DEVICES → va mod 4096 = 0 →
  is_valid (upte m r va) = false → avail m p → bytes l → l ≠ [] → Z.of_nat (length l) ≤ 4096 →
  wp (store_bytes (p * 4096) l;; map_page (r * 4096) va (p * 4096) USER_FLAGS)
    (λ _ m', resized R K m m' r va (va + 4096) ∧ upte m' r va = entry p USER_FLAGS ∧
       ∀ v, va ≤ v < va + 4096 → holds_byte m' r v (default 0 (l !! Z.to_nat (v - va))))
    (λ m', full m' ∧ vm_ok m' R ({[p]} ∪ K) ∧ same_tables R m m') (grab p m).
Proof.
  intros Hvm Hr Hva Hal Hinv Ha Hb Hne Hl. pose proof (vm_mem Hvm) as Hm.
  pose proof (vm_grab m R K p Hvm Ha) as Hvm1. pose proof (grab_tables m R K p Hvm Ha) as Hs.
  assert (data (grab p m) R ({[p]} ∪ K) p) as Hd by (left; apply elem_of_union; left; by apply elem_of_singleton).
  pose proof (put_bytes_tables _ R _ p 0 l Hvm1 Hd ltac:(lia)) as Hs2. rewrite Z.add_0_r in Hs2.
  pose proof (vm_put_bytes _ R _ p 0 l Hvm1 Hd ltac:(lia) ltac:(lia) Hb) as Hvm2. rewrite Z.add_0_r in Hvm2.
  pose proof (user_flags_entry p) as Hfl. apply wp_bind. rewrite <-(Z.add_0_r (p * 4096)) at 1.
  apply store_bytes_wp; [apply Hvm1|apply Ha|lia|lia|done|]. rewrite Z.add_0_r.
  assert (∀ q, page_bytes (put_bytes (p * 4096) l (grab p m)) q =
    if decide (q = p) then splice (zeros 4096) 0 l else page_bytes m q) as Hpb.
  { intros q. rewrite <-(Z.add_0_r (p * 4096)), page_bytes_put_bytes by lia. unfold page_bytes. cbn [grab ram].
    destruct (decide (q = p)) as [->|Hq]; [by rewrite lookup_insert_eq|by rewrite lookup_insert_ne]. }
  eapply wp_mono.
  { apply (map_fresh_wp m (put_bytes (p * 4096) l (grab p m)) R K r va p USER_FLAGS); try done.
    - by eapply same_tables_trans.
    - intros q Hq. rewrite Hpb. by rewrite decide_False. }
  2: { intros m' [Hf ->]. split; [exact Hf|]. split; [exact Hvm2|by eapply same_tables_trans]. }
  intros [] m' (Hrz & Hz & Hnew). split; [done|]. split; [apply Hnew; lia|]. intros v Hv'.
  unfold holds_byte, umapped, ubyte, phys. rewrite Hnew by done. split; [done|]. rewrite ppn_entry by done.
  unfold byte_at. change PAGE_SIZE with 4096. pose proof (Z.mod_pos_bound v 4096 ltac:(lia)) as Hmod.
  destruct (split_addr p (v mod 4096) Hmod) as [-> ->].
  assert (v mod 4096 = v - va) as -> by (Z.div_mod_to_equations; lia).
  rewrite Hz, Hpb, decide_True by done. unfold splice. rewrite take_0. cbn [app Nat.add].
  destruct (decide (v - va < Z.of_nat (length l))).
  - by rewrite lookup_app_l by lia.
  - rewrite lookup_app_r by lia. rewrite lookup_drop, (lookup_ge_None_2 l) by lia. unfold zeros.
    rewrite lookup_replicate_2 by lia. done.
Qed.

(** Where the program comes from: an image linked into the kernel, or a file. *)
Definition loads (k : kernel) (image : option (list Z)) (ip : ptr) (prog : list Z) : Prop :=
  match image, ip with
  | Some img, _ => take (length prog) img = prog
  | None, Some _ => ∀ off n (Q : Z * list Z → fs → Prop) (R : fs → Prop), 0 ≤ off → 0 < n → off + n ≤ Z.of_nat (length prog) →
      Q (n, sub prog (Z.to_nat off) (Z.to_nat n)) (kfs k) → wp (readi ip off n) Q R (kfs k)
  | None, None => prog = []
  end.

Lemma load_wp k R image ip prog off n p (Q : unit → kernel → Prop) : loads k image ip prog →
  0 ≤ off → 0 < n → off + n ≤ Z.of_nat (length prog) →
  wp (in_mem (store_bytes p (sub prog (Z.to_nat off) (Z.to_nat n)))) Q R k →
  wp (match image, ip with
      | Some img, _ => l ← expect (cread img off n); in_mem (store_bytes p l)
      | None, Some _ => r ← in_fs (readi ip off n); in_mem (store_bytes p (snd r))
      | None, None => mret tt
      end) Q R k.
Proof.
  intros HL Ho Hn Hlen HQ. destruct image as [img|]; cbn in HL.
  - assert (length prog ≤ length img)%nat as Hi by (rewrite <-HL, length_take; lia).
    apply wp_bind. eapply wp_expect; [apply cread_eq; lia|]. unfold sub. rewrite <-HL in HQ. unfold sub in HQ.
    rewrite skipn_firstn_comm, take_take in HQ.
    by replace (Z.to_nat n `min` (length prog - Z.to_nat off))%nat with (Z.to_nat n) in HQ by lia.
  - destruct ip as [ip|]; [|subst prog; cbn in Hlen; lia].
    apply wp_bind, wp_in_fs, HL; [done..|]. assert (set_kfs (kfs k) k = k) as -> by (by destruct k). done.
Qed.

(** The pages up to [off] are loaded. *)
Record loaded (R K : gset Z) (m m' : memory) (r : Z) (prog : list Z) (off : Z) : Prop := {
  ld_resized : resized R K m m' r USER_BASE (USER_BASE + off);
  ld_bytes v : USER_BASE ≤ v < USER_BASE + off → holds_byte m' r v (default 0 (prog !! Z.to_nat (v - USER_BASE)))
}.

Lemma loaded_next R K m m1 m2 r prog off (l : list Z) : vm_ok m R K → r ∈ R → off mod 4096 = 0 → 0 ≤ off → USER_BASE + off + 4096 ≤ DEVICES →
  loaded R K m m1 r prog off → resized R K m1 m2 r (USER_BASE + off) (USER_BASE + off + 4096) →
  (∀ x, 0 ≤ x < 4096 → default 0 (l !! Z.to_nat x) = default 0 (prog !! Z.to_nat (off + x))) →
  (∀ v, USER_BASE + off ≤ v < USER_BASE + off + 4096 → holds_byte m2 r v (default 0 (l !! Z.to_nat (v - (USER_BASE + off))))) →
  loaded R K m m2 r prog (off + 4096).
Proof.
  intros Hvm Hr Hal Hoff Htop [Hrz Hb] Hrz2 Hl Hb2. unfold USER_BASE, DEVICES in *. split.
  - rewrite Z.add_assoc. eapply resized_trans; [|exact Hrz|exact Hrz2]. unfold USER_BASE. lia.
  - unfold USER_BASE. intros v Hv. destruct (decide (v < 16777216 + off)) as [Hlt|Hge].
    + destruct (Hb v ltac:(lia)) as [Hu Hbv].
      destruct (resized_keeps R K m1 m2 r (16777216 + off) (16777216 + off + 4096) r (Z.lor PAGE_R (Z.lor PAGE_W PAGE_X)) v) as [Hu2 Hb3]; try done.
      * apply Hrz.
      * Z.div_mod_to_equations. lia.
      * Z.div_mod_to_equations. lia.
      * lia.
      * right. lia.
      * split; [done|]. congruence.
    + destruct (Hb2 v ltac:(lia)) as [Hu Hbv]. split; [done|]. rewrite Hbv, Hl by lia. do 3 f_equal. lia.
Qed.

Lemma lookup_sub_default prog off n x : 0 ≤ off → 0 < n → off + n ≤ Z.of_nat (length prog) →
  n = 4096 ∨ off + n = Z.of_nat (length prog) → 0 ≤ x < 4096 →
  default 0 (sub prog (Z.to_nat off) (Z.to_nat n) !! Z.to_nat x) = default 0 (prog !! Z.to_nat (off + x)).
Proof.
  intros Ho Hn Hl Hc Hx. unfold sub. destruct (decide (x < n)).
  - rewrite lookup_take_lt, lookup_drop by lia. do 2 f_equal. lia.
  - rewrite (lookup_ge_None_2 (take _ _)) by (rewrite length_take, length_drop; lia).
    by rewrite lookup_ge_None_2 by lia.
Qed.

(** No page for the program in [r], of which at most the part below [top] is there. *)
Definition cut_short (R K : gset Z) (m m' : memory) (r top : Z) : Prop := full m' ∧ ∃ K', vm_ok m' R K' ∧
  (base.size K' ≤ S (base.size K))%nat ∧ ∀ r' i j, r' ∈ R → idx i → idx j → user_leaf m' i (pte m' r' i j) →
    user_leaf m i (pte m r' i j) ∨ (r' = r ∧ USER_BASE ≤ (i * 1024 + j) * 4096 < top).

Lemma cut_short_resized R K m m1 m' r hi top K' : resized R K m m1 r USER_BASE hi → hi ≤ top →
  full m' → vm_ok m' R K' → (base.size K' ≤ S (base.size K))%nat → same_tables R m1 m' → cut_short R K m m' r top.
Proof.
  intros Hrz Ht Hf Hvm Hk Hs. split; [done|]. exists K'. split; [done|]. split; [done|]. intros r' i j Hr Hi Hj Hu.
  destruct (decide (in_pages r USER_BASE hi r' i j)) as [[-> Hin]|Hout]; [right; split; [done|lia]|left].
  rewrite (st_pte _ _ _ Hs) in Hu by done. rewrite (rz_pte _ _ _ _ _ _ _ Hrz) in Hu by done.
  apply (user_leaf_same m m'); [rewrite (st_ram _ _ _ Hs); apply Hrz|done].
Qed.

Lemma size_one_more (p : Z) (K : gset Z) : (base.size ({[p]} ∪ K) ≤ S (base.size K))%nat.
Proof. rewrite size_union_alt, size_singleton. pose proof (subseteq_size (K ∖ {[p]}) K ltac:(by intros x [? _]%elem_of_difference)). lia. Qed.

(** A page for the program is missing when every page is in use. *)
Lemma starved_cut R K m0 m m' r top : r ∉ R → based R K m0 m r (kernel_layout (free_ram_end m0)) →
  cut_short ({[r]} ∪ R) K m m' r top → starved R K m0 m' top.
Proof.
  intros Hr HB [Hf (K' & Hvm & Hk & Hl)]. split; [done|]. exists r, ({[r]} ∪ R), K'. do 3 (split; [done|]).
  intros r' i j Hr' Hi Hj Hu. destruct (Hl r' i j Hr' Hi Hj Hu) as [Hu'|?]; [|by right].
  apply elem_of_union in Hr' as [->%elem_of_singleton|Hr'].
  - rewrite (ba_new _ _ _ _ _ _ HB) in Hu' by done. destruct (no_leaves_layout m (free_ram_end m0) (vm_mem (ba_vm _ _ _ _ _ _ HB)) i j Hi Hj Hu').
  - left. split; [done|]. rewrite (ba_pte _ _ _ _ _ _ HB) in Hu' by done. by apply (user_leaf_same m0 m); [apply HB|].
Qed.

Lemma map_program_wp k R K r image ip prog : let m := kmem k in let size := Z.of_nat (length prog) in
  vm_ok m R K → r ∈ R → bytes prog → USER_BASE + size + 4096 ≤ DEVICES → loads k image ip prog →
  (∀ v, USER_BASE ≤ v < DEVICES → is_valid (upte m r v) = false) →
  wp (map_program (r * 4096) image ip size)
    (λ last k', k' = set_kmem (kmem k') k ∧ loaded R K m (kmem k') r prog (align_up size PAGE_SIZE) ∧
       last = if size =? 0 then 0 else ppn (upte (kmem k') r (USER_BASE + size - 1)) * 4096)
    (λ k', cut_short R K m (kmem k') r (USER_BASE + size)) k.
Proof.
  intros m size Hvm Hr Hb Htop HL Hfree. unfold USER_BASE, DEVICES in *. unfold map_program. change PAGE_SIZE with 4096.
  assert (0 ≤ size) as Hs0 by lia.
  assert (align_up size 4096 = (size + 4095) / 4096 * 4096) as Eup.
  { change 4096 with PAGE_SIZE at 1. rewrite align_up_eq by (unfold DEVICES; lia). done. }
  apply (wp_loop (λ n x k1, ∃ off last, x = (off, last) ∧ k1 = set_kmem (kmem k1) k ∧ off mod 4096 = 0 ∧
    0 ≤ off ≤ align_up size 4096 ∧ n = Z.to_nat ((align_up size 4096 - off) / 4096) ∧ loaded R K m (kmem k1) r prog off ∧
    last = if (size =? 0) || (off <? size) then 0 else ppn (upte (kmem k1) r (16777216 + size - 1)) * 4096))
    with (k := Z.to_nat (align_up size 4096 / 4096)).
  3: { rewrite Eup, Z.div_mul by lia. Z.div_mod_to_equations. lia. }
  2: { exists 0, 0. rewrite Eup, Z.div_mul by lia. split; [done|]. split; [by destruct k|]. split; [done|]. split; [Z.div_mod_to_equations; lia|].
       split; [by rewrite Z.sub_0_r, Z.div_mul by lia|]. split; [split; [by apply resized_refl|unfold USER_BASE; lia]|].
       destruct (Z.eqb_spec size 0); [done|]. cbn [orb]. by destruct (Z.ltb_spec 0 size); [|lia]. }
  intros n x k1 (off & last & -> & Ek & Hal & Hoff & -> & Hld & Hlast). rewrite Eup in *.
  destruct (Z.ltb_spec off size) as [Hlt|Hge].
  2: { wp_steps. assert (off = (size + 4095) / 4096 * 4096) as -> by (Z.div_mod_to_equations; lia).
       split; [done|]. split; [done|]. rewrite Hlast. by rewrite orb_false_r. }
  pose proof Hld as [Hrz Hbs]. apply wp_bind, wp_in_mem.
  eapply wp_mono; [apply alloc_page_wp, (vm_mem (rz_vm _ _ _ _ _ _ _ Hrz))| |].
  2: { intros m' [-> H]. eapply (cut_short_resized _ _ _ _ _ _ _ _ K Hrz); [unfold USER_BASE; lia|done|apply Hrz|lia|done]. }
  intros pa m1 (p & -> & Ha & ->).
  set (n := if 4096 <=? size - off then 4096 else size - off).
  assert (0 < n ≤ 4096 ∧ off + n ≤ size ∧ (n = 4096 ∨ off + n = size)) as (Hn & Hn2 & Hn3)
    by (unfold n; destruct (Z.leb_spec 4096 (size - off)); lia).
  set (l := sub prog (Z.to_nat off) (Z.to_nat n)).
  assert (Z.of_nat (length l) = n) as Hl by (unfold l; rewrite length_sub; lia).
  assert (is_valid (upte (kmem k1) r (16777216 + off)) = false) as Hinv.
  { rewrite <-(Hfree (16777216 + off)) by lia. f_equal. apply Hrz; [done|apply vpn1_range|apply vpn0_range|].
    intros [_ H]. rewrite vpn_page in H by (lia || (Z.div_mod_to_equations; lia)). unfold USER_BASE in H. lia. }
  apply wp_bind. apply (load_wp _ _ image ip prog off n); [by rewrite Ek in *|lia|lia|lia|].
  assert (wp (store_bytes (p * 4096) l;; map_page (r * 4096) (16777216 + off) (p * 4096) USER_FLAGS)
    (λ _ m', resized R K (kmem k1) m' r (16777216 + off) (16777216 + off + 4096) ∧
       upte m' r (16777216 + off) = entry p USER_FLAGS ∧ ∀ v, 16777216 + off ≤ v < 16777216 + off + 4096 →
         holds_byte m' r v (default 0 (l !! Z.to_nat (v - (16777216 + off)))))
    (λ m', cut_short R K m m' r (16777216 + size)) (grab p (kmem k1))) as Hw.
  { apply (wp_weaken _ _ _ (λ m', full m' ∧ vm_ok m' R ({[p]} ∪ K) ∧ same_tables R (kmem k1) m')).
    { intros m' (Hf & Hvm' & Hs'). eapply (cut_short_resized _ _ _ _ _ _ _ _ _ Hrz); [unfold USER_BASE; lia|done|exact Hvm'|apply size_one_more|done]. }
    apply fill_page_wp; [apply Hrz|done|unfold DEVICES; lia|Z.div_mod_to_equations; lia|done|done| | |lia].
    - apply bytes_sub. done.
    - intros E. rewrite E in Hl. cbn in Hl. lia. }
  apply wp_bind_inv in Hw. apply wp_in_mem. eapply wp_mono; [exact Hw| |done].
  intros [] m2 Hw2. apply wp_bind, wp_in_mem. rewrite (u32_small (USER_BASE + off)) by (unfold USER_BASE; lia).
  eapply wp_mono; [exact Hw2| |done]. intros [] m3 (Hrz3 & Hp3 & Hb3). wp_steps. rewrite (u32_small (off + 4096)) by lia.
  exists (Z.to_nat (((size + 4095) / 4096 * 4096 - (off + 4096)) / 4096)).
  split; [Z.div_mod_to_equations; lia|]. eexists _, _. split; [done|]. cbn [set_kmem kmem].
  assert (off + 4096 ≤ (size + 4095) / 4096 * 4096) as Hnext by (Z.div_mod_to_equations; lia).
  split; [by rewrite Ek|]. split; [Z.div_mod_to_equations; lia|]. split; [lia|]. split; [done|].
  assert (loaded R K m m3 r prog (off + 4096)) as Hld3.
  { apply (loaded_next R K m (kmem k1) m3 r prog off l); unfold USER_BASE, DEVICES; try done; [lia|lia|].
    intros x Hx. apply lookup_sub_default; lia. }
  split; [done|]. destruct (Z.eqb_spec size 0); [lia|]. cbn [orb].
  destruct (Z.geb_spec (off + 4096) size) as [Hend|Hend]; destruct (Z.ltb_spec (off + 4096) size); try lia.
  - rewrite (upte_page m3 r (16777216 + size - 1) (16777216 + off)) by (Z.div_mod_to_equations; lia).
    rewrite Hp3. by rewrite ppn_entry.
  - rewrite Hlast. destruct (Z.eqb_spec size 0); [done|]. cbn [orb]. by destruct (Z.ltb_spec off size); [|lia].
Qed.
