(* ===== verification/Args.v ===== *)
(** * The arguments of a new program

    [push_args] copies the argument strings to the end of the last page of the
    program and the array of pointers below them; seen from the program,
    [argv[j]] is the address of argument [j] and [argv[argc]] is NULL. *)

From S2P Require Import Prelude CLib FsTypes Block Inode FsFile KState FdTable Page UserMem Process Syscall.
From S2P Require Import PageMem PageTable UserSpec HeapSpec Layout.

(** ** Adjacent stores in one page *)

Lemma splice_below x o l l' : (o + length l + length l' ≤ length x)%nat →
  splice (splice x (o + length l) l') o l = splice x o (l ++ l').
Proof.
  intros H. unfold splice. rewrite length_app.
  rewrite take_app_le by (rewrite length_take; lia). rewrite take_take, Nat.min_l by lia.
  rewrite drop_app_length' by (rewrite length_take; lia). rewrite <-app_assoc. do 4 f_equal. lia.
Qed.

Lemma splice_above x o l l' : (o + length l + length l' ≤ length x)%nat →
  splice (splice x o l) (o + length l) l' = splice x o (l ++ l').
Proof.
  intros H. unfold splice. rewrite length_app. rewrite (app_assoc (take o x)).
  rewrite take_app_length' by (rewrite length_app, length_take; lia).
  rewrite drop_app_ge by (rewrite length_app, length_take; lia). rewrite drop_drop, length_app, length_take.
  rewrite <-!app_assoc. do 4 f_equal. lia.
Qed.

Lemma put_bytes_twice p o o' l l' m : 0 ≤ o < 4096 → 0 ≤ o' < 4096 →
  put_bytes (p * 4096 + o') l' (put_bytes (p * 4096 + o) l m) =
  set_ram (<[p := splice (splice (page_bytes m p) (Z.to_nat o) l) (Z.to_nat o') l']>) m.
Proof.
  intros Ho Ho'. unfold put_bytes, page_bytes. change PAGE_SIZE with 4096.
  destruct (split_addr p o Ho) as [-> ->]. destruct (split_addr p o' Ho') as [-> ->].
  unfold set_ram. cbn [ram page_allocated satp free_ram]. rewrite lookup_insert_eq. by rewrite insert_insert_eq.
Qed.

Lemma put_bytes_eq p o l m : 0 ≤ o < 4096 →
  put_bytes (p * 4096 + o) l m = set_ram (<[p := splice (page_bytes m p) (Z.to_nat o) l]>) m.
Proof.
  intros Ho. unfold put_bytes, page_bytes. change PAGE_SIZE with 4096. by destruct (split_addr p o Ho) as [-> ->].
Qed.

Lemma put_word_bytes p o v m : 0 ≤ o < 4096 → o mod 4 = 0 → put_word (p * 4096 + o) v m = put_bytes (p * 4096 + o) (le_bytes 4 v) m.
Proof.
  intros Ho Hm. unfold put_word, put_bytes, set_word. change PAGE_SIZE with 4096.
  destruct (split_addr p o Ho) as [_ ->].
  replace (4 * Z.to_nat (o / 4))%nat with (Z.to_nat o); [done|]. Z.div_mod_to_equations. lia.
Qed.

(** [l] stored at offset [o] of page [p]; nothing where [l] is empty. *)
Definition laid (p o : Z) (l : list Z) (m : memory) : memory :=
  match l with [] => m | _ => put_bytes (p * 4096 + o) l m end.

Lemma laid_ne p o l m : l ≠ [] → laid p o l m = put_bytes (p * 4096 + o) l m.
Proof. by destruct l. Qed.

Section page.
Context {m : memory} {p : Z} (Hm : mem_ok m) (Hp : managed m p).

Lemma page_length : length (page_bytes m p) = 4096%nat.
Proof using Hm. by apply page_bytes_ok. Qed.

Lemma laid_below o l l' : 0 ≤ o → l ≠ [] → o + Z.of_nat (length l) + Z.of_nat (length l') ≤ 4096 →
  put_bytes (p * 4096 + o) l (laid p (o + Z.of_nat (length l)) l' m) = laid p o (l ++ l') m.
Proof using Hm.
  intros Ho Hne Hl. assert (0 < length l)%nat by (destruct l; [done|cbn; lia]).
  rewrite (laid_ne _ _ (l ++ l')) by (intros [? _]%app_nil; done). destruct l' as [|b l']; [by rewrite app_nil_r|].
  assert (0 < length (b :: l'))%nat by (cbn; lia). unfold laid. rewrite put_bytes_twice, put_bytes_eq by lia.
  rewrite <-splice_below by (rewrite page_length; lia).
  by replace (Z.to_nat (o + Z.of_nat (length l))) with (Z.to_nat o + length l)%nat by lia.
Qed.

Lemma laid_above o l l' : 0 ≤ o → l ≠ [] → l' ≠ [] → o + Z.of_nat (length l) + Z.of_nat (length l') ≤ 4096 →
  put_bytes (p * 4096 + (o + Z.of_nat (length l))) l' (put_bytes (p * 4096 + o) l m) = put_bytes (p * 4096 + o) (l ++ l') m.
Proof using Hm.
  intros Ho Hne Hne' Hl. assert (0 < length l)%nat by (destruct l; [done|cbn; lia]).
  assert (0 < length l')%nat by (destruct l'; [done|cbn; lia]). rewrite put_bytes_twice, put_bytes_eq by lia.
  rewrite <-splice_above by (rewrite page_length; lia).
  by replace (Z.to_nat (o + Z.of_nat (length l))) with (Z.to_nat o + length l)%nat by lia.
Qed.
End page.

Lemma mem_ok_laid m p o l : mem_ok m → 0 ≤ o → o + Z.of_nat (length l) ≤ 4096 → bytes l → mem_ok (laid p o l m).
Proof.
  intros Hm Ho Hl Hb. destruct l as [|b l]; [done|]. cbn [length] in Hl. apply mem_ok_put_bytes; [done|lia|done|done].
Qed.

Lemma managed_laid m p q o l : managed (laid p o l m) q ↔ managed m q.
Proof. by destruct l. Qed.

(** ** The strings *)

Definition cstring (a : list Z) : Prop := ∃ w, a = w ++ [0] ∧ nonzero w.

Lemma cstring_facts a : cstring a → a ≠ [] ∧ bytes a ∧ strlen a = Some (length a - 1)%nat ∧ (0 < length a)%nat.
Proof.
  intros (w & -> & Hw). split; [by intros [_ ?]%app_nil|]. split; [|split].
  - apply Forall_app. split; [|by repeat constructor]. eapply Forall_impl; [exact Hw|]. cbn. unfold is_byte. lia.
  - rewrite strlen_spec by done. rewrite length_app. cbn. f_equal. lia.
  - rewrite length_app. cbn. lia.
Qed.

(** The bytes of the arguments from number [j] on, and where they start below [top]. *)
Definition tail_bytes (argv : list (list Z)) (j : nat) : list Z := concat (drop j argv).
Definition arg_va (top : Z) (argv : list (list Z)) (j : nat) : Z := top - Z.of_nat (length (tail_bytes argv j)).

Lemma tail_bytes_step argv j a : argv !! j = Some a → tail_bytes argv j = a ++ tail_bytes argv (S j).
Proof. intros H. unfold tail_bytes. by rewrite (drop_S argv a j H). Qed.

Lemma tail_bytes_le argv j : (length (tail_bytes argv j) ≤ length (concat argv))%nat.
Proof. rewrite <-(take_drop j argv) at 2. rewrite concat_app, length_app. unfold tail_bytes. lia. Qed.

Lemma bytes_tail argv j : Forall cstring argv → bytes (tail_bytes argv j).
Proof.
  intros H. unfold tail_bytes. apply Forall_concat, Forall_drop. eapply Forall_impl; [exact H|]. intros a Ha. by apply cstring_facts.
Qed.

Section push.
Context {m : memory} {p size off : Z} {argv : list (list Z)} (Hm : mem_ok m) (Hp : managed m p).
Context (Hoff : 0 < off ≤ 4096) (Hargs : Forall cstring argv) (Hargc : (length argv ≤ 16)%nat).
Context (Hsize : 0 ≤ size ∧ USER_BASE + size < 2147483648).
Context (Hfit : Z.of_nat (length (concat argv)) ≤ off).

Lemma push_strings_wp j vas : (j ≤ length argv)%nat → length vas = 16%nat →
  (∀ i, (j ≤ i < length argv)%nat → vas !! i = Some (arg_va (USER_BASE + size) argv i)) →
  wp (push_strings (p * 4096 + off) size argv j (p * 4096 + arg_va off argv j) vas)
  (λ x m', x.1 = p * 4096 + arg_va off argv 0 ∧ m' = laid p (arg_va off argv 0) (tail_bytes argv 0) m ∧
    length x.2 = 16%nat ∧ ∀ i, (i < length argv)%nat → x.2 !! i = Some (arg_va (USER_BASE + size) argv i))
  (λ _, False) (laid p (arg_va off argv j) (tail_bytes argv j) m).
Proof using Hm Hp Hoff Hargs Hargc Hsize Hfit.
  revert vas. induction j as [|j IH]; intros vas Hj Hlen Hvas; cbn [push_strings].
  - apply wp_ret. split; [done|]. split; [done|]. split; [done|]. intros i Hi. apply Hvas. lia.
  - destruct (lookup_lt_is_Some_2 argv j Hj) as [a Ha].
    destruct (cstring_facts a (proj1 (Forall_lookup _ _) Hargs j a Ha)) as (Hne & Hb & Hsl & Hla).
    pose proof (tail_bytes_step argv j a Ha) as Et. pose proof (tail_bytes_le argv j) as Hle.
    pose proof (managed_range m p Hm Hp) as [Hlo Hhi]. unfold KERNEL_BASE in Hlo.
    assert (length (tail_bytes argv j) = length a + length (tail_bytes argv (S j)))%nat as El by (by rewrite Et, length_app).
    assert (arg_va off argv (S j) = arg_va off argv j + Z.of_nat (length a)) as Ea by (unfold arg_va; lia).
    assert (0 ≤ arg_va off argv j ∧ arg_va off argv j + Z.of_nat (length a) + Z.of_nat (length (tail_bytes argv (S j))) ≤ 4096)
      as [Ho1 Ho2] by (unfold arg_va; lia).
    apply wp_bind. eapply wp_expect; [exact Ha|]. apply wp_bind. eapply wp_expect; [exact Hsl|]. cbv zeta.
    replace (Z.of_nat (length a - 1) + 1) with (Z.of_nat (length a)) by lia.
    replace (p * 4096 + arg_va off argv (S j) - Z.of_nat (length a)) with (p * 4096 + arg_va off argv j) by lia.
    rewrite u32_small by lia. rewrite Nat2Z.id, take_ge by lia. apply wp_bind.
    apply store_bytes_wp; [apply mem_ok_laid; [done|lia|lia|by apply bytes_tail]|by apply managed_laid|done|lia|done|].
    rewrite Ea, laid_below, <-Et by done. apply wp_bind.
    destruct (lookup_lt_is_Some_2 vas j) as [v Hv]; [lia|]. eapply wp_expect; [exact Hv|].
    apply IH; [lia|by rewrite length_insert|]. intros i Hi. destruct (decide (i = j)) as [->|Hij].
    + rewrite list_lookup_insert_eq by lia. f_equal. rewrite (u32_small (p * 4096 + off - _)) by (unfold arg_va; lia).
      unfold USER_BASE in *. rewrite u32_small by (unfold arg_va; lia). unfold arg_va. lia.
    + rewrite list_lookup_insert_ne by lia. apply Hvas. lia.
Qed.
End push.

Lemma push_pointers_wp m p o vas (Q : unit → memory → Prop) R : mem_ok m → managed m p → 0 ≤ o → o mod 4 = 0 →
  o + 4 * (Z.of_nat (length vas) + 1) ≤ 4096 → Forall (λ v, 0 ≤ v < 4294967296) vas →
  Q tt (put_bytes (p * 4096 + o) (unwords (vas ++ [0])) m) → wp (push_pointers (p * 4096 + o) vas) Q R m.
Proof.
  intros Hm Hp Ho Hal Hl Hv HQ. revert m o Hm Hp Ho Hal Hl HQ. induction Hv as [|v vas Hv _ IH]; intros m o Hm Hp Ho Hal Hl HQ; cbn [push_pointers].
  all: pose proof (managed_range m p Hm Hp) as [Hlo Hhi]; unfold KERNEL_BASE in Hlo.
  all: assert (word_addr m (p * 4096 + o)) as Hw by
    (replace o with (4 * (o / 4)) by (Z.div_mod_to_equations; lia); apply word_addr_in; [done|done|cbn in Hl; Z.div_mod_to_equations; lia]).
  - apply store32_wp; [done|]. cbn in Hl. by rewrite put_word_bytes by (lia || done).
  - cbn [length] in Hl. apply wp_bind, store32_wp; [done|]. rewrite put_word_bytes by (lia || done).
    rewrite u32_small by lia. rewrite <-Z.add_assoc. apply IH; [|done|lia|Z.div_mod_to_equations; lia|lia|].
    + apply mem_ok_put_bytes; [done|lia|rewrite length_le_bytes; lia|apply bytes_le_bytes].
    + change 4 with (Z.of_nat (length (le_bytes 4 v))). rewrite laid_above; [done|done|done| | |].
      * intros E. apply (f_equal length) in E. by rewrite length_le_bytes in E.
      * intros E. apply (f_equal length) in E. rewrite length_unwords, length_app in E. cbn in E. lia.
      * rewrite length_le_bytes, length_unwords, length_app. cbn [length]. lia.
Qed.

(** ** The whole block

    [off] is the offset of the end of the program in its last page, [args_off]
    that of the stack pointer. *)
Definition stack_off (size : Z) : Z := if size mod PAGE_SIZE =? 0 then PAGE_SIZE else size mod PAGE_SIZE.
Definition args_off (off : Z) (argv : list (list Z)) : Z :=
  (off - Z.of_nat (length (concat argv))) / 16 * 16 - 4 * (Z.of_nat (length argv) + 1).

Lemma stack_off_range size : 0 < stack_off size ≤ 4096 ∧ (size - stack_off size) mod 4096 = 0.
Proof.
  unfold stack_off. change PAGE_SIZE with 4096. destruct (Z.eqb_spec (size mod 4096) 0); Z.div_mod_to_equations; lia.
Qed.

Lemma align16 x : 0 ≤ x < 4294967296 → Z.land x 4294967280 = x / 16 * 16.
Proof.
  intros Hx. change 4294967280 with (Z.land (Z.ones 32) (Z.lnot (Z.ones 4))).
  rewrite Z.land_assoc, Z.land_ones by lia. change (2 ^ 32) with 4294967296. rewrite Z.mod_small by done.
  rewrite <-Z.ldiff_land, Z.ldiff_ones_r by lia. rewrite Z.shiftl_mul_pow2, Z.shiftr_div_pow2 by lia. done.
Qed.

(** What [push_args] stores. *)
Definition arg_ptrs (size : Z) (argv : list (list Z)) : list Z := arg_va (USER_BASE + size) argv <$> seq 0 (length argv).

Lemma length_arg_words size argv :
  Z.of_nat (length (unwords (arg_ptrs size argv ++ [0]))) = 4 * (Z.of_nat (length argv) + 1).
Proof. rewrite length_unwords, length_app. unfold arg_ptrs. rewrite length_fmap, length_seq. cbn [length]. lia. Qed.

Definition with_args (p size : Z) (argv : list (list Z)) (m : memory) : memory :=
  let off := stack_off size in
  put_bytes (p * 4096 + args_off off argv) (unwords (arg_ptrs size argv ++ [0]))
    (put_bytes (p * 4096 + (off - Z.of_nat (length (concat argv)))) (concat argv) m).
Definition args_sp (size : Z) (argv : list (list Z)) : Z := USER_BASE + size - (stack_off size - args_off (stack_off size) argv).

(** The arguments fit in front of the end of the program, in its last page. *)
Definition args_fit (size : Z) (argv : list (list Z)) : Prop :=
  argv ≠ [] ∧ (length argv ≤ 16)%nat ∧ Forall cstring argv ∧ 0 ≤ args_off (stack_off size) argv.

Section args.
Context {m : memory} {p size : Z} {argv : list (list Z)} (Hm : mem_ok m) (Hp : managed m p).
Context (Hsize : 0 < size) (Htop : USER_BASE + size < 2147483648) (Hfit : args_fit size argv).

Lemma args_geometry :
  let L := Z.of_nat (length (concat argv)) in let off := stack_off size in let o := args_off off argv in
  0 < L ∧ 0 ≤ o ∧ o mod 4 = 0 ∧ o + 4 * (Z.of_nat (length argv) + 1) ≤ off - L ∧ 0 < off ≤ 4096.
Proof using Hfit.
  cbv zeta. destruct Hfit as (Hne & _ & Hc & Ho). pose proof (stack_off_range size) as [Hr _]. split.
  - destruct argv as [|a l]; [done|]. inversion Hc as [|? ? Ha ?]; subst. destruct (cstring_facts a Ha) as (_ & _ & _ & ?).
    cbn [concat]. rewrite length_app. lia.
  - split; [done|]. unfold args_off in *. split; [Z.div_mod_to_equations; lia|]. split; [Z.div_mod_to_equations; lia|done].
Qed.

Lemma arg_ptrs_lookup j : (j < length argv)%nat → arg_ptrs size argv !! j = Some (arg_va (USER_BASE + size) argv j).
Proof using. intros Hj. unfold arg_ptrs. by rewrite list_lookup_fmap, lookup_seq_lt. Qed.

Lemma arg_va_range j : 0 ≤ arg_va (USER_BASE + size) argv j < 4294967296.
Proof using Hsize Htop Hfit.
  pose proof args_geometry as (HL & Ho & _ & Hend & Hoff). pose proof (tail_bytes_le argv j). unfold arg_va, USER_BASE in *. lia.
Qed.

Lemma push_args_wp (Q : Z → memory → Prop) R : Q (args_sp size argv) (with_args p size argv m) →
  wp (push_args (p * 4096) size (Z.of_nat (length argv)) argv) Q R m.
Proof using Hm Hp Hsize Htop Hfit.
  intros HQ. pose proof args_geometry as (HL & Ho & Ho4 & Hend & Hoff). pose proof Hfit as (Hne & Hargc & Hargs & _).
  pose proof (managed_range m p Hm Hp) as [Hlo Hhi]. unfold KERNEL_BASE in Hlo.
  unfold push_args. fold (stack_off size). cbv zeta. set (off := stack_off size) in *. rewrite u32_small by lia. apply wp_bind.
  assert (arg_va off argv (length argv) = off) as E0 by (unfold arg_va, tail_bytes; rewrite drop_all; cbn; lia).
  assert (tail_bytes argv (length argv) = []) as Et by (unfold tail_bytes; by rewrite drop_all).
  pose proof (push_strings_wp (size := size) (off := off) Hm Hp ltac:(lia) Hargs Hargc ltac:(lia) ltac:(lia) (length argv) (zeros 16) ltac:(lia) (length_zeros _) ltac:(lia)) as Hs.
  rewrite Et, E0 in Hs. cbn [laid] in Hs. rewrite Nat2Z.id. eapply wp_mono; [exact Hs| |done].
  intros [sp vas] m1 (E1 & -> & Hlv & Hv). cbn [fst snd] in *. subst sp.
  assert (tail_bytes argv 0 = concat argv) as Et0 by done.
  assert (arg_va off argv 0 = off - Z.of_nat (length (concat argv))) as Ea0 by done. rewrite Et0, Ea0.
  rewrite laid_ne by (intros E; rewrite E in HL; cbn in HL; lia).
  assert (take (length argv) vas = arg_ptrs size argv) as ->.
  { apply list_eq. intros i. destruct (decide (i < length argv)%nat) as [Hi|Hi].
    - rewrite lookup_take_lt, arg_ptrs_lookup by done. by apply Hv.
    - rewrite !lookup_ge_None_2; [done|unfold arg_ptrs; rewrite length_fmap, length_seq; lia|rewrite length_take; lia]. }
  rewrite align16 by lia.
  assert (u32 ((p * 4096 + (off - Z.of_nat (length (concat argv)))) / 16 * 16 - (Z.of_nat (length argv) + 1) * 4) = p * 4096 + args_off off argv) as ->.
  { unfold args_off in *. rewrite u32_small; Z.div_mod_to_equations; lia. }
  apply wp_bind. apply push_pointers_wp.
  - apply mem_ok_put_bytes; [done|lia|lia|]. by apply (bytes_tail argv 0).
  - done.
  - done.
  - done.
  - unfold arg_ptrs. rewrite length_fmap, length_seq. lia.
  - apply Forall_fmap, Forall_forall. intros i _. apply arg_va_range.
  - apply wp_ret. assert (u32 (USER_BASE + size - u32 (p * 4096 + off - (p * 4096 + args_off off argv))) = args_sp size argv) as ->; [|done].
    unfold args_sp. fold off. unfold USER_BASE in *. rewrite (u32_small (p * 4096 + off - _)) by lia. rewrite u32_small by lia. lia.
Qed.
End args.

(** ** What the program finds *)

Record args_ready (m : memory) (r sp : Z) (argv : list (list Z)) : Prop := {
  ar_ptr j a : argv !! j = Some a → ∃ va, 0 ≤ va < 4294967296 ∧
    ubytes m r (sp + 4 * Z.of_nat j) 4 = le_bytes 4 va ∧ ubytes m r va (length a) = a;
  ar_null : ubytes m r (sp + 4 * Z.of_nat (length argv)) 4 = le_bytes 4 0
}.

Lemma unwords_lookup ws j w i : ws !! j = Some w → (i < 4)%nat → unwords ws !! (4 * j + i)%nat = le_bytes 4 w !! i.
Proof.
  revert j. induction ws as [|x ws IH]; intros [|j] Hj Hi; try done; cbn [unwords].
  - injection Hj as ->. rewrite lookup_app_l by (rewrite length_le_bytes; lia). done.
  - rewrite lookup_app_r by (rewrite length_le_bytes; lia). rewrite length_le_bytes.
    replace (4 * S j + i - 4)%nat with (4 * j + i)%nat by lia. by apply IH.
Qed.

Lemma concat_lookup (argv : list (list Z)) j a i : argv !! j = Some a → (i < length a)%nat →
  concat argv !! (length (concat argv) - length (tail_bytes argv j) + i)%nat = a !! i.
Proof.
  intros Ha Hi. pose proof (tail_bytes_step argv j a Ha) as Et.
  assert (concat argv = concat (take j argv) ++ tail_bytes argv j) as Ec
    by (unfold tail_bytes; rewrite <-concat_app; by rewrite take_drop).
  rewrite Ec at 2. rewrite lookup_app_r; rewrite Ec, length_app; [|lia].
  replace (_ - _)%nat with i by lia. rewrite Et. by rewrite lookup_app_l.
Qed.

Lemma ubytes_is m r a l : (∀ i b, l !! i = Some b → ubyte m r (a + Z.of_nat i) = b) → ubytes m r a (length l) = l.
Proof.
  intros H. apply list_eq. intros i. destruct (decide (i < length l)%nat) as [Hi|Hi].
  - destruct (lookup_lt_is_Some_2 l i Hi) as [b Hb]. unfold ubytes. rewrite list_lookup_fmap, lookup_seq_lt by done.
    cbn [fmap option_fmap option_map Nat.add]. by rewrite Hb, (H i b).
  - rewrite !lookup_ge_None_2; [done|lia|rewrite length_ubytes; lia].
Qed.

Section view.
Context {m : memory} {R K : gset Z} {r size : Z} {argv : list (list Z)} (Hvm : vm_ok m R K) (Hr : r ∈ R).
Context (Hsize : 0 < size) (Htop : USER_BASE + size < 2147483648) (Hfit : args_fit size argv).
Context (Hmap : umapped m r PAGE_W (USER_BASE + size - 1)).
Let p := ppn (upte m r (USER_BASE + size - 1)).
Let m' := with_args p size argv m.

Lemma last_page_data : data m R K p ∧ managed m p.
Proof using Hvm Hr Hmap.
  destruct Hmap as (Hv & Hu & _).
  assert (holds m R K (Leaf r (vpn1 (USER_BASE + size - 1)) (vpn0 (USER_BASE + size - 1))) p) as Hh.
  { split; [done|]. split; [apply vpn1_range|]. split; [apply vpn0_range|]. split; [|done].
    apply (vo_user m R K Hvm); [done|apply vpn1_range|apply vpn0_range|done..]. }
  split; [right; eauto|by apply (holds_managed Hvm _ _ Hh)].
Qed.

Lemma with_args_vm : vm_ok m' R K ∧ same_tables R m m' ∧ ∀ q, q ≠ p → page_bytes m' q = page_bytes m q.
Proof using Hvm Hr Hsize Htop Hfit Hmap.
  destruct last_page_data as [Hd Hp]. pose proof (args_geometry Hfit) as (HL & Ho & Ho4 & Hend & Hoff).
  unfold m', with_args. cbv zeta. set (off := stack_off size) in *. set (s := off - Z.of_nat (length (concat argv))) in *.
  pose proof (length_arg_words size argv) as Hlw.
  pose proof (put_bytes_tables m R K p s (concat argv) Hvm Hd ltac:(lia)) as Hs1.
  pose proof (vm_put_bytes m R K p s (concat argv) Hvm Hd ltac:(lia) ltac:(lia) (bytes_tail argv 0 (proj1 (proj2 (proj2 Hfit))))) as Hvm1.
  set (m1 := put_bytes (p * 4096 + s) (concat argv) m) in *.
  assert (data m1 R K p) as Hd1 by (apply (data_same m); [apply Hs1|apply Hs1|done]).
  pose proof (put_bytes_tables m1 R K p (args_off off argv) (unwords (arg_ptrs size argv ++ [0])) Hvm1 Hd1 ltac:(lia)) as Hs2.
  split; [|split].
  - apply vm_put_bytes; [done|done|lia|lia|apply bytes_unwords].
  - by eapply same_tables_trans.
  - intros q Hq. rewrite page_bytes_put_bytes by lia. rewrite decide_False by done. unfold m1.
    rewrite page_bytes_put_bytes by lia. by rewrite decide_False.
Qed.

(** A byte in the last page of the program. *)
Lemma last_page_byte v : USER_BASE + size - stack_off size ≤ v < USER_BASE + size - stack_off size + 4096 →
  ubyte m' r v = byte_at m' (p * 4096 + (v - (USER_BASE + size - stack_off size))).
Proof using Hvm Hr Hsize Htop Hfit Hmap.
  intros Hv. destruct with_args_vm as (_ & Hs & _). unfold ubyte, phys. rewrite (upte_same R m m') by done.
  pose proof (stack_off_range size) as [Hoff Hal].
  rewrite (upte_page m r v (USER_BASE + size - 1)) by (unfold USER_BASE in *; Z.div_mod_to_equations; lia). fold p.
  f_equal. f_equal. unfold USER_BASE in *. Z.div_mod_to_equations. lia.
Qed.

Lemma with_args_byte a : byte_at m' a =
  let ws := unwords (arg_ptrs size argv ++ [0]) in let o := p * 4096 + args_off (stack_off size) argv in
  let s := p * 4096 + (stack_off size - Z.of_nat (length (concat argv))) in
  if decide (o ≤ a < o + Z.of_nat (length ws)) then default 0 (ws !! Z.to_nat (a - o))
  else if decide (s ≤ a < s + Z.of_nat (length (concat argv))) then default 0 (concat argv !! Z.to_nat (a - s))
       else byte_at m a.
Proof using Hvm Hr Hsize Htop Hfit Hmap.
  cbv zeta. pose proof (args_geometry Hfit) as (HL & Ho & Ho4 & Hend & Hoff). pose proof (vm_mem Hvm) as Hm.
  pose proof (length_arg_words size argv) as Hlw.
  unfold m', with_args. cbv zeta. rewrite byte_at_put; [|apply mem_ok_put_bytes; [done|lia|lia|apply (bytes_tail argv 0), Hfit]|lia|lia].
  destruct (decide _); [done|]. by rewrite byte_at_put by (done || lia).
Qed.

Lemma args_found : args_ready m' r (args_sp size argv) argv.
Proof using Hvm Hr Hsize Htop Hfit Hmap.
  pose proof (args_geometry Hfit) as (HL & Ho & Ho4 & Hend & Hoff).
  assert (length (arg_ptrs size argv) = length argv) as Hlp by (unfold arg_ptrs; by rewrite length_fmap, length_seq).
  pose proof (length_arg_words size argv) as Hlw.
  assert (∀ j w, (arg_ptrs size argv ++ [0]) !! j = Some w → ubytes m' r (args_sp size argv + 4 * Z.of_nat j) 4 = le_bytes 4 w) as Hword.
  { intros j w Hj. pose proof (lookup_lt_Some _ _ _ Hj) as Hlt. rewrite length_app, Hlp in Hlt. cbn [length] in Hlt.
    pose proof (ubytes_is m' r (args_sp size argv + 4 * Z.of_nat j) (le_bytes 4 w)) as Hu. rewrite length_le_bytes in Hu. apply Hu.
    intros i b Hb. pose proof (lookup_lt_Some _ _ _ Hb) as Hi. rewrite length_le_bytes in Hi.
    rewrite last_page_byte by (unfold args_sp; lia). rewrite with_args_byte. cbv zeta.
    rewrite decide_True by (unfold args_sp; lia).
    replace (Z.to_nat _) with (4 * j + i)%nat by (unfold args_sp; lia). rewrite (unwords_lookup _ j w) by done. by rewrite Hb. }
  split.
  - intros j a Ha. pose proof (lookup_lt_Some _ _ _ Ha) as Hj. exists (arg_va (USER_BASE + size) argv j).
    split; [by apply arg_va_range|]. split.
    + apply Hword. rewrite lookup_app_l by lia. by apply arg_ptrs_lookup.
    + apply ubytes_is. intros i b Hb. pose proof (lookup_lt_Some _ _ _ Hb) as Hi.
      pose proof (tail_bytes_le argv j) as Hle. pose proof (tail_bytes_step argv j a Ha) as Et.
      assert (length (tail_bytes argv j) = length a + length (tail_bytes argv (S j)))%nat as El by (by rewrite Et, length_app).
      rewrite last_page_byte by (unfold arg_va; lia). rewrite with_args_byte. cbv zeta.
      rewrite decide_False by (unfold arg_va; lia). rewrite decide_True by (unfold arg_va; lia).
      replace (Z.to_nat _) with (length (concat argv) - length (tail_bytes argv j) + i)%nat by (unfold arg_va; lia).
      rewrite (concat_lookup argv j a) by done. by rewrite Hb.
  - apply Hword. rewrite lookup_app_r by lia. by rewrite Hlp, Nat.sub_diag.
Qed.

(** Below the stack pointer and above the arguments the program is as it was loaded. *)
Lemma args_below fl v : 0 ≤ v < 4294967296 → v < args_sp size argv ∨ USER_BASE + size ≤ v → umapped m r fl v →
  ubyte m' r v = ubyte m r v.
Proof using Hvm Hr Hsize Htop Hfit Hmap.
  intros Hv Hpos Hu. pose proof (args_geometry Hfit) as (HL & Ho & Ho4 & Hend & Hoff). destruct with_args_vm as (_ & Hs & Hrest).
  pose proof (stack_off_range size) as [_ Hal].
  pose proof (length_arg_words size argv) as Hlw.
  destruct (decide (USER_BASE + size - stack_off size ≤ v < USER_BASE + size - stack_off size + 4096)) as [Hin|Hout].
  - rewrite last_page_byte by (unfold args_sp in *; lia). rewrite with_args_byte. cbv zeta.
    rewrite !decide_False by (unfold args_sp in *; lia). unfold ubyte, phys.
    unfold args_sp in *. rewrite (upte_page m r v (USER_BASE + size - 1)) by (unfold USER_BASE in *; Z.div_mod_to_equations; lia). fold p.
    f_equal. f_equal. unfold USER_BASE in *. Z.div_mod_to_equations. lia.
  - unfold ubyte, phys. rewrite (upte_same R m m') by done. unfold byte_at. change PAGE_SIZE with 4096.
    pose proof (Z.mod_pos_bound v 4096 ltac:(lia)) as Hmod.
    destruct (split_addr (ppn (upte m r v)) (v mod 4096) Hmod) as [-> ->]. rewrite Hrest; [done|]. intros E.
    destruct Hu as (Hv1 & Hu1 & _). destruct Hmap as (Hv2 & Hu2 & _).
    assert (∀ a, is_valid (upte m r a) = true → has_flag (upte m r a) PAGE_U = true →
      holds m R K (Leaf r (vpn1 a) (vpn0 a)) (ppn (upte m r a))) as Hh.
    { intros a Ha Hb. split; [done|]. split; [apply vpn1_range|]. split; [apply vpn0_range|]. split; [|done].
      apply (vo_user m R K Hvm); [done|apply vpn1_range|apply vpn0_range|done..]. }
    pose proof (Hh v Hv1 Hu1) as H1. rewrite E in H1. pose proof (vo_inj m R K Hvm _ _ _ H1 (Hh _ Hv2 Hu2)) as [= E1 E2].
    unfold args_sp, USER_BASE in *. apply vpn_inj in E2; [|lia|lia|done]. Z.div_mod_to_equations. lia.
Qed.
End view.

(** ** The finished address space *)

(** [m'] has the new address space [r] with the program [prog] loaded and the
    arguments [argv] above the stack pointer [sp]; the other address spaces see no
    difference. *)
Record new_space (R K : gset Z) (m m' : memory) (r : Z) (prog : list Z) (argv : list (list Z)) (sp : Z) : Prop := {
  ns_vm : vm_ok m' ({[r]} ∪ R) K;
  ns_root : r ∉ R;
  ns_satp : satp m' = satp m;
  ns_others r' fl v : r' ∈ R → 0 ≤ v < 4294967296 → umapped m r' fl v → umapped m' r' fl v ∧ ubyte m' r' v = ubyte m r' v;
  ns_kept q : q ∈ K → page_bytes m' q = page_bytes m q;
  ns_kernel v : 0 ≤ v < 4294967296 → DEVICES ≤ v → upte m' r v = kernel_layout (free_ram_end m) (v / 4096);
  ns_mapped v : USER_BASE ≤ v < USER_BASE + align_up (Z.of_nat (length prog)) PAGE_SIZE →
    umapped m' r (Z.lor PAGE_R (Z.lor PAGE_W PAGE_X)) v;
  ns_prog v : USER_BASE ≤ v < USER_BASE + align_up (Z.of_nat (length prog)) PAGE_SIZE →
    v < sp ∨ USER_BASE + Z.of_nat (length prog) ≤ v → ubyte m' r v = default 0 (prog !! Z.to_nat (v - USER_BASE));
  ns_free v : 0 ≤ v < DEVICES → ¬ USER_BASE ≤ v < USER_BASE + align_up (Z.of_nat (length prog)) PAGE_SIZE →
    is_valid (upte m' r v) = false;
  ns_args : argv ≠ [] → args_ready m' r sp argv
}.

Lemma based_upte {R K m m1 r f} v : based R K m m1 r f → 0 ≤ v < 4294967296 → upte m1 r v = f (v / 4096).
Proof.
  intros HB Hv. unfold upte. rewrite (ba_new _ _ _ _ _ _ HB (vpn1 v) (vpn0 v) (vpn1_range v) (vpn0_range v)).
  f_equal. rewrite vpn1_eq, vpn0_eq by done. clear HB. Z.div_mod_to_equations. lia.
Qed.

Section space.
Context {R K : gset Z} {m m1 m2 : memory} {r : Z} {prog : list Z} (Hvm : vm_ok m R K) (Hr : r ∉ R).
Context (HB : based R K m m1 r (kernel_layout (free_ram_end m))).
Local Abbreviation size := (Z.of_nat (length prog)).
Context (Htop : USER_BASE + size + 4096 ≤ DEVICES).
Context (HL : loaded ({[r]} ∪ R) K m1 m2 r prog (align_up size PAGE_SIZE)).

Lemma root_in : r ∈ {[r]} ∪ R.
Proof using. apply elem_of_union. left. by apply elem_of_singleton. Qed.

Lemma align_up_page : align_up size PAGE_SIZE = (size + 4095) / 4096 * 4096.
Proof using Htop. apply align_up_eq. unfold USER_BASE, DEVICES in *. lia. Qed.

Lemma loaded_space sp : new_space R K m m2 r prog [] sp.
Proof using Hvm Hr HB Htop HL.
  pose proof align_up_page as Eup. destruct HL as [Hrz Hb]. pose proof (ba_vm _ _ _ _ _ _ HB) as Hvm1. split.
  - apply Hrz.
  - done.
  - rewrite (rz_satp _ _ _ _ _ _ _ Hrz). apply HB.
  - intros r' fl v Hr' Hv Hu.
    assert (umapped m1 r' fl v ∧ ubyte m1 r' v = ubyte m r' v) as [Hu1 Eb1].
    { assert (upte m1 r' v = upte m r' v) as E by (apply HB; [done|apply vpn1_range|apply vpn0_range]).
      unfold umapped, ubyte, phys. rewrite E. split; [done|]. unfold byte_at. change PAGE_SIZE with 4096.
      pose proof (Z.mod_pos_bound v 4096 ltac:(lia)) as Hmod.
      destruct (split_addr (ppn (upte m r' v)) (v mod 4096) Hmod) as [-> ->]. rewrite (ba_data _ _ _ _ _ _ HB); [done|].
      right. exists r', (vpn1 v), (vpn0 v). destruct Hu as (H1 & H2 & _).
      split; [done|]. split; [apply vpn1_range|]. split; [apply vpn0_range|]. split; [|done].
      apply (vo_user m R K Hvm); [done|apply vpn1_range|apply vpn0_range|done..]. }
    destruct (resized_keeps _ K m1 m2 r USER_BASE (USER_BASE + align_up size PAGE_SIZE) r' fl v Hvm1 Hrz) as [Hu2 Eb2]; try done.
    + apply elem_of_union. by right.
    + rewrite Eup. unfold USER_BASE. Z.div_mod_to_equations. lia.
    + left. by intros ->.
    + split; [done|]. congruence.
  - intros q Hq. rewrite (rz_kept _ _ _ _ _ _ _ Hrz) by done. apply HB. by left.
  - intros v Hv Hd. rewrite <-(based_upte v HB) by done. apply Hrz; [apply root_in|apply vpn1_range|apply vpn0_range|].
    intros [_ H]. rewrite Eup in H. apply page_in_range in H; [|done|unfold USER_BASE; Z.div_mod_to_equations; lia|done].
    unfold USER_BASE, DEVICES in *. Z.div_mod_to_equations. lia.
  - intros v Hv. by apply Hb.
  - intros v Hv _. by apply Hb.
  - intros v Hv Hout. assert (upte m2 r v = upte m1 r v) as ->.
    { apply Hrz; [apply root_in|apply vpn1_range|apply vpn0_range|]. intros [_ H]. apply Hout. rewrite Eup in *.
      apply page_in_range in H; [done|done|unfold USER_BASE; Z.div_mod_to_equations; lia|]. unfold DEVICES in *. lia. }
    unfold DEVICES in *. rewrite (based_upte v HB), kernel_layout_low; [done| |lia]. unfold DEVICES. Z.div_mod_to_equations. lia.
  - done.
Qed.

Lemma args_space argv : args_fit size argv → 0 < size →
  new_space R K m (with_args (ppn (upte m2 r (USER_BASE + size - 1))) size argv m2) r prog argv (args_sp size argv).
Proof using Hvm Hr HB Htop HL.
  intros Hfit Hs. pose proof align_up_page as Eup. pose proof (loaded_space (args_sp size argv)) as [N1 N2 N3 N4 N5 N6 N7 N8 N9 _].
  assert (USER_BASE + size < 2147483648) as Ht by (unfold DEVICES in *; lia).
  assert (USER_BASE ≤ USER_BASE + size - 1 < USER_BASE + align_up size PAGE_SIZE) as Hlast by (rewrite Eup; Z.div_mod_to_equations; lia).
  assert (umapped m2 r PAGE_W (USER_BASE + size - 1)) as Hmap.
  { destruct (N7 _ Hlast) as (H1 & H2 & H3). split; [done|]. split; [done|].
    change PAGE_W with (Z.land (Z.lor PAGE_R (Z.lor PAGE_W PAGE_X)) PAGE_W). rewrite Z.land_assoc, H3. done. }
  pose proof root_in as Hrin.
  destruct (with_args_vm (argv := argv) N1 Hrin Hs Ht Hfit Hmap) as (V1 & V2 & V3).
  destruct (last_page_data N1 Hrin Hmap) as [Hd Hp].
  set (p := ppn (upte m2 r (USER_BASE + size - 1))) in *. set (m3 := with_args p size argv m2) in *.
  assert (holds m2 ({[r]} ∪ R) K (Leaf r (vpn1 (USER_BASE + size - 1)) (vpn0 (USER_BASE + size - 1))) p) as Hh.
  { destruct Hmap as (H1 & H2 & _). split; [done|]. split; [apply vpn1_range|]. split; [apply vpn0_range|]. split; [|done].
    apply (vo_user m2 _ K N1); [done|apply vpn1_range|apply vpn0_range|done..]. }
  split; try done.
  - intros r' fl v Hr' Hv Hu. destruct (N4 r' fl v Hr' Hv Hu) as [Hu2 Eb2]. assert (r' ∈ {[r]} ∪ R) as Hr2 by (apply elem_of_union; by right).
    split; [by apply (umapped_same ({[r]} ∪ R) m2)|]. rewrite <-Eb2. unfold ubyte, phys. rewrite (upte_same _ m2 m3 r' v V2 Hr2).
    unfold byte_at. change PAGE_SIZE with 4096. pose proof (Z.mod_pos_bound v 4096 ltac:(lia)) as Hmod.
    destruct (split_addr (ppn (upte m2 r' v)) (v mod 4096) Hmod) as [-> ->]. rewrite V3; [done|]. intros E.
    assert (Leaf r' (vpn1 v) (vpn0 v) = Leaf r (vpn1 (USER_BASE + size - 1)) (vpn0 (USER_BASE + size - 1))) as [= -> _ _]; [|done].
    apply (vo_inj m2 _ K N1 _ _ p); [|done]. destruct Hu2 as (H1 & H2 & _).
    split; [done|]. split; [apply vpn1_range|]. split; [apply vpn0_range|]. split; [|done].
    apply (vo_user m2 _ K N1); [done|apply vpn1_range|apply vpn0_range|done..].
  - intros q Hq. rewrite V3; [by apply N5|]. intros ->.
    by assert (Kept p = Leaf r (vpn1 (USER_BASE + size - 1)) (vpn0 (USER_BASE + size - 1))) by by apply (vo_inj m2 _ K N1 _ _ p).
  - intros v Hv Hdv. rewrite (upte_same _ m2 m3 r v V2 Hrin). by apply N6.
  - intros v Hv. apply (umapped_same ({[r]} ∪ R) m2); [done|done|]. by apply N7.
  - intros v Hv Hpos. rewrite <-(N8 v Hv Hpos). apply (args_below N1 Hrin Hs Ht Hfit Hmap (Z.lor PAGE_R (Z.lor PAGE_W PAGE_X)) v); [|done|by apply N7]. rewrite Eup in Hv. unfold USER_BASE, DEVICES in *. Z.div_mod_to_equations. lia.
  - intros v Hv Hout. rewrite (upte_same _ m2 m3 r v V2 Hrin). by apply N9.
  - intros _. by apply (args_found N1 Hrin Hs Ht Hfit Hmap).
Qed.
End space.
