(* ===== verification/MemSpec.v ===== *)
(** * The promises of memory management

    The allocator, page tables, pointer checks and the heap, stated for the code's
    operations. *)

From S2P Require Import Prelude CLib FsTypes Block Inode KState FdTable Page UserMem Process Syscall.
From S2P Require Import PageMem PageTable UserSpec HeapSpec.

(** ** A sample memory

    One address space whose root is the first page, with one second-level table
    and one user page at [USER_BASE]. *)
Definition empty_mem : memory := Memory ∅ (replicate (Z.to_nat NUM_PAGES) 0) 0 2151677952.
Definition ROOT : Z := 525312.
Definition TABLE : Z := 525313.
Definition FRAME : Z := 525314.

Lemma empty_mem_ok : mem_ok empty_mem.
Proof.
  split.
  - apply length_replicate.
  - apply Forall_replicate. by left.
  - done.
  - unfold KERNEL_BASE. cbn [empty_mem free_ram]. lia.
  - unfold free_ram_end, NUM_PAGES, PAGE_SIZE. cbn [empty_mem free_ram]. lia.
  - apply map_Forall_empty.
Qed.

Lemma empty_avail p : managed empty_mem p → avail empty_mem p.
Proof.
  intros Hp. split; [done|]. apply lookup_replicate_2. unfold managed, first_page, NUM_PAGES in *. cbn [empty_mem free_ram] in *. lia.
Qed.

Lemma empty_vm : vm_ok empty_mem ∅ ∅.
Proof.
  split; [apply empty_mem_ok|..].
  - intros p. split.
    + intros [Hp Ha]. destruct (empty_avail p Hp) as [_ Hb]. congruence.
    + intros [[r|r i|r i j|q] [H _]]; by apply not_elem_of_empty in H.
  - intros [r|r i|r i j|q] l' p [H _]; by apply not_elem_of_empty in H.
  - intros r i j H. by apply not_elem_of_empty in H.
  - intros r i H. by apply not_elem_of_empty in H.
  - intros r i j H. by apply not_elem_of_empty in H.
Qed.

Lemma vm_set_satp m R K x : vm_ok m R K → vm_ok (set_satp x m) R K.
Proof. intros [H1 H2 H3 H4 H5 H6]. split; [by destruct H1|done..]. Qed.

Definition space0 : memory := grab ROOT empty_mem.

Lemma space0_vm : vm_ok space0 {[ROOT]} ∅.
Proof.
  assert (managed empty_mem ROOT) as Hm by (unfold managed; change (first_page empty_mem) with 525312; unfold NUM_PAGES, ROOT; lia).
  pose proof (vm_grab _ _ _ _ empty_vm (empty_avail ROOT Hm)) as H. fold space0 in H.
  rewrite <-(right_id_L ∅ (∪) {[ROOT]}).
  replace ∅ with (({[ROOT]} ∪ ∅) ∖ {[ROOT]} : gset Z) at 2 by (apply take_back; apply not_elem_of_empty).
  apply vm_new_root; [done|set_solver|]. intros j Hj. by apply word_grab_in.
Qed.

(** The break of a process with an empty heap at [USER_BASE + 4096]. *)
Definition heap_proc : Process :=
  mkProcess 1 PROCSTATE_RUNNABLE 0 (zeros 13) (ROOT * 4096) None 16781312 16781312 (replicate 16 None) (zeros 16) (zeros 256).
Definition heap_kernel : kernel :=
  Kernel (Fs [] [] [] [] 0) [] [heap_proc] (Some 0%nat) None (set_satp (SATP_SV32 + ROOT) space0) (Console [] []).

Lemma heap_kernel_vm : vm_ok (kmem heap_kernel) {[ROOT]} ∅.
Proof. apply vm_set_satp, space0_vm. Qed.

Lemma heap_kernel_free v : is_valid (upte (kmem heap_kernel) ROOT v) = false.
Proof.
  unfold upte. rewrite empty_pte; [done| |apply vpn1_range]. intros j Hj. by apply word_grab_in.
Qed.

Lemma heap_kernel_ok : heap_ok (kmem heap_kernel) ROOT heap_proc.
Proof.
  assert (align_up (heap_end heap_proc) PAGE_SIZE = 16781312) as Ha by done.
  split; rewrite ?Ha; cbn [heap_proc heap_start heap_end].
  - done.
  - lia.
  - unfold DEVICES. lia.
  - lia.
  - intros v _. apply heap_kernel_free.
Qed.

(** ** The heap *)

(** C19: [sbrk] returns the old break and moves it: the heap is mapped exactly up to
    the new break, added pages read as zero, bytes below both breaks and all other
    address spaces are unchanged, pages given up are exactly the ones released; a
    break below the start of the heap is refused without effect; the kernel stops
    only when no page is free. *)
Theorem sbrk_refines k R K r c p inc :
  vm_ok (kmem k) R K → r ∈ R → current_proc k = Some c → procs k !! c = Some p → page_table p = r * 4096 →
  heap_ok (kmem k) r p → heap_end p + inc ≤ DEVICES → -2147483648 ≤ inc →
  (∃ v k', sys_sbrk inc k = Ok v k' ∧
     if heap_end p + inc <? heap_start p then v = -1 ∧ k' = k
     else v = heap_end p ∧ sbrk_done k k' R K r c p (heap_end p + inc)) ∨
  (∃ k', sys_sbrk inc k = Panic k' ∧ full (kmem k')).
Proof. intros. apply wp_iff. by apply sbrk_wp. Qed.

Lemma sbrk_refines_witness :
  (∃ v k', sys_sbrk 5000 heap_kernel = Ok v k' ∧
     if heap_end heap_proc + 5000 <? heap_start heap_proc then v = -1 ∧ k' = heap_kernel
     else v = heap_end heap_proc ∧ sbrk_done heap_kernel k' {[ROOT]} ∅ ROOT 0 heap_proc (heap_end heap_proc + 5000)) ∨
  (∃ k', sys_sbrk 5000 heap_kernel = Panic k' ∧ full (kmem k')).
Proof.
  apply sbrk_refines; [apply heap_kernel_vm|by apply elem_of_singleton|done|done|done|apply heap_kernel_ok| |].
  - unfold DEVICES. cbn [heap_proc heap_end]. lia.
  - lia.
Defined.

(** ** A sample user page *)

Definition space1 : memory := put_word (ROOT * 4096 + 4 * 4) (entry TABLE 0) (grab TABLE space0).
Definition space2 : memory :=
  set_satp (SATP_SV32 + ROOT) (put_pte ROOT 4 0 (entry FRAME HEAP_FLAGS) (grab FRAME space1)).

Lemma managed_sample p : 525312 ≤ p < 525320 → managed empty_mem p.
Proof. unfold managed. change (first_page empty_mem) with 525312. unfold NUM_PAGES. lia. Qed.

Lemma space1_vm : vm_ok space1 {[ROOT]} ∅ ∧ is_valid (l1 space1 ROOT 4) = true.
Proof.
  assert (avail space0 TABLE) as Ha.
  { apply avail_grab; [apply empty_avail, managed_sample; unfold TABLE; lia|apply managed_sample; unfold ROOT; lia|done]. }
  pose proof (vm_grab _ _ _ _ space0_vm Ha) as Hvm. pose proof (grab_tables _ _ _ _ space0_vm Ha) as Hs.
  assert (ROOT ∈ ({[ROOT]} : gset Z)) as Hr by by apply elem_of_singleton. assert (idx 4) as Hi by (unfold idx; lia).
  assert (TABLE ∈ ({[TABLE]} ∪ ∅ : gset Z)) as Ht by (apply elem_of_union; left; by apply elem_of_singleton).
  assert (is_valid (l1 (grab TABLE space0) ROOT 4) = false) as Hv.
  { rewrite (st_l1 _ _ _ Hs) by done. by assert (l1 space0 ROOT 4 = 0) as -> by by apply word_grab_in. }
  assert (zero_page (grab TABLE space0) TABLE) as Hz by (intros j Hj; by apply word_grab_in). split.
  - pose proof (vm_set_table Hvm Hr Hi Hv Ht Hz) as H. rewrite take_back in H by apply not_elem_of_empty. exact H.
  - unfold space1. rewrite (l1_set_table Hvm Hi Ht) by done. rewrite decide_True by done. apply valid_entry.
Qed.

Lemma space2_ok : vm_ok space2 {[ROOT]} ∅ ∧ active space2 {[ROOT]} ROOT ∧
  (∀ v, USER_BASE ≤ v < USER_BASE + 4096 → upte space2 ROOT v = entry FRAME HEAP_FLAGS).
Proof.
  destruct space1_vm as [Hvm Hv].
  assert (ROOT ∈ ({[ROOT]} : gset Z)) as Hr by by apply elem_of_singleton. assert (idx 4) as Hi by (unfold idx; lia).
  assert (idx 0) as Hj by (unfold idx; lia).
  assert (avail space1 FRAME) as Ha.
  { change (avail (grab TABLE space0) FRAME).
    apply avail_grab; [apply avail_grab; [apply empty_avail, managed_sample|apply managed_sample|done]|apply managed_sample|done];
      unfold FRAME, TABLE, ROOT; lia. }
  pose proof (vm_grab _ _ _ _ Hvm Ha) as Hvm1. pose proof (grab_tables _ _ _ _ Hvm Ha) as Hs.
  assert (is_valid (l1 (grab FRAME space1) ROOT 4) = true) as Hv1 by (by rewrite (st_l1 _ _ _ Hs)).
  assert (pte space1 ROOT 4 0 = 0) as E0.
  { unfold pte. rewrite Hv. vm_compute. reflexivity. }
  pose proof (heap_flags_entry FRAME) as (Hve & Hu & Hrw). assert (0 ≤ HEAP_FLAGS < 1024) as Hf by (change HEAP_FLAGS with 22; lia).
  assert (0 ≤ FRAME < 1048576) as Hp by (unfold FRAME; lia).
  assert (user_leaf (grab FRAME space1) 4 (entry FRAME HEAP_FLAGS)) as Hul.
  { split; [lia|]. split; [done|]. rewrite ppn_entry by done. apply Ha. }
  assert (¬ user_leaf (grab FRAME space1) 4 (pte (grab FRAME space1) ROOT 4 0)) as Hold.
  { rewrite (st_pte _ _ _ Hs), E0 by done. intros (_ & Hx & _). discriminate Hx. }
  assert (FRAME ∈ ({[FRAME]} ∪ ∅ : gset Z)) as HK by (apply elem_of_union; left; by apply elem_of_singleton).
  destruct (put_entry_ok _ _ _ ROOT 4 0 FRAME HEAP_FLAGS Hvm1 Hr Hi Hj Hv1 Hp Hf Hold (λ _, HK) (λ _, conj Hul eq_refl)) as [Hvm2 Hmp].
  rewrite decide_True in Hvm2 by exact Hul.
  rewrite take_back in Hvm2 by apply not_elem_of_empty. split; [by apply vm_set_satp|]. split; [by split|].
    intros v Hv'. rewrite (upte_page space2 ROOT v USER_BASE) by (unfold USER_BASE in *; Z.div_mod_to_equations; lia).
    unfold upte. change (vpn1 USER_BASE) with 4. change (vpn0 USER_BASE) with 0.
    change (pte space2 ROOT 4 0) with (pte (put_pte ROOT 4 0 (entry FRAME HEAP_FLAGS) (grab FRAME space1)) ROOT 4 0).
    rewrite (mp_pte _ _ _ _ _ _ _ _ Hmp) by done. by rewrite decide_True.
Qed.

Lemma space2_mapped fl v : USER_BASE ≤ v < USER_BASE + 4096 → fl = 0 ∨ fl = PAGE_W ∨ fl = Z.lor PAGE_R PAGE_W →
  umapped space2 ROOT fl v.
Proof.
  intros Hv Hfl. destruct space2_ok as (_ & _ & H). unfold umapped. rewrite H by done.
  destruct (heap_flags_entry FRAME) as (H1 & H2 & H3). split; [done|]. split; [done|].
  destruct Hfl as [-> |[-> | ->]]; vm_compute; done.
Qed.

Lemma page_bytes_ext m m' q : mem_ok m' → mem_ok m →
  (∀ o, 0 ≤ o < 4096 → byte_at m' (q * 4096 + o) = byte_at m (q * 4096 + o)) → page_bytes m' q = page_bytes m q.
Proof.
  intros Hm' Hm H. destruct (page_bytes_ok m q Hm) as [Hl _], (page_bytes_ok m' q Hm') as [Hl' _].
  apply list_eq. intros i. destruct (decide (i < 4096)%nat) as [Hi|Hi].
  - specialize (H (Z.of_nat i) ltac:(lia)). unfold byte_at in H. change PAGE_SIZE with 4096 in H.
    destruct (split_addr q (Z.of_nat i)) as [E1 E2]; [lia|]. rewrite E1, E2, Nat2Z.id in H.
    destruct (lookup_lt_is_Some_2 (page_bytes m q) i) as [x Hx]; [lia|].
    destruct (lookup_lt_is_Some_2 (page_bytes m' q) i) as [y Hy]; [lia|]. rewrite Hx, Hy in *. cbn in H. congruence.
  - rewrite !lookup_ge_None_2 by lia. done.
Qed.

Lemma lookup_mark v i n l k : 0 ≤ i →
  mark_pages v i n l !! k = if decide (i ≤ Z.of_nat k < i + Z.of_nat n) then (λ _, v) <$> l !! k else l !! k.
Proof.
  revert i l. induction n as [|n IH]; intros i l Hi; cbn [mark_pages].
  - by rewrite decide_False by lia.
  - rewrite IH by lia. unfold zupdate. rewrite list_lookup_alter.
    destruct (decide (Z.to_nat i = k)) as [<-|Hne].
    + rewrite decide_False by lia. by rewrite decide_True by lia.
    + destruct (decide (i + 1 ≤ Z.of_nat k < i + 1 + Z.of_nat n)); [by rewrite decide_True by lia|by rewrite decide_False by lia].
Qed.

Lemma mark_unmark l i n : 0 ≤ i → (∀ j, i ≤ j < i + Z.of_nat n → l !! Z.to_nat j = Some 0) →
  mark_pages 0 i n (mark_pages 1 i n l) = l.
Proof.
  intros Hi Hz. apply list_eq. intros k. rewrite !lookup_mark by done.
  destruct (decide (i ≤ Z.of_nat k < i + Z.of_nat n)) as [Hk|]; [|done].
  pose proof (Hz _ Hk) as E. rewrite Nat2Z.id in E. by rewrite E.
Qed.

(** ** The allocator *)

(** [alloc_pages] takes the first run of [n] free pages, marks and clears
    exactly those, and stops the kernel exactly when there is no such run;
    releasing the run makes the same pages free again. *)
Theorem alloc_pages_first_fit m n : mem_ok m → 0 < n ≤ NUM_PAGES →
  (∃ i m', alloc_pages n m = Ok ((first_page m + i) * 4096) m' ∧ m' = grabs (first_page m + i) (Z.to_nat n) m ∧
     0 ≤ i ∧ i + n ≤ NUM_PAGES ∧ (∀ j, i ≤ j < i + n → avail m (first_page m + j)) ∧
     (∀ i', 0 ≤ i' < i → blocked m n i') ∧
     ∃ m'', free_pages ((first_page m + i) * 4096) n m' = Ok tt m'' ∧ page_allocated m'' = page_allocated m) ∨
  (alloc_pages n m = Panic m ∧ ∀ i, 0 ≤ i ≤ NUM_PAGES - n → blocked m n i).
Proof.
  intros Hm Hn. pose proof (alloc_pages_wp m n Hm ltac:(lia)) as H. apply wp_iff in H as [(pa & m' & E & i & H)|(m' & E & -> & H)].
  - destruct H as (Hi & Hin & -> & -> & Hav & Hb). left. exists i. eexists. split; [exact E|]. split; [done|].
    split; [done|]. split; [done|]. split; [done|]. split; [done|].
    set (m1 := grabs _ _ _) in *. assert (mem_ok m1) as Hm1 by by apply mem_ok_grabs.
    assert (first_page m1 = first_page m) as Ef by (unfold m1; rewrite grabs_eq by lia; done).
    assert (wp (free_pages ((first_page m + i) * 4096) n) (λ _ m'', m'' = releases (first_page m + i) (Z.to_nat n) m1) (λ _, False) m1) as Hw.
    { apply free_pages_wp; [done|lia|lia|rewrite Ef; lia|done]. }
    apply wp_iff in Hw as [([] & m'' & E' & ->)|(? & _ & [])]. eexists. split; [exact E'|].
    rewrite releases_eq by lia. cbn [set_page_allocated page_allocated]. rewrite Ef. unfold m1. rewrite grabs_eq by lia.
    cbn [page_allocated]. replace (first_page m + i - first_page m) with i by lia.
    apply mark_unmark; [lia|]. intros j Hj. replace j with (first_page m + j - first_page m) by lia. apply Hav. lia.
  - right. by split.
Qed.

Lemma alloc_pages_first_fit_witness :
  (∃ i m', alloc_pages 3 space0 = Ok ((first_page space0 + i) * 4096) m' ∧ m' = grabs (first_page space0 + i) (Z.to_nat 3) space0 ∧
     0 ≤ i ∧ i + 3 ≤ NUM_PAGES ∧ (∀ j, i ≤ j < i + 3 → avail space0 (first_page space0 + j)) ∧
     (∀ i', 0 ≤ i' < i → blocked space0 3 i') ∧
     ∃ m'', free_pages ((first_page space0 + i) * 4096) 3 m' = Ok tt m'' ∧ page_allocated m'' = page_allocated space0) ∨
  (alloc_pages 3 space0 = Panic space0 ∧ ∀ i, 0 ≤ i ≤ NUM_PAGES - 3 → blocked space0 3 i).
Proof. apply alloc_pages_first_fit; [apply space0_vm|unfold NUM_PAGES; lia]. Defined.

(** ** Page tables *)

(** [map_page] makes exactly the one page table entry point to the page with
    the given flags: no other entry of any address space and no byte of a data
    page changes, a missing second-level table comes from the allocator, and
    address spaces still share nothing; it stops the kernel only for an unaligned
    address or when no page is free. *)
Theorem map_page_refines m R K r va p fl : vm_ok m R K → r ∈ R → va mod 4096 = 0 →
  0 ≤ p < 1048576 → 0 ≤ fl < 1024 →
  ¬ user_leaf m (vpn1 va) (pte m r (vpn1 va) (vpn0 va)) →
  (user_leaf m (vpn1 va) (entry p fl) → p ∈ K) →
  (has_flag fl PAGE_U = true → user_leaf m (vpn1 va) (entry p fl) ∧ has_flag fl PAGE_R = true) →
  (∃ m', map_page (r * 4096) va (p * 4096) fl m = Ok tt m' ∧
     vm_ok m' R (if decide (user_leaf m (vpn1 va) (entry p fl)) then K ∖ {[p]} else K) ∧
     mapped R K m m' r (vpn1 va) (vpn0 va) (entry p fl)) ∨
  (∃ m', map_page (r * 4096) va (p * 4096) fl m = Panic m' ∧ full m').
Proof.
  intros. pose proof (map_page_wp m R K r va p fl) as Hw. cbv zeta in Hw.
  apply wp_iff in Hw as [([] & m' & E & H')|(m' & E & [H' _])]; [left|right|done..]; by exists m'.
Qed.

Lemma map_page_refines_witness :
  (∃ m', map_page (ROOT * 4096) VIRTIO_BLK0_PADDR (65537 * 4096) (Z.lor PAGE_R PAGE_W) space0 = Ok tt m' ∧
     vm_ok m' {[ROOT]} (if decide (user_leaf space0 (vpn1 VIRTIO_BLK0_PADDR) (entry 65537 (Z.lor PAGE_R PAGE_W))) then ∅ ∖ {[65537]} else ∅) ∧
     mapped {[ROOT]} ∅ space0 m' ROOT (vpn1 VIRTIO_BLK0_PADDR) (vpn0 VIRTIO_BLK0_PADDR) (entry 65537 (Z.lor PAGE_R PAGE_W))) ∨
  (∃ m', map_page (ROOT * 4096) VIRTIO_BLK0_PADDR (65537 * 4096) (Z.lor PAGE_R PAGE_W) space0 = Panic m' ∧ full m').
Proof.
  assert (¬ user_leaf space0 (vpn1 VIRTIO_BLK0_PADDR) (entry 65537 (Z.lor PAGE_R PAGE_W))) as Hn.
  { intros (_ & _ & Hm). change (ppn (entry 65537 (Z.lor PAGE_R PAGE_W))) with 65537 in Hm. unfold managed in Hm.
    change (first_page space0) with 525312 in Hm. lia. }
  apply map_page_refines; [apply space0_vm|by apply elem_of_singleton|reflexivity|lia|change (Z.lor PAGE_R PAGE_W) with 6; lia|..].
  - rewrite empty_pte; [intros (_ & Hv & _); discriminate Hv| |apply vpn1_range]. intros j Hj. by apply word_grab_in.
  - intros Hu. by destruct Hn.
  - intros Hu. discriminate Hu.
Defined.

(** ** Pointer checks *)

(** C17: a write buffer passes the check exactly when it ends inside the user half
    and every page it covers is mapped for the running program, writable; then the
    kernel's store through the pointer cannot fault, puts the bytes there, and
    changes nothing else in memory: no page table, no other byte, and no byte that
    any other address space or the kernel holds. *)
Theorem write_buffer_safe m R K r addr len l : vm_ok m R K → active m R r →
  0 ≤ addr < 4294967296 → 0 ≤ len < 4294967296 → bytes l → Z.of_nat (length l) ≤ len →
  ∃ b, validate_user_write_buffer addr len m = Ok b m ∧
    (b = true ↔ addr + len ≤ USER_TOP ∧ ∀ va, addr / 4096 * 4096 ≤ va < addr + len → umapped m r PAGE_W va) ∧
    (b = true → ∃ m', copy_to_user addr l m = Ok tt m' ∧ vm_ok m' R K ∧ stored R m m' r addr l ∧
       (∀ r' va, r' ∈ R → r' ≠ r → umapped m r' 0 va → ubyte m' r' va = ubyte m r' va) ∧
       ∀ q, q ∈ K → page_bytes m' q = page_bytes m q).
Proof.
  intros Hvm Hact Ha Hl Hb Hlen. pose proof (validate_pages_wp Hvm Hact PAGE_W addr len Ha Hl) as Hv.
  apply wp_iff in Hv as [(b & m0 & E & -> & Hiff)|(? & _ & [])]. exists b. split; [exact E|]. split; [exact Hiff|].
  intros Hb'. destruct (proj1 Hiff Hb') as [Htop Hum].
  assert (∀ va, addr ≤ va < addr + Z.of_nat (length l) → umapped m r PAGE_W va) as Hum'.
  { intros va Hva. apply Hum. Z.div_mod_to_equations. lia. }
  pose proof (copy_to_user_wp m R K r addr l Hvm Hact Hb ltac:(lia) ltac:(lia) Hum') as Hw.
  apply wp_iff in Hw as [([] & m' & E' & Hst & Hvm')|(? & _ & [])]. exists m'. split; [done|]. split; [done|]. split; [done|].
  assert (∀ q l, holds m R K l q → (∀ i j, l ≠ Leaf r i j) → ∀ o, 0 ≤ o < 4096 → byte_at m' (q * 4096 + o) = byte_at m (q * 4096 + o)) as Hother.
  { intros q l0 Hq Hl0 o Ho. apply (sd_out _ _ _ _ _ _ Hst). intros va Hva Hp. unfold phys in Hp.
    pose proof (Z.mod_pos_bound va 4096 ltac:(lia)). assert (ppn (upte m r va) = q) as Eq by lia.
    destruct (umapped_leaf Hvm Hact PAGE_W va (Hum' va Hva)) as [_ Hleaf]. rewrite Eq in Hleaf.
    apply (Hl0 (vpn1 va) (vpn0 va)). by apply (vo_inj m R K Hvm _ _ q). }
  split.
  - intros r' va Hr' Hne Hu. unfold ubyte. rewrite (phys_same R m) by (done || apply Hst). unfold phys.
    apply (Hother _ (Leaf r' (vpn1 va) (vpn0 va))); [|congruence|apply Z.mod_pos_bound; lia].
    destruct Hu as (Hv1 & Hu1 & _). split; [done|]. split; [apply vpn1_range|]. split; [apply vpn0_range|]. split; [|done].
    apply (vo_user m R K Hvm); [done|apply vpn1_range|apply vpn0_range|done..].
  - intros q Hq. apply page_bytes_ext; [apply Hvm'|apply Hvm|]. intros o Ho. by apply (Hother q (Kept q)).
Qed.

Lemma write_buffer_safe_witness : ∃ m', copy_to_user (USER_BASE + 16) [1; 2; 3] space2 = Ok tt m' ∧ ubyte m' ROOT (USER_BASE + 17) = 2.
Proof.
  destruct space2_ok as (Hvm & Hact & _).
  destruct (write_buffer_safe space2 {[ROOT]} ∅ ROOT (USER_BASE + 16) 8 [1; 2; 3] Hvm Hact) as (b & _ & Hiff & H).
  - unfold USER_BASE. lia.
  - lia.
  - repeat constructor; unfold is_byte; lia.
  - cbn. lia.
  - destruct H as (m' & E & _ & Hst & _).
    + apply Hiff. split; [unfold USER_BASE, USER_TOP; lia|]. intros va Hva. apply space2_mapped; [|by right; left].
      unfold USER_BASE in *. change ((16777216 + 16) / 4096 * 4096) with 16777216 in Hva. lia.
    + exists m'. split; [exact E|]. rewrite (sd_in _ _ _ _ _ _ Hst) by (cbn [length]; lia).
      replace (USER_BASE + 17 - (USER_BASE + 16)) with 1 by lia. reflexivity.
Defined.

(** C18: a string pointer passes the check exactly when the program can read a
    terminated string there, below the kernel; the scan ends for every pointer, and
    after the check the kernel reads exactly that string. *)
Theorem user_string_safe m R K r s : vm_ok m R K → active m R r → 0 ≤ s < 4294967296 →
  ∃ b, validate_user_string s m = Ok b m ∧ (b = true ↔ ∃ n, ustring m r s n) ∧
    ∀ n, ustring m r s n → user_string s m = Ok (ubytes m r s (Z.to_nat n) ++ [0]) m.
Proof.
  intros Hvm Hact Hs. pose proof (validate_user_string_wp m R K r s Hvm Hact Hs) as Hv.
  apply wp_iff in Hv as [(b & m0 & E & -> & Hiff)|(? & _ & [])]. exists b. split; [done|]. split; [done|]. intros n Hn.
  assert (wp (user_string s) (λ l m', l = ubytes m r s (Z.to_nat n) ++ [0] ∧ m' = m) (λ _, False) m) as Hw
    by (apply (user_string_wp m R K r s n); [done|done|lia|done|done]).
  by apply wp_iff in Hw as [(l & m' & E' & -> & ->)|(? & _ & [])].
Qed.

Lemma user_string_safe_witness :
  validate_user_string USER_BASE space2 = Ok true space2 ∧ user_string USER_BASE space2 = Ok [0] space2.
Proof.
  destruct space2_ok as (Hvm & Hact & Hpte).
  destruct (user_string_safe space2 {[ROOT]} ∅ ROOT USER_BASE Hvm Hact) as (b & E & Hiff & Hstr); [unfold USER_BASE; lia|].
  assert (ustring space2 ROOT USER_BASE 0) as Hn.
  { split; [lia|]. split; [unfold USER_BASE, USER_TOP; lia|]. split; [|split].
    - intros va Hva. apply space2_mapped; [lia|by left].
    - lia.
    - rewrite Z.add_0_r. unfold ubyte, phys. rewrite Hpte by lia. vm_compute. reflexivity. }
  assert (b = true) as -> by (apply Hiff; by exists 0). split; [exact E|]. exact (Hstr 0 Hn).
Defined.

(** ** The end of an address space *)

(** Tearing down an address space releases exactly the pages it holds, the user
    pages, the page tables and the root, and no page of another address space or of
    the kernel; what remains still shares nothing and leaks nothing. *)
Theorem address_space_freed m R K r : vm_ok m R K → r ∈ R →
  ∃ m', (free_tables (r * 4096) 0 1024;; free_pages (r * 4096) 1) m = Ok tt m' ∧
    vm_ok m' (R ∖ {[r]}) K ∧ (∀ p, alloced m' p ↔ alloced m p ∧ ¬ space_holds (R := R) (K := K) (r := r) (m := m) p) ∧
    ∀ p, page_bytes m' p = page_bytes m p.
Proof.
  intros Hvm Hr. pose proof (free_space_wp Hvm Hr) as Hw.
  apply wp_iff in Hw as [([] & m' & E & Hvm' & Hfr)|(? & _ & [])]. exists m'. split; [done|]. split; [done|].
  split; [apply Hfr|]. intros p. unfold page_bytes. by rewrite (fr_ram _ _ _ Hfr).
Qed.

Lemma address_space_freed_witness :
  ∃ m', (free_tables (ROOT * 4096) 0 1024;; free_pages (ROOT * 4096) 1) space2 = Ok tt m' ∧
    vm_ok m' ({[ROOT]} ∖ {[ROOT]}) ∅ ∧ ∀ p, alloced m' p → False.
Proof.
  destruct space2_ok as (Hvm & _). assert (ROOT ∈ ({[ROOT]} : gset Z)) as Hr by (apply elem_of_singleton; reflexivity).
  destruct (address_space_freed space2 {[ROOT]} ∅ ROOT Hvm Hr) as (m' & E & Hvm' & _).
  exists m'. split; [exact E|]. split; [exact Hvm'|]. intros p Hp.
  apply (vo_alloced _ _ _ Hvm') in Hp as [[r|r i|r i j|q] [H _]]; [..|exact (not_elem_of_empty q H)].
  all: apply elem_of_difference in H as [H1 H2]; exact (H2 H1).
Defined.
