(* ===== verification/Sched.v ===== *)
(** * The scheduler

    [yield] picks the next runnable process in round-robin order. Every process
    that stays runnable gets the processor within [PROCS_MAX] switches, and a
    process that has exited is never picked again. *)

From S2P Require Import Prelude CLib FsTypes Block Inode KState FdTable Page Process.

Definition runnable (p : Process) : Prop := p_state p = PROCSTATE_RUNNABLE ∧ 0 < pid p.

(** Pids are slot numbers plus one; the idle process, in its slot, has pid 0. *)
Record procs_ok (k : kernel) : Prop := {
  po_len : length (procs k) = PROCS_MAX;
  po_pid i p : procs k !! i = Some p → p_state p ≠ PROCSTATE_UNUSED →
    pid p = if decide (idle_proc k = Some i) then 0 else Z.of_nat i + 1;
  po_idle : ∃ i p, idle_proc k = Some i ∧ procs k !! i = Some p ∧ p_state p ≠ PROCSTATE_UNUSED;
  po_current : ∃ i p, current_proc k = Some i ∧ procs k !! i = Some p ∧ p_state p ≠ PROCSTATE_UNUSED
}.

Definition slot_of (start : Z) (i : nat) : nat := Z.to_nat ((start + Z.of_nat i) mod Z.of_nat PROCS_MAX).

Lemma next_runnable_spec l start n i : length l = PROCS_MAX →
  match next_runnable l start i n with
  | Some s => ∃ j p, (i ≤ j < i + n)%nat ∧ s = slot_of start j ∧ l !! s = Some p ∧ runnable p ∧
      ∀ j', (i ≤ j' < j)%nat → ∃ p', l !! slot_of start j' = Some p' ∧ ¬ runnable p'
  | None => ∀ j', (i ≤ j' < i + n)%nat → ∃ p', l !! slot_of start j' = Some p' ∧ ¬ runnable p'
  end.
Proof.
  intros Hl. revert i. induction n as [|n IH]; intros i; cbn [next_runnable]; [intros j'; lia|].
  fold (slot_of start i). destruct (l !! slot_of start i) as [p|] eqn:E.
  2: { exfalso. apply lookup_ge_None in E. rewrite Hl in E. unfold slot_of, PROCS_MAX in E.
       pose proof (Z.mod_pos_bound (start + Z.of_nat i) 8 ltac:(lia)). change (Z.of_nat 8) with 8 in E. lia. }
  destruct (bool_decide _ && _) eqn:Er.
  - apply andb_true_iff in Er as [Hst%bool_decide_eq_true Hp%Z.ltb_lt].
    exists i, p. split; [lia|]. split; [done|]. split; [done|]. split; [done|]. intros j'. lia.
  - assert (¬ runnable p) as Hn.
    { intros [Hst Hp]. rewrite bool_decide_eq_true_2 in Er by done. apply Z.ltb_lt in Hp. by rewrite Hp in Er. }
    specialize (IH (S i)). destruct (next_runnable l start (S i) n) as [s|].
    + destruct IH as (j & q & Hj & Hs & Hq & Hr & Hbefore). exists j, q. split; [lia|]. do 3 (split; [done|]).
      intros j' Hj'. destruct (decide (j' = i)) as [->|]; [by exists p|]. apply Hbefore. lia.
    + intros j' Hj'. destruct (decide (j' = i)) as [->|]; [by exists p|]. apply IH. lia.
Qed.

(** How far slot [s] is from the place where the scan starts. *)
Definition distance (start : Z) (s : nat) : nat := Z.to_nat ((Z.of_nat s - start) mod Z.of_nat PROCS_MAX).

Lemma slot_distance start s : (s < PROCS_MAX)%nat → slot_of start (distance start s) = s.
Proof.
  intros Hs. unfold slot_of, distance, PROCS_MAX in *. change (Z.of_nat 8) with 8.
  pose proof (Z.mod_pos_bound (Z.of_nat s - start) 8 ltac:(lia)). rewrite Z2Nat.id by lia.
  rewrite Z.add_mod_idemp_r by lia. replace (start + (Z.of_nat s - start)) with (Z.of_nat s) by lia.
  rewrite Z.mod_small by lia. lia.
Qed.

Lemma distance_bound start s : (distance start s < PROCS_MAX)%nat.
Proof. unfold distance, PROCS_MAX. pose proof (Z.mod_pos_bound (Z.of_nat s - start) (Z.of_nat 8) ltac:(lia)). lia. Qed.

(** Starting after slot [j] of the scan brings [s] closer. *)
Lemma distance_next start s j : (s < PROCS_MAX)%nat → (j < distance start s)%nat →
  distance (Z.of_nat (slot_of start j) + 1) s = (distance start s - j - 1)%nat.
Proof.
  unfold distance, slot_of, PROCS_MAX. change (Z.of_nat 8) with 8. intros Hs Hj.
  pose proof (Z.mod_pos_bound (start + Z.of_nat j) 8 ltac:(lia)). rewrite Z2Nat.id by lia.
  Z.div_mod_to_equations. lia.
Qed.

(** The start of the scan is the pid of the running process. *)
Definition start_of (k : kernel) : Z :=
  match current_proc k with
  | Some c => match procs k !! c with Some p => pid p | None => 0 end
  | None => 0
  end.

(** What [yield_select] does. *)
Lemma yield_select_spec k : procs_ok k →
  ∃ n p r, procs k !! n = Some p ∧
    yield_select k = Ok r (if decide (current_proc k = Some n) then k
      else set_current (Some n) (set_kmem (set_satp (Z.lor SATP_SV32 (PAGE_TABLE_TO_INDEX (page_table p))) (kmem k)) k)) ∧
    r = (if decide (current_proc k = Some n) then None else Some n) ∧
    match next_runnable (procs k) (start_of k) 0 PROCS_MAX with
    | Some s => n = s
    | None => idle_proc k = Some n
    end.
Proof.
  intros Hk. destruct (po_current k Hk) as (c & pc & Hc & Hpc & _). destruct (po_idle k Hk) as (i0 & p0 & Hi0 & Hp0 & _).
  pose proof (next_runnable_spec (procs k) (start_of k) PROCS_MAX 0 (po_len k Hk)) as Hnext.
  unfold start_of in *. rewrite Hc, Hpc in *.
  assert (∃ n p, procs k !! n = Some p ∧
    (match next_runnable (procs k) (pid pc) 0 PROCS_MAX with Some s => Some s | None => idle_proc k end) = Some n ∧
    match next_runnable (procs k) (pid pc) 0 PROCS_MAX with Some s => n = s | None => idle_proc k = Some n end)
    as (n & p & Hp & Hsel & Hn).
  { destruct (next_runnable _ _ _ _) as [s|].
    - destruct Hnext as (j & p & _ & -> & Hp & _). by eexists _, p.
    - by exists i0, p0. }
  eexists n, p, _. split; [done|]. split; [|split; [reflexivity|done]].
  unfold yield_select, current, get_current_process, proc, gets, mbind, M_bind, mret, M_ret. rewrite Hc. cbn [expect mret M_ret].
  unfold mret, M_ret. rewrite Hpc. cbn [expect]. unfold mret, M_ret. rewrite Hsel.
  destruct (decide (Some c = Some n)) as [E|E].
  - rewrite bool_decide_eq_true_2 by congruence. done.
  - rewrite bool_decide_eq_false_2 by congruence. cbn [expect]. unfold mret, M_ret. rewrite Hp. done.
Qed.

(** ** Turns

    From one call of [yield] to the next: the processor goes where [yield_select]
    says, and the process that has it runs; whatever that process does, it stays
    the running one. *)
Definition turn (k k' : kernel) : Prop :=
  ∃ r k1, yield_select k = Ok r k1 ∧ current_proc k' = current_proc k1 ∧ idle_proc k' = idle_proc k.

(** Slot [s] gets the processor, or it is closer than before. *)
Lemma turn_closer k k' s p : procs_ok k → procs_ok k' → turn k k' →
  procs k !! s = Some p → runnable p →
  current_proc k' = Some s ∨ (distance (start_of k') s < distance (start_of k) s)%nat.
Proof.
  intros Hk Hk' (r & k1 & Hy & Hc & Hi) Hp Hr.
  pose proof (lookup_lt_Some _ _ _ Hp) as Hs. rewrite (po_len k Hk) in Hs.
  destruct (yield_select_spec k Hk) as (n & q & r' & Hq & Hy' & _ & Hn). rewrite Hy' in Hy. injection Hy as _ <-.
  assert (current_proc k' = Some n) as Hcn by (rewrite Hc; destruct (decide _); done).
  pose proof (next_runnable_spec (procs k) (start_of k) PROCS_MAX 0 (po_len k Hk)) as Hnext.
  pose proof (distance_bound (start_of k) s) as Hd.
  destruct (next_runnable _ _ _ _) as [s'|].
  - subst s'. destruct Hnext as (j & q' & Hj & -> & Hq' & Hrq & Hbefore).
    destruct (decide (j = distance (start_of k) s)) as [->|Hne].
    { left. by rewrite slot_distance in Hcn. }
    destruct (decide (distance (start_of k) s < j)%nat) as [Hlt|Hge].
    { destruct (Hbefore (distance (start_of k) s)) as (p' & Hp' & Hn'); [lia|].
      rewrite slot_distance in Hp' by done. congruence. }
    right. assert (start_of k' = Z.of_nat (slot_of (start_of k) j) + 1) as ->.
    { destruct (po_current k' Hk') as (c & pc & Hc' & Hpc & Hu). rewrite Hcn in Hc'. injection Hc' as <-.
      unfold start_of at 1. rewrite Hcn, Hpc. rewrite (po_pid k' Hk' _ _ Hpc Hu). rewrite decide_False; [done|].
      rewrite Hi. intros Hidle. destruct Hrq as [Hst Hpid].
      pose proof (po_pid k Hk _ _ Hq' ltac:(rewrite Hst; done)) as E. rewrite decide_True in E by done. lia. }
    rewrite distance_next by lia. lia.
  - destruct (Hnext (distance (start_of k) s)) as (p' & Hp' & Hn'); [lia|].
    rewrite slot_distance in Hp' by done. congruence.
Qed.

(** C24: round robin is fair: a process that stays runnable has the processor at
    least once in any [PROCS_MAX] consecutive turns, whatever the other processes
    do in theirs. *)
Theorem yield_fair (tr : nat → kernel) (s : nat) :
  (∀ n, procs_ok (tr n)) → (∀ n, turn (tr n) (tr (S n))) →
  (∀ n, ∃ p, procs (tr n) !! s = Some p ∧ runnable p) →
  ∀ n, ∃ j, (n < j ≤ n + PROCS_MAX)%nat ∧ current_proc (tr j) = Some s.
Proof.
  intros Hok Hturn Hrun n.
  assert (∀ d n, (distance (start_of (tr n)) s < d)%nat →
    ∃ j, (n < j ≤ n + d)%nat ∧ current_proc (tr j) = Some s) as Hind.
  { clear n. induction d as [|d IH]; intros n Hd; [lia|]. destruct (Hrun n) as (p & Hp & Hr).
    destruct (turn_closer (tr n) (tr (S n)) s p) as [Hc|Hc]; [done..| |].
    - exists (S n). split; [lia|done].
    - destruct (IH (S n)) as (j & Hj & Hcj); [lia|]. exists j. split; [lia|done]. }
  apply Hind, distance_bound.
Qed.

(** Two runnable processes and the idle one, taking turns. *)
Definition sample_proc (n : Z) (st : ProcState) : Process :=
  mkProcess n st 0 (zeros 13) 0 None 0 0 [] [] [].
Definition sample_procs : list Process :=
  [sample_proc 0 PROCSTATE_RUNNABLE; sample_proc 2 PROCSTATE_RUNNABLE; sample_proc 3 PROCSTATE_RUNNABLE] ++
  replicate 5 (sample_proc 0 PROCSTATE_UNUSED).
Definition sample_fs : fs := Fs [] [] [] [] 0.
Definition sample_sched (c : nat) : kernel :=
  Kernel sample_fs [] sample_procs (Some c) (Some 0%nat) (Memory ∅ [] (Z.lor SATP_SV32 0) 0) (Console [] []).
Fixpoint sample_trace (n : nat) : kernel :=
  match n with O => sample_sched 2 | S n => state_of (yield_select (sample_trace n)) (sample_sched 0) end.

Lemma sample_procs_ok c : (c < 3)%nat → procs_ok (sample_sched c).
Proof.
  intros Hc. split; [done|..].
  - intros i p Hp Hu. do 8 (destruct i as [|i]; [by injection Hp as <-|]). done.
  - by exists 0%nat, (sample_proc 0 PROCSTATE_RUNNABLE).
  - destruct c as [|[|[|c]]]; [..|lia]; eexists _, _; split; done.
Qed.

Lemma sample_trace_eq n : sample_trace (2 * n) = sample_sched 2 ∧ sample_trace (2 * n + 1) = sample_sched 1.
Proof.
  assert (state_of (yield_select (sample_sched 2)) (sample_sched 0) = sample_sched 1) as E1 by (vm_compute; done).
  assert (state_of (yield_select (sample_sched 1)) (sample_sched 0) = sample_sched 2) as E2 by (vm_compute; done).
  induction n as [|n [IH1 IH2]]; [by split; [|cbn; rewrite E1]|].
  replace (2 * S n)%nat with (S (2 * n + 1)) by lia. replace (S (2 * n + 1) + 1)%nat with (S (S (2 * n + 1))) by lia.
  cbn [sample_trace]. rewrite IH2, E2, E1. done.
Qed.

Lemma sample_trace_cases n : sample_trace n = sample_sched 2 ∨ sample_trace n = sample_sched 1.
Proof.
  destruct (sample_trace_eq (n / 2)%nat) as [H1 H2]. pose proof (Nat.div_mod_eq n 2) as E.
  destruct (n mod 2)%nat as [|[|x]] eqn:Em; [left|right|pose proof (Nat.mod_upper_bound n 2); lia].
  - by rewrite E, Nat.add_0_r.
  - by rewrite E.
Qed.

Lemma sample_turn c : (c < 3)%nat → turn (sample_sched c) (state_of (yield_select (sample_sched c)) (sample_sched 0)).
Proof.
  intros Hc. destruct c as [|[|[|c]]]; [..|lia]; (eexists _, _; split; [apply run_ok; vm_compute; reflexivity|done]).
Qed.

Lemma yield_fair_witness : ∃ j, (5 < j ≤ 5 + PROCS_MAX)%nat ∧ current_proc (sample_trace j) = Some 1%nat.
Proof.
  apply (yield_fair sample_trace 1).
  - intros n. destruct (sample_trace_cases n) as [-> | ->]; apply sample_procs_ok; lia.
  - intros n. cbn [sample_trace]. destruct (sample_trace_cases n) as [-> | ->]; apply sample_turn; lia.
  - intros n. exists (sample_proc 2 PROCSTATE_RUNNABLE). destruct (sample_trace_cases n) as [-> | ->]; done.
Defined.
