(* ===== verification/FdInv.v ===== *)
(** * The invariant of the kernel's tables

    Reference counts are exact: an inode has as many references as there are open
    files and current directories that point at it, an open file as many as there
    are descriptors. On top of that, every open file designates a loaded inode, and
    a writable one an inode outside the system device. *)

From S2P Require Import Prelude CLib FsTypes Block Inode FsInv FsAlloc FsMap FsGrow FsFile FsWrite.
From S2P Require Import FsTrunc FsCache Dir DirSpec FsRef Namei KState FdTable.

(** ** Counting *)

Fixpoint total {X} (f : X → Z) (l : list X) : Z :=
  match l with
  | [] => 0
  | x :: l => f x + total f l
  end.

Lemma total_insert {X} (f : X → Z) l i x y :
  l !! i = Some x → total f (<[i := y]> l) = total f l - f x + f y.
Proof.
  revert i. induction l as [|z l IH]; intros [|i] Hi; try done.
  - injection Hi as ->. cbn. lia.
  - change (f z + total f (<[i := y]> l) = f z + total f l - f x + f y). rewrite (IH i Hi). lia.
Qed.

Lemma total_alter {X} (f : X → Z) l i g x :
  l !! i = Some x → total f (alter g i l) = total f l - f x + f (g x).
Proof.
  revert i. induction l as [|z l IH]; intros [|i] Hi; try done.
  - injection Hi as ->. cbn. lia.
  - change (f z + total f (alter g i l) = f z + total f l - f x + f (g x)). rewrite (IH i Hi). lia.
Qed.

Lemma total_nonneg {X} (f : X → Z) l : (∀ x, 0 ≤ f x) → 0 ≤ total f l.
Proof. intros Hf. induction l as [|x l IH]; cbn; [lia|]. specialize (Hf x). lia. Qed.

Lemma total_member {X} (f : X → Z) l i x : (∀ x, 0 ≤ f x) → l !! i = Some x → f x ≤ total f l.
Proof.
  intros Hf. revert i. induction l as [|z l IH]; intros [|i] Hi; try done; cbn in *.
  - injection Hi as ->. pose proof (total_nonneg f l Hf). lia.
  - specialize (IH i Hi). specialize (Hf z). lia.
Qed.

Lemma total_ext {X} (f g : X → Z) l : (∀ x, f x = g x) → total f l = total g l.
Proof. intros H. induction l as [|x l IH]; cbn; [done|]. by rewrite H, IH. Qed.

Lemma total_replicate {X} (f : X → Z) n x : f x = 0 → total f (replicate n x) = 0.
Proof. intros Hx. induction n as [|n IH]; cbn; [done|]. lia. Qed.

Definition occ (j : nat) (X : list nat) : Z := total (λ x, if decide (x = j) then 1 else 0) X.

Lemma occ_cons j i X : occ j (i :: X) = (if decide (i = j) then 1 else 0) + occ j X.
Proof. done. Qed.

#[global] Arguments occ : simpl never.

Lemma occ_nonneg j X : 0 ≤ occ j X.
Proof. apply total_nonneg. intros. case_decide; lia. Qed.

(** ** Who refers to what *)

Definition file_holds (j : nat) (f : File) : Z :=
  if decide (0 < f_ref f ∧ f_ip f = Some j) then 1 else 0.
Definition cwd_holds (j : nat) (p : Process) : Z := if decide (cwd p = Some j) then 1 else 0.
Definition fd_holds (i : nat) (p : Process) : Z :=
  total (λ e, if decide (e = Some i) then 1 else 0) (ofile p).

Definition iref (s : fs) (j : nat) : Z :=
  match inode_table s !! j with Some ip => ref ip | None => 0 end.

Lemma file_holds_nonneg j f : 0 ≤ file_holds j f.
Proof. unfold file_holds. case_decide; lia. Qed.
Lemma cwd_holds_nonneg j p : 0 ≤ cwd_holds j p.
Proof. unfold cwd_holds. case_decide; lia. Qed.
Lemma fd_holds_nonneg i p : 0 ≤ fd_holds i p.
Proof. apply total_nonneg. intros. case_decide; lia. Qed.

(** ** The invariant *)

(** Every referenced cache entry stands for an inode of a device. *)
Definition nodes (s : fs) : Prop :=
  ∀ j ip, inode_table s !! j = Some ip → 0 < ref ip → node_ok s (dev ip, inum ip).

Definition file_ok (s : fs) (f : File) : Prop :=
  0 ≤ f_off f < 4294967296 ∧
  match f_type f with
  | FD_INODE => ∃ j d n, f_ip f = Some j ∧ dev_valid d ∧ held s d j n ∧ (f_writable f = true → d ≠ 0)
  | FD_CONSOLE => f_ip f = None
  | FD_NONE => False
  end.

(** [X] and [Y] are the references to inodes and to open files that the running
    code holds in local variables. *)
Record kinv (k : kernel) (A : Z → Z → ikey) (X Y : list nat) : Prop := Kinv {
  ki_tree : tree (kfs k) A;
  ki_nodes : nodes (kfs k);
  ki_irefs : ∀ j, iref (kfs k) j =
    total (file_holds j) (file_table k) + total (cwd_holds j) (procs k) + occ j X;
  ki_frefs : ∀ i f, file_table k !! i = Some f → f_ref f = total (fd_holds i) (procs k) + occ i Y;
  ki_files : ∀ i f, file_table k !! i = Some f → 0 < f_ref f → file_ok (kfs k) f;
  ki_fds : ∀ c p, procs k !! c = Some p → length (ofile p) = NUM_FILES_PER_PROCESS ∧
    ∀ fd i, ofile p !! fd = Some (Some i) → (i < length (file_table k))%nat;
  ki_cur : ∃ c p, current_proc k = Some c ∧ procs k !! c = Some p
}.

(** ** Filesystem steps *)

(** A step from [s] to [s'] that turns the local references [X] into [X']. *)
Record trans (s s' : fs) (X X' : list nat) : Prop := Trans {
  tn_iref : ∀ j, iref s' j - occ j X' = iref s j - occ j X;
  tn_held : ∀ j e m, held s e j m → 0 < iref s' j → held s' e j m;
  tn_nodes : nodes s'
}.

Lemma file_holds_pos s k A X Y i f j :
  kinv k A X Y → iref s j - occ j X = iref (kfs k) j - occ j X →
  file_table k !! i = Some f → 0 < f_ref f → f_ip f = Some j → 0 < iref s j.
Proof.
  intros K E Hf Hr Hj. pose proof (ki_irefs _ _ _ _ K j).
  pose proof (total_member (file_holds j) _ _ _ (file_holds_nonneg j) Hf) as H1.
  pose proof (total_nonneg (cwd_holds j) (procs k) (cwd_holds_nonneg j)). pose proof (occ_nonneg j X).
  unfold file_holds at 1 in H1. rewrite decide_True in H1 by done. lia.
Qed.

Lemma kinv_step k A X Y s' A' X' :
  kinv k A X Y → tree s' A' → trans (kfs k) s' X X' → kinv (set_kfs s' k) A' X' Y.
Proof.
  intros K T Tn. constructor; cbn; try apply K; [done|apply Tn| |].
  - intros j. pose proof (ki_irefs _ _ _ _ K j). pose proof (tn_iref _ _ _ _ Tn j). lia.
  - intros i f Hf Hr. destruct (ki_files _ _ _ _ K i f Hf Hr) as [Ho Ht]. split; [done|].
    destruct (f_type f); [done| |done]. destruct Ht as (j & d & n & Hj & Hd & Hh & Hw).
    exists j, d, n. split; [done|]. split; [done|]. split; [|done].
    eapply (tn_held _ _ _ _ Tn); [done|]. pose proof (ki_irefs _ _ _ _ K j).
    pose proof (total_member (file_holds j) _ _ _ (file_holds_nonneg j) Hf) as H1.
    pose proof (total_nonneg (cwd_holds j) (procs k) (cwd_holds_nonneg j)). pose proof (occ_nonneg j X').
    unfold file_holds at 1 in H1. rewrite decide_True in H1 by done.
    pose proof (tn_iref _ _ _ _ Tn j). lia.
Qed.

(** Where a reference is counted, the inode is pinned. *)
Lemma nodes_pinned s j : nodes s → 0 < iref s j → ∃ d n, node_ok s (d, n) ∧ pinned s d j n.
Proof.
  intros N Hr. unfold iref in Hr. destruct (inode_table s !! j) as [ip|] eqn:E; [|lia].
  exists (dev ip), (inum ip). pose proof (N j ip E Hr) as Hn. split; [done|]. split; [apply Hn|]. by exists ip.
Qed.

Lemma pinned_iref s d j n : pinned s d j n → 0 < iref s j.
Proof. intros [_ (ip & Hl & Hr & _)]. unfold iref. by rewrite Hl. Qed.

Lemma held_iref s d j n : held s d j n → 0 < iref s j.
Proof. intros Hh. by eapply pinned_iref, held_pinned. Qed.

(** The inode behind a counted reference is unique. *)
Lemma pinned_inj s d j n d' n' : pinned s d j n → pinned s d' j n' → d = d' ∧ n = n'.
Proof. intros [_ (ip & Hl & _ & <- & <-)] [_ (ip' & Hl' & _ & <- & <-)]. by simplify_eq. Qed.

Lemma refs_pinned s d j n : cache_ok (inode_table s) → pinned s d j n → refs s d n = iref s j.
Proof.
  intros HC [_ (ip & Hl & Hr & <- & <-)]. unfold iref. rewrite Hl. by apply (refs_live s j ip).
Qed.

Lemma nodes_table s f : nodes s → (∀ j ip, f (inode_table s) !! j = Some ip → 0 < ref ip →
  ∃ jp, inode_table s !! j = Some jp ∧ 0 < ref jp ∧ dev jp = dev ip ∧ inum jp = inum ip) →
  nodes (set_inode_table f s).
Proof. intros N H j ip Hj Hr. destruct (H j ip Hj Hr) as (jp & Hl & Hjr & <- & <-). by apply (N j jp). Qed.

(** A path walk that arrives somewhere adds one local reference. *)
Lemma tab_refs_pos t d n :
  0 < tab_refs t d n → ∃ j ip, t !! j = Some ip ∧ 0 < ref ip ∧ dev ip = d ∧ inum ip = n.
Proof.
  induction t as [|x t IH]; cbn; [lia|]. intros H. destruct (decide (0 < contrib d n x)) as [Hx|Hx].
  - exists 0%nat, x. unfold contrib in Hx. destruct (Z.eqb_spec (dev x) d), (Z.eqb_spec (inum x) n); cbn in Hx; try lia.
    done.
  - destruct IH as (j & ip & ? & ?); [lia|]. by exists (S j), ip.
Qed.

Lemma iref_out s s' δ j : walk s s' δ → inode_table s !! j = None → iref s' j = 0 ∧ iref s j = 0.
Proof.
  intros Wk E. unfold iref. rewrite E. apply lookup_ge_None in E. rewrite <-(wk_len _ _ _ Wk) in E.
  by rewrite (lookup_ge_None_2 _ _ E).
Qed.

Lemma visit_iref_live s s' δ j d n :
  visit s s' δ → cache_ok (inode_table s) → cache_ok (inode_table s') → pinned s d j n →
  iref s' j = iref s j + δ d n.
Proof.
  intros V HC HC' Hp. rewrite <-(refs_pinned s d j n), <-(refs_pinned s' d j n) by
    (done || by apply (vs_pin _ _ _ V)). apply (wk_refs _ _ _ (vs_walk _ _ _ V)).
Qed.

(** An entry that is live after a visit without being so before stands for an
    inode that got a reference. *)
Lemma visit_fresh s s' δ j ip :
  visit s s' δ → nodes s → cache_ok (inode_table s) → cache_ok (inode_table s') →
  inode_table s' !! j = Some ip → 0 < ref ip → iref s j ≤ 0 →
  refs s (dev ip) (inum ip) = 0 ∧ δ (dev ip) (inum ip) = ref ip.
Proof.
  intros V N HC HC' Hj Hr H0. pose proof (refs_live s' j ip HC' Hj Hr) as E.
  rewrite (wk_refs _ _ _ (vs_walk _ _ _ V)) in E.
  assert (Hnn : 0 ≤ refs s (dev ip) (inum ip)).
  { clear -HC. unfold refs. assert (Hr : ∀ i x, inode_table s !! i = Some x → 0 ≤ ref x) by apply (co_ref _ HC).
    revert Hr. generalize (inode_table s). induction l as [|x l IH]; intros Hr; cbn; [lia|].
    pose proof (Hr 0%nat x eq_refl). unfold contrib. specialize (IH (λ i, Hr (S i))). case_match; lia. }
  assert (refs s (dev ip) (inum ip) = 0) as E0; [|lia].
  destruct (decide (0 < refs s (dev ip) (inum ip))) as [Hp|]; [|lia]. exfalso.
  destruct (tab_refs_pos _ _ _ Hp) as (i & x & Hi & Hx & Ed & En).
  assert (P : pinned s (dev ip) i (inum ip)).
  { split; [|by exists x]. destruct (N i x Hi Hx) as [_ Ho]. cbn in Ho. by rewrite <-Ed, <-En. }
  destruct (vs_pin _ _ _ V _ _ _ P) as (_ & y & Hy & Hyr & Eyd & Eyn).
  assert (i = j) by (apply (co_uniq _ HC' i j y ip); done). subst i. unfold iref in H0. rewrite Hi in H0. lia.
Qed.

Lemma visit_zero_trans s s' X :
  visit s s' zero → nodes s → cache_ok (inode_table s) → cache_ok (inode_table s') → trans s s' X X.
Proof.
  intros V N HC HC'. assert (Hi : ∀ j, iref s' j = iref s j).
  { intros j. destruct (decide (0 < iref s j)) as [Hj|Hj].
    - destruct (nodes_pinned s j N Hj) as (d & n & _ & Hp).
      rewrite (visit_iref_live _ _ _ _ _ _ V HC HC' Hp). unfold zero. lia.
    - unfold iref at 1. destruct (inode_table s' !! j) as [ip|] eqn:E.
      + destruct (decide (0 < ref ip)) as [Hr|Hr].
        { destruct (visit_fresh _ _ _ _ _ V N HC HC' E Hr ltac:(lia)) as [_ H]. unfold zero in H. lia. }
        pose proof (co_ref _ HC' j ip E). unfold iref in *.
        destruct (inode_table s !! j) as [jp|] eqn:Ej; [pose proof (co_ref _ HC j jp Ej)|]; lia.
      + unfold iref in *. destruct (inode_table s !! j) as [jp|] eqn:Ej; [|done].
        apply lookup_ge_None in E. rewrite (wk_len _ _ _ (vs_walk _ _ _ V)) in E.
        rewrite (lookup_ge_None_2 _ _ E) in Ej. done. }
  constructor; [intros; by rewrite Hi|intros; by apply (vs_held _ _ _ V)|].
  intros j ip Hj Hr. destruct (decide (0 < iref s j)) as [H0|H0].
  - destruct (nodes_pinned s j N H0) as (d & n & Hn & Hp).
    destruct (vs_pin _ _ _ V _ _ _ Hp) as (_ & jp & Hjp & _ & <- & <-). simplify_eq.
    destruct Hn. split; [done|]. by apply (walk_inode_ok _ _ _ (vs_walk _ _ _ V)).
  - exfalso. specialize (Hi j). unfold iref at 1 in Hi. rewrite Hj in Hi. lia.
Qed.

Lemma visit_one_trans s s' X d n i :
  visit s s' (one d n) → pinned s' d i n → dev_valid d → nodes s →
  cache_ok (inode_table s) → cache_ok (inode_table s') → trans s s' X (i :: X).
Proof.
  intros V Hp Hd N HC HC'. pose proof (vs_walk _ _ _ V) as Wk.
  destruct (Hp) as [Hok (ip & Hl & Hr & Ed & En)].
  assert (Hone : ∀ j jp, inode_table s' !! j = Some jp → 0 < ref jp → dev jp = d → inum jp = n → j = i).
  { intros j jp Hj Hjr E1 E2. apply (co_uniq _ HC' j i jp ip); congruence || done. }
  assert (Hi : ∀ j, iref s' j = iref s j + (if decide (i = j) then 1 else 0)).
  { intros j. destruct (decide (0 < iref s j)) as [Hj|Hj].
    - destruct (nodes_pinned s j N Hj) as (e & m & _ & Hpj).
      rewrite (visit_iref_live _ _ _ _ _ _ V HC HC' Hpj). unfold one.
      destruct (vs_pin _ _ _ V _ _ _ Hpj) as (_ & jp & Hjl & Hjr & E1 & E2).
      repeat case_decide; try lia.
      + destruct H as [-> ->]. exfalso. by eapply H0, eq_sym, Hone.
      + subst j. exfalso. apply H. assert (jp = ip) as -> by congruence. split; congruence.
    - unfold iref at 1. destruct (inode_table s' !! j) as [jp|] eqn:E.
      + destruct (decide (0 < ref jp)) as [Hjr|Hjr].
        * destruct (visit_fresh _ _ _ _ _ V N HC HC' E Hjr ltac:(lia)) as [_ H]. unfold one in H.
          case_decide as E2; [|lia]. destruct E2 as [E2 E3].
          rewrite decide_True by (by symmetry; eapply Hone). unfold iref in *.
          destruct (inode_table s !! j) as [kp|] eqn:Ej; [pose proof (co_ref _ HC j kp Ej)|]; lia.
        * rewrite decide_False by (intros ->; assert (jp = ip) as -> by congruence; done). pose proof (co_ref _ HC' j jp E). unfold iref in *.
          destruct (inode_table s !! j) as [kp|] eqn:Ej; [pose proof (co_ref _ HC j kp Ej)|]; lia.
      + rewrite decide_False by (intros ->; congruence). unfold iref in *.
        destruct (inode_table s !! j) as [kp|] eqn:Ej; [|lia].
        apply lookup_ge_None in E. rewrite (wk_len _ _ _ Wk) in E.
        rewrite (lookup_ge_None_2 _ _ E) in Ej. done. }
  constructor; [intros j; rewrite Hi, occ_cons; lia|intros; by apply (vs_held _ _ _ V)|].
  intros j jp Hj Hjr. destruct (decide (0 < iref s j)) as [H0|H0].
  - destruct (nodes_pinned s j N H0) as (e & m & Hn & Hpj).
    destruct (vs_pin _ _ _ V _ _ _ Hpj) as (_ & kp & Hk & _ & <- & <-). simplify_eq.
    destruct Hn. split; [done|]. by apply (walk_inode_ok _ _ _ Wk).
  - destruct (visit_fresh _ _ _ _ _ V N HC HC' Hj Hjr ltac:(lia)) as [_ H]. unfold one in H.
    case_decide as E2; [|lia]. destruct E2 as [-> ->]. done.
Qed.
