(* ===== verification/FdSteps.v ===== *)
(** * Filesystem steps under the kernel invariant

    What each operation of the inode layer does to [kinv], in the form in which
    the system-call code composes them. *)

From S2P Require Import Prelude CLib FsTypes Block Inode FsInv FsAlloc FsMap FsGrow FsFile FsWrite.
From S2P Require Import FsTrunc FsCache Dir DirSpec FsRef Namei KState FdTable FdInv.

(** Only the inode cache differs. *)
Definition cached (s s' : fs) : Prop := ∃ f, s' = set_inode_table f s.

Lemma cached_refl s : cached s s.
Proof. exists id. by destruct s. Qed.

Lemma cached_trans s1 s2 s3 : cached s1 s2 → cached s2 s3 → cached s1 s3.
Proof. intros [f ->] [g ->]. by exists (λ t, g (f t)). Qed.

Lemma cached_content s s' d x : cached s s' → content s' d x = content s d x.
Proof. by intros [f ->]. Qed.

Lemma cached_dev s s' d : cached s s' → disk_of s' d = disk_of s d.
Proof. by intros [f ->]. Qed.

Lemma cached_inode_ok s s' d n : cached s s' → inode_ok s' d n ↔ inode_ok s d n.
Proof. by intros [f ->]. Qed.

Lemma visit_cached s s' δ : visit s s' δ → cached s s'.
Proof. intros V. apply (wk_state _ _ _ (vs_walk _ _ _ V)). Qed.

Lemma kinv_cache k A X Y : kinv k A X Y → cache_ok (inode_table (kfs k)).
Proof. intros K. eapply tree_cache, (ki_tree _ _ _ _ K). Qed.

Lemma kinv_perm k A X X' Y : (∀ j, occ j X = occ j X') → kinv k A X Y → kinv k A X' Y.
Proof. intros HX [T N I F G D C]. constructor; try done. intros j. rewrite <-HX. apply I. Qed.

Lemma kinv_swap k A i j X Y : kinv k A (i :: j :: X) Y → kinv k A (j :: i :: X) Y.
Proof. apply kinv_perm. intros x. rewrite !occ_cons. lia. Qed.

Lemma occ_in j X : j ∈ X → 0 < occ j X.
Proof.
  induction X as [|x X IH]; [by intros ?%elem_of_nil|]. rewrite occ_cons.
  intros [<-|H]%elem_of_cons; [rewrite decide_True by done|specialize (IH H); case_decide; lia].
  pose proof (occ_nonneg j X). lia.
Qed.

(** A local variable points at a referenced inode. *)
Lemma kinv_local k A X Y j :
  kinv k A X Y → j ∈ X → ∃ d n, node_ok (kfs k) (d, n) ∧ pinned (kfs k) d j n.
Proof.
  intros K Hj. apply nodes_pinned; [apply K|]. rewrite (ki_irefs _ _ _ _ K).
  pose proof (occ_in _ _ Hj). pose proof (total_nonneg (file_holds j) (file_table k) (file_holds_nonneg j)).
  pose proof (total_nonneg (cwd_holds j) (procs k) (cwd_holds_nonneg j)). lia.
Qed.

(** ** Path resolution *)

Lemma process_cwd_wp k A X Y c p (Q : ptr → kernel → Prop) R :
  kinv k A X Y → current_proc k = Some c → procs k !! c = Some p →
  (∀ x, cwd_at (kfs k) (cwd p) x → Q (cwd p) k) → wp process_cwd Q R k.
Proof.
  intros K Hc Hp HQ. unfold process_cwd, get_current_process.
  wp_step. wp_step. rewrite Hc. unfold proc. wp_step. wp_step. wp_step. eapply wp_expect; [exact Hp|].
  apply wp_ret. destruct (cwd p) as [j|] eqn:Ej; [|by apply (HQ None)].
  destruct (nodes_pinned (kfs k) j (ki_nodes _ _ _ _ K)) as (d & n & Hn & Hpin).
  - rewrite (ki_irefs _ _ _ _ K).
    pose proof (total_member (cwd_holds j) _ _ _ (cwd_holds_nonneg j) Hp) as H.
    unfold cwd_holds at 1 in H. rewrite decide_True in H by done.
    pose proof (total_nonneg (file_holds j) (file_table k) (file_holds_nonneg j)).
    pose proof (occ_nonneg j X). lia.
  - apply (HQ (Some (d, n))). split; [apply Hn|done].
Qed.

Lemma arrives_kinv k A X Y o q s' :
  kinv k A X Y → arrives (kfs k) o q s' → (∀ y, o = Some y → dev_valid y.1) →
  cached (kfs k) s' ∧
  match q with
  | Some i => ∃ y, o = Some y ∧ pinned s' y.1 i y.2 ∧ dev_valid y.1 ∧ kinv (set_kfs s' k) A (i :: X) Y
  | None => o = None ∧ kinv (set_kfs s' k) A X Y
  end.
Proof.
  intros K Ha Hv. pose proof (ki_tree _ _ _ _ K) as T. pose proof (kinv_cache _ _ _ _ K) as HC.
  destruct o as [y|], q as [i|]; try done; cbn in Ha.
  - destruct Ha as [V Hp]. split; [by eapply visit_cached|]. exists y.
    pose proof (walk_tree _ _ _ _ (vs_walk _ _ _ V) T) as T'. split; [done|]. split; [done|].
    split; [by apply Hv|]. eapply kinv_step; [done..|].
    eapply visit_one_trans; [done|done|by apply Hv|apply K|done|by eapply tree_cache].
  - split; [by eapply visit_cached|]. split; [done|].
    pose proof (walk_tree _ _ _ _ (vs_walk _ _ _ Ha) T) as T'. eapply kinv_step; [done..|].
    apply visit_zero_trans; [done|apply K|done|by eapply tree_cache].
Qed.

(** The abstract resolution stays inside the devices. *)
Lemma next_ok s A x c y : tree s A → node_ok s x → next s A x c = Some y → node_ok s y.
Proof.
  intros T Hx. unfold next. intros (z & Hz & ->)%fmap_Some. apply (go_down_ok s A T).
  destruct (go_up s A x c) as [u|] eqn:Eu; [|by eapply lookup_in_ok].
  injection Hz as ->. unfold go_up in Eu. destruct (_ && _); [|done].
  apply bind_Some in Eu as (m & Hm & Hl). destruct (mounted_ok s A T _ _ Hm) as (? & ? & _).
  by eapply (lookup_in_ok s A T (parent_dev m, parent_inum m)).
Qed.

Lemma resolve_ok s A parent x cs y :
  tree s A → node_ok s x → resolve s A parent x cs = Some y → node_ok s y.
Proof.
  intros T. revert x. induction cs as [|c cs IH]; intros x Hx; cbn; [by destruct parent; intros; simplify_eq|].
  destruct (is_dir A x); [|done]. cbn. destruct (parent && _); [by intros [= <-]|].
  intros (z & Hz & Hr)%bind_Some. eapply IH; [|done]. by eapply next_ok.
Qed.

Lemma resolve_parent_dir s A x cs y :
  resolve s A true x cs = Some y → is_dir A y = true ∧ cs ≠ [].
Proof.
  revert x. induction cs as [|c cs IH]; intros x; cbn; [done|].
  destruct (is_dir A x) eqn:E; [|done]. cbn. case_bool_decide.
  - intros [= <-]. done.
  - intros (z & Hz & Hr)%bind_Some. by destruct (IH z Hr).
Qed.

Lemma start_ok s A c x p : tree s A → cwd_at s c x → node_ok s (start x p).
Proof.
  intros T Hc. assert (node_ok s (0, 1)) as H0.
  { split; [split; cbn; lia|]. apply (te_root _ _ T 0). split; lia. }
  unfold start. case_bool_decide; [done|]. destruct c as [i|], x as [x|]; try done; cbn.
  destruct Hc as [Hd [Hn _]]. done.
Qed.

(** The place a path designates for the running process: its own inode, or the
    directory that holds its last component. *)
Definition names (k : kernel) (A : Z → Z → ikey) (parent : bool) (p : list Z) (o : option (Z * Z)) : Prop :=
  ∃ c x, cwd_at (kfs k) c x ∧ (∃ i pr, current_proc k = Some i ∧ procs k !! i = Some pr ∧ cwd pr = c) ∧
    o = resolve (kfs k) A parent (start x p) (comps p).

Lemma kinv_namex k A X Y parent p r (Q : ptr * list Z → kernel → Prop) (R : kernel → Prop) :
  kinv k A X Y → nonzero p →
  (∀ nm s', names k A parent p None → cached (kfs k) s' → kinv (set_kfs s' k) A X Y → Q (None, nm) (set_kfs s' k)) →
  (∀ y i nm s', names k A parent p (Some y) → cached (kfs k) s' → kinv (set_kfs s' k) A (i :: X) Y →
     dev_valid y.1 → pinned s' y.1 i y.2 →
     (parent = true → ∃ c, last (comps p) = Some c ∧ nm = take 29 c ++ [0] ∧ is_dir A y = true ∧ held s' y.1 i y.2) →
     Q (Some i, nm) (set_kfs s' k)) →
  (∀ s', cache_full s' → R (set_kfs s' k)) →
  wp (c ← process_cwd; in_fs (namex c (p ++ 0 :: r) parent)) Q R k.
Proof.
  intros K Hp HN HS HR. pose proof (ki_tree _ _ _ _ K) as T. wp_step.
  destruct (ki_cur _ _ _ _ K) as (ci & pr & Hci & Hpr).
  assert (Hwp : ∀ x, cwd_at (kfs k) (cwd pr) x → wp (in_fs (namex (cwd pr) (p ++ 0 :: r) parent)) Q R k).
  { intros x Hx. apply wp_in_fs. eapply namex_wp; [done..| |done]. intros q nm s' Ha Hnm Hld.
    assert (Hnames : names k A parent p (resolve (kfs k) A parent (start x p) (comps p))).
    { exists (cwd pr), x. split; [done|]. split; [|done]. by exists ci, pr. }
    assert (Hv : ∀ y, resolve (kfs k) A parent (start x p) (comps p) = Some y → dev_valid y.1).
    { intros y Hy. eapply resolve_ok in Hy; [apply Hy|done|by eapply start_ok]. }
    destruct (arrives_kinv _ _ _ _ _ _ _ K Ha Hv) as [Hcd Hk]. destruct q as [i|].
    - destruct Hk as (y & Ey & Hpin & Hvy & K'). rewrite Ey in Hnames. apply (HS y i nm s'); try done.
      intros ->. destruct (resolve_parent_dir _ _ _ _ _ Ey) as [Hd Hne].
      destruct (last (comps p)) as [c|] eqn:El; [|by apply last_None in El]. exists c. split; [done|].
      split; [by apply Hnm|]. split; [done|]. by apply Hld.
    - destruct Hk as [Ey K']. rewrite Ey in Hnames. by apply HN. }
  by eapply process_cwd_wp.
Qed.

(** ** References *)

Lemma kinv_iput k A X Y j (Q : unit → kernel → Prop) R :
  kinv k A (j :: X) Y →
  (∀ s', cached (kfs k) s' → kinv (set_kfs s' k) A X Y →
     (∀ i d n, 0 < iref s' i → held (kfs k) d i n → held s' d i n) → Q tt (set_kfs s' k)) →
  wp (in_fs (iput (Some j))) Q R k.
Proof.
  intros K HQ. destruct (kinv_local _ _ _ _ j K ltac:(left)) as (d & n & Hn & Hp).
  apply wp_in_fs. apply iput_wp; [by eapply pinned_live|]. intros s' D.
  destruct (dropped_entry _ _ _ D) as [Ht (ip & Hl & Hr & Hl')].
  assert (Hh : ∀ i e m, held (kfs k) e i m → 0 < iref s' i → held s' e i m).
  { intros i e m [Hm (x & Hx & Hxr & Hxv & Hxd & Hxn)] Hi. split; [by rewrite (dr_state _ _ _ D)|].
    destruct (decide (i = j)) as [->|Hne]; [|exists x; by rewrite Ht].
    simplify_eq. unfold iref in Hi. rewrite Hl' in Hi. by eexists. }
  apply HQ.
  - rewrite (dr_state _ _ _ D). by eexists.
  - pose proof (dropped_walk _ _ _ _ _ D Hp) as Wk.
    eapply kinv_step; [done|by eapply walk_tree, (ki_tree _ _ _ _ K)|]. constructor; [|done|].
    + intros i. rewrite occ_cons. unfold iref. destruct (decide (j = i)) as [<-|Hne].
      * rewrite Hl, Hl'. cbn. lia.
      * rewrite Ht by done. lia.
    + intros i x Hx Hxr. destruct (decide (i = j)) as [->|Hne].
      * simplify_eq. destruct (ki_nodes _ _ _ _ K j ip Hl Hr). split; [done|]. by apply (walk_inode_ok _ _ _ Wk).
      * rewrite Ht in Hx by done. destruct (ki_nodes _ _ _ _ K i x Hx Hxr). split; [done|].
        by apply (walk_inode_ok _ _ _ Wk).
  - intros i e m Hi Hm. by apply Hh.
Qed.

Lemma kinv_ilock k A X Y d j n (Q : unit → kernel → Prop) R :
  kinv k A X Y → dev_valid d → pinned (kfs k) d j n →
  (∀ s', cached (kfs k) s' → kinv (set_kfs s' k) A X Y → held s' d j n →
     (∀ i e m, held (kfs k) e i m → held s' e i m) →
     (∀ i e m, pinned (kfs k) e i m → pinned s' e i m) → Q tt (set_kfs s' k)) →
  wp (in_fs (ilock (Some j))) Q R k.
Proof.
  intros K Hd Hp HQ. pose proof (ki_tree _ _ _ _ K) as T. apply wp_in_fs.
  eapply ilock_visit; [by apply (te_fsys _ _ T)|done|]. intros s' V Hh.
  pose proof (walk_tree _ _ _ _ (vs_walk _ _ _ V) T) as T'.
  apply HQ; [by eapply visit_cached| |done|apply (vs_held _ _ _ V)|apply (vs_pin _ _ _ V)].
  eapply kinv_step; [done..|]. apply visit_zero_trans; [done|apply K|by eapply tree_cache|by eapply tree_cache].
Qed.

(** Reading a loaded inode. *)
Lemma kinv_deref k A X Y d j n (Q : inode → kernel → Prop) R :
  kinv k A X Y → dev_valid d → held (kfs k) d j n →
  (∀ ip, dev ip = d → inum ip = n → key (din ip) = A d n → Q ip k) →
  wp (in_fs (deref (Some j))) Q R k.
Proof.
  intros K Hd Hh HQ. apply wp_in_fs.
  eapply deref_held; [apply (fsys_rep _ _ _ (te_fsys _ _ (ki_tree _ _ _ _ K) d Hd))|done|].
  intros ip _ _ _ Ed En Hk _. destruct k. cbn in *. by apply HQ.
Qed.

Lemma kinv_deref_pinned k d j n (Q : inode → kernel → Prop) R :
  pinned (kfs k) d j n → (∀ ip, dev ip = d → inum ip = n → Q ip k) → wp (in_fs (deref (Some j))) Q R k.
Proof.
  intros [_ (ip & Hl & _ & Ed & En)] HQ. apply wp_in_fs. eapply wp_deref; [done|].
  destruct k. cbn in *. by apply HQ.
Qed.

(** ** Directory lookup *)

Lemma kinv_dirlookup k A X Y d j n t r (Q : option (nat * Z) → kernel → Prop) (R : kernel → Prop) :
  kinv k A X Y → dev_valid d → held (kfs k) d j n → k_type (A d n) = FT_DIRECTORY → nonzero t →
  let ents := dirents (content (kfs k) d (A d n)) in
  (dir_find ents (t ++ 0 :: r) = None → Q None k) →
  (∀ x de i s', dir_find ents (t ++ 0 :: r) = Some (x, de) → node_ok (kfs k) (d, de_inum de) →
     cached (kfs k) s' → kinv (set_kfs s' k) A (i :: X) Y → pinned s' d i (de_inum de) →
     (∀ i' e m, held (kfs k) e i' m → held s' e i' m) →
     Q (Some (i, 32 * Z.of_nat x)) (set_kfs s' k)) →
  (cache_full (kfs k) → R k) →
  wp (in_fs (dirlookup (Some j) (t ++ 0 :: r))) Q R k.
Proof.
  intros K Hd Hh Hty Ht ents HN HS HR. pose proof (ki_tree _ _ _ _ K) as T. apply wp_in_fs.
  destruct (Hh) as [Hok _]. destruct (te_dirs _ _ T d n Hd Hok Hty) as [Hs He].
  assert (Ek : set_kfs (kfs k) k = k) by by destruct k.
  eapply dirlookup_wp; [by apply (te_fsys _ _ T)|done|done|done|by exists t, r| | |].
  - intros E. rewrite Ek. by apply HN.
  - intros x de i s' E G. pose proof (got_visit _ _ _ _ _ G) as V.
    assert (Hn : node_ok (kfs k) (d, de_inum de)).
    { split; [done|]. apply list_find_Some in E as (Hl & Hm & _). apply He; [by eapply list_elem_of_lookup_2|].
      unfold matches in Hm. cbn. intros E. by rewrite E in Hm. }
    pose proof (got_pinned _ _ _ _ _ G (kinv_cache _ _ _ _ K) (proj2 Hn)) as Hp.
    pose proof (walk_tree _ _ _ _ (vs_walk _ _ _ V) T) as T'.
    apply (HS x de); try done; [by eapply visit_cached| |apply (vs_held _ _ _ V)].
    eapply kinv_step; [done..|]. eapply visit_one_trans; try done; [apply K|by eapply tree_cache..].
  - intros Hf. rewrite Ek. by apply HR.
Qed.

(** ** Changing one inode *)

Lemma fsys_other s s' e B :
  fsys s e B → disk_of s' e = disk_of s e → sb s' = sb s → devs_ok s' → cache_ok (inode_table s') →
  (∀ i ip, inode_table s' !! i = Some ip → 0 < ref ip → valid ip ≠ 0 → dev ip = e → inode_table s !! i = Some ip) →
  fsys s' e B.
Proof.
  intros HF Ed Es Hds HC Ht. pose proof (fsys_rep _ _ _ HF) as HR. pose proof (rep_wf _ _ _ _ HR) as W.
  assert (Hb : ∀ b, fblk s' e b = fblk s e b) by (intros; unfold fblk; by rewrite Ed).
  assert (Hpv : ∀ a sl, slot_ok sl → pv s' e a sl = pv s e a sl) by (intros a; by apply pv_frame).
  assert (Hi : ∀ n, inode_ok s' e n ↔ inode_ok s e n) by (intros; unfold inode_ok, sbof; by rewrite Es).
  assert (Ea : ∀ b, allocated s' e b = allocated s e b).
  { intros. unfold allocated, bitmap, sbof. by rewrite Es, Hb. }
  assert (Edn : ∀ n, dnode s' e n = dnode s e n) by (intros; unfold dnode, sbof; by rewrite Es, Hb).
  assert (Edb : ∀ b, data_blk s' e b ↔ data_blk s e b).
  { intros. unfold data_blk, fits, sbof. by rewrite Es, Ed. }
  constructor; [constructor|..].
  - constructor; [done|apply W|rewrite Es; apply W|unfold sbof; rewrite Es, Ed; apply W|..].
    + intros n Hn%Hi. by apply W.
    + intros b Hbb. rewrite Ea. apply W. unfold sbof in *. by rewrite Es in Hbb.
    + intros n sl Hn%Hi Hsl. rewrite Hpv by done. rewrite Ea, Edb. by apply W.
    + intros n sl n' sl' Hn%Hi Hn'%Hi Hsl Hsl'. rewrite !Hpv by done. by apply W.
  - intros n Hn%Hi _. rewrite Edn. by apply HR.
  - intros i ip Hip Hr Hv Hde Hn%Hi. by apply (rep_cache _ _ _ _ HR i); [apply Ht|..].
  - done.
  - intros n Hn%Hi. by apply HF.
  - intros n Hn%Hi. eapply shape_ext; [intros sl Hsl; by apply Hpv|]. by apply HF.
Qed.

Lemma content_other s s' e x : disk_of s' e = disk_of s e → content s' e x = content s e x.
Proof.
  intros E. assert (Hb : ∀ b, fblk s' e b = fblk s e b) by (intros; unfold fblk; by rewrite E).
  assert (He : ∀ t j, entry s' e t j = entry s e t j) by (intros; unfold entry; by rewrite Hb).
  assert (Hpv : ∀ a sl, pv s' e a sl = pv s e a sl) by (intros a []; cbn; by rewrite ?He).
  apply frange_ext. intros y _. unfold fbyte. by rewrite Hpv, Hb.
Qed.

(** Everything but inode [n] of device [d] is as it was. *)
Record changed (s s' : fs) (A A' : Z → Z → ikey) (d n : Z) : Prop := Changed {
  ch_devs : ∀ e, dev_valid e → e ≠ d → disk_of s' e = disk_of s e;
  ch_rest : ∀ e m, node_ok s (e, m) → (e, m) ≠ (d, n) →
    content s' e (A' e m) = content s e (A e m) ∧ k_type (A' e m) = k_type (A e m);
  ch_sb : sb s' = sb s;
  ch_mounts : mounts s' = mounts s ∧ num_mounts s' = num_mounts s
}.

Lemma changed_ok s s' A A' d n e m : changed s s' A A' d n → inode_ok s' e m ↔ inode_ok s e m.
Proof. intros C. unfold inode_ok, sbof. by rewrite (ch_sb _ _ _ _ _ _ C). Qed.

(** What a directory of device [d] has to hold. *)
Definition dir_fine (s : fs) (d : Z) (c : list Z) : Prop :=
  dir_sized c ∧ ∀ de, de ∈ dirents c → de_inum de ≠ 0 → inode_ok s d (de_inum de).

Lemma changed_tree s s' A A1 d n :
  tree s A → changed s s' A (upd A d A1) d n → dev_valid d → fsys s' d A1 → devs_ok s' →
  cache_ok (inode_table s') →
  (∀ e i ip, e ≠ d → inode_table s' !! i = Some ip → 0 < ref ip → valid ip ≠ 0 → dev ip = e →
     inode_table s !! i = Some ip) →
  (k_type (A1 n) = FT_DIRECTORY → dir_fine s d (content s' d (A1 n))) →
  tree s' (upd A d A1).
Proof.
  intros T C Hd HF Hds HC Ht Hdir. pose proof (λ e m, changed_ok _ _ _ _ _ _ e m C) as Hok. constructor.
  - intros e He. destruct (decide (e = d)) as [->|Hne]; [by rewrite upd_eq|]. rewrite upd_ne by done.
    eapply fsys_other; [by apply (te_fsys _ _ T)|by apply (ch_devs _ _ _ _ _ _ C)|apply (ch_sb _ _ _ _ _ _ C)|done|done|].
    intros i ip. by apply Ht.
  - intros e m He Hm%Hok Hty. destruct (decide ((e, m) = (d, n))) as [[= -> ->]|Hne].
    + rewrite upd_eq in *. destruct (Hdir Hty) as [Hs Hde]. split; [done|]. intros de Hin H0.
      rewrite Hok. by apply Hde.
    + destruct (ch_rest _ _ _ _ _ _ C e m) as [-> E]; [done..|]. rewrite E in Hty.
      destruct (te_dirs _ _ T e m He Hm Hty) as [Hs Hde]. split; [done|]. intros de Hin H0.
      rewrite Hok. by apply Hde.
  - destruct (ch_mounts _ _ _ _ _ _ C) as [-> ->]. intros m Hm. rewrite Hok. by apply (te_mounts _ _ T).
  - intros e He. rewrite Hok. by apply (te_root _ _ T).
Qed.

Lemma only_changed s s' A A1 d i n :
  fsys s d (A d) → only s s' d (A d) A1 i n → changed s s' A (upd A d A1) d n.
Proof.
  intros HF O. pose proof (on_base _ _ _ _ _ _ _ O) as HB. constructor.
  - intros e He Hne. by apply (sb_other _ _ _ HB).
  - intros e m [He Hm] Hne. cbn in *. destruct (decide (e = d)) as [->|Hed].
    + rewrite upd_eq. assert (m ≠ n) by congruence.
      split; [by eapply only_content|]. by rewrite (on_A _ _ _ _ _ _ _ O).
    + rewrite upd_ne by done. split; [|done]. apply content_other. by apply (sb_other _ _ _ HB).
  - apply HB.
  - apply HB.
Qed.

Lemma kinv_only k A X Y s' A1 d i n :
  kinv k A X Y → dev_valid d → pinned (kfs k) d i n → only (kfs k) s' d (A d) A1 i n →
  fsys s' d A1 → held s' d i n →
  (k_type (A d n) = FT_DIRECTORY → dir_fine (kfs k) d (content s' d (A1 n))) →
  kinv (set_kfs s' k) (upd A d A1) X Y ∧ changed (kfs k) s' A (upd A d A1) d n ∧
  (∀ j e m, held (kfs k) e j m → held s' e j m) ∧ (∀ j e m, pinned (kfs k) e j m → pinned s' e j m).
Proof.
  intros K Hd Hp O HF' Hh Hdir. pose proof (ki_tree _ _ _ _ K) as T.
  pose proof (te_fsys _ _ T d Hd) as HF. pose proof (only_changed _ _ _ _ _ _ _ HF O) as C.
  pose proof (rep_tab _ _ _ _ (fsys_rep _ _ _ HF')) as HC'. destruct (Hp) as [_ (ip & Hl & Hr & Ed & En)].
  destruct (on_entry _ _ _ _ _ _ _ O ip Hl) as (v & x & Hl'). pose proof (on_table _ _ _ _ _ _ _ O) as Ht.
  assert (Hheld : ∀ j e m, held (kfs k) e j m → held s' e j m).
  { intros j e m Hj. destruct (decide (j = i)) as [->|Hne].
    - destruct (pinned_inj _ _ _ _ _ _ Hp (held_pinned _ _ _ _ Hj)) as [-> ->]. done.
    - destruct Hj as [Hm (y & Hy & ?)]. split; [by apply (changed_ok _ _ _ _ _ _ e m C)|]. exists y. by rewrite Ht. }
  assert (Hpin : ∀ j e m, pinned (kfs k) e j m → pinned s' e j m).
  { intros j e m Hj. destruct (decide (j = i)) as [->|Hne].
    - destruct (pinned_inj _ _ _ _ _ _ Hp Hj) as [-> ->]. by apply held_pinned.
    - destruct Hj as [Hm (y & Hy & ?)]. split; [by apply (changed_ok _ _ _ _ _ _ e m C)|]. exists y. by rewrite Ht. }
  split; [|done]. eapply kinv_step; [done| |constructor].
  - eapply changed_tree; [done|done|done|done|apply (on_base _ _ _ _ _ _ _ O)|done| |].
    + intros e j y Hne Hy Hyr Hyv Hye. destruct (decide (j = i)) as [->|Hji]; [|by rewrite <-Ht].
      rewrite Hl' in Hy. injection Hy as <-. cbn in Hye. congruence.
    + intros Hty. apply Hdir. by destruct (on_An _ _ _ _ _ _ _ O) as [<- _].
  - intros j. unfold iref. destruct (decide (j = i)) as [->|Hne]; [by rewrite Hl, Hl'|by rewrite Ht].
  - auto.
  - intros j y Hy Hyr. destruct (decide (j = i)) as [->|Hne].
    + rewrite Hl' in Hy. injection Hy as <-. cbn in *. destruct (ki_nodes _ _ _ _ K i ip Hl Hr). split; [done|].
      by apply (changed_ok _ _ _ _ _ _ _ _ C).
    + rewrite Ht in Hy by done. destruct (ki_nodes _ _ _ _ K j y Hy Hyr). split; [done|].
      by apply (changed_ok _ _ _ _ _ _ _ _ C).
Qed.

(** What a step that changed inode [n] of [d] leaves for the rest of the code. *)
Record stepped (k : kernel) (A : Z → Z → ikey) (s' : fs) (A1 : Z → ikey) (X X' Y : list nat) (d n : Z) : Prop := Stepped {
  sp_kinv : kinv (set_kfs s' k) (upd A d A1) X' Y;
  sp_changed : changed (kfs k) s' A (upd A d A1) d n;
  sp_held : ∀ j e m, held (kfs k) e j m → held s' e j m;
  sp_pin : ∀ j e m, pinned (kfs k) e j m → pinned s' e j m
}.

Lemma kinv_writei k A X Y d i n src off (Q : Z → kernel → Prop) (R : kernel → Prop) :
  kinv k A X Y → dev_valid d → pinned (kfs k) d i n → 0 ≤ off < 4294967296 → bytes src →
  Z.of_nat (length src) < 4294967296 →
  let r := write_spec (content (kfs k) d (A d n)) off src in
  (k_type (A d n) = FT_DIRECTORY → dir_fine (kfs k) d r.2) →
  (∀ s' A1, stepped k A s' A1 X X Y d n → content s' d (A1 n) = r.2 → k_type (A1 n) = k_type (A d n) →
     (∀ m, m ≠ n → A1 m = A d m) →
     held s' d i n → Q r.1 (set_kfs s' k)) →
  (∀ s', same_base (kfs k) s' d → full s' d → R (set_kfs s' k)) →
  wp (in_fs (writei (Some i) src off (Z.of_nat (length src)))) Q R k.
Proof.
  intros K Hd Hp Hoff Hb Hlen r Hdir HQ HR. apply wp_in_fs.
  eapply writei_wp; [by apply (te_fsys _ _ (ki_tree _ _ _ _ K))|done..| |done].
  intros s' A1 r' (O & HF & Hh & Ec).
  destruct (kinv_only _ _ _ _ _ _ _ _ _ K Hd Hp O HF Hh) as (K' & C & H1 & H2).
  { intros Hty. rewrite Ec. by apply Hdir. }
  apply (HQ s' A1); [by constructor|done|apply (on_An _ _ _ _ _ _ _ O)|apply (on_A _ _ _ _ _ _ _ O)|done].
Qed.

Lemma kinv_itrunc k A X Y d i n new (Q : unit → kernel → Prop) R :
  kinv k A X Y → dev_valid d → pinned (kfs k) d i n → 0 ≤ new < 4294967296 →
  (k_type (A d n) = FT_DIRECTORY → dir_fine (kfs k) d (take (Z.to_nat new) (content (kfs k) d (A d n)))) →
  (∀ s' A1, stepped k A s' A1 X X Y d n →
     content s' d (A1 n) = take (Z.to_nat new) (content (kfs k) d (A d n)) →
     k_type (A1 n) = k_type (A d n) → (∀ m, m ≠ n → A1 m = A d m) → held s' d i n → Q tt (set_kfs s' k)) →
  wp (in_fs (itrunc (Some i) new)) Q R k.
Proof.
  intros K Hd Hp Hnew Hdir HQ. apply wp_in_fs.
  eapply itrunc_wp; [by apply (te_fsys _ _ (ki_tree _ _ _ _ K))|done..|].
  intros s' A1 [O HF Hh Ec _].
  destruct (kinv_only _ _ _ _ _ _ _ _ _ K Hd Hp O HF Hh) as (K' & C & H1 & H2).
  { intros Hty. rewrite Ec. by apply Hdir. }
  apply (HQ s' A1); [by constructor|done|apply (on_An _ _ _ _ _ _ _ O)|apply (on_A _ _ _ _ _ _ _ O)|done].
Qed.

Lemma dir_fine_nil s d : dir_fine s d [].
Proof. split; [done|]. intros de Hde. by apply elem_of_nil in Hde. Qed.

Lemma kinv_ialloc k A X Y d ty n (Q : ptr → kernel → Prop) (R : kernel → Prop) :
  kinv k A X Y → dev_valid d → 0 ≤ ty < 65536 → first_free (kfs k) d (A d) n →
  (∀ i s', stepped k A s' (upd (A d) n (fresh_key ty)) X (i :: X) Y d n → held s' d i n →
     Q (Some i) (set_kfs s' k)) →
  (∀ s', cache_full s' → same_base (kfs k) s' d → R (set_kfs s' k)) →
  wp (in_fs (ialloc d ty)) Q R k.
Proof.
  intros K Hd Hty Hfree HQ HR. pose proof (ki_tree _ _ _ _ K) as T. apply wp_in_fs.
  eapply ialloc_wp; [by apply (te_fsys _ _ T)|done|done| |done].
  intros i s' [HB HF Hh Hrest Ht (ip & ip' & Hl & Hl' & Hr & Hsame)]. destruct (Hfree) as (Hn & Hun & _).
  pose proof (kinv_cache _ _ _ _ K) as HC. pose proof (co_ref _ HC i ip Hl) as Hr0.
  set (A1 := upd (A d) n (fresh_key ty)) in *.
  assert (C : changed (kfs k) s' A (upd A d A1) d n).
  { constructor; [intros e He Hne; by apply (sb_other _ _ _ HB)| |apply HB|apply HB].
    intros e m [He Hm] Hne. cbn in *. destruct (decide (e = d)) as [->|Hed].
    - assert (m ≠ n) by congruence. rewrite upd_eq. unfold A1. rewrite upd_ne by done. by split; [apply Hrest|].
    - rewrite upd_ne by done. split; [|done]. apply content_other. by apply (sb_other _ _ _ HB). }
  assert (Hei : ∀ e m, pinned (kfs k) e i m → e = d ∧ m = n).
  { intros e m (_ & x & Hx & Hxr & <- & <-). simplify_eq. by apply Hsame. }
  assert (Hpin : ∀ j e m, pinned (kfs k) e j m → pinned s' e j m).
  { intros j e m Hj. destruct (decide (j = i)) as [->|Hne].
    - destruct (Hei _ _ Hj) as [-> ->]. by apply held_pinned.
    - destruct Hj as [Hm (y & Hy & ?)]. split; [by apply (changed_ok _ _ _ _ _ _ e m C)|]. exists y. by rewrite Ht. }
  assert (Hheld : ∀ j e m, held (kfs k) e j m → held s' e j m).
  { intros j e m Hj. destruct (decide (j = i)) as [->|Hne].
    - destruct (Hei _ _ (held_pinned _ _ _ _ Hj)) as [-> ->]. done.
    - destruct Hj as [Hm (y & Hy & ?)]. split; [by apply (changed_ok _ _ _ _ _ _ e m C)|]. exists y. by rewrite Ht. }
  pose proof (rep_tab _ _ _ _ (fsys_rep _ _ _ HF)) as HC'.
  destruct (Hh) as [_ (x & Hx & Hxr & _ & Hxd & Hxn)]. assert (x = ip') as -> by congruence.
  apply HQ; [|done]. constructor; [|done..]. eapply kinv_step; [done| |constructor].
  - eapply changed_tree; [done|done|done|done|apply HB|done| |].
    + intros e j y Hne Hy Hyr Hyv Hye. destruct (decide (j = i)) as [->|Hji]; [|by rewrite <-Ht].
      assert (y = ip') as -> by congruence. congruence.
    + intros _. unfold A1. rewrite upd_eq. apply dir_fine_nil.
  - intros j. rewrite occ_cons. unfold iref. destruct (decide (i = j)) as [<-|Hne]; [rewrite Hl, Hl'|rewrite Ht by done]; lia.
  - auto.
  - intros j y Hy Hyr. destruct (decide (j = i)) as [->|Hne].
    + assert (y = ip') as -> by congruence. split; [cbn; congruence|]. cbn. rewrite Hxd, Hxn. by apply (changed_ok _ _ _ _ _ _ _ _ C).
    + rewrite Ht in Hy by done. destruct (ki_nodes _ _ _ _ K j y Hy Hyr). split; [done|].
      by apply (changed_ok _ _ _ _ _ _ _ _ C).
Qed.

Lemma kinv_set_type k A X Y d i n t (Q : unit → kernel → Prop) R :
  kinv k A X Y → dev_valid d → held (kfs k) d i n → 0 ≤ t < 65536 → t ≠ FT_DIRECTORY →
  (∀ s', stepped k A s' (upd (A d) n (retype t (A d n))) X X Y d n → held s' d i n →
     content s' d (retype t (A d n)) = content (kfs k) d (A d n) → Q tt (set_kfs s' k)) →
  wp (in_fs (upd_din (Some i) (set_type t));; in_fs (iupdate (Some i))) Q R k.
Proof.
  intros K Hd Hh Ht Hnd HQ. pose proof (ki_tree _ _ _ _ K) as T. pose proof (te_fsys _ _ T d Hd) as HF.
  assert (H : wp (in_fs (upd_din (Some i) (set_type t);; iupdate (Some i))) Q R k).
  2:{ revert H. unfold wp, in_fs, zoom, mbind, M_bind. cbn. done. }
  apply wp_in_fs. eapply set_type_wp; [done..|]. intros s' [HB HF' Hh' Hc Htb He].
  set (A1 := upd (A d) n (retype t (A d n))) in *. destruct (Hh) as [Hok (ip & Hl & Hr & Hv & Ed & En)].
  destruct (He ip Hl) as (v & x & Hl').
  assert (C : changed (kfs k) s' A (upd A d A1) d n).
  { constructor; [intros e ? ?; by apply (sb_other _ _ _ HB)| |apply HB|apply HB].
    intros e m [He' Hm] Hne. cbn in *. destruct (decide (e = d)) as [->|Hed].
    - assert (m ≠ n) by congruence. rewrite upd_eq. unfold A1. rewrite upd_ne by done. by split; [apply Hc|].
    - rewrite upd_ne by done. split; [|done]. apply content_other. by apply (sb_other _ _ _ HB). }
  assert (Hheld : ∀ j e m, held (kfs k) e j m → held s' e j m).
  { intros j e m Hj. destruct (decide (j = i)) as [->|Hne].
    - destruct (pinned_inj _ _ _ _ _ _ (held_pinned _ _ _ _ Hh) (held_pinned _ _ _ _ Hj)) as [-> ->]. done.
    - destruct Hj as [Hm (y & Hy & ?)]. split; [by apply (changed_ok _ _ _ _ _ _ e m C)|]. exists y. by rewrite Htb. }
  assert (Hpin : ∀ j e m, pinned (kfs k) e j m → pinned s' e j m).
  { intros j e m Hj. destruct (decide (j = i)) as [->|Hne].
    - destruct (pinned_inj _ _ _ _ _ _ (held_pinned _ _ _ _ Hh) Hj) as [-> ->]. by apply held_pinned.
    - destruct Hj as [Hm (y & Hy & ?)]. split; [by apply (changed_ok _ _ _ _ _ _ e m C)|]. exists y. by rewrite Htb. }
  apply HQ; [constructor; [|done..]|done|by apply Hc].
  eapply kinv_step; [done| |constructor].
  - eapply changed_tree; [done|done|done|done|apply HB|apply (rep_tab _ _ _ _ (fsys_rep _ _ _ HF'))| |].
    + intros e j y Hne Hy Hyr Hyv Hye. destruct (decide (j = i)) as [->|Hji]; [|by rewrite <-Htb].
      rewrite Hl' in Hy. injection Hy as <-. cbn in Hye. congruence.
    + unfold A1. rewrite upd_eq. cbn. done.
  - intros j. unfold iref. destruct (decide (j = i)) as [->|Hne]; [by rewrite Hl, Hl'|by rewrite Htb].
  - auto.
  - intros j y Hy Hyr. destruct (decide (j = i)) as [->|Hne].
    + rewrite Hl' in Hy. injection Hy as <-. cbn in *. destruct (ki_nodes _ _ _ _ K i ip Hl Hr). split; [done|].
      by apply (changed_ok _ _ _ _ _ _ _ _ C).
    + rewrite Htb in Hy by done. destruct (ki_nodes _ _ _ _ K j y Hy Hyr). split; [done|].
      by apply (changed_ok _ _ _ _ _ _ _ _ C).
Qed.

(** ** Directory entries *)

(** Storing an entry keeps a directory fine if it is unused or names an inode. *)
Lemma dir_fine_slot s d c x e :
  dir_fine s d c → length e = 32%nat → (x ≤ length c / 32)%nat →
  (de_inum (decode_dirent e) ≠ 0 → inode_ok s d (de_inum (decode_dirent e))) →
  dir_fine s d (dir_slot c x e).
Proof.
  intros [Hs He] Hl Hx Hn. destruct (dirents_slot c x e Hs Hl Hx) as [Hs' Hd]. split; [done|].
  intros de (j & Hj)%list_elem_of_lookup. rewrite Hd in Hj. case_decide.
  - by injection Hj as <-.
  - apply He. by eapply list_elem_of_lookup_2.
Qed.

Lemma te_dir_fine s A d n :
  tree s A → dev_valid d → inode_ok s d n → k_type (A d n) = FT_DIRECTORY → dir_fine s d (content s d (A d n)).
Proof. intros T Hd Hn Ht. by apply (te_dirs _ _ T d n). Qed.

Lemma kinv_dirlink k A X Y d i n t r m (Q : Z → kernel → Prop) (R : kernel → Prop) :
  kinv k A X Y → dev_valid d → held (kfs k) d i n → k_type (A d n) = FT_DIRECTORY → nonzero t →
  inode_ok (kfs k) d m → m < 65536 →
  let c := content (kfs k) d (A d n) in
  let x := free_slot (dirents c) in
  dir_find (dirents c) (t ++ 0 :: r) = None →
  (∀ s' A1, stepped k A s' A1 X X Y d n →
     content s' d (A1 n) = (if 32 * Z.of_nat x + 32 >? MAXFILE * BSIZE then c
       else dir_slot c x (encode_dirent (new_entry t m))) →
     (∀ j, j ≠ n → A1 j = A d j) → k_type (A1 n) = k_type (A d n) → held s' d i n →
     Q (if 32 * Z.of_nat x + 32 >? MAXFILE * BSIZE then -1 else 0) (set_kfs s' k)) →
  (∀ s', same_base (kfs k) s' d → full s' d ∨ cache_full s' → R (set_kfs s' k)) →
  wp (in_fs (dirlink (Some i) (t ++ 0 :: r) m)) Q R k.
Proof.
  intros K Hd Hh Hty Ht Hm Hm16 c x Hnone HQ HR. pose proof (ki_tree _ _ _ _ K) as T.
  destruct (Hh) as [Hok _]. pose proof (te_dir_fine _ _ _ _ T Hd Hok Hty) as Hfine. destruct (Hfine) as [Hs _].
  apply wp_in_fs. eapply (dirlink_wp (kfs k) d (A d) i n); [by apply (te_fsys _ _ T)|done..| | |done].
  - intros s' [? Hf]. fold c in Hf. congruence.
  - intros s' A1 _ (O & HF & Hh' & Ec). fold c x in Ec |- *.
    destruct (kinv_only _ _ _ _ _ _ _ _ _ K Hd (held_pinned _ _ _ _ Hh) O HF Hh') as (K' & C & H1 & H2).
    { intros _. rewrite Ec. destruct (_ >? _); [done|]. apply dir_fine_slot; [done| | |].
      - by apply length_encode_dirent, new_entry_ok.
      - pose proof (free_slot_le (dirents c)) as Hx. by rewrite length_dirents in Hx.
      - intros _. rewrite decode_new_entry by done. cbn. destruct Hm. unfold u16. rewrite Z.mod_small by lia. done. }
    apply (HQ s' A1); [by constructor|done|apply (on_A _ _ _ _ _ _ _ O)|apply (on_An _ _ _ _ _ _ _ O)|done].
Qed.
