(* ===== verification/FdFile.v ===== *)
(** * The file table and the descriptors under the kernel invariant

    The last part has reading, writing, seeking and closing through descriptors. *)

From S2P Require Import Prelude CLib FsTypes Block Inode Dir FsInv FsAlloc FsMap FsGrow FsFile FsWrite FsTrunc.
From S2P Require Import FsCache DirSpec FsRef Namei KState FdTable FdInv FdSteps.

(** ** Slots of the file table *)

Lemma file_free_some t i : file_free t = Some i → ∃ f, t !! i = Some f ∧ f_ref f = 0.
Proof.
  unfold file_free. intros ([j f] & E & ->)%fmap_Some. apply list_find_Some in E as (Hl & Hr & _). by exists f.
Qed.

Lemma file_free_none t i f : file_free t = None → t !! i = Some f → f_ref f ≠ 0.
Proof.
  unfold file_free. intros E%fmap_None Hf. apply list_find_None in E. rewrite Forall_lookup in E. by eapply E.
Qed.

(** Replacing one file, with the local references that pay for it. *)
Lemma kinv_file k A X Y X' Y' i f f' :
  kinv k A X Y → file_table k !! i = Some f →
  (∀ j, file_holds j f' + occ j X' = file_holds j f + occ j X) →
  f_ref f' - occ i Y' = f_ref f - occ i Y → (∀ i', i' ≠ i → occ i' Y' = occ i' Y) →
  (0 < f_ref f' → file_ok (kfs k) f') →
  kinv (set_file_table (<[i := f']>) k) A X' Y'.
Proof.
  intros [T N I F G D C] Hf HX HY HY' Hok.
  assert (Hi : (i < length (file_table k))%nat) by by eapply lookup_lt_Some.
  constructor; cbn; try done.
  - intros j. rewrite (total_insert _ _ _ f f' Hf), I. specialize (HX j). lia.
  - intros i' g Hg. destruct (decide (i' = i)) as [->|Hne].
    + rewrite list_lookup_insert_eq in Hg by done. injection Hg as <-. specialize (F i f Hf). lia.
    + rewrite list_lookup_insert_ne in Hg by done. rewrite (F i' g Hg), HY' by done. done.
  - intros i' g Hg Hr. destruct (decide (i' = i)) as [->|Hne].
    + rewrite list_lookup_insert_eq in Hg by done. injection Hg as <-. by apply Hok.
    + rewrite list_lookup_insert_ne in Hg by done. by apply (G i').
  - intros c p Hp. rewrite length_insert. by apply (D c p).
Qed.

Lemma set_file_table_alter k i f g :
  file_table k !! i = Some f → set_file_table (alter g i) k = set_file_table (<[i := g f]>) k.
Proof.
  intros Hf. unfold set_file_table. f_equal. apply list_eq. intros j. destruct (decide (j = i)) as [->|Hne].
  - rewrite list_lookup_alter_eq, Hf. cbn. rewrite list_lookup_insert_eq; [done|]. by eapply lookup_lt_Some.
  - by rewrite list_lookup_alter_ne, list_lookup_insert_ne.
Qed.

Lemma set_file_table_twice k i f g :
  set_file_table (<[i := f]>) (set_file_table (<[i := g]>) k) = set_file_table (<[i := f]>) k.
Proof. unfold set_file_table. cbn. f_equal. apply list_insert_insert_eq. Qed.

Lemma upd_file_wp k i f g (Q : unit → kernel → Prop) R :
  file_table k !! i = Some f → Q tt (set_file_table (<[i := g f]>) k) → wp (upd_file i g) Q R k.
Proof. intros Hf HQ. unfold upd_file. wp_step. by rewrite (set_file_table_alter k i f g Hf). Qed.

Lemma file_wp k i f (Q : File → kernel → Prop) R : file_table k !! i = Some f → Q f k → wp (file i) Q R k.
Proof. intros Hf HQ. unfold file. wp_step. wp_step. by eapply wp_expect. Qed.

Lemma lookup_set_file k i f g :
  file_table k !! i = Some f → file_table (set_file_table (<[i := g]>) k) !! i = Some g.
Proof. intros Hf. cbn. apply list_lookup_insert_eq. by eapply lookup_lt_Some. Qed.

(** [file_create]: a fresh slot with one reference, if there is one. *)
Lemma file_create_wp k ty flags (Q : option nat → kernel → Prop) R :
  (file_free (file_table k) = None → Q None k) →
  (∀ i f, file_table k !! i = Some f → f_ref f = 0 →
     Q (Some i) (set_file_table (<[i := mkFile 1 ty (has_flag flags FILECTRL_READONLY)
       (has_flag flags FILECTRL_WRITEONLY) None 0]>) k)) →
  wp (file_create ty flags) Q R k.
Proof.
  intros HN HS. unfold file_create, file_alloc. wp_step. wp_step. wp_step.
  destruct (file_free (file_table k)) as [i|] eqn:E.
  - destruct (file_free_some _ _ E) as (f & Hf & Hr). wp_step. eapply upd_file_wp; [done|]. wp_step.
    wp_step. eapply upd_file_wp; [by eapply lookup_set_file|]. wp_step. cbn [f_ref].
    rewrite set_file_table_twice. by apply (HS i f).
  - wp_step. wp_step. by apply HN.
Qed.

(** A slot nobody refers to is free. *)
Lemma kinv_free_slot k A X Y i f :
  kinv k A X Y → file_table k !! i = Some f → f_ref f = 0 → total (fd_holds i) (procs k) = 0 ∧ occ i Y = 0.
Proof.
  intros K Hf Hr. pose proof (ki_frefs _ _ _ _ K i f Hf).
  pose proof (total_nonneg (fd_holds i) (procs k) (fd_holds_nonneg i)). pose proof (occ_nonneg i Y). lia.
Qed.

(** A fresh slot becomes an open file. *)
Lemma kinv_fresh k A X X' Y i f f' :
  kinv k A X Y → file_table k !! i = Some f → f_ref f = 0 → f_ref f' = 1 → file_ok (kfs k) f' →
  (∀ j, file_holds j f' + occ j X' = occ j X) →
  kinv (set_file_table (<[i := f']>) k) A X' (i :: Y).
Proof.
  intros K Hf Hr Hr' Hok HX. eapply kinv_file; [done|done| | | |done].
  - intros j. rewrite HX. unfold file_holds. rewrite decide_False by lia. lia.
  - rewrite occ_cons, decide_True by done. destruct (kinv_free_slot _ _ _ _ _ _ K Hf Hr). lia.
  - intros i' Hne. rewrite occ_cons, decide_False by done. lia.
Qed.

(** ** Closing *)

Lemma file_close_wp k A X Y i (Q : unit → kernel → Prop) R :
  kinv k A X (i :: Y) → (i < length (file_table k))%nat →
  (∀ k', kinv k' A X Y → cached (kfs k) (kfs k') → procs k' = procs k → current_proc k' = current_proc k →
     (∀ i', i' ≠ i → file_table k' !! i' = file_table k !! i') →
     (∀ f, file_table k !! i = Some f → 1 < f_ref f → file_table k' !! i = Some (set_f_ref (f_ref f - 1) f)) →
     Q tt k') →
  wp (file_close (Some i)) Q R k.
Proof.
  intros K Hi HQ. destruct (lookup_lt_is_Some_2 _ _ Hi) as [f Hf].
  pose proof (ki_frefs _ _ _ _ K i f Hf) as Hr. rewrite occ_cons, decide_True in Hr by done.
  pose proof (total_nonneg (fd_holds i) (procs k) (fd_holds_nonneg i)). pose proof (occ_nonneg i Y).
  pose proof (ki_files _ _ _ _ K i f Hf ltac:(lia)) as Hok. destruct (Hok) as [Ho Hty].
  unfold file_close. wp_step. eapply file_wp; [done|]. zb.
  wp_step. eapply upd_file_wp; [done|].
  set (f1 := set_f_ref (f_ref f - 1) f). set (k1 := set_file_table (<[i := f1]>) k).
  assert (Hf1 : file_table k1 !! i = Some f1) by by eapply lookup_set_file.
  destruct (Z.eqb_spec (f_ref f - 1) 0) as [E|E].
  - assert (Hlast : ∀ x, file_holds x f = (if decide (f_ip f = Some x) then 1 else 0)).
    { intros x. unfold file_holds. apply decide_ext. split; [by intros [_ ?]|]. intros ?. split; [lia|done]. }
    assert (Hdead : ∀ x g, f_ref g = 0 → file_holds x g = 0).
    { intros x g Hg. unfold file_holds. case_decide; lia. }
    assert (HY : ∀ g, f_ref g = 0 → f_ref g - occ i Y = f_ref f - occ i (i :: Y)).
    { intros g Hg. rewrite occ_cons, decide_True by done. lia. }
    assert (HY' : ∀ i', i' ≠ i → occ i' Y = occ i' (i :: Y)).
    { intros i' Hne. rewrite occ_cons, decide_False by done. lia. }
    destruct (f_ip f) as [j|] eqn:Ej.
    + assert (K1 : kinv k1 A (j :: X) Y).
      { eapply kinv_file; [done|done| |by apply HY|done|cbn; lia].
        intros x. rewrite occ_cons, Hlast, Hdead by (cbn; lia). repeat case_decide; try lia; congruence. }
      wp_step. wp_step. eapply kinv_iput; [exact K1|]. intros s' Hc K2 _.
      assert (Hf2 : file_table (set_kfs s' k1) !! i = Some f1) by done.
      eapply upd_file_wp; [done|]. eapply upd_file_wp; [by eapply lookup_set_file|].
      rewrite set_file_table_twice. apply HQ; cbn; try done.
      * eapply kinv_file; [exact K2|done| |done|done|cbn; lia]. intros x. rewrite !Hdead by (cbn; lia). done.
      * intros i' Hne. by rewrite !list_lookup_insert_ne by done.
      * intros g Hg Hgr. assert (g = f) by congruence. subst g. lia.
    + wp_step. wp_step. eapply upd_file_wp; [done|]. unfold k1. rewrite set_file_table_twice.
      apply HQ; cbn; try done.
      * eapply kinv_file; [done|done| |by apply HY|done|cbn; lia].
        intros x. rewrite Hlast, Hdead by (cbn; lia). case_decide; [congruence|lia].
      * by apply cached_refl.
      * intros i' Hne. by rewrite !list_lookup_insert_ne by done.
      * intros g Hg Hgr. assert (g = f) by congruence. subst g. lia.
  - wp_step. apply HQ; cbn; try done.
    + eapply kinv_file; [done|done| | | |done].
      * intros x. f_equal. unfold file_holds. cbn. apply decide_ext. split; intros [? ?]; (split; [lia|done]).
      * cbn. rewrite occ_cons, decide_True by done. lia.
      * intros i' Hne. rewrite occ_cons, decide_False by done. lia.
    + by apply cached_refl.
    + intros i' Hne. by rewrite list_lookup_insert_ne by done.
    + intros g Hg Hgr. assert (g = f) by congruence. subst g. by apply (lookup_set_file k i f).
Qed.

(** ** Descriptors *)

Lemma kinv_proc k A X Y X' Y' c p p' :
  kinv k A X Y → procs k !! c = Some p →
  (∀ j, cwd_holds j p' + occ j X' = cwd_holds j p + occ j X) →
  (∀ i, fd_holds i p' + occ i Y' = fd_holds i p + occ i Y) →
  length (ofile p') = NUM_FILES_PER_PROCESS →
  (∀ fd i, ofile p' !! fd = Some (Some i) → (i < length (file_table k))%nat) →
  kinv (set_procs (<[c := p']>) k) A X' Y'.
Proof.
  intros [T N I F G D C] Hp HX HY Hl Hfd.
  assert (Hc : (c < length (procs k))%nat) by by eapply lookup_lt_Some.
  constructor; cbn; try done.
  - intros j. rewrite (total_insert _ _ _ p p' Hp), I. specialize (HX j). lia.
  - intros i f Hf. rewrite (total_insert _ _ _ p p' Hp), (F i f Hf). specialize (HY i). lia.
  - intros c' q Hq. destruct (decide (c' = c)) as [->|Hne].
    + rewrite list_lookup_insert_eq in Hq by done. by injection Hq as <-.
    + rewrite list_lookup_insert_ne in Hq by done. by apply (D c').
  - destruct C as (c0 & p0 & Hc0 & Hp0). exists c0. rewrite Hc0. destruct (decide (c0 = c)) as [->|Hne].
    + exists p'. by rewrite list_lookup_insert_eq.
    + exists p0. by rewrite list_lookup_insert_ne.
Qed.

Lemma set_procs_alter k c p g :
  procs k !! c = Some p → set_procs (alter g c) k = set_procs (<[c := g p]>) k.
Proof.
  intros Hp. unfold set_procs. f_equal. apply list_eq. intros j. destruct (decide (j = c)) as [->|Hne].
  - rewrite list_lookup_alter_eq, Hp. cbn. rewrite list_lookup_insert_eq; [done|]. by eapply lookup_lt_Some.
  - by rewrite list_lookup_alter_ne, list_lookup_insert_ne.
Qed.

Lemma upd_proc_wp k c p g (Q : unit → kernel → Prop) R :
  procs k !! c = Some p → Q tt (set_procs (<[c := g p]>) k) → wp (upd_proc c g) Q R k.
Proof. intros Hp HQ. unfold upd_proc. wp_step. by rewrite (set_procs_alter k c p g Hp). Qed.

Lemma proc_wp k c p (Q : Process → kernel → Prop) R : procs k !! c = Some p → Q p k → wp (proc c) Q R k.
Proof. intros Hp HQ. unfold proc. wp_step. wp_step. by eapply wp_expect. Qed.

Lemma current_wp k c (Q : nat → kernel → Prop) R : current_proc k = Some c → Q c k → wp current Q R k.
Proof. intros Hc HQ. unfold current, get_current_process. wp_step. wp_step. rewrite Hc. by wp_step. Qed.

Lemma fd_holds_insert i p fd e e' :
  ofile p !! fd = Some e →
  fd_holds i (set_ofile (<[fd := e']> (ofile p)) p) =
  fd_holds i p - (if decide (e = Some i) then 1 else 0) + (if decide (e' = Some i) then 1 else 0).
Proof. intros He. unfold fd_holds. cbn. by rewrite (total_insert _ _ _ e e' He). Qed.

(** Descriptor [fd] of the running process designates slot [i]. *)
Definition open_at (k : kernel) (fd : Z) (i : nat) : Prop :=
  ∃ c p, current_proc k = Some c ∧ procs k !! c = Some p ∧ 0 ≤ fd ∧ ofile p !! Z.to_nat fd = Some (Some i).

Lemma fd_free_some l fd : fd_free l = Some fd → l !! fd = Some None ∧ ∀ j, (j < fd)%nat → l !! j ≠ Some None.
Proof.
  unfold fd_free. intros ([j e] & E & ->)%fmap_Some. apply list_find_Some in E as (Hl & -> & Hmin).
  split; [done|]. intros x Hx Hn. by eapply Hmin.
Qed.

Lemma fd_free_none l fd : fd_free l = None → l !! fd ≠ Some None.
Proof.
  unfold fd_free. intros E%fmap_None Hl. rewrite list_find_None, Forall_forall in E.
  eapply E; [by eapply list_elem_of_lookup_2|done].
Qed.

(** *** When there is no room for another open file

    Every slot of the table is referenced; every descriptor of the running
    process is taken. *)
Definition files_full (k : kernel) : Prop := ∀ i f, file_table k !! i = Some f → f_ref f ≠ 0.

Definition fds_full (k : kernel) : Prop :=
  ∀ c p fd, current_proc k = Some c → procs k !! c = Some p → ofile p !! fd ≠ Some None.

Definition no_slot (k : kernel) : Prop := files_full k ∨ fds_full k.

Lemma fd_install_wp k A X Y i (Q : option Z → kernel → Prop) R :
  kinv k A X (i :: Y) → (i < length (file_table k))%nat →
  (∀ c p, current_proc k = Some c → procs k !! c = Some p → fd_free (ofile p) = None → Q None k) →
  (∀ c p fd, current_proc k = Some c → procs k !! c = Some p → ofile p !! fd = Some None →
     (∀ x, (x < fd)%nat → ofile p !! x ≠ Some None) →
     kinv (set_procs (<[c := set_ofile (<[fd := Some i]> (ofile p)) p]>) k) A X Y →
     Q (Some (Z.of_nat fd)) (set_procs (<[c := set_ofile (<[fd := Some i]> (ofile p)) p]>) k)) →
  wp (fd_install i) Q R k.
Proof.
  intros K Hi HN HS. destruct (ki_cur _ _ _ _ K) as (c & p & Hc & Hp). destruct (ki_fds _ _ _ _ K c p Hp) as [Hl Hb].
  unfold fd_install. wp_step. eapply current_wp; [done|]. wp_step. eapply proc_wp; [done|].
  destruct (fd_free (ofile p)) as [fd|] eqn:E; [|wp_step; by eapply HN].
  destruct (fd_free_some _ _ E) as [Hfd Hmin].
  wp_step. eapply upd_proc_wp; [done|]. wp_step. apply HS; try done.
  eapply kinv_proc; [exact K|done|done| | |].
  - intros j. rewrite (fd_holds_insert j p fd None (Some i) Hfd), occ_cons.
    rewrite (decide_False (P := None = Some j)) by done. repeat case_decide; congruence || lia.
  - cbn. by rewrite length_insert.
  - intros fd' i'. cbn. destruct (decide (fd' = fd)) as [->|Hne].
    + rewrite list_lookup_insert_eq by (by eapply lookup_lt_Some). by intros [= <-].
    + rewrite list_lookup_insert_ne by done. apply Hb.
Qed.

(** An open descriptor designates a live slot. *)
Lemma open_file_ok k A X Y fd i :
  kinv k A X Y → open_at k fd i → ∃ f, file_table k !! i = Some f ∧ 0 < f_ref f ∧ file_ok (kfs k) f.
Proof.
  intros K (c & p & Hc & Hp & H0 & He). destruct (ki_fds _ _ _ _ K c p Hp) as [_ Hb].
  destruct (lookup_lt_is_Some_2 _ _ (Hb _ _ He)) as [f Hf]. exists f. split; [done|].
  assert (Hr : 0 < f_ref f); [|split; [done|by eapply (ki_files _ _ _ _ K)]].
  pose proof (total_member (fd_holds i) _ _ _ (fd_holds_nonneg i) Hp) as H1.
  pose proof (total_member (λ e, if decide (e = Some i) then 1 else 0) (ofile p) _ _
    ltac:(intros; cbv beta; case_decide; lia) He) as H2. cbn in H2. rewrite decide_True in H2 by done.
  fold (fd_holds i p) in H2. rewrite (ki_frefs _ _ _ _ K i f Hf). pose proof (occ_nonneg i Y). lia.
Qed.

Lemma fd_lookup_wp k A X Y fd (Q : option nat → kernel → Prop) R :
  kinv k A X Y →
  ((∀ i, ¬ open_at k fd i) → Q None k) → (∀ i, open_at k fd i → Q (Some i) k) →
  wp (fd_lookup fd) Q R k.
Proof.
  intros K HN HS. destruct (ki_cur _ _ _ _ K) as (c & p & Hc & Hp). destruct (ki_fds _ _ _ _ K c p Hp) as [Hl Hb].
  unfold fd_lookup. wp_step. eapply current_wp; [done|]. wp_step. eapply proc_wp; [done|].
  change (Z.of_nat NUM_FILES_PER_PROCESS) with 16. change NUM_FILES_PER_PROCESS with 16%nat in Hl.
  destruct (decide (0 ≤ fd < 16)) as [Hfd|Hfd].
  2:{ assert ((fd <? 0) || (fd >=? 16) = true) as ->.
      { destruct (Z.ltb_spec fd 0); [done|]. cbn. apply geb_true. lia. }
      wp_step. apply HN. intros i (c' & p' & Hc' & Hp' & H0 & H1). simplify_eq.
      apply lookup_lt_Some in H1. rewrite Hl in H1. lia. }
  zb. destruct (lookup_lt_is_Some_2 (ofile p) (Z.to_nat fd)) as [e He]; [lia|].
  wp_step. eapply wp_expect; [rewrite zlookup_nat by lia; exact He|]. wp_step. destruct e as [i|].
  - apply HS. exists c, p. split_and!; done || lia.
  - apply HN. intros i (c' & p' & Hc' & Hp' & H0 & H1). simplify_eq.
Qed.

(** ** [alloc_file_descriptor] *)

Definition inode_file (flags off : Z) (j : nat) : File :=
  mkFile 1 FD_INODE (has_flag flags FILECTRL_READONLY) (has_flag flags FILECTRL_WRITEONLY) (Some j) off.

(** The lowest free descriptor [fd] of the running process has become the free
    slot [i], which now holds [f]; no other descriptor, slot or process changed. *)
Record opened (k k' : kernel) (fd : Z) (i : nat) (f : File) : Prop := Opened {
  op_fd : open_at k' fd i;
  op_low : ∀ fd', 0 ≤ fd' < fd → ∃ i', open_at k fd' i';
  op_rest : ∀ fd' i', fd' ≠ fd → open_at k' fd' i' ↔ open_at k fd' i';
  op_new : ∀ i', ¬ open_at k fd i';
  op_slot : (∃ g, file_table k !! i = Some g ∧ f_ref g = 0) ∧ file_table k' = <[i := f]> (file_table k);
  op_procs : current_proc k' = current_proc k ∧
    ∀ c, current_proc k ≠ Some c → procs k' !! c = procs k !! c
}.

(** Nothing of the tables in use changed. *)
Record tables_kept (k k' : kernel) : Prop := TablesKept {
  kt_procs : procs k' = procs k;
  kt_cur : current_proc k' = current_proc k;
  kt_files : ∀ i f, file_table k !! i = Some f → f_ref f ≠ 0 → file_table k' !! i = Some f
}.

Lemma opened_install k k1 c p fd i f g :
  current_proc k = Some c → procs k !! c = Some p → ofile p !! fd = Some None →
  (∀ x, (x < fd)%nat → ofile p !! x ≠ Some None) →
  file_table k !! i = Some g → f_ref g = 0 → k1 = set_file_table (<[i := f]>) k →
  opened k (set_procs (<[c := set_ofile (<[fd := Some i]> (ofile p)) p]>) k1) (Z.of_nat fd) i f.
Proof.
  intros Hc Hp Hfd Hmin Hg Hr ->. pose proof (lookup_lt_Some _ _ _ Hp) as Hlc. pose proof (lookup_lt_Some _ _ _ Hfd) as Hlf.
  constructor; cbn; try done.
  - exists c, (set_ofile (<[fd := Some i]> (ofile p)) p). cbn. rewrite Nat2Z.id. split; [done|].
    split; [by apply list_lookup_insert_eq|]. split; [lia|]. by apply list_lookup_insert_eq.
  - intros fd' Hfd'. destruct (lookup_lt_is_Some_2 (ofile p) (Z.to_nat fd')) as [[i'|] He]; [lia| |].
    + exists i', c, p. split_and!; done || lia.
    + by destruct (Hmin (Z.to_nat fd')); [lia|].
  - intros fd' i' Hne. split; intros (c' & p' & Hc' & Hp' & H0 & He).
    + cbn in Hc', Hp'. assert (c' = c) as -> by congruence. rewrite list_lookup_insert_eq in Hp' by done.
      injection Hp' as <-. cbn in He. rewrite list_lookup_insert_ne in He by lia. by exists c, p.
    + assert (c' = c) as -> by congruence. assert (p' = p) as -> by congruence.
      eexists c, _. cbn. split; [done|]. split; [by apply list_lookup_insert_eq|]. split; [done|]. cbn.
      by rewrite list_lookup_insert_ne by lia.
  - intros i' (c' & p' & Hc' & Hp' & _ & He). rewrite Nat2Z.id in He. congruence.
  - split; [by exists g|done].
  - split; [done|]. intros c' Hne. rewrite list_lookup_insert_ne; [done|]. congruence.
Qed.

Lemma alloc_file_descriptor_wp k A X Y d j n flags (Q : Z → kernel → Prop) R :
  kinv k A (j :: X) Y → dev_valid d → held (kfs k) d j n →
  (has_flag flags FILECTRL_WRITEONLY = true → d ≠ 0) →
  (∀ k', no_slot k → kinv k' A X Y → cached (kfs k) (kfs k') → tables_kept k k' → Q ERR_NO_SPACE k') →
  (∀ k' fd i, ¬ no_slot k → kinv k' A X Y → 0 ≤ fd → kfs k' = kfs k →
     opened k k' fd i (inode_file flags (if has_flag flags FILECTRL_APPEND then k_size (A d n) else 0) j) →
     Q fd k') →
  wp (alloc_file_descriptor (Some j) flags) Q R k.
Proof.
  intros K Hd Hh Hw HN HS. unfold alloc_file_descriptor. wp_step. apply file_create_wp.
  { intros E. wp_step. eapply kinv_iput; [exact K|]. intros s' Hc K' _. wp_step. apply HN; try done.
    left. intros i f. by apply file_free_none. }
  intros i f Hf Hr. set (f1 := mkFile _ _ _ _ _ _). set (k1 := set_file_table _ k).
  wp_step. apply wp_in_fs. destruct (Hh) as [Hok (ip & Hl & Hir & Hv & Ed & En)].
  eapply wp_deref; [exact Hl|].
  destruct (rep_cache _ _ _ _ (fsys_rep _ _ _ (te_fsys _ _ (ki_tree _ _ _ _ K) d Hd)) j ip) as [Hk _];
    [done..|by rewrite En|].
  assert (size (din ip) = k_size (A d n)) as -> by (rewrite En in Hk; by rewrite <-Hk).
  assert (set_kfs (kfs k1) k1 = k1) as -> by by destruct k.
  wp_step. eapply upd_file_wp; [by eapply lookup_set_file|]. unfold k1. rewrite set_file_table_twice.
  change (set_f_off ?o (set_f_ip (Some j) f1)) with (inode_file flags o j).
  set (f2 := inode_file _ _ j). set (k2 := set_file_table _ k).
  pose proof (fsys_size _ _ _ (te_fsys _ _ (ki_tree _ _ _ _ K) d Hd) n Hok) as Hsz. consts.
  assert (K2 : kinv k2 A X (i :: Y)).
  { eapply kinv_fresh; [exact K|done|done|done| |].
    - split; [cbn; destruct (has_flag flags FILECTRL_APPEND); lia|]. exists j, d, n. done.
    - intros x. rewrite occ_cons. unfold file_holds. cbn. f_equal. apply decide_ext.
      split; [intros [_ [= ->]]; done|intros ->; split; [lia|done]]. }
  assert (Hi2 : (i < length (file_table k2))%nat) by (cbn; rewrite length_insert; by eapply lookup_lt_Some).
  assert (Hf2 : file_table k2 !! i = Some f2) by by eapply lookup_set_file.
  destruct (kinv_free_slot _ _ _ _ _ _ K Hf Hr) as [Hzero _].
  wp_step. eapply fd_install_wp; [exact K2|done| |].
  - intros c p Hc Hp E. wp_step. eapply file_close_wp; [exact K2|done|].
    intros k' K' Hc' Ep Ecur Hrest _. wp_step. apply HN; try done.
    + right. intros c' p' fd Hcp Hpp. cbn in Hc, Hp. simplify_eq. by apply fd_free_none.
    + constructor; [done|done|]. intros i' g Hg Hgr. destruct (decide (i' = i)) as [->|Hne]; [congruence|].
      rewrite Hrest by done. cbn. by rewrite list_lookup_insert_ne.
  - intros c p fd Hc Hp Hfd Hmin K3. wp_step. apply (HS _ _ i); [|done|lia|done|by eapply opened_install].
    intros [H|H]; [by eapply H|]. by destruct (H c p fd).
Qed.

(** * Reading, writing, seeking and closing through descriptors *)

(** Slot [i] is an open inode file: [f], on inode [n] of device [d]. *)
Definition inode_open (k : kernel) (fd : Z) (i : nat) (f : File) (d n : Z) : Prop :=
  open_at k fd i ∧ file_table k !! i = Some f ∧ f_type f = FD_INODE ∧
  ∃ j, f_ip f = Some j ∧ held (kfs k) d j n.

Lemma open_at_inj k fd i i' : open_at k fd i → open_at k fd i' → i = i'.
Proof. intros (c & p & ? & ? & _ & ?) (c' & p' & ? & ? & _ & ?). by simplify_eq. Qed.

(** What the invariant says of an open inode file. *)
Lemma inode_open_ok k A X Y fd i f d n :
  kinv k A X Y → inode_open k fd i f d n →
  0 < f_ref f ∧ 0 ≤ f_off f < 4294967296 ∧ dev_valid d ∧ (f_writable f = true → d ≠ 0).
Proof.
  intros K (Ho & Hf & Hty & j & Hj & Hh). destruct (open_file_ok _ _ _ _ _ _ K Ho) as (f' & Hf' & Hr & Hoff & Ht).
  assert (f' = f) as -> by congruence. rewrite Hty in Ht.
  destruct Ht as (j' & d' & n' & Hj' & Hd' & Hh' & Hw). assert (j' = j) by congruence. subst j'.
  destruct (pinned_inj _ _ _ _ _ _ (held_pinned _ _ _ _ Hh) (held_pinned _ _ _ _ Hh')) as [-> ->]. done.
Qed.

Lemma fd_lookup_open k A X Y fd i (Q : option nat → kernel → Prop) R :
  kinv k A X Y → open_at k fd i → Q (Some i) k → wp (fd_lookup fd) Q R k.
Proof.
  intros K Ho HQ. eapply fd_lookup_wp; [done| |].
  - intros Hno. by destruct (Hno i).
  - intros i' Ho'. by rewrite (open_at_inj _ _ _ _ Ho' Ho).
Qed.

(** Moving the offset keeps the invariant. *)
Lemma kinv_off k A X Y i f o :
  kinv k A X Y → file_table k !! i = Some f → 0 ≤ o < 4294967296 →
  kinv (set_file_table (<[i := set_f_off o f]>) k) A X Y.
Proof.
  intros K Hf Ho. eapply kinv_file; [done|done|done|done|done|]. cbn. intros Hr.
  destruct (ki_files _ _ _ _ K i f Hf Hr) as [_ Ht]. by split.
Qed.

(** The system device is as it was. *)
Definition ro (k k' : kernel) : Prop := disk_of (kfs k') 0 = disk_of (kfs k) 0.

(** Slot [i] holds [f] now; nothing else of the table, no process and no memory changed. *)
Definition only_file (k k' : kernel) (i : nat) (f : File) : Prop :=
  file_table k' !! i = Some f ∧ (∀ i', i' ≠ i → file_table k' !! i' = file_table k !! i') ∧
  procs k' = procs k ∧ current_proc k' = current_proc k ∧ kmem k' = kmem k.

Lemma only_file_insert k i f g : file_table k !! i = Some g → only_file k (set_file_table (<[i := f]>) k) i f.
Proof.
  intros Hg. split_and!; [by eapply lookup_set_file| |done..]. intros i' Hne. cbn.
  by rewrite list_lookup_insert_ne.
Qed.

(** The offset after a transfer that returned [r]. *)
Definition advance (f : File) (r : Z) : File := if r >? 0 then set_f_off (u32 (f_off f + r)) f else f.

Lemma advance_wp k i f r (Q : unit → kernel → Prop) R :
  file_table k !! i = Some f → Q tt (set_file_table (<[i := advance f r]>) k) →
  wp (if r >? 0 then upd_file i (λ f, set_f_off (u32 (f_off f + r)) f) else mret tt) Q R k.
Proof.
  intros Hf HQ. unfold advance in HQ. destruct (r >? 0); [by eapply upd_file_wp|]. apply wp_ret.
  assert (set_file_table (<[i := f]>) k = k) as <-; [|done]. unfold set_file_table.
  rewrite list_insert_id by done. by destruct k.
Qed.

Lemma kinv_advance k A X Y i f r :
  kinv k A X Y → file_table k !! i = Some f → kinv (set_file_table (<[i := advance f r]>) k) A X Y.
Proof.
  intros K Hf. unfold advance. destruct (r >? 0).
  - apply kinv_off; [done|done|apply u32_range].
  - assert (set_file_table (<[i := f]>) k = k) as ->; [|done]. unfold set_file_table.
    rewrite list_insert_id by done. by destruct k.
Qed.

Lemma fs_read_wp k A y fd n i f d m (Q : Z * list Z → kernel → Prop) R :
  kinv k A [] [] → inode_open k fd i f d m → f_readable f = true → 0 ≤ n < 4294967296 →
  let r := read_spec (k_type (A d m)) (content (kfs k) d (A d m)) (f_off f) n in
  (∀ k', kinv k' A [] [] → kfs k' = kfs k → only_file k k' i (advance f r.1) → Q r k') →
  wp (fs_read y fd n) Q R k.
Proof.
  intros K HO Hr Hn r HQ. destruct (inode_open_ok _ _ _ _ _ _ _ _ _ K HO) as (_ & Hoff & Hd & _).
  destruct HO as (Ho & Hf & Hty & j & Hj & Hh). unfold fs_read. wp_step. eapply fd_lookup_open; [done..|].
  cbn iota. wp_step. eapply file_wp; [done|]. rewrite Hty, Hr. cbn [negb]. rewrite Hj, u32_small by done.
  wp_step. apply wp_in_fs. eapply (readi_held_wp (kfs k) d (A d) j m);
    [by apply (te_fsys _ _ (ki_tree _ _ _ _ K))|done..|].
  assert (set_kfs (kfs k) k = k) as -> by by destruct k. fold r.
  wp_step. eapply advance_wp; [done|]. wp_step. apply HQ.
  - by apply kinv_advance.
  - done.
  - by eapply only_file_insert.
Qed.

Lemma fs_write_wp k A fd src i f d m (Q : Z → kernel → Prop) (R : kernel → Prop) :
  kinv k A [] [] → inode_open k fd i f d m → f_writable f = true → k_type (A d m) ≠ FT_DIRECTORY →
  bytes src → Z.of_nat (length src) < 2147483648 →
  let r := write_spec (content (kfs k) d (A d m)) (f_off f) src in
  (∀ k' A1, kinv k' (upd A d A1) [] [] → changed (kfs k) (kfs k') A (upd A d A1) d m →
     content (kfs k') d (A1 m) = r.2 → k_type (A1 m) = k_type (A d m) → (∀ x, x ≠ m → A1 x = A d x) →
     (∀ j e x, held (kfs k) e j x → held (kfs k') e j x) →
     only_file k k' i (advance f r.1) → Q (if r.1 <? 0 then ERR_NO_SPACE else r.1) k') →
  (∀ s', same_base (kfs k) s' d → full s' d → R (set_kfs s' k)) →
  wp (fs_write fd src (Z.of_nat (length src))) Q R k.
Proof.
  intros K HO Hw Hnd Hb Hlen r HQ HR. destruct (inode_open_ok _ _ _ _ _ _ _ _ _ K HO) as (_ & Hoff & Hd & _).
  destruct HO as (Ho & Hf & Hty & j & Hj & Hh). unfold fs_write. wp_step. eapply fd_lookup_open; [done..|].
  cbn iota. wp_step. eapply file_wp; [done|]. rewrite Hty, Hw. cbn [negb]. rewrite Hj, u32_small by lia.
  wp_step. eapply kinv_writei; [done|done|by eapply held_pinned|done|done|lia|done| |done].
  intros s' A1 [K' C Hk _] Ec Et Hrest Hh'. fold r.
  wp_step. eapply advance_wp; [done|]. wp_step. apply (HQ _ A1).
  - by apply kinv_advance.
  - done.
  - done.
  - done.
  - done.
  - done.
  - by eapply (only_file_insert (set_kfs s' k)).
Qed.

Lemma fs_ftruncate_wp k A fd len i f d m (Q : Z → kernel → Prop) R :
  kinv k A [] [] → inode_open k fd i f d m → f_writable f = true → k_type (A d m) ≠ FT_DIRECTORY →
  0 ≤ len < 2147483648 →
  (∀ s' A1, stepped k A s' A1 [] [] [] d m →
     content s' d (A1 m) = take (Z.to_nat len) (content (kfs k) d (A d m)) →
     k_type (A1 m) = k_type (A d m) → (∀ x, x ≠ m → A1 x = A d x) → Q 0 (set_kfs s' k)) →
  wp (fs_ftruncate fd len) Q R k.
Proof.
  intros K HO Hw Hnd Hlen HQ. destruct (inode_open_ok _ _ _ _ _ _ _ _ _ K HO) as (_ & Hoff & Hd & _).
  destruct HO as (Ho & Hf & Hty & j & Hj & Hh). unfold fs_ftruncate. wp_step. eapply fd_lookup_open; [done..|].
  cbn iota. wp_step. eapply file_wp; [done|]. rewrite Hty, Hw. cbn [negb]. rewrite Hj. zb.
  wp_step. eapply kinv_itrunc; [done|done|by eapply held_pinned|lia|done|].
  intros s' A1 St Ec Et Hrest _. wp_step. by apply (HQ s' A1).
Qed.

Lemma fs_lseek_wp k A fd off wh i f d m (Q : Z → kernel → Prop) R :
  kinv k A [] [] → inode_open k fd i f d m →
  let base := if wh =? 0 then Some 0 else if wh =? 1 then Some (s32 (f_off f))
              else if wh =? 2 then Some (k_size (A d m)) else None in
  (∀ b, base = Some b → -2147483648 ≤ b + off < 2147483648) →
  (match base with
   | Some b => if b + off <? 0 then Q ERR_INVALID_ARGUMENT k else
       ∀ k', kinv k' A [] [] → kfs k' = kfs k → only_file k k' i (set_f_off (b + off) f) → Q (b + off) k'
   | None => Q ERR_INVALID_ARGUMENT k
   end) →
  wp (fs_lseek fd off wh) Q R k.
Proof.
  intros K HO base Hov HQ. destruct (inode_open_ok _ _ _ _ _ _ _ _ _ K HO) as (_ & Hoff & Hd & _).
  destruct HO as (Ho & Hf & Hty & j & Hj & Hh). unfold fs_lseek. wp_step. eapply fd_lookup_open; [done..|].
  cbn iota. wp_step. eapply file_wp; [done|]. rewrite Hj.
  wp_step. eapply kinv_deref; [done|done|done|]. intros ip _ _ Hk. destruct (Hh) as [Hok _].
  pose proof (fsys_size _ _ _ (te_fsys _ _ (ki_tree _ _ _ _ K) d Hd) m Hok) as Hsz. consts.
  assert (size (din ip) = k_size (A d m)) as -> by by rewrite <-Hk. rewrite (s32_small (k_size (A d m))) by lia.
  wp_step.
  assert (Hfin : ∀ b, base = Some b → wp (if b + off <? 0 then mret ERR_INVALID_ARGUMENT
    else upd_file i (set_f_off (b + off));; mret (b + off)) Q R k).
  { intros b Hb. rewrite Hb in HQ. specialize (Hov b Hb). destruct (Z.ltb_spec (b + off) 0); [by apply wp_ret|].
    wp_step. eapply upd_file_wp; [done|]. wp_step. apply HQ; [|done|by eapply only_file_insert].
    apply kinv_off; [done|done|lia]. }
  assert (Hadd : ∀ b, base = Some b → int_add b off = Some (b + off)).
  { intros b Hb. specialize (Hov b Hb). unfold int_add. by zb. }
  unfold base in *. destruct (wh =? 0); [|destruct (wh =? 1); [|destruct (wh =? 2)]].
  - wp_step. by apply (Hfin 0).
  - wp_step. eapply wp_expect; [by apply Hadd|]. wp_step. by apply Hfin.
  - wp_step. eapply wp_expect; [by apply Hadd|]. wp_step. by apply Hfin.
  - wp_step. by apply wp_ret.
Qed.

Lemma fs_close_wp k A fd i (Q : Z → kernel → Prop) R :
  kinv k A [] [] → open_at k fd i →
  (∀ k', kinv k' A [] [] → cached (kfs k) (kfs k') → (∀ i', ¬ open_at k' fd i') →
     (∀ i', i' ≠ i → file_table k' !! i' = file_table k !! i') → Q 0 k') →
  wp (fs_close fd) Q R k.
Proof.
  intros K Ho HQ. destruct (ki_cur _ _ _ _ K) as (c & p & Hc & Hp). destruct (ki_fds _ _ _ _ K c p Hp) as [Hl Hb].
  destruct (Ho) as (c' & p' & Hc' & Hp' & H0 & He). simplify_eq.
  destruct (lookup_lt_is_Some_2 _ _ (Hb _ _ He)) as [f Hf].
  assert (Hfd : (Z.to_nat fd < length (ofile p))%nat) by by eapply lookup_lt_Some.
  unfold fs_close. wp_step. eapply fd_lookup_open; [done..|]. cbn iota. wp_step. eapply file_wp; [done|].
  assert (Hrest : wp (c ← current; upd_proc c (λ p, set_ofile (<[Z.to_nat fd := None]> (ofile p)) p);;
    file_close (Some i);; mret 0) Q R k).
  { wp_step. eapply current_wp; [done|]. wp_step. eapply upd_proc_wp; [done|]. set (k1 := set_procs _ k).
    assert (K1 : kinv k1 A [] [i]).
    { eapply kinv_proc; [exact K|done|done| | |].
      - intros x. rewrite (fd_holds_insert x p _ _ None He), occ_cons.
        rewrite (decide_False (P := None = Some x)) by done. repeat case_decide; congruence || lia.
      - cbn. by rewrite length_insert.
      - intros fd' i'. cbn. destruct (decide (fd' = Z.to_nat fd)) as [->|Hne].
        + by rewrite list_lookup_insert_eq by done.
        + rewrite list_lookup_insert_ne by done. apply Hb. }
    wp_step. eapply file_close_wp; [exact K1|by eapply lookup_lt_Some|].
    intros k' K' Hcd Hps Hcur Hft _. wp_step. apply HQ; [done|done| |done].
    intros i' (c' & p' & Hc1 & Hp1 & _ & He1). rewrite Hps in Hp1. rewrite Hcur in Hc1. cbn in Hc1, Hp1.
    assert (c' = c) by congruence. subst c'. rewrite list_lookup_insert_eq in Hp1 by by eapply lookup_lt_Some.
    injection Hp1 as <-. cbn in He1. by rewrite list_lookup_insert_eq in He1. }
  destruct (open_file_ok _ _ _ _ _ _ K Ho) as (f' & Hf' & _ & _ & Hok). simplify_eq. by destruct (f_type f).
Qed.
