(* ===== verification/FdPath.v ===== *)
(** * Opening, creating and removing by path

    [fs_open], [fs_create], [fs_mkdir] and [fs_rm] under the kernel invariant. *)

From S2P Require Import Prelude CLib FsTypes Block Inode FsInv FsAlloc FsMap FsGrow FsFile FsWrite.
From S2P Require Import FsTrunc FsCache Dir DirSpec FsRef Namei KState FdTable FdInv FdSteps FdFile Path.

(** ** Composing changes *)

Lemma cached_changed s s' A d n : cached s s' → changed s s' A A d n.
Proof. intros [f ->]. by constructor. Qed.

Lemma changed_trans s1 s2 s3 A1 A2 A3 d n :
  changed s1 s2 A1 A2 d n → changed s2 s3 A2 A3 d n → changed s1 s3 A1 A3 d n.
Proof.
  intros C1 C2. constructor.
  - intros e He Hne. rewrite (ch_devs _ _ _ _ _ _ C2), (ch_devs _ _ _ _ _ _ C1) by done. done.
  - intros e m [He Hm] Hne. destruct (ch_rest _ _ _ _ _ _ C1 e m (conj He Hm) Hne) as [<- <-].
    apply (ch_rest _ _ _ _ _ _ C2); [|done]. split; [done|]. by apply (changed_ok _ _ _ _ _ _ e m C1).
  - by rewrite (ch_sb _ _ _ _ _ _ C2), (ch_sb _ _ _ _ _ _ C1).
  - destruct (ch_mounts _ _ _ _ _ _ C1) as [<- <-]. apply C2.
Qed.

Lemma changed_cached s1 s2 s3 A1 A2 d n :
  changed s1 s2 A1 A2 d n → cached s2 s3 → changed s1 s3 A1 A2 d n.
Proof. intros C Hc. eapply changed_trans; [done|]. by apply cached_changed. Qed.

Lemma cached_then_changed s1 s2 s3 A1 A2 d n :
  cached s1 s2 → changed s2 s3 A1 A2 d n → changed s1 s3 A1 A2 d n.
Proof. intros Hc C. eapply changed_trans; [by apply cached_changed|done]. Qed.

Lemma set_kfs_twice s s' k : set_kfs s (set_kfs s' k) = set_kfs s k.
Proof. done. Qed.

Lemma wp_in_fs_bind {B C} (m : M fs B) (f : B → M fs C) Q R k :
  wp (in_fs m ≫= λ b, in_fs (f b)) Q R k → wp (in_fs (m ≫= f)) Q R k.
Proof. unfold wp, in_fs, zoom, mbind, M_bind. by destruct (m (kfs k)). Qed.

Lemma kinv_namei k A X Y p r (Q : ptr → kernel → Prop) (R : kernel → Prop) :
  kinv k A X Y → nonzero p →
  (∀ s', names k A false p None → cached (kfs k) s' → kinv (set_kfs s' k) A X Y → Q None (set_kfs s' k)) →
  (∀ y i s', names k A false p (Some y) → cached (kfs k) s' → kinv (set_kfs s' k) A (i :: X) Y →
     dev_valid y.1 → pinned s' y.1 i y.2 → Q (Some i) (set_kfs s' k)) →
  (∀ s', cache_full s' → R (set_kfs s' k)) →
  wp (c ← process_cwd; in_fs (namei c (p ++ 0 :: r))) Q R k.
Proof.
  intros K Hp HN HS HR.
  assert (H : wp (c ← process_cwd; in_fs (namex c (p ++ 0 :: r) false)) (λ x k', Q x.1 k') R k).
  { eapply kinv_namex; [done..| | |done].
    - intros nm s' ? ? ?. by apply HN.
    - intros y i nm s' ? ? ? ? ? _. by apply (HS y). }
  revert H. unfold wp, mbind, M_bind. destruct (process_cwd k) as [c k'| | |]; [|done..]. unfold namei, in_fs, zoom, mbind, M_bind.
  by destruct (namex c _ false (kfs k')) as [[]| | |].
Qed.

(** ** [fs_open] *)

Definition truncates (flags ty : Z) : bool := has_flag flags FILECTRL_TRUNCATE && (ty =? FT_FILE).

(** [if ((flags & FILECTRL_TRUNCATE) && type == FT_FILE) itrunc(ip, 0)] *)
Lemma kinv_truncates k A X Y d j n flags ip (Q : unit → kernel → Prop) R :
  kinv k A X Y → dev_valid d → held (kfs k) d j n → key (din ip) = A d n →
  (∀ s' A', kinv (set_kfs s' k) A' X Y → changed (kfs k) s' A A' d n → held s' d j n →
     k_type (A' d n) = k_type (A d n) →
     content s' d (A' d n) = (if truncates flags (k_type (A d n)) then [] else content (kfs k) d (A d n)) →
     (∀ e, e ≠ d → A' e = A e) → (truncates flags (k_type (A d n)) = false → s' = kfs k) →
     (∀ i e x, held (kfs k) e i x → held s' e i x) → Q tt (set_kfs s' k)) →
  wp (if has_flag flags FILECTRL_TRUNCATE && (d_type (din ip) =? FT_FILE)
      then in_fs (itrunc (Some j) 0) else mret tt) Q R k.
Proof.
  intros K Hd Hh Hk HQ. assert (d_type (din ip) = k_type (A d n)) as -> by by rewrite <-Hk.
  fold (truncates flags (k_type (A d n))). destruct (truncates flags (k_type (A d n))) eqn:E.
  - eapply kinv_itrunc; [done|done|by eapply held_pinned|lia|intros _; apply dir_fine_nil|].
    intros s' A1 [K' C Hhl _] Ec Et _ Hh'. apply (HQ s' (upd A d A1)); try done.
    + by rewrite upd_eq.
    + by rewrite upd_eq, Ec.
    + intros e Hne. by rewrite upd_ne.
  - apply wp_ret. assert (Ek : set_kfs (kfs k) k = k) by by destruct k.
    rewrite <-Ek. apply (HQ (kfs k) A); try done. by rewrite Ek.
Qed.

(** Inode [n] of [d] has been opened: the result is a new descriptor on it with
    the access asked for, or the error that there is no room for one, which comes
    exactly when the open file table or the descriptors of the process are full. *)
Record open_done (k k' : kernel) (A' : Z → Z → ikey) (d n flags : Z) (c : list Z) (r : Z) : Prop := OpenDone {
  od_kinv : kinv k' A' [] [];
  od_content : content (kfs k') d (A' d n) = c;
  od_result : (no_slot k ∧ r = ERR_NO_SPACE ∧ tables_kept k k') ∨
    (¬ no_slot k ∧ ∃ i f, opened k k' r i f ∧ inode_open k' r i f d n ∧ f_ref f = 1 ∧
      f_readable f = has_flag flags FILECTRL_READONLY ∧ f_writable f = has_flag flags FILECTRL_WRITEONLY ∧
      f_off f = if has_flag flags FILECTRL_APPEND then Z.of_nat (length c) else 0)
}.

(** The tables are not part of the filesystem. *)
Lemma opened_set_kfs s k k' r i f : opened (set_kfs s k) k' r i f → opened k k' r i f.
Proof. by intros []. Qed.

Lemma open_done_set_kfs s k k' A' d n flags c r :
  open_done (set_kfs s k) k' A' d n flags c r → open_done k k' A' d n flags c r.
Proof.
  intros [K Ec [(Hf & -> & [? ? ?])|(Hno & i & f & Ho & Hrest)]]; (constructor; [done|done|]).
  - by left.
  - right. split; [done|]. exists i, f. split; [by eapply opened_set_kfs|done].
Qed.

Lemma alloc_done s k A d j n flags c (Q : Z → kernel → Prop) R :
  kinv (set_kfs s k) A [j] [] → dev_valid d → held s d j n → content s d (A d n) = c →
  (has_flag flags FILECTRL_WRITEONLY = true → d ≠ 0) →
  (∀ r k', open_done k k' A d n flags c r → cached s (kfs k') → Q r k') →
  wp (alloc_file_descriptor (Some j) flags) Q R (set_kfs s k).
Proof.
  intros K Hd Hh Hc Hw HQ. destruct (Hh) as [Hok _].
  pose proof (fsys_size _ _ _ (te_fsys _ _ (ki_tree _ _ _ _ K) d Hd) n Hok) as Hsz.
  eapply alloc_file_descriptor_wp; [exact K|done|done|done| |].
  - intros k' Hfull K' Hcd Hkt. apply HQ; [|done]. apply (open_done_set_kfs s). constructor; [done| |by left].
    by rewrite (cached_content _ _ _ _ Hcd).
  - intros k' fd i Hno K' Hfd Es Ho. apply HQ; [|rewrite Es; apply cached_refl]. apply (open_done_set_kfs s).
    constructor; [done|by rewrite Es|]. right. split; [done|].
    exists i, (inode_file flags (if has_flag flags FILECTRL_APPEND then k_size (A d n) else 0) j).
    split; [done|]. destruct Ho as [Hop _ _ _ [(g & Hg & _) Hf] _].
    split; [|split; [done|]; split; [done|]; split; [done|]].
    + split; [done|]. split; [|split; [done|]; exists j; split; [done|]; by rewrite Es].
      rewrite Hf. apply list_lookup_insert_eq. by eapply lookup_lt_Some.
    + cbn. rewrite <-Hc, length_content. destruct (has_flag flags FILECTRL_APPEND); lia.
Qed.

Definition readonly_refused (y : Z * Z) (flags mask : Z) : bool := (y.1 =? 0) && has_flag flags mask.

Lemma fs_open_wp k A p r flags (Q : Z → kernel → Prop) (R : kernel → Prop) :
  kinv k A [] [] → nonzero p → p ≠ take 7 str_console →
  (∀ k', names k A false p None → cached (kfs k) (kfs k') → kinv k' A [] [] → Q ERR_NOT_FOUND k') →
  (∀ y k', names k A false p (Some y) → readonly_refused y flags (Z.lor FILECTRL_WRITEONLY FILECTRL_TRUNCATE) = true →
     cached (kfs k) (kfs k') → kinv k' A [] [] → Q ERR_PERMISSION_DENIED k') →
  (∀ y k' A' x, names k A false p (Some y) → dev_valid y.1 → inode_ok (kfs k) y.1 y.2 →
     readonly_refused y flags (Z.lor FILECTRL_WRITEONLY FILECTRL_TRUNCATE) = false →
     changed (kfs k) (kfs k') A A' y.1 y.2 → k_type (A' y.1 y.2) = k_type (A y.1 y.2) →
     (truncates flags (k_type (A y.1 y.2)) = false → cached (kfs k) (kfs k')) →
     open_done k k' A' y.1 y.2 flags (if truncates flags (k_type (A y.1 y.2)) then []
       else content (kfs k) y.1 (A y.1 y.2)) x → Q x k') →
  (∀ s', cache_full s' → R (set_kfs s' k)) →
  wp (fs_open (p ++ 0 :: r) flags) Q R k.
Proof.
  intros K Hp Hcon HN HD HO HR. unfold fs_open. wp_step.
  assert (Hstr : ∃ z, strcmp (p ++ 0 :: r) str_console = Some z ∧ z ≠ 0).
  { assert (Hc7 : nonzero (take 7 str_console)) by (repeat constructor; lia).
    destruct (strcmp_spec p (take 7 str_console) r [] Hp Hc7) as (z & Hz & Hiff). exists z. split; [done|]. tauto. }
  destruct Hstr as (z & Hz & Hz0). eapply wp_expect; [exact Hz|]. rewrite (proj2 (Z.eqb_neq _ _)) by done.
  apply wp_then. eapply kinv_namei; [done|done| | |done].
  - intros s' Hn Hc K'. wp_step. by apply HN.
  - intros y j s1 Hn Hc1 K1 Hyd Hp1. wp_step. eapply kinv_ilock; [exact K1|done|done|].
    intros s2 Hc2 K2 Hh2 _ _. rewrite set_kfs_twice in *.
    assert (Hc02 : cached (kfs k) s2) by (eapply cached_trans; [exact Hc1|exact Hc2]).
    assert (Hok : inode_ok (kfs k) y.1 y.2) by (apply (cached_inode_ok _ _ _ _ Hc02), Hh2).
    wp_step. eapply kinv_deref; [exact K2|done|done|]. intros ip Ed _ Hk. rewrite Ed.
    fold (readonly_refused y flags (Z.lor FILECTRL_WRITEONLY FILECTRL_TRUNCATE)).
    destruct (readonly_refused y flags _) eqn:Ero.
    { wp_step. eapply kinv_iput; [exact K2|]. intros s3 Hc3 K3 _. wp_step. rewrite set_kfs_twice in *.
      eapply HD; [done|done| |done]. cbn. eapply cached_trans; [exact Hc02|exact Hc3]. }
    wp_step. eapply kinv_truncates; [exact K2|done|done|done|].
    intros s3 A3 K3 C3 Hh3 Et Ec _ Htr _. rewrite set_kfs_twice in *. cbn [kfs set_kfs] in *.
    rewrite (cached_content _ _ _ _ Hc02) in Ec.
    eapply alloc_done; [exact K3|done|done|exact Ec| |].
    { intros Hw E0. unfold readonly_refused in Ero. rewrite E0 in Ero. cbn [Z.eqb andb] in Ero.
      unfold has_flag in *. rewrite negb_false_iff, Z.eqb_eq in Ero. rewrite negb_true_iff, Z.eqb_neq in Hw.
      apply Hw. rewrite Z.land_lor_distr_r in Ero. by apply Z.lor_eq_0_iff in Ero as [? _]. }
    intros x k' Hod Hc4. apply (HO y k' A3); try done.
    + eapply cached_then_changed; [exact Hc02|]. eapply changed_cached; [exact C3|exact Hc4].
    + intros E. cbn in Hc4. rewrite (Htr E) in Hc4. eapply cached_trans; [exact Hc02|exact Hc4].
Qed.

(** ** [fs_create] *)

(** Dropping the directory keeps the file loaded. *)
Lemma kinv_iput_keep k A X Y i d j n (Q : unit → kernel → Prop) R :
  kinv k A (j :: i :: X) Y → held (kfs k) d j n →
  (∀ s', cached (kfs k) s' → kinv (set_kfs s' k) A (j :: X) Y → held s' d j n → Q tt (set_kfs s' k)) →
  wp (in_fs (iput (Some i))) Q R k.
Proof.
  intros K Hh HQ. eapply kinv_iput; [apply kinv_swap; exact K|]. intros s' Hc K' Hk.
  apply HQ; [done|done|]. apply Hk; [|done].
  destruct (kinv_local _ _ _ _ j K' ltac:(left)) as (e & m & _ & Hp). by eapply pinned_iref.
Qed.

Lemma inode_ok_u16 s d A n : wf s d A → inode_ok s d n → 0 < n < 65536.
Proof.
  intros W [H1 H2]. pose proof (wf_geom _ _ _ W) as G. unfold geom_ok, imax in *. consts. lia.
Qed.

(** An inode can be allocated, or the scan for one stays inside the inode area. *)
Definition room (s : fs) (d : Z) (A : Z → ikey) : Prop := (∃ n, first_free s d A n) ∨ inodes_fit s d.

(** A file [n] of type [ty] and contents [cn] has been created in the directory
    [m] of [d] under the name [t]; the rest is as it was. *)
Record made (s s' : fs) (A A' : Z → Z → ikey) (d m n ty : Z) (t cn : list Z) : Prop := Made {
  md_devs : ∀ e, dev_valid e → e ≠ d → disk_of s' e = disk_of s e;
  md_free : first_free s d (A d) n;
  md_type : k_type (A' d n) = ty;
  md_content : content s' d (A' d n) = cn;
  md_dir : k_type (A' d m) = FT_DIRECTORY ∧
    let c := content s d (A d m) in
    content s' d (A' d m) = dir_slot c (free_slot (dirents c)) (encode_dirent (new_entry t n));
  md_rest : ∀ e x, node_ok s (e, x) → (e, x) ≠ (d, m) → (e, x) ≠ (d, n) →
    content s' e (A' e x) = content s e (A e x) ∧ k_type (A' e x) = k_type (A e x)
}.

Lemma made_cached s s1 s' s2 A A' d m n ty t cn :
  cached s s1 → made s1 s' A A' d m n ty t cn → cached s' s2 → made s s2 A A' d m n ty t cn.
Proof. intros [f ->] [H1 H2 H3 H4 H5 H6] [g ->]. by constructor. Qed.

(** No entry of a directory with contents [c] is free, and one more would pass the
    maximum file size. *)
Definition dir_full (c : list Z) : Prop := 32 * Z.of_nat (free_slot (dirents c)) + 32 > MAXFILE * BSIZE.

(** The inode [n] was allocated with type [ty] and contents [cn], and then there
    was no room for its name in the directory [m]: no other file changed. *)
Record orphaned (s s' : fs) (A A' : Z → Z → ikey) (d m n ty : Z) (cn : list Z) : Prop := Orphaned {
  or_free : first_free s d (A d) n;
  or_full : dir_full (content s d (A d m));
  or_type : k_type (A' d n) = ty;
  or_content : content s' d (A' d n) = cn;
  or_rest : changed s s' A A' d n
}.

Lemma orphaned_cached s s1 s' s2 A A' d m n ty cn :
  cached s s1 → orphaned s1 s' A A' d m n ty cn → cached s' s2 → orphaned s s2 A A' d m n ty cn.
Proof.
  intros H1 [O1 O2 O3 O4 O5] H2. constructor; [..|eapply cached_then_changed, changed_cached; done];
    destruct H1 as [f ->], H2 as [g ->]; done.
Qed.

(** A change at [n], then one at [m] that kept the contents of [m]. *)
Lemma changed_then_kept s1 s2 s3 A1 A2 A3 d n m :
  changed s1 s2 A1 A2 d n → changed s2 s3 A2 A3 d m → m ≠ n → inode_ok s1 d m → dev_valid d →
  content s3 d (A3 d m) = content s1 d (A1 d m) → k_type (A3 d m) = k_type (A1 d m) →
  changed s1 s3 A1 A3 d n.
Proof.
  intros C1 C2 Hmn Hm Hd Ec Et. constructor.
  - intros e He Hne. rewrite (ch_devs _ _ _ _ _ _ C2), (ch_devs _ _ _ _ _ _ C1) by done. done.
  - intros e x [He Hx] Hne. destruct (decide ((e, x) = (d, m))) as [[= -> ->]|Hnm]; [done|].
    destruct (ch_rest _ _ _ _ _ _ C1 e x (conj He Hx) Hne) as [<- <-].
    apply (ch_rest _ _ _ _ _ _ C2); [|done]. split; [done|]. by apply (changed_ok _ _ _ _ _ _ e x C1).
  - by rewrite (ch_sb _ _ _ _ _ _ C2), (ch_sb _ _ _ _ _ _ C1).
  - destruct (ch_mounts _ _ _ _ _ _ C1) as [<- <-]. apply C2.
Qed.

Lemma first_free_cached s s' d A n : cached s s' → first_free s' d A n ↔ first_free s d A n.
Proof. by intros [f ->]. Qed.

Lemma room_cached s s' d A : cached s s' → room s d A → room s' d A.
Proof. by intros [f ->]. Qed.

(** Linking the inode just allocated. *)
Lemma dirlink_made k A X d i m j n ty t r s1 (Q : Z → kernel → Prop) (R : kernel → Prop) :
  kinv k A X [] → dev_valid d → held (kfs k) d i m → k_type (A d m) = FT_DIRECTORY → nonzero t →
  first_free (kfs k) d (A d) n →
  dir_find (dirents (content (kfs k) d (A d m))) (t ++ 0 :: r) = None →
  (* after the allocation, perhaps with contents written *)
  (∀ A1 X1 cn, kinv (set_kfs s1 k) A1 X1 [] → changed (kfs k) s1 A A1 d n → held s1 d i m → held s1 d j n →
     k_type (A1 d n) = ty → content s1 d (A1 d n) = cn →
     (∀ s2 A2, kinv (set_kfs s2 k) A2 X1 [] → held s2 d j n → orphaned (kfs k) s2 A A2 d m n ty cn →
        Q (-1) (set_kfs s2 k)) →
     (∀ s2 A2, kinv (set_kfs s2 k) A2 X1 [] → held s2 d j n → ¬ dir_full (content (kfs k) d (A d m)) →
        made (kfs k) s2 A A2 d m n ty t cn →
        Q 0 (set_kfs s2 k)) →
     (∀ s2, same_base s1 s2 d → full s2 d ∨ cache_full s2 → R (set_kfs s2 k)) →
     wp (in_fs (dirlink (Some i) (t ++ 0 :: r) n)) Q R (set_kfs s1 k)).
Proof.
  intros K Hd Hh Hty Ht Hfree Hnone A1 X1 cn K1 C1 Hh1 Hj1 Hty1 Hc1 HQf HQ HR.
  destruct (Hfree) as (Hn & Hun & _). assert (Hmn : m ≠ n).
  { intros ->. rewrite Hun in Hty. done. }
  destruct (Hh) as [Hm _]. destruct (ch_rest _ _ _ _ _ _ C1 d m) as [Ecm Etm]; [done|congruence|].
  pose proof (inode_ok_u16 _ _ _ _ (rep_wf _ _ _ _ (fsys_rep _ _ _ (te_fsys _ _ (ki_tree _ _ _ _ K) d Hd))) Hn) as Hn16.
  eapply kinv_dirlink; [exact K1|done|done|congruence|done| |lia|cbn; by rewrite Ecm| |].
  - by apply (changed_ok _ _ _ _ _ _ d n C1).
  - intros s2 A2 [K2 C2 Hheld _] Ec Hrest Et Hh2. rewrite set_kfs_twice in *. cbn [kfs set_kfs] in *.
    rewrite Ecm in Ec |- *.
    assert (Hkn : upd A1 d A2 d n = A1 d n) by (rewrite upd_eq; by apply Hrest).
    assert (Ecn : content s2 d (A1 d n) = cn).
    { rewrite <-Hc1. destruct (ch_rest _ _ _ _ _ _ C2 d n) as [Ecn _]; [|congruence|by rewrite <-Hkn at 1].
      split; [done|]. by apply (changed_ok _ _ _ _ _ _ d n C1). }
    pose proof (Z.gtb_spec (32 * Z.of_nat (free_slot (dirents (content (kfs k) d (A d m)))) + 32) (MAXFILE * BSIZE)) as Hgt.
    destruct (_ >? _).
    + inversion_clear Hgt as [Hgt'|]. eapply HQf; [exact K2|by apply Hheld|]. constructor; [done|unfold dir_full; lia|by rewrite Hkn|by rewrite Hkn|].
      eapply (changed_then_kept (kfs k) s1 s2 A A1 (upd A1 d A2)); [exact C1|exact C2|done|done|done|by rewrite upd_eq|].
      by rewrite upd_eq, Et.
    + inversion_clear Hgt as [|Hgt']. eapply HQ; [exact K2|by apply Hheld|unfold dir_full; lia|]. constructor.
      * intros e He Hne. rewrite (ch_devs _ _ _ _ _ _ C2), (ch_devs _ _ _ _ _ _ C1) by done. done.
      * done.
      * by rewrite Hkn.
      * by rewrite Hkn.
      * rewrite upd_eq. split; [by rewrite Et, Etm|done].
      * intros e x Hx Hne1 Hne2. destruct (ch_rest _ _ _ _ _ _ C1 e x Hx Hne2) as [<- <-].
        apply (ch_rest _ _ _ _ _ _ C2); [|done]. destruct Hx. split; [done|]. by apply (changed_ok _ _ _ _ _ _ e x C1).
  - intros s2 HB Hf. apply HR; done.
Qed.

Lemma has_flag_lor flags a b : has_flag flags (Z.lor a b) = has_flag flags a || has_flag flags b.
Proof.
  unfold has_flag. rewrite Z.land_lor_distr_r.
  destruct (Z.eqb_spec (Z.land flags a) 0) as [->|Ha], (Z.eqb_spec (Z.land flags b) 0) as [->|Hb]; cbn; try done.
  - by rewrite (proj2 (Z.eqb_neq _ _)).
  - by rewrite Z.lor_0_r, (proj2 (Z.eqb_neq _ _)).
  - rewrite (proj2 (Z.eqb_neq _ _)); [done|]. intros [? _]%Z.lor_eq_0_iff. done.
Qed.

(** Why the kernel stops: no cache entry or no block is left. *)
Definition exhausted (k : kernel) : Prop := cache_full (kfs k) ∨ ∃ d, full (kfs k) d.

Lemma fs_create_wp k A p r flags (Q : Z → kernel → Prop) :
  kinv k A [] [] → nonzero p → has_flag flags FILECTRL_CREATE = true →
  (∀ d, dev_valid d → d ≠ 0 → room (kfs k) d (A d)) →
  (∀ k', names k A true p None → cached (kfs k) (kfs k') → kinv k' A [] [] → Q ERR_NOT_FOUND k') →
  (∀ y k', names k A true p (Some y) → y.1 = 0 → cached (kfs k) (kfs k') → kinv k' A [] [] →
     Q ERR_PERMISSION_DENIED k') →
  (* the name exists *)
  (∀ y c x de k' A' v, names k A true p (Some y) → last (comps p) = Some c → y.1 ≠ 0 →
     let e := content (kfs k) y.1 (A y.1 y.2) in
     let n := de_inum de in
     dir_find (dirents e) (take 29 c ++ [0]) = Some (x, de) →
     changed (kfs k) (kfs k') A A' y.1 n → k_type (A' y.1 n) = k_type (A y.1 n) →
     open_done k k' A' y.1 n flags (if truncates flags (k_type (A y.1 n)) then [] else content (kfs k) y.1 (A y.1 n)) v →
     Q v k') →
  (* it does not: no inode is left, the directory is full, or the file is made *)
  (∀ y c k', names k A true p (Some y) → last (comps p) = Some c → y.1 ≠ 0 →
     dir_find (dirents (content (kfs k) y.1 (A y.1 y.2))) (take 29 c ++ [0]) = None →
     no_free (kfs k) y.1 (A y.1) → cached (kfs k) (kfs k') → kinv k' A [] [] → Q ERR_NO_SPACE k') →
  (∀ y c n k' A', names k A true p (Some y) → last (comps p) = Some c → y.1 ≠ 0 →
     dir_find (dirents (content (kfs k) y.1 (A y.1 y.2))) (take 29 c ++ [0]) = None →
     orphaned (kfs k) (kfs k') A A' y.1 y.2 n FT_FILE [] → kinv k' A' [] [] → Q ERR_NO_SPACE k') →
  (∀ y c n k' A' v, names k A true p (Some y) → last (comps p) = Some c → y.1 ≠ 0 → dev_valid y.1 →
     dir_find (dirents (content (kfs k) y.1 (A y.1 y.2))) (take 29 c ++ [0]) = None →
     ¬ dir_full (content (kfs k) y.1 (A y.1 y.2)) →
     made (kfs k) (kfs k') A A' y.1 y.2 n FT_FILE (take 29 c) [] →
     open_done k k' A' y.1 n flags [] v → Q v k') →
  wp (fs_create (p ++ 0 :: r) flags) Q exhausted k.
Proof.
  intros K Hp Hcr Hroom HN HD HE HF HO HC. unfold fs_create. apply wp_then.
  eapply kinv_namex; [done|done| | |intros s' Hf; by left].
  { intros nm s' Hn Hc K'. wp_step. by apply HN. }
  intros y i nm s1 Hn Hc1 K1 Hyd Hp1 Hnm. destruct (Hnm eq_refl) as (c & Hlast & -> & Hdir & Hh1). clear Hnm.
  apply Z.eqb_eq in Hdir. cbn iota. wp_step. eapply kinv_deref; [exact K1|done|done|]. intros dip Ed _ _. rewrite Ed.
  assert (has_flag flags WRITE_FLAGS = true) as ->.
  { unfold WRITE_FLAGS. rewrite !has_flag_lor, Hcr. by destruct (has_flag flags FILECTRL_WRITEONLY). }
  rewrite andb_true_r. destruct (Z.eqb_spec y.1 0) as [E0|E0].
  { wp_step. eapply kinv_iput; [exact K1|]. intros s2 Hc2 K2 _. wp_step. rewrite set_kfs_twice in *.
    eapply HD; [done|done| |done]. eapply cached_trans; [exact Hc1|exact Hc2]. }
  assert (Hnz : nonzero (take 29 c)).
  { apply Forall_take. assert (Hcs : Forall nonzero (comps p)) by by apply comps_nonzero.
    rewrite Forall_forall in Hcs. apply Hcs. by apply last_Some_elem_of. }
  assert (Ec1 : ∀ x, content s1 y.1 x = content (kfs k) y.1 x) by (intros; by apply cached_content).
  wp_step. eapply kinv_dirlookup; [exact K1|done|done|done|done| | |intros Hf; by left].
  - cbn [kfs set_kfs]. rewrite Ec1. intros Hnone. wp_step. eapply kinv_deref; [exact K1|done|done|]. intros dip' Ed' _ _. rewrite Ed'.
    pose proof (room_cached _ _ _ _ Hc1 (Hroom y.1 Hyd E0)) as Hr1.
    destruct (free_or_not s1 y.1 (A y.1)) as [[n Hfree]|Hno].
    2:{ destruct Hr1 as [[n (Hn1 & Hn2 & _)]|Hfit]; [by destruct (Hno n)|].
        wp_step. apply wp_in_fs. eapply ialloc_none_wp; [apply (te_fsys _ _ (ki_tree _ _ _ _ K1) _ Hyd)|done|done|].
        rewrite set_kfs_twice. wp_step. eapply kinv_iput; [exact K1|]. intros s2 Hc2 K2 _. wp_step.
        rewrite set_kfs_twice in *. eapply HF; [done..| | |done]; [by destruct Hc1 as [f ->]|].
        eapply cached_trans; [exact Hc1|exact Hc2]. }
    wp_step. eapply kinv_ialloc; [exact K1|done|unfold FT_FILE; lia|done| |intros s' Hf _; by left].
    intros j s2 [K2 C2 Hheld2 _] Hj2. rewrite set_kfs_twice in *. cbn [kfs set_kfs] in *. cbn iota.
    wp_step. eapply kinv_deref_pinned; [by eapply held_pinned|]. intros ip _ Ein. rewrite Ein.
    wp_step. eapply (dirlink_made (set_kfs s1 k) A [i] y.1 i y.2 j n FT_FILE (take 29 c) [] s2);
      [exact K1|done|done|done|done|done|by cbn; rewrite Ec1|exact K2|exact C2|by apply Hheld2|done|by rewrite !upd_eq|reflexivity|..].
    + intros s3 A3 K3 Hj3 Hor. rewrite set_kfs_twice. cbn [Z.ltb Z.compare].
      wp_step. eapply kinv_iput; [exact K3|]. intros s4 Hc4 K4 _. rewrite set_kfs_twice in *.
      wp_step. eapply kinv_iput; [exact K4|]. intros s5 Hc5 K5 _. rewrite set_kfs_twice in *. wp_step.
      eapply (HO y c n); [done..| |exact K5].
      eapply orphaned_cached; [exact Hc1| |eapply cached_trans; [exact Hc4|exact Hc5]].
      by rewrite !upd_eq in Hor.
    + intros s3 A3 K3 Hj3 Hnf Md. cbn [kfs set_kfs] in Hnf. rewrite Ec1 in Hnf. rewrite set_kfs_twice. cbn [Z.ltb Z.compare].
      wp_step. eapply kinv_iput_keep; [exact K3|exact Hj3|]. intros s4 Hc4 K4 Hj4. rewrite set_kfs_twice in *.
      eapply alloc_done; [exact K4|done|exact Hj4|reflexivity|done|].
      intros v k' Hod Hc5. eapply HC; [done|done|done|done|done|done| |].
      * eapply made_cached; [exact Hc1| |eapply cached_trans; [exact Hc4|exact Hc5]].
        assert (content s4 y.1 (A3 y.1 n) = []) as E.
        { rewrite (cached_content s3 s4) by done. rewrite (md_content _ _ _ _ _ _ _ _ _ _ Md). by rewrite !upd_eq. }
        destruct Md as [M1 M2 M3 M4 M5 M6]. constructor; try done. by rewrite (cached_content s3 s4) in E.
      * assert (content s4 y.1 (A3 y.1 n) = []) as <-; [|done].
        rewrite (cached_content s3 s4) by done. rewrite (md_content _ _ _ _ _ _ _ _ _ _ Md). by rewrite !upd_eq.
    + intros s3 _ [Hf|Hf]; [right; by exists y.1|by left].
  - cbn [kfs set_kfs]. rewrite Ec1. intros x de j s2 Hfind Hnode Hc2 K2 Hp2 _. rewrite set_kfs_twice in *. cbn iota.
    cbn [kfs set_kfs] in *.
    wp_step. eapply kinv_ilock; [exact K2|done|exact Hp2|]. intros s3 Hc3 K3 Hh3 _ _. rewrite set_kfs_twice in *.
    wp_step. eapply kinv_deref; [exact K3|done|done|]. intros ip _ _ Hk.
    wp_step. eapply kinv_truncates; [exact K3|done|done|exact Hk|].
    intros s4 A4 K4 C4 Hh4 Et Ec _ _ _. rewrite set_kfs_twice in *. cbn [kfs set_kfs] in *.
    assert (Hc03 : cached (kfs k) s3) by (eapply cached_trans; [exact Hc1|]; eapply cached_trans; [exact Hc2|exact Hc3]).
    rewrite (cached_content _ _ _ _ Hc03) in Ec.
    wp_step. eapply kinv_iput_keep; [exact K4|exact Hh4|]. intros s5 Hc5 K5 Hh5. rewrite set_kfs_twice in *. cbn in Hc5.
    eapply alloc_done; [exact K5|done|exact Hh5|cbn; by rewrite (cached_content s4 s5), Ec|done|].
    intros v k' Hod Hc6. eapply HE; [done|done|done|exact Hfind| |done|by rewrite Ec in Hod].
    eapply cached_then_changed; [exact Hc03|]. eapply changed_cached; [exact C4|].
    eapply cached_trans; [exact Hc5|exact Hc6].
Qed.

(** ** Directory entries *)

Lemma write_spec_slot (c : list Z) x (e : list Z) :
  dir_sized c → length e = 32%nat → (x ≤ length c / 32)%nat → 32 * Z.of_nat x + 32 ≤ MAXFILE * BSIZE →
  write_spec c (32 * Z.of_nat x) e = (32, dir_slot c x e).
Proof.
  intros Hc He Hx Hmax. unfold write_spec, dir_sized in *. rewrite He.
  rewrite !gtb_false by lia. cbn [orb]. f_equal. unfold dir_slot. f_equal. lia.
Qed.

(** Storing entry [x] of a directory. *)
Lemma kinv_write_entry k A X Y d i n x e (Q : Z → kernel → Prop) (R : kernel → Prop) :
  kinv k A X Y → dev_valid d → pinned (kfs k) d i n → k_type (A d n) = FT_DIRECTORY →
  let c := content (kfs k) d (A d n) in
  (x ≤ length c / 32)%nat → 32 * Z.of_nat x + 32 ≤ MAXFILE * BSIZE → length e = 32%nat → bytes e →
  (de_inum (decode_dirent e) ≠ 0 → inode_ok (kfs k) d (de_inum (decode_dirent e))) →
  (∀ s' A1, stepped k A s' A1 X X Y d n → content s' d (A1 n) = dir_slot c x e →
     k_type (A1 n) = FT_DIRECTORY → (∀ m, m ≠ n → A1 m = A d m) → held s' d i n →
     Q DIRENT_SIZE (set_kfs s' k)) →
  (∀ s', same_base (kfs k) s' d → full s' d → R (set_kfs s' k)) →
  wp (in_fs (writei (Some i) e (32 * Z.of_nat x) DIRENT_SIZE)) Q R k.
Proof.
  intros K Hd Hp Hty c Hx Hmax Hl Hb Hino HQ HR. destruct (Hp) as [Hok _].
  pose proof (te_dir_fine _ _ _ _ (ki_tree _ _ _ _ K) Hd Hok Hty) as Hfine.
  assert (Ew : write_spec c (32 * Z.of_nat x) e = (32, dir_slot c x e)).
  { apply write_spec_slot; try done. apply Hfine. }
  change DIRENT_SIZE with (Z.of_nat 32). rewrite <-Hl. consts.
  eapply kinv_writei; [exact K|done|exact Hp|lia|done|lia| | |done].
  - intros _. fold c. rewrite Ew. by apply dir_fine_slot.
  - intros s' A1 St. fold c. rewrite Ew. cbn [fst snd]. intros Ec Et Hrest Hh. apply (HQ s' A1); try done. congruence.
Qed.

Lemma dot_entry_ok n t : 0 ≤ n < 65536 → nonzero t →
  length (dot_entry n t) = 32%nat ∧ bytes (dot_entry n t) ∧ de_inum (decode_dirent (dot_entry n t)) = n.
Proof.
  intros Hn Ht.
  assert (Hok : dirent_ok (Dirent (u16 n) (take 30 (t ++ zeros 30)))).
  { split; [apply u16_range|]. cbn [de_name]. split; [rewrite length_take, length_app, length_zeros; lia|].
    apply Forall_take, Forall_app. split; [|apply bytes_zeros]. eapply Forall_impl; [exact Ht|].
    unfold is_byte. intros. lia. }
  unfold dot_entry. split; [by apply length_encode_dirent|]. split; [by apply bytes_encode_dirent|].
  rewrite decode_encode_dirent by done. cbn. unfold u16. by rewrite Z.mod_small.
Qed.

(** ** [fs_mkdir] *)

Definition new_dir (n parent : Z) : list Z := dot_entry n [DOT] ++ dot_entry parent [DOT; DOT].

Lemma fs_mkdir_wp k A p r (Q : Z → kernel → Prop) :
  kinv k A [] [] → nonzero p →
  (∀ d, dev_valid d → d ≠ 0 → room (kfs k) d (A d)) →
  (∀ k', names k A true p None → cached (kfs k) (kfs k') → kinv k' A [] [] → Q ERR_NOT_FOUND k') →
  (∀ y k', names k A true p (Some y) → y.1 = 0 → cached (kfs k) (kfs k') → kinv k' A [] [] →
     Q ERR_PERMISSION_DENIED k') →
  (∀ y c k', names k A true p (Some y) → last (comps p) = Some c → y.1 ≠ 0 →
     is_Some (dir_find (dirents (content (kfs k) y.1 (A y.1 y.2))) (take 29 c ++ [0])) →
     cached (kfs k) (kfs k') → kinv k' A [] [] → Q ERR_ALREADY_EXISTS k') →
  (∀ y c k', names k A true p (Some y) → last (comps p) = Some c → y.1 ≠ 0 →
     dir_find (dirents (content (kfs k) y.1 (A y.1 y.2))) (take 29 c ++ [0]) = None →
     no_free (kfs k) y.1 (A y.1) → cached (kfs k) (kfs k') → kinv k' A [] [] → Q ERR_NO_SPACE k') →
  (∀ y c n k' A', names k A true p (Some y) → last (comps p) = Some c → y.1 ≠ 0 →
     dir_find (dirents (content (kfs k) y.1 (A y.1 y.2))) (take 29 c ++ [0]) = None →
     orphaned (kfs k) (kfs k') A A' y.1 y.2 n FT_DIRECTORY (new_dir n y.2) → kinv k' A' [] [] → Q ERR_NO_SPACE k') →
  (∀ y c n k' A', names k A true p (Some y) → last (comps p) = Some c → y.1 ≠ 0 → dev_valid y.1 →
     dir_find (dirents (content (kfs k) y.1 (A y.1 y.2))) (take 29 c ++ [0]) = None →
     ¬ dir_full (content (kfs k) y.1 (A y.1 y.2)) →
     made (kfs k) (kfs k') A A' y.1 y.2 n FT_DIRECTORY (take 29 c) (new_dir n y.2) →
     kinv k' A' [] [] → Q 0 k') →
  wp (fs_mkdir (p ++ 0 :: r)) Q exhausted k.
Proof.
  intros K Hp Hroom HN HD HE HF HO HC. unfold fs_mkdir. apply wp_then.
  eapply kinv_namex; [done|done| | |intros s' Hf; by left].
  { intros nm s' Hn Hc K'. wp_step. by apply HN. }
  intros y i nm s1 Hn Hc1 K1 Hyd Hp1 Hnm. destruct (Hnm eq_refl) as (c & Hlast & -> & Hdir & Hh1). clear Hnm.
  apply Z.eqb_eq in Hdir. cbn iota. wp_step. eapply kinv_deref; [exact K1|done|done|]. intros dip Ed Edn _. rewrite Ed, Edn.
  destruct (Z.eqb_spec y.1 0) as [E0|E0].
  { wp_step. eapply kinv_iput; [exact K1|]. intros s2 Hc2 K2 _. wp_step. rewrite set_kfs_twice in *.
    eapply HD; [done|done| |done]. eapply cached_trans; [exact Hc1|exact Hc2]. }
  assert (Hnz : nonzero (take 29 c)).
  { apply Forall_take. assert (Hcs : Forall nonzero (comps p)) by by apply comps_nonzero.
    rewrite Forall_forall in Hcs. apply Hcs. by apply last_Some_elem_of. }
  assert (Ec1 : ∀ x, content s1 y.1 x = content (kfs k) y.1 x) by (intros; by apply cached_content).
  wp_step. eapply kinv_dirlookup; [exact K1|done|done|done|done| | |intros Hf; by left].
  2:{ cbn [kfs set_kfs]. rewrite Ec1. intros x de j s2 Hfind Hnode Hc2 K2 Hp2 _. rewrite set_kfs_twice in *. cbn iota.
      wp_step. eapply kinv_iput; [exact K2|]. intros s3 Hc3 K3 _. rewrite set_kfs_twice in *.
      wp_step. eapply kinv_iput; [exact K3|]. intros s4 Hc4 K4 _. rewrite set_kfs_twice in *. wp_step.
      eapply HE; [done|done|done|by rewrite Hfind| |done]. cbn.
      eapply cached_trans; [exact Hc1|]. eapply cached_trans; [exact Hc2|]. eapply cached_trans; [exact Hc3|exact Hc4]. }
  cbn [kfs set_kfs]. rewrite Ec1. intros Hnone. cbn iota.
  pose proof (room_cached _ _ _ _ Hc1 (Hroom y.1 Hyd E0)) as Hr1.
  destruct (free_or_not s1 y.1 (A y.1)) as [[n Hfree]|Hno].
  2:{ destruct Hr1 as [[n (Hn1 & Hn2 & _)]|Hfit]; [by destruct (Hno n)|].
      wp_step. apply wp_in_fs. eapply ialloc_none_wp; [apply (te_fsys _ _ (ki_tree _ _ _ _ K1) _ Hyd)|done|done|].
      rewrite set_kfs_twice. wp_step. eapply kinv_iput; [exact K1|]. intros s2 Hc2 K2 _. wp_step.
      rewrite set_kfs_twice in *. eapply HF; [done..| | |done]; [by destruct Hc1 as [f ->]|].
        eapply cached_trans; [exact Hc1|exact Hc2]. }
  pose proof (rep_wf _ _ _ _ (fsys_rep _ _ _ (te_fsys _ _ (ki_tree _ _ _ _ K1) _ Hyd))) as W1. cbn in W1.
  destruct (Hfree) as (Hnok & _ & _). destruct (Hh1) as [Hyok _].
  pose proof (inode_ok_u16 _ _ _ _ W1 Hnok) as Hn16. pose proof (inode_ok_u16 _ _ _ _ W1 Hyok) as Hy16.
  assert (Hdot : nonzero [DOT]) by (repeat constructor; lia).
  assert (Hdotdot : nonzero [DOT; DOT]) by (repeat constructor; lia).
  destruct (dot_entry_ok n [DOT]) as (Hl1 & Hb1 & Hi1); [lia|done|].
  destruct (dot_entry_ok y.2 [DOT; DOT]) as (Hl2 & Hb2 & Hi2); [lia|done|].
  wp_step. eapply kinv_ialloc; [exact K1|done|unfold FT_DIRECTORY; lia|done| |intros s' Hf _; by left].
  intros j s2 [K2 C2 Hheld2 _] Hj2. rewrite set_kfs_twice in *. cbn [kfs set_kfs] in *. cbn iota.
  wp_step. eapply kinv_deref_pinned; [by eapply held_pinned|]. intros ip _ Ein. rewrite Ein.
  wp_step. change 0 with (32 * Z.of_nat 0) at 1.
  eapply kinv_write_entry; [exact K2|done|by eapply held_pinned|by rewrite !upd_eq|cbn; lia|consts; lia|done|done| | |].
  { intros _. rewrite Hi1. by apply (changed_ok _ _ _ _ _ _ _ _ C2). }
  2:{ intros s' _ Hf. right. by exists y.1. }
  intros s3 A3 [K3 C3 Hheld3 _] Ec3 Et3 _ Hj3. rewrite set_kfs_twice in *. cbn [kfs set_kfs] in *.
  assert (Ec3' : content s3 y.1 (A3 n) = dot_entry n [DOT]).
  { rewrite Ec3, !upd_eq. change (content s2 y.1 (fresh_key FT_DIRECTORY)) with (@nil Z).
    unfold dir_slot, splice. by rewrite drop_nil, take_nil, app_nil_r. }
  cbn [Z.eqb DIRENT_SIZE negb Pos.eqb].
  wp_step. change DIRENT_SIZE with (32 * Z.of_nat 1) at 1.
  eapply kinv_write_entry; [exact K3|done|by eapply held_pinned|by rewrite upd_eq| |consts; lia|done|done| | |].
  { cbn [kfs set_kfs]. rewrite upd_eq, Ec3', Hl1. cbn. lia. }
  { intros _. rewrite Hi2. apply (changed_ok _ _ _ _ _ _ _ _ C3). by apply (changed_ok _ _ _ _ _ _ _ _ C2). }
  2:{ intros s' _ Hf. right. by exists y.1. }
  intros s4 A4 [K4 C4 Hheld4 _] Ec4 Et4 _ Hj4. rewrite set_kfs_twice in *. cbn [kfs set_kfs] in *.
  assert (Ec4' : content s4 y.1 (A4 n) = new_dir n y.2).
  { rewrite Ec4, upd_eq, Ec3'. unfold dir_slot, splice, new_dir. rewrite take_ge by lia.
    rewrite drop_ge by (rewrite Hl1; lia). by rewrite app_nil_r. }
  change (negb (DIRENT_SIZE =? DIRENT_SIZE)) with false. cbn iota.
  assert (C14 : changed s1 s4 A (upd (upd (upd A y.1 (upd (A y.1) n (fresh_key FT_DIRECTORY))) y.1 A3) y.1 A4) y.1 n).
  { eapply changed_trans; [exact C2|]. eapply changed_trans; [exact C3|exact C4]. }
  wp_step. eapply (dirlink_made (set_kfs s1 k) A [i] y.1 i y.2 j n FT_DIRECTORY (take 29 c) [] s4);
    [exact K1|done|done|done|done|done|by cbn; rewrite Ec1|exact K4|exact C14|by apply Hheld4, Hheld3, Hheld2|done|by rewrite upd_eq|rewrite upd_eq; exact Ec4'|..].
  - intros s5 A5 K5 Hj5 Hor. rewrite set_kfs_twice. cbn [Z.ltb Z.compare].
    wp_step. eapply kinv_iput; [exact K5|]. intros s6 Hc6 K6 _. rewrite set_kfs_twice in *.
    wp_step. eapply kinv_iput; [exact K6|]. intros s7 Hc7 K7 _. rewrite set_kfs_twice in *. wp_step.
    eapply (HO y c n); [done..| |exact K7].
    eapply orphaned_cached; [exact Hc1|exact Hor|eapply cached_trans; [exact Hc6|exact Hc7]].
  - intros s5 A5 K5 Hj5 Hnf Md. cbn [kfs set_kfs] in Hnf. rewrite Ec1 in Hnf. rewrite set_kfs_twice. cbn [Z.ltb Z.compare].
    wp_step. eapply kinv_iput; [exact K5|]. intros s6 Hc6 K6 _. rewrite set_kfs_twice in *.
    wp_step. eapply kinv_iput; [exact K6|]. intros s7 Hc7 K7 _. rewrite set_kfs_twice in *. wp_step.
    eapply HC; [done|done|done|done|done|done| |exact K7].
    eapply made_cached; [exact Hc1|exact Md|eapply cached_trans; [exact Hc6|exact Hc7]].
  - intros s5 _ [Hf|Hf]; [right; by exists y.1|by left].
Qed.

(** ** [fs_rm] *)

Definition named (de : fsdirent) (str : list Z) : bool := bool_decide (strcmp (de_name de ++ [0]) str = Some 0).

(** Nothing in use but "." and "..". *)
Definition dir_empty (ents : list fsdirent) : bool :=
  forallb (λ de, (de_inum de =? 0) || named de str_dot || named de str_dotdot) ents.

Lemma strcmp_total l t : nonzero t → ∃ r, strcmp (l ++ [0]) (t ++ [0]) = Some r.
Proof.
  intros Ht. revert l. induction Ht as [|b t Hb Ht IH]; intros [|a l]; cbn; eauto.
  - destruct (negb (a =? 0)); cbn; eauto.
  - destruct (negb (a =? 0) && negb (b =? 0)); [|eauto]. destruct (negb (a =? b)); [eauto|]. apply IH.
Qed.

Lemma is_dir_empty_wp s d A i n (Q : bool → fs → Prop) R :
  fsys s d A → held s d i n → k_type (A n) = FT_DIRECTORY → dir_sized (content s d (A n)) →
  Q (dir_empty (dirents (content s d (A n)))) s → wp (is_dir_empty (Some i)) Q R s.
Proof.
  intros HF Hh Hty Hs HQ. set (ents := dirents _) in *.
  eapply (for_dirents_wp s d A i n HF Hh) with
    (I := λ k _, ∀ j de, (j < k)%nat → ents !! j = Some de →
       (de_inum de =? 0) || named de str_dot || named de str_dotdot = true);
    [by rewrite Hty|done|intros; lia|..].
  - intros k x de Hk Hde. fold ents in Hde.
    assert (Hnext : (de_inum de =? 0) || named de str_dot || named de str_dotdot = true →
      ∀ j de', (j < S k)%nat → ents !! j = Some de' →
        (de_inum de' =? 0) || named de' str_dot || named de' str_dotdot = true).
    { intros Hok j de' Hj Hde'. destruct (decide (j = k)) as [->|Hne]; [by simplify_eq|]. by apply (Hk j); [lia|]. }
    destruct (de_inum de =? 0) eqn:E0; cbn [negb].
    { wp_step. split; [done|]. apply Hnext. done. }
    destruct (strcmp_total (de_name de) [DOT]) as [c Hc]; [repeat constructor; lia|].
    destruct (strcmp_total (de_name de) [DOT; DOT]) as [c' Hc']; [repeat constructor; lia|].
    assert (E1 : named de str_dot = (c =? 0)).
    { unfold named. change str_dot with ([DOT] ++ [0]). rewrite Hc.
      destruct (Z.eqb_spec c 0); [apply bool_decide_true|apply bool_decide_false]; congruence. }
    assert (E2 : named de str_dotdot = (c' =? 0)).
    { unfold named. change str_dotdot with ([DOT; DOT] ++ [0]). rewrite Hc'.
      destruct (Z.eqb_spec c' 0); [apply bool_decide_true|apply bool_decide_false]; congruence. }
    rewrite E1, E2 in Hnext.
    wp_step. eapply wp_expect; [exact Hc|]. destruct (c =? 0) eqn:Ec; cbn [negb andb].
    { wp_step. wp_step. wp_step. split; [done|]. by apply Hnext. }
    wp_step. eapply wp_expect; [exact Hc'|]. destruct (c' =? 0) eqn:Ec'; cbn [negb andb].
    { wp_step. split; [done|]. by apply Hnext. }
    wp_step. assert (dir_empty ents = false) as <-; [|done]. unfold dir_empty.
    apply not_true_iff_false. rewrite forallb_forall. intros Hall.
    specialize (Hall de). rewrite E0, E1, E2 in Hall. discriminate Hall. apply list_elem_of_In. by eapply list_elem_of_lookup_2.
  - intros x Hall. wp_step. assert (dir_empty ents = true) as <-; [|done]. unfold dir_empty.
    apply forallb_forall. intros de Hde. apply list_elem_of_In, list_elem_of_lookup in Hde as [j Hj].
    apply (Hall j); [|done]. apply lookup_lt_Some in Hj. unfold ents in Hj. by rewrite length_dirents in Hj.
Qed.

(** The entry [x] of directory [m] is cleared and inode [n] is free again. *)
Record removed (s s' : fs) (A A' : Z → Z → ikey) (d m n : Z) (x : nat) : Prop := Removed {
  rm_devs : ∀ e, dev_valid e → e ≠ d → disk_of s' e = disk_of s e;
  rm_type : k_type (A' d n) = FT_UNUSED;
  rm_content : content s' d (A' d n) = [];
  rm_dir : m ≠ n → k_type (A' d m) = FT_DIRECTORY ∧
    content s' d (A' d m) = dir_slot (content s d (A d m)) x (zeros 32);
  rm_rest : ∀ e z, node_ok s (e, z) → (e, z) ≠ (d, m) → (e, z) ≠ (d, n) →
    content s' e (A' e z) = content s e (A e z) ∧ k_type (A' e z) = k_type (A e z)
}.

Lemma fs_rm_wp k A p r (Q : Z → kernel → Prop) :
  kinv k A [] [] → nonzero p →
  (∀ k', names k A true p None → cached (kfs k) (kfs k') → kinv k' A [] [] → Q ERR_NOT_FOUND k') →
  (∀ y k', names k A true p (Some y) → y.1 = 0 → cached (kfs k) (kfs k') → kinv k' A [] [] →
     Q ERR_PERMISSION_DENIED k') →
  (∀ y c k', names k A true p (Some y) → last (comps p) = Some c → y.1 ≠ 0 →
     dir_find (dirents (content (kfs k) y.1 (A y.1 y.2))) (take 29 c ++ [0]) = None →
     cached (kfs k) (kfs k') → kinv k' A [] [] → Q ERR_NOT_FOUND k') →
  (∀ y c x de k', names k A true p (Some y) → last (comps p) = Some c → y.1 ≠ 0 →
     dir_find (dirents (content (kfs k) y.1 (A y.1 y.2))) (take 29 c ++ [0]) = Some (x, de) →
     k_type (A y.1 (de_inum de)) = FT_DIRECTORY →
     dir_empty (dirents (content (kfs k) y.1 (A y.1 (de_inum de)))) = false →
     cached (kfs k) (kfs k') → kinv k' A [] [] → Q ERR_DIRECTORY_NOT_EMPTY k') →
  (∀ y c x de k' A', names k A true p (Some y) → last (comps p) = Some c → y.1 ≠ 0 → dev_valid y.1 →
     dir_find (dirents (content (kfs k) y.1 (A y.1 y.2))) (take 29 c ++ [0]) = Some (x, de) →
     (k_type (A y.1 (de_inum de)) = FT_DIRECTORY →
        dir_empty (dirents (content (kfs k) y.1 (A y.1 (de_inum de)))) = true) →
     removed (kfs k) (kfs k') A A' y.1 y.2 (de_inum de) x → kinv k' A' [] [] → Q 0 k') →
  wp (fs_rm (p ++ 0 :: r)) Q exhausted k.
Proof.
  intros K Hp HN HD HN2 HE HC. unfold fs_rm. apply wp_then.
  eapply kinv_namex; [done|done| | |intros s' Hf; by left].
  { intros nm s' Hn Hc K'. wp_step. by apply HN. }
  intros y i nm s1 Hn Hc1 K1 Hyd Hp1 Hnm. destruct (Hnm eq_refl) as (c & Hlast & -> & Hdir & Hh1). clear Hnm.
  apply Z.eqb_eq in Hdir. cbn iota. wp_step. eapply kinv_deref; [exact K1|done|done|]. intros dip Ed Edn _. rewrite Ed.
  destruct (Z.eqb_spec y.1 0) as [E0|E0].
  { wp_step. eapply kinv_iput; [exact K1|]. intros s2 Hc2 K2 _. wp_step. rewrite set_kfs_twice in *.
    eapply HD; [done|done| |done]. eapply cached_trans; [exact Hc1|exact Hc2]. }
  assert (Hnz : nonzero (take 29 c)).
  { apply Forall_take. assert (Hcs : Forall nonzero (comps p)) by by apply comps_nonzero.
    rewrite Forall_forall in Hcs. apply Hcs. by apply last_Some_elem_of. }
  assert (Ec1 : ∀ x, content s1 y.1 x = content (kfs k) y.1 x) by (intros; by apply cached_content).
  wp_step. eapply kinv_dirlookup; [exact K1|done|done|done|done| | |intros Hf; by left].
  { cbn [kfs set_kfs]. rewrite Ec1. intros Hnone. cbn iota.
    wp_step. eapply kinv_iput; [exact K1|]. intros s2 Hc2 K2 _. rewrite set_kfs_twice in *. wp_step.
    eapply HN2; [done|done|done|done| |done]. eapply cached_trans; [exact Hc1|exact Hc2]. }
  cbn [kfs set_kfs]. rewrite Ec1. intros x de j s2 Hfind Hnode Hc2 K2 Hp2 Hheld2. rewrite set_kfs_twice in *. cbn iota.
  cbn [kfs set_kfs] in *. set (n := de_inum de) in *.
  wp_step. eapply kinv_ilock; [exact K2|done|exact Hp2|]. intros s3 Hc3 K3 Hh3 Hheld3 _. rewrite set_kfs_twice in *.
  cbn [kfs set_kfs] in *.
  assert (Hc03 : cached (kfs k) s3) by (eapply cached_trans; [exact Hc1|]; eapply cached_trans; [exact Hc2|exact Hc3]).
  wp_step. eapply kinv_deref; [exact K3|done|done|]. intros ip _ _ Hk.
  assert (d_type (din ip) = k_type (A y.1 n)) as -> by by rewrite <-Hk.
  (* the emptiness test *)
  wp_step. set (b := if k_type (A y.1 n) =? FT_DIRECTORY
    then dir_empty (dirents (content (kfs k) y.1 (A y.1 n))) else true).
  assert (Hb : ∀ Q', Q' b (set_kfs s3 k) → wp (if k_type (A y.1 n) =? FT_DIRECTORY then in_fs (is_dir_empty (Some j))
    else mret true) Q' exhausted (set_kfs s3 k)).
  { intros Q' HQ'. unfold b in HQ'. destruct (Z.eqb_spec (k_type (A y.1 n)) FT_DIRECTORY) as [Et|Et]; [|by apply wp_ret].
    pose proof (ki_tree _ _ _ _ K3) as T3. cbn in T3. destruct (Hh3) as [Hn3 _].
    apply wp_in_fs. eapply is_dir_empty_wp; [by apply (te_fsys _ _ T3)|done|done|by apply (te_dirs _ _ T3)|].
    cbn. by rewrite (cached_content _ _ _ _ Hc03). }
  apply Hb. clear Hb. destruct b eqn:Eb; cbn [negb].
  2:{ wp_step. eapply kinv_iput; [exact K3|]. intros s4 Hc4 K4 _. rewrite set_kfs_twice in *.
      wp_step. eapply kinv_iput; [exact K4|]. intros s5 Hc5 K5 _. rewrite set_kfs_twice in *. wp_step.
      unfold b in Eb. destruct (Z.eqb_spec (k_type (A y.1 n)) FT_DIRECTORY); [|done].
      eapply HE; [done|done|done|exact Hfind|done|done| |done].
      eapply cached_trans; [exact Hc03|]. eapply cached_trans; [exact Hc4|exact Hc5]. }
  (* clear the entry *)
  assert (Hx : (x < length (content (kfs k) y.1 (A y.1 y.2)) / 32)%nat).
  { apply list_find_Some in Hfind as (Hl & _). apply lookup_lt_Some in Hl. by rewrite length_dirents in Hl. }
  assert (Hh1' : held s3 y.1 i y.2) by by apply Hheld3, Hheld2.
  pose proof (te_fsys _ _ (ki_tree _ _ _ _ K3) _ Hyd) as HF3. cbn in HF3. destruct (Hh1') as [Hyok _].
  pose proof (fsys_size _ _ _ HF3 y.2 Hyok) as Hsz.
  assert (Hlen : length (content (kfs k) y.1 (A y.1 y.2)) = Z.to_nat (k_size (A y.1 y.2))) by apply length_content.
  wp_step. eapply kinv_write_entry;
    [exact K3|done|by eapply held_pinned|done| | |done|apply bytes_zeros|done| |].
  { cbn [kfs set_kfs]. rewrite (cached_content _ _ _ _ Hc03). lia. }
  { pose proof (Nat.div_mod (length (content (kfs k) y.1 (A y.1 y.2))) 32). lia. }
  2:{ intros s' _ Hf. right. by exists y.1. }
  cbn [kfs set_kfs]. rewrite (cached_content _ _ _ _ Hc03).
  intros s4 A4 [K4 C4 Hheld4 Hpin4] Ec4 Et4 Hrest4 _. rewrite set_kfs_twice in *. cbn [kfs set_kfs] in *.
  change (negb (DIRENT_SIZE =? DIRENT_SIZE)) with false. cbn iota.
  (* free the inode *)
  wp_step. eapply kinv_itrunc; [exact K4|done|by apply held_pinned, Hheld4|lia|intros _; apply dir_fine_nil|].
  intros s5 A5 [K5 C5 _ _] Ec5 Et5 Hrest5 Hh5. rewrite set_kfs_twice in *. cbn [kfs set_kfs] in *.
  apply wp_then. eapply kinv_set_type; [exact K5|done|exact Hh5|unfold FT_UNUSED; lia|done|].
  rewrite upd_eq. intros s6 [K6 C6 _ _] Hh6 Ec6. rewrite set_kfs_twice in *. cbn [kfs set_kfs] in *.
  wp_step. eapply kinv_iput; [exact K6|]. intros s7 Hc7 K7 _. rewrite set_kfs_twice in *.
  wp_step. eapply kinv_iput; [exact K7|]. intros s8 Hc8 K8 _. rewrite set_kfs_twice in *. wp_step.
  cbn [kfs set_kfs] in *.
  assert (Hc68 : cached s6 s8) by (eapply cached_trans; [exact Hc7|exact Hc8]).
  eapply HC; [done|done|done|done|exact Hfind| | |exact K8].
  { fold n. intros Et. unfold b in Eb. by rewrite Et in Eb. }
  fold n. set (A6 := upd (upd (upd A y.1 A4) y.1 A5) y.1 (upd A5 n (retype FT_UNUSED (A5 n)))) in *.
  assert (C46 : changed s4 s6 (upd A y.1 A4) A6 y.1 n) by (eapply changed_trans; [exact C5|exact C6]).
  assert (Hdevs : ∀ e, dev_valid e → e ≠ y.1 → disk_of s8 e = disk_of (kfs k) e).
  { intros e He Hne. cbn. rewrite (cached_dev _ _ _ Hc68), (ch_devs _ _ _ _ _ _ C46) by done.
    rewrite (ch_devs _ _ _ _ _ _ C4) by done. by apply cached_dev. }
  constructor; [done|..]; cbn [kfs set_kfs].
  - unfold A6. by rewrite upd_eq, upd_eq.
  - rewrite (cached_content _ _ _ _ Hc68). unfold A6. rewrite upd_eq, upd_eq, Ec6, Ec5. done.
  - intros Hmn. rewrite (cached_content _ _ _ _ Hc68).
    destruct (ch_rest _ _ _ _ _ _ C46 y.1 y.2) as [-> ->]; [|congruence|by rewrite upd_eq].
    split; [done|]. by apply (changed_ok _ _ _ _ _ _ _ _ C4).
  - intros e z Hz Hne1 Hne2. rewrite (cached_content _ _ _ _ Hc68).
    assert (Hz3 : node_ok s3 (e, z)) by (destruct Hz; split; [done|by apply (cached_inode_ok _ _ _ _ Hc03)]).
    destruct (ch_rest _ _ _ _ _ _ C46 e z) as [-> ->]; [|done|].
    { destruct Hz3. split; [done|]. by apply (changed_ok _ _ _ _ _ _ _ _ C4). }
    destruct (ch_rest _ _ _ _ _ _ C4 e z Hz3 Hne1) as [-> ->]. by rewrite (cached_content _ _ _ _ Hc03).
Qed.
