(* ===== verification/FdSpec.v ===== *)
(** * The promises of the file system calls

    The theorems about descriptors and paths: what opening, creating, reading,
    writing, seeking and removing do to the abstract files, that reference counts
    stay exact, and that no call changes the system device. *)

From S2P Require Import Prelude CLib FsTypes Block Inode FsInv FsAlloc FsMap FsGrow FsFile FsWrite.
From S2P Require Import FsTrunc FsCache Sample Dir DirSpec FsRef Namei Path FsSpec.
From S2P Require Import KState FdTable FdInv FdSteps FdFile FdPath.

(** ** A kernel to run the calls on

    The sample filesystem with an empty cache, no open file and one process. *)
Definition boot_fs : fs := set_inode_table (λ _, replicate NINODE inode_zero) sample.

Definition boot_process : Process :=
  mkProcess 1 PROCSTATE_RUNNABLE 0 (zeros 13) 0 None 0 0 (replicate NUM_FILES_PER_PROCESS None)
    (zeros 16) (SLASH :: zeros 255).

Definition boot : kernel :=
  Kernel boot_fs (replicate GLOBAL_OPEN_FILE_LIMIT file_zero) [boot_process] (Some 0%nat) None
    (Memory ∅ [] 0 2151677952) (Console [] []).

Lemma boot_tree : tree boot_fs (on_disk boot_fs).
Proof. apply small_tree_tree, (bool_decide_unpack _). vm_compute. done. Qed.

Lemma boot_kinv : kinv boot (on_disk boot_fs) [] [].
Proof.
  constructor.
  - apply boot_tree.
  - intros j ip Hj Hr. change (replicate NINODE inode_zero !! j = Some ip) in Hj. apply lookup_replicate in Hj as [-> _]. done.
  - intros j. cbn [boot kfs file_table procs]. rewrite total_replicate by done. cbn. unfold iref, boot_fs.
    cbn [inode_table set_inode_table]. destruct (replicate NINODE inode_zero !! j) as [ip|] eqn:E; [|done].
    by apply lookup_replicate in E as [-> _].
  - intros i f Hf. cbn [boot file_table] in Hf. apply lookup_replicate in Hf as [-> _].
    cbn [boot procs total]. unfold fd_holds. cbn [boot_process ofile]. rewrite total_replicate by done. done.
  - intros i f Hf Hr. cbn [boot file_table] in Hf. apply lookup_replicate in Hf as [-> _]. done.
  - intros [|c] p Hp; [|done]. injection Hp as <-. split; [done|]. intros fd i Hfd. cbn [boot_process ofile] in Hfd.
    apply lookup_replicate in Hfd as [? _]. done.
  - by exists 0%nat, boot_process.
Qed.

(** A run that returns [a] satisfies the postcondition. *)
Lemma wp_run_ok {S B} (m : M S B) (Q : B → S → Prop) R s a :
  wp m Q R s → match m s with Ok x _ => x = a | _ => False end → ∃ s', m s = Ok a s' ∧ Q a s'.
Proof. unfold wp. destruct (m s) as [x s'| | |]; try done. intros HQ ->. by exists s'. Qed.

(** ** Opening *)

(** What [fs_open] promises. *)
Definition open_post (k : kernel) (A : Z → Z → ikey) (p : list Z) (flags : Z) (v : Z) (k' : kernel) : Prop :=
  ∃ o, names k A false p o ∧
  match o with
  | None => v = ERR_NOT_FOUND ∧ cached (kfs k) (kfs k') ∧ kinv k' A [] []
  | Some (d, n) =>
      if (d =? 0) && has_flag flags (Z.lor FILECTRL_WRITEONLY FILECTRL_TRUNCATE)
      then v = ERR_PERMISSION_DENIED ∧ cached (kfs k) (kfs k') ∧ kinv k' A [] []
      else ∃ A', changed (kfs k) (kfs k') A A' d n ∧ k_type (A' d n) = k_type (A d n) ∧
        (truncates flags (k_type (A d n)) = false → cached (kfs k) (kfs k')) ∧
        open_done k k' A' d n flags
          (if truncates flags (k_type (A d n)) then [] else content (kfs k) d (A d n)) v
  end.

Lemma fs_open_post_wp k A p r flags :
  kinv k A [] [] → nonzero p → p ≠ take 7 str_console →
  wp (fs_open (p ++ 0 :: r) flags) (open_post k A p flags) exhausted k.
Proof.
  intros K Hp Hc. eapply fs_open_wp; [done|done|done| | | |intros s' Hf; by left].
  - intros k' Hn Hcd K'. by exists None.
  - intros [d n] k' Hn Hro Hcd K'. exists (Some (d, n)). split; [done|].
    unfold readonly_refused in Hro. cbn in Hro. by rewrite Hro.
  - intros [d n] k' A' x Hn _ _ Hro C Et Hcd Hod. exists (Some (d, n)). split; [done|].
    unfold readonly_refused in Hro. cbn in Hro. rewrite Hro. by exists A'.
Qed.



(** The kernel after that call: descriptor 0 is slot 0, on inode 2 of device 1. *)
Definition opened_f : kernel := state_of (fs_open (path_home_f ++ [0]) FILECTRL_READWRITE boot) boot.
Definition f_slot : File := mkFile 1 FD_INODE true true (Some 0%nat) 0.

Lemma opened_f_ok : ∃ A, kinv opened_f A [] [] ∧ inode_open opened_f 0 0 f_slot 1 2 ∧
  k_type (A 1 2) = FT_FILE ∧ content (kfs opened_f) 1 (A 1 2) = c_hello.
Proof.
  assert (H : wp (fs_open (path_home_f ++ [0]) FILECTRL_READWRITE)
    (open_post boot (on_disk boot_fs) path_home_f FILECTRL_READWRITE) exhausted boot).
  { apply (fs_open_post_wp boot _ path_home_f []); [apply boot_kinv|repeat constructor; lia|by vm_compute]. }
  assert (E : fs_open (path_home_f ++ [0]) FILECTRL_READWRITE boot = Ok 0 opened_f).
  { apply run_ok. vm_compute. reflexivity. }
  unfold wp in H. rewrite E in H. destruct H as (o & (c & x & Hc & (i & pr & Hi & Hpr & <-) & ->) & H).
  injection Hi as <-. injection Hpr as <-. change (cwd boot_process) with (@None nat) in Hc. destruct x as [x|]; [destruct Hc|].
  replace (resolve _ _ _ _ _) with (Some (1, 2)) in H by (vm_compute; reflexivity).
  cbn [Z.eqb andb] in H. destruct H as (A' & C & Et & Hcd & [K Ec [(_ & Hv & _)|(_ & i & f & _ & HO & Hr & Hrd & Hw & Hoff)]]); [discriminate Hv|].
  replace (truncates FILECTRL_READWRITE (k_type (on_disk boot_fs 1 2))) with false in * by (vm_compute; reflexivity).
  exists A'. split; [done|].
  assert (open_at opened_f 0 0) as Ho.
  { eexists _, _. split; [vm_compute; reflexivity|]. split; [vm_compute; reflexivity|]. split; [lia|]. vm_compute. reflexivity. }
  destruct (HO) as (Ho' & Hf & _). rewrite (open_at_inj _ _ _ _ Ho' Ho) in *.
  assert (f = f_slot) as -> by (vm_compute in Hf; by injection Hf as <-).
  split; [done|]. split; [rewrite Et; by vm_compute|]. rewrite Ec. by vm_compute.
Qed.

(** ** Creating and removing *)

(** What [fs_create] promises: in the parent directory [(d, m)], the last
    component [c] of the path is opened if it is there, and made if it is not. *)
Definition create_post (k : kernel) (A : Z → Z → ikey) (p : list Z) (flags v : Z) (k' : kernel) : Prop :=
  ∃ o, names k A true p o ∧
  match o with
  | None => v = ERR_NOT_FOUND ∧ cached (kfs k) (kfs k') ∧ kinv k' A [] []
  | Some (d, m) =>
      if d =? 0 then v = ERR_PERMISSION_DENIED ∧ cached (kfs k) (kfs k') ∧ kinv k' A [] []
      else ∃ c, last (comps p) = Some c ∧
        match dir_find (dirents (content (kfs k) d (A d m))) (take 29 c ++ [0]) with
        | Some (_, de) => let n := de_inum de in
            ∃ A', changed (kfs k) (kfs k') A A' d n ∧ k_type (A' d n) = k_type (A d n) ∧
              open_done k k' A' d n flags
                (if truncates flags (k_type (A d n)) then [] else content (kfs k) d (A d n)) v
        | None =>
            (no_free (kfs k) d (A d) ∧ v = ERR_NO_SPACE ∧ cached (kfs k) (kfs k') ∧ kinv k' A [] []) ∨
            (∃ n A', orphaned (kfs k) (kfs k') A A' d m n FT_FILE [] ∧ v = ERR_NO_SPACE ∧ kinv k' A' [] []) ∨
            (¬ dir_full (content (kfs k) d (A d m)) ∧ ∃ n A',
               made (kfs k) (kfs k') A A' d m n FT_FILE (take 29 c) [] ∧ open_done k k' A' d n flags [] v)
        end
  end.


Lemma boot_room d : dev_valid d → d ≠ 0 → room boot_fs d (on_disk boot_fs d).
Proof.
  intros Hd H0. assert (d = 1) as -> by (unfold dev_valid in Hd; lia). right. by vm_compute.
Qed.

(** "/home/g" *)
Definition path_home_g : list Z := [47; 104; 111; 109; 101; 47; 103].


Definition mkdir_post (k : kernel) (A : Z → Z → ikey) (p : list Z) (v : Z) (k' : kernel) : Prop :=
  ∃ o, names k A true p o ∧
  match o with
  | None => v = ERR_NOT_FOUND ∧ cached (kfs k) (kfs k') ∧ kinv k' A [] []
  | Some (d, m) =>
      if d =? 0 then v = ERR_PERMISSION_DENIED ∧ cached (kfs k) (kfs k') ∧ kinv k' A [] []
      else ∃ c, last (comps p) = Some c ∧
        match dir_find (dirents (content (kfs k) d (A d m))) (take 29 c ++ [0]) with
        | Some _ => v = ERR_ALREADY_EXISTS ∧ cached (kfs k) (kfs k') ∧ kinv k' A [] []
        | None =>
            (no_free (kfs k) d (A d) ∧ v = ERR_NO_SPACE ∧ cached (kfs k) (kfs k') ∧ kinv k' A [] []) ∨
            (∃ n A', orphaned (kfs k) (kfs k') A A' d m n FT_DIRECTORY (new_dir n m) ∧
               v = ERR_NO_SPACE ∧ kinv k' A' [] []) ∨
            (¬ dir_full (content (kfs k) d (A d m)) ∧ v = 0 ∧ ∃ n A', kinv k' A' [] [] ∧
               made (kfs k) (kfs k') A A' d m n FT_DIRECTORY (take 29 c) (new_dir n m))
        end
  end.



Definition rm_post (k : kernel) (A : Z → Z → ikey) (p : list Z) (v : Z) (k' : kernel) : Prop :=
  ∃ o, names k A true p o ∧
  match o with
  | None => v = ERR_NOT_FOUND ∧ cached (kfs k) (kfs k') ∧ kinv k' A [] []
  | Some (d, m) =>
      if d =? 0 then v = ERR_PERMISSION_DENIED ∧ cached (kfs k) (kfs k') ∧ kinv k' A [] []
      else ∃ c, last (comps p) = Some c ∧
        match dir_find (dirents (content (kfs k) d (A d m))) (take 29 c ++ [0]) with
        | None => v = ERR_NOT_FOUND ∧ cached (kfs k) (kfs k') ∧ kinv k' A [] []
        | Some (x, de) => let n := de_inum de in
            if (k_type (A d n) =? FT_DIRECTORY) && negb (dir_empty (dirents (content (kfs k) d (A d n))))
            then v = ERR_DIRECTORY_NOT_EMPTY ∧ cached (kfs k) (kfs k') ∧ kinv k' A [] []
            else v = 0 ∧ ∃ A', kinv k' A' [] [] ∧ removed (kfs k) (kfs k') A A' d m n x
        end
  end.



(** ** Reading and writing *)

(** C14: a read through a descriptor returns the bytes of the file at the offset of
    the open file and moves the offset past them; nothing else changes, and it
    never stops the kernel. *)
Theorem fs_read_refines k A y fd n i f d m :
  kinv k A [] [] → inode_open k fd i f d m → f_readable f = true → 0 ≤ n < 4294967296 →
  let r := read_spec (k_type (A d m)) (content (kfs k) d (A d m)) (f_off f) n in
  ∃ k', fs_read y fd n k = Ok r k' ∧ kinv k' A [] [] ∧ kfs k' = kfs k ∧ only_file k k' i (advance f r.1).
Proof.
  intros K HO Hr Hn r.
  destruct (wp_returns (fs_read y fd n)
    (λ v k', v = r ∧ kinv k' A [] [] ∧ kfs k' = kfs k ∧ only_file k k' i (advance f r.1)) k) as (v & k' & E & -> & ?).
  - eapply fs_read_wp; [done..|]. fold r. intros k' K' Es Hf. done.
  - by exists k'.
Qed.

Lemma fs_read_refines_witness :
  ∃ A k', fs_read (mret tt) 0 4 opened_f = Ok (4, take 4 c_hello) k' ∧ kinv k' A [] [] ∧
    kfs k' = kfs opened_f ∧ only_file opened_f k' 0 (set_f_off 4 f_slot).
Proof.
  destruct opened_f_ok as (A & K & HO & Et & Ec). exists A.
  pose proof (fs_read_refines opened_f A (mret tt) 0 4 0 f_slot 1 2 K HO eq_refl ltac:(lia)) as H.
  rewrite Et, Ec in H. exact H.
Defined.

(** What [fs_write] does with the bytes [src], at any offset. *)
Definition write_post (k : kernel) (A : Z → Z → ikey) (i : nat) (f : File) (d m : Z) (src : list Z)
    (v : Z) (k' : kernel) : Prop :=
  let r := write_spec (content (kfs k) d (A d m)) (f_off f) src in
  v = (if r.1 <? 0 then ERR_NO_SPACE else r.1) ∧ only_file k k' i (advance f r.1) ∧
  ∃ A', kinv k' A' [] [] ∧ content (kfs k') d (A' d m) = r.2 ∧ changed (kfs k) (kfs k') A A' d m.

Lemma fs_write_post_wp k A fd src i f d m :
  kinv k A [] [] → inode_open k fd i f d m → f_writable f = true → k_type (A d m) ≠ FT_DIRECTORY →
  bytes src → Z.of_nat (length src) < 2147483648 →
  wp (fs_write fd src (Z.of_nat (length src))) (write_post k A i f d m src) (λ k', full (kfs k') d) k.
Proof.
  intros K HO Hw Hnd Hb Hlen. eapply fs_write_wp; [done..| |done].
  intros k' A1 K' C Ec _ _ _ Hf. split; [done|]. split; [done|]. exists (upd A d A1). rewrite upd_eq. done.
Qed.

(** C15: a write through a descriptor of a regular file, behind its start or of at
    least as many bytes as the file has, overwrites and extends the file at the
    offset of the open file, moves the offset, and changes no other file; a write
    past the end or past the maximum size gives ERR_NO_SPACE and changes nothing.
    The only other outcome is a full device. (A shorter write at offset 0, which
    is documented to truncate, is [write_at_start_keeps_tail].) *)
Theorem fs_write_refines k A fd src i f d m :
  kinv k A [] [] → inode_open k fd i f d m → f_writable f = true → k_type (A d m) ≠ FT_DIRECTORY →
  bytes src → Z.of_nat (length src) < 2147483648 →
  0 < f_off f ∨ (length (content (kfs k) d (A d m)) ≤ length src)%nat →
  let r := write_spec (content (kfs k) d (A d m)) (f_off f) src in
  wp (fs_write fd src (Z.of_nat (length src)))
    (λ v k', v = (if r.1 <? 0 then ERR_NO_SPACE else r.1) ∧ only_file k k' i (advance f r.1) ∧
       ∃ A', kinv k' A' [] [] ∧ content (kfs k') d (A' d m) = r.2 ∧ changed (kfs k) (kfs k') A A' d m)
    (λ k', full (kfs k') d) k.
Proof. intros K HO Hw Hnd Hb Hlen _. by apply fs_write_post_wp. Qed.

Lemma fs_write_refines_witness :
  ∃ A, wp (fs_write 0 [1; 2; 3; 4; 5; 6] 6)
    (λ v k', v = 6 ∧ only_file opened_f k' 0 (set_f_off 6 f_slot) ∧
       ∃ A', kinv k' A' [] [] ∧ content (kfs k') 1 (A' 1 2) = [1; 2; 3; 4; 5; 6] ∧
         changed (kfs opened_f) (kfs k') A A' 1 2)
    (λ k', full (kfs k') 1) opened_f.
Proof.
  destruct opened_f_ok as (A & K & HO & Et & Ec). exists A.
  assert (Hb : bytes [1; 2; 3; 4; 5; 6]) by (repeat constructor; lia).
  pose proof (fs_write_refines opened_f A 0 [1; 2; 3; 4; 5; 6] 0 f_slot 1 2 K HO eq_refl ltac:(by rewrite Et) Hb
    ltac:(cbn; lia) ltac:(right; rewrite Ec; cbn; lia)) as H. rewrite Ec in H. exact H.
Defined.

(** A write at offset 0 that is shorter than the file leaves the rest of the file
    in place: nothing is truncated. *)
Theorem write_at_start_keeps_tail k A fd src i f d m :
  kinv k A [] [] → inode_open k fd i f d m → f_writable f = true → k_type (A d m) ≠ FT_DIRECTORY →
  bytes src → f_off f = 0 → (length src < length (content (kfs k) d (A d m)))%nat →
  wp (fs_write fd src (Z.of_nat (length src)))
    (λ v k', v = Z.of_nat (length src) ∧ ∃ A', kinv k' A' [] [] ∧
       content (kfs k') d (A' d m) = src ++ drop (length src) (content (kfs k) d (A d m)))
    (λ k', full (kfs k') d) k.
Proof.
  intros K HO Hw Hnd Hb Hoff Hlt. destruct (inode_open_ok _ _ _ _ _ _ _ _ _ K HO) as (_ & _ & Hd & _).
  destruct (HO) as (_ & _ & _ & j & _ & [Hm _]).
  pose proof (fsys_size _ _ _ (te_fsys _ _ (ki_tree _ _ _ _ K) d Hd) m Hm) as Hsz.
  pose proof (length_content (kfs k) d (A d m)) as Hc. consts.
  pose proof (fs_write_post_wp k A fd src i f d m K HO Hw Hnd Hb ltac:(lia)) as H.
  eapply wp_mono; [exact H| |done]. intros v k' (Hv & _ & A' & K' & Ec & _). revert Hv Ec. unfold write_spec. rewrite Hoff. consts.
  rewrite !gtb_false by lia. cbn [orb fst snd]. rewrite (proj2 (Z.ltb_ge _ _)) by lia.
  intros -> Ec. split; [done|]. by exists A'.
Qed.

Lemma write_at_start_keeps_tail_witness :
  wp (fs_write 0 [1; 2] 2)
    (λ v k', v = 2 ∧ ∃ A', kinv k' A' [] [] ∧ content (kfs k') 1 (A' 1 2) = [1; 2; 108; 108; 111])
    (λ k', full (kfs k') 1) opened_f.
Proof.
  destruct opened_f_ok as (A & K & HO & Et & Ec).
  assert (Hb : bytes [1; 2]) by (repeat constructor; lia).
  pose proof (write_at_start_keeps_tail opened_f A 0 [1; 2] 0 f_slot 1 2 K HO eq_refl ltac:(by rewrite Et) Hb
    eq_refl ltac:(rewrite Ec; cbn; lia)) as H. rewrite Ec in H. exact H.
Defined.

(** The descriptor after a call that only changed its own slot. *)
Lemma inode_open_next k k' fd i f g d m :
  inode_open k fd i f d m → only_file k k' i g → f_type g = f_type f → f_ip g = f_ip f →
  (∀ j, f_ip f = Some j → held (kfs k') d j m) → inode_open k' fd i g d m.
Proof.
  intros (Ho & Hf & Hty & j & Hj & Hh) (Hg & _ & Hp & Hc & _) Et Ei Hh'. split_and!.
  - destruct Ho as (c & p & ? & ? & ? & ?). exists c, p. by rewrite Hc, Hp.
  - done.
  - congruence.
  - exists j. split; [congruence|]. by apply Hh'.
Qed.

(** What is written through a descriptor is read back: after a successful write,
    seeking back by its length and reading that many bytes returns the bytes written. *)
Theorem fd_write_seek_read k A y fd src i f d m k1 :
  kinv k A [] [] → inode_open k fd i f d m → f_readable f = true → f_writable f = true →
  k_type (A d m) = FT_FILE → bytes src → src ≠ [] →
  f_off f ≤ Z.of_nat (length (content (kfs k) d (A d m))) →
  f_off f + Z.of_nat (length src) ≤ MAXFILE * BSIZE →
  fs_write fd src (Z.of_nat (length src)) k = Ok (Z.of_nat (length src)) k1 →
  ∃ k2 k3, fs_lseek fd (- Z.of_nat (length src)) 1 k1 = Ok (f_off f) k2 ∧
    fs_read y fd (Z.of_nat (length src)) k2 = Ok (Z.of_nat (length src), src) k3.
Proof.
  intros K HO Hr Hw Hty Hb Hne Hle Hmax E. set (c := content (kfs k) d (A d m)) in *.
  destruct (inode_open_ok _ _ _ _ _ _ _ _ _ K HO) as (_ & Hoff & Hd & _). consts.
  assert (Hlen : 0 < Z.of_nat (length src)) by (destruct src; [done|cbn; lia]).
  assert (Hws : write_spec c (f_off f) src = (Z.of_nat (length src), splice c (Z.to_nat (f_off f)) src)).
  { unfold write_spec. consts. by rewrite !gtb_false by lia. }
  pose proof (fs_write_wp k A fd src i f d m (λ v k', ∃ A1, kinv k' (upd A d A1) [] [] ∧
    content (kfs k') d (A1 m) = splice c (Z.to_nat (f_off f)) src ∧ k_type (A1 m) = FT_FILE ∧
    (∀ j e x, held (kfs k) e j x → held (kfs k') e j x) ∧
    only_file k k' i (set_f_off (f_off f + Z.of_nat (length src)) f)) (λ _, True) K HO Hw) as H.
  fold c in H. rewrite Hws in H. cbn [fst snd] in H. unfold wp in H. rewrite E in H.
  destruct H as (A1 & K1 & Ec1 & Et1 & Hh1 & Hf1); [by rewrite Hty|done|lia| |done|].
  { intros k' A1 K1 _ Ec Et _ Hh Hf. exists A1. split; [done|]. split; [done|]. split; [congruence|].
    split; [done|]. unfold advance in Hf. rewrite gtb_true, u32_small in Hf by lia. done. }
  set (f1 := set_f_off _ f) in *.
  assert (HO1 : inode_open k1 fd i f1 d m).
  { eapply inode_open_next; [done|done|done|done|]. intros j Hj. apply Hh1.
    destruct HO as (_ & _ & _ & j' & Hj' & Hh). by simplify_eq. }
  assert (Hs : wp (fs_lseek fd (- Z.of_nat (length src)) 1) (λ v k2, v = f_off f ∧ kinv k2 (upd A d A1) [] [] ∧
    kfs k2 = kfs k1 ∧ only_file k1 k2 i f) (λ _, False) k1).
  { assert (E1 : s32 (f_off f1) + - Z.of_nat (length src) = f_off f) by (cbn; rewrite s32_small by lia; lia).
    eapply fs_lseek_wp; [done..| |].
    - cbn [Z.eqb Pos.eqb]. intros b Hb'. assert (b = s32 (f_off f1)) as -> by congruence. rewrite E1. lia.
    - cbn [Z.eqb Pos.eqb]. rewrite E1. rewrite (proj2 (Z.ltb_ge _ _)) by lia. intros k2 K2 Es Hf2.
      split_and!; try done. by destruct f. }
  destruct (wp_returns _ _ _ Hs) as (v & k2 & E2 & -> & K2 & Es2 & Hf2). exists k2.
  assert (HO2 : inode_open k2 fd i f d m).
  { eapply inode_open_next; [exact HO1|done|done|done|]. intros j Hj. rewrite Es2.
    destruct HO1 as (_ & _ & _ & j' & Hj' & Hh). by simplify_eq. }
  assert (H3 : wp (fs_read y fd (Z.of_nat (length src))) (λ v _, v = (Z.of_nat (length src), src)) (λ _, False) k2).
  { eapply fs_read_wp; [exact K2|exact HO2|done|lia|]. intros k3 _ _ _. rewrite upd_eq, Es2, Ec1, Et1.
    unfold read_spec. change (FT_FILE =? FT_UNUSED) with false. cbn [orb].
    rewrite length_splice_any by lia. rewrite gtb_false, geb_false by lia. cbn [orb]. rewrite Z.min_l by lia.
    rewrite Nat2Z.id. f_equal. unfold sub, splice. rewrite drop_app_ge by (rewrite length_take; lia).
    rewrite length_take. replace (Z.to_nat (f_off f) - Z.to_nat (f_off f) `min` length c)%nat with 0%nat by lia.
    rewrite drop_0. apply take_app_length. }
  destruct (wp_returns _ _ _ H3) as (v & k3 & E3 & ->). by exists k3.
Qed.

Lemma fd_write_seek_read_witness :
  ∃ k2 k3, fs_lseek 0 (-3) 1 (state_of (fs_write 0 [7; 8; 9] 3 opened_f) boot) = Ok 0 k2 ∧
    fs_read (mret tt) 0 3 k2 = Ok (3, [7; 8; 9]) k3.
Proof.
  destruct opened_f_ok as (A & K & HO & Et & Ec).
  refine (fd_write_seek_read opened_f A (mret tt) 0 [7; 8; 9] 0 f_slot 1 2 _ K HO eq_refl eq_refl Et _ _ _ _ _).
  - repeat constructor; lia.
  - discriminate.
  - rewrite Ec. vm_compute. discriminate.
  - vm_compute. discriminate.
  - apply run_ok. vm_compute. reflexivity.
Defined.

(** C16: every call on a descriptor that is not open returns ERR_BAD_FILE and leaves
    the kernel exactly as it was; so does a call without the access it needs, with
    ERR_PERMISSION_DENIED. *)
Theorem bad_descriptor k A y fd :
  kinv k A [] [] →
  ((∀ i, ¬ open_at k fd i) →
     (∀ n, fs_read y fd n k = Ok (ERR_BAD_FILE, []) k) ∧ (∀ src n, fs_write fd src n k = Ok ERR_BAD_FILE k) ∧
     fs_close fd k = Ok ERR_BAD_FILE k ∧ (∀ o w, fs_lseek fd o w k = Ok ERR_BAD_FILE k) ∧
     (∀ len, fs_ftruncate fd len k = Ok ERR_BAD_FILE k)) ∧
  (∀ i f, open_at k fd i → file_table k !! i = Some f →
     (f_readable f = false → ∀ n, fs_read y fd n k = Ok (ERR_PERMISSION_DENIED, []) k) ∧
     (f_writable f = false → (∀ src n, fs_write fd src n k = Ok ERR_PERMISSION_DENIED k) ∧
        ∀ len, fs_ftruncate fd len k = Ok ERR_PERMISSION_DENIED k)).
Proof.
  intros K.
  assert (Hl : ∀ r, wp (fd_lookup fd) (λ v k', v = r ∧ k' = k) (λ _, False) k → fd_lookup fd k = Ok r k).
  { intros r H. by destruct (wp_returns _ _ _ H) as (v & k' & E & -> & ->). }
  split.
  - intros Hno. assert (E : fd_lookup fd k = Ok None k).
    { apply Hl. eapply fd_lookup_wp; [done|done|]. intros i Hi. by destruct (Hno i). }
    unfold fs_read, fs_write, fs_close, fs_lseek, fs_ftruncate, mbind, M_bind. rewrite E. done.
  - intros i f Ho Hf. assert (E : fd_lookup fd k = Ok (Some i) k) by (apply Hl; by eapply fd_lookup_open).
    destruct (open_file_ok _ _ _ _ _ _ K Ho) as (f' & Hf' & _ & _ & Hok). simplify_eq.
    assert (Hfile : file i k = Ok f k) by (unfold file, mbind, M_bind, gets; by rewrite Hf).
    unfold fs_read, fs_write, fs_ftruncate, mbind, M_bind. rewrite E, Hfile.
    split; [intros -> n|intros ->; split; [intros src n|intros len]]; cbn [negb]; try done; by destruct (f_type f).
Qed.

Lemma bad_descriptor_witness :
  fs_close 5 boot = Ok ERR_BAD_FILE boot ∧ ∀ src n, fs_write 5 src n boot = Ok ERR_BAD_FILE boot.
Proof.
  assert (Hno : ∀ i, ¬ open_at boot 5 i).
  { intros i (c & p & [= <-] & [= <-] & _ & He). vm_compute in He. discriminate He. }
  destruct (proj1 (bad_descriptor boot (on_disk boot_fs) (mret tt) 5 boot_kinv) Hno) as (_ & Hw & Hc & _).
  split; [exact Hc|exact Hw].
Defined.
