(* ===== verification/FdSafety.v ===== *)
(** * Sequences of file system calls

    Every sequence of permitted calls keeps reference counts exact and never
    changes the system device. A call is permitted ([call_ok]) when its strings are
    terminated, its writes and truncations do not go to a directory, its seeks do
    not overflow, a console read finds its characters typed, and a new file is
    asked for only while the search for an inode stays in the inode area. *)

From S2P Require Import Prelude CLib FsTypes Block Inode FsInv FsAlloc FsMap FsGrow FsFile FsWrite.
From S2P Require Import FsTrunc FsCache Sample Dir DirSpec FsRef Namei Path FsSpec.
From S2P Require Import KState FdTable FdInv FdSteps FdFile FdPath FdSpec.

(** ** Calls *)

Inductive call :=
| COpen (path : list Z) (flags : Z)
| CRead (fd n : Z)
| CWrite (fd : Z) (src : list Z)
| CClose (fd : Z)
| CLseek (fd offset whence : Z)
| CFtruncate (fd length : Z)
| CMkdir (path : list Z)
| CRm (path : list Z).

(** A call as [handle_syscall] dispatches it. *)
Definition run (c : call) : M kernel Z :=
  match c with
  | COpen path flags =>
      if has_flag flags FILECTRL_CREATE then fs_create (path ++ [0]) flags else fs_open (path ++ [0]) flags
  | CRead fd n => r ← fs_read fault fd n; mret (fst r)
  | CWrite fd src => fs_write fd src (Z.of_nat (length src))
  | CClose fd => fs_close fd
  | CLseek fd offset whence => fs_lseek fd offset whence
  | CFtruncate fd length => fs_ftruncate fd length
  | CMkdir path => fs_mkdir (path ++ [0])
  | CRm path => fs_rm (path ++ [0])
  end.

(** The descriptor is not on a directory. *)
Definition not_dir (k : kernel) (fd : Z) : Prop :=
  ∀ A i f d m, kinv k A [] [] → inode_open k fd i f d m → k_type (A d m) ≠ FT_DIRECTORY.

Definition rooms (k : kernel) : Prop :=
  ∀ A d, kinv k A [] [] → dev_valid d → d ≠ 0 → room (kfs k) d (A d).

Definition call_ok (k : kernel) (c : call) : Prop :=
  match c with
  | COpen path flags => nonzero path ∧ (has_flag flags FILECTRL_CREATE = true → rooms k)
  | CRead fd n => 0 ≤ n < 2147483648 ∧
      (* a console read waits for the keyboard: its characters have been typed *)
      ∀ i f, open_at k fd i → file_table k !! i = Some f → f_type f = FD_CONSOLE →
        Forall (λ c, 0 ≤ c) (take (Z.to_nat n) (con_in (kcon k))) ∧ (Z.to_nat n ≤ length (con_in (kcon k)))%nat
  | CWrite fd src => bytes src ∧ Z.of_nat (length src) < 2147483648 ∧ not_dir k fd
  | CClose _ => True
  | CLseek fd offset whence =>
      (* no signed overflow *)
      -2147483648 ≤ offset < 2147483648 ∧
      ∀ A i f d m, kinv k A [] [] → inode_open k fd i f d m →
        -2147483648 ≤ s32 (f_off f) + offset < 2147483648 ∧ k_size (A d m) + offset < 2147483648
  | CFtruncate fd length => length < 2147483648 ∧ not_dir k fd
  | CMkdir path => nonzero path ∧ rooms k
  | CRm path => nonzero path
  end.

(** ** One call *)

(** The invariant holds again and the system device is as it was. *)
Definition safe (k : kernel) (k' : kernel) : Prop := (∃ A', kinv k' A' [] []) ∧ ro k k'.

Lemma safe_same k A : kinv k A [] [] → safe k k.
Proof. intros K. split; [by exists A|done]. Qed.

Lemma safe_cached k k' A : kinv k' A [] [] → cached (kfs k) (kfs k') → safe k k'.
Proof. intros K Hc. split; [by exists A|]. by apply cached_dev. Qed.

Lemma safe_changed k k' A A' d n : kinv k' A' [] [] → changed (kfs k) (kfs k') A A' d n → d ≠ 0 → safe k k'.
Proof. intros K C Hd. split; [by exists A'|]. apply (ch_devs _ _ _ _ _ _ C); [split; lia|done]. Qed.

(** The descriptor of an open file, by the kind of file. *)
Lemma open_kinds k A fd i :
  kinv k A [] [] → open_at k fd i →
  ∃ f, file_table k !! i = Some f ∧
    ((f_type f = FD_CONSOLE ∧ f_ip f = None) ∨ (∃ d m, inode_open k fd i f d m)).
Proof.
  intros K Ho. destruct (open_file_ok _ _ _ _ _ _ K Ho) as (f & Hf & _ & _ & Hok). exists f. split; [done|].
  destruct (f_type f) eqn:E; [done| |by left].
  destruct Hok as (j & d & m & Hj & _ & Hh & _). right. exists d, m. split_and!; try done. by exists j.
Qed.

Lemma fs_open_console_wp k A flags (Q : Z → kernel → Prop) R :
  kinv k A [] [] → (∀ v k', kinv k' A [] [] → cached (kfs k) (kfs k') → Q v k') →
  wp (fs_open str_console flags) Q R k.
Proof.
  intros K HQ. unfold fs_open. wp_step. eapply wp_expect; [by vm_compute|]. cbn [Z.eqb].
  wp_step. apply file_create_wp; [intros _; wp_step; by apply HQ, cached_refl|].
  intros i f Hf Hr. set (f1 := mkFile _ _ _ _ _ _). set (k1 := set_file_table _ k).
  assert (K1 : kinv k1 A [] [i]).
  { eapply kinv_fresh; [exact K|done|done|done|by split; [cbn; lia|]|]. intros j. unfold file_holds.
    rewrite decide_False by (by intros [_ ?]). lia. }
  assert (Hi : (i < length (file_table k1))%nat) by (cbn; rewrite length_insert; by eapply lookup_lt_Some).
  wp_step. eapply fd_install_wp; [exact K1|done| |].
  - intros c p _ _ _. wp_step. eapply file_close_wp; [exact K1|done|]. intros k' K' Hc _ _ _ _. wp_step. by apply HQ.
  - intros c p fd _ _ _ _ K2. wp_step. apply HQ; [done|apply cached_refl].
Qed.

Lemma run_open k A path flags :
  kinv k A [] [] → call_ok k (COpen path flags) → wp (run (COpen path flags)) (λ _, safe k) exhausted k.
Proof.
  intros K [Hp Hroom]. cbn [run]. destruct (has_flag flags FILECTRL_CREATE) eqn:Ec.
  - eapply fs_create_wp; [done|done|done|intros; by eapply Hroom|..].
    + intros k' _ Hcd K'. by eapply safe_cached.
    + intros y k' _ _ Hcd K'. by eapply safe_cached.
    + intros y c x de k' A' v _ _ E0 e n _ C _ [K' _ _]. by eapply safe_changed.
    + intros y c k' _ _ _ _ _ Hcd K'. by eapply safe_cached.
    + intros y c n k' A' _ _ E0 _ [_ _ _ _ C] K'. by eapply safe_changed.
    + intros y c n k' A' v _ _ E0 _ _ _ Md [K' _ _]. split; [by exists A'|]. apply (md_devs _ _ _ _ _ _ _ _ _ _ Md); [split; lia|done].
  - destruct (decide (path = take 7 str_console)) as [->|Hne].
    { eapply (fs_open_console_wp k A); [done|]. intros v k' K' Hcd. by eapply safe_cached. }
    eapply fs_open_wp; [done|done|done| | | |intros s' Hf; by left].
    + intros k' _ Hcd K'. by eapply safe_cached.
    + intros y k' _ _ Hcd K'. by eapply safe_cached.
    + intros y k' A' v _ _ _ Hro C _ Htr [K' _ _]. destruct (decide (y.1 = 0)) as [E0|E0]; [|by eapply safe_changed].
      eapply safe_cached; [exact K'|]. apply Htr. unfold readonly_refused in Hro. rewrite E0 in Hro. cbn [Z.eqb andb] in Hro.
      rewrite has_flag_lor in Hro. apply orb_false_iff in Hro as [_ Hro]. unfold truncates. by rewrite Hro.
Qed.

Lemma run_fd k A c fd :
  kinv k A [] [] → call_ok k c →
  match c with CRead fd' _ | CWrite fd' _ | CClose fd' | CLseek fd' _ _ | CFtruncate fd' _ => fd = fd' | _ => False end →
  (∀ i, ¬ open_at k fd i) → wp (run c) (λ _, safe k) exhausted k.
Proof.
  intros K Hok Hfd Hno.
  assert (Hl : ∀ Q R, Q None k → wp (fd_lookup fd) Q R k).
  { intros Q R HQ. eapply fd_lookup_wp; [done|done|]. intros i Hi. by destruct (Hno i). }
  pose proof (safe_same _ _ K). destruct c; subst; try done; cbn [run];
    unfold fs_read, fs_write, fs_close, fs_lseek, fs_ftruncate; repeat wp_step; apply Hl; by repeat wp_step.
Qed.

Lemma console_write_wp buf k (Q : unit → kernel → Prop) R :
  (∀ out, Q tt (set_kcon (Console (con_out (kcon k) ++ out) (con_in (kcon k))) k)) →
  wp (console_write buf) Q R k.
Proof.
  revert k. induction buf as [|c buf IH]; intros k HQ; cbn [console_write].
  - apply wp_ret. specialize (HQ []). rewrite app_nil_r in HQ. by destruct k as [? ? ? ? ? ? []].
  - wp_step. unfold in_con. apply wp_zoom. unfold putchar. wp_step. apply IH. intros out. cbn.
    rewrite <-app_assoc. apply HQ.
Qed.

(** Characters that are there are read at once. *)
Lemma console_read_wp y n k (Q : list Z → kernel → Prop) R :
  Forall (λ c, 0 ≤ c) (take n (con_in (kcon k))) → (n ≤ length (con_in (kcon k)))%nat →
  (∀ buf, Q buf (set_kcon (Console (con_out (kcon k)) (drop n (con_in (kcon k)))) k)) →
  wp (console_read y n) Q R k.
Proof.
  revert k Q. induction n as [|n IH]; intros k Q Hc Hn HQ; cbn [console_read].
  - apply wp_ret. specialize (HQ []). rewrite drop_0 in HQ. by destruct k as [? ? ? ? ? ? []].
  - destruct (con_in (kcon k)) as [|c l] eqn:E; [cbn in Hn; lia|]. cbn in Hc, Hn. inversion_clear Hc as [|? ? H0 Hl].
    wp_step. unfold getchar_blocking. wp_step. wp_step. rewrite E. cbn [length loop].
    wp_step. wp_step. unfold in_con. apply wp_zoom. unfold wp at 1, getchar. rewrite E. rewrite (proj2 (Z.ltb_ge _ _)) by done.
    wp_step. wp_step. wp_step. apply IH; [done|cbn; lia|]. intros buf. wp_step. apply HQ.
Qed.

Lemma kinv_con k A X Y c : kinv k A X Y → kinv (set_kcon c k) A X Y.
Proof. by intros []. Qed.

(** A call on an open descriptor. *)
Lemma run_open_fd k A c fd i :
  kinv k A [] [] → call_ok k c →
  match c with CRead fd' _ | CWrite fd' _ | CClose fd' | CLseek fd' _ _ | CFtruncate fd' _ => fd = fd' | _ => False end →
  open_at k fd i → wp (run c) (λ _, safe k) exhausted k.
Proof.
  intros K Hok Hfd Ho. destruct (open_kinds _ _ _ _ K Ho) as (f & Hf & Hkind).
  pose proof (safe_same _ _ K) as Hsame.
  assert (Hl : ∀ Q R, Q (Some i) k → wp (fd_lookup fd) Q R k) by (intros; by eapply fd_lookup_open).
  assert (Hfile : ∀ Q R, Q f k → wp (file i) Q R k) by (intros; by eapply file_wp).
  destruct c as [| fd' n | fd' src | fd' | fd' off wh | fd' len | |]; subst; try done; cbn [run].
  - (* read *) destruct Hok as [Hn Hcon]. destruct Hkind as [[Et _]|(d & m & HO)].
    { destruct (Hcon i f Ho Hf Et) as [Hc1 Hc2]. unfold fs_read. wp_step. wp_step. apply Hl. wp_step. apply Hfile.
      rewrite Et. destruct (f_readable f); cbn [negb]; [|by repeat wp_step]. wp_step.
      apply console_read_wp; [done|done|]. intros buf. wp_step. wp_step. split; [exists A; by apply kinv_con|done]. }
    wp_step. destruct (f_readable f) eqn:Er.
    + eapply fs_read_wp; [done|done|done|lia|]. intros k' K' Es _. wp_step. split; [by exists A|]. unfold ro. by rewrite Es.
    + unfold fs_read. wp_step. apply Hl. wp_step. apply Hfile. destruct HO as (_ & _ & -> & _). rewrite Er. by repeat wp_step.
  - (* write *) destruct Hok as (Hb & Hlen & Hnd). destruct (f_writable f) eqn:Ew.
    + destruct Hkind as [[Et _]|(d & m & HO)].
      * unfold fs_write. wp_step. apply Hl. wp_step. apply Hfile. rewrite Et, Ew. cbn [negb]. wp_step.
        assert (Hrest : ∀ out, wp (console_write out;; mret (Z.of_nat (length src))) (λ _, safe k) exhausted k).
        { intros out. wp_step. apply console_write_wp. intros o. wp_step. split; [exists A; by apply kinv_con|done]. }
        destruct (Z.leb_spec (Z.of_nat (length src)) 0); [wp_step; apply Hrest|].
        eapply wp_expect; [by apply cread_eq; lia|]. apply Hrest.
      * destruct (inode_open_ok _ _ _ _ _ _ _ _ _ K HO) as (_ & _ & _ & Hd). specialize (Hd Ew).
        eapply fs_write_wp; [done|done|done|by eapply Hnd|done|done| |].
        -- intros k' A1 K' C _ _ _ _ _. by eapply safe_changed.
        -- intros s' _ Hf'. right. by exists d.
    + unfold fs_write. wp_step. apply Hl. wp_step. apply Hfile. rewrite Ew.
      destruct Hkind as [[-> _]|(d & m & _ & _ & -> & _)]; by repeat wp_step.
  - (* close *) eapply fs_close_wp; [done|done|]. intros k' K' Hc _ _. by eapply safe_cached.
  - (* lseek *) destruct Hok as [Hoff Hov]. destruct Hkind as [[Et Eip]|(d & m & HO)].
    + unfold fs_lseek. wp_step. apply Hl. wp_step. apply Hfile. rewrite Eip. by repeat wp_step.
    + destruct (Hov A i f d m K HO) as [H1 H2]. destruct (inode_open_ok _ _ _ _ _ _ _ _ _ K HO) as (_ & _ & Hd & _).
      assert (0 ≤ k_size (A d m)).
      { destruct HO as (_ & _ & _ & j & _ & [Hm _]). apply (fsys_size _ _ _ (te_fsys _ _ (ki_tree _ _ _ _ K) d Hd) m Hm). }
      eapply fs_lseek_wp; [done|done| |].
      * intros b. repeat case_match; intros [= <-]; lia.
      * repeat case_match; try done; intros k' K' Es _; (split; [by exists A|unfold ro; by rewrite Es]).
  - (* ftruncate *) destruct Hok as [Hlen Hnd]. unfold fs_ftruncate at 1. destruct (f_writable f) eqn:Ew.
    + destruct Hkind as [[Et _]|(d & m & HO)].
      * wp_step. apply Hl. wp_step. apply Hfile. rewrite Ew, Et. by repeat wp_step.
      * destruct (inode_open_ok _ _ _ _ _ _ _ _ _ K HO) as (_ & _ & _ & Hd). specialize (Hd Ew).
        destruct (Z.ltb_spec len 0) as [Hneg|Hpos].
        -- wp_step. apply Hl. wp_step. apply Hfile. destruct HO as (_ & _ & -> & _). rewrite Ew. by repeat wp_step.
        -- destruct HO as (Ho' & Hf' & Ety & j & Hj & Hh). wp_step. apply Hl. wp_step. apply Hfile. rewrite Ew, Ety, Hj. cbn [negb].
           wp_step. eapply kinv_itrunc; [done| |by eapply held_pinned|lia| |].
           ++ by eapply (inode_open_ok k A [] [] fd' i f d m); [|split_and!; try done; by exists j].
           ++ intros E. exfalso. eapply (Hnd A i f d m); [done|split_and!; try done; by exists j|done].
           ++ intros s' A1 [K' C _ _] _ _ _ _. wp_step. by eapply (safe_changed k (set_kfs s' k)).
    + wp_step. apply Hl. wp_step. apply Hfile. rewrite Ew. by repeat wp_step.
Qed.

Lemma run_safe k A c : kinv k A [] [] → call_ok k c → wp (run c) (λ _, safe k) exhausted k.
Proof.
  intros K Hok.
  assert (Hfd : ∀ fd, match c with CRead fd' _ | CWrite fd' _ | CClose fd' | CLseek fd' _ _ | CFtruncate fd' _ => fd = fd' | _ => False end →
    wp (run c) (λ _, safe k) exhausted k).
  { intros fd Hc.
    assert (H : wp (fd_lookup fd) (λ _ _, wp (run c) (λ _, safe k) exhausted k) (λ _, False) k).
    { eapply fd_lookup_wp; [done| |].
      - intros Hno. by eapply run_fd.
      - intros i Ho. by eapply run_open_fd. }
    by destruct (wp_returns _ _ _ H) as (? & ? & ? & ?). }
  destruct c as [path flags|fd n|fd src|fd|fd o w|fd len|path|path]; try by apply (Hfd fd).
  - by eapply run_open.
  - destruct Hok as [Hp Hroom]. cbn [run]. eapply fs_mkdir_wp; [done|done|intros; by eapply Hroom|..].
    + intros k' _ Hcd K'. by eapply safe_cached.
    + intros y k' _ _ Hcd K'. by eapply safe_cached.
    + intros y c k' _ _ _ _ Hcd K'. by eapply safe_cached.
    + intros y c k' _ _ _ _ _ Hcd K'. by eapply safe_cached.
    + intros y c n k' A' _ _ E0 _ [_ _ _ _ C] K'. by eapply safe_changed.
    + intros y c n k' A' _ _ E0 _ _ _ Md K'. split; [by exists A'|]. apply (md_devs _ _ _ _ _ _ _ _ _ _ Md); [split; lia|done].
  - cbn [run]. eapply fs_rm_wp; [done|done|..].
    + intros k' _ Hcd K'. by eapply safe_cached.
    + intros y k' _ _ Hcd K'. by eapply safe_cached.
    + intros y c k' _ _ _ _ Hcd K'. by eapply safe_cached.
    + intros y c x de k' _ _ _ _ _ _ Hcd K'. by eapply safe_cached.
    + intros y c x de k' A' _ _ E0 _ _ _ Hrm K'. split; [by exists A'|]. apply (rm_devs _ _ _ _ _ _ _ _ Hrm); [split; lia|done].
Qed.

(** ** Sequences *)

Inductive step : kernel → kernel → Prop :=
| step_call c v k k' : call_ok k c → run c k = Ok v k' → step k k'.


