(* ===== verification/ProcSpec.v ===== *)
(** * Creating processes

    [create_process] under the invariants of the kernel's tables and of its
    address spaces: where the new process gets its descriptors, its directory,
    its program and its arguments from, and that nothing else changes. *)

From S2P Require Import Prelude CLib FsTypes Block Inode FsInv FsAlloc FsMap FsGrow FsFile FsWrite.
From S2P Require Import FsTrunc FsCache Dir DirSpec FsRef Namei KState FdTable FdInv FdSteps FdFile Path FdPath.
From S2P Require Import Page UserMem Process Syscall PageMem PageTable UserSpec HeapSpec Layout Args.

(** ** Standard input, output and error *)

Definition console_file (flags : Z) : File :=
  mkFile 1 FD_CONSOLE (has_flag flags FILECTRL_READONLY) (has_flag flags FILECTRL_WRITEONLY) None 0.

(** [L] lists the console files that were just created, with their flags. *)
Definition consoles (k : kernel) (A : Z → Z → ikey) (ft : list File) (L : list (nat * Z)) : Prop :=
  kinv (set_file_table (λ _, ft) k) A [] (L.*1) ∧ Forall (λ x, ft !! x.1 = Some (console_file x.2)) L ∧
  ∀ b f, file_table k !! b = Some f → 0 < f_ref f → ft !! b = Some f ∧ b ∉ L.*1.

Lemma kinv_perm_files k A X Y Y' : (∀ j, occ j Y = occ j Y') → kinv k A X Y → kinv k A X Y'.
Proof. intros HY [T N I F G D C]. constructor; try done. intros i f Hf. rewrite <-HY. by apply F. Qed.

Lemma occ_perm j Y Y' : Y ≡ₚ Y' → occ j Y = occ j Y'.
Proof. induction 1; rewrite ?occ_cons; lia. Qed.

Lemma consoles_perm k A ft L L' : L ≡ₚ L' → consoles k A ft L → consoles k A ft L'.
Proof.
  intros HP (H1 & H2 & H3). split; [|split; [by rewrite <-HP|by setoid_rewrite <-HP]]. eapply kinv_perm_files; [|exact H1]. intros j. apply occ_perm. by rewrite HP.
Qed.

Section consoles.
Context {k : kernel} {A : Z → Z → ikey}.

Lemma create_console_wp ft L fl (Q : option nat → kernel → Prop) R : consoles k A ft L →
  Q None (set_file_table (λ _, ft) k) →
  (∀ a ft', consoles k A ft' ((a, fl) :: L) → Q (Some a) (set_file_table (λ _, ft') k)) →
  wp (file_create FD_CONSOLE fl) Q R (set_file_table (λ _, ft) k).
Proof using.
  intros (H1 & H2 & H3) HN HS. apply file_create_wp; [done|]. intros a f Hf Hr. apply (HS a (<[a := console_file fl]> ft)). split; [|split].
  - cbn [fmap list_fmap fst]. eapply (kinv_fresh _ _ [] [] _ a f (console_file fl)) in H1; [exact H1|done|done|done|..].
    + split; [cbn; lia|done].
    + intros j. unfold file_holds. rewrite decide_False by (by intros [_ ?]). lia.
  - cbn in Hf. constructor; [cbn; apply list_lookup_insert_eq; by eapply lookup_lt_Some|].
    eapply Forall_impl; [exact H2|]. intros [b fl'] Hb. cbn in *. rewrite list_lookup_insert_ne; [done|].
    intros ->. assert (f = console_file fl') as -> by congruence. done.
  - intros b g Hb Hg. destruct (H3 b g Hb Hg) as [Hb1 Hb2]. assert (a ≠ b) as Hne.
    { intros ->. cbn in Hf. assert (f = g) as -> by congruence. lia. }
    split; [by rewrite list_lookup_insert_ne|]. cbn. intros [E|E]%elem_of_cons; [by subst|done].
Qed.

Lemma close_console_wp ft L a fl (Q : unit → kernel → Prop) R : consoles k A ft ((a, fl) :: L) →
  (∀ ft', consoles k A ft' L → Q tt (set_file_table (λ _, ft') k)) →
  wp (file_close (Some a)) Q R (set_file_table (λ _, ft) k).
Proof using.
  intros (H1 & H2 & H3) HQ. inversion H2 as [|? ? Ha H2']; subst. cbn [fst snd] in Ha.
  assert (occ a (L.*1) = 0) as Hocc.
  { pose proof (ki_frefs _ _ _ _ H1 a _ Ha) as H. cbn [fmap list_fmap fst] in H. rewrite occ_cons, decide_True in H by done.
    pose proof (total_nonneg (fd_holds a) (procs (set_file_table (λ _, ft) k)) (fd_holds_nonneg a)).
    pose proof (occ_nonneg a (L.*1)). cbn [console_file f_ref] in H. lia. }
  set (f' := mkFile 0 FD_NONE (has_flag fl FILECTRL_READONLY) (has_flag fl FILECTRL_WRITEONLY) None 0).
  assert (consoles k A (<[a := f']> ft) L) as HL.
  { split; [|split].
    - eapply (kinv_file _ _ [] ((a, fl) :: L).*1 [] (L.*1) a (console_file fl) f') in H1; [exact H1|done|..].
      + intros j. unfold file_holds. rewrite !decide_False; [lia|by intros [_ ?]|by intros [_ ?]].
      + cbn [fmap list_fmap fst]. rewrite occ_cons, decide_True by done. cbn. lia.
      + intros i' Hi. cbn [fmap list_fmap fst]. rewrite occ_cons, decide_False by done. lia.
      + cbn. lia.
    - apply Forall_forall. intros [b fl'] Hb. rewrite Forall_forall in H2'. cbn. rewrite list_lookup_insert_ne; [by apply (H2' (b, fl'))|].
      intros ->. assert (0 < occ b (L.*1)); [|lia]. apply occ_in. apply list_elem_of_fmap. by exists (b, fl').
    - intros b g Hb Hg. destruct (H3 b g Hb Hg) as [Hb1 Hb2]. cbn [fmap list_fmap fst] in Hb2. apply not_elem_of_cons in Hb2 as [Hne Hb2].
      split; [by rewrite list_lookup_insert_ne|done]. }
  unfold file_close. apply wp_bind. eapply file_wp; [exact Ha|]. cbn [console_file f_ref]. change (1 <=? 0) with false. cbn iota.
  apply wp_bind. eapply upd_file_wp; [exact Ha|]. cbn [console_file f_ref f_ip]. change (1 - 1 =? 0) with true. cbn iota.
  apply wp_bind, wp_ret. eapply upd_file_wp; [eapply lookup_set_file; exact Ha|]. rewrite set_file_table_twice. exact (HQ _ HL).
Qed.

Lemma close_some_wp ft L o fl (Q : unit → kernel → Prop) R :
  consoles k A ft ((match o with Some a => [(a, fl)] | None => [] end) ++ L) →
  (∀ ft', consoles k A ft' L → Q tt (set_file_table (λ _, ft') k)) →
  wp (file_close o) Q R (set_file_table (λ _, ft) k).
Proof using. destruct o as [a|]; [by apply close_console_wp|]. intros H HQ. by apply wp_ret, HQ. Qed.
End consoles.

(** The first descriptors of a new process: the console three times, or nothing
    where the file table has no room for them. *)
Definition std_files (ft : list File) (l : list (option nat)) : Prop :=
  l = replicate NUM_FILES_PER_PROCESS None ∨
  ∃ a b c, l = [Some a; Some b; Some c] ++ replicate 13 None ∧ ft !! a = Some (console_file FILECTRL_READONLY) ∧
    ft !! b = Some (console_file FILECTRL_WRITEONLY) ∧ ft !! c = Some (console_file FILECTRL_WRITEONLY).

Lemma open_console_wp k A i p (Q : unit → kernel → Prop) R : kinv k A [] [] → procs k !! i = Some p →
  ofile p = replicate NUM_FILES_PER_PROCESS None →
  (∀ ft l, let k' := set_procs (<[i := set_ofile l p]>) (set_file_table (λ _, ft) k) in
     kinv k' A [] [] → std_files ft l → (∀ b f, file_table k !! b = Some f → 0 < f_ref f → ft !! b = Some f) → Q tt k') →
  wp (open_console i) Q R k.
Proof.
  intros K Hp Ho HQ. assert (set_file_table (λ _, file_table k) k = k) as Ek by (by destruct k).
  assert (consoles k A (file_table k) []) as H0.
  { split; [by rewrite Ek|]. split; [done|]. intros b f Hb _. split; [done|apply not_elem_of_nil]. }
  assert (set_procs (<[i := set_ofile (replicate NUM_FILES_PER_PROCESS None) p]>) k = k) as Esame.
  { rewrite <-Ho. destruct k as [? ? ps]. unfold set_procs. cbn in *. f_equal. apply list_insert_id. rewrite Hp. by destruct p. }
  assert (∀ ft, set_procs (<[i := set_ofile (replicate NUM_FILES_PER_PROCESS None) p]>) (set_file_table (λ _, ft) k) =
    set_file_table (λ _, ft) k) as Esame'.
  { intros ft. transitivity (set_file_table (λ _, ft) (set_procs (<[i := set_ofile (replicate NUM_FILES_PER_PROCESS None) p]>) k)); [done|]. by rewrite Esame. }
  rewrite <-Ek at 1. unfold open_console.
  assert (∀ ft f0 f1 f2, consoles k A ft ((match f0 with Some a => [(a, FILECTRL_READONLY)] | None => [] end) ++
      (match f1 with Some a => [(a, FILECTRL_WRITEONLY)] | None => [] end) ++
      (match f2 with Some a => [(a, FILECTRL_WRITEONLY)] | None => [] end) ++ []) →
    wp (file_close f0;; file_close f1;; file_close f2) Q R (set_file_table (λ _, ft) k)) as Hfail.
  { intros ft f0 f1 f2 HC. apply wp_bind. eapply close_some_wp; [exact HC|]. intros ft1 HC1.
    apply wp_bind. eapply close_some_wp; [exact HC1|]. intros ft2 HC2. eapply close_some_wp; [exact HC2|]. intros ft3 (HC3 & _ & HC5).
    rewrite <-Esame'. apply HQ; [|by left|intros; by apply HC5]. cbv zeta. by rewrite Esame'. }
  apply wp_bind. eapply create_console_wp; [exact H0|..].
  - apply wp_bind. eapply create_console_wp; [exact H0|..].
    + apply wp_bind. eapply create_console_wp; [exact H0|by apply (Hfail _ None None None)|]. intros c ft HC. by apply (Hfail _ None None (Some c)).
    + intros b ft HC. apply wp_bind. eapply create_console_wp; [exact HC|by apply (Hfail _ None (Some b) None)|].
      intros c ft' HC'. apply (Hfail _ None (Some b) (Some c)). eapply consoles_perm; [|exact HC']. apply Permutation_swap.
  - intros a ft HC. apply wp_bind. eapply create_console_wp; [exact HC|..].
    + apply wp_bind. eapply create_console_wp; [exact HC|by apply (Hfail _ (Some a) None None)|].
      intros c ft' HC'. apply (Hfail _ (Some a) None (Some c)). eapply consoles_perm; [|exact HC']. apply Permutation_swap.
    + intros b ft' HC'. apply wp_bind. eapply create_console_wp; [exact HC'|..].
      * apply (Hfail _ (Some a) (Some b) None). eapply consoles_perm; [|exact HC']. apply Permutation_swap.
      * intros c ft'' (HC1 & HC2 & HC5). eapply upd_proc_wp; [done|]. rewrite Ho. apply HQ.
        -- eapply kinv_proc; [exact HC1|done|done| |done|].
           ++ intros j. unfold fd_holds. cbn [set_ofile ofile fmap list_fmap fst]. rewrite Ho. cbn. rewrite !occ_cons.
              repeat (rewrite (decide_ext (Some _ = Some _) (_ = j)) by (split; congruence)).
              change (occ j []) with 0. repeat case_decide; simplify_eq; lia.
           ++ intros fd j. cbn [set_ofile ofile]. inversion HC2 as [|? ? Hc HC3]; subst. inversion HC3 as [|? ? Hb HC4]; subst.
              inversion HC4 as [|? ? Ha _]; subst. cbn [fst] in *.
              do 3 (destruct fd as [|fd]; [cbn; intros [= <-]; by eapply lookup_lt_Some|]).
              cbn. intros [E _]%(lookup_replicate 13); done.
        -- right. exists a, b, c. inversion HC2 as [|? ? Hc HC3]; subst. inversion HC3 as [|? ? Hb HC4]; subst.
           inversion HC4 as [|? ? Ha _]; subst. done.
        -- intros. by apply HC5.
Qed.

(** ** The current directory *)

Lemma kinv_iget k A X Y d n (Q : ptr → kernel → Prop) (R : kernel → Prop) :
  kinv k A X Y → node_ok (kfs k) (d, n) →
  (∀ j s', cached (kfs k) s' → kinv (set_kfs s' k) A (j :: X) Y → pinned s' d j n →
     (∀ i e m, pinned (kfs k) e i m → pinned s' e i m) → Q (Some j) (set_kfs s' k)) →
  (cache_full (kfs k) → R k) → wp (in_fs (iget d n)) Q R k.
Proof.
  intros K Hn HQ HR. pose proof (ki_tree _ _ _ _ K) as T. apply wp_in_fs. apply iget_wp.
  - intros j s' G. pose proof (got_visit _ _ _ _ _ G) as V.
    pose proof (got_pinned _ _ _ _ _ G (kinv_cache _ _ _ _ K) (proj2 Hn)) as Hp.
    pose proof (walk_tree _ _ _ _ (vs_walk _ _ _ V) T) as T'.
    apply HQ; [by eapply visit_cached| |done|intros; by eapply got_pinned_other].
    eapply kinv_step; [done..|]. eapply visit_one_trans; try done; [apply Hn|apply K|by eapply tree_cache..].
  - intros Hf. assert (set_kfs (kfs k) k = k) as -> by by destruct k. by apply HR.
Qed.

(** A directory path kept in a buffer. *)
Definition path_buf (b w : list Z) : Prop := ∃ rest, b = w ++ 0 :: rest ∧ nonzero w ∧ (length w ≤ 255)%nat.

Lemma copy_name_path b w : path_buf b w → ∃ b', copy_name b MAX_PATH = Some b' ∧ path_buf b' w.
Proof.
  intros (rest & -> & Hw & Hl). unfold copy_name. change (MAX_PATH - 1)%nat with 255%nat.
  rewrite strncpy_spec by done. eexists. split; [done|]. exists (zeros (255 - length w)).
  rewrite take_app_ge by done. unfold zeros. rewrite take_replicate, Nat.min_l by lia. rewrite <-app_assoc.
  split; [|done]. f_equal. by rewrite <-replicate_S_end.
Qed.

(** The directory a child of [p] starts in, and its path. *)
Definition stands (s : fs) (p : Process) (x : Z * Z) (w : list Z) : Prop :=
  match cwd p with
  | Some j => pinned s x.1 j x.2 ∧ path_buf (cwd_path p) w
  | None => x = (0, 1) ∧ w = [SLASH]
  end.

Lemma inherit_cwd_wp k A c i pc p x w (Q : unit → kernel → Prop) (R : kernel → Prop) : kinv k A [] [] →
  current_proc k = Some c → procs k !! c = Some pc → stands (kfs k) pc x w →
  procs k !! i = Some p → cwd p = None →
  (∀ j b s', let p' := set_cwd (Some j) b p in cached (kfs k) s' →
     kinv (set_procs (<[i := p']>) (set_kfs s' k)) A [] [] → stands s' p' x w →
     (∀ i e m, pinned (kfs k) e i m → pinned s' e i m) → Q tt (set_procs (<[i := p']>) (set_kfs s' k))) →
  (cache_full (kfs k) → R k) → wp (inherit_cwd i) Q R k.
Proof.
  intros K Hc Hpc Hst Hp Hcwd HQ HR.
  assert (∀ d n b, node_ok (kfs k) (d, n) → x = (d, n) → path_buf b w →
    wp (w ← in_fs (iget d n); path ← expect (copy_name b MAX_PATH); upd_proc i (set_cwd w path)) Q R k) as Hstep.
  { intros d n b Hn -> Hb. destruct (copy_name_path b w Hb) as (b' & Eb & Hb'). apply wp_bind. eapply kinv_iget; [done|done| |done].
    intros j s' Hcd K' Hpin Hother. apply wp_bind. eapply wp_expect; [exact Eb|]. eapply upd_proc_wp; [exact Hp|].
    apply HQ; [done| |by split|done].
    eapply kinv_proc; [exact K'|done| |done|apply (ki_fds _ _ _ _ K i p Hp)|apply (ki_fds _ _ _ _ K i p Hp)].
    intros j'. unfold cwd_holds. cbn [set_cwd cwd]. rewrite Hcwd, occ_cons.
    repeat case_decide; simplify_eq; lia. }
  unfold inherit_cwd, get_current_process. apply wp_bind, wp_gets. rewrite Hc. apply wp_bind, wp_bind.
  eapply proc_wp; [exact Hpc|]. apply wp_ret. unfold stands in Hst. destruct (cwd pc) as [j|] eqn:Ej.
  - destruct Hst as [Hpin Hb]. apply wp_bind. eapply kinv_deref_pinned; [exact Hpin|]. intros ip Ed En. rewrite Ed, En.
    apply Hstep; [|by destruct x|done].
    destruct (nodes_pinned (kfs k) j (ki_nodes _ _ _ _ K)) as (d & n & Hn & Hp2); [by eapply pinned_iref|].
    by destruct (pinned_inj _ _ _ _ _ _ Hpin Hp2) as [-> ->].
  - destruct Hst as [-> ->]. apply Hstep; [|done|].
    + split; [split; cbn; lia|]. apply (te_root _ _ (ki_tree _ _ _ _ K) 0). split; lia.
    + exists []. split; [done|]. split; [|cbn; lia]. repeat constructor; unfold SLASH; lia.
Qed.

(** ** The new process *)

(** Giving up a reference leaves every inode that is still referenced pinned. *)
Lemma kinv_iput_pinned k A X Y j (Q : unit → kernel → Prop) R : kinv k A (j :: X) Y →
  (∀ s', cached (kfs k) s' → kinv (set_kfs s' k) A X Y →
     (∀ i d n, 0 < iref s' i → pinned (kfs k) d i n → pinned s' d i n) → Q tt (set_kfs s' k)) →
  wp (in_fs (iput (Some j))) Q R k.
Proof.
  intros K HQ. destruct (kinv_local _ _ _ _ j K ltac:(left)) as (d & n & _ & Hp).
  eapply wp_conseq.
  { apply wp_and with (Q := λ _ k', ∃ s', k' = set_kfs s' k ∧ cached (kfs k) s' ∧ kinv (set_kfs s' k) A X Y)
      (Q' := λ _ k', ∀ i e m, 0 < iref (kfs k') i → pinned (kfs k) e i m → pinned (kfs k') e i m).
    - eapply kinv_iput; [exact K|]. intros s' Hc K' _. by exists s'.
    - apply wp_in_fs. apply iput_wp; [by eapply pinned_live|]. intros s' D i e m Hi [Hm (x & Hx & Hxr & Hxd & Hxn)]. cbn [set_kfs kfs] in *.
      destruct (dropped_entry _ _ _ D) as [Ht (ip & Hl & Hr & Hl')]. split; [by rewrite (dr_state _ _ _ D)|].
      destruct (decide (i = j)) as [->|Hne]; [|exists x; by rewrite Ht].
      simplify_eq. unfold iref in Hi. rewrite Hl' in Hi. by eexists. }
  intros [] k' [(s' & -> & Hc & K') Hpin]. by apply HQ.
Qed.

Lemma kinv_mem k A X Y m : kinv k A X Y → kinv (set_kmem m k) A X Y.
Proof. by intros []. Qed.

(** Process [p] runs [prog] in address space [r] of [m], which was made from [m0]. *)
Record runs (R K : gset Z) (m0 m : memory) (user_entry : Z) (i : nat) (prog : list Z) (argv : list (list Z)) (r sp : Z) (p : Process) : Prop := {
  rn_space : new_space R K m0 m r prog argv sp;
  rn_table : page_table p = r * 4096;
  rn_pid : pid p = Z.of_nat i + 1;
  rn_state : p_state p = PROCSTATE_RUNNABLE;
  rn_frame : frame p = [user_entry; sp; Z.of_nat (length argv); sp] ++ zeros 9;
  rn_heap : heap_ok m r p;
  rn_start : heap_start p = USER_BASE + align_up (Z.of_nat (length prog)) PAGE_SIZE ∧ heap_end p = heap_start p
}.

(** The stack pointer a program starts with. *)
Definition start_sp (size : Z) (argv : list (list Z)) : Z :=
  match argv with [] => USER_BASE + size | _ => args_sp size argv end.
Definition args_room (size : Z) (argv : list (list Z)) : Prop :=
  match argv with [] => True | _ => 0 < size ∧ args_fit size argv end.

Lemma new_heap_ok R K m m' r prog argv sp p : new_space R K m m' r prog argv sp →
  USER_BASE + Z.of_nat (length prog) + 4096 ≤ DEVICES →
  heap_start p = USER_BASE + align_up (Z.of_nat (length prog)) PAGE_SIZE → heap_end p = heap_start p → heap_ok m' r p.
Proof.
  intros HN Htop E1 E2. pose proof (align_up_page Htop) as Eup. rewrite Eup in E1. unfold USER_BASE, DEVICES in *.
  assert (align_up (heap_end p) PAGE_SIZE = heap_end p) as Ea.
  { rewrite E2, E1, align_up_eq by (unfold DEVICES; Z.div_mod_to_equations; lia). Z.div_mod_to_equations. lia. }
  split.
  - rewrite E1. Z.div_mod_to_equations. lia.
  - rewrite E2, E1. Z.div_mod_to_equations. lia.
  - rewrite E2, E1. unfold DEVICES. Z.div_mod_to_equations. lia.
  - rewrite Ea, E2. lia.
  - rewrite Ea, E2. unfold DEVICES. intros v Hv. apply (ns_free _ _ _ _ _ _ _ _ HN); unfold USER_BASE, DEVICES; [|rewrite Eup; lia].
    rewrite E1 in Hv. Z.div_mod_to_equations. lia.
Qed.

Section finish.
Context (user_entry : Z) {k : kernel} {A : Z → Z → ikey} {R K : gset Z} {m0 : memory} {r : Z} {i : nat} {p : Process}.
Context {image : option (list Z)} {ip : ptr} {prog : list Z} {args : option (list (list Z))}.
Local Abbreviation size := (Z.of_nat (length prog)).
Local Abbreviation argv := (default [] args).
Context (HK : kinv k A (match ip with Some j => [j] | None => [] end) []) (Hp : procs k !! i = Some p).
Context (Hvm0 : vm_ok m0 R K) (Hr : r ∉ R) (HB : based R K m0 (kmem k) r (kernel_layout (free_ram_end m0))).
Context (Hb : bytes prog) (Htop : USER_BASE + size + 4096 ≤ DEVICES) (HL : loads k image ip prog) (Hfit : args_room size argv).
Context (Hname : args ≠ Some []).

(** From the loading of the program to the end. *)
Lemma finish_wp (Q : option nat → kernel → Prop) (Rp : kernel → Prop) :
  (∀ s' m' p', cached (kfs k) s' → kinv (set_procs (<[i := p']>) (set_kmem m' (set_kfs s' k))) A [] [] →
    (∀ j d n, 0 < iref s' j → pinned (kfs k) d j n → pinned s' d j n) →
    runs R K m0 m' user_entry i prog argv r (start_sp size argv) p' → cwd p' = cwd p → cwd_path p' = cwd_path p → ofile p' = ofile p →
    Q (Some i) (set_procs (<[i := p']>) (set_kmem m' (set_kfs s' k)))) →
  (∀ k', starved R K m0 (kmem k') (USER_BASE + size) → Rp k') →
  wp (last_page ← map_program (r * 4096) image ip size;
    (match ip with Some _ => in_fs (iput ip) | None => mret tt end);;
    user_sp ← (if (Z.of_nat (length argv) >? 0) && negb (last_page =? 0) then
                 args ← expect args; in_mem (push_args last_page size (Z.of_nat (length argv)) args)
               else mret (u32 (USER_BASE + size)));
    let heap := u32 (USER_BASE + align_up size PAGE_SIZE) in
    name ← match args with
           | Some args => if Z.of_nat (length argv) >? 0 then path ← expect (head args); expect (copy_name path 16)
                          else expect (copy_name str_idle 16)
           | None => expect (copy_name str_idle 16)
           end;
    upd_proc i (λ p, mkProcess (Z.of_nat i + 1) PROCSTATE_RUNNABLE (exit_code p)
      ([user_entry; user_sp; u32 (Z.of_nat (length argv)); user_sp] ++ zeros 9) (r * 4096) (cwd p) heap heap (ofile p)
      name (cwd_path p));;
    mret (Some i)) Q Rp k.
Proof using HK Hp Hvm0 Hr HB Hb Htop HL Hfit Hname.
  intros HQ HR. pose proof (ba_vm _ _ _ _ _ _ HB) as Hvm. apply wp_bind.
  eapply wp_mono; [apply (map_program_wp k ({[r]} ∪ R) K r image ip prog); try done; [apply root_in|]| |intros k' Hf; apply HR; by eapply starved_cut].
  { intros v Hv. unfold USER_BASE, DEVICES in *. rewrite (based_upte v HB), kernel_layout_low by (unfold DEVICES; Z.div_mod_to_equations; lia). done. }
  intros last k1 (Ek1 & Hld & Elast). rewrite Ek1. set (m1 := kmem k1) in *. clearbody m1. clear Ek1 k1.
  apply wp_bind.
  (** The reference to the program file is dropped. *)
  assert (wp (match ip with Some _ => in_fs (iput ip) | None => mret tt end)
    (λ _ k', ∃ s', k' = set_kmem m1 (set_kfs s' k) ∧ cached (kfs k) s' ∧ kinv (set_kmem m1 (set_kfs s' k)) A [] [] ∧
    ∀ j d n, 0 < iref s' j → pinned (kfs k) d j n → pinned s' d j n) Rp (set_kmem m1 k)) as Hput.
  { destruct ip as [j|].
    - apply (kinv_mem _ _ _ _ m1) in HK. eapply kinv_iput_pinned; [exact HK|]. intros s' Hcd K' Hpin. exists s'. done.
    - apply wp_ret. exists (kfs k). assert (set_kfs (kfs k) k = k) as -> by by destruct k.
      split; [done|]. split; [apply cached_refl|]. split; [by apply kinv_mem|done]. }
  eapply wp_conseq; [exact Hput|]. intros _ k2 (s' & -> & Hcd & K2 & Hpin). clear Hput.
  set (k2 := set_kmem m1 (set_kfs s' k)) in *.
  (** The arguments. *)
  apply wp_bind.
  assert (wp (if (Z.of_nat (length argv) >? 0) && negb (last =? 0) then
    args ← expect args; in_mem (push_args last size (Z.of_nat (length argv)) args) else mret (u32 (USER_BASE + size)))
    (λ sp k', sp = start_sp size argv ∧ ∃ m2, k' = set_kmem m2 k2 ∧ new_space R K m0 m2 r prog argv sp) Rp k2) as Hpush.
  { destruct args as [[|a l]|]; [done| |].
    2: { cbn [default length]. change (Z.of_nat 0 >? 0) with false. cbn [andb]. apply wp_ret. rewrite u32_small by (unfold USER_BASE, DEVICES in *; lia).
         split; [done|]. exists m1. split; [done|]. apply (loaded_space Hvm0 Hr HB Htop Hld). }
    cbn [default from_option id] in *. set (av := a :: l) in *. destruct Hfit as [Hs Hf].
    rewrite (gtb_true (Z.of_nat (length av)) 0) by (cbn; lia).
    pose proof (args_space Hvm0 Hr HB Htop Hld av Hf Hs) as Hsp.
    rewrite (proj2 (Z.eqb_neq size 0)) in Elast by lia.
    assert (umapped m1 r PAGE_W (USER_BASE + size - 1)) as Hmap.
    { destruct (ld_bytes _ _ _ _ _ _ _ Hld (USER_BASE + size - 1)) as [(H1 & H2 & H3) _].
      - rewrite (align_up_page Htop). Z.div_mod_to_equations. lia.
      - split; [done|]. split; [done|]. change PAGE_W with (Z.land (Z.lor PAGE_R (Z.lor PAGE_W PAGE_X)) PAGE_W). rewrite Z.land_assoc, H3. done. }
    assert (vm_ok m1 ({[r]} ∪ R) K) as Hvm1 by apply Hld.
    destruct (last_page_data Hvm1 root_in Hmap) as [_ Hpg].
    pose proof (managed_range m1 _ (vm_mem Hvm1) Hpg) as [Hlo _]. unfold KERNEL_BASE in Hlo.
    rewrite (proj2 (Z.eqb_neq last 0)) by lia. cbn [andb negb]. apply wp_bind, wp_ret, wp_in_mem. rewrite Elast.
    apply push_args_wp; [apply (vm_mem Hvm1)|done|done|unfold DEVICES in *; lia|done|]. split; [done|]. eexists. split; [done|exact Hsp]. }
  eapply wp_conseq; [exact Hpush|]. intros sp k3 (-> & m2 & -> & Hns). clear Hpush Elast.
  (** The name. *)
  assert (∃ name, ∀ Q' : list Z → kernel → Prop, Q' name (set_kmem m2 k2) →
    wp (match args with
    | Some args => if Z.of_nat (length argv) >? 0 then path ← expect (head args); expect (copy_name path 16) else expect (copy_name str_idle 16)
    | None => expect (copy_name str_idle 16)
    end) Q' Rp (set_kmem m2 k2)) as [name Hnm].
  { destruct args as [[|a l]|]; [done| |].
    - destruct Hfit as [_ (_ & _ & Hc & _)]. inversion Hc as [|? ? (wd & -> & Hw) _]; subst.
      eexists. intros Q' HQ'. cbn [default from_option id length]. rewrite gtb_true by lia. apply wp_bind. eapply wp_expect; [done|].
      eapply wp_expect; [|exact HQ']. unfold copy_name. rewrite strncpy_spec by done. done.
    - eexists. intros Q' HQ'. eapply wp_expect; [|exact HQ']. vm_compute. reflexivity. }
  apply wp_bind, Hnm. apply wp_bind. eapply upd_proc_wp; [exact Hp|]. apply wp_ret.
  assert (u32 (USER_BASE + align_up size PAGE_SIZE) = USER_BASE + align_up size PAGE_SIZE) as Eh.
  { apply u32_small. rewrite (align_up_page Htop). unfold USER_BASE, DEVICES in *. Z.div_mod_to_equations. lia. }
  assert (u32 (Z.of_nat (length argv)) = Z.of_nat (length argv)) as Ec.
  { apply u32_small. destruct args as [[|a l]|]; cbn in *; [lia| |lia]. destruct Hfit as (_ & _ & Hle & _). cbn in Hle. lia. }
  change (set_procs ?f (set_kmem m2 k2)) with (set_procs f (set_kmem m2 (set_kfs s' k))). apply HQ; [done| |done| |done|done|done].
  - eapply (kinv_proc _ A [] [] [] [] i p); [by apply (kinv_mem k2)|done|done|done|apply (ki_fds _ _ _ _ HK i p Hp)|apply (ki_fds _ _ _ _ HK i p Hp)].
  - rewrite Ec, Eh. split; try done. by eapply new_heap_ok; [exact Hns|done|done|].
Qed.
End finish.

(** A free slot of the process table keeps nothing. *)
Definition slot_empty (p : Process) : Prop := cwd p = None ∧ ofile p = replicate NUM_FILES_PER_PROCESS None.

(** What the new process shares with the one that creates it, and what stays. *)
Record inherits (k k' : kernel) (A : Z → Z → ikey) (i : nat) (p' : Process) (x : Z * Z) (w : list Z) : Prop := {
  in_kinv_fs : cached (kfs k) (kfs k');
  in_procs : procs k' = <[i := p']> (procs k);
  in_rest : current_proc k' = current_proc k ∧ idle_proc k' = idle_proc k ∧ kcon k' = kcon k;
  in_files b f : file_table k !! b = Some f → 0 < f_ref f → file_table k' !! b = Some f;
  in_std : std_files (file_table k') (ofile p');
  in_cwd : stands (kfs k') p' x w ∧ is_Some (cwd p')
}.

Section prepare.
Context {k : kernel} {A : Z → Z → ikey} {R K : gset Z} {c i : nat} {pc p : Process} {x : Z * Z} {w : list Z}.
Context (HK : kinv k A [] []) (Hvm : vm_ok (kmem k) R K).
Context (Hc : current_proc k = Some c) (Hpc : procs k !! c = Some pc) (Hst : stands (kfs k) pc x w) (Hci : c ≠ i).
Context (Hp : procs k !! i = Some p) (Hempty : slot_empty p).

Lemma prepare_wp (rest : Z → M kernel (option nat)) (Q : option nat → kernel → Prop) (Rp : kernel → Prop) :
  (∀ r k1 p1, kinv k1 A [] [] → inherits k k1 A i p1 x w → p_state p1 = p_state p →
    (∀ j e m, pinned (kfs k) e j m → pinned (kfs k1) e j m) → r ∉ R →
    based R K (kmem k) (kmem k1) r (kernel_layout (free_ram_end (kmem k))) → wp (rest (r * 4096)) Q Rp k1) →
  (∀ k', starved R K (kmem k) (kmem k') USER_BASE → Rp k') → (∀ k', cache_full (kfs k) → kfs k' = kfs k → Rp k') →
  wp (upd_proc i (set_ofile (replicate NUM_FILES_PER_PROCESS None));;
    open_console i;; inherit_cwd i;;
    page_table ← in_mem (alloc_pages 1);
    in_mem (map_kernel page_table);; in_mem (map_mmio page_table);; rest page_table) Q Rp k.
Proof using HK Hvm Hc Hpc Hst Hci Hp Hempty.
  intros Hrest HR HC. destruct Hempty as [Ecwd Eof]. apply wp_bind. eapply upd_proc_wp; [exact Hp|].
  assert (set_procs (<[i := set_ofile (replicate NUM_FILES_PER_PROCESS None) p]>) k = k) as ->.
  { rewrite <-Eof. destruct k as [? ? ps]. unfold set_procs. cbn in *. f_equal. apply list_insert_id. rewrite Hp. by destruct p. }
  apply wp_bind. eapply open_console_wp; [exact HK|exact Hp|done|]. cbv zeta. intros ft l K1 Hstd Hfiles.
  assert (i < length (procs k))%nat as Hi by by eapply lookup_lt_Some.
  apply wp_bind. eapply (inherit_cwd_wp _ A c i pc); [exact K1|done|cbn; by rewrite list_lookup_insert_ne|exact Hst| | | |].
  { cbn. by apply list_lookup_insert_eq. }
  { done. }
  2: { intros Hf. by apply HC. }
  cbv zeta. intros j b s' Hcd K2 Hst2 Hpin.
  set (k1 := set_procs (<[i := set_cwd (Some j) b (set_ofile l p)]>) (set_kfs s' (set_procs (<[i := set_ofile l p]>) (set_file_table (λ _, ft) k)))) in *.
  assert (inherits k k1 A i (set_cwd (Some j) b (set_ofile l p)) x w) as Hin.
  { split; try done. cbn. by rewrite list_insert_insert_eq. }
  apply wp_bind, wp_in_mem. change (kmem k1) with (kmem k).
  eapply wp_mono; [by apply new_root_wp| |intros m' Hf; apply HR; by apply starved_stuck]. intros pa m1 (r & -> & Hr & HB1).
  apply wp_bind, wp_in_mem. change (kmem (set_kmem m1 k1)) with m1.
  eapply wp_mono; [by apply map_kernel_wp| |intros m' Hf; by apply HR]. intros [] m2 HB2.
  apply wp_bind, wp_in_mem. change (kmem (set_kmem m2 (set_kmem m1 k1))) with m2.
  eapply wp_mono; [by apply map_mmio_wp| |intros m' Hf; by apply HR]. intros [] m3 HB3.
  apply (Hrest r _ (set_cwd (Some j) b (set_ofile l p))); [by do 3 apply kinv_mem| |done|done|done|done].
  destruct Hin as [I1 I2 I3 I4 I5 I6]. by split.
Qed.

(** The path names the same place for the process table with the new slot. *)
Lemma names_prepared k1 p1 path o : kinv k1 A [] [] → inherits k k1 A i p1 x w →
  (∀ j e m, pinned (kfs k) e j m → pinned (kfs k1) e j m) → names k1 A false path o → names k A false path o.
Proof using HK Hc Hpc Hci.
  intros K1 Hin Hpin (cw & y & Hy & (i' & pr & Hc1 & Hp1 & Ecw) & Eo).
  destruct (in_kinv_fs _ _ _ _ _ _ _ Hin) as [f Ef]. destruct (in_rest _ _ _ _ _ _ _ Hin) as (E1 & _).
  assert (i' = c) as -> by congruence. rewrite (in_procs _ _ _ _ _ _ _ Hin), list_lookup_insert_ne in Hp1 by done.
  assert (pr = pc) as -> by congruence. exists cw, y. split; [|split; [by exists c, pc|]].
  - destruct cw as [j|], y as [y|]; try done. cbn in *. destruct Hy as [Hd Hy]. split; [done|].
    destruct (nodes_pinned (kfs k) j (ki_nodes _ _ _ _ HK)) as (d & n & Hn & Hp2).
    + rewrite (ki_irefs _ _ _ _ HK). pose proof (total_member (cwd_holds j) _ _ _ (cwd_holds_nonneg j) Hpc) as Hm.
      unfold cwd_holds at 1 in Hm. rewrite decide_True in Hm by done.
      pose proof (total_nonneg (file_holds j) (file_table k) (file_holds_nonneg j)). pose proof (occ_nonneg j []). lia.
    + by destruct (pinned_inj _ _ _ _ _ _ Hy (Hpin _ _ _ Hp2)) as [-> ->].
  - rewrite Eo, Ef. clear. generalize (start y path). induction (comps path) as [|cc cs IH]; intros z; [done|]. cbn.
    destruct (is_dir A z); [|done]. cbn. f_equal.
Qed.
End prepare.

(** ** A program from a file *)

Lemma bytes_content s d x : devs_ok s → dev_valid d → bytes (content s d x).
Proof.
  intros Hs Hd. unfold content, frange. apply Forall_fmap, Forall_forall. intros j _. unfold compose, fbyte.
  destruct (fblk_ok s d (pv s d (k_addrs x) (leaf ((0 + Z.of_nat j) / BSIZE))) Hs Hd) as [Hl Hb].
  eapply Forall_lookup_total_1; [exact Hb|]. rewrite Hl. unfold BSIZE. pose proof (Z.mod_pos_bound (0 + Z.of_nat j) 1024). lia.
Qed.

Lemma loads_file k A j d n : tree (kfs k) A → dev_valid d → held (kfs k) d j n → k_type (A d n) ≠ FT_UNUSED →
  loads k None (Some j) (content (kfs k) d (A d n)).
Proof.
  intros T Hd Hh Hty. pose proof (te_fsys _ _ T d Hd) as HF. cbn. intros off m Q R Hoff Hm Hle HQ.
  pose proof (fsys_size _ _ _ HF n (proj1 Hh)) as Hsz. consts.
  rewrite length_content in Hle. eapply (readi_held_wp _ d (A d) j n); [done|done|lia|lia|].
  unfold read_spec. rewrite length_content, Z2Nat.id by lia.
  rewrite (proj2 (Z.eqb_neq _ _) Hty), (gtb_false off), (geb_false (off + m)) by lia. cbn [orb].
  rewrite Z.min_l by lia. done.
Qed.

Lemma namei_pinned k A X Y p r : kinv k A X Y → nonzero p →
  wp (c ← process_cwd; in_fs (namei c (p ++ 0 :: r)))
    (λ _ k', ∀ j e m, pinned (kfs k) e j m → pinned (kfs k') e j m) (λ _, True) k.
Proof.
  intros K Hp. apply wp_bind. destruct (ki_cur _ _ _ _ K) as (ci & pr & Hci & Hpr).
  eapply process_cwd_wp; [exact K|done|done|]. intros x Hx. apply wp_in_fs.
  eapply namei_wp; [apply K|done|done| |done]. intros q s' Ha. cbn [set_kfs kfs].
  unfold arrives in Ha. destruct (resolve _ _ _ _ _), q; try done; apply Ha.
Qed.

(** [namei], with what it leaves alone. *)
Lemma kinv_namei_pinned k A X Y p r (Q : ptr → kernel → Prop) (R : kernel → Prop) : kinv k A X Y → nonzero p →
  (∀ o s', cached (kfs k) s' → (∀ j e m, pinned (kfs k) e j m → pinned s' e j m) →
     match o with
     | Some j => ∃ y, names k A false p (Some y) ∧ kinv (set_kfs s' k) A (j :: X) Y ∧ dev_valid y.1 ∧ pinned s' y.1 j y.2
     | None => names k A false p None ∧ kinv (set_kfs s' k) A X Y
     end → Q o (set_kfs s' k)) →
  (∀ s', cache_full s' → R (set_kfs s' k)) →
  wp (c ← process_cwd; in_fs (namei c (p ++ 0 :: r))) Q R k.
Proof.
  intros K Hp HQ HR. eapply wp_conseq.
  { apply wp_and; [|by eapply namei_pinned].
    eapply (kinv_namei k A X Y p r (λ o k', ∃ s', k' = set_kfs s' k ∧ cached (kfs k) s' ∧
      match o with
      | Some j => ∃ y, names k A false p (Some y) ∧ kinv (set_kfs s' k) A (j :: X) Y ∧ dev_valid y.1 ∧ pinned s' y.1 j y.2
      | None => names k A false p None ∧ kinv (set_kfs s' k) A X Y
      end)); [done|done|..|done].
    - intros s' Hn Hcd K'. by exists s'.
    - intros y j s' Hn Hcd K' Hd Hpin. exists s'. split; [done|]. split; [done|]. by exists y. }
  intros o k' [(s' & -> & Hcd & Ho) Hpin]. by apply HQ.
Qed.

(** The working directory of a process is pinned as long as its slot says so. *)
Lemma cwd_live k A X Y i p j : kinv k A X Y → procs k !! i = Some p → cwd p = Some j → 0 < iref (kfs k) j.
Proof.
  intros K Hp Ej. rewrite (ki_irefs _ _ _ _ K). pose proof (total_member (cwd_holds j) _ _ _ (cwd_holds_nonneg j) Hp) as Hm.
  unfold cwd_holds at 1 in Hm. rewrite decide_True in Hm by done.
  pose proof (total_nonneg (file_holds j) (file_table k) (file_holds_nonneg j)). pose proof (occ_nonneg j X). lia.
Qed.

(** [inherits] over a step that leaves the tables alone. *)
Lemma inherits_step k k1 k2 A X Y i p1 p2 x w : inherits k k1 A i p1 x w → kinv k2 A X Y → (i < length (procs k))%nat →
  cached (kfs k1) (kfs k2) → (∀ j d n, 0 < iref (kfs k2) j → pinned (kfs k1) d j n → pinned (kfs k2) d j n) →
  procs k2 = <[i := p2]> (procs k1) → cwd p2 = cwd p1 → cwd_path p2 = cwd_path p1 → ofile p2 = ofile p1 →
  file_table k2 = file_table k1 → current_proc k2 = current_proc k1 → idle_proc k2 = idle_proc k1 → kcon k2 = kcon k1 →
  inherits k k2 A i p2 x w.
Proof.
  intros [I1 I2 (I3 & I3' & I3'') I4 I5 [I6 I7]] K2 Hi Hcd Hpin Ep Ec Ecp Eo Ef E1 E2 E3. split.
  - by eapply cached_trans.
  - by rewrite Ep, I2, list_insert_insert_eq.
  - split_and!; congruence.
  - by rewrite Ef.
  - by rewrite Ef, Eo.
  - rewrite Ec. split; [|done]. unfold stands in *. rewrite Ec, Ecp. destruct I7 as [j Ej]. rewrite Ej in *.
    destruct I6 as [Hp Hb]. split; [|done]. apply Hpin; [|done].
    eapply (cwd_live k2 A X Y i p2); [done| |by rewrite Ec]. rewrite Ep. apply list_lookup_insert_eq. by rewrite I2, length_insert.
Qed.

Section file.
Context (user_entry : Z) {k : kernel} {A : Z → Z → ikey} {R K : gset Z} {c i : nat} {pc p : Process} {x : Z * Z} {w : list Z}.
Context (HK : kinv k A [] []) (Hvm : vm_ok (kmem k) R K).
Context (Hc : current_proc k = Some c) (Hpc : procs k !! c = Some pc) (Hst : stands (kfs k) pc x w) (Hci : c ≠ i).
Context (Hp : procs k !! i = Some p) (Hempty : slot_empty p) (Hfree : proc_free (procs k) = Some i).
Context {path : list Z} {args : list (list Z)} (Hpath : nonzero path).
Local Abbreviation argv := ((path ++ [0]) :: args).
(** The file is a program whose last page has room for the arguments. *)
Context (Hfile : ∀ d n, names k A false path (Some (d, n)) → k_type (A d n) ≠ FT_UNUSED ∧
  args_room (k_size (A d n)) argv).

(** The program was not found: nothing runs, and slot [i] keeps what it was given. *)
Definition not_found (k' : kernel) : Prop :=
  (names k A false path None) ∧ ∃ p', kinv k' A [] [] ∧ inherits k k' A i p' x w ∧ p_state p' = p_state p.

(** Process [i] runs the program. *)
Definition spawned (k' : kernel) : Prop :=
  ∃ d n r p', names k A false path (Some (d, n)) ∧ kinv k' A [] [] ∧ inherits k k' A i p' x w ∧
  runs R K (kmem k) (kmem k') user_entry i (content (kfs k) d (A d n)) argv r (args_sp (k_size (A d n)) argv) p'.

Lemma create_file_wp :
  wp (create_process user_entry None 0 (Z.of_nat (length argv)) (Some argv))
  (λ o k', match o with None => not_found k' | Some i' => i' = i ∧ spawned k' end)
  (λ k', full (kmem k') ∨ cache_full (kfs k')) k.
Proof using HK Hvm Hc Hpc Hst Hci Hp Hempty Hfree Hpath Hfile.
  unfold create_process. apply wp_bind, wp_gets. rewrite Hfree.
  assert ((Z.of_nat (length argv) >? 0) = true) as Egt by (apply gtb_true; cbn; lia). rewrite Egt, orb_true_r.
  assert (i < length (procs k))%nat as Hi by by eapply lookup_lt_Some.
  eapply (prepare_wp HK Hvm Hc Hpc Hst Hci Hp Hempty); [|intros k' [Hf _]; by left|intros k' Hf E; right; by rewrite E].
  intros r k1 p1 K1 Hin Hstate Hpin Hr HB. pose proof (λ o, names_prepared HK Hc Hpc Hci k1 p1 path o K1 Hin Hpin) as Hnames.
  assert (procs k1 !! i = Some p1) as Hp1 by (rewrite (in_procs _ _ _ _ _ _ _ Hin); by apply list_lookup_insert_eq).
  assert (<[i := p1]> (procs k1) = procs k1) as Eins by by apply list_insert_id.
  apply wp_bind, wp_bind. eapply wp_expect; [done|]. apply wp_then.
  eapply kinv_namei_pinned; [exact K1|exact Hpath| |by intros s' Hf; right]. intros [j|] s' Hcd Hpin1.
  2: { (* not found *)
    intros [Hn K2]. apply wp_bind, wp_in_mem.
  assert (managed (kmem k1) r) as Hmg by (apply (holds_managed (ba_vm _ _ _ _ _ _ HB) (Root r)); split; [apply root_in|done]).
  apply free_page_wp; [apply (ba_vm _ _ _ _ _ _ HB)|done|]. do 2 apply wp_ret. split; [by apply Hnames|]. exists p1.
  apply (kinv_mem _ _ _ _ (release r (kmem k1))) in K2. split; [exact K2|]. split; [|done].
  eapply (inherits_step k k1); [exact Hin|exact K2|done|done|cbn; intros; by apply Hpin1|by rewrite Eins|done..]. }
  intros ([d n] & Hn & K2 & Hd & Hpj). cbn [fst snd] in *. apply Hnames in Hn. destruct (Hfile d n Hn) as [Hty Hroom].
  (* found *)
  pose proof (te_fsys _ _ (ki_tree _ _ _ _ HK) d Hd) as HF.
  assert (inode_ok (kfs k) d n) as Hok.
  { destruct (in_kinv_fs _ _ _ _ _ _ _ Hin) as [f1 Ef1]. destruct Hcd as [f2 Ef2]. destruct Hpj as [Hok _]. by rewrite Ef2, Ef1 in Hok. }
  pose proof (fsys_size _ _ _ HF n Hok) as Hsz. consts.
  apply wp_bind, wp_in_fs_bind, wp_bind. eapply kinv_ilock; [exact K2|exact Hd|exact Hpj|]. intros s2 Hcd2 K3 Hh3 _ Hpin3.
  apply wp_in_fs_bind, wp_bind. eapply kinv_deref; [exact K3|exact Hd|exact Hh3|]. intros ip _ _ Hk.
  apply wp_in_fs, wp_ret, wp_ret. cbn iota. assert (size (din ip) = k_size (A d n)) as -> by (by rewrite <-Hk).
  set (k3 := set_kfs s2 (set_kfs s' k1)) in *. assert (set_kfs (kfs k3) k3 = k3) as -> by done.
  assert (content (kfs k3) d (A d n) = content (kfs k) d (A d n)) as Ec.
  { transitivity (content (kfs k1) d (A d n)); [|by apply cached_content, Hin]. apply cached_content. by eapply cached_trans. }
  set (prog := content (kfs k) d (A d n)) in *.
  assert (Z.of_nat (length prog) = k_size (A d n)) as El by (unfold prog; rewrite length_content; lia).
  rewrite (u32_small (k_size (A d n))) by lia. rewrite <-El in *.
  pose proof (finish_wp user_entry (k := k3) (A := A) (R := R) (K := K) (m0 := kmem k) (r := r) (i := i) (p := p1)
    (image := None) (ip := Some j) (prog := prog) (args := Some argv) K3 Hp1 Hvm Hr HB) as Hfin.
  apply Hfin; clear Hfin.
  - unfold prog. apply bytes_content; [|done]. apply (wf_devs _ _ _ (rep_wf _ _ _ _ (fsys_rep _ _ _ HF))).
  - unfold USER_BASE, DEVICES. lia.
  - rewrite <-Ec. apply loads_file; [apply K3|done|done|done].
  - exact Hroom.
  - done.
  - intros s4 m4 p4 Hcd4 K4 Hpin4 Hrun E1 E2 E3. split; [done|]. exists d, n, r, p4. split; [done|]. split; [exact K4|]. split.
    + eapply (inherits_step k k1); [exact Hin|exact K4|done| | |done|done|done|done|done..].
      * cbn. eapply cached_trans; [exact Hcd|]. eapply cached_trans; [exact Hcd2|exact Hcd4].
      * cbn. intros j' e m Hj' Hpin'. apply Hpin4; [done|]. apply Hpin3. by apply Hpin1.
    + by rewrite <-El.
  - intros k' [Hf _]. by left.
Qed.
End file.
