(* ===== verification/Spawn.v ===== *)
(** * Starting programs

    [spawn_process]: the command line is split into words, the first word names
    the program, and all of them are its arguments. *)

From S2P Require Import Prelude CLib FsTypes Block Inode FsInv FsAlloc FsMap FsGrow FsFile FsWrite.
From S2P Require Import FsTrunc FsCache Sample Dir DirSpec FsRef Namei Path FsSpec KState FdTable FdInv FdSteps FdFile FdPath.
From S2P Require Import Page UserMem Process Syscall PageMem PageTable UserSpec HeapSpec MemSpec Layout Args ProcSpec.

(** ** Words *)

Definition SPACE : Z := 32.

(** A text cut at its spaces. *)
Fixpoint split_on (l : list Z) : list (list Z) :=
  match l with
  | [] => [[]]
  | c :: l => if c =? SPACE then [] :: split_on l
              else match split_on l with w :: ws => (c :: w) :: ws | [] => [[c]] end
  end.
Definition words (l : list Z) : list (list Z) := filter (λ w, w ≠ []) (split_on l).

Lemma words_space l : words (SPACE :: l) = words l.
Proof. done. Qed.

Lemma split_word_app w l : SPACE ∉ w → split_on (w ++ SPACE :: l) = w :: split_on l.
Proof.
  induction w as [|c w IH]; [done|]. intros [Hc Hw]%not_elem_of_cons. cbn [app split_on]. rewrite IH by done.
  by rewrite (proj2 (Z.eqb_neq c SPACE)) by done.
Qed.

Lemma split_word_end w : SPACE ∉ w → split_on w = [w].
Proof.
  induction w as [|c w IH]; [done|]. intros [Hc Hw]%not_elem_of_cons. cbn [split_on]. rewrite IH by done.
  by rewrite (proj2 (Z.eqb_neq c SPACE)) by done.
Qed.

Lemma words_cons w l : w ≠ [] → SPACE ∉ w → words (w ++ SPACE :: l) = w :: words l.
Proof. intros Hne Hw. unfold words. rewrite split_word_app by done. by rewrite filter_cons_True. Qed.

Lemma words_last w : w ≠ [] → SPACE ∉ w → words w = [w].
Proof. intros Hne Hw. unfold words. rewrite split_word_end by done. by rewrite filter_cons_True. Qed.

Lemma skip_spaces_spec l : nonzero l → ∃ l', skip_spaces (l ++ [0]) = l' ++ [0] ∧ nonzero l' ∧ words l' = words l ∧
  (length l' ≤ length l)%nat ∧ head l' ≠ Some SPACE.
Proof.
  induction 1 as [|c l Hc Hl IH]; [exists []; split_and!; [done|constructor|done|done|done]|]. cbn [app skip_spaces]. change 32 with SPACE. destruct (Z.eqb_spec c SPACE) as [->|Hne].
  - destruct IH as (l' & E & Hn & Hw & Hlen & Hh). exists l'. split; [done|]. split; [done|]. rewrite words_space. split; [done|]. split; [cbn; lia|done].
  - exists (c :: l). split; [done|]. split; [by constructor|]. split; [done|]. split; [done|]. cbn. congruence.
Qed.

Lemma split_word_spec l : nonzero l → ∃ w r, split_word (l ++ [0]) = (w, r ++ [0]) ∧ l = w ++ r ∧ (SPACE ∉ w) ∧
  (r = [] ∨ head r = Some SPACE).
Proof.
  induction 1 as [|c l Hc Hl IH].
  - exists [], []. split; [done|]. split; [done|]. split; [apply not_elem_of_nil|by left].
  - cbn [app split_word]. rewrite (proj2 (Z.eqb_neq c 0)) by lia. change 32 with SPACE. cbn [orb].
    destruct (Z.eqb_spec c SPACE) as [->|Hne].
    + exists [], (SPACE :: l). split; [done|]. split; [done|]. split; [apply not_elem_of_nil|by right].
    + destruct IH as (w & r & E & -> & Hw & Hr). exists (c :: w), r. rewrite E. split; [done|]. split; [done|].
      split; [|done]. apply not_elem_of_cons. split; [congruence|done].
Qed.

Lemma nonzero_words l : nonzero l → Forall (λ w, nonzero w ∧ w ≠ []) (words l).
Proof.
  intros Hl. apply Forall_forall. intros w [Hne Hw]%list_elem_of_filter. split; [|done]. revert w Hne Hw.
  induction Hl as [|c l Hc Hl IH]; intros w Hne Hw.
  - by apply list_elem_of_singleton in Hw as ->.
  - cbn [split_on] in Hw. destruct (c =? SPACE).
    + apply elem_of_cons in Hw as [->|Hw]; [done|by apply IH].
    + destruct (split_on l) as [|w0 ws]; [apply list_elem_of_singleton in Hw as ->; constructor; [done|constructor]|].
      apply elem_of_cons in Hw as [->|Hw]; [|apply IH; [done|by right]]. constructor; [done|].
      destruct w0 as [|b w0]; [constructor|]. apply (IH (b :: w0)); [done|by left].
Qed.

(** The arguments are the first words, each with its terminator. *)
Lemma split_args_words n l : nonzero l → split_args n (l ++ [0]) = (λ w, w ++ [0]) <$> take n (words l).
Proof.
  revert l. induction n as [|n IH]; intros l Hl; [done|]. cbn [split_args].
  destruct (skip_spaces_spec l Hl) as (l1 & -> & Hl1 & <- & _ & Hh).
  destruct l1 as [|c l1]; [done|]. pose proof Hl1 as Hl1'. inversion Hl1 as [|? ? Hc Hl2]; subst.
  cbn [app]. rewrite (proj2 (Z.eqb_neq c 0)) by lia. change (c :: l1 ++ [0]) with ((c :: l1) ++ [0]).
  destruct (split_word_spec (c :: l1) Hl1') as (w & r & -> & E & Hw & Hr).
  assert (w ≠ []) as Hne by (intros ->; destruct Hr as [->|Hr]; [done|]; cbn in E; subst r; done).
  rewrite E. destruct Hr as [->|Hr].
  - rewrite app_nil_r, words_last by done. cbn. by rewrite take_nil.
  - destruct r as [|b r]; [done|]. injection Hr as ->. rewrite words_cons by done. cbn [app]. change (SPACE =? 32) with true. cbn iota.
    rewrite IH; [done|]. rewrite E in Hl1'. apply Forall_app in Hl1' as [_ Hr]. by inversion Hr.
Qed.

(** The arguments of a command line: at most 16 words of its first 127 bytes. *)
Definition arguments (line : list Z) : list (list Z) := (λ w, w ++ [0]) <$> take 16 (words (take 127 line)).

Lemma arguments_ok line : nonzero line → Forall cstring (arguments line) ∧ (length (arguments line) ≤ 16)%nat.
Proof.
  intros Hl. unfold arguments. split.
  - apply Forall_fmap, Forall_take. eapply Forall_impl; [apply nonzero_words; by apply Forall_take|].
    intros w [Hw _]. by exists w.
  - rewrite length_fmap, length_take. lia.
Qed.

Lemma spawn_args line rest user_entry k (Q : Z → kernel → Prop) R : nonzero line →
  wp (let argv := arguments line in let argc := Z.of_nat (length argv) in
      if argc =? 0 then mret (-1) else
      p ← create_process user_entry None 0 argc (Some argv);
      match p with None => mret (-1) | Some i => x ← proc i; mret (pid x) end) Q R k →
  wp (spawn_process user_entry (line ++ 0 :: rest)) Q R k.
Proof.
  intros Hl HQ. unfold spawn_process. apply wp_bind. eapply wp_expect; [by apply strlen_spec|].
  assert (take (if (128 <=? length line)%nat then 127 else length line) (line ++ 0 :: rest) = take 127 line) as ->.
  { destruct (Nat.leb_spec 128 (length line)).
    - by rewrite take_app_le by lia.
    - rewrite take_app_length. by rewrite take_ge by lia. }
  rewrite split_args_words by (by apply Forall_take). exact HQ.
Qed.

(** ** The theorem *)

(** C8: [spawn_process] splits the command line into words (at most 16, of the
    first 127 bytes). With no word it returns -1 and changes nothing. When the
    first word names no file it returns -1 and no process runs. Otherwise it
    returns the pid of the process in the first free slot: a runnable process in an
    address space of its own that holds the program at [USER_BASE], the kernel and
    the devices out of its reach, and an empty heap behind the program; its
    registers and stack hold argc and argv, argv[j] points to word j and
    argv[argc] is NULL; it has the console as standard files and starts in the
    directory of its creator. Reference counts stay exact, and no other address
    space, open file or process changes. It panics only when memory or the inode
    cache is full. *)
Theorem spawn_refines user_entry k A R K c i pc p x w line rest :
  kinv k A [] [] → vm_ok (kmem k) R K → current_proc k = Some c → procs k !! c = Some pc → p_state pc ≠ PROCSTATE_UNUSED →
  stands (kfs k) pc x w → proc_free (procs k) = Some i → procs k !! i = Some p → slot_empty p → nonzero line →
  (∀ path args d n, arguments line = (path ++ [0]) :: args → names k A false path (Some (d, n)) →
     k_type (A d n) ≠ FT_UNUSED ∧ args_room (k_size (A d n)) (arguments line)) →
  (∃ v k', spawn_process user_entry (line ++ 0 :: rest) k = Ok v k' ∧
     match words (take 127 line) with
     | [] => v = -1 ∧ k' = k
     | path :: _ => (v = -1 ∧ not_found (k := k) (A := A) (i := i) (p := p) (x := x) (w := w) (path := path) k') ∨
         (v = Z.of_nat i + 1 ∧ spawned user_entry (k := k) (A := A) (R := R) (K := K) (i := i) (x := x) (w := w)
            (path := path) (args := tail (arguments line)) k')
     end) ∨
  (∃ k', spawn_process user_entry (line ++ 0 :: rest) k = Panic k' ∧ (full (kmem k') ∨ cache_full (kfs k'))).
Proof.
  intros HK Hvm Hc Hpc Halive Hst Hfree Hp Hempty Hl Hfile. apply wp_iff, spawn_args; [done|]. cbv zeta.
  pose proof (nonzero_words (take 127 line) ltac:(by apply Forall_take)) as Hw.
  destruct (words (take 127 line)) as [|path ws] eqn:Ew.
  { unfold arguments. rewrite Ew. by apply wp_ret. }
  inversion Hw as [|? ? [Hpath _] _]; subst.
  assert (arguments line = (path ++ [0]) :: tail (arguments line)) as Ea by (unfold arguments; by rewrite Ew).
  assert (c ≠ i) as Hci.
  { intros ->. unfold proc_free in Hfree. apply fmap_Some in Hfree as ([i' p'] & Hf & ->). apply list_find_Some in Hf as (H1 & H2 & _).
    cbn in *. congruence. }
  rewrite (proj2 (Z.eqb_neq _ 0)) by (rewrite Ea; cbn; lia). apply wp_bind. rewrite Ea at 1 2.
  eapply wp_mono; [apply (create_file_wp user_entry HK Hvm Hc Hpc Hst Hci Hp Hempty Hfree Hpath)| |done].
  { intros d n Hn. rewrite <-Ea. eapply Hfile; [exact Ea|done]. }
  intros [i'|] k'; [|intros Hn; apply wp_ret; by left].
  intros [-> Hs]. destruct Hs as (d & n & r & p' & Hn & K' & Hin & Hrun). apply wp_bind.
  eapply (proc_wp k' i p').
  { rewrite (in_procs _ _ _ _ _ _ _ Hin). apply list_lookup_insert_eq. by eapply lookup_lt_Some. }
  apply wp_ret. right. split; [apply Hrun|]. by exists d, n, r, p'.
Qed.

(** A kernel whose only process may spawn "/home/f", a program of 64 bytes. *)
Definition prog_disk : disk :=
  sample_disk [dinode_zero; dnode_dir 96 4; dnode_file 64 5]
    [dir_block [(1, c_dot); (1, c_dotdot); (2, c_f)]; replicate 64 19] 63.
Definition prog_fs : fs :=
  Fs [sample_disk0; prog_disk] [sample_sb; sample_sb] (replicate NINODE inode_zero) [Mount 0 2 1; mount_zero] 1.
Definition prog_kernel : kernel :=
  Kernel prog_fs (replicate GLOBAL_OPEN_FILE_LIMIT file_zero) [set_p_state PROCSTATE_RUNNABLE process_zero; process_zero]
    (Some 0%nat) None empty_mem (Console [] []).

Lemma prog_tree : tree prog_fs (on_disk prog_fs).
Proof. apply small_tree_tree, (bool_decide_unpack _). vm_compute. done. Qed.

(** A kernel without open files and working directories, whose inode cache holds no
    references. *)
Lemma unused_kinv k c p : tree (kfs k) (on_disk (kfs k)) → (∀ j, iref (kfs k) j = 0) →
  file_table k = replicate GLOBAL_OPEN_FILE_LIMIT file_zero → Forall slot_empty (procs k) →
  current_proc k = Some c → procs k !! c = Some p → kinv k (on_disk (kfs k)) [] [].
Proof.
  intros T Ei Ef Hs Hc Hp.
  assert (∀ j, total (cwd_holds j) (procs k) = 0) as H1.
  { intros j. clear -Hs. revert Hs. generalize (procs k). induction 1 as [|q l [Eq _] _ IH]; [done|]. cbn [total]. unfold cwd_holds at 1. rewrite Eq. rewrite decide_False by done. lia. }
  assert (∀ j, total (fd_holds j) (procs k) = 0) as H2.
  { intros j. clear -Hs. revert Hs. generalize (procs k). induction 1 as [|q l [_ Eq] _ IH]; [done|]. cbn [total]. unfold fd_holds at 1. rewrite Eq, total_replicate by done. lia. }
  constructor.
  - done.
  - intros j ip Hj Hr. specialize (Ei j). unfold iref in Ei. rewrite Hj in Ei. lia.
  - intros j. by rewrite H1, Ef, total_replicate, Ei by done.
  - intros i f Hf. rewrite Ef in Hf. apply lookup_replicate in Hf as [-> _]. rewrite H2. done.
  - intros i f Hf Hr. rewrite Ef in Hf. apply lookup_replicate in Hf as [-> _]. done.
  - intros c' q Hq. destruct (proj1 (Forall_lookup _ _) Hs c' q Hq) as [_ Eq]. rewrite Eq. split; [done|].
    intros fd i Hfd. apply lookup_replicate in Hfd as [? _]. done.
  - by exists c, p.
Qed.

Lemma quiet_kinv k c p : tree (kfs k) (on_disk (kfs k)) → inode_table (kfs k) = replicate NINODE inode_zero →
  file_table k = replicate GLOBAL_OPEN_FILE_LIMIT file_zero → Forall slot_empty (procs k) →
  current_proc k = Some c → procs k !! c = Some p → kinv k (on_disk (kfs k)) [] [].
Proof.
  intros T Ei. apply unused_kinv; [done|]. intros j. unfold iref. rewrite Ei.
  destruct (replicate NINODE inode_zero !! j) as [ip|] eqn:E; [|done]. by apply lookup_replicate in E as [-> _].
Qed.

(** "/home/f x" *)
Definition prog_line : list Z := path_home_f ++ [SPACE; 120].

Lemma spawn_refines_witness :
  (∃ k', spawn_process 0 (prog_line ++ [0]) prog_kernel = Ok 2 k' ∧
     spawned 0 (k := prog_kernel) (A := on_disk prog_fs) (R := ∅) (K := ∅) (i := 1%nat) (x := (0, 1)) (w := [SLASH])
       (path := path_home_f) (args := [[120; 0]]) k') ∨
  (∃ k', spawn_process 0 (prog_line ++ [0]) prog_kernel = Panic k' ∧ (full (kmem k') ∨ cache_full (kfs k'))).
Proof.
  assert (nonzero prog_line) as Hl by (repeat constructor; lia).
  assert (∀ o, names prog_kernel (on_disk prog_fs) false path_home_f o → o = Some (1, 2)) as Hn.
  { intros o (cw & y & Hy & (i & pr & Hi & Hpr & <-) & ->). injection Hi as <-. injection Hpr as <-. destruct y as [y|]; [destruct Hy|].
    vm_compute. reflexivity. }
  assert (arguments prog_line = [path_home_f ++ [0]; [120; 0]]) as Ea by (vm_compute; reflexivity).
  destruct (spawn_refines 0 prog_kernel (on_disk prog_fs) ∅ ∅ 0 1 (set_p_state PROCSTATE_RUNNABLE process_zero) process_zero
    (0, 1) [SLASH] prog_line []) as [(v & k' & E & Hres)|Hp].
  - apply (quiet_kinv prog_kernel 0 (set_p_state PROCSTATE_RUNNABLE process_zero)); [apply prog_tree|reflexivity|reflexivity| |reflexivity|reflexivity].
    constructor; [split; reflexivity|]. constructor; [split; reflexivity|constructor].
  - exact empty_vm.
  - reflexivity.
  - reflexivity.
  - discriminate.
  - split; reflexivity.
  - vm_compute. reflexivity.
  - reflexivity.
  - split; reflexivity.
  - exact Hl.
  - intros path args d n E Hnm. rewrite Ea in *. injection E as E <-. apply (app_inj_tail path_home_f path 0 0) in E as [<- _].
    apply Hn in Hnm as [= -> ->]. split; [vm_compute; discriminate|].
    assert (k_size (on_disk prog_fs 1 2) = 64) as -> by (vm_compute; reflexivity).
    split; [lia|]. split; [discriminate|]. split; [cbn; lia|]. split; [|vm_compute; discriminate].
    constructor; [exists path_home_f; split; [reflexivity|repeat constructor; lia]|].
    constructor; [exists [120]; split; [reflexivity|repeat constructor; lia]|constructor].
  - left. assert (words (take 127 prog_line) = [path_home_f; [120]]) as Ew by (vm_compute; reflexivity).
    rewrite Ew, Ea in Hres. destruct Hres as [(_ & Hnone & _)|[-> Hs]]; [by apply Hn in Hnone|]. exists k'. split; [exact E|exact Hs].
  - right. exact Hp.
Defined.

(** A command line whose program does not exist leaves a mark: [spawn_process]
    returns -1, but the slot that stays free keeps the reference to the directory
    it was given (and its console files), which the next process in that slot
    overwrites. *)
Theorem failed_spawn_leaks user_entry k A R K c i pc p x w path :
  kinv k A [] [] → vm_ok (kmem k) R K → current_proc k = Some c → procs k !! c = Some pc → p_state pc ≠ PROCSTATE_UNUSED →
  stands (kfs k) pc x w → proc_free (procs k) = Some i → procs k !! i = Some p → slot_empty p →
  nonzero path → words path = [path] → (length path ≤ 127)%nat → (∀ y, ¬ names k A false path (Some y)) →
  (∃ k' p', spawn_process user_entry (path ++ [0]) k = Ok (-1) k' ∧ procs k' !! i = Some p' ∧
     p_state p' = p_state p ∧ ¬ slot_empty p' ∧ proc_free (procs k') = Some i) ∨
  (∃ k', spawn_process user_entry (path ++ [0]) k = Panic k' ∧ (full (kmem k') ∨ cache_full (kfs k'))).
Proof.
  intros HK Hvm Hc Hpc Halive Hst Hfree Hp Hempty Hpath Hw Hlen Hno.
  assert (arguments path = [path ++ [0]]) as Ea by (unfold arguments; by rewrite (take_ge path), Hw).
  pose proof Hfree as Hf. unfold proc_free in Hf. apply fmap_Some in Hf as ([i' p0] & Hf & ->).
  apply list_find_Some in Hf as (H1 & H2 & H3). cbn [fst] in *. assert (p0 = p) as -> by congruence.
  assert (c ≠ i') as Hci by (intros ->; congruence).
  assert (wp (spawn_process user_entry (path ++ [0])) (λ v k', v = -1 ∧ ∃ p', procs k' !! i' = Some p' ∧
     p_state p' = p_state p ∧ ¬ slot_empty p' ∧ proc_free (procs k') = Some i') (λ k', full (kmem k') ∨ cache_full (kfs k')) k) as Hwp.
  { apply (spawn_args path []); [done|]. rewrite Ea. cbv zeta. change (Z.of_nat (length [path ++ [0]]) =? 0) with false. cbn iota.
    apply wp_bind. eapply wp_mono; [apply (create_file_wp user_entry HK Hvm Hc Hpc Hst Hci Hp Hempty Hfree Hpath (args := []))| |done].
    { intros d n Hn. by destruct (Hno (d, n)). }
    intros [?|] k'; [by intros [_ (d0 & n0 & ? & ? & Hn & _)]; destruct (Hno (d0, n0))|].
    intros (_ & p' & _ & Hin & Es). apply wp_ret. split; [done|]. exists p'.
    assert (i' < length (procs k))%nat as Hi by by eapply lookup_lt_Some. rewrite (in_procs _ _ _ _ _ _ _ Hin).
    split; [by apply list_lookup_insert_eq|]. split; [done|]. split.
    - intros [E _]. destruct (in_cwd _ _ _ _ _ _ _ Hin) as [_ [j Ej]]. congruence.
    - unfold proc_free. replace (list_find _ _) with (Some (i', p')); [done|]. symmetry. apply list_find_Some.
      split; [by apply list_lookup_insert_eq|]. split; [congruence|]. intros j y Hy Hj.
      rewrite list_lookup_insert_ne in Hy by lia. by eapply H3. }
  apply wp_iff in Hwp as [(v & k' & E & -> & p' & H)|H]; [left; by exists k', p'|by right].
Qed.

(** "/x" on the same kernel. *)
Lemma failed_spawn_leaks_witness :
  (∃ k' p', spawn_process 0 ([SLASH; 120] ++ [0]) prog_kernel = Ok (-1) k' ∧ procs k' !! 1%nat = Some p' ∧
     p_state p' = PROCSTATE_UNUSED ∧ ¬ slot_empty p' ∧ proc_free (procs k') = Some 1%nat) ∨
  (∃ k', spawn_process 0 ([SLASH; 120] ++ [0]) prog_kernel = Panic k' ∧ (full (kmem k') ∨ cache_full (kfs k'))).
Proof.
  apply (failed_spawn_leaks 0 prog_kernel (on_disk prog_fs) ∅ ∅ 0 1 (set_p_state PROCSTATE_RUNNABLE process_zero) process_zero
    (0, 1) [SLASH] [SLASH; 120]).
  - apply (quiet_kinv prog_kernel 0 (set_p_state PROCSTATE_RUNNABLE process_zero)); [apply prog_tree|reflexivity|reflexivity| |reflexivity|reflexivity].
    constructor; [split; reflexivity|]. constructor; [split; reflexivity|constructor].
  - exact empty_vm.
  - reflexivity.
  - reflexivity.
  - discriminate.
  - split; reflexivity.
  - vm_compute. reflexivity.
  - reflexivity.
  - split; reflexivity.
  - repeat constructor; unfold SLASH; lia.
  - vm_compute. reflexivity.
  - cbn. lia.
  - intros y0 (cw & y & Hy & (i & pr & Hi & Hpr & <-) & E). injection Hi as <-. injection Hpr as <-. destruct y as [y|]; [destruct Hy|].
    vm_compute in E. discriminate E.
Defined.
