(* ===== verification/Wait.v ===== *)
(** * The end of a process

    [wait_process] collects a process that has exited: [free_process_pages] closes
    its files, drops its directory and gives back exactly the pages of its
    address space; the slot is empty and free afterwards. *)

From S2P Require Import Prelude CLib FsTypes Block Inode FsInv FsAlloc FsMap FsGrow FsFile FsWrite.
From S2P Require Import FsTrunc FsCache Sample Dir DirSpec FsRef Namei Path FsSpec KState FdTable FdInv FdSteps FdFile FdPath.
From S2P Require Import Page UserMem Process Syscall PageMem PageTable UserSpec HeapSpec MemSpec Layout Args ProcSpec Spawn.

(** ** Closing the descriptors

    [file_close] neither reads nor writes the process table. *)
Lemma file_close_procs f g k :
  file_close f (set_procs g k) =
  match file_close f k with
  | Ok a k' => Ok a (set_procs g k') | Panic k' => Panic (set_procs g k') | Fault => Fault | Hang => Hang
  end.
Proof.
  destruct f as [j|]; [|done]. unfold file_close, file, upd_file, in_fs, zoom, gets, modify, expect, panic, mbind, M_bind, mret, M_ret.
  cbn [set_procs file_table kfs set_file_table]. destruct (file_table k !! j) as [x|]; [|done].
  destruct (f_ref x <=? 0); [done|]. destruct (f_ref x - 1 =? 0); [|done].
  destruct (f_ip x) as [q|]; [|done]. cbn [set_procs file_table kfs set_file_table]. by destruct (iput (Some q) (kfs k)).
Qed.

Lemma file_close_shape f k a k' : file_close f k = Ok a k' →
  k' = set_kfs (kfs k') (set_file_table (λ _, file_table k') k).
Proof.
  destruct f as [j|]; [|intros [= _ <-]; by destruct k].
  unfold file_close, file, upd_file, in_fs, zoom, gets, modify, expect, panic, mbind, M_bind, mret, M_ret.
  destruct (file_table k !! j) as [x|]; [|done]. destruct (f_ref x <=? 0); [done|].
  destruct (f_ref x - 1 =? 0); [|by intros [= _ <-]]. destruct (f_ip x) as [q|]; [|by intros [= _ <-]].
  cbn [set_file_table kfs]. destruct (iput (Some q) (kfs k)); [|done..]. by intros [= _ <-].
Qed.

Lemma wp_run_and {S B} (m : M S B) (Q P : B → S → Prop) R s :
  wp m Q R s → (∀ a s', m s = Ok a s' → P a s') → wp m (λ a s', Q a s' ∧ P a s') R s.
Proof. unfold wp. destruct (m s); [|done..]. intros HQ HP. split; [done|by apply HP]. Qed.

Lemma close_then_wp f i h (Q : unit → kernel → Prop) R k :
  wp (file_close f) (λ _ k', Q tt k') (λ _, False) (set_procs (alter h i) k) →
  wp (file_close f;; upd_proc i h) Q R k.
Proof.
  unfold wp, mbind, M_bind. rewrite file_close_procs. destruct (file_close f k) as [[] k'| | |]; done.
Qed.

Section close.
Context {A : Z → Z → ikey} {i : nat}.

(** What closing descriptors does to the rest of the kernel. *)
Definition closed (k k' : kernel) (p' : Process) : Prop :=
  kinv k' A [] [] ∧ cached (kfs k) (kfs k') ∧
  k' = set_procs (<[i := p']>) (set_kfs (kfs k') (set_file_table (λ _, file_table k') k)).

Lemma close_files_wp n fd k p (Q : unit → kernel → Prop) R : kinv k A [] [] → procs k !! i = Some p →
  (fd + n = NUM_FILES_PER_PROCESS)%nat → (∀ x, (x < fd)%nat → ofile p !! x = Some None) →
  (∀ k', closed k k' (set_ofile (replicate NUM_FILES_PER_PROCESS None) p) → Q tt k') →
  wp (close_files i fd n) Q R k.
Proof using.
  revert fd k p. induction n as [|n IH]; intros fd k p HK Hp Hfd Hdone HQ; cbn [close_files].
  - apply wp_ret, HQ. assert (replicate NUM_FILES_PER_PROCESS None = ofile p) as ->.
    { apply list_eq. intros x. pose proof (proj1 (ki_fds _ _ _ _ HK i p Hp)) as Hl. destruct (decide (x < NUM_FILES_PER_PROCESS)%nat).
      - rewrite lookup_replicate_2, Hdone by lia. done.
      - rewrite !lookup_ge_None_2; [done|lia|rewrite length_replicate; lia]. }
    split; [done|]. split; [apply cached_refl|]. assert (set_ofile (ofile p) p = p) as -> by by destruct p.
    destruct k. unfold set_procs, set_kfs, set_file_table. cbn in *. f_equal. symmetry. by apply list_insert_id.
  - apply wp_bind. eapply proc_wp; [exact Hp|]. destruct (ki_fds _ _ _ _ HK i p Hp) as [Hl Hlt].
    destruct (lookup_lt_is_Some_2 (ofile p) fd ltac:(lia)) as [f Hf]. apply wp_bind. eapply wp_expect; [exact Hf|].
    destruct f as [j|].
    2: { apply wp_bind, wp_ret. apply (IH (S fd) k p); [done|done|lia| |done].
         intros x Hx. destruct (decide (x = fd)) as [->|]; [done|]. apply Hdone. lia. }
    apply wp_bind, close_then_wp.
    rewrite (set_procs_alter k i p) by done. set (p1 := set_ofile (<[fd := None]> (ofile p)) p).
    assert (kinv (set_procs (<[i := p1]>) k) A [] [j]) as K1.
    { eapply (kinv_proc k A [] [] [] [j] i p p1); [done|done|done| | |].
      - intros x. unfold p1. rewrite (fd_holds_insert x p fd (Some j) None Hf), occ_cons. change (occ x []) with 0.
        rewrite (decide_ext (Some j = Some x) (j = x)) by (split; congruence). rewrite (decide_False (P := None = Some x)) by done. lia.
      - unfold p1. cbn [set_ofile ofile]. by rewrite length_insert.
      - unfold p1. cbn [set_ofile ofile]. intros x y Hx. destruct (decide (x = fd)) as [->|Hne].
        + rewrite list_lookup_insert_eq in Hx by lia. done.
        + rewrite list_lookup_insert_ne in Hx by done. by apply (Hlt x). }
    eapply wp_conseq.
    { apply wp_run_and; [|apply file_close_shape].
      eapply (file_close_wp _ A [] [] j (λ _ k', kinv k' A [] [] ∧ cached (kfs k) (kfs k'))); [exact K1|apply (Hlt fd j Hf)|].
      intros k' K' Hcd _ _ _ _. split; [done|]. exact Hcd. }
    intros [] k2 [[K2 Hcd] E2]. apply (IH (S fd) k2 p1); [done| |lia| |].
    + rewrite E2. cbn. apply list_lookup_insert_eq. by eapply lookup_lt_Some.
    + unfold p1. cbn [set_ofile ofile]. intros x Hx. destruct (decide (x = fd)) as [->|Hne].
      * apply list_lookup_insert_eq. lia.
      * rewrite list_lookup_insert_ne by done. apply Hdone. lia.
    + intros k3 (K3 & Hcd3 & E3). apply HQ. split; [done|]. split; [by eapply cached_trans|].
      rewrite E3 at 1. rewrite E2. unfold set_procs, set_kfs, set_file_table. cbn. f_equal. by rewrite list_insert_insert_eq.
Qed.
End close.

(** ** Freeing a process *)

Lemma in_fs_then_wp {B} (m : M fs B) i h (Q : unit → kernel → Prop) R k :
  wp (in_fs m) (λ _ k', Q tt k') (λ _, False) (set_procs (alter h i) k) → wp (in_fs m;; upd_proc i h) Q R k.
Proof. unfold wp, in_fs, zoom, mbind, M_bind. cbn [set_procs kfs]. by destruct (m (kfs k)). Qed.

(** Slot [i] is empty; the pages of address space [r] are free again, and nothing
    else of the kernel changed but the reference counts of what was given up. *)
Record reaped (k k' : kernel) (A : Z → Z → ikey) (R K : gset Z) (r : Z) (i : nat) (p' : Process) : Prop := {
  rp_kinv : kinv k' A [] [];
  rp_fs : cached (kfs k) (kfs k');
  rp_vm : vm_ok (kmem k') (R ∖ {[r]}) K;
  rp_freed : freed (kmem k) (kmem k') (space_holds (m := kmem k) (R := R) (K := K) (r := r));
  rp_slot : slot_empty p' ∧ page_table p' = 0;
  rp_procs : procs k' = <[i := p']> (procs k);
  rp_rest : current_proc k' = current_proc k ∧ idle_proc k' = idle_proc k ∧ kcon k' = kcon k
}.

Section reap.
Context {k : kernel} {A : Z → Z → ikey} {R K : gset Z} {r : Z} {i : nat} {p : Process}.
Context (HK : kinv k A [] []) (Hvm : vm_ok (kmem k) R K) (Hr : r ∈ R).
Context (Hp : procs k !! i = Some p) (Ht : page_table p = r * 4096).

Lemma drop_cwd_wp (Q : unit → kernel → Prop) Rp :
  (∀ s', let k' := set_procs (<[i := set_cwd None (cwd_path p) p]>) (set_kfs s' k) in
    cached (kfs k) s' → kinv k' A [] [] → Q tt k') →
  wp (match cwd p with
      | Some _ => in_fs (iput (cwd p));; upd_proc i (λ p, set_cwd None (cwd_path p) p)
      | None => mret tt
      end) Q Rp k.
Proof using HK Hp.
  intros HQ. destruct (cwd p) as [j|] eqn:Ej.
  - apply in_fs_then_wp. rewrite (set_procs_alter k i p) by done. set (p1 := set_cwd None (cwd_path p) p) in *.
    assert (kinv (set_procs (<[i := p1]>) k) A [j] []) as K1.
    { eapply (kinv_proc k A [] [] [j] [] i p p1); [done|done| |done|apply (ki_fds _ _ _ _ HK i p Hp)|apply (ki_fds _ _ _ _ HK i p Hp)].
      intros x. unfold cwd_holds, p1. cbn [set_cwd cwd]. rewrite Ej, occ_cons. change (occ x []) with 0.
      repeat case_decide; simplify_eq; lia. }
    eapply kinv_iput; [exact K1|]. intros s' Hcd K' _. by apply HQ.
  - apply wp_ret. assert (set_procs (<[i := set_cwd None (cwd_path p) p]>) (set_kfs (kfs k) k) = k) as E.
    { clear -Hp Ej. destruct k. unfold set_procs, set_kfs. cbn in *. f_equal. apply list_insert_id. rewrite Hp. f_equal. destruct p. cbn in *. by subst. }
    specialize (HQ (kfs k)). cbv zeta in HQ. rewrite E in HQ. by apply HQ; [apply cached_refl|].
Qed.

Lemma free_process_pages_wp (Q : unit → kernel → Prop) Rp :
  (∀ k' p', reaped k k' A R K r i p' → p_state p' = p_state p → pid p' = pid p → Q tt k') → wp (free_process_pages i) Q Rp k.
Proof using HK Hvm Hr Hp Ht.
  intros HQ. unfold free_process_pages. assert (i < length (procs k))%nat as Hi by by eapply lookup_lt_Some.
  apply wp_bind. eapply proc_wp; [exact Hp|]. apply wp_bind, drop_cwd_wp. cbv zeta. intros s' Hcd K1.
  apply wp_bind. eapply close_files_wp; [exact K1|cbn; by apply list_lookup_insert_eq|done|lia|]. intros k2 (K2 & Hcd2 & E2).
  set (p2 := set_ofile (replicate NUM_FILES_PER_PROCESS None) (set_cwd None (cwd_path p) p)) in *.
  assert (procs k2 !! i = Some p2) as Hp2 by (rewrite E2; cbn; apply list_lookup_insert_eq; by rewrite length_insert).
  assert (kmem k2 = kmem k) as Em by (by rewrite E2).
  apply wp_bind. eapply proc_wp; [exact Hp2|]. cbv zeta. change (page_table p2) with (page_table p). rewrite Ht.
  assert (managed (kmem k) r) as Hmg by (apply (holds_managed Hvm (Root r)); by split).
  pose proof (managed_range _ _ (vm_mem Hvm) Hmg) as [Hlo _]. unfold KERNEL_BASE in Hlo.
  rewrite (proj2 (Z.eqb_neq (r * 4096) 0)) by lia.
  pose proof (free_space_wp Hvm Hr) as Hw. rewrite <-Em in Hw. apply wp_bind_inv in Hw.
  apply wp_bind, wp_in_mem. eapply wp_mono; [exact Hw| |done]. intros [] m1 Hw1.
  apply wp_bind, wp_in_mem. eapply wp_mono; [exact Hw1| |done]. intros [] m2 [Hvm2 Hfr].
  eapply upd_proc_wp; [cbn; exact Hp2|]. cbn [set_kmem kmem]. apply (HQ _ (set_page_table 0 p2)); [|done|done]. split.
  - eapply (kinv_proc _ A [] [] [] [] i p2); [by do 2 apply kinv_mem|cbn; exact Hp2|done|done|apply (ki_fds _ _ _ _ K2 i p2 Hp2)|apply (ki_fds _ _ _ _ K2 i p2 Hp2)].
  - cbn. by eapply cached_trans.
  - exact Hvm2.
  - rewrite Em in Hfr. exact Hfr.
  - done.
  - cbn. rewrite E2. cbn. by rewrite !list_insert_insert_eq.
  - cbn. rewrite E2. done.
Qed.
End reap.

(** C9: [wait_process] on a pid that no process has returns -1 and changes nothing.
    On a process that has exited it returns 0 without giving up the processor:
    the files and the directory of the process are closed, exactly the pages that
    its address space holds are released, its slot is free and empty, and the
    reference counts stay exact; the rest of the kernel is as it was. *)
Theorem wait_reaps others rounds k A R K r i p n :
  kinv k A [] [] → vm_ok (kmem k) R K → r ∈ R → proc_with_pid n (procs k) = Some i → procs k !! i = Some p →
  p_state p = PROCSTATE_EXITED → page_table p = r * 4096 →
  (∃ k' p', wait_process others rounds n k = Ok 0 k' ∧ reaped k k' A R K r i p' ∧ p_state p' = PROCSTATE_UNUSED) ∧
  ∀ n', proc_with_pid n' (procs k) = None → wait_process others rounds n' k = Ok (-1) k.
Proof.
  intros HK Hvm Hr Hpid Hp Hst Ht. split.
  2: { intros n' Hn. unfold wait_process, gets, mbind, M_bind. by rewrite Hn. }
  assert (wp (wait_process others rounds n)
    (λ v k', v = 0 ∧ ∃ p', reaped k k' A R K r i p' ∧ p_state p' = PROCSTATE_UNUSED) (λ _, False) k) as Hw.
  { unfold wait_process. apply wp_bind, wp_gets. rewrite Hpid. cbn [loop]. apply wp_bind, wp_bind, wp_gets. rewrite Hpid.
    apply wp_bind. eapply proc_wp; [exact Hp|]. rewrite Hst. rewrite bool_decide_eq_true_2 by done.
    apply wp_bind. eapply (free_process_pages_wp HK Hvm Hr Hp Ht). intros k1 p1 [I1 I2 I3 I4 [I5 I5'] I6 I7] _ _.
    assert (i < length (procs k))%nat as Hi by by eapply lookup_lt_Some.
    assert (procs k1 !! i = Some p1) as Hp1 by (rewrite I6; by apply list_lookup_insert_eq).
    apply wp_bind. eapply upd_proc_wp; [exact Hp1|]. do 2 apply wp_ret. split; [done|]. exists (set_p_state PROCSTATE_UNUSED p1).
    split; [|done]. split; try done.
    - eapply (kinv_proc k1 A [] [] [] [] i p1); [done|done|done|done|apply (ki_fds _ _ _ _ I1 i p1 Hp1)|apply (ki_fds _ _ _ _ I1 i p1 Hp1)].
    - cbn. by rewrite I6, list_insert_insert_eq. }
  apply wp_iff in Hw as [(v & k' & E & -> & p' & H)|(? & _ & [])]. exists k', p'. by split.
Qed.

(** Process 2 has exited and left an address space of one page. *)
Definition exited_process : Process :=
  mkProcess 2 PROCSTATE_EXITED 0 (zeros 13) (ROOT * 4096) None 0 0 (replicate NUM_FILES_PER_PROCESS None) (zeros 16) (zeros 256).
Definition exited_kernel : kernel :=
  Kernel prog_fs (replicate GLOBAL_OPEN_FILE_LIMIT file_zero) [set_p_state PROCSTATE_RUNNABLE process_zero; exited_process]
    (Some 0%nat) None space0 (Console [] []).

Lemma wait_reaps_witness :
  (∃ k' p', wait_process (λ _, mret tt) 0 2 exited_kernel = Ok 0 k' ∧
     reaped exited_kernel k' (on_disk prog_fs) {[ROOT]} ∅ ROOT 1 p' ∧ p_state p' = PROCSTATE_UNUSED) ∧
  wait_process (λ _, mret tt) 0 7 exited_kernel = Ok (-1) exited_kernel.
Proof.
  destruct (wait_reaps (λ _, mret tt) 0 exited_kernel (on_disk prog_fs) {[ROOT]} ∅ ROOT 1 exited_process 2) as [H1 H2].
  - apply (quiet_kinv exited_kernel 0 (set_p_state PROCSTATE_RUNNABLE process_zero)); [apply prog_tree|reflexivity|reflexivity| |reflexivity|reflexivity].
    constructor; [split; reflexivity|]. constructor; [split; reflexivity|constructor].
  - exact space0_vm.
  - apply elem_of_singleton. reflexivity.
  - vm_compute. reflexivity.
  - reflexivity.
  - reflexivity.
  - reflexivity.
  - split; [exact H1|]. apply H2. vm_compute. reflexivity.
Defined.
