(* ===== verification/Mkfs.v ===== *)
(** * The disk image builder: definitions

    tools/mkfs.c. The staging directory of the host is a value of type [hostdir],
    in the order in which readdir returns its entries; a file that cannot be
    opened, a directory that cannot, and an entry for which stat fails are
    values too. Strings are their
    characters, without the terminator. [exit(1)] is a panic. [junk] and
    [junk_block] are what the stack holds in variables that the code does not
    initialise: the rest of the name of an entry, and the first buffer of a file. *)

From S2P Require Import Prelude FsTypes Block.

Definition DISK_SIZE_BLOCKS : Z := 8192.
Definition MAX_PATH_LEN : nat := 256.
Definition NO_INDEX : Z := 4294967295.

(** ** The host *)

Inductive host :=
| HFile (data : option (list Z))
| HDir (opened : bool) (l : hostdir)
| HOther
| HGone
with hostdir :=
| HEnd
| HEntry (name : list Z) (h : host) (rest : hostdir).

(** ** State *)

Record mkfs_dir := MkfsDir { md_inum : Z; md_path : list Z; entries : list fsdirent }.

(** [image] is the array [disk]; [file_inodes] the array of main; [dirs] holds
    [num_dirs] elements and [entries] [entry_count]. *)
Record mkfs := Mkfs {
  image : disk;
  free_bitmap : list Z;
  freeblock : Z;
  freeinode : Z;
  dirs : list mkfs_dir;
  file_inodes : list dinode
}.

Definition set_image (f : disk → disk) (s : mkfs) : mkfs :=
  Mkfs (f (image s)) (free_bitmap s) (freeblock s) (freeinode s) (dirs s) (file_inodes s).
Definition set_free_bitmap (f : list Z → list Z) (s : mkfs) : mkfs :=
  Mkfs (image s) (f (free_bitmap s)) (freeblock s) (freeinode s) (dirs s) (file_inodes s).
Definition set_freeblock (b : Z) (s : mkfs) : mkfs :=
  Mkfs (image s) (free_bitmap s) b (freeinode s) (dirs s) (file_inodes s).
Definition set_freeinode (n : Z) (s : mkfs) : mkfs :=
  Mkfs (image s) (free_bitmap s) (freeblock s) n (dirs s) (file_inodes s).
Definition set_dirs (f : list mkfs_dir → list mkfs_dir) (s : mkfs) : mkfs :=
  Mkfs (image s) (free_bitmap s) (freeblock s) (freeinode s) (f (dirs s)) (file_inodes s).
Definition set_file_inodes (f : list dinode → list dinode) (s : mkfs) : mkfs :=
  Mkfs (image s) (free_bitmap s) (freeblock s) (freeinode s) (dirs s) (f (file_inodes s)).

(** Access to [file_inodes[n]]. *)
Definition file_inode (n : Z) : M mkfs dinode := l ← gets file_inodes; expect (zlookup l n).
Definition upd_file_inode (n : Z) (f : dinode → dinode) : M mkfs unit :=
  _ ← file_inode n; modify (set_file_inodes (zupdate n f)).

(** ** Blocks *)

Definition mark_allocated (block : Z) : M mkfs unit :=
  l ← gets free_bitmap;
  _ ← expect (zlookup l (block / 8));
  modify (set_free_bitmap (zupdate (block / 8) (λ y, Z.lor y (Z.shiftl 1 (block mod 8))))).

Definition balloc : M mkfs Z :=
  b ← gets freeblock;
  if b >=? DISK_SIZE_BLOCKS then panic else
  modify (set_freeblock (b + 1));;
  mark_allocated b;;
  mret b.

Definition write_block (block : Z) (buf : list Z) : M mkfs unit :=
  if (0 <=? block) && (block <? DISK_SIZE_BLOCKS) then modify (set_image (set_blk block buf)) else fault.

Section junk.
Variable junk : Z → list Z → list Z.
Variable junk_block : Z → list Z.

(** ** Directories *)

(** A directory entry on the stack: [strcpy] writes the name and its terminator
    and leaves the rest. *)
Definition new_dirent (n : Z) (name : list Z) : fsdirent :=
  Dirent (u16 n) (name ++ 0 :: drop (length name + 1) (junk n name)).

(** [strrchr(path, '/')]: what is in front of the last slash, and behind it. *)
Fixpoint last_slash (l : list Z) : option (list Z * list Z) :=
  match l with
  | [] => None
  | c :: l' =>
      match last_slash l' with
      | Some (a, b) => Some (c :: a, b)
      | None => if c =? 47 then Some ([], l') else None
      end
  end.

Definition split_path (path : list Z) : list Z * list Z :=
  match last_slash path with Some p => p | None => ([], path) end.

(** [dirs[i].inum == inum]: the entry goes into the first such directory. *)
Definition add_entry (dir_inum inum : Z) (name : list Z) : M mkfs unit :=
  ds ← gets dirs;
  match list_find (λ d, md_inum d = dir_inum) ds with
  | None => panic
  | Some (i, d) =>
      if (64 <=? length (entries d))%nat then panic else
      modify (set_dirs (alter (λ d, MkfsDir (md_inum d) (md_path d) (entries d ++ [new_dirent inum name])) i))
  end.

(** The next inode number, with [type] and an empty contents. *)
Definition new_inode (type : Z) : M mkfs Z :=
  n ← gets freeinode;
  modify (set_freeinode (n + 1));;
  if n >=? MAX_DIR_ENTRIES then panic else
  upd_file_inode n (λ ip, Dinode type (major ip) (minor ip) 1 0 (addrs ip) (d_pad ip));;
  mret n.

Fixpoint get_or_create_dir (fuel : nat) (dir_path : list Z) : M mkfs Z :=
  match fuel with
  | O => hang
  | S fuel =>
      if bool_decide (dir_path = []) then mret 1 else
      ds ← gets dirs;
      match list_find (λ d, md_path d = dir_path) ds with
      | Some (_, d) => mret (md_inum d)
      | None =>
          let '(parent_path, dir_name) := split_path dir_path in
          if DIRSIZ <=? Z.of_nat (length dir_name) then panic else
          parent_inum ← get_or_create_dir fuel parent_path;
          inum ← new_inode FT_DIRECTORY;
          ds ← gets dirs;
          if (64 <=? length ds)%nat then fault else
          modify (set_dirs (λ l, l ++ [MkfsDir inum dir_path [new_dirent inum [46]; new_dirent parent_inum [46; 46]]]));;
          add_entry parent_inum inum dir_name;;
          mret inum
      end
  end.

(** ** Files *)

(** The local variables of [add_file]. *)
Record locals := Locals {
  block_index : Z;
  indirect_block : Z;
  indirect_addrs : list Z;
  dindirect_addrs : list Z;
  dsub_addrs : list Z;
  active_d_idx : Z;
  file_buf : list Z
  }.

Definition locals_zero (inum : Z) : locals :=
  Locals 0 0 (zeros 256) (zeros 256) (zeros 256) NO_INDEX (junk_block inum).

(** The part of the loop that records data block [db] of inode [inum]. *)
Definition record_block (inum db : Z) (v : locals) : M mkfs locals :=
  if block_index v <? NDIRECT then
    upd_file_inode inum (set_addr (block_index v) db);;
    mret v
  else if block_index v - NDIRECT <? NINDIRECT then
         v ← (if indirect_block v =? 0 then
                b ← balloc;
                upd_file_inode inum (set_addr NDIRECT b);;
                mret (Locals (block_index v) b (zeros 256) (dindirect_addrs v) (dsub_addrs v) (active_d_idx v) (file_buf v))
              else mret v);
         mret (Locals (block_index v) (indirect_block v) (<[Z.to_nat (block_index v - NDIRECT) := db]> (indirect_addrs v))
           (dindirect_addrs v) (dsub_addrs v) (active_d_idx v) (file_buf v))
       else
  let dfbn := block_index v - NDIRECT - NINDIRECT in
  if dfbn >=? NDINDIRECT then panic else
  let d_idx := dfbn / NINDIRECT in
  let i_idx := dfbn mod NINDIRECT in
  ip ← file_inode inum;
  top ← expect (zlookup (addrs ip) (NDIRECT + 1));
  v ← (if top =? 0 then
         b ← balloc;
         upd_file_inode inum (set_addr (NDIRECT + 1) b);;
         mret (Locals (block_index v) (indirect_block v) (indirect_addrs v) (zeros 256) (dsub_addrs v) (active_d_idx v) (file_buf v))
       else mret v);
  v ← (if negb (d_idx =? active_d_idx v) then
         (if negb (active_d_idx v =? NO_INDEX) then
            sub ← expect (zlookup (dindirect_addrs v) (active_d_idx v));
            if negb (sub =? 0) then write_block sub (unwords (dsub_addrs v)) else mret tt
          else mret tt);;
         sub ← expect (zlookup (dindirect_addrs v) d_idx);
         tbl ← (if sub =? 0 then b ← balloc; mret (<[Z.to_nat d_idx := b]> (dindirect_addrs v)) else mret (dindirect_addrs v));
         mret (Locals (block_index v) (indirect_block v) (indirect_addrs v) tbl (zeros 256) d_idx (file_buf v))
       else mret v);
  mret (Locals (block_index v) (indirect_block v) (indirect_addrs v) (dindirect_addrs v)
    (<[Z.to_nat i_idx := db]> (dsub_addrs v)) (active_d_idx v) (file_buf v)).

(** One round of the loop: [n = fread(file_buf, 1, BSIZE, f)] and what follows. *)
Definition add_block (inum : Z) (st : list Z * locals) : M mkfs (list Z * locals + locals) :=
  let '(data, v) := st in
  let n := Nat.min 1024 (length data) in
  if (n =? 0)%nat then mret (inr v) else
  let buf := take n data ++ drop n (file_buf v) in
  db ← balloc;
  write_block db buf;;
  upd_file_inode inum (λ ip, set_size (u32 (size ip + Z.of_nat n)) ip);;
  v ← record_block inum db v;
  mret (inl (drop n data, Locals (block_index v + 1) (indirect_block v) (indirect_addrs v) (dindirect_addrs v)
    (dsub_addrs v) (active_d_idx v) (zeros 1024))).

(** The tables that are still in memory. *)
Definition flush_tables (inum : Z) (v : locals) : M mkfs unit :=
  (if negb (indirect_block v =? 0) then write_block (indirect_block v) (unwords (indirect_addrs v)) else mret tt);;
  ip ← file_inode inum;
  top ← expect (zlookup (addrs ip) (NDIRECT + 1));
  if negb (top =? 0) then
    write_block top (unwords (dindirect_addrs v));;
    if negb (active_d_idx v =? NO_INDEX) then
      sub ← expect (zlookup (dindirect_addrs v) (active_d_idx v));
      if negb (sub =? 0) then write_block sub (unwords (dsub_addrs v)) else mret tt
    else mret tt
  else mret tt.

Definition add_file (data : option (list Z)) (fs_path : list Z) : M mkfs unit :=
  let '(dir_part, file_part) := split_path fs_path in
  if (MAX_PATH_LEN <=? length dir_part)%nat then panic else
  if DIRSIZ <=? Z.of_nat (length file_part) then panic else
  match data with
  | None => panic
  | Some data =>
      inum ← new_inode FT_FILE;
      v ← loop (length data + 1) (add_block inum) (data, locals_zero inum);
      flush_tables inum v;;
      dir_inum ← get_or_create_dir (S (length dir_part)) dir_part;
      add_entry dir_inum inum file_part
  end.

(** ** The staging directory *)

(** [snprintf(next_fs, 256, "%s/%s", fs_path, name)] *)
Definition next_fs (fs_path name : list Z) : list Z :=
  take 255 (if bool_decide (fs_path = []) then name else fs_path ++ 47 :: name).

Fixpoint traverse_dir (fs_path : list Z) (d : hostdir) : M mkfs unit :=
  match d with
  | HEnd => mret tt
  | HEntry name h rest =>
      (if bool_decide (name = [46]) || bool_decide (name = [46; 46]) then mret tt else
        match h with
        | HDir opened d' =>
            get_or_create_dir (S (length (next_fs fs_path name))) (next_fs fs_path name);;
            (if opened then traverse_dir (next_fs fs_path name) d' else panic)
        | HFile data => add_file data (next_fs fs_path name)
        | HOther => mret tt
        | HGone => panic
        end);;
      traverse_dir fs_path rest
  end.

(** ** The image *)

Definition mkfs_sb : superblock :=
  Superblock XV6_FS_MAGIC DISK_SIZE_BLOCKS (DISK_SIZE_BLOCKS - 7) MAX_DIR_ENTRIES 2 6.

Definition pad_block (l : list Z) : list Z := take 1024 (l ++ zeros 1024).

(** The blocks of one directory, and its inode. *)
Definition write_dir (d : mkfs_dir) : M mkfs unit :=
  let data := concat (encode_dirent <$> entries d) in
  let dir_size_bytes := Z.of_nat (length (entries d)) * 32 in
  upd_file_inode (md_inum d) (set_size dir_size_bytes);;
  let dir_blocks_needed := (dir_size_bytes + BSIZE - 1) / BSIZE in
  if dir_blocks_needed >? NDIRECT then panic else
  loop (S (Z.to_nat dir_blocks_needed)) (λ block_idx,
    if block_idx <? dir_blocks_needed then
      db ← balloc;
      write_block db (pad_block (sub data (Z.to_nat (block_idx * BSIZE)) 1024));;
      upd_file_inode (md_inum d) (set_addr block_idx db);;
      mret (inl (block_idx + 1))
    else mret (inr tt)) 0.

Fixpoint for_each {A} (f : A → M mkfs unit) (l : list A) : M mkfs unit :=
  match l with [] => mret tt | x :: l => f x;; for_each f l end.

(** Inodes to block [block] of the inode area. *)
Definition write_inodes (block : Z) : M mkfs unit :=
  l ← gets file_inodes;
  write_block block (concat ((λ idx,
    let inum := (block - 2) * IPB + idx in
    if (1 <=? inum) && (inum <? MAX_DIR_ENTRIES) then encode_dinode (default dinode_zero (zlookup l inum)) else zeros 128)
    <$> seqZ 0 8)).

Definition mkfs_init : mkfs :=
  Mkfs (Disk 16384 ∅) (zeros 1024) 7 2 [] (replicate 64 dinode_zero).

(** [main]; [staging] is the directory of the command line, if there is one. *)
Definition mkfs_main (staging : option (bool * hostdir)) : M mkfs unit :=
  for_each mark_allocated (seqZ 0 7);;
  write_block 1 (pad_block (encode_superblock mkfs_sb));;
  upd_file_inode 1 (λ ip, Dinode FT_DIRECTORY (major ip) (minor ip) 1 0 (addrs ip) (d_pad ip));;
  modify (set_dirs (λ _, [MkfsDir 1 [] [new_dirent 1 [46]; new_dirent 1 [46; 46]]]));;
  (match staging with
   | Some (opened, d) => if opened then traverse_dir [] d else panic
   | None => mret tt
   end);;
  ds ← gets dirs;
  for_each write_dir ds;;
  for_each write_inodes (seqZ 2 4);;
  bm ← gets free_bitmap;
  write_block 6 bm.
End junk.
