(* ===== verification/MkfsInv.v ===== *)
(** * The disk image builder: blocks and pointer trees

    What the array [disk], the bitmap and the inodes in memory say while the
    image is being built: every block below [freeblock] is marked, none above
    it is, and the blocks of one file lie in a segment of their own. *)

From S2P Require Import Prelude FsTypes Block Inode FsInv FsAlloc FsMap Mkfs.

(** ** Pointers of an inode on a disk *)

Definition ent (dk : disk) (t j : Z) : Z := if t =? 0 then 0 else word_at (blk dk t) j.

Definition dpv (dk : disk) (a : list Z) (sl : slot) : Z :=
  match sl with
  | Root i => a !!! Z.to_nat i
  | Ind j => ent dk (a !!! Z.to_nat NDIRECT) j
  | DInd j => ent dk (a !!! Z.to_nat (NDIRECT + 1)) j
  | DLeaf j k => ent dk (ent dk (a !!! Z.to_nat (NDIRECT + 1)) j) k
  end.

Lemma pv_dpv s d a sl : pv s d a sl = dpv (disk_of s d) a sl.
Proof. by destruct sl. Qed.

(** A pointer tree whose blocks are distinct and lie in [lo, hi). *)
Definition seg (T : slot → Z) (lo hi : Z) : Prop :=
  (∀ sl, slot_ok sl → T sl ≠ 0 → lo ≤ T sl < hi) ∧
  (∀ sl sl', slot_ok sl → slot_ok sl' → T sl ≠ 0 → T sl = T sl' → sl = sl').

(** Exactly the pointers that [k] blocks take. *)
Definition mapped (T : slot → Z) (k : Z) : Prop :=
  (∀ bn, 0 ≤ bn < MAXFILE → T (leaf bn) ≠ 0 ↔ bn < k) ∧
  (T (Root NDIRECT) ≠ 0 ↔ NDIRECT < k) ∧
  (T (Root (NDIRECT + 1)) ≠ 0 ↔ NDIRECT + NINDIRECT < k) ∧
  (∀ j, 0 ≤ j < 256 → T (DInd j) ≠ 0 ↔ NDIRECT + NINDIRECT + NINDIRECT * j < k).

Lemma seg_ext T T' lo hi : (∀ sl, slot_ok sl → T' sl = T sl) → seg T lo hi → seg T' lo hi.
Proof.
  intros HE [Hr Hi]. split; [intros sl Hsl; rewrite HE by done; by apply Hr|].
  intros sl sl' Hsl Hsl'. rewrite !HE by done. by apply Hi.
Qed.

Lemma seg_weaken T lo hi hi' : hi ≤ hi' → seg T lo hi → seg T lo hi'.
Proof. intros Hle [Hr Hi]. split; [|done]. intros sl Hsl Hv. specialize (Hr sl Hsl Hv). lia. Qed.

(** One pointer is set to the next block. *)
Lemma seg_grow T T' sl lo hi :
  0 < lo ≤ hi → (∀ sl', slot_ok sl' → T' sl' = if decide (sl' = sl) then hi else T sl') →
  seg T lo hi → seg T' lo (hi + 1).
Proof.
  intros Hlo HE [Hr Hi]. split.
  - intros a Ha. rewrite HE by done. case_decide; [lia|]. intros Hv. specialize (Hr a Ha Hv). lia.
  - intros a b Ha Hb. rewrite !HE by done. repeat case_decide; subst; [done|..].
    + intros _ E. specialize (Hr b Hb). lia.
    + intros Hv E. specialize (Hr a Ha). lia.
    + by apply Hi.
Qed.

Lemma mapped_ext T T' k : (∀ sl, slot_ok sl → T' sl = T sl) → mapped T k → mapped T' k.
Proof.
  intros HE (H1 & H2 & H3 & H4). split_and!.
  - intros bn Hbn. rewrite HE by by apply leaf_ok. by apply H1.
  - by rewrite HE by (cbn; consts; lia).
  - by rewrite HE by (cbn; consts; lia).
  - intros j Hj. rewrite HE by done. by apply H4.
Qed.

Lemma dpv_zeros dk sl : slot_ok sl → dpv dk (zeros 14) sl = 0.
Proof.
  destruct sl as [i|j|j|j k]; cbn [dpv slot_ok]; intros H; [|done..].
  unfold zeros. apply lookup_total_replicate_2. lia.
Qed.

Lemma seg_zeros dk lo hi : seg (dpv dk (zeros 14)) lo hi.
Proof. split; intros sl; [|intros sl']; intros; by rewrite dpv_zeros in *. Qed.

Lemma mapped_zeros dk : mapped (dpv dk (zeros 14)) 0.
Proof.
  split_and!; intros; rewrite dpv_zeros; try (by apply leaf_ok); try done; cbn; consts; lia.
Qed.

(** Pointers into blocks that two disks share. *)
Lemma dpv_same dk dk' a lo hi sl :
  seg (dpv dk a) lo hi → (∀ b, lo ≤ b < hi → blk dk' b = blk dk b) → slot_ok sl →
  dpv dk' a sl = dpv dk a sl.
Proof.
  intros [Hr _] HB Hsl.
  assert (He : ∀ sl' j, slot_ok sl' → ent dk' (dpv dk a sl') j = ent dk (dpv dk a sl') j).
  { intros sl' j Hs. unfold ent. destruct (Z.eqb_spec (dpv dk a sl') 0); [done|].
    rewrite HB; [done|]. by apply Hr. }
  destruct sl as [i|j|j|j k]; cbn [dpv slot_ok] in *; [done|..].
  - apply (He (Root NDIRECT)). cbn. consts. lia.
  - apply (He (Root (NDIRECT + 1))). cbn. consts. lia.
  - pose proof (He (Root (NDIRECT + 1)) j ltac:(cbn; consts; lia)) as E1. cbn [dpv] in E1. rewrite E1.
    apply (He (DInd j)). cbn. lia.
Qed.

(** ** What does not depend on the files *)

Definition marked (bm : list Z) (b : Z) : bool := Z.testbit (bm !!! Z.to_nat (b / 8)) (b mod 8).

Record base (s : mkfs) : Prop := Base {
  ba_disk : disk_ok (image s);
  ba_sectors : sectors (image s) = 16384;
  ba_bm : block_buf (free_bitmap s);
  ba_range : 0 ≤ freeblock s ≤ 8192;
  ba_marked : ∀ b, 0 ≤ b < 8192 → marked (free_bitmap s) b = (b <? freeblock s)
}.

Lemma lor_byte y k : is_byte y → 0 ≤ k < 8 → is_byte (Z.lor y (Z.shiftl 1 k)).
Proof.
  unfold is_byte. intros Hy Hk. rewrite Z.shiftl_1_l. split.
  - apply Z.lor_nonneg. split; [lia|]. apply Z.pow_nonneg. lia.
  - destruct (Z.eq_dec (Z.lor y (2 ^ k)) 0) as [->|Hne]; [lia|].
    assert (0 < Z.lor y (2 ^ k)).
    { assert (0 ≤ Z.lor y (2 ^ k)); [|lia]. apply Z.lor_nonneg. split; [lia|]. apply Z.pow_nonneg. lia. }
    change 256 with (2 ^ 8). apply Z.log2_lt_pow2; [done|]. rewrite Z.log2_lor by (try apply Z.pow_nonneg; lia).
    apply Z.max_lub_lt; [|rewrite Z.log2_pow2; lia].
    destruct (Z.eq_dec y 0) as [->|]; [cbn; lia|]. apply Z.log2_lt_pow2; lia.
Qed.

Lemma byte_index b : 0 ≤ b < 8192 → 0 ≤ b / 8 < 1024 ∧ 0 ≤ b mod 8 < 8 ∧ b = 8 * (b / 8) + b mod 8.
Proof.
  intros. split; [split; [apply Z.div_pos|apply Z.div_lt_upper_bound]; lia|].
  split; [apply Z.mod_pos_bound; lia|]. apply Z.div_mod. lia.
Qed.

Lemma mark_wp s b (Q : unit → mkfs → Prop) R :
  block_buf (free_bitmap s) → 0 ≤ b < 8192 →
  (∀ bm, block_buf bm → (∀ b', 0 ≤ b' < 8192 →
     marked bm b' = if decide (b' = b) then true else marked (free_bitmap s) b') →
     Q tt (set_free_bitmap (λ _, bm) s)) →
  wp (mark_allocated b) Q R s.
Proof.
  intros [Hl Hby] Hb HQ. destruct (byte_index b Hb) as (Hi & Hm & Hd).
  unfold mark_allocated. wp_step. wp_step. wp_step.
  destruct (lookup_lt_is_Some_2 (free_bitmap s) (Z.to_nat (b / 8)) ltac:(lia)) as [y Hy].
  eapply wp_expect; [rewrite zlookup_nat by lia; exact Hy|]. wp_step.
  apply (HQ (zupdate (b / 8) (λ y, Z.lor y (Z.shiftl 1 (b mod 8))) (free_bitmap s))).
  - unfold zupdate. split; [by rewrite length_alter|]. apply Forall_alter; [done|].
    intros x Hx _. apply lor_byte; [|done]. by eapply Forall_lookup_1.
  - intros b' Hb'. destruct (byte_index b' Hb') as (Hi' & Hm' & Hd'). unfold marked, zupdate.
    destruct (decide (b' / 8 = b / 8)) as [E|E].
    + rewrite E. erewrite (list_lookup_total_correct (alter _ _ _)) by (rewrite list_lookup_alter_eq, Hy; done).
      rewrite (list_lookup_total_correct _ _ _ Hy), Z.lor_spec, Z.shiftl_spec by lia.
      case_decide as Eb.
      * subst b'. rewrite Z.sub_diag. by rewrite orb_true_r.
      * assert (Hne : b' mod 8 - b mod 8 ≠ 0) by lia.
        destruct (Z.ltb_spec (b' mod 8) (b mod 8)).
        -- by rewrite (Z.testbit_neg_r 1), orb_false_r by lia.
        -- by rewrite (Z.bits_above_log2 1), orb_false_r by (cbn; lia).
    + rewrite decide_False by congruence. rewrite !list_lookup_total_alt, list_lookup_alter_ne by lia. done.
Qed.

(** [balloc] takes the next block, or there is none. *)
Lemma mballoc_wp s (Q : Z → mkfs → Prop) (R : mkfs → Prop) :
  base s →
  (freeblock s < 8192 → ∀ bm, let s' := set_free_bitmap (λ _, bm) (set_freeblock (freeblock s + 1) s) in
     base s' → Q (freeblock s) s') →
  (freeblock s = 8192 → R s) →
  wp balloc Q R s.
Proof.
  intros B HQ HR. pose proof (ba_range _ B). unfold balloc, DISK_SIZE_BLOCKS. wp_step. wp_step.
  destruct (Z.geb_spec (freeblock s) 8192); [apply wp_panic, HR; lia|].
  wp_step. wp_step. wp_step. apply mark_wp; [apply B|lia|]. intros bm Hbm Hbits. wp_step.
  apply HQ; [lia|]. constructor; cbn; try apply B; [done|lia|]. intros b' Hb'. rewrite Hbits by done.
  cbn. rewrite (ba_marked _ B) by done. case_decide; repeat zcase; lia || done.
Qed.

Lemma mwrite_wp s b buf (Q : unit → mkfs → Prop) R :
  0 ≤ b < 8192 → Q tt (set_image (set_blk b buf) s) → wp (write_block b buf) Q R s.
Proof. intros Hb HQ. unfold write_block, DISK_SIZE_BLOCKS. zb. by wp_step. Qed.

Lemma base_write s b buf : base s → block_buf buf → base (set_image (set_blk b buf) s).
Proof. intros B Hb. constructor; cbn; try apply B. apply disk_ok_set_blk; [apply B|done]. Qed.
