(* ===== verification/MkfsFile.v ===== *)
(** * The disk image builder: storing a file

    [add_file] hands out blocks in order, so the place of every block and table
    of a file is known in closed form; the tables in memory and those already
    written together always describe the first [k] blocks of that layout. *)

From S2P Require Import Prelude FsTypes Block Inode FsInv FsAlloc FsMap Mkfs MkfsInv.

(** ** The layout *)

(** Blocks that [k] data blocks take with their tables. *)
Definition cost (k : Z) : Z :=
  k + (if 12 <? k then 1 else 0) + (if 268 <? k then 2 + (k - 269) / 256 else 0).

Definition layout (lo k : Z) (sl : slot) : Z :=
  match sl with
  | Root i =>
      if i <? 12 then (if i <? k then lo + i else 0)
      else if i =? 12 then (if 12 <? k then lo + 13 else 0)
      else (if 268 <? k then lo + 270 else 0)
  | Ind j => if 12 + j <? k then lo + (if j =? 0 then 12 else 13 + j) else 0
  | DInd j => if 268 + 256 * j <? k then lo + 271 + 257 * j else 0
  | DLeaf j i =>
      if 268 + 256 * j + i <? k then
        lo + (if i =? 0 then (if j =? 0 then 269 else 270 + 257 * j) else 271 + 257 * j + i)
      else 0
  end.

Lemma cost_mono k k' : 0 ≤ k ≤ k' → cost k ≤ cost k'.
Proof.
  intros H. unfold cost. assert ((k - 269) / 256 ≤ (k' - 269) / 256) by (apply Z.div_le_mono; lia).
  assert (268 < k' → 0 ≤ (k' - 269) / 256) by (intros; apply Z.div_pos; lia). repeat zcase; lia.
Qed.

(** Blocks of one round. *)
Definition round_cost (k : Z) : Z :=
  1 + (if k =? 12 then 1 else 0) + (if k =? 268 then 1 else 0)
    + (if (268 <=? k) && ((k - 268) mod 256 =? 0) then 1 else 0).

Lemma cost_step k : 0 ≤ k → cost (k + 1) = cost k + round_cost k.
Proof.
  intros Hk. unfold cost, round_cost.
  replace (k + 1 - 269) with (k - 268) by lia.
  assert (268 < k → (k - 268) / 256 = (k - 269) / 256 + if (k - 268) mod 256 =? 0 then 1 else 0) as E.
  { intros Hlt. pose proof (Z.div_mod (k - 268) 256). pose proof (Z.div_mod (k - 269) 256).
    pose proof (Z.mod_pos_bound (k - 268) 256). pose proof (Z.mod_pos_bound (k - 269) 256). zcase; lia. }
  destruct (decide (k = 268)) as [->|]; [by vm_compute|].
  destruct (decide (268 < k)); [rewrite E by done|]; zb; repeat zcase; lia.
Qed.

Lemma cost_lt k k' : 0 ≤ k < k' → cost k < cost k'.
Proof.
  intros H. pose proof (cost_mono (k + 1) k' ltac:(lia)). pose proof (cost_step k ltac:(lia)).
  assert (1 ≤ round_cost k) by (unfold round_cost; repeat zcase; lia). lia.
Qed.

Lemma cost_nonneg k : 0 ≤ k → 0 ≤ cost k.
Proof. intros. apply (cost_mono 0 k). lia. Qed.

Lemma layout_seg lo k : 0 < lo → 0 ≤ k → seg (layout lo k) lo (lo + cost k).
Proof.
  intros Hlo Hk. unfold cost.
  assert (268 < k → 0 ≤ (k - 269) / 256 ∧ 0 ≤ k - 269 - 256 * ((k - 269) / 256) < 256) as Hq.
  { intros. pose proof (Z.div_mod (k - 269) 256). pose proof (Z.mod_pos_bound (k - 269) 256).
    split; [apply Z.div_pos|]; lia. }
  set (q := (k - 269) / 256) in *. split.
  - intros [i|j|j|j i]; cbn [layout slot_ok]; repeat zcase; lia.
  - intros [i|j|j|j i] [i'|j'|j'|j' i']; cbn [layout slot_ok]; intros ? ?; repeat zcase; intros; try lia;
      f_equal; lia.
Qed.

Lemma layout_mapped lo k : 0 < lo → 0 ≤ k → mapped (layout lo k) k.
Proof.
  intros Hlo Hk. split_and!.
  - intros bn Hbn. unfold leaf. consts. repeat zcase; cbn [layout]; repeat zcase; try lia.
    all: pose proof (Z.div_mod (bn - 12 - 256) 256); pose proof (Z.mod_pos_bound (bn - 12 - 256) 256);
      pose proof (Z.div_pos (bn - 12 - 256) 256); lia.
  - consts. cbn [layout]. repeat zcase; lia.
  - consts. cbn [layout]. repeat zcase; lia.
  - intros j Hj. consts. cbn [layout]. repeat zcase; lia.
Qed.

(** ** Pointers whose tables are still in memory *)

Definition vpv (dk : disk) (a : list Z) (v : locals) (sl : slot) : Z :=
  match sl with
  | Root i => a !!! Z.to_nat i
  | Ind j => indirect_addrs v !!! Z.to_nat j
  | DInd j => dindirect_addrs v !!! Z.to_nat j
  | DLeaf j i =>
      if decide (j = active_d_idx v) then dsub_addrs v !!! Z.to_nat i
      else ent dk (dindirect_addrs v !!! Z.to_nat j) i
  end.

Lemma word_at_unwords ws (j : Z) :
  Forall (λ a, 0 ≤ a < 4294967296) ws → 0 ≤ j < Z.of_nat (length ws) →
  word_at (unwords ws) j = ws !!! Z.to_nat j.
Proof.
  intros Hw Hj. pose proof (words_lookup (length ws) (unwords ws) (Z.to_nat j) ltac:(lia)) as H.
  rewrite words_unwords, Z2Nat.id in H by (done || lia). symmetry. by apply list_lookup_total_correct.
Qed.

(** A table whose elements are pointers of a layout can be stored. *)
Lemma table_ok ws (f : Z → Z) lo hi :
  length ws = 256%nat → 0 ≤ lo → hi ≤ 8192 → (∀ j, 0 ≤ j < 256 → ws !!! Z.to_nat j = f j) →
  (∀ j, 0 ≤ j < 256 → f j ≠ 0 → lo ≤ f j < hi) →
  block_buf (unwords ws) ∧ ∀ j, 0 ≤ j < 256 → word_at (unwords ws) j = f j.
Proof.
  intros Hl Hlo Hhi Hf Hr. split; [split; [rewrite length_unwords; lia|apply bytes_unwords]|].
  intros j Hj. rewrite word_at_unwords, Hf; [done|done| |lia].
  apply Forall_lookup. intros i x Hi. pose proof (lookup_lt_Some _ _ _ Hi).
  specialize (Hf (Z.of_nat i) ltac:(lia)). rewrite Nat2Z.id, (list_lookup_total_correct _ _ _ Hi) in Hf.
  subst x. specialize (Hr (Z.of_nat i) ltac:(lia)). destruct (Z.eq_dec (f (Z.of_nat i)) 0); lia.
Qed.

(** ** Inodes in memory *)

#[export] Instance dinode_inhabited : Inhabited dinode := populate dinode_zero.

Definition ino (s : mkfs) (n : Z) : dinode := file_inodes s !!! Z.to_nat n.

Section inodes.
Context (s : mkfs) (n : Z) (Hl : length (file_inodes s) = 64%nat) (Hn : 0 ≤ n < 64).

Lemma ino_lookup : file_inodes s !! Z.to_nat n = Some (ino s n).
Proof using Hl Hn. apply list_lookup_lookup_total_lt. lia. Qed.

Lemma file_inode_wp (Q : dinode → mkfs → Prop) R : Q (ino s n) s → wp (file_inode n) Q R s.
Proof using Hl Hn.
  intros HQ. unfold file_inode. wp_step. wp_step. eapply wp_expect; [|exact HQ].
  rewrite zlookup_nat by lia. apply ino_lookup.
Qed.

Lemma upd_file_inode_wp f (Q : unit → mkfs → Prop) R :
  Q tt (set_file_inodes (zupdate n f) s) → wp (upd_file_inode n f) Q R s.
Proof using Hl Hn. intros HQ. unfold upd_file_inode. wp_step. apply file_inode_wp. by wp_step. Qed.

Lemma ino_upd f : ino (set_file_inodes (zupdate n f) s) n = f (ino s n).
Proof using Hl Hn.
  unfold ino at 1. cbn. apply list_lookup_total_correct. unfold zupdate.
  by rewrite list_lookup_alter_eq, ino_lookup.
Qed.

Lemma ino_upd_ne f m : 0 ≤ m → m ≠ n → ino (set_file_inodes (zupdate n f) s) m = ino s m.
Proof using Hl Hn.
  intros. unfold ino, zupdate. cbn. rewrite !list_lookup_total_alt, list_lookup_alter_ne by lia. done.
Qed.
End inodes.

(** ** Recording one block *)

(** The inodes other than [n], and the rest of the builder, stay as they are. *)
Record within (s s' : mkfs) (n : Z) : Prop := Within {
  wi_len : length (file_inodes s') = 64%nat;
  wi_other : ∀ m, 0 ≤ m → m ≠ n → ino s' m = ino s m;
  wi_next : freeinode s' = freeinode s;
  wi_dirs : dirs s' = dirs s
}.

Lemma within_refl s n : length (file_inodes s) = 64%nat → within s s n.
Proof. by constructor. Qed.

Lemma within_trans s1 s2 s3 n : within s1 s2 n → within s2 s3 n → within s1 s3 n.
Proof.
  intros [] []. constructor; [done| |congruence|congruence].
  intros m Hm Hne. rewrite wi_other1 by done. by apply wi_other0.
Qed.

Lemma within_upd s n f :
  length (file_inodes s) = 64%nat → 0 ≤ n < 64 → within s (set_file_inodes (zupdate n f) s) n.
Proof.
  intros Hl Hn. constructor; [|intros; by apply ino_upd_ne|done|done].
  cbn. unfold zupdate. by rewrite length_alter.
Qed.

Lemma within_image s n f : length (file_inodes s) = 64%nat → within s (set_image f s) n.
Proof. by constructor. Qed.

Lemma within_blocks s n b bm :
  length (file_inodes s) = 64%nat → within s (set_free_bitmap (λ _, bm) (set_freeblock b s)) n.
Proof. by constructor. Qed.

Definition with_addrs (a : list Z) (x : dinode) : dinode :=
  Dinode (d_type x) (major x) (minor x) (nlink x) (size x) a (d_pad x).

Lemma with_addrs_id x : x = with_addrs (addrs x) x.
Proof. by destruct x. Qed.

Record tables (s : mkfs) (n : Z) (v : locals) (lo k : Z) : Prop := Tables {
  tb_lens : length (indirect_addrs v) = 256%nat ∧ length (dindirect_addrs v) = 256%nat ∧
    length (dsub_addrs v) = 256%nat;
  tb_addr : length (addrs (ino s n)) = 14%nat;
  tb_ptr : ∀ sl, slot_ok sl → vpv (image s) (addrs (ino s n)) v sl = layout lo k sl;
  tb_ind : indirect_block v = layout lo k (Root NDIRECT);
  tb_act : active_d_idx v = if 268 <? k then (k - 269) / 256 else NO_INDEX
}.

(** What recording block [k] does. *)
Record recorded (s s' : mkfs) (n : Z) (v v' : locals) (lo k : Z) : Prop := Recorded {
  rc_base : base s';
  rc_within : within s s' n;
  rc_inode : ∃ a, ino s' n = with_addrs a (ino s n);
  rc_tables : tables s' n v' lo (k + 1);
  rc_free : freeblock s' = lo + cost (k + 1);
  rc_blocks : ∀ b, (∀ sl, slot_ok sl → is_node sl = true → layout lo k sl ≠ 0 → b ≠ layout lo k sl) →
    blk (image s') b = blk (image s) b;
  rc_locals : block_index v' = block_index v ∧ file_buf v' = file_buf v
}.

Lemma lookup_total_insert_if {A} `{!Inhabited A} (l : list A) i x j :
  (i < length l)%nat → <[i := x]> l !!! j = if decide (j = i) then x else l !!! j.
Proof.
  intros. case_decide; subst; [by apply list_lookup_total_insert_eq|by apply list_lookup_total_insert_ne].
Qed.

Lemma zeros_total m i : (i < m)%nat → zeros m !!! i = 0.
Proof. apply lookup_total_replicate_2. Qed.

(** Settle a pointer of the new layout from the one of the old. *)
Ltac slot_solve HP :=
  let sl := fresh "sl" in let Hsl := fresh "Hsl" in
  intros sl Hsl; generalize (HP sl Hsl); destruct sl;
  cbn [vpv layout slot_ok image set_file_inodes set_image set_free_bitmap set_freeblock
    indirect_addrs dindirect_addrs dsub_addrs active_d_idx] in *;
  rewrite ?lookup_total_insert_if by (rewrite ?length_zeros; lia); rewrite ?zeros_total by lia;
  repeat case_decide; repeat zcase; done || lia || idtac.

Lemma table_lookup (l : list Z) (j : Z) :
  length l = 256%nat → 0 ≤ j < 256 → zlookup l j = Some (l !!! Z.to_nat j).
Proof. intros. rewrite zlookup_nat by lia. apply list_lookup_lookup_total_lt. lia. Qed.

Section record.
Context (s : mkfs) (n : Z) (v : locals) (lo k : Z).
Context (HB : base s) (Hl : length (file_inodes s) = 64%nat) (Hn : 0 ≤ n < 64).
Context (HT : tables s n v lo k) (Hlo : 0 < lo) (Hk : 0 ≤ k) (Hbi : block_index v = k).
Context (Hf : freeblock s = lo + cost k + 1).

Lemma record_direct (Q : locals → mkfs → Prop) R :
  k < 12 → (∀ v' s', recorded s s' n v v' lo k → Q v' s') → wp (record_block n (lo + cost k) v) Q R s.
Proof using HB Hl Hn HT Hlo Hk Hbi Hf.
  intros Hlt HQ. unfold record_block. consts. rewrite Hbi. zb. wp_step. apply upd_file_inode_wp; [done..|].
  wp_step. apply HQ. destruct HT as [(L1 & L2 & L3) La HP Hi Ha].
  assert (Ec : cost k = k) by (unfold cost; zb; lia).
  constructor; cbn [image freeblock set_file_inodes]; [constructor; apply HB|by apply within_upd|..].
  - rewrite ino_upd by done. by eexists.
  - constructor; rewrite ?ino_upd by done; cbn [set_addr addrs].
    + done.
    + by rewrite length_insert.
    + rewrite Ec. slot_solve HP.
    + rewrite Hi. consts. cbn [layout]. repeat zcase; lia.
    + rewrite Ha. repeat zcase; done || lia.
  - rewrite Hf, cost_step by lia. unfold round_cost. zb. lia.
  - done.
  - done.
Qed.

Lemma base_inodes s1 f : base s1 → base (set_file_inodes f s1).
Proof using. intros []. by constructor. Qed.

Lemma record_indirect (Q : locals → mkfs → Prop) (R : mkfs → Prop) :
  12 ≤ k < 268 → (∀ v' s', recorded s s' n v v' lo k → Q v' s') → (8192 < lo + cost (k + 1) → ∀ s', R s') →
  wp (record_block n (lo + cost k) v) Q R s.
Proof using HB Hl Hn HT Hlo Hk Hbi Hf.
  intros Hlt HQ HR. unfold record_block. consts. rewrite Hbi. zb.
  destruct HT as [(L1 & L2 & L3) La HP Hi Ha]. rewrite Hi. consts. cbn [layout]. zb.
  assert (Hcs := cost_step k Hk). unfold round_cost in Hcs.
  wp_step. destruct (Z.eqb_spec k 12) as [E|E].
  - assert (E1 : cost k = 12) by by rewrite E. assert (E2 : cost (k + 1) = 14) by by rewrite E.
    zb. wp_step. apply mballoc_wp; [done| |intros; apply HR; lia].
    intros Hfb bm s1 HB1. wp_step. apply upd_file_inode_wp; [done..|]. wp_step. wp_step. cbn [block_index indirect_addrs].
    apply HQ. constructor; [by apply base_inodes| |..].
    + eapply within_trans; [by apply (within_blocks s n)|by apply within_upd].
    + rewrite ino_upd by done. by eexists.
    + constructor; rewrite ?ino_upd by done; cbn [set_addr addrs indirect_addrs dindirect_addrs dsub_addrs active_d_idx indirect_block].
      * by rewrite length_insert, length_zeros.
      * by rewrite length_insert.
      * rewrite Hf, E1. change (ino s1 n) with (ino s n). slot_solve HP.
      * rewrite Hf, E1. consts. cbn [layout]. zb. lia.
      * rewrite Ha. repeat zcase; done || lia.
    + cbn. rewrite Hf. lia.
    + done.
    + done.
  - zb. wp_step. wp_step. apply HQ. cbn [block_index]. rewrite Hbi.
    constructor; [done|by apply within_refl|exists (addrs (ino s n)); apply with_addrs_id|constructor|..];
      cbn [set_addr addrs indirect_addrs dindirect_addrs dsub_addrs active_d_idx indirect_block].
    + by rewrite length_insert.
    + done.
    + assert (Ec : cost k = k + 1) by (unfold cost; zb; lia). rewrite Ec. slot_solve HP.
    + rewrite Hi. consts. cbn [layout]. by zb.
    + rewrite Ha. repeat zcase; done || lia.
    + rewrite Hf, Hcs. zb. lia.
    + done.
    + done.
Qed.

(** Behind the single-indirect blocks: entry [i] of second-level table [d]. *)
Let d := (k - 12 - 256) / 256.
Let i := (k - 12 - 256) mod 256.

Lemma double_pos : 268 ≤ k → k - 12 - 256 = 256 * d + i ∧ 0 ≤ i < 256 ∧ 0 ≤ d.
Proof using All.
  intros Hge. split; [apply Z.div_mod; lia|]. split; [apply Z.mod_pos_bound; lia|]. apply Z.div_pos; lia.
Qed.

Lemma double_round : 268 ≤ k → cost (k + 1) = cost k + 1 + (if k =? 268 then 1 else 0) + (if i =? 0 then 1 else 0).
Proof using All.
  intros Hge. rewrite cost_step by done. unfold round_cost. replace (k - 268) with (k - 12 - 256) by lia. fold i. zb. lia.
Qed.

Lemma double_active : 268 < k → (k - 269) / 256 = (if i =? 0 then d - 1 else d) ∧ cost k = k + 3 + (k - 269) / 256.
Proof using All.
  intros Hgt. destruct double_pos as (? & ? & ?); [lia|]. split; [|unfold cost; zb; lia].
  pose proof (Z.div_mod (k - 269) 256). pose proof (Z.mod_pos_bound (k - 269) 256). zcase; lia.
Qed.

(** The first block of them: both tables are new. *)
Lemma recorded_first bm bm2 :
  let s1 := set_file_inodes (zupdate n (set_addr 13 (freeblock s))) (set_free_bitmap (λ _, bm) (set_freeblock (freeblock s + 1) s)) in
  let s2 := set_free_bitmap (λ _, bm2) (set_freeblock (freeblock s1 + 1) s1) in
  k = 268 → base s2 →
  recorded s s2 n v (Locals k (indirect_block v) (indirect_addrs v) (<[Z.to_nat d := freeblock s1]> (zeros 256))
    (<[Z.to_nat i := lo + cost k]> (zeros 256)) d (file_buf v)) lo k.
Proof using All.
  intros s1 s2 E HB2. destruct HT as [(L1 & L2 & L3) La HP Hi Ha]. assert (Ec : cost k = 269) by by rewrite E.
  destruct double_pos as (? & ? & ?); [lia|]. constructor; [done|..].
  - eapply within_trans; [by apply (within_blocks s n)|]. eapply within_trans; [by apply within_upd|].
    by apply within_blocks, within_upd.
  - change (ino s2 n) with (ino s1 n). unfold s1. rewrite ino_upd by done. by eexists.
  - constructor; change (ino s2 n) with (ino s1 n); unfold s1;
      rewrite ?ino_upd by done; cbn [set_addr addrs indirect_addrs dindirect_addrs dsub_addrs active_d_idx indirect_block].
    + by rewrite !length_insert, !length_zeros.
    + by rewrite length_insert.
    + change (ino (set_free_bitmap _ _) n) with (ino s n). cbn [freeblock set_file_inodes set_free_bitmap set_freeblock].
      rewrite Hf, Ec. slot_solve HP.
    + rewrite Hi. consts. cbn [layout]. by zb.
    + zb. unfold d. f_equal. lia.
  - cbn. rewrite Hf, double_round by lia. zb. lia.
  - done.
  - by cbn.
Qed.

(** The first block of a further table: the table in memory is written out. *)
Lemma recorded_next bm :
  let s1 := set_free_bitmap (λ _, bm) (set_freeblock (freeblock s + 1)
    (set_image (set_blk (lo + 271 + 257 * (d - 1)) (unwords (dsub_addrs v))) s)) in
  268 < k < 65804 → i = 0 → freeblock s ≤ 8192 → base s1 →
  recorded s s1 n v (Locals k (indirect_block v) (indirect_addrs v) (<[Z.to_nat d := freeblock s]> (dindirect_addrs v))
    (<[Z.to_nat i := lo + cost k]> (zeros 256)) d (file_buf v)) lo k.
Proof using All.
  intros s1 Hgt Ei Hfb HB1. destruct HT as [(L1 & L2 & L3) La HP Hi Ha].
  destruct double_pos as (? & ? & ?); [lia|]. destruct double_active as [Ed Ec]; [lia|]. rewrite Ed in Ec, Ha. rewrite Ei in Ec, Ha. cbn [Z.eqb] in Ec, Ha.
  replace (268 <? k) with true in Ha by (symmetry; apply Z.ltb_lt; lia).
  pose proof (HP (DInd (d - 1)) ltac:(cbn; lia)) as Es. cbn [vpv layout] in Es. revert Es. zb. intros Es.
  assert (HL : ∀ j, 0 ≤ j < 256 → dsub_addrs v !!! Z.to_nat j = layout lo k (DLeaf (d - 1) j)).
  { intros j Hj. rewrite <-(HP (DLeaf (d - 1) j)) by (cbn; lia). cbn [vpv]. by rewrite decide_True by done. }
  destruct (table_ok (dsub_addrs v) (λ j, layout lo k (DLeaf (d - 1) j)) lo 8192) as [Hbuf Hw]; [done|lia|lia|done| |].
  { intros j Hj Hv. pose proof (layout_seg lo k Hlo Hk) as [Hr _]. specialize (Hr (DLeaf (d - 1) j) ltac:(cbn; lia) Hv). lia. }
  constructor; [done|by constructor|exists (addrs (ino s n)); apply with_addrs_id|constructor|..];
    change (ino s1 n) with (ino s n); cbn [addrs indirect_addrs dindirect_addrs dsub_addrs active_d_idx indirect_block].
  - by rewrite !length_insert, !length_zeros.
  - done.
  - cbn [image set_free_bitmap set_freeblock set_image freeblock s1]. rewrite Hf, Ec.
    assert (Hent : ∀ j i0, 0 ≤ j < 256 → 0 ≤ i0 < 256 →
      ent (set_blk (lo + 271 + 257 * (d - 1)) (unwords (dsub_addrs v)) (image s)) (dindirect_addrs v !!! Z.to_nat j) i0 =
      if decide (j = d - 1) then dsub_addrs v !!! Z.to_nat i0 else ent (image s) (dindirect_addrs v !!! Z.to_nat j) i0).
    { intros j i0 Hj Hi0. unfold ent. pose proof (HP (DInd j) Hj) as Ej. cbn [vpv layout] in Ej. case_decide as Ejd.
      - rewrite Ejd, Es. zb. by rewrite blk_set_blk_eq, Hw, HL by done.
      - rewrite blk_set_blk_ne; [done|]. rewrite Ej. zcase; lia. }
    slot_solve HP. all: rewrite Hent by lia; case_decide; done || lia.
  - rewrite Hi. consts. cbn [layout]. by zb.
  - zb. unfold d. f_equal. lia.
  - cbn. rewrite Hf, double_round by lia. zb. lia.
  - intros b Hb. cbn. apply blk_set_blk_ne. intros <-.
    apply (Hb (DInd (d - 1))); [cbn; lia|done|..]; cbn [layout]; zb; lia.
  - by cbn.
Qed.

(** A further entry of the table in memory. *)
Lemma recorded_same :
  268 < k < 65804 → i ≠ 0 →
  recorded s s n v (Locals k (indirect_block v) (indirect_addrs v) (dindirect_addrs v)
    (<[Z.to_nat i := lo + cost k]> (dsub_addrs v)) (active_d_idx v) (file_buf v)) lo k.
Proof using All.
  intros Hgt Ei. destruct HT as [(L1 & L2 & L3) La HP Hi Ha].
  destruct double_pos as (? & ? & ?); [lia|]. destruct double_active as [Ed Ec]; [lia|].
  rewrite Ed in Ec, Ha. rewrite (proj2 (Z.eqb_neq i 0) Ei) in Ec, Ha.
  replace (268 <? k) with true in Ha by (symmetry; apply Z.ltb_lt; lia).
  constructor; [done|by apply within_refl|exists (addrs (ino s n)); apply with_addrs_id|constructor|..];
    cbn [addrs indirect_addrs dindirect_addrs dsub_addrs active_d_idx indirect_block].
  - by rewrite !length_insert.
  - done.
  - rewrite Ec. slot_solve HP.
  - rewrite Hi. consts. cbn [layout]. by zb.
  - rewrite Ha. zb. unfold d. f_equal. lia.
  - cbn. rewrite Hf, double_round by lia. zb. lia.
  - done.
  - by cbn.
Qed.

Lemma record_double (Q : locals → mkfs → Prop) (R : mkfs → Prop) :
  268 ≤ k → (k < MAXFILE → ∀ v' s', recorded s s' n v v' lo k → Q v' s') →
  (8192 < lo + cost (k + 1) ∨ MAXFILE ≤ k → ∀ s', R s') →
  wp (record_block n (lo + cost k) v) Q R s.
Proof using All.
  intros Hge HQ HR. unfold record_block. consts. change (12 + 1) with 13. rewrite Hbi. zb.
  destruct (Z.geb_spec (k - 12 - 256) 65536); [apply wp_panic, HR; right; lia|].
  specialize (HQ ltac:(lia)). pose proof HT as [(L1 & L2 & L3) La HP _ Ha].
  pose proof (double_round Hge) as Hcs. destruct (double_pos Hge) as (? & ? & ?).
  fold d. fold i. wp_step. apply file_inode_wp; [done..|]. wp_step.
  eapply wp_expect; [rewrite zlookup_nat by lia; apply list_lookup_lookup_total_lt; lia|].
  pose proof (HP (Root 13) ltac:(cbn; lia)) as E13. cbn [vpv layout] in E13. rewrite E13. zb. clear E13.
  wp_step. destruct (decide (k = 268)) as [E|E].
  - zb. wp_step. apply mballoc_wp; [done| |intros; apply HR; left; rewrite Hcs; repeat zcase; lia].
    intros Hfb bm s1 HB1. wp_step. apply upd_file_inode_wp; [done..|]. wp_step. wp_step.
    cbn [active_d_idx dindirect_addrs]. rewrite Ha. zb. unfold NO_INDEX. zb. wp_step. wp_step.
    wp_step. eapply wp_expect; [apply table_lookup; [apply length_zeros|lia]|]. rewrite zeros_total by lia. cbn [Z.eqb].
    wp_step. wp_step. apply mballoc_wp; [by apply base_inodes| |cbn; intros; apply HR; left; rewrite Hcs; repeat zcase; lia].
    intros Hfb2 bm2 s2 HB2. wp_step. wp_step. wp_step. by apply HQ, recorded_first.
  - zb. wp_step. destruct double_active as [Ed _]; [lia|]. rewrite Ha. zb. rewrite Ed. destruct (Z.eqb_spec i 0) as [Ei|Ei].
    + unfold NO_INDEX. zb.
      pose proof (HP (DInd (d - 1)) ltac:(cbn; lia)) as Es. cbn [vpv layout] in Es. revert Es. zb. intros Es.
      pose proof (HP (DInd d) ltac:(cbn; lia)) as En. cbn [vpv layout] in En. revert En. zb. intros En.
      wp_step. wp_step. wp_step. eapply wp_expect; [apply table_lookup; [done|lia]|]. rewrite Es. zb.
      pose proof (ba_range _ HB). apply mwrite_wp; [pose proof (cost_mono 269 k ltac:(lia)); destruct double_active as [_ ?]; lia|].
      wp_step. eapply wp_expect; [apply table_lookup; [done|lia]|]. rewrite En. cbn [Z.eqb]. wp_step. wp_step.
      apply mballoc_wp; [| |cbn; intros; apply HR; left; rewrite Hcs; zb; lia].
      { apply base_write; [done|]. split; [rewrite length_unwords; lia|apply bytes_unwords]. }
      intros Hfb bm s1 HB1. wp_step. wp_step. wp_step. apply HQ. cbn [block_index]. rewrite Hbi. refine (recorded_next bm _ _ _ HB1); done || lia.
    + zb. wp_step. wp_step. apply HQ. rewrite Hbi. apply recorded_same; done || lia.
Qed.
End record.

(** ** The loop *)

Lemma layout_leaf lo k bn : 0 ≤ bn < k → layout lo k (leaf bn) = lo + cost bn.
Proof.
  intros Hbn. unfold leaf, cost. consts. destruct (decide (bn < 268)) as [Hlt|Hge].
  - repeat zcase; cbn [layout]; repeat zcase; lia.
  - zb. cbn [layout]. pose proof (Z.div_mod (bn - 12 - 256) 256). pose proof (Z.mod_pos_bound (bn - 12 - 256) 256).
    pose proof (Z.div_pos (bn - 12 - 256) 256 ltac:(lia) ltac:(lia)).
    pose proof (Z.div_mod (bn - 269) 256). pose proof (Z.mod_pos_bound (bn - 269) 256).
    repeat zcase; lia.
Qed.

(** A data block is not a table. *)
Lemma layout_data lo k bn sl :
  0 < lo → 0 ≤ bn < k → k ≤ MAXFILE → slot_ok sl → is_node sl = true → layout lo k sl ≠ lo + cost bn.
Proof.
  intros Hlo Hbn Hk Hsl Hno E. destruct (leaf_ok bn ltac:(lia)) as [Hok Hle].
  destruct (layout_seg lo k Hlo ltac:(lia)) as [Hr Hi]. rewrite <-(layout_leaf lo k bn Hbn) in E.
  assert (sl = leaf bn) as ->; [|congruence]. apply Hi; [done|done| |done].
  rewrite E, layout_leaf by done. unfold cost. pose proof (Z.div_pos (bn - 269) 256). repeat zcase; lia.
Qed.

(** Blocks that hold neither a table of the file nor anything of it. *)
Lemma layout_low lo k b sl : 0 < lo → 0 ≤ k → b < lo → slot_ok sl → layout lo k sl ≠ 0 → b ≠ layout lo k sl.
Proof. intros Hlo Hk Hb Hsl Hv. destruct (layout_seg lo k Hlo Hk) as [Hr _]. specialize (Hr sl Hsl Hv). lia. Qed.

Record building (s0 s : mkfs) (n : Z) (data : list Z) (v : locals) (k : Z) : Prop := Building {
  bd_base : base s;
  bd_within : within s0 s n;
  bd_tables : tables s n v (freeblock s0) k;
  bd_index : block_index v = k;
  bd_buf : block_buf (file_buf v);
  bd_free : freeblock s = freeblock s0 + cost k;
  bd_frame : ∀ b, b < freeblock s0 → blk (image s) b = blk (image s0) b;
  bd_inode : ∃ a, ino s n = with_addrs a (set_size (Z.min (1024 * k) (Z.of_nat (length data))) (ino s0 n));
  bd_data : ∀ x, 0 ≤ x < Z.min (1024 * k) (Z.of_nat (length data)) →
    blk (image s) (freeblock s0 + cost (x / 1024)) !!! Z.to_nat (x mod 1024) = data !!! Z.to_nat x;
  bd_k : 0 ≤ k ≤ MAXFILE ∧ 1024 * (k - 1) < Z.of_nat (length data)
}.

Lemma tables_write s n v lo k b buf :
  0 < lo → 0 ≤ k → tables s n v lo k → (b < lo ∨ lo + cost k ≤ b) → tables (set_image (set_blk b buf) s) n v lo k.
Proof.
  intros Hlo Hk [HL La HP Hi Ha] Hb. constructor; [done|done| |done|done].
  intros sl Hsl. change (ino (set_image (set_blk b buf) s) n) with (ino s n). rewrite <-HP by done.
  destruct sl as [i|j|j|j i]; cbn [vpv slot_ok] in *; [done..|]. case_decide; [done|].
  cbn. unfold ent. zcase; [done|]. rewrite blk_set_blk_ne; [done|].
  pose proof (HP (DInd j) ltac:(cbn; lia)) as E. cbn [vpv] in E. rewrite E in *.
  destruct (layout_seg lo k Hlo Hk) as [Hr _]. specialize (Hr (DInd j) ltac:(cbn; lia) ltac:(done)). lia.
Qed.

Lemma tables_inode s n v lo k f :
  length (file_inodes s) = 64%nat → 0 ≤ n < 64 → (∀ x, addrs (f x) = addrs x) →
  tables s n v lo k → tables (set_file_inodes (zupdate n f) s) n v lo k.
Proof. intros Hl Hn Hf [HL La HP Hi Ha]. constructor; rewrite ?ino_upd, ?Hf by done; done. Qed.

Lemma tables_locals s n v v' lo k :
  indirect_block v' = indirect_block v → indirect_addrs v' = indirect_addrs v →
  dindirect_addrs v' = dindirect_addrs v → dsub_addrs v' = dsub_addrs v → active_d_idx v' = active_d_idx v →
  tables s n v lo k → tables s n v' lo k.
Proof.
  intros E1 E2 E3 E4 E5 [HL La HP Hi Ha]. constructor; rewrite ?E1, ?E2, ?E3, ?E4, ?E5; try done.
  intros sl Hsl. rewrite <-HP by done. destruct sl; cbn [vpv]; by rewrite ?E2, ?E3, ?E4, ?E5.
Qed.

Lemma record_wp s n v lo k (Q : locals → mkfs → Prop) (R : mkfs → Prop) :
  base s → length (file_inodes s) = 64%nat → 0 ≤ n < 64 → tables s n v lo k → 0 < lo → 0 ≤ k →
  block_index v = k → freeblock s = lo + cost k + 1 →
  (k < MAXFILE → ∀ v' s', recorded s s' n v v' lo k → Q v' s') →
  (8192 < lo + cost (k + 1) ∨ MAXFILE ≤ k → ∀ s', R s') →
  wp (record_block n (lo + cost k) v) Q R s.
Proof.
  intros HB Hl Hn HT Hlo Hk Hbi Hf HQ HR. consts.
  destruct (decide (k < 12)); [apply record_direct; auto; intros; apply HQ; done || lia|].
  destruct (decide (k < 268)); [apply record_indirect; auto; [lia|intros; apply HQ; done || lia]|].
  apply record_double; auto. lia.
Qed.
