(* ===== verification/MkfsAdd.v ===== *)
(** * The disk image builder: the blocks of a file

    The loop of [add_file] and the flush behind it: the inode in memory and the
    tables on the image then hold the bytes of the host file. *)

From S2P Require Import Prelude FsTypes Block Inode FsInv FsAlloc FsMap FsFile Mkfs MkfsInv MkfsFile.

(** ** One round *)

Definition blocks_of (m : Z) : Z := (m + 1023) / 1024.

Section round.
Context (s0 s : mkfs) (n : Z) (data : list Z) (v : locals) (k : Z).
Context (Hlo : 0 < freeblock s0) (Hn : 0 ≤ n < 64) (Hby : bytes data) (HI : building s0 s n data v k).

(** The buffer after [fread]: the next bytes in front of what was there. *)
Definition filled : list Z :=
  let m := Nat.min 1024 (length data - Z.to_nat (1024 * k)) in
  take m (drop (Z.to_nat (1024 * k)) data) ++ drop m (file_buf v).

Lemma filled_ok : block_buf filled.
Proof using HI Hby.
  destruct (bd_buf _ _ _ _ _ _ HI) as [Hbl Hbb]. unfold filled. split.
  - rewrite length_app, length_take, !length_drop. lia.
  - apply Forall_app. split; [by apply Forall_take, Forall_drop|by apply Forall_drop].
Qed.

Lemma filled_lookup x :
  1024 * k ≤ x < 1024 * (k + 1) → x < Z.of_nat (length data) → 0 ≤ k →
  filled !!! Z.to_nat (x mod 1024) = data !!! Z.to_nat x.
Proof using.
  intros Hx Hlt Hk. assert (Em : x mod 1024 = x - 1024 * k) by (symmetry; apply (Z.mod_unique _ _ k); lia).
  unfold filled. rewrite !list_lookup_total_alt, lookup_app_l by (rewrite length_take, length_drop; lia).
  rewrite lookup_take_lt, lookup_drop by lia. do 2 f_equal. lia.
Qed.

Lemma add_block_wp (Q : list Z * locals + locals → mkfs → Prop) (R : mkfs → Prop) :
  (Z.of_nat (length data) ≤ 1024 * k → Q (inr v) s) →
  (1024 * k < Z.of_nat (length data) → ∀ v' s', building s0 s' n data v' (k + 1) →
    Q (inl (drop (Z.to_nat (1024 * (k + 1))) data, v')) s') →
  (1024 * k < Z.of_nat (length data) → 8192 < freeblock s0 + cost (k + 1) ∨ MAXFILE ≤ k → ∀ s', R s') →
  wp (add_block n (drop (Z.to_nat (1024 * k)) data, v)) Q R s.
Proof using Hlo Hn Hby HI.
  intros Hdone Hmore HR. pose proof filled_ok as Hfb. destruct HI as [HB HW HT Hbi Hbuf Hf Hfr (a & Ea) Hd [Hk Hk1]].
  pose proof (wi_len _ _ _ HW) as Hl.
  pose proof (cost_lt k (k + 1) ltac:(lia)). pose proof (cost_nonneg k ltac:(lia)).
  unfold add_block. rewrite length_drop.
  destruct (decide (Z.of_nat (length data) ≤ 1024 * k)) as [Hend|Hgo].
  { replace (Nat.min 1024 (length data - Z.to_nat (1024 * k)) =? 0)%nat with true by (symmetry; apply Nat.eqb_eq; lia).
    wp_step. by apply Hdone. }
  assert (Hgo' : 1024 * k < Z.of_nat (length data)) by lia.
  replace (Nat.min 1024 (length data - Z.to_nat (1024 * k)) =? 0)%nat with false by (symmetry; apply Nat.eqb_neq; lia).
  fold filled. wp_step. apply mballoc_wp; [done| |intros; apply HR; [lia|left; lia]].
  intros Hfb1 bm s1 HB1. wp_step. pose proof (ba_range _ HB). apply mwrite_wp; [unfold s1; cbn; lia|]. wp_step.
  rewrite Hf. apply upd_file_inode_wp; [done..|]. wp_step.
  remember (Nat.min 1024 (length data - Z.to_nat (1024 * k))) as m eqn:Hm.
  match goal with |- wp _ _ _ ?st => set (s2 := st) end.
  assert (HT2 : tables s2 n v (freeblock s0) k).
  { apply tables_inode; [done..|]. apply tables_write; [done|lia| |lia]. by constructor; apply HT. }
  assert (HB2 : base s2) by (apply base_inodes, base_write; done).
  apply record_wp; [done|cbn; unfold zupdate; by rewrite length_alter|done|done|done|lia|done|cbn; lia| |by apply HR].
  intros Hmax v' s' HR'. wp_step. rewrite drop_drop.
  destruct HR' as [RB RW (a' & Ra) RT RF Rbl [Rbi _]].
  replace (Z.to_nat (1024 * k) + m)%nat with (Nat.min (length data) (Z.to_nat (1024 * (k + 1)))) by lia.
  replace (drop (Nat.min _ _) data) with (drop (Z.to_nat (1024 * (k + 1))) data).
  2:{ destruct (decide (Z.of_nat (length data) ≤ 1024 * (k + 1))); [|f_equal; lia]. rewrite !drop_ge by lia. done. }
  apply Hmore; [done|]. constructor.
  - done.
  - eapply within_trans; [done|]. eapply within_trans; [|done].
    eapply within_trans; [by apply (within_blocks s)|]. eapply within_trans; [by apply within_image|]. by apply within_upd.
  - by eapply tables_locals; [..|exact RT].
  - cbn. lia.
  - split; [apply length_zeros|apply bytes_zeros].
  - done.
  - intros b Hb. rewrite Rbl by (intros sl Hsl _ Hv; by eapply layout_low; [done|lia|..]).
    rewrite <-Hfr by done. cbn. apply blk_set_blk_ne. lia.
  - exists a'. rewrite Ra. unfold s2. rewrite ino_upd by done. change (ino (set_image _ s1) n) with (ino s n). rewrite Ea.
    unfold with_addrs, set_size. cbn. consts. f_equal. rewrite u32_small; lia.
  - intros x Hx. assert (0 ≤ x / 1024) by (apply Z.div_pos; lia).
    assert (x / 1024 < k + 1) by (apply Z.div_lt_upper_bound; lia).
    assert (HS : blk (image s') (freeblock s0 + cost (x / 1024)) = blk (image s2) (freeblock s0 + cost (x / 1024))).
    { apply Rbl. intros sl Hsl Hno Hv. destruct (decide (x / 1024 = k)) as [->|].
      - destruct (layout_seg (freeblock s0) k Hlo ltac:(lia)) as [Hr _]. specialize (Hr sl Hsl Hv). lia.
      - apply not_eq_sym, layout_data; done || lia. }
    rewrite HS. cbn. destruct (decide (x < 1024 * k)).
    + rewrite blk_set_blk_ne; [apply Hd; lia|].
      assert (x / 1024 < k) by (apply Z.div_lt_upper_bound; lia). pose proof (cost_lt (x / 1024) k ltac:(lia)). lia.
    + assert (x / 1024 = k) as -> by (symmetry; apply (Z.div_unique _ _ _ (x - 1024 * k)); lia).
      rewrite blk_set_blk_eq by done. apply filled_lookup; lia.
  - lia.
Qed.
End round.

(** ** The flush *)

Record stored (s0 s : mkfs) (n : Z) (data : list Z) : Prop := Stored {
  st_base : base s;
  st_within : within s0 s n;
  st_free : freeblock s = freeblock s0 + cost (blocks_of (Z.of_nat (length data)));
  st_max : blocks_of (Z.of_nat (length data)) ≤ MAXFILE;
  st_frame : ∀ b, b < freeblock s0 → blk (image s) b = blk (image s0) b;
  st_inode : ∃ a, length a = 14%nat ∧ ino s n = with_addrs a (set_size (Z.of_nat (length data)) (ino s0 n));
  st_ptr : ∀ sl, slot_ok sl → dpv (image s) (addrs (ino s n)) sl =
    layout (freeblock s0) (blocks_of (Z.of_nat (length data))) sl;
  st_data : ∀ x, 0 ≤ x < Z.of_nat (length data) →
    blk (image s) (freeblock s0 + cost (x / 1024)) !!! Z.to_nat (x mod 1024) = data !!! Z.to_nat x
}.

(** The tables on a disk describe a layout. *)
Lemma dpv_layout dk a lo k sl :
  0 < lo → 0 ≤ k →
  (∀ i, 0 ≤ i < 14 → a !!! Z.to_nat i = layout lo k (Root i)) →
  (12 < k → ∀ j, 0 ≤ j < 256 → word_at (blk dk (lo + 13)) j = layout lo k (Ind j)) →
  (268 < k → ∀ j, 0 ≤ j < 256 → word_at (blk dk (lo + 270)) j = layout lo k (DInd j)) →
  (∀ j i, 0 ≤ j < 256 → 0 ≤ i < 256 → 268 + 256 * j < k →
     word_at (blk dk (lo + 271 + 257 * j)) i = layout lo k (DLeaf j i)) →
  slot_ok sl → dpv dk a sl = layout lo k sl.
Proof.
  intros Hlo Hk HR HI HD HL Hsl.
  assert (ED : ∀ j, 0 ≤ j < 256 → ent dk (a !!! Z.to_nat 13) j = layout lo k (DInd j)).
  { intros j Hj. rewrite HR by lia. unfold ent. cbn [layout]. zb. destruct (Z.ltb_spec 268 k).
    - zb. rewrite HD by done. cbn [layout]. done.
    - cbn. by zb. }
  destruct sl as [i|j|j|j i]; cbn [dpv slot_ok] in *; consts; change (12 + 1) with 13.
  - by apply HR.
  - rewrite HR by lia. unfold ent. cbn [layout]. zb. destruct (Z.ltb_spec 12 k).
    + zb. by apply HI.
    + cbn. by zb.
  - by apply ED.
  - rewrite ED by lia. unfold ent. cbn [layout]. destruct (Z.ltb_spec (268 + 256 * j) k).
    + zb. rewrite HL by lia. done.
    + cbn. by zb.
Qed.

(** What the flush leaves: tables written where the layout puts them, and nothing
    else of the image changed. *)
Record flushed (s s' : mkfs) (v : locals) (lo k : Z) : Prop := Flushed {
  fl_state : ∃ f, s' = set_image f s;
  fl_base : base s';
  fl_ind : 12 < k → blk (image s') (lo + 13) = unwords (indirect_addrs v);
  fl_top : 268 < k → blk (image s') (lo + 270) = unwords (dindirect_addrs v);
  fl_sub : 268 < k → blk (image s') (lo + 271 + 257 * ((k - 269) / 256)) = unwords (dsub_addrs v);
  fl_other : ∀ b, (∀ sl, slot_ok sl → is_node sl = true → layout lo k sl ≠ 0 → b ≠ layout lo k sl) ∨
      (∃ j, 0 ≤ j ∧ 268 + 256 * (j + 1) < k ∧ b = lo + 271 + 257 * j) →
    blk (image s') b = blk (image s) b
}.

Lemma table_buf lo k sl :
  0 < lo → 0 ≤ k ≤ MAXFILE → lo + cost k ≤ 8192 → is_node sl = true → slot_ok sl →
  ∀ ws, length ws = 256%nat → (∀ j, 0 ≤ j < 256 → ws !!! Z.to_nat j = layout lo k (child sl j)) →
  block_buf (unwords ws) ∧ ∀ j, 0 ≤ j < 256 → word_at (unwords ws) j = layout lo k (child sl j).
Proof.
  intros Hlo Hk Hf Hno Hsl ws Hlen Hw. apply (table_ok ws _ lo 8192); [done|lia|lia|done|].
  intros j Hj Hv. destruct (layout_seg lo k Hlo ltac:(lia)) as [Hr _].
  specialize (Hr (child sl j) ltac:(by apply child_ok) Hv). lia.
Qed.

Section flush.
Context (s : mkfs) (n : Z) (v : locals) (lo k : Z).
Context (HB : base s) (Hl : length (file_inodes s) = 64%nat) (Hn : 0 ≤ n < 64).
Context (HT : tables s n v lo k) (Hlo : 0 < lo) (Hk : 0 ≤ k ≤ MAXFILE) (Hf : lo + cost k ≤ 8192).

Lemma ind_buf : block_buf (unwords (indirect_addrs v)) ∧
  ∀ j, 0 ≤ j < 256 → word_at (unwords (indirect_addrs v)) j = layout lo k (Ind j).
Proof using All.
  apply (table_buf lo k (Root 12)); [done..|cbn; lia|apply HT|]. intros j Hj. apply (tb_ptr _ _ _ _ _ HT (Ind j) Hj).
Qed.

Lemma top_buf : block_buf (unwords (dindirect_addrs v)) ∧
  ∀ j, 0 ≤ j < 256 → word_at (unwords (dindirect_addrs v)) j = layout lo k (DInd j).
Proof using All.
  apply (table_buf lo k (Root 13)); [done..|cbn; lia|apply HT|]. intros j Hj. apply (tb_ptr _ _ _ _ _ HT (DInd j) Hj).
Qed.

Lemma sub_buf : 268 < k → block_buf (unwords (dsub_addrs v)) ∧
  ∀ i, 0 ≤ i < 256 → word_at (unwords (dsub_addrs v)) i = layout lo k (DLeaf ((k - 269) / 256) i).
Proof using All.
  intros Hgt. consts. assert (0 ≤ (k - 269) / 256 < 256).
  { split; [apply Z.div_pos; lia|apply Z.div_lt_upper_bound; lia]. }
  apply (table_buf lo k (DInd ((k - 269) / 256))); [done..|cbn; lia|apply HT|]. intros i Hi.
  pose proof (tb_ptr _ _ _ _ _ HT (DLeaf ((k - 269) / 256) i) ltac:(done)) as E. cbn [vpv] in E.
  rewrite decide_True in E; [done|]. rewrite (tb_act _ _ _ _ _ HT). by zb.
Qed.

Lemma node_range x sl : slot_ok sl → layout lo k sl = x → x ≠ 0 → 0 ≤ x < 8192.
Proof using All.
  intros Hsl <- Hv. destruct (layout_seg lo k Hlo ltac:(lia)) as [Hr _]. specialize (Hr sl Hsl Hv). lia.
Qed.

Lemma flush_wp (Q : unit → mkfs → Prop) R :
  (∀ s', flushed s s' v lo k → Q tt s') → wp (flush_tables n v) Q R s.
Proof using All.
  intros HQ. destruct ind_buf as [Bi _], top_buf as [Bt _].
  pose proof (tb_ind _ _ _ _ _ HT) as Hi. consts. cbn [layout] in Hi. revert Hi. zb. intros Hi.
  pose proof (tb_ptr _ _ _ _ _ HT (Root 13) ltac:(cbn; lia)) as E13. cbn [vpv layout] in E13. revert E13. zb. intros E13.
  assert (Ez : ∀ f, zlookup (addrs (ino (set_image f s) n)) 13 = Some (if 268 <? k then lo + 270 else 0)).
  { intros f. change (ino (set_image f s) n) with (ino s n). rewrite <-E13, zlookup_nat by lia.
    apply list_lookup_lookup_total_lt. rewrite (tb_addr _ _ _ _ _ HT). lia. }
  unfold flush_tables. consts. change (12 + 1) with 13. rewrite Hi. destruct (Z.ltb_spec 12 k).
  2:{ cbn [Z.eqb negb]. wp_step. wp_step. wp_step. apply file_inode_wp; [done..|]. wp_step.
      eapply wp_expect; [apply (Ez id)|]. zb. wp_step. apply HQ. constructor; [exists id; by destruct s|done|lia..|done]. }
  assert (H13 : layout lo k (Root 12) = lo + 13) by (cbn [layout]; by zb).
  zb. wp_step. apply mwrite_wp; [eapply (node_range _ (Root 12)); first [done|lia|cbn; lia]|]. wp_step. apply file_inode_wp; [done..|]. wp_step.
  eapply wp_expect; [apply Ez|]. destruct (Z.ltb_spec 268 k) as [Hk2|].
  2:{ cbn [Z.eqb negb]. wp_step. apply HQ. constructor; [by eexists|by apply base_write|intros _; cbn; by rewrite blk_set_blk_eq|lia..|].
      intros b [Hb|(j & ? & ? & ?)]; [|lia]. cbn. apply blk_set_blk_ne. rewrite <-H13. apply not_eq_sym, Hb; first [done|lia|cbn; lia]. }
  destruct (sub_buf Hk2) as [Bs _]. set (a := (k - 269) / 256) in *.
  assert (0 ≤ a < 256 ∧ 268 + 256 * a < k ≤ 268 + 256 * (a + 1)) as [Ha Hak].
  { pose proof (Z.div_mod (k - 269) 256). pose proof (Z.mod_pos_bound (k - 269) 256). subst a.
    split; [split; [apply Z.div_pos; lia|apply Z.div_lt_upper_bound; lia]|lia]. }
  assert (H270 : layout lo k (Root 13) = lo + 270) by (cbn [layout]; by zb).
  assert (H271 : layout lo k (DInd a) = lo + 271 + 257 * a) by (cbn [layout]; by zb).
  zb. wp_step. apply mwrite_wp; [eapply (node_range _ (Root 13)); first [done|lia|cbn; lia]|].
  rewrite (tb_act _ _ _ _ _ HT). unfold NO_INDEX. fold a. zb. wp_step.
  eapply wp_expect; [apply table_lookup; [apply HT|lia]|].
  pose proof (tb_ptr _ _ _ _ _ HT (DInd a) Ha) as Ea. cbn [vpv] in Ea. rewrite Ea, H271. zb.
  apply mwrite_wp; [eapply (node_range _ (DInd a)); first [done|lia|cbn; lia]|].
  apply HQ. constructor; cbn [image set_image].
  - by eexists (λ d, _).
  - by repeat apply base_write.
  - intros _. rewrite !blk_set_blk_ne by lia. by rewrite blk_set_blk_eq.
  - intros _. rewrite blk_set_blk_ne by lia. by rewrite blk_set_blk_eq.
  - intros _. by rewrite blk_set_blk_eq.
  - intros b Hb. rewrite !blk_set_blk_ne; [done|..]; destruct Hb as [Hb|(j & ? & ? & ->)]; try lia.
    all: rewrite <-?H13, <-?H270, <-?H271; apply not_eq_sym, Hb; first [done|lia|cbn; lia].
Qed.
End flush.

(** ** A whole file *)

Lemma flushed_stored s0 s s' n data v k :
  0 < freeblock s0 → 0 ≤ n < 64 → Z.of_nat (length data) ≤ 1024 * k → building s0 s n data v k →
  flushed s s' v (freeblock s0) k → stored s0 s' n data.
Proof.
  intros Hlo Hn Hend [HB HW HT Hbi Hbuf Hf Hfr (a & Ea) Hd [Hk Hk1]] [[f ->] FB Fi Ft Fs Fo].
  assert (Ek : blocks_of (Z.of_nat (length data)) = k).
  { unfold blocks_of. symmetry. apply (Z.div_unique _ _ _ (Z.of_nat (length data) + 1023 - 1024 * k)); lia. }
  pose proof (ba_range _ HB). pose proof (wi_len _ _ _ HW) as Hl.
  assert (Hf2 : freeblock s0 + cost k ≤ 8192) by lia.
  constructor; rewrite ?Ek; [done| |done|lia|..].
  - eapply within_trans; [done|by apply within_image].
  - intros b Hb. rewrite Fo; [by apply Hfr|]. left. intros. by eapply layout_low; [done|lia|..].
  - exists a. change (ino (set_image f s) n) with (ino s n). pose proof (tb_addr _ _ _ _ _ HT) as La.
    rewrite Ea in La |- *. split; [done|]. do 2 f_equal. lia.
  - intros sl Hsl. change (ino (set_image f s) n) with (ino s n). apply dpv_layout; [done|lia|..|done].
    + intros i Hi. apply (tb_ptr _ _ _ _ _ HT (Root i)). done.
    + intros Hgt j Hj. rewrite Fi by done. by apply (ind_buf s n v).
    + intros Hgt j Hj. rewrite Ft by done. by apply (top_buf s n v).
    + intros j i Hj Hi Hjk. assert (Hgt : 268 < k) by lia.
      pose proof (Z.div_mod (k - 269) 256). pose proof (Z.mod_pos_bound (k - 269) 256).
      destruct (decide (j = (k - 269) / 256)) as [->|Hne]; [rewrite Fs by done; by apply (sub_buf s n v)|].
      rewrite Fo by (right; exists j; lia).
      pose proof (tb_ptr _ _ _ _ _ HT (DLeaf j i) ltac:(done)) as E. cbn [vpv] in E.
      rewrite decide_False in E by (rewrite (tb_act _ _ _ _ _ HT); by zb). rewrite <-E. unfold ent.
      pose proof (tb_ptr _ _ _ _ _ HT (DInd j) ltac:(done)) as E'. cbn [vpv layout] in E'. rewrite E'. by zb.
  - intros x Hx. rewrite Fo; [apply Hd; lia|]. left. intros sl Hsl Hno Hv. apply not_eq_sym, layout_data; [done| |lia|done|done].
    split; [apply Z.div_pos|apply Z.div_lt_upper_bound]; lia.
Qed.

Section store.
Context (junk_block : Z → list Z) (Hjunk : ∀ n, block_buf (junk_block n)).

Lemma building_init s0 n data :
  base s0 → length (file_inodes s0) = 64%nat → addrs (ino s0 n) = zeros 14 → size (ino s0 n) = 0 →
  building s0 s0 n data (locals_zero junk_block n) 0.
Proof using Hjunk.
  intros HB Hl Ha Hs. constructor; [done|by apply within_refl|..].
  - constructor; [done|by rewrite Ha| |done|done]. rewrite Ha. intros [i|j|j|j i]; cbn [vpv layout slot_ok]; intros.
    + rewrite zeros_total by lia. repeat zcase; lia.
    + unfold locals_zero. cbn [indirect_addrs]. rewrite zeros_total by lia. by zb.
    + unfold locals_zero. cbn [dindirect_addrs]. rewrite zeros_total by lia. by zb.
    + unfold locals_zero, NO_INDEX. cbn [active_d_idx dindirect_addrs]. rewrite decide_False, zeros_total by lia. by zb.
  - done.
  - apply Hjunk.
  - unfold cost. cbn. lia.
  - done.
  - exists (zeros 14). rewrite Z.min_l by lia. revert Ha Hs. destruct (ino s0 n). cbn. by intros -> ->.
  - intros x Hx. lia.
  - consts. lia.
Qed.

Lemma store_wp s0 n data (Q : unit → mkfs → Prop) (R : mkfs → Prop) :
  base s0 → length (file_inodes s0) = 64%nat → 0 ≤ n < 64 → 0 < freeblock s0 → bytes data →
  addrs (ino s0 n) = zeros 14 → size (ino s0 n) = 0 →
  (∀ s, stored s0 s n data → Q tt s) →
  (8192 < freeblock s0 + cost (blocks_of (Z.of_nat (length data))) ∨
    MAXFILE < blocks_of (Z.of_nat (length data)) → ∀ s, R s) →
  wp (loop (length data + 1) (add_block n) (data, locals_zero junk_block n) ≫= flush_tables n) Q R s0.
Proof using Hjunk.
  intros HB Hl Hn Hlo Hby Ha Hs HQ HR. wp_step.
  eapply wp_loop with (k := length data) (I := λ m '(rest, v) s, ∃ k, building s0 s n data v k ∧
    rest = drop (Z.to_nat (1024 * k)) data ∧ m = (length data - Z.to_nat (1024 * k))%nat); [| |lia].
  2:{ exists 0. split; [by apply building_init|]. split; [done|]. cbn. lia. }
  intros m [rest v] s (k & HI & -> & ->). apply add_block_wp with (s0 := s0); try done.
  - intros Hend. pose proof HI as [HB' HW HT _ _ Hf _ _ _ [Hk _]]. pose proof (ba_range _ HB').
    apply flush_wp with (lo := freeblock s0) (k := k); try done; [apply HW|lia|].
    intros s' HF. apply HQ. by eapply flushed_stored.
  - intros Hlt v' s' HI'. pose proof (bd_k _ _ _ _ _ _ HI).
    exists (length data - Z.to_nat (1024 * (k + 1)))%nat. split; [lia|]. by exists (k + 1).
  - intros Hlt Hbad s'. apply HR. pose proof (bd_k _ _ _ _ _ _ HI).
    assert (k + 1 ≤ blocks_of (Z.of_nat (length data))) by (apply Z.div_le_lower_bound; lia).
    destruct Hbad; [left|right; lia]. pose proof (cost_mono (k + 1) (blocks_of (Z.of_nat (length data))) ltac:(lia)). lia.
Qed.
End store.
