(* ===== verification/MkfsTree.v ===== *)
(** * The disk image builder: the invariant of the tables in memory

    [minv] holds between the operations of the builder, whatever the staging
    directory contains; [ext] says that they only ever add. The last part shows that
    every operation keeps it. *)

From S2P Require Import Prelude FsTypes Block Inode Dir FsInv FsAlloc FsMap FsFile FsCache DirSpec Mkfs MkfsInv.
From S2P Require Import MkfsFile MkfsAdd.

(** ** The invariant *)

Definition ptr_of (s : mkfs) (n : Z) : slot → Z := dpv (image s) (addrs (ino s n)).

(** Inodes and blocks. *)
Record inodes_ok (s : mkfs) : Prop := InodesOk {
  io_base : base s;
  io_first : 7 ≤ freeblock s;
  io_len : length (file_inodes s) = 64%nat;
  io_next : 2 ≤ freeinode s ≤ 64;
  io_ok : ∀ n, 0 ≤ n < 64 → dinode_ok (ino s n);
  io_unused : ∀ n, freeinode s ≤ n < 64 ∨ n = 0 → ino s n = dinode_zero;
  io_seg : ∀ n, 0 ≤ n < 64 → seg (ptr_of s n) 7 (freeblock s);
  io_apart : ∀ n n' sl sl', 0 ≤ n < 64 → 0 ≤ n' < 64 → slot_ok sl → slot_ok sl' →
    ptr_of s n sl ≠ 0 → ptr_of s n sl = ptr_of s n' sl' → n = n';
  io_map : ∀ n, 0 ≤ n < 64 → mapped (ptr_of s n) (blocks_of (size (ino s n))) ∧
    0 ≤ size (ino s n) ≤ MAXFILE * BSIZE
}.

Definition entry_ok (s : mkfs) (e : fsdirent) : Prop := dirent_ok e ∧ 1 ≤ de_inum e < freeinode s.

(** A new inode: one link, no contents. *)
Definition fresh_dinode (ty : Z) : dinode := Dinode ty 0 0 1 0 (zeros 14) (zeros 60).

(** A directory has no blocks before all directories are written. *)
Record dir_ok (s : mkfs) (d : mkfs_dir) : Prop := DirOk {
  dk_inum : 1 ≤ md_inum d < freeinode s;
  dk_type : ino s (md_inum d) = fresh_dinode FT_DIRECTORY;
  dk_entries : (2 ≤ length (entries d) ≤ 64)%nat ∧ Forall (entry_ok s) (entries d)
}.

Record dirs_ok (s : mkfs) : Prop := DirsOk {
  do_root : ∃ d l, dirs s = d :: l ∧ md_inum d = 1 ∧ md_path d = [];
  do_len : Z.of_nat (length (dirs s)) < freeinode s;
  do_each : Forall (dir_ok s) (dirs s);
  do_uniq : NoDup (md_inum <$> dirs s);
  do_all : ∀ n, 1 ≤ n < freeinode s → d_type (ino s n) = FT_DIRECTORY → n ∈ md_inum <$> dirs s
}.

Definition minv (s : mkfs) : Prop := inodes_ok s ∧ dirs_ok s.

(** A directory that has only gained entries. *)
Definition grows (d d' : mkfs_dir) : Prop :=
  md_inum d' = md_inum d ∧ md_path d' = md_path d ∧ entries d `prefix_of` entries d'.

Record ext (s s' : mkfs) : Prop := Ext {
  ex_free : freeblock s ≤ freeblock s';
  ex_blocks : ∀ b, b < freeblock s → blk (image s') b = blk (image s) b;
  ex_next : freeinode s ≤ freeinode s';
  ex_inodes : ∀ n, 0 ≤ n < freeinode s → ino s' n = ino s n;
  ex_dirs : ∀ i d, dirs s !! i = Some d → ∃ d', dirs s' !! i = Some d' ∧ grows d d'
}.

Lemma grows_refl d : grows d d.
Proof. done. Qed.
Lemma grows_trans d1 d2 d3 : grows d1 d2 → grows d2 d3 → grows d1 d3.
Proof. intros (? & ? & ?) (? & ? & ?). split_and!; [congruence..|by etrans]. Qed.

Lemma ext_refl s : ext s s.
Proof. constructor; try done. intros i d Hd. exists d. done. Qed.

Lemma ext_trans s1 s2 s3 : ext s1 s2 → ext s2 s3 → ext s1 s3.
Proof.
  intros [A1 A2 A3 A4 A5] [B1 B2 B3 B4 B5]. constructor; [lia| |lia|..].
  - intros b Hb. rewrite B2 by lia. by apply A2.
  - intros n Hn. rewrite B4 by lia. by apply A4.
  - intros i d Hd. destruct (A5 i d Hd) as (d' & Hd' & G). destruct (B5 i d' Hd') as (d'' & Hd'' & G').
    exists d''. split; [done|]. by eapply grows_trans.
Qed.

(** Later steps leave the pointers of an inode alone. *)
Lemma ext_ptr s s' n sl :
  inodes_ok s → ext s s' → 0 ≤ n < freeinode s → slot_ok sl → ptr_of s' n sl = ptr_of s n sl.
Proof.
  intros I E Hn Hsl. unfold ptr_of. rewrite (ex_inodes _ _ E) by done. pose proof (io_next _ I).
  eapply dpv_same; [apply (io_seg _ I n); lia| |done]. intros b Hb. apply (ex_blocks _ _ E). lia.
Qed.

(** ** A new inode *)

Definition with_inode (ty : Z) (s : mkfs) : mkfs :=
  set_file_inodes (zupdate (freeinode s) (λ _, fresh_dinode ty)) (set_freeinode (freeinode s + 1) s).

Lemma zupdate_ext {A} (l : list A) n f g x :
  0 ≤ n → l !! Z.to_nat n = Some x → f x = g x → zupdate n f l = zupdate n g l.
Proof.
  intros Hn Hx E. unfold zupdate. apply list_eq. intros i. destruct (decide (Z.to_nat n = i)) as [<-|].
  - rewrite !list_lookup_alter_eq, Hx. cbn. by rewrite E.
  - by rewrite !list_lookup_alter_ne.
Qed.

Lemma new_inode_wp s ty (Q : Z → mkfs → Prop) (R : mkfs → Prop) :
  inodes_ok s → (freeinode s < 64 → Q (freeinode s) (with_inode ty s)) → (freeinode s = 64 → ∀ s', R s') →
  wp (new_inode ty) Q R s.
Proof.
  intros I HQ HR. pose proof (io_next _ I) as Hx. unfold new_inode, MAX_DIR_ENTRIES. wp_step. wp_step. wp_step. wp_step.
  destruct (Z.geb_spec (freeinode s) 64); [apply wp_panic, HR; lia|]. wp_step.
  apply upd_file_inode_wp; [apply I|lia|]. wp_step.
  match goal with |- Q _ ?st => assert (st = with_inode ty s) as -> end; [|apply HQ; lia].
  unfold with_inode, set_file_inodes. cbn. f_equal.
  eapply zupdate_ext; [lia|apply ino_lookup; [apply I|lia]|].
  rewrite (io_unused _ I) by lia. done.
Qed.

Lemma ino_with_inode s ty n :
  inodes_ok s → freeinode s < 64 → 0 ≤ n →
  ino (with_inode ty s) n = if decide (n = freeinode s) then fresh_dinode ty else ino s n.
Proof.
  intros I Hlt Hn. pose proof (io_next _ I). pose proof (io_len _ I) as Hl. unfold with_inode. case_decide as E.
  - rewrite E, ino_upd; [done|exact Hl|lia].
  - rewrite ino_upd_ne; [done|exact Hl|lia|lia|done].
Qed.

Lemma fresh_dinode_ok ty : 0 ≤ ty < 65536 → dinode_ok (fresh_dinode ty).
Proof.
  intros. unfold dinode_ok, fresh_dinode. cbn [d_type major minor nlink size addrs d_pad].
  split_and!; try lia; try done; [|apply bytes_zeros]. apply Forall_replicate. lia.
Qed.

Lemma inodes_ok_new s ty :
  inodes_ok s → freeinode s < 64 → 0 ≤ ty < 65536 → inodes_ok (with_inode ty s).
Proof.
  intros I Hlt Hty. pose proof (io_next _ I) as Hx.
  assert (Hp : ∀ n sl, 0 ≤ n < 64 → slot_ok sl → ptr_of (with_inode ty s) n sl =
    if decide (n = freeinode s) then 0 else ptr_of s n sl).
  { intros n sl Hn Hsl. unfold ptr_of. rewrite ino_with_inode by (done || lia). case_decide; [|done].
    cbn [fresh_dinode addrs]. by rewrite dpv_zeros. }
  constructor.
  - destruct (io_base _ I). by constructor.
  - apply I.
  - cbn. unfold zupdate. rewrite length_alter. apply I.
  - cbn. lia.
  - intros n Hn. rewrite ino_with_inode by (done || lia). case_decide; [by apply fresh_dinode_ok|by apply I].
  - intros n Hn. cbn in Hn. rewrite ino_with_inode by (done || lia). rewrite decide_False by lia. apply I. lia.
  - intros n Hn. destruct (decide (n = freeinode s)) as [E|E].
    + eapply seg_ext; [|apply (seg_zeros (image s))]. intros sl Hsl. rewrite Hp, dpv_zeros by done. by rewrite decide_True.
    + eapply seg_ext; [|apply (io_seg _ I n Hn)]. intros sl Hsl. rewrite Hp by done. by rewrite decide_False.
  - intros n n' sl sl' Hn Hn' Hsl Hsl'. rewrite !Hp by done. repeat case_decide; try done; intros; try congruence.
    by eapply (io_apart _ I n n' sl sl').
  - intros n Hn. rewrite ino_with_inode by (done || lia). case_decide as E.
    + split; [|cbn; consts; lia]. eapply mapped_ext; [|apply (mapped_zeros (image s))].
      intros sl Hsl. rewrite Hp, dpv_zeros by done. by rewrite decide_True.
    + split; [|by apply I]. eapply mapped_ext; [|apply (io_map _ I n Hn)]. intros sl Hsl. rewrite Hp by done. by rewrite decide_False.
Qed.

Lemma ext_new s ty : inodes_ok s → freeinode s < 64 → ext s (with_inode ty s).
Proof.
  intros I Hlt. constructor; cbn; try done; [lia|..].
  - intros n Hn. rewrite ino_with_inode by (done || lia). by rewrite decide_False by lia.
  - intros i d Hd. exists d. done.
Qed.

(** ** A stored file *)

Lemma layout_range lo k hi sl : 0 < lo → 0 ≤ k → lo + cost k ≤ hi → slot_ok sl → 0 ≤ layout lo k sl < Z.max 1 hi.
Proof.
  intros Hlo Hk Hhi Hsl. destruct (layout_seg lo k Hlo Hk) as [Hr _].
  destruct (decide (layout lo k sl = 0)) as [->|Hv]; [lia|]. specialize (Hr sl Hsl Hv). lia.
Qed.

Section stored.
Context (s0 s : mkfs) (n : Z) (data : list Z).
Context (I : inodes_ok s0) (Hn : 1 ≤ n < freeinode s0) (HS : stored s0 s n data).
Let k := blocks_of (Z.of_nat (length data)).

Lemma stored_k : 0 ≤ k.
Proof using. apply Z.div_pos; lia. Qed.

Lemma stored_size : Z.of_nat (length data) ≤ MAXFILE * BSIZE.
Proof using HS.
  pose proof (st_max _ _ _ _ HS) as Hmax. unfold blocks_of in Hmax. consts.
  pose proof (Z.div_mod (Z.of_nat (length data) + 1023) 1024).
  pose proof (Z.mod_pos_bound (Z.of_nat (length data) + 1023) 1024). lia.
Qed.

Lemma stored_ptr m sl :
  0 ≤ m < 64 → slot_ok sl →
  ptr_of s m sl = if decide (m = n) then layout (freeblock s0) k sl else ptr_of s0 m sl.
Proof using I Hn HS.
  intros Hm Hsl. unfold ptr_of. case_decide as E; [rewrite E; by apply HS|].
  rewrite (wi_other _ _ _ (st_within _ _ _ _ HS)) by (done || lia).
  eapply dpv_same; [by apply (io_seg _ I m)| |done]. intros b Hb. apply (st_frame _ _ _ _ HS). lia.
Qed.

Lemma stored_dinode_ok : dinode_ok (ino s n).
Proof using I Hn HS.
  destruct (st_inode _ _ _ _ HS) as (a & Hl & Ea). rewrite Ea. pose proof (io_next _ I). pose proof (io_first _ I).
  destruct (io_ok _ I n ltac:(lia)) as (? & ? & ? & ? & ? & _ & _ & ? & ?).
  pose proof (st_free _ _ _ _ HS) as Hf. fold k in Hf.
  pose proof (ba_range _ (st_base _ _ _ _ HS)). pose proof stored_k.
  unfold dinode_ok, with_addrs, set_size. cbn [d_type major minor nlink size addrs d_pad].
  split_and!; try done; try lia.
  - pose proof stored_size. consts. lia.
  - apply Forall_lookup. intros i x Hi. pose proof (lookup_lt_Some _ _ _ Hi).
    pose proof (st_ptr _ _ _ _ HS (Root (Z.of_nat i)) ltac:(cbn; lia)) as E. rewrite Ea in E. cbn [dpv with_addrs addrs] in E.
    rewrite Nat2Z.id, (list_lookup_total_correct _ _ _ Hi) in E. rewrite E.
    pose proof (layout_range (freeblock s0) k 8192 (Root (Z.of_nat i)) ltac:(lia) ltac:(lia) ltac:(lia) ltac:(cbn; lia)).
    fold k. lia.
Qed.

Lemma stored_inodes_ok : inodes_ok s.
Proof using I Hn HS.
  pose proof (io_next _ I). pose proof (io_first _ I). pose proof stored_k as Hk.
  pose proof (st_free _ _ _ _ HS) as Hf. fold k in Hf. pose proof (cost_nonneg k Hk).
  pose proof (st_within _ _ _ _ HS) as HW. pose proof (layout_seg (freeblock s0) k ltac:(lia) Hk) as HL.
  constructor; [apply HS|lia|apply HW|rewrite (wi_next _ _ _ HW); lia|..].
  - intros m Hm. destruct (decide (m = n)) as [->|]; [apply stored_dinode_ok|].
    rewrite (wi_other _ _ _ HW) by (done || lia). by apply I.
  - intros m Hm. rewrite (wi_next _ _ _ HW) in Hm.
    rewrite (wi_other _ _ _ HW) by lia. by apply I.
  - intros m Hm. destruct (decide (m = n)) as [E|E].
    + eapply seg_ext; [intros sl Hsl; rewrite stored_ptr, decide_True by done; done|].
      destruct HL as [Hr Hi]. split; [|done]. intros sl Hsl Hv. specialize (Hr sl Hsl Hv). lia.
    + eapply seg_ext; [intros sl Hsl; rewrite stored_ptr, decide_False by done; done|].
      apply (seg_weaken _ _ (freeblock s0)); [lia|by apply I].
  - intros m m' sl sl' Hm Hm' Hsl Hsl'. rewrite !stored_ptr by done.
    destruct HL as [Hr _]. destruct (io_seg _ I m Hm) as [Hr1 _], (io_seg _ I m' Hm') as [Hr2 _].
    repeat case_decide; subst; try done; intros Hv E.
    + specialize (Hr sl Hsl Hv). specialize (Hr2 sl' Hsl'). lia.
    + specialize (Hr sl' Hsl'). specialize (Hr1 sl Hsl Hv). lia.
    + by eapply (io_apart _ I m m' sl sl').
  - intros m Hm. destruct (decide (m = n)) as [E|E].
    + destruct (st_inode _ _ _ _ HS) as (a & _ & Ea). rewrite E, Ea. cbn [with_addrs set_size size].
      split; [|pose proof stored_size; lia].
      eapply mapped_ext; [intros sl Hsl; rewrite <-E, stored_ptr, decide_True by done; done|]. apply layout_mapped; lia.
    + rewrite (wi_other _ _ _ HW) by (done || lia). split; [|by apply I].
      eapply mapped_ext; [intros sl Hsl; rewrite stored_ptr, decide_False by done; done|]. by apply I.
Qed.
End stored.

(** ** The contents of an inode *)

Definition holds (s : mkfs) (n : Z) (c : list Z) : Prop :=
  1 ≤ n < freeinode s ∧ size (ino s n) = Z.of_nat (length c) ∧
  ∀ x, 0 ≤ x < Z.of_nat (length c) →
    blk (image s) (ptr_of s n (leaf (x / 1024))) !!! Z.to_nat (x mod 1024) = c !!! Z.to_nat x.

Lemma holds_keep s s' n c :
  inodes_ok s → freeinode s ≤ freeinode s' → ino s' n = ino s n →
  (∀ b, b < freeblock s → blk (image s') b = blk (image s) b) → holds s n c → holds s' n c.
Proof.
  intros I Hx Hi Hb (Hn & Hs & Hd). pose proof (io_next _ I) as Hnx. split; [lia|]. rewrite Hi. split; [done|].
  destruct (io_map _ I n ltac:(lia)) as [_ Hsz]. consts.
  intros x Hx'. rewrite <-Hd by done. pose proof (io_seg _ I n ltac:(lia)) as HS.
  assert (0 ≤ x / 1024 < MAXFILE) by (consts; split; [apply Z.div_pos|apply Z.div_lt_upper_bound]; lia).
  assert (Hsl : slot_ok (leaf (x / 1024))) by by apply leaf_ok.
  assert (Hp : ptr_of s' n (leaf (x / 1024)) = ptr_of s n (leaf (x / 1024))).
  { unfold ptr_of. rewrite Hi. eapply dpv_same; [exact HS| |done]. intros b ?. apply Hb. lia. }
  rewrite Hp, Hb; [done|]. destruct (decide (ptr_of s n (leaf (x / 1024)) = 0)) as [->|Hv].
  - pose proof (io_first _ I). lia.
  - by apply HS.
Qed.

Lemma ext_holds s s' n c : inodes_ok s → ext s s' → holds s n c → holds s' n c.
Proof.
  intros I E Hh. destruct (Hh) as [Hn _].
  eapply holds_keep; [done|apply E|apply (ex_inodes _ _ E); lia|apply E|done].
Qed.

Section stored_holds.
Context (s0 s : mkfs) (n : Z) (data : list Z).
Context (I : inodes_ok s0) (Hn : 1 ≤ n < freeinode s0) (HS : stored s0 s n data).

Lemma stored_holds : holds s n data.
Proof using I Hn HS.
  pose proof (io_next _ I). rewrite <-(wi_next _ _ _ (st_within _ _ _ _ HS)) in Hn.
  destruct (st_inode _ _ _ _ HS) as (a & _ & Ea). split; [done|]. rewrite Ea. split; [done|]. intros x Hx.
  assert (Hk : 0 ≤ x / 1024 < blocks_of (Z.of_nat (length data))).
  { split; [apply Z.div_pos; lia|]. unfold blocks_of. apply Z.div_lt_upper_bound; [lia|].
    pose proof (Z.div_mod (Z.of_nat (length data) + 1023) 1024). pose proof (Z.mod_pos_bound (Z.of_nat (length data) + 1023) 1024). lia. }
  pose proof (st_max _ _ _ _ HS). unfold ptr_of. rewrite (st_ptr _ _ _ _ HS) by (apply leaf_ok; lia).
  rewrite layout_leaf by done. by apply (st_data _ _ _ _ HS).
Qed.

Lemma stored_holds_other m c : m ≠ n → holds s0 m c → holds s m c.
Proof using I HS.
  intros Hne Hh. destruct (Hh) as [Hm _]. pose proof (st_within _ _ _ _ HS) as HW. eapply holds_keep; [done|..|done].
  - by rewrite (wi_next _ _ _ HW).
  - apply (wi_other _ _ _ HW); [lia|done].
  - apply HS.
Qed.
End stored_holds.

(** ** Directories *)

Lemma dir_ok_mono s s' d :
  freeinode s ≤ freeinode s' → (∀ n, 1 ≤ n < freeinode s → ino s' n = ino s n) →
  dir_ok s d → dir_ok s' d.
Proof.
  intros Hx Ht [Hn Hty [Hl He]]. constructor; [lia|by rewrite Ht|]. split; [done|].
  eapply Forall_impl; [exact He|]. intros e [? ?]. split; [done|lia].
Qed.

(** A step that leaves the directories alone and makes none. *)
Lemma dirs_ok_same s s' :
  dirs_ok s → dirs s' = dirs s → freeinode s ≤ freeinode s' →
  (∀ n, 1 ≤ n < freeinode s → ino s' n = ino s n) →
  (∀ n, freeinode s ≤ n < freeinode s' → d_type (ino s' n) ≠ FT_DIRECTORY) → dirs_ok s'.
Proof.
  intros [Hr Hl He Hu Ha] Ed Hx Ht Hnew. constructor; rewrite ?Ed; try done.
  - lia.
  - eapply Forall_impl; [exact He|]. intros d. by apply dir_ok_mono.
  - intros n Hn Hd. destruct (decide (n < freeinode s)); [|exfalso; apply (Hnew n); [lia|done]].
    apply Ha; [lia|]. by rewrite <-Ht by lia.
Qed.

(** An entry is added to directory [i]. *)
Definition with_entry (i : nat) (e : fsdirent) (s : mkfs) : mkfs :=
  set_dirs (alter (λ d, MkfsDir (md_inum d) (md_path d) (entries d ++ [e])) i) s.

Lemma fmap_alter_same {A B} (f : A → B) (g : A → A) (i : nat) (l : list A) : (∀ x, f (g x) = f x) → f <$> alter g i l = f <$> l.
Proof.
  intros E. apply list_eq. intros j. rewrite !list_lookup_fmap. destruct (decide (i = j)) as [->|].
  - rewrite list_lookup_alter_eq. destruct (l !! j); cbn; by rewrite ?E.
  - by rewrite list_lookup_alter_ne.
Qed.

Lemma dirs_ok_entry s i d e :
  dirs_ok s → dirs s !! i = Some d → (length (entries d) < 64)%nat → entry_ok s e → dirs_ok (with_entry i e s).
Proof.
  intros [(d0 & l & Er & Hr1 & Hr2) Hl He Hu Ha] Hi Hlt Hok. unfold with_entry. constructor; cbn [dirs set_dirs].
  - rewrite Er. destruct i as [|i]; cbn; by eexists _, _.
  - by rewrite length_alter.
  - apply Forall_lookup. intros j d' Hj. rewrite Forall_lookup in He. destruct (decide (i = j)) as [->|].
    + rewrite list_lookup_alter_eq, Hi in Hj. injection Hj as <-. destruct (He _ _ Hi) as [? ? [Hlen Hf]].
      constructor; cbn; [done..|]. rewrite length_app. cbn. split; [lia|]. apply Forall_app. split; [done|]. by constructor.
    + rewrite list_lookup_alter_ne in Hj by done. destruct (He _ _ Hj). by constructor.
  - by rewrite fmap_alter_same.
  - intros n Hn Hd. rewrite fmap_alter_same by done. by apply Ha.
Qed.

Lemma ext_entry s i e : ext s (with_entry i e s).
Proof.
  constructor; cbn; try done. intros j d Hj. destruct (decide (i = j)) as [->|].
  - rewrite list_lookup_alter_eq, Hj. eexists. split; [done|]. split_and!; [done..|]. cbn. by apply prefix_app_r.
  - rewrite list_lookup_alter_ne by done. exists d. done.
Qed.

Lemma inodes_ok_dirs s f : inodes_ok s → inodes_ok (set_dirs f s).
Proof.
  intros [HB H1 H2 H3 H4 H5 H6 H7 H8]. constructor; try done. by destruct HB.
Qed.

(** A new, empty directory. *)
Definition with_dir (path : list Z) (es : list fsdirent) (s : mkfs) : mkfs :=
  set_dirs (λ l, l ++ [MkfsDir (freeinode s) path es]) (with_inode FT_DIRECTORY s).

Lemma with_dir_ok s path es :
  minv s → freeinode s < 64 → length es = 2%nat → Forall (entry_ok (with_dir path es s)) es →
  minv (with_dir path es s).
Proof.
  intros [I D] Hlt Hl2 Hes. pose proof (io_next _ I). unfold FT_DIRECTORY in *.
  split; [by apply inodes_ok_dirs, inodes_ok_new|].
  assert (Hino : ∀ n, 1 ≤ n < freeinode s → ino (with_inode 1 s) n = ino s n).
  { intros n Hn. rewrite ino_with_inode by (done || lia). by rewrite decide_False by lia. }
  destruct D as [(d0 & l & Er & Hr1 & Hr2) Hl He Hu Ha].
  assert (Hnew : freeinode s ∉ md_inum <$> dirs s).
  { intros (d & E & Hd)%list_elem_of_fmap. rewrite Forall_forall in He. destruct (He d Hd). lia. }
  constructor; cbn [dirs set_dirs with_dir with_inode set_file_inodes set_freeinode freeinode].
  - rewrite Er. by eexists _, _.
  - rewrite length_app. cbn. lia.
  - apply Forall_app. split.
    + eapply Forall_impl; [exact He|]. intros d [Hn Hty [Hel Hef]]. constructor; [cbn; lia| |].
      * change (ino (with_inode 1 s) (md_inum d) = fresh_dinode 1). by rewrite Hino by lia.
      * split; [done|]. eapply Forall_impl; [exact Hef|]. intros e [? ?]. split; [done|cbn; lia].
    + constructor; [|constructor]. constructor; cbn [md_inum entries]; [cbn; lia| |split; [lia|done]].
      change (ino (with_inode 1 s) (freeinode s) = fresh_dinode 1). rewrite ino_with_inode by (done || lia). by rewrite decide_True.
  - rewrite fmap_app. apply NoDup_app. split; [done|]. split; [|apply NoDup_singleton].
    intros x Hx. cbn. rewrite list_elem_of_singleton. intros ->. done.
  - intros n Hn Hd. rewrite fmap_app, elem_of_app. destruct (decide (n = freeinode s)) as [->|]; [right; by left|].
    left. apply Ha; [lia|]. rewrite <-Hino by lia. done.
Qed.

Lemma ext_dir s path es : inodes_ok s → freeinode s < 64 → ext s (with_dir path es s).
Proof.
  intros I Hlt. destruct (ext_new s FT_DIRECTORY I Hlt) as [E1 E2 E3 E4 E5]. constructor; try done.
  intros i d Hd. exists d. split; [|done]. cbn. by apply lookup_app_l_Some.
Qed.

(** * The disk image builder: its operations keep the invariant

    Whatever the staging directory contains, every operation either exits or
    ends in a state that satisfies [minv] and extends the one it started in. *)

(** Names and files are made of bytes. *)
Fixpoint host_bytes (d : hostdir) : Prop :=
  match d with
  | HEnd => True
  | HEntry name h rest =>
      bytes name ∧
      match h with
      | HFile (Some data) => bytes data
      | HDir _ d' => host_bytes d'
      | _ => True
      end ∧ host_bytes rest
  end.

Scheme hostdir_mut := Induction for hostdir Sort Prop
  with host_mut := Induction for host Sort Prop.

(** Induction over a staging directory and its subdirectories. *)
Lemma hostdir_ind' (P : hostdir → Prop) :
  P HEnd →
  (∀ name h rest, P rest → (∀ o d, h = HDir o d → P d) → P (HEntry name h rest)) →
  ∀ d, P d.
Proof.
  intros H0 H1. apply (hostdir_mut P (λ h, ∀ o d, h = HDir o d → P d)).
  - done.
  - intros name h Hh rest Hrest. by apply H1.
  - done.
  - intros o d Hd o' d' [= -> ->]. done.
  - done.
  - done.
Qed.

(** ** Paths *)

Lemma last_slash_some p a b : last_slash p = Some (a, b) → p = a ++ 47 :: b.
Proof.
  revert a b. induction p as [|c p IH]; intros a b; [done|]. cbn. destruct (last_slash p) as [[a' b']|].
  - intros [= <- <-]. cbn. f_equal. by apply IH.
  - destruct (Z.eqb_spec c 47) as [->|]; [|done]. by intros [= <- <-].
Qed.

Lemma split_path_parts p a b :
  split_path p = (a, b) → bytes p → bytes a ∧ bytes b ∧ (p ≠ [] → (length a < length p)%nat).
Proof.
  unfold split_path. intros E Hp. destruct (last_slash p) as [[a' b']|] eqn:El.
  - injection E as -> ->. apply last_slash_some in El. subst p. apply Forall_app in Hp as [Ha [_ Hb]%Forall_cons].
    split_and!; [done..|]. rewrite length_app. cbn. lia.
  - injection E as <- <-. split_and!; [constructor|done|]. destruct p; [done|]. cbn. lia.
Qed.

Lemma next_fs_bytes p name : bytes p → bytes name → bytes (next_fs p name).
Proof.
  intros Hp Hn. unfold next_fs. apply Forall_take. case_bool_decide; [done|].
  apply Forall_app. split; [done|]. constructor; [unfold is_byte; lia|done].
Qed.

Section ops.
Context (junk : Z → list Z → list Z) (junk_block : Z → list Z).
Context (Hjunk : ∀ n name, length (junk n name) = 30%nat ∧ bytes (junk n name)).
Context (Hblock : ∀ n, block_buf (junk_block n)).

Lemma new_dirent_ok s n name :
  1 ≤ n < freeinode s → freeinode s ≤ 64 → bytes name → (length name < 30)%nat → entry_ok s (new_dirent junk n name).
Proof using Hjunk.
  intros Hn Hx Hb Hl. destruct (Hjunk n name) as [Jl Jb]. assert (E : u16 n = n) by (apply Z.mod_small; lia).
  unfold new_dirent. split; cbn [de_inum]; [|lia]. split_and!; cbn [de_inum de_name]; [lia..| |].
  - rewrite length_app. cbn. rewrite length_drop. lia.
  - apply Forall_app. split; [done|]. constructor; [unfold is_byte; lia|by apply Forall_drop].
Qed.

Lemma add_entry_wp s p n name (Q : unit → mkfs → Prop) (R : mkfs → Prop) :
  (∀ i d, list_find (λ d, md_inum d = p) (dirs s) = Some (i, d) → (length (entries d) < 64)%nat →
    Q tt (with_entry i (new_dirent junk n name) s)) →
  ((∀ i d, list_find (λ d, md_inum d = p) (dirs s) = Some (i, d) → (64 ≤ length (entries d))%nat) → R s) →
  wp (add_entry junk p n name) Q R s.
Proof using.
  intros HQ HR. unfold add_entry. wp_step. wp_step. destruct (list_find _ _) as [[i d]|] eqn:E.
  - destruct (Nat.leb_spec 64 (length (entries d))).
    + apply wp_panic, HR. by intros ? ? [= <- <-].
    + wp_step. by eapply HQ.
  - apply wp_panic, HR. done.
Qed.

Lemma add_entry_inv s p n name (Q : unit → mkfs → Prop) (R : mkfs → Prop) :
  minv s → 1 ≤ n < freeinode s → bytes name → (length name < 30)%nat →
  (∀ s', minv s' → ext s s' → Q tt s') → (∀ s', R s') → wp (add_entry junk p n name) Q R s.
Proof using Hjunk.
  intros [I D] Hn Hb Hl HQ HR. pose proof (io_next _ I). apply add_entry_wp; [|done]. intros i d (Hi & _)%list_find_Some Hlt. apply HQ.
  - split; [by apply inodes_ok_dirs|]. eapply dirs_ok_entry; [done..|]. apply new_dirent_ok; done || lia.
  - apply ext_entry.
Qed.

(** One directory more, in a parent that exists. *)
Lemma make_dir_wp s path parent name (Q : Z → mkfs → Prop) (R : mkfs → Prop) :
  minv s → 1 ≤ parent < freeinode s → bytes name → (length name < 30)%nat →
  (freeinode s < 64 → let s1 := with_dir path [new_dirent junk (freeinode s) [46]; new_dirent junk parent [46; 46]] s in
    minv s1 → ext s s1 → wp (add_entry junk parent (freeinode s) name) (λ _, Q (freeinode s)) R s1) →
  (freeinode s = 64 → ∀ s', R s') →
  wp (inum ← new_inode FT_DIRECTORY;
    ds ← gets dirs;
    if (64 <=? length ds)%nat then fault else
    modify (set_dirs (λ l, l ++ [MkfsDir inum path [new_dirent junk inum [46]; new_dirent junk parent [46; 46]]]));;
    add_entry junk parent inum name;;
    mret inum) Q R s.
Proof using Hjunk.
  intros Hs Hp Hb Hl HQ HR. pose proof Hs as [I D]. pose proof (io_next _ I). wp_step. apply new_inode_wp; [done| |done].
  intros Hlt. wp_step. wp_step. cbn [with_inode dirs set_file_inodes set_freeinode]. pose proof (do_len _ D).
  destruct (Nat.leb_spec 64 (length (dirs s))); [lia|]. wp_step. wp_step. wp_step.
  eapply wp_conseq; [apply HQ; [done| |by apply ext_dir]|].
  - apply with_dir_ok; [done..|].
    constructor; [apply new_dirent_ok; cbn; [lia..|by repeat constructor|lia]|].
    constructor; [|constructor]. apply new_dirent_ok; cbn; [lia..|by repeat constructor|lia].
  - intros [] s' Hq. by apply wp_ret.
Qed.

Lemma get_or_create_inv fuel s path (Q : Z → mkfs → Prop) (R : mkfs → Prop) :
  minv s → bytes path → (length path < fuel)%nat →
  (∀ n s', minv s' → ext s s' → 1 ≤ n < freeinode s' → Q n s') → (∀ s', R s') →
  wp (get_or_create_dir junk fuel path) Q R s.
Proof using Hjunk.
  revert s path Q. induction fuel as [|fuel IH]; intros s path Q Hs Hp Hf HQ HR; [lia|].
  pose proof Hs as [I D]. pose proof (io_next _ I). cbn [get_or_create_dir].
  case_bool_decide as Ep; [apply wp_ret, HQ; [done|apply ext_refl|lia]|]. wp_step. wp_step.
  destruct (list_find _ _) as [[i d]|] eqn:El.
  { apply list_find_Some in El as (Hi & _). apply wp_ret, HQ; [done|apply ext_refl|].
    pose proof (Forall_lookup_1 _ _ _ _ (do_each _ D) Hi) as Hd. apply Hd. }
  destruct (split_path path) as [pp name] eqn:Es. destruct (split_path_parts _ _ _ Es Hp) as (Hb1 & Hb2 & Hlen).
  specialize (Hlen Ep). unfold DIRSIZ. destruct (Z.leb_spec 30 (Z.of_nat (length name))); [by apply wp_panic|].
  wp_step. apply IH; [done..|lia| |done]. intros p s1 Hs1 E1 Hp1.
  eapply make_dir_wp; [done..|lia| |done]. intros Hlt s2 Hs2 E2.
  pose proof (io_next _ (proj1 Hs1)). apply add_entry_inv; [done|unfold s2; cbn [freeinode set_dirs with_dir with_inode set_file_inodes set_freeinode]; lia|done|lia| |done].
  intros s3 Hs3 E3. apply HQ; [done| |].
  - eapply ext_trans; [done|]. by eapply ext_trans.
  - pose proof (ex_next _ _ E3) as Hx. change (freeinode s2) with (freeinode s1 + 1) in Hx. lia.
Qed.

(** What holds of inode [n] once a file is in it. *)
Definition file_is (s : mkfs) (n : Z) (data : list Z) : Prop :=
  d_type (ino s n) = FT_FILE ∧ holds s n data.

Lemma stored_minv s s' data :
  minv s → freeinode s < 64 → stored (with_inode FT_FILE s) s' (freeinode s) data →
  minv s' ∧ ext s s' ∧ file_is s' (freeinode s) data.
Proof using.
  intros [I D] Hlt HS. pose proof (io_next _ I). pose proof (inodes_ok_new s FT_FILE I Hlt ltac:(unfold FT_FILE; lia)) as I1.
  pose proof (stored_inodes_ok _ s' (freeinode s) data I1 ltac:(cbn; lia) HS) as I'. pose proof (st_within _ _ _ _ HS) as HW.
  assert (Hx : freeinode s' = freeinode s + 1) by (by rewrite (wi_next _ _ _ HW)).
  destruct (st_inode _ _ _ _ HS) as (a & _ & Ea). rewrite ino_with_inode, decide_True in Ea by (done || lia).
  assert (Hold : ∀ n, 0 ≤ n < freeinode s → ino s' n = ino s n).
  { intros n Hn. rewrite (wi_other _ _ _ HW), ino_with_inode by (done || lia). by rewrite decide_False by lia. }
  split; [split; [done|]|split].
  - eapply dirs_ok_same; [done|by rewrite (wi_dirs _ _ _ HW)|lia|intros n Hn; by rewrite Hold by lia|].
    intros n Hn. assert (n = freeinode s) as -> by lia. rewrite Ea. done.
  - pose proof (st_free _ _ _ _ HS) as Hf. cbn in Hf. pose proof (stored_k data) as Hk. pose proof (cost_nonneg _ Hk).
    constructor; [lia|apply HS|lia|done|]. intros i d Hd. exists d. by rewrite (wi_dirs _ _ _ HW).
  - split; [by rewrite Ea|]. eapply stored_holds; [exact I1|cbn; lia|exact HS].
Qed.

Lemma add_file_inv s data path (Q : unit → mkfs → Prop) (R : mkfs → Prop) :
  minv s → bytes path → (∀ l, data = Some l → bytes l) →
  (∀ s', minv s' → ext s s' → Q tt s') → (∀ s', R s') → wp (add_file junk junk_block data path) Q R s.
Proof using Hjunk Hblock.
  intros Hs Hp Hd HQ HR. pose proof Hs as [I D]. pose proof (io_next _ I). unfold add_file.
  destruct (split_path path) as [dp name] eqn:Es. destruct (split_path_parts _ _ _ Es Hp) as (Hb1 & Hb2 & _).
  destruct (MAX_PATH_LEN <=? length dp)%nat; [by apply wp_panic|]. unfold DIRSIZ.
  destruct (Z.leb_spec 30 (Z.of_nat (length name))); [by apply wp_panic|].
  destruct data as [data|]; [|by apply wp_panic]. wp_step. apply new_inode_wp; [done| |done]. intros Hlt.
  apply wp_then. pose proof (inodes_ok_new s FT_FILE I Hlt ltac:(unfold FT_FILE; lia)) as I1.
  pose proof (io_first _ I1).
  apply store_wp; [done|apply I1|apply I1|lia|lia|by apply Hd|rewrite ino_with_inode, decide_True by (done || lia); done..| |done].
  intros s1 HS. destruct (stored_minv s s1 data Hs Hlt HS) as (Hs1 & E1 & _ & Hn1 & _). wp_step.
  apply get_or_create_inv; [done..|lia| |done]. intros p s2 Hs2 E2 Hp2.
  apply add_entry_inv; [done|pose proof (ex_next _ _ E2); lia|done|lia| |done]. intros s3 Hs3 E3. apply HQ; [done|].
  eapply ext_trans; [done|]. by eapply ext_trans.
Qed.

Lemma traverse_inv d s path (Q : unit → mkfs → Prop) (R : mkfs → Prop) :
  minv s → bytes path → host_bytes d → (∀ s', minv s' → ext s s' → Q tt s') → (∀ s', R s') →
  wp (traverse_dir junk junk_block path d) Q R s.
Proof using Hjunk Hblock.
  revert s path Q. induction d as [|name h rest IHr IHd] using hostdir_ind'; intros s path Q Hs Hp Hh HQ HR.
  { apply wp_ret, HQ; [done|apply ext_refl]. }
  destruct Hh as (Hb & Hh & Hrest). cbn [traverse_dir]. wp_step.
  assert (Hgo : ∀ s1, minv s1 → ext s s1 → wp (traverse_dir junk junk_block path rest) Q R s1).
  { intros s1 Hs1 E1. apply IHr; [done..| |done]. intros s2 Hs2 E2. apply HQ; [done|by eapply ext_trans]. }
  destruct (bool_decide _ || bool_decide _); [apply wp_ret, Hgo; [done|apply ext_refl]|].
  pose proof (next_fs_bytes _ _ Hp Hb) as Hnp. destruct h as [data|o d| |].
  - apply add_file_inv; [done..| |by auto|done]. by intros l ->.
  - wp_step. apply get_or_create_inv; [done..|lia| |done]. intros n s1 Hs1 E1 _.
    destruct o; [|by apply wp_panic]. eapply IHd; [done..| |done]. intros s2 Hs2 E2. apply Hgo; [done|by eapply ext_trans].
  - apply wp_ret, Hgo; [done|apply ext_refl].
  - by apply wp_panic.
Qed.
End ops.
