(* ===== verification/MkfsImage.v ===== *)
(** * The disk image builder: directories, inodes and the bitmap

    What main does behind the traversal: every directory is stored like a file
    of entries, then the inode area and the bitmap are written. The last part looks at the
    finished image as the kernel does. *)

From S2P Require Import Prelude FsTypes Block Inode Dir FsInv FsAlloc FsMap FsGrow FsFile FsWrite FsTrunc FsCache.
From S2P Require Import Sample DirSpec FsRef Namei Mkfs MkfsInv MkfsFile MkfsAdd MkfsTree.

(** Cutting a concatenation of pieces of one length. *)
Lemma length_concat_pieces (ls : list (list Z)) L :
  Forall (λ l, length l = L) ls → length (concat ls) = (L * length ls)%nat.
Proof. induction 1 as [|l ls Hl _ IH]; [cbn; lia|]. cbn [concat length]. rewrite length_app. lia. Qed.

Lemma sub_concat_piece (ls : list (list Z)) L i x :
  Forall (λ l, length l = L) ls → ls !! i = Some x → sub (concat ls) (L * i) L = x.
Proof.
  intros H. revert i. induction H as [|l ls Hl _ IH]; intros [|i]; [done..| |]; cbn [lookup list_lookup concat].
  - intros [= ->]. rewrite Nat.mul_0_r. by apply sub_app_here.
  - intros Hi. rewrite (sub_app_skip _ _ L) by (done || lia). replace (L * S i - L)%nat with (L * i)%nat by lia. by apply IH.
Qed.

(** ** The bytes of a directory *)

Definition dir_bytes (es : list fsdirent) : list Z := concat (encode_dirent <$> es).

Lemma dirent_pieces es : Forall dirent_ok es → Forall (λ l, length l = 32%nat) (encode_dirent <$> es).
Proof. intros H. apply Forall_fmap. eapply Forall_impl; [exact H|]. apply length_encode_dirent. Qed.

Lemma dir_bytes_ok es : Forall dirent_ok es → length (dir_bytes es) = (32 * length es)%nat ∧ bytes (dir_bytes es).
Proof.
  intros H. split; [unfold dir_bytes; rewrite (length_concat_pieces _ 32), length_fmap; [done|by apply dirent_pieces]|].
  unfold dir_bytes, bytes. induction H as [|e es He _ IH]; [constructor|]. apply Forall_app. split; [by apply bytes_encode_dirent|done].
Qed.

(** Read back as a directory, they are the entries. *)
Lemma dirents_dir_bytes es : Forall dirent_ok es → dirents (dir_bytes es) = es ∧ dir_sized (dir_bytes es).
Proof.
  intros Hes. destruct (dir_bytes_ok es Hes) as [Hl _].
  assert (Hd : (length (dir_bytes es) / 32 = length es)%nat) by (rewrite Hl, Nat.mul_comm; by apply Nat.div_mul).
  split; [|unfold dir_sized; lia]. apply list_eq. intros k. destruct (decide (k < length es)%nat) as [Hk|Hk].
  - destruct (lookup_lt_is_Some_2 es k Hk) as [e He]. rewrite dirents_lookup, He by lia. f_equal. unfold dir_bytes.
    rewrite (sub_concat_piece _ 32 k (encode_dirent e)); [|by apply dirent_pieces|by rewrite list_lookup_fmap, He].
    apply decode_encode_dirent. by eapply Forall_lookup_1.
  - rewrite !lookup_ge_None_2; [done|lia|rewrite length_dirents; lia].
Qed.

(** ** Storing a directory *)

Record dir_state (s0 s : mkfs) (n : Z) (c : list Z) (k : Z) : Prop := DirState {
  ds_base : base s;
  ds_within : within s0 s n;
  ds_free : freeblock s = freeblock s0 + k;
  ds_frame : ∀ b, b < freeblock s0 → blk (image s) b = blk (image s0) b;
  ds_inode : ∃ a, length a = 14%nat ∧ ino s n = with_addrs a (set_size (Z.of_nat (length c)) (ino s0 n)) ∧
    ∀ i, 0 ≤ i < 14 → a !!! Z.to_nat i = if i <? k then freeblock s0 + i else 0;
  ds_data : ∀ x, 0 ≤ x < Z.min (1024 * k) (Z.of_nat (length c)) →
    blk (image s) (freeblock s0 + x / 1024) !!! Z.to_nat (x mod 1024) = c !!! Z.to_nat x
}.

Lemma dir_state_stored s0 s n c k :
  0 < freeblock s0 → 0 ≤ k ≤ 12 → blocks_of (Z.of_nat (length c)) = k → dir_state s0 s n c k → stored s0 s n c.
Proof.
  intros Hlo Hk Ek [HB HW Hf Hfr (a & Hl & Ea & Hp) Hd].
  assert (Hc : ∀ j, j ≤ 12 → cost j = j) by (intros; unfold cost; zb; lia).
  assert (Hlen : Z.of_nat (length c) ≤ 1024 * k).
  { unfold blocks_of in Ek. pose proof (Z.div_mod (Z.of_nat (length c) + 1023) 1024).
    pose proof (Z.mod_pos_bound (Z.of_nat (length c) + 1023) 1024). lia. }
  constructor; rewrite ?Ek, ?Hc by lia; try done.
  - consts. lia.
  - by exists a.
  - intros sl Hsl. rewrite Ea. cbn [with_addrs addrs]. apply dpv_layout; [done|lia|..|done]; try lia.
    intros i Hi. rewrite Hp by done. cbn [layout]. repeat zcase; lia.
  - intros x Hx. assert (x / 1024 < k) by (apply Z.div_lt_upper_bound; lia).
    rewrite Hc by lia. apply Hd. lia.
Qed.

Lemma pad_block_ok l : bytes l → block_buf (pad_block l).
Proof.
  intros. unfold pad_block. split; [rewrite length_take, length_app, length_zeros; lia|].
  apply Forall_take, Forall_app. split; [done|apply bytes_zeros].
Qed.

Lemma dir_round s0 s n c k f :
  bytes c → 0 ≤ n < 64 → 0 ≤ k < 12 → base (set_free_bitmap f (set_freeblock (freeblock s + 1) s)) → dir_state s0 s n c k →
  dir_state s0 (set_file_inodes (zupdate n (set_addr k (freeblock s)))
    (set_image (set_blk (freeblock s) (pad_block (sub c (Z.to_nat (k * 1024)) 1024)))
      (set_free_bitmap f (set_freeblock (freeblock s + 1) s)))) n c (k + 1).
Proof.
  intros Hc Hn Hk HB1 [HB HW Hf Hfr (a & Hl & Ea & Hp) Hd]. pose proof (wi_len _ _ _ HW) as Hlen.
  pose proof (pad_block_ok _ (bytes_sub c (Z.to_nat (k * 1024)) 1024 Hc)) as Hbuf. constructor.
  - by apply base_inodes, base_write.
  - eapply within_trans; [done|]. eapply within_trans; [|by apply within_upd]. by constructor.
  - cbn. lia.
  - intros b Hb. cbn. rewrite blk_set_blk_ne by lia. by apply Hfr.
  - exists (<[Z.to_nat k := freeblock s]> a). rewrite length_insert. split; [done|]. split.
    + rewrite ino_upd by done. change (ino (set_image _ _) n) with (ino s n). by rewrite Ea.
    + intros i Hi. rewrite lookup_total_insert_if by lia. case_decide; [zb; lia|]. rewrite Hp by done. repeat zcase; lia.
  - intros x Hx. cbn. destruct (decide (x < 1024 * k)).
    + assert (x / 1024 < k) by (apply Z.div_lt_upper_bound; lia). rewrite blk_set_blk_ne by lia. apply Hd. lia.
    + assert (Ek : x / 1024 = k) by (symmetry; apply (Z.div_unique _ _ _ (x - 1024 * k)); lia).
      assert (Em : x mod 1024 = x - 1024 * k) by (symmetry; apply (Z.mod_unique _ _ k); lia).
      rewrite Ek, <-Hf, blk_set_blk_eq, Em by done. unfold pad_block. rewrite !list_lookup_total_alt, lookup_take_lt by lia.
      rewrite lookup_app_l by (unfold sub; rewrite length_take, length_drop; lia).
      rewrite lookup_sub by lia. do 2 f_equal. lia.
Qed.

Lemma write_dir_wp s d (Q : unit → mkfs → Prop) (R : mkfs → Prop) :
  base s → length (file_inodes s) = 64%nat → 0 < freeblock s → 0 ≤ md_inum d < 64 →
  ino s (md_inum d) = fresh_dinode FT_DIRECTORY → Forall dirent_ok (entries d) → (length (entries d) ≤ 64)%nat →
  (∀ s', stored s s' (md_inum d) (dir_bytes (entries d)) → Q tt s') →
  (8192 < freeblock s + blocks_of (32 * Z.of_nat (length (entries d))) → ∀ s', R s') →
  wp (write_dir d) Q R s.
Proof.
  intros HB Hl Hlo Hn Hi He H64 HQ HR. destruct (dir_bytes_ok _ He) as [Hlen Hby].
  unfold write_dir. fold (dir_bytes (entries d)). set (c := dir_bytes (entries d)) in *. consts.
  assert (Ebk : (Z.of_nat (length (entries d)) * 32 + 1024 - 1) / 1024 = blocks_of (Z.of_nat (length c))).
  { unfold blocks_of. f_equal. lia. }
  assert (Elen : Z.of_nat (length c) = 32 * Z.of_nat (length (entries d))) by lia. rewrite <-Elen in HR.
  rewrite Ebk. set (K := blocks_of (Z.of_nat (length c))) in *.
  assert (HK : 0 ≤ K ≤ 12).
  { unfold K, blocks_of. split; [apply Z.div_pos; lia|]. apply Z.lt_succ_r, Z.div_lt_upper_bound; lia. }
  wp_step. apply upd_file_inode_wp; [done..|]. zb.
  eapply wp_loop with (k := Z.to_nat K) (I := λ m k s', m = Z.to_nat (K - k) ∧ 0 ≤ k ≤ K ∧ dir_state s s' (md_inum d) c k); [|split_and!; [lia..|]|lia].
  - intros m k s1 (-> & Hk & HD). destruct (Z.ltb_spec k K) as [Hlt|].
    + wp_step. apply mballoc_wp; [apply HD| |intros Hfull; apply HR; rewrite (ds_free _ _ _ _ _ HD) in Hfull; lia].
      intros Hfb bm s2 HB2. wp_step. apply mwrite_wp; [pose proof (ba_range _ (ds_base _ _ _ _ _ HD)); lia|].
      wp_step. apply upd_file_inode_wp; [apply (ds_within _ _ _ _ _ HD)|done|]. wp_step.
      exists (Z.to_nat (K - (k + 1))). split; [lia|]. split; [done|]. split; [lia|]. by apply dir_round; [..|lia| |].
    + wp_step. apply HQ. assert (k = K) as -> by lia. by eapply dir_state_stored.
  - constructor.
    + by apply base_inodes.
    + by apply within_upd.
    + cbn. lia.
    + done.
    + exists (zeros 14). split; [done|]. rewrite ino_upd by done. rewrite Hi. split.
      * unfold with_addrs, set_size. cbn. f_equal. lia.
      * intros i Hi'. rewrite zeros_total by lia. by zb.
    + intros x Hx. lia.
Qed.

(** ** All directories *)

Fixpoint dirs_cost (ds : list mkfs_dir) : Z :=
  match ds with
  | [] => 0
  | d :: ds => blocks_of (32 * Z.of_nat (length (entries d))) + dirs_cost ds
  end.

Record dirs_written (ds : list mkfs_dir) (s s' : mkfs) : Prop := DirsWritten {
  dw_ok : inodes_ok s';
  dw_dirs : dirs s' = dirs s;
  dw_next : freeinode s' = freeinode s;
  dw_free : freeblock s' = freeblock s + dirs_cost ds;
  dw_low : ∀ b, b < freeblock s → blk (image s') b = blk (image s) b;
  dw_type : ∀ n, 0 ≤ n → d_type (ino s' n) = d_type (ino s n);
  dw_holds : ∀ d, d ∈ ds → holds s' (md_inum d) (dir_bytes (entries d));
  dw_other : ∀ m c, (m ∉ md_inum <$> ds) → holds s m c → holds s' m c
}.

Lemma dirs_cost_nonneg ds : 0 ≤ dirs_cost ds.
Proof.
  induction ds as [|d ds IH]; cbn; [done|].
  assert (0 ≤ blocks_of (32 * Z.of_nat (length (entries d)))) by (apply Z.div_pos; lia). lia.
Qed.

Lemma dirs_written_nil s : inodes_ok s → dirs_written [] s s.
Proof. intros I. constructor; try done; [cbn; lia|]. intros d Hd. by apply elem_of_nil in Hd. Qed.

Lemma dirs_written_cons d ds s s1 s2 :
  inodes_ok s → dir_ok s d → (md_inum d ∉ md_inum <$> ds) →
  stored s s1 (md_inum d) (dir_bytes (entries d)) → dirs_written ds s1 s2 → dirs_written (d :: ds) s s2.
Proof.
  intros I [Hn Hty [Hl He]] Hnot HS [W1 W2 W3 W4 W5 W6 W7 W8]. pose proof (st_within _ _ _ _ HS) as HW.
  pose proof (st_free _ _ _ _ HS) as Hf. pose proof (io_first _ I). pose proof (io_next _ I).
  assert (Hde : Forall dirent_ok (entries d)) by (eapply Forall_impl; [exact He|]; by intros e []).
  destruct (dir_bytes_ok _ Hde) as [Hlen _].
  assert (Hbk : blocks_of (Z.of_nat (length (dir_bytes (entries d)))) = blocks_of (32 * Z.of_nat (length (entries d)))).
  { rewrite Hlen. f_equal. lia. }
  assert (Hc : cost (blocks_of (32 * Z.of_nat (length (entries d)))) = blocks_of (32 * Z.of_nat (length (entries d)))).
  { assert (blocks_of (32 * Z.of_nat (length (entries d))) < 12) by (apply Z.div_lt_upper_bound; lia). unfold cost. zb. lia. }
  assert (0 ≤ blocks_of (32 * Z.of_nat (length (entries d)))) by (apply Z.div_pos; lia).
  rewrite Hbk, Hc in Hf. constructor.
  - done.
  - by rewrite W2, (wi_dirs _ _ _ HW).
  - by rewrite W3, (wi_next _ _ _ HW).
  - cbn. lia.
  - intros b Hb. rewrite W5 by lia. by apply HS.
  - intros n Hn'. rewrite W6 by done. destruct (decide (n = md_inum d)) as [->|Hne]; [|by rewrite (wi_other _ _ _ HW)].
    destruct (st_inode _ _ _ _ HS) as (a & _ & ->). done.
  - intros d' [-> | Hd']%elem_of_cons; [|by apply W7]. apply W8; [done|]. by apply (stored_holds s s1 (md_inum d)).
  - intros m c Hm Hh. apply not_elem_of_cons in Hm as [Hm1 Hm2]. apply W8; [done|]. by apply (stored_holds_other s s1 (md_inum d) (dir_bytes (entries d))).
Qed.

Lemma write_dirs_wp ds s (Q : unit → mkfs → Prop) (R : mkfs → Prop) :
  inodes_ok s → NoDup (md_inum <$> ds) → Forall (dir_ok s) ds →
  (∀ s', dirs_written ds s s' → Q tt s') → (8192 < freeblock s + dirs_cost ds → ∀ s', R s') →
  wp (for_each write_dir ds) Q R s.
Proof.
  revert s Q. induction ds as [|d ds IH]; intros s Q I Hnd Hds HQ HR; cbn [for_each].
  { apply wp_ret, HQ. by apply dirs_written_nil. }
  apply NoDup_cons in Hnd as [Hnot Hnd]. apply Forall_cons in Hds as [Hd Hds]. pose proof Hd as [Hn Hty [Hl He]].
  assert (Hde : Forall dirent_ok (entries d)) by (eapply Forall_impl; [exact He|]; by intros e []).
  pose proof (io_first _ I). pose proof (io_next _ I). pose proof (dirs_cost_nonneg ds). cbn [dirs_cost] in HR.
  wp_step. apply write_dir_wp; [apply I|apply I|lia|lia|done|done|lia| |intros; apply HR; lia].
  intros s1 HS. pose proof (stored_inodes_ok _ _ _ _ I Hn HS) as I1. pose proof (st_within _ _ _ _ HS) as HW.
  apply IH; [done..| | |].
  - rewrite Forall_forall in Hds |- *. intros d' Hd'. destruct (Hds d' Hd') as [Hn' Hty' [Hl' He']].
    constructor; rewrite ?(wi_next _ _ _ HW); [done| |].
    + rewrite (wi_other _ _ _ HW); [done|lia|]. intros E. apply Hnot. rewrite <-E. by apply list_elem_of_fmap_2.
    + split; [done|]. unfold entry_ok in *. by rewrite (wi_next _ _ _ HW).
  - intros s2 W. apply HQ. by eapply dirs_written_cons.
  - intros Hbad. apply HR. rewrite (st_free _ _ _ _ HS) in Hbad.
    destruct (dir_bytes_ok _ Hde) as [Hlen _]. rewrite Hlen in Hbad.
    replace (Z.of_nat (32 * length (entries d))) with (32 * Z.of_nat (length (entries d))) in Hbad by lia.
    assert (blocks_of (32 * Z.of_nat (length (entries d))) < 12) by (apply Z.div_lt_upper_bound; lia).
    unfold cost in Hbad. revert Hbad. zb. lia.
Qed.

(** ** The inode area and the bitmap *)

(** What the finished image [dk] says of the tables [s] it was written from. *)
Record built (s : mkfs) (dk : disk) : Prop := Built {
  bt_disk : disk_ok dk ∧ sectors dk = 16384;
  bt_super : blk dk 1 = blk (image s) 1;
  bt_bits : ∀ b, 0 ≤ b < 8192 → marked (blk dk 6) b = (b <? freeblock s);
  bt_inodes : ∀ n, 0 ≤ n < 32 →
    decode_dinode (sub (blk dk (2 + n / 8)) (Z.to_nat (128 * (n mod 8))) 128) = ino s n;
  bt_data : ∀ b, 7 ≤ b → blk dk b = blk (image s) b
}.

Definition inode_area (l : list dinode) (b : Z) : list Z :=
  concat ((λ idx,
    let inum := (b - 2) * IPB + idx in
    if (1 <=? inum) && (inum <? MAX_DIR_ENTRIES) then encode_dinode (default dinode_zero (zlookup l inum)) else zeros 128)
    <$> seqZ 0 8).

Lemma inode_piece s b idx :
  inodes_ok s → 2 ≤ b ≤ 5 → 0 ≤ idx < 8 →
  (let inum := (b - 2) * IPB + idx in
   if (1 <=? inum) && (inum <? MAX_DIR_ENTRIES) then encode_dinode (default dinode_zero (zlookup (file_inodes s) inum))
   else zeros 128) = encode_dinode (ino s ((b - 2) * 8 + idx)).
Proof.
  intros I Hb Hi. consts. unfold MAX_DIR_ENTRIES. cbv zeta. destruct (Z.leb_spec 1 ((b - 2) * 8 + idx)); zb.
  - rewrite zlookup_nat by lia. rewrite (ino_lookup s) by (apply I || lia). done.
  - replace ((b - 2) * 8 + idx) with 0 by lia. rewrite (io_unused _ I 0) by lia. by vm_compute.
Qed.

Lemma inode_area_ok s b :
  inodes_ok s → 2 ≤ b ≤ 5 → block_buf (inode_area (file_inodes s) b) ∧
  ∀ i, 0 ≤ i < 8 → sub (inode_area (file_inodes s) b) (Z.to_nat (128 * i)) 128 = encode_dinode (ino s ((b - 2) * 8 + i)).
Proof.
  intros I Hb.
  assert (E : inode_area (file_inodes s) b = concat ((λ i, encode_dinode (ino s ((b - 2) * 8 + i))) <$> seqZ 0 8)).
  { unfold inode_area. f_equal. apply list_fmap_ext. intros j i Hi. apply lookup_seqZ in Hi as [-> ?].
    by apply inode_piece; [..|lia]. }
  assert (Hp : Forall (λ l, length l = 128%nat) ((λ i, encode_dinode (ino s ((b - 2) * 8 + i))) <$> seqZ 0 8)).
  { apply Forall_fmap, Forall_forall. intros i Hi%elem_of_seqZ. apply length_encode_dinode, I. lia. }
  rewrite E. split; [split|].
  - by rewrite (length_concat_pieces _ 128), length_fmap.
  - apply Forall_concat, Forall_fmap, Forall_forall. intros i Hi%elem_of_seqZ. apply bytes_encode_dinode, I. lia.
  - intros i Hi. replace (Z.to_nat (128 * i)) with (128 * Z.to_nat i)%nat by lia. apply sub_concat_piece; [done|].
    rewrite list_lookup_fmap, lookup_seqZ_lt by lia. cbn [fmap option_fmap option_map]. by replace (0 + Z.of_nat (Z.to_nat i)) with i by lia.
Qed.

Lemma write_inodes_wp s b (Q : unit → mkfs → Prop) R :
  0 ≤ b < 8192 → Q tt (set_image (set_blk b (inode_area (file_inodes s) b)) s) → wp (write_inodes b) Q R s.
Proof. intros Hb HQ. unfold write_inodes. wp_step. wp_step. by apply mwrite_wp. Qed.

Lemma finish_image_wp s (Q : unit → mkfs → Prop) R :
  inodes_ok s → (∀ s', built s (image s') → freeinode s' = freeinode s → Q tt s') →
  wp (for_each write_inodes (seqZ 2 4);; bm ← gets free_bitmap; write_block 6 bm) Q R s.
Proof.
  intros I HQ. change (seqZ 2 4) with [2; 3; 4; 5]. cbn [for_each].
  wp_step. wp_step. apply write_inodes_wp; [lia|]. wp_step. apply write_inodes_wp; [lia|]. wp_step. apply write_inodes_wp; [lia|].
  wp_step. apply write_inodes_wp; [lia|]. wp_step. wp_step. wp_step. apply mwrite_wp; [lia|]. apply HQ; [|done].
  assert (HA : ∀ b, 2 ≤ b ≤ 5 → block_buf (inode_area (file_inodes s) b)) by (intros; by apply inode_area_ok).
  pose proof (ba_bm _ (io_base _ I)) as HM. cbn [image set_image file_inodes free_bitmap]. constructor.
  - split; [|apply I]. repeat apply disk_ok_set_blk; [apply I|apply HA; lia..|done].
  - by rewrite !blk_set_blk_ne by lia.
  - intros b Hb. rewrite blk_set_blk_eq by done. by apply (ba_marked _ (io_base _ I)).
  - intros n Hn. pose proof (Z.div_mod n 8). pose proof (Z.mod_pos_bound n 8).
    assert (Hq : 0 ≤ n / 8 < 4) by (split; [apply Z.div_pos|apply Z.div_lt_upper_bound]; lia).
    match goal with |- decode_dinode (sub ?x _ _) = _ => assert (x = inode_area (file_inodes s) (2 + n / 8)) as -> end.
    { rewrite blk_set_blk_ne by lia.
      assert (n / 8 = 0 ∨ n / 8 = 1 ∨ n / 8 = 2 ∨ n / 8 = 3) as [E|[E|[E|E]]] by lia; rewrite E; cbn [Z.add Pos.add Pos.succ];
      rewrite ?blk_set_blk_ne by lia; apply blk_set_blk_eq, HA; lia. }
    rewrite (proj2 (inode_area_ok s (2 + n / 8) I ltac:(lia))) by lia.
    replace ((2 + n / 8 - 2) * 8 + n mod 8) with n by lia. apply decode_encode_dinode, I. lia.
  - intros b Hb. by rewrite !blk_set_blk_ne by lia.
Qed.

(** ** main *)

Section main.
Context (junk : Z → list Z → list Z) (junk_block : Z → list Z).
Context (Hjunk : ∀ n name, length (junk n name) = 30%nat ∧ bytes (junk n name)).

(** The state in front of the traversal. *)
Definition mkfs_start : mkfs :=
  Mkfs (set_blk 1 (pad_block (encode_superblock mkfs_sb)) (Disk 16384 ∅)) (127 :: zeros 1023) 7 2
  [MkfsDir 1 [] [new_dirent junk 1 [46]; new_dirent junk 1 [46; 46]]]
  (alter (λ _, fresh_dinode FT_DIRECTORY) 1%nat (replicate 64 dinode_zero)).

Lemma start_base : base mkfs_start.
Proof using.
  constructor.
  - apply disk_ok_set_blk; [split; [cbn; lia|done]|]. apply pad_block_ok, bytes_unwords.
  - done.
  - split; [done|]. apply (bool_decide_unpack _). by vm_compute.
  - cbn. lia.
  - intros b Hb. pose proof (Z.div_mod b 8). pose proof (Z.mod_pos_bound b 8). cbn [free_bitmap freeblock mkfs_start]. unfold marked.
    assert (0 ≤ b / 8 < 1024) by (split; [apply Z.div_pos|apply Z.div_lt_upper_bound]; lia).
    destruct (decide (b / 8 = 0)) as [E|E].
    + rewrite E. cbn [Z.to_nat lookup_total list_lookup_total].
      assert (b = 0 ∨ b = 1 ∨ b = 2 ∨ b = 3 ∨ b = 4 ∨ b = 5 ∨ b = 6 ∨ b = 7) as Hc by lia.
      by repeat (destruct Hc as [-> | Hc]; [done|]); subst.
    + replace (Z.to_nat (b / 8)) with (S (Z.to_nat (b / 8 - 1))) by lia. cbn [lookup_total list_lookup_total].
      rewrite zeros_total, Z.testbit_0_l by lia. by zb.
Qed.

Lemma start_ino n : 0 ≤ n < 64 → ino mkfs_start n = if decide (n = 1) then fresh_dinode FT_DIRECTORY else dinode_zero.
Proof using.
  intros Hn. unfold ino. cbn [file_inodes mkfs_start]. apply list_lookup_total_correct. case_decide.
  - subst. done.
  - rewrite list_lookup_alter_ne by lia. apply lookup_replicate_2. lia.
Qed.

Lemma start_minv : minv mkfs_start.
Proof using Hjunk.
  assert (Hz : dinode_ok dinode_zero) by (apply (bool_decide_unpack _); by vm_compute).
  assert (Hp : ∀ n sl, 0 ≤ n < 64 → slot_ok sl → ptr_of mkfs_start n sl = 0).
  { intros n sl Hn Hsl. unfold ptr_of. rewrite start_ino by done. by case_decide; apply dpv_zeros. }
  split; constructor.
  - apply start_base.
  - done.
  - cbn [file_inodes mkfs_start]. by rewrite length_alter.
  - cbn. lia.
  - intros n Hn. rewrite start_ino by done. case_decide; [by apply fresh_dinode_ok|done].
  - intros n Hn. cbn [freeinode mkfs_start] in Hn. rewrite start_ino by lia. by rewrite decide_False by lia.
  - intros n Hn. eapply seg_ext; [|apply (seg_zeros (image mkfs_start))]. intros sl Hsl. by rewrite Hp, dpv_zeros.
  - intros n n' sl sl' Hn Hn' Hsl Hsl' Hv. by rewrite Hp in Hv.
  - intros n Hn. rewrite start_ino by done. split; [|case_decide; cbn; consts; lia].
    eapply mapped_ext; [|replace (blocks_of _) with 0 by (by case_decide); apply (mapped_zeros (image mkfs_start))].
    intros sl Hsl. by rewrite Hp, dpv_zeros.
  - by eexists _, _.
  - cbn. lia.
  - constructor; [|constructor]. constructor; [cbn; lia|rewrite start_ino by (cbn; lia); done|]. split; [cbn; lia|].
    do 2 (constructor; [apply new_dirent_ok; cbn; [done|lia|lia|by repeat constructor|lia]|]). constructor.
  - apply NoDup_singleton.
  - intros n Hn Hd. cbn [freeinode mkfs_start] in Hn. assert (n = 1) as -> by lia. cbn. by left.
Qed.

(** What main leaves when the traversal leaves [s0]. *)
Record finished (s0 s1 s : mkfs) : Prop := Finished {
  fn_minv : minv s0;
  fn_dirs : dirs_written (dirs s0) s0 s1;
  fn_built : built s1 (image s);
  fn_super : blk (image s) 1 = pad_block (encode_superblock mkfs_sb);
  fn_next : freeinode s = freeinode s0
  }.

Lemma main_wp (st : option (bool * hostdir)) (P : mkfs → Prop) (Q : unit → mkfs → Prop) (R : mkfs → Prop) :
  wp (match st with
      | Some (opened, d) => if opened then traverse_dir junk junk_block [] d else panic
      | None => mret tt
      end) (λ _ s, minv s ∧ ext mkfs_start s ∧ P s) R mkfs_start →
  (∀ s0 s1 s, P s0 → finished s0 s1 s → Q tt s) →
  (∀ s0, P s0 → minv s0 → 8192 < freeblock s0 + dirs_cost (dirs s0) → ∀ s, R s) →
  wp (mkfs_main junk junk_block st) Q R mkfs_init.
Proof using.
  intros HT HQ HR. unfold mkfs_main. wp_step.
  assert (E1 : for_each mark_allocated (seqZ 0 7) mkfs_init = Ok tt (set_free_bitmap (λ _, 127 :: zeros 1023) mkfs_init))
    by (vm_compute; done).
  eapply wp_ok; [exact E1|]. wp_step. apply mwrite_wp; [lia|]. wp_step. apply upd_file_inode_wp; [done|lia|]. wp_step. wp_step. wp_step.
  match goal with |- wp _ _ _ ?x => assert (x = mkfs_start) as -> by done end.
  eapply wp_conseq; [exact HT|]. intros _ s0 (Hs & E & HP). wp_step. wp_step. wp_step. pose proof Hs as [I D].
  apply write_dirs_wp; [done|apply D|apply D| |by apply (HR s0)].
  intros s1 W. apply finish_image_wp; [apply W|]. intros s HB Hx. eapply (HQ s0 s1); [done|]. constructor; try done.
  - rewrite (bt_super _ _ HB). pose proof (io_first _ I). rewrite (dw_low _ _ _ W) by lia.
    rewrite (ex_blocks _ _ E) by (cbn; lia). apply blk_set_blk_eq. apply pad_block_ok, bytes_unwords.
  - rewrite Hx. apply W.
Qed.
End main.

(** * The disk image builder: the image as the kernel sees it

    A kernel whose device holds a finished image, with nothing cached, is in a
    state that satisfies the invariant of the filesystem code. *)

(** Device [d] holds [dk], and its superblock has been read. *)
Record holds_image (t : fs) (d : Z) (dk : disk) : Prop := HoldsImage {
  hi_devs : devs_ok t;
  hi_dev : dev_valid d;
  hi_sbs : length (sb t) = 2%nat;
  hi_disk : disk_of t d = dk;
  hi_sb : sbof t d = mkfs_sb
}.

Definition cache_empty (t : fs) : Prop := inode_table t = replicate NINODE inode_zero.

Section view.
Context (s : mkfs) (dk : disk) (t : fs) (d : Z).
Context (I : inodes_ok s) (B : built s dk) (H : holds_image t d dk).

Lemma image_inode_ok n : inode_ok t d n ↔ 1 ≤ n < 32.
Proof using H. unfold inode_ok. by rewrite (hi_sb _ _ _ H). Qed.

Lemma image_key n : 1 ≤ n < 32 → on_disk t d n = key (ino s n).
Proof using B H.
  intros Hn. unfold on_disk, dnode, fblk. rewrite (hi_sb _ _ _ H), (hi_disk _ _ _ H).
  assert (0 ≤ n / 8 < 4) by (split; [apply Z.div_pos|apply Z.div_lt_upper_bound]; lia).
  unfold inode_block, inode_offset. consts. cbn [mkfs_sb inodestart]. rewrite u32_small by lia.
  rewrite (Z.mul_comm _ 128), (bt_inodes _ _ B) by lia. done.
Qed.

Lemma image_pv n sl : 1 ≤ n < 32 → slot_ok sl → pv t d (k_addrs (on_disk t d n)) sl = ptr_of s n sl.
Proof using I B H.
  intros Hn Hsl. rewrite image_key, pv_dpv, (hi_disk _ _ _ H) by done. unfold ptr_of. cbn [key k_addrs].
  eapply dpv_same; [apply (io_seg _ I n); lia| |done]. intros b Hb. apply (bt_data _ _ B). lia.
Qed.

Lemma image_allocated b : 0 ≤ b < 8192 → allocated t d b = (b <? freeblock s).
Proof using B H.
  intros Hb. unfold allocated, bitmap, fblk. rewrite (hi_sb _ _ _ H), (hi_disk _ _ _ H).
  change (bmapstart mkfs_sb) with 6. by apply (bt_bits _ _ B).
Qed.

Lemma image_wf : wf t d (on_disk t d).
Proof using I B H.
  pose proof (io_first _ I). pose proof (ba_range _ (io_base _ I)).
  constructor; try (apply H || (setoid_rewrite image_inode_ok)).
  - rewrite (hi_sb _ _ _ H), (hi_disk _ _ _ H). destruct (bt_disk _ _ B) as [_ Hs].
    unfold geom_ok, mkfs_sb, DISK_SIZE_BLOCKS, MAX_DIR_ENTRIES. cbn [inodestart bmapstart nblocks ninodes]. rewrite Hs. lia.
  - intros n Hn. rewrite image_key by done. cbn. apply (io_ok _ I n). lia.
  - intros b. rewrite (hi_sb _ _ _ H). cbn [mkfs_sb bmapstart]. intros Hb. rewrite image_allocated by lia. by zb.
  - intros n sl Hn Hsl. rewrite image_pv by done. intros Hv. destruct (io_seg _ I n ltac:(lia)) as [Hr _].
    specialize (Hr sl Hsl Hv). destruct (bt_disk _ _ B) as [_ Hs]. split; [|rewrite image_allocated by lia; by zb].
    unfold data_blk, fits. rewrite (hi_sb _ _ _ H), (hi_disk _ _ _ H). cbn [mkfs_sb bmapstart]. lia.
  - intros n sl n' sl' Hn Hn' Hsl Hsl'. rewrite !image_pv by done. intros Hv E.
    pose proof (io_apart _ I n n' sl sl' ltac:(lia) ltac:(lia) Hsl Hsl' Hv E) as ->. split; [done|].
    by apply (io_seg _ I n' ltac:(lia)).
Qed.

Lemma image_fsys : cache_empty t → fsys t d (on_disk t d).
Proof using I B H.
  intros Hempty. assert (Hc : ∀ i ip, inode_table t !! i = Some ip → ip = inode_zero).
  { intros i ip. rewrite Hempty. by intros [-> _]%lookup_replicate_1. }
  constructor; [constructor|..].
  - apply image_wf.
  - done.
  - intros i ip Hi Hr. rewrite (Hc i ip Hi) in Hr. cbn in Hr. lia.
  - constructor.
    + intros i j ip jp Hi _ Hr. rewrite (Hc i ip Hi) in Hr. cbn in Hr. lia.
    + intros i ip Hi. rewrite (Hc i ip Hi). apply (bool_decide_unpack _). by vm_compute.
    + intros i ip Hi. by rewrite (Hc i ip Hi).
  - intros n Hn%image_inode_ok. rewrite image_key by done. cbn. apply (io_map _ I n). lia.
  - intros n Hn%image_inode_ok. destruct (io_map _ I n ltac:(lia)) as [Hm Hsz].
    assert (Hbk : blocks_for (k_size (on_disk t d n)) = blocks_of (size (ino s n))).
    { rewrite image_key by done. by rewrite blocks_for_eq by done. }
    rewrite Hbk. consts. split.
    { unfold blocks_of. consts. split; [apply Z.div_pos; lia|]. apply Z.lt_succ_r, Z.div_lt_upper_bound; lia. }
    apply (mapped_ext (ptr_of s n)); [|done]. intros sl Hsl. by apply image_pv.
Qed.

(** Contents, as the kernel reads them. *)
Lemma image_content n c : 1 ≤ n < 32 → holds s n c → content t d (on_disk t d n) = c.
Proof using I B H.
  intros Hn (_ & Hs & Hd). destruct (io_map _ I n ltac:(lia)) as [Hm Hsz]. pose proof (io_seg _ I n ltac:(lia)) as [Hr _].
  unfold content. rewrite (f_equal k_size (image_key n Hn)). cbn [key k_size]. rewrite Hs, Nat2Z.id.
  apply list_eq. intros i. destruct (decide (i < length c)%nat) as [Hi|Hi].
  2:{ rewrite !lookup_ge_None_2; [done|lia|rewrite length_frange; lia]. }
  rewrite lookup_frange by done. rewrite (list_lookup_lookup_total_lt c) by done. f_equal.
  specialize (Hd (Z.of_nat i) ltac:(lia)). rewrite Nat2Z.id in Hd. rewrite <-Hd. unfold fbyte. rewrite Z.add_0_l. consts.
  rewrite Hs in Hsz.
  assert (Hbn : 0 ≤ Z.of_nat i / 1024 < MAXFILE) by (consts; split; [apply Z.div_pos|apply Z.div_lt_upper_bound]; lia).
  rewrite image_pv by (done || by apply leaf_ok). unfold fblk. rewrite (hi_disk _ _ _ H), (bt_data _ _ B); [done|].
  apply Hr; [by apply leaf_ok|]. apply (proj1 Hm); [done|]. rewrite Hs. unfold blocks_of.
  apply Z.div_lt_upper_bound; [lia|]. pose proof (Z.div_mod (Z.of_nat (length c) + 1023) 1024).
  pose proof (Z.mod_pos_bound (Z.of_nat (length c) + 1023) 1024). lia.
Qed.
End view.

(** ** From the tables to the kernel *)

Section finished.
Context (s0 s1 s : mkfs) (F : finished s0 s1 s) (t : fs) (d : Z) (H : holds_image t d (image s)).

Lemma fin_fsys : cache_empty t → fsys t d (on_disk t d).
Proof using F H. intros. eapply (image_fsys s1); [apply (fn_dirs _ _ _ F)|apply (fn_built _ _ _ F)|done|done]. Qed.

Lemma fin_type n : 1 ≤ n < 32 → k_type (on_disk t d n) = d_type (ino s0 n).
Proof using F H.
  intros Hn. rewrite (image_key s1 (image s)) by (done || apply (fn_built _ _ _ F)). cbn.
  apply (dw_type _ _ _ (fn_dirs _ _ _ F)). lia.
Qed.

Lemma fin_content n c : 1 ≤ n < 32 → holds s1 n c → content t d (on_disk t d n) = c.
Proof using F H. apply (image_content s1 (image s)); [apply (fn_dirs _ _ _ F)|apply (fn_built _ _ _ F)|done]. Qed.

Lemma fin_dir dd :
  dd ∈ dirs s0 → md_inum dd < 32 →
  k_type (on_disk t d (md_inum dd)) = FT_DIRECTORY ∧
  content t d (on_disk t d (md_inum dd)) = dir_bytes (entries dd) ∧ Forall (entry_ok s0) (entries dd).
Proof using F H.
  intros Hin Hlt. destruct (fn_minv _ _ _ F) as [I D]. pose proof (do_each _ D) as HD. rewrite Forall_forall in HD.
  destruct (HD dd Hin) as [Hn Hty [_ He]]. split; [rewrite fin_type by lia; by rewrite Hty|]. split; [|done].
  apply fin_content; [lia|]. by apply (dw_holds _ _ _ (fn_dirs _ _ _ F)).
Qed.

Lemma fin_file n data :
  file_is s0 n data → n < 32 → k_type (on_disk t d n) = FT_FILE ∧ content t d (on_disk t d n) = data.
Proof using F H.
  intros [Hty Hh] Hlt. destruct (fn_minv _ _ _ F) as [I D]. destruct (Hh) as [Hn _]. split; [by rewrite fin_type by lia|].
  apply fin_content; [lia|]. apply (dw_other _ _ _ (fn_dirs _ _ _ F)); [|done].
  intros (dd & E & Hd)%list_elem_of_fmap. pose proof (do_each _ D) as HD. rewrite Forall_forall in HD.
  destruct (HD dd Hd) as [_ Hf _]. rewrite <-E in Hf. rewrite Hf in Hty. done.
Qed.

(** Every directory is made of entries that name inodes of the inode area. *)
Lemma fin_dirs n :
  freeinode s ≤ 32 → inode_ok t d n → k_type (on_disk t d n) = FT_DIRECTORY →
  dir_sized (content t d (on_disk t d n)) ∧
  ∀ de, de ∈ dirents (content t d (on_disk t d n)) → de_inum de ≠ 0 → inode_ok t d (de_inum de).
Proof using F H.
  intros H32 Hn%(image_inode_ok (image s) t d H) Ht. rewrite fin_type in Ht by done. rewrite (fn_next _ _ _ F) in H32.
  destruct (fn_minv _ _ _ F) as [I D]. pose proof (io_next _ I).
  destruct (decide (n < freeinode s0)); [|rewrite (io_unused _ I) in Ht by lia; done].
  pose proof (do_all _ D n ltac:(lia) Ht) as (dd & -> & Hd)%list_elem_of_fmap.
  destruct (fin_dir dd Hd ltac:(lia)) as (_ & -> & He).
  assert (Hok : Forall dirent_ok (entries dd)) by (eapply Forall_impl; [exact He|]; by intros e []).
  destruct (dirents_dir_bytes _ Hok) as [-> ?]. split; [done|]. intros de Hde _. rewrite (image_inode_ok (image s) t d H).
  rewrite Forall_forall in He. destruct (He de Hde) as [_ ?]. lia.
Qed.
End finished.
