(* ===== verification/MkfsHost.v ===== *)
(** * The disk image builder: the tree it builds is the staging directory

    For a staging directory with proper names that fits the disk, the traversal
    succeeds, and the directories in memory mirror it entry by entry. *)

From S2P Require Import Prelude CLib FsTypes Block Inode FsInv FsAlloc FsMap FsFile FsCache Dir DirSpec.
From S2P Require Import Mkfs MkfsInv MkfsFile MkfsAdd MkfsTree.

(** ** Staging directories that fit *)

Definition join (path name : list Z) : list Z := if bool_decide (path = []) then name else path ++ 47 :: name.

Definition skipped (name : list Z) : bool := bool_decide (name = [46]) || bool_decide (name = [46; 46]).

(** The entries that are stored. *)
Fixpoint host_names (d : hostdir) : list (list Z) :=
  match d with
  | HEnd => []
  | HEntry name h rest =>
      match h with
      | HFile _ | HDir _ _ => if skipped name then host_names rest else name :: host_names rest
      | _ => host_names rest
      end
  end.

Definition name_ok (name : list Z) : Prop :=
  name ≠ [] ∧ (length name ≤ 29)%nat ∧ nonzero name ∧ 47 ∉ name.

Fixpoint stageable (path : list Z) (d : hostdir) : Prop :=
  match d with
  | HEnd => True
  | HEntry name h rest =>
      (if skipped name then True else
       match h with
       | HFile (Some data) =>
           name_ok name ∧ (length (join path name) ≤ 255)%nat ∧ (name ∉ host_names rest) ∧ bytes data
       | HDir true d' =>
           name_ok name ∧ (length (join path name) ≤ 255)%nat ∧ (name ∉ host_names rest) ∧
           (length (host_names d') ≤ 62)%nat ∧ stageable (join path name) d'
       | HOther => True
       | _ => False
       end) ∧ stageable path rest
  end.

Lemma stageable_names path d nm : stageable path d → nm ∈ host_names d → name_ok nm.
Proof.
  induction d as [|name h rest IHr _] using hostdir_ind'; cbn; [by intros _ ?%elem_of_nil|].
  intros [Hh Hr] Hin. destruct (skipped name); [destruct h; by apply IHr|].
  destruct h as [[data|]|[] d'| |]; try done; try (by apply IHr); apply elem_of_cons in Hin as [-> | Hin];
    try (by apply IHr); apply Hh.
Qed.

(** Inodes, data blocks and directories it takes. *)
Fixpoint host_inodes (d : hostdir) : Z :=
  match d with
  | HEnd => 0
  | HEntry name h rest =>
      (if skipped name then 0 else
       match h with HFile _ => 1 | HDir _ d' => 1 + host_inodes d' | _ => 0 end) + host_inodes rest
  end.

Fixpoint host_blocks (d : hostdir) : Z :=
  match d with
  | HEnd => 0
  | HEntry name h rest =>
      (if skipped name then 0 else
       match h with
       | HFile (Some data) => cost (blocks_of (Z.of_nat (length data)))
       | HDir _ d' => host_blocks d'
       | _ => 0
       end) + host_blocks rest
  end.

Fixpoint host_dirs (d : hostdir) : Z :=
  match d with
  | HEnd => 0
  | HEntry name h rest =>
      (if skipped name then 0 else match h with HDir _ d' => 1 + host_dirs d' | _ => 0 end) + host_dirs rest
  end.

Lemma host_nonneg d : 0 ≤ host_inodes d ∧ 0 ≤ host_blocks d ∧ 0 ≤ host_dirs d.
Proof.
  induction d as [|name h rest (? & ? & ?) IHd] using hostdir_ind'; cbn; [lia|].
  destruct (skipped name); [lia|]. destruct h as [[data|]|o d'| |]; try lia.
  - pose proof (cost_nonneg (blocks_of (Z.of_nat (length data)))) as Hc. pose proof (stored_k data). lia.
  - destruct (IHd o d' eq_refl) as (? & ? & ?). lia.
Qed.

(** ** Paths *)

Definition under (q p : list Z) : Prop := p = q ∨ ∃ r, p = q ++ 47 :: r.

Lemma last_slash_none l : 47 ∉ l → last_slash l = None.
Proof.
  induction l as [|c l IH]; [done|]. intros [Hc Hl]%not_elem_of_cons. cbn. rewrite IH by done.
  by rewrite (proj2 (Z.eqb_neq c 47)) by congruence.
Qed.

Lemma last_slash_app a b : 47 ∉ b → last_slash (a ++ 47 :: b) = Some (a, b).
Proof.
  intros Hb. induction a as [|c a IH]; cbn; [by rewrite last_slash_none|]. by rewrite IH.
Qed.

Lemma split_join path name : 47 ∉ name → split_path (join path name) = (path, name).
Proof.
  intros Hn. unfold join, split_path. case_bool_decide as E; [subst; by rewrite last_slash_none|].
  by rewrite last_slash_app.
Qed.

Lemma join_length path name : name ≠ [] → (length path < length (join path name))%nat.
Proof.
  intros Hn. unfold join. case_bool_decide as E; [subst; destruct name; [done|cbn; lia]|].
  rewrite length_app. cbn. lia.
Qed.

(** Two strings without a slash, followed by nothing or a slash. *)
Lemma slash_free_inj a b r r' :
  47 ∉ a → 47 ∉ b → (r = [] ∨ ∃ x, r = 47 :: x) → (r' = [] ∨ ∃ x, r' = 47 :: x) → a ++ r = b ++ r' → a = b.
Proof.
  revert b. induction a as [|c a IH]; intros [|c' b] Ha Hb Hr Hr' E; cbn in E; [done|..].
  - subst r. destruct Hr as [?|[x [= -> _]]]; [done|]. exfalso. apply Hb. by left.
  - subst r'. destruct Hr' as [?|[x [= -> _]]]; [done|]. exfalso. apply Ha. by left.
  - injection E as -> E. apply not_elem_of_cons in Ha as [_ Ha]. apply not_elem_of_cons in Hb as [_ Hb].
    f_equal. by apply (IH b).
Qed.

Lemma under_names path a b p : 47 ∉ a → 47 ∉ b → under (join path a) p → under (join path b) p → a = b.
Proof.
  intros Ha Hb Hu Hu'.
  assert (Hs : ∀ c, under (join path c) p → ∃ r, (r = [] ∨ ∃ x, r = 47 :: x) ∧
    p = (if bool_decide (path = []) then [] else path ++ [47]) ++ c ++ r).
  { intros c [-> | [r ->]]; unfold join.
    - exists []. split; [by left|]. case_bool_decide; by rewrite ?app_nil_r, <-?app_assoc.
    - exists (47 :: r). split; [right; by eexists|]. case_bool_decide; [done|]. by rewrite <-!app_assoc. }
  destruct (Hs a Hu) as (r & Hr & E), (Hs b Hu') as (r' & Hr' & E'). rewrite E in E'.
  apply app_inv_head in E'. by apply (slash_free_inj a b r r').
Qed.

Lemma under_join path a q p : under (join (join path a) q) p → a ≠ [] → under (join path a) p.
Proof.
  intros Hu Ha. assert (join path a ≠ []).
  { pose proof (join_length path a Ha). destruct (join path a); [cbn in *; lia|done]. }
  unfold join at 1 in Hu. rewrite bool_decide_false in Hu by done. destruct Hu as [-> | [r ->]]; right.
  - by eexists.
  - exists (q ++ 47 :: r). by rewrite <-app_assoc.
Qed.

Lemma under_longer path a p : a ≠ [] → under (join path a) p → p ≠ path.
Proof.
  intros Ha Hu ->. pose proof (join_length path a Ha). destruct Hu as [E|[r E]]; apply (f_equal length) in E.
  - lia.
  - rewrite length_app in E. cbn in E. lia.
Qed.

(** ** Looking up a directory *)

Lemma list_find_unique {A B} `{!EqDecision B} (f : A → B) (l : list A) i x :
  NoDup (f <$> l) → l !! i = Some x → list_find (λ y, f y = f x) l = Some (i, x).
Proof.
  intros Hnd Hi. apply list_find_Some. split_and!; [done..|]. intros j y Hj Hlt E.
  assert (j = i); [|lia]. eapply (NoDup_lookup (f <$> l)); [done| |]; rewrite list_lookup_fmap.
  - by rewrite Hj.
  - by rewrite Hi, E.
Qed.

Lemma name_bytes name : nonzero name → bytes name.
Proof. intros H. eapply Forall_impl; [exact H|]. unfold is_byte. cbn. lia. Qed.

Section host.
Context (junk : Z → list Z → list Z) (junk_block : Z → list Z).
Context (Hjunk : ∀ n name, length (junk n name) = 30%nat ∧ bytes (junk n name)).
Context (Hblock : ∀ n, block_buf (junk_block n)).

Definition dots (n p : Z) : list fsdirent := [new_dirent junk n [46]; new_dirent junk p [46; 46]].

Lemma get_dir_found s i dd fuel :
  minv s → NoDup (md_path <$> dirs s) → dirs s !! i = Some dd → fuel ≠ 0%nat →
  get_or_create_dir junk fuel (md_path dd) s = Ok (md_inum dd) s.
Proof using.
  intros [_ D] Hnd Hi Hf. destruct fuel as [|fuel]; [done|]. cbn [get_or_create_dir]. case_bool_decide as E.
  - destruct (do_root _ D) as (d0 & l & El & Hn & Hp). assert (i = 0%nat) as ->.
    { eapply (NoDup_lookup _ _ _ (md_path dd) Hnd); rewrite list_lookup_fmap; [by rewrite Hi|]. rewrite El. cbn. by rewrite Hp, E. }
    rewrite El in Hi. injection Hi as ->. by rewrite Hn.
  - unfold mbind, M_bind, gets. by rewrite (list_find_unique md_path _ i dd).
Qed.

(** ** The mirror *)

Fixpoint children (s : mkfs) (path : list Z) (p : Z) (d : hostdir) (es : list fsdirent) : Prop :=
  match d with
  | HEnd => es = []
  | HEntry name h rest =>
      if skipped name then children s path p rest es else
      match h with
      | HFile (Some data) =>
          ∃ n es', es = new_dirent junk n name :: es' ∧ file_is s n data ∧ children s path p rest es'
      | HDir _ d' =>
          ∃ n sub es', es = new_dirent junk n name :: es' ∧
          MkfsDir n (join path name) (dots n p ++ sub) ∈ dirs s ∧
          children s (join path name) n d' sub ∧ children s path p rest es'
      | _ => children s path p rest es
      end
  end.

Lemma children_mono s s' path p d es :
  stageable path d →
  (∀ e name, e ∈ dirs s → name ∈ host_names d → under (join path name) (md_path e) → e ∈ dirs s') →
  (∀ n data, file_is s n data → file_is s' n data) →
  children s path p d es → children s' path p d es.
Proof using.
  revert path p es. induction d as [|name h rest IHr IHd] using hostdir_ind'; intros path p es Hst Hd Hf; [done|].
  cbn [children stageable host_names] in *. destruct (skipped name) eqn:Esk.
  { apply IHr; [apply Hst| |done]. intros e nm He Hn. apply Hd; [done|]. by destruct h. }
  destruct h as [[data|]|o d'| |]; destruct Hst as [Hh Hst]; try done.
  - intros (n & es' & -> & Hfi & Hc). exists n, es'. split; [done|]. split; [by apply Hf|].
    apply IHr; [done| |done|done]. intros e nm He Hn. apply Hd; [done|by right].
  - destruct o; [|done]. destruct Hh as (Hname & Hlen & Hnot & H62 & Hsub).
    intros (n & sub & es' & -> & Hin & Hc & Hr). exists n, sub, es'. split; [done|].
    split; [apply (Hd _ name); [done|by left|by left]|]. split.
    + eapply IHd; [done..| |done|done]. intros e nm He Hn Hu. apply (Hd e name); [done|by left|].
      eapply under_join; [done|apply Hname].
    + apply IHr; [done| |done|done]. intros e nm He Hn. apply Hd; [done|by right].
  - by apply IHr.
Qed.

(** ** One entry *)

Section entry.
Context (s : mkfs) (i : nat) (dd : mkfs_dir) (path name : list Z).
Context (Hs : minv s) (Hnd : NoDup (md_path <$> dirs s)) (Hi : dirs s !! i = Some dd) (Hp : md_path dd = path).
Context (Hname : name_ok name) (Hlen : (length (join path name) ≤ 255)%nat).
Context (Hroom : (length (entries dd) < 64)%nat) (Hfi : freeinode s < 64).

Lemma next_fs_join : next_fs path name = join path name.
Proof using Hlen. clear Hroom. unfold next_fs. fold (join path name). apply take_ge. lia. Qed.

Lemma add_entry_found s1 n (Q : unit → mkfs → Prop) R :
  dirs_ok s1 → dirs s1 !! i = Some dd → Q tt (with_entry i (new_dirent junk n name) s1) →
  wp (add_entry junk (md_inum dd) n name) Q R s1.
Proof using Hroom.
  clear Hlen. intros D1 Hi1 HQ. assert (E := list_find_unique md_inum _ i dd (do_uniq _ D1) Hi1).
  apply add_entry_wp; rewrite E; [by intros ? ? [= <- <-] _|]. intros Hbad. specialize (Hbad i dd eq_refl). lia.
Qed.

Lemma add_file_exact data (Q : unit → mkfs → Prop) (R : mkfs → Prop) :
  bytes data → freeblock s + cost (blocks_of (Z.of_nat (length data))) ≤ 8192 →
  (∀ s1, stored (with_inode FT_FILE s) s1 (freeinode s) data →
    Q tt (with_entry i (new_dirent junk (freeinode s) name) s1)) →
  wp (add_file junk junk_block (Some data) (next_fs path name)) Q R s.
Proof using All.
  intros Hby Hblk HQ. rewrite next_fs_join. destruct Hname as (Hne & Hl29 & Hnz & Hsl). pose proof Hs as [I D].
  unfold add_file. rewrite split_join by done. pose proof (join_length path name Hne).
  unfold MAX_PATH_LEN, DIRSIZ. rewrite (proj2 (Nat.leb_gt 256 (length path))) by lia. zb.
  wp_step. apply new_inode_wp; [done| |lia]. intros _. apply wp_then. pose proof (io_next _ I).
  pose proof (inodes_ok_new s FT_FILE I Hfi ltac:(unfold FT_FILE; lia)) as I1. pose proof (io_first _ I1) as Hfb.
  apply store_wp; [done|apply I1|apply I1|lia|lia|done|rewrite ino_with_inode, decide_True by (done || lia); done..| |].
  2:{ intros Hbad. exfalso. cbn in Hbad, Hfb. pose proof (stored_k data).
      destruct (decide (blocks_of (Z.of_nat (length data)) ≤ 8192)); [consts; lia|].
      pose proof (cost_mono 8192 (blocks_of (Z.of_nat (length data))) ltac:(lia)). change (cost 8192) with 8225 in *. lia. }
  intros s1 HS. destruct (stored_minv s s1 data Hs Hfi HS) as (Hs1 & E1 & _).
  assert (Ed : dirs s1 = dirs s) by (by rewrite (wi_dirs _ _ _ (st_within _ _ _ _ HS))).
  wp_step. eapply wp_ok; [rewrite <-Hp; apply (get_dir_found s1 i); rewrite ?Ed; done|].
  apply add_entry_found; [apply Hs1|by rewrite Ed|by apply HQ].
Qed.

Lemma make_dir_exact (Q : Z → mkfs → Prop) (R : mkfs → Prop) :
  (∀ e, e ∈ dirs s → md_path e ≠ join path name) →
  (minv (with_dir (join path name) (dots (freeinode s) (md_inum dd)) s) →
    Q (freeinode s) (with_entry i (new_dirent junk (freeinode s) name)
      (with_dir (join path name) (dots (freeinode s) (md_inum dd)) s))) →
  wp (get_or_create_dir junk (S (length (next_fs path name))) (next_fs path name)) Q R s.
Proof using Hjunk Hs Hnd Hi Hp Hname Hlen Hroom Hfi.
  intros Hnew HQ. rewrite next_fs_join. destruct Hname as (Hne & Hl29 & Hnz & Hsl). pose proof (join_length path name Hne).
  pose proof Hs as [I D]. cbn [get_or_create_dir]. rewrite bool_decide_false by (intros E; rewrite E in *; cbn in *; lia).
  wp_step. wp_step. rewrite (proj2 (list_find_None _ _)).
  2:{ apply Forall_forall. intros e He. by apply Hnew. }
  rewrite split_join by done. unfold DIRSIZ. zb. wp_step.
  eapply wp_ok; [rewrite <-Hp at 2; apply (get_dir_found s i); [done..|lia]|].
  pose proof (Forall_lookup_1 _ _ _ _ (do_each _ D) Hi) as [Hdi _ _].
  apply make_dir_wp; [done..|by apply name_bytes|lia| |lia]. intros _ s1 Hs1 _.
  apply add_entry_found; [apply Hs1| |by apply HQ]. unfold s1. cbn. by apply lookup_app_l_Some.
Qed.
End entry.

(** ** The traversal *)

Record traversed (s s' : mkfs) (path : list Z) (i : nat) (dd : mkfs_dir) (d : hostdir) (es : list fsdirent) : Prop := Traversed {
  tv_minv : minv s';
  tv_ext : ext s s';
  tv_paths : NoDup (md_path <$> dirs s');
  tv_children : children s' path (md_inum dd) d es;
  tv_dir : dirs s' !! i = Some (MkfsDir (md_inum dd) path (entries dd ++ es));
  tv_other : ∀ j e, j ≠ i → dirs s !! j = Some e → dirs s' !! j = Some e;
  tv_new : ∀ e, e ∈ dirs s' → md_path e ∈ md_path <$> dirs s ∨
  ∃ name, name ∈ host_names d ∧ under (join path name) (md_path e);
  tv_inodes : freeinode s' = freeinode s + host_inodes d;
  tv_blocks : freeblock s' = freeblock s + host_blocks d;
  tv_dirs : Z.of_nat (length (dirs s')) = Z.of_nat (length (dirs s)) + host_dirs d
  }.

(** No directory lies where the traversal will make one. *)
Definition clear_of (s : mkfs) (path : list Z) (d : hostdir) : Prop :=
  ∀ name e, name ∈ host_names d → e ∈ dirs s → ¬ under (join path name) (md_path e).

Lemma file_is_ext s s' n data : minv s → ext s s' → file_is s n data → file_is s' n data.
Proof using.
  intros [I _] E [Ht Hh]. split; [|by eapply ext_holds]. destruct Hh as [Hn _].
  rewrite (ex_inodes _ _ E) by lia. done.
Qed.

Lemma with_entry_paths s i e : md_path <$> dirs (with_entry i e s) = md_path <$> dirs s.
Proof using. cbn. by apply fmap_alter_same. Qed.

Lemma with_entry_at s i dd e :
  dirs s !! i = Some dd → dirs (with_entry i e s) !! i = Some (MkfsDir (md_inum dd) (md_path dd) (entries dd ++ [e])).
Proof using. intros Hi. cbn. by rewrite list_lookup_alter_eq, Hi. Qed.

Lemma paths_elem (s : mkfs) e : e ∈ dirs s → md_path e ∈ md_path <$> dirs s.
Proof using. apply list_elem_of_fmap_2. Qed.

(** A skipped entry. *)
Lemma traversed_skip s s' path i dd name h rest es :
  host_names (HEntry name h rest) = host_names rest →
  host_inodes (HEntry name h rest) = host_inodes rest → host_blocks (HEntry name h rest) = host_blocks rest →
  host_dirs (HEntry name h rest) = host_dirs rest →
  (∀ s es, children s path (md_inum dd) rest es → children s path (md_inum dd) (HEntry name h rest) es) →
  traversed s s' path i dd rest es → traversed s s' path i dd (HEntry name h rest) es.
Proof using. intros En Ei Eb Ed Hc []. constructor; rewrite ?En, ?Ei, ?Eb, ?Ed; try done. by apply Hc. Qed.

(** A file in front of the rest. *)
Lemma traversed_file s s1 s' path i dd name data rest es :
  minv s → NoDup (md_path <$> dirs s) → dirs s !! i = Some dd → md_path dd = path → (length (entries dd) < 64)%nat → freeinode s < 64 →
  skipped name = false → name_ok name → stored (with_inode FT_FILE s) s1 (freeinode s) data →
  let e := new_dirent junk (freeinode s) name in
  let s2 := with_entry i e s1 in
  minv s2 ∧ (minv s2 →
    traversed s2 s' path i (MkfsDir (md_inum dd) path (entries dd ++ [e])) rest es →
    traversed s s' path i dd (HEntry name (HFile (Some data)) rest) (e :: es)).
Proof using Hjunk.
  intros Hs Hnd Hi Hp Hlen Hfi Hsk (Hne & Hl29 & Hnz & Hsl) HS e s2.
  destruct (stored_minv s s1 data Hs Hfi HS) as (Hs1 & E1 & Hfile). pose proof (st_within _ _ _ _ HS) as HW.
  assert (Ed : dirs s1 = dirs s) by (by rewrite (wi_dirs _ _ _ HW)).
  assert (Ex : freeinode s1 = freeinode s + 1) by (by rewrite (wi_next _ _ _ HW)).
  pose proof (io_next _ (proj1 Hs)).
  split.
  { split; [apply inodes_ok_dirs, Hs1|]. eapply dirs_ok_entry; [apply Hs1|by rewrite Ed|done|].
    apply new_dirent_ok; [done|lia|lia|by apply name_bytes|lia]. }
  intros Hs2 [T1 T2 T3 T4 T5 T6 T7 T8 T9 T10]. cbn [md_inum entries] in *. constructor; cbn [host_names host_inodes host_blocks host_dirs children];
    rewrite ?Hsk; try done.
  - eapply ext_trans; [done|]. eapply ext_trans; [apply ext_entry|done].
  - exists (freeinode s), es. split; [done|]. split; [|done]. eapply (file_is_ext s2); [done|done|]. done.
  - rewrite T5, <-app_assoc. done.
  - intros j x Hj Hx. apply T6; [done|]. unfold s2. cbn. rewrite list_lookup_alter_ne, Ed by done. done.
  - intros x Hx. destruct (T7 x Hx) as [Hin|(nm & Hn & Hu)].
    + left. unfold s2 in Hin. by rewrite with_entry_paths, Ed in Hin.
    + right. exists nm. split; [by right|done].
  - rewrite T8. unfold s2. cbn. lia.
  - rewrite T9. unfold s2. cbn. pose proof (st_free _ _ _ _ HS) as Hf. cbn in Hf. lia.
  - rewrite T10. unfold s2. cbn. rewrite length_alter, Ed. lia.
Qed.

(** A directory in front of the rest. *)
Section dir.
Context (s : mkfs) (i : nat) (dd : mkfs_dir) (path name : list Z) (d rest : hostdir).
Context (Hs : minv s) (Hnd : NoDup (md_path <$> dirs s)) (Hi : dirs s !! i = Some dd) (Hp : md_path dd = path).
Context (Hname : name_ok name) (Hsk : skipped name = false) (Hnot : name ∉ host_names rest).
Context (Hsub : stageable (join path name) d) (Hrest : stageable path rest).
Context (Hclear : clear_of s path (HEntry name (HDir true d) rest)).

Let q := join path name.
Let n := freeinode s.
Let e := new_dirent junk n name.
Let s1 := with_dir q (dots n (md_inum dd)) s.
Let s2 := with_entry i e s1.
Let L := length (dirs s).

Lemma dir_free x : x ∈ dirs s → ¬ under q (md_path x).
Proof using Hclear Hsk. intros Hx. apply Hclear; [|done]. cbn. rewrite Hsk. by left. Qed.

Lemma dir_lt : (i < L)%nat.
Proof using Hi. by eapply lookup_lt_Some. Qed.

Lemma dir_minv : freeinode s < 64 → (length (entries dd) < 64)%nat → minv s1 → minv s2.
Proof using Hjunk Hs Hi Hname.
  intros Hfi Hroom Hs1. destruct Hname as (_ & Hl29 & Hnz & _). pose proof (io_next _ (proj1 Hs)).
  split; [apply inodes_ok_dirs, Hs1|]. eapply dirs_ok_entry; [apply Hs1|cbn; by apply lookup_app_l_Some|done|].
  apply new_dirent_ok; [done|cbn; lia|cbn; lia|by apply name_bytes|lia].
Qed.

Lemma dir_paths : md_path <$> dirs s2 = (md_path <$> dirs s) ++ [q].
Proof using. unfold s2. rewrite with_entry_paths. cbn. by rewrite fmap_app. Qed.

Lemma dir_paths_nodup : NoDup (md_path <$> dirs s2).
Proof using Hnd Hclear Hsk.
  rewrite dir_paths. apply NoDup_app. split; [done|]. split; [|apply NoDup_singleton].
  intros x Hx Hq. apply list_elem_of_singleton in Hq as ->. apply list_elem_of_fmap in Hx as (y & Ey & Hy).
  apply (dir_free y Hy). left. done.
Qed.

Lemma dir_new : dirs s2 !! L = Some (MkfsDir n q (dots n (md_inum dd))).
Proof using Hi.
  pose proof dir_lt. unfold s2. cbn. rewrite list_lookup_alter_ne by lia. rewrite lookup_app_r, Nat.sub_diag by lia. done.
Qed.

Lemma dir_parent : dirs s2 !! i = Some (MkfsDir (md_inum dd) path (entries dd ++ [e])).
Proof using Hi Hp. rewrite <-Hp. apply with_entry_at. cbn. by apply lookup_app_l_Some. Qed.

Lemma dir_old_path x : x ∈ dirs s2 → md_path x = q ∨ ∃ y, y ∈ dirs s ∧ md_path y = md_path x.
Proof using.
  intros Hx%paths_elem. rewrite dir_paths in Hx. apply elem_of_app in Hx as [Hx| ->%list_elem_of_singleton]; [|by left].
  right. apply list_elem_of_fmap in Hx as (y & -> & Hy). by exists y.
Qed.

(** Below the new directory there is nothing yet. *)
Lemma dir_clear_sub : clear_of s2 q d.
Proof using Hclear Hsk Hname Hsub.
  intros nm x Hnm Hx Hu. apply under_join in Hu as Hq; [|apply Hname].
  destruct (dir_old_path x Hx) as [E|(y & Hy & E)].
  - apply (under_longer q nm (md_path x)); [apply (stageable_names q d nm Hsub Hnm)|done|done].
  - apply (dir_free y Hy). by rewrite E.
Qed.

Lemma dir_clear_rest s3 es :
  traversed s2 s3 q L (MkfsDir n q (dots n (md_inum dd))) d es → clear_of s3 path rest.
Proof using Hclear Hsk Hname Hnot Hrest.
  intros T nm x Hnm Hx Hu. destruct (stageable_names path rest nm Hrest Hnm) as (_ & _ & _ & Hsl).
  destruct Hname as (Hne & _ & _ & Hsl').
  assert (Hq : ¬ under q (md_path x)).
  { intros Hq. apply Hnot. by rewrite (under_names path name nm (md_path x)). }
  destruct (tv_new _ _ _ _ _ _ _ T x Hx) as [Hin|(nm' & Hnm' & Hu')].
  - apply list_elem_of_fmap in Hin as (y & E & Hy). destruct (dir_old_path y Hy) as [E'|(z & Hz & E')].
    + apply Hq. rewrite E, E'. by left.
    + apply (Hclear nm z); [cbn; rewrite Hsk; by right|done|]. by rewrite E', <-E.
  - apply Hq. by eapply under_join.
Qed.

Lemma traversed_dir s3 s' sub es :
  minv s2 →
  traversed s2 s3 q L (MkfsDir n q (dots n (md_inum dd))) d sub →
  traversed s3 s' path i (MkfsDir (md_inum dd) path (entries dd ++ [e])) rest es →
  freeinode s < 64 →
  traversed s s' path i dd (HEntry name (HDir true d) rest) (e :: es).
Proof using Hs Hi Hp Hname Hsk Hsub.
  intros Hs2 T U Hfi. pose proof dir_lt as Hlt. destruct T as [T1 T2 T3 T4 T5 T6 T7 T8 T9 T10].
  destruct U as [U1 U2 U3 U4 U5 U6 U7 U8 U9 U10]. cbn [md_inum entries] in *.
  constructor; cbn [host_names host_inodes host_blocks host_dirs children]; rewrite ?Hsk; try done.
  - eapply ext_trans; [apply (ext_dir s q (dots n (md_inum dd))); [apply Hs|done]|].
    eapply ext_trans; [apply (ext_entry s1 i e)|]. by eapply ext_trans.
  - exists n, sub, es. split; [done|]. split; [|split; [|done]].
    + apply list_elem_of_lookup_2 with L. apply U6; [lia|done].
    + apply (children_mono s3); [done| |intros; by eapply (file_is_ext s3)|done].
      intros x nm Hx Hnm Hu. apply list_elem_of_lookup_1 in Hx as [j Hj]. apply list_elem_of_lookup_2 with j, U6; [|done].
      intros ->. assert (Ei : dirs s3 !! i = Some (MkfsDir (md_inum dd) path (entries dd ++ [e]))) by (apply T6; [lia|by apply dir_parent]).
      rewrite Ei in Hj. injection Hj as <-. cbn in Hu. apply under_join in Hu; [|apply Hname].
      eapply (under_longer path name path); [apply Hname|done|done].
  - by rewrite U5, <-app_assoc.
  - intros j x Hj Hx. apply U6, T6; [done| |]; pose proof (lookup_lt_Some _ _ _ Hx); [lia|].
    unfold s2. cbn. rewrite list_lookup_alter_ne by done. by apply lookup_app_l_Some.
  - intros x Hx. destruct (U7 x Hx) as [Hin|(nm & Hnm & Hu)]; [|right; exists nm; split; [by right|done]].
    apply list_elem_of_fmap in Hin as (y & E & Hy). destruct (T7 y Hy) as [Hin|(nm & Hnm & Hu)].
    + rewrite dir_paths in Hin. rewrite E. apply elem_of_app in Hin as [?| ->%list_elem_of_singleton]; [by left|].
      right. exists name. split; [by left|by left].
    + right. exists name. split; [by left|]. rewrite E. eapply under_join; [done|apply Hname].
  - rewrite U8, T8. unfold s2. cbn. lia.
  - rewrite U9, T9. unfold s2. cbn. lia.
  - rewrite U10, T10. unfold s2. cbn. rewrite length_alter, length_app. cbn. lia.
Qed.
End dir.

Lemma traverse_exact d s path i dd (Q : unit → mkfs → Prop) R :
  minv s → NoDup (md_path <$> dirs s) → dirs s !! i = Some dd → md_path dd = path →
  stageable path d → clear_of s path d →
  (length (entries dd) + length (host_names d) ≤ 64)%nat →
  freeinode s + host_inodes d ≤ 64 → freeblock s + host_blocks d ≤ 8192 →
  (∀ s' es, traversed s s' path i dd d es → Q tt s') →
  wp (traverse_dir junk junk_block path d) Q R s.
Proof using Hjunk Hblock.
  revert s path i dd Q. induction d as [|name h rest IHr IHd] using hostdir_ind';
    intros s path i dd Q Hs Hnd Hi Hp Hst Hcl Hroom Hino Hblk HQ.
  { apply wp_ret, (HQ s []). constructor; try done.
    - apply ext_refl.
    - rewrite app_nil_r, <-Hp, Hi. by destruct dd.
    - intros e He. left. by apply paths_elem.
    - cbn. lia.
    - cbn. lia.
    - cbn. lia. }
  cbn [traverse_dir]. destruct (host_nonneg rest) as (? & ? & ?). wp_step.
  fold (skipped name).
  assert (Hskip : host_names (HEntry name h rest) = host_names rest → host_inodes (HEntry name h rest) = host_inodes rest →
    host_blocks (HEntry name h rest) = host_blocks rest → host_dirs (HEntry name h rest) = host_dirs rest →
    (∀ s es, children s path (md_inum dd) rest es → children s path (md_inum dd) (HEntry name h rest) es) →
    wp (traverse_dir junk junk_block path rest) Q R s).
  { intros En Ei Eb Ed Hc. unfold clear_of in Hcl. rewrite En in Hcl, Hroom. rewrite Ei in Hino. rewrite Eb in Hblk.
    apply (IHr s path i dd); try done; [apply Hst|]. intros s' es T. apply (HQ s' es). by apply traversed_skip. }
  destruct (skipped name) eqn:Esk.
  { wp_step. apply Hskip; cbn; rewrite ?Esk; try done; [by destruct h|lia..]. }
  cbn [stageable] in Hst. rewrite Esk in Hst. destruct h as [[data|]|[] d| |].
  - destruct Hst as [(Hnm & Hlen & Hnot & Hby) Hrest]. cbn in Hino, Hblk, Hroom. rewrite Esk in Hino, Hblk, Hroom. cbn in Hroom.
    apply (add_file_exact s i dd path name); try done; [lia..|]. intros s1 HS.
    destruct (traversed_file s s1 s1 path i dd name data rest [] Hs Hnd Hi Hp ltac:(lia) ltac:(lia) Esk Hnm HS) as [Hs2 _].
    pose proof (st_within _ _ _ _ HS) as HW. pose proof (st_free _ _ _ _ HS) as Hf. cbn in Hf.
    assert (Ed : dirs s1 = dirs s) by (by rewrite (wi_dirs _ _ _ HW)).
    eapply (IHr _ path i (MkfsDir (md_inum dd) path (entries dd ++ [new_dirent junk (freeinode s) name]))); try done.
    + by rewrite with_entry_paths, Ed.
    + rewrite <-Hp. apply with_entry_at. by rewrite Ed.
    + intros nm x Hn Hx Hu. apply paths_elem in Hx. rewrite with_entry_paths, Ed in Hx.
      apply list_elem_of_fmap in Hx as (y & E & Hy). apply (Hcl nm y); [cbn; rewrite Esk; by right|done|by rewrite <-E].
    + cbn. rewrite length_app. cbn. lia.
    + cbn. rewrite (wi_next _ _ _ HW). cbn. lia.
    + cbn. lia.
    + intros s' es T. apply (HQ s' (new_dirent junk (freeinode s) name :: es)).
      by apply (traversed_file s s1 s' path i dd name data rest es Hs Hnd Hi Hp ltac:(lia) ltac:(lia) Esk Hnm HS).
  - by destruct Hst.
  - destruct Hst as [(Hnm & Hlen & Hnot & H62 & Hsub) Hrest]. cbn in Hino, Hblk, Hroom. rewrite Esk in Hino, Hblk, Hroom. cbn in Hroom.
    destruct (host_nonneg d) as (? & ? & ?). wp_step.
    apply (make_dir_exact s i dd path name); try done; [lia..|intros x Hx E; apply (Hcl name x); [cbn; rewrite Esk; by left|done|by left]|].
    intros Hs1. pose proof (dir_minv s i dd path name Hs Hi Hnm ltac:(lia) ltac:(lia) Hs1) as Hs2.
    rewrite (next_fs_join path name Hlen).
    eapply (IHd true d eq_refl _ _ (length (dirs s)) (MkfsDir (freeinode s) (join path name) (dots (freeinode s) (md_inum dd)))); try done.
    + by eapply dir_paths_nodup.
    + by apply dir_new.
    + by eapply dir_clear_sub.
    + cbn. lia.
    + cbn. lia.
    + cbn. lia.
    + intros s3 sub T. pose proof (dir_lt s i dd Hi).
      eapply (IHr _ path i (MkfsDir (md_inum dd) path (entries dd ++ [new_dirent junk (freeinode s) name]))); try done.
      * apply T.
      * apply T.
      * apply (tv_other _ _ _ _ _ _ _ T); [lia|]. by apply dir_parent.
      * by eapply dir_clear_rest.
      * cbn. rewrite length_app. cbn. lia.
      * rewrite (tv_inodes _ _ _ _ _ _ _ T). cbn. lia.
      * rewrite (tv_blocks _ _ _ _ _ _ _ T). cbn. lia.
      * intros s' es U. apply (HQ s' (new_dirent junk (freeinode s) name :: es)). by eapply traversed_dir; [..|exact T|exact U|lia].
  - by destruct Hst.
  - wp_step. apply Hskip; cbn; rewrite ?Esk; done || lia.
  - by destruct Hst.
Qed.
End host.
