(* ===== verification/MkfsSpec.v ===== *)
(** * The promises of the disk image builder

    tools/mkfs.c against the filesystem of the kernel: the image is consistent,
    it holds the staging directory, and two such images boot. *)

From S2P Require Import Prelude CLib FsTypes Block Inode FsInv FsAlloc FsMap FsGrow FsFile FsWrite FsTrunc FsCache.
From S2P Require Import Sample Dir DirSpec FsRef Namei FsSpec.
From S2P Require Import Mkfs MkfsInv MkfsFile MkfsAdd MkfsTree MkfsImage MkfsHost.

(** What a run that returned satisfies. *)
Lemma wp_post {S A} (m : M S A) a s s' Q R : m s = Ok a s' → wp m Q R s → Q a s'.
Proof. unfold wp. by intros ->. Qed.

(** ** Reading the staging directory *)

Fixpoint host_entry (d : hostdir) (name : list Z) : option host :=
  match d with
  | HEnd => None
  | HEntry nm h rest => if bool_decide (nm = name) && negb (skipped nm) then Some h else host_entry rest name
  end.

Definition stored_kind (h : host) : bool := match h with HFile _ | HDir _ _ => true | _ => false end.

Lemma host_entry_name d nm h : host_entry d nm = Some h → stored_kind h = true → nm ∈ host_names d ∧ skipped nm = false.
Proof.
  induction d as [|name g rest IH _] using hostdir_ind'; [done|]. cbn.
  destruct (bool_decide_reflect (name = nm)) as [->|]; cbn.
  - destruct (skipped nm) eqn:E; cbn.
    + intros He Hk. destruct (IH He Hk) as [Hin ?]. done.
    + intros [= ->] Hk. split; [|done]. destruct h; try done; by left.
  - intros He Hk. destruct (IH He Hk) as [Hin ?]. split; [|done]. destruct g; try done; (destruct (skipped name); [done|by right]).
Qed.

Lemma host_entry_dir path d nm o d' :
  stageable path d → host_entry d nm = Some (HDir o d') → stageable (join path nm) d'.
Proof.
  induction d as [|name g rest IH _] using hostdir_ind'; [done|]. cbn. intros [Hg Hst].
  destruct (bool_decide_reflect (name = nm)) as [->|]; cbn; [|by apply IH].
  destruct (skipped nm); cbn; [by apply IH|]. intros [= ->]. destruct o; [apply Hg|done].
Qed.

(** The file at a path below the staging directory. *)
Fixpoint host_find (d : hostdir) (ps : list (list Z)) : option (list Z) :=
  match ps with
  | [] => None
  | nm :: ps' =>
      match host_entry d nm, ps' with
      | Some (HFile data), [] => data
      | Some (HDir _ d'), _ :: _ => host_find d' ps'
      | _, _ => None
      end
  end.

Section spec.
Context (junk : Z → list Z → list Z) (junk_block : Z → list Z).
Context (Hjunk : ∀ n name, length (junk n name) = 30%nat ∧ bytes (junk n name)).
Context (Hblock : ∀ n, block_buf (junk_block n)).

Lemma matches_dirent t t' n :
  nonzero t → nonzero t' → (length t ≤ 29)%nat → (length t' ≤ 29)%nat → u16 n ≠ 0 →
  matches (t' ++ [0]) (new_dirent junk n t) = bool_decide (t' = t).
Proof using.
  intros Ht Ht' Hl Hl' Hn. unfold matches, new_dirent. cbn [de_inum de_name].
  rewrite (proj2 (Z.eqb_neq _ _)) by done. cbn [negb andb].
  destruct (strncmp_spec t' t [] (drop (length t + 1) (junk n t)) 30 Ht' Ht) as (r & -> & Hr).
  rewrite !take_ge in Hr by lia. apply bool_decide_ext. split; [intros [= ->]; by apply Hr|].
  intros ->. f_equal. by apply Hr.
Qed.

(** What a child of a directory is. *)
Definition child_is (s : mkfs) (path : list Z) (p : Z) (nm : list Z) (h : host) (n : Z) : Prop :=
  match h with
  | HFile (Some data) => file_is s n data
  | HDir _ d' => ∃ sub, MkfsDir n (join path nm) (dots junk n p ++ sub) ∈ dirs s ∧ children junk s (join path nm) n d' sub
  | _ => False
  end.

Lemma child_inum s path p nm h n : minv s → child_is s path p nm h n → 1 ≤ n < freeinode s.
Proof using.
  intros [I D]. destruct h as [[data|]|o d'| |]; cbn; try done.
  - by intros [_ [? _]].
  - intros (sub & Hin & _). pose proof (do_each _ D) as HD. rewrite Forall_forall in HD. apply (HD _ Hin).
Qed.

Lemma dir_find_child s path p d es nm h :
  minv s → stageable path d → children junk s path p d es → host_entry d nm = Some h → stored_kind h = true →
  ∃ k n, dir_find es (nm ++ [0]) = Some (k, new_dirent junk n nm) ∧ child_is s path p nm h n.
Proof using.
  intros Hs. revert es. induction d as [|name g rest IH _] using hostdir_ind'; intros es Hst Hc He Hk; [done|].
  cbn [host_entry stageable children] in *. destruct (skipped name) eqn:Esk; cbn [negb] in *.
  { rewrite andb_false_r in He. by apply IH; [apply Hst|..]. }
  rewrite andb_true_r in He. destruct Hst as [Hg Hst]. pose proof (io_next _ (proj1 Hs)).
  assert (Hcase : ∀ n es', es = new_dirent junk n name :: es' → name_ok name → name ∉ host_names rest →
    child_is s path p name g n → children junk s path p rest es' →
    ∃ k m, dir_find es (nm ++ [0]) = Some (k, new_dirent junk m nm) ∧ child_is s path p nm h m).
  { intros n es' -> (_ & Hl & Hnz & _) Hnot Hch Hrest. pose proof (child_inum _ _ _ _ _ _ Hs Hch).
    assert (u16 n ≠ 0) by (unfold u16; rewrite Z.mod_small; lia). case_bool_decide as E.
    - subst nm. injection He as ->. exists 0%nat, n. split; [|done]. unfold dir_find. cbn.
      rewrite decide_True; [done|]. rewrite matches_dirent by (done || lia). by apply bool_decide_true.
    - destruct (IH es' Hst Hrest He Hk) as (k & m & Hf & Hm). exists (S k), m. split; [|done]. unfold dir_find. cbn.
      rewrite decide_False.
      + unfold dir_find in Hf. by rewrite Hf.
      + destruct (host_entry_name _ _ _ He Hk) as [Hin _]. destruct (stageable_names _ _ _ Hst Hin) as (_ & Hl' & Hnz' & _).
        rewrite matches_dirent by (done || lia). rewrite bool_decide_false by congruence. done. }
  destruct g as [[data|]|[] d'| |]; try done.
  - destruct Hg as (? & ? & ? & _). destruct Hc as (n & es' & E & Hf & Hr). by apply (Hcase n es').
  - destruct Hg as (? & ? & ? & _). destruct Hc as (n & sub & es' & E & Hin & Hsub & Hr). apply (Hcase n es'); try done. by exists sub.
  - case_bool_decide; [|by apply IH]. by injection He as <-.
Qed.

(** ** Path resolution on the image *)

Lemma next_unmounted t x nm : num_mounts t = 0 → next t (on_disk t) x nm = lookup_in t (on_disk t) x nm.
Proof using.
  intros Hm. assert (Hno : ∀ f, mounted t f = None) by (intros f; unfold mounted; by rewrite Hm).
  unfold next, go_up. rewrite Hno. cbn. destruct (_ && _); cbn; destruct (lookup_in _ _ _ _) as [y|]; cbn; try done;
    unfold go_down; by rewrite Hno.
Qed.

Section resolve.
Context (s0 s1 s : mkfs) (F : finished s0 s1 s) (t : fs) (d : Z) (H : holds_image t d (image s)).
Context (H32 : freeinode s ≤ 32).
Context (Hm : ∀ n nm, nm ≠ [46; 46] → next t (on_disk t) (d, n) nm = lookup_in t (on_disk t) (d, n) nm).

Lemma lookup_child n path pp h es nm g :
  MkfsDir n path (dots junk n pp ++ es) ∈ dirs s0 → stageable path h → children junk s0 path n h es →
  host_entry h nm = Some g → stored_kind g = true →
  ∃ m, is_dir (on_disk t) (d, n) = true ∧ lookup_in t (on_disk t) (d, n) nm = Some (d, m) ∧ child_is s0 path n nm g m.
Proof using F H H32.
  intros Hin Hst Hc He Hk. pose proof (fn_minv _ _ _ F) as Hs. pose proof Hs as [I D].
  rewrite (fn_next _ _ _ F) in H32. pose proof (io_next _ I).
  pose proof (do_each _ D) as HD. rewrite Forall_forall in HD. destruct (HD _ Hin) as [Hn _ [_ Hes]]. cbn [md_inum entries] in *.
  destruct (fin_dir s0 s1 s F t d H _ Hin) as (Ht & Ec & _); [cbn; lia|]. cbn [md_inum entries] in Ht, Ec.
  destruct (dir_find_child s0 path n h es nm g Hs Hst Hc He Hk) as (k & m & Hf & Hch). exists m.
  destruct (host_entry_name _ _ _ He Hk) as [Hnm Hsk]. destruct (stageable_names _ _ _ Hst Hnm) as (_ & Hl & Hnz & _).
  assert (Hdir : is_dir (on_disk t) (d, n) = true) by (unfold is_dir; cbn [fst snd]; by rewrite Ht).
  split; [done|]. split; [|done]. unfold lookup_in. rewrite Hdir. cbn [fst snd]. rewrite Ec.
  assert (Hok : Forall dirent_ok (dots junk n pp ++ es)) by (eapply Forall_impl; [exact Hes|]; by intros e []).
  rewrite (proj1 (dirents_dir_bytes _ Hok)).
  unfold dir_find. rewrite list_find_app_r; [unfold dir_find in Hf; rewrite Hf; cbn [fmap option_fmap option_map prod_map snd]|].
  - do 2 f_equal. cbn. pose proof (child_inum _ _ _ _ _ _ Hs Hch). apply Z.mod_small. lia.
  - apply list_find_None. apply Forall_app in Hes as [Hdots _]. unfold skipped in Hsk. apply orb_false_iff in Hsk as [E1 E2].
    apply bool_decide_eq_false in E1, E2. unfold dots in *.
    apply Forall_cons in Hdots as [[_ D1] [[_ D2] _]%Forall_cons]. cbn [new_dirent de_inum] in D1, D2.
    assert (nonzero [46] ∧ nonzero [46; 46]) as [? ?] by (split; repeat constructor; lia).
    repeat constructor; rewrite matches_dirent by (done || cbn; lia); by rewrite bool_decide_false.
Qed.

(** A file of the staging directory is found, with its bytes. *)
Lemma resolve_file ps n path pp h es data :
  MkfsDir n path (dots junk n pp ++ es) ∈ dirs s0 → stageable path h → children junk s0 path n h es →
  host_find h ps = Some data →
  ∃ m, resolve t (on_disk t) false (d, n) ps = Some (d, m) ∧ k_type (on_disk t d m) = FT_FILE ∧
  content t d (on_disk t d m) = data.
Proof using F H H32 Hm.
  revert n path pp h es. induction ps as [|nm ps IH]; intros n path pp h es Hin Hst Hc Hf; [done|].
  cbn [host_find] in Hf. destruct (host_entry h nm) as [g|] eqn:He; [|done].
  assert (Hk : stored_kind g = true) by (destruct g, ps; done).
  destruct (lookup_child n path pp h es nm g Hin Hst Hc He Hk) as (m & Hdir & Hl & Hch).
  destruct (host_entry_name _ _ _ He Hk) as [Hnm Hsk]. destruct (stageable_names _ _ _ Hst Hnm) as (_ & Hl29 & _ & _).
  unfold skipped in Hsk. apply orb_false_iff in Hsk as [_ Hdd%bool_decide_eq_false].
  cbn [resolve]. rewrite Hdir. cbn [negb andb]. rewrite take_ge by lia. rewrite Hm, Hl by done. cbn [mbind option_bind].
  destruct g as [[data'|]|o d'| |], ps as [|nm' ps]; try done; cbn [child_is] in Hch.
  - injection Hf as ->. exists m. split; [done|]. eapply fin_file; [done..|].
    pose proof (child_inum s0 path n nm (HFile (Some data)) m (fn_minv _ _ _ F) Hch). rewrite (fn_next _ _ _ F) in H32. lia.
  - destruct Hch as (sub & Hin' & Hc'). eapply IH; [exact Hin'| |exact Hc'|done].
    by eapply host_entry_dir.
Qed.
End resolve.

(** ** Staging directories that fit the disk *)

Lemma dirs_cost_le ds : Forall (λ e, (length (entries e) ≤ 64)%nat) ds → dirs_cost ds ≤ 2 * Z.of_nat (length ds).
Proof using.
  induction 1 as [|e ds He _ IH]; cbn [dirs_cost length]; [lia|].
  assert (blocks_of (32 * Z.of_nat (length (entries e))) < 3) by (apply Z.div_lt_upper_bound; lia). lia.
Qed.

Definition fits_disk (h : hostdir) : Prop :=
  stageable [] h ∧ (length (host_names h) ≤ 62)%nat ∧ 2 + host_inodes h ≤ 32 ∧
  7 + host_blocks h + 2 * (1 + host_dirs h) ≤ 8192.

(** The finished image mirrors the staging directory. *)
Definition mirrored (h : hostdir) (s : mkfs) : Prop :=
  ∃ s0 s1 es, finished s0 s1 s ∧ freeinode s ≤ 32 ∧ MkfsDir 1 [] (dots junk 1 1 ++ es) ∈ dirs s0 ∧
  stageable [] h ∧ children junk s0 [] 1 h es.

Lemma mkfs_exact h :
  fits_disk h → ∃ s, mkfs_main junk junk_block (Some (true, h)) mkfs_init = Ok tt s ∧ mirrored h s.
Proof using Hjunk Hblock.
  intros (Hst & H62 & Hino & Hblk). destruct (host_nonneg h) as (? & ? & ?).
  destruct (wp_returns (mkfs_main junk junk_block (Some (true, h))) (λ _, mirrored h) mkfs_init) as ([] & s & E & Hs); [|by exists s].
  set (root := MkfsDir 1 [] (dots junk 1 1)).
  eapply (main_wp junk junk_block _ (λ s0, ∃ es, traversed junk (mkfs_start junk) s0 [] 0 root h es)).
  - eapply (traverse_exact junk junk_block Hjunk Hblock h (mkfs_start junk) [] 0 root); try done.
    + by apply start_minv.
    + apply NoDup_singleton.
    + intros nm e Hnm He Hu. apply list_elem_of_singleton in He as ->. cbn in Hu.
      apply (under_longer [] nm []); [apply (stageable_names _ _ _ Hst Hnm)|done|done].
    + cbn. lia.
    + cbn. lia.
    + cbn. lia.
    + intros s0 es T. split; [apply T|]. split; [apply T|]. by exists es.
  - intros s0 s1 s (es & T) F. exists s0, s1, es. split; [done|]. rewrite (fn_next _ _ _ F), (tv_inodes _ _ _ _ _ _ _ _ T).
    split; [cbn; lia|]. split; [|split; [done|apply T]]. eapply list_elem_of_lookup_2, (tv_dir _ _ _ _ _ _ _ _ T).
  - intros s0 (es & T) [I D] Hbad. exfalso. rewrite (tv_blocks _ _ _ _ _ _ _ _ T) in Hbad. cbn in Hbad.
    pose proof (tv_dirs _ _ _ _ _ _ _ _ T) as Hd. cbn in Hd.
    assert (dirs_cost (dirs s0) ≤ 2 * Z.of_nat (length (dirs s0))); [|lia].
    apply dirs_cost_le. eapply Forall_impl; [apply (do_each _ D)|]. intros e [_ _ [? _]]. lia.
Qed.
End spec.

(** What the code leaves uninitialised is bytes. *)
Definition junk_ok (junk : Z → list Z → list Z) (junk_block : Z → list Z) : Prop :=
  (∀ n name, length (junk n name) = 30%nat ∧ bytes (junk n name)) ∧ (∀ n, block_buf (junk_block n)).

Definition staging_bytes (st : option (bool * hostdir)) : Prop :=
  match st with Some (_, h) => host_bytes h | None => True end.

Lemma mkfs_finished junk junk_block st :
  junk_ok junk junk_block → staging_bytes st →
  wp (mkfs_main junk junk_block st) (λ _ s, ∃ s0 s1, finished s0 s1 s) (λ _, True) mkfs_init.
Proof.
  intros [Hj Hb] Hst. apply (main_wp junk junk_block st (λ _, True)); [|by eauto|done].
  pose proof (start_minv junk Hj) as Hs. destruct st as [[[] h]|]; [|done|by split_and!; [|apply ext_refl|]].
  apply traverse_inv; [done|done|done|constructor|done| |done]. done.
Qed.

(** ** Sample staging directories *)

Definition no_junk : Z → list Z → list Z := λ _ _, replicate 30 170.
Definition no_junk_block : Z → list Z := λ _, replicate 1024 85.

Lemma no_junk_ok : junk_ok no_junk no_junk_block.
Proof.
  split; [intros n name|intros n]; (split; [done|]); apply Forall_replicate; unfold is_byte; lia.
Qed.

(** A file and an empty [home]; a directory [f] that holds a file [hello]. *)
Definition stage0 : hostdir := HEntry c_f (HFile (Some c_hello)) (HEntry c_home (HDir true HEnd) HEnd).
Definition stage1 : hostdir :=
  HEntry c_dot (HDir true HEnd) (HEntry c_f (HDir true (HEntry c_hello (HFile (Some [1; 2; 3])) HEnd)) HEnd).

(** As many empty files as it takes to reach inode 32. *)
Definition stage31 : hostdir := foldr (λ c d, HEntry [c] (HFile (Some [])) d) HEnd (seqZ 65 31).

#[export] Instance name_ok_dec name : Decision (name_ok name).
Proof. unfold name_ok, nonzero. apply _. Defined.

Ltac stage_solve :=
  cbn -[name_ok]; repeat match goal with
  | |- context [skipped ?x] => let b := eval vm_compute in (skipped x) in change (skipped x) with b; cbn -[name_ok]
  | |- _ ∧ _ => split
  | |- name_ok _ => apply (bool_decide_unpack _); vm_compute; done
  | |- _ ∉ _ => apply (bool_decide_unpack _); vm_compute; done
  | |- bytes _ => repeat constructor; lia
  | |- True => done
  | |- _ => lia || (vm_compute; done)
  end.

Lemma stage0_fits : fits_disk stage0.
Proof. unfold fits_disk. stage_solve. Qed.
Lemma stage1_fits : fits_disk stage1.
Proof. unfold fits_disk. stage_solve. Qed.

(** ** The image is a filesystem *)

(** C29: whatever the staging directory holds, mkfs either exits with an error or
    writes an image on which the invariant of the kernel's filesystem code holds:
    no block used twice, every used block marked, every file as long as its blocks;
    and if at most 30 inodes were added, every directory names proper inodes. *)
Theorem mkfs_consistent junk junk_block st :
  junk_ok junk junk_block → staging_bytes st →
  (∃ s, mkfs_main junk junk_block st mkfs_init = Ok tt s ∧
     ∀ t d, holds_image t d (image s) → (cache_empty t → fsys t d (on_disk t d)) ∧
       (freeinode s ≤ 32 → ∀ n, inode_ok t d n → k_type (on_disk t d n) = FT_DIRECTORY →
          dir_sized (content t d (on_disk t d n)) ∧
          ∀ de, de ∈ dirents (content t d (on_disk t d n)) → de_inum de ≠ 0 → inode_ok t d (de_inum de))) ∨
  (∃ s, mkfs_main junk junk_block st mkfs_init = Panic s).
Proof.
  intros Hj Hst. destruct (proj1 (wp_iff _ _ _ _) (mkfs_finished _ _ _ Hj Hst)) as [([] & s & E & s0 & s1 & F)|(s & E & _)].
  - left. exists s. split; [done|]. intros t d H. split; [by eapply fin_fsys|]. intros H32 n. by eapply fin_dirs.
  - right. by exists s.
Qed.

Lemma mkfs_consistent_witness :
  (∃ s, mkfs_main no_junk no_junk_block (Some (true, stage1)) mkfs_init = Ok tt s ∧
     ∀ t d, holds_image t d (image s) → (cache_empty t → fsys t d (on_disk t d)) ∧
       (freeinode s ≤ 32 → ∀ n, inode_ok t d n → k_type (on_disk t d n) = FT_DIRECTORY →
          dir_sized (content t d (on_disk t d n)) ∧
          ∀ de, de ∈ dirents (content t d (on_disk t d n)) → de_inum de ≠ 0 → inode_ok t d (de_inum de))) ∨
  (∃ s, mkfs_main no_junk no_junk_block (Some (true, stage1)) mkfs_init = Panic s).
Proof.
  refine (mkfs_consistent no_junk no_junk_block (Some (true, stage1)) no_junk_ok _). cbn. repeat constructor; lia.
Defined.

(** C28: a staging directory with proper names that fits the disk and the inode area
    is written completely: mkfs succeeds, and under every path of the staging
    directory the kernel's path resolution finds a file with the same bytes. *)
Theorem mkfs_stores_files junk junk_block h :
  junk_ok junk junk_block → fits_disk h →
  ∃ s, mkfs_main junk junk_block (Some (true, h)) mkfs_init = Ok tt s ∧
    ∀ t d, holds_image t d (image s) → num_mounts t = 0 →
      ∀ ps data, host_find h ps = Some data →
        ∃ m, resolve t (on_disk t) false (d, 1) ps = Some (d, m) ∧ k_type (on_disk t d m) = FT_FILE ∧
          content t d (on_disk t d m) = data.
Proof.
  intros [Hj Hb] Hfit. destruct (mkfs_exact junk junk_block Hj Hb h Hfit) as (s & E & s0 & s1 & es & F & H32 & Hin & Hst & Hc).
  exists s. split; [done|]. intros t d H Hm ps data Hf.
  eapply (resolve_file junk s0 s1 s F t d H H32); [|done..]. intros n nm _. by apply next_unmounted.
Qed.

Lemma mkfs_stores_files_witness :
  host_find stage1 [c_f; c_hello] = Some [1; 2; 3] ∧
  ∃ s, mkfs_main no_junk no_junk_block (Some (true, stage1)) mkfs_init = Ok tt s ∧
    ∀ t d, holds_image t d (image s) → num_mounts t = 0 →
      ∀ ps data, host_find stage1 ps = Some data →
        ∃ m, resolve t (on_disk t) false (d, 1) ps = Some (d, m) ∧ k_type (on_disk t d m) = FT_FILE ∧
          content t d (on_disk t d m) = data.
Proof.
  split; [vm_compute; reflexivity|].
  exact (mkfs_stores_files no_junk no_junk_block stage1 no_junk_ok stage1_fits).
Defined.

(** ** The inode area is too small *)

Lemma full_byte b : is_byte b → (∀ i, 0 ≤ i < 8 → Z.testbit b i = true) → b = 255.
Proof.
  intros Hb Hbits. apply Z.bits_inj'. intros i Hi. destruct (decide (i < 8)).
  - rewrite Hbits by lia. assert (i = 0 ∨ i = 1 ∨ i = 2 ∨ i = 3 ∨ i = 4 ∨ i = 5 ∨ i = 6 ∨ i = 7) as Hc by lia.
    by repeat (destruct Hc as [-> | Hc]; [done|]); subst.
  - unfold is_byte in Hb. rewrite (Z.bits_above_log2 255) by (cbn; lia).
    destruct (Z.eq_dec b 0) as [->|]; [by rewrite Z.bits_0|]. apply Z.bits_above_log2; [lia|].
    assert (Z.log2 b < 8); [|lia]. apply Z.log2_lt_pow2; lia.
Qed.

Lemma decode_type_head b0 b1 l : d_type (decode_dinode (sub (b0 :: b1 :: l) 0 128)) = b0 + 256 * b1.
Proof. unfold decode_dinode. cbn [d_type]. unfold sub. rewrite !drop_0, take_take. cbn. rewrite take_0. cbn. lia. Qed.

(** C40: the superblock promises 64 inodes and leaves room for 32: the dinode of
    inode 32 lies in the bitmap block, so an entry of the staging directory that
    mkfs gives this number does not come out of the image as a file or directory. *)
Theorem mkfs_inode_overlap junk junk_block st s t d :
  junk_ok junk junk_block → staging_bytes st → mkfs_main junk junk_block st mkfs_init = Ok tt s →
  32 < freeinode s → holds_image t d (image s) →
  ninodes (sbof t d) = 64 ∧ inode_block (sbof t d) 32 = bmapstart (sbof t d) ∧
  k_type (on_disk t d 32) ≠ FT_FILE ∧ k_type (on_disk t d 32) ≠ FT_DIRECTORY ∧ k_type (on_disk t d 32) ≠ FT_UNUSED.
Proof.
  intros Hj Hst E Hx H. destruct (wp_post _ _ _ _ _ _ E (mkfs_finished _ _ _ Hj Hst)) as (s0 & s1 & F).
  pose proof (fn_built _ _ _ F) as B. pose proof (fn_dirs _ _ _ F) as W.
  destruct (fn_minv _ _ _ F) as [I D]. rewrite (hi_sb _ _ _ H). split; [done|]. split; [done|].
  assert (Hfb : 8 ≤ freeblock s1).
  { rewrite (dw_free _ _ _ W). pose proof (io_first _ I). destruct (do_root _ D) as (r & l & El & _). pose proof (do_each _ D) as HD.
    rewrite El in HD |- *. apply Forall_cons in HD as [[_ _ [Hl _]] _]. cbn [dirs_cost]. pose proof (dirs_cost_nonneg l).
    assert (1 ≤ blocks_of (32 * Z.of_nat (length (entries r)))) by (apply Z.div_le_lower_bound; lia). lia. }
  destruct (blk_ok (image s) 6 (proj1 (bt_disk _ _ B))) as [Hlen Hby].
  unfold on_disk, dnode, fblk. rewrite (hi_sb _ _ _ H), (hi_disk _ _ _ H). change (inode_block mkfs_sb 32) with 6.
  destruct (blk (image s) 6) as [|b0 [|b1 l]] eqn:Eb; [done..|].
  apply Forall_cons in Hby as [H0 [H1 _]%Forall_cons].
  assert (b0 = 255) as ->.
  { apply full_byte; [done|]. intros i Hi. pose proof (bt_bits _ _ B i ltac:(lia)) as Hm. unfold marked in Hm.
    rewrite Eb, Z.div_small, Z.mod_small in Hm by lia.
    change (Z.testbit b0 i = (i <? freeblock s1)) in Hm. rewrite Hm. apply Z.ltb_lt. lia. }
  change (Z.to_nat (inode_offset 32)) with 0%nat. unfold key. cbn [k_type]. rewrite decode_type_head. unfold is_byte in H1. unfold FT_FILE, FT_DIRECTORY, FT_UNUSED. lia.
Qed.

(** The image of the 31 files, and a kernel that has it on both devices. *)
Definition image31 : mkfs :=
  state_of (mkfs_main no_junk no_junk_block (Some (true, stage31)) mkfs_init) mkfs_init.
Definition kernel31 : fs := Fs [image image31; image image31] [mkfs_sb; mkfs_sb] [] [] 0.

Lemma image31_run : mkfs_main no_junk no_junk_block (Some (true, stage31)) mkfs_init = Ok tt image31.
Proof. apply run_ok. vm_compute. done. Qed.

Lemma stage31_bytes : staging_bytes (Some (true, stage31)).
Proof.
  unfold stage31. cbn [staging_bytes]. assert (H : Forall is_byte (seqZ 65 31)).
  { apply Forall_forall. intros c Hc%elem_of_seqZ. unfold is_byte. lia. }
  induction H as [|c l Hc _ IH]; [done|]. cbn. split; [by apply Forall_singleton|]. split; [constructor|done].
Qed.

Lemma kernel31_holds : holds_image kernel31 0 (image image31).
Proof.
  destruct (wp_post _ _ _ _ _ _ image31_run (mkfs_finished _ _ _ no_junk_ok stage31_bytes)) as (s0 & s1 & F).
  destruct (bt_disk _ _ (fn_built _ _ _ F)) as [Hd _].
  constructor; [|split; lia|done..]. split; [done|]. constructor; [done|]. constructor; [done|constructor].
Qed.

Lemma mkfs_inode_overlap_witness :
  freeinode image31 = 33 ∧
  ninodes (sbof kernel31 0) = 64 ∧ inode_block (sbof kernel31 0) 32 = bmapstart (sbof kernel31 0) ∧
  k_type (on_disk kernel31 0 32) ≠ FT_FILE ∧ k_type (on_disk kernel31 0 32) ≠ FT_DIRECTORY ∧
  k_type (on_disk kernel31 0 32) ≠ FT_UNUSED.
Proof.
  assert (E : freeinode image31 = 33) by (vm_compute; reflexivity). split; [exact E|].
  refine (mkfs_inode_overlap no_junk no_junk_block (Some (true, stage31)) image31 kernel31 0
    no_junk_ok stage31_bytes image31_run _ kernel31_holds). rewrite E. lia.
Defined.
