(* ===== verification/MkfsInit.v ===== *)
(** * Booting from the images

    [fs_init] of kernel/fs.c on two images written by tools/mkfs.c: the root
    device with a directory [home], and the device mounted on it. *)

From S2P Require Import Prelude CLib FsTypes Block Inode FsInv FsAlloc FsMap FsGrow FsFile FsWrite FsTrunc FsCache.
From S2P Require Import Sample Dir DirSpec FsRef Namei FsSpec.
From S2P Require Import Mkfs MkfsInv MkfsFile MkfsAdd MkfsTree MkfsImage MkfsHost MkfsSpec.

(** ** The cache during the first lookup *)

(** With a single inode referenced the cache has room. *)
Lemma not_full s s' d n : cache_empty s → tree s' (on_disk s) → walk s s' (one d n) → ¬ cache_full s'.
Proof.
  intros He T Wk Hfull. pose proof (tree_cache _ _ T) as HC. pose proof (wk_len _ _ _ Wk) as Hlen.
  rewrite He, length_replicate in Hlen. unfold NINODE in Hlen.
  assert (Hz : ∀ d' n', refs s d' n' = 0).
  { intros d' n'. unfold refs. rewrite He. unfold NINODE. generalize 50%nat.
    induction n0 as [|k IH]; [done|]. cbn [replicate tab_refs]. rewrite IH. unfold contrib. by case_match. }
  assert (Hat : ∀ i ip, inode_table s' !! i = Some ip → dev ip = d ∧ inum ip = n).
  { intros i ip Hi. pose proof (Hfull i ip Hi). pose proof (co_ref _ HC i ip Hi).
    pose proof (refs_live s' i ip HC Hi ltac:(lia)) as E. rewrite (wk_refs _ _ _ Wk), Hz in E. unfold one in E.
    case_decide as Ed; [done|lia]. }
  destruct (lookup_lt_is_Some_2 (inode_table s') 0 ltac:(lia)) as [x Hx].
  destruct (lookup_lt_is_Some_2 (inode_table s') 1 ltac:(lia)) as [y Hy].
  destruct (Hat _ _ Hx), (Hat _ _ Hy). pose proof (Hfull _ _ Hx). pose proof (Hfull _ _ Hy).
  pose proof (co_ref _ HC _ _ Hx). pose proof (co_ref _ HC _ _ Hy).
  assert (0 = 1)%nat; [|done]. apply (co_uniq _ HC 0%nat 1%nat x y); try done; lia || congruence.
Qed.

(** [namei("/home")] before anything is mounted. *)
Lemma namei_home_wp s m (Q : ptr → fs → Prop) R :
  tree s (on_disk s) → cache_empty s → num_mounts s = 0 → lookup_in s (on_disk s) (0, 1) c_home = Some (0, m) →
  (∀ i s', visit s s' (one 0 m) → pinned s' 0 i m → Q (Some i) s') → wp (namei None str_home) Q R s.
Proof.
  intros T He Hm Hl HQ. assert (Hd0 : dev_valid 0) by (split; lia). pose proof (tree_cache _ _ T) as HC.
  unfold namei, namex. wp_step. wp_step. wp_step. wp_step. apply iget_wp.
  2:{ intros Hfull. exfalso. apply (Hfull 0%nat inode_zero); [by rewrite He|done]. }
  intros i s1 G1. pose proof (got_visit _ _ _ _ _ G1) as V1. pose proof (walk_tree _ _ _ _ (vs_walk _ _ _ V1) T) as T1.
  pose proof (got_pinned _ _ _ _ _ G1 HC (te_root _ _ T 0 Hd0)) as P1.
  change (S (length str_home)) with (S (S 5)). cbn [loop]. wp_step. unfold namex_step at 1.
  wp_step. eapply wp_expect; [vm_compute; reflexivity|]. cbn iota.
  wp_step. eapply ilock_visit; [by apply (te_fsys _ _ T1)|done|]. intros s2 V2 Hh2.
  pose proof (walk_tree _ _ _ _ (vs_walk _ _ _ V2) T1) as T2.
  wp_step. eapply deref_held; [apply (fsys_rep _ _ _ (te_fsys _ _ T2 _ Hd0))|exact Hh2|].
  intros ip _ _ _ Eip Enp Hk _.
  assert (Hdir : k_type (on_disk s 0 1) = FT_DIRECTORY).
  { unfold lookup_in, is_dir in Hl. cbn [fst snd] in Hl. destruct (Z.eqb_spec (k_type (on_disk s 0 1)) FT_DIRECTORY); [done|done]. }
  assert (d_type (din ip) = FT_DIRECTORY) as -> by (rewrite <-Hdir; by rewrite <-Hk).
  rewrite Z.eqb_refl. cbn [negb]. wp_step. wp_step. cbn [andb]. wp_step. unfold mount_up.
  wp_step. eapply wp_expect; [vm_compute; reflexivity|]. cbn [Z.eqb andb]. wp_step.
  assert (V02 : visit s s2 (one 0 1)) by (eapply visit_trans; [exact V1|exact V2|]; intros; unfold zero; lia).
  assert (El : lookup_in s2 (on_disk s) (0, 1) c_home = Some (0, m))
    by (by destruct (wk_state _ _ _ (vs_walk _ _ _ V02)) as [f ->]).
  wp_step. wp_step. change [104; 111; 109; 101; 0] with (c_home ++ [0]).
  eapply (dirlookup_tree s2 (on_disk s) (0, 1) i); [done|done|done|repeat constructor; lia|by rewrite El| |].
  2:{ intros Hfull. exfalso. by eapply (not_full s s2); [|exact T2|apply V02|]. }
  intros y j off s3 E Hy G3. rewrite El in E. injection E as <-. cbn [fst snd] in G3.
  pose proof (got_visit _ _ _ _ _ G3) as V3. pose proof (walk_tree _ _ _ _ (vs_walk _ _ _ V3) T2) as T3.
  pose proof (got_pinned _ _ _ _ _ G3 (tree_cache _ _ T2) (proj2 Hy)) as P3.
  wp_step. cbn [fmap option_fmap option_map fst]. wp_step. unfold mount_down.
  destruct (P3) as (_ & jp & Hj & _ & Ed & En). wp_step. eapply wp_deref; [done|]. wp_step. eapply wp_ok; [apply find_mount_eq|].
  assert (Hno : ∀ f, mounted s3 f = None).
  { intros f. unfold mounted. destruct (walk_mounts _ _ _ (vs_walk _ _ _ V02)) as [_ E2], (walk_mounts _ _ _ (vs_walk _ _ _ V3)) as [_ E3].
    by rewrite E3, E2, Hm. }
  rewrite Hno. wp_step. wp_step. pose proof (vs_pin _ _ _ V3 _ _ _ (held_pinned _ _ _ _ Hh2)) as Pi3.
  apply iput_wp; [by eapply pinned_live|]. intros s4 D4. wp_step. cbn [loop]. wp_step. unfold namex_step.
  wp_step. eapply wp_expect; [vm_compute; reflexivity|]. cbn iota. wp_step. wp_step. wp_step. cbn [fst].
  apply HQ.
  - eapply drop_visit_to; [exact Pi3|exact D4|eapply visit_trans; [exact V02|exact V3|done]| | |exact HC|apply (tree_cache _ _ T3)].
    + intros. cbn. lia.
    + unfold one. case_decide; lia.
  - eapply got_dropped_kept; [exact G3|apply (tree_cache _ _ T2)| |by apply held_pinned|done]. apply Hy.
Qed.

(** ** Mounting *)

Lemma fsys_set_mounts s f k d A : fsys s d A → fsys (set_mounts f k s) d A.
Proof.
  intros [[[] ? ? ?] ? ?]. constructor; [constructor; [constructor|..]|..]; done.
Qed.

Lemma tree_set_mounts s f k A :
  tree s A →
  (∀ m, m ∈ take (Z.to_nat k) (f (mounts s)) →
     dev_valid (parent_dev m) ∧ inode_ok s (parent_dev m) (parent_inum m) ∧ dev_valid (child_dev m)) →
  tree (set_mounts f k s) A.
Proof.
  intros [HF HD _ HR] Hm. constructor; [intros; by apply fsys_set_mounts, HF|done|done|done].
Qed.

(** The state in front of the mount: both superblocks read, nothing cached. *)
Definition booting (u : fs) : fs := Fs (devs u) [mkfs_sb; mkfs_sb] (replicate NINODE inode_zero) (mounts u) (num_mounts u).

Section boot.
Context (junk : Z → list Z → list Z) (h0 h1 : hostdir) (a b : mkfs) (u : fs).
Context (Ha : mirrored junk h0 a) (Hb : mirrored junk h1 b).
Context (Hdevs : devs u = [image a; image b]) (Hsb : length (sb u) = 2%nat) (Hnm : num_mounts u = 0).

Lemma image_disk_ok h s : mirrored junk h s → disk_ok (image s) ∧ sectors (image s) = 16384 ∧
  blk (image s) 1 = pad_block (encode_superblock mkfs_sb).
Proof using. intros (s0 & s1 & es & F & _). destruct (bt_disk _ _ (fn_built _ _ _ F)). split_and!; [done..|apply F]. Qed.

Lemma boot_devs_ok t : devs t = devs u → devs_ok t.
Proof using Ha Hb Hdevs.
  intros E. unfold devs_ok. rewrite E, Hdevs. split; [done|].
  destruct (image_disk_ok _ _ Ha), (image_disk_ok _ _ Hb). constructor; [done|]. constructor; [done|constructor].
Qed.

Lemma boot_image t d : devs t = devs u → sb t = [mkfs_sb; mkfs_sb] → dev_valid d →
  holds_image t d (if d =? 0 then image a else image b).
Proof using Ha Hb Hdevs.
  clear Hsb. intros Ed Es Hd. constructor; [by apply boot_devs_ok|done|by rewrite Es| |].
  - unfold disk_of. rewrite Ed, Hdevs. destruct Hd. assert (d = 0 ∨ d = 1) as [-> | ->] by lia; done.
  - unfold sbof. rewrite Es. destruct Hd. assert (d = 0 ∨ d = 1) as [-> | ->] by lia; done.
Qed.

Lemma boot_super t d : devs t = devs u → dev_valid d →
  fits t d 1 ∧ fblk t d 1 = pad_block (encode_superblock mkfs_sb).
Proof using Ha Hb Hdevs.
  clear Hsb. intros Ed [? ?]. destruct (image_disk_ok _ _ Ha) as (_ & Sa & Ba), (image_disk_ok _ _ Hb) as (_ & Sb & Bb).
  unfold fits, fblk, disk_of. rewrite Ed, Hdevs. assert (d = 0 ∨ d = 1) as [-> | ->] by lia.
  - change ([image a; image b] !!! Z.to_nat 0) with (image a). rewrite Sa. split; [lia|done].
  - change ([image a; image b] !!! Z.to_nat 1) with (image b). rewrite Sb. split; [lia|done].
Qed.

Lemma images_tree : tree (booting u) (on_disk (booting u)).
Proof using Ha Hb Hdevs Hnm.
  clear Hsb. assert (Hi : ∀ d, dev_valid d → holds_image (booting u) d (if d =? 0 then image a else image b)) by (intros; by apply boot_image).
  assert (HF : ∀ d, dev_valid d → ∃ h s0 s1 s es, (if d =? 0 then image a else image b) = image s ∧
    finished s0 s1 s ∧ freeinode s ≤ 32 ∧ children junk s0 [] 1 h es).
  { intros d Hd. destruct Ha as (s0 & s1 & es & F & ? & _ & _ & ?), Hb as (s0' & s1' & es' & F' & ? & _ & _ & ?).
    destruct (d =? 0); [by exists h0, s0, s1, a, es|by exists h1, s0', s1', b, es']. }
  constructor.
  - intros d Hd. destruct (HF d Hd) as (h & s0 & s1 & s & es & E & F & _). pose proof (Hi d Hd) as H. rewrite E in H.
    by apply (fin_fsys s0 s1 s F _ d H).
  - intros d n Hd. destruct (HF d Hd) as (h & s0 & s1 & s & es & E & F & H32 & _). pose proof (Hi d Hd) as H. rewrite E in H.
    by apply (fin_dirs s0 s1 s F _ d H).
  - intros m. cbn. rewrite Hnm. cbn. by intros ?%elem_of_nil.
  - intros d Hd. apply (image_inode_ok _ _ _ (Hi d Hd)). lia.
Qed.

Lemma refs_booting d n : refs (booting u) d n = 0.
Proof using. unfold refs, booting. cbn [inode_table]. unfold NINODE. generalize 50%nat. induction n0 as [|k IH]; [done|]. cbn [replicate tab_refs]. rewrite IH. unfold contrib. by case_match. Qed.

Lemma fs_init_wp m (Q : unit → fs → Prop) R :
  lookup_in (booting u) (on_disk (booting u)) (0, 1) c_home = Some (0, m) →
  (∀ t, (∃ f, t = set_inode_table f (set_mounts (zupdate 0 (λ _, Mount 0 m 1)) 1 (booting u))) →
    tree t (on_disk t) → (∀ d n, refs t d n = 0) → length (inode_table t) = NINODE → Q tt t) →
  wp fs_init Q R u.
Proof using Ha Hb Hdevs Hsb Hnm.
  intros Hl HQ. assert (Hdec : decode_superblock (pad_block (encode_superblock mkfs_sb)) = mkfs_sb) by by vm_compute.
  destruct (sb u) as [|x [|y []]] eqn:Esb; try done.
  unfold fs_init. wp_step. wp_step. wp_step.
  apply wp_read_block; [by apply boot_devs_ok|split; lia|by apply boot_super; [|split; lia]|].
  match goal with |- context [fblk ?t 0 1] => rewrite (proj2 (boot_super t 0 eq_refl ltac:(split; lia))), Hdec end. wp_step. wp_step. cbn [magic mkfs_sb]. rewrite Z.eqb_refl. cbn [negb].
  wp_step. apply wp_read_block; [by apply boot_devs_ok|split; lia|by apply boot_super; [|split; lia]|].
  match goal with |- context [fblk ?t 1 1] => rewrite (proj2 (boot_super t 1 eq_refl ltac:(split; lia))), Hdec end. wp_step. wp_step. cbn [magic mkfs_sb]. rewrite Z.eqb_refl. cbn [negb].
  match goal with |- wp _ _ _ ?st => assert (st = booting u) as -> end.
  { unfold booting, set_sb, set_inode_table. cbn [devs sb inode_table mounts num_mounts]. by rewrite Esb. }
  wp_step. apply (namei_home_wp _ m); [apply images_tree|done|done|done|].
  intros i s' V P. destruct (P) as (Hok & ip & Hi & _ & Ed & En). wp_step. eapply wp_deref; [done|]. wp_step. wp_step. rewrite Ed, En.
  set (s2 := set_mounts (zupdate 0 (λ _, Mount 0 m 1)) 1 s'). assert (P2 : pinned s2 0 i m) by done.
  apply iput_wp; [by eapply pinned_live|].
  intros t D. destruct (wk_state _ _ _ (vs_walk _ _ _ V)) as [f Ef].
  assert (T2 : tree s2 (on_disk (booting u))).
  { apply tree_set_mounts; [eapply walk_tree; [apply V|apply images_tree]|]. intros k Hk. cbn in Hk.
    assert (k = Mount 0 m 1) as ->; [|by split_and!].
    destruct (mounts s') as [|m0 l]; cbn in Hk; [by apply elem_of_nil in Hk|by apply list_elem_of_singleton in Hk]. }
  pose proof (walk_tree _ _ _ _ (dropped_walk _ _ _ _ _ D P2) T2) as T.
  pose proof (dr_state _ _ _ D) as Et. unfold s2 in Et. rewrite Ef in Et. apply HQ; [rewrite Et; by eexists (λ l, _)|by rewrite Et in T |- *| |].
  2:{ rewrite (wk_len _ _ _ (dropped_walk _ _ _ _ _ D P2)). change (inode_table s2) with (inode_table s').
      rewrite (wk_len _ _ _ (vs_walk _ _ _ V)). apply length_replicate. }
  intros d n. rewrite (wk_refs _ _ _ (dropped_walk _ _ _ _ _ D P2)). change (refs s2 d n) with (refs s' d n).
  rewrite (wk_refs _ _ _ (vs_walk _ _ _ V)), refs_booting. lia.
Qed.
End boot.

(** ** Paths across the mount *)

Definition mounted_at (m : Z) (t : fs) : Prop := take (Z.to_nat (num_mounts t)) (mounts t) = [Mount 0 m 1].

Lemma next_child_device m t n nm :
  mounted_at m t → nm ≠ [46; 46] → next t (on_disk t) (1, n) nm = lookup_in t (on_disk t) (1, n) nm.
Proof.
  intros Hm Hne. unfold next, go_up. rewrite bool_decide_false by done. cbn [andb].
  unfold lookup_in. destruct (is_dir _ _); [|done]. destruct (dir_find _ _) as [[k de]|]; [|done]. cbn [fmap option_fmap option_map].
  f_equal. unfold go_down, mounted. by rewrite Hm.
Qed.

Lemma resolve_home m t ps :
  mounted_at m t → lookup_in t (on_disk t) (0, 1) c_home = Some (0, m) →
  resolve t (on_disk t) false (0, 1) (c_home :: ps) = resolve t (on_disk t) false (1, 1) ps.
Proof.
  intros Hm Hl. cbn [resolve]. assert (is_dir (on_disk t) (0, 1) = true) as ->.
  { unfold lookup_in in Hl. by destruct (is_dir _ _). }
  cbn [negb andb]. change (take 29 c_home) with c_home. unfold next, go_up.
  rewrite bool_decide_false by done. cbn [andb]. rewrite Hl. cbn [fmap option_fmap option_map mbind option_bind].
  unfold go_down, mounted. rewrite Hm. cbn [find parent_dev parent_inum fst snd]. by rewrite !Z.eqb_refl.
Qed.

(** ** Paths beside the mount

    The mount hides only what lies below [/home]: on every other path of the root
    device no directory is the mount point, because directories with one inode number
    have one path. *)

Section beside.
Context (junk : Z → list Z → list Z) (s0 s1 s : mkfs) (F : finished s0 s1 s).
Context (t : fs) (H : holds_image t 0 (image s)) (H32 : freeinode s ≤ 32).
Context (m : Z) (Hmt : mounted_at m t) (sub : list fsdirent) (Hhome : MkfsDir m c_home sub ∈ dirs s0).

Lemma next_beside n nm k :
  nm ≠ [46; 46] → lookup_in t (on_disk t) (0, n) nm = Some (0, k) → k ≠ m → next t (on_disk t) (0, n) nm = Some (0, k).
Proof using Hmt.
  intros Hne Hl Hk. unfold next, go_up. rewrite bool_decide_false by done. cbn [andb]. rewrite Hl.
  cbn [fmap option_fmap option_map]. unfold go_down, mounted. rewrite Hmt. cbn [find parent_dev parent_inum fst snd].
  by rewrite (proj2 (Z.eqb_neq m k)) by congruence.
Qed.

Lemma dir_not_home k path es : MkfsDir k path es ∈ dirs s0 → path ≠ c_home → k ≠ m.
Proof using F Hhome.
  intros Hin Hne ->. destruct (fn_minv _ _ _ F) as [_ D]. apply list_elem_of_lookup in Hin as [i Hi].
  apply list_elem_of_lookup in Hhome as [j Hj].
  assert (i = j) as ->; [|congruence].
  eapply (NoDup_lookup _ _ _ m (do_uniq _ D)); rewrite list_lookup_fmap; [by rewrite Hi|by rewrite Hj].
Qed.

Lemma file_not_home k data : file_is s0 k data → k ≠ m.
Proof using F Hhome.
  intros [Hty _] ->. destruct (fn_minv _ _ _ F) as [_ D]. pose proof (do_each _ D) as HD. rewrite Forall_forall in HD.
  destruct (HD _ Hhome) as [_ Hd _]. cbn [md_inum] in Hd. rewrite Hd in Hty. discriminate Hty.
Qed.

Lemma under_child q path nm : q ≠ [] → under q path → under q (join path nm).
Proof using.
  intros Hq Hu. unfold join. rewrite bool_decide_false.
  - right. destruct Hu as [-> |[r ->]]; [by exists nm|]. exists (r ++ 47 :: nm). by rewrite <-app_assoc.
  - destruct Hu as [-> |[r ->]]; [done|]. by destruct q.
Qed.

(** [q] is the first component of the path that is resolved. *)
Lemma resolve_beside q ps n path pp h es data :
  name_ok q → q ≠ c_home → (path = [] ∧ head ps = Some q) ∨ under q path →
  MkfsDir n path (dots junk n pp ++ es) ∈ dirs s0 → stageable path h → children junk s0 path n h es →
  host_find h ps = Some data →
  ∃ k, resolve t (on_disk t) false (0, n) ps = Some (0, k) ∧ content t 0 (on_disk t 0 k) = data.
Proof using F H H32 Hmt Hhome.
  intros (Hq0 & _ & _ & Hq47) Hqh. revert n path pp h es. induction ps as [|nm ps IH]; intros n path pp h es Hpos Hin Hst Hc Hf; [done|].
  cbn [host_find] in Hf. destruct (host_entry h nm) as [g|] eqn:He; [|done].
  assert (Hk : stored_kind g = true) by (destruct g, ps; done).
  destruct (lookup_child junk s0 s1 s F t 0 H H32 n path pp h es nm g Hin Hst Hc He Hk) as (k & Hdir & Hl & Hch).
  destruct (host_entry_name _ _ _ He Hk) as [Hnm Hsk]. destruct (stageable_names _ _ _ Hst Hnm) as (_ & Hl29 & _ & _).
  unfold skipped in Hsk. apply orb_false_iff in Hsk as [_ Hdd%bool_decide_eq_false].
  assert (Hu : under q (join path nm)).
  { destruct Hpos as [[-> [= ->]]|Hu]; [by left|by apply under_child]. }
  assert (Hkm : k ≠ m).
  { destruct g as [[data'|]|o d'| |]; cbn [child_is] in Hch; try done; [by eapply file_not_home|].
    destruct Hch as (es' & Hin' & _). eapply dir_not_home; [exact Hin'|]. intros E. rewrite E in Hu.
    apply Hqh. apply (under_names [] q c_home c_home); [done| |exact Hu|by left].
    unfold c_home. rewrite !not_elem_of_cons. split_and!; try done. apply not_elem_of_nil. }
  cbn [resolve]. rewrite Hdir. cbn [negb andb]. rewrite take_ge by lia. rewrite (next_beside n nm k) by done. cbn [mbind option_bind].
  destruct g as [[data'|]|o d'| |], ps as [|nm' ps]; try done; cbn [child_is] in Hch.
  - injection Hf as ->. exists k. split; [done|]. eapply fin_file; [done..|].
    pose proof (child_inum junk s0 path n nm (HFile (Some data)) k (fn_minv _ _ _ F) Hch). rewrite (fn_next _ _ _ F) in H32. lia.
  - destruct Hch as (es' & Hin' & Hc'). eapply IH; [by right|exact Hin'| |exact Hc'|done].
    by eapply host_entry_dir.
Qed.
End beside.

(** What [fs_init] makes of two images. *)
Record fs_booted (h0 h1 : hostdir) (u t : fs) : Prop := {
  bo_tree : tree t (on_disk t);
  bo_refs d n : refs t d n = 0;
  bo_devs : devs t = devs u;
  bo_len : length (inode_table t) = NINODE;
  bo_root ps data : host_find h0 ps = Some data → head ps ≠ Some c_home →
    ∃ k, resolve t (on_disk t) false (0, 1) ps = Some (0, k) ∧ content t 0 (on_disk t 0 k) = data;
  bo_home ps data : host_find h1 ps = Some data →
    ∃ k, resolve t (on_disk t) false (0, 1) (c_home :: ps) = Some (1, k) ∧ content t 1 (on_disk t 1 k) = data
}.

Lemma images_boot junk h0 h1 o hd a b : mirrored junk h0 a → mirrored junk h1 b → host_entry h0 c_home = Some (HDir o hd) →
  ∀ u, devs u = [image a; image b] → length (sb u) = 2%nat → mounts u ≠ [] → num_mounts u = 0 →
    ∃ t, fs_init u = Ok tt t ∧ fs_booted h0 h1 u t.
Proof.
  intros Ha Hb He u Hd Hs Hne Hm. pose proof Ha as (s0 & s1 & es & F & H32 & Hin & Hst & Hc).
  pose proof (boot_image junk h0 h1 a b u Ha Hb Hd (booting u) 0 eq_refl eq_refl ltac:(split; lia)) as Hi0.
  destruct (lookup_child junk s0 s1 a F _ 0 Hi0 H32 1 [] 1 h0 es c_home (HDir o hd) Hin Hst Hc He eq_refl) as (m & _ & Hl & Hch).
  destruct (wp_returns fs_init (λ _ t, (∃ f, t = set_inode_table f (set_mounts (zupdate 0 (λ _, Mount 0 m 1)) 1 (booting u))) ∧
    tree t (on_disk t) ∧ (∀ d n, refs t d n = 0) ∧ length (inode_table t) = NINODE) u) as ([] & t & Et & (f & Ef) & T & Hz & Hlen).
  { eapply (fs_init_wp junk h0 h1 a b u Ha Hb Hd Hs Hm m); [done|]. done. }
  exists t. split; [done|].
  assert (Hmt : mounted_at m t) by (rewrite Ef; unfold mounted_at; cbn; by destruct (mounts u)).
  assert (Hi : ∀ d, dev_valid d → holds_image t d (if d =? 0 then image a else image b)).
  { intros d. apply (boot_image junk h0 h1 a b u Ha Hb Hd); by rewrite Ef. }
  split; [done|done|by rewrite Ef|done|intros ps data Hf Hhd|intros ps data Hf].
  - destruct Hch as (sub & Hsub & _). destruct ps as [|q ps]; [done|].
    assert (Hq : name_ok q).
    { cbn [host_find] in Hf. destruct (host_entry h0 q) as [g|] eqn:Eg; [|done].
      assert (Hk : stored_kind g = true) by (destruct g, ps; done).
      destruct (host_entry_name _ _ _ Eg Hk) as [Hnm _]. by eapply stageable_names. }
    eapply (resolve_beside junk s0 s1 a F t (Hi 0 ltac:(split; lia)) H32 m Hmt _ Hsub q (q :: ps)); try done; [|by left].
    intros ->. by apply Hhd.
  - rewrite (resolve_home m) by (done || by rewrite Ef).
    pose proof Hb as (s0' & s1' & es' & F' & H32' & Hin' & Hst' & Hc').
    destruct (resolve_file junk s0' s1' b F' t 1 (Hi 1 ltac:(split; lia)) H32' (λ n nm, next_child_device m t n nm Hmt) ps 1 [] 1 h1 es' data Hin' Hst' Hc' Hf)
      as (k & Hr & _ & Hk). by exists k.
Qed.

(** Two images that mkfs wrote boot: from any state of the filesystem module
    [fs_init] returns with the second device mounted on [/home] and the invariant of
    the whole tree established, and every file of the second staging directory is
    then found under [/home] with its bytes. *)
Theorem mkfs_boots junk junk_block h0 h1 o hd :
  junk_ok junk junk_block → fits_disk h0 → fits_disk h1 → host_entry h0 c_home = Some (HDir o hd) →
  ∃ a b, mkfs_main junk junk_block (Some (true, h0)) mkfs_init = Ok tt a ∧
    mkfs_main junk junk_block (Some (true, h1)) mkfs_init = Ok tt b ∧
    ∀ u, devs u = [image a; image b] → length (sb u) = 2%nat → mounts u ≠ [] → num_mounts u = 0 →
      ∃ t, fs_init u = Ok tt t ∧ tree t (on_disk t) ∧ devs t = devs u ∧
        ∀ ps data, host_find h1 ps = Some data →
          ∃ k, resolve t (on_disk t) false (0, 1) (c_home :: ps) = Some (1, k) ∧ content t 1 (on_disk t 1 k) = data.
Proof.
  intros [Hj Hjb] F0 F1 He. destruct (mkfs_exact junk junk_block Hj Hjb h0 F0) as (a & Ea & Ha).
  destruct (mkfs_exact junk junk_block Hj Hjb h1 F1) as (b & Eb & Hb). exists a, b. split; [done|]. split; [done|].
  intros u Hd Hs Hne Hm. destruct (images_boot junk h0 h1 o hd a b Ha Hb He u Hd Hs Hne Hm) as (t & Et & [T _ Ed _ _ Hf]).
  by exists t.
Qed.

Lemma mkfs_boots_witness :
  host_find stage1 [c_f; c_hello] = Some [1; 2; 3] ∧
  ∃ a b, mkfs_main no_junk no_junk_block (Some (true, stage0)) mkfs_init = Ok tt a ∧
    mkfs_main no_junk no_junk_block (Some (true, stage1)) mkfs_init = Ok tt b ∧
    ∀ u, devs u = [image a; image b] → length (sb u) = 2%nat → mounts u ≠ [] → num_mounts u = 0 →
      ∃ t, fs_init u = Ok tt t ∧ tree t (on_disk t) ∧ devs t = devs u ∧
        ∀ ps data, host_find stage1 ps = Some data →
          ∃ k, resolve t (on_disk t) false (0, 1) (c_home :: ps) = Some (1, k) ∧ content t 1 (on_disk t 1 k) = data.
Proof.
  split; [vm_compute; reflexivity|].
  exact (mkfs_boots no_junk no_junk_block stage0 stage1 true HEnd no_junk_ok stage0_fits stage1_fits eq_refl).
Defined.
