(* ===== verification/ULib.v ===== *)
(** * The user library: definitions

    user/lib/user.c: the system-call stubs below the C library of a program, and
    the small API of dmaOS. The state is the machine, which the stubs reach with
    [ecall], and the statics of the file. A pointer is an address of the program;
    its own loads and stores go through its page table in user mode. The values
    of the macros of newlib's headers are the fields of class [Newlib]; the
    registers that a stub does not set, and the readings of the timer, are fields of
    class [Platform]. *)

From S2P Require Import Prelude CLib FsTypes Block Inode Dir Path KState FdTable Page UserMem Process Virtio Kprintf Syscall.

(** ** Headers *)

(** Macros of errno.h, fcntl.h and sys/stat.h. *)
Class Newlib := {
  ENOMEM : Z; ENOSYS : Z; EAGAIN : Z; EINVAL : Z; ENOTTY : Z;
  O_CREAT : Z; O_TRUNC : Z; O_APPEND : Z; O_NONBLOCK : Z;
  F_GETFL : Z; F_SETFL : Z;
  S_IFCHR : Z; S_IFREG : Z; S_IFDIR : Z
}.

Definition TCGETS : Z := 21505.
Definition TCSETS : Z := 21506.
Definition TCSETSW : Z := 21507.
Definition TCSETSF : Z := 21508.
Definition TIOCGWINSZ : Z := 21523.
Definition VTIME : nat := 5.
Definition VMIN : nat := 6.

Record termios := Termios {
  c_iflag : Z; c_oflag : Z; c_cflag : Z; c_lflag : Z;
  c_line : Z; c_cc : list Z; c_ispeed : Z; c_ospeed : Z
}.
Definition termios_zero : termios := Termios 0 0 0 0 0 (zeros 32) 0 0.

(** ** State *)

(** [reads] counts the reads of the timer so far. *)
Record uproc := Uproc {
  um : machine;
  errno : Z;
  stdin_termios : termios;
  stdin_flags : Z;
  reads : nat
}.
Definition set_um (m : machine) (u : uproc) : uproc := Uproc m (errno u) (stdin_termios u) (stdin_flags u) (reads u).
Definition set_errno (e : Z) (u : uproc) : uproc := Uproc (um u) e (stdin_termios u) (stdin_flags u) (reads u).
Definition set_stdin_termios (t : termios) (u : uproc) : uproc := Uproc (um u) (errno u) t (stdin_flags u) (reads u).
Definition set_stdin_flags (f : Z) (u : uproc) : uproc := Uproc (um u) (errno u) (stdin_termios u) f (reads u).
Definition set_reads (n : nat) (u : uproc) : uproc := Uproc (um u) (errno u) (stdin_termios u) (stdin_flags u) n.

Definition in_machine {A} (m : M machine A) : M uproc A := zoom um set_um m.

(** The statics when the program starts. *)
Definition uproc_init (m : machine) (n : nat) : uproc :=
  Uproc m 0 (Termios 0 0 0 0 0 (<[VMIN := 1]> (zeros 32)) 0 0) 0 n.

(** ** Accesses of the program itself *)

(** The leaf entry that the processor finds for [va]. *)
Definition leaf_entry (m : memory) (va : Z) : Z :=
  let e1 := word m (Z.land (satp m) 4194303 * PAGE_SIZE + 4 * vpn1 va) in
  word m (Z.shiftr e1 10 * PAGE_SIZE + 4 * vpn0 va).

Definition in_user_mode {A} (va : Z) (f : M memory A) : M memory A :=
  m ← get; if has_flag (leaf_entry m va) PAGE_U then f else fault.

Definition load_byte (va : Z) : M uproc Z := in_machine (in_user (in_user_mode va (load_user va))).
Definition store_byte (va b : Z) : M uproc unit := in_machine (in_user (in_user_mode va (store_user va [b]))).

(** What surrounds the program: the arguments of the trap handler, the registers
    that a stub does not set and the control registers of the trap, the readings of
    the timer, and how many rounds a wait may take. *)
Class Platform := {
  user_entry : Z; others : nat → M kernel unit; rounds : nat; meanwhile : input_dev → input_dev;
  junk_a1 : Z; junk_a2 : Z; junk_saved : list Z; sstatus : Z; sepc : Z;
  clock : nat → Z; patience : nat
}.

Section ulib.
Context {NL : Newlib} {PF : Platform}.

(** ** System calls *)

Definition ecall (x0 x1 x2 sysno : Z) : M uproc Z :=
  r ← in_machine (handle_trap user_entry others rounds meanwhile SCAUSE_ECALL sstatus sepc
    (Frame (u32 x0) (u32 x1) (u32 x2) sysno junk_saved));
  mret (s32 (a0 (fst r))).

Definition syscall1 (sysno arg0 : Z) : M uproc Z := ecall arg0 junk_a1 junk_a2 sysno.
Definition syscall2 (sysno arg0 arg1 : Z) : M uproc Z := ecall arg0 arg1 junk_a2 sysno.
Definition syscall3 (sysno arg0 arg1 arg2 : Z) : M uproc Z := ecall arg0 arg1 arg2 sysno.

Definition translate_error (err : Z) : Z :=
  if err >=? 0 then err else
  let val := - err in
  if val =? 4 then ENOMEM else val.

Definition handle_retval (ret : Z) : M uproc Z :=
  if ret <? 0 then modify (set_errno (translate_error ret));; mret (-1) else mret ret.

Definition fails (e : Z) : M uproc Z := modify (set_errno e);; mret (-1).

(** ** Time *)

Definition rdtime : M uproc Z := n ← gets reads; modify (set_reads (S n));; mret (u32 (clock n)).
Definition rdtimeh : M uproc Z := n ← gets reads; modify (set_reads (S n));; mret (u32 (clock n / 4294967296)).

Definition uptime : M uproc Z :=
  loop patience (λ _,
    high ← rdtimeh;
    low ← rdtime;
    temp ← rdtimeh;
    if high =? temp then mret (inr (high * 4294967296 + low)) else mret (inl tt)) tt.

Definition u64 (x : Z) : Z := x mod 18446744073709551616.

Definition yield_ : M uproc unit := syscall1 SYSCALL_YIELD 0;; mret tt.

Definition sleep_ms (ms : Z) : M uproc unit :=
  start ← uptime;
  let ticks := ms * 10000 in
  loop patience (λ _,
    t ← uptime;
    if u64 (t - start) <? ticks then yield_;; mret (inl tt) else mret (inr tt)) tt.

(** [req] is the [struct timespec] at the pointer, if that is not NULL. *)
Definition _nanosleep (req : option (Z * Z)) : M uproc Z :=
  match req with
  | None => fails EINVAL
  | Some (tv_sec, tv_nsec) =>
      start_time ← uptime;
      let ticks := u64 (u64 tv_sec * 10000000 + u64 tv_nsec / 100) in
      loop patience (λ _,
        t ← uptime;
        if u64 (t - start_time) >=? ticks then mret (inr tt) else syscall1 SYSCALL_YIELD 0;; mret (inl tt)) tt;;
      mret 0
  end.

(** Seconds and microseconds. *)
Definition _gettimeofday (tv : bool) : M uproc (option (Z * Z)) :=
  if tv then ticks ← uptime; mret (Some (ticks / 10000000, ticks mod 10000000 / 10)) else mret None.

(** ** Processes *)

Definition spawn (name : Z) : M uproc Z := syscall1 SYSCALL_SPAWN name.
Definition wait (pid : Z) : M uproc Z := syscall1 SYSCALL_WAIT pid.
Definition kmesg_ (buf buf_len : Z) : M uproc Z := syscall2 SYSCALL_KMESG buf buf_len.
Definition _exit (status : Z) : M uproc Z := syscall1 SYSCALL_EXIT 0;; hang.

(** The statics without an initial value are cleared, [main] runs, and newlib's [exit]
    ends in [_exit]. *)
Definition umain (main : Z → Z → M uproc Z) (argc argv : Z) : M uproc Z :=
  modify (λ u, set_errno 0 (set_stdin_flags 0 u));;
  status ← main argc argv;
  _exit status.

Definition _execve (name argv envp : Z) : M uproc Z := fails ENOSYS.
Definition _fork : M uproc Z := fails ENOSYS.
Definition _kill (pid sig : Z) : M uproc Z := fails ENOSYS.
Definition _link (oldpath newpath : Z) : M uproc Z := fails ENOSYS.
Definition _getpid : Z := 1.
Definition _isatty (fd : Z) : Z := if (0 <=? fd) && (fd <=? 2) then 1 else 0.
Definition _sbrk (incr : Z) : M uproc Z := r ← syscall1 SYSCALL_SBRK incr; handle_retval r.

(** ** Files *)

Definition _close (fd : Z) : M uproc Z := r ← syscall1 SYSCALL_CLOSE fd; handle_retval r.
Definition _lseek (fd ptr dir : Z) : M uproc Z := r ← syscall3 SYSCALL_LSEEK fd ptr dir; handle_retval r.

Definition kernel_flags (flags : Z) : Z :=
  let access := Z.land flags 3 in
  let k := if access =? 0 then FILECTRL_READONLY
           else if access =? 1 then FILECTRL_WRITEONLY
                else if access =? 2 then FILECTRL_READWRITE else 0 in
  let k := if has_flag flags O_CREAT then Z.lor k FILECTRL_CREATE else k in
  let k := if has_flag flags O_TRUNC then Z.lor k FILECTRL_TRUNCATE else k in
  if has_flag flags O_APPEND then Z.lor k FILECTRL_APPEND else k.

Definition _open (path flags : Z) : M uproc Z :=
  r ← syscall2 SYSCALL_OPEN path (kernel_flags flags); handle_retval r.

(** [_stat] and [_fstat] return the size and mode they store. *)
Definition _fstat (fd : Z) : M uproc (Z * option (Z * Z)) :=
  size ← syscall1 SYSCALL_GET_FILE_SIZE fd;
  if size <? 0 then modify (set_errno (translate_error size));; mret (-1, None) else
  mret (0, Some (size, if (0 <=? fd) && (fd <=? 2) then Z.lor S_IFCHR 438 else Z.lor S_IFREG 420)).

(** [kst] is the address of the local [struct k_stat]. *)
Definition _stat (kst path : Z) : M uproc (Z * option (Z * Z)) :=
  ret ← syscall2 SYSCALL_STAT path kst;
  if ret <? 0 then modify (set_errno (translate_error ret));; mret (-1, None) else
  type ← in_machine (in_user (in_user_mode kst (load_user32 kst)));
  size ← in_machine (in_user (in_user_mode kst (load_user32 (u32 (kst + 4)))));
  mret (0, Some (size, if type =? 1 then Z.lor S_IFDIR 493 else Z.lor S_IFREG 420)).

Definition _unlink (path : Z) : M uproc Z := r ← syscall1 SYSCALL_RM path; handle_retval r.
Definition chdir (path : Z) : M uproc Z := r ← syscall1 SYSCALL_CHDIR path; handle_retval r.
Definition mkdir (path mode : Z) : M uproc Z := r ← syscall2 SYSCALL_MKDIR path mode; handle_retval r.
Definition ftruncate (fd length : Z) : M uproc Z := syscall2 SYSCALL_FTRUNCATE fd length.

(** The buffer, or NULL. *)
Definition getcwd (buf size : Z) : M uproc Z :=
  ret ← syscall2 SYSCALL_GETCWD buf size;
  if ret <? 0 then modify (set_errno (translate_error ret));; mret 0 else mret buf.

(** ** The terminal *)

Definition vmin (u : uproc) : Z := c_cc (stdin_termios u) !!! VMIN.
Definition vtime (u : uproc) : Z := c_cc (stdin_termios u) !!! VTIME.

(** [cbuf[num_read++] = (char)ch] *)
Definition take_char (buf num_read ch : Z) : M uproc Z := store_byte (u32 (buf + num_read)) (u8 ch);; mret (num_read + 1).

(** Reading without waiting: [empty num_read] is what happens when no character is there. *)
Definition read_available (empty : Z → M uproc Z) (buf count : Z) : M uproc Z :=
  loop (S (Z.to_nat count)) (λ num_read,
    if num_read <? count then
      ch ← syscall1 SYSCALL_GETCHAR 0;
      if ch >=? 0 then n ← take_char buf num_read ch; mret (inl n)
      else r ← empty num_read; mret (inr r)
    else mret (inr num_read)) 0.

(** At most one character, before the timeout. *)
Definition read_timeout (timeout_ticks buf count : Z) : M uproc Z :=
  start_time ← uptime;
  loop patience (λ _,
    if 0 <? count then
      ch ← syscall1 SYSCALL_GETCHAR 0;
      if ch >=? 0 then n ← take_char buf 0 ch; mret (inr n) else
      t ← uptime;
      if u64 (t - start_time) >=? timeout_ticks then mret (inr 0) else
      syscall1 SYSCALL_YIELD 0;; mret (inl tt)
    else mret (inr 0)) tt.

(** At least [min] characters, giving up the processor while none is there. *)
Definition read_blocking (min buf count : Z) : M uproc Z :=
  loop patience (λ num_read,
    if (num_read <? min) && (num_read <? count) then
      ch ← syscall1 SYSCALL_GETCHAR 0;
      if ch >=? 0 then n ← take_char buf num_read ch; mret (inl n)
      else syscall1 SYSCALL_YIELD 0;; mret (inl num_read)
    else mret (inr num_read)) 0.

Definition _read (fd buf count : Z) : M uproc Z :=
  if fd =? 0 then
    min ← gets vmin; time ← gets vtime; flags ← gets stdin_flags;
    if has_flag flags O_NONBLOCK then
      read_available (λ num_read, if num_read =? 0 then fails EAGAIN else mret num_read) buf count
    else if (min =? 0) && (time =? 0) then read_available mret buf count
         else if (min =? 0) && (time >? 0) then read_timeout (time * 1000000) buf count
              else read_blocking min buf count
  else r ← syscall3 SYSCALL_READ fd buf count; handle_retval r.

Definition _write (fd buf count : Z) : M uproc Z :=
  if (fd =? 1) || (fd =? 2) then
    loop (S (Z.to_nat count)) (λ i,
      if i <? count then
        c ← load_byte (u32 (buf + i));
        syscall1 SYSCALL_PUTCHAR c;;
        mret (inl (i + 1))
      else mret (inr tt)) 0;;
    mret (s32 count)
  else r ← syscall3 SYSCALL_WRITE fd buf count; handle_retval r.

Definition _fcntl (fd cmd arg : Z) : M uproc Z :=
  if (fd =? 0) && (cmd =? F_GETFL) then gets stdin_flags
  else if (fd =? 0) && (cmd =? F_SETFL) then modify (set_stdin_flags arg);; mret 0
       else fails ENOSYS.

(** [arg] is the structure at the pointer; the call returns what it stores there. *)
Inductive ioctl_arg := ATermios (t : termios) | AWinsize (ws_row ws_col : Z) | ANone.

Definition _ioctl (fd request : Z) (arg : ioctl_arg) : M uproc (Z * ioctl_arg) :=
  if (fd =? 0) && (request =? TCGETS) then t ← gets stdin_termios; mret (0, ATermios t)
  else if (fd =? 0) && ((request =? TCSETS) || (request =? TCSETSW) || (request =? TCSETSF)) then
         match arg with
         | ATermios t => modify (set_stdin_termios t);; mret (0, arg)
         | _ => fault
         end
       else if request =? TIOCGWINSZ then mret (0, AWinsize 24 80)
            else modify (set_errno ENOTTY);; mret (-1, arg).

Definition ioctl (fd request : Z) (arg : ioctl_arg) : M uproc (Z * ioctl_arg) := _ioctl fd request arg.

Definition tcsetattr (fd optional_actions : Z) (termios_p : option termios) : Z := 0.
Definition tcgetattr (p : option termios) : Z * option termios :=
  match p with None => (-1, None) | Some _ => (0, Some termios_zero) end.

(** [c] is the address of the local variable. *)
Definition getchar_nonblock (c : Z) : M uproc Z :=
  old_flags ← _fcntl 0 F_GETFL 0;
  if old_flags <? 0 then mret (-1) else
  r ← _fcntl 0 F_SETFL (Z.lor old_flags O_NONBLOCK);
  if r <? 0 then mret (-1) else
  ret ← _read 0 c 1;
  _fcntl 0 F_SETFL old_flags;;
  if ret <=? 0 then mret (-1) else load_byte c.

(** ** The screen and the keyboard *)

Definition framebuffer_present (fb width height : Z) : M uproc Z :=
  r ← syscall3 SYSCALL_PRESENT_FRAMEBUFFER fb width height; handle_retval r.
Definition input_poll (code pressed : Z) : M uproc Z :=
  r ← syscall2 SYSCALL_INPUT_POLL code pressed; handle_retval r.
End ulib.
