(* ===== verification/ULibSpec.v ===== *)
(** * The user library: what a program sees

    The stubs of user/lib/user.c composed with the trap handler, the pointer checks
    and the filesystem of the kernel. *)

From S2P Require Import Prelude CLib FsTypes Block Inode FsInv FsAlloc FsMap FsGrow FsFile FsWrite.
From S2P Require Import FsTrunc FsCache Dir DirSpec FsRef Namei KState FdTable FdInv FdSteps FdFile.
From S2P Require Import Page UserMem PageMem PageTable UserSpec Process Virtio Kprintf Syscall.
From S2P Require Import Sample FsSpec ProcSpec FdSpec MemSpec Keyboard KprintfSpec ULib.

(** ** Registers *)

Lemma s32_u32 x : s32 (u32 x) = s32 x.
Proof. unfold s32, u32. f_equal. rewrite Z.add_mod_idemp_l by lia. done. Qed.

(** The pages of a buffer are mapped as a whole. *)
Lemma umapped_pages m r fl a n : 0 < n → (∀ va, a ≤ va < a + n → umapped m r fl va) →
  ∀ va, a / 4096 * 4096 ≤ va < a + n → umapped m r fl va.
Proof.
  intros Hn H va Hva. destruct (decide (a ≤ va)); [apply H; lia|].
  apply (umapped_page m r fl a); [Z.div_mod_to_equations; lia|]. apply H. lia.
Qed.

Section kernel.
Context {k : kernel} {A : Z → Z → ikey} {R K : gset Z} {r : Z}.
Context (HK : kinv k A [] []) (Hvm : vm_ok (kmem k) R K) (Hact : active (kmem k) R r).

Lemma sys_write_wp fd buf n i f d m (Q : Z → kernel → Prop) (P : kernel → Prop) :
  inode_open k fd i f d m → f_writable f = true → k_type (A d m) ≠ FT_DIRECTORY →
  0 < n < 2147483648 → 0 ≤ buf → buf + n ≤ USER_TOP → (∀ va, buf ≤ va < buf + n → umapped (kmem k) r 0 va) →
  let src := ubytes (kmem k) r buf (Z.to_nat n) in
  let c := write_spec (content (kfs k) d (A d m)) (f_off f) src in
  (∀ k' A1, kinv k' (upd A d A1) [] [] → content (kfs k') d (A1 m) = c.2 → k_type (A1 m) = k_type (A d m) →
    (∀ j e x, held (kfs k) e j x → held (kfs k') e j x) → only_file k k' i (advance f c.1) →
    Q (if c.1 <? 0 then ERR_NO_SPACE else c.1) k') →
  (∀ s', same_base (kfs k) s' d → FsGrow.full s' d → P (set_kfs s' k)) →
  wp (sys_write fd buf n) Q P k.
Proof using All.
  intros HO Hw Hnd Hn Hbuf Htop Hum src c HQ HP. unfold sys_write, USER_TOP in *. rewrite gtb_true by lia.
  wp_step. apply wp_in_mem. eapply wp_mono; [apply (validate_pages_wp Hvm Hact 0 buf n); lia| |done].
  intros b m' [-> Hiff]. assert (b = true) as ->.
  { apply Hiff. split; [unfold USER_TOP; lia|]. apply umapped_pages; [lia|done]. }
  cbn [negb]. wp_step. assert (set_kmem (kmem k) k = k) as -> by by destruct k.
  apply wp_in_mem. apply (copy_from_user_wp _ R K r 0); [done|done|lia|done|]. fold src.
  assert (set_kmem (kmem k) k = k) as -> by by destruct k.
  assert (Hl : Z.of_nat (length src) = n) by (unfold src; rewrite length_ubytes; lia).
  rewrite <-Hl. eapply (fs_write_wp k A fd src i f d m); [done..|by apply bytes_ubytes, Hvm|lia| |done].
  intros k' A1 K' _ Ec Et _ Hh Hof. by eapply HQ.
Qed.

Lemma sys_read_wp y fd buf n i f d m (Q : Z → kernel → Prop) (P : kernel → Prop) :
  inode_open k fd i f d m → f_readable f = true →
  0 < n < 2147483648 → 0 ≤ buf → buf + n ≤ USER_TOP → (∀ va, buf ≤ va < buf + n → umapped (kmem k) r PAGE_W va) →
  let c := read_spec (k_type (A d m)) (content (kfs k) d (A d m)) (f_off f) n in
  (∀ k' m', kinv (set_kmem m' k') A [] [] → kfs k' = kfs k → only_file k k' i (advance f c.1) →
    stored R (kmem k) m' r buf c.2 → vm_ok m' R K → Q c.1 (set_kmem m' k')) →
  wp (sys_read y fd buf n) Q P k.
Proof using All.
  intros HO Hr Hn Hbuf Htop Hum c HQ. unfold sys_read, USER_TOP in *. rewrite (proj2 (Z.leb_gt _ _)) by lia.
  wp_step. apply wp_in_mem. eapply wp_mono; [apply (validate_pages_wp Hvm Hact PAGE_W buf n); lia| |done].
  intros b m' [-> Hiff]. assert (b = true) as ->.
  { apply Hiff. split; [unfold USER_TOP; lia|]. apply umapped_pages; [lia|done]. }
  cbn [negb]. assert (set_kmem (kmem k) k = k) as -> by by destruct k.
  wp_step. eapply fs_read_wp; [done|done|done|lia|]. fold c. intros k' K' Es Hof.
  assert (Hc : bytes c.2 ∧ Z.of_nat (length c.2) ≤ n).
  { unfold c, read_spec. destruct (_ || _ || _) eqn:E; cbn [snd]; [split; [constructor|cbn; lia]|].
    apply orb_false_iff in E as [E _]. apply orb_false_iff in E as [_ E]. rewrite Z.gtb_ltb in E. apply Z.ltb_ge in E.
    pose proof (proj1 (proj2 (proj2 (inode_open_ok _ _ _ _ _ _ _ _ _ HK HO)))) as Hd.
    split; [apply bytes_sub, bytes_content; [apply (te_fsys _ _ (ki_tree _ _ _ _ HK) d Hd)|done]|].
    unfold sub. rewrite length_take, length_drop. lia. }
  destruct Hc as [Hcb Hcl]. pose proof Hof as (_ & _ & _ & _ & Em).
  wp_step. apply wp_in_mem. rewrite Em.
  eapply wp_mono; [apply (copy_to_user_wp _ R K r buf c.2); [done|done|done|lia|unfold USER_TOP; lia|]| |done].
  - intros va Hva. apply Hum. lia.
  - intros _ m' [Hst Hv']. wp_step. apply HQ; [by apply kinv_mem|done..].
Qed.
End kernel.

(** The descriptor after a transfer. *)
Lemma inode_open_advance k k' fd i f n d m :
  inode_open k fd i f d m → only_file k k' i (advance f n) → (∀ j e x, held (kfs k) e j x → held (kfs k') e j x) →
  inode_open k' fd i (advance f n) d m.
Proof.
  intros HO Hof Hh. eapply inode_open_next; [done|done|unfold advance; by destruct (n >? 0)..|].
  intros j Hj. apply Hh. destruct HO as (_ & _ & _ & j' & Hj' & H). by simplify_eq.
Qed.

(** ** The stubs *)

(** A running program: the kernel's tables are consistent, and [r] is the address
    space of the program. *)
Record uinv (u : uproc) (A : Z → Z → ikey) (R K : gset Z) (r : Z) : Prop := Uinv {
  ui_kernel : kinv (mk (um u)) A [] [];
  ui_vm : vm_ok (kmem (mk (um u))) R K;
  ui_active : active (kmem (mk (um u))) R r
}.

(** The bytes at an address of the program. *)
Definition umem (u : uproc) (r a n : Z) : list Z := ubytes (kmem (mk (um u))) r a (Z.to_nat n).
Definition umaps (u : uproc) (r fl a n : Z) : Prop :=
  0 ≤ a ∧ a + n ≤ USER_TOP ∧ ∀ va, a ≤ va < a + n → umapped (kmem (mk (um u))) r fl va.

Definition with_kernel (k : kernel) (u : uproc) : uproc := set_um (set_mk k (um u)) u.

Section stubs.
Context {NL : Newlib} {PF : Platform}.

(** A call that the handler answers with [m] on the kernel. *)
Lemma ecall_wp x0 x1 x2 n m (Q : Z → uproc → Prop) (P : uproc → Prop) u :
  (∀ f, f = Frame (u32 x0) (u32 x1) (u32 x2) n junk_saved →
    handle_syscall user_entry others rounds meanwhile f = returns f (in_k m)) →
  wp m (λ v k, Q (s32 v) (with_kernel k u)) (λ k, P (with_kernel k u)) (mk (um u)) →
  wp (ecall x0 x1 x2 n) Q P u.
Proof.
  intros Hf H. unfold ecall. wp_step. apply wp_zoom. unfold handle_trap. rewrite Z.eqb_refl.
  wp_step. rewrite (Hf _ eq_refl). unfold returns. wp_step. apply wp_zoom.
  eapply wp_mono; [exact H|..]; cbv beta.
  - intros v k HQ. do 3 wp_step. cbn [fst set_a0 a0]. rewrite s32_u32. exact HQ.
  - done.
Qed.

Lemma handle_retval_wp v (Q : Z → uproc → Prop) P u :
  (0 ≤ v → Q v u) → (v < 0 → Q (-1) (set_errno (translate_error v) u)) → wp (handle_retval v) Q P u.
Proof.
  intros H1 H2. unfold handle_retval. destruct (v <? 0) eqn:E.
  - apply Z.ltb_lt in E. wp_steps. by apply H2.
  - apply Z.ltb_ge in E. wp_steps. by apply H1.
Qed.

Section run.
Context {u : uproc} {A : Z → Z → ikey} {R K : gset Z} {r : Z} (HU : uinv u A R K r).

Lemma uwrite_wp fd buf n i f d m (Q : Z → uproc → Prop) (P : uproc → Prop) :
  inode_open (mk (um u)) fd i f d m → f_writable f = true → k_type (A d m) ≠ FT_DIRECTORY →
  3 ≤ fd < 2147483648 → 0 < n < 2147483648 → umaps u r 0 buf n →
  let c := write_spec (content (kfs (mk (um u))) d (A d m)) (f_off f) (umem u r buf n) in
  0 ≤ c.1 →
  (∀ k' A1, uinv (with_kernel k' u) (upd A d A1) R K r → content (kfs k') d (A1 m) = c.2 → k_type (A1 m) = k_type (A d m) →
    inode_open k' fd i (advance f c.1) d m → kmem k' = kmem (mk (um u)) → Q c.1 (with_kernel k' u)) →
  (∀ k', FsGrow.full (kfs k') d → P (with_kernel k' u)) →
  wp (_write fd buf n) Q P u.
Proof using All.
  intros HO Hw Hnd Hfd Hn (Hb & Htop & Hum) c Hc HQ HP. unfold _write, syscall3. rewrite !(proj2 (Z.eqb_neq _ _)) by lia.
  cbn [orb]. wp_step. unfold USER_TOP in Htop.
  apply (ecall_wp _ _ _ _ (sys_write (s32 (u32 fd)) (u32 buf) (s32 (u32 n)))); [by intros _ ->|].
  rewrite !s32_u32, !s32_small, u32_small by lia.
  eapply (sys_write_wp (ui_kernel _ _ _ _ _ HU) (ui_vm _ _ _ _ _ HU) (ui_active _ _ _ _ _ HU)); [done..| |].
  - intros k' A1 K' Ec Et Hh Hof. fold (umem u r buf n) in *. fold c in Ec, Hof |- *.
    rewrite (proj2 (Z.ltb_ge _ _)) by lia.
    assert (c.1 ≤ n) as Hcn.
    { unfold c, write_spec. destruct (_ || _); cbn [fst]; [lia|]. unfold umem. rewrite length_ubytes. lia. }
    rewrite s32_small by lia. apply handle_retval_wp; [|lia]. intros _. pose proof Hof as (_ & _ & _ & _ & Em).
    apply (HQ k' A1); [|done|done|by eapply inode_open_advance|done].
    split; cbn; rewrite ?Em; [done|apply HU..].
  - intros s' _ Hfull. by apply HP.
Qed.

Lemma uread_wp fd buf n i f d m (Q : Z → uproc → Prop) (P : uproc → Prop) :
  inode_open (mk (um u)) fd i f d m → f_readable f = true →
  3 ≤ fd < 2147483648 → 0 < n < 2147483648 → umaps u r PAGE_W buf n →
  let c := read_spec (k_type (A d m)) (content (kfs (mk (um u))) d (A d m)) (f_off f) n in
  0 ≤ c.1 →
  (∀ k', uinv (with_kernel k' u) A R K r → kfs k' = kfs (mk (um u)) → inode_open k' fd i (advance f c.1) d m →
    stored R (kmem (mk (um u))) (kmem k') r buf c.2 → Q c.1 (with_kernel k' u)) →
  wp (_read fd buf n) Q P u.
Proof using All.
  intros HO Hr Hfd Hn (Hb & Htop & Hum) c Hc HQ. unfold _read, syscall3. rewrite !(proj2 (Z.eqb_neq _ _)) by lia.
  wp_step. unfold USER_TOP in Htop.
  apply (ecall_wp _ _ _ _ (sys_read (yield others) (s32 (u32 fd)) (u32 buf) (s32 (u32 n)))); [by intros _ ->|].
  rewrite !s32_u32, !s32_small, u32_small by lia.
  eapply (sys_read_wp (ui_kernel _ _ _ _ _ HU) (ui_vm _ _ _ _ _ HU) (ui_active _ _ _ _ _ HU)); [done..|].
  intros k' m' K' Es Hof Hst Hv. fold c in Hof, Hst |- *.
  assert (c.1 ≤ n) as Hcn by (unfold c, read_spec; destruct (_ || _ || _); cbn [fst]; lia).
  rewrite s32_small by lia. apply handle_retval_wp; [|lia]. intros _. apply HQ; [|done| |done].
  - split; cbn; [done|done|]. destruct (ui_active _ _ _ _ _ HU) as [Ha Hs]. split; [done|]. by rewrite (sd_satp _ _ _ _ _ _ Hst).
  - assert (inode_open k' fd i (advance f c.1) d m) as HO' by (eapply inode_open_advance; [done|done|by rewrite Es]).
    exact HO'.
Qed.

Lemma ulseek_wp fd off i f d m (Q : Z → uproc → Prop) (P : uproc → Prop) :
  inode_open (mk (um u)) fd i f d m → 0 ≤ f_off f < 2147483648 → - f_off f ≤ off ≤ 0 → 0 ≤ fd < 2147483648 →
  (∀ k', uinv (with_kernel k' u) A R K r → kfs k' = kfs (mk (um u)) → kmem k' = kmem (mk (um u)) →
    inode_open k' fd i (set_f_off (f_off f + off) f) d m → Q (f_off f + off) (with_kernel k' u)) →
  wp (_lseek fd off 1) Q P u.
Proof using All.
  intros HO Hf Hoff Hfd HQ. unfold _lseek, syscall3. wp_step.
  apply (ecall_wp _ _ _ _ (fs_lseek (s32 (u32 fd)) (s32 (u32 off)) (s32 (u32 1)))); [by intros _ ->|].
  rewrite !s32_u32, !s32_small by lia. eapply fs_lseek_wp; [apply HU|done|..]; cbn [Z.eqb Pos.eqb]; rewrite s32_small by lia.
  - intros b Hb. injection Hb as <-. lia.
  - rewrite (proj2 (Z.ltb_ge _ _)) by lia. intros k' K' Es Hof. rewrite s32_small by lia.
    apply handle_retval_wp; [|lia]. intros _. pose proof Hof as (_ & _ & _ & _ & Em). apply HQ; [|done|done|].
    + split; cbn; rewrite ?Em; [done|apply HU..].
    + eapply inode_open_next; [done|done|done|done|]. intros j Hj. rewrite Es.
      destruct HO as (_ & _ & _ & j' & Hj' & Hh). by simplify_eq.
Qed.
End run.
End stubs.

Lemma ubytes_stored R m m' r a l n : stored R m m' r a l → 0 ≤ a → length l = Z.to_nat n →
  ubytes m' r a (Z.to_nat n) = l.
Proof.
  intros Hst Ha Hl. rewrite <-Hl. apply list_eq. intros j. unfold ubytes. rewrite list_lookup_fmap.
  destruct (decide (j < length l)%nat) as [Hj|Hj].
  - rewrite lookup_seq_lt by done. cbn. rewrite (sd_in _ _ _ _ _ _ Hst) by lia.
    replace (Z.to_nat (a + Z.of_nat j - a)) with j by lia. destruct (lookup_lt_is_Some_2 l j Hj) as [x ->]. done.
  - by rewrite lookup_seq_ge, lookup_ge_None_2 by lia.
Qed.

Lemma read_after_write c off src : 0 ≤ off ≤ Z.of_nat (length c) → off + Z.of_nat (length src) ≤ MAXFILE * BSIZE →
  read_spec FT_FILE (splice c (Z.to_nat off) src) off (Z.of_nat (length src)) = (Z.of_nat (length src), src).
Proof.
  intros Hoff Hmax. unfold read_spec. change (FT_FILE =? FT_UNUSED) with false. cbn [orb]. consts.
  rewrite length_splice_any by lia. rewrite gtb_false, geb_false by lia. cbn [orb]. rewrite Z.min_l by lia.
  rewrite Nat2Z.id. f_equal. unfold sub, splice. rewrite drop_app_ge by (rewrite length_take; lia).
  rewrite length_take. replace (Z.to_nat off - Z.to_nat off `min` length c)%nat with 0%nat by lia.
  rewrite drop_0. apply take_app_length.
Qed.

(** The program after a call: kernel [k'], logical inodes [A'], and descriptor [fd] on [f]. *)
Record after (u : uproc) (A' : Z → Z → ikey) (R K : gset Z) (r fd : Z) (i : nat) (f : File) (d m : Z) (c : list Z) (u' : uproc) : Prop := {
  af_inv : uinv u' A' R K r;
  af_open : inode_open (mk (um u')) fd i f d m;
  af_type : k_type (A' d m) = FT_FILE;
  af_content : content (kfs (mk (um u'))) d (A' d m) = c;
  af_mem : kmem (mk (um u')) = kmem (mk (um u))
}.

Section phases.
Context {NL : Newlib} {PF : Platform}.

Lemma uwrite_fits u A R K r fd src n i f d m :
  uinv u A R K r → inode_open (mk (um u)) fd i f d m → f_writable f = true → k_type (A d m) = FT_FILE →
  3 ≤ fd < 2147483648 → 0 < n → umaps u r 0 src n →
  let c := content (kfs (mk (um u))) d (A d m) in
  0 ≤ f_off f ≤ Z.of_nat (length c) → f_off f + n ≤ MAXFILE * BSIZE →
  wp (_write fd src n) (λ v u1, v = n ∧ ∃ A', after u A' R K r fd i (set_f_off (f_off f + n) f) d m
    (splice c (Z.to_nat (f_off f)) (umem u r src n)) u1)
  (λ u1, FsGrow.full (kfs (mk (um u1))) d) u.
Proof.
  intros HU HO Hw Hty Hfd Hn Hs c Hle Hmax. consts.
  assert (Hlen : Z.of_nat (length (umem u r src n)) = n) by (unfold umem; rewrite length_ubytes; lia).
  assert (Hws : write_spec c (f_off f) (umem u r src n) = (n, splice c (Z.to_nat (f_off f)) (umem u r src n))).
  { unfold write_spec. consts. by rewrite Hlen, !gtb_false by lia. }
  assert (Hadv : advance f n = set_f_off (f_off f + n) f) by (unfold advance; by rewrite gtb_true, u32_small by lia).
  eapply (uwrite_wp HU fd src n i f d m); fold c; rewrite ?Hws; cbn [fst snd]; rewrite ?Hadv; try done; [by rewrite Hty|lia|lia|].
  intros k' A1 HU1 Ec Et HO1 Em. split; [done|]. exists (upd A d A1). split; try done; rewrite upd_eq; [congruence|done].
Qed.

Lemma ulseek_back u A R K r fd n i f d m c : after u A R K r fd i (set_f_off (f_off f + n) f) d m c u →
  0 ≤ fd < 2147483648 → 0 ≤ f_off f → 0 ≤ n → f_off f + n < 2147483648 →
  wp (_lseek fd (- n) 1) (λ v u2, v = f_off f ∧ after u A R K r fd i f d m c u2) (λ _, False) u.
Proof.
  intros [HU HO Hty Hc _] Hfd Hoff Hn Hmax. eapply (ulseek_wp HU); [done|cbn; lia..|]. cbn [f_off set_f_off].
  replace (f_off f + n + - n) with (f_off f) by lia. intros k' HU2 Es Em HO2. split; [done|].
  split; cbn; [done|by destruct f|done|by rewrite Es|done].
Qed.

Lemma uread_back u A R K r fd dst n i f d m c src : after u A R K r fd i f d m (splice c (Z.to_nat (f_off f)) src) u →
  f_readable f = true → 3 ≤ fd < 2147483648 → 0 < n → umaps u r PAGE_W dst n → Z.of_nat (length src) = n →
  0 ≤ f_off f ≤ Z.of_nat (length c) → f_off f + n ≤ MAXFILE * BSIZE →
  wp (_read fd dst n) (λ v u3, v = n ∧ umem u3 r dst n = src ∧ uinv u3 A R K r) (λ _, False) u.
Proof.
  intros [HU HO Hty Hc _] Hr Hfd Hn Hd Hlen Hle Hmax. pose proof (read_after_write c (f_off f) src) as Hrd. rewrite Hlen in Hrd.
  consts. eapply (uread_wp HU fd dst n i f d m); rewrite ?Hty, ?Hc, ?Hrd by lia; cbn [fst snd]; try done; [lia|lia|].
  intros k3 HU3 _ _ Hst. split; [done|]. split; [|exact HU3].
  unfold umem. cbn. destruct Hd as [Hd _]. eapply ubytes_stored; [exact Hst|done|]. lia.
Qed.
End phases.

(** C30: a program that writes a buffer to a file, seeks back and reads into another
    buffer finds there the bytes that it wrote: through the stubs, the trap handler,
    the pointer checks, the descriptors and the filesystem. The only other outcome is
    a panic of the kernel because the device is full. *)
Theorem user_write_read {NL : Newlib} {PF : Platform} u A R K r fd src dst n i f d m :
  uinv u A R K r → inode_open (mk (um u)) fd i f d m → f_readable f = true → f_writable f = true →
  k_type (A d m) = FT_FILE → 3 ≤ fd < 2147483648 → 0 < n → umaps u r 0 src n → umaps u r PAGE_W dst n →
  f_off f ≤ Z.of_nat (length (content (kfs (mk (um u))) d (A d m))) → f_off f + n ≤ MAXFILE * BSIZE →
  (∃ u1 u2 u3 A', _write fd src n u = Ok n u1 ∧ _lseek fd (- n) 1 u1 = Ok (f_off f) u2 ∧
     _read fd dst n u2 = Ok n u3 ∧ umem u3 r dst n = umem u r src n ∧ uinv u3 A' R K r) ∨
  (∃ u1, _write fd src n u = Panic u1 ∧ FsGrow.full (kfs (mk (um u1))) d).
Proof.
  intros HU HO Hr Hw Hty Hfd Hn Hs Hd Hle Hmax.
  destruct (inode_open_ok _ _ _ _ _ _ _ _ _ (ui_kernel _ _ _ _ _ HU) HO) as (_ & Hoff & _).
  pose proof (uwrite_fits u A R K r fd src n i f d m HU HO Hw Hty Hfd Hn Hs ltac:(lia) Hmax) as H1.
  apply wp_iff in H1 as [(v & u1 & E1 & -> & A' & H1)|(u1 & E1 & Hf)]; [left|right; eauto].
  pose proof (af_mem _ _ _ _ _ _ _ _ _ _ _ _ H1) as Em1.
  assert (H : after u1 A' R K r fd i (set_f_off (f_off f + n) f) d m
    (splice (content (kfs (mk (um u))) d (A d m)) (Z.to_nat (f_off f)) (umem u r src n)) u1) by (by destruct H1).
  consts. apply ulseek_back in H; [|lia..]. apply wp_iff in H as [(v & u2 & E2 & -> & H2)|(? & _ & [])].
  pose proof (af_mem _ _ _ _ _ _ _ _ _ _ _ _ H2) as Em2.
  assert (H : after u2 A' R K r fd i f d m
    (splice (content (kfs (mk (um u))) d (A d m)) (Z.to_nat (f_off f)) (umem u r src n)) u2) by (by destruct H2).
  apply (uread_back _ _ _ _ _ _ dst n) in H; [|done|done|done| | |lia|consts; lia].
  - apply wp_iff in H as [(v & u3 & E3 & -> & Hmem & HU3)|(? & _ & [])]. by exists u1, u2, u3, A'.
  - unfold umaps in *. by rewrite Em2, Em1.
  - unfold umem. rewrite length_ubytes. lia.
Qed.

(** ** A sample program *)

(** The values of newlib's headers. *)
Definition newlib : Newlib := {|
  ENOMEM := 12; ENOSYS := 88; EAGAIN := 11; EINVAL := 22; ENOTTY := 25;
  O_CREAT := 512; O_TRUNC := 1024; O_APPEND := 8; O_NONBLOCK := 16384;
  F_GETFL := 3; F_SETFL := 4; S_IFCHR := 8192; S_IFREG := 32768; S_IFDIR := 16384
|}.

(** Nothing else happens, and the timer advances by one tick per reading. *)
Definition alone : Platform := {|
  user_entry := 0; others := λ _, mret tt; rounds := 1; meanwhile := id;
  junk_a1 := 0; junk_a2 := 0; junk_saved := []; sstatus := 0; sepc := 0;
  clock := Z.of_nat; patience := 100
|}.

(** Descriptor 3 is the file of [opened_f], and one page of memory is mapped. *)
Definition user_kernel : kernel :=
  set_kmem space2 (set_procs (<[0%nat := set_ofile (<[3%nat := Some 0%nat]> (replicate NUM_FILES_PER_PROCESS None)) boot_process]>) opened_f).
Definition user_start : uproc := uproc_init (Machine user_kernel (fresh_input 0) ∅ [] log_zero) 0.

Lemma user_start_ok : ∃ A, uinv user_start A {[ROOT]} ∅ ROOT ∧ inode_open user_kernel 3 0 f_slot 1 2 ∧
  k_type (A 1 2) = FT_FILE ∧ content (kfs user_kernel) 1 (A 1 2) = c_hello.
Proof.
  destruct opened_f_ok as (A & HK & HO & Et & Ec). exists A. destruct space2_ok as (Hvm & Hact & _).
  assert (Hp : procs opened_f !! 0%nat = Some (set_ofile (<[0%nat := Some 0%nat]> (replicate NUM_FILES_PER_PROCESS None)) boot_process)).
  { vm_compute. reflexivity. }
  assert (Es : kfs user_kernel = kfs opened_f) by (unfold user_kernel; cbn [set_kmem set_procs kfs]; reflexivity).
  assert (Em : kmem user_kernel = space2) by (unfold user_kernel; cbn [set_kmem set_procs kmem]; reflexivity).
  split; [|split; [|split; [exact Et|rewrite Es; exact Ec]]].
  - split; cbn [um user_start uproc_init mk]; rewrite ?Em; [|exact Hvm|exact Hact]. apply kinv_mem. eapply kinv_proc; [exact HK|exact Hp|done| |by vm_compute|].
    + intros [|j]; by vm_compute.
    + intros fd j. do 3 (destruct fd as [|fd]; [by vm_compute|]). destruct fd as [|fd].
      * intros E. injection E as <-. vm_compute. lia.
      * change (replicate 12 (@None nat) !! fd = Some (Some j) → (j < length (file_table opened_f))%nat).
        intros [E _]%lookup_replicate. discriminate E.
  - destruct HO as (_ & Hf & Hty & Hj). split; [|split; [exact Hf|split; [exact Hty|rewrite Es; exact Hj]]]. eexists _, _. split; [vm_compute; reflexivity|].
    split; [vm_compute; reflexivity|]. split; [lia|]. vm_compute. reflexivity.
Qed.

Lemma user_write_read_witness :
  (∃ u1 u2 u3 A', @_write newlib alone 3 USER_BASE 3 user_start = Ok 3 u1 ∧ @_lseek newlib alone 3 (- 3) 1 u1 = Ok 0 u2 ∧
     @_read newlib alone 3 (USER_BASE + 16) 3 u2 = Ok 3 u3 ∧
     umem u3 ROOT (USER_BASE + 16) 3 = umem user_start ROOT USER_BASE 3 ∧ uinv u3 A' {[ROOT]} ∅ ROOT) ∨
  (∃ u1, @_write newlib alone 3 USER_BASE 3 user_start = Panic u1 ∧ FsGrow.full (kfs (mk (um u1))) 1).
Proof.
  destruct user_start_ok as (A & HU & HO & Et & Ec).
  refine (@user_write_read newlib alone user_start A {[ROOT]} ∅ ROOT 3 USER_BASE (USER_BASE + 16) 3 0 f_slot 1 2
    HU HO eq_refl eq_refl Et _ _ _ _ _ _).
  - lia.
  - lia.
  - split; [unfold USER_BASE; lia|]. split; [unfold USER_BASE, USER_TOP; lia|]. intros va Hva. apply space2_mapped; [lia|by left].
  - split; [unfold USER_BASE; lia|]. split; [unfold USER_BASE, USER_TOP; lia|]. intros va Hva. apply space2_mapped; [lia|by right; left].
  - change (kfs (mk (um user_start))) with (kfs user_kernel). rewrite Ec. cbn. lia.
  - vm_compute. discriminate.
Defined.

(** [_fstat] passes its descriptor to a call that takes the position of an entry in
    the root directory: descriptor 3 is open on a file, and the call fails. *)
Lemma fstat_not_descriptor : ∃ u', @_fstat newlib alone 3 user_start = Ok (-1, None) u' ∧ errno u' = 1.
Proof. eexists. split; [vm_compute; reflexivity|]. vm_compute. reflexivity. Qed.
