(* ===== verification/ULibTerm.v ===== *)
(** * The user library: time

    The timer is 64 bits wide and read in halves; [uptime] puts the halves of one
    moment together, and [sleep_ms] waits at least as long as it was asked to and
    comes back. The second part is the terminal. *)

From S2P Require Import Prelude FsTypes FsInv KState Page Virtio UserMem FdTable Process Syscall PageMem PageTable.
From S2P Require Import UserSpec MemSpec FdInv FdSpec FdSafety ULib ULibSpec.

Section time.
Context {PF : Platform}.

(** The timer runs, and six readings of it take less than the low half can count. *)
Record running : Prop := Running {
  rn_start : 0 ≤ clock 0;
  rn_ticks : ∀ i, clock i < clock (S i);
  rn_near : ∀ i, clock (i + 5) < clock i + 4294967296
  }.

Context (HR : running).

Lemma clock_mono i j : (i ≤ j)%nat → clock i ≤ clock j.
Proof using HR. induction 1 as [|j _ IH]; [done|]. pose proof (rn_ticks HR j). lia. Qed.

Lemma clock_nonneg i : 0 ≤ clock i.
Proof using HR. pose proof (clock_mono 0 i ltac:(lia)). pose proof (rn_start HR). lia. Qed.

(** Two readings of the high half agree only if they are the same. *)
Lemma same_high i : u32 (clock i / 4294967296) = u32 (clock (i + 2) / 4294967296) →
  clock i / 4294967296 = clock (i + 2) / 4294967296.
Proof using HR.
  pose proof (clock_mono i (i + 2) ltac:(lia)). pose proof (clock_mono (i + 2) (i + 5) ltac:(lia)). pose proof (rn_near HR i).
  unfold u32. intros E. assert (clock i / 4294967296 ≤ clock (i + 2) / 4294967296 ≤ clock i / 4294967296 + 1) as [? ?].
  { split; [apply Z.div_le_mono; lia|]. rewrite <-Z.div_add by lia. apply Z.div_le_mono; lia. }
  Z.div_mod_to_equations. lia.
Qed.

Lemma joined i : clock i / 4294967296 = clock (i + 2) / 4294967296 →
  u32 (clock i / 4294967296) * 4294967296 + u32 (clock (i + 1)) = u64 (clock (i + 1)).
Proof using HR.
  intros E. pose proof (clock_mono i (i + 1) ltac:(lia)). pose proof (clock_mono (i + 1) (i + 2) ltac:(lia)).
  assert (clock i / 4294967296 = clock (i + 1) / 4294967296) as ->.
  { apply Z.le_antisymm; [apply Z.div_le_mono; lia|]. rewrite E. apply Z.div_le_mono; lia. }
  unfold u32, u64. Z.div_mod_to_equations. lia.
Qed.

(** One of two rounds sees no carry. *)
Lemma no_second_carry i : clock i / 4294967296 ≠ clock (i + 2) / 4294967296 →
  clock (i + 3) / 4294967296 = clock (i + 3 + 2) / 4294967296.
Proof using HR.
  intros E. pose proof (clock_mono i (i + 2) ltac:(lia)). pose proof (clock_mono (i + 2) (i + 3) ltac:(lia)).
  pose proof (clock_mono (i + 3) (i + 5) ltac:(lia)). pose proof (rn_near HR i). replace (i + 3 + 2)%nat with (i + 5)%nat by lia.
  Z.div_mod_to_equations. lia.
Qed.

Lemma uptime_wp (Q : Z → uproc → Prop) P u : (2 ≤ patience)%nat →
  (∀ j, (reads u < j ≤ reads u + 4)%nat → Q (u64 (clock j)) (set_reads (j + 2) u)) → wp uptime Q P u.
Proof using HR.
  intros Hp HQ. unfold uptime. destruct patience as [|[|p]]; [lia..|]. cbn [loop]. set (i := reads u) in *.
  assert (E2 : S (S i) = (i + 2)%nat) by lia.
  apply wp_bind. apply wp_bind. unfold rdtimeh at 1, rdtime at 1. wp_steps. cbn [reads set_reads].
  unfold rdtimeh at 1. wp_steps. cbn [reads set_reads]. fold i. rewrite E2. destruct (_ =? _) eqn:E.
  - apply Z.eqb_eq, same_high in E. wp_steps. replace (S i) with (i + 1)%nat by lia. rewrite joined by done.
    specialize (HQ (i + 1)%nat ltac:(lia)). by replace (i + 1 + 2)%nat with (S (i + 2)) in HQ by lia.
  - assert (clock i / 4294967296 ≠ clock (i + 2) / 4294967296) as Hne by (intros Heq; rewrite Heq, Z.eqb_refl in E; done).
    apply no_second_carry in Hne. wp_steps. unfold rdtimeh, rdtime. wp_steps. cbn [reads set_reads].
    replace (S (S (S (i + 2)))) with (i + 3 + 2)%nat by lia. replace (S (S (i + 2))) with (i + 3 + 1)%nat by lia.
    replace (S (i + 2)) with (i + 3)%nat by lia. rewrite Hne, Z.eqb_refl. wp_steps. rewrite <-Hne, joined by done.
    specialize (HQ (i + 3 + 1)%nat ltac:(lia)). by replace (i + 3 + 1 + 2)%nat with (S (i + 3 + 2)) in HQ by lia.
Qed.

(** ** Waiting *)

(** Giving up the processor comes back to the program, in a machine that satisfies [I]. *)
Definition calm (I : machine → Prop) : Prop := ∀ m, I m →
  wp (handle_syscall user_entry others rounds meanwhile (Frame 0 (u32 junk_a1) (u32 junk_a2) SYSCALL_YIELD junk_saved))
  (λ _ m', I m') (λ _, False) m.

Lemma yield_wp I (Q : unit → uproc → Prop) P u : calm I → I (um u) → (∀ m, I m → Q tt (set_um m u)) → wp yield_ Q P u.
Proof using.
  intros Hc Hi HQ. unfold yield_, syscall1, ecall. apply wp_bind, wp_bind, wp_zoom. unfold handle_trap. rewrite Z.eqb_refl.
  apply wp_bind. change (u32 0) with 0. eapply wp_mono; [by apply Hc| |done].
  intros f m Hm. wp_steps. by apply HQ.
Qed.

Lemma elapsed i j : (i ≤ j)%nat → clock j - clock i < 18446744073709551616 → u64 (u64 (clock j) - u64 (clock i)) = clock j - clock i.
Proof using HR.
  intros Hij Hlt. pose proof (clock_mono i j Hij). unfold u64.
  rewrite <-Zminus_mod. apply Z.mod_small. lia.
Qed.

(** The loop of [sleep_ms]: [j] was the last reading of the timer. *)
Lemma sleep_loop_wp I i (ticks : Z) (Q : unit → uproc → Prop) P : calm I → (2 ≤ patience)%nat → 0 ≤ ticks < 4294967296 * 10000 →
  ∀ fuel j u, I (um u) → (i ≤ j)%nat → reads u = (j + 2)%nat → clock j - clock i ≤ ticks →
  ticks - (clock j - clock i) < Z.of_nat fuel →
  (∀ m j', I m → (j ≤ j')%nat → ticks ≤ clock j' - clock i → Q tt (set_um m (set_reads (j' + 2) u))) →
  wp (loop fuel (λ _, t ← uptime; if u64 (t - u64 (clock i)) <? ticks then yield_;; mret (inl tt) else mret (inr tt)) tt) Q P u.
Proof using HR.
  intros Hc Hp Ht. induction fuel as [|fuel IH]; intros j u Hi Hij Hr Hlo Hf HQ; [lia|]. cbn [loop].
  apply wp_bind, wp_bind, uptime_wp; [done|]. rewrite Hr. intros j' Hj'.
  pose proof (clock_mono (S j) j' ltac:(lia)) as H1. pose proof (rn_ticks HR j) as H2.
  pose proof (clock_mono j' (j + 5 + 5) ltac:(lia)) as H3. pose proof (rn_near HR j) as H4. pose proof (rn_near HR (j + 5)) as H5.
  rewrite elapsed by lia. destruct (_ <? ticks) eqn:E.
  - apply Z.ltb_lt in E. apply wp_bind. eapply (yield_wp I); [done|done|]. intros m Hm. wp_steps.
    apply (IH j'); [done|lia|done|lia|lia|]. intros m' j'' Hm' Hj'' Hlast. apply (HQ m' j''); [done|lia|done].
  - apply Z.ltb_ge in E. wp_steps. specialize (HQ (um u) j' Hi ltac:(lia) E). by destruct u.
Qed.
End time.

Arguments running {PF}.
Arguments calm {PF} I.

(** C37: [sleep_ms] returns, however the carries of the timer fall between its reads,
    as long as giving up the processor comes back; and when it returns at least the
    time it was asked for has passed. Nothing but the machine and the timer changed. *)
Theorem sleep_ms_returns {PF : Platform} (I : machine → Prop) u ms :
  running → calm I → I (um u) → 0 ≤ ms < 4294967296 → ms * 10000 + 2 ≤ Z.of_nat patience →
  ∃ m n, sleep_ms ms u = Ok tt (set_um m (set_reads n u)) ∧ I m ∧ ms * 10000 ≤ clock n - clock (reads u).
Proof.
  intros HR Hc Hi Hms Hp.
  assert (wp (sleep_ms ms) (λ _ u', ∃ m n, u' = set_um m (set_reads n u) ∧ I m ∧ ms * 10000 ≤ clock n - clock (reads u)) (λ _, False) u) as H.
  { unfold sleep_ms. apply wp_bind, (uptime_wp HR); [lia|]. intros i Hir.
    apply (sleep_loop_wp HR I i (ms * 10000)) with (j := i); [done|lia|lia|done|done|done|lia|lia|].
    intros m j Hm Hj Hd. exists m, (j + 2)%nat. split; [done|]. split; [done|].
    pose proof (clock_mono HR (reads u) i ltac:(lia)). pose proof (clock_mono HR j (j + 2) ltac:(lia)). lia. }
  apply wp_iff in H as [([] & u' & E & m & n & -> & Hm & Hd)|(? & _ & [])]. eauto.
Qed.

(** A timer of one tick per reading, and a machine with a single process. *)
Definition patient : Platform := {|
  user_entry := 0; others := λ _, mret tt; rounds := 1; meanwhile := id;
  junk_a1 := 0; junk_a2 := 0; junk_saved := []; sstatus := 0; sepc := 0;
  clock := Z.of_nat; patience := Z.to_nat 10002
|}.

Lemma patient_running : @running patient.
Proof. split; cbn; intros; lia. Qed.

Definition lone_user : uproc :=
  with_kernel (set_procs (λ l, l ++ replicate (PROCS_MAX - 1) process_zero) user_kernel) user_start.

Lemma patient_calm : @calm patient (λ m, m = um lone_user).
Proof. intros m ->. eapply wp_ok; [vm_compute; reflexivity|]. vm_compute. reflexivity. Qed.

Lemma sleep_ms_returns_witness :
  ∃ m n, @sleep_ms patient 1 lone_user = Ok tt (set_um m (set_reads n lone_user)) ∧ m = um lone_user ∧
    1 * 10000 ≤ Z.of_nat n - Z.of_nat (reads lone_user).
Proof.
  refine (@sleep_ms_returns patient (λ m, m = um lone_user) lone_user 1 patient_running patient_calm eq_refl _ _).
  - lia.
  - cbn [patience patient]. rewrite Z2Nat.id by lia. lia.
Defined.

(** * The user library: the terminal

    Reading from descriptor 0 and writing to descriptors 1 and 2 go to the console
    one character at a time; the program's buffer is filled, respectively read,
    through its own page table. *)

Lemma leaf_entry_upte m R K r fl va : vm_ok m R K → active m R r → umapped m r fl va → leaf_entry m va = upte m r va.
Proof.
  intros Hvm [_ Hs] (Hv & _). unfold leaf_entry, upte, pte in *. rewrite Hs. change PAGE_SIZE with 4096.
  fold (l1 m r (vpn1 va)). fold (ppn (l1 m r (vpn1 va))). by destruct (is_valid (l1 m r (vpn1 va))).
Qed.

Section term.
Context {NL : Newlib} {PF : Platform}.

(** The program with another memory and console. *)
Definition with_term (m : memory) (c : console) (u : uproc) : uproc := with_kernel (set_kmem m (set_kcon c (mk (um u)))) u.

Lemma uinv_term u A R K r m c : uinv u A R K r → vm_ok m R K → satp m = satp (kmem (mk (um u))) →
  uinv (with_term m c u) A R K r.
Proof.
  intros [HK Hvm [Hr Hs]] Hm E. split; cbn; [|done|split; [done|by rewrite E]].
  exact (ProcSpec.kinv_mem _ _ _ _ m (kinv_con _ _ _ _ c HK)).
Qed.

Lemma in_user_mode_wp {T} m R K r fl va (f : M memory T) Q P : vm_ok m R K → active m R r → umapped m r fl va →
  wp f Q P m → wp (in_user_mode va f) Q P m.
Proof.
  intros Hvm Hact Hu H. unfold in_user_mode. apply wp_bind. unfold wp at 1, get.
  rewrite (leaf_entry_upte m R K r fl) by done. destruct Hu as (_ & -> & _). exact H.
Qed.

Lemma store_byte_wp u A R K r a b (Q : unit → uproc → Prop) P : uinv u A R K r → is_byte b →
  umapped (kmem (mk (um u))) r PAGE_W a →
  (∀ m, stored R (kmem (mk (um u))) m r a [b] → vm_ok m R K → Q tt (with_kernel (set_kmem m (mk (um u))) u)) →
  wp (store_byte a b) Q P u.
Proof.
  intros [_ Hvm Hact] Hb Hu HQ. unfold store_byte. apply wp_zoom, wp_zoom, wp_in_mem.
  eapply (in_user_mode_wp _ R K r PAGE_W); [done..|]. eapply wp_mono; [apply (store_user_wp _ R K r); [done|done|by constructor| |done]| |done].
  - pose proof (Z.mod_pos_bound a 4096 ltac:(lia)). cbn. lia.
  - intros [] m [Hst Hm]. by apply HQ.
Qed.

Lemma load_byte_wp u A R K r fl a (Q : Z → uproc → Prop) P : uinv u A R K r → umapped (kmem (mk (um u))) r fl a →
  Q (ubyte (kmem (mk (um u))) r a) u → wp (load_byte a) Q P u.
Proof.
  intros [_ Hvm Hact] Hu HQ. unfold load_byte. apply wp_zoom, wp_zoom, wp_in_mem.
  eapply (in_user_mode_wp _ R K r fl); [done..|]. eapply (load_user_wp _ R K r fl); [done..|].
  by destruct u as [[[] ? ? ? ?] ? ? ? ?].
Qed.

(** ** Reading *)

Lemma getchar_wp u (Q : Z → uproc → Prop) P :
  match con_in (kcon (mk (um u))) with
  | [] => Q (-1) u
  | ch :: rest => is_byte ch ∧ Q ch (with_kernel (set_kcon (Console (con_out (kcon (mk (um u)))) rest) (mk (um u))) u)
  end → wp (syscall1 SYSCALL_GETCHAR 0) Q P u.
Proof.
  intros H. unfold syscall1. apply (ecall_wp _ _ _ _ (in_con getchar)); [by intros _ ->|]. apply wp_zoom.
  unfold wp, getchar. destruct (con_in _) as [|ch rest].
  - change (s32 (-1)) with (-1). by destruct u as [[[] ? ? ? ?] ? ? ? ?].
  - destruct H as [Hb H]. unfold is_byte in Hb. rewrite s32_small by lia. exact H.
Qed.

(** [read_available] after the first [j] characters. *)
Definition read_state (u : uproc) (R K : gset Z) (r buf : Z) (j : nat) (u' : uproc) : Prop :=
  let c := kcon (mk (um u)) in
  ∃ m, u' = with_term m (Console (con_out c) (drop j (con_in c))) u ∧ vm_ok m R K ∧
  stored R (kmem (mk (um u))) m r buf (take j (con_in c)).

Lemma take_char_wp u A R K r buf count j ch rest u' (Q : Z → uproc → Prop) P :
  uinv u A R K r → umaps u r PAGE_W buf count → Z.of_nat j < count → is_byte ch →
  read_state u R K r buf j u' → drop j (con_in (kcon (mk (um u)))) = ch :: rest →
  (∀ u2, read_state u R K r buf (S j) u2 → Q (Z.of_nat j + 1) u2) →
  wp (take_char buf (Z.of_nat j) ch) Q P
  (with_kernel (set_kcon (Console (con_out (kcon (mk (um u')))) rest) (mk (um u'))) u').
Proof.
  intros HU (Hb & Htop & Hum) Hj Hch (m & -> & Hm & Hst) Hd HQ. unfold take_char. unfold USER_TOP in Htop.
  set (inp := con_in (kcon (mk (um u)))) in *.
  assert (Hjl : (j < length inp)%nat) by (apply (f_equal length) in Hd; rewrite length_drop in Hd; cbn in Hd; lia).
  assert (Hlt : length (take j inp) = j) by (rewrite length_take; lia).
  assert (El : inp !! j = Some ch) by (rewrite <-(Nat.add_0_r j), <-lookup_drop, Hd; done).
  assert (Er : drop (S j) inp = rest) by (rewrite <-Nat.add_1_r, <-drop_drop, Hd; done).
  assert (Hsat : satp m = satp (kmem (mk (um u)))) by apply Hst.
  pose proof (uinv_term u A R K r m (Console (con_out (kcon (mk (um u)))) rest) HU Hm Hsat) as HU'.
  rewrite u32_small by lia. unfold u8. unfold is_byte in Hch. rewrite Z.mod_small by lia.
  apply wp_bind. eapply (store_byte_wp _ A R K r); [exact HU'|done|..]; cbn [with_term with_kernel set_um set_mk um mk set_kmem set_kcon kmem].
  - rewrite (umapped_same R (kmem (mk (um u)))); [apply Hum; lia|apply Hst|apply (ui_active _ _ _ _ _ HU)].
  - intros m' Hst' Hm'. wp_steps. apply HQ. exists m'. fold inp. rewrite Er. split; [done|]. split; [done|].
    rewrite (take_S_r _ _ ch) by done. destruct HU as [_ Hvm Hact].
    eapply (stored_app R K _ m); [done|done|done|..]; rewrite ?length_app, ?Hlt; cbn [length]; [unfold USER_TOP; lia| |done|done].
    intros va Hva. apply Hum. lia.
Qed.

Lemma read_available_wp u A R K r empty buf count (Q : Z → uproc → Prop) P :
  uinv u A R K r → umaps u r PAGE_W buf count → 0 ≤ count → bytes (con_in (kcon (mk (um u)))) →
  (∀ u', read_state u R K r buf (Z.to_nat count) u' → count ≤ Z.of_nat (length (con_in (kcon (mk (um u))))) → Q count u') →
  (∀ u', let n := length (con_in (kcon (mk (um u)))) in read_state u R K r buf n u' → Z.of_nat n < count →
    wp (empty (Z.of_nat n)) Q P u') →
  wp (read_available empty buf count) Q P u.
Proof.
  intros HU Hmap Hc Hb HQ HE. unfold read_available. set (inp := con_in (kcon (mk (um u)))) in *.
  apply (wp_loop (λ k x u', ∃ j, x = Z.of_nat j ∧ k = (Z.to_nat count - j)%nat ∧ Z.of_nat j ≤ count ∧ (j ≤ length inp)%nat ∧
    read_state u R K r buf j u')) with (k := Z.to_nat count); [|exists 0%nat|lia].
  - intros k x u' (j & -> & -> & Hj & Hl & Hs). destruct (Z.ltb_spec (Z.of_nat j) count) as [Hlt|Hge].
    + wp_step. pose proof Hs as (m & Eu & _). apply getchar_wp.
      assert (Ein : con_in (kcon (mk (um u'))) = drop j inp) by (rewrite Eu; done). rewrite Ein.
      destruct (drop j inp) as [|ch rest] eqn:Ed.
      * assert (j = length inp) as -> by (apply (f_equal length) in Ed; rewrite length_drop in Ed; cbn in Ed; lia).
        cbn. wp_step. eapply wp_mono; [by apply HE| |done]. intros v s Hv. by wp_steps.
      * assert (inp !! j = Some ch) as El by (rewrite <-(Nat.add_0_r j), <-lookup_drop, Ed; done).
        assert (is_byte ch) as Hch by by eapply Forall_lookup_1. split; [done|]. pose proof Hch as Hch'. unfold is_byte in Hch'.
        rewrite geb_true by lia. wp_step. apply lookup_lt_Some in El.
        eapply (take_char_wp u A R K r buf count); [done..|]. intros u2 Hs2. wp_steps.
        exists (Z.to_nat count - S j)%nat. split; [lia|]. exists (S j). split; [lia|]. split; [lia|]. split; [lia|]. split; [lia|done].
    + wp_steps. replace count with (Z.of_nat j) in * by lia. apply HQ; [|lia]. by rewrite Nat2Z.id.
  - split; [done|]. split; [lia|]. split; [lia|]. split; [lia|]. exists (kmem (mk (um u))).
    split; [|split; [apply HU|apply stored_nil]]. rewrite drop_0. unfold with_term. by destruct u as [[[? ? ? ? ? ? []] ? ? ? ?] ? ? ? ?].
Qed.

Lemma read_nonblock_wp u A R K r buf count (Q : Z → uproc → Prop) P :
  uinv u A R K r → has_flag (stdin_flags u) O_NONBLOCK = true → umaps u r PAGE_W buf count → 0 < count →
  bytes (con_in (kcon (mk (um u)))) →
  (∀ u', con_in (kcon (mk (um u))) = [] → read_state u R K r buf 0 u' → Q (-1) (set_errno EAGAIN u')) →
  (∀ u' n, n = Nat.min (Z.to_nat count) (length (con_in (kcon (mk (um u))))) → (0 < n)%nat →
    read_state u R K r buf n u' → Q (Z.of_nat n) u') →
  wp (_read 0 buf count) Q P u.
Proof.
  intros HU Hf Hmap Hc Hb HE HQ. unfold _read. cbn [Z.eqb]. wp_steps. rewrite Hf. set (inp := con_in (kcon (mk (um u)))) in *.
  eapply (read_available_wp u A R K r); [done|done|lia|done|..]; fold inp.
  - intros u' Hs Hl. rewrite <-(Z2Nat.id count) by lia. apply HQ; [lia|lia|done].
  - cbv zeta. intros u' Hs Hl. destruct (Z.of_nat (length inp) =? 0) eqn:E.
    + apply Z.eqb_eq in E. assert (inp = []) as En by (destruct inp; [done|cbn in E; lia]). unfold fails. wp_steps.
      apply HE; [done|]. by rewrite En in Hs.
    + apply Z.eqb_neq in E. wp_steps. apply HQ; [lia|lia|done].
Qed.

(** What the program finds after the read. *)
Lemma read_view u A R K r buf count n u' : uinv u A R K r → umaps u r PAGE_W buf count → Z.of_nat n ≤ count →
  (n ≤ length (con_in (kcon (mk (um u)))))%nat → read_state u R K r buf n u' →
  let c := kcon (mk (um u)) in
  uinv u' A R K r ∧ umaps u' r 0 buf (Z.of_nat n) ∧ umem u' r buf (Z.of_nat n) = take n (con_in c) ∧
  kcon (mk (um u')) = Console (con_out c) (drop n (con_in c)).
Proof.
  intros HU (Hb & Htop & Hum) Hn Hl (m & -> & Hm & Hst) c. split; [apply uinv_term; [done|done|apply Hst]|].
  split; [|split; [|done]].
  - split; [done|]. split; [lia|]. intros va Hva. cbn. rewrite (umapped_same R (kmem (mk (um u)))); [|apply Hst|apply (ui_active _ _ _ _ _ HU)].
    destruct (Hum va ltac:(lia)) as (? & ? & _). split; [done|]. split; [done|apply Z.land_0_r].
  - unfold umem. eapply ubytes_stored; [exact Hst|done|]. rewrite length_take. fold c in Hl |- *. lia.
Qed.

(** ** Writing *)

Lemma putchar_wp u c (Q : Z → uproc → Prop) P : is_byte c →
  (∀ v, Q v (with_kernel (set_kcon (Console (con_out (kcon (mk (um u))) ++ [c]) (con_in (kcon (mk (um u))))) (mk (um u))) u)) →
  wp (syscall1 SYSCALL_PUTCHAR c) Q P u.
Proof.
  intros Hc HQ. unfold is_byte in Hc. unfold syscall1, ecall. apply wp_bind, wp_zoom. unfold handle_trap. rewrite Z.eqb_refl. cbv beta iota zeta.
  apply wp_bind. unfold handle_syscall. cbn [a3]. rewrite Z.eqb_refl. apply wp_bind, wp_zoom, wp_zoom. cbn [a0].
  apply wp_modify. wp_steps. cbn [fst a0]. unfold u8. rewrite u32_small, Z.mod_small by lia. apply HQ.
Qed.

Lemma write_terminal_wp u A R K r fd buf count (Q : Z → uproc → Prop) P :
  uinv u A R K r → fd = 1 ∨ fd = 2 → umaps u r 0 buf count → 0 ≤ count < 2147483648 →
  (let c := kcon (mk (um u)) in
    Q count (with_kernel (set_kcon (Console (con_out c ++ umem u r buf count) (con_in c)) (mk (um u))) u)) →
  wp (_write fd buf count) Q P u.
Proof.
  intros HU Hfd (Hb & Htop & Hum) Hc HQ. unfold _write, USER_TOP in *.
  assert ((fd =? 1) || (fd =? 2) = true) as -> by (destruct Hfd as [-> | ->]; done). wp_step. rewrite s32_small by lia.
  set (c := kcon (mk (um u))) in *.
  set (st := λ j : nat, with_kernel (set_kcon (Console (con_out c ++ umem u r buf (Z.of_nat j)) (con_in c)) (mk (um u))) u).
  apply (wp_loop (λ k x u', ∃ j, x = Z.of_nat j ∧ k = (Z.to_nat count - j)%nat ∧ Z.of_nat j ≤ count ∧ u' = st j))
    with (k := Z.to_nat count); [|exists 0%nat|lia].
  - intros k x u' (j & -> & -> & Hj & ->). destruct (Z.ltb_spec (Z.of_nat j) count) as [Hlt|Hge].
    + rewrite u32_small by lia. wp_step.
      assert (HU' : uinv (st j) A R K r) by (destruct HU as [HK ? ?]; split; cbn; [by apply kinv_con|done..]).
      eapply (load_byte_wp _ A R K r 0); [exact HU'|apply Hum; lia|]. wp_step. apply putchar_wp.
      { apply ubyte_range, HU'. }
      intros v. wp_steps. exists (Z.to_nat count - S j)%nat. split; [lia|]. exists (S j). split; [lia|]. split; [lia|]. split; [lia|].
      assert (umem u r buf (Z.of_nat (S j)) = umem u r buf (Z.of_nat j) ++ [ubyte (kmem (mk (um u))) r (buf + Z.of_nat j)]) as E.
      { unfold umem. rewrite !Nat2Z.id, <-Nat.add_1_r, ubytes_app. unfold ubytes at 2. cbn. by rewrite Z.add_0_r. }
      unfold st. rewrite E, (assoc_L (++)). reflexivity.
    + wp_steps. unfold st. replace (Z.of_nat j) with count by lia. exact HQ.
  - split; [done|]. split; [lia|]. split; [lia|]. unfold st, umem, ubytes. cbn. rewrite app_nil_r. unfold c.
    by destruct u as [[[? ? ? ? ? ? []] ? ? ? ?] ? ? ? ?].
Qed.
End term.

(** C32: a program that reads the terminal without waiting gets exactly the characters
    that have arrived, as many as its buffer takes, and the rest stays; when none has
    arrived it gets -1 and EAGAIN. Writing what it read to the terminal shows exactly
    those characters. *)
Theorem terminal_echo {NL : Newlib} {PF : Platform} u A R K r fd buf count :
  uinv u A R K r → has_flag (stdin_flags u) O_NONBLOCK = true → umaps u r PAGE_W buf count →
  0 < count < 2147483648 → bytes (con_in (kcon (mk (um u)))) → fd = 1 ∨ fd = 2 →
  let c := kcon (mk (um u)) in let l := take (Z.to_nat count) (con_in c) in let n := Z.of_nat (length l) in
  (con_in c = [] → ∃ u', _read 0 buf count u = Ok (-1) u' ∧ errno u' = EAGAIN ∧ kcon (mk (um u')) = c) ∧
  (con_in c ≠ [] → ∃ u1 u2, _read 0 buf count u = Ok n u1 ∧ umem u1 r buf n = l ∧
     _write fd buf n u1 = Ok n u2 ∧ uinv u2 A R K r ∧
     kcon (mk (um u2)) = Console (con_out c ++ l) (drop (Z.to_nat count) (con_in c))).
Proof.
  intros HU Hf Hmap Hc Hb Hfd c l n. pose (k := Nat.min (Z.to_nat count) (length (con_in c))).
  assert (Hn : n = Z.of_nat k) by (unfold n, l; by rewrite length_take).
  assert (H : wp (_read 0 buf count) (λ v u1, if decide (k = 0)%nat
      then v = -1 ∧ errno u1 = EAGAIN ∧ read_state u R K r buf 0 (set_errno (errno u) u1)
      else v = n ∧ read_state u R K r buf k u1) (λ _, False) u).
  { eapply (read_nonblock_wp u A R K r); [done|done|done|lia|done| |]; fold c.
    - intros u' E (m & -> & Hm & Hst). unfold k. rewrite E, Nat.min_0_r. split; [done|]. split; [done|]. by exists m.
    - intros u' j -> Hj Hs. by rewrite decide_False by lia. }
  apply wp_iff in H as [(v & u1 & E1 & H)|(? & _ & [])]. split; intros Hin.
  - unfold k in H. rewrite Hin, Nat.min_0_r in H. cbn in H. destruct H as (-> & He & m & Eu & _). exists u1. split; [done|]. split; [done|].
    apply (f_equal (λ u, kcon (mk (um u)))) in Eu. cbn in Eu. rewrite Eu. fold c. by destruct c.
  - assert (con_in c ≠ [] → (0 < length (con_in c))%nat) as Hpos by (destruct (con_in c); [done|cbn; lia]). specialize (Hpos Hin).
    rewrite decide_False in H by lia. destruct H as (-> & Hs).
    destruct (read_view u A R K r buf count k u1 HU Hmap ltac:(lia) ltac:(fold c; lia) Hs) as (HU1 & Hm1 & Eb & Ec).
    fold c in Eb, Ec. rewrite <-Hn in Hm1, Eb.
    assert (take k (con_in c) = l ∧ drop k (con_in c) = drop (Z.to_nat count) (con_in c)) as [El Ed].
    { unfold l. destruct (decide (Z.to_nat count ≤ length (con_in c))%nat).
      - by replace k with (Z.to_nat count) by lia.
      - by rewrite !take_ge, !drop_ge by lia. }
    exists u1.
    assert (H : wp (_write fd buf n) (λ v u2, v = n ∧ uinv u2 A R K r ∧
      kcon (mk (um u2)) = Console (con_out c ++ l) (drop (Z.to_nat count) (con_in c))) (λ _, False) u1).
    { eapply write_terminal_wp; [exact HU1|done|done|lia|]. cbv zeta. split; [done|]. split.
      - destruct HU1 as [HK1 Hv1 Ha1]. split; [by apply kinv_con|done..].
      - cbn. rewrite Ec, Eb. cbn. by rewrite El, Ed. }
    apply wp_iff in H as [(v & u2 & E2 & -> & HU2 & Ek)|(? & _ & [])]. exists u2. split; [done|]. split; [congruence|done].
Qed.

(** The sample program, after the user has typed three characters. *)
Definition typing (l : list Z) : uproc :=
  set_stdin_flags 16384 (with_kernel (set_kcon (Console [] l) user_kernel) user_start).

Lemma terminal_echo_witness :
  (∃ u1 u2, @_read newlib alone 0 USER_BASE 2 (typing [104; 105; 33]) = Ok 2 u1 ∧ umem u1 ROOT USER_BASE 2 = [104; 105] ∧
     @_write newlib alone 1 USER_BASE 2 u1 = Ok 2 u2 ∧ kcon (mk (um u2)) = Console [104; 105] [33]) ∧
  (∃ u', @_read newlib alone 0 USER_BASE 2 (typing []) = Ok (-1) u' ∧ errno u' = 11).
Proof.
  destruct user_start_ok as (A & HU & _).
  assert (HT : ∀ l, uinv (typing l) A {[ROOT]} ∅ ROOT).
  { intros l. destruct HU as [HK Hv Ha]. split; [exact (kinv_con _ _ _ _ _ HK)|exact Hv|exact Ha]. }
  assert (HM : ∀ l, umaps (typing l) ROOT PAGE_W USER_BASE 2).
  { intros l. split; [unfold USER_BASE; lia|]. split; [unfold USER_BASE, USER_TOP; lia|].
    intros va Hva. apply space2_mapped; [lia|by right; left]. }
  assert (Hb : bytes [104; 105; 33]) by (repeat constructor; lia).
  split.
  - destruct (proj2 (@terminal_echo newlib alone (typing [104; 105; 33]) A {[ROOT]} ∅ ROOT 1 USER_BASE 2 (HT _) eq_refl (HM _)
      ltac:(lia) Hb ltac:(by left))) as (u1 & u2 & E1 & Em & E2 & _ & Ek); [discriminate|].
    exists u1, u2. split; [exact E1|]. split; [exact Em|]. split; [exact E2|exact Ek].
  - destruct (proj1 (@terminal_echo newlib alone (typing []) A {[ROOT]} ∅ ROOT 1 USER_BASE 2 (HT _) eq_refl (HM _)
      ltac:(lia) ltac:(constructor) ltac:(by left)) eq_refl) as (u' & E & He & _).
    exists u'. split; [exact E|exact He].
Defined.
