(* ===== verification/UserOs.v ===== *)
(** * What the user programs rely on

    The programs of user/ call the C library, which calls the stubs of [ULib] and,
    through them, the kernel. Class [Os] is the interface at which the programs are
    modelled: a call with its strings and buffers as values, instead of pointers into
    the program's memory. The instance for the kernel runs the routine that the
    system call dispatches to. Standard output and input are the bytes of a terminal.

    Behind it are the lemmas on strings in 256-byte buffers that the programs share, and
    the terminal that displays their output. *)

From Stdlib Require Import Strings.String Strings.Ascii.
From S2P Require Import Prelude CLib FsTypes Dir Namei Path KState Kprintf KprintfSpec FdTable Process Syscall ULib.

(** ** Strings *)

(** The bytes of a literal, without a terminator. *)
Definition str (s : string) : list Z := (λ c, Z.of_N (N_of_ascii c)) <$> list_ascii_of_string s.
Arguments str s%_string_scope : simpl never.

(** The characters in front of the terminator; [None] when there is none. *)
Fixpoint cstr (l : list Z) : option (list Z) :=
  match l with
  | [] => None
  | c :: l => if c =? 0 then Some [] else cons c <$> cstr l
  end.

Definition ESC : Z := 27.
Definition esc (s : string) : list Z := ESC :: str s.
Arguments esc s%_string_scope.

Definition DEFAULT : list Z := esc "[0m".
Definition BOLD : list Z := esc "[1m".
Definition RED : list Z := esc "[31m".
Definition GREEN : list Z := esc "[32m".
Definition YELLOW : list Z := esc "[33m".
Definition BLUE : list Z := esc "[34m".
Definition MAGENTA : list Z := esc "[35m".
Definition CYAN : list Z := esc "[36m".

Lemma cstr_app s rest : nonzero s → cstr (s ++ 0 :: rest) = Some s.
Proof. induction 1 as [|c s Hc _ IH]; [done|]. cbn. rewrite (proj2 (Z.eqb_neq c 0)) by lia. by rewrite IH. Qed.

(** ** System calls on values *)

(** [os_stat] gives the mode bit for directories and the size, [os_open] a descriptor
    or the value of errno. Strings carry their terminator. *)
Class Os (W : Type) := {
  os_stat : list Z → M W (option (bool * Z));
  os_open : list Z → M W (Z + Z);
  os_read : Z → Z → M W (Z * list Z);
  os_close : Z → M W Z;
  os_getcwd : Z → M W (option (list Z));
  os_chdir : list Z → M W Z;
  os_spawn : list Z → M W Z;
  os_wait : Z → M W Z;
  os_kmesg : Z → M W (Z * list Z)
}.

(** What a stub returns for the result of a call. *)
Definition retval (r : Z) : Z := if r <? 0 then -1 else r.

Section kernel_os.
Context {NL : Newlib}.
Variable user_entry : Z.
Variable others : nat → M kernel unit.
Variable rounds : nat.

Definition kernel_stat (path : list Z) : M kernel (option (bool * Z)) :=
  c ← process_cwd;
  r ← in_fs (fs_stat c path);
  mret (if fst r <? 0 then None else
    match snd r with Some (ty, sz) => Some (ty =? 1, sz) | None => None end).

Definition kernel_getcwd (size : Z) : M kernel (option (list Z)) :=
  i ← current; p ← proc i;
  len ← expect (strlen (cwd_path p));
  if Z.of_nat len >=? size then mret None else mret (Some (take (len + 1) (cwd_path p))).

Definition kernel_kmesg (limit : Z) : M machine (Z * list Z) :=
  log ← gets m_log;
  let limit := if limit >? kmesg_len log then kmesg_len log else limit in
  mret (limit, take (Z.to_nat limit) (kmesg_buf log)).

(** The kernel behind the stubs; [O_RDONLY] is all that the programs open with. *)
Instance kernel_os : Os machine := {
  os_stat := λ path, in_k (kernel_stat path);
  os_open := λ path, r ← in_k (fs_open path FILECTRL_READONLY); mret (if r <? 0 then inl (translate_error r) else inr r);
  os_read := λ fd n, r ← in_k (fs_read (yield others) fd n); mret (retval (fst r), snd r);
  os_close := λ fd, r ← in_k (fs_close fd); mret (retval r);
  os_getcwd := λ size, in_k (kernel_getcwd size);
  os_chdir := λ path, r ← in_k (chdir_to path); mret (retval r);
  os_spawn := λ line, in_k (spawn_process user_entry line);
  os_wait := λ pid, in_k (wait_process others rounds pid);
  os_kmesg := kernel_kmesg
  }.
End kernel_os.

(** * Strings in buffers of 256 bytes

    The programs copy paths into buffers of [MAX_PATH] bytes with [strncpy] and extend
    them with [strncat]; what does not fit is cut off. *)

Lemma take_255_app (s t : list Z) : take 255 (take 255 s ++ t) = take 255 (s ++ t).
Proof.
  destruct (decide (length s ≤ 255)%nat) as [H|H]; [by rewrite (take_ge s)|].
  rewrite !take_app_le by (rewrite ?length_take; lia). by rewrite take_take, Nat.min_id.
Qed.

(** A string in a 256-byte buffer. *)
Definition buffered (s buf : list Z) : Prop := ∃ rest, buf = take 255 s ++ 0 :: rest ∧ length buf = 256%nat.

Lemma buffered_copy s rest : nonzero s → ∃ l, strncpy (s ++ 0 :: rest) 255 = Some l ∧ buffered s (l ++ [0]).
Proof.
  intros Hs. exists (take 255 (s ++ zeros 255)). split; [by apply strncpy_spec|]. exists (zeros (255 - length s)).
  split; [apply strncpy_255|]. rewrite length_app, length_take, length_app, length_zeros. cbn [length]. lia.
Qed.

Lemma buffered_strlen s buf : nonzero s → buffered s buf → strlen buf = Some (length (take 255 s)).
Proof. intros Hs (rest & -> & _). by apply strlen_spec, Forall_take. Qed.

Lemma buffered_cstr s buf : nonzero s → buffered s buf → cstr buf = Some (take 255 s).
Proof. intros Hs (rest & -> & _). by apply cstr_app, Forall_take. Qed.

Lemma buffered_append s buf t trest : nonzero s → nonzero t → buffered s buf →
  ∃ buf', strncat buf (t ++ 0 :: trest) (256 - length (take 255 s) - 1) = Some buf' ∧ buffered (s ++ t) buf'.
Proof.
  intros Hs Ht (rest & -> & Hl). destruct (append_cstr (take 255 s) rest t trest) as (r & E & L); [by apply Forall_take|done|].
  rewrite Hl in E, L. exists (take 255 (take 255 s ++ t) ++ 0 :: r). split; [exact E|]. exists r. rewrite take_255_app in *. done.
Qed.

(** The path of command [cmd] in directory [dir]. *)
Definition in_dir (dir cmd : list Z) : list Z :=
  if bool_decide (dir = [] ∨ last dir = Some SLASH) then dir ++ cmd else dir ++ SLASH :: cmd.

Lemma nonzero_in_dir dir cmd : nonzero dir → nonzero cmd → nonzero (in_dir dir cmd).
Proof.
  intros. unfold in_dir. case_bool_decide; apply nonzero_app; try done. constructor; [unfold SLASH; lia|done].
Qed.

(** * A terminal

    What the control sequences that the programs print do to the screen of a VT100: a
    character is stored at the cursor, [ESC [ r ; c H] moves the cursor, [ESC [ J]
    clears from the cursor on, and the sequences for colours and for the cursor's
    visibility do not change the characters. A newline goes to the start of the next
    line, as a terminal shows it. *)

Inductive vmode := Ground | Escape | Csi (ps : list Z) (n : Z).
Record vt := Vt { glyphs : gmap (Z * Z) Z; vrow : Z; vcol : Z; vmode_ : vmode }.

Definition csi_final (v : vt) (ps : list Z) (c : Z) : vt :=
  if c =? 72 then Vt (glyphs v) (Z.max 1 (ps !!! 0%nat)) (Z.max 1 (ps !!! 1%nat)) Ground
  else if c =? 74 then
    Vt (filter (λ x, fst x.1 < vrow v ∨ fst x.1 = vrow v ∧ snd x.1 < vcol v) (glyphs v)) (vrow v) (vcol v) Ground
  else Vt (glyphs v) (vrow v) (vcol v) Ground.

Definition vt_step (v : vt) (c : Z) : vt :=
  match vmode_ v with
  | Ground =>
      if c =? 27 then Vt (glyphs v) (vrow v) (vcol v) Escape
      else if c =? 10 then Vt (glyphs v) (vrow v + 1) 1 Ground
      else Vt (<[(vrow v, vcol v) := c]> (glyphs v)) (vrow v) (vcol v + 1) Ground
  | Escape => Vt (glyphs v) (vrow v) (vcol v) (if c =? 91 then Csi [] 0 else Ground)
  | Csi ps n =>
      if (48 <=? c) && (c <=? 57) then Vt (glyphs v) (vrow v) (vcol v) (Csi ps (10 * n + (c - 48)))
      else if c =? 59 then Vt (glyphs v) (vrow v) (vcol v) (Csi (ps ++ [n]) 0)
      else if c =? 63 then v
      else csi_final v (ps ++ [n]) c
  end.

Definition vt_run (v : vt) (l : list Z) : vt := fold_left vt_step l v.
Definition vt_start : vt := Vt ∅ 1 1 Ground.

(** The character at a position; an empty cell is a blank. *)
Definition glyph (v : vt) (r c : Z) : Z := default 32 (glyphs v !! (r, c)).

Lemma vt_run_app v l k : vt_run v (l ++ k) = vt_run (vt_run v l) k.
Proof. apply fold_left_app. Qed.

Lemma dec_digits_range fuel x : 0 ≤ x → Forall (λ c, 48 ≤ c ≤ 57) (dec_digits fuel x).
Proof.
  revert x. induction fuel as [|fuel IH]; intros x Hx; [constructor|]. cbn. destruct (x <? 10) eqn:E.
  - apply Z.ltb_lt in E. repeat constructor; lia.
  - apply Forall_app. split; [apply IH, Z.div_pos; lia|]. pose proof (Z.mod_pos_bound x 10). repeat constructor; lia.
Qed.

Lemma vt_digits g r c ps l n : Forall (λ c, 48 ≤ c ≤ 57) l →
  vt_run (Vt g r c (Csi ps n)) l = Vt g r c (Csi ps (foldl (λ acc c, 10 * acc + (c - 48)) n l)).
Proof.
  intros Hl. revert n. induction Hl as [|d l Hd _ IH]; intros n; [done|]. unfold vt_run in *. cbn [fold_left foldl].
  unfold vt_step at 2. cbn [vmode_]. rewrite !(proj2 (Z.leb_le _ _)) by lia. cbn [andb]. apply IH.
Qed.

(** A number in front of [c] in a control sequence. *)
Lemma vt_number v ps x : vmode_ v = Csi ps 0 → 0 ≤ x < 1000000000 →
  vt_run v (decimal x) = Vt (glyphs v) (vrow v) (vcol v) (Csi ps x).
Proof.
  intros Hm Hx. unfold decimal. rewrite (proj2 (Z.ltb_ge _ _)) by lia. destruct v as [g r c m]. cbn in Hm. subst m.
  rewrite vt_digits by (apply dec_digits_range; lia). fold (digits_value (dec_digits 10 x)).
  rewrite digits_value_dec; [done|]. change (10 ^ Z.of_nat 10) with 10000000000. lia.
Qed.

(** Text without control characters moves the cursor and changes nothing on the other
    lines. *)
Lemma vt_text v l : vmode_ v = Ground → Forall (λ c, c ≠ 27 ∧ c ≠ 10) l →
  vmode_ (vt_run v l) = Ground ∧ vcol (vt_run v l) = vcol v + Z.of_nat (length l) ∧
  ∀ r c, r ≠ vrow v → glyph (vt_run v l) r c = glyph v r c.
Proof.
  intros Hm Hl. revert v Hm. induction Hl as [|d l Hd _ IH]; intros v Hm; [split; [done|split; [cbn; lia|done]]|].
  change (vt_run v (d :: l)) with (vt_run (vt_step v d) l). unfold vt_step. rewrite Hm. zb.
  destruct (IH (Vt (<[(vrow v, vcol v) := d]> (glyphs v)) (vrow v) (vcol v + 1) Ground) eq_refl) as (H1 & H2 & H3).
  split; [done|]. split; [rewrite H2; cbn [vcol length]; lia|].
  intros r c Hr. rewrite H3 by done. unfold glyph. cbn. by rewrite lookup_insert_ne by congruence.
Qed.
