(* ===== verification/Shell.v ===== *)
(** * The shell: definitions

    user/sh/shell.c. The statics are the fields of [shell]; [path_dirs] are offsets
    into [path_buf]. [tty_in] are the characters that [getchar] will return, and
    [tty_out] what has been printed; [getchar] on an empty [tty_in] waits for ever.
    Strings are the bytes of their objects, terminator included. *)

From Stdlib Require Import Strings.String.
From S2P Require Import Prelude CLib FsTypes Dir Path FdTable UserOs.

Definition MAX_PATH_DIRS : nat := 32.
Definition MAX_CMD_NAME : nat := 64.
Definition MAX_CONFIG_LEN : nat := 1024.
Definition QUOTE : Z := 34.
Definition BACKSLASH : Z := 92.
Definition NEWLINE : Z := 10.
Definition RETURN : Z := 13.
Definition LESS : Z := 60.
Definition GREATER : Z := 62.
Definition COLON : Z := 58.
Definition BLANK : Z := 32.

Record shell (W : Type) := Shell {
  path_buf : list Z;
  path_dirs : list nat;
  prompt_fmt : list Z;
  msg_fmt : list Z;
  tty_in : list Z;
  tty_out : list Z;
  world : W
}.
Arguments Shell {W}.
Arguments path_buf {W}.
Arguments path_dirs {W}.
Arguments prompt_fmt {W}.
Arguments msg_fmt {W}.
Arguments tty_in {W}.
Arguments tty_out {W}.
Arguments world {W}.

Section shell.
Context {W : Type} `{!Os W}.
(** The message of the C library for an error number, and what the stack holds in
    buffers that are not initialised. *)
Variable strerror : Z → list Z.
Variable junk_cwd : list Z.
Variable junk_log : list Z.

Local Abbreviation sh := (shell W).

Definition set_path_buf (l : list Z) (s : sh) : sh :=
  Shell l (path_dirs s) (prompt_fmt s) (msg_fmt s) (tty_in s) (tty_out s) (world s).
Definition set_path_dirs (l : list nat) (s : sh) : sh :=
  Shell (path_buf s) l (prompt_fmt s) (msg_fmt s) (tty_in s) (tty_out s) (world s).
Definition set_prompt_fmt (l : list Z) (s : sh) : sh :=
  Shell (path_buf s) (path_dirs s) l (msg_fmt s) (tty_in s) (tty_out s) (world s).
Definition set_msg_fmt (l : list Z) (s : sh) : sh :=
  Shell (path_buf s) (path_dirs s) (prompt_fmt s) l (tty_in s) (tty_out s) (world s).
Definition set_tty_in (l : list Z) (s : sh) : sh :=
  Shell (path_buf s) (path_dirs s) (prompt_fmt s) (msg_fmt s) l (tty_out s) (world s).
Definition set_tty_out (l : list Z) (s : sh) : sh :=
  Shell (path_buf s) (path_dirs s) (prompt_fmt s) (msg_fmt s) (tty_in s) l (world s).
Definition set_world (w : W) (s : sh) : sh :=
  Shell (path_buf s) (path_dirs s) (prompt_fmt s) (msg_fmt s) (tty_in s) (tty_out s) w.

Definition sys {A} (m : M W A) : M sh A := zoom world set_world m.

(** [printf] of a text, and [putchar]. *)
Definition emit (l : list Z) : M sh unit := modify (λ s, set_tty_out (tty_out s ++ l) s).
Definition putch (c : Z) : M sh unit := emit [c].
(** [printf("%s", p)] *)
Definition emit_str (p : list Z) : M sh unit := l ← expect (cstr p); emit l.
(** A call that takes a string reads it up to its terminator. *)
Definition sys_str {A} (f : list Z → M W A) (p : list Z) : M sh A := l ← expect (cstr p); sys (f (l ++ [0])).
Definition getch : M sh Z :=
  s ← get; match tty_in s with [] => hang | c :: l => modify (set_tty_in l);; mret c end.

(** ** Formats *)

(** The index of the first [c] at or after [i], or [len]. *)
Fixpoint scan_for (c : Z) (p : list Z) (i len : nat) (fuel : nat) : nat :=
  match fuel with
  | O => i
  | S fuel => if (i <? len)%nat && negb (p !!! i =? c) then scan_for c p (S i) len fuel else i
  end.

Definition emit_tag (cwd tag : list Z) : M sh unit :=
  let named s := bool_decide (tag = str s) in
  if named "cwd"%string then emit_str cwd
  else if named "blue"%string then emit BLUE
       else if named "green"%string then emit GREEN
            else if named "red"%string then emit RED
                 else if named "yellow"%string then emit YELLOW
                      else if named "magenta"%string then emit MAGENTA
                           else if named "cyan"%string then emit CYAN
                                else if named "bold"%string then emit BOLD
                                     else if named "default"%string then emit DEFAULT
                                          else emit (LESS :: tag ++ [GREATER]).

Definition format_step (p cwd : list Z) (len : nat) (i : nat) : M sh (nat + unit) :=
  if (i <? len)%nat then
    c ← expect (p !! i);
    if (c =? BACKSLASH) && (S i <? len)%nat then
      d ← expect (p !! S i);
      (if d =? 110 then emit [NEWLINE]
       else if d =? 114 then emit [RETURN]
            else if d =? 116 then emit [9]
                 else putch c;; putch d);;
      mret (inl (i + 2)%nat)
    else if c =? LESS then
           let start := S i in
           let end_ := scan_for GREATER p start len len in
           if (end_ <? len)%nat then
             let tag_len := Nat.min (end_ - start) 31 in
             emit_tag cwd (sub p start tag_len);;
             mret (inl (S end_))
           else putch LESS;; mret (inl (S i))
         else putch c;; mret (inl (S i))
  else mret (inr tt).

Definition print_formatted (fmt cwd : list Z) : M sh unit :=
  c ← expect (head fmt);
  let p := if c =? QUOTE then tail fmt else fmt in
  len ← expect (strlen p);
  last ← (if (0 <? len)%nat then expect (p !! (len - 1)%nat) else mret 0);
  let len := if (0 <? len)%nat && (last =? QUOTE) then (len - 1)%nat else len in
  loop (S len) (format_step p cwd len) 0%nat.

(** ** The configuration file *)

(** Up to the end of the line, and the rest from there. *)
Fixpoint split_line (l : list Z) : list Z * list Z :=
  match l with
  | [] => ([], [])
  | c :: l' => if (c =? 0) || (c =? NEWLINE) || (c =? RETURN) then ([], l)
  else let '(a, b) := split_line l' in (c :: a, b)
  end.

(** [strncpy(dst, src, 255); dst[255] = 0] *)
Definition copy_setting (src : list Z) : option (list Z) := l ← strncpy src 255; Some (l ++ [0]).

Definition config_line (line : list Z) : M sh unit :=
  let starts pre := r ← strncmp (line ++ [0]) (str pre ++ [0]) (length (str pre)); Some (r =? 0) in
  p ← expect (starts "PATH="%string);
  if p : bool then v ← expect (copy_setting (drop 5 (line ++ [0]))); modify (set_path_buf v) else
  p ← expect (starts "PROMPT="%string);
  if p : bool then v ← expect (copy_setting (drop 7 (line ++ [0]))); modify (set_prompt_fmt v) else
  p ← expect (starts "MSG="%string);
  if p : bool then v ← expect (copy_setting (drop 4 (line ++ [0]))); modify (set_msg_fmt v) else
  mret tt.

Definition config_step (line : list Z) : M sh (list Z + unit) :=
  c ← expect (head line);
  if c =? 0 then mret (inr tt) else
  let '(tok, eol) := split_line line in
  orig_char ← expect (head eol);
  config_line tok;;
  if (orig_char =? RETURN) || (orig_char =? NEWLINE) then
    let line := tail eol in
    d ← expect (if orig_char =? RETURN then head line else Some 0);
    mret (inl (if (orig_char =? RETURN) && (d =? NEWLINE) then tail line else line))
  else mret (inr tt).

(** The bytes of the file, at most [MAX_CONFIG_LEN - 1]. *)
Definition read_config : M sh (list Z) :=
  fd ← sys_str os_open (str "/cfg/dmash.cfg" ++ [0]);
  match fd with
  | inl _ => mret []
  | inr fd =>
      l ← loop MAX_CONFIG_LEN (λ l : list Z,
        if (length l <? MAX_CONFIG_LEN - 1)%nat then
          r ← sys (os_read fd (Z.of_nat (MAX_CONFIG_LEN - 1 - length l)));
          if fst r <=? 0 then mret (inr l) else mret (inl (l ++ snd r))
        else mret (inr l)) [];
      sys (os_close fd);;
      mret l
  end.

Definition path_step (p : nat) : M sh (nat + unit) :=
  s ← get;
  c ← expect (path_buf s !! p);
  if (c =? 0) || negb (length (path_dirs s) <? MAX_PATH_DIRS)%nat then mret (inr tt) else
  p ← loop (S (length (path_buf s))) (λ p : nat,
    c ← expect (path_buf s !! p); if c =? COLON then mret (inl (S p)) else mret (inr p)) p;
  c ← expect (path_buf s !! p);
  if c =? 0 then mret (inr tt) else
  modify (set_path_dirs (path_dirs s ++ [p]));;
  r ← expect (strchr (drop p (path_buf s)) COLON);
  match r with
  | Some suffix =>
      let colon := (length (path_buf s) - length suffix)%nat in
      modify (set_path_buf (<[colon := 0]> (path_buf s)));;
      mret (inl (S colon))
  | None => mret (inr tt)
  end.

Definition init_config : M sh unit :=
  config ← read_config;
  (if (0 <? length config)%nat then loop (S (length config)) config_step (config ++ [0]) else mret tt);;
  modify (set_path_dirs []);;
  n ← gets (λ s, length (path_buf s));
  loop (S n) path_step 0%nat.

(** ** Commands *)

(** The first word, at most 63 characters of it. *)
Fixpoint command_name (n : nat) (l : list Z) : option (list Z) :=
  match n with
  | O => Some []
  | S n => c ← head l; if (c =? 0) || (c =? BLANK) then Some [] else cons c <$> command_name n (tail l)
  end.

Fixpoint skip_blanks (l : list Z) : list Z :=
  match l with c :: l' => if c =? BLANK then skip_blanks l' else l | [] => [] end.

Definition unknown (cmdline : list Z) : M sh unit :=
  l ← expect (cstr cmdline); emit (str "unknown command: " ++ l ++ [NEWLINE]).

(** [full_path]: the directory, a slash unless it ends in one, and the name. *)
Definition command_path (dir cmd_name : list Z) : option (list Z) :=
  l ← strncpy dir 255;
  let path := l ++ [0] in
  d_len ← strlen path;
  last ← (if (0 <? d_len)%nat then path !! (d_len - 1)%nat else Some SLASH);
  path ← (if (0 <? d_len)%nat && negb (last =? SLASH) then strncat path str_slash (256 - d_len - 1) else Some path);
  len ← strlen path;
  strncat path (cmd_name ++ [0]) (256 - len - 1).

(** [new_cmdline]: the path and the arguments. *)
Definition command_line (path args : list Z) : option (list Z) :=
  l ← strncpy path 255;
  let line := l ++ [0] in
  c ← head args;
  if c =? 0 then Some line else
  len ← strlen line;
  line ← strncat line [BLANK; 0] (256 - len - 1);
  len ← strlen line;
  strncat line args (256 - len - 1).

(** The search; the result says whether a program was started. *)
Fixpoint search_path (dirs : list nat) (cmd_name args : list Z) : M sh bool :=
  match dirs with
  | [] => mret false
  | d :: dirs =>
      buf ← gets path_buf;
      path ← expect (command_path (drop d buf) cmd_name);
      st ← sys_str os_stat path;
      match st with
      | Some (false, _) =>
          line ← expect (command_line path args);
          pid ← sys_str os_spawn line;
          if pid >=? 0 then sys (os_wait pid);; mret true else search_path dirs cmd_name args
      | _ => search_path dirs cmd_name args
      end
  end.

Definition run_command (cmdline : list Z) : M sh unit :=
  cmd_name ← expect (command_name (MAX_CMD_NAME - 1) cmdline);
  if bool_decide (cmd_name = []) then mret tt else
  if bool_decide (SLASH ∈ cmd_name) then
    pid ← sys_str os_spawn cmdline;
    if pid >=? 0 then sys (os_wait pid);; mret tt else unknown cmdline
  else
  dirs ← gets path_dirs;
  found ← search_path dirs cmd_name (skip_blanks (drop (length cmd_name) cmdline));
  if found : bool then mret tt else unknown cmdline.

Definition kmesg_cmd : M sh unit :=
  r ← sys (os_kmesg 4096);
  let '(len, l) := r in
  buf ← (if len >=? 0 then mret (<[Z.to_nat len := 0]> (splice junk_log 0 l)) else mret junk_log);
  emit_str buf.

Definition cd_cmd (cmdline : list Z) : M sh unit :=
  let path := skip_blanks (drop 2 cmdline) in
  c ← expect (head path);
  let path := if c =? 0 then [SLASH; 0] else path in
  ret ← sys_str os_chdir path;
  if ret <? 0 then
    l ← expect (cstr path); emit (str "cd: " ++ l ++ str ": " ++ strerror ret ++ [NEWLINE])
  else mret tt.

(** ** The terminal *)

(** Digits up to [stop]; [None] when another character comes first. *)
Definition digits_until (stop : Z) : M sh (option Z) :=
  s ← get;
  loop (S (length (tty_in s))) (λ col : Z,
    ch ← getch;
    if ch =? stop then mret (inr (Some col)) else
    if (ch <? 48) || (ch >? 57) then mret (inr None) else
    let x := col * 10 + (ch - 48) in
    if x >? 2147483647 then fault else mret (inl x)) 0.

(** Digits of the line number are skipped without being converted. *)
Definition skip_digits : M sh bool :=
  s ← get;
  loop (S (length (tty_in s))) (λ _ : unit,
    ch ← getch;
    if ch =? 59 then mret (inr true) else
    if (ch <? 48) || (ch >? 57) then mret (inr false) else mret (inl tt)) tt.

Definition get_cursor_column : M sh Z :=
  emit (esc "[6n");;
  ch ← getch;
  if negb (ch =? ESC) then mret (-1) else
  ch ← getch;
  if negb (ch =? 91) then mret (-1) else
  ok ← skip_digits;
  if negb ok then mret (-1) else
  col ← digits_until 82;
  match col with Some col => mret col | None => mret (-1) end.

Definition detect_utf8 : M sh bool :=
  col1 ← get_cursor_column;
  if col1 <? 0 then mret false else
  emit [226; 157; 175];;
  col2 ← get_cursor_column;
  if col2 <? 0 then mret false else
  let width := col2 - col1 in
  loop (S (Z.to_nat width)) (λ i : Z, if i <? width then emit [8; 32; 8];; mret (inl (i + 1)) else mret (inr tt)) 0;;
  mret (width =? 1).

(** ** The command loop *)

(** One character of the line editor: [l] is [cmdline[0 .. i)]. *)
Definition edit_key (l : list Z) (ch : Z) : M sh (list Z) :=
  if (ch =? 8) || (ch =? 127) then
    if (0 <? length l)%nat then emit [8; 32; 8];; mret (take (length l - 1) l) else mret l
  else if (length l <? 127)%nat then putch ch;; mret (l ++ [ch])
       else putch 7;; mret l.

Definition read_line : M sh (list Z) :=
  s ← get;
  loop (S (length (tty_in s))) (λ l : list Z,
    ch ← getch;
    if ch =? RETURN then emit [NEWLINE];; mret (inr (l ++ [0])) else
    l ← edit_key l ch; mret (inl l)) [].

(** One round; [true] when the shell exits. *)
Definition shell_round : M sh bool :=
  r ← sys (os_getcwd 256);
  let cwd := match r with Some l => l | None => junk_cwd end in
  fmt ← gets prompt_fmt;
  print_formatted fmt cwd;;
  cmdline ← read_line;
  c ← expect (strcmp cmdline (str "exit" ++ [0]));
  if c =? 0 then mret true else
  c ← expect (strcmp cmdline (str "kmesg" ++ [0]));
  if c =? 0 then kmesg_cmd;; mret false else
  c ← expect (strncmp cmdline (str "cd" ++ [0]) 2);
  d ← (if c =? 0 then expect (cmdline !! 2%nat) else mret 1);
  if (c =? 0) && ((d =? BLANK) || (d =? 0)) then cd_cmd cmdline;; mret false else
  run_command cmdline;; mret false.

Definition shell_main (rounds : nat) : M sh unit :=
  init_config;;
  detect_utf8;;
  emit (esc "[2J" ++ esc "[3J" ++ esc "[H");;
  fmt ← gets msg_fmt;
  print_formatted fmt [0];;
  loop rounds (λ _ : unit, exits ← shell_round; if exits : bool then mret (inr tt) else mret (inl tt)) tt.

Definition shell_init (w : W) (keys : list Z) : sh :=
  let buf s := str s ++ zeros (256 - length (str s)) in
  Shell (buf "/bin"%string) [] (buf "# "%string) ([NEWLINE] ++ str "welcome to dmash" ++ [NEWLINE] ++ zeros 238) keys [] w.
End shell.
