(* ===== verification/ShellLine.v ===== *)
(** * The shell: the line editor

    What the user types is edited into a bounded buffer, and the echo shows on the
    terminal exactly the line that the shell will execute. *)

From S2P Require Import Prelude CLib FsTypes UserOs Shell.

(** ** The line *)

(** One key on a line of at most 127 characters: backspace or delete removes the last. *)
Definition edit (l : list Z) (ch : Z) : list Z :=
  if (ch =? 8) || (ch =? 127) then take (length l - 1) l
  else if (length l <? 127)%nat then l ++ [ch] else l.

Definition edited (keys : list Z) : list Z := fold_left edit keys [].

(** ** The terminal *)

(** A line of a terminal: the cells left of the cursor, and those from the cursor on.
    Backspace moves the cursor, the bell does nothing, and any other character
    replaces the cell under the cursor. *)
Record display := Display { shown : list Z; beyond : list Z }.

Definition show (d : display) (c : Z) : display :=
  if c =? 8 then
    Display (take (length (shown d) - 1) (shown d)) (drop (length (shown d) - 1) (shown d) ++ beyond d)
  else if c =? 7 then d
  else Display (shown d ++ [c]) (tail (beyond d)).

(** Nothing but blanks to the right of the cursor. *)
Definition displays (prompt l : list Z) (d : display) : Prop :=
  shown d = prompt ++ l ∧ Forall (λ c, c = 32) (beyond d).

(** What [edit_key] prints for a key. *)
Definition echo (l : list Z) (ch : Z) : list Z :=
  if (ch =? 8) || (ch =? 127) then if (0 <? length l)%nat then [8; 32; 8] else []
  else if (length l <? 127)%nat then [ch] else [7].

Definition printable (ch : Z) : Prop := 32 ≤ ch < 256 ∨ ch = 8.

Lemma edit_length l ch : (length l ≤ 127)%nat → (length (edit l ch) ≤ 127)%nat.
Proof.
  intros Hl. unfold edit. destruct (_ || _); [rewrite length_take; lia|].
  destruct (length l <? 127)%nat eqn:E; [|done]. apply Nat.ltb_lt in E. rewrite length_app. cbn. lia.
Qed.

Lemma edited_snoc keys ch : edited (keys ++ [ch]) = edit (edited keys) ch.
Proof. apply fold_left_app. Qed.

Lemma edited_length keys : (length (edited keys) ≤ 127)%nat.
Proof.
  induction keys as [|ch keys IH] using rev_ind; [cbn; lia|]. rewrite edited_snoc. by apply edit_length.
Qed.

Lemma show_erase prompt (l : list Z) d : l ≠ [] → displays prompt l d →
  displays prompt (take (length l - 1) l) (fold_left show [8; 32; 8] d).
Proof.
  intros Hne [Es Hb]. destruct (exists_last Hne) as (l' & x & ->). rewrite length_app in *. cbn [length].
  replace (length l' + 1 - 1)%nat with (length l') by lia. rewrite take_app_length.
  assert (E1 : show d 8 = Display (prompt ++ l') (x :: beyond d)).
  { unfold show. cbn [Z.eqb Pos.eqb]. rewrite Es, (assoc_L (++)), length_app. cbn [length].
    replace (length (prompt ++ l') + 1 - 1)%nat with (length (prompt ++ l')) by lia.
    by rewrite take_app_length, drop_app_length. }
  cbn [fold_left]. rewrite E1. cbn [show shown beyond tail Z.eqb Pos.eqb]. unfold displays, show. cbn [Z.eqb Pos.eqb shown beyond].
  rewrite length_app. cbn [length]. replace (length (prompt ++ l') + 1 - 1)%nat with (length (prompt ++ l')) by lia.
  rewrite take_app_length, drop_app_length. split; [done|]. by constructor.
Qed.

Lemma show_echo prompt l ch d : printable ch → displays prompt l d →
  displays prompt (edit l ch) (fold_left show (echo l ch) d).
Proof.
  intros Hp Hd. unfold echo, edit. destruct ((ch =? 8) || (ch =? 127)) eqn:Eb.
  - destruct l as [|x l]; [done|]. cbn [length Nat.ltb Nat.leb]. by apply (show_erase prompt (x :: l)).
  - apply orb_false_iff in Eb as [E8 E127]. apply Z.eqb_neq in E8, E127. destruct (_ <? 127)%nat.
    + destruct Hd as [Es Hb]. cbn [fold_left]. unfold show. destruct Hp as [Hp|]; [|done].
      rewrite !(proj2 (Z.eqb_neq _ _)) by lia. split; cbn [shown beyond]; [by rewrite Es, (assoc_L (++))|].
      by destruct (beyond d) as [|y b]; [constructor|inversion Hb].
    + exact Hd.
Qed.

(** ** The loop *)

Section line.
Context {W : Type} `{!Os W}.

Lemma edit_key_wp l ch (Q : list Z → shell W → Prop) P s :
  Q (edit l ch) (set_tty_out (tty_out s ++ echo l ch) s) → wp (edit_key l ch) Q P s.
Proof using.
  intros HQ. unfold edit_key, edit, echo, putch, emit in *. destruct (_ || _).
  - destruct l as [|x l]; cbn [length Nat.ltb Nat.leb] in *; wp_steps; [|exact HQ].
    rewrite app_nil_r in HQ. by destruct s.
  - destruct (_ <? 127)%nat; wp_steps; exact HQ.
Qed.

(** Everything that the keys echo. *)
Fixpoint echoes (l keys : list Z) : list Z :=
  match keys with [] => [] | ch :: keys => echo l ch ++ echoes (edit l ch) keys end.

Lemma read_line_loop fuel keys rest l (Q : list Z → shell W → Prop) P s :
  tty_in s = keys ++ RETURN :: rest → RETURN ∉ keys → (length keys < fuel)%nat →
  Q (fold_left edit keys l ++ [0]) (set_tty_out (tty_out s ++ echoes l keys ++ [NEWLINE]) (set_tty_in rest s)) →
  wp (loop fuel (λ l : list Z, ch ← getch; if ch =? RETURN then emit [NEWLINE];; mret (inr (l ++ [0])) else
    l ← edit_key l ch; mret (inl l)) l) Q P s.
Proof using.
  revert keys l s. induction fuel as [|fuel IH]; intros keys l s Hin Hret Hf HQ; [lia|]. cbn [loop].
  apply wp_bind, wp_bind. unfold getch. apply wp_bind. unfold wp at 1, get. rewrite Hin. destruct keys as [|ch keys]; cbn [app].
  - wp_steps. rewrite Z.eqb_refl. unfold emit. wp_steps. exact HQ.
  - apply not_elem_of_cons in Hret as [Hne Hret]. wp_steps. rewrite (proj2 (Z.eqb_neq ch RETURN)) by done.
    apply wp_bind, edit_key_wp. wp_steps. apply (IH keys); [done|done|cbn in Hf; lia|].
    cbn [fold_left echoes tty_out set_tty_out set_tty_in] in *. by rewrite <-!(assoc_L (++)) in HQ |- *.
Qed.

Lemma show_echoes prompt keys l d : Forall printable keys → displays prompt l d →
  displays prompt (fold_left edit keys l) (fold_left show (echoes l keys) d).
Proof using.
  intros Hk. revert l d. induction Hk as [|ch keys Hc Hk IH]; intros l d Hd; [done|].
  cbn [fold_left echoes]. rewrite fold_left_app. by apply IH, show_echo.
Qed.
End line.

(** C33: the line editor never stores past its 128-byte buffer, ends at the return
    key, and returns the line that the keys edit, the first 127 characters of it; what it
    echoes leaves on the terminal exactly the prompt and that line, and nothing to
    the right of it. *)
Theorem read_line_edits {W : Type} (s : shell W) keys rest :
  tty_in s = keys ++ RETURN :: rest → RETURN ∉ keys → Forall printable keys →
  ∃ out, read_line s = Ok (edited keys ++ [0]) (set_tty_out (tty_out s ++ out ++ [NEWLINE]) (set_tty_in rest s)) ∧
    (length (edited keys) < 128)%nat ∧
    ∀ prompt d, displays prompt [] d → displays prompt (edited keys) (fold_left show out d).
Proof.
  intros Hin Hret Hk. exists (echoes [] keys). split; [|split].
  - assert (wp read_line (λ l s', l = edited keys ++ [0] ∧
      s' = set_tty_out (tty_out s ++ echoes [] keys ++ [NEWLINE]) (set_tty_in rest s)) (λ _, False) s) as H.
    { unfold read_line. apply wp_bind. unfold wp at 1, get. apply (read_line_loop _ keys rest); [done|done| |done].
      rewrite Hin, length_app. cbn. lia. }
    apply wp_iff in H as [(l & s' & E & -> & ->)|(? & _ & [])]. exact E.
  - pose proof (edited_length keys). lia.
  - intros prompt d Hd. by apply show_echoes.
Qed.

Lemma read_line_edits_witness :
  ∃ out, read_line (Shell [] [] [] [] [108; 120; 8; 115; 13] [] tt) =
      Ok [108; 115; 0] (Shell [] [] [] [] [] (out ++ [10]) tt) ∧
    displays [35] [108; 115] (fold_left show out (Display [35] [])).
Proof.
  destruct (read_line_edits (Shell [] [] [] [] [108; 120; 8; 115; 13] [] tt) [108; 120; 8; 115] []) as (out & E & _ & Hd).
  - reflexivity.
  - apply (bool_decide_unpack _). reflexivity.
  - repeat constructor; unfold printable; lia.
  - exists out. split; [exact E|]. apply Hd. by split; [|constructor].
Defined.
