(* ===== verification/ShellRun.v ===== *)
(** * The shell: commands

    A command without a slash is searched in the directories of the path; what the
    kernel gets is the path of the program and the arguments as they were typed. *)

From Stdlib Require Import Strings.String.
From S2P Require Import Prelude CLib FsTypes Dir Namei Path Process Spawn UserOs Shell.

(** ** The strings of a command *)

Lemma command_path_spec dir rest cmd : nonzero dir → nonzero cmd → (length dir ≤ 255)%nat →
  ∃ path, command_path (dir ++ 0 :: rest) cmd = Some path ∧ buffered (in_dir dir cmd) path.
Proof.
  intros Hd Hc Hl. unfold command_path. destruct (buffered_copy dir rest Hd) as (l & -> & Hb). cbn [mbind option_bind].
  pose proof (buffered_strlen _ _ Hd Hb) as El. rewrite El. cbn [mbind option_bind].
  pose proof Hb as (r & Er & _). rewrite (take_ge dir) in * by done. unfold in_dir.
  destruct (decide (dir = [])) as [-> |Hne].
  { cbn [length Nat.ltb Nat.leb andb mbind option_bind]. rewrite El. cbn [mbind option_bind].
    rewrite bool_decide_true by by left. destruct (buffered_append [] (l ++ [0]) cmd [] Hd Hc Hb) as (b & E & Hb'). eauto. }
  destruct (exists_last Hne) as (d' & x & Ed).
  assert ((l ++ [0]) !! (length dir - 1)%nat = Some x) as Ex.
  { rewrite Er, Ed, length_app. cbn [length]. replace (length d' + 1 - 1)%nat with (length d') by lia.
    rewrite <-(assoc_L (++)). cbn [app]. by apply list_lookup_middle. }
  assert ((0 <? length dir)%nat = true) as -> by (apply Nat.ltb_lt; destruct dir; [done|cbn; lia]).
  rewrite Ex. cbn [mbind option_bind andb]. assert (last dir = Some x) as Hx by (rewrite Ed; apply last_snoc).
  destruct (Z.eqb_spec x SLASH) as [-> |Hne']; cbn [negb mbind option_bind].
  - rewrite El. cbn [mbind option_bind]. rewrite bool_decide_true by by right.
    destruct (buffered_append dir (l ++ [0]) cmd [] Hd Hc Hb) as (b & E & Hb'). rewrite take_ge in E by done. eauto.
  - rewrite bool_decide_false by (intros [-> |E]; [done|congruence]).
    destruct (buffered_append dir (l ++ [0]) [SLASH] [] Hd ltac:(repeat constructor; unfold SLASH; lia) Hb) as (b & E & Hb').
    rewrite take_ge in E by done. unfold str_slash. cbn [app] in E. rewrite E. cbn [mbind option_bind].
    assert (nonzero (dir ++ [SLASH])) as Hds by (apply nonzero_app; [done|repeat constructor; unfold SLASH; lia]).
    rewrite (buffered_strlen _ _ Hds Hb'). cbn [mbind option_bind].
    destruct (buffered_append _ b cmd [] Hds Hc Hb') as (b' & E' & Hb''). rewrite <-(assoc_L (++)) in Hb''. eauto.
Qed.

(** The command line for a program and its arguments. *)
Definition with_args (path args : list Z) : list Z := if bool_decide (args = []) then path else path ++ BLANK :: args.

Lemma nonzero_with_args path args : nonzero path → nonzero args → nonzero (with_args path args).
Proof.
  intros. unfold with_args. case_bool_decide; [done|]. apply nonzero_app; [done|]. constructor; [unfold BLANK; lia|done].
Qed.

Lemma command_line_spec s path args arest : nonzero s → buffered s path → (length s ≤ 255)%nat → nonzero args →
  ∃ line, command_line path (args ++ 0 :: arest) = Some line ∧ buffered (with_args s args) line.
Proof.
  intros Hs (r & -> & Hl) Hlen Ha. unfold command_line. rewrite (take_ge s) by done.
  destruct (buffered_copy s r Hs) as (l & -> & Hb). cbn [mbind option_bind]. unfold with_args.
  destruct args as [|c args]; cbn [app head mbind option_bind].
  { cbn. eauto. }
  inversion Ha as [|? ? Hc Ha']; subst. rewrite (proj2 (Z.eqb_neq c 0)) by lia. rewrite bool_decide_false by done.
  rewrite (buffered_strlen _ _ Hs Hb). cbn [mbind option_bind].
  assert (nonzero [BLANK]) as Hbl by (repeat constructor; unfold BLANK; lia).
  destruct (buffered_append s (l ++ [0]) [BLANK] [] Hs Hbl Hb) as (b & E & Hb'). cbn [app] in E. rewrite E. cbn [mbind option_bind].
  assert (nonzero (s ++ [BLANK])) as Hsb by by apply nonzero_app. rewrite (buffered_strlen _ _ Hsb Hb'). cbn [mbind option_bind].
  destruct (buffered_append _ b (c :: args) arest Hsb Ha Hb') as (b' & E' & Hb''). cbn [app] in E'. rewrite E'.
  rewrite <-(assoc_L (++)) in Hb''. eauto.
Qed.

(** ** The search *)

Section run.
Context {W : Type} `{!Os W}.

(** Directories [ds] of the path hold no program of that name that can be started:
    each is not a regular file there, or fails to start. *)
Inductive misses (buf cmd args : list Z) : list nat → W → W → Prop :=
| misses_nil w : misses buf cmd args [] w w
| misses_stat d ds dir r w w1 w2 :
  cstr (drop d buf) = Some dir → os_stat (take 255 (in_dir dir cmd) ++ [0]) w = Ok r w1 → (∀ sz, r ≠ Some (false, sz)) →
  misses buf cmd args ds w1 w2 → misses buf cmd args (d :: ds) w w2
| misses_spawn d ds dir sz pid w w1 w2 w3 :
  cstr (drop d buf) = Some dir → os_stat (take 255 (in_dir dir cmd) ++ [0]) w = Ok (Some (false, sz)) w1 →
  os_spawn (take 255 (with_args (take 255 (in_dir dir cmd)) args) ++ [0]) w1 = Ok pid w2 → pid < 0 →
  misses buf cmd args ds w2 w3 → misses buf cmd args (d :: ds) w w3.

Lemma cstr_split l s : bytes l → cstr l = Some s → nonzero s ∧ ∃ rest, l = s ++ 0 :: rest.
Proof using.
  intros Hb. revert s. induction Hb as [|c l Hc _ IH]; intros s; [done|]. cbn. destruct (Z.eqb_spec c 0) as [-> |Hne].
  - intros [= <-]. split; [constructor|]. by exists l.
  - intros (s' & E & ->)%fmap_Some. destruct (IH s' E) as [Hs [rest ->]]. split; [|by exists rest].
    constructor; [unfold is_byte in Hc; lia|done].
Qed.

(** The strings of one directory of the search. *)
Lemma dir_strings buf d dir cmd : bytes buf → length buf = 256%nat → nonzero cmd → cstr (drop d buf) = Some dir →
  nonzero dir ∧ ∃ path, command_path (drop d buf) cmd = Some path ∧ buffered (in_dir dir cmd) path.
Proof using.
  intros Hb Hl Hc E. destruct (cstr_split (drop d buf) dir) as [Hd [rest Er]]; [by apply Forall_drop|done|].
  split; [done|]. rewrite Er. apply command_path_spec; [done|done|]. apply (f_equal length) in Er.
  rewrite length_drop, length_app in Er. cbn in Er. lia.
Qed.

Lemma sys_str_wp {A} (f : list Z → M W A) s buf a w (Q : A → shell W → Prop) P (x : shell W) :
  nonzero s → buffered s buf → f (take 255 s ++ [0]) (world x) = Ok a w → Q a (set_world w x) →
  wp (sys_str f buf) Q P x.
Proof using.
  intros Hs Hb E HQ. unfold sys_str. rewrite (buffered_cstr s buf Hs Hb). wp_steps. apply wp_zoom. eapply wp_ok; [exact E|exact HQ].
Qed.

Lemma search_misses_wp buf cmd args arest ds w w' post (Q : bool → shell W → Prop) P x :
  bytes buf → length buf = 256%nat → nonzero cmd → nonzero args → misses buf cmd args ds w w' →
  path_buf x = buf → world x = w →
  wp (search_path post cmd (args ++ 0 :: arest)) Q P (set_world w' x) →
  wp (search_path (ds ++ post) cmd (args ++ 0 :: arest)) Q P x.
Proof using.
  intros Hb Hl Hc Ha Hm. revert x.
  induction Hm as [w|d ds dir r w w1 w2 Ed Es Hr _ IH|d ds dir sz pid w w1 w2 w3 Ed Es Ep Hpid _ IH]; intros x Ex <- H.
  - by destruct x.
  - destruct (dir_strings buf d dir cmd) as (Hd & path & Epath & Hpath); [done..|]. cbn [app search_path].
    wp_step. wp_step. rewrite Ex, Epath. wp_step. wp_step. wp_step.
    eapply (sys_str_wp _ (in_dir dir cmd)); [by apply nonzero_in_dir|done|exact Es|].
    assert (wp (search_path (ds ++ post) cmd (args ++ 0 :: arest)) Q P (set_world w1 x)) as H' by (by apply IH).
    destruct r as [[[] sz]|]; [exact H'|by destruct (Hr sz)|exact H'].
  - destruct (dir_strings buf d dir cmd) as (Hd & path & Epath & Hpath); [done..|]. cbn [app search_path].
    wp_step. wp_step. rewrite Ex, Epath. wp_step. wp_step. wp_step.
    assert (nonzero (in_dir dir cmd)) as Hn by by apply nonzero_in_dir.
    eapply sys_str_wp; [done|done|exact Es|].
    destruct (command_line_spec (take 255 (in_dir dir cmd)) path args arest) as (line & El & Hline).
    + by apply Forall_take.
    + destruct Hpath as (rest & -> & ?). exists rest. by rewrite take_take.
    + rewrite length_take. lia.
    + done.
    + rewrite El. wp_step. wp_step. wp_step. eapply (sys_str_wp _ (with_args (take 255 (in_dir dir cmd)) args)); [|done|exact Ep|].
      { apply nonzero_with_args; [by apply Forall_take|done]. }
      rewrite geb_false by lia. by apply IH.
Qed.

(** The directory in which the search succeeds. *)
Lemma search_hit_wp buf cmd args arest d post dir sz pid v w1 w2 w3 (Q : bool → shell W → Prop) P x :
  bytes buf → length buf = 256%nat → nonzero cmd → nonzero args → path_buf x = buf → cstr (drop d buf) = Some dir →
  (length (in_dir dir cmd) ≤ 255)%nat → (length (with_args (in_dir dir cmd) args) ≤ 255)%nat →
  os_stat (in_dir dir cmd ++ [0]) (world x) = Ok (Some (false, sz)) w1 →
  os_spawn (with_args (in_dir dir cmd) args ++ [0]) w1 = Ok pid w2 → 0 ≤ pid → os_wait pid w2 = Ok v w3 →
  Q true (set_world w3 x) → wp (search_path (d :: post) cmd (args ++ 0 :: arest)) Q P x.
Proof using.
  intros Hb Hl Hc Ha Ex Ed Hlp Hla Es Ep Hpid Ew HQ.
  destruct (dir_strings buf d dir cmd) as (Hd & path & Epath & Hpath); [done..|]. cbn [search_path].
  wp_step. wp_step. rewrite Ex, Epath. wp_step. wp_step. wp_step. assert (nonzero (in_dir dir cmd)) as Hn by by apply nonzero_in_dir.
  eapply sys_str_wp; [done|done|rewrite take_ge by done; exact Es|].
  destruct (command_line_spec (in_dir dir cmd) path args arest) as (line & El & Hline); [done..|].
  rewrite El. wp_step. wp_step. wp_step.
  eapply (sys_str_wp _ (with_args (in_dir dir cmd) args)); [by apply nonzero_with_args|done|rewrite take_ge by done; exact Ep|].
  rewrite geb_true by lia. wp_step. apply wp_zoom. eapply wp_ok; [exact Ew|]. wp_step. exact HQ.
Qed.

(** ** The command line *)

Lemma command_name_spec n cmd l : nonzero cmd → BLANK ∉ cmd → (length cmd ≤ n)%nat →
  match l with c :: _ => c = 0 ∨ c = BLANK | [] => False end → command_name n (cmd ++ l) = Some cmd.
Proof using.
  intros Hc. revert n. induction Hc as [|c cmd Hc _ IH]; intros n Hb Hn Hl.
  - destruct n as [|n]; [done|]. cbn [app command_name]. destruct l as [|c l]; [done|]. cbn. by destruct Hl as [-> | ->].
  - apply not_elem_of_cons in Hb as [Hb Hb']. destruct n as [|n]; [cbn in Hn; lia|]. cbn [app command_name head mbind option_bind tail].
    rewrite !(proj2 (Z.eqb_neq _ _)) by (done || lia). cbn [orb]. rewrite IH; [done|done|cbn in Hn; lia|done].
Qed.

Lemma skip_blanks_spec n args : head args ≠ Some BLANK → skip_blanks (replicate n BLANK ++ args) = args.
Proof using.
  intros Hh. induction n as [|n IH]; [|done]. cbn [replicate app]. destruct args as [|c args]; [done|]. cbn.
  by rewrite (proj2 (Z.eqb_neq c BLANK)) by (intros ->; done).
Qed.

(** A line of a command and its arguments. *)
Record command (line cmd args : list Z) : Prop := Command {
  cm_split : ∃ n, line = cmd ++ replicate n BLANK ++ args ∧ (n ≠ 0%nat ∨ args = []);
  cm_name : nonzero cmd ∧ cmd ≠ [] ∧ (BLANK ∉ cmd) ∧ (SLASH ∉ cmd) ∧ (length cmd ≤ 63)%nat;
  cm_args : nonzero args ∧ head args ≠ Some BLANK
  }.

Lemma run_command_wp line cmd args (Q : unit → shell W → Prop) P x : command line cmd args →
  wp (search_path (path_dirs x) cmd (args ++ [0])) (λ b x', if b : bool then Q tt x' else
    Q tt (set_tty_out (tty_out x' ++ str "unknown command: " ++ line ++ [NEWLINE]) x')) P x →
  wp (run_command (line ++ [0])) Q P x.
Proof using.
  intros [(n & -> & Hn) (Hc & Hne & Hb & Hs & Hlen) (Ha & Hh)] H. unfold run_command.
  assert (match replicate n BLANK ++ args ++ [0] with c :: _ => c = 0 ∨ c = BLANK | [] => False end) as Hnext.
  { destruct n as [|n]; [|by right]. destruct Hn as [| ->]; [done|by left]. }
  rewrite <-!(assoc_L (++)). rewrite command_name_spec by done. wp_steps. rewrite !bool_decide_false by done.
  wp_steps. rewrite drop_app_length, skip_blanks_spec.
  2: { destruct args; [by intros [=]|done]. }
  eapply wp_mono; [exact H| |done]. cbv beta. intros [] x' HQ; [by wp_step|].
  unfold unknown. rewrite !(assoc_L (++)). rewrite cstr_app.
  2: { repeat apply nonzero_app; try done. apply Forall_replicate. unfold BLANK. lia. }
  wp_steps. unfold emit. wp_steps. by rewrite <-!(assoc_L (++)) in HQ |- *.
Qed.
End run.

(** The words of the line that the kernel gets. *)
Lemma words_with_args path args : path ≠ [] → BLANK ∉ path → words (with_args path args) = path :: words args.
Proof.
  intros Hne Hb. unfold with_args. case_bool_decide as E; [subst; by apply words_last|]. by apply words_cons.
Qed.

(** C31: a command without a slash is looked up in the directories of the path, in
    order: the first one in which the name is a regular file that can be started gets
    run, with the path of the program and the arguments exactly as they were typed
    ([arguments] is how the kernel splits the line), and the shell waits for it. When
    no directory has it, the shell says so and starts nothing. *)
Theorem run_command_searches {W : Type} `{!Os W} (x : shell W) line cmd args :
  command line cmd args → bytes (path_buf x) → length (path_buf x) = 256%nat →
  (∀ w, misses (path_buf x) cmd args (path_dirs x) (world x) w →
     run_command (line ++ [0]) x =
       Ok tt (set_tty_out (tty_out x ++ str "unknown command: " ++ line ++ [NEWLINE]) (set_world w x))) ∧
  (∀ pre d post dir sz pid v w1 w2 w3 w4, path_dirs x = pre ++ d :: post →
     misses (path_buf x) cmd args pre (world x) w1 → cstr (drop d (path_buf x)) = Some dir → BLANK ∉ dir →
     let path := in_dir dir cmd in let l := with_args path args in (length l ≤ 127)%nat →
     os_stat (path ++ [0]) w1 = Ok (Some (false, sz)) w2 → os_spawn (l ++ [0]) w2 = Ok pid w3 → 0 ≤ pid →
     os_wait pid w3 = Ok v w4 →
     run_command (line ++ [0]) x = Ok tt (set_world w4 x) ∧
     arguments l = (path ++ [0]) :: ((λ w, w ++ [0]) <$> take 15 (words args))).
Proof.
  intros Hcm Hb Hl. pose proof Hcm as [_ (Hc & Hne & Hbl & _ & _) (Ha & _)]. split.
  - intros w Hm. assert (wp (run_command (line ++ [0])) (λ _ x', x' = set_tty_out (tty_out x ++ str "unknown command: " ++ line ++ [NEWLINE])
      (set_world w x)) (λ _, False) x) as H.
    { eapply run_command_wp; [done|]. rewrite <-(app_nil_r (path_dirs x)).
      eapply search_misses_wp; [exact Hb|done|done|done|done|done|done|]. cbn [search_path]. by wp_step. }
    apply wp_iff in H as [([] & x' & E & ->)|(? & _ & [])]. exact E.
  - intros pre d post dir sz pid v w1 w2 w3 w4 Ed Hm Edir Hbd path l Hlen Es Ep Hpid Ew.
    assert (length path ≤ 127)%nat as Hlp.
    { revert Hlen. unfold l, with_args. case_bool_decide; [done|]. rewrite length_app. lia. }
    assert (wp (run_command (line ++ [0])) (λ _ x', x' = set_world w4 x) (λ _, False) x) as H.
    { eapply run_command_wp; [done|]. rewrite Ed. eapply search_misses_wp; [exact Hb|done|done|done|done|done|done|].
      eapply (search_hit_wp (path_buf x)) with (dir := dir) (w1 := w2) (w2 := w3) (w3 := w4); try done.
      - fold path. lia.
      - fold path l. lia. }
    apply wp_iff in H as [([] & x' & E & ->)|(? & _ & [])]. split; [exact E|].
    unfold arguments. rewrite (take_ge l) by lia. unfold l. rewrite words_with_args; [done|..]; unfold path, in_dir.
    + case_bool_decide; intros [? ?]%app_eq_nil; done.
    + case_bool_decide; [by intros [?|?]%elem_of_app|]. by intros [?|[?|?]%elem_of_cons]%elem_of_app.
Qed.

(** A system with one program, "/bin/ls", that records what it is asked to start. *)
Definition ls_only : Os (list (list Z)) := {|
  os_stat p w := Ok (if bool_decide (p = str "/bin/ls" ++ [0]) then Some (false, 10) else None) w;
  os_open p w := Ok (inl 2) w;
  os_read fd n w := Ok (-1, []) w;
  os_close fd w := Ok 0 w;
  os_getcwd n w := Ok None w;
  os_chdir p w := Ok (-1) w;
  os_spawn l w := Ok 2 (w ++ [l]);
  os_wait pid w := Ok 0 w;
  os_kmesg n w := Ok (0, []) w
|}.

(** The path is "/usr" and "/bin". *)
Definition ls_shell : shell (list (list Z)) :=
  Shell (str "/usr" ++ [0] ++ str "/bin" ++ zeros 247) [0; 5]%nat [] [] [] [] [].

Lemma run_command_searches_witness :
  @run_command _ ls_only (str "ls  a b" ++ [0]) ls_shell = Ok tt (set_world [str "/bin/ls a b" ++ [0]] ls_shell) ∧
  arguments (str "/bin/ls a b") = [str "/bin/ls" ++ [0]; [97; 0]; [98; 0]] ∧
  @run_command _ ls_only (str "rm" ++ [0]) ls_shell = Ok tt (set_tty_out (str "unknown command: rm" ++ [NEWLINE]) ls_shell).
Proof.
  assert (Hb : bytes (path_buf ls_shell)) by (apply (bool_decide_unpack _); vm_compute; reflexivity).
  assert (H1 : command (str "ls  a b") (str "ls") (str "a b")).
  { split; [exists 2%nat; split; [reflexivity|by left]|..]; split_and!;
      first [apply (bool_decide_unpack _); vm_compute; reflexivity|repeat constructor; cbn; lia]. }
  assert (H2 : command (str "rm") (str "rm") []).
  { split; [exists 0%nat; split; [reflexivity|by right]|..]; split_and!;
      first [apply (bool_decide_unpack _); vm_compute; reflexivity|repeat constructor; cbn; lia]. }
  split; [|split].
  - apply (proj2 (@run_command_searches _ ls_only ls_shell _ _ _ H1 Hb eq_refl) [0%nat] 5%nat [] (str "/bin") 10 2 0 [] []
      [str "/bin/ls a b" ++ [0]] [str "/bin/ls a b" ++ [0]] eq_refl); try reflexivity.
    + eapply misses_stat; [vm_compute; reflexivity|reflexivity|vm_compute; discriminate|constructor].
    + apply (bool_decide_unpack _). vm_compute. reflexivity.
    + vm_compute. lia.
    + discriminate.
  - vm_compute. reflexivity.
  - apply (proj1 (@run_command_searches _ ls_only ls_shell _ _ _ H2 Hb eq_refl)).
    eapply misses_stat; [vm_compute; reflexivity|reflexivity|vm_compute; discriminate|].
    eapply misses_stat; [vm_compute; reflexivity|reflexivity|vm_compute; discriminate|constructor].
Defined.
