(* ===== verification/ShellConfig.v ===== *)
(** * The shell: its configuration

    [init_config] reads /cfg/dmash.cfg: lines PATH=, PROMPT= and MSG=, of which the last
    one counts, and a path that is split at colons. *)

From Stdlib Require Import Strings.String.
From S2P Require Import Prelude CLib FsTypes Dir Namei Path UserOs Shell ShellRun.

(** ** What a configuration means *)

Record settings := Settings { s_path : list Z; s_prompt : list Z; s_msg : list Z }.

(** The value of a line that starts with [pre]. *)
Definition value (pre line : list Z) : option (list Z) :=
  if bool_decide (take (length pre) line = pre) then Some (drop (length pre) line) else None.

Definition apply_line (st : settings) (line : list Z) : settings :=
  match value (str "PATH=") line, value (str "PROMPT=") line, value (str "MSG=") line with
  | Some v, _, _ => Settings v (s_prompt st) (s_msg st)
  | None, Some v, _ => Settings (s_path st) v (s_msg st)
  | None, None, Some v => Settings (s_path st) (s_prompt st) v
  | None, None, None => st
  end.

(** A text of lines with their ends, and a last line without one. *)
Definition line_ok (l : list Z) : Prop := nonzero l ∧ (NEWLINE ∉ l) ∧ (RETURN ∉ l).
Definition ending (e : list Z) : Prop := e = [NEWLINE] ∨ e = [RETURN; NEWLINE].
Definition text (ls : list (list Z * list Z)) (last : list Z) : list Z :=
  concat ((λ x, fst x ++ snd x) <$> ls) ++ last.

(** The fields between separators. *)
Fixpoint fields (sep : Z) (l : list Z) : list (list Z) :=
  match l with
  | [] => [[]]
  | c :: l => if c =? sep then [] :: fields sep l
              else match fields sep l with f :: fs => (c :: f) :: fs | [] => [[c]] end
  end.
Definition path_fields (l : list Z) : list (list Z) := filter (λ f, f ≠ []) (fields COLON l).

Lemma fields_ne sep l : fields sep l ≠ [].
Proof. destruct l as [|c l]; [done|]. cbn. destruct (c =? sep); [done|]. by destruct (fields sep l). Qed.

Lemma fields_cons sep w l : sep ∉ w → fields sep (w ++ sep :: l) = w :: fields sep l.
Proof.
  induction w as [|c w IH]; [cbn; by rewrite Z.eqb_refl|]. intros [Hc Hw]%not_elem_of_cons. cbn.
  rewrite (proj2 (Z.eqb_neq c sep)) by done. by rewrite IH.
Qed.

Lemma fields_last sep w : sep ∉ w → fields sep w = [w].
Proof.
  induction w as [|c w IH]; [done|]. intros [Hc Hw]%not_elem_of_cons. cbn.
  rewrite (proj2 (Z.eqb_neq c sep)) by done. by rewrite IH.
Qed.

Lemma path_fields_colons n l : path_fields (replicate n COLON ++ l) = path_fields l.
Proof. induction n as [|n IH]; [done|]. cbn. unfold path_fields in *. cbn. exact IH. Qed.

Lemma path_fields_cons w l : w ≠ [] → COLON ∉ w → path_fields (w ++ COLON :: l) = w :: path_fields l.
Proof. intros Hne Hw. unfold path_fields. rewrite fields_cons by done. by rewrite filter_cons_True. Qed.

Lemma path_fields_last w : w ≠ [] → COLON ∉ w → path_fields w = [w].
Proof. intros Hne Hw. unfold path_fields. rewrite fields_last by done. by rewrite filter_cons_True. Qed.

(** ** Lines *)

Lemma split_line_spec l rest : line_ok l → match rest with c :: _ => c = 0 ∨ c = NEWLINE ∨ c = RETURN | [] => False end →
  split_line (l ++ rest) = (l, rest).
Proof.
  intros (Hl & Hn & Hr) Hh. induction Hl as [|c l Hc _ IH].
  - destruct rest as [|c rest]; [done|]. cbn. by destruct Hh as [-> |[-> | ->]].
  - apply not_elem_of_cons in Hn as [Hn Hn'], Hr as [Hr Hr']. cbn [app split_line].
    rewrite !(proj2 (Z.eqb_neq c _)) by (done || lia). cbn [orb]. by rewrite IH.
Qed.

Lemma starts_value pre line : nonzero (str pre) → nonzero line →
  (r ← strncmp (line ++ [0]) (str pre ++ [0]) (length (str pre)); Some (r =? 0)) = Some (bool_decide (is_Some (value (str pre) line))).
Proof.
  intros Hp Hl. destruct (strncmp_spec line (str pre) [] [] (length (str pre)) Hl Hp) as (r & -> & Hr). cbn [mbind option_bind].
  f_equal. rewrite firstn_all in Hr. unfold value. destruct (decide (take (length (str pre)) line = str pre)) as [E|E].
  - rewrite (bool_decide_true (take _ _ = _)) by done. rewrite bool_decide_true by by eexists. by apply Z.eqb_eq, Hr.
  - rewrite (bool_decide_false (take _ _ = _)) by done. rewrite bool_decide_false by by intros [].
    apply Z.eqb_neq. intros E3. by apply E, Hr.
Qed.

Lemma copy_value pre line v : nonzero line → value (str pre) line = Some v →
  ∃ buf, copy_setting (drop (length (str pre)) (line ++ [0])) = Some buf ∧ buffered v buf ∧ nonzero v ∧ bytes buf.
Proof.
  intros Hl. unfold value. case_bool_decide as E; [|done]. intros [= <-].
  assert (length (str pre) ≤ length line)%nat as Hle by (apply (f_equal length) in E; rewrite length_take in E; lia).
  rewrite drop_app_le by done. assert (nonzero (drop (length (str pre)) line)) as Hd by by apply Forall_drop.
  destruct (buffered_copy _ [] Hd) as (l & El & Hb). exists (l ++ [0]). split; [unfold copy_setting; by rewrite El|].
  split; [done|]. split; [done|]. rewrite strncpy_spec in El by done. injection El as <-.
  apply Forall_app. split; [|repeat constructor; unfold is_byte; lia]. apply Forall_take, Forall_app. split; [|apply bytes_zeros].
  eapply Forall_impl; [exact Hd|]. cbn. unfold is_byte. lia.
Qed.

Section config.
Context {W : Type} `{!Os W}.

(** The statics of [x] hold the settings; the rest is that of [x0]. *)
Record holds_settings (x0 : shell W) (st : settings) (x : shell W) : Prop := {
  hs_path : buffered (s_path st) (path_buf x) ∧ nonzero (s_path st) ∧ bytes (path_buf x);
  hs_prompt : buffered (s_prompt st) (prompt_fmt x);
  hs_msg : buffered (s_msg st) (msg_fmt x);
  hs_rest : path_dirs x = path_dirs x0 ∧ tty_in x = tty_in x0 ∧ tty_out x = tty_out x0 ∧ world x = world x0
  }.

Lemma config_line_wp x0 st line (Q : unit → shell W → Prop) P x : nonzero line → holds_settings x0 st x →
  (∀ x', holds_settings x0 (apply_line st line) x' → Q tt x') → wp (config_line line) Q P x.
Proof using.
  intros Hl [Hp Hpr Hm Hr] HQ. unfold config_line. rewrite !starts_value by (done || (repeat constructor; cbn; lia)).
  unfold apply_line in HQ. wp_steps.
  destruct (value (str "PATH=") line) as [v|] eqn:E1.
  { destruct (copy_value _ _ _ Hl E1) as (buf & Eb & Hb & Hv & Hbb). rewrite bool_decide_true by by eexists.
    change (length (str "PATH=")) with 5%nat in Eb. rewrite Eb. wp_steps. apply HQ. by split. }
  rewrite bool_decide_false by (by intros [? ?]). wp_steps.
  destruct (value (str "PROMPT=") line) as [v|] eqn:E2.
  { destruct (copy_value _ _ _ Hl E2) as (buf & Eb & Hb & Hv & Hbb). rewrite bool_decide_true by by eexists.
    change (length (str "PROMPT=")) with 7%nat in Eb. rewrite Eb. wp_steps. apply HQ. by split. }
  rewrite bool_decide_false by (by intros [? ?]). wp_steps.
  destruct (value (str "MSG=") line) as [v|] eqn:E3.
  { destruct (copy_value _ _ _ Hl E3) as (buf & Eb & Hb & Hv & Hbb). rewrite bool_decide_true by by eexists.
    change (length (str "MSG=")) with 4%nat in Eb. rewrite Eb. wp_steps. apply HQ. by split. }
  rewrite bool_decide_false by (by intros [? ?]). wp_steps. apply HQ. by split.
Qed.

Lemma apply_nil st : apply_line st [] = st.
Proof using. reflexivity. Qed.

Lemma config_step_wp x0 st l e rest (Q : list Z + unit → shell W → Prop) P x :
  line_ok l → ending e → holds_settings x0 st x →
  (∀ x', holds_settings x0 (apply_line st l) x' → Q (inl (rest ++ [0])) x') → wp (config_step (l ++ e ++ rest ++ [0])) Q P x.
Proof using.
  intros Hl He Hx HQ. unfold config_step.
  assert (∃ c r, l ++ e ++ rest ++ [0] = c :: r ∧ c ≠ 0) as (c & r & E & Hc).
  { destruct l as [|c l]; [destruct He as [-> | ->]; eexists _, _; split; [done|done|done|done]|].
    exists c, (l ++ e ++ rest ++ [0]). split; [done|]. destruct Hl as [Hl _]. inversion Hl; lia. }
  assert (split_line (l ++ e ++ rest ++ [0]) = (l, e ++ rest ++ [0])) as Esp.
  { apply split_line_spec; [done|]. destruct He as [-> | ->]; cbn; auto. }
  apply wp_bind. rewrite E at 1. apply wp_ret. rewrite (proj2 (Z.eqb_neq c 0)) by done. rewrite Esp.
  destruct He as [-> | ->]; cbn [app head]; wp_steps; (eapply config_line_wp; [apply Hl|done|]); intros x' Hx'; wp_steps; by apply HQ.
Qed.

Lemma config_loop_wp x0 ls fin (Q : unit → shell W → Prop) P :
  Forall (λ x, line_ok (fst x) ∧ ending (snd x)) ls → line_ok fin →
  ∀ fuel st x, (length (text ls fin) < fuel)%nat → holds_settings x0 st x →
  (∀ x', holds_settings x0 (fold_left apply_line (ls.*1 ++ [fin]) st) x' → Q tt x') →
  wp (loop fuel config_step (text ls fin ++ [0])) Q P x.
Proof using.
  intros Hls Hfin. induction Hls as [|[l e] ls [Hl He] _ IH]; intros fuel st x Hf Hx HQ; (destruct fuel as [|fuel]; [lia|]); cbn [loop].
  - change (text [] fin) with fin. destruct fin as [|c fin'] eqn:El.
    { cbn. unfold config_step. wp_steps. cbn. wp_steps. apply HQ. exact Hx. }
    rewrite <-El in *. assert (c ≠ 0) as Hc by (destruct Hfin as [Hn _]; rewrite El in Hn; inversion Hn; lia).
    apply wp_bind. unfold config_step. apply wp_bind. rewrite El at 1. apply wp_ret. rewrite (proj2 (Z.eqb_neq c 0)) by done.
    rewrite split_line_spec by (done || by left). cbn [head]. wp_steps.
    eapply config_line_wp; [apply Hfin|done|]. intros x' Hx'. wp_steps. cbn. wp_steps. by apply HQ.
  - cbn [fst snd] in Hl, He. assert (text ((l, e) :: ls) fin = l ++ e ++ text ls fin) as Et by (unfold text; cbn; by rewrite <-!app_assoc).
    rewrite Et in *. rewrite <-!app_assoc. apply wp_bind. eapply config_step_wp; [done|done|done|]. intros x' Hx'.
    eapply IH; [|done|done]. rewrite !length_app in Hf. destruct He as [-> | ->]; cbn in Hf; lia.
Qed.

(** ** The path *)

Lemma cstr_app_r l r f : cstr l = Some f → cstr (l ++ r) = Some f.
Proof using.
  revert f. induction l as [|c l IH]; intros f; [done|]. cbn. destruct (c =? 0); [done|]. intros (f' & E & ->)%fmap_Some. by rewrite (IH f').
Qed.

Lemma strchr_found w l : nonzero w → COLON ∉ w → strchr (w ++ COLON :: l) COLON = Some (Some (COLON :: l)).
Proof using.
  induction 1 as [|c w Hc _ IH]; [done|]. intros [Hn Hn']%not_elem_of_cons. cbn.
  rewrite !(proj2 (Z.eqb_neq c _)) by (done || lia). by apply IH.
Qed.

Lemma strchr_missing w l : nonzero w → COLON ∉ w → strchr (w ++ 0 :: l) COLON = Some None.
Proof using.
  induction 1 as [|c w Hc _ IH]; [done|]. intros [Hn Hn']%not_elem_of_cons. cbn.
  rewrite !(proj2 (Z.eqb_neq c _)) by (done || lia). by apply IH.
Qed.

Lemma skip_colons_wp buf pre n rest p (Q : nat → shell W → Prop) P x : buf = pre ++ replicate n COLON ++ rest →
  p = length pre → head rest ≠ Some COLON → rest ≠ [] → Q (length pre + n)%nat x →
  ∀ fuel, (n < fuel)%nat →
  wp (loop fuel (λ p : nat, c ← expect (buf !! p); if c =? COLON then mret (inl (S p)) else mret (inr p)) p) Q P x.
Proof using.
  intros -> -> Hh Hne. revert pre. induction n as [|n IH]; intros pre HQ fuel Hf; (destruct fuel as [|fuel]; [lia|]); cbn [loop replicate app].
  - destruct rest as [|c rest]; [done|]. rewrite list_lookup_middle by done. wp_steps.
    rewrite (proj2 (Z.eqb_neq c COLON)) by (intros ->; done). wp_steps. by rewrite Nat.add_0_r in HQ.
  - rewrite list_lookup_middle by done. wp_steps. cbn. wp_steps. specialize (IH (pre ++ [COLON])).
    rewrite length_app, <-app_assoc in IH. cbn [length app] in IH. rewrite Nat.add_1_r in IH. cbn [Nat.add] in IH.
    rewrite <-Nat.add_succ_comm in HQ. apply IH; [done|lia].
Qed.

(** The directories found so far, by their strings. *)
Definition dirs_are (buf : list Z) (ds : list nat) (fs : list (list Z)) : Prop :=
  Forall2 (λ d f, cstr (drop d buf) = Some f) ds fs.

Lemma dirs_are_app buf r ds fs : dirs_are buf ds fs → dirs_are (buf ++ r) ds fs.
Proof using.
  intros H. eapply Forall2_impl; [exact H|]. cbn. intros d f E.
  destruct (decide (d ≤ length buf)%nat); [rewrite drop_app_le by done; by apply cstr_app_r|].
  rewrite drop_ge in E by lia. done.
Qed.

Lemma split_colons (l : list Z) : ∃ n r, l = replicate n COLON ++ r ∧ head r ≠ Some COLON.
Proof using.
  induction l as [|c l (n & r & -> & Hr)]; [by exists 0%nat, []|]. destruct (decide (c = COLON)) as [-> |Hne].
  - by exists (S n), r.
  - exists 0%nat, (c :: replicate n COLON ++ r). split; [done|]. by intros [= ->].
Qed.

Lemma split_field (l : list Z) : (COLON ∉ l) ∨ ∃ w r, l = w ++ COLON :: r ∧ (COLON ∉ w).
Proof using.
  destruct (decide (COLON ∈ l)) as [H|H]; [right|by left]. apply list_elem_of_split_l in H as (w & r & -> & Hw). eauto.
Qed.

(** [x] with the path split. *)
Definition path_split (x : shell W) (fs : list (list Z)) (x' : shell W) : Prop :=
  ∃ buf ds, x' = set_path_buf buf (set_path_dirs ds x) ∧ length buf = length (path_buf x) ∧ bytes buf ∧ dirs_are buf ds fs.

Lemma path_split_trans x buf ds fs x' : length buf = length (path_buf x) →
  path_split (set_path_buf buf (set_path_dirs ds x)) fs x' → path_split x fs x'.
Proof using. intros El (b & d & -> & Hl & Hb & Hd). exists b, d. split; [done|]. split; [cbn in Hl; congruence|done]. Qed.

(** One round: a separator run, then a field, then the end or a separator. *)
Lemma path_step_wp x pre n r rest (Q : nat + unit → shell W → Prop) P :
  path_buf x = pre ++ replicate n COLON ++ r ++ 0 :: rest → nonzero r → head r ≠ Some COLON → n ≠ 0%nat ∨ r ≠ [] →
  (length (path_dirs x) < 32)%nat →
  let here := set_path_dirs (path_dirs x ++ [length pre + n]%nat) x in
  (r = [] → Q (inr tt) x) →
  (r ≠ [] → COLON ∉ r → Q (inr tt) here) →
  (∀ w r', r = w ++ COLON :: r' → COLON ∉ w →
    Q (inl (length (pre ++ replicate n COLON ++ w) + 1)%nat)
    (set_path_buf ((pre ++ replicate n COLON ++ w) ++ 0 :: r' ++ 0 :: rest) here)) →
  wp (path_step (length pre)) Q P x.
Proof using.
  intros Eb Hr Hh Hne Hlen here HE HL HM. unfold path_step. apply wp_bind. unfold wp at 1, get.
  assert (∃ c, path_buf x !! length pre = Some c ∧ c ≠ 0) as (c & Ec & Hc).
  { rewrite Eb, lookup_app_r, Nat.sub_diag by done. destruct n as [|n]; [|by exists COLON].
    destruct r as [|c r]; [by destruct Hne|]. exists c. split; [done|]. inversion Hr; lia. }
  rewrite Ec. wp_steps. rewrite (proj2 (Z.eqb_neq c 0)) by done. rewrite (proj2 (Nat.ltb_lt _ _)) by done. cbn [orb negb].
  apply wp_bind. eapply (skip_colons_wp _ pre n (r ++ 0 :: rest)); [done|done|by destruct r|by destruct r| |].
  2: { rewrite Eb, length_app, length_app, length_replicate. lia. }
  assert (path_buf x = (pre ++ replicate n COLON) ++ r ++ 0 :: rest) as Eb' by (by rewrite <-app_assoc).
  assert (length (pre ++ replicate n COLON) = length pre + n)%nat as El by by rewrite length_app, length_replicate.
  destruct r as [|c' r'] eqn:Er.
  { rewrite Eb', <-El, lookup_app_r, Nat.sub_diag by done. wp_steps. cbn. wp_steps. by apply HE. }
  rewrite <-Er in *. assert (path_buf x !! (length pre + n)%nat = Some c') as Ec'.
  { rewrite Eb', <-El, lookup_app_r, Nat.sub_diag by done. by rewrite Er. }
  rewrite Ec'. assert (c' ≠ 0) as Hc' by (rewrite Er in Hr; inversion Hr; lia). wp_steps. rewrite (proj2 (Z.eqb_neq c' 0)) by done.
  wp_steps. assert (drop (length pre + n) (path_buf x) = r ++ 0 :: rest) as -> by (rewrite Eb', <-El; apply drop_app_length).
  destruct (split_field r) as [Hnc|(w & r2 & E & Hw)].
  - rewrite strchr_missing by done. wp_steps. apply HL; [by rewrite Er|done].
  - rewrite E, <-app_assoc. cbn [app]. rewrite strchr_found; [|rewrite E in Hr; by apply Forall_app in Hr as [? _]|done]. wp_steps. cbv zeta iota. wp_steps.
    assert (path_buf x = (pre ++ replicate n COLON ++ w) ++ COLON :: r2 ++ 0 :: rest) as Eb2.
    { rewrite Eb, E, <-!app_assoc. done. }
    assert (length (path_buf x) - length (COLON :: r2 ++ 0%Z :: rest) = length (pre ++ replicate n COLON ++ w))%nat as ->.
    { rewrite Eb2, length_app. lia. }
    rewrite Eb2, insert_app_r_alt, Nat.sub_diag by done. cbn [list_insert insert]. specialize (HM w r2 E Hw). by rewrite Nat.add_1_r in HM.
Qed.

(** The string at the start of a field. *)
Lemma field_at pre n w tl : nonzero w → cstr (drop (length pre + n) (pre ++ replicate n COLON ++ w ++ 0 :: tl)) = Some w.
Proof using.
  intros Hw. rewrite app_assoc, drop_app_ge by (rewrite length_app, length_replicate; lia).
  rewrite length_app, length_replicate, Nat.sub_diag, drop_0. by apply cstr_app.
Qed.

(** After a field that a separator ends. *)
Lemma path_next (x : shell W) pre n w r' rest fs : path_buf x = pre ++ replicate n COLON ++ (w ++ COLON :: r') ++ 0 :: rest →
  bytes (path_buf x) → nonzero w → dirs_are pre (path_dirs x) fs →
  let pre2 := (pre ++ replicate n COLON ++ w) ++ [0] in
  let x2 := set_path_buf ((pre ++ replicate n COLON ++ w) ++ 0 :: r' ++ 0 :: rest) (set_path_dirs (path_dirs x ++ [length pre + n]%nat) x) in
  path_buf x2 = pre2 ++ r' ++ 0 :: rest ∧ length (path_buf x2) = length (path_buf x) ∧ bytes (path_buf x2) ∧
  dirs_are pre2 (path_dirs x2) (fs ++ [w]).
Proof using.
  intros Eb Hby Hw Hd pre2 x2. assert (path_buf x2 = pre2 ++ r' ++ 0 :: rest) as Eb2 by (unfold x2, pre2; cbn; by rewrite <-!app_assoc).
  split; [done|]. split; [|split].
  - rewrite Eb2, Eb. unfold pre2. rewrite !length_app. cbn [length]. rewrite ?length_app. cbn [length]. lia.
  - unfold x2. cbn. unfold bytes in *. rewrite Eb in Hby. rewrite !Forall_app, !Forall_cons in Hby. rewrite !Forall_app, Forall_cons, Forall_app.
    destruct Hby as (? & ? & (? & _ & ?) & ?). split_and!; try done. by apply Forall_cons.
  - unfold x2, pre2. cbn. apply Forall2_app; [rewrite <-app_assoc; by apply dirs_are_app|]. constructor; [|done].
    rewrite <-!app_assoc. by apply field_at.
Qed.

Lemma path_loop_wp : ∀ fuel x pre todo rest fs (Q : unit → shell W → Prop) P,
  path_buf x = pre ++ todo ++ 0 :: rest → bytes (path_buf x) → nonzero todo → dirs_are pre (path_dirs x) fs → (length fs ≤ 32)%nat →
  (length todo < fuel)%nat → (∀ x', path_split x (take 32 (fs ++ path_fields todo)) x' → Q tt x') →
  wp (loop fuel path_step (length pre)) Q P x.
Proof using.
  induction fuel as [|fuel IH]; intros x pre todo rest fs Q P Eb Hby Ht Hd Hfs Hf HQ; [lia|]. cbn [loop]. apply wp_bind.
  assert (Hlen : length (path_dirs x) = length fs) by by eapply Forall2_length.
  assert (Hdone : dirs_are (path_buf x) (path_dirs x) fs) by (rewrite Eb; by apply dirs_are_app).
  assert (Hstay : take 32 (fs ++ path_fields todo) = fs → Q tt x).
  { intros E. apply HQ. exists (path_buf x), (path_dirs x). rewrite E. by destruct x. }
  destruct (decide (length fs = 32%nat)) as [E32|N32].
  { unfold path_step. apply wp_bind. unfold wp at 1, get.
    assert (∃ c, path_buf x !! length pre = Some c) as [c Ec].
    { apply lookup_lt_is_Some. rewrite Eb, !length_app. cbn. lia. }
    rewrite Ec. wp_steps. rewrite Hlen, E32. cbn [Nat.ltb Nat.leb negb]. rewrite orb_true_r. wp_steps. apply Hstay.
    rewrite take_app_le by lia. by rewrite take_ge by lia. }
  destruct todo as [|t0 todo'] eqn:Et.
  { unfold path_step. apply wp_bind. unfold wp at 1, get. rewrite Eb, lookup_app_r, Nat.sub_diag by done. wp_steps. cbn. wp_steps.
    apply Hstay. rewrite app_nil_r. by rewrite take_ge by lia. }
  rewrite <-Et in *. destruct (split_colons todo) as (n & r & Etodo & Hh). rewrite Etodo, <-!app_assoc in Eb.
  assert (Hr : nonzero r) by (rewrite Etodo in Ht; by apply Forall_app in Ht as [_ ?]).
  assert (Hnr : n ≠ 0%nat ∨ r ≠ []).
  { destruct n; [|by left]. right. intros ->. rewrite Etodo in Et. done. }
  rewrite Etodo, path_fields_colons in HQ, Hstay.
  eapply (path_step_wp x pre n r rest); [done|done|done|done|lia|..].
  - intros ->. wp_steps. apply Hstay. rewrite app_nil_r. by rewrite take_ge by lia.
  - intros Hne Hnc. wp_steps. apply HQ. exists (path_buf x), (path_dirs x ++ [(length pre + n)%nat]). split; [by destruct x|]. split; [done|]. split; [done|].
    rewrite path_fields_last by done. rewrite take_ge by (rewrite length_app; cbn; lia). apply Forall2_app; [done|]. constructor; [|done].
    rewrite Eb. by apply field_at.
  - intros w r' Er Hw. subst r. apply Forall_app in Hr as [Hw' Hr']. inversion Hr' as [|? ? _ Hr'']; subst.
    assert (w ≠ []) as Hwne by (intros ->; done).
    set (pre2 := (pre ++ replicate n COLON ++ w) ++ [0]).
    assert (length (pre ++ replicate n COLON ++ w) + 1 = length pre2)%nat as -> by (unfold pre2; by rewrite (length_app _ [0])).
    destruct (path_next x pre n w r' rest fs) as (Eb2 & El2 & Hby2 & Hd2); [done..|].
    eapply (IH _ pre2 r' rest (fs ++ [w])); [done|done|done|done|rewrite length_app; cbn; lia| |].
    + rewrite Etodo, !length_app in Hf. cbn in Hf. lia.
    + intros x' Hx'. apply HQ. rewrite path_fields_cons by done. rewrite <-(app_assoc fs [w]) in Hx'.
      eapply path_split_trans; [exact El2|exact Hx'].
Qed.

(** ** The file *)

(** Reading [fd] until [room] bytes are there or the file ends gives [l]. *)
Inductive delivers (fd : Z) : nat → list Z → W → W → Prop :=
| dl_full w : delivers fd 0 [] w w
| dl_end room r l w w' : room ≠ 0%nat → os_read fd (Z.of_nat room) w = Ok (r, l) w' → r ≤ 0 → delivers fd room [] w w'
| dl_more room l l' w w1 w2 : os_read fd (Z.of_nat room) w = Ok (Z.of_nat (length l), l) w1 → l ≠ [] → (length l ≤ room)%nat →
  delivers fd (room - length l) l' w1 w2 → delivers fd room (l ++ l') w w2.

Lemma read_loop_wp fd room l' w w' : delivers fd room l' w w' →
  ∀ fuel l (Q : list Z → shell W → Prop) P x, (length l + room = 1023)%nat → (room < fuel)%nat → world x = w →
  Q (l ++ l') (set_world w' x) →
  wp (loop fuel (λ l : list Z,
    if (length l <? MAX_CONFIG_LEN - 1)%nat then
      r ← sys (os_read fd (Z.of_nat (MAX_CONFIG_LEN - 1 - length l)));
      if fst r <=? 0 then mret (inr l) else mret (inl (l ++ snd r))
    else mret (inr l)) l) Q P x.
Proof using.
  change (MAX_CONFIG_LEN - 1)%nat with 1023%nat.
  induction 1 as [w|room r lr w w' Hne E Hr|room lr l' w w1 w2 E Hne Hle _ IH]; intros fuel l Q P x Hl Hf <- HQ;
    (destruct fuel as [|fuel]; [lia|]); cbn [loop]; apply wp_bind.
  - rewrite (proj2 (Nat.ltb_ge _ _)) by lia. wp_steps. rewrite app_nil_r in HQ. by destruct x.
  - rewrite (proj2 (Nat.ltb_lt _ _)) by lia. replace (1023 - length l)%nat with room by lia. wp_step. apply wp_zoom.
    eapply wp_ok; [exact E|]. cbn [fst snd]. rewrite (proj2 (Z.leb_le _ _)) by done. wp_steps. by rewrite app_nil_r in HQ.
  - assert (0 < length lr)%nat by (destruct lr; [done|cbn; lia]).
    rewrite (proj2 (Nat.ltb_lt _ _)) by lia. replace (1023 - length l)%nat with room by lia. wp_step. apply wp_zoom.
    eapply wp_ok; [exact E|]. cbn [fst snd]. rewrite (proj2 (Z.leb_gt _ _)) by lia. wp_steps.
    apply IH; [rewrite length_app; lia|lia|done|]. by rewrite <-app_assoc.
Qed.

(** The configuration file holds [data]; nothing when it cannot be opened. *)
Definition config_is (data : list Z) (w w' : W) : Prop :=
  (∃ e, os_open (str "/cfg/dmash.cfg" ++ [0]) w = Ok (inl e) w' ∧ data = []) ∨
  (∃ fd v w1 w2, os_open (str "/cfg/dmash.cfg" ++ [0]) w = Ok (inr fd) w1 ∧ delivers fd 1023 data w1 w2 ∧ os_close fd w2 = Ok v w').

Lemma read_config_wp data w' (Q : list Z → shell W → Prop) P x : config_is data (world x) w' →
  Q data (set_world w' x) → wp read_config Q P x.
Proof using.
  intros Hc HQ. unfold read_config, sys_str. rewrite cstr_app by (repeat constructor; cbn; lia). apply wp_bind, wp_bind, wp_ret, wp_zoom.
  destruct Hc as [(e & E & ->)|(fd & v & w1 & w2 & E & Hd & Ec)].
  - eapply wp_ok; [exact E|]. by wp_steps.
  - eapply wp_ok; [exact E|]. cbv iota. apply wp_bind.
    eapply (read_loop_wp fd 1023 data); [exact Hd|done|unfold MAX_CONFIG_LEN; lia|done|]. cbn [app].
    apply wp_bind, wp_zoom. eapply wp_ok; [exact Ec|]. by wp_steps.
Qed.
End config.

(** C34: [init_config] takes from the configuration file, read in whatever pieces, the
    last PATH=, PROMPT= and MSG= line, cut to its buffer, and keeps the default of what
    is not set; the directories of the search path are the non-empty fields between the
    colons, in order, 32 at most, each a terminated string of its own. *)
Theorem init_config_reads {W : Type} `{!Os W} (x : shell W) st ls fin w' :
  holds_settings x st x → config_is (text ls fin) (world x) w' →
  Forall (λ l, line_ok (fst l) ∧ ending (snd l)) ls → line_ok fin →
  let st' := fold_left apply_line (ls.*1 ++ [fin]) st in
  ∃ x', init_config x = Ok tt x' ∧ world x' = w' ∧ tty_out x' = tty_out x ∧
    buffered (s_prompt st') (prompt_fmt x') ∧ buffered (s_msg st') (msg_fmt x') ∧
    length (path_buf x') = 256%nat ∧ bytes (path_buf x') ∧
    dirs_are (path_buf x') (path_dirs x') (take 32 (path_fields (take 255 (s_path st')))).
Proof.
  intros Hx Hc Hls Hfin st'. set (x1 := set_world w' x).
  assert (Hx1 : holds_settings x1 st x1) by (destruct Hx as [? ? ? _]; by split).
  assert (H : wp init_config (λ _ x', ∃ x2, holds_settings x1 st' x2 ∧
    path_split (set_path_dirs [] x2) (take 32 (path_fields (take 255 (s_path st')))) x') (λ _, False) x).
  { unfold init_config. wp_step. eapply read_config_wp; [exact Hc|]. fold x1. wp_step.
    assert (∀ (Q : unit → shell W → Prop) P, (∀ x2, holds_settings x1 st' x2 → Q tt x2) →
      wp (if (0 <? length (text ls fin))%nat then loop (S (length (text ls fin))) config_step (text ls fin ++ [0]) else mret tt) Q P x1) as Hloop.
    { intros Q P HQ. destruct (0 <? length (text ls fin))%nat eqn:E; [eapply config_loop_wp; [done..|lia|done|done]|].
      apply Nat.ltb_ge in E. assert (text ls fin = []) as E0 by (destruct (text ls fin); [done|cbn in E; lia]).
      wp_step. apply HQ. apply app_eq_nil in E0 as [E1 E2]. unfold st'. destruct Hls as [|[l e] ? [_ He] _].
      - rewrite E2. cbn [fmap list_fmap app fold_left]. by rewrite apply_nil.
      - exfalso. cbn in E1, He. apply app_eq_nil in E1 as [[_ E1]%app_eq_nil _]. destruct He; by subst. }
    apply Hloop. intros x2 Hx2. wp_steps. pose proof Hx2 as [((r & Eb & Hl) & Hn & Hby) Hpr Hm Hr].
    apply (path_loop_wp _ _ [] (take 255 (s_path st')) r []); [exact Eb|exact Hby|by apply Forall_take|constructor|cbn; lia| |].
    - cbn. rewrite Hl, length_take. lia.
    - intros x' Hs. by exists x2. }
  apply wp_iff in H as [([] & x' & E & x2 & Hx2 & buf & ds & -> & Hl & Hb & Hd)|(? & _ & [])].
  destruct Hx2 as [((r & Eb & Hlb) & _) Hpr Hm (_ & _ & Ho & Ew)]. eexists. split; [exact E|]. cbn in *.
  split_and!; try done. by rewrite Hl.
Qed.

(** A system with a configuration file of two lines; the state says whether it was read. *)
Definition sample_config : list Z := text [(str "PATH=/bin::/usr", [NEWLINE])] (str "PROMPT=> ").
Definition config_only : Os bool := {|
  os_stat p w := Ok None w;
  os_open p w := Ok (inr 3) w;
  os_read fd n w := Ok (if w : bool then (0, []) else (Z.of_nat (length sample_config), sample_config)) true;
  os_close fd w := Ok 0 w;
  os_getcwd n w := Ok None w;
  os_chdir p w := Ok (-1) w;
  os_spawn l w := Ok (-1) w;
  os_wait pid w := Ok (-1) w;
  os_kmesg n w := Ok (0, []) w
|}.

Lemma init_config_reads_witness :
  ∃ x', @init_config _ config_only (shell_init false []) = Ok tt x' ∧ buffered (str "> ") (prompt_fmt x') ∧
    dirs_are (path_buf x') (path_dirs x') [str "/bin"; str "/usr"].
Proof.
  destruct (@init_config_reads _ config_only (shell_init false []) (Settings (str "/bin") (str "# ") ([NEWLINE] ++ str "welcome to dmash" ++ [NEWLINE]))
    [(str "PATH=/bin::/usr", [NEWLINE])] (str "PROMPT=> ") true) as (x' & E & _ & _ & Hp & _ & _ & _ & Hd).
  - split; [split; [eexists; split; reflexivity|split; [repeat constructor; cbn; lia|apply (bool_decide_unpack _); vm_compute; reflexivity]]|
      eexists; split; reflexivity|eexists; split; reflexivity|done].
  - right. exists 3, 0, false, true. split; [reflexivity|]. split; [|reflexivity]. rewrite <-(app_nil_r (text _ _)).
    eapply (@dl_more _ config_only 3 1023 sample_config); [reflexivity|discriminate|apply (bool_decide_unpack _); vm_compute; reflexivity|].
    eapply (@dl_end _ config_only 3); [discriminate|reflexivity|lia].
  - constructor; [|constructor]. split; [|by left]. split; [repeat constructor; cbn; lia|].
    split; apply (bool_decide_unpack _); vm_compute; reflexivity.
  - split; [repeat constructor; cbn; lia|]. split; apply (bool_decide_unpack _); vm_compute; reflexivity.
  - exists x'. split; [exact E|]. split; [exact Hp|exact Hd].
Defined.
