(* ===== verification/ShellFormat.v ===== *)
(** * The shell: prompts

    [print_formatted] against a reference: a format is a sequence of characters, escapes
    and tags, between optional quotes, and each of them prints its own text. *)

From Stdlib Require Import Strings.String.
From S2P Require Import Prelude CLib FsTypes UserOs Shell.

(** ** Formats *)

Inductive item :=
| Plain (c : Z)
| Escaped (c : Z)
| Tag (name : list Z).

Definition source (i : item) : list Z :=
  match i with
  | Plain c => [c]
  | Escaped c => [BACKSLASH; c]
  | Tag name => LESS :: name ++ [GREATER]
  end.

Definition item_ok (i : item) : Prop :=
  match i with
  | Plain c => 0 < c < 256 ∧ c ≠ BACKSLASH ∧ c ≠ LESS
  | Escaped c => 0 < c < 256
  | Tag name => nonzero name ∧ (GREATER ∉ name)
  end.

Definition colours : list (list Z * list Z) :=
  [(str "blue", BLUE); (str "green", GREEN); (str "red", RED); (str "yellow", YELLOW); (str "magenta", MAGENTA);
   (str "cyan", CYAN); (str "bold", BOLD); (str "default", DEFAULT)].

(** The text of a tag; of an unknown name 31 characters are kept. *)
Definition tag_text (cwd name : list Z) : list Z :=
  let tag := take 31 name in
  if bool_decide (tag = str "cwd") then cwd else
  match list_find (λ x, fst x = tag) colours with
  | Some (_, x) => snd x
  | None => LESS :: tag ++ [GREATER]
  end.

Definition printed (cwd : list Z) (i : item) : list Z :=
  match i with
  | Plain c => [c]
  | Escaped c => if c =? 110 then [NEWLINE] else if c =? 114 then [RETURN] else if c =? 116 then [9] else [BACKSLASH; c]
  | Tag name => tag_text cwd name
  end.

Definition body (l : list item) : list Z := concat (source <$> l).

(** The body between its quotes; without one, it must not look like one. *)
Definition quoted (open close : bool) (b : list Z) : list Z :=
  (if open then [QUOTE] else []) ++ b ++ (if close then [QUOTE] else []).
Definition unambiguous (open close : bool) (b : list Z) : Prop :=
  (open = false → head b ≠ Some QUOTE) ∧ (close = false → last b ≠ Some QUOTE) ∧ (open = true ∨ b ≠ []).

Section format.
Context {W : Type} `{!Os W}.

Lemma emit_wp l (Q : unit → shell W → Prop) P x : Q tt (set_tty_out (tty_out x ++ l) x) → wp (emit l) Q P x.
Proof using. done. Qed.

Lemma emit_tag_wp cwd rest name (Q : unit → shell W → Prop) P x : nonzero cwd →
  Q tt (set_tty_out (tty_out x ++ tag_text cwd name) x) → wp (emit_tag (cwd ++ 0 :: rest) (take 31 name)) Q P x.
Proof using.
  intros Hc HQ. unfold emit_tag, tag_text, colours in *. set (tag := take 31 name) in *.
  case_bool_decide as E0; [unfold emit_str; rewrite cstr_app by done; wp_steps; by apply emit_wp|].
  repeat (let E := fresh "E" in case_bool_decide as E; [rewrite E in HQ; apply emit_wp;
    match type of HQ with context [@list_find ?A ?p ?d ?l] =>
    let v := eval vm_compute in (@list_find A p d l) in change (@list_find A p d l) with v in HQ end; exact HQ|]).
  destruct (list_find _ _) as [[i y]|] eqn:Ef; [exfalso|by apply emit_wp]. apply list_find_Some in Ef as (Hy & Ht & _).
  do 8 (destruct i as [|i]; [injection Hy as <-; by symmetry in Ht|]). done.
Qed.

Lemma scan_for_spec c pre w more len fuel : c ∉ w → (length pre + length w < len)%nat → (length w < fuel)%nat →
  scan_for c (pre ++ w ++ c :: more) (length pre) len fuel = (length pre + length w)%nat.
Proof using.
  revert pre fuel. induction w as [|d w IH]; intros pre fuel Hw Hl Hf; (destruct fuel as [|fuel]; [lia|]); cbn [scan_for length] in *.
  - rewrite (proj2 (Nat.ltb_lt _ _)) by lia. rewrite (list_lookup_total_correct _ _ c) by (by apply list_lookup_middle).
    rewrite Z.eqb_refl. cbn. lia.
  - apply not_elem_of_cons in Hw as [Hd Hw]. rewrite (proj2 (Nat.ltb_lt _ _)) by lia.
    rewrite (list_lookup_total_correct _ _ d) by (by apply list_lookup_middle). rewrite (proj2 (Z.eqb_neq d c)) by done. cbn [negb andb].
    specialize (IH (pre ++ [d]) fuel). rewrite length_app, <-app_assoc in IH. cbn [length app] in IH. rewrite Nat.add_1_r in IH. cbn [app].
    rewrite IH; [lia|done|lia|lia].
Qed.

(** One item of the body. *)
Lemma format_step_wp p cwd crest pre i more len (Q : nat + unit → shell W → Prop) P x :
  p = pre ++ source i ++ more → item_ok i → nonzero cwd → (length pre + length (source i) ≤ len)%nat →
  Q (inl (length pre + length (source i))%nat) (set_tty_out (tty_out x ++ printed cwd i) x) →
  wp (format_step p (cwd ++ 0 :: crest) len (length pre)) Q P x.
Proof using.
  intros -> Hi Hc Hl HQ. unfold format_step. destruct i as [c|c|name]; cbn [source length printed app] in *.
  - rewrite (proj2 (Nat.ltb_lt _ _)) by lia. rewrite (list_lookup_middle pre _ _ (length pre) eq_refl). destruct Hi as (_ & H1 & H2). wp_steps.
    rewrite !(proj2 (Z.eqb_neq c _)) by done. cbn [andb]. unfold putch. wp_step. apply emit_wp. wp_steps. by rewrite Nat.add_1_r in HQ.
  - rewrite (proj2 (Nat.ltb_lt _ _)) by lia. rewrite (list_lookup_middle pre _ _ (length pre) eq_refl). wp_steps. rewrite Z.eqb_refl.
    rewrite (proj2 (Nat.ltb_lt _ _)) by lia. cbn [andb].
    assert ((pre ++ BACKSLASH :: c :: more) !! S (length pre) = Some c) as ->.
    { rewrite lookup_app_r by lia. by replace (S (length pre) - length pre)%nat with 1%nat by lia. }
    wp_steps. destruct (c =? 110); [apply emit_wp; wp_steps; exact HQ|]. destruct (c =? 114); [apply emit_wp; wp_steps; exact HQ|].
    destruct (c =? 116); [apply emit_wp; wp_steps; exact HQ|]. unfold putch. wp_step. apply emit_wp. apply emit_wp. wp_steps.
    cbn [tty_out set_tty_out]. rewrite <-app_assoc. exact HQ.
  - rewrite length_app in *. cbn [length] in *. destruct Hi as [Hn Hg].
    rewrite (proj2 (Nat.ltb_lt _ _)) by lia. rewrite (list_lookup_middle pre _ _ (length pre) eq_refl). wp_steps.
    change (LESS =? BACKSLASH) with false. rewrite Z.eqb_refl. cbn [andb].
    assert (pre ++ LESS :: (name ++ [GREATER]) ++ more = (pre ++ [LESS]) ++ name ++ GREATER :: more) as -> by (by rewrite <-!app_assoc).
    assert (S (length pre) = length (pre ++ [LESS])) as -> by (rewrite length_app; cbn; lia).
    rewrite scan_for_spec by (done || rewrite ?length_app; cbn; lia). rewrite (proj2 (Nat.ltb_lt _ _)) by (rewrite length_app; cbn; lia).
    wp_step. assert (sub ((pre ++ [LESS]) ++ name ++ GREATER :: more) (length (pre ++ [LESS]))
      (Nat.min (length (pre ++ [LESS]) + length name - length (pre ++ [LESS])) 31) = take 31 name) as ->.
    { unfold sub. rewrite drop_app_length. replace (length (pre ++ [LESS]) + length name - length (pre ++ [LESS]))%nat with (length name) by lia.
      rewrite take_app_le by lia. rewrite Nat.min_comm, <-take_take, (take_ge _ (length name)) by done. done. }
    apply emit_tag_wp; [done|]. wp_steps. rewrite length_app. cbn [length].
    by replace (S (length pre + 1 + length name)) with (length pre + S (length name + 1))%nat by lia.
Qed.

Lemma format_loop_wp p cwd crest len (Q : unit → shell W → Prop) P l : Forall item_ok l → nonzero cwd →
  ∀ pre more fuel x, p = pre ++ body l ++ more → len = (length pre + length (body l))%nat → (length (body l) < fuel)%nat →
  Q tt (set_tty_out (tty_out x ++ concat (printed cwd <$> l)) x) →
  wp (loop fuel (format_step p (cwd ++ 0 :: crest) len) (length pre)) Q P x.
Proof using.
  intros Hl Hc. induction Hl as [|i l Hi _ IH]; intros pre more fuel x Ep El Hf HQ; (destruct fuel as [|fuel]; [lia|]); cbn [loop]; apply wp_bind.
  - unfold format_step. cbn in El. rewrite (proj2 (Nat.ltb_ge _ _)) by lia. wp_steps. cbn in HQ. rewrite app_nil_r in HQ. by destruct x.
  - unfold body in *. cbn [fmap list_fmap concat] in *. rewrite length_app, <-app_assoc in *.
    assert (0 < length (source i))%nat by (destruct i; cbn; lia).
    eapply (format_step_wp p cwd crest pre i); [exact Ep|done|done|lia|].
    specialize (IH (pre ++ source i) more fuel). rewrite length_app in IH. apply IH; [by rewrite <-app_assoc|lia|lia|].
    cbn [tty_out set_tty_out]. by rewrite <-app_assoc.
Qed.
End format.

Lemma nonzero_body l : Forall item_ok l → nonzero (body l).
Proof.
  intros H. apply Forall_concat, Forall_fmap. eapply Forall_impl; [exact H|]. intros [c|c|name]; cbn.
  - intros [? _]. apply Forall_cons. by split; [|constructor].
  - intros ?. apply Forall_cons. split; [unfold BACKSLASH; lia|]. apply Forall_cons. by split; [|constructor].
  - intros [Hn _]. apply Forall_cons. split; [unfold LESS; lia|]. apply Forall_app. split; [done|]. apply Forall_cons.
    split; [unfold GREATER; lia|constructor].
Qed.

(** C35: [print_formatted] prints exactly what a format stands for: every character as it
    is, the escapes for newline, return and tab, the tags for the colours and the
    current directory, an unknown tag as it was written; the quotes around the format are
    dropped. *)
Theorem print_formatted_items {W : Type} (x : shell W) open close l rest cwd crest :
  Forall item_ok l → nonzero cwd → unambiguous open close (body l) →
  print_formatted (quoted open close (body l) ++ 0 :: rest) (cwd ++ 0 :: crest) x =
    Ok tt (set_tty_out (tty_out x ++ concat (printed cwd <$> l)) x).
Proof.
  intros Hl Hc (Ho & Hcl & Hne). pose proof (nonzero_body l Hl) as Hb. set (b := body l) in *.
  set (q := if close then [QUOTE] else []). assert (Hq : nonzero q) by (unfold q; destruct close; repeat constructor; unfold QUOTE; lia).
  assert (H : wp (print_formatted (quoted open close b ++ 0 :: rest) (cwd ++ 0 :: crest))
    (λ _ x', x' = set_tty_out (tty_out x ++ concat (printed cwd <$> l)) x) (λ _, False) x).
  { unfold print_formatted. assert (∃ c, head (quoted open close b ++ 0 :: rest) = Some c ∧
      (if c =? QUOTE then tail (quoted open close b ++ 0 :: rest) else quoted open close b ++ 0 :: rest) = b ++ q ++ 0 :: rest) as (c & -> & Ep).
    { unfold quoted. fold q. destruct open; cbn [app]; [eexists; split; [done|]; cbn; by rewrite <-app_assoc|].
      destruct b as [|c b'] eqn:Eb; [by destruct Hne|]. exists c. split; [done|].
      rewrite (proj2 (Z.eqb_neq c QUOTE)) by (intros ->; by apply Ho). cbn. by rewrite <-app_assoc. }
    wp_steps. rewrite Ep. rewrite (app_assoc b), strlen_spec by by apply Forall_app. wp_steps. rewrite <-app_assoc.
    assert (wp (if (0 <? length (b ++ q))%nat then expect ((b ++ q ++ 0 :: rest) !! (length (b ++ q) - 1)%nat) else mret 0)
      (λ z x', (if (0 <? length (b ++ q))%nat && (z =? QUOTE) then (length (b ++ q) - 1)%nat else length (b ++ q)) = length b ∧ x' = x) (λ _, False) x) as Hlast.
    { unfold q. destruct close; rewrite length_app; cbn [length app].
      - rewrite (proj2 (Nat.ltb_lt _ _)) by lia. replace (length b + 1 - 1)%nat with (length b) by lia.
        rewrite (list_lookup_middle b _ _ (length b) eq_refl). wp_steps. cbn [Z.eqb]. rewrite Z.eqb_refl. split; [cbn; lia|done].
      - rewrite Nat.add_0_r. destruct (decide (b = [])) as [-> |Hbne]; [by wp_steps|]. destruct (exists_last Hbne) as (b' & z & Eb).
        rewrite (proj2 (Nat.ltb_lt _ _)) by (rewrite Eb, length_app; cbn; lia).
        assert ((b ++ 0 :: rest) !! (length b - 1)%nat = Some z) as ->.
        { rewrite Eb, length_app, <-app_assoc. cbn [length app]. apply list_lookup_middle. lia. }
        wp_steps. rewrite (proj2 (Z.eqb_neq z QUOTE)); [split; [cbn; done|done]|]. intros ->. apply Hcl; [done|]. rewrite Eb. apply last_snoc. }
    eapply wp_mono; [exact Hlast| |done]. intros z x' [-> ->].
    apply (format_loop_wp _ cwd crest (length b) _ _ l Hl Hc [] (q ++ 0 :: rest)); [done|done|fold b; lia|done]. }
  apply wp_iff in H as [([] & x' & E & ->)|(? & _ & [])]. exact E.
Qed.

Lemma print_formatted_items_witness :
  print_formatted (str "<blue><cwd>\n<x>" ++ [0]) (str "/home" ++ [0]) (Shell [] [] [] [] [] [] tt) =
    Ok tt (Shell [] [] [] [] [] (BLUE ++ str "/home" ++ [NEWLINE] ++ str "<x>") tt).
Proof.
  refine (print_formatted_items (Shell [] [] [] [] [] [] tt) false false [Tag (str "blue"); Tag (str "cwd"); Escaped 110; Tag (str "x")]
    [] (str "/home") [] _ _ _).
  - repeat (apply Forall_cons; split); [..|constructor]; cbn; try lia;
      (split; [repeat constructor; cbn; lia|apply (bool_decide_unpack _); vm_compute; reflexivity]).
  - repeat constructor; cbn; lia.
  - split; [discriminate|]. split; [vm_compute; discriminate|right; discriminate].
Defined.
