(* ===== verification/Snake.v ===== *)
(** * The snake game: definitions

    user/bin/snake.c. The random number generator of the C library is the argument
    [rand] on a state of type [R], and [keys] are the results that successive calls of
    [getchar_nonblock] will give (-1 when no key is there, also when the list has run
    out). [screen] is everything that has been printed. *)

From Stdlib Require Import Strings.String.
From S2P Require Import Prelude KprintfSpec UserOs.

Definition WIDTH : Z := 32.
Definition HEIGHT : Z := 16.
Definition MAX_SNAKE : nat := 100.

Record point := Point { px : Z; py : Z }.
#[export] Instance point_eq_dec : EqDecision point.
Proof. solve_decision. Defined.
#[export] Instance point_inhabited : Inhabited point := populate (Point 0 0).

Record game (R : Type) := Game {
  snake : list point;
  snake_len : nat;
  food : point;
  dx : Z;
  dy : Z;
  game_over : bool;
  score : Z;
  screen : list Z;
  rng : R;
  keys : list Z
}.
Arguments Game {R}.
Arguments snake {R}.
Arguments snake_len {R}.
Arguments food {R}.
Arguments dx {R}.
Arguments dy {R}.
Arguments game_over {R}.
Arguments score {R}.
Arguments screen {R}.
Arguments rng {R}.
Arguments keys {R}.

(** [for (i = n; i > 0; --i) snake[i] = snake[i - 1]] *)
Fixpoint shift (n : nat) (l : list point) : list point :=
  match n with O => l | S k => shift k (<[n := l !!! k]> l) end.

(** ** Output *)

(** ["\033[%d;%dH"] *)
Definition goto (row col : Z) : list Z := ESC :: 91 :: decimal row ++ 59 :: decimal col ++ [72].
Definition at_point (p : point) : list Z := goto (py p + 2) (px p + 2).
Definition draw_head (p : point) : list Z := at_point p ++ GREEN ++ [79] ++ DEFAULT.
Definition draw_food (p : point) : list Z := at_point p ++ RED ++ [42] ++ DEFAULT.
Definition draw_blank (p : point) : list Z := at_point p ++ [32].

Definition border : list Z := 32 :: replicate (Z.to_nat WIDTH) 45 ++ [10].
Definition board_row : list Z := 124 :: replicate (Z.to_nat WIDTH) 32 ++ [124; 10].
Definition draw_borders : list Z :=
  esc "[H" ++ esc "[J" ++ esc "[?25l" ++ border ++ concat (replicate (Z.to_nat HEIGHT) board_row) ++ border.

Section snake.
Context {R : Type}.
Variable srand : Z → R.
Variable rand : R → Z * R.
(** How often [place_food] may try. *)
Variable patience : nat.

Local Abbreviation st := (game R).

Definition set_snake (l : list point) (n : nat) (g : st) : st :=
  Game l n (food g) (dx g) (dy g) (game_over g) (score g) (screen g) (rng g) (keys g).
Definition set_food (p : point) (g : st) : st :=
  Game (snake g) (snake_len g) p (dx g) (dy g) (game_over g) (score g) (screen g) (rng g) (keys g).
Definition set_dir (x y : Z) (g : st) : st :=
  Game (snake g) (snake_len g) (food g) x y (game_over g) (score g) (screen g) (rng g) (keys g).
Definition set_game_over (b : bool) (g : st) : st :=
  Game (snake g) (snake_len g) (food g) (dx g) (dy g) b (score g) (screen g) (rng g) (keys g).
Definition set_score (n : Z) (g : st) : st :=
  Game (snake g) (snake_len g) (food g) (dx g) (dy g) (game_over g) n (screen g) (rng g) (keys g).
Definition set_screen (l : list Z) (g : st) : st :=
  Game (snake g) (snake_len g) (food g) (dx g) (dy g) (game_over g) (score g) l (rng g) (keys g).
Definition set_rng (r : R) (g : st) : st :=
  Game (snake g) (snake_len g) (food g) (dx g) (dy g) (game_over g) (score g) (screen g) r (keys g).
Definition set_keys (l : list Z) (g : st) : st :=
  Game (snake g) (snake_len g) (food g) (dx g) (dy g) (game_over g) (score g) (screen g) (rng g) l.

Definition print (l : list Z) : M st unit := modify (λ g, set_screen (screen g ++ l) g).
Definition rand_ : M st Z := g ← get; modify (set_rng (snd (rand (rng g))));; mret (fst (rand (rng g))).

(** The part of the array in use. *)
Definition cells (g : st) : list point := take (snake_len g) (snake g).

Definition place_food : M st unit :=
  loop patience (λ _ : unit,
    x ← rand_;
    y ← rand_;
    modify (set_food (Point (Z.rem x WIDTH) (Z.rem y HEIGHT)));;
    g ← get;
    if bool_decide (food g ∈ cells g) then mret (inl tt) else mret (inr tt)) tt;;
  g ← get;
  print (draw_food (food g)).

Definition init_game (now : Z) : M st unit :=
  modify (set_rng (srand (Z.modulo now 4294967296)));;
  g ← get;
  let x := WIDTH / 2 in let y := HEIGHT / 2 in
  let l := <[2%nat := Point (x - 2) y]> (<[1%nat := Point (x - 1) y]> (<[0%nat := Point x y]> (snake g))) in
  modify (set_snake l 3);;
  modify (set_dir 1 0);;
  modify (set_game_over false);;
  modify (set_score 0);;
  print draw_borders;;
  place_food;;
  print (concat (draw_head <$> take 3 l)).

Definition update_game : M st unit :=
  g ← get;
  head ← expect (snake g !! 0%nat);
  let new_head := Point (px head + dx g) (py head + dy g) in
  if (px new_head <? 0) || (px new_head >=? WIDTH) || (py new_head <? 0) || (py new_head >=? HEIGHT) then
    modify (set_game_over true)
  else if bool_decide (new_head ∈ cells g) then modify (set_game_over true)
       else
  (if bool_decide (new_head = food g) then
     modify (set_score (score g + 10));;
     n ← (if (snake_len g <? MAX_SNAKE)%nat then mret (S (snake_len g)) else
       tail ← expect (snake g !! (snake_len g - 1)%nat);
       print (draw_blank tail);;
       mret (snake_len g));
     modify (set_snake (<[0%nat := new_head]> (shift (n - 1) (snake g))) n);;
     print (draw_head new_head);;
     place_food
   else
    tail ← expect (snake g !! (snake_len g - 1)%nat);
    print (draw_blank tail);;
    modify (set_snake (<[0%nat := new_head]> (shift (snake_len g - 1) (snake g))) (snake_len g));;
    print (draw_head new_head));;
  g ← get;
  print (ESC :: 91 :: decimal (HEIGHT + 3) ++ str ";1HScore: " ++ decimal (score g)).

(** ** Input *)

Definition getchar_nonblock_ : M st Z :=
  g ← get; match keys g with [] => mret (-1) | c :: l => modify (set_keys l);; mret c end.

(** At most ten tries for the next character of an escape sequence. *)
Definition next_char : M st Z :=
  loop 11 (λ x : nat * Z, let '(i, next) := x in
    if (i <? 10)%nat && (next <? 0) then c ← getchar_nonblock_; mret (inl (S i, c)) else mret (inr next)) (0%nat, -1).

Definition get_input : M st Z :=
  ch ← getchar_nonblock_;
  if ch =? 27 then
    next1 ← next_char;
    if next1 =? 91 then
      next2 ← next_char;
      mret (if next2 =? 65 then 119 else if next2 =? 66 then 115 else if next2 =? 67 then 100
      else if next2 =? 68 then 97 else ch)
    else mret ch
  else mret ch.

(** ** The game *)

(** The turn for a key; [true] when the player quits. *)
Definition steer (ch : Z) : M st bool :=
  g ← get;
  if ch <? 0 then mret false
  else if ((ch =? 119) || (ch =? 87)) && (dy g =? 0) then modify (set_dir 0 (-1));; mret false
       else if ((ch =? 115) || (ch =? 83)) && (dy g =? 0) then modify (set_dir 0 1);; mret false
            else if ((ch =? 97) || (ch =? 65)) && (dx g =? 0) then modify (set_dir (-1) 0);; mret false
                 else if ((ch =? 100) || (ch =? 68)) && (dx g =? 0) then modify (set_dir 1 0);; mret false
                      else if (ch =? 113) || (ch =? 81) then modify (set_game_over true);; mret true
                           else mret false.

Definition frame : M st unit :=
  ch ← get_input;
  quit ← steer ch;
  if quit : bool then mret tt else update_game.

(** At most [n] rounds of the loop of [main]; [sleep_ms] changes nothing here. *)
Fixpoint frames (n : nat) : M st unit :=
  match n with
  | O => mret tt
  | S n => g ← get; if game_over g then mret tt else frame;; frames n
  end.

Definition farewell : M st unit :=
  g ← get;
  print (ESC :: 91 :: decimal (HEIGHT + 3) ++ str ";1H" ++ esc "[?25h" ++ 10 :: str "Game Over! Final Score: " ++ decimal (score g) ++ [10]).

Definition game_start (r : R) (l : list Z) : st :=
  Game (replicate MAX_SNAKE (Point 0 0)) 3 (Point 0 0) 1 0 false 0 [] r l.
End snake.
