(* ===== verification/SnakeSpec.v ===== *)
(** * The snake game: what is played and what is shown

    An abstract game moves a list of cells; the array and the escape sequences of
    snake.c implement it. The invariant [game_ok] says that the snake is a path of
    distinct cells of the board which goes on in the direction of its head, that the
    food lies on a free cell, and that the terminal shows exactly this. The last
    part follows whole runs of the game. *)

From Stdlib Require Import Strings.String.
From S2P Require Import Prelude KprintfSpec UserOs Snake.

(** ** Drawing *)

Definition on_board (p : point) : Prop := 0 ≤ px p < WIDTH ∧ 0 ≤ py p < HEIGHT.
#[export] Instance on_board_dec p : Decision (on_board p).
Proof. unfold on_board. solve_decision. Defined.

Definition glyph_at (v : vt) (p : point) : Z := glyph v (py p + 2) (px p + 2).

Lemma vt_goto v r c : vmode_ v = Ground → 1 ≤ r < 1000 → 1 ≤ c < 1000 →
  vt_run v (goto r c) = Vt (glyphs v) r c Ground.
Proof.
  intros Hm Hr Hc. unfold goto.
  assert (vt_run v [ESC; 91] = Vt (glyphs v) (vrow v) (vcol v) (Csi [] 0)) as E.
  { destruct v as [g a b m]. cbn in Hm. by subst m. }
  change (ESC :: 91 :: decimal r ++ 59 :: decimal c ++ [72])
    with ([ESC; 91] ++ decimal r ++ [59] ++ decimal c ++ [72]).
  rewrite !vt_run_app, E, (vt_number _ [] r) by (done || lia). cbn [glyphs vrow vcol].
  change (vt_run _ [59]) with (Vt (glyphs v) (vrow v) (vcol v) (Csi [r] 0)).
  rewrite (vt_number _ [r] c) by (done || lia). cbn. f_equal; lia.
Qed.

(** One character on the board. *)
Definition paints (p : point) (c : Z) (v v' : vt) : Prop :=
  vmode_ v' = Ground ∧ ∀ q, glyph_at v' q = if bool_decide (q = p) then c else glyph_at v q.

Lemma paints_insert p c v r k :
  paints p c v (Vt (<[(py p + 2, px p + 2) := c]> (glyphs v)) r k Ground).
Proof.
  split; [done|]. intros q. unfold glyph_at, glyph. cbn. case_bool_decide as E.
  - subst q. by rewrite lookup_insert_eq.
  - rewrite lookup_insert_ne; [done|]. intros ?. apply E. destruct p, q. simplify_eq/=. f_equal; lia.
Qed.

Lemma vt_at v p : vmode_ v = Ground → on_board p →
  vt_run v (at_point p) = Vt (glyphs v) (py p + 2) (px p + 2) Ground.
Proof. unfold on_board, WIDTH, HEIGHT, at_point. intros. apply vt_goto; [done|lia..]. Qed.

Lemma draw_head_paints v p : vmode_ v = Ground → on_board p → paints p 79 v (vt_run v (draw_head p)).
Proof. intros. unfold draw_head. rewrite vt_run_app, vt_at by done. exact (paints_insert p 79 v _ _). Qed.

Lemma draw_food_paints v p : vmode_ v = Ground → on_board p → paints p 42 v (vt_run v (draw_food p)).
Proof. intros. unfold draw_food. rewrite vt_run_app, vt_at by done. exact (paints_insert p 42 v _ _). Qed.

Lemma draw_blank_paints v p : vmode_ v = Ground → on_board p → paints p 32 v (vt_run v (draw_blank p)).
Proof. intros. unfold draw_blank. rewrite vt_run_app, vt_at by done. exact (paints_insert p 32 v _ _). Qed.

(** The line below the board. *)
Definition score_line (n : Z) : list Z := ESC :: 91 :: decimal (HEIGHT + 3) ++ str ";1HScore: " ++ decimal n.

Lemma score_line_below v n : vmode_ v = Ground → 0 ≤ n →
  vmode_ (vt_run v (score_line n)) = Ground ∧
  ∀ p, on_board p → glyph_at (vt_run v (score_line n)) p = glyph_at v p.
Proof.
  intros Hm Hn. change (score_line n) with (goto 19 1 ++ str "Score: " ++ decimal n).
  rewrite vt_run_app, vt_goto by (done || lia).
  destruct (vt_text (Vt (glyphs v) 19 1 Ground) (str "Score: " ++ decimal n) eq_refl) as (H1 & _ & H2).
  - apply Forall_app. split; [repeat constructor; discriminate|]. unfold decimal. zb.
    eapply Forall_impl; [by apply dec_digits_range|]. cbn. lia.
  - split; [done|]. intros p Hp. unfold glyph_at. rewrite H2; [done|].
    unfold on_board, WIDTH, HEIGHT in Hp. cbn. lia.
Qed.

Lemma borders_blank : vmode_ (vt_run vt_start draw_borders) = Ground ∧
  ∀ p, on_board p → glyph_at (vt_run vt_start draw_borders) p = 32.
Proof.
  split; [by vm_compute|]. intros [x y] [Hx Hy]. unfold WIDTH, HEIGHT in *. cbn in Hx, Hy.
  assert (Forall (λ x, Forall (λ y, glyph_at (vt_run vt_start draw_borders) (Point x y) = 32) (seqZ 0 16)) (seqZ 0 32)) as F.
  { refine (bool_decide_unpack _ _). by vm_compute. }
  assert (x ∈ seqZ 0 32) as Ex by (apply elem_of_seqZ; lia). assert (y ∈ seqZ 0 16) as Ey by (apply elem_of_seqZ; lia).
  rewrite Forall_forall in F. specialize (F x Ex). rewrite Forall_forall in F. exact (F y Ey).
Qed.

(** ** The array *)

Lemma shift_spec n (l : list point) h : (n < length l)%nat →
  <[0%nat := h]> (shift n l) = h :: take n l ++ drop (S n) l.
Proof.
  revert l. induction n as [|n IH]; intros l Hn.
  - destruct l; [cbn in Hn; lia|]. done.
  - cbn [shift]. rewrite IH by (rewrite length_insert; lia). f_equal.
    destruct (lookup_lt_is_Some_2 l n) as [x Hx]; [lia|]. rewrite (list_lookup_total_correct _ _ _ Hx).
    rewrite (drop_S _ x (S n)) by (rewrite list_lookup_insert_eq; [done|lia]).
    by rewrite take_insert_ge, drop_insert_lt, (take_S_r _ _ _ Hx), <-app_assoc by lia.
Qed.

(** ** The abstract game *)

Record play := Play { body : list point; goal : point; dir : Z * Z; over : bool; points : Z }.

Definition ahead (l : list point) (d : Z * Z) : option point :=
  (λ p, Point (px p + fst d) (py p + snd d)) <$> l !! 0%nat.

Definition unit_dir (d : Z * Z) : Prop := Z.abs (fst d) + Z.abs (snd d) = 1.

(** The direction a key asks for, which is followed when it is a turn by a right angle. *)
Definition asked (ch : Z) : option (Z * Z) :=
  if (ch =? 119) || (ch =? 87) then Some (0, -1)
  else if (ch =? 115) || (ch =? 83) then Some (0, 1)
  else if (ch =? 97) || (ch =? 65) then Some (-1, 0)
  else if (ch =? 100) || (ch =? 68) then Some (1, 0)
  else None.
Definition turned (ch : Z) (d : Z * Z) : Z * Z :=
  match asked ch with
  | Some e => if fst d * fst e + snd d * snd e =? 0 then e else d
  | None => d
  end.
Definition quits (ch : Z) : bool := (ch =? 113) || (ch =? 81).

(** One frame in which [ch] is the key. *)
Inductive moves (ch : Z) : play → play → Prop :=
| Quit l f d s : quits ch = true → moves ch (Play l f d false s) (Play l f d true s)
| Crash l f d s n : quits ch = false → ahead l (turned ch d) = Some n → ¬ on_board n ∨ n ∈ l →
    moves ch (Play l f d false s) (Play l f (turned ch d) true s)
| Eat l f d s f' : quits ch = false → ahead l (turned ch d) = Some f → on_board f → f ∉ l →
    on_board f' → f' ∉ f :: take 99 l →
    moves ch (Play l f d false s) (Play (f :: take 99 l) f' (turned ch d) false (s + 10))
| Move l f d s n : quits ch = false → ahead l (turned ch d) = Some n → on_board n → n ∉ l → n ≠ f →
    moves ch (Play l f d false s) (Play (n :: take (length l - 1) l) f (turned ch d) false s).

Inductive reach : play → Prop :=
| Start f : on_board f → f ∉ [Point 16 8; Point 15 8; Point 14 8] →
    reach (Play [Point 16 8; Point 15 8; Point 14 8] f (1, 0) false 0)
| Frame ch P P' : reach P → moves ch P P' → reach P'.

(** The snake is a path of distinct cells of the board, led by the direction; the food
    is on a free cell; the score counts the growth. *)
Definition adjacent (p q : point) : Prop := Z.abs (px p - px q) + Z.abs (py p - py q) = 1.
Record play_ok (P : play) : Prop := {
  ok_length : (3 ≤ length (body P) ≤ 100)%nat;
  ok_nodup : NoDup (body P);
  ok_board : Forall on_board (body P);
  ok_goal : on_board (goal P) ∧ goal P ∉ body P;
  ok_chain : ∀ i p q, body P !! i = Some p → body P !! S i = Some q → adjacent p q;
  ok_dir : unit_dir (dir P);
  ok_heading : over P = false → ahead (drop 1 (body P)) (dir P) = body P !! 0%nat;
  ok_points : 10 * (Z.of_nat (length (body P)) - 3) ≤ points P ∧
    ((length (body P) < 100)%nat → points P = 10 * (Z.of_nat (length (body P)) - 3))
}.

Lemma turned_unit ch d : unit_dir d → unit_dir (turned ch d).
Proof. unfold turned, asked. intros. by repeat case_match; simplify_eq. Qed.

(** A step onto a free cell keeps the path. *)
Lemma step_ok l n d k : (2 ≤ length l)%nat → (1 ≤ k)%nat → NoDup l → Forall on_board l →
  (∀ i p q, l !! i = Some p → l !! S i = Some q → adjacent p q) → unit_dir d →
  ahead l d = Some n → on_board n → n ∉ l →
  NoDup (n :: take k l) ∧ Forall on_board (n :: take k l) ∧
  (∀ i p q, (n :: take k l) !! i = Some p → (n :: take k l) !! S i = Some q → adjacent p q) ∧
  ahead (drop 1 (n :: take k l)) d = Some n.
Proof.
  intros Hl Hk Hnd Hb Hc Hd Ha Hn Hni.
  assert (n ∉ take k l) as Hnt by (intros ?; apply Hni; by eapply subseteq_take).
  split; [constructor; [done|by eapply sublist_NoDup, sublist_take]|]. split; [constructor; [done|by apply Forall_take]|].
  destruct l as [|h l]; [cbn in Hl; lia|]. destruct k as [|k]; [lia|]. split.
  - intros [|i] p q Hp Hq.
    + cbn in Hp, Hq, Ha. simplify_eq. unfold adjacent. unfold unit_dir in Hd. cbn. lia.
    + cbn [lookup list_lookup] in Hp, Hq.
      apply lookup_take_Some in Hp as [Hp _]. apply lookup_take_Some in Hq as [Hq _]. by eapply Hc.
  - done.
Qed.

Lemma moves_ok ch P P' : play_ok P → moves ch P P' → play_ok P'.
Proof.
  intros [Hl Hnd Hb Hg Hc Hd Hh Hp] Hm.
  destruct Hm as [l f d s Hq|l f d s n Hq Ha Hn|l f d s f' Hq Ha Hn Hni Hf' Hfi|l f d s n Hq Ha Hn Hni Hnf]; cbn in *.
  - by constructor.
  - constructor; cbn; try done. by apply turned_unit.
  - destruct (step_ok l f (turned ch d) 99) as (H1 & H2 & H3 & H4); try done; try lia.
    { by apply turned_unit. }
    constructor; cbn [body goal dir over points]; try done; [..|by apply turned_unit|].
    + cbn. rewrite length_take. lia.
    + cbn. rewrite length_take. lia.
  - destruct (step_ok l n (turned ch d) (length l - 1)) as (H1 & H2 & H3 & H4); try done; try lia.
    { by apply turned_unit. }
    constructor; cbn [body goal dir over points]; try done; [..|by apply turned_unit|].
    + cbn. rewrite length_take. lia.
    + split; [apply Hg|]. rewrite elem_of_cons. intros [->|E]; [done|]. apply Hg. by eapply subseteq_take.
    + cbn. rewrite length_take. replace (S ((length l - 1) `min` length l)) with (length l) by lia. done.
Qed.

Lemma reach_ok P : reach P → play_ok P.
Proof.
  induction 1 as [f Hf Hi|ch P P' _ IH Hm]; [|by eapply moves_ok].
  constructor; cbn [body goal dir over points]; try done.
  - cbn. lia.
  - by refine (bool_decide_unpack _ _).
  - by refine (bool_decide_unpack _ _).
  - intros [|[|[|i]]] p q Hp Hq; cbn in *; by simplify_eq.
Qed.

(** ** The picture *)

Definition pic (l : list point) (f p : point) : Z :=
  if bool_decide (p ∈ l) then 79 else if bool_decide (p = f) then 42 else 32.
Definition pictured (v : vt) (l : list point) (f : point) : Prop :=
  vmode_ v = Ground ∧ ∀ p, on_board p → glyph_at v p = pic l f p.

Local Ltac pic_solve := repeat (let E := fresh "E" in case_bool_decide as E); set_solver.
Lemma pic_grow v v' l f n : pictured v l f → paints n 79 v v' → pictured v' (n :: l) f.
Proof.
  intros [_ Hv] [Hm Hp]. split; [done|]. intros q Hq. rewrite Hp, Hv by done. unfold pic.
  pic_solve.
Qed.

Lemma pic_move v v1 v2 l t f n : pictured v (l ++ [t]) f → t ∉ l → t ≠ f → t ≠ n →
  paints t 32 v v1 → paints n 79 v1 v2 → pictured v2 (n :: l) f.
Proof.
  intros [_ Hv] Ht Htf Htn [_ Hp1] [Hm Hp]. split; [done|]. intros q Hq. rewrite Hp, Hp1, Hv by done. unfold pic.
  pic_solve.
Qed.

Lemma pic_food v v' l f f' : pictured v l f → f ∈ l → f' ∉ l → paints f' 42 v v' → pictured v' l f'.
Proof.
  intros [_ Hv] Hf Hf' [Hm Hp]. split; [done|]. intros q Hq. rewrite Hp, Hv by done. unfold pic.
  pic_solve.
Qed.

Lemma pic_score v l f n : pictured v l f → 0 ≤ n → pictured (vt_run v (score_line n)) l f.
Proof.
  intros [Hm Hv] Hn. destruct (score_line_below v n Hm Hn) as [H1 H2]. split; [done|]. intros p Hp.
  by rewrite H2, Hv.
Qed.

(** ** The program plays the game *)

Section plays.
Context {R : Type} (srand : Z → R) (rand : R → Z * R) (patience : nat).

(** The cell that two random numbers give, and the generator after them. *)
Definition draw_cell (r : R) : point :=
  Point (Z.rem (fst (rand r)) WIDTH) (Z.rem (fst (rand (snd (rand r)))) HEIGHT).
Definition rng_at (seed : Z) (k : nat) : R := Nat.iter k (λ r, snd (rand (snd (rand r)))) (srand seed).

(** [rand] gives no negative number, and the cells it picks do not stay among a hundred
    given ones for [patience] tries. *)
Class RandLaws := {
  rand_nonneg r : 0 ≤ fst (rand r);
  rand_leaves seed k (l : list point) : (length l ≤ 100)%nat →
  ∃ i, (i < patience)%nat ∧ draw_cell (rng_at seed (k + i)) ∉ l
  }.
Context {RL : RandLaws}.
Local Abbreviation st := (game R).

Definition play_of (g : st) : play := Play (cells g) (food g) (dx g, dy g) (game_over g) (score g).
Definition shows (g : st) : Prop := pictured (vt_run vt_start (screen g)) (cells g) (food g).

Record game_ok (g : st) : Prop := {
  ok_array : length (snake g) = MAX_SNAKE;
  ok_len : (snake_len g ≤ MAX_SNAKE)%nat;
  ok_play : play_ok (play_of g);
  ok_rng : ∃ seed k, rng g = rng_at seed k;
  ok_shows : shows g
  }.

Lemma draw_cell_board r : on_board (draw_cell r).
Proof.
  unfold draw_cell, on_board. cbn.
  pose proof (Z.rem_bound_pos (fst (rand r)) WIDTH (rand_nonneg _) eq_refl).
  pose proof (Z.rem_bound_pos (fst (rand (snd (rand r)))) HEIGHT (rand_nonneg _) eq_refl). done.
Qed.

Lemma place_food_spec Q (g : st) seed k : (length (cells g) ≤ 100)%nat → rng g = rng_at seed k →
  (∀ p k', on_board p → p ∉ cells g →
    Q tt (set_screen (screen g ++ draw_food p) (set_food p (set_rng (rng_at seed k') g)))) →
  wp (place_food rand patience) Q (λ _, False) g.
Proof.
  intros Hl Hr HQ. destruct (rand_leaves seed k (cells g) Hl) as (i & Hi & Hd). unfold place_food. apply wp_bind.
  apply (wp_conseq _ (λ _ g', ∃ p k', on_board p ∧ p ∉ cells g ∧ (g' = set_food p (set_rng (rng_at seed k') g)))).
  2:{ intros [] g' (p & k' & Hp & Hpi & ->). apply wp_modify. by apply HQ. }
  apply (wp_loop (λ j _ g1, ∃ k1 p, g1 = set_food p (set_rng (rng_at seed k1) g) ∧
    draw_cell (rng_at seed (k1 + j)) ∉ cells g)) with (k := i); [|exists k, (food g); split; [by destruct g; cbn in *; subst|done]|done].
  clear i Hi Hd. intros j _ g1 (k1 & p & -> & Hd). unfold rand_, wp, mbind, M_bind, modify, get. cbn -[rng_at].
  case_bool_decide as E.
  - destruct j as [|j]; [rewrite Nat.add_0_r in Hd; by destruct (Hd E)|]. exists j. split; [lia|]. exists (S k1), (draw_cell (rng_at seed k1)).
    split; [done|]. by replace (S k1 + j)%nat with (k1 + S j)%nat by lia.
  - exists (draw_cell (rng_at seed k1)), (S k1). split; [apply draw_cell_board|]. by split.
Qed.

Lemma set_dir_same (g : st) : set_dir (dx g) (dy g) g = g.
Proof. by destruct g. Qed.

Lemma steer_spec Q ch (g : st) :
  (if quits ch then Q true (set_game_over true g)
   else Q false (set_dir (fst (turned ch (dx g, dy g))) (snd (turned ch (dx g, dy g))) g)) →
  wp (steer ch) Q (λ _, False) g.
Proof.
  unfold steer, quits, turned, asked, wp, mbind, M_bind, get, modify, mret, M_ret. intros HQ. revert HQ.
  destruct (Z.ltb_spec ch 0); [zb; cbn [orb fst snd]; by rewrite set_dir_same|].
  destruct (dx g =? 0) eqn:Ex, (dy g =? 0) eqn:Ey.
  all: repeat zcase; cbn [fst snd]; rewrite ?andb_true_r, ?andb_false_r; try lia; rewrite ?set_dir_same; try done.
  all: exfalso; cbn [fst snd] in *; lia.
Qed.

(** The tail of the array in use. *)
Lemma cells_tail (g : st) : length (snake g) = MAX_SNAKE → (3 ≤ snake_len g ≤ MAX_SNAKE)%nat →
  length (cells g) = snake_len g ∧
  ∃ t, snake g !! (snake_len g - 1)%nat = Some t ∧ cells g = take (snake_len g - 1) (cells g) ++ [t].
Proof.
  intros Ha Hl. unfold cells. split; [rewrite length_take; lia|].
  destruct (lookup_lt_is_Some_2 (snake g) (snake_len g - 1)) as [t Ht]; [lia|]. exists t. split; [done|].
  rewrite take_take, Nat.min_l by lia. rewrite <-(take_S_r _ _ _ Ht). f_equal. lia.
Qed.

Lemma cells_head (g : st) : (0 < snake_len g)%nat → cells g !! 0%nat = snake g !! 0%nat.
Proof. intros. unfold cells. by rewrite lookup_take_lt. Qed.

(** The array after a step. *)
Lemma cells_step (g : st) n h : length (snake g) = MAX_SNAKE → (n < MAX_SNAKE)%nat →
  length (<[0%nat := h]> (shift n (snake g))) = MAX_SNAKE ∧
  take (S n) (<[0%nat := h]> (shift n (snake g))) = h :: take n (snake g).
Proof.
  intros Ha Hn. rewrite shift_spec by lia. split.
  - cbn. rewrite length_app, length_take, length_drop. lia.
  - cbn. f_equal. rewrite take_app_le by (rewrite length_take; lia). by rewrite take_take, Nat.min_id.
Qed.

(** What a frame keeps of the representation. *)
Record kept (g g' : st) : Prop := {
  kept_array : length (snake g') = MAX_SNAKE;
  kept_len : (snake_len g' ≤ MAX_SNAKE)%nat;
  kept_rng : ∃ seed k, rng g' = rng_at seed k;
  kept_shows : shows g';
  kept_keys : keys g' = keys g
  }.

Section update.
Context (g : st) (ch : Z) (d0 : Z * Z) (n : point).
Hypothesis Hquit : quits ch = false.
Hypothesis Hdir : (dx g, dy g) = turned ch d0.
Hypothesis Hgoing : game_over g = false.
Hypothesis Harray : length (snake g) = MAX_SNAKE.
Hypothesis Hlen : (snake_len g ≤ MAX_SNAKE)%nat.
Hypothesis Hplay : play_ok (Play (cells g) (food g) d0 false (score g)).
Hypothesis Hrng : ∃ seed k, rng g = rng_at seed k.
Hypothesis Hshows : shows g.
Hypothesis Hahead : ahead (cells g) (dx g, dy g) = Some n.
Local Abbreviation P := (Play (cells g) (food g) d0 false (score g)).

Lemma update_len : (3 ≤ snake_len g)%nat ∧ length (cells g) = snake_len g.
Proof.
  destruct Hplay as [Hl _ _ _ _ _ _ _]. cbn in Hl. revert Hl. unfold cells. rewrite length_take.
  unfold MAX_SNAKE in *. lia.
Qed.

Lemma update_tail : ∃ t, snake g !! (snake_len g - 1)%nat = Some t ∧
  on_board t ∧ t ∉ take (snake_len g - 1) (cells g) ∧ t ≠ food g ∧ (n ∉ cells g → t ≠ n) ∧
  cells g = take (snake_len g - 1) (cells g) ++ [t].
Proof.
  destruct update_len as [H3 Hl]. destruct (cells_tail g Harray) as (_ & t & Ht & E); [lia|]. exists t.
  destruct Hplay as [_ Hnd Hb [_ Hf] _ _ _ _]. cbn in Hnd, Hb, Hf. rewrite E in Hnd, Hb, Hf.
  apply NoDup_app in Hnd as (_ & Hd & _). apply Forall_app in Hb as [_ Hb]. rewrite Forall_singleton in Hb.
  split; [done|]. split; [done|]. split; [intros Hi; apply (Hd t Hi); set_solver|]. split; [set_solver|].
  split; [|done]. intros Hn ->. apply Hn. rewrite E. set_solver.
Qed.

Lemma move_picture t : on_board n → n ∉ cells g → on_board t → t ∉ take (snake_len g - 1) (cells g) → t ≠ food g → t ≠ n →
  cells g = take (snake_len g - 1) (cells g) ++ [t] →
  pictured (vt_run vt_start ((screen g ++ draw_blank t) ++ draw_head n)) (n :: take (snake_len g - 1) (cells g)) (food g).
Proof.
  intros Hb Hn Hbt Ht Htf Htn E. rewrite !vt_run_app. pose proof (proj1 Hshows) as Hm.
  pose proof (draw_blank_paints _ t Hm Hbt) as P1. pose proof (draw_head_paints _ n (proj1 P1) Hb) as P2.
  eapply (pic_move _ _ _ _ t); [|done..]. rewrite <-E. exact Hshows.
Qed.

Lemma cells_short : take (snake_len g - 1) (cells g) = take (snake_len g - 1) (snake g).
Proof. unfold cells. by rewrite take_take, Nat.min_l by lia. Qed.

Lemma update_move_spec : on_board n → n ∉ cells g → n ≠ food g →
  wp (tail ← expect (snake g !! (snake_len g - 1)%nat);
    print (draw_blank tail);;
    modify (set_snake (<[0%nat := n]> (shift (snake_len g - 1) (snake g))) (snake_len g));;
    print (draw_head n))
  (λ _ g', moves ch P (play_of g') ∧ kept g g') (λ _, False) g.
Proof.
  intros Hb Hn Hf. destruct update_len as [H3 Hl]. destruct update_tail as (t & Ht & Hbt & Hti & Htf & Htn & E).
  apply wp_bind. eapply wp_expect; [exact Ht|]. do 2 (apply wp_bind, wp_modify). apply wp_modify.
  assert (snake_len g - 1 < MAX_SNAKE)%nat as Hlt by (unfold MAX_SNAKE in *; lia).
  destruct (cells_step g (snake_len g - 1) n Harray Hlt) as [Hlen' Hc].
  replace (S (snake_len g - 1)) with (snake_len g) in Hc by lia. rewrite <-cells_short in Hc.
  split.
  - unfold play_of, cells. cbn -[take insert shift]. rewrite Hc, Hgoing, Hdir. fold (cells g).
    rewrite <-Hl at 1. apply Move; rewrite <-?Hdir; done.
  - constructor; cbn -[take insert shift]; try done. unfold shows, cells. cbn -[take insert shift draw_blank draw_head].
    rewrite Hc. apply move_picture; auto.
Qed.

Lemma update_eat_spec : food g = n → on_board n → n ∉ cells g →
  wp (modify (set_score (score g + 10));;
    m ← (if (snake_len g <? MAX_SNAKE)%nat then mret (S (snake_len g)) else
      tail ← expect (snake g !! (snake_len g - 1)%nat);
      print (draw_blank tail);;
      mret (snake_len g));
    modify (set_snake (<[0%nat := n]> (shift (m - 1) (snake g))) m);;
    print (draw_head n);;
    place_food rand patience)
  (λ _ g', moves ch P (play_of g') ∧ kept g g') (λ _, False) g.
Proof.
  intros Hf Hb Hn. destruct update_len as [H3 Hl]. destruct Hrng as (seed & k & Hr).
  apply wp_bind, wp_modify, wp_bind.
  apply (wp_conseq _ (λ m g1, ∃ s, g1 = set_screen s (set_score (score g + 10) g) ∧ (m - 1 < MAX_SNAKE)%nat ∧ (0 < m)%nat ∧
    take (m - 1) (snake g) = take 99 (cells g) ∧ pictured (vt_run vt_start (s ++ draw_head n)) (n :: take 99 (cells g)) (food g))).
  - destruct (Nat.ltb_spec (snake_len g) MAX_SNAKE) as [Hlt|Hge].
    + apply wp_ret. exists (screen g). split; [by destruct g|]. replace (S (snake_len g) - 1)%nat with (snake_len g) by lia.
      rewrite (take_ge (cells g)) by (unfold MAX_SNAKE in *; lia). do 3 (split; [done || lia|]).
      rewrite vt_run_app. eapply pic_grow; [exact Hshows|]. by apply draw_head_paints; [apply Hshows|].
    + destruct update_tail as (t & Ht & Hbt & Hti & Htf & Htn & E). apply wp_bind.
      eapply wp_expect; [exact Ht|]. apply wp_bind, wp_modify, wp_ret. exists (screen g ++ draw_blank t).
      split; [done|]. split; [unfold MAX_SNAKE in *; lia|]. split; [lia|].
      replace 99%nat with (snake_len g - 1)%nat by (unfold MAX_SNAKE in *; lia). split; [by rewrite cells_short|].
      apply move_picture; auto.
  - intros m g1 (s & -> & Hm & Hm0 & Ht & Hpic). destruct (cells_step g (m - 1) n Harray Hm) as [Hlen' Hc].
    replace (S (m - 1)) with m in Hc by lia. rewrite Ht in Hc. do 2 (apply wp_bind, wp_modify).
    eapply (place_food_spec _ _ seed k); [..|intros p k' Hp Hpi; split].
    + unfold cells. cbn -[take insert shift]. rewrite Hc. cbn. rewrite length_take. lia.
    + exact Hr.
    + unfold cells in Hpi. cbn -[take insert shift] in Hpi. rewrite Hc in Hpi.
      unfold play_of, cells. cbn -[take insert shift]. rewrite Hc, Hgoing, Hdir. rewrite <-Hf in *. by apply Eat; rewrite <-?Hdir.
    + unfold cells in Hpi. cbn -[take insert shift] in Hpi. rewrite Hc in Hpi.
      constructor; cbn -[take insert shift]; try done; [unfold MAX_SNAKE in *; lia|eauto|].
      unfold shows, cells. cbn -[take insert shift draw_food draw_head vt_run]. rewrite Hc, vt_run_app.
      eapply pic_food; [exact Hpic|rewrite Hf; left|done|]. by apply draw_food_paints; [apply Hpic|].
Qed.

Lemma crash_spec : ¬ on_board n ∨ n ∈ cells g →
  wp (modify (set_game_over true)) (λ _ g', moves ch P (play_of g') ∧ kept g g') (λ _, False) g.
Proof.
  intros Hn. apply wp_modify. split; [|by constructor].
  unfold play_of. cbn. rewrite Hdir. apply Crash with (n := n); [done| |exact Hn]. rewrite <-Hdir. exact Hahead.
Qed.

Lemma kept_score g' : moves ch P (play_of g') → kept g g' →
  wp (g ← get; print (score_line (score g))) (λ _ g', moves ch P (play_of g') ∧ kept g g') (λ _, False) g'.
Proof.
  intros Hm [H1 H2 H3 H4 H5]. apply wp_bind. change (wp get ?Q ?R g') with (Q g' g'). apply wp_modify. split; [done|].
  constructor; try done. unfold shows. cbn [screen set_screen]. rewrite vt_run_app. apply pic_score; [exact H4|].
  destruct (moves_ok _ _ _ Hplay Hm) as [Hl _ _ _ _ _ _ [Hs _]]. cbn in Hl, Hs. lia.
Qed.

Lemma update_spec :
  wp (update_game rand patience) (λ _ g', moves ch P (play_of g') ∧ kept g g') (λ _, False) g.
Proof.
  unfold update_game. apply wp_bind. change (wp get ?Q ?R g) with (Q g g). cbv beta. destruct update_len as [H3 Hl].
  destruct (snake g !! 0%nat) as [h|] eqn:Eh; [|apply lookup_ge_None in Eh; unfold MAX_SNAKE in *; lia].
  apply wp_bind. eapply wp_expect; [reflexivity|].
  assert (n = Point (px h + dx g) (py h + dy g)) as En.
  { revert Hahead. unfold ahead. rewrite cells_head, Eh by lia. cbn. congruence. }
  cbv zeta. rewrite <-En. case_match eqn:Eb.
  { apply crash_spec. left. unfold on_board. lia. }
  assert (on_board n) as Hb by (unfold on_board; lia). clear Eb. case_bool_decide as Ec; [apply crash_spec; by right|].
  apply wp_bind. apply (wp_conseq _ (λ _ g', moves ch P (play_of g') ∧ kept g g')).
  2:{ intros [] g' [? ?]. by apply kept_score. }
  case_bool_decide as Ef; [apply update_eat_spec; congruence || done|by apply update_move_spec].
Qed.
End update.

(** Reading a key takes it, and changes nothing else. *)
Lemma getchar_spec Q (g : st) :
  (∀ c l, (keys g = [] → c = -1) → (length l ≤ length (keys g) - 1)%nat → Q c (set_keys l g)) →
  wp getchar_nonblock_ Q (λ _, False) g.
Proof.
  intros HQ. unfold getchar_nonblock_. apply wp_bind. change (wp get ?Q ?R g) with (Q g g). cbv beta.
  destruct (keys g) as [|c l] eqn:E.
  - apply wp_ret. specialize (HQ (-1) []). destruct g. cbn in *. subst. by apply HQ.
  - apply wp_bind, wp_modify, wp_ret. apply HQ; [done|cbn; lia].
Qed.

Lemma next_char_spec Q (g : st) : (∀ c l, (length l ≤ length (keys g))%nat → Q c (set_keys l g)) →
  wp next_char Q (λ _, False) g.
Proof.
  intros HQ.
  apply (wp_loop (λ k (x : nat * Z) g1, (k + fst x = 10)%nat ∧ ∃ l, g1 = set_keys l g ∧ (length l ≤ length (keys g))%nat))
    with (k := 10%nat); [|by split; [|exists (keys g); destruct g]|lia].
  intros k [i c] g1 [Hk (l & -> & Hl)]. cbn in Hk. destruct (_ && _) eqn:E.
  - apply andb_prop in E as [E _]. apply Nat.ltb_lt in E. apply wp_bind, getchar_spec. intros c' l' _ Hl'. apply wp_ret.
    exists (k - 1)%nat. cbn in *. split; [lia|]. split; [lia|]. exists l'. split; [done|lia].
  - apply wp_ret. by apply HQ.
Qed.

Lemma get_input_spec Q (g : st) :
  (∀ ch l, (keys g = [] → ch = -1) → (length l ≤ length (keys g) - 1)%nat → Q ch (set_keys l g)) →
  wp get_input Q (λ _, False) g.
Proof.
  intros HQ. unfold get_input. apply wp_bind, getchar_spec. intros c l Hk Hl. destruct (Z.eqb_spec c 27) as [->|Hc].
  2:{ apply wp_ret. by apply HQ. }
  assert (∀ ch' l', (length l' ≤ length l)%nat → Q ch' (set_keys l' g)) as HQ'.
  { intros ch' l' Hl'. apply HQ; [intros E; by specialize (Hk E)|lia]. }
  apply wp_bind, next_char_spec. intros c1 l1 Hl1. cbn in Hl1. destruct (c1 =? 91); [|apply wp_ret; by apply HQ'].
  apply wp_bind, next_char_spec. intros c2 l2 Hl2. cbn in Hl2. apply wp_ret, HQ'. lia.
Qed.

Lemma frame_spec (g : st) : game_ok g → game_over g = false →
  wp (frame rand patience) (λ _ g', ∃ ch, (keys g = [] → ch = -1) ∧ (length (keys g') ≤ length (keys g) - 1)%nat ∧
    moves ch (play_of g) (play_of g') ∧ game_ok g') (λ _, False) g.
Proof.
  intros [H1 H2 H3 H4 H5] Ho. unfold frame. apply wp_bind, get_input_spec. intros ch l Hk Hkl.
  apply wp_bind, steer_spec. destruct (quits ch) eqn:Eq.
  - apply wp_ret. exists ch. cbn. assert (moves ch (play_of g) (play_of (set_game_over true (set_keys l g)))) as Hm.
    { unfold play_of. rewrite Ho. by apply Quit. }
    do 2 (split; [done|]). split; [exact Hm|]. constructor; try done. by eapply moves_ok.
  - set (t := turned _ _). set (g1 := set_dir _ _ _).
    eapply wp_conseq; [apply (update_spec g1 ch (dx g, dy g) (default inhabitant (ahead (cells g) t))); try done|].
    + symmetry. apply surjective_pairing.
    + unfold play_of in H3. by rewrite Ho in H3.
    + change (cells g1) with (cells g). change (dx g1, dy g1) with (fst t, snd t). rewrite <-surjective_pairing. unfold ahead.
      destruct (cells g) as [|? ?] eqn:E; [|done]. destruct H3 as [[Hl _] _ _ _ _ _ _ _]. cbn in Hl. rewrite E in Hl. cbn in Hl. lia.
    + intros [] g' [Hm [K1 K2 K3 K4 K5]]. exists ch. split; [done|]. split; [by rewrite K5|].
      change (Play (cells g1) (food g1) (dx g, dy g) false (score g1)) with (Play (cells g) (food g) (dx g, dy g) false (score g)) in Hm.
      rewrite <-Ho in Hm. split; [done|]. constructor; try done. by eapply moves_ok.
Qed.
End plays.

(** * The snake game: whole runs *)

Section game.
Context {R : Type} (srand : Z → R) (rand : R → Z * R) (patience : nat) {RL : RandLaws srand rand patience}.
Local Abbreviation st := (game R).
Local Abbreviation game_ok := (game_ok srand rand).

(** The three cells of the start. *)
Definition start_cells : list point := [Point 16 8; Point 15 8; Point 14 8].

Lemma start_picture f : on_board f → f ∉ start_cells →
  pictured (vt_run vt_start ((draw_borders ++ draw_food f) ++ concat (draw_head <$> start_cells))) start_cells f.
Proof.
  intros Hf Hi. rewrite !vt_run_app. destruct borders_blank as [Hm Hb]. pose proof (draw_food_paints _ f Hm Hf) as P0.
  assert (pictured (vt_run (vt_run vt_start draw_borders) (draw_food f)) [] f) as P1.
  { split; [apply P0|]. intros p Hp. rewrite (proj2 P0), Hb by done. unfold pic. by case_bool_decide. }
  cbn [concat fmap list_fmap start_cells]. rewrite app_nil_r, !vt_run_app. clear P0 Hb Hm.
  revert P1. generalize (vt_run (vt_run vt_start draw_borders) (draw_food f)). intros v0 P1.
  assert (∀ v k n, on_board n → pictured v k f → pictured (vt_run v (draw_head n)) (n :: k) f) as Hd.
  { intros v k n Hn Hk. eapply pic_grow; [exact Hk|]. apply draw_head_paints; [apply Hk|done]. }
  eapply (Hd _ _ (Point 16 8)), (Hd _ _ (Point 15 8)), (Hd _ _ (Point 14 8)) in P1; [|by refine (bool_decide_unpack _ _)..].
  revert P1. generalize (vt_run (vt_run (vt_run v0 (draw_head (Point 16 8))) (draw_head (Point 15 8))) (draw_head (Point 14 8))).
  intros v [Hm P1]. split; [exact Hm|]. intros p Hp. rewrite (P1 p Hp). unfold pic, start_cells.
  erewrite bool_decide_ext; [done|]. rewrite !elem_of_cons. tauto.
Qed.

Lemma init_spec now r l :
  wp (init_game srand rand patience now) (λ _ g, reach (play_of g) ∧ game_ok g ∧ keys g = l) (λ _, False) (game_start r l).
Proof.
  unfold init_game. apply wp_bind, wp_modify, wp_bind. change (wp get ?Q ?R ?g) with (Q g g). cbv beta zeta.
  do 5 (apply wp_bind, wp_modify). apply wp_bind, (place_food_spec srand _ _ _ _ (now mod 4294967296) 0); [by vm_compute; lia|done|].
  intros p k Hp Hpi. change (p ∉ start_cells) in Hpi. apply wp_modify.
  match goal with |- reach (play_of ?g) ∧ _ => set (g' := g) end.
  assert (reach (play_of g')) as Hr by (by apply Start). split; [done|]. split; [|done].
  constructor; [done|vm_compute; lia|by apply reach_ok|by exists (now mod 4294967296), k|].
  by apply start_picture.
Qed.

Lemma frames_spec n (g : st) : game_ok g → reach (play_of g) →
  wp (frames rand patience n) (λ _ g', reach (play_of g') ∧ game_ok g') (λ _, False) g.
Proof.
  revert g. induction n as [|n IH]; intros g Hg Hr; [by apply wp_ret|]. cbn [frames].
  apply wp_bind. change (wp get ?Q ?R g) with (Q g g). cbv beta. destruct (game_over g) eqn:Eo; [by apply wp_ret|].
  apply wp_bind. eapply wp_conseq; [by eapply frame_spec|]. intros [] g' (ch & _ & _ & Hm & Hg').
  apply IH; [done|]. by eapply Frame.
Qed.

(** ** The game ends *)

(** How many cells there are in front of the head. *)
Definition room (P : play) : Z :=
  match body P with
  | [] => 0
  | h :: _ => if fst (dir P) =? 1 then WIDTH - 1 - px h else if fst (dir P) =? -1 then px h
  else if snd (dir P) =? 1 then HEIGHT - 1 - py h else py h
  end.

Lemma room_range P : play_ok P → 0 ≤ room P < 32.
Proof.
  intros [Hl _ Hb _ _ _ _ _]. unfold room. destruct (body P) as [|h k]; [lia|]. apply Forall_cons in Hb as [[Hx Hy] _].
  unfold WIDTH, HEIGHT in *. repeat case_match; lia.
Qed.

Lemma quiet_move P P' : play_ok P → moves (-1) P P' → over P' = true ∨ room P' = room P - 1.
Proof.
  intros [_ _ _ _ _ Hd _ _] Hm. destruct Hm as [| |l f d s f' Hq Ha|l f d s n Hq Ha]; [by left..|right|right].
  all: cbn in Hd, Ha; unfold ahead in Ha; destruct l as [|h l]; [done|]; cbn in Ha; simplify_eq.
  all: unfold room, unit_dir in *; cbn; repeat zcase; lia.
Qed.

Lemma quiet_ends k (g : st) : game_ok g → keys g = [] → room (play_of g) < Z.of_nat k →
  wp (frames rand patience k) (λ _ g', game_over g' = true) (λ _, False) g.
Proof.
  revert g. induction k as [|k IH]; intros g Hg Hk Hr; [pose proof (room_range _ (ok_play _ _ _ Hg)); lia|]. cbn [frames].
  apply wp_bind. change (wp get ?Q ?R g) with (Q g g). cbv beta. destruct (game_over g) eqn:Eo; [by apply wp_ret|].
  apply wp_bind. eapply wp_conseq; [by eapply frame_spec|]. intros [] g' (ch & Hch & Hl & Hm & Hg').
  rewrite (Hch Hk) in Hm. rewrite Hk in Hl. cbn in Hl. destruct (quiet_move _ _ (ok_play _ _ _ Hg) Hm) as [Ho|E].
  - destruct k; [by apply wp_ret|]. cbn [frames]. apply wp_bind. change (wp get ?Q ?R g') with (Q g' g'). cbv beta.
    change (game_over g' = true) in Ho. rewrite Ho. by apply wp_ret.
  - apply IH; [done|by destruct (keys g'); [|cbn in Hl; lia]|lia].
Qed.

Lemma frames_end n m (g : st) : game_ok g → (length (keys g) ≤ n)%nat → (n + 32 ≤ m)%nat →
  wp (frames rand patience m) (λ _ g', game_over g' = true) (λ _, True) g.
Proof.
  revert m g. induction n as [|n IH]; intros m g Hg Hn Hm.
  - eapply wp_mono; [apply quiet_ends; [done|by destruct (keys g); [|cbn in Hn; lia]|]|done|done].
    pose proof (room_range _ (ok_play _ _ _ Hg)). lia.
  - destruct m as [|m]; [lia|]. cbn [frames]. apply wp_bind. change (wp get ?Q ?R g) with (Q g g). cbv beta.
    destruct (game_over g) eqn:Eo; [by apply wp_ret|].
    apply wp_bind. eapply wp_mono; [by eapply frame_spec| |done]. intros [] g' (ch & Hch & Hl & _ & Hg').
    apply IH; [done|lia..].
Qed.

(** C36: In a run of snake.c of any number of frames, with any keys, the game is at every
    point a position of the abstract game: the snake is a path of distinct cells of the
    board that never turns back on itself, the food is on a free cell, and the score is
    ten times the growth; and the terminal shows an O on exactly the cells of the snake,
    a star on the food and blanks elsewhere. The game ends whatever the keys are: after
    the last key the snake meets a wall, or itself, within 32 frames. *)
Theorem snake_plays now r l n :
  wp (init_game srand rand patience now;; frames rand patience n)
  (λ _ g, reach (play_of g) ∧ play_ok (play_of g) ∧ shows g ∧
    ((length l + 32 ≤ n)%nat → game_over g = true)) (λ _, False) (game_start r l).
Proof.
  apply wp_bind. eapply wp_conseq; [apply init_spec|]. intros [] g (Hr & Hg & Hk).
  destruct (decide (length l + 32 ≤ n)%nat) as [Hn|Hn].
  - eapply wp_conseq; [apply wp_and; [by apply frames_spec|apply (frames_end (length l)); [done|by rewrite Hk|done]]|].
    intros [] g' [[Hr' Hg'] Ho]. split; [done|]. split; [|split]; [apply Hg'..|done].
  - eapply wp_conseq; [by apply frames_spec|]. intros [] g' [Hr' Hg']. split; [done|]. split; [|split]; [apply Hg'..|done].
Qed.
End game.

(** ** A generator that satisfies the laws *)

Definition count_srand (seed : Z) : bool * Z := (false, seed mod 4294967296).
Definition count_rand (r : bool * Z) : Z * (bool * Z) :=
  let j := Z.abs (snd r) in if fst r then (j / 32, (false, j + 1)) else (j, (true, j)).

Lemma count_rng seed k : rng_at count_srand count_rand seed k = (false, seed mod 4294967296 + Z.of_nat k).
Proof.
  induction k as [|k IH]; [unfold rng_at, count_srand; cbn; f_equal; lia|].
  change (rng_at count_srand count_rand seed (S k))
    with (snd (count_rand (snd (count_rand (rng_at count_srand count_rand seed k))))). rewrite IH. cbn -[Z.of_nat]. f_equal. pose proof (Z.mod_pos_bound seed 4294967296). lia.
Qed.

#[export] Instance count_laws : RandLaws count_srand count_rand 101.
Proof.
  split.
  - intros [[] j]; cbn; [apply Z.div_pos|]; lia.
  - intros seed k l Hl. set (cell := λ i, draw_cell count_rand (rng_at count_srand count_rand seed (k + i))).
    destruct (decide (Forall (λ i, cell i ∈ l) (seq 0 101))) as [F|F].
    + exfalso. assert (NoDup (cell <$> seq 0 101)) as Hnd.
      { apply NoDup_fmap_2_strong; [|apply NoDup_seq]. intros i j Hi Hj E. apply elem_of_seq in Hi, Hj.
        unfold cell, draw_cell in E. rewrite !count_rng in E. cbn -[Z.rem Z.div] in E. injection E as E1 E2.
        pose proof (Z.mod_pos_bound seed 4294967296 eq_refl) as Hs. unfold WIDTH, HEIGHT in *.
        generalize dependent (seed mod 4294967296). intros s E1 E2 Hs.
        rewrite !Z.rem_mod_nonneg in E1 by lia. rewrite !Z.rem_mod_nonneg in E2 by (try apply Z.div_pos; lia).
        rewrite !Z.abs_eq in E1, E2 by lia. Z.to_euclidean_division_equations. lia. }
      assert (cell <$> seq 0 101 ⊆+ l) as Hs.
      { apply NoDup_submseteq; [done|]. intros p Hp. apply list_elem_of_fmap in Hp as (i & -> & Hi). by rewrite Forall_forall in F; apply F. }
      apply submseteq_length in Hs. rewrite length_fmap, length_seq in Hs. lia.
    + apply not_Forall_Exists in F; [|apply _]. apply Exists_exists in F as (i & Hi & E). apply elem_of_seq in Hi.
      exists i. split; [lia|exact E].
Qed.

Lemma snake_plays_witness :
  wp (init_game count_srand count_rand 101 7;; frames count_rand 101 35)
    (λ _ g, reach (play_of g) ∧ play_ok (play_of g) ∧ shows g ∧ ((3 + 32 ≤ 35)%nat → game_over g = true)) (λ _, False)
    (game_start (false, 0) [119; -1; 97]).
Proof. apply (snake_plays count_srand count_rand 101 7 (false, 0) [119; -1; 97] 35). Defined.
