(* ===== verification/Ls.v ===== *)
(** * ls: definitions

    user/bin/ls.c over the interface [Os]. The statics are empty; [stdout] is what has
    been printed. [junk_cwd], [junk_chunk] and [junk_target] are what the stack holds in buffers that
    are not initialised, and [patience] is how many reads of the directory there may be.
    [normalize_path] is the text of the routine of the kernel once more, on the same
    buffer sizes. *)

From Stdlib Require Import Strings.String.
From S2P Require Import Prelude CLib FsTypes Dir Path KprintfSpec UserOs.

Definition FS_CHUNK_SIZE : nat := 512.

Record prog (W : Type) := Prog { stdout : list Z; os_world : W }.
Arguments Prog {W}.
Arguments stdout {W}.
Arguments os_world {W}.

(** ** Helpers *)

Fixpoint count_digits_up (fuel : nat) (n count : Z) : Z :=
  match fuel with
  | O => count
  | S fuel => if n >? 0 then count_digits_up fuel (Z.quot n 10) (count + 1) else count
  end.
Definition num_digits (n : Z) : Z := if n =? 0 then 1 else count_digits_up 10 n 0.

Definition normalize_path (base rel dst : list Z) : option (list Z) := fs_normalize_path base rel dst.

(** The directory's path with the name of an entry behind it. *)
Definition entry_path (target name : list Z) : option (list Z) :=
  path_len ← strlen target;
  l ← strncpy target 255;
  let full := l ++ [0] in
  last ← zlookup target (Z.of_nat path_len - 1);
  full ← (if negb (last =? SLASH) then len ← strlen full; strncat full str_slash (256 - len - 1) else Some full);
  len ← strlen full;
  strncat full name (256 - len - 1).

(** An entry that is listed: its name, whether it is a directory, and its size. *)
Definition listed : Type := fsdirent * (bool * Z).

Definition visible_len (e : listed) : option nat :=
  len ← strlen (de_name e.1); Some (if fst e.2 : bool then S len else len).

Fixpoint longest_name_of (es : list listed) (longest : nat) : option nat :=
  match es with
  | [] => Some longest
  | e :: es => len ← visible_len e; longest_name_of es (if (longest <? len)%nat then len else longest)
  end.

Fixpoint longest_size_of (es : list listed) (longest : Z) : Z :=
  match es with
  | [] => longest
  | e :: es => let digits := num_digits (s32 (snd e.2)) in longest_size_of es (if digits >? longest then digits else longest)
  end.

(** [printf("%*d", width, n)] *)
Definition right_aligned (width n : Z) : list Z :=
  replicate (Z.to_nat (width - Z.of_nat (length (decimal n)))) 32 ++ decimal n.

Section ls.
Context {W : Type} `{!Os W}.
Variable strerror : Z → list Z.
Variable junk_cwd : list Z.
Variable junk_chunk : list Z.
Variable junk_target : list Z.
Variable patience : nat.

Local Abbreviation st := (prog W).
Definition set_stdout (l : list Z) (s : st) : st := Prog l (os_world s).
Definition set_os_world (w : W) (s : st) : st := Prog (stdout s) w.

Definition os_ {A} (m : M W A) : M st A := zoom os_world set_os_world m.
Definition out (l : list Z) : M st unit := modify (λ s, set_stdout (stdout s ++ l) s).
(** [%s] *)
Definition out_str (p : list Z) : M st unit := l ← expect (cstr p); out l.
Definition os_str {A} (f : list Z → M W A) (p : list Z) : M st A := l ← expect (cstr p); os_ (f (l ++ [0])).

(** ** Reading the directory *)

Definition list_entry (target : list Z) (de : fsdirent) (es : list listed) : M st (list listed) :=
  if de_inum de =? 0 then mret es else
  d ← expect (strcmp (de_name de) str_dot);
  if d =? 0 then mret es else
  d ← expect (strcmp (de_name de) str_dotdot);
  if d =? 0 then mret es else
  full ← expect (entry_path target (de_name de));
  est ← os_str os_stat full;
  match est with
  | None => mret es
  | Some est => mret (if Z.of_nat (length es) <? MAX_DIR_ENTRIES then es ++ [(de, est)] else es)
  end.

Definition list_chunk (target chunk : list Z) (read_bytes : Z) (es : list listed) : M st (list listed) :=
  loop 17 (λ x : nat * list listed, let '(i, es) := x in
    if Z.of_nat i <? read_bytes then
      es ← list_entry target (decode_dirent (sub chunk i 32)) es;
      mret (inl ((i + 32)%nat, es))
    else mret (inr es)) (0%nat, es).

Definition list_dir (target : list Z) (fd : Z) : M st (list listed) :=
  loop patience (λ x : list Z * list listed, let '(chunk, es) := x in
    r ← os_ (os_read fd (Z.of_nat FS_CHUNK_SIZE));
    if fst r >? 0 then
      let chunk := splice chunk 0 (snd r) in
      es ← list_chunk target chunk (fst r) es;
      mret (inl (chunk, es))
    else mret (inr es)) (junk_chunk, []).

(** ** Printing *)

Definition print_entry (longest_name : nat) (longest_size : Z) (e : listed) : M st unit :=
  len ← expect (visible_len e);
  (if fst e.2 : bool then
     out (str "  " ++ BOLD ++ YELLOW);; out_str (de_name e.1);; out (47 :: DEFAULT)
   else out (str "  ");; out_str (de_name e.1));;
  out (replicate (longest_name - len) 32);;
  out (32 :: right_aligned longest_size (s32 (snd e.2)) ++ [98; 10]).

Fixpoint print_entries (longest_name : nat) (longest_size : Z) (es : list listed) : M st unit :=
  match es with
  | [] => mret tt
  | e :: es => print_entry longest_name longest_size e;; print_entries longest_name longest_size es
  end.

(** ** The program; [args] is [argv] without the program's name. *)

Definition ls_target (args : list (list Z)) : M st (list Z) :=
  r ← os_ (os_getcwd 256);
  let cwd := match r with Some l => splice junk_cwd 0 l | None => junk_cwd end in
  match args with
  | [arg] => expect (normalize_path cwd arg junk_target)
  | _ => l ← expect (strncpy cwd 255); mret (l ++ [0])
  end.

Definition ls_dir (target : list Z) : M st Z :=
  out (str "Directory of ");; out_str target;; out [10];;
  fd ← os_str os_open target;
  match fd with
  | inl errno =>
      out (str "ls: '");; out_str target;; out (str "': " ++ strerror errno ++ [10]);; mret 1
  | inr fd =>
      es ← list_dir target fd;
      os_ (os_close fd);;
      longest_name ← expect (longest_name_of es 0);
      print_entries longest_name (longest_size_of es 0) es;;
      mret 0
  end.

Definition ls_main (args : list (list Z)) : M st Z :=
  if (1 <? length args)%nat then out (str "usage: ls [directory]" ++ [10]);; mret 1 else
  target ← ls_target args;
  st ← os_str os_stat target;
  match st with
  | None =>
      out (str "ls: ");; out_str (match args with [arg] => arg | _ => str "." ++ [0] end);;
      out (str ": no such file or directory" ++ [10]);; mret 1
  | Some (false, sz) =>
      out (str "  ");; out_str target;; out (32 :: decimal (s32 sz) ++ [98; 10]);; mret 0
  | Some (true, _) => ls_dir target
  end.
End ls.
