(* ===== verification/LsSpec.v ===== *)
(** * ls: what is listed

    A directory is read entry by entry; what is printed is a table of the entries that
    are in use, other than "." and "..", and for which [stat] succeeds, with one row for
    each and the sizes in one column. *)

From Stdlib Require Import Strings.String.
From S2P Require Import Prelude CLib FsTypes Dir Namei DirSpec Path KprintfSpec UserOs Ls.

(** ** Digits *)

Lemma count_digits_up_spec fuel n count : 0 < n < 10 ^ Z.of_nat fuel →
  count_digits_up fuel n count = count + Z.of_nat (length (dec_digits fuel n)).
Proof.
  revert n count. induction fuel as [|fuel IH]; intros n count Hn; [change (10 ^ Z.of_nat 0) with 1 in Hn; lia|].
  cbn [count_digits_up dec_digits]. rewrite Z.quot_div_nonneg, gtb_true by lia. destruct (Z.ltb_spec n 10).
  - rewrite Z.div_small by lia. destruct fuel; cbn; lia.
  - rewrite IH, length_app; [cbn; lia|]. rewrite Nat2Z.inj_succ, Z.pow_succ_r in Hn by lia.
    split; [apply Z.div_str_pos; lia|apply Z.div_lt_upper_bound; lia].
Qed.

(** [num_digits] is the number of characters that [%d] prints. *)
Lemma num_digits_decimal n : 0 ≤ n < 2147483648 → num_digits n = Z.of_nat (length (decimal n)).
Proof.
  intros Hn. unfold num_digits, decimal. zb. zcase; [by subst|].
  rewrite count_digits_up_spec; [lia|]. change (10 ^ Z.of_nat 10) with 10000000000. lia.
Qed.

(** ** Entries *)

Definition entry_name (de : fsdirent) : list Z := default [] (cstr (de_name de)).
Definition no_control (l : list Z) : Prop := Forall (λ c, c ≠ 27 ∧ c ≠ 10) l.

(** A terminated name without control characters. *)
Definition readable (de : fsdirent) : Prop :=
  ∃ s rest, de_name de = s ++ 0 :: rest ∧ nonzero s ∧ no_control s.

Definition hidden (de : fsdirent) : bool :=
  (de_inum de =? 0) || bool_decide (entry_name de = [DOT]) || bool_decide (entry_name de = [DOT; DOT]).

Lemma readable_name de : readable de →
  nonzero (entry_name de) ∧ no_control (entry_name de) ∧ ∃ rest, de_name de = entry_name de ++ 0 :: rest.
Proof. intros (s & rest & E & Hs & Hp). unfold entry_name. rewrite E, cstr_app by done. cbn. eauto. Qed.

Lemma visible_len_spec de st : readable de →
  visible_len (de, st) = Some (length (entry_name de) + if fst st : bool then 1 else 0)%nat.
Proof.
  intros Hr. destruct (readable_name de Hr) as (Hs & _ & rest & E). unfold visible_len. cbn. rewrite E, strlen_spec by done.
  cbn. destruct (fst st); f_equal; lia.
Qed.

(** The path of an entry. *)
Lemma entry_path_spec t pad name rest : nonzero t → t ≠ [] → (length t ≤ 255)%nat → nonzero name →
  ∃ full, entry_path (t ++ 0 :: pad) (name ++ 0 :: rest) = Some full ∧ buffered (in_dir t name) full.
Proof.
  intros Ht Hne Hl Hn. unfold entry_path. rewrite strlen_spec by done. cbn [mbind option_bind].
  destruct (buffered_copy t pad Ht) as (l & -> & Hb). cbn [mbind option_bind].
  destruct (exists_last Hne) as (t' & x & Et).
  assert (zlookup (t ++ 0 :: pad) (Z.of_nat (length t) - 1) = Some x) as ->.
  { rewrite Et, length_app. cbn [length]. rewrite zlookup_nat by lia.
    replace (Z.to_nat _) with (length t') by lia. rewrite <-(assoc_L (++)). cbn [app]. by apply list_lookup_middle. }
  assert (last t = Some x) as Hx by (rewrite Et; apply last_snoc). cbn [mbind option_bind]. unfold in_dir.
  pose proof (buffered_strlen _ _ Ht Hb) as El. rewrite (take_ge t) in El by done.
  destruct (Z.eqb_spec x SLASH) as [-> |Hx']; cbn [negb mbind option_bind].
  - rewrite El. cbn [mbind option_bind]. rewrite bool_decide_true by by right.
    destruct (buffered_append t (l ++ [0]) name rest Ht Hn Hb) as (b & E & Hb'). rewrite take_ge in E by done. eauto.
  - rewrite bool_decide_false by (intros [-> |E]; [done|congruence]). rewrite El. cbn [mbind option_bind].
    destruct (buffered_append t (l ++ [0]) [SLASH] [] Ht ltac:(repeat constructor; unfold SLASH; lia) Hb) as (b & E & Hb').
    rewrite take_ge in E by done. unfold str_slash. cbn [app] in E. rewrite E. cbn [mbind option_bind].
    assert (nonzero (t ++ [SLASH])) as Hts by (apply nonzero_app; [done|repeat constructor; unfold SLASH; lia]).
    rewrite (buffered_strlen _ _ Hts Hb'). cbn [mbind option_bind].
    destruct (buffered_append _ b name rest Hts Hn Hb') as (b' & E' & Hb''). rewrite <-(assoc_L (++)) in Hb''. eauto.
Qed.

(** ** The table *)

(** The widths of the two columns. *)
Definition shown_len (e : listed) : nat := length (entry_name e.1) + if fst e.2 : bool then 1 else 0.
Definition size_len (e : listed) : nat := length (decimal (s32 (snd e.2))).
Definition widest (f : listed → nat) (es : list listed) : nat := foldr (λ e n, Nat.max (f e) n) 0%nat es.

Definition shown_name (e : listed) : list Z :=
  if fst e.2 : bool then BOLD ++ YELLOW ++ entry_name e.1 ++ 47 :: DEFAULT else entry_name e.1.
Definition row (n k : nat) (e : listed) : list Z :=
  str "  " ++ shown_name e ++ replicate (n - shown_len e) 32 ++
  32 :: replicate (k - size_len e) 32 ++ decimal (s32 (snd e.2)) ++ [98; 10].
Definition table (es : list listed) : list Z := concat (row (widest shown_len es) (widest size_len es) <$> es).

(** Entries that the program can print: readable, of a size that is an [int]. *)
Definition printable (e : listed) : Prop := readable e.1 ∧ 0 ≤ snd e.2 < 2147483648.

Lemma longest_name_spec es n : Forall printable es → longest_name_of es n = Some (Nat.max n (widest shown_len es)).
Proof.
  intros H. revert n. induction H as [|[de st] es [Hr _] _ IH]; intros n; [cbn; f_equal; lia|].
  cbn [longest_name_of]. rewrite visible_len_spec by done. cbn [mbind option_bind]. rewrite IH. f_equal.
  change (widest shown_len ((de, st) :: es)) with (Nat.max (length (entry_name de) + if fst st : bool then 1 else 0) (widest shown_len es)).
  case_match eqn:E; [apply Nat.ltb_lt in E|apply Nat.ltb_ge in E]; lia.
Qed.

Lemma longest_size_spec es n : Forall printable es → longest_size_of es (Z.of_nat n) = Z.of_nat (Nat.max n (widest size_len es)).
Proof.
  intros H. revert n. induction H as [|e es [_ Hs] _ IH]; intros n; [cbn; lia|].
  cbn [longest_size_of]. rewrite num_digits_decimal by (rewrite s32_small; lia). fold (size_len e).
  change (widest size_len (e :: es)) with (Nat.max (size_len e) (widest size_len es)).
  destruct (Z.gtb_spec (Z.of_nat (size_len e)) (Z.of_nat n)); rewrite IH; lia.
Qed.

(** Every row ends in the same column. *)
Definition columns (l : list Z) : Z := vcol (vt_run vt_start l) - 1.

Lemma widest_le f e es : e ∈ es → (f e ≤ widest f es)%nat.
Proof. induction 1; unfold widest in *; cbn [foldr]; lia. Qed.

Lemma columns_plain v l : vmode_ v = Ground → no_control l →
  vmode_ (vt_run v l) = Ground ∧ vcol (vt_run v l) = vcol v + Z.of_nat (length l).
Proof. intros Hm Hl. destruct (vt_text v l Hm Hl) as (? & ? & _). done. Qed.

Lemma columns_name v e : readable e.1 → vmode_ v = Ground →
  vmode_ (vt_run v (shown_name e)) = Ground ∧ vcol (vt_run v (shown_name e)) = vcol v + Z.of_nat (shown_len e).
Proof.
  intros Hr Hm. destruct (readable_name _ Hr) as (_ & Hp & _). unfold shown_name, shown_len.
  assert (∀ v, vmode_ v = Ground → vt_run v BOLD = v ∧ vt_run v YELLOW = v ∧ vt_run v DEFAULT = v) as Hc.
  { intros [g r c m] Hm'. cbn in Hm'. by subst m. }
  destruct (fst e.2); [|rewrite Nat.add_0_r; by apply columns_plain].
  change (47 :: DEFAULT) with ([47] ++ DEFAULT). rewrite !vt_run_app.
  destruct (Hc v Hm) as [E1 [E2 _]]. rewrite E1, E2. rewrite <-(vt_run_app v).
  destruct (columns_plain v (entry_name e.1 ++ [47]) Hm) as [H1 H2].
  { apply Forall_app. split; [done|]. by repeat constructor. }
  destruct (Hc _ H1) as (_ & _ & E3). rewrite E3. split; [done|]. rewrite H2, length_app. done.
Qed.

Lemma row_columns es e : Forall printable es → e ∈ es →
  ∃ text, row (widest shown_len es) (widest size_len es) e = text ++ [10] ∧
    columns text = Z.of_nat (4 + widest shown_len es + widest size_len es).
Proof.
  intros Hes He. rewrite Forall_forall in Hes. destruct (Hes e He) as [Hr Hs].
  pose proof (widest_le shown_len e es He) as Hn. pose proof (widest_le size_len e es He) as Hk.
  exists (str "  " ++ shown_name e ++ replicate (widest shown_len es - shown_len e) 32 ++
    32 :: replicate (widest size_len es - size_len e) 32 ++ decimal (s32 (snd e.2)) ++ [98]).
  split; [unfold row; rewrite <-!(assoc_L (++)); cbn [app]; by rewrite <-!(assoc_L (++))|].
  unfold columns. rewrite !vt_run_app.
  destruct (columns_plain vt_start (str "  ") eq_refl) as [H1 H2]; [by repeat constructor|].
  destruct (columns_name _ e Hr H1) as [H3 H4].
  rewrite <-(vt_run_app _ (replicate _ _)).
  edestruct (columns_plain _ (replicate (widest shown_len es - shown_len e) 32 ++
    32 :: replicate (widest size_len es - size_len e) 32 ++ decimal (s32 (snd e.2)) ++ [98]) H3) as [_ H5].
  { apply Forall_app. split; [by apply Forall_replicate|]. constructor; [done|]. apply Forall_app. split; [by apply Forall_replicate|].
    apply Forall_app. split; [|by repeat constructor]. rewrite s32_small by lia. unfold decimal. zb.
    eapply Forall_impl; [apply dec_digits_range; lia|]. cbn. lia. }
  rewrite H5, H4, H2, length_app. cbn [length]. rewrite !length_app, !length_replicate. fold (size_len e).
  change (length (str "  ")) with 2%nat. cbn [length vcol vt_start]. unfold size_len in *. lia.
Qed.

(** The argument vector, the path that is listed, and what it is called in messages. *)
Definition ls_argv (a : option (list Z)) : list (list Z) := match a with Some a => [a ++ [0]] | None => [] end.
Definition ls_path (cwd : list Z) (a : option (list Z)) : list Z :=
  match a with Some a => take 255 (render (norm (comps (take 255 (full_path cwd a))))) | None => cwd end.

Lemma ls_path_ok cwd a : nonzero cwd → cwd ≠ [] → (length cwd < 255)%nat → nonzero (default [] a) →
  nonzero (ls_path cwd a) ∧ ls_path cwd a ≠ [] ∧ (length (ls_path cwd a) ≤ 255)%nat.
Proof.
  intros Hc Hne Hl Ha. destruct a as [a|]; cbn [default ls_path] in *; [|split; [done|split; [done|lia]]].
  split; [|split; [done|rewrite length_take; lia]]. apply (Forall_take _ 255), nonzero_render, norm_nonzero, comps_nonzero, Forall_take.
  unfold full_path. repeat case_bool_decide; [done|by apply nonzero_app|].
  apply nonzero_app; [done|]. constructor; [unfold SLASH; lia|done].
Qed.

(** ** The program *)

Section ls.
Context {W : Type} `{!Os W}.

(** The entries of [des] that are listed under [t], by the [stat] calls from [w] on. *)
Inductive stats (t : list Z) : list fsdirent → W → list listed → W → Prop :=
| stats_nil w : stats t [] w [] w
| stats_hidden de des w es w' : hidden de = true → stats t des w es w' → stats t (de :: des) w es w'
| stats_gone de des w w1 es w' : hidden de = false →
  os_stat (take 255 (in_dir t (entry_name de)) ++ [0]) w = Ok None w1 → stats t des w1 es w' →
  stats t (de :: des) w es w'
| stats_found de des w st w1 es w' : hidden de = false →
  os_stat (take 255 (in_dir t (entry_name de)) ++ [0]) w = Ok (Some st) w1 → stats t des w1 es w' →
  stats t (de :: des) w ((de, st) :: es) w'.

(** The same for the whole directory, read in [n] chunks through [fd]. *)
Inductive dir_reads (t : list Z) (fd : Z) : nat → W → list listed → W → Prop :=
| dir_end k l w w1 : os_read fd 512 w = Ok (k, l) w1 → k ≤ 0 → dir_reads t fd 0 w [] w1
| dir_chunk n d w w1 es1 w2 es2 w3 : os_read fd 512 w = Ok (Z.of_nat (length d), d) w1 →
  dir_sized d → (0 < length d ≤ 512)%nat → Forall readable (dirents d) →
  stats t (dirents d) w1 es1 w2 → dir_reads t fd n w2 es2 w3 → dir_reads t fd (S n) w (es1 ++ es2) w3.

Lemma os_str_wp {A} (f : list Z → M W A) p s w a w' (Q : A → prog W → Prop) P x :
  cstr p = Some s → f (s ++ [0]) w = Ok a w' → os_world x = w → Q a (set_os_world w' x) →
  wp (os_str f p) Q P x.
Proof.
  intros E Ef <- HQ. unfold os_str. rewrite E. wp_steps. apply wp_zoom. eapply wp_ok; [exact Ef|exact HQ].
Qed.

Lemma os_wp {A} (m : M W A) w a w' (Q : A → prog W → Prop) P x :
  m w = Ok a w' → os_world x = w → Q a (set_os_world w' x) → wp (os_ m) Q P x.
Proof. intros E <- HQ. apply wp_zoom. eapply wp_ok; [exact E|exact HQ]. Qed.

Lemma out_str_wp p s (Q : unit → prog W → Prop) P x : cstr p = Some s → wp (out s) Q P x → wp (out_str p) Q P x.
Proof. intros E H. unfold out_str. rewrite E. wp_steps. exact H. Qed.

Section target.
Context (t pad : list Z) (Ht : nonzero t) (Hne : t ≠ []) (Hlen : (length t ≤ 255)%nat).

(** Entries beyond the sixty-fourth are dropped. *)
Definition capped (es : list listed) : list listed := take 64 es.

Lemma capped_snoc es new e : (length es ≤ 64)%nat →
  capped ((if Z.of_nat (length es) <? MAX_DIR_ENTRIES then es ++ [e] else es) ++ new) = capped (es ++ e :: new).
Proof.
  intros Hl. unfold capped, MAX_DIR_ENTRIES. destruct (Z.ltb_spec (Z.of_nat (length es)) 64) as [H|H].
  - by rewrite <-(assoc_L (++)).
  - rewrite !take_app_le by lia. done.
Qed.

Lemma list_entry_wp de es w (Q : list listed → prog W → Prop) P x : readable de → os_world x = w →
  (if hidden de then Q es x else ∃ r w1, os_stat (take 255 (in_dir t (entry_name de)) ++ [0]) w = Ok r w1 ∧
    Q (match r with None => es | Some st => if Z.of_nat (length es) <? MAX_DIR_ENTRIES then es ++ [(de, st)] else es end)
    (set_os_world w1 x)) →
  wp (list_entry (t ++ 0 :: pad) de es) Q P x.
Proof.
  intros Hr Hw H. destruct (readable_name de Hr) as (Hs & _ & rest & E). unfold list_entry, hidden in *.
  destruct (de_inum de =? 0); [exact H|]. cbn [orb] in H. rewrite E.
  destruct (strcmp_spec (entry_name de) [DOT] rest []) as (r1 & E1 & H1); [done|by repeat constructor|].
  destruct (strcmp_spec (entry_name de) [DOT; DOT] rest []) as (r2 & E2 & H2); [done|by repeat constructor|].
  cbn [app] in E1, E2. unfold str_dot, str_dotdot. rewrite E1. wp_steps. destruct (Z.eqb_spec r1 0) as [Z1|N1].
  { rewrite (bool_decide_true _ (proj1 H1 Z1)) in H. exact H. }
  rewrite bool_decide_false in H by tauto. rewrite E2. wp_steps. destruct (Z.eqb_spec r2 0) as [Z2|N2].
  { rewrite (bool_decide_true _ (proj1 H2 Z2)) in H. exact H. }
  rewrite bool_decide_false in H by tauto. destruct H as (r & w1 & Es & HQ).
  destruct (entry_path_spec t pad (entry_name de) rest) as (full & -> & Hb); [done..|]. wp_steps.
  eapply os_str_wp; [by apply (buffered_cstr (in_dir t (entry_name de))); [apply nonzero_in_dir|]|exact Es|done|].
  destruct r as [st|]; by wp_steps.
Qed.

(** One chunk; [pre] entries of it have been seen. *)
Lemma list_chunk_wp d chunk pre des w new w' : dir_sized d → (length d ≤ 512)%nat → sub chunk 0 (length d) = d →
  dirents d = pre ++ des → Forall readable des → stats t des w new w' →
  ∀ fuel es (Q : list listed → prog W → Prop) P x, (length des < fuel)%nat → (length es ≤ 64)%nat → os_world x = w →
  Q (capped (es ++ new)) (set_os_world w' x) →
  wp (loop fuel (λ x : nat * list listed, let '(i, es) := x in
    if Z.of_nat i <? Z.of_nat (length d) then
      es ← list_entry (t ++ 0 :: pad) (decode_dirent (sub chunk i 32)) es;
      mret (inl ((i + 32)%nat, es))
    else mret (inr es)) ((32 * length pre)%nat, es)) Q P x.
Proof.
  intros Hd Hl Hc Ep Hr Hs. revert pre Ep Hr.
  assert (∀ pre (de : fsdirent) des', dirents d = pre ++ de :: des' →
    (32 * length pre < length d)%nat ∧ decode_dirent (sub chunk (32 * length pre) 32) = de) as Hent.
  { intros pre de des' E. pose proof (f_equal length E) as El. rewrite length_dirents, length_app in El. cbn [length] in El.
    unfold dir_sized in Hd. split; [rewrite Hd, El; lia|]. pose proof (dirents_lookup d (length pre) ltac:(rewrite El; lia)) as Hk.
    rewrite E, list_lookup_middle in Hk by done. injection Hk as ->. f_equal. rewrite <-Hc at 1. unfold sub.
    rewrite drop_0. rewrite skipn_firstn_comm, take_take. f_equal. lia. }
  induction Hs as [w|de des w es' w' Hh _ IH|de des w w1 es' w' Hh Es _ IH|de des w st w1 es' w' Hh Es _ IH];
    intros pre Ep Hr [|fuel] es Q P x Hf Hes Hw HQ; cbn [length] in Hf; try lia.
  { cbn [loop]. apply wp_bind. pose proof (f_equal length Ep) as El. rewrite app_nil_r, length_dirents in El. unfold dir_sized in Hd.
    rewrite (proj2 (Z.ltb_ge _ _)) by (rewrite Hd, El; lia). wp_steps. unfold capped in HQ. rewrite app_nil_r, take_ge in HQ by done.
    subst w. by destruct x. }
  all: destruct (Hent pre de des Ep) as [Hlt Hde]; apply Forall_cons in Hr as [Hr1 Hr2]; cbn [loop]; apply wp_bind.
  all: rewrite (proj2 (Z.ltb_lt _ _)) by lia; rewrite Hde; apply wp_bind.
  all: eapply list_entry_wp; [done|exact Hw|]; rewrite Hh.
  all: replace (32 * length pre + 32)%nat with (32 * length (pre ++ [de]))%nat by (rewrite length_app; cbn; lia).
  - wp_steps. apply IH; [by rewrite <-(assoc_L (++))|done|lia|done|done|done].
  - exists None, w1. split; [exact Es|]. wp_steps. apply IH; [by rewrite <-(assoc_L (++))|done|lia|done|done|done].
  - exists (Some st), w1. split; [exact Es|]. wp_steps. apply IH; [by rewrite <-(assoc_L (++))|done|lia| |done|].
    + unfold MAX_DIR_ENTRIES. destruct (Z.ltb_spec (Z.of_nat (length es)) 64); [rewrite length_app; cbn|]; lia.
    + rewrite capped_snoc by done. exact HQ.
Qed.
Lemma capped_app a b : capped (capped a ++ b) = capped (a ++ b).
Proof.
  unfold capped. destruct (decide (length a ≤ 64)%nat); [by rewrite (take_ge a)|].
  rewrite !take_app_le by (rewrite ?length_take; lia). by rewrite take_take.
Qed.

Lemma list_dir_wp fd n w new w' : dir_reads t fd n w new w' →
  ∀ fuel chunk es (Q : list listed → prog W → Prop) P x, (n < fuel)%nat → length chunk = FS_CHUNK_SIZE → (length es ≤ 64)%nat →
  os_world x = w → Q (capped (es ++ new)) (set_os_world w' x) →
  wp (loop fuel (λ x : list Z * list listed, let '(chunk, es) := x in
    r ← os_ (os_read fd (Z.of_nat FS_CHUNK_SIZE));
    if fst r >? 0 then
      let chunk := splice chunk 0 (snd r) in
      es ← list_chunk (t ++ 0 :: pad) chunk (fst r) es;
      mret (inl (chunk, es))
    else mret (inr es)) (chunk, es)) Q P x.
Proof.
  induction 1 as [k l w w1 Er Hk|n d w w1 es1 w2 es2 w3 Er Hd Hl Hr Hs _ IH]; intros [|fuel] chunk es Q P x Hf Hc Hes Hw HQ; try lia.
  all: cbn [loop]; apply wp_bind, wp_bind; eapply os_wp; [exact Er|done|]; cbn [fst snd].
  - rewrite gtb_false by done. wp_steps. unfold capped in HQ. rewrite app_nil_r, take_ge in HQ by done. exact HQ.
  - rewrite gtb_true by lia. apply wp_bind. eapply (list_chunk_wp d _ [] (dirents d)); [done|lia| |done|done|exact Hs| |done|done|].
    + apply sub_splice_eq. rewrite Hc. unfold FS_CHUNK_SIZE. lia.
    + unfold dir_sized in Hd. rewrite length_dirents. lia.
    + wp_steps. apply IH; [lia| | |done|].
      * rewrite length_splice; [done|]. rewrite Hc. unfold FS_CHUNK_SIZE. lia.
      * unfold capped. rewrite length_take. lia.
      * rewrite capped_app, <-(assoc_L (++)). exact HQ.
Qed.

Lemma stats_readable des w es w' : stats t des w es w' → Forall readable des → Forall (λ e : listed, readable e.1) es.
Proof. induction 1; intros Hr; [constructor|..]; apply Forall_cons in Hr as [Hr1 Hr2]; auto. Qed.

Lemma dir_reads_readable fd n w es w' : dir_reads t fd n w es w' → Forall (λ e : listed, readable e.1) es.
Proof. induction 1; [constructor|]. apply Forall_app. split; [by eapply stats_readable|done]. Qed.
End target.

Lemma print_entry_run n k e o (w : W) : readable e.1 →
  print_entry n (Z.of_nat k) e (Prog o w) = Ok tt (Prog (o ++ row n k e) w).
Proof.
  intros Hr. destruct (readable_name _ Hr) as (Hs & _ & rest & E). unfold print_entry. destruct e as [de st].
  rewrite visible_len_spec by done. unfold out_str, row, shown_name, shown_len, right_aligned, size_len. cbn [fst snd] in *.
  assert (cstr (de_name de) = Some (entry_name de)) as -> by (rewrite E at 1; by apply cstr_app).
  replace (Z.to_nat (Z.of_nat k - Z.of_nat (length (decimal (s32 st.2))))) with (k - length (decimal (s32 st.2)))%nat by lia.
  destruct st as [[] sz]; unfold mbind, M_bind, out, modify, expect, mret, M_ret, set_stdout; cbn [fst snd stdout os_world].
  all: do 2 f_equal; rewrite <-!(assoc_L (++)); do 2 f_equal; rewrite <-?(assoc_L (++)); cbn [app]; by rewrite <-?(assoc_L (++)).
Qed.

Lemma print_entries_run n k es o (w : W) : Forall printable es →
  print_entries n (Z.of_nat k) es (Prog o w) = Ok tt (Prog (o ++ concat (row n k <$> es)) w).
Proof.
  intros H. revert o. induction H as [|e es [Hr _] _ IH]; intros o; cbn [print_entries fmap list_fmap concat].
  - by rewrite app_nil_r.
  - unfold mbind, M_bind. rewrite print_entry_run by done. rewrite IH. by rewrite <-(assoc_L (++)).
Qed.

Variable strerror : Z → list Z.
Variable junk_cwd : list Z.
Variable junk_chunk : list Z.
Variable junk_target : list Z.
Variable patience : nat.
Hypothesis Hjunk_cwd : length junk_cwd = 256%nat.
Hypothesis Hjunk_chunk : length junk_chunk = FS_CHUNK_SIZE.
Hypothesis Hjunk_target : length junk_target = 256%nat.

(** What [ls] does with directory or file [t], which the user called [arg]. *)
Inductive ls_spec (arg t : list Z) (w : W) : Z → list Z → W → Prop :=
| ls_missing w1 : os_stat (t ++ [0]) w = Ok None w1 →
  ls_spec arg t w 1 (str "ls: " ++ arg ++ str ": no such file or directory" ++ [10]) w1
| ls_file sz w1 : os_stat (t ++ [0]) w = Ok (Some (false, sz)) w1 →
  ls_spec arg t w 0 (str "  " ++ t ++ 32 :: decimal (s32 sz) ++ [98; 10]) w1
| ls_refused sz w1 errno w2 : os_stat (t ++ [0]) w = Ok (Some (true, sz)) w1 → os_open (t ++ [0]) w1 = Ok (inl errno) w2 →
  ls_spec arg t w 1 (str "Directory of " ++ t ++ 10 :: str "ls: '" ++ t ++ str "': " ++ strerror errno ++ [10]) w2
| ls_table sz w1 fd w2 n es w3 r w4 : os_stat (t ++ [0]) w = Ok (Some (true, sz)) w1 →
  os_open (t ++ [0]) w1 = Ok (inr fd) w2 → dir_reads t fd n w2 es w3 → (n < patience)%nat →
  Forall (λ e : listed, 0 ≤ snd e.2 < 2147483648) es → os_close fd w3 = Ok r w4 →
  ls_spec arg t w 0 (str "Directory of " ++ t ++ 10 :: table (take 64 es)) w4.

Lemma ls_target_wp cwd a w0 w Q P (x : prog W) : nonzero cwd → (length cwd < 255)%nat → nonzero (default [] a) →
  os_getcwd 256 w0 = Ok (Some (cwd ++ [0])) w → os_world x = w0 →
  (∀ pad, Q (ls_path cwd a ++ 0 :: pad) (set_os_world w x)) →
  wp (ls_target junk_cwd junk_target (ls_argv a)) Q P x.
Proof.
  intros Hc Hl Ha E Hx HQ. unfold ls_target. apply wp_bind. eapply os_wp; [exact E|done|]. cbv beta iota zeta.
  assert (splice junk_cwd 0 (cwd ++ [0]) = cwd ++ 0 :: drop (length (cwd ++ [0])) junk_cwd) as ->.
  { unfold splice. cbn [take app]. by rewrite <-(assoc_L (++)). }
  destruct a as [a|]; cbn [ls_argv ls_path default] in *.
  - destruct (normalize_path_spec cwd (drop (length (cwd ++ [0])) junk_cwd) a [] junk_target) as [rest En]; [done|done|by left|lia|].
    unfold normalize_path. rewrite En, Hjunk_target. wp_steps. apply HQ.
  - destruct (buffered_copy cwd (drop (length (cwd ++ [0])) junk_cwd) Hc) as (l & -> & r & Er & _). wp_steps.
    rewrite Er, take_ge by lia. apply HQ.
Qed.

Local Ltac ls_out := repeat first
  [ apply wp_bind, wp_modify | apply wp_bind; eapply out_str_wp; [eassumption|]; apply wp_modify | apply wp_bind, wp_bind, wp_modify ].

Local Ltac ls_done := split; [done|]; unfold set_stdout, set_os_world; cbn [stdout os_world]; f_equal; by rewrite <-!(assoc_L (++)).

(** What the whole program does with the arguments [args]: more than one gives the
    usage line, with no call made; otherwise the argument, or ".", is listed from
    the current directory. *)
Inductive ls_run (args : list (list Z)) (w0 : W) : Z → list Z → W → Prop :=
| ls_usage : (1 < length args)%nat → ls_run args w0 1 (str "usage: ls [directory]" ++ [10]) w0
| ls_listed cwd w status text w' : (length args ≤ 1)%nat → nonzero cwd → cwd ≠ [] → (length cwd < 255)%nat →
  os_getcwd 256 w0 = Ok (Some (cwd ++ [0])) w →
  ls_spec (default (str ".") (head args)) (ls_path cwd (head args)) w status text w' → ls_run args w0 status text w'.

Lemma ls_one cwd a w0 w o status text w' : nonzero cwd → cwd ≠ [] → (length cwd < 255)%nat → nonzero (default [] a) →
  os_getcwd 256 w0 = Ok (Some (cwd ++ [0])) w →
  ls_spec (default (str ".") a) (ls_path cwd a) w status text w' →
  ls_main strerror junk_cwd junk_chunk junk_target patience (ls_argv a) (Prog o w0) = Ok status (Prog (o ++ text) w').
Proof.
  intros Hc Hne Hl Ha Eg Hs. destruct (ls_path_ok cwd a Hc Hne Hl Ha) as (Ht & Htne & Htl).
  assert (wp (ls_main strerror junk_cwd junk_chunk junk_target patience (ls_argv a))
    (λ st s', st = status ∧ s' = Prog (o ++ text) w') (λ _, False) (Prog o w0)) as H.
  2:{ revert H. unfold wp. by destruct (ls_main _ _ _ _ _ _ _) as [st s'| | |]; intros H; try done; destruct H as [-> ->]. }
  unfold ls_main. rewrite (proj2 (Nat.ltb_ge _ _)) by (destruct a; cbn; lia). apply wp_bind.
  eapply (ls_target_wp cwd); [done|done|done|exact Eg|done|]. intros pad. revert Ht Htne Htl Hs.
  generalize (ls_path cwd a). intros t Ht Htne Htl Hs. assert (cstr (t ++ 0 :: pad) = Some t) as Ect by by apply cstr_app.
  destruct Hs as [w1 E|sz w1 E|sz w1 errno w2 E Eo|sz w1 fd w2 n es w3 r w4 E Eo Hr Hn Hsz Ec].
  all: apply wp_bind; eapply os_str_wp; [exact Ect|exact E|done|].
  - ls_out. destruct a as [a|]; cbn [ls_argv default]; apply wp_bind.
    + eapply out_str_wp; [by apply cstr_app|]. apply wp_modify. ls_out. apply wp_ret. ls_done.
    + eapply out_str_wp; [apply (cstr_app (str ".") []); by repeat constructor|]. apply wp_modify. ls_out. apply wp_ret. ls_done.
  - ls_out. apply wp_ret. ls_done.
  - unfold ls_dir. ls_out. apply wp_bind. eapply os_str_wp; [exact Ect|exact Eo|done|]. ls_out. apply wp_ret. ls_done.
  - assert (Forall printable es) as Hp.
    { pose proof (dir_reads_readable _ _ _ _ _ _ Hr) as Hrd. apply Forall_forall. intros e He. rewrite Forall_forall in Hsz, Hrd.
      split; [by apply Hrd|by apply Hsz]. }
    unfold ls_dir. ls_out. apply wp_bind. eapply os_str_wp; [exact Ect|exact Eo|done|]. apply wp_bind. unfold list_dir.
    eapply list_dir_wp; [done|done|done|exact Hr|exact Hn|exact Hjunk_chunk|cbn; lia|done|]. apply wp_bind.
    eapply os_wp; [exact Ec|done|]. cbn [app]. change (capped es) with (take 64 es).
    rewrite (longest_name_spec _ 0), (longest_size_spec _ 0) by (by apply Forall_take). wp_steps.
    eapply wp_ok; [by apply print_entries_run, Forall_take|]. wp_steps. ls_done.
Qed.

(** C38: [ls] with more than one argument prints the usage line, makes no call and gives
    status 1; with at most one it lists the directory, or the file, that the argument
    names from the current directory: on a directory it prints the header and a table
    with one row for each of the first 64 entries that are in use, are not "." or ".." and
    can be examined, with the names filled up to the longest and the sizes right aligned;
    what does not exist or cannot be opened gives the message and status 1. *)
Theorem ls_lists args w0 o status text w' : Forall nonzero args → ls_run args w0 status text w' →
  ls_main strerror junk_cwd junk_chunk junk_target patience ((λ a, a ++ [0]) <$> args) (Prog o w0) =
    Ok status (Prog (o ++ text) w').
Proof.
  intros Ha [Hn|cwd w st tx w1 Hn Hc Hne Hl Eg Hs].
  - unfold ls_main. rewrite length_fmap, (proj2 (Nat.ltb_lt _ _)) by done. done.
  - destruct args as [|a [|? ?]]; [| |cbn in Hn; lia].
    + eapply (ls_one cwd None); try done. constructor.
    + eapply (ls_one cwd (Some a)); try done. by inversion Ha.
Qed.
End ls.

(** ** A directory with a file in it *)

Definition toy_entry : list Z := [5; 0] ++ str "readme" ++ zeros 24.
Definition toy_os : Os nat := {|
  os_stat := λ path, mret (if bool_decide (path = [SLASH; 0]) then Some (true, 64) else Some (false, 1234));
  os_open := λ _, mret (inr 3);
  os_read := λ _ _, n ← get; if (n =? 0)%nat then modify (λ _, 1%nat);; mret (32, toy_entry) else mret (0, []);
  os_close := λ _, mret 0;
  os_getcwd := λ _, mret (Some [SLASH; 0]);
  os_chdir := λ _, mret 0;
  os_spawn := λ _, mret (-1);
  os_wait := λ _, mret (-1);
  os_kmesg := λ _, mret (0, [])
|}.

Lemma toy_readable : Forall readable (dirents toy_entry).
Proof.
  change (dirents toy_entry) with [Dirent 5 (str "readme" ++ zeros 24)]. constructor; [|constructor].
  exists (str "readme"), (zeros 23). split; [done|]. split; by repeat constructor.
Qed.

(** On "/", and with two arguments. *)
Lemma ls_lists_witness :
  let ls args := ls_main (Os0 := toy_os) (λ _, []) (zeros 256) (zeros 512) (zeros 256) 2 args (Prog [] 0%nat) in
  ls [] = Ok 0 (Prog (str "Directory of /" ++ 10 :: str "  readme 1234b" ++ [10]) 1%nat) ∧
  ls [str "a" ++ [0]; str "b" ++ [0]] = Ok 1 (Prog (str "usage: ls [directory]" ++ [10]) 0%nat).
Proof.
  split.
  - apply (ls_lists (Os0 := toy_os) (λ _, []) (zeros 256) (zeros 512) (zeros 256) 2 eq_refl eq_refl eq_refl [] 0%nat []
      0 (str "Directory of /" ++ 10 :: str "  readme 1234b" ++ [10]) 1%nat); [constructor|].
    apply (ls_listed (Os0 := toy_os) _ _ [] 0%nat [SLASH] 0%nat); [cbn; lia|by repeat constructor|done|cbn; lia|done|].
    apply (ls_table (Os0 := toy_os) _ 2 (str ".") [SLASH] 0%nat 64 0%nat 3 0%nat 1 [(Dirent 5 (str "readme" ++ zeros 24), (false, 1234))] 1%nat 0 1%nat);
      [done|done| |lia|by repeat constructor|done].
    apply (dir_chunk (Os0 := toy_os) [SLASH] 3 0 toy_entry 0%nat 1%nat [(Dirent 5 (str "readme" ++ zeros 24), (false, 1234))] 1%nat [] 1%nat);
      [done|done|split; [by apply Nat.ltb_lt|by apply Nat.leb_le]|exact toy_readable| |by apply (dir_end (Os0 := toy_os) _ _ 0 [])].
    apply (stats_found (Os0 := toy_os) _ _ [] 1%nat (false, 1234) 1%nat); [done|done|constructor].
  - apply (ls_lists (Os0 := toy_os) (λ _, []) (zeros 256) (zeros 512) (zeros 256) 2 eq_refl eq_refl eq_refl
      [str "a"; str "b"] 0%nat [] 1 (str "usage: ls [directory]" ++ [10]) 0%nat); [by repeat constructor|].
    apply (ls_usage (Os0 := toy_os)). cbn. lia.
Defined.
