(* ===== verification/Ramfb.v ===== *)
(** * The framebuffer device

    kernel/ramfb.c: the fw_cfg device of the machine is searched for the file
    "etc/ramfb", into which the description of the framebuffer is written by a DMA
    transfer. The device is an interface; its registers are big-endian. The DMA
    descriptor and the description lie on the stack at the addresses [dma_addr] and
    [cfg_addr], and the device sees their bytes. *)

From Stdlib Require Import Strings.String.
From S2P Require Import Prelude CLib UserOs.

Definition FW_CFG_FILE_DIR : Z := 25.
Definition QEMU_CFG_DMA_CTL_SELECT : Z := 8.
Definition QEMU_CFG_DMA_CTL_WRITE : Z := 16.
Definition DRM_FORMAT_XRGB8888 : Z := 875713112.
Definition RAMFB_WIDTH : Z := 1280.
Definition RAMFB_HEIGHT : Z := 800.

(** ** Byte order *)

(** [__builtin_bswap16], [32] and [64] for 2, 4 and 8 bytes. *)
Definition bswap (n : nat) (x : Z) : Z := le_val (rev (le_bytes n x)).
Definition be_bytes (n : nat) (x : Z) : list Z := rev (le_bytes n x).

Lemma le_bytes_bswap n x : le_bytes n (bswap n x) = be_bytes n x.
Proof.
  assert (bytes (be_bytes n x)) as Hb by (apply Forall_rev, bytes_le_bytes).
  assert (length (be_bytes n x) = n) as Hl by (unfold be_bytes; by rewrite length_rev, length_le_bytes).
  rewrite <-Hl at 1. by apply le_bytes_le_val.
Qed.

Lemma bswap_be n x : 0 ≤ x < 256 ^ Z.of_nat n → bswap n (le_val (be_bytes n x)) = x.
Proof.
  intros Hx. unfold bswap, be_bytes.
  assert (le_bytes n (le_val (rev (le_bytes n x))) = rev (le_bytes n x)) as ->.
  { apply (le_bytes_bswap n x). }
  rewrite rev_involutive, le_val_le_bytes. by apply Z.mod_small.
Qed.

Lemma bswap_bswap n x : 0 ≤ x < 256 ^ Z.of_nat n → bswap n (bswap n x) = x.
Proof. apply bswap_be. Qed.

(** ** The device *)

Class FwCfg (D : Type) := {
  (** A write to the selector register, and reads of 8 and of 32 bits from the data
      register. *)
  fw_select : Z → D → D;
  fw_byte : D → Z * D;
  fw_word : D → Z * D;
  (** A write to the DMA register, with the memory that the device can read. *)
  fw_dma : Z → list (Z * list Z) → D → D;
  (** A read of the control word of the transfer, which the device changes. *)
  fw_control : D → Z * D
}.

Section ramfb.
Context {D : Type} `{!FwCfg D}.
Variables fb_addr cfg_addr dma_addr : Z.
Variable patience : nat.

Record ramfb : Type := Ramfb { g_framebuffer : list Z; fwcfg : D }.

Definition dev_do (f : D → D) : M ramfb unit := modify (λ s, Ramfb (g_framebuffer s) (f (fwcfg s))).
Definition dev_get (f : D → Z * D) : M ramfb Z :=
  s ← get; modify (λ s, Ramfb (g_framebuffer s) (snd (f (fwcfg s))));; mret (fst (f (fwcfg s))).

Definition str_ramfb : list Z := str "etc/ramfb" ++ [0].

Fixpoint read_file (n : nat) : M ramfb (list Z) :=
  match n with O => mret [] | S n => b ← dev_get fw_byte; l ← read_file n; mret (b :: l) end.

(** The selector of the file, or 0, after at most [n] entries of the directory. *)
Fixpoint find_ramfb (n : nat) : M ramfb Z :=
  match n with
  | O => mret 0
  | S n =>
      file ← read_file 64;
      d ← expect (strcmp (sub file 8 56) str_ramfb);
      if d =? 0 then mret (bswap 2 (le_val (sub file 4 2))) else find_ramfb n
  end.

Definition ramfb_cfg : list Z :=
  le_bytes 8 (bswap 8 fb_addr) ++ le_bytes 4 (bswap 4 DRM_FORMAT_XRGB8888) ++ le_bytes 4 0 ++
  le_bytes 4 (bswap 4 RAMFB_WIDTH) ++ le_bytes 4 (bswap 4 RAMFB_HEIGHT) ++ le_bytes 4 (bswap 4 (RAMFB_WIDTH * 4)).

Definition ramfb_dma (ramfb_select : Z) : list Z :=
  le_bytes 4 (bswap 4 (u32 (Z.lor (Z.lor (Z.shiftl ramfb_select 16) QEMU_CFG_DMA_CTL_SELECT) QEMU_CFG_DMA_CTL_WRITE))) ++
  le_bytes 4 (bswap 4 (Z.of_nat (length ramfb_cfg))) ++ le_bytes 8 (bswap 8 cfg_addr).

(** [memset] with the number of pixels clears a quarter of the words. *)
Definition clear_framebuffer : M ramfb unit :=
  modify (λ s, let n := Z.to_nat (RAMFB_WIDTH * RAMFB_HEIGHT / 4) in
    Ramfb (replicate n 0 ++ drop n (g_framebuffer s)) (fwcfg s)).

Definition ramfb_init : M ramfb unit :=
  clear_framebuffer;;
  dev_do (fw_select (bswap 2 FW_CFG_FILE_DIR));;
  w ← dev_get fw_word;
  let file_count := bswap 4 w in
  ramfb_select ← find_ramfb (Z.to_nat file_count);
  if ramfb_select =? 0 then panic else
  dev_do (fw_dma (bswap 8 dma_addr) [(cfg_addr, ramfb_cfg); (dma_addr, ramfb_dma ramfb_select)]);;
  loop patience (λ _ : unit, c ← dev_get fw_control; mret (if negb (c =? 0) then inl tt else inr tt)) tt.

Definition ramfb_get_buffer : M ramfb (list Z) := gets g_framebuffer.
End ramfb.
Arguments ramfb : clear implicits.
