(* ===== verification/RamfbSpec.v ===== *)
(** * The framebuffer device: what it is told

    Over every device that behaves as the fw_cfg specification of the machine says,
    [ramfb_init] stores the description of the framebuffer in the file "etc/ramfb",
    wherever the directory lists it. *)

From Stdlib Require Import Strings.String.
From S2P Require Import Prelude CLib FsTypes UserOs Ramfb.

(** A file of the device: its size, its selector and its name. *)
Record fw_file := FwFile { fw_size : Z; fw_sel : Z; fw_name : list Z }.
Definition fw_entry (f : fw_file) : list Z :=
  be_bytes 4 (fw_size f) ++ be_bytes 2 (fw_sel f) ++ [0; 0] ++ fw_name f ++ zeros (56 - length (fw_name f)).
Definition fw_file_ok (f : fw_file) : Prop :=
  0 ≤ fw_sel f < 65536 ∧ nonzero (fw_name f) ∧ (length (fw_name f) < 56)%nat.

(** The selector of the first file of that name. *)
Fixpoint ramfb_sel (fs : list fw_file) : Z :=
  match fs with
  | [] => 0
  | f :: fs => if bool_decide (fw_name f = str "etc/ramfb") then fw_sel f else ramfb_sel fs
  end.

Definition mem_read (mem : list (Z * list Z)) (a : Z) (n : nat) : option (list Z) :=
  match list_find (λ x, fst x = a) mem with Some (_, (_, b)) => if (n <=? length b)%nat then Some (take n b) else None | None => None end.

(** What is documented about the device: [fw_stream] is what reads of the data register
    will give, [fw_item] the contents of an item, [fw_written] what was stored in an
    item by DMA, and [fw_busy] how often the control word of a transfer that has been
    started will still be read as not zero. *)
Class FwLaws (D : Type) `{!FwCfg D} := {
  fw_stream : D → list Z;
  fw_item : D → Z → list Z;
  fw_written : D → Z → option (list Z);
  fw_busy : D → nat;
  law_select k d : 0 ≤ k < 65536 → fw_stream (fw_select (bswap 2 k) d) = fw_item d k;
  law_byte d b l : fw_stream d = b :: l → fst (fw_byte d) = b ∧ fw_stream (snd (fw_byte d)) = l;
  law_word d w l : fw_stream d = w ++ l → length w = 4%nat → fst (fw_word d) = le_val w ∧ fw_stream (snd (fw_word d)) = l;
  law_dma d mem a sel len c data : 0 ≤ a < 2 ^ 64 → 0 ≤ sel < 65536 → 0 ≤ len < 2 ^ 32 → 0 ≤ c < 2 ^ 64 →
    mem_read mem a 16 = Some (be_bytes 4 (u32 (Z.shiftl sel 16 + 24)) ++ be_bytes 4 len ++ be_bytes 8 c) →
    mem_read mem c (Z.to_nat len) = Some data →
    fw_written (fw_dma (bswap 8 a) mem d) sel = Some data;
  law_control d : fst (fw_control d) = (if (fw_busy d =? 0)%nat then 0 else 1) ∧
    fw_busy (snd (fw_control d)) = (fw_busy d - 1)%nat ∧ ∀ k, fw_written (snd (fw_control d)) k = fw_written d k
}.

Section spec.
Context {D : Type} `{!FwCfg D} `{!FwLaws D}.
Variables fb_addr cfg_addr dma_addr : Z.
Local Abbreviation st := (ramfb D).

Lemma read_file_wp b l (Q : list Z → st → Prop) P (s : st) : fw_stream (fwcfg s) = b ++ l →
  (∀ d, fw_stream d = l → Q b (Ramfb (g_framebuffer s) d)) → wp (read_file (length b)) Q P s.
Proof.
  revert s Q. induction b as [|c b IH]; intros s Q Hs HQ; cbn [length read_file].
  - apply wp_ret. specialize (HQ (fwcfg s) Hs). by destruct s.
  - destruct (law_byte _ _ _ Hs) as [E1 E2]. apply wp_bind. unfold dev_get, wp, mbind, M_bind, get, modify, mret, M_ret.
    rewrite E1. change (wp (l0 ← read_file (length b); mret (c :: l0)) Q P (Ramfb (g_framebuffer s) (snd (fw_byte (fwcfg s))))).
    apply wp_bind, IH; [exact E2|]. intros d Hd. apply wp_ret, HQ, Hd.
Qed.

Lemma length_fw_entry f : (length (fw_name f) < 56)%nat → length (fw_entry f) = 64%nat.
Proof.
  intros H. unfold fw_entry, be_bytes. rewrite !length_app, !length_rev, !length_le_bytes, length_zeros. cbn [length]. lia.
Qed.

Lemma fw_entry_fields f : (length (fw_name f) < 56)%nat →
  sub (fw_entry f) 8 56 = fw_name f ++ 0 :: zeros (55 - length (fw_name f)) ∧ sub (fw_entry f) 4 2 = be_bytes 2 (fw_sel f).
Proof.
  intros H. unfold fw_entry.
  assert (∀ n x, length (be_bytes n x) = n) as Hl by (intros; unfold be_bytes; by rewrite length_rev, length_le_bytes).
  split.
  - rewrite !(sub_app_skip _ _ _ _ _ (Hl _ _)) by lia. cbn [Nat.sub]. rewrite (sub_app_skip [0; 0] _ 2) by (done || lia).
    unfold sub. cbn [Nat.sub]. rewrite drop_0, take_ge by (rewrite length_app, length_zeros; lia). f_equal.
    by replace (56 - length (fw_name f))%nat with (S (55 - length (fw_name f))) by lia.
  - rewrite (sub_app_skip _ _ _ _ _ (Hl _ _)) by lia. cbn [Nat.sub]. by apply sub_app_here.
Qed.

Lemma find_ramfb_wp fs l (Q : Z → st → Prop) P (s : st) : Forall fw_file_ok fs → fw_stream (fwcfg s) = concat (fw_entry <$> fs) ++ l →
  (∀ d, Q (ramfb_sel fs) (Ramfb (g_framebuffer s) d)) → wp (find_ramfb (length fs)) Q P s.
Proof.
  intros Hok. revert s Q. induction Hok as [|f fs (Hs & Hn & Hl) _ IH]; intros s Q Hst HQ; cbn [length find_ramfb ramfb_sel] in *.
  - apply wp_ret. specialize (HQ (fwcfg s)). by destruct s.
  - cbn [fmap list_fmap concat] in Hst. rewrite <-(assoc_L (++)) in Hst. apply wp_bind. rewrite <-(length_fw_entry f Hl).
    eapply read_file_wp; [exact Hst|]. intros d Hd. destruct (fw_entry_fields f Hl) as [-> ->].
    destruct (strcmp_spec (fw_name f) (str "etc/ramfb") (zeros (55 - length (fw_name f))) [] Hn) as (r & E & Hr); [by repeat constructor|].
    unfold str_ramfb. rewrite E. wp_steps. rewrite bswap_be by exact Hs. destruct (Z.eqb_spec r 0) as [Z0|N0].
    + rewrite bool_decide_true in HQ by tauto. apply wp_ret, HQ.
    + rewrite bool_decide_false in HQ by tauto. eapply IH; [exact Hd|]. exact HQ.
Qed.

(** The description, as the device reads it. *)
Definition ramfb_config : list Z :=
  be_bytes 8 fb_addr ++ be_bytes 4 DRM_FORMAT_XRGB8888 ++ be_bytes 4 0 ++
  be_bytes 4 1280 ++ be_bytes 4 800 ++ be_bytes 4 5120.

Lemma ramfb_cfg_bytes : ramfb_cfg fb_addr = ramfb_config.
Proof. unfold ramfb_cfg, ramfb_config. by rewrite !le_bytes_bswap. Qed.

Lemma ramfb_dma_bytes sel : 0 ≤ sel < 65536 →
  ramfb_dma fb_addr cfg_addr sel = be_bytes 4 (u32 (Z.shiftl sel 16 + 24)) ++ be_bytes 4 28 ++ be_bytes 8 cfg_addr.
Proof.
  intros Hs. unfold ramfb_dma. rewrite !le_bytes_bswap. do 3 f_equal.
  rewrite <-Z.lor_assoc. change (Z.lor QEMU_CFG_DMA_CTL_SELECT QEMU_CFG_DMA_CTL_WRITE) with 24.
  rewrite <-Z.lxor_lor, Z.add_nocarry_lxor; [done|..].
  all: apply Z.bits_inj'; intros i Hi; rewrite Z.land_spec, Z.bits_0; destruct (Z.lt_ge_cases i 16).
  all: try by rewrite Z.shiftl_spec_low.
  all: assert (Z.testbit 24 i = false) as -> by (apply Z.bits_above_log2; [lia|]; change (Z.log2 24) with 4; lia); apply andb_false_r.
Qed.

Lemma dma_wait_wp k Q P (s : st) : fw_busy (fwcfg s) = k →
  (∀ d, (∀ n, fw_written d n = fw_written (fwcfg s) n) → Q tt (Ramfb (g_framebuffer s) d)) →
  ∀ fuel, (k < fuel)%nat →
  wp (loop fuel (λ _ : unit, c ← dev_get fw_control; mret (if negb (c =? 0) then inl tt else inr tt)) tt) Q P s.
Proof.
  revert s. induction k as [|k IH]; intros s Hk HQ [|fuel] Hf; try lia.
  all: cbn [loop]; destruct (law_control (fwcfg s)) as (E1 & E2 & E3); rewrite Hk in E1; cbn [Nat.eqb] in E1.
  all: apply wp_bind; unfold dev_get, wp at 1, mbind, M_bind, get, modify, mret, M_ret; rewrite E1; cbn [Z.eqb negb].
  - apply HQ, E3.
  - apply IH; [cbn; rewrite E2; lia| |lia]. cbn. intros d Hd. apply HQ. intros n. by rewrite Hd.
Qed.

(** [ramfb_init], with what it does to the framebuffer. *)
Lemma ramfb_init_wp fs rest patience (s : st) :
  0 ≤ dma_addr < 2 ^ 64 → 0 ≤ cfg_addr < 2 ^ 64 → dma_addr ≠ cfg_addr → Forall fw_file_ok fs → Z.of_nat (length fs) < 2 ^ 32 →
  (∀ d, fw_item d FW_CFG_FILE_DIR = be_bytes 4 (Z.of_nat (length fs)) ++ concat (fw_entry <$> fs) ++ rest) →
  (∀ a mem d, (fw_busy (fw_dma a mem d) < patience)%nat) →
  wp (ramfb_init fb_addr cfg_addr dma_addr patience)
  (λ _ s', ramfb_sel fs ≠ 0 ∧ fw_written (fwcfg s') (ramfb_sel fs) = Some ramfb_config ∧
    g_framebuffer s' = replicate (Z.to_nat (RAMFB_WIDTH * RAMFB_HEIGHT / 4)) 0 ++
    drop (Z.to_nat (RAMFB_WIDTH * RAMFB_HEIGHT / 4)) (g_framebuffer s))
  (λ _, ramfb_sel fs = 0) s.
Proof.
  intros Ha Hca Hne Hok Hn Hitem Hbusy. unfold ramfb_init.
  assert (0 ≤ ramfb_sel fs < 65536) as Hsel.
  { clear -Hok. induction Hok as [|f fs (Hs & _) _ IH]; cbn; [lia|]. by case_bool_decide. }
  apply wp_bind, wp_modify, wp_bind, wp_modify. apply wp_bind. set (s1 := Ramfb _ _).
  assert (fw_stream (fwcfg s1) = be_bytes 4 (Z.of_nat (length fs)) ++ concat (fw_entry <$> fs) ++ rest) as Hst.
  { unfold s1. cbn [fwcfg]. rewrite law_select by (unfold FW_CFG_FILE_DIR; lia). apply Hitem. }
  destruct (law_word _ _ _ Hst) as [E1 E2]; [unfold be_bytes; by rewrite length_rev, length_le_bytes|].
  unfold dev_get at 1, wp at 1, mbind at 1, M_bind, get at 1, modify at 1, mret at 1, M_ret. unfold mbind, modify. rewrite E1.
  cbv beta iota zeta. rewrite bswap_be by (change (256 ^ Z.of_nat 4) with (2 ^ 32); lia). rewrite Nat2Z.id. apply wp_bind.
  eapply find_ramfb_wp; [done|exact E2|]. intros d. destruct (Z.eqb_spec (ramfb_sel fs) 0) as [E0|N0]; [by apply wp_panic|].
  apply wp_bind, wp_modify. eapply (dma_wait_wp _ _ _ _ eq_refl); [|apply Hbusy]. intros d' Hd'. split; [done|]. split; [|exact eq_refl]. cbn [fwcfg g_framebuffer] in Hd' |- *.
  rewrite Hd'. apply (law_dma _ _ _ _ 28 cfg_addr); [done|done|lia|done|..].
  - rewrite ramfb_dma_bytes by done. unfold mem_read. cbn [list_find fst]. rewrite decide_False, decide_True by done. done.
  - unfold mem_read. cbn [list_find fst]. rewrite decide_True by done. by rewrite ramfb_cfg_bytes.
Qed.
(** [ramfb_init] finds the file wherever the directory lists it, and stores in it the
    address, format and size of the framebuffer, big-endian; it waits for the transfer,
    and panics when the device has no such file. *)
Theorem ramfb_init_configures fs rest patience (s : st) :
  0 ≤ dma_addr < 2 ^ 64 → 0 ≤ cfg_addr < 2 ^ 64 → dma_addr ≠ cfg_addr → Forall fw_file_ok fs → Z.of_nat (length fs) < 2 ^ 32 →
  (∀ d, fw_item d FW_CFG_FILE_DIR = be_bytes 4 (Z.of_nat (length fs)) ++ concat (fw_entry <$> fs) ++ rest) →
  (∀ a mem d, (fw_busy (fw_dma a mem d) < patience)%nat) →
  wp (ramfb_init fb_addr cfg_addr dma_addr patience)
  (λ _ s', ramfb_sel fs ≠ 0 ∧ fw_written (fwcfg s') (ramfb_sel fs) = Some ramfb_config)
  (λ _, ramfb_sel fs = 0) s.
Proof. intros. eapply wp_conseq; [by apply (ramfb_init_wp fs rest)|]. intros _ s' (? & ? & _). done. Qed.
End spec.

(** ** A device that behaves so *)

Record toy_fw := ToyFw { t_stream : list Z; t_written : list (Z * list Z); t_busy : nat }.

Definition toy_files : list fw_file := [FwFile 4 10 (str "etc/e820"); FwFile 28 37 (str "etc/ramfb")].
Definition toy_item (k : Z) : list Z :=
  if k =? FW_CFG_FILE_DIR then be_bytes 4 2 ++ concat (fw_entry <$> toy_files) ++ [] else [].
Definition toy_lookup (l : list (Z * list Z)) (k : Z) : option (list Z) := snd <$> (snd <$> list_find (λ x, fst x = k) l).

Definition toy_dma (v : Z) (mem : list (Z * list Z)) (d : toy_fw) : toy_fw :=
  match mem_read mem (bswap 8 v) 16 with
  | None => d
  | Some b =>
      let sel := bswap 4 (le_val (sub b 0 4)) / 65536 in
      match mem_read mem (bswap 8 (le_val (sub b 8 8))) (Z.to_nat (bswap 4 (le_val (sub b 4 4)))) with
      | None => d
      | Some data => ToyFw (t_stream d) ((sel, data) :: t_written d) 3
      end
  end.

#[local] Instance toy_cfg : FwCfg toy_fw := {
  fw_select v d := ToyFw (toy_item (bswap 2 v)) (t_written d) (t_busy d);
  fw_byte d := (hd 0 (t_stream d), ToyFw (tl (t_stream d)) (t_written d) (t_busy d));
  fw_word d := (le_val (take 4 (t_stream d)), ToyFw (drop 4 (t_stream d)) (t_written d) (t_busy d));
  fw_dma v mem d := ToyFw (t_stream d) (t_written (toy_dma v mem d)) 3;
  fw_control d := (if (t_busy d =? 0)%nat then 0 else 1, ToyFw (t_stream d) (t_written d) (t_busy d - 1))
}.

#[local] Instance toy_laws : FwLaws toy_fw.
Proof.
  refine {| fw_stream := t_stream; fw_item _ := toy_item; fw_written d := toy_lookup (t_written d); fw_busy := t_busy |}.
  - intros k d Hk. cbn [fw_select toy_cfg t_stream]. f_equal. by apply (bswap_be 2).
  - intros d b l E. cbn. by rewrite E.
  - intros d w l E Hw. cbn [fw_word toy_cfg fst snd t_stream]. by rewrite E, <-Hw, take_app_length, drop_app_length.
  - intros d mem a sel len c data Ha Hsel Hlen Hc Em Ed. cbn [fw_dma toy_cfg t_written]. unfold toy_dma.
    rewrite (bswap_bswap 8 a), Em by (change (256 ^ Z.of_nat 8) with (2 ^ 64); lia).
    assert (∀ n x, length (be_bytes n x) = n) as Hl by (intros; unfold be_bytes; by rewrite length_rev, length_le_bytes).
    rewrite sub_app_here by apply Hl. rewrite (sub_app_skip _ _ 4 4) by (apply Hl || lia). rewrite (sub_app_skip _ _ 4 8) by (apply Hl || lia).
    cbn [Nat.sub]. rewrite sub_app_here by apply Hl. rewrite (sub_app_skip _ _ 4 4) by (apply Hl || lia). cbn [Nat.sub].
    assert (sub (be_bytes 8 c) 0 8 = be_bytes 8 c) as -> by (unfold sub; rewrite drop_0, take_ge; [done|rewrite Hl; lia]).
    rewrite (bswap_be 8 c) by (change (256 ^ Z.of_nat 8) with (2 ^ 64); lia).
    rewrite (bswap_be 4 len) by (change (256 ^ Z.of_nat 4) with (2 ^ 32); lia). rewrite Ed.
    rewrite (bswap_be 4) by (apply u32_range). rewrite Z.shiftl_mul_pow2, u32_small by lia.
    assert ((sel * 2 ^ 16 + 24) / 65536 = sel) as -> by (change (2 ^ 16) with 65536; rewrite Z.add_comm, Z.div_add; [done|lia]). unfold toy_lookup. cbn [t_written list_find fst]. by rewrite decide_True.
  - intros d. cbn. split; [by destruct (t_busy d)|]. done.
Defined.

Lemma ramfb_init_configures_witness :
  wp (ramfb_init 4096 8192 8256 4)
    (λ _ s', ramfb_sel toy_files ≠ 0 ∧ fw_written (fwcfg s') (ramfb_sel toy_files) = Some (ramfb_config 4096))
    (λ _, ramfb_sel toy_files = 0) (Ramfb [] (ToyFw [] [] 0)).
Proof.
  apply (ramfb_init_configures (D := toy_fw) 4096 8192 8256 toy_files []); [lia|lia|done| |cbn; lia|done|].
  - repeat constructor; cbn; lia.
  - intros. cbn. lia.
Defined.
