(* ===== verification/Asm.v ===== *)
(** * Assembly

    The routines that the kernel writes in assembly: [boot], [kentry] and [user_entry] of
    kernel/kernel.c, [switch_context] of kernel/process.c. The instructions they use are
    given the meaning that the RISC-V manual gives them: registers and addresses are
    32-bit words, memory is a map from aligned addresses to words, and an access that is
    not aligned or not mapped has no result. The second part has the lemmas on whole frames
    of registers, which the routines store and load again, and the specification of
    [switch_context]. *)

From S2P Require Import Prelude Page Process.

(** ** The processor *)

Inductive reg :=
| RA | SP | GP | TP | T0 | T1 | T2 | T3 | T4 | T5 | T6
| S0 | S1 | S2 | S3 | S4 | S5 | S6 | S7 | S8 | S9 | S10 | S11
| A0 | A1 | A2 | A3 | A4 | A5 | A6 | A7.
#[export] Instance reg_eq_dec : EqDecision reg.
Proof. solve_decision. Defined.

Inductive csr := SSCRATCH | SEPC | SCAUSE | STVAL | SSTATUS | STVEC | SATP.
#[export] Instance csr_eq_dec : EqDecision csr.
Proof. solve_decision. Defined.

Inductive mode := User | Supervisor.

Record cpu := Cpu {
  gpr : reg → Z;
  csrs : csr → Z;
  pc : Z;
  prv : mode;
  ram : gmap Z Z
}.

Definition set_gpr (r : reg) (x : Z) (s : cpu) : cpu :=
  Cpu (λ q, if decide (q = r) then x else gpr s q) (csrs s) (pc s) (prv s) (ram s).
Definition set_csr (c : csr) (x : Z) (s : cpu) : cpu :=
  Cpu (gpr s) (λ q, if decide (q = c) then x else csrs s q) (pc s) (prv s) (ram s).
Definition set_pc (x : Z) (s : cpu) : cpu := Cpu (gpr s) (csrs s) x (prv s) (ram s).
Definition set_prv (m : mode) (s : cpu) : cpu := Cpu (gpr s) (csrs s) (pc s) m (ram s).
Definition set_ram (m : gmap Z Z) (s : cpu) : cpu := Cpu (gpr s) (csrs s) (pc s) (prv s) m.

Definition load_word (a : Z) (m : gmap Z Z) : option Z := if a mod 4 =? 0 then m !! a else None.
Definition store_word (a x : Z) (m : gmap Z Z) : option (gmap Z Z) :=
  if a mod 4 =? 0 then _ ← m !! a; Some (<[a := x]> m) else None.

(** ** Instructions *)

Inductive instr :=
| Addi (rd rs : reg) (imm : Z)
| Mv (rd rs : reg)
| Lui (rd : reg) (imm : Z)
| Sw (r : reg) (off : Z) (rs : reg)
| Lw (rd : reg) (off : Z) (rs : reg)
| Csrrw (rd : reg) (c : csr) (rs : reg)
| Csrr (rd : reg) (c : csr)
| Csrw (c : csr) (rs : reg)
| Call
| Ret
| Sret.

Definition SIE : Z := 1.
Definition SPIE : Z := 5.
Definition SPP : Z := 8.
Definition set_bit (x i : Z) (b : bool) : Z := if b then Z.setbit x i else Z.clearbit x i.

(** The return from a trap: the mode and the interrupt enable bit that [sstatus] keeps. *)
Definition do_sret (s : cpu) : cpu :=
  let st := csrs s SSTATUS in
  set_prv (if Z.testbit st SPP then Supervisor else User)
    (set_csr SSTATUS (set_bit (set_bit (set_bit st SIE (Z.testbit st SPIE)) SPIE true) SPP false)
      (set_pc (csrs s SEPC) s)).

(** A trap: what the processor does before the first instruction of the handler. *)
Definition take_trap (cause tval : Z) (s : cpu) : cpu :=
  let st := csrs s SSTATUS in
  let spp := match prv s with User => false | Supervisor => true end in
  set_prv Supervisor (set_pc (csrs s STVEC)
    (set_csr SEPC (pc s) (set_csr SCAUSE cause (set_csr STVAL tval
      (set_csr SSTATUS (set_bit (set_bit (set_bit st SPIE (Z.testbit st SIE)) SIE false) SPP spp) s))))).

Section exec.
(** The C routine that [call] runs. *)
Variable callee : cpu → option cpu.

Definition exec (i : instr) (s : cpu) : option cpu :=
  match i with
  | Addi rd rs imm => Some (set_gpr rd (u32 (gpr s rs + imm)) s)
  | Mv rd rs => Some (set_gpr rd (gpr s rs) s)
  | Lui rd imm => Some (set_gpr rd (u32 (imm * 4096)) s)
  | Sw r off rs => m ← store_word (u32 (gpr s rs + off)) (gpr s r) (ram s); Some (set_ram m s)
  | Lw rd off rs => x ← load_word (u32 (gpr s rs + off)) (ram s); Some (set_gpr rd x s)
  | Csrrw rd c rs => Some (set_gpr rd (csrs s c) (set_csr c (gpr s rs) s))
  | Csrr rd c => Some (set_gpr rd (csrs s c) s)
  | Csrw c rs => Some (set_csr c (gpr s rs) s)
  | Call => callee s
  | Ret => Some (set_pc (gpr s RA) s)
  | Sret => Some (do_sret s)
  end.

Fixpoint run (l : list instr) (s : cpu) : option cpu :=
  match l with [] => Some s | i :: l => s' ← exec i s; run l s' end.
End exec.

(** ** The routines *)

Definition switch_context : list instr := [
  Addi SP SP (-13 * 4);
  Sw RA (0 * 4) SP; Sw S0 (1 * 4) SP; Sw S1 (2 * 4) SP; Sw S2 (3 * 4) SP; Sw S3 (4 * 4) SP;
  Sw S4 (5 * 4) SP; Sw S5 (6 * 4) SP; Sw S6 (7 * 4) SP; Sw S7 (8 * 4) SP; Sw S8 (9 * 4) SP;
  Sw S9 (10 * 4) SP; Sw S10 (11 * 4) SP; Sw S11 (12 * 4) SP;
  Sw SP 0 A0;
  Lw SP 0 A1;
  Lw RA (0 * 4) SP; Lw S0 (1 * 4) SP; Lw S1 (2 * 4) SP; Lw S2 (3 * 4) SP; Lw S3 (4 * 4) SP;
  Lw S4 (5 * 4) SP; Lw S5 (6 * 4) SP; Lw S6 (7 * 4) SP; Lw S7 (8 * 4) SP; Lw S8 (9 * 4) SP;
  Lw S9 (10 * 4) SP; Lw S10 (11 * 4) SP; Lw S11 (12 * 4) SP;
  Addi SP SP (13 * 4);
  Ret ].

Definition kentry : list instr := [
  Csrrw SP SSCRATCH SP;
  Addi SP SP (-4 * 31);
  Sw RA (4 * 0) SP; Sw GP (4 * 1) SP; Sw TP (4 * 2) SP; Sw T0 (4 * 3) SP; Sw T1 (4 * 4) SP;
  Sw T2 (4 * 5) SP; Sw T3 (4 * 6) SP; Sw T4 (4 * 7) SP; Sw T5 (4 * 8) SP; Sw T6 (4 * 9) SP;
  Sw A0 (4 * 10) SP; Sw A1 (4 * 11) SP; Sw A2 (4 * 12) SP; Sw A3 (4 * 13) SP; Sw A4 (4 * 14) SP;
  Sw A5 (4 * 15) SP; Sw A6 (4 * 16) SP; Sw A7 (4 * 17) SP; Sw S0 (4 * 18) SP; Sw S1 (4 * 19) SP;
  Sw S2 (4 * 20) SP; Sw S3 (4 * 21) SP; Sw S4 (4 * 22) SP; Sw S5 (4 * 23) SP; Sw S6 (4 * 24) SP;
  Sw S7 (4 * 25) SP; Sw S8 (4 * 26) SP; Sw S9 (4 * 27) SP; Sw S10 (4 * 28) SP; Sw S11 (4 * 29) SP;
  Csrr A0 SSCRATCH; Sw A0 (4 * 30) SP;
  Addi A0 SP (4 * 31); Csrw SSCRATCH A0;
  Mv A0 SP; Call;
  Lw RA (4 * 0) SP; Lw GP (4 * 1) SP; Lw TP (4 * 2) SP; Lw T0 (4 * 3) SP; Lw T1 (4 * 4) SP;
  Lw T2 (4 * 5) SP; Lw T3 (4 * 6) SP; Lw T4 (4 * 7) SP; Lw T5 (4 * 8) SP; Lw T6 (4 * 9) SP;
  Lw A0 (4 * 10) SP; Lw A1 (4 * 11) SP; Lw A2 (4 * 12) SP; Lw A3 (4 * 13) SP; Lw A4 (4 * 14) SP;
  Lw A5 (4 * 15) SP; Lw A6 (4 * 16) SP; Lw A7 (4 * 17) SP; Lw S0 (4 * 18) SP; Lw S1 (4 * 19) SP;
  Lw S2 (4 * 20) SP; Lw S3 (4 * 21) SP; Lw S4 (4 * 22) SP; Lw S5 (4 * 23) SP; Lw S6 (4 * 24) SP;
  Lw S7 (4 * 25) SP; Lw S8 (4 * 26) SP; Lw S9 (4 * 27) SP; Lw S10 (4 * 28) SP; Lw S11 (4 * 29) SP;
  Lw SP (4 * 30) SP;
  Sret ].

Definition user_entry : list instr := [
  Mv SP S0; Mv A0 S1; Mv A1 S2;
  Lui T0 4096; Csrw SEPC T0;
  Lui T1 64; Addi T1 T1 32; Csrw SSTATUS T1;
  Sret ].

(** The stack pointer is set and control goes to [kmain]. *)
Definition boot (stack_top kmain_addr : Z) (s : cpu) : cpu := set_pc kmain_addr (set_gpr SP stack_top s).

(** What [yield] writes before it switches: the page table and the kernel stack of the
    next process. *)
Definition yield_csrs (page_table stack_end : Z) (s : cpu) : cpu :=
  set_csr SSCRATCH stack_end (set_csr SATP (Z.lor SATP_SV32 (PAGE_TABLE_TO_INDEX page_table)) s).

(** * Assembly: sequences of stores and loads

    The routines of [Asm] save registers in a frame of words below the stack pointer and
    load them again; the lemmas here do whole frames at once. *)

(** ** Frames in memory *)

(** The words [ws] lie from [b] on. *)
Definition frame_at (m : gmap Z Z) (b : Z) (ws : list Z) : Prop :=
  ∀ i w, ws !! i = Some w → m !! (b + 4 * Z.of_nat i) = Some w.

(** [n] mapped words from [b] on, at addresses that a pointer can hold. *)
Definition room (m : gmap Z Z) (b : Z) (n : nat) : Prop :=
  b mod 4 = 0 ∧ 0 ≤ b ∧ b + 4 * Z.of_nat n < 4294967296 ∧
  ∀ i, (i < n)%nat → is_Some (m !! (b + 4 * Z.of_nat i)).

Fixpoint stores (b : Z) (ws : list Z) (m : gmap Z Z) : gmap Z Z :=
  match ws with [] => m | w :: ws => stores (b + 4) ws (<[b := w]> m) end.

Lemma stores_other b ws m a : a < b ∨ b + 4 * Z.of_nat (length ws) ≤ a → stores b ws m !! a = m !! a.
Proof.
  revert b m. induction ws as [|w ws IH]; intros b m Ha; [done|]. cbn [stores length] in *.
  rewrite IH by lia. by rewrite lookup_insert_ne by lia.
Qed.

Lemma stores_frame b ws m : frame_at (stores b ws m) b ws.
Proof.
  revert b m. induction ws as [|w ws IH]; intros b m [|i] x Hx; [done..| |].
  - injection Hx as ->. cbn [stores]. rewrite stores_other by lia. rewrite Z.add_0_r. apply lookup_insert_eq.
  - cbn [stores]. replace (b + 4 * Z.of_nat (S i)) with (b + 4 + 4 * Z.of_nat i) by lia. by apply IH.
Qed.

Lemma stores_some b ws m a : is_Some (m !! a) → is_Some (stores b ws m !! a).
Proof.
  revert b m. induction ws as [|w ws IH]; intros b m Ha; [done|]. cbn [stores]. apply IH.
  destruct (decide (a = b)) as [->|Hne]; [by rewrite lookup_insert_eq|by rewrite lookup_insert_ne].
Qed.

Lemma stores_mapped b ws m a : b mod 4 = 0 → a mod 4 = 0 → b ≤ a < b + 4 * Z.of_nat (length ws) → is_Some (stores b ws m !! a).
Proof.
  intros Hb Ha Hr. set (i := Z.to_nat ((a - b) / 4)).
  assert (a = b + 4 * Z.of_nat i) as Ea by (unfold i; Z.div_mod_to_equations; lia).
  destruct (lookup_lt_is_Some_2 ws i ltac:(lia)) as [w Hw]. rewrite Ea, (stores_frame b ws m i w Hw). eauto.
Qed.

Lemma room_frame m b ws : b mod 4 = 0 → 0 ≤ b → b + 4 * Z.of_nat (length ws) < 4294967296 →
  frame_at m b ws → room m b (length ws).
Proof.
  intros Ha H0 Hb Hf. do 3 (split; [done|]). intros i Hi. destruct (lookup_lt_is_Some_2 ws i Hi) as [w Hw].
  rewrite (Hf i w Hw). eauto.
Qed.

Lemma room_mono m m' b n : (∀ a, is_Some (m !! a) → is_Some (m' !! a)) → room m b n → room m' b n.
Proof. intros Hm (? & ? & ? & H). do 3 (split; [done|]). eauto. Qed.

Lemma frame_agree m m' b ws : (∀ a, b ≤ a < b + 4 * Z.of_nat (length ws) → m' !! a = m !! a) →
  frame_at m b ws → frame_at m' b ws.
Proof. intros Hm Hf i w Hw. pose proof (lookup_lt_Some _ _ _ Hw). rewrite Hm by lia. by apply Hf. Qed.

Lemma frame_insert m b ws i v : (i < length ws)%nat → frame_at m b ws →
  frame_at (<[b + 4 * Z.of_nat i := v]> m) b (<[i := v]> ws).
Proof.
  intros Hi Hf j x Hx. destruct (decide (i = j)) as [->|Hne].
  - rewrite list_lookup_insert_eq in Hx by done. injection Hx as ->. by rewrite lookup_insert_eq.
  - rewrite list_lookup_insert_ne in Hx by done. rewrite lookup_insert_ne by lia. by apply Hf.
Qed.

(** [n] words of zeros. *)
Definition cleared (b : Z) (n : nat) : gmap Z Z := stores b (replicate n 0) ∅.

Lemma cleared_at b n i : (i < n)%nat → cleared b n !! (b + 4 * Z.of_nat i) = Some 0.
Proof. intros Hi. apply stores_frame. by apply lookup_replicate_2. Qed.

(** ** Runs *)

Lemma gpr_set_eq r x s : gpr (set_gpr r x s) r = x.
Proof. cbn. by rewrite decide_True. Qed.
Lemma gpr_set_ne r q x s : r ≠ q → gpr (set_gpr q x s) r = gpr s r.
Proof. intros. cbn. by rewrite decide_False. Qed.

Section run.
Variable callee : cpu → option cpu.
Local Abbreviation run := (run callee).

Lemma run_app l k s : run (l ++ k) s = s' ← run l s; run k s'.
Proof.
  revert s. induction l as [|i l IH]; intros s; [done|]. cbn. destruct (exec callee i s); [apply IH|done].
Qed.

(** Stores of [rs] from offset [4 k] on. *)
Fixpoint saves (k : Z) (rs : list reg) : list instr :=
  match rs with [] => [] | r :: rs => Sw r (4 * k) SP :: saves (k + 1) rs end.
Fixpoint loads (k : Z) (rs : list reg) : list instr :=
  match rs with [] => [] | r :: rs => Lw r (4 * k) SP :: loads (k + 1) rs end.
Fixpoint set_gprs (rs : list reg) (ws : list Z) (s : cpu) : cpu :=
  match rs, ws with r :: rs, w :: ws => set_gprs rs ws (set_gpr r w s) | _, _ => s end.

Lemma mod4 b k : b mod 4 = 0 → (b + 4 * k) mod 4 = 0.
Proof. intros. rewrite Z.mul_comm, Z.mod_add; done. Qed.

Lemma store_word_room m b n i x : room m b n → (i < n)%nat →
  store_word (b + 4 * Z.of_nat i) x m = Some (<[b + 4 * Z.of_nat i := x]> m).
Proof.
  intros (Ha & _ & _ & H) Hi. unfold store_word. rewrite mod4 by done. cbn. by destruct (H i Hi) as [y ->].
Qed.

Lemma room_tail m b n : room m b (S n) → room m (b + 4) n.
Proof.
  intros (Ha & H0 & Hb & H). split; [by apply (mod4 b 1)|]. split; [lia|]. split; [lia|]. intros i Hi.
  replace (b + 4 + 4 * Z.of_nat i) with (b + 4 * Z.of_nat (S i)) by lia. apply H. lia.
Qed.

Lemma run_saves k rs s : 0 ≤ k → room (ram s) (gpr s SP + 4 * k) (length rs) → 0 ≤ gpr s SP →
  run (saves k rs) s = Some (set_ram (stores (gpr s SP + 4 * k) (gpr s <$> rs) (ram s)) s).
Proof.
  revert k s. induction rs as [|r rs IH]; intros k s Hk Hr Hsp; [by destruct s|].
  cbn [saves Asm.run exec fmap list_fmap stores length] in *.
  pose proof (store_word_room _ _ _ 0 (gpr s r) Hr ltac:(lia)) as E. rewrite Z.add_0_r in E.
  pose proof Hr as (_ & _ & Hb & _). rewrite u32_small by lia. rewrite E. cbn [mbind option_bind].
  apply room_tail in Hr. replace (gpr s SP + 4 * k + 4) with (gpr s SP + 4 * (k + 1)) in * by lia.
  rewrite IH; [done|lia| |done]. cbn. eapply room_mono; [|exact Hr]. intros a Ha.
  destruct (decide (a = gpr s SP + 4 * k)) as [->|Hne]; [by rewrite lookup_insert_eq|by rewrite lookup_insert_ne].
Qed.

Lemma run_loads k rs ws s : SP ∉ rs → length ws = length rs → 0 ≤ k → 0 ≤ gpr s SP → (gpr s SP) mod 4 = 0 →
  gpr s SP + 4 * k + 4 * Z.of_nat (length rs) < 4294967296 → frame_at (ram s) (gpr s SP + 4 * k) ws →
  run (loads k rs) s = Some (set_gprs rs ws s).
Proof.
  revert k ws s. induction rs as [|r rs IH]; intros k [|w ws] s Hsp Hl Hk H0 Ha Hb Hf; try done.
  apply not_elem_of_cons in Hsp as [Hr Hsp]. cbn [loads Asm.run exec set_gprs length] in *.
  pose proof (Hf 0%nat w eq_refl) as E. rewrite Z.add_0_r in E. rewrite u32_small by lia.
  unfold load_word. rewrite mod4 by done. cbn [Z.eqb]. rewrite E. cbn [mbind option_bind].
  assert (gpr (set_gpr r w s) SP = gpr s SP) as Esp by (cbn; by rewrite decide_False).
  apply IH; rewrite ?Esp; try done; [lia|lia|lia|].
  intros i x Hx. replace (gpr s SP + 4 * (k + 1) + 4 * Z.of_nat i) with (gpr s SP + 4 * k + 4 * Z.of_nat (S i)) by lia.
  by apply (Hf (S i)).
Qed.

(** What the registers hold after a sequence of loads. *)
Lemma set_gprs_other rs ws s r : r ∉ rs → gpr (set_gprs rs ws s) r = gpr s r.
Proof.
  revert ws s. induction rs as [|q rs IH]; intros [|w ws] s Hr; try done.
  apply not_elem_of_cons in Hr as [Hq Hr]. cbn [set_gprs]. rewrite IH by done. cbn. by rewrite decide_False.
Qed.

Lemma set_gprs_in rs ws s : NoDup rs → length ws = length rs → gpr (set_gprs rs ws s) <$> rs = ws.
Proof.
  revert ws s. induction rs as [|q rs IH]; intros [|w ws] s Hnd Hl; try done.
  apply NoDup_cons in Hnd as [Hq Hnd]. cbn [set_gprs fmap list_fmap]. f_equal.
  - rewrite set_gprs_other by done. cbn. by rewrite decide_True.
  - apply IH; [done|]. cbn in Hl. lia.
Qed.

Lemma set_gprs_rest rs ws s : csrs (set_gprs rs ws s) = csrs s ∧ pc (set_gprs rs ws s) = pc s ∧
  prv (set_gprs rs ws s) = prv s ∧ ram (set_gprs rs ws s) = ram s.
Proof. revert ws s. induction rs as [|q rs IH]; intros [|w ws] s; try done. exact (IH ws (set_gpr q w s)). Qed.
End run.

(** ** The context switch *)

(** What a routine that is called must preserve, besides the stack pointer. *)
Definition callee_saved : list reg := [RA; S0; S1; S2; S3; S4; S5; S6; S7; S8; S9; S10; S11].
Definition context (s : cpu) : list Z := gpr s <$> callee_saved.

(** A pointer to a word outside the frame of [n] words at [b]. *)
Definition slot_ok (m : gmap Z Z) (a b : Z) (n : nat) : Prop :=
  a mod 4 = 0 ∧ 0 ≤ a < 4294967296 ∧ is_Some (m !! a) ∧ (a < b ∨ b + 4 * Z.of_nat n ≤ a).

Lemma switch_code : switch_context =
  Addi SP SP (-52) :: saves 0 callee_saved ++ [Sw SP 0 A0; Lw SP 0 A1] ++ loads 0 callee_saved ++ [Addi SP SP 52; Ret].
Proof. reflexivity. Qed.

(** Memory after the first half of the switch. *)
Definition switched_out (s : cpu) : gmap Z Z :=
  <[gpr s A0 := gpr s SP - 52]> (stores (gpr s SP - 52) (context s) (ram s)).

Section switch.
Variable callee : cpu → option cpu.

Lemma switch_spec s p ws : 0 ≤ gpr s SP < 4294967296 → room (ram s) (gpr s SP - 52) 13 →
  slot_ok (ram s) (gpr s A0) (gpr s SP - 52) 13 →
  gpr s A1 mod 4 = 0 → 0 ≤ gpr s A1 < 4294967296 → switched_out s !! gpr s A1 = Some p →
  p mod 4 = 0 → 0 ≤ p → p + 52 < 4294967296 → length ws = 13%nat → frame_at (switched_out s) p ws →
  ∃ s', run callee switch_context s = Some s' ∧ context s' = ws ∧ gpr s' SP = p + 52 ∧
  Some (pc s') = head ws ∧ ram s' = switched_out s ∧ csrs s' = csrs s ∧ prv s' = prv s.
Proof.
  intros Hsp Hroom (Ha & Ha0 & Hmap & Hout) H1 H10 Hp Hpa Hp0 Hpb Hl Hf.
  pose proof Hroom as (_ & Hb0 & _). rewrite switch_code. cbn [Asm.run]. unfold exec at 1. cbn [mbind option_bind].
  rewrite u32_small by lia. set (s1 := set_gpr SP (gpr s SP + -52) s).
  assert (gpr s1 SP = gpr s SP - 52) as E1 by (unfold s1; rewrite gpr_set_eq; lia).
  rewrite run_app, run_saves; [|lia|rewrite E1, Z.add_0_r; exact Hroom|rewrite E1; lia].
  rewrite E1, Z.add_0_r. change (gpr s1 <$> callee_saved) with (context s). change (ram s1) with (ram s). cbn [mbind option_bind].
  set (s2 := set_ram _ s1). rewrite run_app.
  assert (run callee [Sw SP 0 A0; Lw SP 0 A1] s2 = Some (set_gpr SP p (set_ram (switched_out s) s2))) as ->.
  { cbn [Asm.run exec]. change (gpr s2 A0) with (gpr s A0). change (gpr s2 SP) with (gpr s1 SP). rewrite E1, !Z.add_0_r, !u32_small by lia.
    unfold store_word. rewrite Ha. cbn [Z.eqb].
    destruct (stores_some (gpr s SP - 52) (context s) (ram s) (gpr s A0) Hmap) as [y Ey]. cbn [ram s2 set_ram]. rewrite Ey.
    cbn [mbind option_bind Asm.run exec]. change (gpr (set_ram _ _) A1) with (gpr s A1). rewrite Z.add_0_r, u32_small by lia.
    unfold load_word. rewrite H1. cbn [Z.eqb]. fold (switched_out s). cbn [ram set_ram]. rewrite Hp. done. }
  cbn [mbind option_bind]. set (s3 := set_gpr SP p _). assert (gpr s3 SP = p) as E3 by apply gpr_set_eq.
  rewrite run_app, (run_loads _ 0 callee_saved ws); rewrite ?E3, ?Z.mul_0_r, ?Z.add_0_r; try done; [|by apply (bool_decide_unpack _)].
  cbn [mbind option_bind Asm.run exec]. set (s4 := set_gprs callee_saved ws s3).
  assert (gpr s4 SP = p) as E4 by (unfold s4; rewrite set_gprs_other; [done|by apply (bool_decide_unpack _)]).
  assert (gpr s4 <$> callee_saved = ws) as E5 by (by apply set_gprs_in; [apply (bool_decide_unpack _)|]).
  destruct (set_gprs_rest callee_saved ws s3) as (R1 & R2 & R3 & R4). fold s4 in R1, R2, R3, R4.
  rewrite E4, u32_small by lia. eexists. split; [reflexivity|].
  split; [exact E5|]. split; [done|]. split; [by rewrite <-E5|].
  split; [exact R4|]. split; [exact R1|exact R3].
Qed.
End switch.
