(* ===== verification/Threads.v ===== *)
(** * Kernel threads

    Every process has a kernel stack and a word [procs[i].sp] that holds its stack
    pointer while it does not run. [yield] switches between them with [switch_context].
    The C code in between is a step that may change every register, and all memory but
    the stacks of the other processes and the saved stack pointers. *)

From S2P Require Import Prelude Page Process Asm.

Section threads.
Variable callee : cpu → option cpu.
(** The number of processes; the address of [procs[i].sp]; the stack of process [i] lies
    from [lo i] up to [hi i]. *)
Variable N : nat.
Variables slot lo hi : nat → Z.

Record layout : Prop := {
  slot_word i : (i < N)%nat → slot i mod 4 = 0 ∧ 0 ≤ slot i < 4294967296;
  slot_distinct i j : (i < N)%nat → (j < N)%nat → i ≠ j → slot i ≠ slot j;
  slot_outside i j : (i < N)%nat → (j < N)%nat → slot i < lo j ∨ hi j ≤ slot i;
  stack_apart i j : (i < N)%nat → (j < N)%nat → i ≠ j → hi i ≤ lo j ∨ hi j ≤ lo i;
  stack_range i : (i < N)%nat → 0 ≤ lo i ∧ hi i < 4294967296
  }.

(** What the process that runs leaves alone. *)
Definition guarded (c : nat) (a : Z) : Prop :=
  ∃ j, (j < N)%nat ∧ (a = slot j ∨ j ≠ c ∧ lo j ≤ a < hi j).

(** Stacks and slots are memory. *)
Definition mapped (m : gmap Z Z) : Prop := ∀ j, (j < N)%nat →
  is_Some (m !! slot j) ∧ ∀ a, lo j ≤ a < hi j → a mod 4 = 0 → is_Some (m !! a).

(** A state: who runs, the processor, and the stack pointer and registers with which each
    process that waits is to go on. *)
Record threads := Threads { running : nat; core : cpu; waiting : nat → option (Z * list Z) }.
Definition waits (j : nat) (x : option (Z * list Z)) (G : nat → option (Z * list Z)) : nat → option (Z * list Z) :=
  λ i, if decide (i = j) then x else G i.

(** The arguments of a switch from [c] to [j], called with space on the stack. *)
Definition can_switch (c j : nat) (s : cpu) : Prop :=
  gpr s A0 = slot c ∧ gpr s A1 = slot j ∧ gpr s SP mod 4 = 0 ∧ lo c + 52 ≤ gpr s SP ≤ hi c.

(** [x] is saved for process [j]: its stack pointer, and the registers in a frame below. *)
Definition saved_for (m : gmap Z Z) (j : nat) (x : Z * list Z) : Prop :=
  m !! slot j = Some (fst x - 52) ∧ fst x mod 4 = 0 ∧ lo j + 52 ≤ fst x ≤ hi j ∧
  length (snd x) = 13%nat ∧ frame_at m (fst x - 52) (snd x).

Inductive tstep : threads → threads → Prop :=
| Run c s s' G : (∀ a, guarded c a → ram s' !! a = ram s !! a) → mapped (ram s') →
  tstep (Threads c s G) (Threads c s' G)
| Create c j s s' G x : (j < N)%nat → j ≠ c → G j = None →
  (∀ a, a ≠ slot j → ¬ (lo j ≤ a < hi j) → guarded c a → ram s' !! a = ram s !! a) → mapped (ram s') →
  saved_for (ram s') j x → tstep (Threads c s G) (Threads c s' (waits j (Some x) G))
| Reap c j s G : j ≠ c → tstep (Threads c s G) (Threads c s (waits j None G))
| Switch c j s s' G : (j < N)%nat → j ≠ c → is_Some (G j) → can_switch c j s →
  run callee switch_context s = Some s' →
  tstep (Threads c s G) (Threads j s' (waits c (Some (gpr s SP, context s)) G)).

Record threads_ok (t : threads) : Prop := {
  ok_running : (running t < N)%nat;
  ok_mapped : mapped (ram (core t));
  ok_waiting j x : (j < N)%nat → j ≠ running t → waiting t j = Some x → saved_for (ram (core t)) j x
  }.

Context (L : layout).

(** A saved context stays when its slot and its stack do. *)
Lemma saved_agree m m' j x : (j < N)%nat → (∀ a, a = slot j ∨ lo j ≤ a < hi j → m' !! a = m !! a) →
  saved_for m j x → saved_for m' j x.
Proof.
  intros Hj Hm (Hs & Ha & Hr & Hl & Hf). split; [by rewrite Hm by by left|]. do 3 (split; [done|]).
  eapply frame_agree; [|exact Hf]. intros a H'. apply Hm. rewrite Hl in H'. right. lia.
Qed.

Lemma stack_room m c b : mapped m → (c < N)%nat → b mod 4 = 0 → lo c ≤ b → b + 52 ≤ hi c → room m b 13.
Proof using L.
  intros Hm Hc Ha Hlo Hhi. destruct (stack_range L c Hc). split; [done|]. split; [lia|]. split; [lia|]. intros i Hi.
  apply (Hm c Hc); [lia|]. by apply mod4.
Qed.

Lemma sub_aligned x : x mod 4 = 0 → (x - 52) mod 4 = 0.
Proof. intros. replace (x - 52) with (x + 4 * -13) by lia. by apply mod4. Qed.

(** A switch to a process that waits returns with what it waits with. *)
Lemma switch_resumes t j x : threads_ok t → (j < N)%nat → j ≠ running t → waiting t j = Some x →
  can_switch (running t) j (core t) →
  ∃ s', run callee switch_context (core t) = Some s' ∧ gpr s' SP = fst x ∧ context s' = snd x ∧
  Some (pc s') = head (snd x) ∧ ram s' = switched_out (core t) ∧ csrs s' = csrs (core t) ∧ prv s' = prv (core t).
Proof using L.
  intros [Hc Hm Hw] Hj Hne Hx (E0 & E1 & Hal & Hr). set (c := running t) in *. set (s := core t) in *.
  destruct (Hw j x Hj Hne Hx) as (Hs & Ha & Hrj & Hl & Hf). destruct (stack_range L c Hc) as [Rc1 Rc2]. destruct (stack_range L j Hj) as [Rj1 Rj2].
  destruct (slot_word L c Hc) as [Hc4 Hc0]. destruct (slot_word L j Hj) as [Hj4 Hj0].
  assert (Hroom : room (ram s) (gpr s SP - 52) 13) by (apply (stack_room _ c); [done|done|by apply sub_aligned|lia|lia]).
  assert (Hkeep : ∀ a, a ≠ slot c → ¬ (lo c ≤ a < hi c) → switched_out s !! a = ram s !! a).
  { intros a H1 H2. unfold switched_out. rewrite E0, lookup_insert_ne by done. apply stores_other.
    change (length (context s)) with 13%nat. lia. }
  destruct (switch_spec callee s (fst x - 52) (snd x)) as (s' & Er & E2 & E3 & E4 & E5 & E6 & E7); try done; try lia.
  - rewrite E0. split; [done|]. split; [done|]. split; [exact (proj1 (Hm c Hc))|].
    destruct (slot_outside L c c Hc Hc); lia.
  - by rewrite E1.
  - rewrite E1, Hkeep; [done|by apply (slot_distinct L)|destruct (slot_outside L j c Hj Hc); lia].
  - by apply sub_aligned.
  - eapply frame_agree; [|exact Hf]. intros a H'. rewrite Hl in H'. apply Hkeep.
    + destruct (slot_outside L c j Hc Hj); lia.
    + destruct (stack_apart L c j Hc Hj ltac:(done)); lia.
  - exists s'. split; [done|]. split; [by rewrite E3; lia|]. done.
Qed.

Lemma switched_mapped c s : mapped (ram s) → gpr s A0 = slot c → mapped (switched_out s).
Proof.
  intros Hm E0.
  assert (∀ a, is_Some (ram s !! a) → is_Some (switched_out s !! a)) as Hs.
  { intros a Ha. unfold switched_out. destruct (decide (a = gpr s A0)) as [->|Hne]; [by rewrite lookup_insert_eq; eauto|].
    rewrite lookup_insert_ne by done. by apply stores_some. }
  intros j Hj. destruct (Hm j Hj) as [H1 H2]. split; [by apply Hs|]. intros a Ha Hal. by apply Hs, H2.
Qed.

(** What the switched-out process leaves behind. *)
Lemma switched_saved c s : (c < N)%nat → mapped (ram s) → gpr s A0 = slot c → gpr s SP mod 4 = 0 → lo c + 52 ≤ gpr s SP ≤ hi c →
  saved_for (switched_out s) c (gpr s SP, context s).
Proof using L.
  intros Hc Hm E0 Ha Hr. unfold saved_for, switched_out. cbn [fst snd]. rewrite E0. split; [by rewrite lookup_insert_eq|].
  do 2 (split; [done|]). split; [done|]. eapply frame_agree; [|apply stores_frame]. change (length (context s)) with 13%nat.
  intros a H'. rewrite lookup_insert_ne; [done|]. destruct (slot_outside L c c Hc Hc); lia.
Qed.

Lemma tstep_ok t t' : threads_ok t → tstep t t' → threads_ok t'.
Proof using L.
  intros Hok Hst. pose proof Hok as [Hc Hm Hw]. destruct Hst as [c s s' G Hg Hm'|c j s s' G x Hj Hne HG Hg Hm' Hx|c j s G Hne|c j s s' G Hj Hne [x HG] Hcan Hrun]; cbn [running core waiting] in *.
  - constructor; cbn; try done. intros j x Hj Hne Hx. eapply saved_agree; [done| |by apply Hw].
    intros a Ha. apply Hg. exists j. split; [done|]. destruct Ha; [by left|by right].
  - constructor; cbn; try done. intros i y Hi Hic Hy. unfold waits in Hy. case_decide as E; [by subst; simplify_eq|].
    eapply saved_agree; [done| |by apply Hw]. intros a Ha. apply Hg.
    + intros ->. destruct Ha as [Ha|Ha]; [by apply (slot_distinct L j i)|]. destruct (slot_outside L j i Hj Hi); lia.
    + intros Hb. destruct Ha as [->|Ha]; [destruct (slot_outside L i j Hi Hj); lia|]. destruct (stack_apart L i j Hi Hj E); lia.
    + exists i. split; [done|]. destruct Ha; [by left|by right].
  - constructor; cbn; try done. intros i y Hi Hic Hy. unfold waits in Hy. case_decide; [done|]. by apply Hw.
  - destruct (switch_resumes (Threads c s G) j x Hok Hj Hne HG Hcan) as (s2 & Er & _ & _ & _ & Em & _). cbn [core] in Er, Em.
    rewrite Hrun in Er. injection Er as <-. destruct Hcan as (E0 & E1 & Hal & Hr).
    constructor; cbn [running core waiting]; [done|rewrite Em; by eapply switched_mapped|]. rewrite Em.
    intros i y Hi Hij Hy. unfold waits in Hy. case_decide as E; [subst; injection Hy as <-; by apply switched_saved|].
    eapply saved_agree; [done| |by apply Hw]. intros a Ha. unfold switched_out. rewrite E0.
    rewrite lookup_insert_ne.
    + apply stores_other. change (length (context s)) with 13%nat. destruct Ha as [->|Ha].
      * destruct (slot_outside L i c Hi Hc); lia.
      * destruct (stack_apart L i c Hi Hc E); lia.
    + intros <-. destruct Ha as [Ha|Ha]; [by apply (slot_distinct L c i)|]. destruct (slot_outside L c i Hc Hi); lia.
Qed.

Lemma threads_reach t t' : threads_ok t → rtc tstep t t' → threads_ok t'.
Proof using L. intros Hok Hrtc. induction Hrtc; [done|]. by eauto using tstep_ok. Qed.

(** C22: Over every interleaving of the kernel threads, with any C code between the
    switches that stays off the other stacks, a switch never fails, and a process goes on
    exactly where it was switched out, or where [create_process] set it up: with the same
    stack pointer, return address and saved registers. *)
Theorem context_switch_resumes t t' j x :
  threads_ok t → rtc tstep t t' → (j < N)%nat → j ≠ running t' → waiting t' j = Some x → can_switch (running t') j (core t') →
  ∃ s', run callee switch_context (core t') = Some s' ∧ gpr s' SP = fst x ∧ context s' = snd x ∧ Some (pc s') = head (snd x) ∧
  csrs s' = csrs (core t') ∧
  tstep t' (Threads j s' (waits (running t') (Some (gpr (core t') SP, context (core t'))) (waiting t'))) ∧
  threads_ok (Threads j s' (waits (running t') (Some (gpr (core t') SP, context (core t'))) (waiting t'))).
Proof using L.
  intros Hok Hrtc Hj Hne Hx Hcan.
  assert (threads_ok t') as Hok' by (by eapply threads_reach).
  destruct (switch_resumes t' j x Hok' Hj Hne Hx Hcan) as (s' & Er & E1 & E2 & E3 & E4 & E5 & E6).
  assert (tstep t' (Threads j s' (waits (running t') (Some (gpr (core t') SP, context (core t'))) (waiting t')))) as Hst.
  { destruct t' as [c s G]. apply Switch; [done|done|by eexists|done|exact Er]. }
  exists s'. do 5 (split; [done|]). split; [exact Hst|]. by eapply tstep_ok.
Qed.
End threads.

(** Two processes; the second one waits with the registers [fr]. *)
Definition two_slot (i : nat) : Z := 2000 * Z.of_nat i + 400.
Definition two_lo (i : nat) : Z := 2000 * Z.of_nat i + 800.
Definition two_hi (i : nat) : Z := 2000 * Z.of_nat i + 1200.
Definition two_ram (fr : list Z) : gmap Z Z :=
  <[400 := 0]> (<[2400 := 3148]> (stores 3148 fr (stores 2800 (replicate 100 0) (stores 800 (replicate 100 0) ∅)))).
Definition two_cpu (fr : list Z) : cpu :=
  Cpu (λ r, match r with SP => 1100 | A0 => 400 | A1 => 2400 | _ => 9 end) (λ _, 0) 6000 Supervisor (two_ram fr).
Definition two_threads (fr : list Z) (s : cpu) : threads := Threads 0 s (λ i, if decide (i = 1%nat) then Some (3200, fr) else None).

Lemma two_layout : layout 2 two_slot two_lo two_hi.
Proof.
  constructor; unfold two_slot, two_lo, two_hi; intros; try lia.
  split; [|lia]. destruct i as [|[|i]]; [done..|lia].
Qed.

Lemma two_mapped fr : mapped 2 two_slot two_lo two_hi (two_ram fr).
Proof.
  intros j Hj. assert (j = 0 ∨ j = 1)%nat as [->| ->] by lia; (split; [unfold two_ram, two_slot; cbn [Z.of_nat Z.mul Z.add]|]).
  - rewrite lookup_insert_eq. eauto.
  - unfold two_lo, two_hi. intros a Ha Hal. unfold two_ram. rewrite !lookup_insert_ne by lia. do 2 apply stores_some. by apply stores_mapped.
  - rewrite lookup_insert_ne, lookup_insert_eq by done. eauto.
  - unfold two_lo, two_hi. intros a Ha Hal. unfold two_ram. rewrite !lookup_insert_ne by lia. apply stores_some. by apply stores_mapped.
Qed.

Lemma two_slot_1 fr : two_ram fr !! two_slot 1 = Some (3200 - 52).
Proof. change (two_slot 1) with 2400. unfold two_ram. by rewrite lookup_insert_ne, lookup_insert_eq. Qed.

Lemma two_ok fr s : length fr = 13%nat → ram s = two_ram fr → threads_ok 2 two_slot two_lo two_hi (two_threads fr s).
Proof.
  intros Hl Hr. constructor; [cbn; lia|cbn; rewrite Hr; exact (two_mapped fr)|]. cbn [running core waiting two_threads].
  intros j x Hj Hne Hx. case_decide; [subst|done]. injection Hx as <-. rewrite Hr.
  split; [exact (two_slot_1 fr)|]. split; [reflexivity|]. split; [unfold two_lo, two_hi; cbn; lia|]. split; [exact Hl|].
  eapply frame_agree; [|apply stores_frame]. intros a Ha. unfold two_ram. cbn in Ha. by rewrite !lookup_insert_ne by lia.
Qed.

Lemma two_can_switch s : gpr s = gpr (two_cpu []) → can_switch two_slot two_lo two_hi 0 1 s.
Proof. unfold can_switch. intros ->. split; [done|]. split; [done|]. split; [done|]. unfold two_lo, two_hi. cbn. lia. Qed.

Lemma context_switch_resumes_witness :
  let fr := 7000 :: replicate 12 5 in
  ∃ s', run (λ s, Some s) switch_context (two_cpu fr) = Some s' ∧ gpr s' SP = 3200 ∧ context s' = fr ∧ Some (pc s') = Some 7000.
Proof.
  intros fr.
  destruct (context_switch_resumes (λ s, Some s) 2 two_slot two_lo two_hi two_layout (two_threads fr (two_cpu fr))
    (two_threads fr (two_cpu fr)) 1 (3200, fr)) as (s' & H1 & H2 & H3 & H4 & _).
  - apply two_ok; reflexivity.
  - apply rtc_refl.
  - lia.
  - discriminate.
  - reflexivity.
  - apply two_can_switch. reflexivity.
  - exists s'. split; [exact H1|]. split; [exact H2|]. split; [exact H3|exact H4].
Defined.
