(* ===== verification/Trap.v ===== *)
(** * Traps: from the user program into the kernel and back

    [kentry] saves the registers of the user program in a [struct trap_frame] on the
    kernel stack, calls [handle_trap] on it, and returns to the program with what the
    frame then holds. The theorems: a system call is transparent to the program
    but for its result, and the first switch to a new process enters its program. *)

From S2P Require Import Prelude CLib FsTypes Block Inode KState Page Virtio Kprintf FdTable Process Syscall Asm.
From S2P Require Import Threads.

(** The registers in the order of [struct trap_frame]. *)
Definition trap_regs : list reg :=
  [RA; GP; TP; T0; T1; T2; T3; T4; T5; T6; A0; A1; A2; A3; A4; A5; A6; A7; S0; S1; S2; S3; S4; S5; S6; S7; S8; S9; S10; S11].
Definition user_words (s : cpu) : list Z := (gpr s <$> trap_regs) ++ [gpr s SP].

Lemma kentry_code : kentry =
  [Csrrw SP SSCRATCH SP; Addi SP SP (-124)] ++ saves 0 trap_regs ++
  [Csrr A0 SSCRATCH; Sw A0 120 SP; Addi A0 SP 124; Csrw SSCRATCH A0; Mv A0 SP; Call] ++
  loads 0 trap_regs ++ [Lw SP 120 SP; Sret].
Proof. reflexivity. Qed.

Lemma no_sp : SP ∉ trap_regs.
Proof. by refine (bool_decide_unpack _ _). Qed.
Lemma distinct_regs : NoDup trap_regs.
Proof. by refine (bool_decide_unpack _ _). Qed.

(** The frame as the system calls see it. *)
Definition frame_of (ws : list Z) : trap_frame :=
  Frame (ws !!! 10%nat) (ws !!! 11%nat) (ws !!! 12%nat) (ws !!! 13%nat) (take 10 ws ++ drop 14 ws).
Definition words_of (f : trap_frame) : list Z :=
  take 10 (saved f) ++ [a0 f; a1 f; a2 f; a3 f] ++ drop 10 (saved f).

Lemma words_of_frame ws : length ws = 31%nat → words_of (frame_of ws) = ws.
Proof. intros. do 32 (destruct ws as [|? ws]; try done). Qed.

Lemma words_of_set_a0 v ws : length ws = 31%nat → words_of (set_a0 v (frame_of ws)) = <[10%nat := v]> ws.
Proof. intros. do 32 (destruct ws as [|? ws]; try done). Qed.

(** The state in which [handle_trap] is called: the frame [ws] lies on the stack at [b]. *)
Record at_call (s s1 : cpu) (b : Z) (ws : list Z) : Prop := {
  call_frame : frame_at (ram s1) b ws;
  call_a0 : gpr s1 A0 = b;
  call_sp : gpr s1 SP = b;
  call_csrs c : c ≠ SSCRATCH → csrs s1 c = csrs s c;
  call_scratch : csrs s1 SSCRATCH = b + 124;
  call_prv : prv s1 = prv s;
  call_rest a : a < b ∨ b + 124 ≤ a → ram s1 !! a = ram s !! a
}.

(** What the routine leaves: the stack pointer and the kernel stack as they were, and the
    frame [ws']. *)
Record at_return (s1 s2 : cpu) (ws' : list Z) : Prop := {
  ret_sp : gpr s2 SP = gpr s1 SP;
  ret_frame : frame_at (ram s2) (gpr s1 SP) ws';
  ret_scratch : csrs s2 SSCRATCH = csrs s1 SSCRATCH
}.

Lemma room_take m b n k : (k ≤ n)%nat → room m b n → room m b k.
Proof. intros Hk (? & ? & ? & H). split; [done|]. split; [done|]. split; [lia|]. intros i Hi. apply H. lia. Qed.

Lemma frame_snoc m b ws w : frame_at m b ws → m !! (b + 4 * Z.of_nat (length ws)) = Some w → frame_at m b (ws ++ [w]).
Proof.
  intros Hf Hw i x Hx. apply lookup_app_Some in Hx as [Hx|[Hi Hx]]; [by apply Hf|].
  apply list_lookup_singleton_Some in Hx as [Hi' ->]. by replace i with (length ws) by lia.
Qed.

Lemma frame_app_l m b ws ws' : frame_at m b (ws ++ ws') → frame_at m b ws.
Proof. intros Hf i x Hx. apply Hf. by apply lookup_app_l_Some. Qed.

Lemma take_drop_30 {A} (l : list A) : length l = 31%nat → ∃ k w, l = k ++ [w] ∧ length k = 30%nat.
Proof.
  intros Hl. destruct (exists_last (l := l)) as (k & w & ->); [by intros ->|]. exists k, w. split; [done|].
  rewrite length_app in Hl. cbn in Hl. lia.
Qed.

Section kentry.
Variable callee : cpu → option cpu.

Lemma run_cons i l s : run callee (i :: l) s = s' ← exec callee i s; run callee l s'.
Proof. reflexivity. Qed.

(** The six instructions between the stores and the loads. *)
Lemma run_prepare s b usp m l : gpr s SP = b → csrs s SSCRATCH = usp → store_word (b + 120) usp (ram s) = Some m →
  0 ≤ b → b + 124 < 4294967296 →
  run callee ([Csrr A0 SSCRATCH; Sw A0 120 SP; Addi A0 SP 124; Csrw SSCRATCH A0; Mv A0 SP; Call] ++ l) s =
  s' ← callee (set_gpr A0 b (set_csr SSCRATCH (b + 124) (set_gpr A0 (b + 124) (set_ram m (set_gpr A0 usp s)))));
  run callee l s'.
Proof.
  intros E1 E2 Es Hb Hb'. cbn [app]. rewrite run_cons. cbn [exec mbind option_bind]. rewrite E2, run_cons. cbn [exec].
  rewrite gpr_set_ne, gpr_set_eq, E1, u32_small by (done || lia). cbn [ram set_gpr]. rewrite Es. cbn [mbind option_bind].
  rewrite run_cons. cbn [exec mbind option_bind]. change (gpr (set_ram _ _) SP) with (gpr s SP). rewrite E1, u32_small by lia.
  rewrite run_cons. cbn [exec mbind option_bind]. rewrite gpr_set_eq, run_cons. cbn [exec mbind option_bind].
  change (gpr (set_csr _ _ _) SP) with (gpr s SP). rewrite E1, run_cons. done.
Qed.

(** The stack pointer of the program is loaded last, and control goes back. *)
Lemma run_finish s b w : gpr s SP = b → b mod 4 = 0 → 0 ≤ b → b + 124 < 4294967296 → ram s !! (b + 120) = Some w →
  run callee [Lw SP 120 SP; Sret] s = Some (do_sret (set_gpr SP w s)).
Proof.
  intros E H4 Hb Hb' Hw. rewrite run_cons. cbn [exec]. rewrite E, u32_small by lia. unfold load_word.
  rewrite (mod4 b 30 H4 : (b + 120) mod 4 = 0). cbn [Z.eqb]. by rewrite Hw.
Qed.

Lemma kentry_spec s b (R : cpu → cpu → list Z → Prop) : csrs s SSCRATCH = b + 124 → room (ram s) b 31 →
  (∀ s1, at_call s s1 b (user_words s) → ∃ s2 ws', callee s1 = Some s2 ∧ at_return s1 s2 ws' ∧ length ws' = 31%nat ∧ R s1 s2 ws') →
  ∃ s1 s2 ws' s3, at_call s s1 b (user_words s) ∧ R s1 s2 ws' ∧ csrs s2 SSCRATCH = b + 124 ∧
  run callee kentry s = Some s3 ∧ user_words s3 = ws' ∧ pc s3 = csrs s2 SEPC ∧
  prv s3 = (if Z.testbit (csrs s2 SSTATUS) SPP then Supervisor else User) ∧
  csrs s3 SSCRATCH = b + 124 ∧ csrs s3 SATP = csrs s2 SATP ∧ ram s3 = ram s2.
Proof.
  intros Hk Hroom Hcall. pose proof Hroom as (Hb4 & Hb0 & Hb & _). rewrite kentry_code, run_app.
  cbn [run]. unfold exec at 1 2. cbn [mbind option_bind]. set (s0 := set_gpr SP (u32 _) _).
  assert (gpr s0 SP = b) as E0.
  { unfold s0. rewrite gpr_set_eq, gpr_set_eq, Hk, u32_small; lia. }
  assert (∀ r, r ≠ SP → gpr s0 r = gpr s r) as Er by (intros r Hr; unfold s0; rewrite !gpr_set_ne by exact Hr; reflexivity).
  rewrite run_app, run_saves; [|lia|rewrite E0, Z.add_0_r; by apply (room_take _ _ 31); [apply Nat.leb_le|]|lia].
  rewrite E0, Z.add_0_r. cbn [mbind option_bind].
  assert (gpr s0 <$> trap_regs = gpr s <$> trap_regs) as Ew.
  { apply list_fmap_ext. intros i r Hi. apply Er. intros ->. apply no_sp. by eapply list_elem_of_lookup_2. }
  rewrite Ew. change (ram s0) with (ram s). set (m1 := stores b _ _).
  destruct (stores_some b (gpr s <$> trap_regs) (ram s) (b + 120)) as [y Ey].
  { replace (b + 120) with (b + 4 * Z.of_nat 30) by lia. apply Hroom. lia. }
  assert (store_word (b + 120) (gpr s SP) m1 = Some (<[b + 120 := gpr s SP]> m1)) as Est.
  { unfold store_word. rewrite (mod4 b 30 Hb4 : (b + 120) mod 4 = 0). cbn [Z.eqb]. unfold m1. by rewrite Ey. }
  rewrite (run_prepare (set_ram m1 s0) b (gpr s SP) _ _ E0 eq_refl Est Hb0) by lia.
  set (m2 := <[b + 120 := gpr s SP]> m1). set (sc := set_gpr A0 b _).
  assert (gpr sc SP = b) as Esp by exact E0.
  assert (at_call s sc b (user_words s)) as Hat.
  { constructor; [|reflexivity|exact Esp| |reflexivity|reflexivity|].
    - apply frame_snoc; [|change (m2 !! (b + 120) = Some (gpr s SP)); apply lookup_insert_eq].
      apply (frame_agree m1); [|apply stores_frame]. intros a Ha. change (length (gpr s <$> trap_regs)) with 30%nat in Ha.
      change (m2 !! a = m1 !! a). unfold m2. by rewrite lookup_insert_ne by lia.
    - intros c Hc. unfold sc. cbn. by rewrite !decide_False.
    - intros a Ha. change (m2 !! a = ram s !! a). unfold m2. rewrite lookup_insert_ne by lia. apply stores_other.
      change (length (gpr s <$> trap_regs)) with 30%nat. lia. }
  destruct (Hcall sc Hat) as (s2 & ws' & Ecall & [R1 R2 R3] & Hl & HR). change (csrs sc SSCRATCH) with (b + 124) in R3.
  rewrite Ecall. cbn [mbind option_bind]. rewrite Esp in R1, R2. clearbody sc.
  destruct (take_drop_30 ws' Hl) as (k & w & -> & Hlk). pose proof (frame_app_l _ _ _ _ R2) as Hf.
  assert (ram s2 !! (b + 120) = Some w) as Hw.
  { apply (R2 30%nat). rewrite lookup_app_r by lia. by rewrite Hlk. }
  rewrite run_app, (run_loads _ 0 trap_regs k); rewrite ?R1, ?Z.mul_0_r, ?Z.add_0_r;
    [|exact no_sp|exact Hlk|lia|lia|done|change (length trap_regs) with 30%nat; lia|exact Hf].
  cbn [mbind option_bind]. set (s4 := set_gprs trap_regs k s2).
  assert (gpr s4 SP = b) as E4 by (unfold s4; rewrite set_gprs_other; [done|exact no_sp]).
  assert (gpr s4 <$> trap_regs = k) as E5 by (by apply set_gprs_in; [exact distinct_regs|]).
  destruct (set_gprs_rest trap_regs k s2) as (Q1 & Q2 & Q3 & Q4). fold s4 in Q1, Q2, Q3, Q4. clearbody s4.
  rewrite (run_finish s4 b w) by (done || lia || by rewrite Q4). exists sc, s2. do 2 eexists. split; [exact Hat|]. split; [exact HR|]. split; [exact R3|]. split; [reflexivity|].
  split; [|cbn; rewrite Q1; split; [reflexivity|]; split; [reflexivity|]; split; [exact R3|]; split; [reflexivity|exact Q4]].
  unfold user_words. f_equal. rewrite <-E5. apply list_fmap_ext. intros i r Hi. cbn.
  rewrite decide_False; [done|]. intros ->. apply no_sp. by eapply list_elem_of_lookup_2.
Qed.
End kentry.

(** * Traps: the system call as the program sees it

    [kentry] around the compiled [handle_trap] is the system call of [Syscall]: the
    program goes on after its [ecall] with a result in [a0] and every other register
    unchanged. A new process enters the program through [user_entry]. *)

(** ** System calls write [a0] only *)

Definition keeps (f : trap_frame) (m : M machine trap_frame) : Prop :=
  ∀ x f' x', m x = Ok f' x' → ∃ v, f' = set_a0 v f.

Lemma keeps_returns f m : keeps f (returns f m).
Proof. intros x f' x' H. unfold returns, mbind, M_bind in H. destruct (m x); try done. injection H as <- _. by eexists. Qed.
Lemma keeps_ret f : keeps f (mret f).
Proof. intros x f' x' H. injection H as <- _. exists (a0 f). by destruct f. Qed.
Lemma keeps_panic f : keeps f panic.
Proof. intros x f' x' H. done. Qed.
Lemma keeps_seq {A} f (m : M machine A) k : keeps f k → keeps f (m;; k).
Proof. intros Hk x f' x' H. unfold mbind, M_bind in H. destruct (m x); try done. by eapply Hk. Qed.
Lemma keeps_if f (b : bool) m k : keeps f m → keeps f k → keeps f (if b then m else k).
Proof. by destruct b. Qed.

Create HintDb frame.
#[export] Hint Resolve keeps_returns keeps_ret keeps_panic keeps_seq keeps_if : frame.

Lemma handle_syscall_frame ue others rounds meanwhile f : keeps f (handle_syscall ue others rounds meanwhile f).
Proof. unfold handle_syscall. repeat (apply keeps_if; [eauto with frame|]). apply keeps_panic. Qed.

(** ** The registers that a frame holds *)

Lemma user_words_a0 u u' v : user_words u' = <[10%nat := v]> (user_words u) →
  gpr u' A0 = v ∧ ∀ r, r ≠ A0 → gpr u' r = gpr u r.
Proof.
  unfold user_words, trap_regs. cbn [fmap list_fmap app insert list_insert]. intros H. injection H as H. split; [assumption|].
  intros [] Hr; assumption || by destruct Hr.
Qed.

Lemma user_words_length s : length (user_words s) = 31%nat.
Proof. reflexivity. Qed.

Lemma trap_gpr cause tval s r : gpr (take_trap cause tval s) r = gpr s r.
Proof. reflexivity. Qed.

(** A trap from the program has a clear SPP. *)
Lemma trap_spp cause tval s : prv s = User → Z.testbit (csrs (take_trap cause tval s) SSTATUS) SPP = false.
Proof.
  intros Hp. unfold take_trap. rewrite Hp. exact (Z.clearbit_eq _ SPP).
Qed.

Section traps.
Variable user_entry : Z.
Variable others : nat → M kernel unit.
Variable rounds : nat.
Variable meanwhile : input_dev → input_dev.
Variable callee : cpu → option cpu.
(** The machine of [Syscall] that memory, the registers of the devices included, stands for. *)
Variable abs : gmap Z Z → machine.

(** The stack of the running process at the time of the trap is no part of it. *)
Definition ignores (b : Z) : Prop := ∀ m m', (∀ a, a < b ∨ b + 124 ≤ a → m !! a = m' !! a) → abs m = abs m'.

(** The compiled [handle_trap] does what the C code says, when it is called from [kentry]
    in state [s]; when it returns, [yield] has put back the kernel stack and the page
    table of the process. *)
Definition compiled (s : cpu) (b : Z) : Prop := ∀ s1 f' pc' x',
  at_call s s1 b (user_words s) →
  handle_trap user_entry others rounds meanwhile (csrs s1 SCAUSE) (csrs s1 SSTATUS) (csrs s1 SEPC)
  (frame_of (user_words s)) (abs (ram s1)) = Ok (f', pc') x' →
  ∃ s2, callee s1 = Some s2 ∧ at_return s1 s2 (words_of f') ∧ csrs s2 SEPC = pc' ∧ csrs s2 SATP = csrs s1 SATP ∧
  Z.testbit (csrs s2 SSTATUS) SPP = Z.testbit (csrs s1 SSTATUS) SPP ∧ abs (ram s2) = x'.

(** C21: A system call is transparent to the program: when the C handler [handle_trap]
    returns normally on the machine that memory stands for, the trap, [kentry] with the
    compiled handler and [sret] bring the program back to user mode at the instruction
    after its [ecall], with the result of the call in [a0], every other register
    unchanged, the same page table and kernel stack, and memory that stands for the
    machine the handler leaves. *)
Theorem trap_roundtrip u b f' pc' x' :
  prv u = User → csrs u SSCRATCH = b + 124 → room (ram u) b 31 → ignores b → compiled (take_trap SCAUSE_ECALL 0 u) b →
  handle_trap user_entry others rounds meanwhile SCAUSE_ECALL (csrs (take_trap SCAUSE_ECALL 0 u) SSTATUS) (pc u)
  (frame_of (user_words u)) (abs (ram u)) = Ok (f', pc') x' →
  ∃ u', run callee kentry (take_trap SCAUSE_ECALL 0 u) = Some u' ∧ prv u' = User ∧ pc u' = u32 (pc u + 4) ∧
  gpr u' A0 = a0 f' ∧ (∀ r, r ≠ A0 → gpr u' r = gpr u r) ∧
  csrs u' SSCRATCH = csrs u SSCRATCH ∧ csrs u' SATP = csrs u SATP ∧ abs (ram u') = x'.
Proof.
  intros Hu Hk Hroom Hig Hc Hh. set (t := take_trap SCAUSE_ECALL 0 u) in *.
  assert (∃ v, f' = set_a0 v (frame_of (user_words u)) ∧ pc' = u32 (pc u + 4)) as (v & -> & ->).
  { unfold handle_trap in Hh. rewrite Z.eqb_refl in Hh. unfold mbind, M_bind in Hh.
    destruct (handle_syscall _ _ _ _ _ _) as [g y| | |] eqn:E; try done. injection Hh as <- <- _.
    destruct (handle_syscall_frame _ _ _ _ _ _ _ _ E) as [v ->]. eauto. }
  set (f' := set_a0 v (frame_of (user_words u))) in *.
  assert (words_of f' = <[10%nat := v]> (user_words u)) as Ef by (by apply words_of_set_a0).
  destruct (kentry_spec callee t b (λ s1 s2 ws', csrs s2 SEPC = u32 (pc u + 4) ∧ csrs s2 SATP = csrs s1 SATP ∧
    Z.testbit (csrs s2 SSTATUS) SPP = false ∧ abs (ram s2) = x' ∧ ws' = words_of f') Hk Hroom)
    as (s1 & s2 & ws' & s3 & Hat & (R1 & R2 & R3 & R4 & ->) & R5 & Er & E1 & E2 & E3 & E4 & E5 & E6).
  { intros s1 Hat. pose proof Hat as [_ _ _ Hcs _ _ Hrest].
    destruct (Hc s1 f' (u32 (pc u + 4)) x' Hat) as (s2 & Q1 & Q2 & Q3 & Q4 & Q5 & Q6).
    { rewrite !Hcs by done. rewrite (Hig (ram s1) (ram u)); [exact Hh|]. intros a Ha. by rewrite Hrest. }
    exists s2, (words_of f'). do 2 (split; [done|]). split; [by rewrite Ef, length_insert|].
    do 2 (split; [done|]). split; [|done]. rewrite Q5, Hcs by done. by apply trap_spp. }
  rewrite Ef in E1. apply user_words_a0 in E1 as [Ea0 Er']. exists s3. split; [exact Er|].
  split; [by rewrite E3, R3|]. split; [by rewrite E2|]. split; [exact Ea0|]. split; [exact Er'|].
  split; [by rewrite E4|]. split; [by rewrite E5, R2, (call_csrs _ _ _ _ Hat)|]. by rewrite E6.
Qed.
End traps.

(** A program at address 5000 reads a character that waits; memory word 4096 says whether
    it is still there. *)
Definition waiting_char (m : gmap Z Z) : machine :=
  Machine (Kernel (Fs [] [] [] [] 0) [] [] None None (Memory ∅ [] 0 0) (Console [] (if decide (m !! 4096 = Some 0) then [66] else [])))
    (InputDev 0 virtq_zero [] 0) ∅ [] (Kmesg [] 0).
Definition reader : cpu :=
  Cpu (λ r, if decide (r = A3) then SYSCALL_GETCHAR else 7) (λ c, if decide (c = SSCRATCH) then 1124 else 0) 5000 User
    (<[4096 := 0]> (cleared 1000 31)).
Definition read_char (s : cpu) : option cpu :=
  Some (set_csr SEPC (u32 (csrs s SEPC + 4)) (set_ram (<[4096 := 1]> (<[1000 + 4 * Z.of_nat 10 := 66]> (ram s))) s)).

Lemma reader_room : room (ram reader) 1000 31.
Proof.
  do 3 (split; [done|]). intros i Hi. cbn [ram reader]. rewrite lookup_insert_ne by lia. rewrite cleared_at by done. eauto.
Qed.

Lemma waiting_char_ignores : ignores waiting_char 1000.
Proof. intros m m' H. unfold waiting_char. by rewrite H by lia. Qed.

Lemma reader_compiled : compiled 0 (λ _, mret tt) 0 id read_char waiting_char (take_trap SCAUSE_ECALL 0 reader) 1000.
Proof.
  intros s1 f' pc' x' [Hf Ha0 Hsp Hcs Hsc _ Hrest] Hh.
  rewrite !Hcs in Hh by done. rewrite (waiting_char_ignores (ram s1) (ram reader)) in Hh by (intros a Ha; by rewrite Hrest).
  set (ws := user_words (take_trap SCAUSE_ECALL 0 reader)) in *.
  assert (f' = set_a0 66 (frame_of ws) ∧ pc' = 5004 ∧ x' = waiting_char {[ 4096 := 1 ]}) as (-> & -> & ->).
  { vm_compute in Hh. injection Hh as <- <- <-. split; [by vm_compute|]. split; by vm_compute. }
  eexists. split; [reflexivity|]. split.
  - constructor; [reflexivity| |reflexivity]. rewrite words_of_set_a0 by reflexivity. rewrite Hsp.
    eapply frame_agree; [|apply (frame_insert (ram s1)); [|exact Hf]]; [|change (length ws) with 31%nat; lia].
    intros a Ha. rewrite length_insert in Ha. change (length ws) with 31%nat in Ha.
    cbn [ram set_csr set_ram]. by rewrite lookup_insert_ne by lia.
  - split; [change (u32 (csrs s1 SEPC + 4) = 5004); by rewrite Hcs|]. split; [reflexivity|]. split; [reflexivity|].
    unfold waiting_char. cbn [ram set_csr set_ram]. by rewrite lookup_insert_eq, lookup_singleton_eq.
Qed.

Lemma trap_roundtrip_witness : ∃ u', run read_char kentry (take_trap SCAUSE_ECALL 0 reader) = Some u' ∧ prv u' = User ∧
  pc u' = 5004 ∧ gpr u' A0 = 66 ∧ (∀ r, r ≠ A0 → gpr u' r = gpr reader r).
Proof.
  destruct (trap_roundtrip 0 (λ _, mret tt) 0 id read_char waiting_char reader 1000 (set_a0 66 (frame_of (user_words reader))) 5004
    (waiting_char {[ 4096 := 1 ]})) as (u' & H1 & H2 & H3 & H4 & H5 & _).
  - reflexivity.
  - reflexivity.
  - exact reader_room.
  - exact waiting_char_ignores.
  - exact reader_compiled.
  - vm_compute. reflexivity.
  - exists u'. split; [exact H1|]. split; [exact H2|]. split; [exact H3|]. split; [exact H4|exact H5].
Defined.

(** * The first run of a process

    [create_process] leaves a frame for [switch_context] on the kernel stack of the new
    process. The first switch to it goes to [user_entry], which enters the program. *)

(** ** The frame of a new process *)

Definition starts (user_entry argc : Z) (usp : Z) (p : Process) : Prop :=
  frame p = [user_entry; usp; argc; usp] ++ zeros 9.

Section makes.
Variable Q : nat → kernel → Prop.

(** A successful creation ends in [Q]. *)
Definition makes (m : M kernel (option nat)) : Prop := ∀ k i k', m k = Ok (Some i) k' → Q i k'.

Lemma makes_bind {A} (m : M kernel A) f : (∀ x, makes (f x)) → makes (x ← m; f x).
Proof. intros Hf k i k' H. unfold mbind, M_bind in H. destruct (m k) as [x k1| | |]; try done. by eapply Hf. Qed.
Lemma makes_none : makes (mret None).
Proof. intros k i k' H. done. Qed.
Lemma makes_panic : makes panic.
Proof. intros k i k' H. done. Qed.
Lemma makes_upd i g : (∀ k, Q i (set_procs (alter g i) k)) → makes (upd_proc i g;; mret (Some i)).
Proof. intros Hg k i' k' H. injection H as <- <-. apply Hg. Qed.
End makes.

Lemma create_process_frame user_entry image size argc argv k i k' p :
  create_process user_entry image size argc argv k = Ok (Some i) k' → procs k' !! i = Some p →
  ∃ usp, starts user_entry (u32 argc) usp p.
Proof.
  set (Q := λ i k', ∀ p, procs k' !! i = Some p → ∃ usp, starts user_entry (u32 argc) usp p).
  assert (makes Q (create_process user_entry image size argc argv)) as H; [|intros Hc Hp; by eapply H].
  clear k i k' p. apply makes_bind. intros l. destruct (proc_free l) as [i|]; [|apply makes_panic]. do 6 (apply makes_bind; intros ?).
  apply makes_bind. intros [[ip sz]|]; [|apply makes_none]. do 4 (apply makes_bind; intros ?).
  cbv zeta. apply makes_upd.
  intros k p Hp. cbn [procs set_procs] in Hp. rewrite list_lookup_alter_eq in Hp. apply fmap_Some in Hp as (q & _ & ->). eexists. reflexivity.
Qed.

(** ** Into the program *)

Section first_run.
Variable callee : cpu → option cpu.

Lemma user_entry_spec s : ∃ s', run callee user_entry s = Some s' ∧ pc s' = USER_BASE ∧ prv s' = User ∧
  gpr s' SP = gpr s S0 ∧ gpr s' A0 = gpr s S1 ∧ gpr s' A1 = gpr s S2 ∧
  Z.testbit (csrs s' SSTATUS) SIE = true ∧ csrs s' SATP = csrs s SATP ∧ csrs s' SSCRATCH = csrs s SSCRATCH ∧ ram s' = ram s.
Proof. eexists. split; [reflexivity|]. repeat split. Qed.

Variable N : nat.
Variables slot lo hi : nat → Z.
Context (L : layout N slot lo hi).

(** C23: A process that [create_process] made starts as its program expects: whenever
    [yield] first switches to it, whatever ran before, [switch_context] returns to
    [user_entry], which enters user mode at [USER_BASE], with interrupts enabled, with the
    stack pointer that [create_process] computed in [sp] and [a1] (the argument vector)
    and the number of arguments in [a0], on its own page table, and with its own kernel
    stack ready for the first trap. *)
Theorem new_process_starts entry t t' i s :
  threads_ok N slot lo hi t → rtc (tstep callee N slot lo hi) t t' → (i < N)%nat → i ≠ running t' →
  can_switch slot lo hi (running t') i s →
  (∀ image size argc argv k k' p, create_process entry image size argc argv k = Ok (Some i) k' → procs k' !! i = Some p →
    ∃ usp, starts entry (u32 argc) usp p) ∧
  (∀ p argc usp, starts entry argc usp p → waiting t' i = Some (hi i, frame p) → core t' = yield_csrs (page_table p) (hi i) s →
    ∃ s1 s2, run callee switch_context (core t') = Some s1 ∧ pc s1 = entry ∧
    run callee user_entry s1 = Some s2 ∧ pc s2 = USER_BASE ∧ prv s2 = User ∧ Z.testbit (csrs s2 SSTATUS) SIE = true ∧
    gpr s2 SP = usp ∧ gpr s2 A0 = argc ∧ gpr s2 A1 = usp ∧
    csrs s2 SATP = Z.lor SATP_SV32 (PAGE_TABLE_TO_INDEX (page_table p)) ∧ csrs s2 SSCRATCH = hi i).
Proof.
  intros Hok Hrtc Hi Hne Hcan. split; [intros *; apply create_process_frame|]. intros p argc usp Hst Hw Hcore.
  assert (threads_ok N slot lo hi t') as Hok' by (eapply threads_reach; [exact L|exact Hok|exact Hrtc]).
  assert (can_switch slot lo hi (running t') i (core t')) as Hcan' by (rewrite Hcore; exact Hcan).
  destruct (switch_resumes callee N slot lo hi L t' i _ Hok' Hi Hne Hw Hcan') as (s1 & Er & E1 & E2 & E3 & E4 & E5 & _).
  cbn [fst snd] in *. destruct (user_entry_spec s1) as (s2 & Eu & U1 & U2 & U3 & U4 & U5 & U6 & U7 & U8 & _).
  unfold starts in Hst. rewrite Hst in E2, E3. cbn in E2, E3. injection E2 as Hra H0 H1 H2 _. injection E3 as Hpc.
  exists s1, s2. split; [done|]. split; [exact Hpc|]. do 4 (split; [done|]).
  split; [by rewrite U3|]. split; [by rewrite U4|]. split; [by rewrite U5|]. rewrite U7, U8, E5, Hcore. done.
Qed.
End first_run.

(** A process in slot 1 with its page table at 8192 and two arguments at 20000000. *)
Definition fresh_frame : list Z := [7000; 20000000; 2; 20000000] ++ zeros 9.
Definition fresh_proc : Process :=
  mkProcess 2 PROCSTATE_RUNNABLE 0 fresh_frame 8192 None 0 0 [] [] [].

Lemma new_process_starts_witness : ∃ s1 s2,
  run (λ s, Some s) switch_context (yield_csrs 8192 3200 (two_cpu fresh_frame)) = Some s1 ∧ pc s1 = 7000 ∧
  run (λ s, Some s) user_entry s1 = Some s2 ∧ pc s2 = USER_BASE ∧ prv s2 = User ∧ gpr s2 SP = 20000000 ∧ gpr s2 A0 = 2.
Proof.
  set (s := two_cpu fresh_frame). set (t := two_threads fresh_frame (yield_csrs 8192 3200 s)).
  destruct (new_process_starts (λ s, Some s) 2 two_slot two_lo two_hi two_layout 7000 t t 1 s) as [_ H].
  - apply two_ok; reflexivity.
  - apply rtc_refl.
  - lia.
  - discriminate.
  - apply two_can_switch. reflexivity.
  - destruct (H fresh_proc 2 20000000) as (s1 & s2 & H1 & H2 & H3 & H4 & H5 & _ & H6 & H7 & _); [reflexivity..|].
    exists s1, s2. split; [exact H1|]. split; [exact H2|]. split; [exact H3|]. split; [exact H4|]. split; [exact H5|]. split; [exact H6|exact H7].
Defined.
