(* ===== verification/Boot.v ===== *)
(** * Booting: definitions

    [kmain] of kernel/kernel.c: the drivers, the filesystem, the screen and the process
    table are set up in turn, the shell is created from the image that is linked into the
    kernel, and the idle process gives the processor away. The diagnostic lines are left
    out, and so is the write of [stvec], which is part of the processor of [Asm]. *)

From S2P Require Import Prelude CLib FsTypes Block Inode Dir KState FdTable Page Process Virtio Kprintf Syscall Ramfb.

(** The block devices with the drivers' state, the firmware interface, and the rest. The
    disk of a unit is also the device of the filesystem with that number. *)
Record board (D : Type) := Board { b_units : list unit_; b_fw : D; b_m : machine }.
Arguments Board {D}.
Arguments b_units {D}.
Arguments b_fw {D}.
Arguments b_m {D}.

Definition set_b_m {D} (x : machine) (b : board D) : board D := Board (b_units b) (b_fw b) x.
Definition in_m {D A} (m : M machine A) : M (board D) A := zoom b_m set_b_m m.

Definition drivers_of {D} (b : board D) : vstate :=
  Vstate (b_units b) (m_input (b_m b)) (m_iregs (b_m b)) (kmem (mk (b_m b))).
Definition set_drivers {D} (v : vstate) (b : board D) : board D :=
  Board (units v) (b_fw b)
    (Machine (set_kmem (v_mem v) (mk (b_m b))) (v_input v) (v_iregs v) (framebuffer (b_m b)) (m_log (b_m b))).
Definition in_drivers {D A} (m : M vstate A) : M (board D) A := zoom drivers_of set_drivers m.

Definition in_ramfb {D A} (m : M (ramfb D) A) : M (board D) A :=
  zoom (λ b, Ramfb (framebuffer (b_m b)) (b_fw b))
    (λ r b, Board (b_units b) (fwcfg r) (set_framebuffer (g_framebuffer r) (b_m b))) m.

(** ** Clearing the statics *)

Definition superblock_zero : superblock := Superblock 0 0 0 0 0 0.
Definition fs_statics (s : fs) : fs :=
  Fs (devs s) [superblock_zero; superblock_zero] (replicate NINODE inode_zero) [mount_zero; mount_zero] 0.
Definition blk_dev_zero : blk_dev := BlkDev 0 0 blk_req_zero virtq_zero 0.
Definition kernel_statics (k : kernel) : kernel :=
  Kernel (fs_statics (kfs k)) (replicate GLOBAL_OPEN_FILE_LIMIT file_zero) (replicate PROCS_MAX process_zero) None None
    (set_page_allocated (λ _, zeros (Z.to_nat NUM_PAGES)) (kmem k)) (kcon k).

(** [memset(__bss, 0, ...)] *)
Definition clear_bss {D} : M (board D) unit :=
  modify (λ b, Board (set_u_dev (λ _, blk_dev_zero) <$> b_units b) (b_fw b)
    (Machine (kernel_statics (mk (b_m b))) (InputDev 0 virtq_zero [] 0) (m_iregs (b_m b))
      (zeros (Z.to_nat (FB_WIDTH * FB_HEIGHT))) (Kmesg (zeros (Z.to_nat KMESG_SIZE)) 0))).

Section kmain.
Context {D : Type} `{!FwCfg D}.
Variable user_entry : Z.
(** The addresses of the framebuffer and of the two structures for the firmware, and how
    often the transfer is polled at most. *)
Variables fb_addr cfg_addr dma_addr : Z.
Variable patience : nat.
(** The program of the shell. *)
Variable shell_bin : list Z.

Definition FILL_COLOR : Z := 43775.

(** [for (int i = 0; i < FB_WIDTH * FB_HEIGHT; ++i) fb_ram[i] = 0x0000AAFF] *)
Definition fill_framebuffer : M machine unit :=
  loop (S (Z.to_nat (FB_WIDTH * FB_HEIGHT))) (λ i,
    if i <? FB_WIDTH * FB_HEIGHT then
      fb ← gets framebuffer;
      _ ← expect (zlookup fb i);
      modify (set_framebuffer (<[Z.to_nat i := FILL_COLOR]> fb));;
      mret (inl (i + 1))
    else mret (inr tt)) 0.

(** Up to the first [yield]. *)
Definition kernel_init : M (board D) unit :=
  clear_bss;;
  in_drivers virtio_blk_init;;
  in_drivers virtio_input_init;;
  in_m (in_k file_init);;
  in_m (in_k (in_fs fs_init));;
  in_ramfb (ramfb_init fb_addr cfg_addr dma_addr patience);;
  in_m fill_framebuffer;;
  in_m (in_k (process_init user_entry));;
  in_m (in_k (create_process user_entry (Some shell_bin) (Z.of_nat (length shell_bin)) 0 None));;
  mret tt.

(** [others] is what the processes do from the first switch until all of them have
    ended; then the kernel powers off. *)
Definition kmain (others : nat → M kernel unit) : M (board D) unit :=
  kernel_init;;
  in_m (in_k (yield others)).
End kmain.
