(* ===== verification/BootParts.v ===== *)
(** * Booting: the drivers and the first processes

    From memory of which no page is in use, the initialisation of the two disks and of the
    keyboard always finds its pages, and leaves queues that are ready for use. The second part creates the first processes. *)

From S2P Require Import Prelude CLib FsTypes Block Inode Dir FsInv FsAlloc FsMap FsGrow FsFile FsWrite FsTrunc.
From S2P Require Import FsCache DirSpec FsRef Namei Path KState Page Virtio VirtioSpec Keyboard UserMem FdTable.
From S2P Require Import Process Syscall PageMem PageTable UserSpec HeapSpec Layout Args Sched FdInv FdSteps FdFile.
From S2P Require Import FdPath ProcSpec Spawn.

(** ** Pages that are still free *)

(** The first [k] pages may be in use. *)
Definition fresh_from (m : memory) (k : Z) : Prop := ∀ j, k ≤ j < NUM_PAGES → avail m (first_page m + j).

Lemma avail_grabs n m pn p : mem_ok m → first_page m ≤ pn → pn + Z.of_nat n ≤ first_page m + NUM_PAGES →
  pn + Z.of_nat n ≤ p → avail m p → avail (grabs pn n m) p.
Proof.
  revert pn m. induction n as [|n IH]; intros pn m Hm H1 H2 Hp Ha; [done|]. cbn [grabs].
  apply IH; [by apply mem_ok_grab|change (first_page m ≤ pn + 1); lia|change (pn + 1 + Z.of_nat n ≤ first_page m + NUM_PAGES); lia|lia|].
  apply avail_grab; [done|unfold managed; lia|lia].
Qed.

Lemma grabs_rest n m pn : free_ram (grabs pn n m) = free_ram m ∧ satp (grabs pn n m) = satp m.
Proof. revert pn m. induction n as [|n IH]; intros pn m; [done|]. cbn [grabs]. exact (IH (pn + 1) (grab pn m)). Qed.

(** The memory after some allocations. *)
Record allocated_more (m m' : memory) (k : Z) : Prop := {
  am_ok : mem_ok m';
  am_fresh : fresh_from m' k;
  am_ram : free_ram m' = free_ram m;
  am_satp : satp m' = satp m
}.

Lemma alloc_fresh_wp m k n (Q : Z → memory → Prop) R : mem_ok m → fresh_from m k → 0 ≤ k → 0 < n → k + n ≤ NUM_PAGES →
  (∀ p m', managed m p → allocated_more m m' (k + n) → Q (p * 4096) m') → wp (alloc_pages n) Q R m.
Proof.
  intros Hm Hf Hk Hn Hle HQ. eapply wp_mono; [apply (alloc_pages_wp m n Hm); lia|..].
  - intros pa m' (i & Hi & Hin & -> & -> & _ & Hblk).
    assert (i ≤ k) as Hik.
    { destruct (Z.le_gt_cases i k) as [|Hlt]; [done|]. destruct (Hblk k) as (j & Hj & Ha); [lia|].
      by destruct (avail_not_alloced m (first_page m + j)); [apply Hf; lia|]. }
    apply HQ; [unfold managed; lia|]. destruct (grabs_rest (Z.to_nat n) m (first_page m + i)) as [E1 E2].
    assert (first_page (grabs (first_page m + i) (Z.to_nat n) m) = first_page m) as Ef by exact (f_equal (λ x, x / PAGE_SIZE) E1).
    split; [by apply mem_ok_grabs| |done|done]. intros j Hj. rewrite Ef. apply avail_grabs; [done|lia|lia|lia|]. apply Hf. lia.
  - intros m' [-> H]. destruct (H k) as (j & Hj & Ha); [lia|]. by destruct (avail_not_alloced m (first_page m + j)); [apply Hf; lia|].
Qed.

Lemma allocated_trans m m1 m2 k k' : allocated_more m m1 k → allocated_more m1 m2 k' → allocated_more m m2 k'.
Proof. intros [] []. split; [done|done|congruence|congruence]. Qed.

(** The pages in use form a finite set. *)
Lemma pages_in_use m n : mem_ok m → 0 ≤ n → fresh_from m n → ∃ K : gset Z, vm_ok m ∅ K ∧ (base.size K ≤ Z.to_nat n)%nat.
Proof.
  intros Hm Hn Hfresh. set (used p := bool_decide (page_allocated m !! Z.to_nat (p - first_page m) = Some 1)).
  exists (list_to_set (filter (λ p, used p = true) (seqZ (first_page m) NUM_PAGES))).
  assert (∀ p, p ∈ (list_to_set (filter (λ p, used p = true) (seqZ (first_page m) NUM_PAGES)) : gset Z) ↔ alloced m p) as HK.
  { intros p. rewrite elem_of_list_to_set, list_elem_of_filter, elem_of_seqZ. unfold alloced, managed, used. rewrite bool_decide_eq_true. tauto. }
  split.
  2: { transitivity (base.size (list_to_set (seqZ (first_page m) n) : gset Z)).
    - apply subseteq_size. intros p Hp%HK. pose proof Hp as [Hg _]. apply elem_of_list_to_set, elem_of_seqZ. unfold managed in Hg.
      split; [lia|]. apply Z.nle_gt. intros Hge. destruct (avail_not_alloced m p); [|done].
      replace p with (first_page m + (p - first_page m)) by lia. apply Hfresh. lia.
    - rewrite size_list_to_set by apply NoDup_seqZ. by rewrite length_seqZ. }
  split; [done|..].
  - intros p. rewrite <-HK. split; [intros Hp; by exists (Kept p)|]. intros ([r|r i|r i j|q] & H); try by destruct H as (?%elem_of_empty & _).
    by destruct H as [H ->].
  - intros [r|r i|r i j|q] l' p H H'; try by destruct H as (?%elem_of_empty & _).
    destruct l' as [r|r i|r i j|q']; try by destruct H' as (?%elem_of_empty & _). destruct H as [_ ->], H' as [_ ->]. done.
  - by intros ? ? ? ?%elem_of_empty.
  - by intros ? ? ?%elem_of_empty.
  - by intros ? ? ? ?%elem_of_empty.
Qed.

(** ** The disks *)

(** What a unit reports to the driver. *)
Record blk_present (u : unit_) : Prop := {
  bp_magic : u_regs u !! VIRTIO_REG_MAGIC = Some VIRTIO_MAGIC;
  bp_version : u_regs u !! VIRTIO_REG_VERSION = Some 1;
  bp_id : u_regs u !! VIRTIO_REG_DEVICE_ID = Some VIRTIO_DEVICE_BLK;
  bp_sectors : u_regs u !! VIRTIO_REG_DEVICE_CONFIG = Some (sectors (u_disk u)) ∧ 0 ≤ sectors (u_disk u) < 4294967296
}.

Section steps.
Context (us : list unit_) (inp : input_dev) (iregs : gmap Z Z) (dev : Z).

(** [v] is the state with unit [dev] at [u] and memory [m]. *)
Definition at_unit (u : unit_) (m : memory) : vstate := Vstate (<[Z.to_nat dev := u]> us) inp iregs m.
Context (u0 : unit_) (Hu : zlookup us dev = Some u0).

Lemma at_unit_lookup u m : zlookup (units (at_unit u m)) dev = Some u.
Proof using Hu.
  unfold zlookup in *. destruct (0 <=? dev); [|done]. cbn. apply list_lookup_insert_eq. by eapply lookup_lt_Some.
Qed.

Lemma upd_at f u m (Q : unit → vstate → Prop) R : Q tt (at_unit (f u) m) → wp (upd_unit dev f) Q R (at_unit u m).
Proof using Hu.
  intros HQ. eapply wp_upd_unit; [apply at_unit_lookup|]. unfold put_unit, at_unit in *. cbn. by rewrite list_insert_insert_eq.
Qed.

Lemma read_at off u m (Q : Z → vstate → Prop) R x : u_regs u !! off = Some x → Q x (at_unit u m) →
  wp (virtio_reg_read32 dev off) Q R (at_unit u m).
Proof using Hu.
  intros Hx HQ. unfold virtio_reg_read32. apply wp_bind. eapply wp_get_unit; [apply at_unit_lookup|]. apply wp_ret. by rewrite Hx.
Qed.

(** A write of any value, to a register that is not one of those the device presents. *)
Lemma write_at off x u m (Q : unit → vstate → Prop) R :
  Q tt (at_unit (Unit_ (u_dev u) (<[off := x]> (u_regs u)) (u_disk u)) m) → wp (virtio_reg_write32 dev off x) Q R (at_unit u m).
Proof using Hu. intros HQ. unfold virtio_reg_write32. by apply upd_at. Qed.

Lemma or_at off x u m (Q : unit → vstate → Prop) R :
  (∀ y, Q tt (at_unit (Unit_ (u_dev u) (<[off := y]> (u_regs u)) (u_disk u)) m)) → wp (virtio_reg_fetch_and_or32 dev off x) Q R (at_unit u m).
Proof using Hu.
  intros HQ. unfold virtio_reg_fetch_and_or32, virtio_reg_read32. apply wp_bind, wp_bind. eapply wp_get_unit; [apply at_unit_lookup|].
  apply wp_ret, write_at, HQ.
Qed.

Lemma alloc_at n u m k (Q : Z → vstate → Prop) R : mem_ok m → fresh_from m k → 0 ≤ k → 0 < n → k + n ≤ NUM_PAGES →
  (∀ p m', managed m p → allocated_more m m' (k + n) → Q (p * 4096) (at_unit u m')) → wp (in_vmem (alloc_pages n)) Q R (at_unit u m).
Proof using. intros Hm Hf H0 Hn Hk HQ. unfold in_vmem. apply wp_zoom. apply (alloc_fresh_wp m k n); [done..|]. exact HQ. Qed.
End steps.

(** One disk: three pages, and a driver between requests. *)
Lemma blk_init_device_wp us inp iregs m dev u paddr k (Q : unit → vstate → Prop) R :
  zlookup us dev = Some u → blk_present u → mem_ok m → fresh_from m k → 0 ≤ k → k + 3 ≤ NUM_PAGES →
  (∀ u' m', idle u' → u_disk u' = u_disk u → allocated_more m m' (k + 3) →
     Q tt (Vstate (<[Z.to_nat dev := u']> us) inp iregs m')) →
  wp (virtio_blk_init_device dev paddr) Q R (Vstate us inp iregs m).
Proof.
  intros Hu [B1 B2 B3 [B4 B5]] Hm Hf Hk Hle HQ.
  assert (Vstate us inp iregs m = at_unit us inp iregs dev u m) as ->.
  { unfold at_unit. f_equal. symmetry. apply list_insert_id. unfold zlookup in Hu. by destruct (0 <=? dev). }
  unfold virtio_blk_init_device. apply wp_bind, (upd_at us inp iregs dev u Hu). set (u1 := set_u_dev _ u).
  apply wp_bind, (read_at us inp iregs dev u Hu _ u1 m _ _ VIRTIO_MAGIC B1). rewrite Z.eqb_refl. cbn [negb].
  apply wp_bind, (read_at us inp iregs dev u Hu _ u1 m _ _ 1 B2). cbn [Z.eqb Pos.eqb negb].
  apply wp_bind, (read_at us inp iregs dev u Hu _ u1 m _ _ VIRTIO_DEVICE_BLK B3). rewrite Z.eqb_refl. cbn [negb].
  apply wp_bind, (write_at us inp iregs dev u Hu).
  do 3 (apply wp_bind, (or_at us inp iregs dev u Hu); intros ?). cbn [u_dev u_regs u_disk].
  apply wp_bind. unfold virtq_init. change (align_up VIRTQ_SIZE PAGE_SIZE / PAGE_SIZE) with 2.
  apply wp_bind, (alloc_at us inp iregs dev 2 _ m k); [done|done|done|lia|lia|]. intros p m1 Hp A1.
  do 4 (apply wp_bind, (write_at us inp iregs dev u Hu)). cbn [u_dev u_regs u_disk]. apply wp_ret.
  apply wp_bind, (upd_at us inp iregs dev u Hu), wp_bind, (write_at us inp iregs dev u Hu). cbn [set_u_dev u_dev u_regs u_disk].
  apply wp_bind. eapply (read_at us inp iregs dev u Hu).
  { cbn [u_regs]. rewrite !lookup_insert_ne by discriminate. exact B4. }
  change (align_up 529 PAGE_SIZE / PAGE_SIZE) with 1.
  apply wp_bind, (alloc_at us inp iregs dev 1 _ m1 (k + 2)); [apply A1|apply A1|lia|lia|lia|]. intros q m2 Hq A2.
  apply (upd_at us inp iregs dev u Hu). cbn [set_u_dev u_dev u_regs u_disk]. unfold at_unit. apply HQ.
  - destruct (managed_range m1 q (am_ok _ _ _ A1) Hq) as [Hq1 Hq2]. unfold KERNEL_BASE in Hq1.
    split; cbn [u_dev set_u_dev set_bd_vq bd_vq bd_sectors bd_req_paddr u_disk used_index]; try done; try lia.
    rewrite u32_small by lia. done.
  - done.
  - replace (k + 3) with (k + 2 + 1) by lia. by eapply allocated_trans.
Qed.

Lemma blk_init_wp u0 u1 inp iregs m (Q : unit → vstate → Prop) R :
  blk_present u0 → blk_present u1 → mem_ok m → fresh_from m 0 →
  (∀ u0' u1' m', idle u0' → idle u1' → u_disk u0' = u_disk u0 → u_disk u1' = u_disk u1 → allocated_more m m' 6 →
     Q tt (Vstate [u0'; u1'] inp iregs m')) →
  wp virtio_blk_init Q R (Vstate [u0; u1] inp iregs m).
Proof.
  intros P0 P1 Hm Hf HQ. unfold virtio_blk_init. apply wp_bind.
  eapply (blk_init_device_wp _ _ _ _ 0 u0 _ 0); [done|done|done|done|done|unfold NUM_PAGES; lia|].
  intros u0' m1 I0 E0 A1. change (<[Z.to_nat 0:=u0']> [u0; u1]) with [u0'; u1].
  eapply (blk_init_device_wp _ _ _ _ 1 u1 _ 3); [done|done|apply A1|apply A1|done|unfold NUM_PAGES; lia|].
  intros u1' m2 I1 E1 A2. change (<[Z.to_nat 1:=u1']> [u0'; u1]) with [u0'; u1'].
  apply HQ; [done..|]. by eapply allocated_trans.
Qed.

(** ** The keyboard *)

Record input_present (iregs : gmap Z Z) : Prop := {
  ip_magic : iregs !! VIRTIO_REG_MAGIC = Some VIRTIO_MAGIC;
  ip_version : iregs !! VIRTIO_REG_VERSION = Some 1;
  ip_id : iregs !! VIRTIO_REG_DEVICE_ID = Some VIRTIO_DEVICE_INPUT
}.

Section input.
Context (us : list unit_).
Lemma input_read_wp inp iregs m off x (Q : Z → vstate → Prop) R : iregs !! off = Some x → Q x (Vstate us inp iregs m) →
  wp (input_reg_read32 off) Q R (Vstate us inp iregs m).
Proof using. intros Hx HQ. unfold input_reg_read32. apply wp_bind, wp_gets, wp_ret. cbn [v_iregs]. by rewrite Hx. Qed.

Lemma input_write_wp inp iregs m off x (Q : unit → vstate → Prop) R : Q tt (Vstate us inp (<[off := x]> iregs) m) →
  wp (input_reg_write32 off x) Q R (Vstate us inp iregs m).
Proof using. done. Qed.

Lemma input_or_wp inp iregs m off x (Q : unit → vstate → Prop) R : (∀ y, Q tt (Vstate us inp (<[off := y]> iregs) m)) →
  wp (input_reg_fetch_and_or32 off x) Q R (Vstate us inp iregs m).
Proof using. intros HQ. unfold input_reg_fetch_and_or32. apply wp_bind, wp_bind, wp_gets, wp_ret, input_write_wp, HQ. Qed.

Lemma input_alloc_wp inp iregs m n k (Q : Z → vstate → Prop) R : mem_ok m → fresh_from m k → 0 ≤ k → 0 < n → k + n ≤ NUM_PAGES →
  (∀ p m', managed m p → allocated_more m m' (k + n) → Q (p * 4096) (Vstate us inp iregs m')) →
  wp (in_vmem (alloc_pages n)) Q R (Vstate us inp iregs m).
Proof using. intros. unfold in_vmem. apply wp_zoom. by apply (alloc_fresh_wp m k n). Qed.

Lemma input_init_wp inp iregs m k (Q : unit → vstate → Prop) R :
  input_present iregs → mem_ok m → fresh_from m k → 0 ≤ k → k + 3 ≤ NUM_PAGES →
  (∀ a iregs' m', input_inv (fresh_input a) [] [] (Z.of_nat <$> seq 0 16) → allocated_more m m' (k + 3) →
    Q tt (Vstate us (fresh_input a) iregs' m')) →
  wp virtio_input_init Q R (Vstate us inp iregs m).
Proof using.
  intros [I1 I2 I3] Hm Hf Hk Hle HQ. unfold virtio_input_init. apply wp_bind, wp_modify. cbn [units v_input v_iregs v_mem].
  set (inp1 := InputDev _ _ _ _).
  apply wp_bind, (input_read_wp inp1 iregs m _ VIRTIO_MAGIC); [exact I1|]. rewrite Z.eqb_refl. cbn [negb].
  apply wp_bind, (input_read_wp inp1 iregs m _ 1); [exact I2|]. cbn [Z.eqb Pos.eqb negb].
  apply wp_bind, (input_read_wp inp1 iregs m _ VIRTIO_DEVICE_INPUT); [exact I3|]. rewrite Z.eqb_refl. cbn [negb].
  apply wp_bind, input_write_wp. do 3 (apply wp_bind, input_or_wp; intros ?).
  change (align_up VIRTQ_SIZE PAGE_SIZE / PAGE_SIZE) with 2.
  apply wp_bind, (input_alloc_wp _ _ m 2 k); [done|done|done|lia|lia|]. intros p m1 Hp A1.
  do 5 (apply wp_bind, input_write_wp).
  apply wp_bind, (input_alloc_wp _ _ m1 1 (k + 2)); [apply A1|apply A1|lia|lia|lia|]. intros q m2 Hq A2.
  apply wp_bind, wp_modify. cbn [units v_input v_iregs v_mem]. apply input_write_wp.
  apply (HQ (q * 4096)); [apply fresh_input_inv|]. replace (k + 3) with (k + 2 + 1) by lia. by eapply allocated_trans.
Qed.
End input.

(** * Booting: the first processes

    The idle process is created while no process runs, and the shell by the idle process,
    from the image linked into the kernel. *)

Lemma kinv_tables k k' A X Y : kinv k A X Y → kfs k' = kfs k → file_table k' = file_table k → procs k' = procs k →
  (∃ c p, current_proc k' = Some c ∧ procs k' !! c = Some p) → kinv k' A X Y.
Proof. intros [T N I F G D C] E1 E2 E3 E4. split; rewrite ?E1, ?E2, ?E3; try done. by rewrite E3 in E4. Qed.

(** ** There is room *)

(** Everything a starved memory can hold. *)
Lemma starved_count (R K : gset Z) m m' n : (∀ r i j, r ∈ R → idx i → idx j → ¬ user_leaf m i (pte m r i j)) →
  0 ≤ n → starved R K m m' (USER_BASE + n) → NUM_PAGES ≤ Z.of_nat (S (base.size K)) + 1025 * Z.of_nat (S (base.size R)) + (n / 4096 + 1).
Proof.
  intros Hno Hn [Hf (r & R' & K' & Hvm & HR & HK & Hl)].
  assert (base.size R' ≤ S (base.size R))%nat as HR' by (etransitivity; [by apply subseteq_size|apply size_one_more]).
  set (tables := flat_map (λ r', (λ i, ppn (l1 m' r' i)) <$> seqZ 0 1024) (elements R')).
  set (leaves := (λ v, ppn (pte m' r (v / 1024) (v mod 1024))) <$> seqZ 4096 (n / 4096 + 1)).
  assert (seqZ (first_page m') NUM_PAGES ⊆+ elements K' ++ elements R' ++ tables ++ leaves) as Hsub.
  { apply NoDup_submseteq; [apply NoDup_seqZ|]. intros p Hp%elem_of_seqZ.
    destruct (proj1 (vo_alloced _ _ _ Hvm p) (Hf p ltac:(unfold managed; lia))) as ([r'|r' i|r' i j|q] & Hh); rewrite !elem_of_app.
    - destruct Hh as [Hr ->]. right. left. by apply elem_of_elements.
    - destruct Hh as (Hr & Hi & _ & ->). right. right. left. unfold tables, idx in *. rewrite list_elem_of_In, in_flat_map.
      exists r'. split; [by apply list_elem_of_In, elem_of_elements|]. apply list_elem_of_In, list_elem_of_fmap. exists i. split; [done|].
      apply elem_of_seqZ. lia.
    - destruct Hh as (Hr & Hi & Hj & Hu & ->). right. right. right.
      destruct (Hl r' i j Hr Hi Hj Hu) as [[Hr' Hu']|[-> Hv]]; [by destruct (Hno r' i j)|].
      unfold leaves, idx, USER_BASE in *. apply list_elem_of_fmap. exists (i * 1024 + j).
      replace ((i * 1024 + j) / 1024) with i by (Z.div_mod_to_equations; lia).
      replace ((i * 1024 + j) mod 1024) with j by (Z.div_mod_to_equations; lia). split; [done|].
      apply elem_of_seqZ. Z.div_mod_to_equations. lia.
    - destruct Hh as [Hq ->]. left. by apply elem_of_elements. }
  apply submseteq_length in Hsub. rewrite !length_app in Hsub. unfold leaves in Hsub. rewrite length_fmap, !length_seqZ in Hsub.
  assert (length tables = length (elements R') * 1024)%nat as Ht.
  { unfold tables. generalize (elements R'). clear. intros l. induction l as [|x l IH]; [done|].
    cbn [flat_map length]. rewrite length_app, IH, length_fmap, length_seqZ. lia. }
  rewrite Ht in Hsub. change (length (elements K')) with (base.size K') in Hsub. change (length (elements R')) with (base.size R') in Hsub.
  unfold NUM_PAGES in *. Z.div_mod_to_equations. lia.
Qed.

(** ** The idle process *)

Section idle.
Context (user_entry : Z) {k : kernel} {A : Z → Z → ikey} {R K : gset Z}.
(** No process runs yet; the tables are as if process 7, an unused one, did. *)
Context (HK : kinv (set_current (Some 7%nat) k) A [] []) (Hvm : vm_ok (kmem k) R K).
Context (Hcur : current_proc k = None) (Hprocs : procs k = replicate PROCS_MAX process_zero).
Context (Hnf : ¬ cache_full (kfs k)).

(** Only one entry of the inode cache is touched. *)
Lemma inherit_first_cache : wp (inherit_cwd 0) (λ _ k', ∃ i, ∀ j, j ≠ i → inode_table (kfs k') !! j = inode_table (kfs k) !! j) (λ _, True) k.
Proof using Hcur Hprocs Hnf.
  unfold inherit_cwd, get_current_process. apply wp_bind, wp_gets. rewrite Hcur. apply wp_bind, wp_ret. cbv beta iota.
  apply wp_bind, wp_in_fs, iget_wp; [|done]. intros i s' G. apply wp_bind. eapply wp_expect; [reflexivity|].
  eapply upd_proc_wp; [cbn; by rewrite Hprocs|]. exists i. intros j Hj. by apply G.
Qed.

(** What [inherit_cwd] does is the same for both. *)
Lemma inherit_first_wp (Q : unit → kernel → Prop) (P : kernel → Prop) :
  (∀ j b s', let p' := set_cwd (Some j) b process_zero in cached (kfs k) s' →
    kinv (set_procs (<[0%nat := p']>) (set_kfs s' (set_current (Some 7%nat) k))) A [] [] → stands s' p' (0, 1) [SLASH] →
    (∃ i, ∀ j', j' ≠ i → inode_table s' !! j' = inode_table (kfs k) !! j') →
    Q tt (set_procs (<[0%nat := p']>) (set_kfs s' k))) → wp (inherit_cwd 0) Q P k.
Proof using HK Hcur Hprocs Hnf.
  intros HQ. set (k7 := set_current (Some 7%nat) k) in *.
  assert (wp (inherit_cwd 0) (λ _ k', ∃ j b s', let p' := set_cwd (Some j) b process_zero in
    k' = set_procs (<[0%nat := p']>) (set_kfs s' k7) ∧ cached (kfs k) s' ∧
    kinv (set_procs (<[0%nat := p']>) (set_kfs s' k7)) A [] [] ∧ stands s' p' (0, 1) [SLASH])
    (λ _, False) k7) as H.
  { eapply (inherit_cwd_wp k7 A 7 0 process_zero process_zero (0, 1) [SLASH]); [exact HK|done|cbn; by rewrite Hprocs|done|cbn; by rewrite Hprocs|done| |exact Hnf].
    intros j b s' p' Hcd K' Hst _. by exists j, b, s'. }
  assert (inherit_cwd 0 k7 = match inherit_cwd 0 k with
    Ok a k' => Ok a (set_current (Some 7%nat) k') | Panic k' => Panic (set_current (Some 7%nat) k') | Fault => Fault | Hang => Hang end) as E.
  { unfold inherit_cwd, get_current_process, proc, gets, mbind, M_bind. rewrite Hcur. cbn [mret M_ret current_proc k7 set_current].
    unfold k7. cbn [procs set_current]. rewrite Hprocs. cbn [expect lookup list_lookup replicate PROCS_MAX cwd process_zero mret M_ret].
    unfold in_fs, zoom. cbn [kfs set_current]. destruct (iget 0 1 (kfs k)) as [w s'| | |]; [|done..].
    destruct (copy_name _ _); done. }
  pose proof inherit_first_cache as HC. unfold wp in *. rewrite E in H. destruct (inherit_cwd 0 k) as [[] k'|k'| |] eqn:Ek; [|done..].
  destruct H as (j & b & s' & Ek' & H1 & H2 & H3).
  assert (k' = set_procs (<[0%nat := set_cwd (Some j) b process_zero]>) (set_kfs s' k)) as E'; [|subst k'; by apply HQ].
  assert (current_proc k' = None) as Hc.
  { revert Ek. unfold inherit_cwd, get_current_process, gets, mbind, M_bind. rewrite Hcur. cbn [mret M_ret].
    unfold in_fs, zoom. destruct (iget 0 1 (kfs k)) as [w s1| | |]; [|done..]. destruct (copy_name _ _); [|done]. by intros [= <-]. }
  clear -Ek' Hc Hcur. unfold k7 in Ek'. destruct k' as [a1 a2 a3 a4 a5 a6 a7], k as [b1 b2 b3 b4 b5 b6 b7].
  unfold set_procs, set_kfs, set_current in *. cbn in *. injection Ek' as -> -> -> -> -> ->. by subst.
Qed.

(** What [process_init] leaves: the idle process in slot 0, with an address space that
    maps the kernel only. *)
Record idling (k' : kernel) (r : Z) (p' : Process) : Prop := {
  id_kinv : kinv k' A [] [];
  id_vm : vm_ok (kmem k') ({[r]} ∪ R) K;
  id_procs : procs k' = <[0%nat := p']> (procs k);
  id_now : current_proc k' = Some 0%nat ∧ idle_proc k' = Some 0%nat;
  id_rest : cached (kfs k) (kfs k') ∧ file_table k' = file_table k ∧ kcon k' = kcon k ∧ satp (kmem k') = satp (kmem k);
  id_proc : pid p' = 0 ∧ p_state p' = PROCSTATE_RUNNABLE ∧ page_table p' = r * 4096 ∧ ofile p' = replicate NUM_FILES_PER_PROCESS None;
  id_stands : stands (kfs k') p' (0, 1) [SLASH];
  id_leaves i j : idx i → idx j → ¬ user_leaf (kmem k') i (pte (kmem k') r i j);
  id_cache : ∃ i, ∀ j, j ≠ i → inode_table (kfs k') !! j = inode_table (kfs k) !! j
  }.

Lemma process_init_wp (Q : unit → kernel → Prop) (P : kernel → Prop) :
  (∀ k' r p', r ∉ R → idling k' r p' → Q tt k') → (∀ k', starved R K (kmem k) (kmem k') USER_BASE → P k') → wp (process_init user_entry) Q P k.
Proof using HK Hvm Hcur Hprocs Hnf.
  intros HQ HP. unfold process_init, create_process. apply wp_bind, wp_bind, wp_gets. rewrite Hprocs.
  change (proc_free (replicate PROCS_MAX process_zero)) with (Some 0%nat). apply wp_bind.
  eapply (upd_proc_wp _ 0 process_zero); [by rewrite Hprocs|].
  assert (set_procs (<[0%nat := set_ofile (replicate NUM_FILES_PER_PROCESS None) process_zero]>) k = k) as ->.
  { clear -Hprocs. destruct k as [a1 a2 a3 a4 a5 a6 a7]. unfold set_procs. cbn in *. by rewrite Hprocs. }
  cbn [bool_decide orb]. change (bool_decide (is_Some (@None (list Z)))) with false. cbn [orb Z.gtb Z.compare]. apply wp_bind, wp_ret.
  apply wp_bind. apply inherit_first_wp. intros j b s' p1 Hcd K1 Hst Hcache.
  set (k1 := set_procs (<[0%nat := p1]>) (set_kfs s' k)).
  apply wp_bind, wp_in_mem. change (kmem k1) with (kmem k).
  eapply wp_mono; [by apply new_root_wp| |intros m' Hf; apply HP; by apply starved_stuck]. intros pa m1 (r & -> & Hr & HB1).
  apply wp_bind, wp_in_mem. change (kmem (set_kmem m1 k1)) with m1.
  eapply wp_mono; [by apply map_kernel_wp| |by intros m' Hf; apply HP]. intros [] m2 HB2.
  apply wp_bind, wp_in_mem. change (kmem (set_kmem m2 (set_kmem m1 k1))) with m2.
  eapply wp_mono; [by apply map_mmio_wp| |by intros m' Hf; apply HP]. intros [] m3 HB3.
  change (set_kmem m3 (set_kmem m2 (set_kmem m1 k1))) with (set_kmem m3 k1).
  apply wp_bind, wp_ret. apply wp_bind. eapply wp_ok; [reflexivity|]. apply wp_bind, wp_ret. apply wp_bind, wp_ret.
  cbv zeta. apply wp_bind. eapply wp_expect; [vm_compute; reflexivity|].
  apply wp_bind. eapply (upd_proc_wp _ 0 p1); [cbn; by rewrite Hprocs|]. apply wp_ret. apply wp_bind. eapply wp_expect; [done|].
  set (p2 := mkProcess _ _ _ _ _ _ _ _ _ _ _). apply wp_bind. eapply (upd_proc_wp _ 0 p2); [cbn; by rewrite Hprocs|].
  apply wp_bind, wp_modify, wp_modify.
  set (p3 := set_pid 0 p2). apply (HQ _ r p3); [exact Hr|]. constructor; cbn [kfs file_table procs current_proc idle_proc kmem kcon set_procs set_kmem set_kfs set_idle set_current k1]; try done.
  - apply (kinv_proc _ A [] [] [] [] 0 p1 p3) in K1; [|cbn; by rewrite Hprocs|done|done|reflexivity|].
    + eapply kinv_tables; [exact K1|reflexivity|reflexivity|cbn; by rewrite !list_insert_insert_eq|].
      exists 0%nat, p3. split; [done|]. cbn. by rewrite Hprocs.
    + intros fd i Hfd. by apply lookup_replicate in Hfd as [? _].
  - apply (ba_vm _ _ _ _ _ _ HB3).
  - by rewrite !list_insert_insert_eq.
  - split; [exact Hcd|]. split; [done|]. split; [done|]. apply (ba_satp _ _ _ _ _ _ HB3).
  - intros i1 j1 Hi1 Hj1. rewrite (ba_new _ _ _ _ _ _ HB3) by done. apply (no_leaves_layout m3); [apply (ba_vm _ _ _ _ _ _ HB3)|done..].
Qed.
End idle.

(** ** A program from an image *)

Section image.
Context (user_entry : Z) {k : kernel} {A : Z → Z → ikey} {R K : gset Z} {c i : nat} {pc p : Process} {x : Z * Z} {w : list Z}.
Context (HK : kinv k A [] []) (Hvm : vm_ok (kmem k) R K).
Context (Hc : current_proc k = Some c) (Hpc : procs k !! c = Some pc) (Hst : stands (kfs k) pc x w) (Hci : c ≠ i).
Context (Hp : procs k !! i = Some p) (Hempty : slot_empty p) (Hfree : proc_free (procs k) = Some i) (Hnf : ¬ cache_full (kfs k)).
Context {prog : list Z} (Hb : bytes prog) (Htop : USER_BASE + Z.of_nat (length prog) + 4096 ≤ DEVICES).

Lemma create_image_wp :
  wp (create_process user_entry (Some prog) (Z.of_nat (length prog)) 0 None)
  (λ o k', o = Some i ∧ ∃ r p', kinv k' A [] [] ∧ inherits k k' A i p' x w ∧
    runs R K (kmem k) (kmem k') user_entry i prog [] r (USER_BASE + Z.of_nat (length prog)) p')
  (λ k', starved R K (kmem k) (kmem k') (USER_BASE + Z.of_nat (length prog))) k.
Proof using HK Hvm Hc Hpc Hst Hci Hp Hempty Hfree Hb Htop Hnf.
  unfold create_process. apply wp_bind, wp_gets. rewrite Hfree.
  rewrite (bool_decide_eq_true_2 (is_Some (Some prog))) by eauto. cbn [orb].
  eapply (prepare_wp HK Hvm Hc Hpc Hst Hci Hp Hempty); [|intros k' Hs; eapply starved_top; [|exact Hs]; lia|done].
  intros r k1 p1 K1 Hin Hstate Hpin Hr HB.
  assert (i < length (procs k))%nat as Hi by by eapply lookup_lt_Some.
  assert (procs k1 !! i = Some p1) as Hp1 by (rewrite (in_procs _ _ _ _ _ _ _ Hin); by apply list_lookup_insert_eq).
  apply wp_bind, wp_ret.
  pose proof (finish_wp user_entry (k := k1) (A := A) (R := R) (K := K) (m0 := kmem k) (r := r) (i := i) (p := p1)
    (image := Some prog) (ip := None) (prog := prog) (args := None) K1 Hp1 Hvm Hr HB Hb Htop) as Hfin.
  apply Hfin; clear Hfin.
  - cbn. by apply take_ge.
  - done.
  - done.
  - intros s4 m4 p4 Hcd4 K4 Hpin4 Hrun E1 E2 E3. split; [done|]. exists r, p4. split; [exact K4|]. split; [|exact Hrun].
    eapply (inherits_step k k1); [exact Hin|exact K4|done|exact Hcd4|exact Hpin4|done|done|done|done|done..].
  - done.
Qed.
End image.
