(* ===== verification/BootSpec.v ===== *)
(** * Booting: the whole kernel comes up

    From two disks that mkfs wrote, [kernel_init] establishes the invariants that the
    other parts of the development start from. *)

From S2P Require Import Prelude CLib FsTypes Block Inode FsInv FsAlloc FsMap FsGrow FsFile FsWrite FsTrunc FsCache.
From S2P Require Import Sample Dir DirSpec FsRef Namei FsSpec.
From S2P Require Import Mkfs MkfsInv MkfsFile MkfsAdd MkfsTree MkfsImage MkfsHost MkfsSpec MkfsInit.
From S2P Require Import KState FdTable FdInv FdSteps FdFile Path FdPath.
From S2P Require Import Page UserMem Process Virtio Kprintf Syscall PageMem PageTable UserSpec HeapSpec Layout Args ProcSpec Sched Spawn.
From S2P Require Import MemSpec.
From S2P Require Import VirtioSpec Keyboard Ramfb RamfbSpec Boot BootParts.

(** ** The screen *)

Lemma fill_wp (Q : unit → machine → Prop) P (x : machine) :
  length (framebuffer x) = Z.to_nat (FB_WIDTH * FB_HEIGHT) →
  Q tt (set_framebuffer (replicate (Z.to_nat (FB_WIDTH * FB_HEIGHT)) FILL_COLOR) x) → wp fill_framebuffer Q P x.
Proof.
  unfold fill_framebuffer. assert (0 < FB_WIDTH * FB_HEIGHT) as Hpos by (unfold FB_WIDTH, FB_HEIGHT; lia).
  revert Hpos. generalize (FB_WIDTH * FB_HEIGHT). intros n Hpos Hl HQ.
  apply (wp_loop (λ k i x', 0 ≤ i ≤ n ∧ k = Z.to_nat (n - i) ∧
    x' = set_framebuffer (replicate (Z.to_nat i) FILL_COLOR ++ drop (Z.to_nat i) (framebuffer x)) x)) with (k := Z.to_nat n).
  - intros k i x' (Hi & -> & ->). destruct (Z.ltb_spec i n) as [Hin|Hout].
    + apply wp_bind, wp_gets, wp_bind. destruct (lookup_lt_is_Some_2 (framebuffer x) (Z.to_nat i) ltac:(lia)) as [v Hv].
      eapply wp_expect.
      { unfold zlookup. rewrite (proj2 (Z.leb_le 0 i)) by lia. cbn [framebuffer set_framebuffer].
        rewrite lookup_app_r by (rewrite length_replicate; lia). rewrite length_replicate, Nat.sub_diag, lookup_drop, Nat.add_0_r. exact Hv. }
      apply wp_bind, wp_modify, wp_ret. exists (Z.to_nat (n - (i + 1))). split; [lia|]. split; [lia|]. split; [done|].
      unfold set_framebuffer. cbn [framebuffer mk m_input m_iregs m_log]. f_equal.
      rewrite insert_app_r_alt by (rewrite length_replicate; lia). rewrite length_replicate, Nat.sub_diag.
      rewrite (drop_S _ _ _ Hv). cbn [insert list_insert]. replace (Z.to_nat (i + 1)) with (S (Z.to_nat i)) by lia.
      rewrite replicate_S_end. by rewrite <-app_assoc.
    + apply wp_ret. assert (i = n) as -> by lia. rewrite drop_ge, app_nil_r by lia. exact HQ.
  - split; [lia|]. split; [f_equal; lia|]. cbn. by destruct x.
  - lia.
Qed.

(** ** The process table *)

Section tables.
Context (user_entry : Z) (h0 h1 : hostdir) (u t : fs) (k : kernel) (shell_bin : list Z).
Context (Hfs : fs_booted h0 h1 u t) (Et : kfs k = t) (Eft : file_table k = replicate GLOBAL_OPEN_FILE_LIMIT file_zero).
Context (Epr : procs k = replicate PROCS_MAX process_zero) (Ecur : current_proc k = None) (Hmem : mem_ok (kmem k)).
Context (Hfresh : fresh_from (kmem k) 9) (Hb : bytes shell_bin) (Hsize : Z.of_nat (length shell_bin) ≤ 2 ^ 25).

(** The idle process, which runs, and the shell, which can. *)
Definition processes_ready (k' : kernel) : Prop :=
  ∃ (K : gset Z) m0 r0 r1 pi ps,
  kinv k' (on_disk (kfs k')) [] [] ∧ procs k' = pi :: ps :: replicate 6 process_zero ∧
  current_proc k' = Some 0%nat ∧ idle_proc k' = Some 0%nat ∧
  pid pi = 0 ∧ p_state pi = PROCSTATE_RUNNABLE ∧ page_table pi = r0 * 4096 ∧
  runs {[r0]} K m0 (kmem k') user_entry 1 shell_bin [] r1 (USER_BASE + Z.of_nat (length shell_bin)) ps ∧
  std_files (file_table k') (ofile ps) ∧ stands (kfs k') ps (0, 1) [SLASH].

Lemma no_references j : iref t j = 0.
Proof using Hfs.
  clear -Hfs. unfold iref. destruct (inode_table t !! j) as [ip|] eqn:E; [|done]. pose proof (tree_cache _ _ (bo_tree _ _ _ _ Hfs)) as HC.
  pose proof (co_ref _ HC j ip E) as H0. destruct (decide (ref ip = 0)) as [|Hne]; [done|].
  pose proof (refs_live t j ip HC E ltac:(lia)) as Hl. rewrite (bo_refs _ _ _ _ Hfs) in Hl. lia.
Qed.

Lemma tables_wp (Q : unit → kernel → Prop) (P : kernel → Prop) :
  (∀ k', cached t (kfs k') → kcon k' = kcon k → processes_ready k' → Q tt k') →
  wp (process_init user_entry) (λ _ k1,
    wp (create_process user_entry (Some shell_bin) (Z.of_nat (length shell_bin)) 0 None) (λ _, Q tt) P k1) P k.
Proof using Hfs Et Eft Epr Ecur Hmem Hfresh Hb Hsize.
  intros HQ. destruct (pages_in_use (kmem k) 9 Hmem ltac:(lia) Hfresh) as (K & Hvm & HsK).
  assert (kinv (set_current (Some 7%nat) k) (on_disk t) [] []) as HK.
  { rewrite <-Et. apply (unused_kinv (set_current (Some 7%nat) k) 7 process_zero); cbn [kfs set_current file_table procs current_proc]; try done.
    - rewrite Et. apply Hfs.
    - intros j. rewrite Et. apply no_references.
    - rewrite Epr. repeat constructor.
    - by rewrite Epr. }
  assert (¬ cache_full (kfs k)) as Hnf.
  { rewrite Et. intros Hf. destruct (lookup_lt_is_Some_2 (inode_table t) 0) as [ip Hip].
    { rewrite (bo_len _ _ _ _ Hfs). unfold NINODE. lia. }
    pose proof (no_references 0) as H0. unfold iref in H0. rewrite Hip in H0. by apply (Hf 0%nat ip Hip). }
  eapply (process_init_wp user_entry HK Hvm Ecur Epr Hnf); [|intros k' Hf].
  2: { exfalso. rewrite <-(Z.add_0_r USER_BASE) in Hf. apply starved_count in Hf; [|by intros ? ? ? ?%elem_of_empty|done].
       rewrite size_empty in Hf. change (0 / 4096) with 0 in Hf. unfold NUM_PAGES in Hf. lia. }
  intros k1 r0 pi Hr0 [I1 I2 I3 [I4 I5] (I6 & I7 & I8 & I9) (I10 & I11 & I12 & I13) I14 I15 [e I16]].
  rewrite Epr in I3. cbn in I3. rewrite (right_id_L ∅ (∪)) in I2.
  assert (procs k1 !! 0%nat = Some pi) as P0 by by rewrite I3.
  assert (procs k1 !! 1%nat = Some process_zero) as P1 by by rewrite I3.
  assert (proc_free (procs k1) = Some 1%nat) as Pf.
  { rewrite I3. unfold proc_free. cbn [list_find]. by rewrite decide_False by by rewrite I11. }
  assert (¬ cache_full (kfs k1)) as Hnf1.
  { intros Hf. assert (∃ j, j ≠ e ∧ (j < 2)%nat) as (j & Hj & Hlt) by (destruct e as [|e]; [exists 1%nat|exists 0%nat]; lia).
    destruct (lookup_lt_is_Some_2 (inode_table t) j) as [ip Hip]; [rewrite (bo_len _ _ _ _ Hfs); unfold NINODE; lia|].
    pose proof (no_references j) as H0. unfold iref in H0. rewrite Hip in H0. apply (Hf j ip); [|done]. by rewrite I16, Et. }
  assert (USER_BASE + Z.of_nat (length shell_bin) + 4096 ≤ DEVICES) as Htop by (unfold USER_BASE, DEVICES; lia).
  eapply wp_mono; [exact (create_image_wp user_entry I1 I2 I4 P0 I14 ltac:(done) P1 ltac:(done) Pf Hnf1 Hb Htop)| |].
  2: { intros k' Hf. exfalso. apply starved_count in Hf; [| |lia].
       - rewrite size_singleton in Hf. unfold NUM_PAGES in Hf. Z.div_mod_to_equations. lia.
       - intros r i j ->%elem_of_singleton Hi Hj. by apply I15. }
  intros o k2 [-> (r1 & ps & K2 & [N1 N2 (N3 & N4 & N5) N6 N7 [N8 N9]] & Hrun)].
  assert (cached t (kfs k2)) as Hcd by (rewrite <-Et; by eapply cached_trans). apply HQ; [done|congruence|].
  exists K, (kmem k1), r0, r1, pi, ps. split.
  { destruct Hcd as [f Ef]. rewrite Ef. exact K2. }
  split; [by rewrite N2, I3|]. split; [congruence|]. split; [congruence|]. do 3 (split; [done|]). split; [done|]. done.
Qed.

(** The first [yield] goes to the shell. *)
Lemma ready_yield k' : processes_ready k' → ∃ k2, yield_select k' = Ok (Some 1%nat) k2 ∧ current_proc k2 = Some 1%nat.
Proof using.
  intros (K & m0 & r0 & r1 & pi & ps & _ & Ep & Ec & Ei & Hpid & _ & _ & Hrun & _).
  assert (next_runnable (procs k') (pid pi) 0 PROCS_MAX = Some 1%nat) as En.
  { rewrite Hpid, Ep. assert (∀ n, next_runnable (pi :: ps :: replicate 6 process_zero) 0 0 (S (S n)) = Some 1%nat) as H; [|exact (H 6%nat)].
    intros n. do 2 cbn [next_runnable].
    change ((pi :: ps :: replicate 6 process_zero) !! Z.to_nat ((0 + Z.of_nat 0) mod Z.of_nat PROCS_MAX)) with (Some pi).
    change ((pi :: ps :: replicate 6 process_zero) !! Z.to_nat ((0 + Z.of_nat 1) mod Z.of_nat PROCS_MAX)) with (Some ps).
    cbv iota beta. rewrite Hpid, andb_false_r, (rn_state _ _ _ _ _ _ _ _ _ _ _ Hrun), (rn_pid _ _ _ _ _ _ _ _ _ _ _ Hrun). done. }
  unfold yield_select, current, get_current_process, proc, gets, mbind, M_bind, mret, M_ret. rewrite Ec. cbn [expect mret M_ret].
  assert (procs k' !! 0%nat = Some pi) as -> by by rewrite Ep. cbn [expect mret M_ret]. rewrite En.
  rewrite bool_decide_false by done. cbn [expect mret M_ret].
  assert (procs k' !! 1%nat = Some ps) as -> by by rewrite Ep. cbn [expect mret M_ret]. by eexists.
Qed.
End tables.

(** ** The board *)

Section board.
Context {D : Type} `{!FwCfg D} `{!FwLaws D}.
Context (user_entry fb_addr cfg_addr dma_addr : Z) (patience : nat) (shell_bin : list Z).
Local Abbreviation board := (board D).
Local Abbreviation kernel_of b := (mk (b_m b)).

(** What the machine must present: two disks with the images, a keyboard, and memory. *)
Record powered (ia ib : mkfs) (b : board) : Prop := {
  pw_units : ∃ u0 u1, b_units b = [u0; u1] ∧ blk_present u0 ∧ blk_present u1 ∧ u_disk u0 = image ia ∧ u_disk u1 = image ib;
  pw_devs : devs (kfs (kernel_of b)) = [image ia; image ib];
  pw_input : input_present (m_iregs (b_m b));
  pw_mem : mem_ok (set_page_allocated (λ _, zeros (Z.to_nat NUM_PAGES)) (kmem (kernel_of b)))
  }.

(** The firmware lists [files], and its transfers end. *)
Record firmware (files : list fw_file) : Prop := {
  fr_addrs : 0 ≤ dma_addr < 2 ^ 64 ∧ 0 ≤ cfg_addr < 2 ^ 64 ∧ dma_addr ≠ cfg_addr;
  fr_files : Forall fw_file_ok files ∧ Z.of_nat (length files) < 2 ^ 32;
  fr_dir : ∃ rest, ∀ d, fw_item d FW_CFG_FILE_DIR = be_bytes 4 (Z.of_nat (length files)) ++ concat (fw_entry <$> files) ++ rest;
  fr_busy a mem d : (fw_busy (fw_dma a mem d) < patience)%nat;
  fr_ramfb : ramfb_sel files ≠ 0
  }.

(** The kernel in front of its first [yield], started on the board [b] from the images
    [ia] of the staging directory [h0] and [ib] of [h1]. *)
Record booted (files : list fw_file) (h0 h1 : hostdir) (ia ib : mkfs) (b b' : board) : Prop := {
  bt_disks : drives (drivers_of b') (kfs (kernel_of b')) ∧ devs (kfs (kernel_of b')) = [image ia; image ib];
  bt_keyboard : ∃ a, m_input (b_m b') = fresh_input a ∧ input_inv (fresh_input a) [] [] (Z.of_nat <$> seq 0 16);
  bt_screen : framebuffer (b_m b') = replicate (Z.to_nat (FB_WIDTH * FB_HEIGHT)) FILL_COLOR ∧
  fw_written (b_fw b') (ramfb_sel files) = Some (ramfb_config fb_addr);
  bt_console : kcon (kernel_of b') = kcon (kernel_of b);
  bt_root ps data : host_find h0 ps = Some data → head ps ≠ Some c_home → let s := kfs (kernel_of b') in
  ∃ n, resolve s (on_disk s) false (0, 1) ps = Some (0, n) ∧ content s 0 (on_disk s 0 n) = data;
  bt_home ps data : host_find h1 ps = Some data → let s := kfs (kernel_of b') in
  ∃ n, resolve s (on_disk s) false (0, 1) (c_home :: ps) = Some (1, n) ∧ content s 1 (on_disk s 1 n) = data;
  bt_processes : processes_ready user_entry shell_bin (kernel_of b');
  bt_next : ∃ k2, yield_select (kernel_of b') = Ok (Some 1%nat) k2 ∧ current_proc k2 = Some 1%nat
  }.

Lemma in_drivers_wp {A} us d k inp ir fb log (m : M vstate A) (Q : A → board → Prop) P :
  wp m (λ a v, Q a (Board (units v) d (Machine (set_kmem (v_mem v) k) (v_input v) (v_iregs v) fb log)))
  (λ v, P (Board (units v) d (Machine (set_kmem (v_mem v) k) (v_input v) (v_iregs v) fb log))) (Vstate us inp ir (kmem k)) →
  wp (in_drivers m) Q P (Board us d (Machine k inp ir fb log)).
Proof using. intros H. unfold in_drivers. apply wp_zoom. exact H. Qed.

Lemma in_kernel_wp {A} us d k inp ir fb log (m : M kernel A) (Q : A → board → Prop) P :
  wp m (λ a k', Q a (Board us d (Machine k' inp ir fb log))) (λ k', P (Board us d (Machine k' inp ir fb log))) k →
  wp (in_m (in_k m)) Q P (Board us d (Machine k inp ir fb log)).
Proof using. intros H. unfold in_m, in_k. do 2 apply wp_zoom. exact H. Qed.

Lemma zeros_fresh m : fresh_from (set_page_allocated (λ _, zeros (Z.to_nat NUM_PAGES)) m) 0.
Proof using.
  intros j Hj. set (m' := set_page_allocated _ m). split; [unfold managed; lia|].
  replace (first_page m' + j - first_page m') with j by lia. cbn [page_allocated m' set_page_allocated].
  apply lookup_replicate_2. lia.
Qed.

(** C20: The kernel boots. From two disks with the images that mkfs wrote, the first with
    a directory [home] in its root, a keyboard, a firmware that lists the framebuffer,
    memory with arbitrary contents and a shell of at most 32 MiB, everything in front of
    the first [yield] of [kmain] runs through: the disk driver implements the devices of
    the filesystem, which hold exactly the two images; every file of the first staging
    directory outside [/home] is found at its path, and every file of the second under
    [/home], with their bytes; the keyboard's queue is empty and ready, the screen is
    announced and filled, the invariants of the tables, the inode cache and the address
    spaces hold, the shell is loaded from its image with the console as its standard
    files, and [yield] goes to it. No panic can occur: the tables, the drivers and the
    shell leave free pages and free entries of the inode cache. *)
Theorem kernel_boots junk junk_block h0 h1 o hd files ia ib b :
  junk_ok junk junk_block → fits_disk h0 → fits_disk h1 → host_entry h0 c_home = Some (HDir o hd) →
  mkfs_main junk junk_block (Some (true, h0)) mkfs_init = Ok tt ia →
  mkfs_main junk junk_block (Some (true, h1)) mkfs_init = Ok tt ib →
  firmware files → bytes shell_bin → Z.of_nat (length shell_bin) ≤ 2 ^ 25 → powered ia ib b →
  ∃ b', kernel_init user_entry fb_addr cfg_addr dma_addr patience shell_bin b = Ok tt b' ∧ booted files h0 h1 ia ib b b'.
Proof using FwLaws0.
  intros [Hj Hjb] F0 F1 He Ea Eb Hfw Hb Hsize Hp.
  destruct (mkfs_exact junk junk_block Hj Hjb h0 F0) as (ia' & Ea' & Ha). destruct (mkfs_exact junk junk_block Hj Hjb h1 F1) as (ib' & Eb' & Hib).
  rewrite Ea in Ea'. injection Ea' as <-. rewrite Eb in Eb'. injection Eb' as <-.
  assert (∀ b0, kcon (kernel_of b) = kcon (kernel_of b0) →
    wp (kernel_init user_entry fb_addr cfg_addr dma_addr patience shell_bin) (λ _ b', booted files h0 h1 ia ib b0 b') (λ _, False) b) as H.
  2: { specialize (H b eq_refl). unfold wp in H. destruct (kernel_init _ _ _ _ _ _ b) as [[] b'|b'| |]; [by exists b'|done..]. }
  intros b0 Eb0. destruct b as [us d [k inp ir fb log]]. destruct Hp as [(u0 & u1 & Eus & P0 & P1 & D0 & D1) Edev Hin Hmem].
  cbn [b_units b_m mk m_iregs] in *. subst us. unfold kernel_init, clear_bss. apply wp_bind, wp_modify. cbn [b_units b_fw b_m mk m_iregs fmap list_fmap].
  set (k1 := kernel_statics k). change (kmem (kernel_statics k)) with (kmem k1) in *.
  apply wp_bind, in_drivers_wp. apply blk_init_wp; [by destruct P0; split|by destruct P1; split|exact Hmem|apply zeros_fresh|].
  intros u0' u1' m1 I0 I1 E0 E1 A1. cbn [units v_mem v_input v_iregs].
  apply wp_bind, in_drivers_wp. cbn [kmem set_kmem].
  eapply (input_init_wp _ _ _ m1 6); [exact Hin|apply A1|apply A1|lia|unfold NUM_PAGES; lia|].
  intros a ir' m2 Hinp A2. cbn [units v_mem v_input v_iregs].
  apply wp_bind, in_kernel_wp, wp_modify. apply wp_bind, in_kernel_wp. set (k2 := set_file_table _ _).
  destruct (images_boot junk h0 h1 o hd ia ib Ha Hib He (kfs k2)) as (t & Et & Hfs); [exact Edev|reflexivity|discriminate|reflexivity|].
  apply wp_in_fs. eapply wp_ok; [exact Et|]. set (k3 := set_kfs t k2).
  apply wp_bind. unfold in_ramfb at 1. apply wp_zoom. cbn [b_m framebuffer b_fw].
  destruct Hfw as [(Hd1 & Hd2 & Hd3) [Hf1 Hf2] (rest & Hdir) Hbusy Hsel].
  eapply wp_mono; [apply (ramfb_init_wp fb_addr cfg_addr dma_addr files rest patience); done| |intros r Hr; done].
  intros [] r (_ & Hwr & Hfb). cbn [b_units b_m mk m_input m_iregs m_log set_framebuffer].
  apply wp_bind. unfold in_m at 1. apply wp_zoom. cbn [b_m].
  apply fill_wp.
  { cbn [framebuffer set_framebuffer]. rewrite Hfb. cbn [g_framebuffer].
    rewrite length_app, length_replicate, length_drop, length_zeros.
    change (RAMFB_WIDTH * RAMFB_HEIGHT / 4) with 256000. change (FB_WIDTH * FB_HEIGHT) with 1024000. lia. }
  unfold set_b_m, set_framebuffer. cbn [b_units b_fw mk m_input m_iregs m_log].
  apply wp_bind, in_kernel_wp.
  set (fin k' := Board [u0'; u1'] (fwcfg r) (Machine k' (fresh_input a) ir' (replicate (Z.to_nat (FB_WIDTH * FB_HEIGHT)) FILL_COLOR) (Kmesg (zeros (Z.to_nat KMESG_SIZE)) 0))).
  eapply wp_conseq.
  { apply (tables_wp user_entry h0 h1 (kfs k2) t k3 shell_bin Hfs eq_refl eq_refl eq_refl eq_refl (am_ok _ _ _ A2) (am_fresh _ _ _ A2) Hb Hsize
      (λ _ k', booted files h0 h1 ia ib b0 (fin k')) (λ _, False)).
    intros k' [f Ef] Hcon Hready.
    constructor; cbn [fin b_m b_units b_fw mk m_input framebuffer].
    - assert (devs (kfs k') = [image ia; image ib]) as Ek.
      { rewrite Ef. cbn [set_inode_table devs]. by rewrite (bo_devs _ _ _ _ Hfs). }
      split; [|exact Ek]. split; [exact (Forall_cons_2 _ _ _ I0 (Forall_cons_2 _ _ _ I1 (Forall_nil_2 _)))| |reflexivity].
      cbn [drivers_of fin b_units units fmap list_fmap]. rewrite E0, E1, Ek. cbn [set_u_dev u_disk]. by rewrite D0, D1.
    - by exists a.
    - split; [exact eq_refl|exact Hwr].
    - rewrite Hcon, <-Eb0. reflexivity.
    - rewrite Ef. apply (bo_root _ _ _ _ Hfs).
    - rewrite Ef. apply (bo_home _ _ _ _ Hfs).
    - exact Hready.
    - by eapply ready_yield. }
  intros [] k4 Hk4. apply wp_bind, in_kernel_wp. eapply wp_conseq; [exact Hk4|]. intros o2 k5 Hk5. by apply wp_ret.
Qed.
End board.

(** ** A board *)

#[local] Existing Instances toy_cfg toy_laws.

Definition toy_unit (d : disk) : unit_ :=
  Unit_ blk_dev_zero
    {[ VIRTIO_REG_MAGIC := VIRTIO_MAGIC; VIRTIO_REG_VERSION := 1; VIRTIO_REG_DEVICE_ID := VIRTIO_DEVICE_BLK;
       VIRTIO_REG_DEVICE_CONFIG := sectors d ]} d.
Definition toy_iregs : gmap Z Z :=
  {[ VIRTIO_REG_MAGIC := VIRTIO_MAGIC; VIRTIO_REG_VERSION := 1; VIRTIO_REG_DEVICE_ID := VIRTIO_DEVICE_INPUT ]}.
Definition toy_board (ia ib : mkfs) : board toy_fw :=
  Board [toy_unit (image ia); toy_unit (image ib)] (ToyFw [] [] 0)
    (Machine (Kernel (Fs [image ia; image ib] [] [] [] 0) [] [] None None MemSpec.empty_mem (Console [] []))
       (InputDev 0 virtq_zero [] 0) toy_iregs [] (Kmesg [] 0)).

Lemma toy_powered h0 h1 ia ib : mirrored no_junk h0 ia → mirrored no_junk h1 ib → powered ia ib (toy_board ia ib).
Proof.
  intros Ha Hb.
  assert (∀ h s, mirrored no_junk h s → blk_present (toy_unit (image s))) as Hp.
  { intros h s Hs. split; [reflexivity..|]. split; [reflexivity|]. cbn [toy_unit u_disk].
    destruct (image_disk_ok no_junk h s Hs) as (_ & -> & _). lia. }
  split; [|reflexivity|by split|exact MemSpec.empty_mem_ok].
  exists (toy_unit (image ia)), (toy_unit (image ib)). split; [done|]. split; [by eapply Hp|]. split; [by eapply Hp|]. done.
Qed.

Lemma toy_firmware : firmware (D := toy_fw) 8192 8256 4 toy_files.
Proof.
  split.
  - lia.
  - split; [repeat constructor; cbn; lia|cbn; lia].
  - exists []. done.
  - intros. cbn. lia.
  - done.
Qed.

Lemma kernel_boots_witness : ∃ ia ib,
  mkfs_main no_junk no_junk_block (Some (true, stage0)) mkfs_init = Ok tt ia ∧
  mkfs_main no_junk no_junk_block (Some (true, stage1)) mkfs_init = Ok tt ib ∧
  ∃ b', kernel_init 7000 4096 8192 8256 4 [19; 0; 0; 0] (toy_board ia ib) = Ok tt b' ∧
    booted (D := toy_fw) 7000 4096 [19; 0; 0; 0] toy_files stage0 stage1 ia ib (toy_board ia ib) b'.
Proof.
  destruct no_junk_ok as [Hj Hjb].
  destruct (mkfs_exact no_junk no_junk_block Hj Hjb stage0 stage0_fits) as (ia & Ea & Ha).
  destruct (mkfs_exact no_junk no_junk_block Hj Hjb stage1 stage1_fits) as (ib & Eb & Hb).
  exists ia, ib. split; [exact Ea|]. split; [exact Eb|].
  apply (kernel_boots (D := toy_fw) 7000 4096 8192 8256 4 [19; 0; 0; 0] no_junk no_junk_block stage0 stage1 true HEnd toy_files ia ib);
    [exact no_junk_ok|exact stage0_fits|exact stage1_fits|reflexivity|exact Ea|exact Eb|exact toy_firmware| | |exact (toy_powered _ _ _ _ Ha Hb)].
  - repeat constructor; lia.
  - cbn. lia.
Defined.
