(* ===== verification/Programs.v ===== *)
(** * The short programs

    user/bin/hello.c, mkdir.c, rm.c, write.c and cat.c, over the part of the C library
    that they use, class [Libc]; [stdout] is what has been printed, as in [Ls]. [argv] is
    the list of the argument strings with their terminators, the program's name first.

    The theorems are on [write] and [cat]. The last part is user/bin/memtest.c over an
    allocator, class [Alloc]. *)

From Stdlib Require Import Strings.String.
From S2P Require Import Prelude CLib FsTypes Dir Path KprintfSpec UserOs Ls LsSpec.

(** Calls that fail give the value of [errno] on the left. [c_getline] gives a line with
    its newline but without the terminator behind it, [c_fprintf] is [fprintf(f, "%s", s)]
    on the characters of [s]. *)
Class Libc (W : Type) := {
  c_stat : list Z → M W (Z + bool);
  c_mkdir : list Z → M W (Z + unit);
  c_unlink : list Z → M W (Z + unit);
  c_fopen : list Z → list Z → M W (Z + Z);
  c_getline : Z → M W (option (list Z));
  c_fprintf : Z → list Z → M W Z;
  c_fclose : Z → M W unit;
  c_strerror : Z → list Z;
  c_EISDIR : Z
}.

Section programs.
Context {W : Type} `{!Libc W}.
Local Abbreviation st := (prog W).

(** [printf] of the strings [s] and [t] between literals. *)
Definition say_error (before s between : list Z) (errno : Z) : M st unit :=
  out before;; out_str s;; out (between ++ c_strerror errno ++ [10]).

(** ** hello *)

Definition hello_main (argv : list (list Z)) : M st Z :=
  (if (length argv =? 1)%nat then out (str "Hello from a dynamically loaded user binary!" ++ [10]) else
    name ← expect (argv !! 1%nat);
    out (str "Hello ");; out_str name;; out (str " from a dynamically loaded user binary!" ++ [10]));;
  mret 0.

(** ** mkdir and rm *)

Definition mkdir_main (argv : list (list Z)) : M st Z :=
  if negb (length argv =? 2)%nat then out (str "usage: mkdir <directory>" ++ [10]);; mret 1 else
  path ← expect (argv !! 1%nat);
  len ← expect (strlen path);
  if (len =? 0)%nat then out (str "usage: mkdir <directory>" ++ [10]);; mret 1 else
  ret ← os_str c_mkdir path;
  match ret with
  | inl errno => say_error (str "mkdir: failed to create directory '") path (str "': ") errno;; mret 1
  | inr _ => mret 0
  end.

Definition rm_main (argv : list (list Z)) : M st Z :=
  if negb (length argv =? 2)%nat then out (str "usage: rm <path>" ++ [10]);; mret 1 else
  path ← expect (argv !! 1%nat);
  len ← expect (strlen path);
  if (len =? 0)%nat then out (str "usage: rm <path>" ++ [10]);; mret 1 else
  ret ← os_str c_unlink path;
  match ret with
  | inl errno => say_error (str "rm: failed to remove '") path (str "': ") errno;; mret 1
  | inr _ => mret 0
  end.

(** ** write *)

Definition BUF_SIZE : nat := 1024.

(** The contents, joined in the buffer; [None] on the right when they are too long. *)
Fixpoint write_args (buf : list Z) (args : list (list Z)) : option (option (list Z)) :=
  match args with
  | [] => Some (Some buf)
  | arg :: args =>
      current_len ← strlen buf;
      arg_len ← strlen arg;
      if (BUF_SIZE <? current_len + arg_len + 2)%nat then Some None else
      buf ← strncat buf arg (BUF_SIZE - current_len - 1);
      buf ← match args with
            | _ :: _ => len ← strlen buf; strncat buf [32; 0] (BUF_SIZE - len - 1)
            | [] => Some buf
            end;
      write_args buf args
  end.

(** [junk] is what the buffer holds behind its first byte. *)
Definition write_main (junk : list Z) (argv : list (list Z)) : M st Z :=
  if (length argv <? 3)%nat then out (str "usage: write <filename> <content...>" ++ [10]);; mret 1 else
  filename ← expect (argv !! 1%nat);
  len ← expect (strlen filename);
  if (len =? 0)%nat then out (str "usage: write <filename> <content...>" ++ [10]);; mret 1 else
  buf ← expect (write_args (0 :: junk) (drop 2 argv));
  match buf with
  | None => out (str "write: content too long (max 1023 bytes)" ++ [10]);; mret 1
  | Some buf =>
      f ← os_str (λ p, c_fopen p (str "a" ++ [0])) filename;
      match f with
      | inl errno => say_error (str "write: failed to open file '") filename (str "': ") errno;; mret 1
      | inr f =>
          text ← expect (cstr buf);
          ret ← os_ (c_fprintf f text);
          os_ (c_fclose f);;
          if ret <? 0 then out (str "write: failed to write to file '");; out_str filename;; out (str "'" ++ [10]);; mret 1
          else mret 0
      end
  end.

(** ** cat *)

(** The part of the path behind its last slash. *)
Fixpoint prog_name (p name : list Z) : option (list Z) :=
  match p with
  | [] => None
  | c :: p => if c =? 0 then Some name else prog_name p (if c =? SLASH then p else name)
  end.

(** [patience] is how many lines there may be. *)
Definition cat_lines (patience : nat) (f : Z) : M st unit :=
  loop patience (λ _ : unit,
    line ← os_ (c_getline f);
    match line with
    | Some line => out_str (line ++ [0]);; mret (inl tt)
    | None => mret (inr tt)
    end) tt.

Definition cat_main (patience : nat) (argv : list (list Z)) : M st Z :=
  if negb (length argv =? 2)%nat then out (str "usage: cat <filename>" ++ [10]);; mret 1 else
  arg0 ← expect (argv !! 0%nat);
  progname ← expect (prog_name arg0 arg0);
  d ← expect (strncmp progname (str "cat" ++ [0]) 3);
  if negb (d =? 0) then out (str "unexpected call to cat" ++ [10]);; mret 1 else
  filename ← expect (argv !! 1%nat);
  len ← expect (strlen filename);
  if (len =? 0)%nat then out (str "usage: cat <filename>" ++ [10]);; mret 1 else
  st ← os_str c_stat filename;
  match st with
  | inl errno => say_error (str "cat: '") filename (str "': ") errno;; mret 1
  | inr true => say_error (str "cat: '") filename (str "': ") c_EISDIR;; mret 1
  | inr false =>
      f ← os_str (λ p, c_fopen p (str "r" ++ [0])) filename;
      match f with
      | inl errno => say_error (str "cat: '") filename (str "': ") errno;; mret 1
      | inr f => cat_lines patience f;; os_ (c_fclose f);; mret 0
      end
  end.
End programs.

(** * The short programs: theorems

    [write] joins its arguments in a buffer of 1024 bytes, and appends them to the file
    exactly when they fit; [cat] prints a file. *)

(** ** Joining *)

Fixpoint join (ws : list (list Z)) : list Z :=
  match ws with
  | [] => []
  | [w] => w
  | w :: ws => w ++ 32 :: join ws
  end.

Lemma join_cons w w' ws : join (w :: w' :: ws) = w ++ 32 :: join (w' :: ws).
Proof. done. Qed.

Lemma append_string s rest t trest n : nonzero s → nonzero t → length (s ++ 0 :: rest) = n → (length t ≤ length rest)%nat →
  strncat (s ++ 0 :: rest) (t ++ 0 :: trest) (n - length s - 1) = Some ((s ++ t) ++ 0 :: drop (length t) rest).
Proof.
  intros Hs Ht <- Hl. assert (take (length (s ++ 0 :: rest) - length s - 1) t = t) as Et.
  { apply take_ge. rewrite length_app. cbn. lia. }
  rewrite strncat_spec by (rewrite ?Et; done). by rewrite Et, <-app_assoc.
Qed.

Lemma nonzero_join ws : Forall nonzero ws → nonzero (join ws).
Proof.
  induction 1 as [|w ws Hw _ IH]; [constructor|]. destruct ws as [|w' ws]; [done|]. rewrite join_cons.
  apply nonzero_app; [done|]. by constructor.
Qed.

Lemma wp_result {S A} (m : M S A) s a s' : wp m (λ r t, r = a ∧ t = s') (λ _, False) s → m s = Ok a s'.
Proof. unfold wp. destruct (m s); try done. by intros [-> ->]. Qed.

(** The buffer ends up with the joined arguments behind what it held, if that leaves
    two bytes. *)
Lemma write_args_spec ws pre rest : ws ≠ [] → nonzero pre → Forall nonzero ws → length (pre ++ 0 :: rest) = BUF_SIZE →
  if (length (pre ++ join ws) <=? 1022)%nat
  then ∃ rest', write_args (pre ++ 0 :: rest) ((λ w, w ++ [0]) <$> ws) = Some (Some ((pre ++ join ws) ++ 0 :: rest'))
  else write_args (pre ++ 0 :: rest) ((λ w, w ++ [0]) <$> ws) = Some None.
Proof.
  revert pre rest. induction ws as [|w ws IH]; intros pre rest Hne Hpre Hws Hl; [done|].
  apply Forall_cons in Hws as [Hw Hws]. cbn [fmap list_fmap write_args].
  rewrite !strlen_spec by done. cbn [mbind option_bind]. unfold BUF_SIZE in *.
  destruct (Nat.ltb_spec 1024 (length pre + length w + 2)) as [Hlong|Hfit].
  { rewrite (proj2 (Nat.leb_gt _ _)); [done|]. rewrite length_app. destruct ws as [|w' ws]; [cbn; lia|].
    rewrite join_cons, length_app. cbn. lia. }
  pose proof Hl as Hl'. rewrite length_app in Hl'. cbn [length] in Hl'.
  rewrite append_string by (done || lia). cbn [mbind option_bind].
  assert (length ((pre ++ w) ++ 0 :: drop (length w) rest) = 1024%nat) as Hl2.
  { rewrite !length_app. cbn [length]. rewrite length_drop. lia. }
  assert (nonzero (pre ++ w)) as Hpw by by apply nonzero_app.
  destruct ws as [|w' ws].
  - cbn [fmap list_fmap join write_args]. rewrite length_app. rewrite (proj2 (Nat.leb_le _ _)) by lia. eauto.
  - set (l := w' :: ws) in *. change (join (w :: l)) with (w ++ 32 :: join l).
    assert (∀ X Y : option (list Z), match (λ w : list Z, w ++ [0]) <$> l with [] => X | _ :: _ => Y end = Y) as -> by done.
    rewrite strlen_spec by done. cbn [mbind option_bind].
    rewrite (append_string (pre ++ w) _ [32] [] 1024); [|done|by repeat constructor|exact Hl2|rewrite length_drop; cbn; lia].
    cbn [mbind option_bind].
    replace (pre ++ w ++ 32 :: join l) with (((pre ++ w) ++ [32]) ++ join l) by (by rewrite <-!app_assoc).
    apply IH; [done| |done|].
    + apply nonzero_app; [done|]. by repeat constructor.
    + rewrite !length_app. cbn [length]. rewrite !length_drop. lia.
Qed.

Section programs.
Context {W : Type} `{!Libc W}.
Local Abbreviation st := (prog W).

(** Arguments as the kernel passes them. *)
Definition strings (ws : list (list Z)) : list (list Z) := (λ w, w ++ [0]) <$> ws.

(** [write] opens its file for appending and writes the remaining arguments, joined
    by single spaces, whenever they are at most 1022 characters together, and the buffer
    on its stack is never overrun; when they are longer it says so and opens nothing. *)
Theorem write_appends junk name filename ws (s : st) :
  length junk = 1023%nat → nonzero filename → filename ≠ [] → ws ≠ [] → Forall nonzero ws →
  if (length (join ws) <=? 1022)%nat
  then ∀ f w1 n w2 w3, c_fopen (filename ++ [0]) (str "a" ++ [0]) (os_world s) = Ok (inr f) w1 → 0 ≤ n →
    c_fprintf f (join ws) w1 = Ok n w2 → c_fclose f w2 = Ok tt w3 →
    write_main junk (name :: strings (filename :: ws)) s = Ok 0 (Prog (stdout s) w3)
  else write_main junk (name :: strings (filename :: ws)) s =
  Ok 1 (Prog (stdout s ++ str "write: content too long (max 1023 bytes)" ++ [10]) (os_world s)).
Proof.
  intros Hj Hf Hf0 Hne Hws. pose proof (write_args_spec ws [] junk Hne ltac:(constructor) Hws) as Hargs.
  rewrite (app_nil_l (0 :: junk)) in Hargs. cbn [app] in Hargs. specialize (Hargs ltac:(cbn; by rewrite Hj)). fold (strings ws) in Hargs.
  assert ((length (name :: strings (filename :: ws)) <? 3)%nat = false) as E3.
  { apply Nat.ltb_ge. unfold strings. cbn [length fmap list_fmap]. rewrite length_fmap. destruct ws; [done|]. cbn. lia. }
  assert (strlen (filename ++ [0]) = Some (length filename)) as El by (by apply strlen_spec).
  assert ((length filename =? 0)%nat = false) as E0 by (apply Nat.eqb_neq; destruct filename; cbn; [done|lia]).
  destruct (Nat.leb_spec (length (join ws)) 1022) as [Hfit|Hlong].
  - destruct Hargs as (rest & Hargs). intros f w1 n w2 w3 H1 Hn H2 H3. apply wp_result. unfold write_main. rewrite E3.
    apply wp_bind. eapply wp_expect; [reflexivity|]. apply wp_bind. eapply wp_expect; [exact El|]. rewrite E0.
    apply wp_bind. eapply wp_expect; [exact Hargs|]. apply wp_bind.
    eapply os_str_wp; [by apply (cstr_app filename [])|exact H1|done|].
    apply wp_bind. eapply wp_expect; [by apply cstr_app, nonzero_join|]. apply wp_bind.
    eapply os_wp; [exact H2|done|]. apply wp_bind. eapply os_wp; [exact H3|done|]. rewrite (proj2 (Z.ltb_ge n 0)) by done. by apply wp_ret.
  - apply wp_result. unfold write_main. rewrite E3.
    apply wp_bind. eapply wp_expect; [reflexivity|]. apply wp_bind. eapply wp_expect; [exact El|]. rewrite E0.
    apply wp_bind. eapply wp_expect; [exact Hargs|]. by wp_steps.
Qed.

(** ** cat *)

(** Reading [f] from [w] gives the lines and then the end of the file. *)
Fixpoint delivers (f : Z) (lines : list (list Z)) (w w' : W) : Prop :=
  match lines with
  | [] => c_getline f w = Ok None w'
  | l :: lines => ∃ w1, c_getline f w = Ok (Some l) w1 ∧ delivers f lines w1 w'
  end.

Lemma cat_lines_spec patience f lines out w w' : Forall nonzero lines → delivers f lines w w' → (length lines < patience)%nat →
  cat_lines patience f (Prog out w) = Ok tt (Prog (out ++ concat lines) w').
Proof.
  intros Hnz Hd Hlen. apply wp_result. unfold cat_lines. revert patience out w Hd Hlen.
  induction Hnz as [|l lines Hl _ IH]; intros [|n] out w Hd Hlen; try (cbn in Hlen; lia); cbn [loop concat length delivers] in *.
  - apply wp_bind, wp_bind. eapply os_wp; [exact Hd|done|]. do 2 apply wp_ret. by rewrite app_nil_r.
  - destruct Hd as (w1 & E & Hd). apply wp_bind, wp_bind. eapply os_wp; [exact E|done|].
    apply wp_bind. eapply out_str_wp; [by apply cstr_app|]. apply wp_modify, wp_ret. rewrite app_assoc. apply IH; [done|lia].
Qed.

(** [cat] prints the file it is given, line by line to the end, and closes it: for a
    file without zero bytes what is printed is the contents. *)
Theorem cat_prints patience dir filename lines f w0 w1 w2 w3 out :
  nonzero dir → nonzero filename → filename ≠ [] → Forall nonzero lines → (length lines < patience)%nat →
  c_stat (filename ++ [0]) w0 = Ok (inr false) w1 → c_fopen (filename ++ [0]) (str "r" ++ [0]) w1 = Ok (inr f) w2 →
  (∃ w, delivers f lines w2 w ∧ c_fclose f w = Ok tt w3) →
  cat_main patience [dir ++ str "/cat" ++ [0]; filename ++ [0]] (Prog out w0) = Ok 0 (Prog (out ++ concat lines) w3).
Proof.
  intros Hdir Hf Hf0 Hnz Hp Hstat Hopen (w & Hd & Hclose).
  assert (∀ name, prog_name (dir ++ str "/cat" ++ [0]) name = Some (str "cat" ++ [0])) as En.
  { clear -Hdir. induction Hdir as [|c dir Hc _ IH]; intros name; [done|]. cbn [app prog_name]. rewrite (proj2 (Z.eqb_neq c 0)) by lia. apply IH. }
  assert (strlen (filename ++ [0]) = Some (length filename)) as El by (by apply strlen_spec).
  assert ((length filename =? 0)%nat = false) as E0 by (apply Nat.eqb_neq; destruct filename; cbn; [done|lia]).
  apply wp_result. unfold cat_main. cbn [length Nat.eqb negb].
  apply wp_bind. eapply wp_expect; [reflexivity|]. apply wp_bind. eapply wp_expect; [apply En|].
  apply wp_bind. eapply wp_expect; [reflexivity|]. cbn [Z.eqb negb].
  apply wp_bind. eapply wp_expect; [reflexivity|]. apply wp_bind. eapply wp_expect; [exact El|]. rewrite E0.
  apply wp_bind. eapply os_str_wp; [by apply (cstr_app filename [])|exact Hstat|done|].
  apply wp_bind. eapply os_str_wp; [by apply (cstr_app filename [])|exact Hopen|done|].
  apply wp_bind. eapply wp_ok; [by apply (cat_lines_spec patience f lines out w2 w)|].
  apply wp_bind. eapply os_wp; [exact Hclose|done|]. by apply wp_ret.
Qed.
End programs.

(** ** A library with a single file, a list of lines *)

Definition toy_libc : Libc (list (list Z)) := {|
  c_stat := λ _, mret (inr false);
  c_mkdir := λ _, mret (inr tt);
  c_unlink := λ _, mret (inr tt);
  c_fopen := λ _ _, mret (inr 3);
  c_getline := λ _ w, match w with [] => Ok None [] | l :: w => Ok (Some l) w end;
  c_fprintf := λ _ s w, Ok (Z.of_nat (length s)) (w ++ [s]);
  c_fclose := λ _, mret tt;
  c_strerror := λ _, [];
  c_EISDIR := 21
|}.

Lemma write_appends_witness :
  write_main (Libc0 := toy_libc) (zeros 1023) (strings [str "write"; str "log"; str "one"; str "two"]) (Prog [] [[120]]) =
  Ok 0 (Prog [] [[120]; str "one two"]).
Proof.
  exact (write_appends (Libc0 := toy_libc) (zeros 1023) (str "write" ++ [0]) (str "log") [str "one"; str "two"] (Prog [] [[120]])
    eq_refl ltac:(repeat constructor; discriminate) ltac:(discriminate) ltac:(discriminate) ltac:(repeat constructor; discriminate)
    3 [[120]] 7 [[120]; str "one two"] [[120]; str "one two"] eq_refl ltac:(lia) eq_refl eq_refl).
Defined.

Lemma cat_prints_witness :
  cat_main (Libc0 := toy_libc) 10 [str "/bin" ++ str "/cat" ++ [0]; str "log" ++ [0]] (Prog [] [str "one" ++ [10]; str "two" ++ [10]]) =
  Ok 0 (Prog (str "one" ++ [10] ++ str "two" ++ [10]) []).
Proof.
  apply (cat_prints (Libc0 := toy_libc) 10 (str "/bin") (str "log") [str "one" ++ [10]; str "two" ++ [10]] 3 _
    [str "one" ++ [10]; str "two" ++ [10]] [str "one" ++ [10]; str "two" ++ [10]] [] []).
  - repeat constructor; discriminate.
  - repeat constructor; discriminate.
  - discriminate.
  - repeat constructor; discriminate.
  - cbn. lia.
  - reflexivity.
  - reflexivity.
  - exists []. split; [|reflexivity]. exists [str "two" ++ [10]]. split; [reflexivity|]. exists []. split; reflexivity.
Defined.

(** * memtest

    user/bin/memtest.c over an allocator, class [Alloc]: its calls, and the accesses of the
    program to what it gave out. The allocator is newlib's, on top of [_sbrk]. *)

(** Addresses are integers, NULL is 0; [a_load] and [a_store] access an [int]; [show_ptr]
    is what [%p] prints. *)
Class Alloc (W : Type) := {
  a_malloc : Z → M W Z;
  a_calloc : Z → Z → M W Z;
  a_realloc : Z → Z → M W Z;
  a_free : Z → M W unit;
  a_load : Z → M W Z;
  a_store : Z → Z → M W unit;
  show_ptr : Z → list Z
}.

Section memtest.
Context {W : Type} `{!Alloc W}.
Local Abbreviation st := (prog W).

(** [for (int i = 0; i < n; ++i)]: [Some] from the body leaves the program. *)
Fixpoint for_ints (n : nat) (i : Z) (f : Z → M st (option Z)) : M st (option Z) :=
  match n with
  | O => mret None
  | S n => r ← f i; match r with Some v => mret (Some v) | None => for_ints n (i + 1) f end
  end.

Definition report (color text : list Z) : M st unit := out (color ++ text ++ [10] ++ DEFAULT).

Definition test1 : M st (option Z) :=
  p1 ← os_ (a_malloc 400);
  if p1 =? 0 then report RED (str "Test 1 failed: malloc returned NULL");; mret (Some 1) else
  out (str "p1 allocated at " ++ show_ptr p1 ++ [10]);;
  for_ints 100 0 (λ i, os_ (a_store (p1 + 4 * i) (i * i));; mret None);;
  r ← for_ints 100 0 (λ i,
    x ← os_ (a_load (p1 + 4 * i));
    if negb (x =? i * i) then report RED (str "Test 1 failed: data corruption at index " ++ decimal i);; mret (Some 1)
    else mret None);
  match r with
  | Some v => mret (Some v)
  | None => os_ (a_free p1);; report GREEN (str "Test 1 passed: Basic malloc/free working");; mret None
  end.

Definition test2 : M st (option Z) :=
  a ← os_ (a_malloc 128);
  b ← os_ (a_malloc 256);
  c ← os_ (a_malloc 64);
  out (str "Allocated a=" ++ show_ptr a ++ str ", b=" ++ show_ptr b ++ str ", c=" ++ show_ptr c ++ [10]);;
  os_ (a_free b);;
  d ← os_ (a_malloc 128);
  out (str "Allocated d=" ++ show_ptr d ++ str " (should be close to b)" ++ [10]);;
  os_ (a_free a);; os_ (a_free d);; os_ (a_free c);;
  report GREEN (str "Test 2 passed: Multiple allocations");; mret None.

Definition test3 : M st (option Z) :=
  large ← os_ (a_malloc (1024 * 16));
  if large =? 0 then report RED (str "Test 3 failed: large malloc returned NULL");; mret (Some 1) else
  out (str "Large block allocated at " ++ show_ptr large ++ [10]);;
  os_ (a_free large);;
  report GREEN (str "Test 3 passed: Heap expansion");; mret None.

Definition test4 : M st (option Z) :=
  p2 ← os_ (a_calloc 50 4);
  r ← for_ints 50 0 (λ i,
    x ← os_ (a_load (p2 + 4 * i));
    if negb (x =? 0) then report RED (str "Test 4 failed: calloc did not zero memory");; mret (Some 1)
    else os_ (a_store (p2 + 4 * i) i);; mret None);
  match r with
  | Some v => mret (Some v)
  | None =>
      p2 ← os_ (a_realloc p2 400);
      r ← for_ints 50 0 (λ i,
        x ← os_ (a_load (p2 + 4 * i));
        if negb (x =? i) then report RED (str "Test 4 failed: realloc corrupted old data");; mret (Some 1) else mret None);
      match r with
      | Some v => mret (Some v)
      | None => os_ (a_free p2);; report GREEN (str "Test 4 passed: calloc/realloc working");; mret None
      end
  end.

(** The tests in turn, up to the first that fails. *)
Definition memtest_main : M st Z :=
  out (str "Starting memory allocation tests..." ++ [10]);;
  r ← test1;
  match r with Some v => mret v | None =>
    r ← test2;
    match r with Some v => mret v | None =>
      r ← test3;
      match r with Some v => mret v | None =>
        r ← test4;
        match r with Some v => mret v | None =>
          out (BOLD ++ GREEN ++ str "All malloc/free tests passed successfully!" ++ [10] ++ DEFAULT);; mret 0
        end end end end.
End memtest.

(** ** A run *)

(** An allocator that never reuses memory: the next free address and the words in use. *)
Definition bump : Alloc (Z * gmap Z Z) := {|
  a_malloc := λ n w, Ok (fst w) (fst w + (n + 15) / 16 * 16, snd w);
  a_calloc := λ n k w, Ok (fst w) (fst w + (n * k + 15) / 16 * 16, snd w);
  a_realloc := λ p n w, Ok (fst w) (fst w + (n + 15) / 16 * 16,
    foldr (λ i m, match snd w !! (p + 4 * i) with Some x => <[fst w + 4 * i := x]> m | None => m end) (snd w) (seqZ 0 (n / 4)));
  a_free := λ _, mret tt;
  a_load := λ a w, Ok (default 0 (snd w !! a)) w;
  a_store := λ a v w, Ok tt (fst w, <[a := v]> (snd w));
  show_ptr := λ a, decimal a
|}.

Example memtest_bump : match memtest_main (Alloc0 := bump) (Prog [] (65536, ∅)) with Ok v _ => v = 0 | _ => False end.
Proof. vm_compute. reflexivity. Qed.

(** One whose [realloc] does not copy is caught. *)
Definition forgetful : Alloc (Z * gmap Z Z) := {|
  a_malloc := a_malloc (Alloc := bump);
  a_calloc := a_calloc (Alloc := bump);
  a_realloc := λ p n w, Ok (fst w) (fst w + (n + 15) / 16 * 16, snd w);
  a_free := λ _, mret tt;
  a_load := a_load (Alloc := bump);
  a_store := a_store (Alloc := bump);
  show_ptr := λ a, decimal a
|}.

Example memtest_forgetful : match memtest_main (Alloc0 := forgetful) (Prog [] (65536, ∅)) with Ok v _ => v = 1 | _ => False end.
Proof. vm_compute. reflexivity. Qed.
