(* ===== verification/Graphics.v ===== *)
(** * The programs that draw: gfxtest and Doom

    user/bin/gfxtest.c: a square bounces over a moving gradient for 300 frames. The buffer
    is a list of pixels; a write outside of it has no result. Every frame that is presented
    is the picture that a closed formula in the frame number and the coordinates gives for
    each pixel. The last part is the platform layer of Doom, user/lib/doomgeneric_dmaos.c. *)

From Stdlib Require Import Strings.String.
From S2P Require Import Prelude CLib FsTypes Block Inode KState Page Virtio Kprintf UserMem FdTable Process Syscall.
From S2P Require Import ULib UserOs Ls LsSpec Programs.

(** What the program uses besides [printf]: memory with arbitrary contents or NULL, the
    screen and the clock. *)
Class Screen (W : Type) := {
  s_malloc : Z → M W (option (list Z));
  s_free : M W unit;
  s_present : list Z → Z → Z → M W Z;
  s_sleep_ms : Z → M W unit
}.

(** ** Definitions *)

Definition WIDTH : Z := 320.
Definition HEIGHT : Z := 200.

Definition make_color (r g b : Z) : Z := Z.lor (Z.lor (Z.shiftl (u8 r) 16) (Z.shiftl (u8 g) 8)) (u8 b).

Definition put (buf : list Z) (i v : Z) : option (list Z) :=
  if (0 <=? i) && (i <? Z.of_nat (length buf)) then Some (<[Z.to_nat i := v]> buf) else None.

(** A [for] loop over the values of [l]. *)
Fixpoint each (l : list Z) (f : Z → list Z → option (list Z)) (buf : list Z) : option (list Z) :=
  match l with [] => Some buf | x :: l => buf ← f x buf; each l f buf end.

Definition gradient (frame x y : Z) : Z :=
  make_color ((x + frame * 2) mod 256) ((y + frame * 3) mod 256) (frame * 4 mod 256).

Definition background (frame : Z) (buf : list Z) : option (list Z) :=
  each (seqZ 0 HEIGHT) (λ y, each (seqZ 0 WIDTH) (λ x buf, put buf (y * WIDTH + x) (gradient frame x y))) buf.

Definition sq_size : Z := 30.
Record square := Square { sq_x : Z; sq_y : Z; vel_x : Z; vel_y : Z }.

Definition move (s : square) : square :=
  let x := sq_x s + vel_x s in
  let y := sq_y s + vel_y s in
  Square x y (if (x <=? 0) || (x + sq_size >=? WIDTH) then - vel_x s else vel_x s)
    (if (y <=? 0) || (y + sq_size >=? HEIGHT) then - vel_y s else vel_y s).

Definition box_color (s : square) (x y : Z) : Z :=
  if (x =? sq_x s) || (x =? sq_x s + sq_size - 1) || (y =? sq_y s) || (y =? sq_y s + sq_size - 1)
  then make_color 0 0 0 else make_color 255 255 255.

Definition on_screen (x y : Z) : bool := (x >=? 0) && (x <? WIDTH) && (y >=? 0) && (y <? HEIGHT).

Definition box (s : square) (buf : list Z) : option (list Z) :=
  each (seqZ (sq_y s) sq_size) (λ y, each (seqZ (sq_x s) sq_size) (λ x buf,
    if on_screen x y then put buf (y * WIDTH + x) (box_color s x y) else Some buf)) buf.

Section gfx.
Context {W : Type} `{!Screen W}.
Local Abbreviation st := (prog W).

Definition gfx_frames (buffer : list Z) : M st unit :=
  loop 301 (λ x : Z * square * list Z, let '(frame, s, buffer) := x in
    if frame <? 300 then
      buffer ← expect (background frame buffer);
      let s := move s in
      buffer ← expect (box s buffer);
      os_ (s_present buffer WIDTH HEIGHT);;
      os_ (s_sleep_ms 16);;
      mret (inl (frame + 1, s, buffer))
    else mret (inr tt)) (0, Square 20 20 3 2, buffer).

Definition gfx_main : M st Z :=
  out (str "Starting Graphics Test (320x200)..." ++ [10]);;
  r ← os_ (s_malloc (WIDTH * HEIGHT * 4));
  buffer ← expect r;
  gfx_frames buffer;;
  out (GREEN ++ str "Graphics test complete!" ++ [10] ++ DEFAULT);;
  os_ s_free;;
  mret 0.
End gfx.

(** ** Pictures *)

Definition tab (n : Z) (h : Z → Z) : list Z := h <$> seqZ 0 n.

Lemma tab_ext n h h' : (∀ j, 0 ≤ j < n → h j = h' j) → tab n h = tab n h'.
Proof. intros H. apply list_fmap_ext. intros i j Hj. apply lookup_seqZ in Hj as [-> ?]. apply H. lia. Qed.

Lemma tab_length n h : length (tab n h) = Z.to_nat n.
Proof. unfold tab. by rewrite length_fmap, length_seqZ. Qed.

Lemma list_tab (l : list Z) n : Z.of_nat (length l) = n → l = tab n (λ j, l !!! Z.to_nat j).
Proof.
  intros <-. apply list_eq. intros i. unfold tab. rewrite list_lookup_fmap.
  destruct (decide (i < length l)%nat) as [Hi|Hi].
  - rewrite lookup_seqZ_lt by lia. cbn [fmap option_fmap option_map]. rewrite Z.add_0_l, Nat2Z.id. by apply list_lookup_lookup_total_lt.
  - rewrite lookup_ge_None_2 by lia. rewrite lookup_seqZ_ge by lia. done.
Qed.

Lemma put_tab n h i v : 0 ≤ i < n → put (tab n h) i v = Some (tab n (λ j, if j =? i then v else h j)).
Proof.
  intros Hi. unfold put. rewrite tab_length. rewrite (proj2 (Z.leb_le 0 i)), (proj2 (Z.ltb_lt i _)) by lia. cbn [andb]. f_equal.
  apply list_eq. intros k. unfold tab. destruct (decide (k = Z.to_nat i)) as [->|Hne].
  - rewrite list_lookup_insert_eq by (rewrite length_fmap, length_seqZ; lia).
    rewrite list_lookup_fmap, lookup_seqZ_lt by lia. cbn. by rewrite (proj2 (Z.eqb_eq _ _)) by lia.
  - rewrite list_lookup_insert_ne by done. rewrite !list_lookup_fmap.
    destruct (seqZ 0 n !! k) as [j|] eqn:E; [|done]. apply lookup_seqZ in E as [-> _]. cbn. by rewrite (proj2 (Z.eqb_neq _ _)) by lia.
Qed.

(** Painting: step [x] of a loop gives the pixels that [w x] selects their colour in the
    final picture [F] and leaves the others. *)
Definition paints (n : Z) (F : Z → Z) (w : Z → bool) (f : list Z → option (list Z)) : Prop :=
  ∀ h, f (tab n h) = Some (tab n (λ j, if w j then F j else h j)).

Lemma paints_put n F i v : 0 ≤ i < n → F i = v → paints n F (Z.eqb i) (λ buf, put buf i v).
Proof.
  intros Hi <- h. rewrite put_tab by done. f_equal. apply tab_ext. intros j _. rewrite (Z.eqb_sym i j).
  by destruct (Z.eqb_spec j i) as [->|].
Qed.

Lemma paints_each n F l w f : (∀ x, x ∈ l → paints n F (w x) (f x)) → paints n F (λ j, existsb (λ x, w x j) l) (each l f).
Proof.
  induction l as [|x l IH]; intros Hf h; [done|]. cbn [each existsb]. rewrite (Hf x) by by left. cbn [mbind option_bind].
  rewrite IH by (intros y Hy; apply Hf; by right). f_equal. apply tab_ext. intros j _. by destruct (w x j), (existsb _ l).
Qed.

Lemma paints_ext n F F' w w' f : paints n F w f → (∀ j, 0 ≤ j < n → w j = w' j ∧ F j = F' j) → paints n F' w' f.
Proof. intros Hf Hw h. rewrite Hf. f_equal. apply tab_ext. intros j Hj. by destruct (Hw j Hj) as [-> ->]. Qed.

Lemma paints_if n F w f (b : bool) : (b = true → paints n F w f) → paints n F (λ j, b && w j) (λ buf, if b then f buf else Some buf).
Proof. intros Hf. destruct b; [by apply Hf|]. by intros h. Qed.

(** A picture of the screen, pixel by pixel. *)
Definition picture (p : Z → Z → Z) (j : Z) : Z := p (j mod WIDTH) (j / WIDTH).

Lemma picture_at p x y : 0 ≤ x < WIDTH → picture p (y * WIDTH + x) = p x y.
Proof.
  intros Hx. unfold picture. rewrite Z.add_comm, Z.mod_add, Z.div_add by (unfold WIDTH in *; lia).
  by rewrite Z.mod_small, Z.div_small by done.
Qed.

Lemma existsb_seqZ a n (f : Z → bool) b : existsb f (seqZ a n) = b ↔ (if b then ∃ x, a ≤ x < a + n ∧ f x = true else ∀ x, a ≤ x < a + n → f x = false).
Proof.
  destruct b.
  - rewrite existsb_exists. split; intros (x & Hx & Hf); exists x; (split; [|done]).
    + apply list_elem_of_In, elem_of_seqZ in Hx. lia.
    + apply list_elem_of_In, elem_of_seqZ. lia.
  - rewrite <-not_true_iff_false, existsb_exists. split.
    + intros Hn x Hx. apply not_true_iff_false. intros Hf. apply Hn. exists x. split; [apply list_elem_of_In, elem_of_seqZ; lia|done].
    + intros Hf (x & Hx & E). apply list_elem_of_In, elem_of_seqZ in Hx. rewrite Hf in E by lia. done.
Qed.

Definition inside (s : square) (x y : Z) : bool :=
  (sq_x s <=? x) && (x <? sq_x s + sq_size) && (sq_y s <=? y) && (y <? sq_y s + sq_size).

(** What the program leaves at [x], [y] in frame [frame] with the square at [s]. *)
Definition pixel (frame : Z) (s : square) (x y : Z) : Z :=
  if inside s x y then box_color s x y else gradient frame x y.

Definition PIXELS : Z := WIDTH * HEIGHT.
Definition image (frame : Z) (s : square) : list Z := tab PIXELS (picture (pixel frame s)).

Lemma background_spec frame h : background frame (tab PIXELS h) = Some (tab PIXELS (picture (gradient frame))).
Proof.
  set (w := λ j, existsb (λ y, existsb (λ x, y * WIDTH + x =? j) (seqZ 0 WIDTH)) (seqZ 0 HEIGHT)).
  assert (paints PIXELS (picture (gradient frame)) w (background frame)) as Hp.
  { apply paints_each. intros y Hy%elem_of_seqZ. apply paints_each. intros x Hx%elem_of_seqZ.
    apply paints_put; [unfold PIXELS, WIDTH, HEIGHT in *; lia|apply picture_at; lia]. }
  etransitivity; [exact (Hp _)|]. apply (f_equal Some), tab_ext. intros j Hj. assert (w j = true) as ->; [|done]. unfold PIXELS, WIDTH, HEIGHT in Hj.
  apply existsb_seqZ. exists (j / 320). split; [unfold HEIGHT; Z.div_mod_to_equations; lia|].
  apply existsb_seqZ. exists (j mod 320). unfold WIDTH. split; [Z.div_mod_to_equations; lia|]. apply Z.eqb_eq. Z.div_mod_to_equations. lia.
Qed.

Lemma box_spec frame s : box s (tab PIXELS (picture (gradient frame))) = Some (image frame s).
Proof.
  set (w := λ j, existsb (λ y, existsb (λ x, on_screen x y && (y * WIDTH + x =? j)) (seqZ (sq_x s) sq_size)) (seqZ (sq_y s) sq_size)).
  assert (paints PIXELS (picture (box_color s)) w (box s)) as Hp.
  { apply paints_each. intros y Hy%elem_of_seqZ. apply paints_each. intros x Hx%elem_of_seqZ. apply paints_if. unfold on_screen.
    intros (([H1%Z.geb_le H2%Z.ltb_lt]%andb_true_iff & H3%Z.geb_le)%andb_true_iff & H4%Z.ltb_lt)%andb_true_iff.
    apply paints_put; [unfold PIXELS, WIDTH, HEIGHT in *; lia|apply picture_at; lia]. }
  etransitivity; [exact (Hp _)|]. apply (f_equal Some), tab_ext. intros j Hj. unfold PIXELS in Hj. set (x := j mod WIDTH). set (y := j / WIDTH).
  assert (0 ≤ x < WIDTH ∧ 0 ≤ y < HEIGHT ∧ y * WIDTH + x = j) as (Hx & Hy & Ej).
  { unfold x, y, WIDTH, HEIGHT in *. Z.div_mod_to_equations. lia. }
  assert (on_screen x y = true) as Hon.
  { unfold on_screen. rewrite !andb_true_iff, !Z.geb_le, !Z.ltb_lt. lia. }
  assert (w j = inside s x y) as ->; [|unfold picture, pixel; fold x y; by destruct (inside s x y)].
  destruct (inside s x y) eqn:Ei; unfold inside in Ei; fold x y in Ei.
  - rewrite !andb_true_iff, !Z.leb_le, !Z.ltb_lt in Ei. apply existsb_seqZ. exists y. split; [lia|].
    apply existsb_seqZ. exists x. split; [lia|]. by rewrite Hon, Ej, Z.eqb_refl.
  - apply existsb_seqZ. intros y' Hy'. apply existsb_seqZ. intros x' Hx'. apply andb_false_iff.
    destruct (on_screen x' y') eqn:Eon; [right|by left]. apply Z.eqb_neq. intros E. apply not_true_iff_false in Ei. apply Ei.
    unfold on_screen in Eon. rewrite !andb_true_iff, !Z.geb_le, !Z.ltb_lt in Eon. rewrite !andb_true_iff, !Z.leb_le, !Z.ltb_lt.
    unfold WIDTH in *. lia.
Qed.

(** ** The formula

    The coordinates of the square go up and down: [bounce n] is the triangle wave of
    period [2 * n] between 0 and [n]. The horizontal one runs from -1 to 290 in steps
    of 3, the vertical one from 0 to 170 in steps of 2, both from 20. *)

Definition bounce (n t : Z) : Z := n - Z.abs (n - t mod (2 * n)).
Definition square_x (moves : Z) : Z := 3 * bounce 97 (moves + 7) - 1.
Definition square_y (moves : Z) : Z := 2 * bounce 85 (moves + 10).

(** Red, green and blue as one number. *)
Definition rgb (r g b : Z) : Z := 65536 * r + 256 * g + b.

(** Pixel [x], [y] of frame [k]: a white square with a black border, 30 pixels wide, over a
    gradient that moves. *)
Definition frame_pixel (k x y : Z) : Z :=
  let dx := x - square_x (k + 1) in
  let dy := y - square_y (k + 1) in
  if bool_decide (0 ≤ dx < 30 ∧ 0 ≤ dy < 30)
  then (if bool_decide (dx = 0 ∨ dx = 29 ∨ dy = 0 ∨ dy = 29) then rgb 0 0 0 else rgb 255 255 255)
  else rgb ((x + 2 * k) mod 256) ((y + 3 * k) mod 256) (4 * k mod 256).

(** The frame, row by row. *)
Definition frame_image (k : nat) : list Z :=
  (λ j, frame_pixel (Z.of_nat k) (j mod 320) (j / 320)) <$> seqZ 0 64000.

Lemma lor_shiftl a b n : 0 ≤ n → 0 ≤ b < 2 ^ n → Z.lor (Z.shiftl a n) b = a * 2 ^ n + b.
Proof.
  intros Hn Hb. pose proof (Z.add_lor_land (Z.shiftl a n) b) as H. rewrite <-Z.shiftl_mul_pow2 by done.
  assert (Z.land (Z.shiftl a n) b = 0) as E; [|lia]. apply Z.bits_inj'. intros k Hk.
  rewrite Z.land_spec, Z.bits_0, Z.shiftl_spec by done. destruct (decide (k < n)) as [Hkn|Hkn].
  - by rewrite Z.testbit_neg_r by lia.
  - rewrite <-(Z.mod_small b (2 ^ n)) by done. rewrite Z.mod_pow2_bits_high by lia. apply andb_false_r.
Qed.

Lemma make_color_rgb r g b : 0 ≤ r < 256 → 0 ≤ g < 256 → 0 ≤ b < 256 → make_color r g b = rgb r g b.
Proof.
  intros Hr Hg Hb. unfold make_color, rgb, u8. rewrite !Z.mod_small by done. rewrite <-Z.lor_assoc.
  rewrite (lor_shiftl g b 8) by (change (2 ^ 8) with 256; lia). rewrite lor_shiftl; change (2 ^ 8) with 256; change (2 ^ 16) with 65536; lia.
Qed.

(** ** The run *)

Fixpoint square_at (k : nat) : square :=
  match k with O => Square 20 20 3 2 | S k => move (square_at k) end.

(** The moves of the program put the square where the waves say. *)
Lemma square_at_wave k : (k ≤ 300)%nat →
  sq_x (square_at k) = square_x (Z.of_nat k) ∧ sq_y (square_at k) = square_y (Z.of_nat k).
Proof.
  intros Hk. assert (Forall (λ k, sq_x (square_at k) = square_x (Z.of_nat k) ∧ sq_y (square_at k) = square_y (Z.of_nat k))
    (seq 0 301)) as H.
  { apply (bool_decide_unpack _). vm_compute. done. }
  rewrite Forall_forall in H. apply H, elem_of_seq. lia.
Qed.

Lemma pixel_formula k x y : (k < 300)%nat → pixel (Z.of_nat k) (square_at (S k)) x y = frame_pixel (Z.of_nat k) x y.
Proof.
  intros Hk. destruct (square_at_wave (S k)) as [Ex Ey]; [lia|]. unfold pixel, frame_pixel, inside, box_color, gradient, sq_size.
  rewrite Ex, Ey. replace (Z.of_nat (S k)) with (Z.of_nat k + 1) by lia.
  generalize (square_x (Z.of_nat k + 1)) (square_y (Z.of_nat k + 1)). intros sx sy.
  rewrite !make_color_rgb by (try apply Z.mod_pos_bound; lia).
  rewrite (Z.mul_comm (Z.of_nat k) 2), (Z.mul_comm (Z.of_nat k) 3), (Z.mul_comm (Z.of_nat k) 4).
  case_bool_decide as Hin.
  - rewrite !(proj2 (Z.leb_le _ _)), !(proj2 (Z.ltb_lt _ _)) by lia. cbn [andb].
    case_bool_decide as Hb; destruct (Z.eqb_spec x sx), (Z.eqb_spec x (sx + 30 - 1)), (Z.eqb_spec y sy), (Z.eqb_spec y (sy + 30 - 1));
      cbn [orb]; done || lia.
  - destruct (Z.leb_spec sx x), (Z.ltb_spec x (sx + 30)), (Z.leb_spec sy y), (Z.ltb_spec y (sy + 30)); cbn [andb]; done || lia.
Qed.

Lemma image_formula k : (k < 300)%nat → image (Z.of_nat k) (square_at (S k)) = frame_image k.
Proof.
  intros Hk. unfold image. change (frame_image k) with (tab PIXELS (picture (frame_pixel (Z.of_nat k)))).
  apply tab_ext. intros j _. unfold picture. by apply pixel_formula.
Qed.

Lemma loop_S {T X A} n (body : X → M T (X + A)) x :
  loop (S n) body x = r ← body x; match r with inl x' => loop n body x' | inr a => mret a end.
Proof. reflexivity. Qed.

Section gfx.
Context {W : Type} `{!Screen W}.

(** Frames [k], [k + 1], ... [k + n - 1] are shown, 16 milliseconds each. *)
Inductive shows : nat → nat → W → W → Prop :=
| shows_end k w : shows k 0 w w
| shows_frame k n w v w1 w2 w3 : s_present (frame_image k) 320 200 w = Ok v w1 →
  s_sleep_ms 16 w1 = Ok tt w2 → shows (S k) n w2 w3 → shows k (S n) w w3.

Lemma gfx_loop k n h o w w' : (k + n = 300)%nat → shows k n w w' →
  loop (S n) (λ x : Z * square * list Z, let '(frame, s, buffer) := x in
    if frame <? 300 then
      buffer ← expect (background frame buffer);
      let s := move s in
      buffer ← expect (box s buffer);
      os_ (s_present buffer WIDTH HEIGHT);; os_ (s_sleep_ms 16);;
      mret (inl (frame + 1, s, buffer))
    else mret (inr tt)) (Z.of_nat k, square_at k, tab PIXELS h) (Prog o w) = Ok tt (Prog o w').
Proof.
  intros Hk Hs. apply wp_result. revert h Hk. induction Hs as [k w|k n w v w1 w2 w3 H1 H2 Hs IH]; intros h Hk.
  - cbn [loop]. rewrite (proj2 (Z.ltb_ge _ _)) by lia. apply wp_bind. by do 2 apply wp_ret.
  - rewrite loop_S. rewrite (proj2 (Z.ltb_lt _ _)) by lia. apply wp_bind, wp_bind.
    eapply wp_expect; [apply background_spec|]. cbv zeta. apply wp_bind. eapply wp_expect; [apply box_spec|].
    change (move (square_at k)) with (square_at (S k)). rewrite image_formula by lia.
    apply wp_bind. eapply os_wp; [exact H1|done|]. apply wp_bind. eapply os_wp; [exact H2|done|]. apply wp_ret.
    replace (Z.of_nat k + 1) with (Z.of_nat (S k)) by lia. apply IH. lia.
Qed.

(** C39: gfxtest shows 300 frames of 320 by 200 pixels, whatever its buffer held at first,
    and pixel [x], [y] of frame [k] has the colour of the formula: on the square of 30 pixels
    that has bounced [k + 1] steps between the edges, black on the border and white inside;
    elsewhere the gradient, red [x + 2k], green [y + 3k] and blue [4k], each modulo 256.
    No pixel is written outside the buffer. *)
Theorem gfxtest_draws junk w0 w1 w2 w3 o :
  s_malloc 256000 w0 = Ok (Some junk) w1 → Z.of_nat (length junk) = 64000 →
  shows 0 300 w1 w2 → s_free w2 = Ok tt w3 →
  gfx_main (Prog o w0) = Ok 0 (Prog (((o ++ str "Starting Graphics Test (320x200)..." ++ [10]) ++
    GREEN ++ str "Graphics test complete!" ++ [10] ++ DEFAULT)) w3).
Proof.
  intros Hm Hl Hs Hf. apply wp_result. unfold gfx_main. apply wp_bind, wp_modify. apply wp_bind. eapply os_wp; [exact Hm|done|].
  apply wp_bind. eapply wp_expect; [done|]. apply wp_bind.
  rewrite (list_tab junk PIXELS) by done.
  eapply wp_ok; [exact (gfx_loop 0 300 _ _ _ _ eq_refl Hs)|]. apply wp_bind, wp_modify. apply wp_bind. eapply os_wp; [exact Hf|done|].
  by apply wp_ret.
Qed.
End gfx.

(** The square is at most one column off the screen. *)
Lemma square_bounds k : (k ≤ 300)%nat → -1 ≤ sq_x (square_at k) ≤ WIDTH - sq_size ∧ 0 ≤ sq_y (square_at k) ≤ HEIGHT - sq_size.
Proof.
  intros Hk. assert (Forall (λ k, -1 ≤ sq_x (square_at k) ≤ WIDTH - sq_size ∧ 0 ≤ sq_y (square_at k) ≤ HEIGHT - sq_size) (seq 0 301)) as H.
  { apply (bool_decide_unpack _). vm_compute. done. }
  rewrite Forall_forall in H. apply H, elem_of_seq. lia.
Qed.

(** A screen that records the frames it is given. *)
Definition film : Screen (list (list Z)) := {|
  s_malloc := λ _, mret (Some (zeros 64000));
  s_free := mret tt;
  s_present := λ buffer _ _ l, Ok 0 (l ++ [buffer]);
  s_sleep_ms := λ _, mret tt
|}.

Lemma film_shows k n l : shows (Screen0 := film) k n l (l ++ (frame_image <$> seq k n)).
Proof.
  revert k l. induction n as [|n IH]; intros k l; [cbn [seq fmap list_fmap]; rewrite app_nil_r; constructor|].
  econstructor; [reflexivity|reflexivity|]. cbn [seq fmap list_fmap].
  replace (l ++ frame_image k :: (frame_image <$> seq (S k) n))
    with ((l ++ [frame_image k]) ++ (frame_image <$> seq (S k) n)) by by rewrite <-(assoc_L (++)).
  apply IH.
Qed.

Lemma gfxtest_draws_witness : gfx_main (Screen0 := film) (Prog [] []) =
  Ok 0 (Prog ((str "Starting Graphics Test (320x200)..." ++ [10]) ++ GREEN ++ str "Graphics test complete!" ++ [10] ++ DEFAULT)
    (frame_image <$> seq 0 300)).
Proof.
  apply (gfxtest_draws (Screen0 := film) (zeros 64000) [] [] (frame_image <$> seq 0 300) (frame_image <$> seq 0 300) []).
  - reflexivity.
  - by rewrite length_zeros.
  - exact (film_shows 0 300 []).
  - reflexivity.
Defined.

(** * The platform layer of Doom

    user/lib/doomgeneric_dmaos.c over the stubs of [ULib]. The game itself is not part of
    dmaOS: [DG_ScreenBuffer], the resolution and the two entry points of the game are
    parameters, and its key codes are those of doomkeys.h. The sound routines do nothing. *)

Definition KEY_RIGHTARROW : Z := 174.
Definition KEY_LEFTARROW : Z := 172.
Definition KEY_UPARROW : Z := 173.
Definition KEY_DOWNARROW : Z := 175.
Definition KEY_STRAFE_L : Z := 160.
Definition KEY_STRAFE_R : Z := 161.
Definition KEY_USE : Z := 162.
Definition KEY_FIRE : Z := 163.
Definition KEY_ESCAPE : Z := 27.
Definition KEY_ENTER : Z := 13.

Definition INPUT_KEY_ESC : Z := 1.
Definition INPUT_KEY_ENTER : Z := 28.
Definition INPUT_KEY_SPACE : Z := 57.
Definition INPUT_KEY_LEFTCTRL : Z := 29.
Definition INPUT_KEY_A : Z := 30.
Definition INPUT_KEY_S : Z := 31.
Definition INPUT_KEY_D : Z := 32.
Definition INPUT_KEY_W : Z := 17.
Definition INPUT_KEY_Y : Z := 21.
Definition INPUT_KEY_UP : Z := 103.
Definition INPUT_KEY_LEFT : Z := 105.
Definition INPUT_KEY_RIGHT : Z := 106.
Definition INPUT_KEY_DOWN : Z := 108.

Definition doom_map_keycode (hw_code : Z) : Z :=
  if hw_code =? INPUT_KEY_W then KEY_UPARROW else
  if hw_code =? INPUT_KEY_S then KEY_DOWNARROW else
  if hw_code =? INPUT_KEY_A then KEY_STRAFE_L else
  if hw_code =? INPUT_KEY_D then KEY_STRAFE_R else
  if hw_code =? INPUT_KEY_Y then 121 else
  if hw_code =? INPUT_KEY_SPACE then KEY_USE else
  if hw_code =? INPUT_KEY_LEFTCTRL then KEY_FIRE else
  if hw_code =? INPUT_KEY_UP then KEY_UPARROW else
  if hw_code =? INPUT_KEY_DOWN then KEY_DOWNARROW else
  if hw_code =? INPUT_KEY_LEFT then KEY_LEFTARROW else
  if hw_code =? INPUT_KEY_RIGHT then KEY_RIGHTARROW else
  if hw_code =? INPUT_KEY_ENTER then KEY_ENTER else
  if hw_code =? INPUT_KEY_ESC then KEY_ESCAPE else 0.

Definition TICKS_PER_MS : Z := 10000.

Section doom.
Context {NL : Newlib} {PF : Platform}.
Variables DG_ScreenBuffer DOOMGENERIC_RESX DOOMGENERIC_RESY : Z.
Variables doomgeneric_Create : Z → Z → M uproc unit.
Variable doomgeneric_Tick : M uproc unit.

Definition DG_DrawFrame : M uproc unit := framebuffer_present DG_ScreenBuffer DOOMGENERIC_RESX DOOMGENERIC_RESY;; mret tt.
Definition DG_SleepMs (ms : Z) : M uproc unit := sleep_ms ms.
Definition DG_GetTicksMs : M uproc Z := t ← uptime; mret (u32 (t / TICKS_PER_MS)).

(** [hw_code] and [is_pressed] are the addresses of the local variables; the result is the
    pressed flag and the key that the call stores, when it returns 1. *)
Definition DG_GetKey (hw_code is_pressed : Z) : M uproc (option (Z * Z)) :=
  r ← input_poll hw_code is_pressed;
  if negb (r =? 0) then
    b0 ← load_byte hw_code;
    b1 ← load_byte (u32 (hw_code + 1));
    let mapped_key := doom_map_keycode (b0 + 256 * b1) in
    if negb (mapped_key =? 0) then
      p ← in_machine (in_user (in_user_mode is_pressed (load_user32 is_pressed)));
      mret (Some (s32 p, mapped_key))
    else mret None
  else mret None.

(** [rounds_] rounds of the endless loop. *)
Fixpoint doom_rounds (rounds_ : nat) : M uproc unit :=
  match rounds_ with O => mret tt | S n => doomgeneric_Tick;; yield_;; doom_rounds n end.
Definition doom_main (rounds_ : nat) (argc argv : Z) : M uproc unit :=
  doomgeneric_Create argc argv;; doom_rounds rounds_.
End doom.

(** Only thirteen keys of the keyboard reach the game. *)
Lemma doom_keys code : doom_map_keycode code ≠ 0 ↔
  code ∈ [INPUT_KEY_ESC; INPUT_KEY_W; INPUT_KEY_Y; INPUT_KEY_ENTER; INPUT_KEY_LEFTCTRL; INPUT_KEY_A; INPUT_KEY_S; INPUT_KEY_D;
    INPUT_KEY_SPACE; INPUT_KEY_UP; INPUT_KEY_LEFT; INPUT_KEY_RIGHT; INPUT_KEY_DOWN].
Proof.
  rewrite !elem_of_cons, elem_of_nil. unfold doom_map_keycode. split.
  - repeat (case_match; [rewrite Z.eqb_eq in *; subst; tauto|]). done.
  - intros H. repeat (destruct H as [->|H]; [done|]). done.
Qed.
